(* ===== verification/_CoqProject ===== *)
-Q . S2P
Prelude.v
Types.v
Cstring.v
Queue.v
Memory.v
Kernel.v
Sched.v
Observe.v
Sem.v
Msg.v
Clock.v
Devsw.v
Proc.v
Init.v
System.v
Future.v
Ring.v
Tty.v
Ttylib.v
Ttyin.v
Ttyout.v
Bufpool.v
Ports.v
Xmalloc.v
Qsort.v
Clib.v
Doprnt.v
Bytes.v
Doscan.v
Doscanthm.v
Lift.v
Name.v
Namethm.v
Net.v
Netlib.v
Arp.v
Udp.v
Icmp.v
Ip.v
Dotted.v
Udpthm.v
Frame.v
Netsend.v
Netrecv.v
Netok.v
Arpthm.v
Netthm.v
Fs.v
Fsthm.v
Shell.v
Shellthm.v
Kv.v
Kvtab.v
Kvlru.v
Kvops.v
Kvspec.v
Kvthm.v
