(* ===== verification/Prelude.v ===== *)
(** A verification library for this version of the Xinu operating system and the
    parts that were built on it: the kernel, the terminal driver, the network stack, the
    name space of devices, the shell's command line, the C library, the heap allocator
    xmalloc, futures, the file system and the key-value store.  It is a shallow embedding: every function of
    the C code is a function of Rocq on an explicit state, written so that it can be
    evaluated, and the theorems are about these functions.

    * The parts of the program and the files that model them

    - Prelude: integer widths ([s32], [u32], ...), arrays as finite maps from
      indices, the option monad for C code that can have undefined behaviour, lists.
      Types: the tables and constants of include/process.h, queue.h, semaphore.h,
      ports.h, bufpool.h, resched.h, conf.h.
    - The kernel, system/.  Queue: queue.c, newqueue.c, getitem.c, insert.c,
      insertd.c, the array [queuetab].  Memory: meminit.c, getmem.c, getstk.c,
      freemem.c, the free list kept inside of the free blocks.  Kernel: the state of
      the kernel and the monad of system calls.  Sched: resched.c, ready.c, yield.c,
      suspend.c, resume.c, chprio.c, getprio.c and the invariant [kinv] of the
      scheduler.  Sem: semaphores.  Msg: messages, unsleep.c.  Clock: sleep.c,
      wakeup.c, clkinit.c and the clock handlers of both boards.  Devsw: the device
      switch calls.  Proc: create.c, kill.c, exit.c, userret.c, xdone.c.  Init:
      initialize.c, bufinit.c.  System: all of it as a step relation.  Observe: the
      invariant in terms of the tables.
    - On top of the kernel.  Bufpool: mkbufpool.c, getbuf.c, freebuf.c.  Ports:
      ptinit.c, ptcreate.c, ptsend.c, ptrecv.c, ptcount.c, ptclear.c, ptreset.c,
      ptdelete.c.  Xmalloc: xmalloc.c.  Future: future.c.
    - The terminal, device/tty/.  Tty: the control block, the UART as a class [Uart] of
      registers, and every function of the driver, in a monad that adds the control
      block and the device to the kernel state.  Ttylib: semaphores that nobody waits
      for, [UartLaws].  Ring: queues in arrays with a head and a tail index.  Ttyin: input.  Ttyout: output, raw mode, ttyinit
      and a device.
    - What adds tables of its own to those of the kernel.  Lift: the monad of system calls over
      an extended state, and what an extension keeps while other processes run.
    - Names, device/nam/.  Name: naminit, mount, namrepl, nammap, namopen.  Namethm: their
      theorems.
    - The network, net/.  Net: packets in byte memory, the tables, the device as a class
      [Ether], byte order and checksums, ip_enqueue.  Arp, Udp, Icmp: the files of these names.
      Ip: ip.c, net.c, netstart.c, dot2ip.c and the functions that send.  Netlib: code
      on packets in general.  Dotted: ip2dot.c and its round trip with dot2ip.  Udpthm: the
      operations on a UDP endpoint.  Frame: the bytes of a frame on the wire.  Netsend, Netrecv: a
      datagram on its way out and in, over [EtherLaws].  Netok: the invariant [net_ok] of the
      tables, runs of calls as a step relation, over [EtherFrame].  Arpthm: a request and its
      answer.  Netthm: the main theorems and a device that keeps frames in two lists.
    - The shell.  Shell: lexan.c, addargs.c and the analysis of the tokens in shell.c.
      Shellthm: its theorems.
    - Files.  Bytes: integers in byte memory.  Fs: system/fs.c on the disk of
      system/bs.c.  Fsthm: its theorems.
    - The C library, lib/.  Cstring: the str* and mem* functions.  Qsort: qsort.c.
      Clib: ctype, abs, rand, atoi, atol, strtol, strtoul.  Doprnt: doprnt.c,
      fdoprnt.c, sprintf.c.  Doscan: doscan.c, sscanf.c; Doscanthm: its theorems.
    - The key-value store, system/kv_store.c.  Kv: its state and its operations over
      the class [Allocator], what it uses of getmem and xmalloc.  Kvtab: hash tables.
      Kvlru: the representation of a map and of a list of keys in the order of use.
      Kvops: the specification [astore] and the operations on it.  Kvspec: kv_init,
      kv_reset and a bump allocator that satisfies [AllocatorLaws].  Kvthm: the
      theorems.

    * How state and operations correspond to the code

    A C function [f] of system/f.c or lib/f.c is the definition [f].  A local loop is
    a Fixpoint of its own next to the function, named after it ([getmem_scan],
    [mkbufpool_link], [insertd_scan], ...).  Global tables are finite maps from
    indices, records keep the names of their fields, and a write out of range, a read
    of what was never written and a null pointer that is followed are [None] or the
    result [UB] of the kernel monad: no theorem is about a run that has one unless it
    says so.  Three kinds of memory are used.  Code that walks pointers to 32-bit
    words (Memory, Ports, Bufpool, Xmalloc) has a map from addresses to words; code on
    bytes (Cstring, Qsort, Clib, Doprnt, Doscan, Name, Net, Fs, Shell, the keys of Kv) one from addresses
    to bytes; kv_store.c, whose nodes are only used through their fields, has a map from
    addresses to nodes.  The pointers of the terminal driver stay inside of three arrays
    and are indices.

    A system call is a function of the monad [K] of Kernel.v.  A context switch is a
    result of its own, [Ctxsw], that carries what the process does when it is resumed,
    and System.v runs a machine of such suspended processes: a configuration has the
    kernel state and a program for every process, and a step is one system call up to
    the next context switch, a resumption, or a clock interrupt.  The calls are those for
    processes, semaphores, messages, time, creation and kill; the memory manager, ports, buffer
    pools, futures and devices have theorems about the single call.  A call of the network is a
    function of [L] of Lift.v, and Netok.v runs any number of them, interleaved where they give
    up the processor; a run ends when a step halts the system or is undefined.

    * What the theorems show

    - The whole kernel: from the start of the system, whatever system calls the
      processes make and whenever the clock interrupts, no step has undefined
      behaviour ([kernel_never_undefined]); the process table, the ready list and the
      semaphore queues agree ([scheduler_tables_agree],
      [semaphore_counts_its_waiters]).
    - Each kernel call: scheduling by the key on the ready list, which is the priority of a
      process unless chprio has changed that since, wait and signal, delivery of messages,
      delta lists and the wake-up of sleepers, on every branch.
    - Data structures against specifications: the free list against first fit and
      coalescing on a list of blocks, a port against a bounded queue, buffer pools,
      xmalloc against the smallest size that fits, the key-value store against a map
      with an LRU cache of 128 keys.
    - The terminal: the input handler refines a line editor on lists; a line typed over
      any sequence of interrupts is what ttyread returns; what ttywrite is given leaves
      the device in order, after the echo.
    - The network: a datagram of udp_sendto is, on the machine it is for, what udp_recv
      returns; an endpoint is a bounded queue; ARP requests are answered and learned from; the
      tables stay well formed, and every index of a ring stays within its array except
      that of the next echo reply; the header checksum is that of RFC 1071 unless its sum
      carries twice; dot2ip reads what ip2dot wrote.
    - Names: a name is resolved by the first prefix that matches, mount does not change what
      names stand for, and naminit gives every device its name.
    - The command line: lexan agrees with a tokenizer on lists and stays inside of its
      buffers, and with addargs gives the command its argument vector.
    - Files: the inodes on the disk are an array, the mask of free blocks is a set,
      fs_read of bytes in one block returns their number, and from the start of a block copies
      all of it.
    - The library: qsort sorts within log2 n stack frames, strtol clamps, sprintf and
      the number parsers are inverse to each other, printf fields have their width, sscanf
      reads a word.
    - Defects, as theorems about the code as it is: [newqueue] on a full table, a huge
      request to getmem, %b of doprnt, kv_reset after a hit and after kv_init, reads of
      fs_read past what was asked for and from inside of a block, a process whose priority is
      raised while it is ready, raw mode of the terminal, the ninth echo reply, numbers in sscanf.

    * Bounds and fuel

    Loops that are not structural have a fuel and are [None] when it runs out; the
    theorems give results, so they show that the fuel is enough.  Walks along a linked
    list use one more round than the list has nodes ([NPROC], the number of nodes in a
    map); string loops use the number of mapped addresses ([str_fuel]), each of
    which is read at most once; lexan makes one more round than there is room for
    tokens; the interrupt handler of the terminal makes one more round than characters
    have arrived; qsort has a bound on its stack frames; kv_reset takes its fuel as an
    argument because it need not end, and so does future_set, whose waiting processes
    may come back.

    * What is not modelled

    Assembly (context switch, interrupt entry, start.S), the memory management unit and
    cache code, the interrupt controller and panic messages: they are below the model,
    which has ctxsw as the step to another process and the interrupt mask as a variable.
    The device table is generated by the configuration tool; the drivers in it are
    parameters of Devsw.  The terminal theorems are about a line for which no process
    waits; a process that waits is the business of Sem.  In the network
    theorems the Ethernet driver is a parameter, and netin and ipout run for a number of rounds;
    the clients (dhcp.c, dns.c, tftp.c, getutime.c of net/) and the packet dumps are left out.
    The other drivers (device/), the main loop and the commands of the shell (shell/), the
    configuration and boot tools (config/, compile/), the traces
    and test programs (apps/, kv_traces/) and the copies of earlier assignments
    (assignments/) are listed in the manifest with the reason.  Messages printed on
    errors are left out.

    This file holds the shared vocabulary: C integer widths, arrays as finite maps,
    the option monad of partial C code, generic lemmas and tactics. *)

From Stdlib Require Export ZArith Lia.
From stdpp Require Export base gmap list strings option sorting.
#[global] Open Scope Z_scope.

(** * Integers of C

    An [int32] is kept as its mathematical value in [-2^31, 2^31); an
    [uint32] in [0, 2^32).  [s32], [u32], [s16], [u16] and [u8] are the
    conversions the compiler inserts at an assignment. *)

Definition u32 (z : Z) : Z := z mod 4294967296.
Definition s32 (z : Z) : Z := (z + 2147483648) mod 4294967296 - 2147483648.
Definition u16 (z : Z) : Z := z mod 65536.
Definition s16 (z : Z) : Z := (z + 32768) mod 65536 - 32768.
Definition u8 (z : Z) : Z := z mod 256.

Definition is_u32 (z : Z) : Prop := 0 <= z < 4294967296.
Definition is_s32 (z : Z) : Prop := -2147483648 <= z < 2147483648.

Lemma u32_id z : is_u32 z -> u32 z = z.
Proof. intros H. apply Z.mod_small, H. Qed.

Lemma s32_id z : is_s32 z -> s32 z = z.
Proof. unfold is_s32, s32. intros H. rewrite Z.mod_small; lia. Qed.

Lemma s16_id z : -32768 <= z < 32768 -> s16 z = z.
Proof. unfold s16. intros H. rewrite Z.mod_small; lia. Qed.

Lemma u32_range z : is_u32 (u32 z).
Proof. apply Z.mod_pos_bound. lia. Qed.

Lemma s32_range z : is_s32 (s32 z).
Proof.
  unfold is_s32, s32.
  pose proof (Z.mod_pos_bound (z + 2147483648) 4294967296). lia.
Qed.

(** A conversion to unsigned and back. *)
Lemma s32_u32 z : is_s32 z -> s32 (u32 z) = z.
Proof. unfold is_s32, s32, u32. intros H. rewrite Zplus_mod_idemp_l, Z.mod_small; lia. Qed.

Lemma u8_range z : 0 <= u8 z < 256.
Proof. apply Z.mod_pos_bound. lia. Qed.

Lemma s32_wraps z : 2147483648 <= z < 4294967296 -> s32 z = z - 4294967296.
Proof.
  intros H. unfold s32.
  replace (z + 2147483648) with (z - 2147483648 + 1 * 4294967296) by lia.
  rewrite Z.mod_add by lia. rewrite Z.mod_small; lia.
Qed.

(** * C constants shared by every component (include/kernel.h) *)

Definition OK : Z := 1.
Definition SYSERR : Z := -1.
Definition EOF : Z := -2.
Definition TIMEOUT : Z := -3.

(** * Tactics *)

(** Split the boolean guards of a translated [if]. *)
Ltac bool_hyps :=
  repeat match goal with
  | H : (_ || _)%bool = true |- _ => apply orb_true_iff in H
  | H : (_ || _)%bool = false |- _ => apply orb_false_iff in H; destruct H
  | H : (_ && _)%bool = true |- _ => apply andb_true_iff in H; destruct H
  | H : negb _ = true |- _ => apply negb_true_iff in H
  | H : negb _ = false |- _ => apply negb_false_iff in H
  | H : (_ <? _) = true |- _ => apply Z.ltb_lt in H
  | H : (_ <? _) = false |- _ => apply Z.ltb_ge in H
  | H : (_ <=? _) = true |- _ => apply Z.leb_le in H
  | H : (_ <=? _) = false |- _ => apply Z.leb_gt in H
  | H : (_ >=? _) = _ |- _ => rewrite Z.geb_leb in H
  | H : (_ >? _) = _ |- _ => rewrite Z.gtb_ltb in H
  | H : (_ =? _) = true |- _ => apply Z.eqb_eq in H
  | H : (_ =? _) = false |- _ => apply Z.eqb_neq in H
  end.

(** Case analysis on the scrutinee of the outermost [if] or [match]. *)
Ltac case_if :=
  match goal with
  | |- context [if ?b then _ else _] => destruct b eqn:?
  end.

(** * Arrays: finite maps from the index, a missing index being out of range *)

Section Arrays.
Context {A : Type}.

  (** [a[i].f = v] for some field update [f]; [None] out of range. *)
Definition arr_upd (f : A -> A) (i : Z) (m : gmap Z A) : option (gmap Z A) :=
    x ← m !! i; Some (<[i := f x]> m).

  (** The C array of [n] copies of [x]. *)
Definition arr_make (n : nat) (x : A) : gmap Z A :=
    list_to_map ((λ i, (Z.of_nat i, x)) <$> seq 0 n).

  (** Every index of [0, n) and no other is present. *)
Definition arr_len (n : Z) (m : gmap Z A) : Prop :=
    ∀ i, is_Some (m !! i) <-> 0 <= i < n.

Lemma arr_upd_Some f i (m : gmap Z A) x :
    m !! i = Some x -> arr_upd f i m = Some (<[i := f x]> m).
Proof. intros H. unfold arr_upd. by rewrite H. Qed.

Lemma arr_len_lookup n (m : gmap Z A) i :
    arr_len n m -> 0 <= i < n -> ∃ x, m !! i = Some x.
Proof. intros Hl Hi. by apply Hl in Hi as [x Hx]; exists x. Qed.

Lemma arr_len_lt n (m : gmap Z A) i x :
    arr_len n m -> m !! i = Some x -> 0 <= i < n.
Proof. intros Hl Hx. apply Hl. eauto. Qed.

Lemma arr_len_insert n (m : gmap Z A) i x :
    arr_len n m -> 0 <= i < n -> arr_len n (<[i := x]> m).
Proof.
    intros Hl Hi j. destruct (decide (i = j)) as [->|Hne].
    - rewrite lookup_insert_eq. split; [done | eauto].
    - by rewrite lookup_insert_ne.
Qed.

Lemma arr_make_lookup n (x : A) i :
    0 <= i < Z.of_nat n -> arr_make n x !! i = Some x.
Proof.
    intros Hi. unfold arr_make. apply elem_of_list_to_map_1.
    - rewrite <- list_fmap_compose. apply NoDup_fmap_2; [|apply NoDup_seq].
      intros a b. simpl. lia.
    - apply list_elem_of_fmap. exists (Z.to_nat i). split.
      + f_equal. lia.
      + apply elem_of_seq. lia.
Qed.

Lemma arr_make_len n (x : A) : arr_len (Z.of_nat n) (arr_make n x).
Proof.
    intros i. split.
    - intros [y Hy]. apply elem_of_list_to_map_2 in Hy.
      apply list_elem_of_fmap in Hy as (k & [= -> ->] & Hk).
      apply elem_of_seq in Hk. lia.
    - intros Hi. exists x. by apply arr_make_lookup.
Qed.
End Arrays.

Create HintDb xinu.
#[export] Hint Resolve arr_len_insert : xinu.

(** * Lists *)

Section Lists.
Context {A : Type}.

Lemma NoDup_app_comm_cons (x : A) l1 l2 :
    NoDup (l1 ++ x :: l2) <-> NoDup (x :: l1 ++ l2).
Proof.
    split; intros H.
    - eapply NoDup_Permutation_proper; [|exact H]. by rewrite Permutation_middle.
    - eapply NoDup_Permutation_proper; [|exact H]. by rewrite Permutation_middle.
Qed.

Lemma elem_of_app_cons (x y : A) l1 l2 :
    x ∈ l1 ++ y :: l2 <-> x = y \/ x ∈ l1 ++ l2.
Proof. set_solver. Qed.
End Lists.
