(* ===== verification/Types.v ===== *)
(** Kernel data types and table sizes: include/process.h, include/queue.h,
    include/semaphore.h, include/resched.h and the sizes that include/conf.h
    sets for this configuration. *)

From S2P Require Import Prelude.

(** * Table sizes (include/conf.h, include/queue.h) *)

Definition NPROC : Z := 100.
Definition NSEM : Z := 100.
Definition NQENT : Z := NPROC + 4 + NSEM + NSEM.
Definition EMPTY : Z := -1.
Definition MAXKEY : Z := 2147483647.
(** [0x80000000] stored in the [int32] field [qkey]. *)
Definition MINKEY : Z := -2147483648.
Definition NULLPROC : Z := 0.
Definition QUANTUM : Z := 2.
Definition MINSTK : Z := 400.
Definition PNMLEN : Z := 16.
Definition NDESC : Z := 5.
Definition STACKMAGIC : Z := 168471209.

(** * Process states and the process table entry (include/process.h) *)

Inductive pstate :=
  | PR_FREE | PR_CURR | PR_READY | PR_RECV | PR_SLEEP | PR_SUSP | PR_WAIT | PR_RECTIM.

#[export] Instance pstate_eq_dec : EqDecision pstate.
Proof. solve_decision. Defined.

Record procent := Procent {
  prstate : pstate;
  prprio : Z;
  prstkptr : Z;
  prstkbase : Z;
  prstklen : Z;
  prname : list Z;
  prsem : Z;
  prparent : Z;
  prmsg : Z;
  prhasmsg : bool;
  prdesc : list Z;
}.

Definition set_prstate (x : pstate) (p : procent) : procent :=
  Procent x p.(prprio) p.(prstkptr) p.(prstkbase) p.(prstklen) p.(prname)
    p.(prsem) p.(prparent) p.(prmsg) p.(prhasmsg) p.(prdesc).
Definition set_prprio (x : Z) (p : procent) : procent :=
  Procent p.(prstate) x p.(prstkptr) p.(prstkbase) p.(prstklen) p.(prname)
    p.(prsem) p.(prparent) p.(prmsg) p.(prhasmsg) p.(prdesc).
Definition set_prsem (x : Z) (p : procent) : procent :=
  Procent p.(prstate) p.(prprio) p.(prstkptr) p.(prstkbase) p.(prstklen) p.(prname)
    x p.(prparent) p.(prmsg) p.(prhasmsg) p.(prdesc).
Definition set_prmsg (x : Z) (p : procent) : procent :=
  Procent p.(prstate) p.(prprio) p.(prstkptr) p.(prstkbase) p.(prstklen) p.(prname)
    p.(prsem) p.(prparent) x p.(prhasmsg) p.(prdesc).
Definition set_prhasmsg (x : bool) (p : procent) : procent :=
  Procent p.(prstate) p.(prprio) p.(prstkptr) p.(prstkbase) p.(prstklen) p.(prname)
    p.(prsem) p.(prparent) p.(prmsg) x p.(prdesc).

Abbreviation ptab := (gmap Z procent).

(** [isbadpid(x)]: out of range, or the entry is free.  The table has an entry
    at every index of range, so the lookup never falls through. *)
Definition isbadpid (pt : ptab) (x : Z) : bool :=
  (x <? 0) || (x >=? NPROC)
  || match pt !! x with Some p => bool_decide (p.(prstate) = PR_FREE) | None => true end.

Lemma isbadpid_false pt x :
  isbadpid pt x = false <->
  0 <= x < NPROC /\ ∃ p, pt !! x = Some p /\ p.(prstate) ≠ PR_FREE.
Proof.
  unfold isbadpid. split.
  - intros H. bool_hyps. destruct (pt !! x) as [p|]; [|done].
    split; [lia|]. exists p. split; [done|]. by apply bool_decide_eq_false in H0.
  - intros [Hr (p & Hp & Hf)]. rewrite Hp.
    rewrite bool_decide_eq_false_2 by done.
    rewrite (proj2 (Z.ltb_ge x 0)) by lia. rewrite Z.geb_leb.
    by rewrite (proj2 (Z.leb_gt NPROC x)) by lia.
Qed.

(** * Queue table entry (include/queue.h) *)

Record qentry := Qentry { qkey : Z; qnext : Z; qprev : Z }.

Definition set_qkey (k : Z) (e : qentry) : qentry := Qentry k e.(qnext) e.(qprev).
Definition set_qnext (x : Z) (e : qentry) : qentry := Qentry e.(qkey) x e.(qprev).
Definition set_qprev (x : Z) (e : qentry) : qentry := Qentry e.(qkey) e.(qnext) x.

Abbreviation qtab := (gmap Z qentry).

(** * Semaphore table entry (include/semaphore.h) *)

Inductive sstate_t := S_FREE | S_USED.

#[export] Instance sstate_eq_dec : EqDecision sstate_t.
Proof. solve_decision. Defined.

Record sentry := Sentry { sstate : sstate_t; scount : Z; squeue : Z }.

Definition set_sstate (x : sstate_t) (e : sentry) : sentry := Sentry x e.(scount) e.(squeue).
Definition set_scount (x : Z) (e : sentry) : sentry := Sentry e.(sstate) x e.(squeue).
Definition set_squeue (x : Z) (e : sentry) : sentry := Sentry e.(sstate) e.(scount) x.

Abbreviation stab := (gmap Z sentry).

(** [isbadsem(s)] *)
Definition isbadsem (s : Z) : bool := (s <? 0) || (s >=? NSEM).

(** * Port table entry (include/ports.h) *)

Definition NPORTS : Z := 30.

Inductive ptstate_t := PT_FREE | PT_LIMBO | PT_ALLOC.

#[export] Instance ptstate_eq_dec : EqDecision ptstate_t.
Proof. solve_decision. Defined.

Record ptentry := Ptentry {
  ptssem : Z;
  ptrsem : Z;
  ptstate : ptstate_t;
  ptmaxcnt : Z;
  ptseq : Z;
  pthead : Z;
  pttail : Z;
}.

Definition set_ptssem (x : Z) (p : ptentry) : ptentry :=
  Ptentry x p.(ptrsem) p.(ptstate) p.(ptmaxcnt) p.(ptseq) p.(pthead) p.(pttail).
Definition set_ptrsem (x : Z) (p : ptentry) : ptentry :=
  Ptentry p.(ptssem) x p.(ptstate) p.(ptmaxcnt) p.(ptseq) p.(pthead) p.(pttail).
Definition set_ptstate (x : ptstate_t) (p : ptentry) : ptentry :=
  Ptentry p.(ptssem) p.(ptrsem) x p.(ptmaxcnt) p.(ptseq) p.(pthead) p.(pttail).
Definition set_ptmaxcnt (x : Z) (p : ptentry) : ptentry :=
  Ptentry p.(ptssem) p.(ptrsem) p.(ptstate) x p.(ptseq) p.(pthead) p.(pttail).
Definition set_ptseq (x : Z) (p : ptentry) : ptentry :=
  Ptentry p.(ptssem) p.(ptrsem) p.(ptstate) p.(ptmaxcnt) x p.(pthead) p.(pttail).
Definition set_pthead (x : Z) (p : ptentry) : ptentry :=
  Ptentry p.(ptssem) p.(ptrsem) p.(ptstate) p.(ptmaxcnt) p.(ptseq) x p.(pttail).
Definition set_pttail (x : Z) (p : ptentry) : ptentry :=
  Ptentry p.(ptssem) p.(ptrsem) p.(ptstate) p.(ptmaxcnt) p.(ptseq) p.(pthead) x.

(** [isbadport(portid)] *)
Definition isbadport (portid : Z) : bool := (portid <? 0) || (portid >=? NPORTS).

(** * Buffer pool table entry (include/bufpool.h) *)

Definition NBPOOLS : Z := 20.
Definition BP_MAXB : Z := 8192.
Definition BP_MINB : Z := 8.
Definition BP_MAXN : Z := 2048.

Record bpentry := Bpentry { bpnext : Z; bpsem : Z; bpsize : Z }.

Definition set_bpnext (x : Z) (b : bpentry) : bpentry := Bpentry x b.(bpsem) b.(bpsize).
Definition set_bpsem (x : Z) (b : bpentry) : bpentry := Bpentry b.(bpnext) x b.(bpsize).
Definition set_bpsize (x : Z) (b : bpentry) : bpentry := Bpentry b.(bpnext) b.(bpsem) x.
