(* ===== verification/Cstring.v ===== *)
(** The string and memory functions of lib/: strlen.c, strnlen.c, strcmp.c,
    strncmp.c, strcpy.c, strncpy.c, strncat.c, strchr.c, strrchr.c, strstr.c,
    memcpy.c, memset.c, memcmp.c, memchr.c, bzero.c.

    They work on a byte memory: a partial map from addresses to bytes, where an
    address that is not mapped must not be read or written ([None]).  On the ARM
    a plain [char] is unsigned, so a byte is a number of [0, 256).  A loop that
    stops at a zero byte has the fuel [str_fuel]: it reads a new mapped address
    in each round, so it cannot take more rounds than there are addresses. *)

From S2P Require Import Prelude Types.

(** * Byte memory *)

Abbreviation bmem := (gmap Z Z).

Definition ldb (m : bmem) (a : Z) : option Z := m !! a.
Definition stb (a v : Z) (m : bmem) : option bmem := _ ← m !! a; Some (<[a := v]> m).

Definition str_fuel (m : bmem) : nat := S (size m).

(** * The functions *)

(** lib/strlen.c: strlen *)
Fixpoint strlen_loop (fuel : nat) (m : bmem) (str len : Z) : option Z :=
  match fuel with
  | O => None
  | S fuel =>
      c ← ldb m str;
      if c =? 0 then Some len else strlen_loop fuel m (str + 1) (s32 (len + 1))
  end.
Definition strlen (m : bmem) (str : Z) : option Z := strlen_loop (str_fuel m) m str 0.

(** lib/strnlen.c: strnlen; the comparison [n < len] is unsigned. *)
Fixpoint strnlen_loop (fuel : nat) (m : bmem) (s len n : Z) : option Z :=
  match fuel with
  | O => None
  | S fuel =>
      c ← ldb m s;
      if negb (c =? 0) && (u32 n <? len)
      then strnlen_loop fuel m (s + 1) len (s32 (n + 1)) else Some n
  end.
Definition strnlen (m : bmem) (s len : Z) : option Z := strnlen_loop (str_fuel m) m s len 0.

(** lib/strcmp.c: strcmp *)
Fixpoint strcmp_loop (fuel : nat) (m : bmem) (str1 str2 : Z) : option Z :=
  match fuel with
  | O => None
  | S fuel =>
      c1 ← ldb m str1;
      c2 ← ldb m str2;
      if c1 =? c2 then
        if c1 =? 0 then Some 0 else strcmp_loop fuel m (str1 + 1) (str2 + 1)
      else if c1 <? c2 then Some (-1) else Some 1
  end.
Definition strcmp (m : bmem) (str1 str2 : Z) : option Z := strcmp_loop (str_fuel m) m str1 str2.

(** lib/strncmp.c: strncmp; [n] counts the rounds that are left. *)
Fixpoint strncmp_loop (n : nat) (m : bmem) (s1 s2 : Z) : option Z :=
  match n with
  | O => Some 0
  | S n =>
      c1 ← ldb m s1;
      c2 ← ldb m s2;
      if c1 =? c2 then
        if c1 =? 0 then Some 0 else strncmp_loop n m (s1 + 1) (s2 + 1)
      else Some (c1 - c2)
  end.
Definition strncmp (m : bmem) (s1 s2 n : Z) : option Z := strncmp_loop (Z.to_nat n) m s1 s2.

(** lib/strcpy.c: strcpy *)
Fixpoint strcpy_loop (fuel : nat) (tar src : Z) (m : bmem) : option bmem :=
  match fuel with
  | O => None
  | S fuel =>
      c ← ldb m src;
      m ← stb tar c m;
      if c =? 0 then Some m else strcpy_loop fuel (tar + 1) (src + 1) m
  end.
Definition strcpy (tar src : Z) (m : bmem) : option (Z * bmem) :=
  m ← strcpy_loop (str_fuel m) tar src m; Some (0, m).

(** [while (++i < n) *s1++ = '\0'] *)
Fixpoint zero_fill (n : nat) (s1 : Z) (m : bmem) : option bmem :=
  match n with
  | O => Some m
  | S n => m ← stb s1 0 m; zero_fill n (s1 + 1) m
  end.

(** lib/strncpy.c: strncpy *)
Fixpoint strncpy_loop (n : nat) (s1 s2 : Z) (m : bmem) : option bmem :=
  match n with
  | O => Some m
  | S n =>
      c ← ldb m s2;
      m ← stb s1 c m;
      if c =? 0 then zero_fill n (s1 + 1) m else strncpy_loop n (s1 + 1) (s2 + 1) m
  end.
Definition strncpy (s1 s2 n : Z) (m : bmem) : option (Z * bmem) :=
  m ← strncpy_loop (Z.to_nat n) s1 s2 m; Some (s1, m).

(** The copy loop of strncat. *)
Fixpoint strncat_loop (fuel : nat) (s1 s2 n : Z) (m : bmem) : option bmem :=
  match fuel with
  | O => None
  | S fuel =>
      c ← ldb m s2;
      m ← stb s1 c m;
      if c =? 0 then Some m
      else if n - 1 <? 0 then stb s1 0 m
      else strncat_loop fuel (s1 + 1) (s2 + 1) (n - 1) m
  end.

(** lib/strncat.c: strncat; strlen_loop finds the end of [s1]. *)
Definition strncat (s1 s2 n : Z) (m : bmem) : option (Z * bmem) :=
  e ← strlen_loop (str_fuel m) m s1 0;
  m ← strncat_loop (str_fuel m) (s1 + e) s2 n m;
  Some (s1, m).

(** lib/strchr.c: strchr *)
Fixpoint strchr_loop (fuel : nat) (m : bmem) (s c : Z) : option Z :=
  match fuel with
  | O => None
  | S fuel =>
      x ← ldb m s;
      if x =? 0 then (if u8 c =? x then Some s else Some 0)
      else if x =? u8 c then Some s else strchr_loop fuel m (s + 1) c
  end.
Definition strchr (m : bmem) (s c : Z) : option Z := strchr_loop (str_fuel m) m s c.

(** lib/strrchr.c: strrchr *)
Fixpoint strrchr_loop (fuel : nat) (m : bmem) (s c r : Z) : option Z :=
  match fuel with
  | O => None
  | S fuel =>
      x ← ldb m s;
      if x =? 0 then (if u8 c =? x then Some s else Some r)
      else strrchr_loop fuel m (s + 1) c (if x =? u8 c then s else r)
  end.
Definition strrchr (m : bmem) (s c : Z) : option Z := strrchr_loop (str_fuel m) m s c 0.

(** The inner loop of strstr: where the comparison stops in the needle. *)
Fixpoint strstr_cmp (fuel : nat) (m : bmem) (cq cr : Z) : option Z :=
  match fuel with
  | O => None
  | S fuel =>
      x ← ldb m cq;
      if x =? 0 then Some cr
      else
        y ← ldb m cr;
        if y =? 0 then Some cr
        else if negb (x =? y) then Some cr
        else strstr_cmp fuel m (cq + 1) (cr + 1)
  end.

(** lib/strstr.c: strstr *)
Fixpoint strstr_loop (fuel : nat) (m : bmem) (cs ct : Z) : option Z :=
  match fuel with
  | O => None
  | S fuel' =>
      x ← ldb m cs;
      if x =? 0 then Some 0
      else
        y ← ldb m ct;
        if x =? y then
          cr ← strstr_cmp (str_fuel m) m cs ct;
          z ← ldb m cr;
          if 0 =? z then Some cs else strstr_loop fuel' m (cs + 1) ct
        else strstr_loop fuel' m (cs + 1) ct
  end.
Definition strstr (m : bmem) (cs ct : Z) : option Z := strstr_loop (str_fuel m) m cs ct.

(** lib/memcpy.c: memcpy *)
Fixpoint memcpy_loop (n : nat) (dst src : Z) (m : bmem) : option bmem :=
  match n with
  | O => Some m
  | S n => c ← ldb m src; m ← stb dst c m; memcpy_loop n (dst + 1) (src + 1) m
  end.
Definition memcpy (s ct n : Z) (m : bmem) : option (Z * bmem) :=
  m ← memcpy_loop (Z.to_nat n) s ct m; Some (s, m).

(** lib/memset.c: memset *)
Fixpoint memset_loop (n : nat) (cp c : Z) (m : bmem) : option bmem :=
  match n with
  | O => Some m
  | S n => m ← stb cp (u8 c) m; memset_loop n (cp + 1) c m
  end.
Definition memset (s c n : Z) (m : bmem) : option (Z * bmem) :=
  m ← memset_loop (Z.to_nat n) s c m; Some (s, m).

(** lib/bzero.c: bzero *)
Definition bzero (p len : Z) (m : bmem) : option bmem :=
  if len <=? 0 then Some m else zero_fill (Z.to_nat len) p m.

(** lib/memcmp.c: memcmp *)
Fixpoint memcmp_loop (n : nat) (m : bmem) (c1 c2 : Z) : option Z :=
  match n with
  | O => Some 0
  | S n =>
      x ← ldb m c1;
      y ← ldb m c2;
      if negb (x =? y) then Some (x - y) else memcmp_loop n m (c1 + 1) (c2 + 1)
  end.
Definition memcmp (m : bmem) (s1 s2 n : Z) : option Z := memcmp_loop (Z.to_nat n) m s1 s2.

(** lib/memchr.c: memchr; [n] is not used. *)
Fixpoint memchr_loop (fuel : nat) (m : bmem) (cp c : Z) : option Z :=
  match fuel with
  | O => None
  | S fuel =>
      x ← ldb m cp;
      if x =? 0 then Some 0
      else if x =? u8 c then Some cp else memchr_loop fuel m (cp + 1) c
  end.
Definition memchr (m : bmem) (cs c n : Z) : option Z := memchr_loop (str_fuel m) m cs c.

(** * Strings in memory *)

(** The bytes [l] are at [p]. *)
Fixpoint bytes_at (m : bmem) (p : Z) (l : list Z) : Prop :=
  match l with
  | [] => True
  | c :: l => m !! p = Some c /\ bytes_at m (p + 1) l
  end.

(** The string [l], which has no zero byte, is at [p]. *)
Definition str_at (m : bmem) (p : Z) (l : list Z) : Prop :=
  bytes_at m p (l ++ [0]) /\ Forall (λ c, c ≠ 0) l.

(** The addresses [p, p + n) are mapped. *)
Definition mapped (m : bmem) (p n : Z) : Prop := ∀ a, p <= a < p + n -> is_Some (m !! a).

(** Lexicographic order of strings, by unsigned bytes. *)
Fixpoint lex (l1 l2 : list Z) : Z :=
  match l1, l2 with
  | [], [] => 0
  | [], _ :: _ => -1
  | _ :: _, [] => 1
  | a :: l1, b :: l2 => if a =? b then lex l1 l2 else if a <? b then -1 else 1
  end.

Lemma bytes_at_lookup m p l i c :
  bytes_at m p l -> l !! i = Some c -> m !! (p + Z.of_nat i) = Some c.
Proof.
  revert p i. induction l as [|x l IH]; intros p i; [done|]. intros [Hx Hl]. destruct i as [|i]; simpl.
  - intros [= <-]. by rewrite Z.add_0_r.
  - intros Hi. replace (p + Z.of_nat (S i)) with (p + 1 + Z.of_nat i) by lia. by apply IH.
Qed.

Lemma bytes_at_app m p l1 l2 :
  bytes_at m p (l1 ++ l2) <-> bytes_at m p l1 /\ bytes_at m (p + Z.of_nat (length l1)) l2.
Proof.
  revert p. induction l1 as [|x l1 IH]; intros p; simpl.
  - rewrite Z.add_0_r. tauto.
  - rewrite IH. replace (p + 1 + Z.of_nat (length l1)) with (p + Z.of_nat (S (length l1))) by lia. tauto.
Qed.

Lemma bytes_at_frame m m' p l :
  bytes_at m p l -> (∀ a, p <= a < p + Z.of_nat (length l) -> m' !! a = m !! a) -> bytes_at m' p l.
Proof.
  revert p. induction l as [|x l IH]; intros p; simpl; [done|]. intros [Hx Hl] Hm. split.
  - rewrite Hm by lia. done.
  - apply IH; [done|]. intros a Ha. apply Hm. lia.
Qed.

(** A sequence of bytes has no more bytes than memory has. *)
Lemma bytes_at_size m p l : bytes_at m p l -> (length l <= size m)%nat.
Proof.
  intros Hb.
  assert (Hsub : (λ i, p + Z.of_nat i) <$> seq 0 (length l) ⊆+ (map_to_list m).*1).
  { apply NoDup_submseteq.
    - apply NoDup_fmap_2; [|apply NoDup_seq]. intros a b. lia.
    - intros a Ha. apply list_elem_of_fmap in Ha as (i & -> & Hi). apply elem_of_seq in Hi.
      destruct (lookup_lt_is_Some_2 l i) as [c Hc]; [lia|].
      apply list_elem_of_fmap. exists (p + Z.of_nat i, c). split; [done|].
      apply elem_of_map_to_list. by eapply bytes_at_lookup. }
  apply submseteq_length in Hsub. by rewrite !length_fmap, length_seq, length_map_to_list in Hsub.
Qed.

Lemma str_at_fuel m p l : str_at m p l -> (length l < str_fuel m)%nat.
Proof.
  intros [Hb _]. apply bytes_at_size in Hb. rewrite length_app in Hb. simpl in Hb. unfold str_fuel. lia.
Qed.

Lemma str_at_cons m p c l : str_at m p (c :: l) <-> m !! p = Some c /\ c ≠ 0 /\ str_at m (p + 1) l.
Proof. unfold str_at. simpl. rewrite Forall_cons. tauto. Qed.

Lemma str_at_nil m p : str_at m p [] <-> m !! p = Some 0.
Proof. unfold str_at. simpl. split; [tauto|]. intros H. by repeat split. Qed.

#[local] Arguments Z.eqb : simpl never.
#[local] Arguments Z.ltb : simpl never.

(** ** Functions that only read *)

Lemma strlen_loop_spec l : ∀ fuel m p n,
  str_at m p l -> (length l < fuel)%nat -> 0 <= n -> n + Z.of_nat (length l) < 2147483648 ->
  strlen_loop fuel m p n = Some (n + Z.of_nat (length l)).
Proof.
  induction l as [|c l IH]; intros [|fuel] m p n Hs Hf Hn Hmax; simpl in Hf, Hmax; try lia.
  - apply str_at_nil in Hs. simpl. unfold ldb. rewrite Hs. simpl. f_equal. lia.
  - apply str_at_cons in Hs as (Hp & Hc & Hs). simpl. unfold ldb. rewrite Hp. simpl.
    rewrite (proj2 (Z.eqb_neq c 0)) by done. rewrite s32_id by (unfold is_s32; lia).
    rewrite IH by (done || lia). f_equal. lia.
Qed.

Lemma strcmp_loop_spec l1 : ∀ l2 fuel m p q,
  str_at m p l1 -> str_at m q l2 -> (length l1 < fuel)%nat -> Forall (λ c, 0 <= c) (l1 ++ l2) ->
  strcmp_loop fuel m p q = Some (lex l1 l2).
Proof.
  induction l1 as [|a l1 IH]; intros l2 [|fuel] m p q H1 H2 Hf Hpos; simpl in Hf; try lia.
  - apply str_at_nil in H1. simpl. unfold ldb. rewrite H1. simpl. destruct l2 as [|b l2].
    + apply str_at_nil in H2. by rewrite H2.
    + apply str_at_cons in H2 as (Hb & Hb0 & _). rewrite Hb. simpl.
      apply Forall_cons in Hpos as [? _]. rewrite (proj2 (Z.eqb_neq 0 b)) by done.
      by rewrite (proj2 (Z.ltb_lt 0 b)) by lia.
  - apply str_at_cons in H1 as (Ha & Ha0 & H1). simpl. unfold ldb. rewrite Ha. simpl.
    apply Forall_cons in Hpos as [Hapos Hpos]. destruct l2 as [|b l2].
    + apply str_at_nil in H2. rewrite H2. simpl. rewrite (proj2 (Z.eqb_neq a 0)) by done.
      by rewrite (proj2 (Z.ltb_ge a 0)) by lia.
    + apply str_at_cons in H2 as (Hb & Hb0 & H2). rewrite Hb. simpl.
      destruct (a =? b); [|by destruct (a <? b)]. rewrite (proj2 (Z.eqb_neq a 0)) by done.
      apply IH; try done; [lia|]. apply Forall_app in Hpos as [Hp1 Hp2]. apply Forall_cons in Hp2 as [_ Hp2].
      by apply Forall_app.
Qed.
