(* ===== verification/Queue.v ===== *)
(** Process queues: system/queue.c, newqueue.c, getitem.c, insert.c, insertd.c.

    [queuetab] is an array of entries: the first [NPROC] are the processes, the
    rest head/tail pairs.  Every operation is translated on the array, [None]
    standing for an access outside of it; [qrep qt Q] says that the array [qt]
    represents the queues [Q], a map from queue identifier to the list of
    processes on the queue, and each operation refines one on [Q]. *)

From S2P Require Import Prelude Types.

(** * The operations *)

Definition queuehead (q : Z) : Z := q.
Definition queuetail (q : Z) : Z := q + 1.

(** [isbadqid(x)] *)
Definition isbadqid (x : Z) : bool := (x <? 0) || (x >=? NQENT - 1).

Definition firstid (qt : qtab) (q : Z) : option Z :=
  e ← qt !! queuehead q; Some e.(qnext).
Definition lastid (qt : qtab) (q : Z) : option Z :=
  e ← qt !! queuetail q; Some e.(qprev).
Definition isempty (qt : qtab) (q : Z) : option bool :=
  i ← firstid qt q; Some (i >=? NPROC).
Definition nonempty (qt : qtab) (q : Z) : option bool :=
  i ← firstid qt q; Some (i <? NPROC).
Definition firstkey (qt : qtab) (q : Z) : option Z :=
  i ← firstid qt q; e ← qt !! i; Some e.(qkey).

(** system/queue.c: enqueue *)
Definition enqueue (pt : ptab) (pid q : Z) (qt : qtab) : option (Z * qtab) :=
  if isbadqid q || isbadpid pt pid then Some (SYSERR, qt)
  else
    let tail := queuetail q in
    te ← qt !! tail;
    let prev := te.(qprev) in
    qt ← arr_upd (set_qnext tail) pid qt;
    qt ← arr_upd (set_qprev prev) pid qt;
    qt ← arr_upd (set_qnext pid) prev qt;
    qt ← arr_upd (set_qprev pid) tail qt;
    Some (pid, qt).

(** system/getitem.c: getitem *)
Definition getitem (pid : Z) (qt : qtab) : option (Z * qtab) :=
  e ← qt !! pid;
  let next := e.(qnext) in
  let prev := e.(qprev) in
  qt ← arr_upd (set_qnext next) prev qt;
  qt ← arr_upd (set_qprev prev) next qt;
  Some (pid, qt).

(** system/getitem.c: getfirst *)
Definition getfirst (q : Z) (qt : qtab) : option (Z * qtab) :=
  b ← isempty qt q;
  if (b : bool) then Some (EMPTY, qt)
  else
    let head := queuehead q in
    e ← qt !! head;
    getitem e.(qnext) qt.

(** system/getitem.c: getlast *)
Definition getlast (q : Z) (qt : qtab) : option (Z * qtab) :=
  b ← isempty qt q;
  if (b : bool) then Some (EMPTY, qt)
  else
    let tail := queuetail q in
    e ← qt !! tail;
    getitem e.(qprev) qt.

(** system/queue.c: dequeue *)
Definition dequeue (q : Z) (qt : qtab) : option (Z * qtab) :=
  if isbadqid q then Some (SYSERR, qt)
  else
    b ← isempty qt q;
    if (b : bool) then Some (EMPTY, qt)
    else
      '(pid, qt) ← getfirst q qt;
      qt ← arr_upd (set_qprev EMPTY) pid qt;
      qt ← arr_upd (set_qnext EMPTY) pid qt;
      Some (pid, qt).

(** The loop of insert: [while (queuetab[curr].qkey >= key)
    curr = queuetab[curr].qnext;].  A scan of a well-formed queue visits each
    process once, so [NQENT] steps are enough; the fuel running out is [None]
    like a walk off the table. *)
Fixpoint insert_scan (fuel : nat) (qt : qtab) (curr key : Z) : option Z :=
  match fuel with
  | O => None
  | S fuel =>
      e ← qt !! curr;
      if e.(qkey) >=? key then insert_scan fuel qt e.(qnext) key else Some curr
  end.

(** system/insert.c: insert *)
Definition insert (pt : ptab) (pid q key : Z) (qt : qtab) : option (Z * qtab) :=
  if isbadqid q || isbadpid pt pid then Some (SYSERR, qt)
  else
    first ← firstid qt q;
    curr ← insert_scan (Z.to_nat NQENT) qt first key;
    ce ← qt !! curr;
    let prev := ce.(qprev) in
    qt ← arr_upd (set_qnext curr) pid qt;
    qt ← arr_upd (set_qprev prev) pid qt;
    qt ← arr_upd (set_qkey key) pid qt;
    qt ← arr_upd (set_qnext pid) prev qt;
    qt ← arr_upd (set_qprev pid) curr qt;
    Some (OK, qt).

(** The loop of insertd, carrying [prev], [next] and the remaining [key]. *)
Fixpoint insertd_scan (fuel : nat) (qt : qtab) (q prev next key : Z) : option (Z * Z * Z) :=
  match fuel with
  | O => None
  | S fuel =>
      if next =? queuetail q then Some (prev, next, key)
      else
        e ← qt !! next;
        if e.(qkey) <=? key
        then insertd_scan fuel qt q next e.(qnext) (s32 (key - e.(qkey)))
        else Some (prev, next, key)
  end.

(** system/insertd.c: insertd *)
Definition insertd (pt : ptab) (pid q key : Z) (qt : qtab) : option (Z * qtab) :=
  if isbadqid q || isbadpid pt pid then Some (SYSERR, qt)
  else
    he ← qt !! queuehead q;
    '(prev, next, key) ← insertd_scan (Z.to_nat NQENT) qt q (queuehead q) he.(qnext) key;
    qt ← arr_upd (set_qnext next) pid qt;
    qt ← arr_upd (set_qprev prev) pid qt;
    qt ← arr_upd (set_qkey key) pid qt;
    qt ← arr_upd (set_qnext pid) prev qt;
    qt ← arr_upd (set_qprev pid) next qt;
    qt ← (if negb (next =? queuetail q)
          then arr_upd (λ e, set_qkey (s32 (e.(qkey) - key)) e) next qt
          else Some qt);
    Some (OK, qt).

(** system/newqueue.c: newqueue, [nextqid] being its static variable. *)
Definition newqueue (nextqid : Z) (qt : qtab) : option (Z * Z * qtab) :=
  let q := nextqid in
  if q >? NQENT then Some (SYSERR, nextqid, qt)
  else
    let nextqid := s16 (nextqid + 2) in
    qt ← arr_upd (set_qnext (queuetail q)) (queuehead q) qt;
    qt ← arr_upd (set_qprev EMPTY) (queuehead q) qt;
    qt ← arr_upd (set_qkey MAXKEY) (queuehead q) qt;
    qt ← arr_upd (set_qnext EMPTY) (queuetail q) qt;
    qt ← arr_upd (set_qprev (queuehead q)) (queuetail q) qt;
    qt ← arr_upd (set_qkey MINKEY) (queuetail q) qt;
    Some (q, nextqid, qt).

(** * Doubly linked segments *)

(** The links of the table as partial functions of the index. *)
Definition nx (qt : qtab) (i : Z) : option Z := e ← qt !! i; Some e.(qnext).
Definition pv (qt : qtab) (i : Z) : option Z := e ← qt !! i; Some e.(qprev).
Definition ky (qt : qtab) (i : Z) : option Z := e ← qt !! i; Some e.(qkey).

(** Following [nx] from [a] visits [l] and then reaches [b], and [pv] leads
    back. *)
Fixpoint dseg (n p : Z -> option Z) (a : Z) (l : list Z) (b : Z) : Prop :=
  match l with
  | [] => n a = Some b /\ p b = Some a
  | x :: l' => n a = Some x /\ p x = Some a /\ dseg n p x l' b
  end.

Lemma dseg_app n p a l1 x l2 b :
  dseg n p a (l1 ++ x :: l2) b <-> dseg n p a l1 x /\ dseg n p x l2 b.
Proof. revert a. induction l1 as [|y l1 IH]; intros a; simpl; [|rewrite IH]; tauto. Qed.

Lemma dseg_frame n p n' p' a l b :
  dseg n p a l b ->
  (∀ i, i = a \/ i ∈ l -> n' i = n i) ->
  (∀ i, i = b \/ i ∈ l -> p' i = p i) ->
  dseg n' p' a l b.
Proof.
  revert a. induction l as [|x l IH]; simpl; intros a Hs Hn Hp.
  - destruct Hs as [Ha Hb]. rewrite Hn, Hp by tauto. tauto.
  - destruct Hs as (Ha & Hx & Hs).
    rewrite (Hn a), (Hp x) by set_solver.
    do 2 (split; [done|]). apply IH; set_solver.
Qed.

Lemma dseg_first n p a l b : dseg n p a l b -> n a = Some (hd b l).
Proof. destruct l; simpl; tauto. Qed.

(** The node before the one reached after [l]. *)
Definition last_or (a : Z) (l : list Z) : Z := default a (last l).

Lemma last_or_snoc a l x : last_or a (l ++ [x]) = x.
Proof. unfold last_or. by rewrite last_snoc. Qed.

Lemma last_or_cons a x l : last_or a (x :: l) = last_or x l.
Proof. unfold last_or. destruct l; [done|]. simpl. destruct (last _) eqn:E; [done|]. by apply last_None in E. Qed.

Lemma last_or_in a l : last_or a l = a /\ l = [] \/ last_or a l ∈ l.
Proof.
  destruct l as [|x l] using rev_ind; [by left|].
  rewrite last_or_snoc. right. set_solver.
Qed.

Lemma dseg_last n p a l b : dseg n p a l b -> p b = Some (last_or a l).
Proof.
  revert a. induction l as [|x l IH]; simpl; intros a; [tauto|].
  intros (_ & _ & Hs). rewrite last_or_cons. by apply IH.
Qed.

Lemma hd_in (b : Z) l : hd b l = b /\ l = [] \/ hd b l ∈ l.
Proof. destruct l; simpl; [by left|]. right. set_solver. Qed.

(** Linking [x] in where [l1] ends and [l2] starts. *)
Lemma dseg_link n p n' p' a l1 x l2 b :
  dseg n p a (l1 ++ l2) b ->
  a ∉ l1 ++ l2 -> b ∉ l1 ++ l2 -> NoDup (l1 ++ l2) ->
  x ∉ a :: b :: l1 ++ l2 -> a ≠ b ->
  (∀ i, n' i = if decide (i = x) then Some (hd b l2)
               else if decide (i = last_or a l1) then Some x else n i) ->
  (∀ i, p' i = if decide (i = x) then Some (last_or a l1)
               else if decide (i = hd b l2) then Some x else p i) ->
  dseg n' p' a (l1 ++ x :: l2) b.
Proof.
  revert a. induction l1 as [|y l1 IH]; simpl; intros a Hs Ha Hb Hnd Hx Hab Hn Hp.
  - unfold last_or in *. simpl in *.
    rewrite Hn, Hp. rewrite decide_False, !decide_True by set_solver.
    do 2 (split; [done|]).
    destruct l2 as [|z l2]; simpl in *.
    + rewrite Hn, Hp. rewrite decide_True by done.
      rewrite decide_False by set_solver. by rewrite decide_True.
    + rewrite Hn, Hp. rewrite decide_True by done.
      rewrite decide_False, decide_True by set_solver.
      do 2 (split; [done|]).
      destruct Hs as (_ & _ & Hs). apply NoDup_cons in Hnd as [Hz Hnd].
      eapply dseg_frame; [exact Hs| |].
      * intros i Hi. rewrite Hn, !decide_False by set_solver. done.
      * intros i Hi. rewrite Hp, !decide_False by set_solver. done.
  - rewrite last_or_cons in *. destruct Hs as (Hay & Hya & Hs).
    apply NoDup_cons in Hnd as [Hy Hnd].
    assert (Hla : last_or y l1 ∈ y :: l1) by (destruct (last_or_in y l1); set_solver).
    assert (Hh : hd b l2 ∈ b :: l2) by (destruct (hd_in b l2); set_solver).
    split; [|split].
    + rewrite Hn, !decide_False; set_solver.
    + rewrite Hp, !decide_False; set_solver.
    + apply IH; set_solver.
Qed.

(** Unlinking [x]: the links of [x] itself may become anything. *)
Lemma dseg_unlink n p n' p' a l1 x l2 b :
  dseg n p a (l1 ++ x :: l2) b ->
  a ∉ l1 ++ l2 -> b ∉ l1 ++ l2 -> NoDup (l1 ++ x :: l2) ->
  x ≠ a -> x ≠ b -> a ≠ b ->
  (∀ i, i ≠ x -> n' i = if decide (i = last_or a l1) then Some (hd b l2) else n i) ->
  (∀ i, i ≠ x -> p' i = if decide (i = hd b l2) then Some (last_or a l1) else p i) ->
  dseg n' p' a (l1 ++ l2) b.
Proof.
  revert a. induction l1 as [|y l1 IH]; simpl; intros a Hs Ha Hb Hnd Hxa Hxb Hab Hn Hp.
  - unfold last_or in *. simpl in *. destruct Hs as (_ & _ & Hs).
    apply NoDup_cons in Hnd as [Hx Hnd].
    destruct l2 as [|z l2]; simpl in *.
    + rewrite Hn, Hp, !decide_True by done. done.
    + destruct Hs as (_ & _ & Hs). apply NoDup_cons in Hnd as [Hz Hnd].
      rewrite Hn, Hp, !decide_True by set_solver.
      do 2 (split; [done|]). eapply dseg_frame; [exact Hs| |].
      * intros i Hi. rewrite Hn, decide_False by set_solver. done.
      * intros i Hi. rewrite Hp, decide_False by set_solver. done.
  - rewrite last_or_cons in *. destruct Hs as (Hay & Hya & Hs).
    apply NoDup_cons in Hnd as [Hy Hnd].
    assert (Hla : last_or y l1 ∈ y :: l1) by (destruct (last_or_in y l1); set_solver).
    assert (Hh : hd b l2 ∈ b :: l2) by (destruct (hd_in b l2); set_solver).
    split; [|split].
    + rewrite Hn, decide_False; set_solver.
    + rewrite Hp, decide_False; set_solver.
    + apply IH; set_solver.
Qed.

(** * The abstract queues *)

Abbreviation queues := (gmap Z (list Z)).

(** A queue identifier: even, with its head and tail inside the table. *)
Definition qid_ok (q : Z) : Prop := NPROC <= q /\ q + 1 < NQENT /\ Z.even q = true.

Record qrep (qt : qtab) (Q : queues) : Prop := {
  qrep_len : arr_len NQENT qt;
  qrep_id : ∀ q l, Q !! q = Some l -> qid_ok q;
  qrep_seg : ∀ q l, Q !! q = Some l -> dseg (nx qt) (pv qt) q l (q + 1);
  qrep_tail : ∀ q l, Q !! q = Some l -> ky qt (q + 1) = Some MINKEY;
  qrep_pid : ∀ q l p, Q !! q = Some l -> p ∈ l -> 0 <= p < NPROC;
  qrep_nodup : ∀ q l, Q !! q = Some l -> NoDup l;
  qrep_disj : ∀ q1 q2 l1 l2 p,
    Q !! q1 = Some l1 -> Q !! q2 = Some l2 -> p ∈ l1 -> p ∈ l2 -> q1 = q2;
}.

(** [p] is on no queue. *)
Definition off_queues (Q : queues) (p : Z) : Prop := ∀ q l, Q !! q = Some l -> p ∉ l.

(** The key of a process, 0 outside the table. *)
Definition keyof (qt : qtab) (p : Z) : Z := default 0 (ky qt p).

Lemma even_succ_neq q q' : Z.even q = true -> Z.even q' = true -> q + 1 ≠ q'.
Proof. intros H H' <-. rewrite Z.even_add, H in H'. done. Qed.

Lemma nx_Some qt i e : qt !! i = Some e -> nx qt i = Some e.(qnext).
Proof. intros H. unfold nx. by rewrite H. Qed.
Lemma pv_Some qt i e : qt !! i = Some e -> pv qt i = Some e.(qprev).
Proof. intros H. unfold pv. by rewrite H. Qed.
Lemma ky_Some qt i e : qt !! i = Some e -> ky qt i = Some e.(qkey).
Proof. intros H. unfold ky. by rewrite H. Qed.

Lemma nx_inv qt i x : nx qt i = Some x -> ∃ e, qt !! i = Some e /\ e.(qnext) = x.
Proof. unfold nx. destruct (qt !! i) as [e|]; simpl; [|done]. intros [= <-]. eauto. Qed.
Lemma pv_inv qt i x : pv qt i = Some x -> ∃ e, qt !! i = Some e /\ e.(qprev) = x.
Proof. unfold pv. destruct (qt !! i) as [e|]; simpl; [|done]. intros [= <-]. eauto. Qed.
Lemma ky_inv qt i x : ky qt i = Some x -> ∃ e, qt !! i = Some e /\ e.(qkey) = x.
Proof. unfold ky. destruct (qt !! i) as [e|]; simpl; [|done]. intros [= <-]. eauto. Qed.

(** One write of a field, in range: the array stays an array and one of the
    three link functions changes at one index. *)
Ltac upd_field Hlen Hi :=
  let e := fresh "e" in let He := fresh "He" in
  destruct (arr_len_lookup _ _ _ Hlen Hi) as [e He];
  eexists; split; [by apply arr_upd_Some|];
  split; [by apply arr_len_insert|];
  match type of He with ?qt !! ?i = _ =>
    split; [|split]; intros j; unfold nx, pv, ky;
    (destruct (decide (j = i)) as [->|];
      [rewrite lookup_insert_eq; rewrite ?He; done | by rewrite lookup_insert_ne])
  end.

Section Upd.
Context (qt : qtab) (i v : Z).
Hypothesis Hlen : arr_len NQENT qt.
Hypothesis Hi : 0 <= i < NQENT.

Lemma upd_qnext_spec :
    ∃ qt', arr_upd (set_qnext v) i qt = Some qt' /\ arr_len NQENT qt' /\
      (∀ j, nx qt' j = if decide (j = i) then Some v else nx qt j) /\
      (∀ j, pv qt' j = pv qt j) /\ (∀ j, ky qt' j = ky qt j).
Proof. upd_field Hlen Hi. Qed.

Lemma upd_qprev_spec :
    ∃ qt', arr_upd (set_qprev v) i qt = Some qt' /\ arr_len NQENT qt' /\
      (∀ j, nx qt' j = nx qt j) /\
      (∀ j, pv qt' j = if decide (j = i) then Some v else pv qt j) /\
      (∀ j, ky qt' j = ky qt j).
Proof. upd_field Hlen Hi. Qed.

Lemma upd_qkey_spec :
    ∃ qt', arr_upd (set_qkey v) i qt = Some qt' /\ arr_len NQENT qt' /\
      (∀ j, nx qt' j = nx qt j) /\ (∀ j, pv qt' j = pv qt j) /\
      (∀ j, ky qt' j = if decide (j = i) then Some v else ky qt j).
Proof. upd_field Hlen Hi. Qed.
End Upd.

(** Run the next array write of the goal. *)
Ltac upd_step :=
  match goal with
  | |- context [arr_upd (set_qnext ?v) ?i ?qt] =>
      destruct (upd_qnext_spec qt i v) as (? & -> & ? & ? & ? & ?)
  | |- context [arr_upd (set_qprev ?v) ?i ?qt] =>
      destruct (upd_qprev_spec qt i v) as (? & -> & ? & ? & ? & ?)
  | |- context [arr_upd (set_qkey ?v) ?i ?qt] =>
      destruct (upd_qkey_spec qt i v) as (? & -> & ? & ? & ? & ?)
  end; [assumption | first [assumption | unfold NQENT, NPROC, NSEM, queuetail, queuehead in *; lia] | simpl].

(** Rewrite the link functions of the updated tables back to the first one. *)
Ltac links :=
  repeat match goal with
  | H : ∀ j, nx ?t j = _ |- context [nx ?t ?i] => rewrite (H i)
  | H : ∀ j, pv ?t j = _ |- context [pv ?t ?i] => rewrite (H i)
  | H : ∀ j, ky ?t j = _ |- context [ky ?t ?i] => rewrite (H i)
  end.

(** [pid] has been put between [prev] and [next]. *)
Record linked (qt qt' : qtab) (prev pid next : Z) : Prop := {
  lk_len : arr_len NQENT qt';
  lk_nx : ∀ i, nx qt' i = if decide (i = pid) then Some next
                          else if decide (i = prev) then Some pid else nx qt i;
  lk_pv : ∀ i, pv qt' i = if decide (i = pid) then Some prev
                          else if decide (i = next) then Some pid else pv qt i;
}.

(** The node between [prev] and [next] has been taken out. *)
Record unlinked (qt qt' : qtab) (prev pid next : Z) : Prop := {
  ul_len : arr_len NQENT qt';
  ul_nx : ∀ i, i ≠ pid -> nx qt' i = if decide (i = prev) then Some next else nx qt i;
  ul_pv : ∀ i, i ≠ pid -> pv qt' i = if decide (i = next) then Some prev else pv qt i;
}.

Section Rep.
Context (qt : qtab) (Q : queues).
Hypothesis HQ : qrep qt Q.

Lemma qrep_lookup i : 0 <= i < NQENT -> is_Some (qt !! i).
Proof. apply (qrep_len _ _ HQ). Qed.

Lemma qrep_notin q q' l : qid_ok q' -> Q !! q = Some l -> (q' ∉ l) /\ (q' + 1 ∉ l).
Proof.
    intros Hq Hl. split; intros Hin; apply (qrep_pid _ _ HQ _ _ _ Hl) in Hin;
      unfold qid_ok in *; lia.
Qed.

Lemma qrep_isbadqid q l : Q !! q = Some l -> isbadqid q = false.
Proof.
    intros Hl. destruct (qrep_id _ _ HQ _ _ Hl) as (H1 & H2 & _).
    unfold isbadqid, NQENT, NPROC, NSEM in *.
    rewrite (proj2 (Z.ltb_ge q 0)) by lia. rewrite Z.geb_leb.
    by rewrite (proj2 (Z.leb_gt _ _)) by lia.
Qed.

Lemma qrep_firstid q l : Q !! q = Some l -> firstid qt q = Some (hd (q + 1) l).
Proof. intros Hl. exact (dseg_first _ _ _ _ _ (qrep_seg _ _ HQ _ _ Hl)). Qed.

Lemma qrep_lastid q l : Q !! q = Some l -> lastid qt q = Some (last_or q l).
Proof. intros Hl. exact (dseg_last _ _ _ _ _ (qrep_seg _ _ HQ _ _ Hl)). Qed.

Lemma qrep_hd_ge q l : Q !! q = Some l -> (hd (q + 1) l >=? NPROC) = bool_decide (l = []).
Proof.
    intros Hl. destruct l as [|x l]; simpl.
    - destruct (qrep_id _ _ HQ _ _ Hl) as (H1 & _ & _).
      rewrite Z.geb_leb. apply Z.leb_le. lia.
    - pose proof (qrep_pid _ _ HQ _ _ x Hl ltac:(set_solver)).
      rewrite Z.geb_leb. apply Z.leb_gt. lia.
Qed.

Lemma qrep_isempty q l : Q !! q = Some l -> isempty qt q = Some (bool_decide (l = [])).
Proof.
    intros Hl. unfold isempty. rewrite (qrep_firstid _ _ Hl). simpl.
    by rewrite (qrep_hd_ge _ _ Hl).
Qed.

Lemma qrep_nonempty q l : Q !! q = Some l -> nonempty qt q = Some (bool_decide (l ≠ [])).
Proof.
    intros Hl. unfold nonempty. rewrite (qrep_firstid _ _ Hl). simpl.
    pose proof (qrep_hd_ge _ _ Hl) as Hge.
    rewrite Z.geb_leb, Z.leb_antisym in Hge. apply (f_equal negb) in Hge.
    rewrite negb_involutive in Hge. rewrite Hge. f_equal.
    by rewrite bool_decide_not.
Qed.

Lemma qrep_last_range q l1 l2 :
    Q !! q = Some (l1 ++ l2) -> 0 <= last_or q l1 < NQENT /\ 0 <= hd (q + 1) l2 < NQENT.
Proof.
    intros Hl. pose proof (qrep_id _ _ HQ _ _ Hl) as (H1 & H2 & _).
    unfold NQENT, NPROC, NSEM in *. split.
    - destruct (last_or_in q l1) as [[-> _]|Hin]; [lia|].
      pose proof (qrep_pid _ _ HQ _ _ (last_or q l1) Hl ltac:(set_solver)).
      unfold NPROC in *. lia.
    - destruct (hd_in (q + 1) l2) as [[-> _]|Hin]; [lia|].
      pose proof (qrep_pid _ _ HQ _ _ (hd (q + 1) l2) Hl ltac:(set_solver)).
      unfold NPROC in *. lia.
Qed.

  (** The neighbours of a link are not on another queue. *)
Lemma qrep_other q l q' l' i :
    Q !! q = Some l -> Q !! q' = Some l' -> q ≠ q' -> i ∈ q :: (q + 1) :: l ->
    i ≠ q' /\ i ≠ q' + 1 /\ i ∉ l'.
Proof.
    intros Hl Hl' Hne Hi.
    destruct (qrep_id _ _ HQ _ _ Hl) as (H1 & H2 & He).
    destruct (qrep_id _ _ HQ _ _ Hl') as (H1' & H2' & He').
    pose proof (even_succ_neq q q' He He'). pose proof (even_succ_neq q' q He' He).
    rewrite !elem_of_cons in Hi. destruct Hi as [->|[->|Hi]].
    - repeat split; [lia|lia|]. apply (qrep_notin _ _ _ (qrep_id _ _ HQ _ _ Hl) Hl').
    - repeat split; [lia|lia|]. apply (qrep_notin _ _ _ (qrep_id _ _ HQ _ _ Hl) Hl').
    - pose proof (qrep_pid _ _ HQ _ _ _ Hl Hi). repeat split; [lia|lia|].
      intros Hi'. destruct Hne. by eapply (qrep_disj _ _ HQ).
Qed.
End Rep.

(** * Linking and unlinking on the abstract queues *)

Lemma qrep_link qt qt' Q q l1 l2 pid :
  qrep qt Q -> Q !! q = Some (l1 ++ l2) ->
  0 <= pid < NPROC -> off_queues Q pid ->
  linked qt qt' (last_or q l1) pid (hd (q + 1) l2) ->
  (∀ i, NPROC <= i -> ky qt' i = ky qt i) ->
  qrep qt' (<[q := l1 ++ pid :: l2]> Q).
Proof.
  intros HQ Hl Hpid Hoff [Hlen Hnx Hpv] Hky.
  assert (Hin : last_or q l1 ∈ q :: (q + 1) :: l1 ++ l2 /\ hd (q + 1) l2 ∈ q :: (q + 1) :: l1 ++ l2).
  { destruct (last_or_in q l1), (hd_in (q + 1) l2); set_solver. }
  destruct (qrep_id _ _ HQ _ _ Hl) as (Hge & Hlt & Hev).
  destruct (qrep_notin _ _ HQ q q _ (qrep_id _ _ HQ _ _ Hl) Hl) as [Hn1 Hn2].
  assert (Hcase : ∀ q' l', <[q := l1 ++ pid :: l2]> Q !! q' = Some l' ->
     (q' = q /\ l' = l1 ++ pid :: l2) \/ (q' ≠ q /\ Q !! q' = Some l')).
  { intros q' l'. rewrite lookup_insert. case_decide as Hd; [|by right; split; [congruence|]].
    intros [= <-]. by left. }
  constructor.
  - done.
  - intros q' l' [[-> ->]|[_ Hl']]%Hcase; by eapply (qrep_id _ _ HQ).
  - intros q' l' [[-> ->]|[Hne Hl']]%Hcase.
    + eapply dseg_link; [exact (qrep_seg _ _ HQ _ _ Hl)|done|done| | |lia|exact Hnx|exact Hpv].
      * exact (qrep_nodup _ _ HQ _ _ Hl).
      * pose proof (Hoff _ _ Hl). rewrite !not_elem_of_cons. repeat split; [lia|lia|done].
    + pose proof (qrep_other _ _ HQ _ _ _ _ (last_or q l1) Hl Hl' ltac:(congruence) (proj1 Hin)) as (?&?&?).
      pose proof (qrep_other _ _ HQ _ _ _ _ (hd (q+1) l2) Hl Hl' ltac:(congruence) (proj2 Hin)) as (?&?&?).
      pose proof (qrep_id _ _ HQ _ _ Hl') as (?&?&_). pose proof (Hoff _ _ Hl').
      eapply dseg_frame; [exact (qrep_seg _ _ HQ _ _ Hl')| |].
      * intros i Hi. rewrite Hnx, !decide_False; [done| |]; intros ->;
          destruct Hi as [?|?]; first [congruence | lia | done].
      * intros i Hi. rewrite Hpv, !decide_False; [done| |]; intros ->;
          destruct Hi as [?|?]; first [congruence | lia | done].
  - intros q' l' Hl'. rewrite Hky.
    + destruct (Hcase _ _ Hl') as [[-> _]|[_ Hl2]]; by eapply (qrep_tail _ _ HQ).
    + destruct (Hcase _ _ Hl') as [[-> _]|[_ Hl2]]; [lia|].
      destruct (qrep_id _ _ HQ _ _ Hl2); lia.
  - intros q' l' p [[-> ->]|[_ Hl']]%Hcase Hp.
    + apply elem_of_app_cons in Hp as [->|Hp]; [done|]. by eapply (qrep_pid _ _ HQ).
    + by eapply (qrep_pid _ _ HQ).
  - intros q' l' [[-> ->]|[_ Hl']]%Hcase.
    + apply NoDup_app_comm_cons, NoDup_cons. split; [by eapply Hoff|].
      by eapply (qrep_nodup _ _ HQ).
    + by eapply (qrep_nodup _ _ HQ).
  - intros q1 q2 k1 k2 p H1 H2 Hp1 Hp2.
    destruct (Hcase _ _ H1) as [[-> ->]|[Hq1 Hk1]], (Hcase _ _ H2) as [[-> ->]|[Hq2 Hk2]];
      [done| | |by eapply (qrep_disj _ _ HQ)].
    + apply elem_of_app_cons in Hp1 as [->|Hp1]; [by destruct (Hoff _ _ Hk2)|].
      by eapply (qrep_disj _ _ HQ).
    + apply elem_of_app_cons in Hp2 as [->|Hp2]; [by destruct (Hoff _ _ Hk1)|].
      by eapply (qrep_disj _ _ HQ).
Qed.

Lemma qrep_unlink qt qt' Q q l1 l2 pid :
  qrep qt Q -> Q !! q = Some (l1 ++ pid :: l2) ->
  unlinked qt qt' (last_or q l1) pid (hd (q + 1) l2) ->
  (∀ i, NPROC <= i -> ky qt' i = ky qt i) ->
  qrep qt' (<[q := l1 ++ l2]> Q).
Proof.
  intros HQ Hl [Hlen Hnx Hpv] Hky.
  assert (Hin : last_or q l1 ∈ q :: (q + 1) :: l1 ++ pid :: l2 /\
                hd (q + 1) l2 ∈ q :: (q + 1) :: l1 ++ pid :: l2).
  { destruct (last_or_in q l1), (hd_in (q + 1) l2); set_solver. }
  destruct (qrep_id _ _ HQ _ _ Hl) as (Hge & Hlt & Hev).
  destruct (qrep_notin _ _ HQ q q _ (qrep_id _ _ HQ _ _ Hl) Hl) as [Hn1 Hn2].
  pose proof (qrep_pid _ _ HQ _ _ pid Hl ltac:(set_solver)) as Hpid.
  pose proof (qrep_nodup _ _ HQ _ _ Hl) as Hnd.
  assert (Hcase : ∀ q' l', <[q := l1 ++ l2]> Q !! q' = Some l' ->
     (q' = q /\ l' = l1 ++ l2) \/ (q' ≠ q /\ Q !! q' = Some l')).
  { intros q' l'. rewrite lookup_insert. case_decide as Hd; [|by right; split; [congruence|]].
    intros [= <-]. by left. }
  constructor.
  - done.
  - intros q' l' [[-> ->]|[_ Hl']]%Hcase; by eapply (qrep_id _ _ HQ).
  - intros q' l' [[-> ->]|[Hne Hl']]%Hcase.
    + eapply dseg_unlink; [exact (qrep_seg _ _ HQ _ _ Hl)| | |exact Hnd| | | |exact Hnx|exact Hpv];
        set_solver by lia.
    + pose proof (qrep_other _ _ HQ _ _ _ _ (last_or q l1) Hl Hl' ltac:(congruence) (proj1 Hin)) as (?&?&?).
      pose proof (qrep_other _ _ HQ _ _ _ _ (hd (q+1) l2) Hl Hl' ltac:(congruence) (proj2 Hin)) as (?&?&?).
      pose proof (qrep_other _ _ HQ _ _ _ _ pid Hl Hl' ltac:(congruence) ltac:(set_solver)) as (?&?&?).
      eapply dseg_frame; [exact (qrep_seg _ _ HQ _ _ Hl')| |].
      * intros i Hi. rewrite Hnx, ?decide_False; [done| |]; intros ->;
          destruct Hi as [?|?]; first [congruence | lia | done].
      * intros i Hi. rewrite Hpv, ?decide_False; [done| |]; intros ->;
          destruct Hi as [?|?]; first [congruence | lia | done].
  - intros q' l' Hl'. rewrite Hky.
    + destruct (Hcase _ _ Hl') as [[-> _]|[_ Hl2]]; by eapply (qrep_tail _ _ HQ).
    + destruct (Hcase _ _ Hl') as [[-> _]|[_ Hl2]]; [lia|].
      destruct (qrep_id _ _ HQ _ _ Hl2); lia.
  - intros q' l' p [[-> ->]|[_ Hl']]%Hcase Hp.
    + apply (qrep_pid _ _ HQ _ _ p Hl). set_solver.
    + by eapply (qrep_pid _ _ HQ).
  - intros q' l' [[-> ->]|[_ Hl']]%Hcase.
    + apply NoDup_app_comm_cons, NoDup_cons in Hnd. tauto.
    + by eapply (qrep_nodup _ _ HQ).
  - intros q1 q2 k1 k2 p H1 H2 Hp1 Hp2.
    destruct (Hcase _ _ H1) as [[-> ->]|[Hq1 Hk1]], (Hcase _ _ H2) as [[-> ->]|[Hq2 Hk2]];
      [done| | |by eapply (qrep_disj _ _ HQ)].
    + apply (qrep_disj _ _ HQ _ _ _ _ p Hl Hk2); [set_solver|done].
    + apply (qrep_disj _ _ HQ _ _ _ _ p Hk1 Hl); [done|set_solver].
Qed.

(** * The operations refine list operations *)

(** Longest prefix whose keys are at least [key], and the rest. *)
Fixpoint span_ge (k : Z -> Z) (key : Z) (l : list Z) : list Z * list Z :=
  match l with
  | [] => ([], [])
  | y :: l' => if k y >=? key then let r := span_ge k key l' in (y :: r.1, r.2) else ([], l)
  end.

(** What insert does to a queue: descending keys, first come first served. *)
Definition ins_desc (k : Z -> Z) (key pid : Z) (l : list Z) : list Z :=
  let r := span_ge k key l in r.1 ++ pid :: r.2.

(** What insertd does: a delta list of processes and delays.  The remaining
    key is returned with the split. *)
Fixpoint span_delta (k : Z -> Z) (key : Z) (l : list Z) : list Z * Z * list Z :=
  match l with
  | [] => ([], key, [])
  | y :: l' =>
      if k y <=? key
      then let r := span_delta k (s32 (key - k y)) l' in (y :: r.1.1, r.1.2, r.2)
      else ([], key, l)
  end.

Lemma span_ge_app k key l : (span_ge k key l).1 ++ (span_ge k key l).2 = l.
Proof. induction l as [|y l IH]; simpl; [done|]. case_if; simpl; congruence. Qed.

Lemma span_delta_app k key l :
  (span_delta k key l).1.1 ++ (span_delta k key l).2 = l.
Proof.
  revert key. induction l as [|y l IH]; intros key; simpl; [done|].
  case_if; simpl; [|done]. by rewrite IH.
Qed.

Lemma range_NoDup_length l : NoDup l -> (∀ p, p ∈ l -> 0 <= p < NPROC) -> (length l <= 100)%nat.
Proof.
  intros Hnd Hr.
  assert (Hs : l ⊆+ (Z.of_nat <$> seq 0 100)).
  { apply NoDup_submseteq; [done|]. intros p Hp. apply list_elem_of_fmap.
    exists (Z.to_nat p). specialize (Hr p Hp). unfold NPROC in Hr. split; [lia|].
    apply elem_of_seq. lia. }
  apply submseteq_length in Hs. by rewrite length_fmap, length_seq in Hs.
Qed.

Lemma keyof_ky qt i e : qt !! i = Some e -> e.(qkey) = keyof qt i.
Proof. intros H. unfold keyof. by rewrite (ky_Some _ _ _ H). Qed.

Lemma insert_scan_seg qt key l : ∀ fuel a b,
  dseg (nx qt) (pv qt) a l b -> ky qt b = Some MINKEY -> MINKEY < key ->
  (length l < fuel)%nat ->
  insert_scan fuel qt (hd b l) key = Some (hd b (span_ge (keyof qt) key l).2).
Proof.
  induction l as [|y l IH]; intros [|fuel] a b Hs Hb Hk Hf; simpl in *; try lia.
  - destruct (ky_inv _ _ _ Hb) as (e & He & Hek). rewrite He. simpl.
    rewrite Hek, Z.geb_leb. by rewrite (proj2 (Z.leb_gt _ _)).
  - destruct Hs as (Ha & Hy & Hs).
    destruct (pv_inv _ _ _ Hy) as (e & He & _). rewrite He. simpl.
    rewrite (keyof_ky _ _ _ He). case_if; [|done].
    pose proof (dseg_first _ _ _ _ _ Hs) as Hn. rewrite (nx_Some _ _ _ He) in Hn.
    injection Hn as ->. eapply IH; eauto with lia.
Qed.

Lemma insertd_scan_seg qt q l : ∀ fuel a key,
  dseg (nx qt) (pv qt) a l (queuetail q) -> queuetail q ∉ l ->
  (length l < fuel)%nat ->
  let r := span_delta (keyof qt) key l in
  insertd_scan fuel qt q a (hd (queuetail q) l) key =
    Some (last_or a r.1.1, hd (queuetail q) r.2, r.1.2).
Proof.
  induction l as [|y l IH]; intros [|fuel] a key Hs Hq Hf; simpl in *; try lia.
  - by rewrite Z.eqb_refl.
  - destruct Hs as (Ha & Hy & Hs). apply not_elem_of_cons in Hq as [Hqy Hq].
    rewrite (proj2 (Z.eqb_neq _ _)) by congruence.
    destruct (pv_inv _ _ _ Hy) as (e & He & _). rewrite He. simpl.
    rewrite (keyof_ky _ _ _ He). case_if; [|done].
    pose proof (dseg_first _ _ _ _ _ Hs) as Hn. rewrite (nx_Some _ _ _ He) in Hn.
    injection Hn as ->. simpl. rewrite last_or_cons. apply IH; eauto with lia.
Qed.

#[global] Arguments insert_scan : simpl never.
#[global] Arguments insertd_scan : simpl never.

Section Ops.
Context (pt : ptab) (qt : qtab) (Q : queues).
Hypothesis HQ : qrep qt Q.
Context (q : Z) (l : list Z).
Hypothesis Hl : Q !! q = Some l.

Local Ltac start :=
    pose proof (qrep_len _ _ HQ) as Hlen;
    destruct (qrep_id _ _ HQ _ _ Hl) as (Hge & Hlt & Hev);
    unfold NQENT, NPROC, NSEM in Hge, Hlt.

Lemma off_neq pid l1 l2 :
    0 <= pid < NPROC -> off_queues Q pid -> l = l1 ++ l2 ->
    pid ≠ last_or q l1 /\ pid ≠ hd (q + 1) l2.
Proof.
    intros Hp Hoff ->. start. pose proof (Hoff _ _ Hl) as Hni. unfold NPROC in Hp.
    destruct (last_or_in q l1) as [[H1 _]|H1], (hd_in (q + 1) l2) as [[H2 _]|H2];
      split; try lia; intros ->; set_solver.
Qed.

Lemma enqueue_spec pid :
    isbadpid pt pid = false -> off_queues Q pid ->
    ∃ qt', enqueue pt pid q qt = Some (pid, qt') /\
           qrep qt' (<[q := l ++ [pid]]> Q) /\ ∀ i, ky qt' i = ky qt i.
Proof.
    intros Hbad Hoff. start.
    destruct (proj1 (isbadpid_false _ _) Hbad) as [Hp _].
    assert (Hl0 : Q !! q = Some (l ++ [])) by by rewrite app_nil_r.
    destruct (off_neq pid l [] Hp Hoff) as [Hn1 Hn2]; [by rewrite app_nil_r|].
    destruct (qrep_last_range _ _ HQ _ _ _ Hl0) as [Hr1 Hr2].
    unfold enqueue. rewrite (qrep_isbadqid _ _ HQ _ _ Hl), Hbad. simpl.
    pose proof (qrep_lastid _ _ HQ _ _ Hl) as Hlast. unfold lastid in Hlast.
    destruct (qt !! queuetail q) as [te|]; simpl in *; [|done]. injection Hlast as ->.
    do 4 upd_step. eexists. split; [done|]. split; [|intros i; by links].
    eapply qrep_link; [exact HQ|exact Hl0|done|done| |intros; by links].
    constructor; [done| |]; intros i; links; unfold queuetail; simpl;
      repeat case_decide; congruence.
Qed.

Lemma getitem_spec l1 pid l2 :
    l = l1 ++ pid :: l2 ->
    ∃ qt', getitem pid qt = Some (pid, qt') /\
           qrep qt' (<[q := l1 ++ l2]> Q) /\ ∀ i, ky qt' i = ky qt i.
Proof.
    intros ->. start.
    pose proof (qrep_seg _ _ HQ _ _ Hl) as Hs.
    apply dseg_app in Hs as [Hs1 Hs2].
    assert (Hl1 : Q !! q = Some ((l1 ++ [pid]) ++ l2)) by by rewrite <- app_assoc.
    destruct (qrep_last_range _ _ HQ _ _ _ Hl) as [Hr1 _].
    destruct (qrep_last_range _ _ HQ _ _ _ Hl1) as [_ Hr2].
    pose proof (dseg_last _ _ _ _ _ Hs1) as Hp. pose proof (dseg_first _ _ _ _ _ Hs2) as Hn.
    destruct (pv_inv _ _ _ Hp) as (e & He & Hep). rewrite (nx_Some _ _ _ He) in Hn.
    injection Hn as Hen.
    unfold getitem. rewrite He. simpl. rewrite Hep, Hen. do 2 upd_step.
    eexists. split; [done|]. split; [|intros i; by links].
    eapply qrep_unlink; [exact HQ|exact Hl| |intros; by links].
    constructor; [done| |]; intros i Hi; by links.
Qed.

Lemma getfirst_nil : l = [] -> getfirst q qt = Some (EMPTY, qt).
Proof. intros ->. unfold getfirst. by rewrite (qrep_isempty _ _ HQ _ _ Hl). Qed.

Lemma getfirst_cons pid l' :
    l = pid :: l' ->
    ∃ qt', getfirst q qt = Some (pid, qt') /\
           qrep qt' (<[q := l']> Q) /\ ∀ i, ky qt' i = ky qt i.
Proof.
    intros Heq. destruct (getitem_spec [] pid l' Heq) as (qt' & Hg & H).
    exists qt'. split; [|exact H]. unfold getfirst.
    rewrite (qrep_isempty _ _ HQ _ _ Hl), Heq. simpl.
    pose proof (qrep_firstid _ _ HQ _ _ Hl) as Hf. unfold firstid in Hf.
    destruct (qt !! queuehead q) as [e|]; simpl in *; [|done].
    injection Hf as ->. by rewrite Heq.
Qed.

Lemma getlast_snoc pid l' :
    l = l' ++ [pid] ->
    ∃ qt', getlast q qt = Some (pid, qt') /\
           qrep qt' (<[q := l']> Q) /\ ∀ i, ky qt' i = ky qt i.
Proof.
    intros Heq. destruct (getitem_spec l' pid [] Heq) as (qt' & Hg & H).
    rewrite app_nil_r in H. exists qt'. split; [|exact H]. unfold getlast.
    rewrite (qrep_isempty _ _ HQ _ _ Hl), Heq. simpl.
    rewrite bool_decide_eq_false_2 by (by destruct l').
    pose proof (qrep_lastid _ _ HQ _ _ Hl) as Hf. unfold lastid in Hf.
    destruct (qt !! queuetail q) as [e|]; simpl in *; [|done].
    injection Hf as ->. by rewrite Heq, last_or_snoc.
Qed.
End Ops.

(** An entry that is on no queue may change freely. *)
Lemma qrep_off qt qt' Q pid :
  qrep qt Q -> 0 <= pid < NPROC -> off_queues Q pid -> arr_len NQENT qt' ->
  (∀ i, i ≠ pid -> nx qt' i = nx qt i /\ pv qt' i = pv qt i /\ ky qt' i = ky qt i) ->
  qrep qt' Q.
Proof.
  intros HQ Hp Hoff Hlen Heq. destruct HQ as [H1 H2 H3 H4 H5 H6 H7].
  constructor; try done.
  - intros q l Hl. pose proof (Hoff _ _ Hl). destruct (H2 _ _ Hl) as (?&?&_).
    eapply dseg_frame; [by apply H3| |]; intros i [->|Hi]; apply Heq; first [lia | congruence].
  - intros q l Hl. destruct (H2 _ _ Hl) as (?&?&_). rewrite <- (H4 _ _ Hl). apply Heq. lia.
Qed.

Lemma off_queues_insert Q q l p : off_queues Q p -> p ∉ l -> off_queues (<[q := l]> Q) p.
Proof.
  intros Hoff Hl q' l'. rewrite lookup_insert. case_decide; [intros [= <-]; done|apply Hoff].
Qed.

(** A process is on one queue only, so it is off the others. *)
Lemma off_queues_remove qt Q q l1 pid l2 :
  qrep qt Q -> Q !! q = Some (l1 ++ pid :: l2) -> off_queues (<[q := l1 ++ l2]> Q) pid.
Proof.
  intros HQ Hl q' l'. rewrite lookup_insert. case_decide as Hd.
  - intros [= <-]. pose proof (qrep_nodup _ _ HQ _ _ Hl) as Hnd.
    apply NoDup_app_comm_cons, NoDup_cons in Hnd. tauto.
  - intros Hl' Hin. destruct Hd. eapply (qrep_disj _ _ HQ); [exact Hl|exact Hl'| |exact Hin].
    set_solver.
Qed.

Section Ops2.
Context (pt : ptab) (qt : qtab) (Q : queues).
Hypothesis HQ : qrep qt Q.
Context (q : Z) (l : list Z).
Hypothesis Hl : Q !! q = Some l.

Local Ltac start :=
    pose proof (qrep_len _ _ HQ) as Hlen;
    destruct (qrep_id _ _ HQ _ _ Hl) as (Hge & Hlt & Hev);
    unfold NQENT, NPROC, NSEM in Hge, Hlt.

Lemma dequeue_nil : l = [] -> dequeue q qt = Some (EMPTY, qt).
Proof.
    intros ->. unfold dequeue.
    by rewrite (qrep_isbadqid _ _ HQ _ _ Hl), (qrep_isempty _ _ HQ _ _ Hl).
Qed.

Lemma dequeue_cons pid l' :
    l = pid :: l' ->
    ∃ qt', dequeue q qt = Some (pid, qt') /\
           qrep qt' (<[q := l']> Q) /\ ∀ i, ky qt' i = ky qt i.
Proof.
    intros Heq. start.
    pose proof (qrep_pid _ _ HQ _ _ pid Hl ltac:(rewrite Heq; set_solver)) as Hp.
    destruct (getfirst_cons _ _ HQ _ _ Hl _ _ Heq) as (qt1 & Hg & HQ1 & Hk1).
    unfold dequeue.
    rewrite (qrep_isbadqid _ _ HQ _ _ Hl), (qrep_isempty _ _ HQ _ _ Hl), Heq. simpl.
    rewrite Hg. simpl. pose proof (qrep_len _ _ HQ1) as Hlen1. unfold NPROC in Hp.
    do 2 upd_step. eexists. split; [done|]. split; [|intros i; by links].
    eapply qrep_off; [exact HQ1|exact Hp| |done|].
    - rewrite Heq in Hl. by eapply (off_queues_remove _ _ _ []).
    - intros i Hi. links. by rewrite !decide_False by congruence.
Qed.

Lemma insert_spec pid key :
    isbadpid pt pid = false -> off_queues Q pid -> MINKEY < key ->
    ∃ qt', insert pt pid q key qt = Some (OK, qt') /\
           qrep qt' (<[q := ins_desc (keyof qt) key pid l]> Q) /\
           ∀ i, ky qt' i = if decide (i = pid) then Some key else ky qt i.
Proof.
    intros Hbad Hoff Hkey. start.
    destruct (proj1 (isbadpid_false _ _) Hbad) as [Hp _].
    pose proof (range_NoDup_length l (qrep_nodup _ _ HQ _ _ Hl)
                  (λ p, qrep_pid _ _ HQ _ _ p Hl)) as Hlong.
    pose proof (qrep_seg _ _ HQ _ _ Hl) as Hs.
    unfold ins_desc. set (r := span_ge (keyof qt) key l) in *.
    assert (Happ : l = r.1 ++ r.2) by (symmetry; apply span_ge_app).
    assert (Hl0 : Q !! q = Some (r.1 ++ r.2)) by by rewrite <- Happ.
    destruct (off_neq _ _ HQ _ _ Hl pid r.1 r.2 Hp Hoff Happ) as [Hn1 Hn2].
    destruct (qrep_last_range _ _ HQ _ _ _ Hl0) as [Hr1 Hr2].
    unfold insert. rewrite (qrep_isbadqid _ _ HQ _ _ Hl), Hbad. simpl.
    rewrite (qrep_firstid _ _ HQ _ _ Hl). simpl.
    rewrite (insert_scan_seg _ _ _ _ _ _ Hs (qrep_tail _ _ HQ _ _ Hl) Hkey)
      by (unfold NQENT, NPROC, NSEM; lia).
    fold r. clearbody r. simpl.
    assert (Hpv : pv qt (hd (q + 1) r.2) = Some (last_or q r.1)).
    { rewrite Happ in Hs. destruct r.2 as [|z r2] eqn:E; simpl.
      - rewrite app_nil_r in Hs. by eapply dseg_last.
      - apply dseg_app in Hs as [Hs _]. by eapply dseg_last. }
    destruct (pv_inv _ _ _ Hpv) as (ce & Hce & Hcp). rewrite Hce. simpl. rewrite Hcp.
    unfold NPROC in Hp. do 5 upd_step.
    eexists. split; [done|]. split; [|intros i; by links].
    eapply qrep_link; [exact HQ|exact Hl0|done|done| |].
    - constructor; [done| |]; intros i; links; repeat case_decide; congruence.
    - intros i Hi. links. rewrite decide_False; [done|unfold NPROC in Hi; lia].
Qed.

Lemma upd_qkeyf_spec (f : Z -> Z) t i :
    arr_len NQENT t -> 0 <= i < NQENT ->
    ∃ t', arr_upd (λ e, set_qkey (f e.(qkey)) e) i t = Some t' /\ arr_len NQENT t' /\
      (∀ j, nx t' j = nx t j) /\ (∀ j, pv t' j = pv t j) /\
      (∀ j, ky t' j = if decide (j = i) then f <$> ky t i else ky t j).
Proof.
    intros Hlen Hi.
    destruct (arr_len_lookup _ _ _ Hlen Hi) as [e He].
    eexists. split; [by apply arr_upd_Some|]. split; [by apply arr_len_insert|].
    split; [|split]; intros j; unfold nx, pv, ky;
      (destruct (decide (j = i)) as [->|];
        [rewrite lookup_insert_eq; rewrite ?He; done | by rewrite lookup_insert_ne]).
Qed.

Lemma insertd_spec pid key :
    isbadpid pt pid = false -> off_queues Q pid ->
    let r := span_delta (keyof qt) key l in
    ∃ qt', insertd pt pid q key qt = Some (OK, qt') /\
           qrep qt' (<[q := r.1.1 ++ pid :: r.2]> Q) /\
           ∀ i, ky qt' i = if decide (i = pid) then Some r.1.2
                           else if decide (head r.2 = Some i)
                                then (λ k, s32 (k - r.1.2)) <$> ky qt i
                                else ky qt i.
Proof.
    intros Hbad Hoff r. start.
    destruct (proj1 (isbadpid_false _ _) Hbad) as [Hp _].
    pose proof (range_NoDup_length l (qrep_nodup _ _ HQ _ _ Hl)
                  (λ p, qrep_pid _ _ HQ _ _ p Hl)) as Hlong.
    pose proof (qrep_seg _ _ HQ _ _ Hl) as Hs.
    assert (Happ : l = r.1.1 ++ r.2) by (symmetry; apply span_delta_app).
    assert (Hl0 : Q !! q = Some (r.1.1 ++ r.2)) by by rewrite <- Happ.
    destruct (off_neq _ _ HQ _ _ Hl pid r.1.1 r.2 Hp Hoff Happ) as [Hn1 Hn2].
    destruct (qrep_last_range _ _ HQ _ _ _ Hl0) as [Hr1 Hr2].
    unfold insertd. rewrite (qrep_isbadqid _ _ HQ _ _ Hl), Hbad. simpl.
    pose proof (qrep_firstid _ _ HQ _ _ Hl) as Hf. unfold firstid in Hf.
    destruct (qt !! queuehead q) as [he|]; simpl in *; [|done]. injection Hf as ->.
    pose proof (insertd_scan_seg qt q l (Z.to_nat NQENT) q key Hs) as Hscan.
    simpl in Hscan. unfold queuetail, queuehead in *.
    rewrite Hscan; [|by apply (qrep_notin _ _ HQ q q _ (qrep_id _ _ HQ _ _ Hl))
                    |unfold NQENT, NPROC, NSEM; lia].
    fold r. clearbody r. simpl. unfold NPROC in Hp. do 5 upd_step.
    assert (Hlk : ∀ t, arr_len NQENT t -> (∀ j, nx t j = nx x3 j) -> (∀ j, pv t j = pv x3 j) ->
              linked qt t (last_or q r.1.1) pid (hd (q + 1) r.2)).
    { intros t ? Hnx Hpv. constructor; [done| |]; intros i; rewrite ?Hnx, ?Hpv; links;
        repeat case_decide; congruence. }
    destruct r.2 as [|z r2] eqn:E; simpl in *.
    - rewrite Z.eqb_refl. simpl. eexists. split; [done|]. split.
      + eapply qrep_link; [exact HQ|exact Hl0|done|done|by apply Hlk|].
        intros i Hi. links. rewrite decide_False; [done|unfold NPROC in Hi; lia].
      + intros i. links. by repeat case_decide.
    - assert (Hz : 0 <= z < NPROC)
        by (apply (qrep_pid _ _ HQ _ _ z Hl); rewrite Happ; set_solver).
      rewrite (proj2 (Z.eqb_neq _ _)) by (unfold NPROC in Hz; lia). simpl.
      destruct (upd_qkeyf_spec (λ k, s32 (k - r.1.2)) x3 z)
        as (t & -> & Ht & Hnx & Hpv & Hky); [done|done|].
      simpl. eexists. split; [done|]. split.
      + eapply qrep_link; [exact HQ|exact Hl0|done|done|by apply Hlk|].
        intros i Hi. rewrite Hky. unfold NPROC in *.
        rewrite decide_False by lia. links. by rewrite decide_False by lia.
      + intros i. rewrite Hky. destruct (decide (i = z)) as [->|Hne].
        * rewrite (decide_False (P := z = pid)) by congruence.
          rewrite decide_True by done. links. by rewrite decide_False by congruence.
        * links. case_decide; [done|]. by rewrite decide_False by congruence.
Qed.
End Ops2.

(** * Ready lists: descending keys *)

Definition desc (k : Z -> Z) (l : list Z) : Prop := StronglySorted (λ a b, k b <= k a) l.

Lemma ins_desc_perm k key pid l : ins_desc k key pid l ≡ₚ pid :: l.
Proof.
  unfold ins_desc. rewrite <- Permutation_middle. by rewrite span_ge_app.
Qed.

Lemma elem_of_ins_desc k key pid l x : x ∈ ins_desc k key pid l <-> x = pid \/ x ∈ l.
Proof. rewrite ins_desc_perm. set_solver. Qed.

Lemma ins_desc_cons k key pid y l :
  ins_desc k key pid (y :: l) =
  if k y >=? key then y :: ins_desc k key pid l else pid :: y :: l.
Proof. unfold ins_desc. simpl. by case_if. Qed.

Lemma ins_desc_sorted k key pid l :
  desc k l -> pid ∉ l ->
  desc (λ i, if decide (i = pid) then key else k i) (ins_desc k key pid l).
Proof.
  set (k' := λ i, if decide (i = pid) then key else k i).
  assert (Hpid : k' pid = key) by (unfold k'; by rewrite decide_True).
  assert (Hk : ∀ x, x ≠ pid -> k' x = k x) by (intros; unfold k'; by rewrite decide_False).
  induction l as [|y l IH]; intros Hs Hin.
  - repeat constructor.
  - apply not_elem_of_cons in Hin as [Hy Hin].
    apply StronglySorted_inv in Hs as [Hs Hy'].
    rewrite ins_desc_cons. case_if; bool_hyps.
    + constructor; [by apply IH|]. apply Forall_forall. intros x Hx.
      apply elem_of_ins_desc in Hx as [->|Hx].
      * rewrite Hpid, Hk by done. lia.
      * rewrite !Hk by (intros ->; done). rewrite Forall_forall in Hy'.
        by apply Hy'.
    + assert (Hs' : desc k' (y :: l)).
      { constructor.
        - clear IH Heqb Hy'. induction Hs as [|z l Hs IH Hz]; constructor.
          + apply IH; set_solver.
          + rewrite Forall_forall in Hz |- *. intros x Hx.
            specialize (Hz _ Hx). rewrite !Hk by set_solver. done.
        - rewrite Forall_forall in Hy' |- *. intros x Hx.
          specialize (Hy' _ Hx). rewrite !Hk by set_solver. done. }
      constructor; [done|]. constructor; [rewrite Hpid, Hk by done; lia|].
      rewrite Forall_forall in Hy' |- *. intros x Hx. specialize (Hy' _ Hx).
      rewrite Hpid, Hk by set_solver. lia.
Qed.

Lemma desc_ext k k' l : (∀ x, x ∈ l -> k x = k' x) -> desc k l -> desc k' l.
Proof.
  intros Hk Hs. induction Hs as [|x l Hs IH Hx]; constructor.
  - apply IH. set_solver.
  - rewrite Forall_forall in Hx |- *. intros y Hy. specialize (Hx _ Hy).
    rewrite <- !Hk by set_solver. done.
Qed.

Lemma desc_app_inv k l1 x l2 : desc k (l1 ++ x :: l2) -> desc k (l1 ++ l2).
Proof.
  induction l1 as [|y l1 IH]; simpl; intros Hs; apply StronglySorted_inv in Hs as [Hs Hx]; [done|].
  constructor; [by apply IH|].
  apply Forall_app in Hx as [H1 H2]. apply Forall_app. split; [done|].
  by inversion H2.
Qed.

Lemma desc_head k x l y : desc k (x :: l) -> y ∈ x :: l -> k y <= k x.
Proof.
  intros Hs Hy. apply StronglySorted_inv in Hs as [_ Hx].
  apply elem_of_cons in Hy as [->|Hy]; [lia|].
  rewrite Forall_forall in Hx. by apply Hx.
Qed.

(** * Delta lists: absolute times *)

(** The time from now at which each process of a delta list is due. *)
Fixpoint delta_abs (k : Z -> Z) (base : Z) (l : list Z) : list (Z * Z) :=
  match l with
  | [] => []
  | y :: l' => (y, base + k y) :: delta_abs k (base + k y) l'
  end.

Lemma delta_abs_ext k k' base l :
  (∀ x, x ∈ l -> k x = k' x) -> delta_abs k base l = delta_abs k' base l.
Proof.
  revert base. induction l as [|y l IH]; intros base Hk; simpl; [done|].
  rewrite <- Hk by set_solver. f_equal. apply IH. set_solver.
Qed.

Lemma delta_abs_app k base l1 l2 :
  delta_abs k base (l1 ++ l2) =
  delta_abs k base l1 ++ delta_abs k (foldl (λ b y, b + k y) base l1) l2.
Proof. revert base. induction l1 as [|y l1 IH]; intros base; simpl; [done|]. by rewrite IH. Qed.

Lemma delta_abs_ge k base l p t :
  (∀ x, x ∈ l -> 0 <= k x) -> (p, t) ∈ delta_abs k base l -> base <= t.
Proof.
  revert base. induction l as [|y l IH]; intros base Hk; simpl; [by intros ?%not_elem_of_nil|].
  pose proof (Hk y ltac:(set_solver)). intros [[= -> ->]|Hin]%elem_of_cons; [lia|].
  apply IH in Hin; [lia|set_solver].
Qed.

(** The scan of insertd stops at the right place, with what is left of the
    delay. *)
Lemma span_delta_spec k l : ∀ base key,
  (∀ x, x ∈ l -> 0 <= k x) -> 0 <= key < 2147483648 ->
  let r := span_delta k key l in
  foldl (λ b y, b + k y) base r.1.1 = base + key - r.1.2 /\ 0 <= r.1.2 < 2147483648 /\
  Forall (λ pt, pt.2 <= base + key) (delta_abs k base r.1.1) /\
  match r.2 with [] => True | z :: _ => r.1.2 < k z end.
Proof.
  induction l as [|y l IH]; intros base key Hk Hkey; simpl.
  - repeat split; [lia|lia|lia|constructor].
  - pose proof (Hk y ltac:(set_solver)) as Hy. case_if; bool_hyps; simpl.
    + rewrite (s32_id (key - k y)) by (unfold is_s32; lia).
      destruct (IH (base + k y) (key - k y)) as (H1 & H2 & H3 & H4); [set_solver|lia|].
      simpl in *. repeat split; [lia|lia|lia| |done].
      constructor; [simpl; lia|]. eapply Forall_impl; [exact H3|]. simpl. intros. lia.
    + repeat split; [lia|lia|lia|constructor|lia].
Qed.

(** * Allocating a queue *)

Lemma newqueue_spec qt Q q :
  qrep qt Q -> qid_ok q -> Q !! q = None ->
  ∃ qt', newqueue q qt = Some (q, q + 2, qt') /\ qrep qt' (<[q := []]> Q) /\
         ∀ i, 0 <= i < NPROC -> ky qt' i = ky qt i.
Proof.
  intros HQ Hq Hnone. pose proof (qrep_len _ _ HQ) as Hlen.
  destruct Hq as (Hge & Hlt & Hev). unfold NQENT, NPROC, NSEM in Hge, Hlt.
  unfold newqueue. rewrite Z.gtb_ltb, (proj2 (Z.ltb_ge _ _)) by (unfold NQENT, NPROC, NSEM; lia).
  rewrite s16_id by lia. do 6 upd_step. eexists. split; [done|]. unfold queuehead, queuetail in *.
  assert (Hcase : ∀ q' l', <[q := []]> Q !! q' = Some l' ->
     (q' = q /\ l' = []) \/ (q' ≠ q /\ Q !! q' = Some l')).
  { intros q' l'. rewrite lookup_insert. case_decide as Hd; [|by right; split; [congruence|]].
    intros [= <-]. by left. }
  split.
  - constructor.
    + done.
    + intros q' l' [[-> ->]|[_ Hl']]%Hcase; [done|by eapply (qrep_id _ _ HQ)].
    + intros q' l' [[-> ->]|[Hne Hl']]%Hcase.
      * simpl. links. by rewrite decide_False, !decide_True by lia.
      * destruct (qrep_id _ _ HQ _ _ Hl') as (Hge' & Hlt' & Hev').
        pose proof (even_succ_neq q q' Hev Hev'). pose proof (even_succ_neq q' q Hev' Hev).
        pose proof (qrep_pid _ _ HQ _ _ q Hl'). pose proof (qrep_pid _ _ HQ _ _ (q + 1) Hl').
        unfold NPROC in *.
        eapply dseg_frame; [exact (qrep_seg _ _ HQ _ _ Hl')| |];
          intros i [->|Hi]; links; rewrite !decide_False; try done; try lia; intros ->; intuition lia.
    + intros q' l' [[-> ->]|[Hne Hl']]%Hcase; links.
      * by rewrite decide_True.
      * destruct (qrep_id _ _ HQ _ _ Hl') as (Hge' & Hlt' & Hev').
        pose proof (even_succ_neq q' q Hev' Hev).
        rewrite !decide_False by lia. by eapply (qrep_tail _ _ HQ).
    + intros q' l' p [[-> ->]|[_ Hl']]%Hcase Hp; [by apply not_elem_of_nil in Hp|].
      by eapply (qrep_pid _ _ HQ).
    + intros q' l' [[-> ->]|[_ Hl']]%Hcase; [constructor|by eapply (qrep_nodup _ _ HQ)].
    + intros q1 q2 k1 k2 p [[-> ->]|[_ H1']]%Hcase [[-> ->]|[_ H2']]%Hcase Hp1 Hp2;
        [done|by apply not_elem_of_nil in Hp1|by apply not_elem_of_nil in Hp2|].
      by eapply (qrep_disj _ _ HQ).
  - intros i Hi. links. unfold NPROC in Hi. by rewrite !decide_False by lia.
Qed.

(** The table before any queue exists. *)
Definition queuetab0 : qtab := arr_make (Z.to_nat NQENT) (Qentry 0 0 0).

Lemma qrep_empty : qrep queuetab0 ∅.
Proof.
  constructor; try (intros; by rewrite lookup_empty in *).
  exact (arr_make_len (Z.to_nat NQENT) (Qentry 0 0 0)).
Qed.

(** The split of insert separates the keys that are at least [key]. *)
Lemma span_ge_split k key l : desc k l ->
  (∀ p, p ∈ (span_ge k key l).1 -> key <= k p) /\ (∀ p, p ∈ (span_ge k key l).2 -> k p < key).
Proof.
  induction l as [|y l IH]; simpl; [set_solver|]. intros Hd.
  pose proof Hd as Hd0. apply StronglySorted_inv in Hd as [Hd Hy].
  destruct (IH Hd) as [IH1 IH2]. case_if; bool_hyps; simpl; split; try set_solver by lia.
  intros p Hp. pose proof (desc_head _ _ _ _ Hd0 Hp). lia.
Qed.

(** * Properties *)

(** C25: insert puts a process in a queue ordered by descending key behind every
    process whose key is at least as large and in front of the others: the queue
    stays sorted, gains exactly this process and every other queue is unchanged. *)
Theorem insert_keeps_priority_order pt qt Q q l pid key :
  qrep qt Q -> Q !! q = Some l -> desc (keyof qt) l ->
  isbadpid pt pid = false -> off_queues Q pid -> MINKEY < key ->
  ∃ qt' l1 l2, l = l1 ++ l2 /\
    insert pt pid q key qt = Some (OK, qt') /\
    qrep qt' (<[q := l1 ++ pid :: l2]> Q) /\
    desc (keyof qt') (l1 ++ pid :: l2) /\
    (∀ p, p ∈ l1 -> key <= keyof qt p) /\ (∀ p, p ∈ l2 -> keyof qt p < key).
Proof.
  intros HQ Hl Hd Hbad Hoff Hkey.
  destruct (insert_spec pt qt Q HQ q l Hl pid key Hbad Hoff Hkey) as (qt' & Hi & HQ' & Hk').
  destruct (span_ge_split (keyof qt) key l Hd) as [Hsp1 Hsp2].
  exists qt', (span_ge (keyof qt) key l).1, (span_ge (keyof qt) key l).2.
  split; [by rewrite span_ge_app|]. do 2 (split; [done|]).
  split; [|by split]. eapply desc_ext; [|exact (ins_desc_sorted _ key pid _ Hd (Hoff _ _ Hl))].
  intros x _. unfold keyof at 2. rewrite Hk'. by case_decide.
Qed.

(** The keys after insertd: those of the processes before the new one stay, and the first
    one after it is relative to the new one. *)
Lemma insertd_keys qt qt' Q q l1 l2 rem pid :
  qrep qt Q -> Q !! q = Some (l1 ++ l2) -> pid ∉ l1 ++ l2 -> 0 <= rem < 2147483648 ->
  (∀ p, p ∈ l1 ++ l2 -> 0 <= keyof qt p < 2147483648) ->
  (∀ i, ky qt' i = if decide (i = pid) then Some rem
                   else if decide (head l2 = Some i) then (λ k, s32 (k - rem)) <$> ky qt i else ky qt i) ->
  keyof qt' pid = rem /\ (∀ x, x ∈ l1 -> keyof qt' x = keyof qt x) /\
  match l2 with
  | [] => True
  | z :: l2' => keyof qt' z = keyof qt z - rem /\ ∀ x, x ∈ l2' -> keyof qt' x = keyof qt x
  end.
Proof.
  intros HQ Hl Hni Hrem Hk Hk'. pose proof (qrep_nodup _ _ HQ _ _ Hl) as Hnd.
  assert (Hkey' : ∀ i, keyof qt' i = if decide (i = pid) then rem
             else if decide (head l2 = Some i) then s32 (keyof qt i - rem) else keyof qt i).
  { intros i. unfold keyof. rewrite Hk'. case_decide; [done|]. case_decide as Hh; [|done].
    destruct l2 as [|z l2]; [done|]. injection Hh as ->.
    destruct (qrep_lookup _ _ HQ i) as [e He].
    { assert (0 <= i < NPROC) by (eapply (qrep_pid _ _ HQ _ _ _ Hl); set_solver).
      unfold NQENT, NPROC, NSEM in *. lia. }
    unfold ky. by rewrite He. }
  split; [by rewrite Hkey', decide_True|]. split.
  - intros x Hx. rewrite Hkey', decide_False by set_solver.
    rewrite decide_False; [done|]. intros Hh. destruct l2 as [|z l2]; [done|].
    injection Hh as ->. apply NoDup_app in Hnd. set_solver.
  - destruct l2 as [|z l2]; [done|]. pose proof (Hk z ltac:(set_solver)). split.
    + rewrite Hkey', decide_False, decide_True by set_solver. apply s32_id. unfold is_s32. lia.
    + intros x Hx. rewrite Hkey', !decide_False; [done| |set_solver].
      intros [= <-]. apply NoDup_app in Hnd as (_ & _ & Hnd). apply NoDup_cons in Hnd. tauto.
Qed.

Lemma sum_keys_ext (k k' : Z -> Z) l : (∀ x, x ∈ l -> k' x = k x) -> ∀ b,
  foldl (λ b y, b + k' y) b l = foldl (λ b y, b + k y) b l.
Proof.
  induction l as [|y l IH]; intros Hk b; simpl; [done|]. rewrite Hk by set_solver. apply IH. set_solver.
Qed.

(** Insertd maintains a delta list.  When no delay of the list is negative,
    inserting [pid] with delay [key] makes [pid] due exactly [key] from now,
    leaves the due time of every other process unchanged, keeps the list ordered
    by due time and keeps every stored delay non-negative. *)
Theorem insertd_preserves_due_times pt qt Q q l pid key :
  qrep qt Q -> Q !! q = Some l -> (∀ p, p ∈ l -> 0 <= keyof qt p < 2147483648) ->
  isbadpid pt pid = false -> off_queues Q pid -> 0 <= key < 2147483648 ->
  ∃ qt' l1 l2 t1 t2, l = l1 ++ l2 /\
    insertd pt pid q key qt = Some (OK, qt') /\
    qrep qt' (<[q := l1 ++ pid :: l2]> Q) /\
    delta_abs (keyof qt) 0 l = t1 ++ t2 /\
    delta_abs (keyof qt') 0 (l1 ++ pid :: l2) = t1 ++ (pid, key) :: t2 /\
    Forall (λ pt, pt.2 <= key) t1 /\ Forall (λ pt, key < pt.2) t2 /\
    (∀ p, p ∈ l1 ++ pid :: l2 -> 0 <= keyof qt' p < 2147483648).
Proof.
  intros HQ Hl Hk Hbad Hoff Hkey. pose proof (Hoff _ _ Hl) as Hni.
  destruct (insertd_spec pt qt Q HQ q l Hl pid key Hbad Hoff) as (qt' & Hi & HQ' & Hk').
  pose proof (span_delta_app (keyof qt) key l) as Happ.
  destruct (span_delta_spec (keyof qt) l 0 key) as (Hsum & Hrem & Hle & Hgt); [intros; by apply Hk|done|].
  destruct (span_delta (keyof qt) key l) as [[l1 rem] l2]. simpl in *. subst l.
  destruct (insertd_keys qt qt' Q q l1 l2 rem pid HQ Hl Hni Hrem Hk Hk') as (Hkp & Hk1 & Hz).
  exists qt', l1, l2, (delta_abs (keyof qt) 0 l1), (delta_abs (keyof qt) (key - rem) l2).
  do 3 (split; [done|]). rewrite !delta_abs_app. simpl.
  rewrite <- (delta_abs_ext (keyof qt) (keyof qt') 0 l1) by (intros; by rewrite Hk1).
  rewrite (sum_keys_ext (keyof qt) (keyof qt') l1 Hk1), Hsum, Hkp. split; [f_equal; f_equal; lia|].
  replace (0 + key - rem + rem) with key by lia. split; [|split; [|split]].
  - do 2 f_equal. destruct l2 as [|z l2]; simpl; [done|]. destruct Hz as [-> Hz].
    replace (key + (keyof qt z - rem)) with (key - rem + keyof qt z) by lia.
    f_equal. apply delta_abs_ext. done.
  - eapply Forall_impl; [exact Hle|]. simpl. intros. lia.
  - apply Forall_forall. intros [x t] Hx. simpl. destruct l2 as [|z l2]; simpl in Hx.
    { by apply not_elem_of_nil in Hx. }
    apply elem_of_cons in Hx as [[= -> ->]|Hx]; [lia|].
    apply delta_abs_ge in Hx; [lia|]. intros y Hy. apply Hk. set_solver.
  - intros p Hp. apply elem_of_app_cons in Hp as [->|Hp]; [by rewrite Hkp|].
    apply elem_of_app in Hp as [Hp|Hp]; [rewrite Hk1 by done; apply Hk; set_solver|].
    pose proof (Hk p ltac:(set_solver)).
    destruct l2 as [|z l2]; [by apply not_elem_of_nil in Hp|]. destruct Hz as [Hz1 Hz2].
    apply elem_of_cons in Hp as [->|Hp]; [rewrite Hz1; lia|]. by rewrite Hz2.
Qed.

(** Newqueue tests [q > NQENT] although [NQENT] entries give the last
    usable identifier [NQENT - 2]: once the table is full, the next call writes
    outside of [queuetab] instead of returning [SYSERR]. *)
Theorem newqueue_full_table_overruns qt :
  arr_len NQENT qt -> newqueue NQENT qt = None.
Proof.
  intros Hlen. unfold newqueue. rewrite Z.gtb_ltb, Z.ltb_irrefl. unfold arr_upd.
  destruct (qt !! queuehead NQENT) as [e|] eqn:E; [|done].
  apply (arr_len_lt _ _ _ _ Hlen) in E. unfold queuehead in E. lia.
Qed.

(** * Concrete tables for the witnesses *)

Definition demo_proc (st : pstate) : procent :=
  Procent st 20 0 0 0 [] (-1) 0 0 false [].

Definition demo_ptab : ptab :=
  {[ 0 := demo_proc PR_CURR; 1 := demo_proc PR_READY; 2 := demo_proc PR_READY;
     3 := demo_proc PR_READY ]}.

(** One queue, [NPROC], holding process 1 with key 20. *)
Definition demo_qtab0 : qtab :=
  match newqueue NPROC queuetab0 with Some (_, _, qt) => qt | None => ∅ end.
Definition demo_qtab : qtab :=
  match insert demo_ptab 1 NPROC 20 demo_qtab0 with Some (_, qt) => qt | None => ∅ end.

Lemma demo_qtab0_rep : qrep demo_qtab0 {[ NPROC := [] ]}.
Proof.
  destruct (newqueue_spec queuetab0 ∅ NPROC qrep_empty) as (qt & Hn & HQ & _); [by repeat split|done|].
  unfold demo_qtab0. by rewrite Hn.
Qed.

Lemma demo_qtab_rep : qrep demo_qtab {[ NPROC := [1] ]}.
Proof.
  destruct (insert_spec demo_ptab _ _ demo_qtab0_rep NPROC [] eq_refl 1 20) as (qt & Hi & HQ & _);
    [done| |done|].
  { intros q l. rewrite lookup_singleton. case_decide; [intros [= <-]; set_solver|done]. }
  unfold demo_qtab. by rewrite Hi.
Qed.

Lemma demo_off p : p ≠ 1 -> off_queues {[ NPROC := [1] ]} p.
Proof. intros Hp q l. rewrite lookup_singleton. case_decide; [intros [= <-]; set_solver|done]. Qed.

Lemma demo_desc : desc (keyof demo_qtab) [1].
Proof. repeat constructor. Qed.

Lemma insert_keeps_priority_order_witness :
  ∃ qt' l1 l2, [1] = l1 ++ l2 /\
    insert demo_ptab 2 NPROC 30 demo_qtab = Some (OK, qt') /\
    qrep qt' (<[NPROC := l1 ++ 2 :: l2]> {[ NPROC := [1] ]}) /\
    desc (keyof qt') (l1 ++ 2 :: l2) /\
    (∀ p, p ∈ l1 -> 30 <= keyof demo_qtab p) /\ (∀ p, p ∈ l2 -> keyof demo_qtab p < 30).
Proof.
  exact (insert_keeps_priority_order demo_ptab demo_qtab _ NPROC [1] 2 30
           demo_qtab_rep eq_refl demo_desc eq_refl (demo_off 2 ltac:(done)) eq_refl).
Defined.

Lemma insertd_preserves_due_times_witness :
  ∃ qt' l1 l2 t1 t2, [1] = l1 ++ l2 /\
    insertd demo_ptab 2 NPROC 50 demo_qtab = Some (OK, qt') /\
    qrep qt' (<[NPROC := l1 ++ 2 :: l2]> {[ NPROC := [1] ]}) /\
    delta_abs (keyof demo_qtab) 0 [1] = t1 ++ t2 /\
    delta_abs (keyof qt') 0 (l1 ++ 2 :: l2) = t1 ++ (2, 50) :: t2 /\
    Forall (λ pt, pt.2 <= 50) t1 /\ Forall (λ pt, 50 < pt.2) t2 /\
    (∀ p, p ∈ l1 ++ 2 :: l2 -> 0 <= keyof qt' p < 2147483648).
Proof.
  apply (insertd_preserves_due_times demo_ptab demo_qtab _ NPROC [1] 2 50
           demo_qtab_rep eq_refl).
  - intros p Hp. apply list_elem_of_singleton in Hp as ->. vm_compute. split; congruence.
  - reflexivity.
  - exact (demo_off 2 ltac:(done)).
  - lia.
Defined.

Lemma newqueue_full_table_overruns_witness :
  arr_len NQENT queuetab0 /\ newqueue NQENT queuetab0 = None.
Proof.
  split; [exact (qrep_len _ _ qrep_empty)|].
  exact (newqueue_full_table_overruns queuetab0 (qrep_len _ _ qrep_empty)).
Defined.
