(* ===== verification/Memory.v ===== *)
(** The heap: system/meminit.c, getmem.c, freemem.c, getstk.c and the macros of
    include/memory.h.

    Memory is a partial map from word addresses to 32-bit words; a word that was
    never written reads as [None].  The free list lives in that memory: the
    header of a free block at address [a] is the pair of words [a] (mnext) and
    [a + 4] (mlength), and the list head [memlist] is such a pair outside of the
    heap.  [mem_rep ms l] says that the memory [ms] holds the free list [l], a
    list of blocks (address, length); each operation refines one on [l]. *)

From S2P Require Import Prelude Types.

(** * Memory and the operations *)

Record memst := Memst {
  words : gmap Z Z;     (** the memory *)
  memlist : Z;          (** address of the list head, set by the linker *)
  minheap : Z;
  maxheap : Z;
}.

Definition set_words (w : gmap Z Z) (ms : memst) : memst :=
  Memst w ms.(memlist) ms.(minheap) ms.(maxheap).

Definition ldw (ms : memst) (a : Z) : option Z := ms.(words) !! a.
Definition stw (a v : Z) (ms : memst) : memst := set_words (<[a := v]> ms.(words)) ms.

Definition NULL : Z := 0.
(** [(char * )SYSERR] *)
Definition PSYSERR : Z := u32 SYSERR.

(** Addresses of the fields of a [struct memblk]. *)
Definition mnext (a : Z) : Z := a.
Definition mlength (a : Z) : Z := a + 4.

(** [roundmb(x)], [truncmb(x)] *)
Definition roundmb (x : Z) : Z := Z.land (u32 (7 + u32 x)) (Z.lnot 7).
Definition truncmb (x : Z) : Z := Z.land (u32 x) (Z.lnot 7).

(** Every free block stores two words, so a walk of the free list takes fewer
    steps than there are stored words. *)
Definition heap_fuel (ms : memst) : nat := S (size ms.(words)).
#[global] Arguments heap_fuel : simpl never.

(** system/meminit.c: meminit; [text_end] is the linker's [&end] and [maxaddr]
    is [MAXADDR]. *)
Definition meminit (text_end maxaddr : Z) (ms : memst) : memst :=
  let ms := Memst ms.(words) ms.(memlist) text_end maxaddr in
  let ms := stw (mnext ms.(memlist)) ms.(minheap) ms in
  let memptr := ms.(minheap) in
  let ms := stw (mnext memptr) NULL ms in
  stw (mlength memptr) (u32 (u32 ms.(maxheap) - u32 ms.(minheap))) ms.

(** [memlist.mlength] is adjusted by [d]. *)
Definition add_total (d : Z) (ms : memst) : option memst :=
  t ← ldw ms (mlength ms.(memlist)); Some (stw (mlength ms.(memlist)) (u32 (t + d)) ms).

(** The loop of getmem. *)
Fixpoint getmem_scan (fuel : nat) (ms : memst) (nbytes prev curr : Z) : option (Z * memst) :=
  match fuel with
  | O => None
  | S fuel =>
      if curr =? NULL then Some (PSYSERR, ms)
      else
        len ← ldw ms (mlength curr);
        if len =? nbytes then
          nxt ← ldw ms (mnext curr);
          let ms := stw (mnext prev) nxt ms in
          ms ← add_total (- nbytes) ms;
          Some (curr, ms)
        else if len >? nbytes then
          let leftover := u32 (curr + nbytes) in
          let ms := stw (mnext prev) leftover ms in
          nxt ← ldw ms (mnext curr);
          let ms := stw (mnext leftover) nxt ms in
          clen ← ldw ms (mlength curr);
          let ms := stw (mlength leftover) (u32 (clen - nbytes)) ms in
          ms ← add_total (- nbytes) ms;
          Some (curr, ms)
        else
          nxt ← ldw ms (mnext curr);
          getmem_scan fuel ms nbytes curr nxt
  end.

(** system/getmem.c: getmem *)
Definition getmem (nbytes : Z) (ms : memst) : option (Z * memst) :=
  if nbytes =? 0 then Some (PSYSERR, ms)
  else
    let nbytes := roundmb nbytes in
    curr ← ldw ms (mnext ms.(memlist));
    getmem_scan (heap_fuel ms) ms nbytes ms.(memlist) curr.

(** The loop of getstk; [fits] is 0 while no block has fitted. *)
Fixpoint getstk_scan (fuel : nat) (ms : memst) (nbytes prev curr fits fitsprev : Z)
  : option (Z * Z) :=
  match fuel with
  | O => None
  | S fuel =>
      if curr =? NULL then Some (fits, fitsprev)
      else
        len ← ldw ms (mlength curr);
        nxt ← ldw ms (mnext curr);
        if len >=? nbytes
        then getstk_scan fuel ms nbytes curr nxt curr prev
        else getstk_scan fuel ms nbytes curr nxt fits fitsprev
  end.

(** system/getstk.c: getstk *)
Definition getstk (nbytes : Z) (ms : memst) : option (Z * memst) :=
  if nbytes =? 0 then Some (PSYSERR, ms)
  else
    let nbytes := roundmb nbytes in
    curr ← ldw ms (mnext ms.(memlist));
    '(fits, fitsprev) ← getstk_scan (heap_fuel ms) ms nbytes ms.(memlist) curr NULL NULL;
    if fits =? NULL then Some (PSYSERR, ms)
    else
      len ← ldw ms (mlength fits);
      '(fits, ms) ←
        (if nbytes =? len then
           nxt ← ldw ms (mnext fits);
           Some (fits, stw (mnext fitsprev) nxt ms)
         else
           let ms := stw (mlength fits) (u32 (len - nbytes)) ms in
           len ← ldw ms (mlength fits);
           Some (u32 (fits + len), ms));
      ms ← add_total (- nbytes) ms;
      Some (u32 (fits + nbytes - 4), ms).

(** The loop of freemem. *)
Fixpoint freemem_walk (fuel : nat) (ms : memst) (block prev next : Z) : option (Z * Z) :=
  match fuel with
  | O => None
  | S fuel =>
      if negb (next =? NULL) && (next <? block) then
        nxt ← ldw ms (mnext next);
        freemem_walk fuel ms block next nxt
      else Some (prev, next)
  end.

(** The rest of freemem, once the neighbours [prev] and [next] are known:
    reject an overlap, link the block in or merge it with what it touches. *)
Definition freemem_link (prev next block nbytes : Z) (ms : memst) : option (Z * memst) :=
  top ← (if prev =? ms.(memlist) then Some NULL
         else plen ← ldw ms (mlength prev); Some (u32 (prev + plen)));
  if (negb (prev =? ms.(memlist)) && (block <? top))
     || (negb (next =? NULL) && (u32 (block + nbytes) >? next))
  then Some (SYSERR, ms)
  else
    ms ← add_total nbytes ms;
    '(block, ms) ←
      (if top =? block then
         plen ← ldw ms (mlength prev);
         Some (prev, stw (mlength prev) (u32 (plen + nbytes)) ms)
       else
         let ms := stw (mnext block) next ms in
         let ms := stw (mlength block) nbytes ms in
         Some (block, stw (mnext prev) block ms));
    blen ← ldw ms (mlength block);
    if u32 (block + blen) =? next then
      nlen ← ldw ms (mlength next);
      let ms := stw (mlength block) (u32 (blen + nlen)) ms in
      nnext ← ldw ms (mnext next);
      Some (OK, stw (mnext block) nnext ms)
    else Some (OK, ms).

(** system/freemem.c: freemem *)
Definition freemem (blkaddr nbytes : Z) (ms : memst) : option (Z * memst) :=
  if (nbytes =? 0) || (blkaddr <? ms.(minheap)) || (blkaddr >? ms.(maxheap))
  then Some (SYSERR, ms)
  else
    let nbytes := roundmb nbytes in
    let block := blkaddr in
    first ← ldw ms (mnext ms.(memlist));
    '(prev, next) ← freemem_walk (heap_fuel ms) ms block ms.(memlist) first;
    freemem_link prev next block nbytes ms.

(** [freestk(p, len)] *)
Definition freestk (p len : Z) (ms : memst) : option (Z * memst) :=
  freemem (u32 (u32 (u32 p - roundmb len) + 4)) (roundmb len) ms.

(** * The abstract free list *)

Abbreviation blocks := (list (Z * Z)).

(** Blocks in address order inside [lo, hi), 8-byte aligned, never adjacent. *)
Fixpoint fl_ok (lo hi : Z) (l : blocks) : Prop :=
  match l with
  | [] => True
  | (a, n) :: l' =>
      lo <= a /\ 0 < n /\ a mod 8 = 0 /\ n mod 8 = 0 /\ a + n <= hi /\ fl_ok (a + n + 1) hi l'
  end.

(** The bytes that are free. *)
Definition fl_bytes (l : blocks) (x : Z) : Prop := ∃ a n, (a, n) ∈ l /\ a <= x < a + n.

(** First fit. *)
Fixpoint fl_getmem (nb : Z) (l : blocks) : option (Z * blocks) :=
  match l with
  | [] => None
  | (a, n) :: l' =>
      if n =? nb then Some (a, l')
      else if n >? nb then Some (a, (a + nb, n - nb) :: l')
      else r ← fl_getmem nb l'; Some (r.1, (a, n) :: r.2)
  end.

(** Highest fit, taken from the top of the block. *)
Fixpoint fl_getstk (nb : Z) (l : blocks) : option (Z * blocks) :=
  match l with
  | [] => None
  | (a, n) :: l' =>
      match fl_getstk nb l' with
      | Some (x, l'') => Some (x, (a, n) :: l'')
      | None =>
          if n =? nb then Some (a, l')
          else if n >? nb then Some (a + (n - nb), (a, n - nb) :: l')
          else None
      end
  end.

(** Insertion of a block, merged with the neighbours it touches; [None] when it
    overlaps one. *)
Fixpoint fl_freemem (b nb : Z) (l : blocks) : option blocks :=
  match l with
  | [] => Some [(b, nb)]
  | (a, n) :: l' =>
      if a <? b then
        if b <? a + n then None
        else if b =? a + n then
          match l' with
          | (a2, n2) :: l'' =>
              if a2 <? b + nb then None
              else if a2 =? b + nb then Some ((a, n + nb + n2) :: l'')
              else Some ((a, n + nb) :: l')
          | [] => Some [(a, n + nb)]
          end
        else r ← fl_freemem b nb l'; Some ((a, n) :: r)
      else if a <? b + nb then None
      else if a =? b + nb then Some ((b, nb + n) :: l')
      else Some ((b, nb) :: l)
  end.

(** ** Representation *)

(** From the pointer [p], memory [w] holds the list [l]. *)
Fixpoint flist (w : gmap Z Z) (p : Z) (l : blocks) : Prop :=
  match l with
  | [] => p = NULL
  | (a, n) :: l' =>
      p = a /\ w !! mlength a = Some n /\ ∃ nxt, w !! mnext a = Some nxt /\ flist w nxt l'
  end.

Record mem_rep (ms : memst) (l : blocks) : Prop := {
  mr_list : ∃ p, ldw ms (mnext ms.(memlist)) = Some p /\ flist ms.(words) p l;
  mr_total : is_Some (ldw ms (mlength ms.(memlist)));
  mr_ok : fl_ok ms.(minheap) ms.(maxheap) l;
  mr_head : 0 < ms.(memlist) /\ ms.(memlist) + 8 <= ms.(minheap);
  mr_max : ms.(maxheap) <= 4294967288;
}.

(** Memory outside of the free bytes and of the list head is not written. *)
Definition frame_ok (l : blocks) (ms ms' : memst) : Prop :=
  ms'.(memlist) = ms.(memlist) /\ ms'.(minheap) = ms.(minheap) /\
  ms'.(maxheap) = ms.(maxheap) /\
  ∀ x, ~ fl_bytes l x -> x ≠ ms.(memlist) -> x ≠ ms.(memlist) + 4 ->
       ms'.(words) !! x = ms.(words) !! x.

(** * The pointer code refines the list operations *)

Ltac mem_simp :=
  repeat first
    [ progress (unfold ldw, stw, set_words, mnext, mlength, NULL in *; simpl in *)
    | rewrite lookup_insert_eq
    | match goal with
      | |- context [<[?i := ?v]> ?m !! ?j] => rewrite (lookup_insert_ne m i j v) by lia
      end ].

Lemma mod8_lt a b : a mod 8 = 0 -> b mod 8 = 0 -> a < b -> a + 8 <= b.
Proof. intros. Z.div_mod_to_equations. lia. Qed.

Lemma mod8_add a b : a mod 8 = 0 -> b mod 8 = 0 -> (a + b) mod 8 = 0.
Proof. intros. Z.div_mod_to_equations. lia. Qed.

Lemma mod8_sub a b : a mod 8 = 0 -> b mod 8 = 0 -> (a - b) mod 8 = 0.
Proof. intros. Z.div_mod_to_equations. lia. Qed.

Lemma roundmb_div x : is_u32 x -> roundmb x = u32 (7 + x) - u32 (7 + x) mod 8.
Proof.
  intros Hx. unfold roundmb. rewrite (u32_id x) by done.
  change (Z.lnot 7) with (Z.lnot (Z.ones 3)).
  rewrite <- Z.ldiff_land, Z.ldiff_ones_r by lia.
  rewrite Z.shiftl_mul_pow2, Z.shiftr_div_pow2 by lia. change (2 ^ 3) with 8.
  pose proof (Z.div_mod (u32 (7 + x)) 8). lia.
Qed.

(** For a request that does not wrap, [roundmb] is the next multiple of 8. *)
Lemma roundmb_spec x :
  0 < x <= 4294967288 ->
  roundmb x mod 8 = 0 /\ x <= roundmb x < x + 8 /\ 0 < roundmb x <= 4294967288.
Proof.
  intros Hx. rewrite roundmb_div by (unfold is_u32; lia).
  rewrite u32_id by (unfold is_u32; lia). Z.div_mod_to_equations. lia.
Qed.

Lemma roundmb_id x : 0 < x <= 4294967288 -> x mod 8 = 0 -> roundmb x = x.
Proof.
  intros Hx Hm. destruct (roundmb_spec x Hx) as (H1 & H2 & _).
  Z.div_mod_to_equations. lia.
Qed.

Lemma fl_ok_mono lo lo' hi l : fl_ok lo hi l -> lo' <= lo -> fl_ok lo' hi l.
Proof. destruct l as [|[a n] l]; simpl; [done|]. intuition lia. Qed.

Lemma fl_bytes_range lo hi l x : fl_ok lo hi l -> fl_bytes l x -> lo <= x < hi.
Proof.
  revert lo. induction l as [|[a n] l IH]; simpl; intros lo Hok (a' & n' & Hin & Hx).
  - by apply not_elem_of_nil in Hin.
  - apply elem_of_cons in Hin as [[= -> ->]|Hin]; [lia|].
    destruct Hok as (? & ? & _ & _ & ? & Hok).
    specialize (IH _ Hok (ex_intro _ a' (ex_intro _ n' (conj Hin Hx)))). lia.
Qed.

Lemma fl_bytes_cons a n l x : fl_bytes ((a, n) :: l) x <-> a <= x < a + n \/ fl_bytes l x.
Proof.
  unfold fl_bytes. split.
  - intros (a' & n' & Hin & Hx). apply elem_of_cons in Hin as [[= -> ->]|Hin]; [by left|].
    right. eauto.
  - intros [Hx|(a' & n' & Hin & Hx)]; [exists a, n|exists a', n']; split; try done; set_solver.
Qed.

Lemma flist_frame w w' p l lo hi :
  flist w p l -> fl_ok lo hi l -> (∀ x, fl_bytes l x -> w' !! x = w !! x) -> flist w' p l.
Proof.
  revert p lo. induction l as [|[a n] l IH]; simpl; intros p lo; [done|].
  intros (-> & Hl & nxt & Hn & Hf) (? & ? & Ha & Hn8 & ? & Hok) Hw.
  assert (8 <= n) by (apply (mod8_lt 0); [done|done|lia]).
  unfold mlength, mnext in *. split; [done|].
  rewrite !Hw by (rewrite fl_bytes_cons; lia). split; [done|]. exists nxt. split; [done|].
  eapply IH; [done|done|]. intros x Hx. apply Hw. rewrite fl_bytes_cons. by right.
Qed.

Lemma flist_NULL w l lo hi p : flist w p l -> fl_ok lo hi l -> 0 < lo -> p = NULL -> l = [].
Proof. destruct l as [|[a n] l]; simpl; [done|]. unfold NULL. intros (-> & _) (? & _). lia. Qed.

Lemma fl_ok_in lo hi l a n :
  fl_ok lo hi l -> (a, n) ∈ l -> lo <= a /\ 0 < n /\ a + n <= hi /\ a mod 8 = 0 /\ n mod 8 = 0.
Proof.
  revert lo. induction l as [|[b m] l IH]; simpl; intros lo Hok Hin.
  - by apply not_elem_of_nil in Hin.
  - destruct Hok as (? & ? & ? & ? & ? & Hok).
    apply elem_of_cons in Hin as [[= -> ->]|Hin]; [done|].
    destruct (IH _ Hok Hin) as (? & ? & ? & ? & ?). repeat split; try done; lia.
Qed.

Lemma fl_ok_NoDup lo hi l : fl_ok lo hi l -> NoDup l.*1.
Proof.
  revert lo. induction l as [|[a n] l IH]; simpl; intros lo Hok; constructor.
  - destruct Hok as (? & ? & _ & _ & _ & Hok). intros Hin.
    apply list_elem_of_fmap in Hin as ([a' n'] & Heq & Hin). simpl in Heq.
    destruct (fl_ok_in _ _ _ _ _ Hok Hin) as (? & _). lia.
  - eapply IH. apply Hok.
Qed.

Lemma flist_in w p l a n : flist w p l -> (a, n) ∈ l -> is_Some (w !! a).
Proof.
  revert p. induction l as [|[b m] l IH]; simpl; intros p Hf Hin.
  - by apply not_elem_of_nil in Hin.
  - destruct Hf as (_ & _ & nxt & Hn & Hf).
    apply elem_of_cons in Hin as [[= -> ->]|Hin]; [unfold mnext in Hn; eauto|by eapply IH].
Qed.

(** The walk has fuel: distinct blocks store distinct words. *)
Lemma flist_size w p l lo hi : flist w p l -> fl_ok lo hi l -> (length l <= size w)%nat.
Proof.
  intros Hf Hok.
  assert (Hd : l.*1 ⊆+ (map_to_list w).*1).
  { apply NoDup_submseteq; [by eapply fl_ok_NoDup|]. intros a Ha.
    apply list_elem_of_fmap in Ha as ([b n] & -> & Hin). simpl.
    destruct (flist_in _ _ _ _ _ Hf Hin) as [v Hv].
    apply list_elem_of_fmap. exists (b, v). split; [done|]. by apply elem_of_map_to_list. }
  apply submseteq_length in Hd. by rewrite !length_fmap, length_map_to_list in Hd.
Qed.
(** ** getmem *)

(** The words of the tail of a list are not those of its first block. *)
Lemma not_in_tail hi a n l x : fl_ok (a + n + 1) hi l -> x <= a + n -> ~ fl_bytes l x.
Proof. intros Hok Hx Hb. pose proof (fl_bytes_range _ _ _ _ Hok Hb). lia. Qed.

Section Getmem.
Context (nb ml mn mx : Z).
Hypothesis Hnb : 0 < nb <= 4294967288.
Hypothesis Hnb8 : nb mod 8 = 0.
Hypothesis Hmx : mx <= 4294967288.

(** What a walk that starts at the cell [prev] may change. *)
Definition cell_frame (l : blocks) (prev : Z) (w w' : gmap Z Z) : Prop :=
  ∀ x, ~ fl_bytes l x -> x ≠ prev -> x ≠ ml + 4 -> w' !! x = w !! x.

Definition scan_post (l l' : blocks) (prev : Z) (w : gmap Z Z) (ms' : memst) : Prop :=
  ∃ w' c', ms' = Memst w' ml mn mx /\ w' !! prev = Some c' /\ flist w' c' l' /\
    is_Some (w' !! (ml + 4)) /\ cell_frame l prev w w'.

Lemma getmem_scan_spec l : ∀ fuel lo prev curr w,
  w !! prev = Some curr -> flist w curr l -> fl_ok lo mx l -> is_Some (w !! (ml + 4)) ->
  0 < ml -> ml + 8 <= lo -> 0 < prev -> prev < lo -> prev ≠ ml + 4 ->
  (length l < fuel)%nat ->
  match fl_getmem nb l with
  | None => getmem_scan fuel (Memst w ml mn mx) nb prev curr = Some (PSYSERR, Memst w ml mn mx)
  | Some (a, l') =>
      ∃ ms', getmem_scan fuel (Memst w ml mn mx) nb prev curr = Some (a, ms') /\
             scan_post l l' prev w ms'
  end.
Proof.
  induction l as [|[a n] l IH]; intros [|fuel] lo prev curr w Hp Hf Hok Ht Hml Hlo Hpp Hpl Hpm Hfu;
    simpl in Hfu; try lia.
  { simpl in *. subst. done. }
  simpl in Hf, Hok. destruct Hf as (-> & Hlen & nxt & Hnx & Hf).
  destruct Hok as (Ha & Hn & Ha8 & Hn8 & Hhi & Hok).
  assert (H8 : 8 <= n) by (apply (mod8_lt 0); [done|done|lia]).
  assert (H8b : 8 <= nb) by (apply (mod8_lt 0); [done|done|lia]).
  unfold mlength, mnext in Hlen, Hnx. destruct Ht as [t Ht].
  simpl. rewrite (proj2 (Z.eqb_neq a NULL)) by (unfold NULL; lia).
  mem_simp. rewrite Hlen. mem_simp.
  destruct (n =? nb) eqn:Heq; [|destruct (n >? nb) eqn:Hgt].
  - (* exact fit *)
    bool_hyps. subst n. unfold add_total. mem_simp. rewrite Hnx. mem_simp. rewrite Ht. mem_simp.
    eexists. split; [done|]. eexists _, nxt. split; [done|]. mem_simp.
    split; [done|]. split; [|split; [eauto|]].
    + eapply flist_frame; [exact Hf|exact Hok|]. intros x Hx.
      pose proof (fl_bytes_range _ _ _ _ Hok Hx). by rewrite !lookup_insert_ne by lia.
    + intros x Hx H1 H2. by rewrite !lookup_insert_ne by lia.
  - (* split *)
    bool_hyps. assert (Hsp : nb + 8 <= n) by (apply mod8_lt; done || lia).
    rewrite (u32_id (a + nb)) by (unfold is_u32; lia).
    unfold add_total. mem_simp. rewrite Hnx. mem_simp. rewrite Hlen. mem_simp. rewrite Ht. mem_simp.
    rewrite (u32_id (n - nb)) by (unfold is_u32; lia).
    eexists. split; [done|]. eexists _, (a + nb). split; [done|]. simpl. mem_simp.
    split; [done|]. split; [split; [done|split; [done|]]|split; [eauto|]].
    + exists nxt. split; [done|].
      eapply flist_frame; [exact Hf|exact Hok|]. intros x Hx.
      pose proof (fl_bytes_range _ _ _ _ Hok Hx). by rewrite !lookup_insert_ne by lia.
    + intros x Hx H1 H2. rewrite fl_bytes_cons in Hx. by rewrite !lookup_insert_ne by lia.
  - (* move on *)
    rewrite Hnx. mem_simp.
    pose proof (IH fuel (a + n + 1) a nxt w Hnx Hf Hok (ex_intro _ t Ht)) as IH'.
    specialize (IH' ltac:(lia) ltac:(lia) ltac:(lia) ltac:(lia) ltac:(lia) ltac:(lia)).
    destruct (fl_getmem nb l) as [[b l']|]; [|exact IH']. simpl.
    destruct IH' as (ms' & -> & w' & c' & -> & Hc & Hfc & Ht' & Hfr).
    exists (Memst w' ml mn mx). split; [done|]. exists w', a. split; [done|]. simpl. unfold mlength, mnext.
    assert (Hsame : ∀ x, x <= a + n -> x ≠ a -> x ≠ ml + 4 -> w' !! x = w !! x).
    { intros x Hx ? ?. apply Hfr; [|done|done]. by eapply not_in_tail. }
    rewrite !Hsame by lia. split; [done|]. split; [split; [done|split; [done|eauto]]|].
    split; [done|]. intros x Hx H1 H2. rewrite fl_bytes_cons in Hx.
    destruct (decide (x = a)) as [->|]; [lia|]. apply Hfr; tauto.
Qed.
End Getmem.

Lemma fl_getmem_ok nb lo hi l a l' :
  fl_ok lo hi l -> 0 < nb -> nb mod 8 = 0 -> fl_getmem nb l = Some (a, l') ->
  fl_ok lo hi l' /\ lo <= a /\ a + nb <= hi /\ a mod 8 = 0 /\
  (∀ x, fl_bytes l x <-> fl_bytes l' x \/ a <= x < a + nb) /\
  (∀ x, a <= x < a + nb -> ~ fl_bytes l' x).
Proof.
  intros Hok Hnb Hnb8. revert lo a l' Hok.
  induction l as [|[b n] l IH]; intros lo a l' Hok Hg; simpl in *; [done|].
  destruct Hok as (Hb & Hn & Hb8 & Hn8 & Hhi & Hok).
  destruct (n =? nb) eqn:Heq; [|destruct (n >? nb) eqn:Hgt]; bool_hyps.
  - injection Hg as <- <-. subst n.
    split; [by eapply fl_ok_mono; [exact Hok|lia]|]. repeat split; try done; try lia.
    + rewrite fl_bytes_cons. tauto.
    + rewrite fl_bytes_cons. tauto.
    + intros x Hx. eapply not_in_tail; [exact Hok|lia].
  - injection Hg as <- <-. pose proof (mod8_lt nb n Hnb8 Hn8 ltac:(lia)).
    pose proof (mod8_add b nb Hb8 Hnb8). pose proof (mod8_sub n nb Hn8 Hnb8).
    split. { simpl. repeat split; try done; try lia. by replace (b + nb + (n - nb) + 1) with (b + n + 1) by lia. }
    repeat split; try done; try lia.
    + rewrite !fl_bytes_cons. intros [?|?]; [|tauto]. destruct (decide (x < b + nb)); [right|left; left]; lia.
    + rewrite !fl_bytes_cons. intros [[?|?]|?]; [left; lia|tauto|left; lia].
    + intros x Hx. rewrite fl_bytes_cons. intros [?|Hin]; [lia|].
      apply (not_in_tail _ _ _ _ x Hok); [lia|done].
  - destruct (fl_getmem nb l) as [[c l2]|] eqn:E; simpl in Hg; [|done]. injection Hg as <- <-.
    destruct (IH _ _ _ Hok eq_refl) as (H1 & H2 & H3 & H4 & H5 & H6).
    split; [simpl; repeat split; done|]. repeat split; try done; try lia.
    + rewrite !fl_bytes_cons, H5. tauto.
    + rewrite !fl_bytes_cons, H5. tauto.
    + intros x Hx. rewrite fl_bytes_cons. intros [?|Hin]; [lia|]. by apply (H6 x).
Qed.

(** First fit fails only when every block is too small. *)
Lemma fl_getmem_None nb l : fl_getmem nb l = None <-> ∀ a n, (a, n) ∈ l -> n < nb.
Proof.
  induction l as [|[b m] l IH]; simpl.
  - split; [|done]. intros _ a n Hin. by apply not_elem_of_nil in Hin.
  - destruct (m =? nb) eqn:Heq; [|destruct (m >? nb) eqn:Hgt]; bool_hyps.
    + split; [done|]. intros H. specialize (H b m ltac:(set_solver)). lia.
    + split; [done|]. intros H. specialize (H b m ltac:(set_solver)). lia.
    + destruct (fl_getmem nb l) as [r|]; simpl.
      * split; [done|]. intros H. exfalso. enough (Some r = None) by done.
        apply IH. intros a n Hin. apply H with a. set_solver.
      * split; [|done]. intros _ a n [[= -> ->]|Hin]%elem_of_cons; [lia|]. by eapply IH.
Qed.

Lemma mem_rep_fuel ms l : mem_rep ms l -> (length l < heap_fuel ms)%nat.
Proof.
  intros H. destruct (mr_list _ _ H) as (p & _ & Hf).
  pose proof (flist_size _ _ _ _ _ Hf (mr_ok _ _ H)). unfold heap_fuel. lia.
Qed.

#[global] Arguments getmem_scan : simpl never.

Lemma getmem_spec ms l nbytes :
  mem_rep ms l -> 0 < nbytes <= 4294967288 ->
  match fl_getmem (roundmb nbytes) l with
  | None => getmem nbytes ms = Some (PSYSERR, ms)
  | Some (a, l') => ∃ ms', getmem nbytes ms = Some (a, ms') /\ mem_rep ms' l' /\ frame_ok l ms ms'
  end.
Proof.
  intros HR Hnb. destruct (roundmb_spec nbytes Hnb) as (Hr8 & Hr & Hrr).
  pose proof (mem_rep_fuel _ _ HR) as Hfu.
  destruct HR as [(p & Hp & Hf) Ht Hok [Hml Hml2] Hmx]. destruct ms as [w ml mn mx]. simpl in *.
  unfold getmem. rewrite (proj2 (Z.eqb_neq nbytes 0)) by lia.
  unfold ldw, mlength in Ht. unfold ldw, mnext in Hp. simpl in *.
  unfold ldw, mnext. simpl. rewrite Hp. simpl.
  pose proof (getmem_scan_spec (roundmb nbytes) ml mn mx Hrr Hr8 Hmx l
    (heap_fuel (Memst w ml mn mx)) mn ml p w Hp Hf Hok Ht Hml Hml2 Hml ltac:(lia) ltac:(lia) Hfu) as Hs.
  destruct (fl_getmem (roundmb nbytes) l) as [[a l']|] eqn:E; [|exact Hs].
  destruct Hs as (ms' & -> & w' & c' & -> & Hc & Hfc & Ht' & Hfr).
  destruct (fl_getmem_ok (roundmb nbytes) _ _ _ _ _ Hok ltac:(lia) Hr8 E) as (Hok' & _).
  eexists. split; [done|]. split; [by constructor; simpl; eauto|].
  repeat split. simpl. intros x H1 H2 H3. by apply Hfr.
Qed.

(** ** getstk *)

(** The cell that points to the last block of [l] of at least [nb] bytes, and
    the block, given the cell that points to the list. *)
Fixpoint last_fit (nb prev : Z) (l : blocks) : option (Z * Z) :=
  match l with
  | [] => None
  | (a, n) :: l' =>
      match last_fit nb a l' with
      | Some r => Some r
      | None => if n >=? nb then Some (a, prev) else None
      end
  end.

Lemma getstk_scan_spec w ml mn mx nb l : ∀ fuel lo prev curr fits fitsprev,
  flist w curr l -> fl_ok lo mx l -> 0 < lo -> (length l < fuel)%nat ->
  getstk_scan fuel (Memst w ml mn mx) nb prev curr fits fitsprev =
    Some (default (fits, fitsprev) (last_fit nb prev l)).
Proof.
  induction l as [|[a n] l IH]; intros [|fuel] lo prev curr fits fitsprev Hf Hok Hlo Hfu;
    simpl in Hfu; try lia.
  { simpl in *. by subst. }
  simpl in Hf, Hok. destruct Hf as (-> & Hlen & nxt & Hnx & Hf).
  destruct Hok as (Ha & Hn & Ha8 & Hn8 & Hhi & Hok).
  simpl. rewrite (proj2 (Z.eqb_neq a NULL)) by (unfold NULL; lia).
  mem_simp. rewrite Hlen. mem_simp. rewrite Hnx. mem_simp.
  destruct (n >=? nb) eqn:E; rewrite (IH _ (a + n + 1)) by (done || lia);
    by destruct (last_fit nb a l).
Qed.

(** What getstk does once the block is known. *)
Definition stk_take (nb prev a n nxt : Z) (w : gmap Z Z) : gmap Z Z :=
  if n =? nb then <[prev := nxt]> w else <[a + 4 := n - nb]> w.

Lemma last_fit_spec w nb l : ∀ lo hi prev curr,
  w !! prev = Some curr -> flist w curr l -> fl_ok lo hi l -> 0 < nb -> nb mod 8 = 0 ->
  hi <= 4294967288 -> prev < lo -> 0 < lo ->
  match fl_getstk nb l with
  | None => last_fit nb prev l = None
  | Some (x, l') =>
      ∃ a n p nxt, last_fit nb prev l = Some (a, p) /\
        w !! a = Some nxt /\ w !! (a + 4) = Some n /\ nb <= n /\ x = a + (n - nb) /\
        (a, n) ∈ l /\ (p = prev \/ fl_bytes l p) /\
        ∃ c', stk_take nb p a n nxt w !! prev = Some c' /\
              flist (stk_take nb p a n nxt w) c' l'
  end.
Proof.
  induction l as [|[a n] l IH]; intros lo hi prev curr Hp Hf Hok Hnb Hnb8 Hhi Hpl Hlo; simpl; [done|].
  simpl in Hf, Hok. destruct Hf as (-> & Hlen & nxt & Hnx & Hf).
  destruct Hok as (Ha & Hn & Ha8 & Hn8 & Han & Hok).
  assert (H8 : 8 <= n) by (apply (mod8_lt 0); [done|done|lia]).
  unfold mlength, mnext in *.
  pose proof (IH (a + n + 1) hi a nxt Hnx Hf Hok Hnb Hnb8 Hhi ltac:(lia) ltac:(lia)) as IH'.
  destruct (fl_getstk nb l) as [[x l']|] eqn:E.
  - destruct IH' as (b & m & p & nxt' & Hl & Hb1 & Hb2 & Hm & -> & Hin & Hpp & c' & Hc & Hfc).
    rewrite Hl. exists b, m, p, nxt'. do 5 (split; [done|]). split; [set_solver|].
    destruct (fl_ok_in _ _ _ _ _ Hok Hin) as (Hblo & Hm0 & _).
    assert (Hp' : p = a \/ a + n + 1 <= p).
    { destruct Hpp as [->|Hpp]; [by left|]. pose proof (fl_bytes_range _ _ _ _ Hok Hpp). lia. }
    split. { right. rewrite fl_bytes_cons. destruct Hpp as [->|?]; [left; lia|by right]. }
    exists a. unfold mlength, mnext. unfold stk_take in *. simpl.
    assert (Hsame : ∀ x, x < a + n + 1 -> x ≠ a ->
       (if m =? nb then <[p:=nxt']> w else <[b+4:=m-nb]> w) !! x = w !! x).
    { intros x Hx Hxa. destruct (m =? nb); rewrite lookup_insert_ne; try done; lia. }
    rewrite !Hsame by lia. unfold mlength, mnext. split; [done|]. split; [done|].
    rewrite Hsame by lia. split; [done|]. eauto.
  - rewrite IH'. destruct (n =? nb) eqn:Heq; [|destruct (n >? nb) eqn:Hgt]; bool_hyps.
    + subst n. rewrite Z.geb_leb, Z.leb_refl. exists a, nb, prev, nxt.
      do 4 (split; [done || lia|]). split; [lia|]. split; [set_solver|]. split; [by left|].
      exists nxt. unfold stk_take. rewrite Z.eqb_refl, lookup_insert_eq. split; [done|].
      eapply flist_frame; [exact Hf|exact Hok|]. intros x Hx.
      pose proof (fl_bytes_range _ _ _ _ Hok Hx). by rewrite lookup_insert_ne by lia.
    + rewrite Z.geb_leb, (proj2 (Z.leb_le _ _)) by lia. exists a, n, prev, nxt.
      do 4 (split; [done || lia|]). split; [lia|]. split; [set_solver|]. split; [by left|].
      exists a. unfold stk_take. rewrite (proj2 (Z.eqb_neq _ _)) by done.
      rewrite lookup_insert_ne by lia. split; [done|]. simpl. unfold mlength, mnext.
      rewrite lookup_insert_eq. do 2 (split; [done|]). exists nxt.
      rewrite lookup_insert_ne by lia. split; [done|].
      eapply flist_frame; [exact Hf|exact Hok|]. intros x Hx.
      pose proof (fl_bytes_range _ _ _ _ Hok Hx). by rewrite lookup_insert_ne by lia.
    + rewrite Z.geb_leb, (proj2 (Z.leb_gt _ _)) by lia. done.
Qed.

Lemma fl_getstk_ok nb lo hi l a l' :
  fl_ok lo hi l -> 0 < nb -> nb mod 8 = 0 -> fl_getstk nb l = Some (a, l') ->
  fl_ok lo hi l' /\ lo <= a /\ a + nb <= hi /\ a mod 8 = 0 /\
  (∀ x, fl_bytes l x <-> fl_bytes l' x \/ a <= x < a + nb) /\
  (∀ x, a <= x < a + nb -> ~ fl_bytes l' x).
Proof.
  intros Hok Hnb Hnb8. revert lo a l' Hok.
  induction l as [|[b n] l IH]; intros lo a l' Hok Hg; simpl in *; [done|].
  destruct Hok as (Hb & Hn & Hb8 & Hn8 & Hhi & Hok).
  destruct (fl_getstk nb l) as [[c l2]|] eqn:E.
  - injection Hg as <- <-.
    destruct (IH _ _ _ Hok eq_refl) as (H1 & H2 & H3 & H4 & H5 & H6).
    split; [simpl; repeat split; done|]. repeat split; try done; try lia.
    + rewrite !fl_bytes_cons, H5. tauto.
    + rewrite !fl_bytes_cons, H5. tauto.
    + intros x Hx. rewrite fl_bytes_cons. intros [?|Hin]; [lia|]. by apply (H6 x).
  - destruct (n =? nb) eqn:Heq; [|destruct (n >? nb) eqn:Hgt]; bool_hyps; [| |done].
    + injection Hg as <- <-. subst n.
      split; [by eapply fl_ok_mono; [exact Hok|lia]|]. repeat split; try done; try lia.
      * rewrite fl_bytes_cons. tauto.
      * rewrite fl_bytes_cons. tauto.
      * intros x Hx. eapply not_in_tail; [exact Hok|lia].
    + injection Hg as <- <-. pose proof (mod8_lt nb n Hnb8 Hn8 ltac:(lia)).
      pose proof (mod8_sub n nb Hn8 Hnb8). pose proof (mod8_add b (n - nb) Hb8 ltac:(done)).
      split. { simpl. repeat split; try done; try lia. eapply fl_ok_mono; [exact Hok|lia]. }
      repeat split; try done; try lia.
      * rewrite !fl_bytes_cons. intros [?|?]; [|tauto].
        destruct (decide (x < b + (n - nb))); [left; left|right]; lia.
      * rewrite !fl_bytes_cons. intros [[?|?]|?]; [left; lia|tauto|left; lia].
      * intros x Hx. rewrite fl_bytes_cons. intros [?|Hin]; [lia|].
        apply (not_in_tail _ _ _ _ x Hok); [lia|done].
Qed.

#[global] Arguments getstk_scan : simpl never.

Lemma getstk_spec ms l nbytes :
  mem_rep ms l -> 0 < nbytes <= 4294967288 ->
  match fl_getstk (roundmb nbytes) l with
  | None => getstk nbytes ms = Some (PSYSERR, ms)
  | Some (a, l') => ∃ ms', getstk nbytes ms = Some (a + roundmb nbytes - 4, ms') /\
                           mem_rep ms' l' /\ frame_ok l ms ms'
  end.
Proof.
  intros HR Hnb. destruct (roundmb_spec nbytes Hnb) as (Hr8 & Hr & Hrr).
  pose proof (mem_rep_fuel _ _ HR) as Hfu.
  destruct HR as [(p & Hp & Hf) Ht Hok [Hml Hml2] Hmx]. destruct ms as [w ml mn mx]. simpl in *.
  unfold ldw, mlength in Ht. unfold ldw, mnext in Hp. simpl in *. destruct Ht as [t Ht].
  pose proof (last_fit_spec w (roundmb nbytes) l mn mx ml p Hp Hf Hok ltac:(lia) Hr8 Hmx
                ltac:(lia) ltac:(lia)) as Hs.
  set (nb := roundmb nbytes) in *.
  unfold getstk. rewrite (proj2 (Z.eqb_neq nbytes 0)) by lia. fold nb.
  unfold ldw, mnext. simpl. rewrite Hp. simpl.
  rewrite (getstk_scan_spec _ _ _ _ _ _ _ mn) by (done || lia).
  destruct (fl_getstk nb l) as [[x l']|] eqn:E.
  - destruct Hs as (a & n & q & nxt & -> & Ha & Han & Hn & -> & Hin & Hq & c' & Hc & Hfc).
    destruct (fl_ok_in _ _ _ _ _ Hok Hin) as (Hlo & Hn0 & Hhi & Ha8 & Hn8).
    destruct (fl_getstk_ok nb _ _ _ _ _ Hok ltac:(lia) Hr8 E) as (Hok' & H1 & H2 & _ & Hby & _).
    assert (Hqml : q ≠ ml + 4).
    { destruct Hq as [->|Hq]; [lia|]. pose proof (fl_bytes_range _ _ _ _ Hok Hq). lia. }
    simpl. rewrite (proj2 (Z.eqb_neq a NULL)) by (unfold NULL; lia).
    unfold stk_take in *. mem_simp. rewrite Han. simpl. rewrite (Z.eqb_sym nb n).
    assert (Hpost : ∀ w', w' !! ml = Some c' -> flist w' c' l' -> is_Some (w' !! (ml + 4)) ->
      (∀ x, ~ fl_bytes l x -> x ≠ ml -> x ≠ ml + 4 -> w' !! x = w !! x) ->
      mem_rep (Memst w' ml mn mx) l' /\ frame_ok l (Memst w ml mn mx) (Memst w' ml mn mx)).
    { intros w' ? ? ? ?. split; [constructor; eauto|]. by repeat split. }
    assert (Hout : ∀ x, ~ fl_bytes l x -> x ≠ a /\ x ≠ a + 4 /\ (x ≠ ml -> x ≠ q)).
    { intros x Hx. pose proof (mod8_lt 0 n eq_refl Hn8 ltac:(lia)).
      assert (Hbl : ∀ y, a <= y < a + n -> x ≠ y).
      { intros y Hy ->. apply Hx. by exists a, n. }
      split; [apply Hbl; lia|]. split; [apply Hbl; lia|]. intros Hxm Hxq.
      destruct Hq as [Hq|Hq]; [congruence|]. subst q. by apply Hx. }
    destruct (n =? nb) eqn:Heq; bool_hyps.
    + subst n. rewrite Ha. simpl. unfold add_total. mem_simp. rewrite Ht. mem_simp.
      eexists. split; [rewrite u32_id by (unfold is_u32; lia); do 2 f_equal; lia|].
      apply Hpost; mem_simp; [done| |eauto|].
      * eapply flist_frame; [exact Hfc|exact Hok'|]. intros x Hx.
        pose proof (fl_bytes_range _ _ _ _ Hok' Hx). by rewrite lookup_insert_ne by lia.
      * intros x Hx ? ?. destruct (Hout x Hx) as (_ & _ & Hxq). specialize (Hxq ltac:(done)).
        by rewrite !lookup_insert_ne by lia.
    + rewrite (u32_id (n - nb)) by (unfold is_u32; lia). unfold add_total. mem_simp.
      rewrite Ht. mem_simp. rewrite (u32_id (a + (n - nb))) by (unfold is_u32; lia).
      eexists. split; [rewrite u32_id by (unfold is_u32; lia); do 2 f_equal; lia|].
      apply Hpost; mem_simp; [by rewrite lookup_insert_ne in Hc by lia| |eauto|].
      * eapply flist_frame; [exact Hfc|exact Hok'|]. intros x Hx.
        pose proof (fl_bytes_range _ _ _ _ Hok' Hx). by rewrite lookup_insert_ne by lia.
      * intros x Hx ? ?. destruct (Hout x Hx) as (? & ? & _). by rewrite !lookup_insert_ne by lia.
  - rewrite Hs. done.
Qed.

(** ** freemem *)

Section Freemem.
Context (b nb ml mn mx : Z).
Hypothesis Hb8 : b mod 8 = 0.
Hypothesis Hnb : 0 < nb.
Hypothesis Hnb8 : nb mod 8 = 0.
Hypothesis Hbmn : mn <= b.
Hypothesis Hbmx : b + nb <= mx.
Hypothesis Hmx : mx <= 4294967288.
Hypothesis Hml : 0 < ml.
Hypothesis Hml2 : ml + 8 <= mn.

Definition free_post (l l' : blocks) (prev : Z) (w : gmap Z Z) (ms' : memst) : Prop :=
  ∃ w' c', ms' = Memst w' ml mn mx /\ w' !! prev = Some c' /\ flist w' c' l' /\
    is_Some (w' !! (ml + 4)) /\
    ∀ x, ~ fl_bytes l x -> ~ (b <= x < b + nb) -> x ≠ prev -> x ≠ ml + 4 -> w' !! x = w !! x.

(** The cell before the block is the list head, or a block that ends below it. *)
Definition prev_below (w : gmap Z Z) (prev : Z) : Prop :=
  prev = ml \/ prev ≠ ml /\ mn <= prev /\ ∃ pn, w !! (prev + 4) = Some pn /\ 0 < pn /\ prev + pn < b.

Lemma nb_ge8 : 8 <= nb.
Proof. apply (mod8_lt 0); [done|done|lia]. Qed.

Lemma prev_below_range w prev : prev_below w prev -> 0 < prev /\ prev < b /\ prev ≠ ml + 4.
Proof. intros [->|(? & ? & pn & ? & ? & ?)]; lia. Qed.

(** Linking a block that does not touch the one before it. *)
Lemma freemem_link_new l lo w prev next :
  w !! prev = Some next -> flist w next l -> fl_ok lo mx l -> is_Some (w !! (ml + 4)) ->
  prev_below w prev -> prev < lo ->
  match l with [] => True | (a, n) :: _ => b + nb <= a end ->
  ∃ ms', freemem_link prev next b nb (Memst w ml mn mx) = Some (OK, ms') /\
    free_post l (match l with
                 | (a, n) :: l' => if a =? b + nb then (b, nb + n) :: l' else (b, nb) :: l
                 | [] => [(b, nb)] end) prev w ms'.
Proof.
  intros Hp Hf Hok [t Ht] Hpb Hplo Hhd. pose proof nb_ge8.
  pose proof (prev_below_range _ _ Hpb) as (Hp0 & Hpb' & Hpml).
  unfold freemem_link. mem_simp.
  assert (Htop : ∃ top, (if prev =? ml then Some 0 else plen ← w !! (prev + 4); Some (u32 (prev + plen))) = Some top
      /\ (negb (prev =? ml) && (b <? top)) = false /\ top ≠ b).
  { destruct Hpb as [->|(? & ? & pn & Hpn & ? & ?)].
    - rewrite Z.eqb_refl. exists 0. repeat split; lia.
    - rewrite (proj2 (Z.eqb_neq _ _)) by done. rewrite Hpn. simpl. eexists. split; [done|].
      rewrite u32_id by (unfold is_u32; lia). split; [apply Z.ltb_ge; lia|lia]. }
  destruct Htop as (top & -> & Hov & Htb). mem_simp. rewrite Hov. simpl.
  rewrite (u32_id (b + nb)) by (unfold is_u32; lia).
  assert (Hnov : (negb (next =? 0) && (b + nb >? next)) = false).
  { destruct l as [|[a n] l]; simpl in Hf.
    - subst next. done.
    - destruct Hf as (-> & _). rewrite Z.gtb_ltb, (proj2 (Z.ltb_ge _ _)) by lia. apply andb_false_r. }
  rewrite Hnov. unfold add_total. mem_simp. rewrite Ht. mem_simp.
  rewrite (proj2 (Z.eqb_neq top b)) by done. mem_simp.
  rewrite (u32_id (b + nb)) by (unfold is_u32; lia).
  assert (Hfr : ∀ l0 lo0 w', (∀ x, x ≠ ml + 4 -> x ≠ prev -> ~ (b <= x < b + nb) -> w' !! x = w !! x) ->
     b + nb <= lo0 -> prev < lo0 -> fl_ok lo0 mx l0 -> ∀ p0, flist w p0 l0 -> flist w' p0 l0).
  { intros l0 lo0 w' Hw ? ? Hok0 p0 Hf0. eapply flist_frame; [exact Hf0|exact Hok0|].
    intros x Hx. pose proof (fl_bytes_range _ _ _ _ Hok0 Hx). apply Hw; lia. }
  destruct l as [|[a n] l].
  - simpl in Hf. subst next. rewrite (proj2 (Z.eqb_neq _ _)) by (unfold NULL; lia).
    eexists. split; [done|]. eexists _, b. split; [done|]. mem_simp. split; [done|].
    split. { split; [done|]. split; [done|]. exists 0. mem_simp. done. }
    split; [eauto|]. intros x ? ? ? ?. by rewrite !lookup_insert_ne by lia.
  - simpl in Hf, Hok. destruct Hf as (-> & Hlen & nxt & Hnx & Hf).
    destruct Hok as (Ha & Hn & Ha8 & Hn8 & Hhi & Hok). unfold mlength, mnext in *.
    rewrite (Z.eqb_sym (b + nb) a).
    destruct (a =? b + nb) eqn:E; bool_hyps.
    + subst a. mem_simp. rewrite Hlen. mem_simp. rewrite Hnx. mem_simp.
      eexists. split; [done|]. eexists _, b. split; [done|]. mem_simp. split; [done|].
      rewrite (u32_id (nb + n)) by (unfold is_u32; lia).
      split. { split; [done|]. split; [done|]. exists nxt. mem_simp. split; [done|].
        eapply (Hfr l (b + nb + n + 1)); [|lia|lia|done|done].
        intros x ? ? ?. by rewrite !lookup_insert_ne by lia. }
      split; [eauto|]. intros x ? ? ? ?. by rewrite !lookup_insert_ne by lia.
    + eexists. split; [done|]. eexists _, b. split; [done|]. mem_simp. split; [done|].
      split. { split; [done|]. split; [done|]. exists a. mem_simp. split; [done|].
        split; [done|]. split; [done|]. exists nxt. split; [done|].
        eapply (Hfr l (a + n + 1)); [|lia|lia|done|done].
        intros x ? ? ?. by rewrite !lookup_insert_ne by lia. }
      split; [eauto|]. intros x ? ? ? ?. by rewrite !lookup_insert_ne by lia.
Qed.

(** Merging the block into the one before it, and then with the next one. *)
Lemma freemem_link_merge l w a n next :
  b = a + n -> 0 < n -> n mod 8 = 0 -> mn <= a -> w !! (a + 4) = Some n -> w !! a = Some next ->
  flist w next l -> fl_ok (a + n + 1) mx l -> is_Some (w !! (ml + 4)) ->
  match l with [] => True | (a2, n2) :: _ => b + nb <= a2 end ->
  ∃ w', freemem_link a next b nb (Memst w ml mn mx) = Some (OK, Memst w' ml mn mx) /\
    flist w' a (match l with
                | (a2, n2) :: l' =>
                    if a2 =? b + nb then (a, n + nb + n2) :: l' else (a, n + nb) :: l
                | [] => [(a, n + nb)] end) /\
    is_Some (w' !! (ml + 4)) /\
    ∀ x, ~ fl_bytes ((a, n) :: l) x -> x ≠ ml + 4 -> w' !! x = w !! x.
Proof.
  intros -> Hn Hn8 Ha Hlen Hnx Hf Hok [t Ht] Hhd. pose proof nb_ge8.
  assert (8 <= n) by (apply (mod8_lt 0); [done|done|lia]).
  assert (Hout : ∀ x, ~ fl_bytes ((a, n) :: l) x -> x ≠ a /\ x ≠ a + 4).
  { intros x Hx. rewrite fl_bytes_cons in Hx. split; intros ->; apply Hx; left; lia. }
  assert (Hfr : ∀ l0 lo0 w', (∀ x, x ≠ ml + 4 -> x ≠ a -> x ≠ a + 4 -> w' !! x = w !! x) ->
     a + n + 1 <= lo0 -> fl_ok lo0 mx l0 -> ∀ p0, flist w p0 l0 -> flist w' p0 l0).
  { intros l0 lo0 w' Hw ? Hok0 p0 Hf0. eapply flist_frame; [exact Hf0|exact Hok0|].
    intros x Hx. pose proof (fl_bytes_range _ _ _ _ Hok0 Hx). apply Hw; lia. }
  unfold freemem_link. mem_simp. rewrite (proj2 (Z.eqb_neq a ml)) by lia. rewrite Hlen. simpl.
  rewrite (u32_id (a + n)) by (unfold is_u32; lia). rewrite Z.ltb_irrefl. simpl.
  rewrite (u32_id (a + n + nb)) by (unfold is_u32; lia).
  rewrite Z.eqb_refl.
  destruct l as [|[a2 n2] l]; simpl in Hf.
  - subst next. simpl. unfold add_total. mem_simp. rewrite Ht. mem_simp. rewrite Hlen. mem_simp.
    rewrite (u32_id (n + nb)) by (unfold is_u32; lia).
    rewrite (u32_id (a + (n + nb))) by (unfold is_u32; lia).
    rewrite (proj2 (Z.eqb_neq _ 0)) by lia. eexists. split; [done|]. mem_simp.
    split. { do 2 (split; [done|]). exists 0. mem_simp. done. }
    split; [eauto|]. intros x Hx ?. destruct (Hout x Hx). by rewrite !lookup_insert_ne by lia.
  - simpl in Hok. destruct Hf as (-> & Hlen2 & nxt & Hnx2 & Hf).
    destruct Hok as (Ha2 & Hn2 & Ha28 & Hn28 & Hhi & Hok). mem_simp.
    rewrite Z.gtb_ltb, (proj2 (Z.ltb_ge a2 (a + n + nb))) by lia. rewrite andb_false_r.
    unfold add_total. mem_simp. rewrite Ht. mem_simp. rewrite Hlen. mem_simp.
    rewrite (u32_id (n + nb)) by (unfold is_u32; lia).
    rewrite (u32_id (a + (n + nb))) by (unfold is_u32; lia).
    rewrite (Z.eqb_sym _ a2), (Z.add_assoc a n nb). destruct (a2 =? a + n + nb) eqn:E; bool_hyps.
    + mem_simp. rewrite Hlen2. mem_simp. rewrite Hnx2. mem_simp. eexists. split; [done|].
      rewrite (u32_id (n + nb + n2)) by (unfold is_u32; lia). mem_simp.
      split. { do 2 (split; [done|]). exists nxt. mem_simp. split; [done|].
        eapply (Hfr l (a2 + n2 + 1)); [|lia|done|done].
        intros x ? ? ?. by rewrite !lookup_insert_ne by lia. }
      split; [eauto|]. intros x Hx ?. destruct (Hout x Hx). by rewrite !lookup_insert_ne by lia.
    + eexists. split; [done|]. mem_simp.
      split. { do 2 (split; [done|]). exists a2. mem_simp. split; [done|].
        do 2 (split; [done|]). exists nxt. mem_simp. split; [done|].
        eapply (Hfr l (a2 + n2 + 1)); [|lia|done|done].
        intros x ? ? ?. by rewrite !lookup_insert_ne by lia. }
      split; [eauto|]. intros x Hx ?. destruct (Hout x Hx). by rewrite !lookup_insert_ne by lia.
Qed.

(** The block overlaps the one before it or the one after it. *)
Lemma freemem_link_overlap w prev next pn :
  prev ≠ ml /\ 0 <= prev /\ w !! (prev + 4) = Some pn /\ 0 <= pn /\ prev + pn <= mx /\ b < prev + pn
  \/ (prev = ml \/ is_Some (w !! (prev + 4))) /\ 0 < next < b + nb ->
  freemem_link prev next b nb (Memst w ml mn mx) = Some (SYSERR, Memst w ml mn mx).
Proof.
  unfold freemem_link. mem_simp. intros [(Hne & ? & Hpn & ? & ? & Hlt)|[Hpr Hlt]].
  - rewrite (proj2 (Z.eqb_neq prev ml)) by done. rewrite Hpn. simpl.
    rewrite (u32_id (prev + pn)) by (unfold is_u32; lia). by rewrite (proj2 (Z.ltb_lt b (prev + pn))).
  - assert (Hn : negb (next =? 0) && (u32 (b + nb) >? next) = true).
    { rewrite (u32_id (b + nb)) by (unfold is_u32; lia).
      rewrite (proj2 (Z.eqb_neq next 0)) by lia. rewrite Z.gtb_ltb. apply Z.ltb_lt. lia. }
    rewrite Hn. destruct (prev =? ml) eqn:E; [reflexivity|].
    destruct Hpr as [->|[v ->]]; [lia|]. simpl. by rewrite orb_true_r.
Qed.

Lemma free_post_cons l l' a n prev w ms' :
  w !! prev = Some a -> w !! (a + 4) = Some n -> fl_ok (a + n + 1) mx l -> 0 < n -> n mod 8 = 0 ->
  prev < a -> prev ≠ ml + 4 -> mn <= a -> a + n < b ->
  free_post l l' a w ms' -> free_post ((a, n) :: l) ((a, n) :: l') prev w ms'.
Proof.
  intros Hp Hlen Hok Hn Hn8 Hpa Hpml Hmna Hab (w' & c' & -> & Hc & Hf & Ht & Hw).
  assert (8 <= n) by (apply (mod8_lt 0); [done|done|lia]).
  exists w', a. split; [done|].
  assert (Hs : ∀ x, x ≠ a -> x <= a + n -> x ≠ ml + 4 -> w' !! x = w !! x).
  { intros x Hx Hxn Hxm. apply Hw; try done; [by eapply not_in_tail|lia]. }
  rewrite Hs by lia. split; [done|]. simpl. unfold mlength, mnext. rewrite Hs by lia.
  split; [eauto|]. split; [done|]. intros x Hx Hxb Hxp Hxm.
  rewrite fl_bytes_cons in Hx. apply Hw; try done; [tauto|]. intros ->. apply Hx. left. lia.
Qed.

Lemma freemem_merge_post l w a n nxt prev lo :
  w !! prev = Some a -> prev < lo -> lo <= a -> mn <= a -> prev ≠ ml + 4 -> b = a + n -> 0 < n ->
  n mod 8 = 0 -> w !! (a + 4) = Some n -> w !! a = Some nxt -> flist w nxt l ->
  fl_ok (a + n + 1) mx l -> is_Some (w !! (ml + 4)) ->
  match (match l with
         | (a2, n2) :: l'' =>
             if a2 <? b + nb then None
             else if a2 =? b + nb then Some ((a, n + nb + n2) :: l'')
             else Some ((a, n + nb) :: l)
         | [] => Some [(a, n + nb)] end) with
  | None => freemem_link a nxt b nb (Memst w ml mn mx) = Some (SYSERR, Memst w ml mn mx)
  | Some l' => ∃ ms', freemem_link a nxt b nb (Memst w ml mn mx) = Some (OK, ms') /\
                      free_post ((a, n) :: l) l' prev w ms'
  end.
Proof.
  intros Hp Hplo Hlo Hmna Hpml Hb Hn Hn8 Hlen Hnx Hf Hok Ht.
  assert (Hpost : ∀ l' w', flist w' a l' -> is_Some (w' !! (ml + 4)) ->
    (∀ x, ~ fl_bytes ((a, n) :: l) x -> x ≠ ml + 4 -> w' !! x = w !! x) ->
    free_post ((a, n) :: l) l' prev w (Memst w' ml mn mx)).
  { intros l' w' Hf' Ht' Hw. exists w', a. split; [done|].
    rewrite Hw; [|rewrite fl_bytes_cons; intros [?|Hx]; [lia|]; revert Hx;
      apply (not_in_tail _ _ _ _ _ Hok); lia|done].
    do 3 (split; [done|]). intros x ? ? ? ?. by apply Hw. }
  assert (Hm := freemem_link_merge l w a n nxt Hb Hn Hn8 Hmna Hlen Hnx Hf Hok Ht).
  destruct l as [|[a2 n2] l].
  - destruct (Hm I) as (w' & Hl & Hf' & Ht' & Hw). eauto.
  - destruct (a2 <? b + nb) eqn:Hov; bool_hyps.
    + apply (freemem_link_overlap w a nxt n). right.
      simpl in Hf, Hok. destruct Hf as (-> & _). split; [rewrite Hlen; eauto|lia].
    + destruct (Hm Hov) as (w' & Hl & Hf' & Ht' & Hw). destruct (a2 =? b + nb); eauto.
Qed.

(** freemem, from the cell [prev] on. *)
Lemma freemem_walk_link l : ∀ fuel w lo prev curr,
  w !! prev = Some curr -> flist w curr l -> fl_ok lo mx l -> is_Some (w !! (ml + 4)) ->
  prev_below w prev -> prev < lo -> mn <= lo -> (length l < fuel)%nat ->
  ∃ p q, freemem_walk fuel (Memst w ml mn mx) b prev curr = Some (p, q) /\
  match fl_freemem b nb l with
  | None => freemem_link p q b nb (Memst w ml mn mx) = Some (SYSERR, Memst w ml mn mx)
  | Some l' => ∃ ms', freemem_link p q b nb (Memst w ml mn mx) = Some (OK, ms') /\
                      free_post l l' prev w ms'
  end.
Proof.
  induction l as [|[a n] l IH]; intros [|fuel] w lo prev curr Hp Hf Hok Ht Hpb Hplo Hlo Hfu;
    simpl in Hfu; try lia; pose proof (prev_below_range _ _ Hpb) as (? & ? & Hpml).
  { exists prev, NULL. simpl in Hf. subst. split; [done|]. simpl.
    by apply (freemem_link_new [] lo). }
  pose proof Hf as Hf0. pose proof Hok as Hok0.
  simpl in Hf, Hok. destruct Hf as (-> & Hlen & nxt & Hnx & Hf).
  destruct Hok as (Ha & Hn & Ha8 & Hn8 & Hhi & Hok). unfold mlength, mnext in *.
  assert (8 <= n) by (apply (mod8_lt 0); [done|done|lia]).
  simpl. rewrite (proj2 (Z.eqb_neq a NULL)) by (unfold NULL; lia). simpl.
  destruct (a <? b) eqn:Hab; bool_hyps; mem_simp.
  2:{ exists prev, a. split; [done|]. destruct (a <? b + nb) eqn:Hov; bool_hyps.
      - apply (freemem_link_overlap w prev a 0). right. split; [|lia].
        destruct Hpb as [->|(? & ? & pn & ? & _)]; eauto.
      - assert (Hx := freemem_link_new ((a, n) :: l) lo w prev a Hp Hf0 Hok0 Ht Hpb Hplo Hov).
        revert Hx. simpl. by destruct (a =? b + nb). }
  rewrite Hnx. simpl. destruct (decide (a + n < b)) as [Hlt|Hge].
  - rewrite (proj2 (Z.ltb_ge b (a + n))), (proj2 (Z.eqb_neq b (a + n))) by lia.
    destruct (IH fuel w (a + n + 1) a nxt) as (p & q & Hw & Hr);
      try done; try lia. { right. split; [lia|]. split; [lia|]. exists n. repeat split; done || lia. }
    exists p, q. split; [done|]. destruct (fl_freemem b nb l) as [l'|]; [|done].
    destruct Hr as (ms' & ? & Hr). exists ms'. split; [done|].
    apply free_post_cons; done || lia.
  - exists a, nxt.
    assert (Hstop : freemem_walk fuel (Memst w ml mn mx) b a nxt = Some (a, nxt)).
    { destruct fuel as [|fuel]; [lia|]. simpl. destruct l as [|[a2 n2] l].
      - simpl in Hf. by subst nxt.
      - destruct Hf as (-> & _). destruct Hok as (? & _).
        by rewrite (proj2 (Z.ltb_ge a2 b)), andb_false_r by lia. }
    split; [done|]. destruct (b <? a + n) eqn:Hov; bool_hyps.
    { apply (freemem_link_overlap w a nxt n). left. repeat split; done || lia. }
    assert (b = a + n) as Heq by lia. rewrite (proj2 (Z.eqb_eq b (a + n)) Heq).
    apply (freemem_merge_post _ _ _ _ _ _ lo); done || lia.
Qed.
End Freemem.

#[global] Arguments freemem_walk : simpl never.

Lemma fl_freemem_ok b nb lo hi l l' :
  fl_ok lo hi l -> 0 < nb -> nb mod 8 = 0 -> b mod 8 = 0 -> lo <= b -> b + nb <= hi ->
  fl_freemem b nb l = Some l' ->
  fl_ok lo hi l' /\ (∀ x, fl_bytes l' x <-> fl_bytes l x \/ b <= x < b + nb) /\
  (∀ x, b <= x < b + nb -> ~ fl_bytes l x).
Proof.
  intros Hok Hnb Hnb8 Hb8 Hlo Hhi. revert lo l' Hok Hlo.
  induction l as [|[a n] l IH]; intros lo l' Hok Hlo Hg.
  { simpl in Hg. injection Hg as <-. simpl. repeat split; try done; try lia.
    - rewrite fl_bytes_cons. tauto.
    - rewrite fl_bytes_cons. tauto.
    - intros x _ (? & ? & Hin & _). by apply not_elem_of_nil in Hin. }
  pose proof Hok as Hok0. simpl in Hg, Hok. destruct Hok as (Ha & Hn & Ha8 & Hn8 & Hah & Hok).
  pose proof (mod8_add n nb Hn8 Hnb8) as Hnn8.
  destruct (a <? b) eqn:Hab; [destruct (b <? a + n) eqn:Hov; [done|
    destruct (b =? a + n) eqn:Heq; [destruct l as [|[a2 n2] l]|]]|
    destruct (a <? b + nb) eqn:Hov; [done|destruct (a =? b + nb) eqn:Heq]]; bool_hyps.
  - injection Hg as <-. subst b. simpl. repeat split; try done; try lia.
    + rewrite !fl_bytes_cons. intros [?|?]; [|tauto]. destruct (decide (x < a + n)); lia.
    + rewrite !fl_bytes_cons. intros [[?|?]|?]; [left; lia|tauto|left; lia].
    + intros x ?. rewrite fl_bytes_cons. intros [?|(? & ? & Hin & _)]; [lia|].
      by apply not_elem_of_nil in Hin.
  - subst b. simpl in Hok. destruct Hok as (Ha2 & Hn2 & Ha28 & Hn28 & Hah2 & Hok).
    destruct (a2 <? a + n + nb) eqn:Hov2; [done|]. destruct (a2 =? a + n + nb) eqn:Heq2; bool_hyps;
      injection Hg as <-.
    + pose proof (mod8_add _ _ Hnn8 Hn28). subst a2. simpl.
      split. { repeat split; try done; try lia. by eapply fl_ok_mono; [exact Hok|lia]. }
      split; intros x; rewrite !fl_bytes_cons; [|intros ? [?|[?|Hx]]; try lia;
        revert Hx; apply (not_in_tail _ _ _ _ _ Hok); lia].
      split; [intros [?|?]; [|tauto]|intros [[?|[?|?]]|?]; try tauto; left; lia].
      destruct (decide (x < a + n)); [tauto|]. destruct (decide (x < a + n + nb)); [right; lia|].
      left; right; left; lia.
    + simpl. split. { repeat split; done || lia. }
      split; intros x; rewrite !fl_bytes_cons; [|intros ? [?|[?|Hx]]; try lia;
        revert Hx; apply (not_in_tail _ _ _ _ _ Hok); lia].
      split; [intros [?|?]; [|tauto]|intros [[?|[?|?]]|?]; try tauto; left; lia].
      destruct (decide (x < a + n)); [tauto|right; lia].
  - destruct (fl_freemem b nb l) as [l2|] eqn:E; [|done]. simpl in Hg. injection Hg as <-.
    destruct (IH (a + n + 1) l2 Hok ltac:(lia) eq_refl) as (H1 & H2 & H3).
    split; [simpl; repeat split; done || lia|]. split; intros x; rewrite !fl_bytes_cons.
    + rewrite H2. tauto.
    + intros Hx [?|Hin]; [lia|]. by apply (H3 x).
  - injection Hg as <-. pose proof (mod8_add _ _ Hnb8 Hn8). subst a. simpl.
    split. { repeat split; try done; try lia. by eapply fl_ok_mono; [exact Hok|lia]. }
    split; intros x; rewrite !fl_bytes_cons.
    + split; [intros [?|?]; [|tauto]|intros [[?|?]|?]; try tauto; left; lia].
      destruct (decide (x < b + nb)); [right; lia|left; left; lia].
    + intros ? [?|Hx]; [lia|]. revert Hx. apply (not_in_tail _ _ _ _ _ Hok). lia.
  - injection Hg as <-. split; [simpl in *; repeat split; done || lia|].
    split; intros x; rewrite !fl_bytes_cons; [tauto|].
    intros ? [?|Hx]; [lia|]. revert Hx. apply (not_in_tail _ _ _ _ _ Hok). lia.
Qed.

(** getmem and freemem are inverse on the free list. *)
Lemma fl_getmem_freemem nb lo hi l a l' :
  fl_ok lo hi l -> 0 < nb -> nb mod 8 = 0 -> fl_getmem nb l = Some (a, l') ->
  fl_freemem a nb l' = Some l.
Proof.
  intros Hok Hnb Hnb8. revert lo a l' Hok. induction l as [|[b n] l IH]; intros lo a l' Hok Hg; [done|].
  simpl in Hg, Hok. destruct Hok as (Hb & Hn & _ & _ & Hhi & Hok).
  destruct (n =? nb) eqn:E1; [|destruct (n >? nb) eqn:E2]; bool_hyps.
  - injection Hg as <- <-. subst n. destruct l as [|[a2 n2] l]; simpl; [done|].
    destruct Hok as (? & _). rewrite (proj2 (Z.ltb_ge a2 b)), (proj2 (Z.ltb_ge a2 (b + nb))) by lia.
    by rewrite (proj2 (Z.eqb_neq a2 (b + nb))) by lia.
  - injection Hg as <- <-. simpl. rewrite (proj2 (Z.ltb_ge (b + nb) b)), Z.ltb_irrefl by lia.
    rewrite Z.eqb_refl. by replace (nb + (n - nb)) with n by lia.
  - destruct (fl_getmem nb l) as [[c l2]|] eqn:E; [|done]. simpl in Hg. injection Hg as <- <-.
    pose proof (IH _ _ _ Hok eq_refl) as Hf.
    destruct (fl_getmem_ok _ _ _ _ _ _ Hok Hnb Hnb8 E) as (_ & ? & _).
    simpl. rewrite (proj2 (Z.ltb_lt b c)), (proj2 (Z.ltb_ge c (b + n))) by lia.
    rewrite (proj2 (Z.eqb_neq c (b + n))) by lia. by rewrite Hf.
Qed.

Lemma freemem_spec ms l b nbytes :
  mem_rep ms l -> 0 < nbytes <= 4294967288 -> b mod 8 = 0 -> b + roundmb nbytes <= ms.(maxheap) ->
  match (if b <? ms.(minheap) then None else fl_freemem b (roundmb nbytes) l) with
  | None => freemem b nbytes ms = Some (SYSERR, ms)
  | Some l' => ∃ ms', freemem b nbytes ms = Some (OK, ms') /\ mem_rep ms' l' /\
      ms'.(memlist) = ms.(memlist) /\ ms'.(minheap) = ms.(minheap) /\ ms'.(maxheap) = ms.(maxheap) /\
      ∀ x, ~ fl_bytes l x -> ~ (b <= x < b + roundmb nbytes) -> x ≠ ms.(memlist) ->
           x ≠ ms.(memlist) + 4 -> ms'.(words) !! x = ms.(words) !! x
  end.
Proof.
  intros HR Hnb Hb8 Hhi. destruct (roundmb_spec nbytes Hnb) as (Hr8 & Hr & Hrr).
  pose proof (mem_rep_fuel _ _ HR) as Hfu.
  destruct HR as [(p & Hp & Hf) Ht Hok [Hml Hml2] Hmx]. destruct ms as [w ml mn mx]. simpl in *.
  unfold freemem. simpl. rewrite (proj2 (Z.eqb_neq nbytes 0)) by lia. simpl.
  destruct (b <? mn) eqn:Hbmn; [done|]. bool_hyps. simpl.
  rewrite Z.gtb_ltb, (proj2 (Z.ltb_ge mx b)) by lia.
  unfold ldw, mnext, mlength in *. simpl in *. rewrite Hp. simpl.
  destruct (freemem_walk_link b (roundmb nbytes) ml mn mx ltac:(done) ltac:(lia) Hr8 Hbmn Hhi Hmx
    Hml Hml2 l (heap_fuel (Memst w ml mn mx)) w mn ml p Hp Hf Hok Ht ltac:(by left) ltac:(lia)
    ltac:(lia) Hfu) as (q1 & q2 & -> & Hr').
  simpl. destruct (fl_freemem b (roundmb nbytes) l) as [l'|] eqn:E; [|exact Hr'].
  destruct Hr' as (ms' & -> & w' & c' & -> & Hc & Hfc & Ht' & Hw).
  destruct (fl_freemem_ok b (roundmb nbytes) _ _ _ _ Hok ltac:(lia) Hr8 Hb8 Hbmn Hhi E) as (Hok' & _).
  eexists. split; [done|]. split; [constructor; simpl; eauto|]. by repeat split.
Qed.

(** The state meminit leaves; the word [memlist.mlength] is the one the start
    code has cleared. *)
Lemma meminit_spec text_end maxaddr ms :
  0 < ms.(memlist) -> ms.(memlist) + 8 <= text_end -> text_end < maxaddr -> maxaddr <= 4294967288 ->
  text_end mod 8 = 0 -> maxaddr mod 8 = 0 -> is_Some (ldw ms (mlength ms.(memlist))) ->
  mem_rep (meminit text_end maxaddr ms) [(text_end, maxaddr - text_end)].
Proof.
  intros Hml Hml2 Hlt Hmx H8 H8' [t Ht]. destruct ms as [w ml mn mx]. simpl in *.
  unfold meminit. mem_simp. rewrite (u32_id maxaddr), (u32_id text_end), (u32_id (maxaddr - text_end))
    by (unfold is_u32; lia). constructor; simpl; mem_simp.
  - exists text_end. split; [done|]. split; [done|]. split; [done|]. exists 0. mem_simp. done.
  - eauto.
  - pose proof (mod8_sub maxaddr text_end H8' H8). repeat split; done || lia.
  - lia.
  - lia.
Qed.

#[global] Arguments getmem_scan : simpl never.
#[global] Arguments freemem_link : simpl never.

(** * Properties *)

(** A heap of 4 KiB at 4096 with the list head at address 100. *)
Definition demo_heap : memst := meminit 4096 8192 (Memst {[104 := 0]} 100 0 0).

Lemma demo_heap_rep : mem_rep demo_heap [(4096, 4096)].
Proof. apply (meminit_spec 4096 8192); vm_compute; eauto; done. Qed.

(** C8: getmem is first fit.  If no free block holds the rounded request it
    returns SYSERR and changes nothing; otherwise it returns the 8-byte aligned
    start of the first block that does, exactly the bytes of the result stop
    being free, and no memory but the list head and free bytes is written. *)
Theorem getmem_first_fit ms l nbytes :
  mem_rep ms l -> 0 < nbytes <= 4294967288 ->
  match fl_getmem (roundmb nbytes) l with
  | None => getmem nbytes ms = Some (PSYSERR, ms) /\
            ∀ a n, (a, n) ∈ l -> n < roundmb nbytes
  | Some (a, l') =>
      ∃ ms', getmem nbytes ms = Some (a, ms') /\ mem_rep ms' l' /\ frame_ok l ms ms' /\
        a mod 8 = 0 /\ ms.(minheap) <= a /\ a + roundmb nbytes <= ms.(maxheap) /\
        (∀ x, fl_bytes l x <-> fl_bytes l' x \/ a <= x < a + roundmb nbytes) /\
        (∀ x, a <= x < a + roundmb nbytes -> ~ fl_bytes l' x)
  end.
Proof.
  intros HR Hnb. destruct (roundmb_spec nbytes Hnb) as (Hr8 & _ & ? & _).
  pose proof (getmem_spec ms l nbytes HR Hnb) as Hs.
  destruct (fl_getmem (roundmb nbytes) l) as [[a l']|] eqn:E.
  - destruct Hs as (ms' & Hg & HR' & Hf). exists ms'.
    destruct (fl_getmem_ok (roundmb nbytes) _ _ _ _ _ (mr_ok _ _ HR) ltac:(lia) Hr8 E)
      as (_ & ? & ? & ? & ? & ?). done.
  - split; [done|]. by apply fl_getmem_None.
Qed.

Lemma getmem_first_fit_witness :
  ∃ ms', getmem 100 demo_heap = Some (4096, ms') /\ mem_rep ms' [(4200, 3992)].
Proof.
  destruct (getmem_first_fit demo_heap _ 100 demo_heap_rep ltac:(lia)) as (ms' & ? & ? & _).
  exists ms'. split; assumption.
Defined.

(** Freemem undoes getmem: giving back what getmem returned, with the size
    that was asked for, is accepted and restores the free list, whatever part of
    a block the request had taken. *)
Theorem freemem_reverses_getmem ms l nbytes a ms' :
  mem_rep ms l -> 0 < nbytes <= 4294967288 -> getmem nbytes ms = Some (a, ms') -> a ≠ PSYSERR ->
  ∃ ms'', freemem a nbytes ms' = Some (OK, ms'') /\ mem_rep ms'' l.
Proof.
  intros HR Hnb Hg Ha. destruct (roundmb_spec nbytes Hnb) as (Hr8 & _ & ? & _).
  pose proof (getmem_spec ms l nbytes HR Hnb) as Hs.
  destruct (fl_getmem (roundmb nbytes) l) as [[c l']|] eqn:E; [|congruence].
  destruct Hs as (ms2 & Hg2 & HR' & (_ & Hmn & Hmx & _)). rewrite Hg in Hg2. injection Hg2 as <- <-.
  destruct (fl_getmem_ok (roundmb nbytes) _ _ _ _ _ (mr_ok _ _ HR) ltac:(lia) Hr8 E)
    as (_ & ? & ? & ? & _).
  pose proof (freemem_spec ms' l' a nbytes HR' Hnb ltac:(done) ltac:(lia)) as Hf.
  rewrite (proj2 (Z.ltb_ge a (minheap ms'))) in Hf by lia.
  rewrite (fl_getmem_freemem (roundmb nbytes) _ _ _ _ _ (mr_ok _ _ HR) ltac:(lia) Hr8 E) in Hf.
  destruct Hf as (ms'' & ? & ? & _). eauto.
Qed.

Lemma freemem_reverses_getmem_witness :
  match getmem 100 demo_heap with
  | Some (a, ms') => ∃ ms'', freemem a 100 ms' = Some (OK, ms'') /\ mem_rep ms'' [(4096, 4096)]
  | None => False
  end.
Proof.
  destruct (getmem 100 demo_heap) as [[a ms']|] eqn:E; [|vm_compute in E; discriminate E].
  apply (freemem_reverses_getmem demo_heap _ 100 a ms' demo_heap_rep); [lia|exact E|].
  intros ->. vm_compute in E. discriminate E.
Defined.

(** C9: freemem accepts a block exactly when it overlaps no free block and does
    not start below the heap; it then leaves the list in address order with no
    two blocks adjacent (what touches is merged), and the free bytes are the old
    ones and the block's.  A rejected call changes nothing. *)
Theorem freemem_coalesces ms l b nbytes :
  mem_rep ms l -> 0 < nbytes <= 4294967288 -> b mod 8 = 0 ->
  b + roundmb nbytes <= ms.(maxheap) ->
  match (if b <? ms.(minheap) then None else fl_freemem b (roundmb nbytes) l) with
  | None => freemem b nbytes ms = Some (SYSERR, ms)
  | Some l' =>
      (∃ ms', freemem b nbytes ms = Some (OK, ms') /\ mem_rep ms' l') /\
      (∀ x, fl_bytes l' x <-> fl_bytes l x \/ b <= x < b + roundmb nbytes) /\
      (∀ x, b <= x < b + roundmb nbytes -> ~ fl_bytes l x)
  end.
Proof.
  intros HR Hnb Hb8 Hhi. destruct (roundmb_spec nbytes Hnb) as (Hr8 & _ & ? & _).
  pose proof (freemem_spec ms l b nbytes HR Hnb Hb8 Hhi) as Hs.
  destruct (b <? minheap ms) eqn:Hb; [done|]. bool_hyps.
  destruct (fl_freemem b (roundmb nbytes) l) as [l'|] eqn:E; [|done].
  destruct Hs as (ms' & Hf & HR' & _). split; [eauto|].
  apply (fl_freemem_ok b (roundmb nbytes) _ _ _ _ (mr_ok _ _ HR)); done || lia.
Qed.

Lemma freemem_coalesces_witness : freemem 4096 8 demo_heap = Some (SYSERR, demo_heap).
Proof.
  apply (freemem_coalesces demo_heap _ 4096 8 demo_heap_rep); [lia|reflexivity|vm_compute; discriminate].
Defined.

(** Getstk takes a stack from the top of the highest block that can hold it
    and returns the address of the stack's last word; the bytes of the stack,
    and no others, stop being free. *)
Theorem getstk_highest_fit ms l nbytes :
  mem_rep ms l -> 0 < nbytes <= 4294967288 ->
  match fl_getstk (roundmb nbytes) l with
  | None => getstk nbytes ms = Some (PSYSERR, ms)
  | Some (a, l') =>
      (∃ ms', getstk nbytes ms = Some (a + roundmb nbytes - 4, ms') /\ mem_rep ms' l' /\
              frame_ok l ms ms') /\
      (∀ x, fl_bytes l x <-> fl_bytes l' x \/ a <= x < a + roundmb nbytes) /\
      (∀ x, a <= x < a + roundmb nbytes -> ~ fl_bytes l' x)
  end.
Proof.
  intros HR Hnb. destruct (roundmb_spec nbytes Hnb) as (Hr8 & _ & ? & _).
  pose proof (getstk_spec ms l nbytes HR Hnb) as Hs.
  destruct (fl_getstk (roundmb nbytes) l) as [[a l']|] eqn:E; [|done].
  destruct (fl_getstk_ok (roundmb nbytes) _ _ _ _ _ (mr_ok _ _ HR) ltac:(lia) Hr8 E)
    as (_ & _ & _ & _ & ? & ?). done.
Qed.

Lemma getstk_highest_fit_witness :
  ∃ ms', getstk 100 demo_heap = Some (8188, ms') /\ mem_rep ms' [(4096, 3992)].
Proof.
  destruct (getstk_highest_fit demo_heap _ 100 demo_heap_rep ltac:(lia)) as ((ms' & ? & ? & _) & _).
  exists ms'. split; assumption.
Defined.

(** A request of more than 4294967288 bytes wraps to zero in roundmb, and
    getmem then returns the first free block and leaves it on the free list: the
    caller's block is not allocated. *)
Theorem getmem_huge_request_allocates_nothing ms a n l nbytes :
  mem_rep ms ((a, n) :: l) -> 4294967288 < nbytes < 4294967296 ->
  ∃ ms', getmem nbytes ms = Some (a, ms') /\ mem_rep ms' ((a, n) :: l).
Proof.
  intros [(p & Hp & Hf) Ht Hok [Hml Hml2] Hmx] Hnb. destruct ms as [w ml mn mx]. simpl in *.
  pose proof Hok as Hok0. destruct Hok as (Ha & Hn & Ha8 & Hn8 & Hhi & Hok).
  destruct Hf as (-> & Hlen & nxt & Hnx & Hf). destruct Ht as [t Ht]. mem_simp.
  assert (Hr : roundmb nbytes = 0).
  { rewrite roundmb_div by (unfold is_u32; lia). unfold u32. Z.div_mod_to_equations. lia. }
  assert (8 <= n) by (apply (mod8_lt 0); [done|done|lia]).
  unfold getmem. rewrite (proj2 (Z.eqb_neq nbytes 0)) by lia. rewrite Hr. mem_simp. rewrite Hp. simpl.
  unfold heap_fuel, getmem_scan. rewrite (proj2 (Z.eqb_neq a NULL)) by (unfold NULL; lia).
  unfold add_total. mem_simp. rewrite Hlen. mem_simp. rewrite (proj2 (Z.eqb_neq n 0)) by lia.
  rewrite Z.gtb_ltb, (proj2 (Z.ltb_lt 0 n)) by lia. rewrite Z.add_0_r, (u32_id a) by (unfold is_u32; lia).
  mem_simp. rewrite Hnx. mem_simp. rewrite Hlen. mem_simp. rewrite Ht. mem_simp.
  eexists. split; [done|]. rewrite Z.sub_0_r, (u32_id n) by (unfold is_u32; lia).
  constructor; simpl; mem_simp; try done. exists a. split; [done|].
  mem_simp. split; [done|]. split; [done|]. exists nxt. mem_simp. split; [done|].
  eapply flist_frame; [exact Hf|exact Hok|]. intros x Hx. pose proof (fl_bytes_range _ _ _ _ Hok Hx).
  by rewrite !lookup_insert_ne by lia.
Qed.

Lemma getmem_huge_request_allocates_nothing_witness :
  ∃ ms', getmem 4294967295 demo_heap = Some (4096, ms') /\ mem_rep ms' [(4096, 4096)].
Proof. apply (getmem_huge_request_allocates_nothing _ _ _ _ _ demo_heap_rep). lia. Defined.

(** * For the clients of the heap *)

(** Writes outside of the free blocks and of the list head. *)
Lemma mem_rep_frame ms ms' l :
  mem_rep ms l -> ms'.(memlist) = ms.(memlist) -> ms'.(minheap) = ms.(minheap) ->
  ms'.(maxheap) = ms.(maxheap) ->
  (∀ x, fl_bytes l x \/ x = ms.(memlist) \/ x = ms.(memlist) + 4 ->
        ms'.(words) !! x = ms.(words) !! x) ->
  mem_rep ms' l.
Proof.
  intros [(p & Hp & Hf) Ht Hok Hml Hmx] Hm1 Hm2 Hm3 Hw. destruct ms as [w ml mn mx], ms' as [w' ml' mn' mx'].
  mem_simp. subst. constructor; mem_simp; try done.
  - exists p. rewrite Hw by tauto. split; [done|]. eapply flist_frame; [exact Hf|exact Hok|].
    intros x Hx. apply Hw. by left.
  - rewrite Hw by tauto. done.
Qed.

(** Giving a stack back is never undefined and keeps the free list well formed,
    whether or not freemem accepts it. *)
Lemma freestk_safe ms l p len :
  mem_rep ms l ->
  p = 0 /\ len = 0 \/
  0 < len <= 4294967288 /\ (p + 4) mod 8 = 0 /\ p + 4 <= ms.(maxheap) /\
  ms.(minheap) + roundmb len <= p + 4 ->
  ∃ r ms' l', freestk p len ms = Some (r, ms') /\ mem_rep ms' l' /\
    ms'.(minheap) = ms.(minheap) /\ ms'.(maxheap) = ms.(maxheap).
Proof.
  intros HR [[-> ->]|(Hlen & Hp8 & Hmx & Hmn)]; [exists SYSERR, ms, l; done|].
  destruct (roundmb_spec len Hlen) as (Hr8 & _ & Hr). pose proof (mr_head _ _ HR) as [Hml Hml2].
  pose proof (mr_max _ _ HR) as Hmax. unfold freestk.
  rewrite (u32_id p) by (unfold is_u32; lia).
  rewrite (u32_id (p - roundmb len)) by (unfold is_u32; lia).
  rewrite (u32_id (p - roundmb len + 4)) by (unfold is_u32; lia).
  pose proof (roundmb_id (roundmb len) Hr Hr8) as Hid.
  set (nb := roundmb len) in *. set (b := p - nb + 4).
  assert (Hb8 : b mod 8 = 0).
  { unfold b. replace (p - nb + 4) with (p + 4 - nb) by lia. by apply mod8_sub. }
  pose proof (freemem_spec ms l b nb HR Hr Hb8) as Hs. rewrite Hid in Hs.
  specialize (Hs ltac:(unfold b; lia)).
  rewrite (proj2 (Z.ltb_ge b (minheap ms))) in Hs by (unfold b; lia).
  destruct (fl_freemem b nb l) as [l'|]; [|by exists SYSERR, ms, l].
  destruct Hs as (ms' & ? & ? & _ & ? & ? & _). by exists OK, ms', l'.
Qed.
