(* ===== verification/Kernel.v ===== *)
(** The kernel state and the monad the system calls are written in.

    A system call reads and writes the global variables of the kernel, may give
    the processor to another process in the middle (ctxsw), may halt the
    machine (panic, xdone) and would have undefined behaviour if it indexed a
    table out of range.  [res] has one constructor for each.  A context switch
    carries the continuation of the process that gives up the processor: what
    it does with the state it finds when it is resumed. *)

From S2P Require Import Prelude Types Queue Memory.

(** * The state *)

Record kst := Kst {
  queuetab : qtab;  (** queue.c *)
  nextqid : Z;  (** the static nextqid of newqueue.c *)
  proctab : ptab;
  currpid : Z;
  prcount : Z;
  readylist : Z;
  ndefers : Z;  (** Defer.ndefers *)
  attempt : bool;  (** Defer.attempt *)
  preempt : Z;
  nextpid : Z;  (** the static nextpid of create.c *)
  sleepq : Z;
  clktime : Z;
  clkticks : Z;
  count1000 : Z;  (** the static count1000 of arm-bbb/clkhandler.c *)
  semtab : stab;
  nextsem : Z;  (** the static nextsem of semcreate.c *)
  mem : memst;  (** the heap *)
  ie : bool;  (** interrupts enabled *)
  porttab : gmap Z ptentry;
  ptfree : Z;
  ptnextid : Z;
  buftab : gmap Z bpentry;
  nbpools : Z;
}.

Definition set_queuetab (x : qtab) (s : kst) : kst :=
  Kst x s.(nextqid) s.(proctab) s.(currpid) s.(prcount) s.(readylist) s.(ndefers) s.(attempt)
    s.(preempt) s.(nextpid) s.(sleepq) s.(clktime) s.(clkticks) s.(count1000) s.(semtab)
    s.(nextsem) s.(mem) s.(ie) s.(porttab) s.(ptfree) s.(ptnextid) s.(buftab) s.(nbpools).
Definition set_nextqid (x : Z) (s : kst) : kst :=
  Kst s.(queuetab) x s.(proctab) s.(currpid) s.(prcount) s.(readylist) s.(ndefers) s.(attempt)
    s.(preempt) s.(nextpid) s.(sleepq) s.(clktime) s.(clkticks) s.(count1000) s.(semtab)
    s.(nextsem) s.(mem) s.(ie) s.(porttab) s.(ptfree) s.(ptnextid) s.(buftab) s.(nbpools).
Definition set_proctab (x : ptab) (s : kst) : kst :=
  Kst s.(queuetab) s.(nextqid) x s.(currpid) s.(prcount) s.(readylist) s.(ndefers) s.(attempt)
    s.(preempt) s.(nextpid) s.(sleepq) s.(clktime) s.(clkticks) s.(count1000) s.(semtab)
    s.(nextsem) s.(mem) s.(ie) s.(porttab) s.(ptfree) s.(ptnextid) s.(buftab) s.(nbpools).
Definition set_currpid (x : Z) (s : kst) : kst :=
  Kst s.(queuetab) s.(nextqid) s.(proctab) x s.(prcount) s.(readylist) s.(ndefers) s.(attempt)
    s.(preempt) s.(nextpid) s.(sleepq) s.(clktime) s.(clkticks) s.(count1000) s.(semtab)
    s.(nextsem) s.(mem) s.(ie) s.(porttab) s.(ptfree) s.(ptnextid) s.(buftab) s.(nbpools).
Definition set_prcount (x : Z) (s : kst) : kst :=
  Kst s.(queuetab) s.(nextqid) s.(proctab) s.(currpid) x s.(readylist) s.(ndefers) s.(attempt)
    s.(preempt) s.(nextpid) s.(sleepq) s.(clktime) s.(clkticks) s.(count1000) s.(semtab)
    s.(nextsem) s.(mem) s.(ie) s.(porttab) s.(ptfree) s.(ptnextid) s.(buftab) s.(nbpools).
Definition set_readylist (x : Z) (s : kst) : kst :=
  Kst s.(queuetab) s.(nextqid) s.(proctab) s.(currpid) s.(prcount) x s.(ndefers) s.(attempt)
    s.(preempt) s.(nextpid) s.(sleepq) s.(clktime) s.(clkticks) s.(count1000) s.(semtab)
    s.(nextsem) s.(mem) s.(ie) s.(porttab) s.(ptfree) s.(ptnextid) s.(buftab) s.(nbpools).
Definition set_ndefers (x : Z) (s : kst) : kst :=
  Kst s.(queuetab) s.(nextqid) s.(proctab) s.(currpid) s.(prcount) s.(readylist) x s.(attempt)
    s.(preempt) s.(nextpid) s.(sleepq) s.(clktime) s.(clkticks) s.(count1000) s.(semtab)
    s.(nextsem) s.(mem) s.(ie) s.(porttab) s.(ptfree) s.(ptnextid) s.(buftab) s.(nbpools).
Definition set_attempt (x : bool) (s : kst) : kst :=
  Kst s.(queuetab) s.(nextqid) s.(proctab) s.(currpid) s.(prcount) s.(readylist) s.(ndefers) x
    s.(preempt) s.(nextpid) s.(sleepq) s.(clktime) s.(clkticks) s.(count1000) s.(semtab)
    s.(nextsem) s.(mem) s.(ie) s.(porttab) s.(ptfree) s.(ptnextid) s.(buftab) s.(nbpools).
Definition set_preempt (x : Z) (s : kst) : kst :=
  Kst s.(queuetab) s.(nextqid) s.(proctab) s.(currpid) s.(prcount) s.(readylist) s.(ndefers)
    s.(attempt) x s.(nextpid) s.(sleepq) s.(clktime) s.(clkticks) s.(count1000) s.(semtab)
    s.(nextsem) s.(mem) s.(ie) s.(porttab) s.(ptfree) s.(ptnextid) s.(buftab) s.(nbpools).
Definition set_nextpid (x : Z) (s : kst) : kst :=
  Kst s.(queuetab) s.(nextqid) s.(proctab) s.(currpid) s.(prcount) s.(readylist) s.(ndefers)
    s.(attempt) s.(preempt) x s.(sleepq) s.(clktime) s.(clkticks) s.(count1000) s.(semtab)
    s.(nextsem) s.(mem) s.(ie) s.(porttab) s.(ptfree) s.(ptnextid) s.(buftab) s.(nbpools).
Definition set_sleepq (x : Z) (s : kst) : kst :=
  Kst s.(queuetab) s.(nextqid) s.(proctab) s.(currpid) s.(prcount) s.(readylist) s.(ndefers)
    s.(attempt) s.(preempt) s.(nextpid) x s.(clktime) s.(clkticks) s.(count1000) s.(semtab)
    s.(nextsem) s.(mem) s.(ie) s.(porttab) s.(ptfree) s.(ptnextid) s.(buftab) s.(nbpools).
Definition set_clktime (x : Z) (s : kst) : kst :=
  Kst s.(queuetab) s.(nextqid) s.(proctab) s.(currpid) s.(prcount) s.(readylist) s.(ndefers)
    s.(attempt) s.(preempt) s.(nextpid) s.(sleepq) x s.(clkticks) s.(count1000) s.(semtab)
    s.(nextsem) s.(mem) s.(ie) s.(porttab) s.(ptfree) s.(ptnextid) s.(buftab) s.(nbpools).
Definition set_clkticks (x : Z) (s : kst) : kst :=
  Kst s.(queuetab) s.(nextqid) s.(proctab) s.(currpid) s.(prcount) s.(readylist) s.(ndefers)
    s.(attempt) s.(preempt) s.(nextpid) s.(sleepq) s.(clktime) x s.(count1000) s.(semtab)
    s.(nextsem) s.(mem) s.(ie) s.(porttab) s.(ptfree) s.(ptnextid) s.(buftab) s.(nbpools).
Definition set_count1000 (x : Z) (s : kst) : kst :=
  Kst s.(queuetab) s.(nextqid) s.(proctab) s.(currpid) s.(prcount) s.(readylist) s.(ndefers)
    s.(attempt) s.(preempt) s.(nextpid) s.(sleepq) s.(clktime) s.(clkticks) x s.(semtab)
    s.(nextsem) s.(mem) s.(ie) s.(porttab) s.(ptfree) s.(ptnextid) s.(buftab) s.(nbpools).
Definition set_semtab (x : stab) (s : kst) : kst :=
  Kst s.(queuetab) s.(nextqid) s.(proctab) s.(currpid) s.(prcount) s.(readylist) s.(ndefers)
    s.(attempt) s.(preempt) s.(nextpid) s.(sleepq) s.(clktime) s.(clkticks) s.(count1000) x
    s.(nextsem) s.(mem) s.(ie) s.(porttab) s.(ptfree) s.(ptnextid) s.(buftab) s.(nbpools).
Definition set_nextsem (x : Z) (s : kst) : kst :=
  Kst s.(queuetab) s.(nextqid) s.(proctab) s.(currpid) s.(prcount) s.(readylist) s.(ndefers)
    s.(attempt) s.(preempt) s.(nextpid) s.(sleepq) s.(clktime) s.(clkticks) s.(count1000)
    s.(semtab) x s.(mem) s.(ie) s.(porttab) s.(ptfree) s.(ptnextid) s.(buftab) s.(nbpools).
Definition set_mem (x : memst) (s : kst) : kst :=
  Kst s.(queuetab) s.(nextqid) s.(proctab) s.(currpid) s.(prcount) s.(readylist) s.(ndefers)
    s.(attempt) s.(preempt) s.(nextpid) s.(sleepq) s.(clktime) s.(clkticks) s.(count1000)
    s.(semtab) s.(nextsem) x s.(ie) s.(porttab) s.(ptfree) s.(ptnextid) s.(buftab) s.(nbpools).
Definition set_ie (x : bool) (s : kst) : kst :=
  Kst s.(queuetab) s.(nextqid) s.(proctab) s.(currpid) s.(prcount) s.(readylist) s.(ndefers)
    s.(attempt) s.(preempt) s.(nextpid) s.(sleepq) s.(clktime) s.(clkticks) s.(count1000)
    s.(semtab) s.(nextsem) s.(mem) x s.(porttab) s.(ptfree) s.(ptnextid) s.(buftab) s.(nbpools).
Definition set_porttab (x : gmap Z ptentry) (s : kst) : kst :=
  Kst s.(queuetab) s.(nextqid) s.(proctab) s.(currpid) s.(prcount) s.(readylist) s.(ndefers)
    s.(attempt) s.(preempt) s.(nextpid) s.(sleepq) s.(clktime) s.(clkticks) s.(count1000)
    s.(semtab) s.(nextsem) s.(mem) s.(ie) x s.(ptfree) s.(ptnextid) s.(buftab) s.(nbpools).
Definition set_ptfree (x : Z) (s : kst) : kst :=
  Kst s.(queuetab) s.(nextqid) s.(proctab) s.(currpid) s.(prcount) s.(readylist) s.(ndefers)
    s.(attempt) s.(preempt) s.(nextpid) s.(sleepq) s.(clktime) s.(clkticks) s.(count1000)
    s.(semtab) s.(nextsem) s.(mem) s.(ie) s.(porttab) x s.(ptnextid) s.(buftab) s.(nbpools).
Definition set_ptnextid (x : Z) (s : kst) : kst :=
  Kst s.(queuetab) s.(nextqid) s.(proctab) s.(currpid) s.(prcount) s.(readylist) s.(ndefers)
    s.(attempt) s.(preempt) s.(nextpid) s.(sleepq) s.(clktime) s.(clkticks) s.(count1000)
    s.(semtab) s.(nextsem) s.(mem) s.(ie) s.(porttab) s.(ptfree) x s.(buftab) s.(nbpools).
Definition set_buftab (x : gmap Z bpentry) (s : kst) : kst :=
  Kst s.(queuetab) s.(nextqid) s.(proctab) s.(currpid) s.(prcount) s.(readylist) s.(ndefers)
    s.(attempt) s.(preempt) s.(nextpid) s.(sleepq) s.(clktime) s.(clkticks) s.(count1000)
    s.(semtab) s.(nextsem) s.(mem) s.(ie) s.(porttab) s.(ptfree) s.(ptnextid) x s.(nbpools).
Definition set_nbpools (x : Z) (s : kst) : kst :=
  Kst s.(queuetab) s.(nextqid) s.(proctab) s.(currpid) s.(prcount) s.(readylist) s.(ndefers)
    s.(attempt) s.(preempt) s.(nextpid) s.(sleepq) s.(clktime) s.(clkticks) s.(count1000)
    s.(semtab) s.(nextsem) s.(mem) s.(ie) s.(porttab) s.(ptfree) s.(ptnextid) s.(buftab) x.

(** * The monad *)

Inductive res (A : Type) : Type :=
  | Done (a : A) (s : kst)
  | Ctxsw (old : Z) (s : kst) (k : kst -> res A)
  | Halted (s : kst)
  | UB.
Arguments Done {A}.
Arguments Ctxsw {A}.
Arguments Halted {A}.
Arguments UB {A}.

Fixpoint rbind {A B} (f : A -> kst -> res B) (r : res A) : res B :=
  match r with
  | Done a s => f a s
  | Ctxsw old s k => Ctxsw old s (λ s', rbind f (k s'))
  | Halted s => Halted s
  | UB => UB
  end.

Definition K (A : Type) : Type := kst -> res A.

#[export] Instance K_ret : MRet K := λ A a s, Done a s.
#[export] Instance K_bind : MBind K := λ A B f m s, rbind f (m s).

Definition gets {A} (f : kst -> A) : K A := λ s, Done (f s) s.
Definition modify (f : kst -> kst) : K unit := λ s, Done tt (f s).
Definition undefined {A} : K A := λ _, UB.
(** panic (system/panic.c) and xdone stop the machine. *)
Definition panic {A} : K A := λ s, Halted s.

(** An index out of range is undefined behaviour. *)
Definition opt {A} (o : option A) : K A := λ s,
  match o with Some a => Done a s | None => UB end.

(** An operation of the queue table. *)
Definition qop {A} (f : qtab -> option (A * qtab)) : K A := λ s,
  match f s.(queuetab) with
  | Some (a, qt) => Done a (set_queuetab qt s)
  | None => UB
  end.
Definition qget {A} (f : qtab -> option A) : K A := λ s, opt (f s.(queuetab)) s.

(** An operation of the memory manager, or a plain load or store. *)
Definition mop {A} (f : memst -> option (A * memst)) : K A := λ s,
  match f s.(mem) with
  | Some (a, m) => Done a (set_mem m s)
  | None => UB
  end.
Definition load (a : Z) : K Z := λ s, opt (ldw s.(mem) a) s.
Definition store (a v : Z) : K unit := modify (λ s, set_mem (stw a v s.(mem)) s).

Definition getproc (pid : Z) : K procent := λ s, opt (s.(proctab) !! pid) s.
Definition updproc (f : procent -> procent) (pid : Z) : K unit := λ s,
  match arr_upd f pid s.(proctab) with
  | Some pt => Done tt (set_proctab pt s)
  | None => UB
  end.
Definition getsem (sem : Z) : K sentry := λ s, opt (s.(semtab) !! sem) s.
Definition updsem (f : sentry -> sentry) (sem : Z) : K unit := λ s,
  match arr_upd f sem s.(semtab) with
  | Some st => Done tt (set_semtab st s)
  | None => UB
  end.

(** [disable()] and [restore(mask)]: the mask is whether interrupts are
    enabled. *)
Definition disable : K bool := λ s, Done s.(ie) (set_ie false s).
Definition restore (mask : bool) : K unit := modify (set_ie mask).

(** [ctxsw]: the state of the old process is saved and the process [currpid]
    runs. *)
Definition ctxsw (old : Z) : K unit := λ s, Ctxsw old s (λ s', Done tt s').

Definition badpid (pid : Z) : K bool := gets (λ s, isbadpid s.(proctab) pid).

(** [while (c) body], for at most [fuel] iterations. *)
Fixpoint while (fuel : nat) (c : K bool) (body : K unit) : K unit :=
  match fuel with
  | O => undefined
  | S fuel => b ← c; if (b : bool) then body;; while fuel c body else mret tt
  end.

(** * Reasoning about a result

    [wp I r Q]: [r] has no undefined behaviour; whenever it gives up the
    processor the state satisfies [I]; and if, each time it runs again, it finds
    a state that satisfies [I] in which it is the current process and interrupts
    are disabled, then it ends in [Q].  A process that gives up the processor
    with its table entry free never runs again. *)

Definition alive (s : kst) (pid : Z) : Prop :=
  ∃ e, s.(proctab) !! pid = Some e /\ e.(prstate) ≠ PR_FREE.

Definition resumed (I : kst -> Prop) (pid : Z) (s : kst) : Prop :=
  I s /\ s.(currpid) = pid /\ s.(ie) = false.

Fixpoint wp {A} (I : kst -> Prop) (r : res A) (Q : A -> kst -> Prop) : Prop :=
  match r with
  | Done a s => Q a s
  | Ctxsw old s k => I s /\ (alive s old -> ∀ s', resumed I old s' -> wp I (k s') Q)
  | Halted _ => True
  | UB => False
  end.

Lemma wp_bind {A B} I (r : res A) (f : A -> kst -> res B) Q :
  wp I r (λ a s, wp I (f a s) Q) -> wp I (rbind f r) Q.
Proof. induction r as [| old s k IH | |]; simpl; try done. intros [HI Hk]. eauto. Qed.

Lemma wp_mono {A} I (r : res A) (Q Q' : A -> kst -> Prop) :
  wp I r Q -> (∀ a s, Q a s -> Q' a s) -> wp I r Q'.
Proof. induction r as [| old s k IH | |]; simpl; try done; [eauto|]. intros [HI Hk] HQ. eauto 6. Qed.

Lemma wp_seq {A B} I (m : K A) (f : A -> K B) Q s :
  wp I (m s) (λ a s', wp I (f a s') Q) -> wp I ((m ≫= f) s) Q.
Proof. apply wp_bind. Qed.

(** Straight-line code runs by computation: a call that is [Done] is replaced by
    its result. *)
Lemma bind_done {A B} (m : K A) (f : A -> K B) s a s' : m s = Done a s' -> (m ≫= f) s = f a s'.
Proof. intros H. unfold mbind, K_bind. by rewrite H. Qed.

Lemma bind_modify {B} f (g : unit -> K B) s : (modify f ≫= g) s = g tt (f s).
Proof. done. Qed.

Lemma bind_gets {A B} (f : kst -> A) (g : A -> K B) s : (gets f ≫= g) s = g (f s) s.
Proof. done. Qed.

Lemma while_true fuel c body s s' s'' :
  c s = Done true s' -> body s' = Done tt s'' ->
  while (S fuel) c body s = while fuel c body s''.
Proof.
  intros Hc Hb. simpl. rewrite (bind_done _ _ _ _ _ Hc). by rewrite (bind_done _ _ _ _ _ Hb).
Qed.

Lemma while_false fuel c body s s' :
  c s = Done false s' -> while (S fuel) c body s = Done tt s'.
Proof. intros Hc. simpl. by rewrite (bind_done _ _ _ _ _ Hc). Qed.

#[global] Arguments while : simpl never.
