(* ===== verification/Sched.v ===== *)
(** The scheduler and the calls that only move processes to and from the ready
    list: system/resched.c, ready.c, yield.c, suspend.c, resume.c, chprio.c,
    getprio.c, getpid.c; then the kernel invariant and the lemmas that the other
    files use to show that they keep it. *)

From S2P Require Import Prelude Types Queue Memory Kernel.

(** * The operations *)

(** The end of resched: force a context switch to the highest priority ready
    process. *)
Definition dispatch (old : Z) : K unit :=
  rl ← gets readylist;
  new ← qop (dequeue rl);
  modify (set_currpid new);;
  updproc (set_prstate PR_CURR) new;;
  modify (set_preempt QUANTUM);;
  ctxsw old.

(** system/resched.c: resched *)
Definition resched : K unit :=
  nd ← gets ndefers;
  if nd >? 0 then modify (set_attempt true)
  else
    old ← gets currpid;
    ptold ← getproc old;
    rl ← gets readylist;
    go ← (if bool_decide (ptold.(prstate) = PR_CURR) then
            fk ← qget (λ qt, firstkey qt rl);
            if ptold.(prprio) >? fk then mret false
            else
              updproc (set_prstate PR_READY) old;;
              pt ← gets proctab;
              qop (insert pt old rl ptold.(prprio));;
              mret true
          else mret true);
    if (go : bool) then dispatch old else mret tt.

Definition DEFER_START : Z := 1.
Definition DEFER_STOP : Z := 2.

(** system/resched.c: resched_cntl *)
Definition resched_cntl (defer : Z) : K Z :=
  if defer =? DEFER_START then
    nd ← gets ndefers;
    modify (set_ndefers (s32 (nd + 1)));;
    (if nd =? 0 then modify (set_attempt false) else mret tt);;
    mret OK
  else if defer =? DEFER_STOP then
    nd ← gets ndefers;
    if nd <=? 0 then mret SYSERR
    else
      modify (set_ndefers (nd - 1));;
      att ← gets attempt;
      (if (nd - 1 =? 0) && att then resched else mret tt);;
      mret OK
  else mret SYSERR.

(** system/ready.c: ready *)
Definition ready (pid : Z) : K Z :=
  bad ← badpid pid;
  if (bad : bool) then mret SYSERR
  else
    updproc (set_prstate PR_READY) pid;;
    prptr ← getproc pid;
    pt ← gets proctab;
    rl ← gets readylist;
    qop (insert pt pid rl prptr.(prprio));;
    resched;;
    mret OK.

(** system/yield.c: yield *)
Definition yield : K Z :=
  mask ← disable;
  resched;;
  restore mask;;
  mret OK.

(** system/suspend.c: suspend *)
Definition suspend (pid : Z) : K Z :=
  mask ← disable;
  bad ← badpid pid;
  if (bad : bool) || (pid =? NULLPROC) then restore mask;; mret SYSERR
  else
    prptr ← getproc pid;
    if bool_decide (prptr.(prstate) ≠ PR_CURR) && bool_decide (prptr.(prstate) ≠ PR_READY)
    then restore mask;; mret SYSERR
    else
      (if bool_decide (prptr.(prstate) = PR_READY) then
         qop (getitem pid);;
         updproc (set_prstate PR_SUSP) pid
       else
         updproc (set_prstate PR_SUSP) pid;;
         resched);;
      prptr ← getproc pid;
      restore mask;;
      mret prptr.(prprio).

(** system/resume.c: resume *)
Definition resume (pid : Z) : K Z :=
  mask ← disable;
  bad ← badpid pid;
  if (bad : bool) then restore mask;; mret SYSERR
  else
    prptr ← getproc pid;
    if bool_decide (prptr.(prstate) ≠ PR_SUSP) then restore mask;; mret SYSERR
    else
      let prio := prptr.(prprio) in
      ready pid;;
      restore mask;;
      mret prio.

(** system/chprio.c: chprio *)
Definition chprio (pid newprio : Z) : K Z :=
  mask ← disable;
  bad ← badpid pid;
  if (bad : bool) then restore mask;; mret SYSERR
  else
    prptr ← getproc pid;
    let oldprio := prptr.(prprio) in
    updproc (set_prprio newprio) pid;;
    restore mask;;
    mret oldprio.

(** system/getprio.c: getprio *)
Definition getprio (pid : Z) : K Z :=
  mask ← disable;
  bad ← badpid pid;
  if (bad : bool) then restore mask;; mret SYSERR
  else
    prptr ← getproc pid;
    restore mask;;
    mret prptr.(prprio).

(** system/getpid.c: getpid *)
Definition getpid : K Z := gets currpid.

(** * The kernel invariant *)

(** The queue a process of this state is on. *)
Definition where_is (s : kst) (e : procent) : option Z :=
  match e.(prstate) with
  | PR_READY => Some s.(readylist)
  | PR_WAIT => se ← s.(semtab) !! e.(prsem); Some se.(squeue)
  | PR_SLEEP | PR_RECTIM => Some s.(sleepq)
  | _ => None
  end.

(** The stack of an entry that has been used lies in the heap. *)
Definition stack_ok (m : memst) (e : procent) : Prop :=
  e.(prstkbase) = 0 /\ e.(prstklen) = 0 \/
  0 < e.(prstklen) <= 4294967288 /\
  (e.(prstkbase) + 4) mod 8 = 0 /\ e.(prstkbase) + 4 <= m.(maxheap) /\
  m.(minheap) + roundmb e.(prstklen) <= e.(prstkbase) + 4.

(** The tables are complete and consistent: the queues of [Q] are in the queue
    table; a process is on the queue that its state tells and on no other,
    except process [x], which is on none; the count of a semaphore, when
    negative, is the number of processes waiting for it, except for
    semaphore [y]; the ready list is in descending order of keys; the null
    process is always ready or running; no process but [currpid] is marked
    current; the free list is well formed. *)
Record pre_inv (x y : Z) (Q : queues) (s : kst) : Prop := {
  iv_q : qrep s.(queuetab) Q;
  iv_pt : arr_len NPROC s.(proctab);
  iv_st : arr_len NSEM s.(semtab);
  iv_rl : is_Some (Q !! s.(readylist));
  iv_sl : is_Some (Q !! s.(sleepq));
  iv_sq : ∀ i e, s.(semtab) !! i = Some e -> is_Some (Q !! e.(squeue));
  iv_rlsl : s.(readylist) ≠ s.(sleepq);
  iv_rlsq : ∀ i e, s.(semtab) !! i = Some e ->
            e.(squeue) ≠ s.(readylist) /\ e.(squeue) ≠ s.(sleepq);
  iv_sqinj : ∀ i j ei ej, s.(semtab) !! i = Some ei -> s.(semtab) !! j = Some ej ->
             ei.(squeue) = ej.(squeue) -> i = j;
  iv_where : ∀ p e q l, s.(proctab) !! p = Some e -> Q !! q = Some l ->
             p ∈ l <-> p ≠ x /\ where_is s e = Some q;
  iv_scount : ∀ i e l, s.(semtab) !! i = Some e -> Q !! e.(squeue) = Some l -> i ≠ y ->
              Z.of_nat (length l) = Z.max 0 (- e.(scount));
  iv_desc : ∀ l, Q !! s.(readylist) = Some l -> desc (keyof s.(queuetab)) l;
  iv_curr : ∀ p e, s.(proctab) !! p = Some e -> e.(prstate) = PR_CURR -> p = s.(currpid);
  iv_currpid : 0 <= s.(currpid) < NPROC;
  iv_null : ∃ e, s.(proctab) !! NULLPROC = Some e /\
                 (e.(prstate) = PR_READY \/ e.(prstate) = PR_CURR);
  iv_prio : ∀ p e, s.(proctab) !! p = Some e -> -32768 <= e.(prprio) < 32768;
  iv_mem : ∃ l, mem_rep s.(mem) l;
  iv_stk : ∀ p e, s.(proctab) !! p = Some e -> p ≠ NULLPROC -> stack_ok s.(mem) e;
  iv_next : 0 <= s.(nextsem) < NSEM /\ 0 <= s.(nextpid) <= NPROC;
  iv_s32 : ∀ i e, s.(semtab) !! i = Some e -> is_s32 e.(scount);
  iv_wait : ∀ p e, s.(proctab) !! p = Some e -> e.(prstate) = PR_WAIT -> 0 <= e.(prsem) < NSEM;
  iv_free : ∀ i e, s.(semtab) !! i = Some e -> i ≠ y -> e.(sstate) = S_FREE -> 0 <= e.(scount);
}.

(** No process, no semaphore is excepted. *)
Definition kinv (Q : queues) (s : kst) : Prop := pre_inv (-1) (-1) Q s.

(** The state of the current process. *)
Definition curstate (s : kst) (st : pstate) : Prop :=
  ∃ e, s.(proctab) !! s.(currpid) = Some e /\ e.(prstate) = st.

(** The invariant between system calls and at every context switch. *)
Definition Inv (s : kst) : Prop :=
  (∃ Q, kinv Q s) /\ curstate s PR_CURR /\ s.(ndefers) = 0.

(** The calling process has the processor back, with the same interrupt mask. *)
Definition back (s s' : kst) : Prop :=
  Inv s' /\ s'.(currpid) = s.(currpid) /\ s'.(ie) = s.(ie).

(** * Steps that keep the invariant *)

Ltac kst_simpl :=
  cbn [queuetab nextqid proctab currpid prcount readylist ndefers attempt preempt nextpid
       sleepq clktime clkticks count1000 semtab nextsem mem ie porttab ptfree ptnextid buftab
       nbpools set_queuetab set_nextqid set_proctab set_currpid set_prcount set_readylist
       set_ndefers set_attempt set_preempt set_nextpid set_sleepq set_clktime set_clkticks
       set_count1000 set_semtab set_nextsem set_mem set_ie set_porttab set_ptfree
       set_ptnextid set_buftab set_nbpools
       prstate prprio prstkptr prstkbase prstklen prname prsem prparent prmsg prhasmsg prdesc
       set_prstate set_prprio set_prsem set_prmsg set_prhasmsg
       sstate scount squeue set_sstate set_scount set_squeue] in *.

Ltac dinv H :=
  destruct H as [Jq Jpt Jst Jrl Jsl Jsq Jrlsl Jrlsq Jsqinj Jwhere Jscount Jdesc Jcurr Jcurrpid
                 Jnull Jprio Jmem Jstk Jnext Js32 Jwait Jfree].

Lemma iv_range x y Q s p e :
  pre_inv x y Q s -> s.(proctab) !! p = Some e -> 0 <= p < NPROC.
Proof. intros HI. apply arr_len_lt, (iv_pt _ _ _ _ HI). Qed.

Lemma iv_off x y Q s p e :
  pre_inv x y Q s -> s.(proctab) !! p = Some e -> p = x \/ where_is s e = None ->
  off_queues Q p.
Proof.
  intros HI Hp Hx q l Hl Hin. apply (iv_where _ _ _ _ HI _ _ _ _ Hp Hl) in Hin as [? Hw].
  destruct Hx; congruence.
Qed.

Lemma iv_on x y Q s p e q :
  pre_inv x y Q s -> s.(proctab) !! p = Some e -> p ≠ x -> where_is s e = Some q ->
  ∃ l1 l2, Q !! q = Some (l1 ++ p :: l2).
Proof.
  intros HI Hp Hx Hw.
  assert (Hq : is_Some (Q !! q)).
  { unfold where_is in Hw. destruct (prstate e) eqn:?; try done.
    - injection Hw as <-. apply HI.
    - injection Hw as <-. apply HI.
    - destruct (semtab s !! prsem e) as [se|] eqn:Hse; [|done].
      injection Hw as <-. by eapply iv_sq.
    - injection Hw as <-. apply HI. }
  destruct Hq as [l Hl].
  assert (Hin : p ∈ l) by (apply (iv_where _ _ _ _ HI _ _ _ _ Hp Hl); done).
  apply list_elem_of_split in Hin as (l1 & l2 & ->). eauto.
Qed.

(** A field of the entry of a process that is on no queue changes. *)
Lemma pre_inv_upd x y Q s p e e' :
  pre_inv x y Q s -> s.(proctab) !! p = Some e ->
  (p = x \/ x = -1 /\ where_is s e = None) ->
  (e'.(prstate) = PR_CURR -> p = s.(currpid)) ->
  (e'.(prstate) = PR_WAIT -> 0 <= e'.(prsem) < NSEM) ->
  (p = NULLPROC -> e'.(prstate) = PR_READY \/ e'.(prstate) = PR_CURR) ->
  -32768 <= e'.(prprio) < 32768 ->
  (p ≠ NULLPROC -> stack_ok s.(mem) e') ->
  pre_inv p y Q (set_proctab (<[p := e']> s.(proctab)) s).
Proof.
  intros HI Hp Hx Hc Hwt Hnull Hprio Hstk.
  pose proof (iv_range _ _ _ _ _ _ HI Hp) as Hr.
  assert (Hoff : off_queues Q p) by (eapply iv_off; [exact HI|exact Hp|tauto]).
  dinv HI. constructor; kst_simpl; try done.
  - by apply arr_len_insert.
  - intros p0 e0 q l Hp0 Hl. destruct (decide (p = p0)) as [<-|Hne].
    + split; [|tauto]. intros Hin. by destruct (Hoff _ _ Hl Hin).
    + rewrite lookup_insert_ne in Hp0 by done. rewrite (Jwhere _ _ _ _ Hp0 Hl).
      pose proof (arr_len_lt _ _ _ _ Jpt Hp0). unfold where_is; kst_simpl.
      destruct Hx as [->|[-> _]]; [done|]. split; intros [? ?]; split; done || lia.
  - intros p0 e0. destruct (decide (p = p0)) as [<-|Hne].
    + rewrite lookup_insert_eq. intros [= <-]. done.
    + rewrite lookup_insert_ne by done. eauto.
  - destruct Jnull as (e0 & He0 & Hs0). destruct (decide (p = NULLPROC)) as [->|Hne].
    + exists e'. rewrite lookup_insert_eq. auto.
    + exists e0. by rewrite lookup_insert_ne.
  - intros p0 e0. destruct (decide (p = p0)) as [<-|Hne].
    + rewrite lookup_insert_eq. by intros [= <-].
    + rewrite lookup_insert_ne by done. eauto.
  - intros p0 e0. destruct (decide (p = p0)) as [<-|Hne].
    + rewrite lookup_insert_eq. by intros [= <-].
    + rewrite lookup_insert_ne by done. eauto.
  - intros p0 e0. destruct (decide (p = p0)) as [<-|Hne].
    + rewrite lookup_insert_eq. by intros [= <-].
    + rewrite lookup_insert_ne by done. eauto.
Qed.

(** A process in a state that goes with no queue needs no exception. *)
Lemma pre_inv_unexempt p y Q s e :
  pre_inv p y Q s -> s.(proctab) !! p = Some e -> where_is s e = None ->
  pre_inv (-1) y Q s.
Proof.
  intros HI Hp Hw. dinv HI. constructor; try done.
  intros p0 e0 q l Hp0 Hl. rewrite (Jwhere _ _ _ _ Hp0 Hl).
  pose proof (arr_len_lt _ _ _ _ Jpt Hp0).
  destruct (decide (p0 = p)) as [->|]; [|split; intros [? ?]; split; done || lia].
  rewrite Hp in Hp0. injection Hp0 as <-. split; [tauto|]. intros [_ Hw']. congruence.
Qed.

Lemma pre_inv_exempt p y Q s e :
  pre_inv (-1) y Q s -> s.(proctab) !! p = Some e -> where_is s e = None -> pre_inv p y Q s.
Proof.
  intros HI Hp Hw. dinv HI. constructor; try done.
  intros p0 e0 q l Hp0 Hl. rewrite (Jwhere _ _ _ _ Hp0 Hl).
  pose proof (arr_len_lt _ _ _ _ Jpt Hp0).
  destruct (decide (p0 = p)) as [->|]; [|split; intros [? ?]; split; done || lia].
  rewrite Hp in Hp0. injection Hp0 as <-. split; [|tauto]. intros [_ Hw']. congruence.
Qed.

(** An update of an entry that keeps the state, so that the process may be on a
    queue. *)
Lemma pre_inv_upd_same x y Q s p e e' :
  pre_inv x y Q s -> s.(proctab) !! p = Some e ->
  e'.(prstate) = e.(prstate) -> e'.(prsem) = e.(prsem) ->
  e'.(prstkbase) = e.(prstkbase) -> e'.(prstklen) = e.(prstklen) ->
  -32768 <= e'.(prprio) < 32768 ->
  pre_inv x y Q (set_proctab (<[p := e']> s.(proctab)) s).
Proof.
  intros HI Hp Hst Hsem Hbase Hlen Hprio.
  pose proof (iv_range _ _ _ _ _ _ HI Hp) as Hr.
  assert (Hlk : ∀ p0 e0, <[p := e']> (proctab s) !! p0 = Some e0 ->
    ∃ e1, proctab s !! p0 = Some e1 /\ prstate e0 = prstate e1 /\ prsem e0 = prsem e1 /\
      prstkbase e0 = prstkbase e1 /\ prstklen e0 = prstklen e1 /\ (e0 = e1 \/ e0 = e')).
  { intros p0 e0. destruct (decide (p = p0)) as [<-|Hne].
    - rewrite lookup_insert_eq. intros [= <-]. exists e. tauto.
    - rewrite lookup_insert_ne by done. intros ?. exists e0. tauto. }
  dinv HI. constructor; kst_simpl; try done.
  - by apply arr_len_insert.
  - intros p0 e0 q l Hp0 Hl. destruct (Hlk _ _ Hp0) as (e1 & Hp1 & Hs1 & Hm1 & _).
    rewrite (Jwhere _ _ _ _ Hp1 Hl). unfold where_is; kst_simpl. by rewrite Hs1, Hm1.
  - intros p0 e0 Hp0 Hc. destruct (Hlk _ _ Hp0) as (e1 & Hp1 & Hs1 & _).
    apply (Jcurr _ _ Hp1). congruence.
  - destruct Jnull as (e0 & He0 & Hs0). destruct (decide (p = NULLPROC)) as [->|Hne].
    + exists e'. rewrite lookup_insert_eq. split; [done|]. rewrite Hst. congruence.
    + exists e0. by rewrite lookup_insert_ne.
  - intros p0 e0 Hp0. destruct (Hlk _ _ Hp0) as (e1 & Hp1 & _ & _ & _ & _ & [->| ->]); eauto.
  - intros p0 e0 Hp0 ?. destruct (Hlk _ _ Hp0) as (e1 & Hp1 & Hs1 & _ & Hb & Hl & _).
    unfold stack_ok. rewrite Hb, Hl. by apply (Jstk _ _ Hp1).
  - intros p0 e0 Hp0. destruct (Hlk _ _ Hp0) as (e1 & Hp1 & Hs1 & Hm1 & _).
    rewrite Hs1, Hm1. eauto.
Qed.

(** The queue table changes: queue [q] becomes [l']. *)
Lemma pre_inv_queue x x' y Q s qt q l l' :
  pre_inv x y Q s -> Q !! q = Some l -> qrep qt (<[q := l']> Q) ->
  (∀ p e, s.(proctab) !! p = Some e -> p ∈ l' <-> p ≠ x' /\ where_is s e = Some q) ->
  (∀ p e q', s.(proctab) !! p = Some e -> q' ≠ q ->
     p ≠ x /\ where_is s e = Some q' <-> p ≠ x' /\ where_is s e = Some q') ->
  (∀ i e, s.(semtab) !! i = Some e -> e.(squeue) = q -> i = y) ->
  (∀ l0, <[q := l']> Q !! s.(readylist) = Some l0 -> desc (keyof qt) l0) ->
  pre_inv x' y (<[q := l']> Q) (set_queuetab qt s).
Proof.
  intros HI Hl HQ Hwh Hoth Hsem Hdesc.
  assert (Hdom : ∀ q', is_Some (Q !! q') -> is_Some (<[q := l']> Q !! q')).
  { intros q' ?. destruct (decide (q = q')) as [->|]; [rewrite lookup_insert_eq; eauto|].
    by rewrite lookup_insert_ne. }
  dinv HI. constructor; kst_simpl; try done; eauto.
  - intros p e q' l0 Hp. destruct (decide (q = q')) as [<-|Hne].
    + rewrite lookup_insert_eq. intros [= <-]. by apply Hwh.
    + rewrite lookup_insert_ne by done. intros Hl0.
      rewrite (Jwhere _ _ _ _ Hp Hl0). by apply Hoth.
  - intros i e l0 Hi. destruct (decide (q = squeue e)) as [->|Hne].
    + intros _ Hy. exfalso. eauto.
    + rewrite lookup_insert_ne by done. eauto.
Qed.

(** Process [p], on no queue, goes on the queue that its state tells. *)
Lemma pre_inv_join p y Q s e qt q l l' :
  pre_inv p y Q s -> s.(proctab) !! p = Some e -> where_is s e = Some q -> Q !! q = Some l ->
  (∀ z, z ∈ l' <-> z = p \/ z ∈ l) -> qrep qt (<[q := l']> Q) ->
  (∀ i e, s.(semtab) !! i = Some e -> e.(squeue) = q -> i = y) ->
  (∀ l0, <[q := l']> Q !! s.(readylist) = Some l0 -> desc (keyof qt) l0) ->
  pre_inv (-1) y (<[q := l']> Q) (set_queuetab qt s).
Proof.
  intros HI Hp Hw Hl Hin HQ Hsem Hdesc.
  eapply pre_inv_queue; try done.
  - intros z ez Hz. rewrite Hin. rewrite (iv_where _ _ _ _ HI _ _ _ _ Hz Hl).
    pose proof (iv_range _ _ _ _ _ _ HI Hz). destruct (decide (z = p)) as [->|].
    + rewrite Hp in Hz. injection Hz as <-. split; [split; done || lia|tauto].
    + split; [intros [?|[? ?]]; split; done || lia|tauto].
  - intros z ez q' Hz Hne. pose proof (iv_range _ _ _ _ _ _ HI Hz).
    destruct (decide (z = p)) as [->|]; [|split; intros [? ?]; split; done || lia].
    rewrite Hp in Hz. injection Hz as <-. split; [tauto|]. intros [_ ?]. congruence.
Qed.

(** Process [p] leaves its queue. *)
Lemma pre_inv_leave p y Q s e qt q l1 l2 :
  pre_inv (-1) y Q s -> s.(proctab) !! p = Some e -> Q !! q = Some (l1 ++ p :: l2) ->
  qrep qt (<[q := l1 ++ l2]> Q) -> (∀ i, ky qt i = ky s.(queuetab) i) ->
  (∀ i e, s.(semtab) !! i = Some e -> e.(squeue) = q -> i = y) ->
  pre_inv p y (<[q := l1 ++ l2]> Q) (set_queuetab qt s).
Proof.
  intros HI Hp Hl HQ Hky Hsem.
  pose proof (qrep_nodup _ _ (iv_q _ _ _ _ HI) _ _ Hl) as Hnd. apply NoDup_app_comm_cons in Hnd.
  apply NoDup_cons in Hnd as [Hnin _].
  assert (Hw : where_is s e = Some q) by (apply (iv_where _ _ _ _ HI _ _ _ _ Hp Hl); set_solver).
  eapply pre_inv_queue; try done.
  - intros z ez Hz. pose proof (iv_where _ _ _ _ HI _ _ _ _ Hz Hl) as Hwz.
    rewrite elem_of_app_cons in Hwz. pose proof (iv_range _ _ _ _ _ _ HI Hz).
    destruct (decide (z = p)) as [->|Hne]; [tauto|].
    split; [intros ?; split; tauto|]. intros [_ ?].
    destruct (proj2 Hwz) as [?|?]; try done. split; done || lia.
  - intros z ez q' Hz Hne. pose proof (iv_range _ _ _ _ _ _ HI Hz).
    destruct (decide (z = p)) as [->|]; [|split; intros [? ?]; split; done || lia].
    rewrite Hp in Hz. injection Hz as <-. split; [intros [_ ?]; congruence|tauto].
  - intros l0. assert (Hext : ∀ l, desc (keyof (queuetab s)) l -> desc (keyof qt) l).
    { intros l. apply desc_ext. intros z _. unfold keyof. by rewrite Hky. }
    destruct (decide (q = readylist s)) as [->|Hne].
    + rewrite lookup_insert_eq. intros [= <-]. apply Hext.
      eapply desc_app_inv. by apply (iv_desc _ _ _ _ HI).
    + rewrite lookup_insert_ne by done. intros ?. apply Hext. by apply (iv_desc _ _ _ _ HI).
Qed.

(** The entry of the excepted semaphore changes. *)
Lemma pre_inv_sem_any x y Q s e e' :
  pre_inv x y Q s -> s.(semtab) !! y = Some e -> e'.(squeue) = e.(squeue) -> is_s32 e'.(scount) ->
  pre_inv x y Q (set_semtab (<[y := e']> s.(semtab)) s).
Proof.
  intros HI Hy Hsq H32.
  pose proof (arr_len_lt _ _ _ _ (iv_st _ _ _ _ HI) Hy) as Hr.
  assert (Hlk : ∀ i ei, <[y := e']> (semtab s) !! i = Some ei ->
    ∃ e1, semtab s !! i = Some e1 /\ squeue ei = squeue e1 /\ (i = y /\ ei = e' \/ i ≠ y /\ ei = e1)).
  { intros i ei. destruct (decide (y = i)) as [<-|Hne].
    - rewrite lookup_insert_eq. intros [= <-]. exists e. tauto.
    - rewrite lookup_insert_ne by done. intros ?. exists ei. split; [done|]. split; [done|]. by right. }
  assert (Hw : ∀ ep, where_is (set_semtab (<[y := e']> (semtab s)) s) ep = where_is s ep).
  { intros ep. unfold where_is; kst_simpl. destruct (prstate ep); try done.
    destruct (decide (y = prsem ep)) as [<-|Hne].
    - rewrite lookup_insert_eq, Hy. simpl. by rewrite Hsq.
    - by rewrite lookup_insert_ne. }
  dinv HI. constructor; kst_simpl; try done.
  - by apply arr_len_insert.
  - intros i ei Hi. destruct (Hlk _ _ Hi) as (e1 & Hi1 & -> & _). eauto.
  - intros i ei Hi. destruct (Hlk _ _ Hi) as (e1 & Hi1 & -> & _). eauto.
  - intros i j ei ej Hi Hj. destruct (Hlk _ _ Hi) as (e1 & Hi1 & -> & _).
    destruct (Hlk _ _ Hj) as (e2 & Hj2 & -> & _). eauto.
  - intros p ep q l Hp Hl. rewrite Hw. eauto.
  - intros i ei l Hi Hl ?. destruct (Hlk _ _ Hi) as (e1 & Hi1 & Hs1 & [[-> ->]|[Hne ->]]); eauto.
    done.
  - intros i ei Hi. destruct (Hlk _ _ Hi) as (e1 & Hi1 & _ & [[-> ->]|[Hne ->]]); eauto.
  - intros i ei Hi ?. destruct (Hlk _ _ Hi) as (e1 & Hi1 & _ & [[-> ->]|[Hne ->]]); eauto.
    done.
Qed.

(** The queue of semaphore [y] and its count agree again. *)
Lemma pre_inv_sem x y Q s e e' :
  pre_inv x y Q s -> s.(semtab) !! y = Some e -> e'.(squeue) = e.(squeue) ->
  (∀ l, Q !! e.(squeue) = Some l -> Z.of_nat (length l) = Z.max 0 (- e'.(scount))) ->
  is_s32 e'.(scount) -> (e'.(sstate) = S_FREE -> 0 <= e'.(scount)) ->
  pre_inv x (-1) Q (set_semtab (<[y := e']> s.(semtab)) s).
Proof.
  intros HI Hy Hsq Hc H32 Hfree.
  pose proof (pre_inv_sem_any _ _ _ _ _ _ HI Hy Hsq H32) as HI'. dinv HI'.
  constructor; try done; kst_simpl.
  - intros i ei l Hi Hl _. destruct (decide (y = i)) as [<-|Hne]; [|by eapply Jscount].
    rewrite lookup_insert_eq in Hi. injection Hi as <-. apply Hc. congruence.
  - intros i ei Hi _. destruct (decide (y = i)) as [<-|Hne]; [|by eapply Jfree].
    rewrite lookup_insert_eq in Hi. by injection Hi as <-.
Qed.

Lemma pre_inv_weaken_sem x y Q s : pre_inv x (-1) Q s -> pre_inv x y Q s.
Proof.
  intros HI. dinv HI. constructor; try done.
  - intros i e l Hi Hl _. pose proof (arr_len_lt _ _ _ _ Jst Hi). apply (Jscount _ _ _ Hi Hl). lia.
  - intros i e Hi _. pose proof (arr_len_lt _ _ _ _ Jst Hi). apply (Jfree _ _ Hi). lia.
Qed.

(** The processor is given to [n]. *)
Lemma pre_inv_current n y Q s e :
  pre_inv n y Q s -> s.(proctab) !! n = Some e ->
  (∀ p e, s.(proctab) !! p = Some e -> e.(prstate) ≠ PR_CURR) ->
  pre_inv (-1) y Q (set_proctab (<[n := set_prstate PR_CURR e]> s.(proctab)) (set_currpid n s)).
Proof.
  intros HI Hn Hno. pose proof (iv_range _ _ _ _ _ _ HI Hn) as Hr.
  assert (HI' : pre_inv n y Q (set_currpid n s)).
  { dinv HI. constructor; kst_simpl; try done. intros p e0 Hp Hc. by destruct (Hno _ _ Hp). }
  eapply (pre_inv_unexempt n y Q _ (set_prstate PR_CURR e)).
  - change (proctab s) with (proctab (set_currpid n s)).
    apply (pre_inv_upd n y Q (set_currpid n s) n e);
      [exact HI'|exact Hn|by left|done|done|by right| |]; kst_simpl.
    + apply (iv_prio _ _ _ _ HI _ _ Hn).
    + intros Hnn. apply (iv_stk _ _ _ _ HI _ _ Hn Hnn).
  - kst_simpl. by rewrite lookup_insert_eq.
  - done.
Qed.

(** * ready and resched *)

(** Run a monadic program on a state: the operations of the monad compute once
    the lookups they make are known. *)
Ltac krun :=
  cbv beta zeta delta [mbind K_bind mret K_ret gets modify opt qop qget getproc getsem updproc
    updsem disable restore badpid mop load store ctxsw panic undefined];
  repeat (progress (cbn [rbind]; kst_simpl)).

Lemma isbadpid_upd pt p e f :
  pt !! p = Some e -> (f e).(prstate) ≠ PR_FREE -> 0 <= p < NPROC ->
  isbadpid (<[p := f e]> pt) p = false.
Proof.
  intros Hp Hf Hr. apply isbadpid_false. split; [done|]. exists (f e).
  by rewrite lookup_insert_eq.
Qed.

Lemma arr_upd_eq {A} (f : A -> A) i m x : m !! i = Some x -> arr_upd f i m = Some (<[i := f x]> m).
Proof. apply arr_upd_Some. Qed.

Lemma rl_not_sem x y Q s i e :
  pre_inv x y Q s -> s.(semtab) !! i = Some e -> e.(squeue) = s.(readylist) -> i = y.
Proof. intros HI Hi Hq. by destruct (iv_rlsq _ _ _ _ HI _ _ Hi). Qed.

(** The state after a process that is on no queue has been made ready. *)
Definition made_ready (p : Z) (e : procent) (qt : qtab) (s : kst) : kst :=
  set_queuetab qt (set_proctab (<[p := set_prstate PR_READY e]> s.(proctab)) s).

Lemma insert_ready x y Q s p e :
  pre_inv x y Q s -> s.(proctab) !! p = Some e -> (p = x \/ x = -1 /\ where_is s e = None) ->
  (p ≠ NULLPROC -> stack_ok s.(mem) e) ->
  ∃ qt l, Q !! s.(readylist) = Some l /\
    insert (<[p := set_prstate PR_READY e]> s.(proctab)) p s.(readylist) e.(prprio) s.(queuetab)
      = Some (OK, qt) /\
    (∀ i, i ≠ p -> ky qt i = ky s.(queuetab) i) /\
    pre_inv (-1) y (<[s.(readylist) := ins_desc (keyof s.(queuetab)) e.(prprio) p l]> Q)
      (made_ready p e qt s).
Proof.
  intros HI Hp Hx Hstk. pose proof (iv_range _ _ _ _ _ _ HI Hp) as Hr.
  pose proof (iv_prio _ _ _ _ HI _ _ Hp) as Hprio.
  assert (Hoff : off_queues Q p) by (eapply iv_off; [exact HI|exact Hp|tauto]).
  destruct (iv_rl _ _ _ _ HI) as [l Hl].
  set (s1 := set_proctab (<[p := set_prstate PR_READY e]> (proctab s)) s).
  assert (HI1 : pre_inv p y Q s1).
  { apply (pre_inv_upd x y Q s p e); try done; simpl; auto. }
  destruct (insert_spec (<[p := set_prstate PR_READY e]> (proctab s)) _ _
              (iv_q _ _ _ _ HI) _ _ Hl p (prprio e)) as (qt & Hins & HQ & Hky).
  { by apply isbadpid_upd. } { done. } { unfold MINKEY. lia. }
  exists qt, l. split; [done|]. split; [done|]. split.
  { intros i Hi. rewrite Hky. by rewrite decide_False. }
  unfold made_ready. fold s1.
  eapply (pre_inv_join p y Q s1 (set_prstate PR_READY e)); try done.
  - unfold s1. kst_simpl. by rewrite lookup_insert_eq.
  - intros z. apply elem_of_ins_desc.
  - intros i ei Hi. by apply (rl_not_sem _ _ _ _ _ _ HI1).
  - intros l0. unfold s1. kst_simpl. rewrite lookup_insert_eq. intros [= <-].
    eapply desc_ext; [|apply ins_desc_sorted; [by apply (iv_desc _ _ _ _ HI)|by apply (Hoff _ _ Hl)]].
    intros z _. unfold keyof. rewrite Hky. by case_decide.
Qed.

Lemma ready_run p y Q s e :
  pre_inv p y Q s -> s.(proctab) !! p = Some e -> e.(prstate) ≠ PR_FREE ->
  ∃ qt l, Q !! s.(readylist) = Some l /\
    ready p s = (resched;; mret OK) (made_ready p e qt s) /\
    (∀ i, i ≠ p -> ky qt i = ky s.(queuetab) i) /\
    pre_inv (-1) y (<[s.(readylist) := ins_desc (keyof s.(queuetab)) e.(prprio) p l]> Q)
      (made_ready p e qt s).
Proof.
  intros HI Hp Hf. pose proof (iv_range _ _ _ _ _ _ HI Hp) as Hr.
  destruct (insert_ready p y Q s p e HI Hp) as (qt & l & Hl & Hins & Hky & HI').
  { by left. } { intros ?. by apply (iv_stk _ _ _ _ HI _ _ Hp). }
  exists qt, l. split; [done|]. split; [|done].
  unfold ready. krun.
  assert (isbadpid (proctab s) p = false) as -> by (apply isbadpid_false; eauto).
  rewrite (arr_upd_eq _ _ _ _ Hp). krun. rewrite lookup_insert_eq. krun. by rewrite Hins.
Qed.

Lemma ready_nonempty x y Q s :
  pre_inv x y Q s -> x ≠ NULLPROC ->
  (∀ p e, s.(proctab) !! p = Some e -> e.(prstate) ≠ PR_CURR) ->
  ∃ n l, Q !! s.(readylist) = Some (n :: l).
Proof.
  intros HI Hx Hno. destruct (iv_null _ _ _ _ HI) as (e & He & [Hs|Hs]); [|by destruct (Hno _ _ He)].
  destruct (iv_on _ _ _ _ _ _ (readylist s) HI He) as (l1 & l2 & Hl); [done| |].
  - unfold where_is. by rewrite Hs.
  - destruct l1; simpl in Hl; eauto.
Qed.

Lemma dispatch_full Q s old :
  kinv Q s -> s.(ndefers) = 0 ->
  (∀ p e, s.(proctab) !! p = Some e -> e.(prstate) ≠ PR_CURR) ->
  ∃ n l en qt, Q !! s.(readylist) = Some (n :: l) /\ s.(proctab) !! n = Some en /\
    en.(prstate) = PR_READY /\
    let s' := set_preempt QUANTUM
      (set_proctab (<[n := set_prstate PR_CURR en]> s.(proctab))
         (set_currpid n (set_queuetab qt s))) in
    dispatch old s = Ctxsw old s' (λ s'', Done tt s'') /\ Inv s' /\
    kinv (<[s.(readylist) := l]> Q) s' /\ (∀ i, ky qt i = ky s.(queuetab) i).
Proof.
  intros HI Hnd Hno.
  destruct (ready_nonempty _ _ _ _ HI) as (n & l & Hl); [done|done|].
  destruct (dequeue_cons _ _ (iv_q _ _ _ _ HI) _ _ Hl n l eq_refl) as (qt & Hdq & HQ & Hky).
  assert (Hr : 0 <= n < NPROC).
  { apply (qrep_pid _ _ (iv_q _ _ _ _ HI) _ _ n Hl). set_solver. }
  destruct (arr_len_lookup _ _ _ (iv_pt _ _ _ _ HI) Hr) as [en Hen].
  assert (Hw : where_is s en = Some (readylist s)).
  { apply (iv_where _ _ _ _ HI _ _ _ _ Hen Hl). set_solver. }
  assert (Hst : prstate en = PR_READY).
  { unfold where_is in Hw. destruct (prstate en); try done.
    - by destruct (iv_rlsl _ _ _ _ HI); injection Hw.
    - destruct (semtab s !! prsem en) as [se|] eqn:Hse; [|done]. injection Hw as Hw.
      by destruct (iv_rlsq _ _ _ _ HI _ _ Hse).
    - by destruct (iv_rlsl _ _ _ _ HI); injection Hw. }
  exists n, l, en, qt. split; [done|]. split; [done|]. split; [done|]. split.
  - unfold dispatch. krun. rewrite Hdq. krun. rewrite (arr_upd_eq _ _ _ _ Hen). by krun.
  - assert (HI1 : pre_inv n (-1) (<[readylist s := l]> Q) (set_queuetab qt s)).
    { apply (pre_inv_leave n (-1) Q s en qt (readylist s) [] l); try done.
      intros i ei Hi. by apply (rl_not_sem _ _ _ _ _ _ HI). }
    assert (HI2 := pre_inv_current n (-1) _ _ en HI1 Hen Hno).
    assert (HI3 : kinv (<[readylist s := l]> Q) (set_preempt QUANTUM
      (set_proctab (<[n := set_prstate PR_CURR en]> s.(proctab))
         (set_currpid n (set_queuetab qt s))))) by (dinv HI2; constructor; done).
    split; [|split; [exact HI3|exact Hky]].
    split; [by exists (<[readylist s := l]> Q)|split; [|done]].
    exists (set_prstate PR_CURR en). kst_simpl. by rewrite lookup_insert_eq.
Qed.

Lemma dispatch_run Q s old :
  kinv Q s -> s.(ndefers) = 0 ->
  (∀ p e, s.(proctab) !! p = Some e -> e.(prstate) ≠ PR_CURR) ->
  ∃ n l en qt, Q !! s.(readylist) = Some (n :: l) /\ s.(proctab) !! n = Some en /\
    en.(prstate) = PR_READY /\
    let s' := set_preempt QUANTUM
      (set_proctab (<[n := set_prstate PR_CURR en]> s.(proctab))
         (set_currpid n (set_queuetab qt s))) in
    dispatch old s = Ctxsw old s' (λ s'', Done tt s'') /\ Inv s'.
Proof.
  intros HI Hnd Hno.
  destruct (dispatch_full Q s old HI Hnd Hno) as (n & l & en & qt & H1 & H2 & H3 & H4 & H5 & _).
  by exists n, l, en, qt.
Qed.

(** The process calling resched either keeps the processor, or has it back in a
    state that satisfies the invariant. *)
Lemma resched_wp Q s Φ :
  kinv Q s -> s.(ndefers) = 0 ->
  (curstate s PR_CURR -> Φ tt s) ->
  (~ curstate s PR_FREE -> ∀ s', resumed Inv s.(currpid) s' -> Φ tt s') ->
  wp Inv (resched s) Φ.
Proof.
  intros HI Hnd Hstay Hback.
  destruct (arr_len_lookup _ _ _ (iv_pt _ _ _ _ HI) (iv_currpid _ _ _ _ HI)) as [e He].
  unfold resched. krun. rewrite Hnd. simpl. krun. rewrite He. krun.
  destruct (decide (prstate e = PR_CURR)) as [Hc|Hc].
  - rewrite bool_decide_eq_true_2 by done. krun.
    destruct (iv_rl _ _ _ _ HI) as [l Hl].
    assert (Hfk : ∃ k, firstkey (queuetab s) (readylist s) = Some k).
    { unfold firstkey. rewrite (qrep_firstid _ _ (iv_q _ _ _ _ HI) _ _ Hl). simpl.
      destruct (qrep_last_range _ _ (iv_q _ _ _ _ HI) _ [] l Hl) as [_ Hh].
      destruct (qrep_lookup _ _ (iv_q _ _ _ _ HI) _ Hh) as [en ->]. simpl. eauto. }
    destruct Hfk as [k ->]. krun. destruct (prprio e >? k); krun.
    { apply Hstay. by exists e. }
    rewrite (arr_upd_eq _ _ _ _ He). krun.
    destruct (insert_ready (-1) (-1) Q s _ e HI He) as (qt & l0 & _ & -> & _ & HI').
    { right. unfold where_is. by rewrite Hc. }
    { intros ?. apply (iv_stk _ _ _ _ HI _ _ He); congruence. }
    krun. fold (made_ready (currpid s) e qt s).
    destruct (dispatch_run _ _ (currpid s) HI') as (n & l2 & en & qt2 & _ & Hen & Hst & -> & HI2).
    { done. }
    { unfold made_ready. kst_simpl. intros p0 e0. destruct (decide (currpid s = p0)) as [<-|Hne].
      - rewrite lookup_insert_eq. by intros [= <-].
      - rewrite lookup_insert_ne by done. intros Hp0 Hc0. by apply (iv_curr _ _ _ _ HI _ _ Hp0) in Hc0. }
    simpl. split; [done|]. intros _ s' Hs'. apply Hback; [|done].
    intros (e1 & He1 & Hf). congruence.
  - rewrite bool_decide_eq_false_2 by done. krun.
    destruct (dispatch_run _ _ (currpid s) HI) as (n & l2 & en & qt2 & _ & Hen & Hst & -> & HI2).
    { done. } { intros p0 e0 Hp0 Hc0. pose proof (iv_curr _ _ _ _ HI _ _ Hp0 Hc0). congruence. }
    simpl. split; [done|]. intros Hal s' Hs'. apply Hback; [|done].
    intros (e1 & He1 & Hf). destruct Hal as (e2 & He2 & Hf2). kst_simpl.
    rewrite lookup_insert_ne in He2 by congruence. congruence.
Qed.

(** * Every call gives the processor back in a good state *)

Lemma pre_inv_ie b x y Q s : pre_inv x y Q s -> pre_inv x y Q (set_ie b s).
Proof. intros HI. dinv HI. by constructor. Qed.

Lemma Inv_ie b s : Inv s -> Inv (set_ie b s).
Proof. intros ((Q & HI) & Hc & Hn). split; [|done]. exists Q. by apply pre_inv_ie. Qed.

Lemma Inv_intro Q s : kinv Q s -> curstate s PR_CURR -> s.(ndefers) = 0 -> Inv s.
Proof. intros. split; [eauto|done]. Qed.

Lemma back_refl s : Inv s -> back s s.
Proof. by split. Qed.

Lemma back_restore s s' : Inv s -> back (set_ie false s) s' -> back s (set_ie s.(ie) s').
Proof. intros _ (HI & Hc & _). split; [by apply Inv_ie|done]. Qed.

Lemma Inv_current s : Inv s -> ∃ e, s.(proctab) !! s.(currpid) = Some e /\ e.(prstate) = PR_CURR.
Proof. intros (_ & Hc & _). exact Hc. Qed.

Lemma resched_back Q s Φ :
  kinv Q s -> s.(ndefers) = 0 -> s.(ie) = false ->
  (∀ s', back s s' -> Φ tt s') -> wp Inv (resched s) Φ.
Proof.
  intros HI Hnd Hie HΦ. apply (resched_wp Q); try done.
  - intros Hc. apply HΦ. apply back_refl. split; [eauto|done].
  - intros _ s' (HI' & Hc & Hi). apply HΦ. split; [done|]. split; congruence.
Qed.

Lemma ready_back p Q s e Φ :
  pre_inv p (-1) Q s -> s.(proctab) !! p = Some e -> e.(prstate) ≠ PR_FREE ->
  s.(ndefers) = 0 -> s.(ie) = false ->
  (∀ s', back s s' -> Φ OK s') -> wp Inv (ready p s) Φ.
Proof.
  intros HI Hp Hf Hnd Hie HΦ.
  destruct (ready_run p (-1) Q s e HI Hp Hf) as (qt & l & _ & -> & _ & HI').
  apply wp_seq. eapply resched_back; [exact HI'|done|done|]. intros s' Hb. by apply HΦ.
Qed.

Lemma ready_deferred p y Q s e :
  pre_inv p y Q s -> s.(proctab) !! p = Some e -> e.(prstate) ≠ PR_FREE ->
  0 < s.(ndefers) ->
  ∃ qt l, Q !! s.(readylist) = Some l /\
    ready p s = Done OK (set_attempt true (made_ready p e qt s)) /\
    (∀ i, i ≠ p -> ky qt i = ky s.(queuetab) i) /\
    pre_inv (-1) y (<[s.(readylist) := ins_desc (keyof s.(queuetab)) e.(prprio) p l]> Q)
      (set_attempt true (made_ready p e qt s)).
Proof.
  intros HI Hp Hf Hnd. destruct (ready_run p y Q s e HI Hp Hf) as (qt & l & Hl & -> & Hky & HI').
  exists qt, l. split; [done|]. split; [|split; [done|]].
  - unfold resched, made_ready. krun. rewrite Z.gtb_ltb, (proj2 (Z.ltb_lt _ _)) by done. by krun.
  - dinv HI'. by constructor.
Qed.

(** A system call leaves the invariant intact and the interrupt mask as it
    found it, whatever happened while the caller did not have the processor. *)
Definition syscall_ok {A} (m : K A) : Prop :=
  ∀ s, Inv s -> s.(currpid) ≠ NULLPROC -> wp Inv (m s) (λ _ s', back s s').

(** The same for a call that the null process may make too. *)
Definition anycall_ok {A} (m : K A) : Prop := ∀ s, Inv s -> wp Inv (m s) (λ _ s', back s s').

Lemma anycall_syscall {A} (m : K A) : anycall_ok m -> syscall_ok m.
Proof. intros H s HI _. by apply H. Qed.

Lemma yield_ok : syscall_ok yield.
Proof.
  intros s HI _. pose proof (Inv_ie false s HI) as ((Q & HQ) & Hc & Hn).
  unfold yield. krun. apply wp_bind. eapply resched_back; [exact HQ|done|done|].
  intros s' Hb. krun. by apply back_restore.
Qed.

Lemma where_ready_split Q s p e :
  kinv Q s -> s.(proctab) !! p = Some e -> e.(prstate) = PR_READY ->
  ∃ l1 l2, Q !! s.(readylist) = Some (l1 ++ p :: l2).
Proof.
  intros HI Hp Hst. pose proof (iv_range _ _ _ _ _ _ HI Hp).
  eapply iv_on; [exact HI|exact Hp|lia|]. unfold where_is. by rewrite Hst.
Qed.

Lemma Inv_same_queue Q s p e e' :
  kinv Q s -> s.(proctab) !! p = Some e -> where_is s e = None ->
  p ≠ s.(currpid) -> p ≠ NULLPROC -> e'.(prstate) ≠ PR_CURR ->
  where_is s e' = None -> e'.(prstate) ≠ PR_WAIT -> -32768 <= e'.(prprio) < 32768 ->
  stack_ok s.(mem) e' ->
  kinv Q (set_proctab (<[p := e']> s.(proctab)) s).
Proof.
  intros HI Hp Hw Hcur Hnull Hc Hw' Hnw Hprio Hstk.
  eapply (pre_inv_unexempt p).
  - apply (pre_inv_upd (-1) (-1) Q s p e e'); try done; auto.
  - kst_simpl. by rewrite lookup_insert_eq.
  - done.
Qed.

Lemma curstate_other s p e st :
  p ≠ s.(currpid) -> curstate s st -> curstate (set_proctab (<[p := e]> s.(proctab)) s) st.
Proof. intros Hp (e0 & He & Hs). exists e0. kst_simpl. by rewrite lookup_insert_ne. Qed.

Lemma suspend_ok pid : syscall_ok (suspend pid).
Proof.
  intros s HI Hnull. pose proof (Inv_ie false s HI) as ((Q & HQ) & Hc & Hn).
  assert (Hb0 := back_restore s _ HI (back_refl _ (Inv_ie false s HI))).
  unfold suspend. krun. destruct (isbadpid (proctab s) pid || (pid =? NULLPROC)) eqn:Hbad; krun; [done|].
  apply orb_false_iff in Hbad as [Hbad Hnz]. apply Z.eqb_neq in Hnz. apply isbadpid_false in Hbad as (Hr & e & He & Hf). rewrite He. krun.
  destruct (decide (prstate e = PR_READY)) as [Hst|Hst].
  - rewrite Hst. simpl. krun. set (s0 := set_ie false s) in *.
    destruct (where_ready_split Q s0 pid e HQ He Hst) as (l1 & l2 & Hl).
    destruct (getitem_spec _ _ (iv_q _ _ _ _ HQ) _ _ Hl l1 pid l2 eq_refl) as (qt & Hg & HQ' & Hky).
    unfold s0 in Hg. kst_simpl. rewrite Hg. krun. rewrite (arr_upd_eq _ _ _ _ He). krun.
    rewrite lookup_insert_eq. krun.
    assert (HI1 : pre_inv pid (-1) (<[readylist s0 := l1 ++ l2]> Q) (set_queuetab qt s0)).
    { apply (pre_inv_leave pid (-1) Q s0 e qt (readylist s0) l1 l2); try done.
      intros i ei Hi. by apply (rl_not_sem _ _ _ _ _ _ HQ). }
    assert (Hne : pid ≠ currpid s).
    { intros ->. destruct Hc as (e0 & He0 & Hs0). unfold s0 in *. kst_simpl. congruence. }
    apply (back_restore s (set_proctab (<[pid := set_prstate PR_SUSP e]> (proctab s)) (set_queuetab qt s0)) HI).
    split; [|done]. split; [|split; [by apply (curstate_other (set_queuetab qt s0))|done]].
    eexists. eapply (pre_inv_unexempt pid).
    + apply (pre_inv_upd pid (-1) _ (set_queuetab qt s0) pid e); try done; [by left|apply (iv_prio _ _ _ _ HQ _ _ He)|].
      intros ?. by apply (iv_stk _ _ _ _ HQ _ _ He).
    + kst_simpl. by rewrite lookup_insert_eq.
    + done.
  - destruct (decide (prstate e = PR_CURR)) as [Hcur|Hcur].
    2:{ rewrite !bool_decide_eq_true_2 by done. by krun. }
    rewrite Hcur. simpl. krun. rewrite (arr_upd_eq _ _ _ _ He). krun. apply wp_bind.
    assert (Hpc := iv_curr _ _ _ _ HQ _ _ He Hcur). kst_simpl. subst pid.
    apply wp_bind. eapply resched_back; [|done|done|].
    + eapply (pre_inv_unexempt (currpid s)).
      * apply (pre_inv_upd (-1) (-1) Q (set_ie false s) (currpid s) e); try done.
        { right. unfold where_is. by rewrite Hcur. } { apply (iv_prio _ _ _ _ HQ _ _ He). }
        intros ?. by apply (iv_stk _ _ _ _ HQ _ _ He).
      * kst_simpl. by rewrite lookup_insert_eq.
      * done.
    + intros s' Hb. krun. destruct Hb as (HI' & Hcp & Hie). kst_simpl.
      destruct (Inv_current _ HI') as (e' & He' & _). rewrite Hcp in He'. rewrite He'. krun.
      apply (back_restore s s' HI). by split.
Qed.

Lemma bad_ok s (v : Z) : Inv s -> wp Inv (Done v (set_ie s.(ie) (set_ie false s))) (λ _ s', back s s').
Proof. intros HI. by apply back_restore, back_refl, Inv_ie. Qed.

Lemma resume_ok pid : anycall_ok (resume pid).
Proof.
  intros s HI. pose proof (Inv_ie false s HI) as ((Q & HQ) & Hc & Hn).
  unfold resume. krun. destruct (isbadpid (proctab s) pid) eqn:Hbad; krun; [by apply bad_ok|].
  apply isbadpid_false in Hbad as (Hr & e & He & Hf). rewrite He. krun.
  destruct (decide (prstate e = PR_SUSP)) as [Hst|Hst].
  2:{ rewrite bool_decide_eq_true_2 by done. by apply bad_ok. }
  rewrite Hst. simpl. krun. apply wp_bind. eapply (ready_back pid Q _ e); try done.
  - eapply pre_inv_exempt; [exact HQ|exact He|]. unfold where_is. by rewrite Hst.
  - intros s' Hb. krun. by apply back_restore.
Qed.

Lemma chprio_ok pid newprio : -32768 <= newprio < 32768 -> syscall_ok (chprio pid newprio).
Proof.
  intros Hprio s HI Hnull. pose proof (Inv_ie false s HI) as ((Q & HQ) & Hc & Hn).
  unfold chprio. krun. destruct (isbadpid (proctab s) pid) eqn:Hbad; krun; [by apply bad_ok|].
  apply isbadpid_false in Hbad as (Hr & e & He & Hf). rewrite He. krun.
  rewrite (arr_upd_eq _ _ _ _ He). krun.
  apply (back_restore s (set_proctab (<[pid := set_prprio newprio e]> (proctab s)) (set_ie false s)) HI).
  split; [|done]. split; [|split; [|done]].
  - exists Q. by apply (pre_inv_upd_same (-1) (-1) Q (set_ie false s) pid e).
  - destruct Hc as (e0 & He0 & Hs0). kst_simpl. unfold curstate. kst_simpl.
    destruct (decide (pid = currpid s)) as [->|Hne].
    + rewrite lookup_insert_eq. eexists. split; [done|]. simpl. congruence.
    + rewrite lookup_insert_ne by done. eauto.
Qed.

Lemma getprio_ok pid : syscall_ok (getprio pid).
Proof.
  intros s HI Hnull. unfold getprio. krun.
  destruct (isbadpid (proctab s) pid) eqn:Hbad; krun; [by apply bad_ok|].
  apply isbadpid_false in Hbad as (Hr & e & He & Hf). rewrite He. krun. by apply bad_ok.
Qed.
(** What resched does when the current process may keep the processor. *)
Lemma resched_run Q s e l :
  kinv Q s -> s.(ndefers) = 0 -> s.(proctab) !! s.(currpid) = Some e -> e.(prstate) = PR_CURR ->
  Q !! s.(readylist) = Some l ->
  match l with
  | [] => resched s = Done tt s
  | n :: l' =>
      if e.(prprio) >? keyof s.(queuetab) n then resched s = Done tt s
      else ∃ s' en, resched s = Ctxsw s.(currpid) s' (λ s'', Done tt s'') /\ Inv s' /\
        kinv (<[s.(readylist) := ins_desc (keyof s.(queuetab)) e.(prprio) s.(currpid) l']> Q) s' /\
        s.(proctab) !! n = Some en /\
        s'.(proctab) = <[n := set_prstate PR_CURR en]>
                         (<[s.(currpid) := set_prstate PR_READY e]> s.(proctab)) /\
        s'.(currpid) = n /\ s'.(readylist) = s.(readylist) /\ s'.(sleepq) = s.(sleepq) /\
        s'.(semtab) = s.(semtab) /\
        (∀ i, i ≠ s.(currpid) -> ky s'.(queuetab) i = ky s.(queuetab) i)
  end.
Proof.
  intros HI Hnd He Hc Hl.
  assert (Hfk : firstkey (queuetab s) (readylist s) =
                Some (match l with [] => MINKEY | n :: _ => keyof (queuetab s) n end)).
  { unfold firstkey. rewrite (qrep_firstid _ _ (iv_q _ _ _ _ HI) _ _ Hl). simpl.
    destruct (qrep_last_range _ _ (iv_q _ _ _ _ HI) _ [] l Hl) as [_ Hh].
    destruct (qrep_lookup _ _ (iv_q _ _ _ _ HI) _ Hh) as [en Hen]. rewrite Hen. simpl. f_equal.
    destruct l; simpl in *; [|by apply keyof_ky].
    pose proof (qrep_tail _ _ (iv_q _ _ _ _ HI) _ _ Hl) as Ht. unfold ky in Ht. rewrite Hen in Ht.
    by injection Ht. }
  assert (Hrun : resched s =
    if e.(prprio) >? match l with [] => MINKEY | n :: _ => keyof (queuetab s) n end then Done tt s
    else (updproc (set_prstate PR_READY) (currpid s);; pt ← gets proctab;
          qop (insert pt (currpid s) (readylist s) (prprio e));; dispatch (currpid s)) s).
  { unfold resched. krun. rewrite Hnd. simpl. krun. rewrite He. krun.
    rewrite bool_decide_eq_true_2 by done. krun. rewrite Hfk. krun.
    destruct (prprio e >? _); krun; [done|]. rewrite (arr_upd_eq _ _ _ _ He). krun.
    by destruct (insert _ _ _ _ _) as [[]|]. }
  destruct l as [|n l].
  { rewrite Hrun. pose proof (iv_prio _ _ _ _ HI _ _ He). unfold MINKEY.
    rewrite Z.gtb_ltb. by rewrite (proj2 (Z.ltb_lt _ _)) by lia. }
  destruct (prprio e >? keyof (queuetab s) n) eqn:Hpr; [exact Hrun|]. bool_hyps. rewrite Hrun. clear Hrun Hfk.
  destruct (insert_ready (-1) (-1) Q s _ e HI He) as (qt & l0 & Hl0 & Hins & Hky & HI').
  { right. unfold where_is. by rewrite Hc. }
  { intros ?. apply (iv_stk _ _ _ _ HI _ _ He); congruence. }
  rewrite Hl in Hl0. injection Hl0 as <-.
  krun. rewrite (arr_upd_eq _ _ _ _ He). krun. rewrite Hins. krun. fold (made_ready (currpid s) e qt s).
  destruct (dispatch_full _ _ (currpid s) HI') as (m & l2 & en & qt2 & Hm & Hen & Hst & -> & HI2 & HI3 & Hky2).
  { done. }
  { unfold made_ready. kst_simpl. intros p0 e0. destruct (decide (currpid s = p0)) as [<-|Hne].
    - rewrite lookup_insert_eq. by intros [= <-].
    - rewrite lookup_insert_ne by done. intros Hp0 Hc0. by apply (iv_curr _ _ _ _ HI _ _ Hp0) in Hc0. }
  unfold made_ready in *. kst_simpl.
  rewrite lookup_insert_eq, ins_desc_cons in Hm.
  rewrite Z.geb_leb, (proj2 (Z.leb_le _ _)) in Hm by lia. injection Hm as <- <-.
  rewrite insert_insert_eq in HI3. do 2 eexists. split; [reflexivity|]. split; [exact HI2|].
  split; [exact HI3|].
  assert (Hne : n ≠ currpid s).
  { intros ->. rewrite lookup_insert_eq in Hen. injection Hen as <-.
    assert (Hin : currpid s ∈ currpid s :: l) by set_solver.
    apply (iv_where _ _ _ _ HI _ _ _ _ He Hl) in Hin as [_ Hw]. unfold where_is in Hw. by rewrite Hc in Hw. }
  rewrite lookup_insert_ne in Hen by done. split; [exact Hen|]. kst_simpl.
  do 5 (split; [done|]). intros i Hi. rewrite Hky2. by apply Hky.
Qed.
