(* ===== verification/Observe.v ===== *)
(** The scheduling invariant in terms of the tables that the code sees: the
    processes that are on a queue, found by following its links; those in a given
    state; those that wait for a semaphore.  The property of resched is here. *)

From S2P Require Import Prelude Types Queue Memory Kernel Sched.

(** * What the invariant says about the tables as the code sees them *)

(** The processes that wait for semaphore [i]. *)
Definition waits_on (s : kst) (i p : Z) : bool :=
  match s.(proctab) !! p with
  | Some e => bool_decide (e.(prstate) = PR_WAIT) && (e.(prsem) =? i)
  | None => false
  end.
Definition waiting (s : kst) (i : Z) : list Z := filter (λ p, waits_on s i p = true) (seqZ 0 NPROC).

Definition in_state (s : kst) (st : pstate) (p : Z) : bool :=
  match s.(proctab) !! p with Some e => bool_decide (e.(prstate) = st) | None => false end.
Definition procs_in (s : kst) (st : pstate) : list Z :=
  filter (λ p, in_state s st p = true) (seqZ 0 NPROC).

Definition prio_of (s : kst) (p : Z) : Z :=
  match s.(proctab) !! p with Some e => e.(prprio) | None => 0 end.

(** The processes on a queue, by following the [qnext] fields. *)
Fixpoint chain (fuel : nat) (qt : qtab) (p : Z) : option (list Z) :=
  match fuel with
  | O => None
  | S fuel =>
      e ← qt !! p;
      if e.(qnext) >=? NPROC then Some []
      else l ← chain fuel qt e.(qnext); Some (e.(qnext) :: l)
  end.
Definition queue_list (qt : qtab) (q : Z) : option (list Z) := chain (S (Z.to_nat NPROC)) qt q.

Lemma chain_dseg fuel qt a l b :
  dseg (nx qt) (pv qt) a l b -> (∀ p, p ∈ l -> p < NPROC) -> NPROC <= b -> (length l < fuel)%nat ->
  chain fuel qt a = Some l.
Proof.
  revert fuel a. induction l as [|x l IH]; intros [|fuel] a Hd Hl Hb Hf; simpl in Hf; try lia.
  - simpl in Hd. destruct Hd as [Hn _]. unfold nx in Hn. simpl. destruct (qt !! a) as [e|]; [|done].
    simpl in *. injection Hn as ->. rewrite Z.geb_leb. by rewrite (proj2 (Z.leb_le NPROC b)).
  - simpl in Hd. destruct Hd as (Hn & _ & Hd). unfold nx in Hn. simpl.
    destruct (qt !! a) as [e|]; [|done]. simpl in *. injection Hn as ->. rewrite Z.geb_leb.
    rewrite (proj2 (Z.leb_gt NPROC x)) by (apply Hl; set_solver). rewrite (IH fuel x); [done|done| |done|lia].
    intros p Hp. apply Hl. set_solver.
Qed.

Lemma pids_length l : NoDup l -> (∀ p, p ∈ l -> 0 <= p < NPROC) -> (length l <= Z.to_nat NPROC)%nat.
Proof.
  intros Hnd Hl. rewrite <- (length_seqZ 0 NPROC). apply submseteq_length, NoDup_submseteq; [done|].
  intros p Hp. apply elem_of_seqZ. specialize (Hl p Hp). lia.
Qed.

Lemma queue_list_qrep qt Q q l : qrep qt Q -> Q !! q = Some l -> queue_list qt q = Some l.
Proof.
  intros HQ Hl. unfold queue_list. pose proof (qrep_id _ _ HQ _ _ Hl) as (H1 & _).
  eapply chain_dseg; [exact (qrep_seg _ _ HQ _ _ Hl)| |lia|].
  - intros p Hp. apply (qrep_pid _ _ HQ _ _ _ Hl) in Hp. lia.
  - pose proof (pids_length l (qrep_nodup _ _ HQ _ _ Hl)) as Hlen.
    assert (length l <= Z.to_nat NPROC)%nat; [|lia]. apply Hlen.
    intros p Hp. by apply (qrep_pid _ _ HQ _ _ _ Hl).
Qed.

(** A queue holds the processes that a test on their entries selects. *)
Lemma queue_filter Q s q l (f : Z -> bool) :
  qrep s.(queuetab) Q -> Q !! q = Some l ->
  (∀ p, 0 <= p < NPROC -> p ∈ l <-> f p = true) ->
  l ≡ₚ filter (λ p, f p = true) (seqZ 0 NPROC).
Proof.
  intros HQ Hl Hf. apply NoDup_Permutation; [exact (qrep_nodup _ _ HQ _ _ Hl)| |].
  - apply NoDup_filter, NoDup_seqZ.
  - intros p. rewrite list_elem_of_filter, elem_of_seqZ. split.
    + intros Hp. pose proof (qrep_pid _ _ HQ _ _ _ Hl Hp) as Hr. split; [|lia]. by apply Hf.
    + intros [Hp Hr]. apply Hf; [lia|done].
Qed.

Lemma where_squeue Q s i se e :
  kinv Q s -> s.(semtab) !! i = Some se ->
  where_is s e = Some se.(squeue) <-> e.(prstate) = PR_WAIT /\ e.(prsem) = i.
Proof.
  intros HI Hi. destruct (iv_rlsq _ _ _ _ HI _ _ Hi) as [Hr Hsl]. unfold where_is. split.
  - destruct (prstate e); try done; try congruence.
    destruct (semtab s !! prsem e) as [se'|] eqn:Hse; [|done]. simpl. intros [= Hq]. split; [done|].
    by apply (iv_sqinj _ _ _ _ HI _ _ _ _ Hse Hi).
  - intros [-> ->]. by rewrite Hi.
Qed.

Lemma where_readylist Q s e :
  kinv Q s -> where_is s e = Some s.(readylist) <-> e.(prstate) = PR_READY.
Proof.
  intros HI. pose proof (iv_rlsl _ _ _ _ HI) as Hn. unfold where_is. split; [|by intros ->].
  destruct (prstate e); try done; try congruence.
  destruct (semtab s !! prsem e) as [se'|] eqn:Hse; [|done]. simpl. intros [= Hq].
  by destruct (iv_rlsq _ _ _ _ HI _ _ Hse).
Qed.

Lemma where_test Q s q l (test : procent -> bool) :
  kinv Q s -> Q !! q = Some l -> (∀ e, where_is s e = Some q <-> test e = true) ->
  l ≡ₚ filter (λ p, match s.(proctab) !! p with Some e => test e | None => false end = true) (seqZ 0 NPROC).
Proof.
  intros HI Hl Ht. eapply queue_filter; [apply HI|done|]. intros p Hp.
  destruct (arr_len_lookup _ _ _ (iv_pt _ _ _ _ HI) Hp) as [e He]. rewrite He, <- Ht.
  rewrite (iv_where _ _ _ _ HI _ _ _ _ He Hl). split; [by intros [_ ?]|]. split; [lia|done].
Qed.

Lemma waiting_queue Q s i se l :
  kinv Q s -> s.(semtab) !! i = Some se -> Q !! se.(squeue) = Some l -> l ≡ₚ waiting s i.
Proof.
  intros HI Hi Hl. unfold waiting, waits_on. eapply where_test; [done|done|].
  intros e. rewrite (where_squeue _ _ _ _ _ HI Hi), andb_true_iff, bool_decide_eq_true, Z.eqb_eq. done.
Qed.

Lemma ready_queue Q s l : kinv Q s -> Q !! s.(readylist) = Some l -> l ≡ₚ procs_in s PR_READY.
Proof.
  intros HI Hl. unfold procs_in, in_state. eapply where_test; [done|done|].
  intros e. rewrite (where_readylist _ _ _ HI), bool_decide_eq_true. done.
Qed.

Lemma current_only s : Inv s -> procs_in s PR_CURR = [s.(currpid)].
Proof.
  intros ((Q & HI) & (e & He & Hc) & _). unfold procs_in.
  assert (Hp : filter (λ p, in_state s PR_CURR p = true) (seqZ 0 NPROC) ≡ₚ [currpid s]).
  { apply NoDup_Permutation; [apply NoDup_filter, NoDup_seqZ|apply NoDup_singleton|].
    intros p. rewrite list_elem_of_filter, elem_of_seqZ, list_elem_of_singleton. unfold in_state. split.
    - intros [H _]. destruct (proctab s !! p) as [e'|] eqn:Hp; [|done].
      apply bool_decide_eq_true in H. by apply (iv_curr _ _ _ _ HI _ _ Hp).
    - intros ->. rewrite He, bool_decide_eq_true. split; [done|].
      pose proof (iv_currpid _ _ _ _ HI). lia. }
  apply Permutation_singleton_r in Hp. done.
Qed.
Lemma prio_of_eq s p e : s.(proctab) !! p = Some e -> prio_of s p = e.(prprio).
Proof. unfold prio_of. by intros ->. Qed.

Lemma resched_by_key s : Inv s ->
  ∃ l, queue_list s.(queuetab) s.(readylist) = Some l /\ l ≡ₚ procs_in s PR_READY /\
  match resched s with
  | Done _ s' => s' = s /\ ∀ p, p ∈ l -> keyof s.(queuetab) p < prio_of s s.(currpid)
  | Ctxsw old s' _ =>
      old = s.(currpid) /\ Inv s' /\ head l = Some s'.(currpid) /\
      (∀ p, p ∈ l -> keyof s.(queuetab) p <= keyof s.(queuetab) s'.(currpid)) /\
      prio_of s old <= keyof s.(queuetab) s'.(currpid) /\
      ∃ l1 l2, tail l = l1 ++ l2 /\
        queue_list s'.(queuetab) s'.(readylist) = Some (l1 ++ old :: l2) /\
        (∀ p, p ∈ l1 -> prio_of s old <= keyof s.(queuetab) p) /\
        (∀ p, p ∈ l2 -> keyof s.(queuetab) p < prio_of s old)
  | _ => False
  end.
Proof.
  intros ((Q & HI) & (e & He & Hc) & Hn). destruct (iv_rl _ _ _ _ HI) as [l Hl].
  pose proof (iv_q _ _ _ _ HI) as HQ. pose proof (iv_desc _ _ _ _ HI _ Hl) as Hd.
  exists l. split; [by eapply queue_list_qrep|]. split; [by eapply ready_queue|].
  pose proof (resched_run Q s e l HI Hn He Hc Hl) as Hr. rewrite (prio_of_eq _ _ _ He).
  destruct l as [|n l]; [rewrite Hr; split; [done|set_solver]|].
  destruct (prprio e >? keyof (queuetab s) n) eqn:Hpr; bool_hyps.
  { rewrite Hr. split; [done|]. intros p Hp. pose proof (desc_head _ _ _ _ Hd Hp). lia. }
  destruct Hr as (s' & en & -> & HI' & HK & _ & _ & Hcp & Hrl & _). rewrite Hcp, Hrl, (prio_of_eq _ _ _ He).
  split; [done|]. split; [done|]. split; [done|].
  split; [intros p Hp; by apply (desc_head _ _ _ _ Hd)|]. split; [lia|].
  pose proof Hd as Hd'. apply StronglySorted_inv in Hd' as [Hd' _].
  destruct (span_ge_split (keyof (queuetab s)) (prprio e) l Hd') as [H1 H2].
  exists (span_ge (keyof (queuetab s)) (prprio e) l).1, (span_ge (keyof (queuetab s)) (prprio e) l).2.
  split; [by rewrite span_ge_app|]. split; [|done].
  eapply queue_list_qrep; [apply HK|]. apply lookup_insert_eq.
Qed.

(** C10: resched runs a ready process of highest key, the priority with which it was queued.
    With the ready list [l], in descending order of the keys: when every process of [l] has a
    key below the priority of the current process, the current one keeps the processor and
    nothing changes; otherwise the first process of [l], whose key no other exceeds, becomes
    the current one, and the old one goes on the ready list behind every process whose key
    is at least its priority and before all others, so that processes of equal priority
    take turns.  When the keys are the priorities, the process that runs then is of highest
    priority among the ready ones and the old one.  After chprio of a ready process they
    are not: [chprio_keeps_the_key] below. *)
Theorem resched_runs_highest_key s : Inv s ->
  ∃ l, queue_list s.(queuetab) s.(readylist) = Some l /\ l ≡ₚ procs_in s PR_READY /\
  match resched s with
  | Done _ s' => s' = s /\ ∀ p, p ∈ l -> keyof s.(queuetab) p < prio_of s s.(currpid)
  | Ctxsw old s' _ =>
      old = s.(currpid) /\ Inv s' /\ head l = Some s'.(currpid) /\
      (∀ p, p ∈ l -> keyof s.(queuetab) p <= keyof s.(queuetab) s'.(currpid)) /\
      prio_of s old <= keyof s.(queuetab) s'.(currpid) /\
      ∃ l1 l2, tail l = l1 ++ l2 /\
        queue_list s'.(queuetab) s'.(readylist) = Some (l1 ++ old :: l2) /\
        (∀ p, p ∈ l1 -> prio_of s old <= keyof s.(queuetab) p) /\
        (∀ p, p ∈ l2 -> keyof s.(queuetab) p < prio_of s old)
  | _ => False
  end /\
  ((∀ p, p ∈ l -> keyof s.(queuetab) p = prio_of s p) ->
   match resched s with
   | Done _ s' => ∀ p, p ∈ procs_in s PR_READY -> prio_of s p < prio_of s s'.(currpid)
   | Ctxsw old s' _ => ∀ p, p ∈ s.(currpid) :: procs_in s PR_READY -> prio_of s p <= prio_of s s'.(currpid)
   | _ => False
   end).
Proof.
  intros HI. destruct (resched_by_key s HI) as (l & Hl & Hp & H). exists l. split; [done|]. split; [done|]. split; [done|].
  intros Hk. destruct (resched s) as [v s'|old s' k| |]; [| |done|done].
  - destruct H as [-> H]. intros p Hpr. rewrite <- Hk; [apply H|]; by rewrite Hp.
  - destruct H as (-> & _ & Hh & H1 & H2 & _). assert (Hin : currpid s' ∈ l) by (destruct l; [done|injection Hh as ->; by left]).
    intros p [->|Hpr]%elem_of_cons; rewrite <- (Hk (currpid s')) by done; [done|]. rewrite <- Hp in Hpr. rewrite <- Hk by done. by apply H1.
Qed.

(** Chprio of a process leaves the ready list as it is, with the key the process was queued
    with, which is then not its priority. *)
Theorem chprio_keeps_the_key s p e newprio : s.(proctab) !! p = Some e -> isbadpid s.(proctab) p = false ->
  ∃ s', chprio p newprio s = Done e.(prprio) s' /\ prio_of s' p = newprio /\ s'.(readylist) = s.(readylist) /\
    queue_list s'.(queuetab) s'.(readylist) = queue_list s.(queuetab) s.(readylist) /\
    (∀ q, keyof s'.(queuetab) q = keyof s.(queuetab) q) /\ ∀ q, q ≠ p -> prio_of s' q = prio_of s q.
Proof.
  intros He Hb. unfold chprio. krun. rewrite Hb. krun. rewrite He. krun. rewrite (arr_upd_eq _ _ _ _ He). krun.
  eexists. split; [reflexivity|]. unfold prio_of. kst_simpl. rewrite lookup_insert_eq.
  do 4 (split; [done|]). intros q Hq. by rewrite lookup_insert_ne.
Qed.

(** * Where a computation first stops *)

(** The state at its end or at its first context switch. *)
Definition outcome {A} (r : res A) : option kst :=
  match r with Done _ s | Ctxsw _ s _ => Some s | _ => None end.

Definition runnable (s : kst) (p : Z) : bool := in_state s PR_READY p || in_state s PR_CURR p.

(** The sleep queue is as it was, and who could run still can. *)
Definition same_sleepers (s s' : kst) : Prop :=
  Inv s' /\
  (∀ l, queue_list s.(queuetab) s.(sleepq) = Some l -> queue_list s'.(queuetab) s'.(sleepq) = Some l /\
     ∀ p, p ∈ l -> keyof s'.(queuetab) p = keyof s.(queuetab) p) /\
  (∀ p, runnable s p = true -> runnable s' p = true).

Lemma same_sleepers_trans s1 s2 s3 : same_sleepers s1 s2 -> same_sleepers s2 s3 -> same_sleepers s1 s3.
Proof.
  intros (_ & Hq1 & Hr1) (HI & Hq2 & Hr2). split; [done|].
  split; [|auto]. intros l Hl. destruct (Hq1 l Hl) as [Hl2 Hk1]. destruct (Hq2 l Hl2) as [Hl3 Hk2].
  split; [done|]. intros p Hp. by rewrite Hk2, Hk1.
Qed.

Lemma outcome_bind {A B} (m : K A) (f : A -> K B) s a s1 s2 :
  outcome (m s) = Some s1 ->
  (m s = Done a s1 -> outcome (f a s1) = Some s2) ->
  ((∀ a' s', m s ≠ Done a' s') -> s2 = s1) ->
  (∀ a' s', m s = Done a' s' -> a' = a) ->
  outcome ((m ≫= f) s) = Some s2.
Proof.
  intros Ho Hf Hc Ha. unfold mbind, K_bind. destruct (m s) as [a' s'|old s' k| |] eqn:E; simpl in *; try done.
  - injection Ho as ->. rewrite <- (Ha _ _ eq_refl) in Hf. by apply Hf.
  - injection Ho as ->. by rewrite Hc.
Qed.

Lemma queue_list_inv qt Q q l l' : qrep qt Q -> Q !! q = Some l' -> queue_list qt q = Some l -> l = l'.
Proof. intros HQ Hl' Hl. rewrite (queue_list_qrep _ _ _ _ HQ Hl') in Hl. congruence. Qed.

Lemma runnable_insert s s' p0 e0 p :
  s'.(proctab) = <[p0 := e0]> s.(proctab) -> e0.(prstate) = PR_READY \/ e0.(prstate) = PR_CURR ->
  runnable s p = true -> runnable s' p = true.
Proof.
  unfold runnable, in_state. intros -> H0 Hr. destruct (decide (p0 = p)) as [<-|Hne].
  - rewrite lookup_insert_eq. destruct H0 as [-> | ->]; [done|by rewrite orb_comm].
  - by rewrite lookup_insert_ne.
Qed.

(** The queues of processes that are neither ready nor running. *)
Definition blocking (s : kst) (q : Z) : Prop :=
  q = s.(sleepq) \/ ∃ i se, s.(semtab) !! i = Some se /\ q = se.(squeue).

Definition same_blocked (s s' : kst) : Prop :=
  Inv s' /\ s'.(sleepq) = s.(sleepq) /\ s'.(semtab) = s.(semtab) /\
  (∀ q l, blocking s q -> queue_list s.(queuetab) q = Some l ->
     queue_list s'.(queuetab) q = Some l /\
     ∀ p, p ∈ l -> keyof s'.(queuetab) p = keyof s.(queuetab) p) /\
  (∀ p, runnable s p = true -> runnable s' p = true) /\
  (∀ p e, s.(proctab) !! p = Some e -> ∃ st, s'.(proctab) !! p = Some (set_prstate st e)).

Lemma set_prstate_same (e : procent) : e = set_prstate e.(prstate) e.
Proof. by destruct e. Qed.

(** An entry of which only the state changes. *)
Lemma upd_prstate (pt : ptab) p0 e0 st p e :
  pt !! p0 = Some e0 -> pt !! p = Some e ->
  ∃ st', <[p0 := set_prstate st e0]> pt !! p = Some (set_prstate st' e).
Proof.
  intros H0 Hp. destruct (decide (p0 = p)) as [->|Hne].
  - rewrite lookup_insert_eq. rewrite H0 in Hp. injection Hp as ->. eauto.
  - rewrite lookup_insert_ne by done. exists e.(prstate). by rewrite <- set_prstate_same.
Qed.

Lemma blocking_queue Q s q :
  kinv Q s -> blocking s q -> is_Some (Q !! q) /\ q ≠ s.(readylist).
Proof.
  intros HI [->|(i & se & Hi & ->)].
  - split; [apply HI|]. pose proof (iv_rlsl _ _ _ _ HI). congruence.
  - split; [by apply (iv_sq _ _ _ _ HI i)|]. apply (iv_rlsq _ _ _ _ HI _ _ Hi).
Qed.

Lemma on_sleepq Q s p e l :
  kinv Q s -> Q !! s.(sleepq) = Some l -> p ∈ l -> s.(proctab) !! p = Some e ->
  e.(prstate) = PR_SLEEP \/ e.(prstate) = PR_RECTIM.
Proof.
  intros HI Hl Hin He. apply (iv_where _ _ _ _ HI _ _ _ _ He Hl) in Hin as [_ Hw].
  pose proof (iv_rlsl _ _ _ _ HI). unfold where_is in Hw. destruct (prstate e); try congruence; auto.
  destruct (semtab s !! prsem e) as [se|] eqn:Hse; [|done]. injection Hw as Hw.
  by destruct (iv_rlsq _ _ _ _ HI _ _ Hse).
Qed.

Lemma current_off Q s q l :
  kinv Q s -> curstate s PR_CURR -> Q !! q = Some l -> s.(currpid) ∉ l.
Proof.
  intros HI (e & He & Hc) Hl Hin. apply (iv_where _ _ _ _ HI _ _ _ _ He Hl) in Hin as [_ Hw].
  unfold where_is in Hw. by rewrite Hc in Hw.
Qed.

Lemma same_blocked_refl s : Inv s -> same_blocked s s.
Proof. intros HI. do 3 (split; [done|]). split; [intros q l _ Hl; by split|]. split; [done|].
  intros p e Hp. exists e.(prstate). by rewrite <- set_prstate_same. Qed.

Lemma resched_blocked s : Inv s -> ∃ s', outcome (resched s) = Some s' /\ same_blocked s s' /\
  (∀ a s'', resched s = Done a s'' -> s'' = s).
Proof.
  intros HI0. pose proof HI0 as ((Q & HI) & Hcur & Hn). pose proof Hcur as (e & He & Hc).
  destruct (iv_rl _ _ _ _ HI) as [l Hl].
  assert (Hstay : resched s = Done tt s -> ∃ s', outcome (resched s) = Some s' /\ same_blocked s s' /\
     (∀ a s'', resched s = Done a s'' -> s'' = s)).
  { intros ->. exists s. split; [done|]. split; [by apply same_blocked_refl|]. by intros [] s'' [= <-]. }
  pose proof (resched_run Q s e l HI Hn He Hc Hl) as Hr. destruct l as [|n l]; [by apply Hstay|].
  destruct (prprio e >? keyof (queuetab s) n); [by apply Hstay|]. clear Hstay.
  destruct Hr as (s' & en & -> & HI' & HK & Hen & Hpt & Hcp & Hrl & Hsl & Hst & Hky).
  exists s'. split; [done|]. split; [|done]. split; [done|]. split; [done|]. split; [done|].
  pose proof (iv_q _ _ _ _ HI) as HQ. split.
  - intros q l0 Hbl Hl0. destruct (blocking_queue _ _ _ HI Hbl) as [[ls Hls] Hne].
    rewrite (queue_list_inv _ _ _ _ _ HQ Hls Hl0) in *. split.
    + eapply queue_list_qrep; [apply HK|]. by rewrite lookup_insert_ne.
    + intros p Hp. unfold keyof. rewrite Hky; [done|]. intros ->. by apply (current_off _ _ _ _ HI Hcur Hls).
  - split.
    + intros p Hp. eapply (runnable_insert (set_proctab (<[currpid s:=set_prstate PR_READY e]> (proctab s)) s)).
      * rewrite Hpt. reflexivity.
      * by right.
      * eapply runnable_insert; [reflexivity|by left|done].
    + intros p ep Hp. rewrite Hpt. destruct (upd_prstate _ _ _ PR_READY _ _ He Hp) as [st1 Hp1].
      assert (Hne : currpid s ≠ n).
      { intros <-. apply (current_off Q s (readylist s) _ HI Hcur Hl). set_solver. }
      assert (Hen1 : <[currpid s := set_prstate PR_READY e]> (proctab s) !! n = Some en) by by rewrite lookup_insert_ne.
      destruct (upd_prstate _ _ _ PR_CURR _ _ Hen1 Hp1) as [st2 Hp2]. by exists st2.
Qed.

Lemma resched_sleepers s : Inv s -> ∃ s', outcome (resched s) = Some s' /\ same_sleepers s s' /\
  (∀ a s'', resched s = Done a s'' -> s'' = s).
Proof.
  intros HI. destruct (resched_blocked s HI) as (s' & Ho & (H1 & H2 & _ & H4 & H5 & _) & Hd).
  exists s'. split; [done|]. split; [|done]. split; [done|]. split; [|done]. rewrite H2.
  intros l Hl. apply H4; [by left|done].
Qed.

(** The same when the current process has given the processor up. *)
Lemma dispatch_blocked Q s old :
  kinv Q s -> s.(ndefers) = 0 -> (∀ p e, s.(proctab) !! p = Some e -> e.(prstate) ≠ PR_CURR) ->
  ∃ s', dispatch old s = Ctxsw old s' (λ s'', Done tt s'') /\ same_blocked s s' /\
    ∀ p, in_state s PR_READY p = false -> s'.(proctab) !! p = s.(proctab) !! p.
Proof.
  intros HI Hnd Hno.
  destruct (dispatch_full Q s old HI Hnd Hno) as (n & l & en & qt & Hl & Hen & Hst & Hrun & HI' & HK & Hky).
  eexists. split; [exact Hrun|]. split.
  - split; [done|]. split; [done|]. split; [done|]. split.
    + intros q l0 Hbl Hl0. destruct (blocking_queue _ _ _ HI Hbl) as [[ls Hls] Hne].
      rewrite (queue_list_inv _ _ _ _ _ (iv_q _ _ _ _ HI) Hls Hl0) in *. split.
      * eapply queue_list_qrep; [apply HK|]. by rewrite lookup_insert_ne.
      * intros p Hp. unfold keyof. kst_simpl. by rewrite Hky.
    + split; [intros p; eapply runnable_insert; [reflexivity|by right]|].
      intros p ep Hp. destruct (upd_prstate _ _ _ PR_CURR _ _ Hen Hp) as [st Hp2]. by exists st.
  - intros p Hp. kst_simpl. rewrite lookup_insert_ne; [done|]. intros ->. unfold in_state in Hp.
    rewrite Hen, Hst in Hp. done.
Qed.
