(* ===== verification/Sem.v ===== *)
(** Counting semaphores: system/semcreate.c, semdelete.c, semcount.c,
    semreset.c, signal.c, signaln.c, wait.c.

    The invariant of Sched.v says that a count of -n means n processes on the
    semaphore's queue; every operation keeps it. *)

From S2P Require Import Prelude Types Queue Memory Kernel Sched Observe.

(** * The operations *)

(** The loop of newsem, for [n] more entries. *)
Fixpoint newsem_loop (n : nat) : K Z :=
  match n with
  | O => mret SYSERR
  | S n =>
      sem ← gets nextsem;
      modify (set_nextsem (sem + 1));;
      (if sem + 1 >=? NSEM then modify (set_nextsem 0) else mret tt);;
      e ← getsem sem;
      if bool_decide (e.(sstate) = S_FREE) then
        updsem (set_sstate S_USED) sem;;
        mret sem
      else newsem_loop n
  end.

(** system/semcreate.c: newsem *)
Definition newsem : K Z := newsem_loop (Z.to_nat NSEM).

(** system/semcreate.c: semcreate *)
Definition semcreate (count : Z) : K Z :=
  mask ← disable;
  if count <? 0 then restore mask;; mret SYSERR
  else
    sem ← newsem;
    if sem =? SYSERR then restore mask;; mret SYSERR
    else
      updsem (set_scount count) sem;;
      restore mask;;
      mret sem.

(** [semptr->scount++], with the old value. *)
Definition scount_postinc (sem : Z) : K Z :=
  e ← getsem sem;
  updsem (set_scount (s32 (e.(scount) + 1))) sem;;
  mret e.(scount).

(** The loop of semdelete. *)
Definition semdelete_wake (fuel : nat) (sem : Z) : K unit :=
  while fuel
    (c ← scount_postinc sem; mret (c <? 0))
    (semptr ← getsem sem; pid ← qop (getfirst semptr.(squeue)); ready pid;; mret tt).

(** system/semdelete.c: semdelete *)
Definition semdelete (sem : Z) : K Z :=
  mask ← disable;
  if isbadsem sem then restore mask;; mret SYSERR
  else
    semptr ← getsem sem;
    if bool_decide (semptr.(sstate) = S_FREE) then restore mask;; mret SYSERR
    else
      updsem (set_sstate S_FREE) sem;;
      resched_cntl DEFER_START;;
      semdelete_wake (S (Z.to_nat (- semptr.(scount)))) sem;;
      resched_cntl DEFER_STOP;;
      restore mask;;
      mret OK.

(** system/semcount.c: semcount *)
Definition semcount (semid : Z) : K Z :=
  mask ← disable;
  if isbadsem semid then restore mask;; mret SYSERR
  else
    e ← getsem semid;
    if bool_decide (e.(sstate) = S_FREE) then restore mask;; mret SYSERR
    else restore mask;; mret e.(scount).

(** The loop of semreset: no more processes than [NPROC] can be waiting. *)
Fixpoint semreset_loop (fuel : nat) (semqueue : Z) : K unit :=
  match fuel with
  | O => undefined
  | S fuel =>
      pid ← qop (getfirst semqueue);
      if pid =? EMPTY then mret tt
      else ready pid;; semreset_loop fuel semqueue
  end.

(** system/semreset.c: semreset *)
Definition semreset (sem count : Z) : K Z :=
  mask ← disable;
  if (count <? 0) || isbadsem sem then restore mask;; mret SYSERR
  else
    semptr ← getsem sem;
    if bool_decide (semptr.(sstate) = S_FREE) then restore mask;; mret SYSERR
    else
      let semqueue := semptr.(squeue) in
      resched_cntl DEFER_START;;
      semreset_loop (S (Z.to_nat NPROC)) semqueue;;
      updsem (set_scount count) sem;;
      resched_cntl DEFER_STOP;;
      restore mask;;
      mret OK.

(** [if ((semptr->scount++) < 0) ready(dequeue(semptr->squeue));] *)
Definition signal_one (sem : Z) : K unit :=
  c ← scount_postinc sem;
  if c <? 0 then
    semptr ← getsem sem;
    pid ← qop (dequeue semptr.(squeue));
    ready pid;;
    mret tt
  else mret tt.

(** system/signal.c: signal *)
Definition signal (sem : Z) : K Z :=
  mask ← disable;
  if isbadsem sem then restore mask;; mret SYSERR
  else
    semptr ← getsem sem;
    if bool_decide (semptr.(sstate) = S_FREE) then restore mask;; mret SYSERR
    else
      signal_one sem;;
      restore mask;;
      mret OK.

(** The loop of signaln: [count] times. *)
Fixpoint signaln_loop (count : nat) (sem : Z) : K unit :=
  match count with
  | O => mret tt
  | S count => signal_one sem;; signaln_loop count sem
  end.

(** system/signaln.c: signaln *)
Definition signaln (sem count : Z) : K Z :=
  mask ← disable;
  if isbadsem sem || (count <? 0) then restore mask;; mret SYSERR
  else
    semptr ← getsem sem;
    if bool_decide (semptr.(sstate) = S_FREE) then restore mask;; mret SYSERR
    else
      resched_cntl DEFER_START;;
      signaln_loop (Z.to_nat count) sem;;
      resched_cntl DEFER_STOP;;
      restore mask;;
      mret OK.

(** system/wait.c: wait *)
Definition wait (sem : Z) : K Z :=
  mask ← disable;
  if isbadsem sem then restore mask;; mret SYSERR
  else
    semptr ← getsem sem;
    if bool_decide (semptr.(sstate) = S_FREE) then restore mask;; mret SYSERR
    else
      updsem (set_scount (s32 (semptr.(scount) - 1))) sem;;
      (if s32 (semptr.(scount) - 1) <? 0 then
         me ← gets currpid;
         updproc (set_prstate PR_WAIT) me;;
         updproc (set_prsem sem) me;;
         pt ← gets proctab;
         qop (enqueue pt me semptr.(squeue));;
         resched
       else mret tt);;
      restore mask;;
      mret OK.

(** * The invariant *)

Lemma sem_count_range Q s i e :
  kinv Q s -> s.(semtab) !! i = Some e -> -100 <= e.(scount).
Proof.
  intros HI He. destruct (iv_sq _ _ _ _ HI _ _ He) as [l Hl].
  pose proof (iv_q _ _ _ _ HI) as HQ.
  pose proof (range_NoDup_length l (qrep_nodup _ _ HQ _ _ Hl) (λ p, qrep_pid _ _ HQ _ _ p Hl)).
  pose proof (arr_len_lt _ _ _ _ (iv_st _ _ _ _ HI) He).
  pose proof (iv_scount _ _ _ _ HI _ _ _ He Hl). lia.
Qed.

Lemma on_sem_queue Q s i se p e l :
  kinv Q s -> s.(semtab) !! i = Some se -> Q !! se.(squeue) = Some l -> p ∈ l ->
  s.(proctab) !! p = Some e -> e.(prstate) = PR_WAIT /\ e.(prsem) = i.
Proof.
  intros HI Hse Hl Hin Hp.
  apply (iv_where _ _ _ _ HI _ _ _ _ Hp Hl) in Hin as [_ Hw].
  destruct (iv_rlsq _ _ _ _ HI _ _ Hse). unfold where_is in Hw.
  destruct (prstate e); try congruence.
  destruct (semtab s !! prsem e) as [se'|] eqn:Hse'; [|done]. injection Hw as Hw.
  split; [done|]. by eapply iv_sqinj.
Qed.

Lemma kinv_used Q s i e :
  kinv Q s -> s.(semtab) !! i = Some e ->
  kinv Q (set_semtab (<[i := set_sstate S_USED e]> s.(semtab)) s).
Proof.
  intros HI He. apply (pre_inv_sem _ _ _ _ e); [by apply pre_inv_weaken_sem|done|done| | |done].
  - intros l Hl. pose proof (arr_len_lt _ _ _ _ (iv_st _ _ _ _ HI) He).
    apply (iv_scount _ _ _ _ HI _ _ _ He Hl). lia.
  - by apply (iv_s32 _ _ _ _ HI _ _ He).
Qed.

(** A semaphore with no process waiting gets any count that is not negative. *)
Lemma kinv_scount Q s i e c :
  kinv Q s -> s.(semtab) !! i = Some e -> 0 <= e.(scount) -> 0 <= c -> is_s32 c ->
  kinv Q (set_semtab (<[i := set_scount c e]> s.(semtab)) s).
Proof.
  intros HI He H0 Hc H32. apply (pre_inv_sem _ _ _ _ e); try done; [by apply pre_inv_weaken_sem|].
  intros l Hl. pose proof (arr_len_lt _ _ _ _ (iv_st _ _ _ _ HI) He).
  rewrite (iv_scount _ _ _ _ HI _ _ _ He Hl) by lia. simpl. lia.
Qed.

(** How the first process leaves a queue, by dequeue or by getfirst. *)
Definition takes_first (f : Z -> qtab -> option (Z * qtab)) : Prop :=
  ∀ qt Q, qrep qt Q -> ∀ q l, Q !! q = Some l -> ∀ pid l', l = pid :: l' ->
  ∃ qt', f q qt = Some (pid, qt') /\ qrep qt' (<[q := l']> Q) /\ ∀ i, ky qt' i = ky qt i.

Lemma takes_first_dequeue : takes_first dequeue.
Proof. exact dequeue_cons. Qed.
Lemma takes_first_getfirst : takes_first getfirst.
Proof. exact getfirst_cons. Qed.

(** The count of a semaphore with waiting processes goes up and the first of
    them leaves the queue. *)
Lemma sem_release f Q s i se :
  takes_first f -> kinv Q s -> s.(semtab) !! i = Some se -> se.(scount) < 0 ->
  s32 (se.(scount) + 1) = se.(scount) + 1 /\
  ∃ p e l qt, Q !! se.(squeue) = Some (p :: l) /\
    f se.(squeue) s.(queuetab) = Some (p, qt) /\ s.(proctab) !! p = Some e /\
    e.(prstate) = PR_WAIT /\ e.(prsem) = i /\ (∀ j, ky qt j = ky s.(queuetab) j) /\
    pre_inv p (-1) (<[se.(squeue) := l]> Q)
      (set_queuetab qt (set_semtab (<[i := set_scount (se.(scount) + 1) se]> s.(semtab)) s)).
Proof.
  intros Hf HI Hse Hneg. pose proof (sem_count_range _ _ _ _ HI Hse) as Hlow.
  pose proof (arr_len_lt _ _ _ _ (iv_st _ _ _ _ HI) Hse) as Hir.
  split; [apply s32_id; unfold is_s32; lia|].
  destruct (iv_sq _ _ _ _ HI _ _ Hse) as [l0 Hl0].
  pose proof (iv_scount _ _ _ _ HI _ _ _ Hse Hl0) as Hlen. destruct l0 as [|p l]; simpl in Hlen; [lia|].
  pose proof (iv_q _ _ _ _ HI) as HQ.
  destruct (Hf _ _ HQ _ _ Hl0 p l eq_refl) as (qt & Hqt & HQ' & Hky).
  assert (Hpr : 0 <= p < NPROC) by (apply (qrep_pid _ _ HQ _ _ p Hl0); set_solver).
  destruct (arr_len_lookup _ _ _ (iv_pt _ _ _ _ HI) Hpr) as [e He].
  assert (Hin : p ∈ p :: l) by set_solver.
  destruct (on_sem_queue _ _ _ _ _ _ _ HI Hse Hl0 Hin He) as [Hw Hps].
  exists p, e, l, qt. do 6 (split; [done|]).
  assert (HI1 : pre_inv p i (<[squeue se := l]> Q) (set_queuetab qt s)).
  { apply (pre_inv_leave p i Q s e qt (squeue se) [] l); try done.
    - by apply pre_inv_weaken_sem.
    - intros j ej Hj Hq. eapply iv_sqinj; [exact HI|exact Hj|exact Hse|exact Hq]. }
  apply (pre_inv_sem p i _ (set_queuetab qt s) se); try done.
  - intros l1. rewrite lookup_insert_eq. intros [= <-]. simpl. lia.
  - simpl. unfold is_s32. lia.
  - simpl. intros Hst. pose proof (iv_free _ _ _ _ HI _ _ Hse ltac:(lia) Hst). lia.
Qed.

(** A process that waits on a semaphore is not the current one. *)
Lemma waiting_not_current s p e :
  s.(proctab) !! p = Some e -> e.(prstate) = PR_WAIT -> curstate s PR_CURR -> p ≠ s.(currpid).
Proof. intros Hp Hw (e0 & He0 & Hs0) ->. congruence. Qed.

Lemma signal_one_back Q s i se Φ :
  kinv Q s -> curstate s PR_CURR -> s.(ndefers) = 0 -> s.(ie) = false ->
  s.(semtab) !! i = Some se -> se.(scount) < 2147483647 ->
  (∀ s', back s s' -> Φ tt s') -> wp Inv (signal_one i s) Φ.
Proof.
  intros HI Hc Hnd Hie Hse Hmax HΦ. pose proof (sem_count_range _ _ _ _ HI Hse) as Hlow.
  unfold signal_one, scount_postinc. krun. rewrite Hse. krun. rewrite (arr_upd_eq _ _ _ _ Hse). krun.
  rewrite s32_id by (unfold is_s32; lia).
  destruct (scount se <? 0) eqn:Hneg; krun.
  - apply Z.ltb_lt in Hneg. rewrite lookup_insert_eq. krun.
    destruct (sem_release dequeue Q s i se takes_first_dequeue HI Hse Hneg)
      as (_ & p & e & l & qt & _ & Hqt & He & Hw & _ & _ & HI1).
    rewrite Hqt. krun. apply wp_bind. eapply (ready_back p _ _ e); [exact HI1|done|congruence|done|done|].
    intros s' Hb. krun. by apply HΦ.
  - apply Z.ltb_ge in Hneg. apply HΦ. split; [|done]. apply (Inv_intro Q); try done.
    apply kinv_scount; try done; [lia|unfold is_s32; lia].
Qed.

(** With rescheduling deferred, a signal is straight-line code. *)
Lemma signal_one_deferred Q s i se :
  kinv Q s -> curstate s PR_CURR -> 0 < s.(ndefers) ->
  s.(semtab) !! i = Some se -> se.(scount) < 2147483647 ->
  ∃ s' Q', signal_one i s = Done tt s' /\ kinv Q' s' /\ curstate s' PR_CURR /\
    s'.(semtab) = <[i := set_scount (se.(scount) + 1) se]> s.(semtab) /\
    s'.(ndefers) = s.(ndefers) /\ s'.(currpid) = s.(currpid) /\ s'.(ie) = s.(ie).
Proof.
  intros HI Hc Hnd Hse Hmax. pose proof (sem_count_range _ _ _ _ HI Hse) as Hlow.
  unfold signal_one, scount_postinc. krun. rewrite Hse. krun. rewrite (arr_upd_eq _ _ _ _ Hse). krun.
  rewrite s32_id by (unfold is_s32; lia).
  destruct (scount se <? 0) eqn:Hneg; krun.
  - apply Z.ltb_lt in Hneg. rewrite lookup_insert_eq. krun.
    destruct (sem_release dequeue Q s i se takes_first_dequeue HI Hse Hneg)
      as (_ & p & e & l & qt & _ & Hqt & He & Hw & _ & _ & HI1).
    rewrite Hqt. krun.
    destruct (ready_deferred p (-1) _ _ e HI1) as (qt2 & l2 & _ & -> & _ & HI2); try done; [congruence|].
    krun. eexists _, _. split; [done|]. split; [exact HI2|]. split; [|done].
    apply (curstate_other s); [by eapply waiting_not_current|done].
  - apply Z.ltb_ge in Hneg. eexists _, Q. split; [done|]. split; [|done].
    apply kinv_scount; try done; [lia|unfold is_s32; lia].
Qed.

Lemma kinv_defer Q s n b : kinv Q s -> kinv Q (set_attempt b (set_ndefers n s)).
Proof. intros HI. dinv HI. by constructor. Qed.

Lemma defer_start s : s.(ndefers) = 0 ->
  resched_cntl DEFER_START s = Done OK (set_attempt false (set_ndefers 1 s)).
Proof. intros Hn. unfold resched_cntl. simpl. krun. by rewrite Hn. Qed.

Lemma defer_stop_back Q s Φ :
  kinv Q s -> curstate s PR_CURR -> s.(ndefers) = 1 -> s.(ie) = false ->
  (∀ s', back (set_ndefers 0 s) s' -> Φ OK s') -> wp Inv (resched_cntl DEFER_STOP s) Φ.
Proof.
  intros HI Hc Hn Hie HΦ. unfold resched_cntl. simpl. krun. rewrite Hn. simpl. krun.
  assert (HI' : kinv Q (set_ndefers 0 s)) by (dinv HI; by constructor).
  destruct (attempt s); simpl; krun.
  - apply wp_bind. by eapply (resched_back Q).
  - apply HΦ. apply back_refl. by apply (Inv_intro Q).
Qed.

(** The precondition of an operation that increments the count of semaphore
    [sem] at most [n] times: the count does not overflow. *)
Definition sem_room (sem n : Z) (s : kst) : Prop :=
  ∀ e, s.(semtab) !! sem = Some e -> e.(scount) + n <= 2147483647.

Definition syscall_pre_ok {A} (P : kst -> Prop) (m : K A) : Prop :=
  ∀ s, Inv s -> s.(currpid) ≠ NULLPROC -> P s -> wp Inv (m s) (λ _ s', back s s').

Lemma isbadsem_false sem s Q :
  kinv Q s -> isbadsem sem = false -> ∃ e, s.(semtab) !! sem = Some e.
Proof.
  intros HI Hb. unfold isbadsem in Hb. bool_hyps.
  apply (arr_len_lookup _ _ _ (iv_st _ _ _ _ HI)). unfold NSEM in *. lia.
Qed.

(** The common start of the calls that take a semaphore: a bad or a free
    semaphore is refused. *)
Ltac sem_guard Hbad Hinv e He Hst :=
  krun; destruct (isbadsem _) eqn:Hbad; krun; [by apply bad_ok|];
  destruct (isbadsem_false _ _ _ Hinv Hbad) as [e He]; kst_simpl; rewrite He; krun;
  destruct (decide (sstate e = S_FREE)) as [Hst|Hst];
  [rewrite bool_decide_eq_true_2 by done; by apply bad_ok
  |rewrite bool_decide_eq_false_2 by done; krun].

Lemma signal_ok sem : syscall_pre_ok (sem_room sem 1) (signal sem).
Proof.
  intros s HI Hnull Hroom. pose proof (Inv_ie false s HI) as ((Q & HQ) & Hc & Hn).
  unfold signal. sem_guard Hbad HQ e He Hst.
  apply wp_bind. eapply (signal_one_back Q _ _ e); try done.
  - specialize (Hroom _ He). lia.
  - intros s' Hb. krun. by apply back_restore.
Qed.

Lemma signaln_loop_deferred n : ∀ Q s i se,
  kinv Q s -> curstate s PR_CURR -> 0 < s.(ndefers) ->
  s.(semtab) !! i = Some se -> se.(scount) + Z.of_nat n <= 2147483647 ->
  ∃ s' Q', signaln_loop n i s = Done tt s' /\ kinv Q' s' /\ curstate s' PR_CURR /\
    s'.(semtab) !! i = Some (set_scount (se.(scount) + Z.of_nat n) se) /\
    s'.(ndefers) = s.(ndefers) /\ s'.(currpid) = s.(currpid) /\ s'.(ie) = s.(ie).
Proof.
  induction n as [|n IH]; intros Q s i se HI Hc Hnd Hse Hmax.
  - exists s, Q. repeat (split; [done|]). split; [|done]. rewrite Hse. f_equal.
    destruct se. unfold set_scount. simpl. f_equal. lia.
  - destruct (signal_one_deferred Q s i se HI Hc Hnd Hse ltac:(lia))
      as (s1 & Q1 & Hs1 & HI1 & Hc1 & Hst1 & Hnd1 & Hcp1 & Hie1).
    destruct (IH Q1 s1 i (set_scount (scount se + 1) se)) as (s2 & Q2 & Hs2 & HI2 & Hc2 & Hse2 & Hnd2 & Hcp2 & Hie2).
    + done. + done. + lia. + rewrite Hst1. apply lookup_insert_eq. + simpl. lia.
    + exists s2, Q2. simpl. rewrite (bind_done _ _ _ _ _ Hs1). repeat (split; [done|]).
      split; [rewrite Hse2; unfold set_scount; simpl; do 2 f_equal; lia|]. repeat split; congruence.
Qed.

Lemma back_after s0 s s' :
  s.(currpid) = s0.(currpid) -> s.(ie) = false -> Inv s0 -> back (set_ndefers 0 s) s' ->
  back s0 (set_ie s0.(ie) s').
Proof.
  intros Hcp Hie HI0 (HI & Hc & Hi). kst_simpl. apply back_restore; [done|].
  split; [done|]. split; kst_simpl; congruence.
Qed.

Lemma signaln_ok sem count :
  syscall_pre_ok (sem_room sem (Z.max 0 count)) (signaln sem count).
Proof.
  intros s HI Hnull Hroom. pose proof (Inv_ie false s HI) as ((Q & HQ) & Hc & Hn).
  unfold signaln. krun. destruct (isbadsem sem || (count <? 0)) eqn:Hbad; krun; [by apply bad_ok|].
  apply orb_false_iff in Hbad as [Hbad Hcnt]. apply Z.ltb_ge in Hcnt.
  destruct (isbadsem_false _ _ _ HQ Hbad) as [e He]. kst_simpl. rewrite He. krun.
  destruct (decide (sstate e = S_FREE)) as [Hst|Hst];
    [rewrite bool_decide_eq_true_2 by done; by apply bad_ok
    |rewrite bool_decide_eq_false_2 by done; krun].
  rewrite defer_start by done. krun.
  destruct (signaln_loop_deferred (Z.to_nat count) Q (set_attempt false (set_ndefers 1 (set_ie false s))) sem e)
    as (s1 & Q1 & -> & HI1 & Hc1 & _ & Hnd1 & Hcp1 & Hie1).
  { by apply kinv_defer. } { done. } { done. } { done. } { specialize (Hroom _ He). lia. }
  krun. apply wp_bind. eapply (defer_stop_back Q1); try done.
  intros s' Hb. krun. by apply (back_after s s1 s').
Qed.

(** The count and the queue of a semaphore whose entry is already free. *)
Definition sem_queue (Q : queues) (e : sentry) (l : list Z) : Prop :=
  Q !! e.(squeue) = Some l /\ Z.of_nat (length l) = Z.max 0 (- e.(scount)).

Lemma pre_inv_set_scount x i Q s e c :
  pre_inv x i Q s -> s.(semtab) !! i = Some e -> is_s32 c ->
  pre_inv x i Q (set_semtab (<[i := set_scount c e]> s.(semtab)) s).
Proof. intros HI He H32. by apply (pre_inv_sem_any _ _ _ _ e). Qed.

(** One process leaves the queue of semaphore [i], which is excepted. *)
Lemma sem_take_first Q s i se p l :
  pre_inv (-1) i Q s -> s.(semtab) !! i = Some se -> Q !! se.(squeue) = Some (p :: l) ->
  curstate s PR_CURR -> 0 < s.(ndefers) ->
  ∃ e qt qt2 Q', getfirst se.(squeue) s.(queuetab) = Some (p, qt) /\ 0 <= p /\
    ready p (set_queuetab qt s) = Done OK (set_attempt true (made_ready p e qt2 s)) /\
    pre_inv (-1) i Q' (set_attempt true (made_ready p e qt2 s)) /\
    Q' !! se.(squeue) = Some l /\ curstate (set_attempt true (made_ready p e qt2 s)) PR_CURR.
Proof.
  intros HI Hse Hl Hc Hnd. pose proof (iv_q _ _ _ _ HI) as HQ.
  destruct (getfirst_cons _ _ HQ _ _ Hl p l eq_refl) as (qt & Hg & HQ' & Hky).
  assert (Hpr : 0 <= p < NPROC) by (apply (qrep_pid _ _ HQ _ _ p Hl); set_solver).
  destruct (arr_len_lookup _ _ _ (iv_pt _ _ _ _ HI) Hpr) as [e He].
  assert (Hw : where_is s e = Some (squeue se)).
  { apply (iv_where _ _ _ _ HI _ _ _ _ He Hl). set_solver. }
  destruct (iv_rlsq _ _ _ _ HI _ _ Hse) as [Hsr Hss].
  assert (Hf : prstate e = PR_WAIT).
  { unfold where_is in Hw. by destruct (prstate e); try congruence. }
  assert (HI1 : pre_inv p i (<[squeue se := l]> Q) (set_queuetab qt s)).
  { apply (pre_inv_leave p i Q s e qt (squeue se) [] l); try done.
    intros j ej Hj Hq. eapply iv_sqinj; [exact HI|exact Hj|exact Hse|exact Hq]. }
  destruct (ready_deferred p i _ _ e HI1) as (qt2 & l2 & Hl2 & Hrd & _ & HI2); try done; [congruence|].
  eexists e, qt, qt2, _. split; [done|]. split; [lia|]. split; [exact Hrd|]. split; [exact HI2|]. split.
  - simpl. rewrite lookup_insert_ne by congruence. apply lookup_insert_eq.
  - apply (curstate_other s); [|done]. by eapply waiting_not_current.
Qed.

Lemma semdelete_loop n : ∀ Q s i se l,
  pre_inv (-1) i Q s -> curstate s PR_CURR -> 0 < s.(ndefers) ->
  s.(semtab) !! i = Some se -> sem_queue Q se l -> length l = n -> se.(scount) + 1 <= 2147483647 ->
  ∃ s' Q', semdelete_wake (S n) i s = Done tt s' /\ kinv Q' s' /\ curstate s' PR_CURR /\
    s'.(ndefers) = s.(ndefers) /\ s'.(currpid) = s.(currpid) /\ s'.(ie) = s.(ie).
Proof.
  induction n as [|n IH]; intros Q s i se l HI Hc Hnd Hse [Hl Hlen] Hn Hmax;
    pose proof (iv_s32 _ _ _ _ HI _ _ Hse) as H32; unfold is_s32 in H32.
  - destruct l; [|done]. simpl in Hlen.
    unfold semdelete_wake. erewrite while_false; [|unfold scount_postinc; krun; rewrite Hse; krun;
      rewrite (arr_upd_eq _ _ _ _ Hse); krun; rewrite (proj2 (Z.ltb_ge _ _)) by lia; done].
    eexists _, Q. split; [done|]. split; [|done]. rewrite s32_id by (unfold is_s32; lia).
    apply (pre_inv_sem _ _ _ _ se); try done; simpl; [|unfold is_s32; lia|lia].
    intros l0. rewrite Hl. intros [= <-]. simpl. lia.
  - destruct l as [|p l]; [done|]. simpl in Hn, Hlen. injection Hn as Hn.
    set (se' := set_scount (scount se + 1) se).
    assert (HI0 := pre_inv_set_scount _ _ _ _ se (scount se + 1) HI Hse ltac:(unfold is_s32; lia)).
    fold se' in HI0.
    destruct (sem_take_first Q (set_semtab (<[i := se']> (semtab s)) s) i se' p l)
      as (e & qt & qt2 & Q' & Hg & _ & Hrd & HI2 & Hl2 & Hc2); try done.
    { apply lookup_insert_eq. }
    unfold se' in *. unfold semdelete_wake. erewrite while_true; cycle 1.
    { unfold scount_postinc. krun. rewrite Hse. krun. rewrite (arr_upd_eq _ _ _ _ Hse). krun.
      rewrite (proj2 (Z.ltb_lt _ _)) by lia. rewrite s32_id by (unfold is_s32; lia). done. }
    { krun. rewrite lookup_insert_eq. krun. simpl in Hg. rewrite Hg. krun.
      simpl in Hrd. rewrite Hrd. krun. done. }
    edestruct IH as (s' & Q2 & Hrun & HI' & Hc' & Hnd' & Hcp' & Hie');
      [exact HI2|exact Hc2|done|apply lookup_insert_eq|split; [exact Hl2|simpl; lia]|done|simpl; lia|].
    exists s', Q2. split; [exact Hrun|done].
Qed.

Lemma semdelete_ok sem : syscall_pre_ok (sem_room sem 1) (semdelete sem).
Proof.
  intros s HI Hnull Hroom. pose proof (Inv_ie false s HI) as ((Q & HQ) & Hc & Hn).
  unfold semdelete. sem_guard Hbad HQ e He Hst. rewrite (arr_upd_eq _ _ _ _ He). krun.
  rewrite defer_start by done. krun.
  destruct (iv_sq _ _ _ _ HQ _ _ He) as [l Hl].
  pose proof (arr_len_lt _ _ _ _ (iv_st _ _ _ _ HQ) He) as Hr.
  pose proof (iv_scount _ _ _ _ HQ _ _ _ He Hl ltac:(lia)) as Hlen.
  set (s0 := set_attempt false _).
  replace (Z.to_nat (- scount e)) with (length l) by lia.
  destruct (semdelete_loop (length l) Q s0 sem (set_sstate S_FREE e) l)
    as (s1 & Q1 & -> & HI1 & Hc1 & Hnd1 & Hcp1 & Hie1); try done.
  { apply (pre_inv_sem_any _ _ _ (set_attempt false (set_ndefers 1 (set_ie false s))) e); try done;
      [by apply pre_inv_weaken_sem, kinv_defer|]. by apply (iv_s32 _ _ _ _ HQ _ _ He). }
  { apply lookup_insert_eq. } { specialize (Hroom _ He). simpl. lia. }
  krun. apply wp_bind. eapply (defer_stop_back Q1); try done.
  intros s' Hb. krun. by apply (back_after s s1 s').
Qed.

Lemma semreset_loop_run n : ∀ Q s i se l,
  pre_inv (-1) i Q s -> curstate s PR_CURR -> 0 < s.(ndefers) ->
  s.(semtab) !! i = Some se -> Q !! se.(squeue) = Some l -> (length l < n)%nat ->
  ∃ s' Q', semreset_loop n se.(squeue) s = Done tt s' /\ pre_inv (-1) i Q' s' /\
    Q' !! se.(squeue) = Some [] /\ curstate s' PR_CURR /\ s'.(semtab) = s.(semtab) /\
    s'.(ndefers) = s.(ndefers) /\ s'.(currpid) = s.(currpid) /\ s'.(ie) = s.(ie).
Proof.
  induction n as [|n IH]; intros Q s i se l HI Hc Hnd Hse Hl Hn; [lia|].
  simpl. krun. destruct l as [|p l].
  - rewrite (getfirst_nil _ _ (iv_q _ _ _ _ HI) _ _ Hl) by done. krun. exists s, Q. by destruct s.
  - destruct (sem_take_first Q s i se p l HI Hse Hl Hc Hnd)
      as (e & qt & qt2 & Q1 & -> & Hp & Hrd & HI1 & Hl1 & Hc1). krun.
    rewrite (proj2 (Z.eqb_neq p EMPTY)) by (unfold EMPTY; lia).
    rewrite Hrd. krun. simpl in Hn.
    destruct (IH _ _ i se l HI1 Hc1) as (s' & Q' & Hrun & Hr); try done; [lia|].
    exists s', Q'. split; [exact Hrun|exact Hr].
Qed.

Lemma semreset_ok sem count : is_s32 count -> syscall_ok (semreset sem count).
Proof.
  intros H32 s HI Hnull. pose proof (Inv_ie false s HI) as ((Q & HQ) & Hc & Hn).
  unfold semreset. krun. destruct ((count <? 0) || isbadsem sem) eqn:Hbad; krun; [by apply bad_ok|].
  apply orb_false_iff in Hbad as [Hcnt Hbad]. apply Z.ltb_ge in Hcnt.
  destruct (isbadsem_false _ _ _ HQ Hbad) as [e He]. kst_simpl. rewrite He. krun.
  destruct (decide (sstate e = S_FREE)) as [Hst|Hst];
    [rewrite bool_decide_eq_true_2 by done; by apply bad_ok
    |rewrite bool_decide_eq_false_2 by done; krun].
  rewrite defer_start by done. krun.
  destruct (iv_sq _ _ _ _ HQ _ _ He) as [l Hl].
  pose proof (iv_q _ _ _ _ HQ) as HQr.
  pose proof (range_NoDup_length l (qrep_nodup _ _ HQr _ _ Hl) (λ p, qrep_pid _ _ HQr _ _ p Hl)).
  destruct (semreset_loop_run (S (Z.to_nat NPROC)) Q
    (set_attempt false (set_ndefers 1 (set_ie false s))) sem e l)
    as (s1 & Q1 & Hrun & HI1 & Hq1 & Hc1 & Hst1 & Hnd1 & Hcp1 & Hie1); try done.
  { by apply pre_inv_weaken_sem, kinv_defer. } { unfold NPROC. lia. }
  rewrite Hrun. krun. rewrite <- Hst1 in He. rewrite (arr_upd_eq _ _ _ _ He). krun. apply wp_bind.
  eapply (defer_stop_back Q1); try done.
  - apply (pre_inv_sem _ _ _ _ e); try done. intros l1. rewrite Hq1. intros [= <-]. simpl. lia.
  - intros s' Hb. krun. by apply (back_after s (set_semtab (<[sem := set_scount count e]> (semtab s1)) s1) s').
Qed.

Lemma semcount_ok sem : syscall_ok (semcount sem).
Proof.
  intros s HI Hnull. pose proof (Inv_ie false s HI) as ((Q & HQ) & Hc & Hn).
  unfold semcount. sem_guard Hbad HQ e He Hst. by apply bad_ok.
Qed.

Lemma newsem_loop_run n : ∀ Q s,
  kinv Q s -> ∃ i nx st, newsem_loop n s = Done i (set_nextsem nx (set_semtab st s)) /\
    kinv Q (set_nextsem nx (set_semtab st s)) /\
    (i = SYSERR /\ st = s.(semtab) \/
     ∃ e, s.(semtab) !! i = Some e /\ e.(sstate) = S_FREE /\ 0 <= i < NSEM /\
          st = <[i := set_sstate S_USED e]> s.(semtab)).
Proof.
  assert (Hnx : ∀ Q s n, kinv Q s -> 0 <= n < NSEM -> kinv Q (set_nextsem n s)).
  { intros Q s k HI Hk. dinv HI. constructor; try done. kst_simpl. tauto. }
  assert (Hsame : ∀ s, set_semtab (semtab s) s = s) by by intros [].
  induction n as [|n IH]; intros Q s HI.
  - exists SYSERR, (nextsem s), (semtab s). rewrite Hsame. split; [by destruct s|].
    split; [by destruct s|]. by left.
  - pose proof (iv_next _ _ _ _ HI) as [Hr _].
    destruct (arr_len_lookup _ _ _ (iv_st _ _ _ _ HI) Hr) as [e He].
    set (nx := if nextsem s + 1 >=? NSEM then 0 else nextsem s + 1).
    assert (Hnxr : 0 <= nx < NSEM).
    { unfold nx. destruct (nextsem s + 1 >=? NSEM) eqn:E; bool_hyps; unfold NSEM in *; lia. }
    assert (Hstep : newsem_loop (S n) s =
      (if bool_decide (sstate e = S_FREE) then updsem (set_sstate S_USED) (nextsem s);; mret (nextsem s)
       else newsem_loop n) (set_nextsem nx s)).
    { simpl. krun. unfold nx. destruct (nextsem s + 1 >=? NSEM); krun; rewrite He; krun; done. }
    rewrite Hstep. destruct (decide (sstate e = S_FREE)) as [Hst|Hst].
    + rewrite bool_decide_eq_true_2 by done. krun. rewrite (arr_upd_eq _ _ _ _ He). krun.
      eexists _, nx, _. split; [done|]. split; [|right; exists e; done].
      apply (Hnx _ (set_semtab _ s)); [|done]. by apply kinv_used.
    + rewrite bool_decide_eq_false_2 by done.
      destruct (IH Q (set_nextsem nx s)) as (i & nx' & st & Hrun & HI' & Hi); [by apply Hnx|].
      exists i, nx', st. done.
Qed.

Lemma semcreate_ok count : is_s32 count -> syscall_ok (semcreate count).
Proof.
  intros H32 s HI Hnull. pose proof (Inv_ie false s HI) as ((Q & HQ) & Hc & Hn).
  unfold semcreate. krun. destruct (count <? 0) eqn:Hcnt; krun; [by apply bad_ok|].
  apply Z.ltb_ge in Hcnt.
  destruct (newsem_loop_run (Z.to_nat NSEM) Q _ HQ) as (i & nx & st & Hrun & HI1 & Hi).
  unfold newsem. rewrite Hrun. krun. destruct (i =? SYSERR) eqn:Ei; krun.
  - apply (back_restore s (set_nextsem nx (set_semtab st (set_ie false s))) HI).
    split; [|done]. by apply (Inv_intro Q).
  - destruct Hi as [[-> _]|(e & He & Hst & Hir & ->)]; [done|].
    rewrite (arr_upd_eq _ i _ (set_sstate S_USED e)) by apply lookup_insert_eq. krun.
    set (s1 := set_nextsem nx (set_semtab (<[i:=set_sstate S_USED e]> (semtab s)) (set_ie false s))) in *.
    apply (back_restore s (set_semtab (<[i := set_scount count (set_sstate S_USED e)]> (semtab s1)) s1) HI).
    split; [|done]. apply (Inv_intro Q); [|done|done].
    apply kinv_scount; try done; [by apply lookup_insert_eq|]. simpl.
    apply (iv_free _ _ _ _ HQ _ _ He); [unfold NSEM in *; lia|done].
Qed.

(** The current process goes to wait on semaphore [i]. *)
Lemma wait_enqueue Q s i se e :
  kinv Q s -> s.(currpid) ≠ NULLPROC -> s.(semtab) !! i = Some se -> se.(scount) <= 0 ->
  se.(sstate) ≠ S_FREE ->
  s.(proctab) !! s.(currpid) = Some e -> e.(prstate) = PR_CURR ->
  let st := <[i := set_scount (se.(scount) - 1) se]> s.(semtab) in
  let pt := <[s.(currpid) := set_prsem i (set_prstate PR_WAIT e)]> s.(proctab) in
  ∃ qt Q', enqueue pt s.(currpid) se.(squeue) s.(queuetab) = Some (s.(currpid), qt) /\
    kinv Q' (set_queuetab qt (set_proctab pt (set_semtab st s))) /\
    ∃ l, Q !! se.(squeue) = Some l /\ Q' !! se.(squeue) = Some (l ++ [s.(currpid)]).
Proof.
  intros HI Hnull Hse Hneg Hused He Hcur st pt.
  pose proof (arr_len_lt _ _ _ _ (iv_st _ _ _ _ HI) Hse) as Hir.
  pose proof (iv_currpid _ _ _ _ HI) as Hr.
  pose proof (sem_count_range _ _ _ _ HI Hse) as Hlow.
  destruct (iv_sq _ _ _ _ HI _ _ Hse) as [l Hl].
  pose proof (iv_scount _ _ _ _ HI _ _ _ Hse Hl ltac:(lia)) as Hlen.
  set (e' := set_prsem i (set_prstate PR_WAIT e)).
  assert (HI1 : pre_inv (currpid s) i Q (set_proctab pt s)).
  { apply (pre_inv_upd (-1) i Q s (currpid s) e e'); try done.
    - by apply pre_inv_weaken_sem.
    - right. split; [done|]. unfold where_is. by rewrite Hcur.
    - apply (iv_prio _ _ _ _ HI _ _ He).
    - intros ?. by apply (iv_stk _ _ _ _ HI _ _ He). }
  assert (Hoff : off_queues Q (currpid s)).
  { eapply iv_off; [exact HI|exact He|]. right. unfold where_is. by rewrite Hcur. }
  destruct (enqueue_spec pt _ _ (iv_q _ _ _ _ HI) _ _ Hl (currpid s)) as (qt & Henq & HQ' & Hky).
  { apply isbadpid_false. split; [done|]. exists e'. split; [apply lookup_insert_eq|done]. }
  { done. }
  exists qt, (<[squeue se := l ++ [currpid s]]> Q). split; [done|].
  split; [|exists l; split; [done|apply lookup_insert_eq]].
  destruct (iv_rlsq _ _ _ _ HI _ _ Hse) as [Hsr Hss].
  apply (pre_inv_sem (-1) i _ (set_queuetab qt (set_proctab pt s)) se); try done.
  - eapply (pre_inv_join (currpid s) i Q (set_proctab pt s) e'); try done.
    + simpl. apply lookup_insert_eq.
    + unfold where_is. simpl. by rewrite Hse.
    + intros z. rewrite elem_of_app, elem_of_cons. split; [intros [?|[?|Hz]]; [tauto|tauto|]|tauto].
      by apply not_elem_of_nil in Hz.
    + intros j ej Hj Hq. eapply iv_sqinj; [exact HI|exact Hj|exact Hse|exact Hq].
    + intros l0. simpl. rewrite lookup_insert_ne by done. intros Hl0.
      eapply desc_ext; [|by apply (iv_desc _ _ _ _ HI)]. intros z _. unfold keyof. by rewrite Hky.
  - intros l0. rewrite lookup_insert_eq. intros [= <-]. rewrite length_app. simpl. lia.
  - simpl. unfold is_s32. lia.
Qed.

Lemma wait_ok sem : syscall_ok (wait sem).
Proof.
  intros s HI Hnull. pose proof (Inv_ie false s HI) as ((Q & HQ) & Hc & Hn).
  unfold wait. sem_guard Hbad HQ se Hse Hst. rewrite (arr_upd_eq _ _ _ _ Hse). krun.
  pose proof (sem_count_range _ _ _ _ HQ Hse) as Hlow.
  pose proof (iv_s32 _ _ _ _ HQ _ _ Hse) as H32. unfold is_s32 in H32.
  rewrite s32_id by (unfold is_s32; lia).
  destruct (scount se - 1 <? 0) eqn:Hneg; krun.
  - apply Z.ltb_lt in Hneg. destruct Hc as (e & He & Hcur). kst_simpl.
    rewrite (arr_upd_eq _ _ _ _ He). krun.
    rewrite (arr_upd_eq _ _ _ (set_prstate PR_WAIT e)) by apply lookup_insert_eq. krun.
    rewrite insert_insert_eq.
    destruct (wait_enqueue Q (set_ie false s) sem se e) as (qt & Q' & Henq & HI' & _); try done; [lia|].
    kst_simpl. rewrite Henq. krun. apply wp_bind. eapply resched_back; [exact HI'|done|done|].
    intros s' Hb. krun. by apply back_restore.
  - apply Z.ltb_ge in Hneg.
    apply (back_restore s (set_semtab (<[sem := set_scount (scount se - 1) se]> (semtab s)) (set_ie false s)) HI).
    split; [|done]. apply (Inv_intro Q); [|done|done].
    apply (kinv_scount Q (set_ie false s)); try done; [lia|unfold is_s32; lia].
Qed.
(** * Semaphores are first come, first served *)

Definition scount_of (s : kst) (i : Z) : Z :=
  match s.(semtab) !! i with Some se => se.(scount) | None => 0 end.

(** Restoring the mask at the end does not change where a computation first
    stops, but for the mask. *)
Lemma outcome_restore {A} (m : K A) (mask : bool) (v : Z) s s1 (P : kst -> Prop) :
  outcome (m s) = Some s1 -> P s1 -> P (set_ie mask s1) ->
  ∃ s2, outcome ((m;; restore mask;; mret v) s) = Some s2 /\ P s2.
Proof.
  intros Ho H1 H2. unfold mbind, K_bind. destruct (m s) as [a s'|old s' k| |]; simpl in *; try done.
  - injection Ho as ->. eauto.
  - injection Ho as ->. eauto.
Qed.

Lemma sem_open s i se :
  arr_len NSEM s.(semtab) -> s.(semtab) !! i = Some se -> isbadsem i = false.
Proof.
  intros Hlen Hi. pose proof (arr_len_lt _ _ _ _ Hlen Hi). unfold isbadsem.
  rewrite Z.geb_leb. apply orb_false_iff. split; [apply Z.ltb_ge|apply Z.leb_gt]; lia.
Qed.

Lemma sem_insert_count (st : stab) i se c :
  match <[i := set_scount c se]> st !! i with Some e => e.(scount) | None => 0 end = c.
Proof. by rewrite lookup_insert_eq. Qed.

(** The current process, its state no longer PR_CURR, gives up the processor. *)
Lemma block_current Q s e : kinv Q s -> s.(ndefers) = 0 -> s.(proctab) !! s.(currpid) = Some e -> e.(prstate) ≠ PR_CURR ->
  e.(prstate) ≠ PR_READY ->
  ∃ s', outcome (resched s) = Some s' /\ Inv s' /\ s'.(currpid) ≠ s.(currpid) /\
    s'.(proctab) !! s.(currpid) = Some e /\ s'.(semtab) = s.(semtab) /\
    (∀ q l, blocking s q -> queue_list s.(queuetab) q = Some l -> queue_list s'.(queuetab) q = Some l).
Proof.
  intros HQ Hn He Hc Hr.
  assert (Hno : ∀ p e, s.(proctab) !! p = Some e -> e.(prstate) ≠ PR_CURR).
  { intros p e0 Hp Hc0. pose proof (iv_curr _ _ _ _ HQ _ _ Hp Hc0) as ->. congruence. }
  assert (Hrs : resched s = dispatch (currpid s) s).
  { unfold resched. krun. rewrite Hn. simpl. krun. rewrite He. krun. by rewrite bool_decide_eq_false_2. }
  destruct (dispatch_blocked Q s (currpid s) HQ Hn Hno) as (s2 & Hd & (HI2 & Hsl2 & Hst2 & Hq2 & _) & Hpt2).
  assert (He2 : s2.(proctab) !! s.(currpid) = Some e).
  { rewrite Hpt2; [done|]. unfold in_state. rewrite He. by apply bool_decide_eq_false_2. }
  exists s2. rewrite Hrs, Hd. split; [done|]. split; [done|].
  split; [|split; [done|split; [done|intros q l Hb Hl; by apply Hq2]]].
  intros Heq. destruct HI2 as (_ & (e2 & H2 & Hs2) & _). rewrite Heq in H2. congruence.
Qed.

(** A semaphore that does not make anybody wait: straight-line code. *)
Lemma wait_free s i se :
  s.(semtab) !! i = Some se -> isbadsem i = false -> se.(sstate) = S_USED ->
  0 < se.(scount) < 2147483648 ->
  wait i s = Done OK (set_semtab (<[i := set_scount (se.(scount) - 1) se]> s.(semtab)) s).
Proof.
  intros Hi Hb Hu Hc. unfold wait. krun. rewrite Hb. krun. rewrite Hi. krun.
  rewrite bool_decide_eq_false_2 by congruence. krun. rewrite (arr_upd_eq _ _ _ _ Hi). krun.
  rewrite s32_id by (unfold is_s32; lia). rewrite (proj2 (Z.ltb_ge (scount se - 1) 0)) by lia. by destruct s.
Qed.

Lemma signal_free s i se :
  s.(semtab) !! i = Some se -> isbadsem i = false -> se.(sstate) = S_USED ->
  0 <= se.(scount) < 2147483647 ->
  signal i s = Done OK (set_semtab (<[i := set_scount (se.(scount) + 1) se]> s.(semtab)) s).
Proof.
  intros Hi Hb Hu Hc. unfold signal. krun. rewrite Hb. krun. rewrite Hi. krun.
  rewrite bool_decide_eq_false_2 by congruence. krun. unfold signal_one, scount_postinc. krun.
  rewrite Hi. krun. rewrite (arr_upd_eq _ _ _ _ Hi). krun.
  rewrite s32_id by (unfold is_s32; lia). rewrite (proj2 (Z.ltb_ge (scount se) 0)) by lia. krun. by destruct s.
Qed.

(** wait when there is nothing to take. *)
Lemma wait_blocks s i se l :
  Inv s -> s.(currpid) ≠ NULLPROC -> s.(semtab) !! i = Some se -> se.(sstate) = S_USED ->
  queue_list s.(queuetab) se.(squeue) = Some l -> se.(scount) <= 0 ->
  ∃ s', outcome (wait i s) = Some s' /\ Inv s' /\ scount_of s' i = se.(scount) - 1 /\
    s'.(currpid) ≠ s.(currpid) /\ waits_on s' i s.(currpid) = true /\
    queue_list s'.(queuetab) se.(squeue) = Some (l ++ [s.(currpid)]).
Proof.
  intros HI Hnull Hse Hused Hl Hpos. pose proof (Inv_ie false s HI) as ((Q & HQ) & (e & He & Hcur) & Hn).
  pose proof (sem_count_range _ _ _ _ HQ Hse) as Hlow. kst_simpl.
  destruct (iv_sq _ _ _ _ HQ _ _ Hse) as [l' Hl']. kst_simpl.
  pose proof (queue_list_inv _ _ _ _ _ (iv_q _ _ _ _ HQ) Hl' Hl) as <-.
  unfold wait. krun. rewrite (sem_open s i se) by (done || apply HQ). krun. rewrite Hse. krun.
  rewrite bool_decide_eq_false_2 by congruence. krun. rewrite (arr_upd_eq _ _ _ _ Hse). krun.
  rewrite s32_id by (unfold is_s32; lia). rewrite (proj2 (Z.ltb_lt (scount se - 1) 0)) by lia. krun.
  rewrite (arr_upd_eq _ _ _ _ He). krun.
  rewrite (arr_upd_eq _ _ _ (set_prstate PR_WAIT e)) by apply lookup_insert_eq. krun. rewrite insert_insert_eq.
  destruct (wait_enqueue Q (set_ie false s) i se e) as (qt & Q' & Henq & HI' & l0 & Hl0 & HQ');
    try done; [congruence|]. kst_simpl. rewrite Henq. krun.
  set (s1 := set_queuetab qt _) in *. replace l0 with l in * by congruence.
  assert (Hw : proctab s1 !! currpid s = Some (set_prsem i (set_prstate PR_WAIT e))) by apply lookup_insert_eq.
  destruct (block_current Q' s1 _ HI' Hn Hw ltac:(done) ltac:(done)) as (s2 & Hd & HI2 & Hne & Hpt2 & Hst2 & Hq2).
  assert (Hwo : waits_on s2 i (currpid s) = true).
  { unfold waits_on. change (currpid s1) with (currpid s) in Hpt2. rewrite Hpt2. simpl. apply Z.eqb_refl. }
  assert (Hql : queue_list (queuetab s2) (squeue se) = Some (l ++ [currpid s])).
  { apply Hq2; [|by eapply queue_list_qrep; [apply HI'|]].
    right. exists i, (set_scount (scount se - 1) se). split; [apply lookup_insert_eq|done]. }
  assert (HP : ∀ s', s'.(semtab) = s1.(semtab) -> scount_of s' i = scount se - 1).
  { intros s' Hs'. unfold scount_of. rewrite Hs'. apply sem_insert_count. }
  apply (outcome_restore resched s.(ie) OK s1 s2 (λ s', Inv s' /\ scount_of s' i = scount se - 1 /\
    currpid s' ≠ currpid s /\ waits_on s' i (currpid s) = true /\
    queue_list (queuetab s') (squeue se) = Some (l ++ [currpid s]))); [done|by auto|].
  split; [by apply Inv_ie|]. by rewrite HP.
Qed.

(** C15: wait takes one from the count.  When the count was positive the caller
    goes on; otherwise the caller becomes the last of the processes that wait
    for the semaphore, behind all those that came before it, and another process
    has the processor. *)
Theorem wait_queues_the_caller_last s i se l :
  Inv s -> s.(currpid) ≠ NULLPROC -> s.(semtab) !! i = Some se -> se.(sstate) = S_USED ->
  queue_list s.(queuetab) se.(squeue) = Some l ->
  ∃ s', outcome (wait i s) = Some s' /\ Inv s' /\ scount_of s' i = s32 (se.(scount) - 1) /\
    if 0 <? se.(scount)
    then wait i s = Done OK s' /\ s'.(currpid) = s.(currpid) /\
         queue_list s'.(queuetab) se.(squeue) = Some l
    else s'.(currpid) ≠ s.(currpid) /\ waits_on s' i s.(currpid) = true /\
         queue_list s'.(queuetab) se.(squeue) = Some (l ++ [s.(currpid)]).
Proof.
  intros HI Hnull Hse Hused Hl. pose proof (Inv_ie false s HI) as ((Q & HQ) & Hc & Hn).
  pose proof (sem_count_range _ _ _ _ HQ Hse) as Hlow.
  pose proof (iv_s32 _ _ _ _ HQ _ _ Hse) as H32. unfold is_s32 in H32. rewrite s32_id by (unfold is_s32; lia).
  destruct (0 <? scount se) eqn:Hpos; bool_hyps.
  - eexists. rewrite (wait_free s i se); [|done|by eapply sem_open; [apply HQ|]|done|lia]. split; [reflexivity|].
    assert (HI2 : Inv (set_semtab (<[i:=set_scount (scount se - 1) se]> (semtab s)) (set_ie false s))).
    { apply (Inv_intro Q); [|done|done]. apply (kinv_scount Q (set_ie false s) i se); [exact HQ|done|lia..|unfold is_s32; lia]. }
    split; [pose proof (Inv_ie s.(ie) _ HI2) as H; by destruct s|]. split; [apply sem_insert_count|done].
  - by apply wait_blocks.
Qed.

(** signal when processes wait. *)
Lemma signal_wakes s i se l :
  Inv s -> s.(semtab) !! i = Some se -> se.(sstate) = S_USED -> se.(scount) < 0 ->
  queue_list s.(queuetab) se.(squeue) = Some l ->
  ∃ s' p l', outcome (signal i s) = Some s' /\ Inv s' /\ scount_of s' i = se.(scount) + 1 /\ l = p :: l' /\
    waits_on s i p = true /\ runnable s' p = true /\ queue_list s'.(queuetab) se.(squeue) = Some l'.
Proof.
  intros HI Hse Hused Hneg Hl. pose proof (Inv_ie false s HI) as ((Q & HQ) & Hc & Hn).
  pose proof (sem_count_range _ _ _ _ HQ Hse) as Hlow.
  destruct (iv_sq _ _ _ _ HQ _ _ Hse) as [l' Hl']. kst_simpl.
  pose proof (queue_list_inv _ _ _ _ _ (iv_q _ _ _ _ HQ) Hl' Hl) as <-.
  unfold signal. krun. rewrite (sem_open s i se) by (done || apply HQ). krun. rewrite Hse. krun.
  rewrite bool_decide_eq_false_2 by congruence. krun.
  unfold signal_one, scount_postinc. krun. rewrite Hse. krun. rewrite (arr_upd_eq _ _ _ _ Hse). krun.
  rewrite s32_id by (unfold is_s32; lia). rewrite (proj2 (Z.ltb_lt _ _) Hneg). krun.
  rewrite lookup_insert_eq. krun.
  destruct (sem_release dequeue Q (set_ie false s) i se takes_first_dequeue HQ Hse Hneg)
    as (_ & p & e & l1 & qt & Hl1 & Hqt & He & Hw & Hps & _ & HI1). kst_simpl.
  rewrite Hl' in Hl1. injection Hl1 as ->. rewrite Hqt. krun.
  destruct (ready_run p (-1) _ _ e HI1 He) as (qt2 & l2 & _ & Hrd & _ & HI2); [congruence|].
  set (s1 := made_ready p e qt2 _) in *.
  assert (HI3 : Inv s1).
  { apply (Inv_intro _ _ HI2); [|done]. apply (curstate_other s); [by eapply waiting_not_current|done]. }
  destruct (resched_blocked s1 HI3) as (s2 & Ho & (HI4 & _ & Hst2 & Hq2 & Hr2 & _) & _).
  assert (Hql : queue_list (queuetab s2) (squeue se) = Some l1).
  { apply Hq2.
    - right. exists i, (set_scount (scount se + 1) se). split; [apply lookup_insert_eq|done].
    - eapply queue_list_qrep; [apply HI2|]. rewrite lookup_insert_ne; [apply lookup_insert_eq|].
      destruct (iv_rlsq _ _ _ _ HQ _ _ Hse). done. }
  assert (Hrun : runnable s2 p = true).
  { apply Hr2. unfold runnable, in_state, s1, made_ready. kst_simpl. by rewrite lookup_insert_eq. }
  assert (Hwo : waits_on s i p = true) by (unfold waits_on; rewrite He, Hw, Hps; apply Z.eqb_refl).
  assert (HP : scount_of s2 i = scount se + 1) by (unfold scount_of; rewrite Hst2; apply sem_insert_count).
  rewrite Hrd. unfold mbind, K_bind. destruct (resched s1) as [[] s'|old s' k| |]; simpl in Ho |- *; try done;
    injection Ho as ->; eexists _, p, l1; (split; [reflexivity|]);
    (split; [first [done|by apply Inv_ie]|]); by repeat split.
Qed.

(** C16: signal adds one to the count.  When no process waits nothing else
    changes; otherwise the process that has waited longest can run, and the
    others keep their places. *)
Theorem signal_releases_the_first_waiter s i se l :
  Inv s -> s.(semtab) !! i = Some se -> se.(sstate) = S_USED -> se.(scount) < 2147483647 ->
  queue_list s.(queuetab) se.(squeue) = Some l ->
  ∃ s', outcome (signal i s) = Some s' /\ Inv s' /\ scount_of s' i = se.(scount) + 1 /\
    match l with
    | [] => signal i s = Done OK s' /\ s'.(proctab) = s.(proctab)
    | p :: l' => waits_on s i p = true /\ runnable s' p = true /\
                 queue_list s'.(queuetab) se.(squeue) = Some l'
    end.
Proof.
  intros HI Hse Hused Hmax Hl. pose proof (Inv_ie false s HI) as ((Q & HQ) & Hc & Hn).
  destruct (iv_sq _ _ _ _ HQ _ _ Hse) as [l' Hl']. kst_simpl.
  pose proof (queue_list_inv _ _ _ _ _ (iv_q _ _ _ _ HQ) Hl' Hl) as <-.
  pose proof (iv_scount _ _ _ _ HQ i se l Hse Hl') as Hlen.
  pose proof (arr_len_lt _ _ _ _ (iv_st _ _ _ _ HQ) Hse) as Hi.
  destruct (Z.ltb_spec (scount se) 0) as [Hneg|Hneg].
  - destruct (signal_wakes s i se l) as (s' & p & l1 & Ho & HI' & Hcnt & -> & Hrest); [done..|]. by exists s'.
  - destruct l as [|p l]; [|simpl in Hlen; lia].
    eexists. rewrite (signal_free s i se); [|done|by eapply sem_open; [apply HQ|]|done|lia]. split; [reflexivity|].
    split; [|split; [apply sem_insert_count|done]].
    assert (HI2 : Inv (set_semtab (<[i:=set_scount (scount se + 1) se]> (semtab s)) (set_ie false s))).
    { apply (Inv_intro Q); [|done|done]. apply (kinv_scount Q (set_ie false s) i se); [exact HQ|done|lia..|unfold is_s32; lia]. }
    pose proof (Inv_ie s.(ie) _ HI2) as H. by destruct s.
Qed.

(** semcreate when the next entry is free. *)
Lemma newsem_loop_first n s se :
  s.(semtab) !! s.(nextsem) = Some se -> se.(sstate) = S_FREE ->
  newsem_loop (S n) s = Done s.(nextsem)
    (set_semtab (<[s.(nextsem) := set_sstate S_USED se]> s.(semtab))
       (set_nextsem (if s.(nextsem) + 1 >=? NSEM then 0 else s.(nextsem) + 1) s)).
Proof.
  intros Hi Hf. simpl. krun. destruct (nextsem s + 1 >=? NSEM); krun; rewrite Hi; krun;
    rewrite bool_decide_eq_true_2 by done; krun; by rewrite (arr_upd_eq _ _ _ _ Hi).
Qed.

Lemma semcreate_run s se count :
  s.(semtab) !! s.(nextsem) = Some se -> se.(sstate) = S_FREE -> 0 <= s.(nextsem) -> 0 <= count ->
  semcreate count s = Done s.(nextsem)
    (set_semtab (<[s.(nextsem) := Sentry S_USED count se.(squeue)]> s.(semtab))
       (set_nextsem (if s.(nextsem) + 1 >=? NSEM then 0 else s.(nextsem) + 1) s)).
Proof.
  intros Hi Hf Hn Hc. unfold semcreate. krun. rewrite (proj2 (Z.ltb_ge count 0)) by lia. krun.
  unfold newsem. change (Z.to_nat NSEM) with (S 99).
  pose proof (newsem_loop_first 99 (set_ie false s) se Hi Hf) as Hrun. set (f := newsem_loop (S 99)) in *.
  clearbody f. kst_simpl. rewrite Hrun. krun. unfold SYSERR. rewrite (proj2 (Z.eqb_neq (nextsem s) (-1))) by lia. krun.
  rewrite (arr_upd_eq _ _ _ (set_sstate S_USED se)) by (apply lookup_insert_eq). krun.
  rewrite insert_insert_eq. by destruct s.
Qed.

(** * Semaphores that nobody waits for *)

(** The count of semaphore [i] is [c]. *)
Definition sem_is (s : kst) (i c : Z) : Prop :=
  isbadsem i = false /\ ∃ se, s.(semtab) !! i = Some se /\ se.(sstate) = S_USED /\ se.(scount) = c.

(** [s] with the count of semaphore [i] set to [c]. *)
Definition set_count (i c : Z) (s : kst) : kst :=
  match s.(semtab) !! i with
  | Some se => set_semtab (<[i := set_scount c se]> s.(semtab)) s
  | None => s
  end.

Lemma set_count_is i c c' s : sem_is s i c -> sem_is (set_count i c' s) i c'.
Proof.
  intros (Hb & se & Hi & Hu & <-). split; [done|]. unfold set_count. rewrite Hi. eexists.
  cbn [semtab set_semtab]. split; [apply lookup_insert_eq|]. by split.
Qed.

Lemma set_count_other i j c c' s : sem_is s j c -> j ≠ i -> sem_is (set_count i c' s) j c.
Proof.
  intros (Hb & se & Hi & Hu) Hne. split; [done|]. unfold set_count. destruct (semtab s !! i); [|eauto].
  exists se. cbn [semtab set_semtab]. rewrite lookup_insert_ne by congruence. done.
Qed.

Lemma set_count_ndefers i c s : (set_count i c s).(ndefers) = s.(ndefers).
Proof. unfold set_count. by destruct (semtab s !! i). Qed.

Lemma semcount_is i c s : sem_is s i c -> semcount i s = Done c s.
Proof.
  intros (Hb & se & Hi & Hu & <-). unfold semcount. krun. rewrite Hb. krun. rewrite Hi. krun.
  rewrite bool_decide_eq_false_2 by congruence. krun. by destruct s.
Qed.

Lemma wait_is i c s : sem_is s i c -> 0 < c < 2147483648 -> wait i s = Done OK (set_count i (c - 1) s).
Proof.
  intros (Hb & se & Hi & Hu & <-) Hc. rewrite (wait_free s i se) by done. unfold set_count. by rewrite Hi.
Qed.

Lemma signal_is i c s : sem_is s i c -> 0 <= c < 2147483647 -> signal i s = Done OK (set_count i (c + 1) s).
Proof.
  intros (Hb & se & Hi & Hu & <-) Hc. rewrite (signal_free s i se) by done. unfold set_count. by rewrite Hi.
Qed.
