(* ===== verification/Msg.v ===== *)
(** Messages between processes: system/send.c, receive.c, recvclr.c,
    recvtime.c; and the removal of a process from the sleep queue,
    system/unsleep.c, on which send relies. *)

From S2P Require Import Prelude Types Queue Memory Kernel Sched Observe.

(** * The operations *)

(** [pidnext = queuetab[pid].qnext; if (pidnext < NPROC)
    queuetab[pidnext].qkey += queuetab[pid].qkey;] *)
Definition unsleep_fix (pid : Z) (qt : qtab) : option (unit * qtab) :=
  e ← qt !! pid;
  let pidnext := e.(qnext) in
  if pidnext <? NPROC then
    qt ← arr_upd (λ n, set_qkey (s32 (n.(qkey) + e.(qkey))) n) pidnext qt;
    Some (tt, qt)
  else Some (tt, qt).

(** system/unsleep.c: unsleep *)
Definition unsleep (pid : Z) : K Z :=
  mask ← disable;
  bad ← badpid pid;
  if (bad : bool) then restore mask;; mret SYSERR
  else
    prptr ← getproc pid;
    if bool_decide (prptr.(prstate) ≠ PR_SLEEP) && bool_decide (prptr.(prstate) ≠ PR_RECTIM)
    then restore mask;; mret SYSERR
    else
      qop (unsleep_fix pid);;
      qop (getitem pid);;
      restore mask;;
      mret OK.

(** system/send.c: send *)
Definition send (pid msg : Z) : K Z :=
  mask ← disable;
  bad ← badpid pid;
  if (bad : bool) then restore mask;; mret SYSERR
  else
    prptr ← getproc pid;
    if prptr.(prhasmsg) then restore mask;; mret SYSERR
    else
      updproc (set_prmsg msg) pid;;
      updproc (set_prhasmsg true) pid;;
      prptr ← getproc pid;
      (if bool_decide (prptr.(prstate) = PR_RECV) then ready pid;; mret tt
       else if bool_decide (prptr.(prstate) = PR_RECTIM) then unsleep pid;; ready pid;; mret tt
       else mret tt);;
      restore mask;;
      mret OK.

(** system/receive.c: receive *)
Definition receive : K Z :=
  mask ← disable;
  me ← gets currpid;
  prptr ← getproc me;
  (if negb prptr.(prhasmsg) then
     updproc (set_prstate PR_RECV) me;;
     resched
   else mret tt);;
  prptr ← getproc me;
  let msg := prptr.(prmsg) in
  updproc (set_prhasmsg false) me;;
  restore mask;;
  mret msg.

(** system/recvclr.c: recvclr *)
Definition recvclr : K Z :=
  mask ← disable;
  me ← gets currpid;
  prptr ← getproc me;
  msg ← (if prptr.(prhasmsg) then
           updproc (set_prhasmsg false) me;;
           mret prptr.(prmsg)
         else mret OK);
  restore mask;;
  mret msg.

(** system/recvtime.c: recvtime; [umsg32] is unsigned, so the error values
    are returned as their 32-bit patterns. *)
Definition recvtime (maxwait : Z) : K Z :=
  if maxwait <? 0 then mret (u32 SYSERR)
  else
    mask ← disable;
    me ← gets currpid;
    prptr ← getproc me;
    err ← (if negb prptr.(prhasmsg) then
             pt ← gets proctab;
             sq ← gets sleepq;
             r ← qop (insertd pt me sq maxwait);
             if r =? SYSERR then mret true
             else
               updproc (set_prstate PR_RECTIM) me;;
               resched;;
               mret false
           else mret false);
    if (err : bool) then restore mask;; mret (u32 SYSERR)
    else
      prptr ← getproc me;
      msg ← (if prptr.(prhasmsg) then
               updproc (set_prhasmsg false) me;;
               mret prptr.(prmsg)
             else mret (u32 TIMEOUT));
      restore mask;;
      mret msg.

Lemma qrep_rekey qt qt' Q :
  qrep qt Q -> arr_len NQENT qt' -> (∀ i, nx qt' i = nx qt i) -> (∀ i, pv qt' i = pv qt i) ->
  (∀ i, NPROC <= i -> ky qt' i = ky qt i) -> qrep qt' Q.
Proof.
  intros HQ Hlen Hn Hp Hk. destruct HQ as [_ Hid Hseg Htail Hpid Hnd Hdisj].
  constructor; try done.
  - intros q l Hl. eapply dseg_frame; [by apply Hseg|intros; apply Hn|intros; apply Hp].
  - intros q l Hl. rewrite Hk; [by eapply Htail|]. destruct (Hid _ _ Hl). lia.
Qed.

(** * unsleep *)

Lemma pre_inv_rekey x y Q s qt :
  pre_inv x y Q s -> qrep qt Q ->
  (∀ l p, Q !! s.(readylist) = Some l -> p ∈ l -> keyof qt p = keyof s.(queuetab) p) ->
  pre_inv x y Q (set_queuetab qt s).
Proof.
  intros HI HQ Hk. dinv HI. constructor; try done. kst_simpl. intros l Hl.
  eapply desc_ext; [|by apply Jdesc]. intros z Hz. symmetry. by eapply Hk.
Qed.

Lemma where_sleep s e : e.(prstate) = PR_SLEEP \/ e.(prstate) = PR_RECTIM ->
  where_is s e = Some s.(sleepq).
Proof. unfold where_is. by intros [-> | ->]. Qed.

(** What unsleep does to the sleep queue [l1 ++ pid :: l2]. *)
Lemma unsleep_spec qt Q q l1 pid l2 :
  qrep qt Q -> Q !! q = Some (l1 ++ pid :: l2) ->
  ∃ qt1 qt2, unsleep_fix pid qt = Some (tt, qt1) /\ getitem pid qt1 = Some (pid, qt2) /\
    qrep qt1 Q /\ qrep qt2 (<[q := l1 ++ l2]> Q) /\ (∀ i, ky qt2 i = ky qt1 i) /\
    ∀ i, ky qt1 i = if decide (head l2 = Some i) then (λ k, s32 (k + keyof qt pid)) <$> ky qt i
                    else ky qt i.
Proof.
  intros HQ Hl.
  assert (Hpr : 0 <= pid < NPROC) by (apply (qrep_pid _ _ HQ _ _ pid Hl); set_solver).
  destruct (qrep_lookup _ _ HQ pid) as [e He]; [unfold NQENT, NPROC, NSEM in *; lia|].
  assert (Hnx : qnext e = hd (q + 1) l2).
  { pose proof (qrep_seg _ _ HQ _ _ Hl) as Hseg. apply dseg_app in Hseg as [_ Hseg].
    apply dseg_first in Hseg. rewrite (nx_Some _ _ _ He) in Hseg. by injection Hseg. }
  unfold unsleep_fix. rewrite He. simpl. rewrite Hnx. rewrite (keyof_ky _ _ _ He).
  destruct (qrep_id _ _ HQ _ _ Hl) as (Hq1 & Hq2 & _).
  assert (Hex : ∃ qt1, (if hd (q + 1) l2 <? NPROC then
      qt' ← arr_upd (λ n, set_qkey (s32 (qkey n + keyof qt pid)) n) (hd (q + 1) l2) qt; Some ((), qt')
      else Some ((), qt)) = Some (tt, qt1) /\ qrep qt1 Q /\
      ∀ i, ky qt1 i = if decide (head l2 = Some i) then (λ k, s32 (k + keyof qt pid)) <$> ky qt i
                      else ky qt i).
  { destruct l2 as [|z l2]; simpl.
    - rewrite (proj2 (Z.ltb_ge _ _)) by lia. exists qt. done.
    - assert (Hz : 0 <= z < NPROC) by (apply (qrep_pid _ _ HQ _ _ z Hl); set_solver).
      rewrite (proj2 (Z.ltb_lt _ _)) by lia.
      destruct (upd_qkeyf_spec (λ k, s32 (k + keyof qt pid)) qt z) as (qt1 & Hu & Hlen & Hn & Hp & Hk).
      { apply (qrep_len _ _ HQ). } { unfold NQENT, NPROC, NSEM in *; lia. }
      rewrite Hu. exists qt1. split; [done|]. split.
      + apply (qrep_rekey qt); try done. intros i Hi. rewrite Hk. rewrite decide_False; [done|lia].
      + intros i. rewrite Hk. destruct (decide (i = z)) as [->|Hne].
        * by rewrite decide_True.
        * rewrite decide_False; [done|]. congruence. }
  destruct Hex as (qt1 & -> & HQ1 & Hk1).
  destruct (getitem_spec _ _ HQ1 _ _ Hl l1 pid l2 eq_refl) as (qt2 & Hg & HQ2 & Hk2).
  exists qt1, qt2. done.
Qed.

(** unsleep, in the middle of another call: it takes the process off the sleep
    queue. *)
Lemma unsleep_eval s p e qt1 qt2 :
  s.(proctab) !! p = Some e -> 0 <= p < NPROC -> e.(prstate) = PR_SLEEP \/ e.(prstate) = PR_RECTIM ->
  unsleep_fix p s.(queuetab) = Some (tt, qt1) -> getitem p qt1 = Some (p, qt2) ->
  unsleep p s = Done OK (set_queuetab qt2 s).
Proof.
  intros Hp Hr Hst Hfix Hg. unfold unsleep. krun.
  assert (isbadpid (proctab s) p = false) as ->.
  { apply isbadpid_false. split; [done|]. exists e. split; [done|]. destruct Hst; congruence. }
  krun. rewrite Hp. krun.
  assert (bool_decide (prstate e ≠ PR_SLEEP) && bool_decide (prstate e ≠ PR_RECTIM) = false) as ->.
  { by destruct Hst as [-> | ->]. }
  krun. rewrite Hfix. krun. rewrite Hg. krun. by destruct s.
Qed.

Lemma unsleep_run Q s p e :
  kinv Q s -> s.(proctab) !! p = Some e -> e.(prstate) = PR_SLEEP \/ e.(prstate) = PR_RECTIM ->
  ∃ qt Q', unsleep p s = Done OK (set_queuetab qt s) /\ pre_inv p (-1) Q' (set_queuetab qt s).
Proof.
  intros HI Hp Hst. pose proof (iv_range _ _ _ _ _ _ HI Hp) as Hr.
  destruct (iv_on _ _ _ _ _ _ _ HI Hp ltac:(lia) (where_sleep s e Hst)) as (l1 & l2 & Hl).
  pose proof (iv_q _ _ _ _ HI) as HQ.
  destruct (unsleep_spec _ _ _ _ _ _ HQ Hl) as (qt1 & qt2 & Hfix & Hg & HQ1 & HQ2 & Hk2 & Hk1).
  exists qt2, (<[sleepq s := l1 ++ l2]> Q). split.
  - by eapply unsleep_eval.
  - assert (HI1 : kinv Q (set_queuetab qt1 s)).
    { apply pre_inv_rekey; try done. intros l z Hz Hin. unfold keyof. rewrite Hk1.
      rewrite decide_False; [done|]. intros Hh.
      apply (iv_rlsl _ _ _ _ HI). eapply (qrep_disj _ _ HQ _ _ _ _ z Hz Hl); [done|].
      destruct l2; [done|]. injection Hh as ->. set_solver. }
    apply (pre_inv_leave p (-1) Q (set_queuetab qt1 s) e qt2 (sleepq s) l1 l2); try done.
    intros i ei Hi Hsq. by destruct (iv_rlsq _ _ _ _ HI _ _ Hi).
Qed.

(** * The calls keep the invariant *)

Lemma curstate_same s p e e' st :
  s.(proctab) !! p = Some e -> e'.(prstate) = e.(prstate) -> curstate s st ->
  curstate (set_proctab (<[p := e']> s.(proctab)) s) st.
Proof.
  intros Hp Hst (e0 & He0 & Hs0). unfold curstate. kst_simpl.
  destruct (decide (p = currpid s)) as [->|Hne].
  - exists e'. rewrite lookup_insert_eq. split; [done|]. congruence.
  - exists e0. by rewrite lookup_insert_ne.
Qed.

Lemma Inv_upd_same s p e e' :
  Inv s -> s.(proctab) !! p = Some e ->
  e'.(prstate) = e.(prstate) -> e'.(prsem) = e.(prsem) ->
  e'.(prstkbase) = e.(prstkbase) -> e'.(prstklen) = e.(prstklen) ->
  e'.(prprio) = e.(prprio) -> Inv (set_proctab (<[p := e']> s.(proctab)) s).
Proof.
  intros ((Q & HQ) & Hc & Hn) Hp H1 H2 H3 H4 H5. split; [|split; [|done]].
  - exists Q. apply (pre_inv_upd_same (-1) (-1) Q s p e); try done.
    rewrite H5. apply (iv_prio _ _ _ _ HQ _ _ Hp).
  - by eapply curstate_same.
Qed.

Lemma send_ok pid msg : syscall_ok (send pid msg).
Proof.
  intros s HI Hnull. unfold send. krun.
  destruct (isbadpid (proctab s) pid) eqn:Hbad; krun; [by apply bad_ok|].
  apply isbadpid_false in Hbad as (Hr & e & He & Hf). rewrite He. krun.
  destruct (prhasmsg e) eqn:Hmsg; krun; [by apply bad_ok|].
  rewrite (arr_upd_eq _ _ _ _ He). krun.
  rewrite (arr_upd_eq _ _ _ (set_prmsg msg e)) by apply lookup_insert_eq. krun.
  rewrite insert_insert_eq, lookup_insert_eq. krun.
  set (e' := set_prhasmsg true (set_prmsg msg e)).
  assert (HI1 : Inv (set_proctab (<[pid := e']> (proctab s)) (set_ie false s))).
  { apply (Inv_upd_same (set_ie false s) pid e); try done. by apply Inv_ie. }
  set (s1 := set_proctab _ _) in *. pose proof HI1 as ((Q & HQ) & Hc & Hn).
  assert (He' : proctab s1 !! pid = Some e') by apply lookup_insert_eq.
  destruct (decide (prstate e = PR_RECV)) as [Hst|Hst];
    [|destruct (decide (prstate e = PR_RECTIM)) as [Hst2|Hst2]].
  - rewrite Hst. simpl. krun. apply wp_bind. apply wp_bind.
    eapply (ready_back pid Q _ e'); try done.
    { eapply pre_inv_exempt; [exact HQ|exact He'|]. unfold where_is. simpl. by rewrite Hst. }
    intros s' Hb. krun. by apply back_restore.
  - rewrite Hst2. simpl. krun.
    destruct (unsleep_run Q s1 pid e' HQ He') as (qt & Q' & -> & HQ'); [by right|]. krun.
    apply wp_bind. apply wp_bind. eapply (ready_back pid Q' _ e'); try done.
    intros s' Hb. krun. by apply back_restore.
  - rewrite !bool_decide_eq_false_2 by done. krun.
    apply (back_restore s s1 HI). by split.
Qed.

Lemma receive_ok : syscall_ok receive.
Proof.
  intros s HI Hnull. unfold receive. krun.
  destruct (Inv_current _ HI) as (e & He & Hst). rewrite He. krun.
  assert (Hend : ∀ s', back (set_ie false s) s' ->
    wp Inv ((prptr ← getproc (currpid s); updproc (set_prhasmsg false) (currpid s);;
             restore (ie s);; mret (prmsg prptr)) s') (λ _ s', back s s')).
  { intros s' (HI' & Hcp & Hie). kst_simpl. krun.
    destruct (Inv_current _ HI') as (e' & He' & _). rewrite Hcp in He'. rewrite He'. krun.
    rewrite (arr_upd_eq _ _ _ _ He'). krun. apply (back_restore s (set_proctab _ s') HI).
    split; [|done]. by apply (Inv_upd_same s' (currpid s) e'). }
  destruct (prhasmsg e) eqn:Hmsg; simpl; krun.
  - rewrite He. krun. rewrite (arr_upd_eq _ _ _ _ He). krun.
    apply (back_restore s (set_proctab _ (set_ie false s)) HI).
    split; [|done]. apply (Inv_upd_same (set_ie false s) (currpid s) e); try done. by apply Inv_ie.
  - rewrite (arr_upd_eq _ _ _ _ He). krun. apply wp_bind.
    pose proof (Inv_ie false s HI) as ((Q & HQ) & Hc & Hn).
    eapply (resched_back Q); [|done|done|exact Hend].
    eapply (pre_inv_unexempt (currpid s)).
    + apply (pre_inv_upd (-1) (-1) Q (set_ie false s) (currpid s) e); try done.
      * right. unfold where_is. by rewrite Hst.
      * apply (iv_prio _ _ _ _ HQ _ _ He).
      * intros ?. by apply (iv_stk _ _ _ _ HQ _ _ He).
    + kst_simpl. by rewrite lookup_insert_eq.
    + done.
Qed.

Lemma recvclr_ok : syscall_ok recvclr.
Proof.
  intros s HI Hnull. unfold recvclr. krun.
  destruct (Inv_current _ HI) as (e & He & Hst). rewrite He. krun.
  destruct (prhasmsg e) eqn:Hmsg; simpl; krun; [|by apply (bad_ok s 0)].
  rewrite (arr_upd_eq _ _ _ _ He). krun.
  apply (back_restore s (set_proctab _ (set_ie false s)) HI).
  split; [|done]. apply (Inv_upd_same (set_ie false s) (currpid s) e); try done. by apply Inv_ie.
Qed.

(** The current process goes on the sleep queue with delay [key]. *)
Lemma sleep_insert Q s e st key :
  kinv Q s -> s.(currpid) ≠ NULLPROC -> s.(proctab) !! s.(currpid) = Some e ->
  e.(prstate) = PR_CURR -> st = PR_SLEEP \/ st = PR_RECTIM ->
  ∃ qt Q', insertd s.(proctab) s.(currpid) s.(sleepq) key s.(queuetab) = Some (OK, qt) /\
    kinv Q' (set_proctab (<[s.(currpid) := set_prstate st e]> s.(proctab)) (set_queuetab qt s)).
Proof.
  intros HI Hnull He Hcur Hst.
  pose proof (iv_currpid _ _ _ _ HI) as Hr. pose proof (iv_q _ _ _ _ HI) as HQ.
  destruct (iv_sl _ _ _ _ HI) as [l Hl].
  assert (Hw : where_is s e = None) by (unfold where_is; by rewrite Hcur).
  assert (Hoff : off_queues Q (currpid s)) by (eapply iv_off; [exact HI|exact He|by right]).
  destruct (insertd_spec (proctab s) _ _ HQ _ _ Hl (currpid s) key) as (qt & Hins & HQ' & Hky).
  { apply isbadpid_false. split; [done|]. exists e. split; [done|congruence]. } { done. }
  set (r := span_delta (keyof (queuetab s)) key l) in *.
  assert (Happ : r.1.1 ++ r.2 = l) by apply span_delta_app.
  exists qt, (<[sleepq s := r.1.1 ++ currpid s :: r.2]> Q). split; [done|].
  set (s1 := set_proctab (<[currpid s := set_prstate st e]> (proctab s)) s).
  assert (HI1 : pre_inv (currpid s) (-1) Q s1).
  { apply (pre_inv_upd (-1) (-1) Q s (currpid s) e); try done; simpl.
    - by right.
    - intros ?. destruct Hst; congruence.
    - apply (iv_prio _ _ _ _ HI _ _ He).
    - intros ?. by apply (iv_stk _ _ _ _ HI _ _ He). }
  pose proof (iv_rlsl _ _ _ _ HI) as Hne.
  apply (pre_inv_join (currpid s) (-1) Q s1 (set_prstate st e) qt (sleepq s) l); try done.
  - simpl. apply lookup_insert_eq.
  - by apply (where_sleep s1).
  - intros z. rewrite <- Happ. rewrite elem_of_app_cons. set_solver.
  - intros i ei Hi Hsq. by destruct (iv_rlsq _ _ _ _ HI _ _ Hi).
  - intros l0. simpl. rewrite lookup_insert_ne by done. intros Hl0.
    eapply desc_ext; [|by apply (iv_desc _ _ _ _ HI)]. intros z Hz. unfold keyof. rewrite Hky.
    rewrite decide_False by (intros ->; by apply (Hoff _ _ Hl0)).
    rewrite decide_False; [done|]. intros Hh. apply Hne.
    eapply (qrep_disj _ _ HQ _ _ _ _ z Hl0 Hl Hz). rewrite <- Happ.
    destruct r.2; [done|]. injection Hh as ->. set_solver.
Qed.

Lemma recvtime_ok maxwait : syscall_ok (recvtime maxwait).
Proof.
  intros s HI Hnull. unfold recvtime. destruct (maxwait <? 0); [by apply back_refl|]. krun.
  destruct (Inv_current _ HI) as (e & He & Hst). rewrite He. krun.
  pose proof (Inv_ie false s HI) as ((Q & HQ) & Hc & Hn).
  assert (Hend : ∀ s', back (set_ie false s) s' ->
    wp Inv ((prptr ← getproc (currpid s);
             msg ← (if prhasmsg prptr then updproc (set_prhasmsg false) (currpid s);; mret (prmsg prptr)
                    else mret (u32 TIMEOUT));
             restore (ie s);; mret msg) s') (λ _ s', back s s')).
  { intros s' Hb. pose proof Hb as (HI' & Hcp & Hie). kst_simpl. krun.
    destruct (Inv_current _ HI') as (e' & He' & _). rewrite Hcp in He'. rewrite He'. krun.
    destruct (prhasmsg e'); krun; [|by apply back_restore].
    rewrite (arr_upd_eq _ _ _ _ He'). krun. apply (back_restore s (set_proctab _ s') HI).
    split; [|done]. by apply (Inv_upd_same s' (currpid s) e'). }
  destruct (prhasmsg e) eqn:Hmsg; simpl; krun.
  - apply (Hend (set_ie false s)). by apply back_refl, Inv_ie.
  - destruct (sleep_insert Q (set_ie false s) e PR_RECTIM maxwait) as (qt & Q' & Hins & HQ'); try done.
    { by right. }
    kst_simpl. rewrite Hins. krun. change (OK =? SYSERR) with false. cbv iota. krun.
    rewrite (arr_upd_eq _ _ _ _ He). krun. apply wp_bind. apply wp_bind.
    eapply (resched_back Q'); [exact HQ'|done|done|]. intros s' Hb. krun. by apply Hend.
Qed.
(** * What the calls do *)

Lemma filter_delta k base p l :
  p ∉ l -> filter (λ pt, pt.1 ≠ p) (delta_abs k base l) = delta_abs k base l.
Proof.
  revert base. induction l as [|y l IH]; intros base Hp; simpl; [done|].
  rewrite filter_cons_True by (simpl; set_solver). f_equal. apply IH. set_solver.
Qed.

(** The delta list without [p], whose key the next process has got. *)
Lemma delta_remove k k' p l1 l2 : ∀ base,
  (∀ x, x ∈ l1 -> k' x = k x) -> p ∉ l1 -> p ∉ l2 ->
  match l2 with [] => True | z :: l2' => k' z = k z + k p /\ ∀ x, x ∈ l2' -> k' x = k x end ->
  delta_abs k' base (l1 ++ l2) = filter (λ pt, pt.1 ≠ p) (delta_abs k base (l1 ++ p :: l2)).
Proof.
  induction l1 as [|y l1 IH]; intros base H1 Hp1 Hp2 H2; simpl.
  - rewrite filter_cons_False by (simpl; naive_solver). rewrite filter_delta by done.
    destruct l2 as [|z l2]; simpl; [done|]. destruct H2 as [-> H2].
    replace (base + (k z + k p)) with (base + k p + k z) by lia. f_equal. by apply delta_abs_ext.
  - rewrite filter_cons_True by (simpl; set_solver). rewrite H1 by set_solver. f_equal.
    apply IH; set_solver.
Qed.

(** Taking a process out of the sleep queue leaves the due time of every
    other sleeping process unchanged, as long as none of them is 2^31 ticks
    away. *)
Theorem unsleep_preserves_due_times s p l :
  Inv s -> queue_list s.(queuetab) s.(sleepq) = Some l -> p ∈ l ->
  (∀ q, q ∈ l -> 0 <= keyof s.(queuetab) q) ->
  Forall (λ pt, pt.2 < 2147483648) (delta_abs (keyof s.(queuetab)) 0 l) ->
  ∃ s' l', unsleep p s = Done OK s' /\ queue_list s'.(queuetab) s'.(sleepq) = Some l' /\
    delta_abs (keyof s'.(queuetab)) 0 l' =
      filter (λ pt, pt.1 ≠ p) (delta_abs (keyof s.(queuetab)) 0 l) /\
    s'.(proctab) = s.(proctab).
Proof.
  intros ((Q & HI) & _) Hql Hp Hk Hlt. destruct (iv_sl _ _ _ _ HI) as [l0 Hl].
  pose proof (iv_q _ _ _ _ HI) as HQ. pose proof (queue_list_inv _ _ _ _ _ HQ Hl Hql) as <-.
  assert (Hr : 0 <= p < NPROC) by (by apply (qrep_pid _ _ HQ _ _ _ Hl)).
  destruct (arr_len_lookup _ _ _ (iv_pt _ _ _ _ HI) Hr) as [e He].
  assert (Hst : prstate e = PR_SLEEP \/ prstate e = PR_RECTIM) by (by eapply on_sleepq).
  apply list_elem_of_split in Hp as (l1 & l2 & ->).
  destruct (unsleep_spec _ _ _ _ _ _ HQ Hl) as (qt1 & qt2 & Hfix & Hg & HQ1 & HQ2 & Hk2 & Hk1).
  exists (set_queuetab qt2 s), (l1 ++ l2). split; [|split; [|split; [|done]]].
  { by eapply unsleep_eval. }
  { eapply queue_list_qrep; [exact HQ2|apply lookup_insert_eq]. }
  pose proof (qrep_nodup _ _ HQ _ _ Hl) as Hnd. apply NoDup_app in Hnd as (Hnd1 & Hd & Hnd2).
  apply NoDup_cons in Hnd2 as [Hp2 Hnd2].
  assert (Hp1 : p ∉ l1) by (intros ?; apply (Hd p); set_solver).
  assert (Hkey : ∀ i, keyof qt2 i = if decide (head l2 = Some i) then
      default 0 ((λ k, s32 (k + keyof s.(queuetab) p)) <$> ky s.(queuetab) i) else keyof s.(queuetab) i).
  { intros i. unfold keyof at 1. rewrite Hk2, Hk1. by case_decide. }
  kst_simpl. apply delta_remove; [|done|done|].
  - intros x Hx. rewrite Hkey, decide_False; [done|]. intros Hh. destruct l2; [done|]. injection Hh as ->.
    apply (Hd x); set_solver.
  - destruct l2 as [|z l2]; [done|]. apply NoDup_cons in Hnd2 as [Hz Hnd2]. split.
    + rewrite Hkey, decide_True by done.
      assert (Hzr : 0 <= z < NQENT).
      { assert (0 <= z < NPROC) by (apply (qrep_pid _ _ HQ _ _ z Hl); set_solver). unfold NQENT, NPROC, NSEM in *. lia. }
      destruct (qrep_lookup _ _ HQ z Hzr) as [ez Hez]. rewrite <- (keyof_ky _ _ _ Hez).
      unfold ky. rewrite Hez. simpl. apply s32_id. unfold is_s32.
      pose proof (Hk p ltac:(set_solver)). pose proof (Hk z ltac:(set_solver)) as Hkz.
      rewrite delta_abs_app in Hlt. apply Forall_app in Hlt as [_ Hlt].
      assert (Hbase : 0 <= foldl (λ b y, b + keyof (queuetab s) y) 0 l1).
      { clear -Hk. assert (Hk1 : ∀ x, x ∈ l1 -> 0 <= keyof (queuetab s) x) by set_solver. clear Hk.
        assert (H0 : 0 <= 0) by lia. revert H0. generalize 0 at 2 4. induction l1 as [|y l1 IH]; intros b Hb; simpl; [done|].
        apply IH; [set_solver|]. pose proof (Hk1 y ltac:(set_solver)). lia. }
      simpl in Hlt. apply Forall_cons in Hlt as [_ Hlt]. apply Forall_cons in Hlt as [Hlt _]. simpl in Hlt.
      rewrite (keyof_ky _ _ _ Hez) in *. lia.
    + intros x Hx. rewrite Hkey, decide_False; [done|]. intros [= <-]. done.
Qed.

Lemma set_ie_back s : set_ie s.(ie) (set_ie false s) = s.
Proof. by destruct s. Qed.

(** Send refuses a process that does not exist or that has not received its
    last message yet, and changes nothing: the first message is not lost. *)
Theorem send_never_overwrites s pid msg :
  isbadpid s.(proctab) pid = true \/
    (∃ e, s.(proctab) !! pid = Some e /\ e.(prhasmsg) = true) ->
  send pid msg s = Done SYSERR s.
Proof.
  intros Hb. unfold send. krun. destruct (isbadpid (proctab s) pid) eqn:Hbad; krun; [by rewrite set_ie_back|].
  destruct Hb as [|(e & He & Hm)]; [done|]. rewrite He. krun. rewrite Hm. krun. by rewrite set_ie_back.
Qed.

(** receive takes the message a process has. *)
Lemma receive_gets s pid e msg st : s.(currpid) = pid ->
  s.(proctab) !! pid = Some (set_prstate st (set_prhasmsg true (set_prmsg msg e))) ->
  ∃ s3 e3, receive s = Done msg s3 /\ s3.(proctab) !! pid = Some e3 /\ e3.(prhasmsg) = false.
Proof.
  intros Hc Heq. unfold receive. krun. rewrite Hc, Heq. krun. simpl. krun.
  rewrite Heq. krun. rewrite (arr_upd_eq _ _ _ _ Heq). krun. eexists _, _. split; [reflexivity|].
  simpl. by rewrite lookup_insert_eq.
Qed.

(** A process made ready at the end of a call stays runnable, its entry otherwise as it
    was. *)
Lemma ready_ends pid Q s e (mask : bool) : pre_inv pid (-1) Q s -> s.(proctab) !! pid = Some e ->
  e.(prstate) ≠ PR_FREE -> e.(prstate) ≠ PR_CURR -> curstate s PR_CURR -> s.(ndefers) = 0 ->
  ∃ s' st, outcome (((ready pid;; mret tt);; restore mask;; mret OK) s) = Some s' /\ Inv s' /\
    s'.(proctab) !! pid = Some (set_prstate st e) /\ runnable s' pid = true.
Proof.
  intros HI He Hf Hnc Hc Hn. destruct (ready_run pid (-1) Q s e HI He Hf) as (qt & l & _ & Hrd & _ & HI2).
  set (s2 := made_ready pid e qt s) in *.
  assert (HI3 : Inv s2).
  { apply (Inv_intro _ _ HI2); [|done]. apply (curstate_other s); [|done].
    destruct Hc as (ec & Hec & Hsc). intros ->. congruence. }
  destruct (resched_blocked s2 HI3) as (s3 & Ho & (HI4 & _ & _ & _ & Hr3 & Hp3) & _).
  destruct (Hp3 pid (set_prstate PR_READY e)) as [st Hst]; [apply lookup_insert_eq|].
  assert (Hru : runnable s3 pid = true).
  { apply Hr3. unfold runnable, in_state, s2, made_ready. kst_simpl. by rewrite lookup_insert_eq. }
  unfold mbind, K_bind in *. rewrite Hrd.
  destruct (resched s2) as [[] s'|old s' k| |]; simpl in Ho |- *; try done;
    injection Ho as ->; eexists _, st; (split; [reflexivity|]);
    (split; [first [done|by apply Inv_ie]|]); by split.
Qed.

(** send up to the point where the message is in the table. *)
Lemma send_stores s pid msg e : s.(proctab) !! pid = Some e -> 0 <= pid < NPROC -> e.(prstate) ≠ PR_FREE ->
  e.(prhasmsg) = false ->
  send pid msg s =
    ((if bool_decide (prstate e = PR_RECV) then ready pid;; mret tt
      else if bool_decide (prstate e = PR_RECTIM) then unsleep pid;; ready pid;; mret tt
      else mret tt);; restore s.(ie);; mret OK)
      (set_proctab (<[pid := set_prhasmsg true (set_prmsg msg e)]> (proctab s)) (set_ie false s)).
Proof.
  intros He Hr Hf Hm. unfold send. krun.
  assert (isbadpid (proctab s) pid = false) as -> by (apply isbadpid_false; eauto).
  krun. rewrite He. krun. rewrite Hm. krun. rewrite (arr_upd_eq _ _ _ _ He). krun.
  rewrite (arr_upd_eq _ _ _ (set_prmsg msg e)) by apply lookup_insert_eq. krun.
  by rewrite insert_insert_eq, lookup_insert_eq.
Qed.

(** C17: a message that is sent is delivered.  When the process exists and holds
    no message, send stores the message in its entry, makes the process ready if
    it waits for a message, with or without a time limit, and otherwise changes
    nothing else; when the process next runs receive, that returns the message
    and frees the slot. *)
Theorem send_delivers s pid msg e :
  Inv s -> s.(proctab) !! pid = Some e -> e.(prstate) ≠ PR_FREE -> e.(prhasmsg) = false ->
  ∃ s' st, outcome (send pid msg s) = Some s' /\ Inv s' /\
    s'.(proctab) !! pid = Some (set_prstate st (set_prhasmsg true (set_prmsg msg e))) /\
    (if bool_decide (e.(prstate) = PR_RECV) || bool_decide (e.(prstate) = PR_RECTIM)
     then runnable s' pid = true
     else st = e.(prstate) /\ send pid msg s = Done OK s') /\
    ∀ s2, s2.(currpid) = pid -> s2.(proctab) !! pid = s'.(proctab) !! pid ->
      ∃ s3 e3, receive s2 = Done msg s3 /\ s3.(proctab) !! pid = Some e3 /\ e3.(prhasmsg) = false.
Proof.
  intros HI He Hf Hm. set (e' := set_prhasmsg true (set_prmsg msg e)).
  assert (HI1 : Inv (set_proctab (<[pid := e']> (proctab s)) (set_ie false s))).
  { apply (Inv_upd_same (set_ie false s) pid e); try done. by apply Inv_ie. }
  assert (Hr : 0 <= pid < NPROC) by (destruct HI as ((Q0 & HQ0) & _); by eapply iv_range).
  rewrite (send_stores s pid msg e He Hr Hf Hm). fold e'. set (s1 := set_proctab _ _) in *.
  pose proof HI1 as ((Q & HQ) & Hc & Hn).
  assert (He' : proctab s1 !! pid = Some e') by apply lookup_insert_eq.
  destruct (decide (prstate e = PR_RECV)) as [Hst|Hst];
    [|destruct (decide (prstate e = PR_RECTIM)) as [Hst2|Hst2]].
  - rewrite Hst. simpl. destruct (ready_ends pid Q s1 e' s.(ie)) as (s' & st & Ho & HI' & Hp & Hru); try done;
      [|cbn; congruence|].
    { eapply pre_inv_exempt; [exact HQ|exact He'|]. unfold where_is. simpl. by rewrite Hst. }
    exists s', st. repeat (split; [done|]). intros s2 Hc2 Heq. rewrite Hp in Heq. by eapply receive_gets.
  - rewrite Hst2. simpl.
    destruct (unsleep_run Q s1 pid e' HQ He') as (qt & Q' & Hun & HQ'); [by right|].
    destruct (ready_ends pid Q' (set_queuetab qt s1) e' s.(ie)) as (s' & st & Ho & HI' & Hp & Hru); try done; [cbn; congruence|].
    exists s', st. split.
    { rewrite <- Ho. unfold mbind, K_bind. rewrite Hun. reflexivity. }
    repeat (split; [done|]). intros s2 Hc2 Heq. rewrite Hp in Heq. by eapply receive_gets.
  - rewrite !bool_decide_eq_false_2 by done. krun. exists (set_ie s.(ie) s1), e.(prstate).
    split; [done|]. split; [by apply Inv_ie|].
    assert (Hp : proctab (set_ie (ie s) s1) !! pid = Some (set_prstate (prstate e) e')).
    { kst_simpl. rewrite He'. unfold e'. by destruct e. }
    repeat (split; [done|]). intros s2 Hc2 Heq. rewrite Hp in Heq. by eapply receive_gets.
Qed.
