(* ===== verification/Clock.v ===== *)
(** Time: system/sleep.c, wakeup.c and the clock interrupt handlers
    system/platform/arm-qemu/clkhandler.c and
    system/platform/arm-bbb/clkhandler.c, with clkinit. *)

From S2P Require Import Prelude Types Queue Memory Kernel Sched Observe Sem Msg.

(** * The operations *)

Definition MAXSECONDS : Z := 4294967.

(** system/sleep.c: sleepms.  insertd takes an [int32] key, to which the
    [uint32] delay is converted. *)
Definition sleepms (delay : Z) : K Z :=
  mask ← disable;
  if delay =? 0 then
    yield;;
    restore mask;;
    mret OK
  else
    me ← gets currpid;
    pt ← gets proctab;
    sq ← gets sleepq;
    r ← qop (insertd pt me sq (s32 delay));
    if r =? SYSERR then restore mask;; mret SYSERR
    else
      me ← gets currpid;
      updproc (set_prstate PR_SLEEP) me;;
      resched;;
      restore mask;;
      mret OK.

(** system/sleep.c: sleep *)
Definition sleep (delay : Z) : K Z :=
  if delay >? MAXSECONDS then mret SYSERR
  else
    sleepms (u32 (1000 * delay));;
    mret OK.

(** The loop of wakeup: each process is on the sleep queue at most once. *)
Fixpoint wakeup_loop (fuel : nat) : K unit :=
  match fuel with
  | O => undefined
  | S fuel =>
      sq ← gets sleepq;
      ne ← qget (λ qt, nonempty qt sq);
      go ← (if (ne : bool) then fk ← qget (λ qt, firstkey qt sq); mret (fk <=? 0) else mret false);
      if (go : bool) then
        pid ← qop (dequeue sq);
        ready pid;;
        wakeup_loop fuel
      else mret tt
  end.

(** system/wakeup.c: wakeup *)
Definition wakeup : K unit :=
  resched_cntl DEFER_START;;
  wakeup_loop (S (Z.to_nat NPROC));;
  resched_cntl DEFER_STOP;;
  mret tt.

(** [--firstkey(q)], with the new value. *)
Definition firstkey_dec (q : Z) (qt : qtab) : option (Z * qtab) :=
  i ← firstid qt q;
  e ← qt !! i;
  let k := s32 (e.(qkey) - 1) in
  qt ← arr_upd (set_qkey k) i qt;
  Some (k, qt).

Definition CLKTICKS_PER_SEC : Z := 1000.

(** The qemu handler's check of the sleep queue. *)
Definition tick_sleepers_qemu : K unit :=
  sq ← gets sleepq;
  ne ← qget (λ qt, nonempty qt sq);
  due ← (if (ne : bool) then k ← qop (firstkey_dec sq); mret (k <=? 0) else mret false);
  if (due : bool) then wakeup else resched.

(** system/platform/arm-qemu/clkhandler.c: clkhandler.  clkupdate programs the
    timer and touches no variable of the kernel. *)
Definition clkhandler_qemu : K unit :=
  t ← gets clkticks;
  modify (set_clkticks (u32 (t + 1)));;
  (if CLKTICKS_PER_SEC =? u32 (t + 1) then
     c ← gets clktime;
     modify (set_clktime (u32 (c + 1)));;
     modify (set_clkticks 0)
   else mret tt);;
  tick_sleepers_qemu.

(** The BeagleBone handler's check of the sleep queue. *)
Definition tick_sleepers : K unit :=
  sq ← gets sleepq;
  em ← qget (λ qt, isempty qt sq);
  if (em : bool) then mret tt
  else
    k ← qop (firstkey_dec sq);
    if k =? 0 then wakeup else mret tt.

(** And its countdown of the time slice. *)
Definition tick_preempt : K unit :=
  p ← gets preempt;
  modify (set_preempt (u32 (p - 1)));;
  if u32 (p - 1) =? 0 then
    modify (set_preempt QUANTUM);;
    resched
  else mret tt.

(** system/platform/arm-bbb/clkhandler.c: clkhandler; [ovf] is the overflow flag
    of the timer's status register. *)
Definition clkhandler_bbb (ovf : bool) : K unit :=
  if negb ovf then mret tt
  else
    n ← gets count1000;
    modify (set_count1000 (u32 (n - 1)));;
    (if u32 (n - 1) =? 0 then
       c ← gets clktime;
       modify (set_clktime (u32 (c + 1)));;
       modify (set_count1000 1000)
     else mret tt);;
    tick_sleepers;;
    tick_preempt.

(** The interrupt: the handler runs with interrupts disabled, and the processor
    returns to what it was doing with the mask it had. *)
Definition irq (handler : K unit) : K unit :=
  mask ← disable;
  handler;;
  restore mask.

(** newqueue, with its static [nextqid]. *)
Definition knewqueue : K Z := λ s,
  match newqueue s.(nextqid) s.(queuetab) with
  | Some (q, nq, qt) => Done q (set_nextqid nq (set_queuetab qt s))
  | None => UB
  end.

(** clkinit of both platforms: the part that touches the kernel's variables. *)
Definition clkinit : K unit :=
  q ← knewqueue;
  modify (set_sleepq q);;
  modify (set_preempt QUANTUM);;
  modify (set_clktime 0).

(** * The calls keep the invariant *)

Lemma sleepms_ok delay : syscall_ok (sleepms delay).
Proof.
  intros s HI Hnull. unfold sleepms. krun. destruct (delay =? 0).
  - krun. apply wp_bind. eapply wp_mono; [apply (yield_ok (set_ie false s)); [by apply Inv_ie|done]|].
    intros v s' Hb. krun. by apply back_restore.
  - krun. destruct (Inv_current _ HI) as (e & He & Hst).
    pose proof (Inv_ie false s HI) as ((Q & HQ) & Hc & Hn).
    destruct (sleep_insert Q (set_ie false s) e PR_SLEEP (s32 delay)) as (qt & Q' & Hins & HQ'); try done.
    { by left. }
    kst_simpl. rewrite Hins. krun. change (OK =? SYSERR) with false. cbv iota. krun.
    rewrite (arr_upd_eq _ _ _ _ He). krun. apply wp_bind.
    eapply (resched_back Q'); [exact HQ'|done|done|]. intros s' Hb. krun. by apply back_restore.
Qed.

Lemma sleep_ok delay : syscall_ok (sleep delay).
Proof.
  intros s HI Hnull. unfold sleep. destruct (delay >? MAXSECONDS); [by apply back_refl|].
  krun. apply wp_bind. eapply wp_mono; [by apply sleepms_ok|]. intros v s' Hb. by krun.
Qed.

(** ** The sleep queue and the clock *)

Lemma firstkey_hd Q s q p l :
  kinv Q s -> Q !! q = Some (p :: l) -> firstkey s.(queuetab) q = Some (keyof s.(queuetab) p).
Proof.
  intros HI Hl. pose proof (iv_q _ _ _ _ HI) as HQ. unfold firstkey.
  rewrite (qrep_firstid _ _ HQ _ _ Hl). simpl.
  assert (0 <= p < NPROC) by (apply (qrep_pid _ _ HQ _ _ p Hl); set_solver).
  destruct (qrep_lookup _ _ HQ p) as [e He]; [unfold NQENT, NPROC, NSEM in *; lia|].
  rewrite He. simpl. by rewrite (keyof_ky _ _ _ He).
Qed.

(** The first sleeper, whose key is at most 0, becomes ready. *)
Lemma wakeup_one Q s p l :
  kinv Q s -> curstate s PR_CURR -> 0 < s.(ndefers) -> Q !! s.(sleepq) = Some (p :: l) ->
  ∃ e qt qt2 Q', dequeue s.(sleepq) s.(queuetab) = Some (p, qt) /\
    s.(proctab) !! p = Some e /\
    let s' := set_attempt true (made_ready p e qt2 s) in
    ready p (set_queuetab qt s) = Done OK s' /\ kinv Q' s' /\ curstate s' PR_CURR /\
    Q' !! s.(sleepq) = Some l /\ (∀ i, i ≠ p -> ky qt2 i = ky s.(queuetab) i).
Proof.
  intros HI Hc Hnd Hl. pose proof (iv_q _ _ _ _ HI) as HQ.
  destruct (dequeue_cons _ _ HQ _ _ Hl p l eq_refl) as (qt & Hdq & HQ' & Hky).
  assert (Hin : p ∈ p :: l) by set_solver.
  assert (Hpr : 0 <= p < NPROC) by (by apply (qrep_pid _ _ HQ _ _ p Hl)).
  destruct (arr_len_lookup _ _ _ (iv_pt _ _ _ _ HI) Hpr) as [e He].
  assert (Hst := on_sleepq _ _ _ _ _ HI Hl Hin He).
  assert (HI1 : pre_inv p (-1) (<[sleepq s := l]> Q) (set_queuetab qt s)).
  { apply (pre_inv_leave p (-1) Q s e qt (sleepq s) [] l); try done.
    intros i ei Hi Hsq. by destruct (iv_rlsq _ _ _ _ HI _ _ Hi). }
  destruct (ready_deferred p (-1) _ _ e HI1) as (qt2 & l2 & _ & Hrd & Hky2 & HI2); try done.
  { destruct Hst; congruence. }
  exists e, qt, qt2. eexists. split; [done|]. split; [done|]. split; [exact Hrd|]. split; [exact HI2|].
  split; [|split].
  - apply (curstate_other s); [|done]. destruct Hc as (e0 & He0 & Hs0). intros ->.
    destruct Hst; congruence.
  - simpl. rewrite lookup_insert_ne by apply HI. apply lookup_insert_eq.
  - intros i Hi. rewrite Hky2 by done. apply Hky.
Qed.

(** From [s] to [s'] the processes [l1], of key at most 0, have been made ready,
    and [l2], the first of which has a positive key, is as it was. *)
Record woken (l1 l2 : list Z) (s s' : kst) : Prop := {
  wk_due : ∀ p, p ∈ l1 -> keyof s.(queuetab) p <= 0;
  wk_rest : ∀ p, p ∈ l2 -> keyof s'.(queuetab) p = keyof s.(queuetab) p;
  wk_hd : match l2 with [] => True | p :: _ => 0 < keyof s.(queuetab) p end;
  wk_run : ∀ p, p ∈ l1 -> runnable s' p = true;
  wk_keep : ∀ p, runnable s p = true -> runnable s' p = true;
}.

Lemma woken_nil l s : match l with [] => True | p :: _ => 0 < keyof s.(queuetab) p end -> woken [] l s s.
Proof. intros Hl. constructor; try done; set_solver. Qed.

Lemma woken_cons p e qt l1 l2 s s1 s' :
  p ∉ l1 ++ l2 -> keyof s.(queuetab) p <= 0 -> (∀ i, i ≠ p -> ky qt i = ky s.(queuetab) i) ->
  woken l1 l2 s1 s' -> s1.(queuetab) = qt /\
    s1.(proctab) = <[p := set_prstate PR_READY e]> s.(proctab) ->
  woken (p :: l1) l2 s s'.
Proof.
  intros Hp Hk Hky [W1 W2 W3 W4 W5] (Hq & Hpt).
  assert (Hk' : ∀ i, i ∈ l1 ++ l2 -> keyof (queuetab s1) i = keyof (queuetab s) i).
  { intros i Hi. unfold keyof. rewrite Hq, Hky; [done|]. by intros ->. }
  assert (Hrun : ∀ i, runnable s i = true -> runnable s1 i = true).
  { intros i. eapply runnable_insert; [exact Hpt|by left]. }
  constructor.
  - intros i [->|Hi]%elem_of_cons; [done|]. rewrite <- Hk' by set_solver. by apply W1.
  - intros i Hi. rewrite W2, Hk' by set_solver. done.
  - destruct l2; [done|]. by rewrite <- Hk' by set_solver.
  - intros i [->|Hi]%elem_of_cons; [|by apply W4]. apply W5. unfold runnable, in_state. rewrite Hpt.
    by rewrite lookup_insert_eq.
  - intros i Hi. by apply W5, Hrun.
Qed.

Lemma wakeup_loop_run n : ∀ Q s l,
  kinv Q s -> curstate s PR_CURR -> 0 < s.(ndefers) -> Q !! s.(sleepq) = Some l -> (length l < n)%nat ->
  ∃ s' Q' l1 l2, wakeup_loop n s = Done tt s' /\ kinv Q' s' /\ curstate s' PR_CURR /\
    s'.(ndefers) = s.(ndefers) /\ s'.(currpid) = s.(currpid) /\ s'.(ie) = s.(ie) /\
    l = l1 ++ l2 /\ woken l1 l2 s s' /\ Q' !! s'.(sleepq) = Some l2.
Proof.
  induction n as [|n IH]; intros Q s l HI Hc Hnd Hl Hn; [lia|].
  simpl. krun. rewrite (qrep_nonempty _ _ (iv_q _ _ _ _ HI) _ _ Hl). krun. destruct l as [|p l].
  - simpl. krun. exists s, Q, [], []. do 7 (split; [done|]). split; [|done]. by apply woken_nil.
  - rewrite bool_decide_eq_true_2 by done. krun. rewrite (firstkey_hd _ _ _ _ _ HI Hl). krun.
    destruct (keyof (queuetab s) p <=? 0) eqn:Hk; krun; bool_hyps.
    2:{ exists s, Q, [], (p :: l). do 7 (split; [done|]). split; [|done]. by apply woken_nil. }
    destruct (wakeup_one Q s p l HI Hc Hnd Hl)
      as (e & qt & qt2 & Q1 & Hdq & He & Hrd & HI1 & Hc1 & Hl1 & Hky).
    rewrite Hdq. krun. rewrite Hrd. krun.
    destruct (IH Q1 _ l HI1 Hc1) as (s' & Q' & l1 & l2 & Hrun & H1 & H2 & H3 & H4 & H5 & -> & Hw & HQ');
      try done; [simpl in Hn; lia|].
    exists s', Q', (p :: l1), l2. do 7 (split; [done|]). split; [|done].
    eapply woken_cons; [|done|exact Hky|exact Hw|].
    + apply (NoDup_cons p), (qrep_nodup _ _ (iv_q _ _ _ _ HI) _ _ Hl).
    + unfold made_ready. done.
Qed.

Lemma wakeup_back Q s Φ :
  kinv Q s -> curstate s PR_CURR -> s.(ndefers) = 0 -> s.(ie) = false ->
  (∀ s', back s s' -> Φ tt s') -> wp Inv (wakeup s) Φ.
Proof.
  intros HI Hc Hn Hie HΦ. unfold wakeup. krun. rewrite defer_start by done. krun.
  destruct (iv_sl _ _ _ _ HI) as [l Hl]. pose proof (iv_q _ _ _ _ HI) as HQr.
  pose proof (range_NoDup_length l (qrep_nodup _ _ HQr _ _ Hl) (λ p, qrep_pid _ _ HQr _ _ p Hl)).
  destruct (wakeup_loop_run (S (Z.to_nat NPROC)) Q (set_attempt false (set_ndefers 1 s)) l)
    as (s1 & Q1 & l1 & l2 & Hrun & HI1 & Hc1 & Hnd1 & Hcp1 & Hie1 & _); try done.
  { by apply kinv_defer. } { unfold NPROC. lia. }
  rewrite Hrun. krun. apply wp_bind. eapply (defer_stop_back Q1); try done; [congruence|].
  intros s' (HI' & Hcp & Hi). krun. apply HΦ. kst_simpl. split; [done|]. split; congruence.
Qed.

(** A handler, run with interrupts disabled, gives the processor back to the
    interrupted process. *)
Definition handler_ok (h : K unit) : Prop :=
  ∀ s, Inv s -> s.(ie) = false -> wp Inv (h s) (λ _ s', back s s').

Lemma irq_ok h : handler_ok h -> ∀ s, Inv s -> wp Inv (irq h s) (λ _ s', back s s').
Proof.
  intros Hh s HI. unfold irq. krun. apply wp_bind.
  eapply wp_mono; [apply Hh; [by apply Inv_ie|done]|]. intros [] s' Hb. krun. by apply back_restore.
Qed.

(** Decrementing the key of the first sleeper. *)
Lemma firstkey_dec_run Q s p l :
  kinv Q s -> Q !! s.(sleepq) = Some (p :: l) ->
  ∃ qt, firstkey_dec s.(sleepq) s.(queuetab) = Some (s32 (keyof s.(queuetab) p - 1), qt) /\
    kinv Q (set_queuetab qt s) /\
    ∀ i, ky qt i = if decide (i = p) then Some (s32 (keyof s.(queuetab) p - 1)) else ky s.(queuetab) i.
Proof.
  intros HI Hl. pose proof (iv_q _ _ _ _ HI) as HQ.
  assert (Hr : 0 <= p < NPROC) by (apply (qrep_pid _ _ HQ _ _ p Hl); set_solver).
  assert (Hr' : 0 <= p < NQENT) by (unfold NQENT, NPROC, NSEM in *; lia).
  destruct (qrep_lookup _ _ HQ p Hr') as [e He].
  destruct (upd_qkey_spec (queuetab s) p (s32 (qkey e - 1))) as (qt & Hu & Hlen & Hn & Hp & Hk);
    [apply (qrep_len _ _ HQ)|done|].
  unfold firstkey_dec. rewrite (qrep_firstid _ _ HQ _ _ Hl). simpl. rewrite He. simpl. rewrite Hu. simpl.
  rewrite (keyof_ky _ _ _ He) in *. exists qt. split; [done|]. split; [|done].
  apply pre_inv_rekey; [done| |].
  - apply (qrep_rekey (queuetab s)); try done. intros i Hi. rewrite Hk. rewrite decide_False; [done|lia].
  - intros l0 z Hl0 Hz. unfold keyof. rewrite Hk. rewrite decide_False; [done|]. intros ->.
    apply (iv_rlsl _ _ _ _ HI). eapply (qrep_disj _ _ HQ _ _ _ _ p Hl0 Hl Hz). set_solver.
Qed.

(** The time of day and the preemption counter have no part in the invariant. *)
Lemma kinv_time Q s t k c p :
  kinv Q s -> kinv Q (set_preempt p (set_count1000 c (set_clkticks k (set_clktime t s)))).
Proof. intros HI. dinv HI. by constructor. Qed.

Lemma back_time s t k c p s' :
  back (set_preempt p (set_count1000 c (set_clkticks k (set_clktime t s)))) s' -> back s s'.
Proof. by intros (HI & Hc & Hi). Qed.

(** ** The parts of the BeagleBone handler *)

Lemma handler_seq (m f : K unit) : handler_ok m -> handler_ok f -> handler_ok (m;; f).
Proof.
  intros Hm Hf s HI Hie. apply wp_seq. eapply wp_mono; [by apply Hm|].
  intros [] s1 (HI1 & Hc1 & Hi1). eapply wp_mono; [apply Hf; [done|congruence]|].
  intros [] s2 (HI2 & Hc2 & Hi2). split; [done|]. split; congruence.
Qed.

Lemma Inv_time s b t k c p :
  Inv s -> Inv (set_preempt p (set_count1000 c (set_clkticks k (set_clktime t (set_ie b s))))).
Proof.
  intros HI. pose proof (Inv_ie b s HI) as ((Q & HQ) & Hc & Hn). apply (Inv_intro Q); [|done|done].
  by apply (kinv_time Q (set_ie b s)).
Qed.

Lemma tick_preempt_ok : handler_ok tick_preempt.
Proof.
  intros s HI Hie. pose proof (λ p, Inv_time s s.(ie) s.(clktime) s.(clkticks) s.(count1000) p HI) as HT.
  unfold tick_preempt. krun. destruct (u32 (preempt s - 1) =? 0); krun.
  - destruct (HT QUANTUM) as ((Q & HQ) & _ & Hn). by eapply (resched_back Q (set_preempt QUANTUM s)).
  - split; [apply (HT (u32 (preempt s - 1)))|done].
Qed.

Lemma tick_sleepers_ok : handler_ok tick_sleepers.
Proof.
  intros s HI0 Hie. pose proof HI0 as ((Q & HI) & Hc & Hn). destruct (iv_sl _ _ _ _ HI) as [l Hl].
  unfold tick_sleepers. krun. rewrite (qrep_isempty _ _ (iv_q _ _ _ _ HI) _ _ Hl). krun. destruct l as [|p l].
  - simpl. krun. by apply back_refl.
  - rewrite bool_decide_eq_false_2 by done. krun.
    destruct (firstkey_dec_run Q s p l HI Hl) as (qt & -> & HI' & _). krun.
    destruct (s32 (keyof (queuetab s) p - 1) =? 0).
    + by eapply (wakeup_back Q (set_queuetab qt s)).
    + krun. split; [|done]. by apply (Inv_intro Q).
Qed.

Lemma clkhandler_bbb_ok ovf : handler_ok (clkhandler_bbb ovf).
Proof.
  intros s HI Hie. unfold clkhandler_bbb. destruct ovf; simpl.
  2:{ krun. by apply back_refl. }
  pose proof (handler_seq _ _ tick_sleepers_ok tick_preempt_ok) as Htick.
  set (tick := tick_sleepers;; tick_preempt) in *. clearbody tick. krun.
  destruct (u32 (count1000 s - 1) =? 0); krun.
  - apply (Htick (set_count1000 1000 (set_clktime (u32 (clktime s + 1)) (set_count1000 (u32 (count1000 s - 1)) s)))); [|done].
    exact (Inv_time s s.(ie) (u32 (clktime s + 1)) s.(clkticks) 1000 s.(preempt) HI).
  - apply (Htick (set_count1000 (u32 (count1000 s - 1)) s)); [|done].
    exact (Inv_time s s.(ie) s.(clktime) s.(clkticks) (u32 (count1000 s - 1)) s.(preempt) HI).
Qed.


Lemma tick_sleepers_qemu_ok : handler_ok tick_sleepers_qemu.
Proof.
  intros s HI0 Hie. pose proof HI0 as ((Q & HI) & Hc & Hn). destruct (iv_sl _ _ _ _ HI) as [l Hl].
  unfold tick_sleepers_qemu. krun.
  rewrite (qrep_nonempty _ _ (iv_q _ _ _ _ HI) _ _ Hl). krun. destruct l as [|p l].
  - simpl. krun. by apply (resched_back Q).
  - rewrite bool_decide_eq_true_2 by done. krun.
    destruct (firstkey_dec_run Q s p l HI Hl) as (qt & -> & HI' & _). krun.
    destruct (s32 (keyof (queuetab s) p - 1) <=? 0).
    + by eapply (wakeup_back Q (set_queuetab qt s)).
    + by eapply (resched_back Q (set_queuetab qt s)).
Qed.

Lemma clkhandler_qemu_ok : handler_ok clkhandler_qemu.
Proof.
  intros s HI Hie. unfold clkhandler_qemu. pose proof tick_sleepers_qemu_ok as Htick.
  set (tick := tick_sleepers_qemu) in *. clearbody tick. krun.
  destruct (CLKTICKS_PER_SEC =? u32 (clkticks s + 1)); krun.
  - apply (Htick (set_clkticks 0 (set_clktime (u32 (clktime s + 1)) (set_clkticks (u32 (clkticks s + 1)) s)))); [|done].
    exact (Inv_time s s.(ie) (u32 (clktime s + 1)) 0 s.(count1000) s.(preempt) HI).
  - apply (Htick (set_clkticks (u32 (clkticks s + 1)) s)); [|done].
    exact (Inv_time s s.(ie) s.(clktime) (u32 (clkticks s + 1)) s.(count1000) s.(preempt) HI).
Qed.

(** * A tick of the clock wakes exactly the processes that are due *)



(** ** Due times *)














