(* ===== verification/Devsw.v ===== *)
(** The device switch: system/open.c, close.c, read.c, write.c, getc.c, putc.c,
    control.c, seek.c, init.c, ioerr.c, ionull.c.

    The device switch table [devtab] is generated from the configuration and is
    not in the repository; it is a parameter, an array of [NDEVS] entries whose
    driver functions are any functions of the kernel state. *)

From S2P Require Import Prelude Types Queue Memory Kernel Sched.

Definition NDEVS : Z := 13.
Definition CONSOLE : Z := 0.
Definition SERIAL0 : Z := 11.

(** include/conf.h: struct dentry.  A driver gets the index of the device in
    the table for the [devptr] argument; names, buffers and modes are
    addresses. *)
Record dentry := Dentry {
  dvnum : Z;
  dvminor : Z;
  dvname : list Z;
  dvinit : Z -> K Z;
  dvopen : Z -> Z -> Z -> K Z;
  dvclose : Z -> K Z;
  dvread : Z -> Z -> Z -> K Z;
  dvwrite : Z -> Z -> Z -> K Z;
  dvseek : Z -> Z -> K Z;
  dvgetc : Z -> K Z;
  dvputc : Z -> Z -> K Z;
  dvcntl : Z -> Z -> Z -> Z -> K Z;
}.

(** [isbaddev(f)] *)
Definition isbaddev (f : Z) : bool := (f <? 0) || (f >=? NDEVS).

(** system/ioerr.c, system/ionull.c *)
Definition ioerr : K Z := mret SYSERR.
Definition ionull : K Z := mret OK.

Section Devsw.
Context (devtab : Z -> dentry).

(** system/init.c: init *)
Definition init (descrp : Z) : K Z :=
  mask ← disable;
  if isbaddev descrp then restore mask;; mret SYSERR
  else
    retval ← (devtab descrp).(dvinit) descrp;
    restore mask;;
    mret retval.

(** system/open.c: open *)
Definition open (descrp name mode : Z) : K Z :=
  mask ← disable;
  if isbaddev descrp then restore mask;; mret SYSERR
  else
    retval ← (devtab descrp).(dvopen) descrp name mode;
    restore mask;;
    mret retval.

(** system/close.c: close *)
Definition close (descrp : Z) : K Z :=
  mask ← disable;
  if isbaddev descrp then restore mask;; mret SYSERR
  else
    retval ← (devtab descrp).(dvclose) descrp;
    restore mask;;
    mret retval.

(** system/read.c: read *)
Definition read (descrp buffer count : Z) : K Z :=
  mask ← disable;
  if isbaddev descrp then restore mask;; mret SYSERR
  else
    retval ← (devtab descrp).(dvread) descrp buffer count;
    restore mask;;
    mret retval.

(** system/write.c: write *)
Definition write (descrp buffer count : Z) : K Z :=
  mask ← disable;
  if isbaddev descrp then restore mask;; mret SYSERR
  else
    retval ← (devtab descrp).(dvwrite) descrp buffer count;
    restore mask;;
    mret retval.

(** system/seek.c: seek *)
Definition seek (descrp pos : Z) : K Z :=
  mask ← disable;
  if isbaddev descrp then restore mask;; mret SYSERR
  else
    retval ← (devtab descrp).(dvseek) descrp pos;
    restore mask;;
    mret retval.

(** system/getc.c: getc *)
Definition getc (descrp : Z) : K Z :=
  mask ← disable;
  if isbaddev descrp then restore mask;; mret SYSERR
  else
    retval ← (devtab descrp).(dvgetc) descrp;
    restore mask;;
    mret retval.

(** system/putc.c: putc *)
Definition putc (descrp ch : Z) : K Z :=
  mask ← disable;
  if isbaddev descrp then restore mask;; mret SYSERR
  else
    retval ← (devtab descrp).(dvputc) descrp ch;
    restore mask;;
    mret retval.

(** system/control.c: control *)
Definition control (descrp func arg1 arg2 : Z) : K Z :=
  mask ← disable;
  if isbaddev descrp then restore mask;; mret SYSERR
  else
    retval ← (devtab descrp).(dvcntl) descrp func arg1 arg2;
    restore mask;;
    mret retval.

(** * The switch keeps what its drivers keep *)

(** A call into a driver, as every function above makes it. *)
Lemma driver_call_ok (m : K Z) descrp :
  (isbaddev descrp = false -> syscall_ok m) ->
  syscall_ok (mask ← disable;
              if isbaddev descrp then restore mask;; mret SYSERR
              else retval ← m; restore mask;; mret retval).
Proof.
  intros Hm s HI Hnull. krun. destruct (isbaddev descrp) eqn:Hbad; krun; [by apply bad_ok|].
  apply wp_bind. eapply wp_mono; [apply (Hm eq_refl); [by apply Inv_ie|done]|].
  intros v s' Hb. krun. by apply back_restore.
Qed.

Lemma close_ok d :
  (∀ d, 0 <= d < NDEVS -> syscall_ok ((devtab d).(dvclose) d)) -> syscall_ok (close d).
Proof.
  intros Hd. apply driver_call_ok. intros Hb. unfold isbaddev in Hb. bool_hyps. apply Hd. lia.
Qed.
End Devsw.

Lemma ionull_ok : syscall_ok ionull.
Proof. intros s HI _. by apply back_refl. Qed.

Lemma ioerr_ok : syscall_ok ioerr.
Proof. intros s HI _. by apply back_refl. Qed.
