(* ===== verification/Proc.v ===== *)
(** Creation and termination of processes: system/create.c, kill.c, exit.c,
    userret.c, xdone.c. *)

From S2P Require Import Prelude Types Queue Memory Kernel Sched Sem Msg Devsw.

(** * The operations *)

Inductive platform := ARM_BBB | ARM_QEMU.

(** [roundew(x)] *)
Definition roundew (x : Z) : Z := Z.land (u32 (x + 3)) (Z.lnot 3).

(** The loop of newpid, for [n] more slots. *)
Fixpoint newpid_loop (n : nat) : K Z :=
  match n with
  | O => mret SYSERR
  | S n =>
      np ← gets nextpid;
      let np := np mod NPROC in
      modify (set_nextpid np);;
      e ← getproc np;
      modify (set_nextpid (np + 1));;
      if bool_decide (e.(prstate) = PR_FREE) then mret np else newpid_loop n
  end.

(** system/create.c: newpid *)
Definition newpid : K Z := newpid_loop (Z.to_nat NPROC).

(** The loop that copies the name, from index [i] on. *)
Fixpoint copy_name (n i : nat) (name pr : list Z) : list Z :=
  match n with
  | O => pr
  | S n =>
      let c := nth i name 0 in
      let pr := <[i := c]> pr in
      if c =? 0 then pr else copy_name n (S i) name pr
  end.

(** [*--saddr = v] for each of the words. *)
Fixpoint push (ws : list Z) (saddr : Z) : K Z :=
  match ws with
  | [] => mret saddr
  | v :: ws =>
      let saddr := u32 (saddr - 4) in
      store saddr v;;
      push ws saddr
  end.

(** The words that create pushes on the new stack, in the order of the pushes:
    the arguments from the fifth on, last one first; the procedure; eight
    registers; the first four arguments; where the procedure returns to; the
    processor status. *)
Definition init_frame (p : platform) (procaddr initret : Z) (args : list Z) : list Z :=
  let nargs := length args in
  rev (drop 4 args) ++ [procaddr] ++ replicate 8 0 ++
  map (λ i, if (i <=? nargs)%nat then nth (i - 1) args 0 else 0) [4; 3; 2; 1]%nat ++
  [initret; match p with ARM_BBB => 0x53 | ARM_QEMU => 0x15F end].

(** The table entry that create fills. *)
Definition new_entry (p : platform) (pid priority saddr ssize me : Z) (name : list Z)
    (e : procent) : procent :=
  let con := match p with ARM_BBB => CONSOLE | ARM_QEMU => SERIAL0 end in
  Procent PR_SUSP priority e.(prstkptr) saddr ssize
    (copy_name (Z.to_nat (PNMLEN - 1)) 0 name (<[Z.to_nat (PNMLEN - 1) := 0]> e.(prname)))
    (-1) me e.(prmsg) false
    (<[0%nat := con]> (<[1%nat := con]> (<[2%nat := con]> e.(prdesc)))).

Definition set_prstkptr (x : Z) (p : procent) : procent :=
  Procent p.(prstate) p.(prprio) x p.(prstkbase) p.(prstklen) p.(prname)
    p.(prsem) p.(prparent) p.(prmsg) p.(prhasmsg) p.(prdesc).

(** system/create.c: create; [initret] is [INITRET], the address of userret. *)
Definition create (p : platform) (initret procaddr ssize priority : Z) (name args : list Z) : K Z :=
  mask ← disable;
  let ssize := if ssize <? MINSTK then MINSTK else ssize in
  let ssize := roundew ssize in
  saddr ← mop (getstk ssize);
  if saddr =? PSYSERR then restore mask;; mret SYSERR
  else
    pid ← newpid;
    if (pid =? SYSERR) || (priority <? 1) then restore mask;; mret SYSERR
    else
      n ← gets prcount;
      modify (set_prcount (s32 (n + 1)));;
      me ← getpid;
      updproc (new_entry p pid priority saddr ssize me name) pid;;
      store saddr STACKMAGIC;;
      sp ← push (init_frame p procaddr initret args) saddr;
      updproc (set_prstkptr sp) pid;;
      restore mask;;
      mret pid.

(** system/xdone.c: xdone: the processor halts. *)
Definition xdone : K unit := λ s, Halted s.

(** The switch of kill on the state of the process.  A process that kills itself
    does not come back from resched, but the code into which that case falls is
    here. *)
Definition kill_switch (pid : Z) : K unit :=
  prptr ← getproc pid;
  match prptr.(prstate) with
  | PR_CURR =>
      updproc (set_prstate PR_FREE) pid;;
      resched;;
      unsleep pid;;
      updproc (set_prstate PR_FREE) pid
  | PR_SLEEP | PR_RECTIM =>
      unsleep pid;;
      updproc (set_prstate PR_FREE) pid
  | PR_WAIT =>
      scount_postinc prptr.(prsem);;
      qop (getitem pid);;
      updproc (set_prstate PR_FREE) pid
  | PR_READY =>
      qop (getitem pid);;
      updproc (set_prstate PR_FREE) pid
  | _ => updproc (set_prstate PR_FREE) pid
  end.

Section Kill.
Context (devtab : Z -> dentry).

(** The calls to close: the descriptors are read again for each. *)
Fixpoint kill_close (n : nat) (i : nat) (pid : Z) : K unit :=
  match n with
  | O => mret tt
  | S n =>
      prptr ← getproc pid;
      close devtab (nth i prptr.(prdesc) 0);;
      kill_close n (S i) pid
  end.

(** system/kill.c: kill *)
Definition kill (pid : Z) : K Z :=
  mask ← disable;
  bad ← badpid pid;
  if (bad : bool) || (pid =? NULLPROC) then restore mask;; mret SYSERR
  else
    prptr ← getproc pid;
    if bool_decide (prptr.(prstate) = PR_FREE) then restore mask;; mret SYSERR
    else
      n ← gets prcount;
      modify (set_prcount (s32 (n - 1)));;
      (if s32 (n - 1) <=? 1 then xdone else mret tt);;
      send prptr.(prparent) pid;;
      kill_close 3 0 pid;;
      prptr ← getproc pid;
      mop (freestk prptr.(prstkbase) prptr.(prstklen));;
      kill_switch pid;;
      restore mask;;
      mret OK.

(** system/exit.c: exit; system/userret.c: userret *)
Definition exit : K unit := me ← getpid; kill me;; mret tt.
Definition userret : K unit := me ← getpid; kill me;; mret tt.
End Kill.

(** * The calls keep the invariant *)

Lemma kinv_mem Q s m l :
  kinv Q s -> mem_rep m l -> m.(minheap) = s.(mem).(minheap) -> m.(maxheap) = s.(mem).(maxheap) ->
  kinv Q (set_mem m s).
Proof.
  intros HI HR Hmn Hmx. dinv HI. constructor; try done; kst_simpl; [eauto|].
  intros p e Hp Hn. specialize (Jstk _ _ Hp Hn). unfold stack_ok in *. by rewrite Hmn, Hmx.
Qed.

Lemma push_run ws : ∀ sp s,
  0 <= sp - 4 * Z.of_nat (length ws) -> sp < 4294967296 ->
  ∃ w, push ws sp s = Done (sp - 4 * Z.of_nat (length ws)) (set_mem (set_words w s.(mem)) s) /\
       ∀ x, ~ (sp - 4 * Z.of_nat (length ws) <= x < sp) -> w !! x = s.(mem).(words) !! x.
Proof.
  induction ws as [|v ws IH]; intros sp s Hlo Hhi; simpl length in *.
  - exists (words (mem s)). simpl. split; [|done].
    replace (sp - _) with sp by lia. destruct s as [? ? ? ? ? ? ? ? ? ? ? ? ? ? ? ? [] ? ? ? ? ? ?]. done.
  - simpl. rewrite (u32_id (sp - 4)) by (unfold is_u32; lia). krun.
    destruct (IH (sp - 4) (set_mem (stw (sp - 4) v (mem s)) s)) as (w & Hrun & Hw); [lia|lia|].
    exists w. rewrite Hrun. split.
    + replace (sp - 4 - _) with (sp - 4 * Z.of_nat (S (length ws))) by lia. done.
    + intros x Hx. rewrite Hw by lia. simpl. by rewrite lookup_insert_ne by lia.
Qed.

Lemma newpid_loop_run n : ∀ Q s,
  kinv Q s -> ∃ i nx, newpid_loop n s = Done i (set_nextpid nx s) /\ kinv Q (set_nextpid nx s) /\
    (i = SYSERR \/ ∃ e, s.(proctab) !! i = Some e /\ e.(prstate) = PR_FREE /\ 0 <= i).
Proof.
  assert (Hnx : ∀ Q s n, kinv Q s -> 0 <= n <= NPROC -> kinv Q (set_nextpid n s)).
  { intros Q s k HI Hk. dinv HI. constructor; try done. kst_simpl. tauto. }
  induction n as [|n IH]; intros Q s HI.
  - exists SYSERR, (nextpid s). simpl. krun. split; [by destruct s|]. split; [by destruct s|by left].
  - assert (Hr : 0 <= nextpid s mod NPROC < NPROC) by (apply Z.mod_pos_bound; done).
    destruct (arr_len_lookup _ _ _ (iv_pt _ _ _ _ HI) Hr) as [e He].
    simpl. krun. rewrite He. krun. destruct (decide (prstate e = PR_FREE)) as [Hf|Hf].
    + rewrite bool_decide_eq_true_2 by done. krun. eexists _, _. split; [done|].
      split; [apply Hnx; [done|lia]|]. right. exists e. split; [done|]. split; [done|lia].
    + rewrite bool_decide_eq_false_2 by done.
      destruct (IH Q (set_nextpid (nextpid s mod NPROC + 1) s)) as (i & nx & Hrun & HI' & Hi);
        [apply Hnx; [done|lia]|].
      exists i, nx. split; [exact Hrun|done].
Qed.

Lemma land_lnot3 x : Z.land x (Z.lnot 3) = x - x mod 4.
Proof.
  change (Z.lnot 3) with (Z.lnot (Z.ones 2)). rewrite <- Z.ldiff_land, Z.ldiff_ones_r by lia.
  rewrite Z.shiftl_mul_pow2, Z.shiftr_div_pow2 by lia. change (2 ^ 2) with 4.
  pose proof (Z.div_mod x 4). lia.
Qed.

Lemma roundew_range x : 400 <= x <= 4294967288 -> 400 <= roundew x <= 4294967288.
Proof.
  intros Hx. unfold roundew. rewrite (u32_id (x + 3)) by (unfold is_u32; lia).
  rewrite land_lnot3. Z.div_mod_to_equations. lia.
Qed.

Lemma init_frame_length p a r args :
  (length args <= 88)%nat -> (length (init_frame p a r args) <= 99)%nat.
Proof.
  intros H. unfold init_frame. rewrite !length_app, length_rev, length_drop, length_replicate. simpl. lia.
Qed.

(** A free entry becomes that of a suspended process. *)
Lemma kinv_new Q s pid e e' :
  kinv Q s -> s.(proctab) !! pid = Some e -> e.(prstate) = PR_FREE ->
  e'.(prstate) = PR_SUSP -> -32768 <= e'.(prprio) < 32768 -> stack_ok s.(mem) e' ->
  kinv Q (set_proctab (<[pid := e']> s.(proctab)) s).
Proof.
  intros HI He Hf Hst Hprio Hstk.
  assert (Hnn : pid ≠ NULLPROC).
  { intros ->. destruct (iv_null _ _ _ _ HI) as (e0 & He0 & [?|?]); congruence. }
  eapply (pre_inv_unexempt pid).
  - apply (pre_inv_upd (-1) (-1) Q s pid e e'); try done.
    + right. split; [done|]. unfold where_is. by rewrite Hf.
    + congruence.
    + congruence.
  - kst_simpl. by rewrite lookup_insert_eq.
  - unfold where_is. by rewrite Hst.
Qed.

Lemma kinv_prcount Q s n : kinv Q s -> kinv Q (set_prcount n s).
Proof. intros HI. dinv HI. by constructor. Qed.

(** getstk, in a call of the kernel: the new stack lies in the heap and is not
    free any more. *)
Lemma getstk_run Q s nbytes :
  kinv Q s -> 0 < nbytes <= 4294967288 ->
  mop (getstk nbytes) s = Done PSYSERR s \/
  ∃ a m l, mop (getstk nbytes) s = Done (a + roundmb nbytes - 4) (set_mem m s) /\
    kinv Q (set_mem m s) /\ mem_rep m l /\ m.(minheap) <= a /\ a mod 8 = 0 /\
    a + roundmb nbytes <= m.(maxheap) /\ (∀ x, a <= x < a + roundmb nbytes -> ~ fl_bytes l x).
Proof.
  intros HI Hn. destruct (iv_mem _ _ _ _ HI) as [l HR]. destruct (roundmb_spec nbytes Hn) as (Hr8 & _ & Hr).
  pose proof (getstk_spec _ _ _ HR Hn) as Hs. unfold mop.
  destruct (fl_getstk (roundmb nbytes) l) as [[a l']|] eqn:E.
  - right. destruct Hs as (m & -> & HR' & _ & Hmn & Hmx & _). exists a, m, l'.
    destruct (fl_getstk_ok (roundmb nbytes) _ _ _ _ _ (mr_ok _ _ HR) ltac:(lia) Hr8 E)
      as (_ & H1 & H2 & H3 & _ & H4).
    rewrite Hmn, Hmx. split; [done|]. split; [by eapply kinv_mem|]. done.
  - left. rewrite Hs. by destruct s.
Qed.

(** Writing the initial frame of a process into its new stack. *)
Lemma frame_run Q s ws a nb l :
  kinv Q s -> mem_rep s.(mem) l -> s.(mem).(minheap) <= a -> a + nb <= s.(mem).(maxheap) ->
  (∀ x, a <= x < a + nb -> ~ fl_bytes l x) -> 4 * Z.of_nat (length ws) + 4 <= nb ->
  ∃ sp m, (∀ (f : Z -> K Z), (store (a + nb - 4) STACKMAGIC;;
                              sp ← push ws (a + nb - 4); f sp) s = f sp (set_mem m s)) /\
          kinv Q (set_mem m s).
Proof.
  intros HI HR Ha Hmx Hfree Hlen. pose proof (mr_head _ _ HR) as [Hml Hml2].
  pose proof (mr_max _ _ HR).
  destruct (push_run ws (a + nb - 4) (set_mem (stw (a + nb - 4) STACKMAGIC (mem s)) s)) as (w & Hrun & Hw);
    [lia|lia|].
  eexists _, (set_words w (stw (a + nb - 4) STACKMAGIC (mem s))).
  split; [intros f; krun; rewrite Hrun; done|].
  apply (kinv_mem Q s _ l); try done. apply (mem_rep_frame (mem s)); try done.
  intros x Hx. simpl. simpl in Hw.
  assert (Hnot : ~ (a <= x < a + nb)).
  { intros Hin. destruct Hx as [Hx|[Hx|Hx]]; [by apply (Hfree x)|lia|lia]. }
  rewrite Hw by lia. by rewrite lookup_insert_ne by lia.
Qed.

Lemma create_ok p initret procaddr ssize priority name args :
  0 <= ssize <= 4294967288 -> -32768 <= priority < 32768 -> (length args <= 88)%nat ->
  anycall_ok (create p initret procaddr ssize priority name args).
Proof.
  intros Hss Hprio Hargs s HI. pose proof (Inv_ie false s HI) as ((Q & HQ) & Hc & Hn).
  set (s0 := set_ie false s) in *. unfold create.
  rewrite (bind_done _ _ s (ie s) s0) by done. cbv beta zeta.
  set (sz := roundew (if ssize <? MINSTK then MINSTK else ssize)).
  assert (Hsz : 400 <= sz <= 4294967288).
  { apply roundew_range. unfold MINSTK. destruct (ssize <? 400) eqn:E; bool_hyps; lia. }
  destruct (roundmb_spec sz) as (_ & Hr & _); [lia|].
  assert (Hend : ∀ Q' s' (v : Z), kinv Q' s' -> currpid s' = currpid s0 -> curstate s' PR_CURR ->
      ndefers s' = 0 -> ie s' = false -> wp Inv (Done v (set_ie (ie s) s')) (λ _ s', back s s')).
  { intros Q' s' v HI' H1 H2 H3 H4. apply (back_restore s s' HI). split; [by apply (Inv_intro Q')|done]. }
  destruct (getstk_run Q s0 sz HQ) as [Hg|(a & m & l & Hg & HI1 & HR & Ha & Ha8 & Hmx & Hfree)]; [lia| |].
  { rewrite (bind_done _ _ _ _ _ Hg). by apply (Hend Q s0). }
  rewrite (bind_done _ _ _ _ _ Hg). cbv beta. set (saddr := a + roundmb sz - 4).
  assert (Hmax := mr_max _ _ HR). pose proof (mr_head _ _ HR).
  rewrite (proj2 (Z.eqb_neq saddr PSYSERR)) by (change PSYSERR with 4294967295; lia).
  set (s1 := set_mem m s0) in *.
  destruct (newpid_loop_run (Z.to_nat NPROC) Q s1 HI1) as (pid & nx & Hnp & HI2 & Hpid).
  rewrite (bind_done _ _ _ _ _ Hnp). cbv beta. set (s2 := set_nextpid nx s1) in *.
  destruct ((pid =? SYSERR) || (priority <? 1)) eqn:Hbad; [by apply (Hend Q s2)|].
  apply orb_false_iff in Hbad as [Hb1 Hb2]. apply Z.eqb_neq in Hb1.
  destruct Hpid as [?|(e & He & Hf & Hp0)]; [done|].
  rewrite (bind_done _ _ s2 (prcount s2) s2) by done. cbv beta.
  set (s3 := set_prcount (s32 (prcount s2 + 1)) s2). rewrite (bind_done _ _ s2 tt s3) by done. cbv beta.
  rewrite (bind_done _ _ s3 (currpid s) s3) by done. cbv beta.
  set (e' := new_entry p pid priority saddr sz (currpid s) name e).
  assert (HI3 : kinv Q (set_proctab (<[pid := e']> (proctab s3)) s3)).
  { apply (kinv_new Q s3 pid e); try done; [by apply kinv_prcount|]. right. simpl. unfold saddr.
    replace (a + roundmb sz - 4 + 4) with (a + roundmb sz) by lia.
    split; [lia|]. split; [|split; simpl; lia]. apply mod8_add; [done|]. by apply roundmb_spec; lia. }
  set (s4 := set_proctab (<[pid := e']> (proctab s3)) s3) in *.
  rewrite (bind_done _ _ s3 tt s4) by (unfold updproc; by rewrite (arr_upd_eq _ _ _ _ He)). cbv beta.
  destruct (frame_run Q s4 (init_frame p procaddr initret args) a (roundmb sz) l) as (sp & m2 & Hfr & HI4);
    try done. { pose proof (init_frame_length p procaddr initret args Hargs). lia. }
  fold saddr in Hfr. rewrite Hfr. set (s5 := set_mem m2 s4) in *.
  assert (He5 : proctab s5 !! pid = Some e') by apply lookup_insert_eq.
  unfold updproc. rewrite (bind_done _ _ s5 tt (set_proctab (<[pid := set_prstkptr sp e']> (proctab s5)) s5))
    by (by rewrite (arr_upd_eq _ _ _ _ He5)).
  cbv beta. krun. apply (Hend Q (set_proctab (<[pid := set_prstkptr sp e']> (proctab s5)) s5)); try done.
  - by apply (pre_inv_upd_same (-1) (-1) Q s5 pid e').
  - apply (curstate_same s5 pid e'); try done. apply (curstate_other s3); [|done].
    intros ->. destruct Hc as (e0 & He0 & Hs0). kst_simpl. unfold s3, s2, s1 in He. kst_simpl. congruence.
Qed.

Lemma back_trans s0 s1 s2 : back s0 s1 -> back s1 s2 -> back s0 s2.
Proof. intros (H1 & H2 & H3) (H4 & H5 & H6). split; [done|]. split; congruence. Qed.

(** Process [p], already off its queue, gets its table entry freed. *)
Lemma free_off Q s p e :
  pre_inv p (-1) Q s -> s.(proctab) !! p = Some e -> p ≠ NULLPROC -> p ≠ s.(currpid) ->
  curstate s PR_CURR -> s.(ndefers) = 0 ->
  back s (set_proctab (<[p := set_prstate PR_FREE e]> s.(proctab)) s).
Proof.
  intros HI Hp Hnn Hne Hc Hnd. split; [|done]. apply (Inv_intro Q); [|by apply curstate_other|done].
  eapply (pre_inv_unexempt p).
  - apply (pre_inv_upd p (-1) Q s p e); try done; [by left| |].
    + apply (iv_prio _ _ _ _ HI _ _ Hp).
    + intros ?. by apply (iv_stk _ _ _ _ HI _ _ Hp).
  - kst_simpl. by rewrite lookup_insert_eq.
  - done.
Qed.

(** A process that waits on semaphore [i] leaves its queue, wherever it is on
    it, and the count goes up. *)
Lemma sem_remove Q s p e :
  kinv Q s -> s.(proctab) !! p = Some e -> e.(prstate) = PR_WAIT ->
  ∃ se qt Q', s.(semtab) !! e.(prsem) = Some se /\ s32 (se.(scount) + 1) = se.(scount) + 1 /\
    getitem p s.(queuetab) = Some (p, qt) /\
    pre_inv p (-1) Q' (set_queuetab qt
      (set_semtab (<[e.(prsem) := set_scount (se.(scount) + 1) se]> s.(semtab)) s)).
Proof.
  intros HI Hp Hw. pose proof (iv_range _ _ _ _ _ _ HI Hp) as Hr.
  assert (Hse : ∃ se, semtab s !! prsem e = Some se) by (apply (arr_len_lookup _ _ _ (iv_st _ _ _ _ HI)); by apply (iv_wait _ _ _ _ HI _ _ Hp)).
  destruct Hse as [se Hse].
  assert (Hwi : where_is s e = Some (squeue se)) by (unfold where_is; rewrite Hw, Hse; done).
  destruct (iv_on _ _ _ _ _ _ _ HI Hp ltac:(lia) Hwi) as (l1 & l2 & Hl).
  pose proof (iv_q _ _ _ _ HI) as HQ.
  destruct (getitem_spec _ _ HQ _ _ Hl l1 p l2 eq_refl) as (qt & Hg & HQ' & Hky).
  pose proof (arr_len_lt _ _ _ _ (iv_st _ _ _ _ HI) Hse) as Hir.
  pose proof (iv_scount _ _ _ _ HI _ _ _ Hse Hl ltac:(lia)) as Hlen. rewrite length_app in Hlen. simpl in Hlen.
  pose proof (sem_count_range _ _ _ _ HI Hse).
  exists se, qt, (<[squeue se := l1 ++ l2]> Q). split; [done|]. split; [apply s32_id; unfold is_s32; lia|].
  split; [done|].
  apply (pre_inv_sem p (prsem e) _ (set_queuetab qt s) se); try done.
  - apply (pre_inv_leave p (prsem e) Q s e qt (squeue se) l1 l2); try done; [by apply pre_inv_weaken_sem|].
    intros j ej Hj Hq. eapply iv_sqinj; [exact HI|exact Hj|exact Hse|exact Hq].
  - intros l0. rewrite lookup_insert_eq. intros [= <-]. rewrite length_app. simpl. lia.
  - simpl. unfold is_s32. lia.
  - simpl. intros Hst. pose proof (iv_free _ _ _ _ HI _ _ Hse ltac:(lia) Hst). lia.
Qed.

Lemma kill_switch_back pid s :
  Inv s -> s.(ie) = false -> pid ≠ NULLPROC -> 0 <= pid < NPROC ->
  wp Inv (kill_switch pid s) (λ _ s', back s s').
Proof.
  intros ((Q & HI) & Hc & Hn) Hie Hnn Hr.
  destruct (arr_len_lookup _ _ _ (iv_pt _ _ _ _ HI) Hr) as [e He].
  unfold kill_switch. krun. rewrite He. krun.
  assert (Hne : prstate e ≠ PR_CURR -> pid ≠ currpid s).
  { intros Hst ->. destruct Hc as (e0 & He0 & Hs0). congruence. }
  assert (Hoff : where_is s e = None -> prstate e ≠ PR_CURR ->
    back s (set_proctab (<[pid := set_prstate PR_FREE e]> (proctab s)) s)).
  { intros Hw Hst. apply (free_off Q); try done; [by eapply pre_inv_exempt|by apply Hne]. }
  destruct (prstate e) eqn:Hst; krun.
  - rewrite (arr_upd_eq _ _ _ _ He). by apply Hoff; [unfold where_is; rewrite Hst|].
  - rewrite (arr_upd_eq _ _ _ _ He). krun. apply wp_bind.
    assert (Hpc := iv_curr _ _ _ _ HI _ _ He Hst). subst pid.
    set (s1 := set_proctab (<[currpid s:=set_prstate PR_FREE e]> (proctab s)) s).
    assert (Hf : curstate s1 PR_FREE).
    { eexists. split; [apply lookup_insert_eq|done]. }
    apply (resched_wp Q).
    + eapply (pre_inv_unexempt (currpid s)); [|apply lookup_insert_eq|done].
      apply (pre_inv_upd (-1) (-1) Q s (currpid s) e); try done.
      * right. unfold where_is. by rewrite Hst.
      * apply (iv_prio _ _ _ _ HI _ _ He).
      * intros ?. by apply (iv_stk _ _ _ _ HI _ _ He).
    + done.
    + intros (e1 & He1 & Hs1). destruct Hf as (e2 & He2 & Hs2). congruence.
    + intros Hnf. by destruct Hnf.
  - destruct (where_ready_split Q s pid e HI He Hst) as (l1 & l2 & Hl).
    destruct (getitem_spec _ _ (iv_q _ _ _ _ HI) _ _ Hl l1 pid l2 eq_refl) as (qt & Hg & HQ' & Hky).
    rewrite Hg. krun. rewrite (arr_upd_eq _ _ _ _ He). krun.
    eapply (free_off _ (set_queuetab qt s)); try done; [|by apply Hne].
    apply (pre_inv_leave pid (-1) Q s e qt (readylist s) l1 l2); try done.
    intros i ei Hi. by apply (rl_not_sem _ _ _ _ _ _ HI).
  - rewrite (arr_upd_eq _ _ _ _ He). by apply Hoff; [unfold where_is; rewrite Hst|].
  - destruct (unsleep_run Q s pid e HI He) as (qt & Q' & -> & HQ'); [by left|]. krun.
    rewrite (arr_upd_eq _ _ _ _ He). krun. by eapply (free_off _ (set_queuetab qt s)); try done; apply Hne.
  - rewrite (arr_upd_eq _ _ _ _ He). by apply Hoff; [unfold where_is; rewrite Hst|].
  - destruct (sem_remove Q s pid e HI He Hst) as (se & qt & Q' & Hse & H32 & Hg & HI').
    unfold scount_postinc. krun. rewrite Hse. krun. rewrite (arr_upd_eq _ _ _ _ Hse). krun.
    rewrite Hg. krun. rewrite (arr_upd_eq _ _ _ _ He). krun. rewrite H32.
    by eapply (free_off _ (set_queuetab qt (set_semtab _ s))); try done; apply Hne.
  - destruct (unsleep_run Q s pid e HI He) as (qt & Q' & -> & HQ'); [by right|]. krun.
    rewrite (arr_upd_eq _ _ _ _ He). krun. by eapply (free_off _ (set_queuetab qt s)); try done; apply Hne.
Qed.

Section KillOk.
Context (devtab : Z -> dentry).
Hypothesis Hdev : ∀ d, 0 <= d < NDEVS -> syscall_ok ((devtab d).(dvclose) d).

Lemma kill_close_ok n : ∀ i pid, 0 <= pid < NPROC ->
  ∀ s, Inv s -> s.(currpid) ≠ NULLPROC -> wp Inv (kill_close devtab n i pid s) (λ _ s', back s s').
Proof.
  induction n as [|n IH]; intros i pid Hr s HI Hnn; [by apply back_refl|].
  pose proof HI as ((Q & HQ) & _).
  destruct (arr_len_lookup _ _ _ (iv_pt _ _ _ _ HQ) Hr) as [e He]. simpl. krun. rewrite He. krun.
  apply wp_bind. eapply wp_mono; [by apply close_ok|]. intros v s' Hb. destruct Hb as (HI' & Hcp & Hie).
  eapply wp_mono; [apply IH; [done|done|congruence]|]. intros [] s2 Hb2.
  eapply back_trans; [|exact Hb2]. done.
Qed.

Lemma kill_ok pid : syscall_ok (kill devtab pid).
Proof.
  intros s HI Hnull. unfold kill. krun.
  destruct (isbadpid (proctab s) pid || (pid =? NULLPROC)) eqn:Hbad; krun; [by apply bad_ok|].
  apply orb_false_iff in Hbad as [Hbad Hnz]. apply Z.eqb_neq in Hnz.
  apply isbadpid_false in Hbad as (Hr & e & He & Hf). rewrite He. krun.
  rewrite bool_decide_eq_false_2 by done. krun.
  destruct (s32 (prcount s - 1) <=? 1); [done|]. krun.
  set (s1 := set_prcount _ _).
  assert (HI1 : Inv s1).
  { destruct (Inv_ie false s HI) as ((Q & HQ) & Hc & Hn). apply (Inv_intro Q); try done.
    by apply kinv_prcount. }
  apply wp_bind. eapply wp_mono; [by apply send_ok|]. intros v2 s2 Hb2. pose proof Hb2 as (HI2 & Hcp2 & Hie2).
  apply wp_bind. eapply wp_mono; [apply kill_close_ok; [done|done|by rewrite Hcp2]|].
  intros v3 s3 Hb3. pose proof Hb3 as (HI3 & Hcp3 & Hie3). pose proof HI3 as ((Q & HQ) & Hc & Hn).
  destruct (arr_len_lookup _ _ _ (iv_pt _ _ _ _ HQ) Hr) as [e3 He3]. rewrite He3. krun.
  destruct (iv_mem _ _ _ _ HQ) as [l HR].
  destruct (freestk_safe _ _ (prstkbase e3) (prstklen e3) HR) as (r & m & l' & -> & HR' & Hmn & Hmx).
  { by apply (iv_stk _ _ _ _ HQ _ _ He3). }
  krun. apply wp_bind. eapply wp_mono.
  { apply kill_switch_back; [|by simpl; rewrite Hie3, Hie2|done|done].
    apply (Inv_intro Q); try done. by eapply kinv_mem. }
  intros v4 s4 (HI4 & Hcp4 & Hie4). krun. apply back_restore; [done|]. kst_simpl.
  split; [done|]. split; kst_simpl; [by rewrite Hcp4, Hcp3, Hcp2|by rewrite Hie4, Hie3, Hie2].
Qed.
End KillOk.
