(* ===== verification/Init.v ===== *)
(** Start of the system: system/initialize.c (sysinit) and system/bufinit.c.
    The state it leaves satisfies the kernel invariant. *)

From S2P Require Import Prelude Types Queue Memory Kernel Sched Sem Msg Clock Devsw.

(** * The operations *)

Definition NULLSTK : Z := 8192.

(** [for (i = i0; i < i0 + n; i++) body(i)] *)
Fixpoint kfor (n : nat) (i : Z) (body : Z -> K unit) : K unit :=
  match n with
  | O => mret tt
  | S n => body i;; kfor n (i + 1) body
  end.

(** system/bufinit.c: bufinit *)
Definition bufinit : K Z := modify (set_nbpools 0);; mret OK.

Definition set_prname (x : list Z) (p : procent) : procent :=
  Procent p.(prstate) p.(prprio) p.(prstkptr) p.(prstkbase) p.(prstklen) x
    p.(prsem) p.(prparent) p.(prmsg) p.(prhasmsg) p.(prdesc).
Definition set_prstkbase (x : Z) (p : procent) : procent :=
  Procent p.(prstate) p.(prprio) p.(prstkptr) x p.(prstklen) p.(prname)
    p.(prsem) p.(prparent) p.(prmsg) p.(prhasmsg) p.(prdesc).
Definition set_prstklen (x : Z) (p : procent) : procent :=
  Procent p.(prstate) p.(prprio) p.(prstkptr) p.(prstkbase) x p.(prname)
    p.(prsem) p.(prparent) p.(prmsg) p.(prhasmsg) p.(prdesc).
Definition set_prstkptr0 (p : procent) : procent :=
  Procent p.(prstate) p.(prprio) 0 p.(prstkbase) p.(prstklen) p.(prname)
    p.(prsem) p.(prparent) p.(prmsg) p.(prhasmsg) p.(prdesc).

(** "prnull" and the byte 0 that strncpy(_, "prnull", 7) copies. *)
Definition prnull : list Z := [112; 114; 110; 117; 108; 108; 0].

(** The loop body that makes a process table entry free. *)
Definition init_proc (i : Z) : K unit :=
  updproc (λ p, set_prprio 0 (set_prstkbase NULL (set_prname (<[0%nat := 0]> p.(prname))
                  (set_prstate PR_FREE p)))) i.

(** The loop body that initializes a semaphore. *)
Definition init_sem (i : Z) : K unit :=
  updsem (λ e, set_scount 0 (set_sstate S_FREE e)) i;;
  q ← knewqueue;
  updsem (set_squeue q) i.

Section Init.
Context (devtab : Z -> dentry).
(** [&end] and [MAXADDR] *)
Context (text_end maxaddr : Z).

(** The part of sysinit before the devices are initialized. *)
Definition sysinit_tables : K unit :=
  modify (λ s, set_mem (meminit text_end maxaddr s.(mem)) s);;
  modify (set_prcount 1);;
  modify (set_ndefers 0);;
  kfor (Z.to_nat NPROC) 0 init_proc;;
  updproc (set_prstate PR_CURR) NULLPROC;;
  updproc (set_prprio 0) NULLPROC;;
  updproc (λ p, set_prname (prnull ++ drop 7 p.(prname)) p) NULLPROC;;
  base ← mop (getstk NULLSTK);
  updproc (set_prstkbase base) NULLPROC;;
  updproc (set_prstklen NULLSTK) NULLPROC;;
  updproc set_prstkptr0 NULLPROC;;
  modify (set_currpid NULLPROC);;
  kfor (Z.to_nat NSEM) 0 init_sem;;
  bufinit;;
  q ← knewqueue;
  modify (set_readylist q);;
  clkinit.

(** system/initialize.c: sysinit; the platform code (platinit, initevec, setstk,
    am335x_init) touches no variable of the kernel. *)
Definition sysinit : K unit :=
  sysinit_tables;;
  kfor (Z.to_nat NDEVS) 0 (λ i, init devtab i;; mret tt).

(** * The state at the start: what the C start-up code has cleared *)

Definition proc0 : procent := Procent PR_FREE 0 0 0 0 (replicate 16 0) 0 0 0 false (replicate 5 0).

(** The state of a port is 0 then, which is none of the constants of ports.h; ptinit, which the
    ports need first, writes it before anything reads it. *)
Definition boot (memlist : Z) : kst :=
  Kst queuetab0 NPROC (arr_make (Z.to_nat NPROC) proc0) 0 0 0 0 false 0 1 0 0 0 1000
    (arr_make (Z.to_nat NSEM) (Sentry S_FREE 0 0)) 0
    (Memst {[mlength memlist := 0]} memlist 0 0) false
    (arr_make (Z.to_nat NPORTS) (Ptentry 0 0 PT_FREE 0 0 0 0)) 0 0
    (arr_make (Z.to_nat NBPOOLS) (Bpentry 0 0 0)) 0.
End Init.

(** * sysinit establishes the invariant *)

Lemma kfor_S n i body s s' : body i s = Done tt s' -> kfor (S n) i body s = kfor n (i + 1) body s'.
Proof. intros H. simpl. by rewrite (bind_done _ _ _ _ _ H). Qed.

Lemma kfor_same n : ∀ i body s,
  (∀ j, i <= j < i + Z.of_nat n -> body j s = Done tt s) -> kfor n i body s = Done tt s.
Proof.
  induction n as [|n IH]; intros i body s H; [done|]. simpl. krun. rewrite H by lia. krun.
  apply IH. intros j Hj. apply H. lia.
Qed.

Lemma init_proc_boot i s :
  s.(proctab) = arr_make (Z.to_nat NPROC) proc0 -> 0 <= i < NPROC -> init_proc i s = Done tt s.
Proof.
  intros Hp Hi. assert (Hl : proctab s !! i = Some proc0).
  { rewrite Hp. apply arr_make_lookup. unfold NPROC in *. lia. }
  unfold init_proc, updproc. rewrite (arr_upd_eq _ _ _ _ Hl).
  change (set_prprio 0 _) with proc0. rewrite insert_id by done. by destruct s.
Qed.

(** The queues allocated so far: [n] of them, all empty. *)
Definition fresh_queues (n : Z) (Q : queues) : Prop :=
  (∀ q, is_Some (Q !! q) <-> ∃ j, 0 <= j < n /\ q = NPROC + 2 * j) /\
  (∀ q l, Q !! q = Some l -> l = []).

Lemma knewqueue_run n Q s :
  qrep s.(queuetab) Q -> fresh_queues n Q -> s.(nextqid) = NPROC + 2 * n -> 0 <= n < 102 ->
  ∃ qt, knewqueue s = Done (NPROC + 2 * n) (set_nextqid (NPROC + 2 * (n + 1)) (set_queuetab qt s)) /\
    qrep qt (<[NPROC + 2 * n := []]> Q) /\ fresh_queues (n + 1) (<[NPROC + 2 * n := []]> Q).
Proof.
  intros HQ [Hdom Hnil] Hnq Hn.
  destruct (newqueue_spec (queuetab s) Q (NPROC + 2 * n) HQ) as (qt & Hrun & HQ' & _).
  - unfold qid_ok, NQENT, NPROC, NSEM. split; [lia|]. split; [lia|].
    rewrite Z.even_add, Z.even_mul. done.
  - destruct (Q !! (NPROC + 2 * n)) eqn:E; [|done].
    destruct (proj1 (Hdom (NPROC + 2 * n))) as (j & ? & ?); [eauto|]. unfold NPROC in *. lia.
  - exists qt. unfold knewqueue. rewrite Hnq, Hrun.
    replace (NPROC + 2 * n + 2) with (NPROC + 2 * (n + 1)) by lia. split; [done|]. split; [done|].
    split.
    + intros q. destruct (decide (NPROC + 2 * n = q)) as [<-|Hne].
      * rewrite lookup_insert_eq. split; [intros _; exists n; split; [lia|done]|eauto].
      * rewrite lookup_insert_ne by done. rewrite Hdom. split; intros (j & ? & ?).
        -- exists j. split; [lia|done].
        -- exists j. split; [|done]. assert (j ≠ n) by congruence. lia.
    + intros q l. destruct (decide (NPROC + 2 * n = q)) as [<-|Hne].
      * rewrite lookup_insert_eq. by intros [= <-].
      * rewrite lookup_insert_ne by done. apply Hnil.
Qed.

(** The semaphore table after [n] iterations. *)
Lemma init_sem_loop n : ∀ i Q s,
  arr_len NSEM s.(semtab) -> qrep s.(queuetab) Q -> fresh_queues i Q ->
  s.(nextqid) = NPROC + 2 * i -> 0 <= i -> i + Z.of_nat n = NSEM ->
  (∀ j, 0 <= j < i -> s.(semtab) !! j = Some (Sentry S_FREE 0 (NPROC + 2 * j))) ->
  ∃ qt Q' st, kfor n i init_sem s =
      Done tt (set_nextqid (NPROC + 2 * NSEM) (set_queuetab qt (set_semtab st s))) /\
    qrep qt Q' /\ fresh_queues NSEM Q' /\ arr_len NSEM st /\
    (∀ j, 0 <= j < NSEM -> st !! j = Some (Sentry S_FREE 0 (NPROC + 2 * j))).
Proof.
  induction n as [|n IH]; intros i Q s Hlen HQ HF Hnq Hi Hn Hst.
  - exists (queuetab s), Q, (semtab s). replace i with NSEM in * by lia. rewrite <- Hnq.
    split; [by destruct s|done].
  - destruct (arr_len_lookup _ _ i Hlen) as [e He]; [lia|].
    destruct (knewqueue_run i Q (set_semtab (<[i := set_scount 0 (set_sstate S_FREE e)]> (semtab s)) s)
      HQ HF Hnq) as (qt & Hrun & HQ' & HF'); [unfold NSEM in *; lia|].
    erewrite kfor_S; cycle 1.
    { unfold init_sem. krun. rewrite (arr_upd_eq _ _ _ _ He). krun. rewrite Hrun. krun.
      rewrite (arr_upd_eq _ i _ (set_scount 0 (set_sstate S_FREE e))) by apply lookup_insert_eq. krun.
      rewrite insert_insert_eq. reflexivity. }
    edestruct (IH (i + 1)) as (qt2 & Q2 & st2 & Hrun2 & Hr); [| | | | | | |].
    8:{ exists qt2, Q2, st2. rewrite Hrun2. split; [reflexivity|exact Hr]. }
    + simpl. apply arr_len_insert; [done|lia].
    + exact HQ'.
    + exact HF'.
    + done.
    + lia.
    + lia.
    + intros j Hj. simpl. destruct (decide (j = i)) as [->|Hne].
      * by rewrite lookup_insert_eq.
      * rewrite lookup_insert_ne by done. apply Hst. lia.
Qed.

(** The null process after sysinit. *)
Definition nullproc (base : Z) : procent :=
  Procent PR_CURR 0 0 base NULLSTK (prnull ++ replicate 9 0) 0 0 0 false (replicate 5 0).

Definition boot_ptab (base : Z) : ptab := <[NULLPROC := nullproc base]> (arr_make (Z.to_nat NPROC) proc0).

Lemma boot_ptab_lookup base p e :
  boot_ptab base !! p = Some e -> p = NULLPROC /\ e = nullproc base \/ p ≠ NULLPROC /\ e = proc0.
Proof.
  unfold boot_ptab. destruct (decide (NULLPROC = p)) as [<-|Hne].
  - rewrite lookup_insert_eq. intros [= <-]. by left.
  - rewrite lookup_insert_ne by done. intros He.
    pose proof (arr_len_lt _ _ _ _ (arr_make_len (Z.to_nat NPROC) proc0) He).
    rewrite arr_make_lookup in He by done. injection He as <-. by right.
Qed.

(** The start of sysinit: the heap and the process table. *)
Lemma boot_heap text_end maxaddr ml :
  0 < ml -> ml + 8 <= text_end -> text_end < maxaddr -> maxaddr <= 4294967288 ->
  text_end mod 8 = 0 -> maxaddr mod 8 = 0 ->
  ∃ base m l, getstk NULLSTK (meminit text_end maxaddr (mem (boot ml))) = Some (base, m) /\
    mem_rep m l.
Proof.
  intros H1 H2 H3 H4 H5 H6.
  assert (HR : mem_rep (meminit text_end maxaddr (mem (boot ml))) [(text_end, maxaddr - text_end)]).
  { apply meminit_spec; try done. simpl. exists 0. apply lookup_singleton_eq. }
  pose proof (getstk_spec _ _ NULLSTK HR ltac:(done)) as Hs.
  destruct (fl_getstk _ _) as [[a l']|].
  - destruct Hs as (m & Hg & HR' & _). eauto.
  - eauto.
Qed.

Lemma mop_run {A} (f : memst -> option (A * memst)) s a m :
  f (mem s) = Some (a, m) -> mop f s = Done a (set_mem m s).
Proof. intros H. unfold mop. by rewrite H. Qed.

Lemma updproc_insert {B} f p e pt s (g : unit -> K B) :
  (updproc f p ≫= g) (set_proctab (<[p := e]> pt) s) = g tt (set_proctab (<[p := f e]> pt) s).
Proof.
  rewrite (bind_done _ _ _ tt (set_proctab (<[p := f e]> pt) s)); [done|].
  unfold updproc. kst_simpl. rewrite (arr_upd_eq _ _ _ e) by apply lookup_insert_eq.
  by rewrite insert_insert_eq.
Qed.

Lemma proctab_insert_id s pt p e :
  s.(proctab) = pt -> pt !! p = Some e -> s = set_proctab (<[p := e]> pt) s.
Proof. intros <- He. rewrite insert_id by done. by destruct s. Qed.

(** The order of the last assignments of sysinit does not matter. *)
Lemma sysinit_last s qt qt2 qt3 st :
  set_clktime 0 (set_preempt QUANTUM (set_sleepq 302 (set_nextqid 304 (set_queuetab qt3
    (set_readylist 300 (set_nextqid 302 (set_queuetab qt2 (set_nextqid 300
      (set_queuetab qt (set_semtab st s)))))))))) =
  set_clktime 0 (set_preempt QUANTUM (set_sleepq 302 (set_nextqid 304 (set_readylist 300
    (set_queuetab qt3 (set_semtab st s)))))).
Proof.
  cbv [set_clktime set_preempt set_sleepq set_nextqid set_readylist set_queuetab set_semtab
    queuetab nextqid proctab currpid prcount readylist ndefers attempt preempt nextpid
    sleepq clktime clkticks count1000 semtab nextsem mem ie porttab ptfree ptnextid buftab nbpools].
  reflexivity.
Qed.

#[local] Opaque kfor arr_make meminit.

Lemma sysinit_tables_run text_end maxaddr ml :
  0 < ml -> ml + 8 <= text_end -> text_end < maxaddr -> maxaddr <= 4294967288 ->
  text_end mod 8 = 0 -> maxaddr mod 8 = 0 ->
  ∃ base m l qt Q st, mem_rep m l /\ qrep qt Q /\ fresh_queues 102 Q /\ arr_len NSEM st /\
    (∀ j, 0 <= j < NSEM -> st !! j = Some (Sentry S_FREE 0 (NPROC + 2 * j))) /\
    sysinit_tables text_end maxaddr (boot ml) = Done tt
      (set_clktime 0 (set_preempt QUANTUM (set_sleepq 302 (set_nextqid 304 (set_readylist 300
        (set_queuetab qt (set_semtab st (set_proctab (boot_ptab base)
          (set_prcount 1 (set_mem m (boot ml))))))))))).
Proof.
  intros H1 H2 H3 H4 H5 H6.
  destruct (boot_heap text_end maxaddr ml H1 H2 H3 H4 H5 H6) as (base & m & l & Hstk & HR).
  set (s1 := set_ndefers 0 (set_prcount 1 (set_mem (meminit text_end maxaddr (mem (boot ml))) (boot ml)))).
  set (s2 := set_proctab (boot_ptab base) (set_prcount 1 (set_mem m (boot ml)))).
  destruct (init_sem_loop (Z.to_nat NSEM) 0 ∅ s2) as (qt & Q & st & Hsem & HQ & HF & Hlen & Hst);
    [exact (arr_make_len (Z.to_nat NSEM) _)|exact qrep_empty| |reflexivity|lia|reflexivity|intros; lia|].
  { split; [|intros q l0; by rewrite lookup_empty]. intros q. rewrite lookup_empty.
    split; [by intros [? ?]|intros (j & ? & _); lia]. }
  set (s3 := set_nextqid (NPROC + 2 * NSEM) (set_queuetab qt (set_semtab st s2))) in *.
  destruct (knewqueue_run 100 Q s3 HQ HF eq_refl) as (qt2 & Hq1 & HQ2 & HF2); [lia|].
  set (s4 := set_readylist (NPROC + 2 * 100) (set_nextqid (NPROC + 2 * (100 + 1)) (set_queuetab qt2 s3))).
  destruct (knewqueue_run 101 _ s4 HQ2 HF2 eq_refl) as (qt3 & Hq2 & HQ3 & HF3); [lia|].
  exists base, m, l, qt3, (<[NPROC + 2 * 101 := []]> (<[NPROC + 2 * 100 := []]> Q)), st.
  split; [exact HR|]. split; [exact HQ3|]. split; [exact HF3|]. split; [exact Hlen|]. split; [exact Hst|].
  unfold sysinit_tables.
  rewrite bind_modify.
  cbv beta. rewrite bind_modify. cbv beta.
  rewrite bind_modify. cbv beta. fold s1.
  rewrite (bind_done (kfor (Z.to_nat NPROC) 0 init_proc) _ s1 tt s1);
    [|apply kfor_same; intros j Hj; apply init_proc_boot; [done|unfold NPROC in *; lia]].
  cbv beta.
  assert (Hs1 : s1 = set_proctab (<[NULLPROC := proc0]> (arr_make (Z.to_nat NPROC) proc0)) s1).
  { apply proctab_insert_id; [unfold s1, boot; reflexivity|].
    apply arr_make_lookup. unfold NPROC, NULLPROC. lia. }
  rewrite Hs1. rewrite updproc_insert. cbv beta. rewrite updproc_insert. cbv beta. rewrite updproc_insert. cbv beta.
  match goal with |- context [set_proctab ?t s1] =>
    rewrite (bind_done _ _ _ _ _ (mop_run (getstk NULLSTK) (set_proctab t s1) base m Hstk));
    change (set_mem m (set_proctab t s1)) with (set_proctab t (set_mem m s1))
  end.
  cbv beta. rewrite updproc_insert. cbv beta. rewrite updproc_insert. cbv beta. rewrite updproc_insert. cbv beta.
  rewrite bind_modify. cbv beta.
  match goal with |- context [<[NULLPROC := ?e]> (arr_make _ proc0)] =>
    change e with (nullproc base)
  end.
  fold (boot_ptab base).
  change (set_currpid NULLPROC _) with s2.
  rewrite (bind_done (kfor (Z.to_nat NSEM) 0 init_sem) _ _ tt s3 Hsem).
  cbv beta. rewrite (bind_done bufinit _ s3 OK s3) by reflexivity. cbv beta.
  rewrite (bind_done _ _ _ _ _ Hq1). cbv beta.
  rewrite bind_modify. cbv beta. fold s4.
  unfold clkinit. rewrite (bind_done _ _ _ _ _ Hq2). cbv beta. rewrite !bind_modify. unfold modify.
  exact (f_equal (Done tt) (sysinit_last s2 qt qt2 qt3 st)).
Qed.

#[local] Transparent kfor meminit.

Lemma fresh_nil n Q q l : fresh_queues n Q -> Q !! q = Some l -> l = [].
Proof. intros [_ H]. apply H. Qed.

Lemma fresh_dom n Q j : fresh_queues n Q -> 0 <= j < n -> is_Some (Q !! (NPROC + 2 * j)).
Proof. intros [H _] Hj. apply H. eauto. Qed.

(** The state with only empty queues in which the null process runs. *)
Lemma boot_inv s base m l Q :
  s.(proctab) = boot_ptab base -> s.(currpid) = NULLPROC -> s.(ndefers) = 0 -> s.(mem) = m ->
  s.(readylist) = 300 -> s.(sleepq) = 302 -> s.(nextsem) = 0 -> s.(nextpid) = 1 ->
  arr_len NSEM s.(semtab) ->
  (∀ j, 0 <= j < NSEM -> s.(semtab) !! j = Some (Sentry S_FREE 0 (NPROC + 2 * j))) ->
  mem_rep m l -> qrep s.(queuetab) Q -> fresh_queues 102 Q -> Inv s.
Proof.
  intros Hpt Hcp Hnd Hm Hrl Hsl Hns Hnp Hlen Hst HR HQ HF.
  assert (Hp0 : proctab s !! NULLPROC = Some (nullproc base)) by (rewrite Hpt; apply lookup_insert_eq).
  assert (Hse : ∀ i e, semtab s !! i = Some e -> 0 <= i < NSEM /\ e = Sentry S_FREE 0 (NPROC + 2 * i)).
  { intros i e Hi. pose proof (arr_len_lt _ _ _ _ Hlen Hi) as Hr. rewrite (Hst _ Hr) in Hi.
    injection Hi as <-. done. }
  apply (Inv_intro Q); [|exists (nullproc base); by rewrite Hcp|done].
  constructor; rewrite ?Hrl, ?Hsl, ?Hcp, ?Hm, ?Hns, ?Hnp; try done.
  - rewrite Hpt. apply arr_len_insert; [exact (arr_make_len (Z.to_nat NPROC) proc0)|done].
  - apply (fresh_dom _ _ 100 HF). lia.
  - apply (fresh_dom _ _ 101 HF). lia.
  - intros i e Hi. destruct (Hse _ _ Hi) as [Hr ->]. apply (fresh_dom _ _ i HF). unfold NSEM in *. lia.
  - intros i e Hi. destruct (Hse _ _ Hi) as [Hr ->]. simpl. unfold NSEM, NPROC in *. lia.
  - intros i j ei ej Hi Hj. destruct (Hse _ _ Hi) as [_ ->], (Hse _ _ Hj) as [_ ->]. simpl. lia.
  - intros p e q l0 Hp Hl. rewrite (fresh_nil _ _ _ _ HF Hl). rewrite Hpt in Hp.
    split; [intros Hin; by apply not_elem_of_nil in Hin|].
    apply boot_ptab_lookup in Hp as [[_ ->]|[_ ->]]; unfold where_is; simpl; intros [_ ?]; done.
  - intros i e l0 Hi Hl _. rewrite (fresh_nil _ _ _ _ HF Hl). destruct (Hse _ _ Hi) as [Hr ->]. done.
  - intros l0 Hl. rewrite (fresh_nil _ _ _ _ HF Hl). constructor.
  - intros p e Hp. rewrite Hpt in Hp. by apply boot_ptab_lookup in Hp as [[-> ->]|[_ ->]].
  - exists (nullproc base). split; [done|by right].
  - intros p e Hp. rewrite Hpt in Hp. apply boot_ptab_lookup in Hp as [[-> ->]|[_ ->]]; simpl; lia.
  - eauto.
  - intros p e Hp Hne. rewrite Hpt in Hp. apply boot_ptab_lookup in Hp as [[-> ->]|[_ ->]]; [done|].
    by left.
  - intros i e Hi. destruct (Hse _ _ Hi) as [Hr ->]. unfold is_s32. simpl. lia.
  - intros p e Hp. rewrite Hpt in Hp. by apply boot_ptab_lookup in Hp as [[-> ->]|[_ ->]].
  - intros i e Hi _ _. destruct (Hse _ _ Hi) as [Hr ->]. done.
Qed.

(** A layout of the memory that the linker may choose. *)
Definition layout_ok (text_end maxaddr ml : Z) : Prop :=
  0 < ml /\ ml + 8 <= text_end /\ text_end < maxaddr /\ maxaddr <= 4294967288 /\
  text_end mod 8 = 0 /\ maxaddr mod 8 = 0.

Lemma sysinit_tables_inv text_end maxaddr ml :
  layout_ok text_end maxaddr ml ->
  ∃ s, sysinit_tables text_end maxaddr (boot ml) = Done tt s /\ Inv s /\ s.(currpid) = NULLPROC.
Proof.
  intros (H1 & H2 & H3 & H4 & H5 & H6).
  destruct (sysinit_tables_run text_end maxaddr ml H1 H2 H3 H4 H5 H6)
    as (base & m & l & qt & Q & st & HR & HQ & HF & Hlen & Hst & Hrun).
  eexists. split; [exact Hrun|]. split; [|reflexivity].
  eapply (boot_inv _ base m l Q); try reflexivity; try exact HR; try exact HQ; try exact HF;
    try exact Hlen. exact Hst.
Qed.

(** A driver's initialization: the null process calls it, and has the processor
    back. *)
Definition inits_ok (devtab : Z -> dentry) : Prop :=
  ∀ d s, 0 <= d < NDEVS -> Inv s -> wp Inv ((devtab d).(dvinit) d s) (λ _ s', back s s').

Lemma init_loop_ok devtab n : ∀ i s,
  inits_ok devtab -> Inv s ->
  wp Inv (kfor n i (λ i, init devtab i;; mret tt) s) (λ _ s', back s s').
Proof.
  induction n as [|n IH]; intros i s Hd HI; [by apply back_refl|].
  assert (Hinit : wp Inv (init devtab i s) (λ _ s', back s s')).
  { unfold init. krun. destruct (isbaddev i) eqn:Hb; krun; [by apply bad_ok|].
    unfold isbaddev in Hb. bool_hyps. apply wp_bind. eapply wp_mono; [apply Hd; [lia|by apply Inv_ie]|].
    intros v s' Hb. krun. by apply back_restore. }
  simpl kfor. apply wp_seq. eapply wp_mono.
  { apply wp_seq. eapply wp_mono; [exact Hinit|]. intros v s' Hb.
    instantiate (1 := λ _ s', back s s'). exact Hb. }
  intros [] s' Hb. pose proof Hb as (HI' & _). eapply wp_mono; [by apply IH|]. intros [] s2 (H1 & H2 & H3).
  destruct Hb as (_ & H4 & H5). split; [done|]. split; congruence.
Qed.

Lemma sysinit_inv devtab text_end maxaddr ml :
  layout_ok text_end maxaddr ml -> inits_ok devtab ->
  wp Inv (sysinit devtab text_end maxaddr (boot ml)) (λ _ s, Inv s /\ s.(currpid) = NULLPROC).
Proof.
  intros Hl Hd. destruct (sysinit_tables_inv text_end maxaddr ml Hl) as (s & Hrun & HI & Hcp).
  unfold sysinit. rewrite (bind_done _ _ _ _ _ Hrun). cbv beta.
  eapply wp_mono; [by apply init_loop_ok|]. intros v s' (HI' & Hc & _). split; [done|congruence].
Qed.
