(* ===== verification/System.v ===== *)
(** The kernel as a whole: the system calls and the clock interrupt as a step
    relation on configurations, the processes of which are any programs that
    call the kernel; the invariant holds in every configuration that can be
    reached from the start of the system, and no step is undefined. *)

From S2P Require Import Prelude Types Queue Memory Kernel Sched Observe Sem Msg Clock Devsw Proc Init.

(** * System calls *)

Inductive syscall :=
  | SYield | SSuspend (pid : Z) | SResume (pid : Z) | SChprio (pid newprio : Z) | SGetprio (pid : Z)
  | SSemcreate (count : Z) | SSemdelete (sem : Z) | SSemcount (sem : Z) | SSemreset (sem count : Z)
  | SSignal (sem : Z) | SSignaln (sem count : Z) | SWait (sem : Z)
  | SSend (pid msg : Z) | SReceive | SRecvclr | SRecvtime (maxwait : Z)
  | SSleep (delay : Z) | SSleepms (delay : Z)
  | SCreate (procaddr ssize priority : Z) (name args : list Z) | SKill (pid : Z) | SExit.

Section System.
Context (devtab : Z -> dentry) (plat : platform) (initret : Z).

(** ** The start: system/initialize.c *)

(** The loop of nulluser that adds up the lengths of the free blocks. *)
Fixpoint free_mem_loop (fuel : nat) (ms : memst) (memptr free_mem : Z) : option Z :=
  match fuel with
  | O => None
  | S fuel =>
      if memptr =? NULL then Some free_mem
      else
        len ← ldw ms (mlength memptr);
        nxt ← ldw ms (mnext memptr);
        free_mem_loop fuel ms nxt (u32 (free_mem + len))
  end.

Definition free_mem (ms : memst) : option Z :=
  p ← ldw ms (mnext ms.(memlist)); free_mem_loop (heap_fuel ms) ms p 0.

Definition INITSTK : Z := 65536.
Definition INITPRIO : Z := 20.

(** "Main process" *)
Definition main_name : list Z := [77; 97; 105; 110; 32; 112; 114; 111; 99; 101; 115; 115].

(** system/initialize.c: nulluser, up to its idle loop; the messages it prints
    are left out, but what it reads for them is not.  [main] is the address of
    the function main. *)
Definition nulluser (text_end maxaddr main : Z) : K Z :=
  sysinit devtab text_end maxaddr;;
  total ← (λ s, opt (free_mem s.(mem)) s);
  modify (set_ie true);;
  pid ← create plat initret main INITSTK INITPRIO main_name [];
  resume pid.

Definition exec (c : syscall) : K Z :=
  match c with
  | SYield => yield
  | SSuspend pid => suspend pid
  | SResume pid => resume pid
  | SChprio pid p => chprio pid p
  | SGetprio pid => getprio pid
  | SSemcreate n => semcreate n
  | SSemdelete sem => semdelete sem
  | SSemcount sem => semcount sem
  | SSemreset sem n => semreset sem n
  | SSignal sem => signal sem
  | SSignaln sem n => signaln sem n
  | SWait sem => wait sem
  | SSend pid msg => send pid msg
  | SReceive => receive
  | SRecvclr => recvclr
  | SRecvtime t => recvtime t
  | SSleep d => sleep d
  | SSleepms d => sleepms d
  | SCreate a ss pr nm args => create plat initret a ss pr nm args
  | SKill pid => kill devtab pid
  | SExit => exit devtab;; mret OK
  end.

(** What the types of the arguments say, and two limits that the code does not
    check: the count of a semaphore does not overflow, and the arguments of a
    new process fit on its stack. *)
Definition call_pre (c : syscall) (s : kst) : Prop :=
  match c with
  | SChprio _ p => -32768 <= p < 32768
  | SSemcreate n => is_s32 n
  | SSemreset _ n => is_s32 n
  | SSemdelete sem | SSignal sem => sem_room sem 1 s
  | SSignaln sem n => sem_room sem (Z.max 0 n) s
  | SCreate _ ss pr _ args =>
      0 <= ss <= 4294967288 /\ -32768 <= pr < 32768 /\ (length args <= 88)%nat
  | _ => True
  end.

(** * Configurations

    A configuration is the result of the kernel code that is running and what
    each process that has given up the processor in the middle of a call will
    do when it has it back.  A result that is [Done] means that the current
    process runs its own program. *)

Record conf := Conf { running : res Z; saved : gmap Z (kst -> res Z) }.

Definition live (s : kst) (p : Z) : bool :=
  match s.(proctab) !! p with Some e => bool_decide (e.(prstate) ≠ PR_FREE) | None => false end.

(** Processes that have been killed never run again, whatever process gets the
    same entry of the table later. *)
Definition purge (s : kst) (sv : gmap Z (kst -> res Z)) : gmap Z (kst -> res Z) :=
  filter (λ pk, live s pk.1 = true) sv.

Inductive step : conf -> conf -> Prop :=
  | step_call v s sv c :
      s.(currpid) ≠ NULLPROC -> call_pre c s ->
      step (Conf (Done v s) sv) (Conf (exec c s) (purge s sv))
  | step_irq_qemu v s sv :
      step (Conf (Done v s) sv) (Conf ((irq clkhandler_qemu;; mret v) s) (purge s sv))
  | step_irq_bbb v s sv ovf :
      step (Conf (Done v s) sv) (Conf ((irq (clkhandler_bbb ovf);; mret v) s) (purge s sv))
  | step_resume old s k sv k' :
      purge s (<[old := k]> sv) !! s.(currpid) = Some k' ->
      step (Conf (Ctxsw old s k) sv)
           (Conf (k' (set_ie false s)) (delete s.(currpid) (purge s (<[old := k]> sv))))
  | step_start old s k sv :
      purge s (<[old := k]> sv) !! s.(currpid) = None ->
      step (Conf (Ctxsw old s k) sv)
           (Conf (Done 0 (set_ie true s)) (purge s (<[old := k]> sv))).

Inductive steps : conf -> conf -> Prop :=
  | steps_refl c : steps c c
  | steps_step c1 c2 c3 : steps c1 c2 -> step c2 c3 -> steps c1 c3.

(** * The invariant *)

Hypothesis Hclose : ∀ d, 0 <= d < NDEVS -> syscall_ok ((devtab d).(dvclose) d).

Lemma free_mem_loop_spec l : ∀ fuel ms p n lo hi,
  flist ms.(words) p l -> fl_ok lo hi l -> 0 < lo -> (length l < fuel)%nat ->
  is_Some (free_mem_loop fuel ms p n).
Proof.
  induction l as [|[a len] l IH]; intros [|fuel] ms p n lo hi Hl Hok Hlo Hf; simpl in Hf; try lia.
  - simpl in Hl. subst p. simpl. eauto.
  - destruct Hl as (-> & Hn & nxt & Hnx & Hl). destruct Hok as (H1 & H2 & H3 & H4 & H5 & H6).
    simpl. unfold NULL. destruct (a =? 0) eqn:E; bool_hyps; [lia|].
    unfold ldw. rewrite Hn, Hnx. simpl. eapply IH; [done|done|lia|lia].
Qed.

Lemma free_mem_ok ms l : mem_rep ms l -> is_Some (free_mem ms).
Proof.
  intros HR. unfold free_mem. pose proof (mem_rep_fuel _ _ HR) as Hf. destruct HR as [H1 H2 H3 H4].
  destruct H1 as (p & Hp & Hl). rewrite Hp.
  change (is_Some (free_mem_loop (heap_fuel ms) ms p 0)). eapply free_mem_loop_spec; [done|done|lia|done].
Qed.

Lemma nulluser_ok text_end maxaddr ml main :
  layout_ok text_end maxaddr ml -> inits_ok devtab ->
  wp Inv (nulluser text_end maxaddr main (boot ml)) (λ _ s, Inv s /\ s.(currpid) = NULLPROC).
Proof.
  intros Hl Hi. unfold nulluser. apply wp_seq. eapply wp_mono; [by apply sysinit_inv|].
  intros [] s (HI & Hc). cbv beta. pose proof HI as ((Q & HQ) & _).
  destruct (iv_mem _ _ _ _ HQ) as (l & HR). destruct (free_mem_ok _ _ HR) as [t Ht].
  rewrite (bind_done _ _ s t s) by (cbv beta; by rewrite Ht). cbv beta. rewrite bind_modify. cbv beta.
  apply wp_seq. eapply wp_mono.
  { apply create_ok; [unfold INITSTK; lia|unfold INITPRIO; lia|simpl; lia|by apply Inv_ie]. }
  intros pid s1 (HI1 & Hc1 & _). cbv beta. eapply wp_mono; [by apply resume_ok|].
  intros v s2 (HI2 & Hc2 & _). split; [done|]. rewrite Hc2, Hc1. done.
Qed.

Lemma exit_ok : syscall_ok (exit devtab;; mret OK).
Proof.
  intros s HI Hn. unfold exit, getpid. krun. apply wp_bind. apply wp_bind.
  eapply wp_mono; [by apply kill_ok|]. intros v s' Hb. by krun.
Qed.

Lemma exec_ok c : syscall_pre_ok (call_pre c) (exec c).
Proof.
  intros s HI Hn Hpre. destruct c; simpl in Hpre |- *.
  - by apply yield_ok.
  - by apply suspend_ok.
  - by apply resume_ok.
  - by apply chprio_ok.
  - by apply getprio_ok.
  - by apply semcreate_ok.
  - by apply semdelete_ok.
  - by apply semcount_ok.
  - by apply semreset_ok.
  - by apply signal_ok.
  - by apply signaln_ok.
  - by apply wait_ok.
  - by apply send_ok.
  - by apply receive_ok.
  - by apply recvclr_ok.
  - by apply recvtime_ok.
  - by apply sleep_ok.
  - by apply sleepms_ok.
  - destruct Hpre as (? & ? & ?). by apply create_ok.
  - by apply kill_ok.
  - by apply exit_ok.
Qed.

(** What a saved continuation does is fine whenever its process is the one that
    runs. *)
Definition cont_ok (p : Z) (k : kst -> res Z) : Prop :=
  ∀ s, resumed Inv p s -> wp Inv (k s) (λ _ s', Inv s').

Definition conf_ok (c : conf) : Prop :=
  wp Inv c.(running) (λ _ s, Inv s) /\ ∀ p k, c.(saved) !! p = Some k -> cont_ok p k.

Lemma purge_Some s sv p k : purge s sv !! p = Some k -> sv !! p = Some k /\ live s p = true.
Proof. unfold purge. by rewrite map_lookup_filter_Some. Qed.

Lemma live_alive s p : live s p = true -> alive s p.
Proof.
  unfold live, alive. destruct (proctab s !! p) as [e|]; [|done]. intros H.
  apply bool_decide_eq_true in H. eauto.
Qed.

Lemma irq_conf_ok h s (v : Z) :
  handler_ok h -> Inv s -> wp Inv ((irq h;; mret v) s) (λ _ s', Inv s').
Proof.
  intros Hh HI. apply wp_seq. eapply wp_mono; [by apply irq_ok|]. intros [] s' (HI' & _). done.
Qed.

Lemma step_ok c c' : step c c' -> conf_ok c -> conf_ok c'.
Proof.
  intros Hs [Hr Hsv]. destruct Hs; simpl in *.
  1-3: split; [|intros p k Hp; apply purge_Some in Hp as [Hp _]; by apply Hsv].
  - simpl. eapply wp_mono; [by apply exec_ok|]. by intros v' s' (? & _).
  - apply irq_conf_ok; [apply clkhandler_qemu_ok|done].
  - apply irq_conf_ok; [apply clkhandler_bbb_ok|done].
  - destruct Hr as [HI Hk].
    assert (Hall : ∀ p k0, purge s (<[old := k]> sv) !! p = Some k0 -> cont_ok p k0).
    { intros p k0 Hp. apply purge_Some in Hp as [Hp Hl]. destruct (decide (old = p)) as [<-|Hne].
      - rewrite lookup_insert_eq in Hp. injection Hp as <-. intros s' Hs'. apply Hk; [by apply live_alive|done].
      - rewrite lookup_insert_ne in Hp by done. by apply Hsv. }
    split; simpl.
    + apply (Hall _ _ H). split; [by apply Inv_ie|done].
    + intros p k0 Hp. apply lookup_delete_Some in Hp as [_ Hp]. by apply Hall.
  - destruct Hr as [HI Hk]. split; simpl; [by apply Inv_ie|].
    intros p k0 Hp. apply purge_Some in Hp as [Hp Hl]. destruct (decide (old = p)) as [<-|Hne].
    + rewrite lookup_insert_eq in Hp. injection Hp as <-. intros s' Hs'. apply Hk; [by apply live_alive|done].
    + rewrite lookup_insert_ne in Hp by done. by apply Hsv.
Qed.

Lemma steps_ok c c' : steps c c' -> conf_ok c -> conf_ok c'.
Proof. induction 1; [done|]. intros Hc. eapply step_ok; eauto. Qed.

(** The states that can be observed: of a process that runs its own program, or
    at a context switch. *)
Definition observed (r : res Z) (s : kst) : Prop :=
  (∃ v, r = Done v s) \/ (∃ old k, r = Ctxsw old s k).

(** ** What can be reached from the start *)

Definition start (text_end maxaddr main ml : Z) : conf :=
  Conf (nulluser text_end maxaddr main (boot ml)) ∅.

Lemma start_ok text_end maxaddr main ml :
  layout_ok text_end maxaddr ml -> inits_ok devtab -> conf_ok (start text_end maxaddr main ml).
Proof.
  intros Hl Hi. split; [|by intros p k ?].
  eapply wp_mono; [by apply nulluser_ok|]. by intros v s [? _].
Qed.

Lemma reachable_observed text_end maxaddr main ml c s :
  layout_ok text_end maxaddr ml -> inits_ok devtab -> steps (start text_end maxaddr main ml) c ->
  observed c.(running) s -> Inv s.
Proof.
  intros Hl Hi Hs Ho. destruct (steps_ok _ _ Hs (start_ok _ _ main _ Hl Hi)) as [Hr _].
  destruct Ho as [[v E]|(old & k & E)]; rewrite E in Hr; [done|by destruct Hr].
Qed.
End System.


(** * Properties *)


(** C2: in every state that can be reached, when a process runs its own program
    and at every context switch, exactly one process is marked current, and it
    is [currpid]; the ready list holds exactly the processes marked ready, each
    once, in descending order of their keys; the null process is among these or
    is the current one, so there always is a process to run. *)
Theorem scheduler_tables_agree devtab plat initret text_end maxaddr main ml c s :
  layout_ok text_end maxaddr ml -> inits_ok devtab ->
  (∀ d, 0 <= d < NDEVS -> syscall_ok ((devtab d).(dvclose) d)) ->
  steps devtab plat initret (start devtab plat initret text_end maxaddr main ml) c ->
  observed c.(running) s ->
  procs_in s PR_CURR = [s.(currpid)] /\
  ∃ l, queue_list s.(queuetab) s.(readylist) = Some l /\ l ≡ₚ procs_in s PR_READY /\
    desc (keyof s.(queuetab)) l /\ NULLPROC ∈ s.(currpid) :: l.
Proof.
  intros Hl Hi Hcl Hs Ho.
  pose proof (reachable_observed devtab plat initret Hcl _ _ _ _ _ _ Hl Hi Hs Ho) as HI.
  split; [by apply current_only|]. pose proof HI as ((Q & HQ) & _).
  destruct (iv_rl _ _ _ _ HQ) as [l Hrl]. exists l.
  split; [eapply queue_list_qrep; [apply HQ|done]|]. split; [by eapply ready_queue|].
  split; [by apply (iv_desc _ _ _ _ HQ)|].
  destruct (iv_null _ _ _ _ HQ) as (e & He & [Hr|Hc]).
  - apply elem_of_cons. right. apply (iv_where _ _ _ _ HQ _ _ _ _ He Hrl). split; [done|].
    unfold where_is. by rewrite Hr.
  - rewrite <- (iv_curr _ _ _ _ HQ _ _ He Hc). by left.
Qed.

(** C3: in every state that can be reached, the queue of every semaphore holds
    exactly the processes that wait for it, each once, and the count, when
    negative, is minus their number. *)
Theorem semaphore_counts_its_waiters devtab plat initret text_end maxaddr main ml c s i se :
  layout_ok text_end maxaddr ml -> inits_ok devtab ->
  (∀ d, 0 <= d < NDEVS -> syscall_ok ((devtab d).(dvclose) d)) ->
  steps devtab plat initret (start devtab plat initret text_end maxaddr main ml) c ->
  observed c.(running) s -> s.(semtab) !! i = Some se ->
  ∃ l, queue_list s.(queuetab) se.(squeue) = Some l /\ l ≡ₚ waiting s i /\
    Z.of_nat (length (waiting s i)) = Z.max 0 (- se.(scount)).
Proof.
  intros Hl Hi Hcl Hs Ho Hse.
  pose proof (reachable_observed devtab plat initret Hcl _ _ _ _ _ _ Hl Hi Hs Ho) as ((Q & HQ) & _).
  destruct (iv_sq _ _ _ _ HQ _ _ Hse) as [l Hsq]. exists l.
  pose proof (waiting_queue _ _ _ _ _ HQ Hse Hsq) as Hperm.
  split; [eapply queue_list_qrep; [apply HQ|done]|]. split; [done|].
  rewrite <- Hperm. apply (iv_scount _ _ _ _ HQ _ _ _ Hse Hsq).
  pose proof (arr_len_lt _ _ _ _ (iv_st _ _ _ _ HQ) Hse). lia.
Qed.

(** * A concrete machine: every device is ionull *)

Definition ionull_dentry : dentry :=
  Dentry 0 0 [] (λ _, ionull) (λ _ _ _, ionull) (λ _, ionull) (λ _ _ _, ionull) (λ _ _ _, ionull)
    (λ _ _, ionull) (λ _, ionull) (λ _ _, ionull) (λ _ _ _ _, ionull).
Definition demo_devtab (d : Z) : dentry := ionull_dentry.
Definition demo_start : conf := start demo_devtab ARM_QEMU 500 4096 1048576 600 100.

Lemma demo_layout : layout_ok 4096 1048576 100.
Proof. unfold layout_ok. repeat split; lia. Qed.

Lemma demo_inits : inits_ok demo_devtab.
Proof. intros d s _ HI. by apply back_refl. Qed.

Lemma demo_closes d : 0 <= d < NDEVS -> syscall_ok ((demo_devtab d).(dvclose) d).
Proof. intros _. apply ionull_ok. Qed.

(** The state in which the process that executes [main] starts. *)
Definition state_of {A} (r : res A) : kst := default (boot 100) (outcome r).
Definition demo_main : kst := set_ie true (state_of (running demo_start)).

Definition starts_main (r : res Z) : bool :=
  match r with Ctxsw old s _ => (old =? NULLPROC) && (s.(currpid) =? 1) | _ => false end.

Lemma starts_main_steps devtab plat initret r :
  starts_main r = true ->
  ∃ sv, steps devtab plat initret (Conf r ∅) (Conf (Done 0 (set_ie true (state_of r))) sv).
Proof.
  destruct r as [v s|old s k|s|]; try done. simpl. intros H. bool_hyps.
  eexists. eapply steps_step; [apply steps_refl|]. apply step_start.
  destruct (purge s (<[old:=k]> ∅) !! currpid s) as [k'|] eqn:Hp; [|done].
  apply purge_Some in Hp as [Hp _]. subst old. rewrite lookup_insert_ne in Hp; [done|unfold NULLPROC; lia].
Qed.

Lemma demo_main_reached : ∃ sv,
  steps demo_devtab ARM_QEMU 500 demo_start (Conf (Done 0 demo_main) sv).
Proof.
  unfold demo_main, demo_start, start. cbn [running]. apply starts_main_steps. vm_compute. reflexivity.
Qed.

Lemma demo_main_inv : Inv demo_main.
Proof.
  destruct demo_main_reached as [sv Hs].
  eapply reachable_observed; [apply demo_closes|apply demo_layout|apply demo_inits|exact Hs|].
  left. by exists 0.
Qed.


Lemma scheduler_tables_agree_witness :
  procs_in demo_main PR_CURR = [demo_main.(currpid)] /\
  ∃ l, queue_list demo_main.(queuetab) demo_main.(readylist) = Some l /\ l ≡ₚ procs_in demo_main PR_READY /\
    desc (keyof demo_main.(queuetab)) l /\ NULLPROC ∈ demo_main.(currpid) :: l.
Proof.
  destruct demo_main_reached as [sv Hs].
  apply (scheduler_tables_agree _ _ _ _ _ _ _ _ demo_main demo_layout demo_inits demo_closes Hs).
  left. by exists 0.
Defined.

(** ** States of the concrete machine, reached by calls of its main process *)

Definition runs {A} (r : res A) : bool := match r with Done _ _ | Ctxsw _ _ _ => true | _ => false end.

Lemma call_inv (m : K Z) s :
  syscall_ok m -> Inv s -> s.(currpid) ≠ NULLPROC -> runs (m s) = true -> Inv (state_of (m s)).
Proof.
  intros Hm HI Hn Ho. specialize (Hm s HI Hn). destruct (m s); simpl in *; by destruct Hm.
Qed.

(** With a semaphore of count 0; waiting for it; waiting for a message; asleep
    for five ticks. *)
Definition demo_sem : kst := state_of (semcreate 0 demo_main).
Definition demo_waiting : kst := state_of (wait 0 demo_sem).
Definition demo_receiving : kst := state_of (receive demo_main).
Definition demo_asleep : kst := state_of (sleepms 5 demo_main).

Ltac by_run := vm_compute; first [reflexivity|discriminate|done].

Lemma demo_sem_inv : Inv demo_sem.
Proof. apply call_inv; [by apply semcreate_ok|exact demo_main_inv|by_run|by_run]. Qed.

Lemma demo_waiting_inv : Inv demo_waiting.
Proof. apply call_inv; [apply wait_ok|exact demo_sem_inv|by_run|by_run]. Qed.

Lemma demo_receiving_inv : Inv demo_receiving.
Proof. apply call_inv; [apply receive_ok|exact demo_main_inv|by_run|by_run]. Qed.

Lemma demo_asleep_inv : Inv demo_asleep.
Proof. apply call_inv; [apply sleepms_ok|exact demo_main_inv|by_run|by_run]. Qed.

Lemma semaphore_counts_its_waiters_witness :
  ∃ l, queue_list demo_main.(queuetab) 100 = Some l /\ l ≡ₚ waiting demo_main 0 /\
    Z.of_nat (length (waiting demo_main 0)) = Z.max 0 0.
Proof.
  destruct demo_main_reached as [sv Hs].
  apply (semaphore_counts_its_waiters _ _ _ _ _ _ _ _ demo_main 0 (Sentry S_FREE 0 100)
           demo_layout demo_inits demo_closes Hs); [left; by exists 0|].
  vm_compute. reflexivity.
Defined.

(** Process 1, whose priority is 5, with process 2 queued at priority 10 and process 3 at 15;
    then 2 is raised to 50. *)
Definition demo_ready (pid prio : Z) (s : kst) : kst :=
  state_of (resume pid (state_of (create ARM_QEMU 500 600 1024 prio [112; 0] [] s))).
Definition demo_three : kst := state_of (chprio 1 5 (demo_ready 3 15 (demo_ready 2 10 demo_main))).
Definition demo_raised : kst := state_of (chprio 2 50 demo_three).

Lemma demo_ready_inv pid prio s : Inv s -> s.(currpid) ≠ NULLPROC -> -32768 <= prio < 32768 ->
  runs (create ARM_QEMU 500 600 1024 prio [112; 0] [] s) = true ->
  (state_of (create ARM_QEMU 500 600 1024 prio [112; 0] [] s)).(currpid) ≠ NULLPROC ->
  runs (resume pid (state_of (create ARM_QEMU 500 600 1024 prio [112; 0] [] s))) = true -> Inv (demo_ready pid prio s).
Proof.
  intros HI Hn Hp H1 H2 H3. apply call_inv; [apply anycall_syscall, resume_ok| |done|done]. apply call_inv; [|done..].
  apply anycall_syscall, create_ok; [lia|lia|cbn; lia].
Qed.

Lemma demo_three_inv : Inv demo_three.
Proof.
  apply call_inv; [by apply chprio_ok| |by_run|by_run].
  apply demo_ready_inv; [|by_run..]. apply demo_ready_inv; [exact demo_main_inv|by_run..].
Qed.

Lemma demo_raised_inv : Inv demo_raised.
Proof. apply call_inv; [by apply chprio_ok|exact demo_three_inv|by_run|by_run]. Qed.

(** The process that runs next is not of highest priority. *)
Lemma raised_process_is_passed_over : Inv demo_raised /\ [2; 3] ⊆ procs_in demo_raised PR_READY /\
  prio_of demo_raised 2 = 50 /\ prio_of demo_raised 3 = 15 /\
  match resched demo_raised with Ctxsw _ s' _ => s'.(currpid) = 3 | _ => False end.
Proof.
  split; [exact demo_raised_inv|]. split.
  { assert (E : procs_in demo_raised PR_READY = [0; 2; 3]) by by_run. rewrite E. intros q Hq. by right. }
  split; [by_run|]. split; [by_run|]. by_run.
Qed.

(** From [demo_three], where the keys are the priorities, process 3 is the one to run. *)
Lemma resched_runs_highest_key_witness : ∃ l, queue_list demo_three.(queuetab) demo_three.(readylist) = Some l /\
  l ≡ₚ procs_in demo_three PR_READY /\
  match resched demo_three with
  | Ctxsw old s' _ => old = 1 /\ s'.(currpid) = 3 /\ ∀ p, p ∈ 1 :: procs_in demo_three PR_READY -> prio_of demo_three p <= prio_of demo_three 3
  | _ => False
  end.
Proof.
  destruct (resched_runs_highest_key demo_three demo_three_inv) as (l & H1 & H2 & _ & H4). exists l. split; [exact H1|]. split; [exact H2|].
  assert (El : queue_list demo_three.(queuetab) demo_three.(readylist) = Some [3; 2; 0]) by by_run.
  assert (Er : match resched demo_three with Ctxsw old s' _ => (old =? 1) && (s'.(currpid) =? 3) | _ => false end = true) by by_run.
  assert (Ec : demo_three.(currpid) = 1) by by_run. rewrite Ec in H4. rewrite El in H1. injection H1 as <-.
  assert (Hk : Forall (λ p, keyof demo_three.(queuetab) p = prio_of demo_three p) [3; 2; 0])
    by (constructor; [by_run|constructor; [by_run|constructor; [by_run|constructor]]]).
  specialize (H4 (proj1 (Forall_forall _ _) Hk)).
  destruct (resched demo_three) as [v s'|old s' k| |]; [discriminate Er| |discriminate Er|discriminate Er]. apply andb_true_iff in Er as [Eo Es].
  apply Z.eqb_eq in Eo, Es. rewrite Es in H4. exact (conj Eo (conj Es H4)).
Defined.

Lemma wait_queues_the_caller_last_witness :
  ∃ s', outcome (wait 0 demo_sem) = Some s' /\ Inv s' /\ scount_of s' 0 = s32 (0 - 1) /\
    s'.(currpid) ≠ demo_sem.(currpid) /\ waits_on s' 0 demo_sem.(currpid) = true /\
    queue_list s'.(queuetab) 100 = Some ([] ++ [demo_sem.(currpid)]).
Proof.
  apply (wait_queues_the_caller_last demo_sem 0 (Sentry S_USED 0 100) [] demo_sem_inv); [by_run|by_run|reflexivity|by_run].
Defined.

Lemma signal_releases_the_first_waiter_witness :
  ∃ s', outcome (signal 0 demo_waiting) = Some s' /\ Inv s' /\ scount_of s' 0 = -1 + 1 /\
    waits_on demo_waiting 0 1 = true /\ runnable s' 1 = true /\ queue_list s'.(queuetab) 100 = Some [].
Proof.
  apply (signal_releases_the_first_waiter demo_waiting 0 (Sentry S_USED (-1) 100) [1] demo_waiting_inv);
    [by_run|reflexivity|reflexivity|by_run].
Defined.

Definition demo_receiver : procent := default proc0 (demo_receiving.(proctab) !! 1).

Lemma send_delivers_witness :
  ∃ s' st, outcome (send 1 42 demo_receiving) = Some s' /\ Inv s' /\
    s'.(proctab) !! 1 = Some (set_prstate st (set_prhasmsg true (set_prmsg 42 demo_receiver))) /\
    runnable s' 1 = true /\
    ∀ s2, s2.(currpid) = 1 -> s2.(proctab) !! 1 = s'.(proctab) !! 1 ->
      ∃ s3 e3, receive s2 = Done 42 s3 /\ s3.(proctab) !! 1 = Some e3 /\ e3.(prhasmsg) = false.
Proof.
  apply (send_delivers demo_receiving 1 42 demo_receiver demo_receiving_inv); [by_run|by_run|by_run].
Defined.

Lemma send_never_overwrites_witness : send 7 42 demo_main = Done SYSERR demo_main.
Proof. apply send_never_overwrites. left. vm_compute. reflexivity. Defined.

Lemma unsleep_preserves_due_times_witness :
  ∃ s' l', unsleep 1 demo_asleep = Done OK s' /\ queue_list s'.(queuetab) s'.(sleepq) = Some l' /\
    delta_abs (keyof s'.(queuetab)) 0 l' = [] /\ s'.(proctab) = demo_asleep.(proctab).
Proof.
  apply (unsleep_preserves_due_times demo_asleep 1 [1] demo_asleep_inv); [by_run|left| |].
  - intros q ->%list_elem_of_singleton. by_run.
  - repeat constructor.
Defined.

