(* ===== verification/Future.v ===== *)
(** Futures: system/future.c and include/future.h.

    A future and the queues of processes that wait for it are structs of words in
    the heap of the kernel; the fields are at the offsets of include/future.h.  A
    pointer that is null or the result of a failed getmem is not written through.
    The loop of future_set that resumes the waiting processes runs for at most [fuel]
    rounds: other processes run in between and may wait again. *)

From S2P Require Import Prelude Types Queue Memory Kernel Sched Init.

(** * include/future.h *)

Definition FUTURE_EMPTY : Z := 0.
Definition FUTURE_WAITING : Z := 1.
Definition FUTURE_READY : Z := 2.
Definition FUTURE_EXCLUSIVE : Z := 0.
Definition FUTURE_SHARED : Z := 1.
Definition FUTURE_QUEUE : Z := 2.

(** future_t *)
Definition f_value (f : Z) : Z := f.
Definition f_state (f : Z) : Z := f + 4.
Definition f_mode (f : Z) : Z := f + 8.
Definition f_pid (f : Z) : Z := f + 12.
Definition f_set_queue (f : Z) : Z := f + 16.
Definition f_get_queue (f : Z) : Z := f + 20.
Definition future_size : Z := 24.

(** queue_t and qnode_t *)
Definition q_head (q : Z) : Z := q.
Definition q_tail (q : Z) : Z := q + 4.
Definition queue_size : Z := 8.
Definition n_pid (n : Z) : Z := n.
Definition n_next (n : Z) : Z := n + 4.
Definition n_prev (n : Z) : Z := n + 8.
Definition qnode_size : Z := 12.

(** [p->field = v], where [a] is the address of the field. *)
Definition put (p a v : Z) : K unit := if (p =? NULL) || (p =? PSYSERR) then undefined else store a (u32 v).
(** [p->field], for an [int] and for a pointer. *)
Definition geti (p a : Z) : K Z := if (p =? NULL) || (p =? PSYSERR) then undefined else v ← load a; mret (s32 v).
Definition getp (p a : Z) : K Z := if (p =? NULL) || (p =? PSYSERR) then undefined else load a.

(** * Queues of processes *)

(** system/future.c: newNode *)
Definition newNode (pid : Z) : K Z :=
  new_node ← mop (getmem qnode_size);
  put new_node (n_pid new_node) pid;;
  put new_node (n_next new_node) NULL;;
  put new_node (n_prev new_node) NULL;;
  mret new_node.

(** system/future.c: freeNode *)
Definition freeNode (node : Z) : K unit := mop (freemem node qnode_size);; mret tt.

(** system/future.c: initial_queue *)
Definition initial_queue : K Z :=
  q ← mop (getmem queue_size);
  put q (q_head q) NULL;;
  put q (q_tail q) NULL;;
  mret q.

(** system/future.c: is_empty *)
Definition is_empty (q : Z) : K Z := h ← getp q (q_head q); mret (if h =? NULL then 1 else 0).

(** system/future.c: fenqueue *)
Definition fenqueue (q pid : Z) : K unit :=
  node ← newNode pid;
  put node (n_next node) NULL;;
  tail ← getp q (q_tail q);
  put node (n_prev node) tail;;
  (if negb (tail =? NULL) then put tail (n_next tail) node else mret tt);;
  put q (q_tail q) node;;
  head ← getp q (q_head q);
  if head =? NULL then put q (q_head q) node else mret tt.

(** system/future.c: fdequeue *)
Definition fdequeue (q : Z) : K Z :=
  node ← getp q (q_head q);
  pid ← geti node (n_pid node);
  next ← getp node (n_next node);
  put q (q_head q) next;;
  (if negb (next =? NULL) then put next (n_prev next) NULL else mret tt);;
  (if next =? NULL then put q (q_tail q) NULL else mret tt);;
  freeNode node;;
  mret pid.

(** * Futures *)

(** system/future.c: future_alloc *)
Definition future_alloc (mode : Z) : K Z :=
  mask ← disable;
  addr ← mop (getmem future_size);
  if negb (addr =? PSYSERR) then
    let myfuture := addr in
    put myfuture (f_state myfuture) FUTURE_EMPTY;;
    put myfuture (f_mode myfuture) mode;;
    q ← initial_queue;
    put myfuture (f_set_queue myfuture) q;;
    q ← initial_queue;
    put myfuture (f_get_queue myfuture) q;;
    restore mask;;
    mret myfuture
  else
    restore mask;;
    mret NULL.

(** system/future.c: future_free *)
Definition future_free (f : Z) : K Z := mop (freemem f future_size);; mret OK.

(** system/future.c: future_get; [value] is the address the value is stored at. *)
Definition future_get (f value : Z) : K Z :=
  mask ← disable;
  mode ← geti f (f_mode f);
  if mode =? FUTURE_EXCLUSIVE then
    state ← geti f (f_state f);
    (if state =? FUTURE_EMPTY then
       pid ← getpid;
       put f (f_pid f) pid;;
       put f (f_state f) FUTURE_WAITING;;
       pid ← geti f (f_pid f);
       suspend pid;;
       mret tt
     else mret tt);;
    state ← geti f (f_state f);
    if state =? FUTURE_READY then
      v ← geti f (f_value f);
      put value value v;;
      put f (f_state f) FUTURE_EMPTY;;
      restore mask;;
      mret OK
    else
      restore mask;;
      mret SYSERR
  else if mode =? FUTURE_SHARED then
    state ← geti f (f_state f);
    (if negb (state =? FUTURE_READY) then
       put f (f_state f) FUTURE_WAITING;;
       pid ← getpid;
       q ← getp f (f_get_queue f);
       fenqueue q pid;;
       suspend pid;;
       mret tt
     else mret tt);;
    v ← geti f (f_value f);
    put value value v;;
    q ← getp f (f_get_queue f);
    empty ← is_empty q;
    (if empty =? 1 then put f (f_state f) FUTURE_EMPTY else mret tt);;
    restore mask;;
    mret OK
  else if mode =? FUTURE_QUEUE then
    q ← getp f (f_set_queue f);
    empty ← is_empty q;
    (if empty =? 0 then
       q ← getp f (f_set_queue f);
       pid ← fdequeue q;
       resume pid;;
       mret tt
     else mret tt);;
    state ← geti f (f_state f);
    (if state =? FUTURE_EMPTY then
       pid ← getpid;
       q ← getp f (f_get_queue f);
       fenqueue q pid;;
       suspend pid;;
       mret tt
     else mret tt);;
    v ← geti f (f_value f);
    put value value v;;
    put f (f_state f) FUTURE_EMPTY;;
    restore mask;;
    mret OK
  else
    restore mask;;
    mret SYSERR.

(** The loop of future_set: [while (is_empty(f->get_queue) == 0)]. *)
Definition resume_all (fuel : nat) (f : Z) : K unit :=
  while fuel
    (q ← getp f (f_get_queue f); empty ← is_empty q; mret (empty =? 0))
    (q ← getp f (f_get_queue f);
     pid ← fdequeue q;
     resume pid;;
     mret tt).

(** system/future.c: future_set *)
Definition future_set (fuel : nat) (f value : Z) : K Z :=
  mask ← disable;
  mode ← geti f (f_mode f);
  if mode =? FUTURE_EXCLUSIVE then
    state ← geti f (f_state f);
    if state =? FUTURE_EMPTY then
      put f (f_value f) value;;
      put f (f_state f) FUTURE_READY;;
      restore mask;;
      mret OK
    else if state =? FUTURE_WAITING then
      put f (f_value f) value;;
      put f (f_state f) FUTURE_READY;;
      pid ← geti f (f_pid f);
      resume pid;;
      restore mask;;
      mret OK
    else
      restore mask;;
      mret SYSERR
  else if mode =? FUTURE_SHARED then
    state ← geti f (f_state f);
    if negb (state =? FUTURE_READY) then
      put f (f_value f) value;;
      put f (f_state f) FUTURE_READY;;
      resume_all fuel f;;
      restore mask;;
      mret OK
    else
      restore mask;;
      mret SYSERR
  else if mode =? FUTURE_QUEUE then
    q ← getp f (f_get_queue f);
    empty ← is_empty q;
    (if empty =? 1 then
       pid ← getpid;
       q ← getp f (f_set_queue f);
       fenqueue q pid;;
       suspend pid;;
       mret tt
     else mret tt);;
    put f (f_value f) value;;
    put f (f_state f) FUTURE_READY;;
    q ← getp f (f_get_queue f);
    pid ← fdequeue q;
    resume pid;;
    restore mask;;
    mret OK
  else
    restore mask;;
    mret SYSERR.

(** * An exclusive future *)

Lemma geti_run p a w s : p ≠ NULL -> p ≠ PSYSERR -> ldw s.(mem) a = Some w -> geti p a s = Done (s32 w) s.
Proof.
  intros H1 H2 Hw. unfold geti. rewrite (proj2 (Z.eqb_neq _ _) H1), (proj2 (Z.eqb_neq _ _) H2). cbn [orb].
  rewrite (bind_done (load a) _ s w s); [done|]. unfold load, opt. by rewrite Hw.
Qed.

Lemma put_run p a v s : p ≠ NULL -> p ≠ PSYSERR -> put p a v s = Done tt (set_mem (stw a (u32 v) s.(mem)) s).
Proof. intros H1 H2. unfold put. by rewrite (proj2 (Z.eqb_neq _ _) H1), (proj2 (Z.eqb_neq _ _) H2). Qed.

Lemma ldw_stw a b v m : ldw (stw a v m) b = if decide (a = b) then Some v else ldw m b.
Proof.
  unfold ldw, stw. cbn. destruct (decide (a = b)) as [->|]; [by rewrite lookup_insert_eq|by rewrite lookup_insert_ne].
Qed.

(** An exclusive future at [f] in the state [st]. *)
Record exclusive (s : kst) (f st : Z) : Prop := {
  ex_ptr : f ≠ NULL /\ f ≠ PSYSERR;
  ex_mode : ldw s.(mem) (f_mode f) = Some FUTURE_EXCLUSIVE;
  ex_state : ldw s.(mem) (f_state f) = Some st }.

(** Setting a future that no process waits for. *)
Lemma set_empty_run fuel s f v : exclusive s f FUTURE_EMPTY ->
  future_set fuel f v s = Done OK (set_mem (stw (f_state f) FUTURE_READY (stw (f_value f) (u32 v) s.(mem))) s).
Proof.
  intros [[H1 H2] Hm Hs]. unfold future_set. rewrite (bind_done disable _ s s.(ie) (set_ie false s) eq_refl).
  rewrite (bind_done _ _ _ _ _ (geti_run f _ _ (set_ie false s) H1 H2 Hm)). change (s32 FUTURE_EXCLUSIVE =? FUTURE_EXCLUSIVE) with true. cbv iota.
  rewrite (bind_done _ _ _ _ _ (geti_run f _ _ (set_ie false s) H1 H2 Hs)). change (s32 FUTURE_EMPTY =? FUTURE_EMPTY) with true. cbv iota.
  rewrite (bind_done _ _ _ _ _ (put_run f _ v _ H1 H2)). rewrite (bind_done _ _ _ _ _ (put_run f _ FUTURE_READY _ H1 H2)).
  unfold restore. rewrite bind_modify. unfold mret, K_ret. by destruct s.
Qed.

(** Setting it again is refused. *)
Lemma set_ready_run fuel s f v : exclusive s f FUTURE_READY -> future_set fuel f v s = Done SYSERR s.
Proof.
  intros [[H1 H2] Hm Hs]. unfold future_set. rewrite (bind_done disable _ s s.(ie) (set_ie false s) eq_refl).
  rewrite (bind_done _ _ _ _ _ (geti_run f _ _ (set_ie false s) H1 H2 Hm)). change (s32 FUTURE_EXCLUSIVE =? FUTURE_EXCLUSIVE) with true. cbv iota.
  rewrite (bind_done _ _ _ _ _ (geti_run f _ _ (set_ie false s) H1 H2 Hs)). change (s32 FUTURE_READY =? FUTURE_EMPTY) with false.
  change (s32 FUTURE_READY =? FUTURE_WAITING) with false. cbv iota. unfold restore. rewrite bind_modify.
  unfold mret, K_ret. by destruct s.
Qed.

(** Getting the value of a future that is set. *)
Lemma get_ready_run s f valp w : exclusive s f FUTURE_READY -> ldw s.(mem) (f_value f) = Some w ->
  valp ≠ NULL -> valp ≠ PSYSERR ->
  future_get f valp s = Done OK (set_mem (stw (f_state f) FUTURE_EMPTY (stw valp (u32 (s32 w)) s.(mem))) s).
Proof.
  intros [[H1 H2] Hm Hs] Hw H3 H4. unfold future_get. rewrite (bind_done disable _ s s.(ie) (set_ie false s) eq_refl).
  rewrite (bind_done _ _ _ _ _ (geti_run f _ _ (set_ie false s) H1 H2 Hm)). change (s32 FUTURE_EXCLUSIVE =? FUTURE_EXCLUSIVE) with true. cbv iota.
  rewrite (bind_done _ _ _ _ _ (geti_run f _ _ (set_ie false s) H1 H2 Hs)). change (s32 FUTURE_READY =? FUTURE_EMPTY) with false. cbv iota.
  rewrite (bind_done (mret tt) _ _ tt _ eq_refl).
  rewrite (bind_done _ _ _ _ _ (geti_run f _ _ (set_ie false s) H1 H2 Hs)). change (s32 FUTURE_READY =? FUTURE_READY) with true. cbv iota.
  rewrite (bind_done _ _ _ _ _ (geti_run f _ _ (set_ie false s) H1 H2 Hw)).
  rewrite (bind_done _ _ _ _ _ (put_run valp _ _ _ H3 H4)). rewrite (bind_done _ _ _ _ _ (put_run f _ FUTURE_EMPTY _ H1 H2)).
  unfold restore. rewrite bind_modify. unfold mret, K_ret. by destruct s.
Qed.

(** C32: on an exclusive future that is empty future_set stores the value; setting it
    again is refused and changes nothing; and the next future_get returns the value
    and makes the future empty again. *)
Theorem future_exclusive_roundtrip fuel s f v v' valp : exclusive s f FUTURE_EMPTY -> is_s32 v ->
  valp ≠ NULL -> valp ≠ PSYSERR -> (∀ i, 0 <= i < future_size -> valp ≠ f + i) ->
  ∃ s1 s2, future_set fuel f v s = Done OK s1 /\ future_set fuel f v' s1 = Done SYSERR s1 /\
    future_get f valp s1 = Done OK s2 /\ ldw s2.(mem) valp = Some (u32 v) /\ exclusive s2 f FUTURE_EMPTY.
Proof.
  intros Hex Hv H3 H4 Hsep. pose proof Hex as [[H1 H2] Hm Hs]. unfold future_size in Hsep.
  pose proof (Hsep 0 ltac:(lia)). pose proof (Hsep 4 ltac:(lia)). pose proof (Hsep 8 ltac:(lia)).
  set (s1 := set_mem (stw (f_state f) FUTURE_READY (stw (f_value f) (u32 v) s.(mem))) s).
  assert (Hex1 : exclusive s1 f FUTURE_READY).
  { constructor; [done| |]; unfold s1; cbn [mem set_mem]; rewrite !ldw_stw; unfold f_state, f_value, f_mode in *.
    - rewrite !decide_False by lia. done.
    - by rewrite decide_True. }
  assert (Hval : ldw s1.(mem) (f_value f) = Some (u32 v)).
  { unfold s1. cbn [mem set_mem]. rewrite !ldw_stw. unfold f_state, f_value. rewrite decide_False by lia. by rewrite decide_True. }
  exists s1. eexists. split; [by apply set_empty_run|]. split; [by apply set_ready_run|].
  split; [by apply get_ready_run|]. rewrite s32_u32 by done. cbn [mem set_mem]. split.
  - rewrite !ldw_stw. unfold f_state in *. rewrite decide_False by lia. by rewrite decide_True.
  - constructor; [done| |]; cbn [mem set_mem]; rewrite !ldw_stw; unfold f_state, f_mode in *.
    + rewrite !decide_False by lia. apply Hex1.
    + by rewrite decide_True.
Qed.

(** An empty exclusive future at 1000. *)
Definition demo_future : kst :=
  set_mem (stw 1000 0 (stw 1004 FUTURE_EMPTY (stw 1008 FUTURE_EXCLUSIVE (boot 0).(mem)))) (boot 0).

Lemma future_exclusive_roundtrip_witness : ∃ s1 s2, future_set 1 1000 (-7) demo_future = Done OK s1 /\
  future_get 1000 2000 s1 = Done OK s2 /\ ldw s2.(mem) 2000 = Some 4294967289.
Proof.
  destruct (future_exclusive_roundtrip 1 demo_future 1000 (-7) 8 2000) as (s1 & s2 & H1 & _ & H3 & H4 & _).
  - constructor; [done| |]; reflexivity.
  - unfold is_s32. lia.
  - done.
  - done.
  - unfold future_size. lia.
  - exact (ex_intro _ s1 (ex_intro _ s2 (conj H1 (conj H3 H4)))).
Defined.
