(* ===== verification/Ring.v ===== *)
(** Ring buffers: an array of [n] places, the index [head] of the next element to take and
    the index [tail] of the next free place, as the queues of the terminal driver and of
    the network have them. *)

From S2P Require Import Prelude Types.

(** The ring buffer [b] of [n] places holds [xs] from [head] on; [tail] is the next
    free slot. *)
Record ring_holds (n : Z) (b : gmap Z Z) (head tail : Z) (xs : list Z) : Prop := {
  rh_len : arr_len n b;
  rh_head : 0 <= head < n;
  rh_tail : tail = (head + Z.of_nat (length xs)) mod n;
  rh_room : Z.of_nat (length xs) <= n;
  rh_at : ∀ i c, xs !! i = Some c -> b !! ((head + Z.of_nat i) mod n) = Some c }.

Lemma ring_wrap n t : 0 <= t < n -> (if t + 1 >=? n then 0 else t + 1) = (t + 1) mod n.
Proof.
  intros H. rewrite Z.geb_leb. destruct (Z.leb_spec n (t + 1)).
  - replace (t + 1) with n by lia. by rewrite Z.mod_same by lia.
  - by rewrite Z.mod_small by lia.
Qed.

Lemma ring_tail n b h t xs : ring_holds n b h t xs -> 0 <= t < n.
Proof. intros [_ H -> _ _]. apply Z.mod_pos_bound. lia. Qed.

Lemma ring_slots n h i j : 0 < n -> 0 <= i < n -> 0 <= j < n -> (h + i) mod n = (h + j) mod n -> i = j.
Proof.
  intros Hn Hi Hj E. pose proof (Z.div_mod (h + i) n ltac:(lia)) as E1. pose proof (Z.div_mod (h + j) n ltac:(lia)) as E2.
  rewrite E in E1. assert (Hd : i - j = n * ((h + i) / n - (h + j) / n)) by lia.
  assert ((h + i) / n - (h + j) / n = 0) by nia. lia.
Qed.

Lemma ring_push n b h t xs c : ring_holds n b h t xs -> Z.of_nat (length xs) < n ->
  ring_holds n (<[t := c]> b) h ((t + 1) mod n) (xs ++ [c]).
Proof.
  intros R Hx. pose proof (ring_tail _ _ _ _ _ R) as Ht. destruct R as [Hl Hh Htl Hr Ha]. constructor; [..|intros i x Hi].
  - by apply arr_len_insert.
  - done.
  - rewrite length_app, Htl, Zplus_mod_idemp_l. f_equal. cbn [length]. lia.
  - rewrite length_app. cbn [length]. lia.
  - apply lookup_app_Some in Hi as [Hi|[Hlen Hi]].
    + pose proof (lookup_lt_Some _ _ _ Hi). rewrite lookup_insert_ne; [by apply Ha|]. rewrite Htl. intros E.
      apply ring_slots in E; lia.
    + destruct (i - length xs)%nat eqn:E; [|done]. injection Hi as <-. rewrite Htl.
      replace i with (length xs) by lia. apply lookup_insert_eq.
Qed.

Lemma ring_pop n b h t c xs : ring_holds n b h t (c :: xs) ->
  b !! h = Some c /\ ring_holds n b ((h + 1) mod n) t xs.
Proof.
  intros [Hl Hh Htl Hr Ha]. cbn [length] in *. rewrite Nat2Z.inj_succ in *. split.
  - pose proof (Ha 0%nat c eq_refl) as H. rewrite Z.add_0_r, Z.mod_small in H by lia. done.
  - constructor; [done|apply Z.mod_pos_bound; lia| |lia|].
    + rewrite Zplus_mod_idemp_l. rewrite Htl. f_equal. lia.
    + intros i x Hi. rewrite Zplus_mod_idemp_l. specialize (Ha (S i) x Hi). rewrite Nat2Z.inj_succ in Ha.
      by replace (h + 1 + Z.of_nat i) with (h + Z.succ (Z.of_nat i)) by lia.
Qed.

(** Moving [tail] back. *)
Lemma ring_drop n b h t xs ys : ring_holds n b h t (xs ++ ys) ->
  ring_holds n b h ((t - Z.of_nat (length ys)) mod n) xs.
Proof.
  intros [Hl Hh Htl Hr Ha]. rewrite length_app in *. constructor; [done..| |lia|].
  - rewrite Htl, Zminus_mod_idemp_l. f_equal. lia.
  - intros i c Hi. apply Ha. rewrite lookup_app_l; [done|]. by eapply lookup_lt_Some.
Qed.

Lemma ring_last n b h t xs c : ring_holds n b h t (xs ++ [c]) -> b !! ((t - 1) mod n) = Some c.
Proof.
  intros [Hl Hh Htl Hr Ha]. rewrite length_app in *. cbn [length] in *. rewrite Htl, Zminus_mod_idemp_l.
  replace (h + Z.of_nat (length xs + 1) - 1) with (h + Z.of_nat (length xs)) by lia.
  apply Ha. rewrite lookup_app_r, Nat.sub_diag; [done|lia].
Qed.

Lemma ring_start n b : 0 < n -> arr_len n b -> ring_holds n b 0 0 [].
Proof. intros Hn Hb. constructor; [done|lia| | |done]; cbn; [|lia]. by rewrite Z.mod_0_l by lia. Qed.

Lemma ring_empty n b h t xs : ring_holds n b h t xs -> Z.of_nat (length xs) < n -> (h =? t) = bool_decide (xs = []).
Proof.
  intros [_ Hh -> _ _] Hx. destruct xs as [|x xs].
  - cbn [length]. rewrite Z.add_0_r, Z.mod_small, Z.eqb_refl by done. by rewrite bool_decide_eq_true_2.
  - rewrite bool_decide_eq_false_2 by done. apply Z.eqb_neq. intros E.
    rewrite <- (Z.mod_small h n) in E at 1 by done. rewrite <- (Z.add_0_r h) in E at 1. cbn [length] in *. apply ring_slots in E; lia.
Qed.
