(* ===== verification/Tty.v ===== *)
(** The terminal driver: device/tty and include/tty.h, over the UART of
    include/uart.h.

    The lower half (ttyhandler, ttyhandle_in, ttyhandle_out) runs at an interrupt and
    the upper half (ttyread, ttywrite, ttygetc, ttyputc, ttycontrol) in a process; they
    share the control block of the line and its two semaphores.  The kernel calls are
    those of Sem.v, lifted to the state of the driver: when one of them gives up the
    processor, the process that resumes finds the kernel, the control block and the
    device as the others left them.

    There is one serial line (Ntty is 1), so [typtr] is its control block and [csrptr]
    its device.  A pointer into one of the three buffers is the index it points at; a
    load or store through an index out of the buffer is undefined behaviour.  A char is
    unsigned, as it is on ARM.  The registers of the device are an interface: hardware is
    not code of the repository. *)

From S2P Require Import Prelude Types Queue Memory Kernel Sched Sem.

(** * include/tty.h *)

Definition TY_EBUFLEN : Z := 20.
Definition TY_IBUFLEN : Z := 128.
Definition TY_OBUFLEN : Z := 64.

Definition TY_IMRAW : Z := 82.  (** 'R' *)
Definition TY_IMCOOKED : Z := 67.  (** 'C' *)
Definition TY_IMCBREAK : Z := 75.  (** 'K' *)

Definition TY_BACKSP : Z := 8.
Definition TY_BELL : Z := 7.
Definition TY_EOFCH : Z := 4.
Definition TY_BLANK : Z := 32.
Definition TY_NEWLINE : Z := 10.
Definition TY_RETURN : Z := 13.
Definition TY_STOPCH : Z := 19.
Definition TY_STRTCH : Z := 17.
Definition TY_KILLCH : Z := 21.
Definition TY_UPARROW : Z := 94.
Definition TY_FULLCH : Z := TY_BELL.

Definition TC_NEXTC : Z := 3.
Definition TC_MODER : Z := 4.
Definition TC_MODEC : Z := 5.
Definition TC_MODEK : Z := 6.
Definition TC_ICHARS : Z := 8.
Definition TC_ECHO : Z := 9.
Definition TC_NOECHO : Z := 10.

Record ttycblk := Ttycblk {
  tyihead : Z;  (** next input char to read *)
  tyitail : Z;  (** next slot for arriving char *)
  tyibuff : gmap Z Z;
  tyisem : Z;  (** input semaphore *)
  tyohead : Z;  (** next output char to xmit *)
  tyotail : Z;  (** next slot for outgoing char *)
  tyobuff : gmap Z Z;
  tyosem : Z;  (** output semaphore *)
  tyehead : Z;  (** next echo char to xmit *)
  tyetail : Z;  (** next slot to deposit echo ch *)
  tyebuff : gmap Z Z;
  tyimode : Z;
  tyiecho : bool;
  tyieback : bool;
  tyevis : bool;
  tyecrlf : bool;
  tyicrlf : bool;
  tyierase : bool;
  tyierasec : Z;
  tyeof : bool;
  tyeofch : Z;
  tyikill : bool;
  tyikillc : Z;
  tyicursor : Z;
  tyoflow : bool;
  tyoheld : bool;
  tyostop : Z;
  tyostart : Z;
  tyocrlf : bool;
  tyifullc : Z;
}.

Definition set_tyihead (x : Z) (t : ttycblk) : ttycblk :=
  Ttycblk x t.(tyitail) t.(tyibuff) t.(tyisem) t.(tyohead) t.(tyotail) t.(tyobuff) t.(tyosem) t.(tyehead)
    t.(tyetail) t.(tyebuff) t.(tyimode) t.(tyiecho) t.(tyieback) t.(tyevis) t.(tyecrlf) t.(tyicrlf)
    t.(tyierase) t.(tyierasec) t.(tyeof) t.(tyeofch) t.(tyikill) t.(tyikillc) t.(tyicursor) t.(tyoflow)
    t.(tyoheld) t.(tyostop) t.(tyostart) t.(tyocrlf) t.(tyifullc).
Definition set_tyitail (x : Z) (t : ttycblk) : ttycblk :=
  Ttycblk t.(tyihead) x t.(tyibuff) t.(tyisem) t.(tyohead) t.(tyotail) t.(tyobuff) t.(tyosem) t.(tyehead)
    t.(tyetail) t.(tyebuff) t.(tyimode) t.(tyiecho) t.(tyieback) t.(tyevis) t.(tyecrlf) t.(tyicrlf)
    t.(tyierase) t.(tyierasec) t.(tyeof) t.(tyeofch) t.(tyikill) t.(tyikillc) t.(tyicursor) t.(tyoflow)
    t.(tyoheld) t.(tyostop) t.(tyostart) t.(tyocrlf) t.(tyifullc).
Definition set_tyibuff (x : gmap Z Z) (t : ttycblk) : ttycblk :=
  Ttycblk t.(tyihead) t.(tyitail) x t.(tyisem) t.(tyohead) t.(tyotail) t.(tyobuff) t.(tyosem) t.(tyehead)
    t.(tyetail) t.(tyebuff) t.(tyimode) t.(tyiecho) t.(tyieback) t.(tyevis) t.(tyecrlf) t.(tyicrlf)
    t.(tyierase) t.(tyierasec) t.(tyeof) t.(tyeofch) t.(tyikill) t.(tyikillc) t.(tyicursor) t.(tyoflow)
    t.(tyoheld) t.(tyostop) t.(tyostart) t.(tyocrlf) t.(tyifullc).
Definition set_tyohead (x : Z) (t : ttycblk) : ttycblk :=
  Ttycblk t.(tyihead) t.(tyitail) t.(tyibuff) t.(tyisem) x t.(tyotail) t.(tyobuff) t.(tyosem) t.(tyehead)
    t.(tyetail) t.(tyebuff) t.(tyimode) t.(tyiecho) t.(tyieback) t.(tyevis) t.(tyecrlf) t.(tyicrlf)
    t.(tyierase) t.(tyierasec) t.(tyeof) t.(tyeofch) t.(tyikill) t.(tyikillc) t.(tyicursor) t.(tyoflow)
    t.(tyoheld) t.(tyostop) t.(tyostart) t.(tyocrlf) t.(tyifullc).
Definition set_tyotail (x : Z) (t : ttycblk) : ttycblk :=
  Ttycblk t.(tyihead) t.(tyitail) t.(tyibuff) t.(tyisem) t.(tyohead) x t.(tyobuff) t.(tyosem) t.(tyehead)
    t.(tyetail) t.(tyebuff) t.(tyimode) t.(tyiecho) t.(tyieback) t.(tyevis) t.(tyecrlf) t.(tyicrlf)
    t.(tyierase) t.(tyierasec) t.(tyeof) t.(tyeofch) t.(tyikill) t.(tyikillc) t.(tyicursor) t.(tyoflow)
    t.(tyoheld) t.(tyostop) t.(tyostart) t.(tyocrlf) t.(tyifullc).
Definition set_tyobuff (x : gmap Z Z) (t : ttycblk) : ttycblk :=
  Ttycblk t.(tyihead) t.(tyitail) t.(tyibuff) t.(tyisem) t.(tyohead) t.(tyotail) x t.(tyosem) t.(tyehead)
    t.(tyetail) t.(tyebuff) t.(tyimode) t.(tyiecho) t.(tyieback) t.(tyevis) t.(tyecrlf) t.(tyicrlf)
    t.(tyierase) t.(tyierasec) t.(tyeof) t.(tyeofch) t.(tyikill) t.(tyikillc) t.(tyicursor) t.(tyoflow)
    t.(tyoheld) t.(tyostop) t.(tyostart) t.(tyocrlf) t.(tyifullc).
Definition set_tyehead (x : Z) (t : ttycblk) : ttycblk :=
  Ttycblk t.(tyihead) t.(tyitail) t.(tyibuff) t.(tyisem) t.(tyohead) t.(tyotail) t.(tyobuff) t.(tyosem) x
    t.(tyetail) t.(tyebuff) t.(tyimode) t.(tyiecho) t.(tyieback) t.(tyevis) t.(tyecrlf) t.(tyicrlf)
    t.(tyierase) t.(tyierasec) t.(tyeof) t.(tyeofch) t.(tyikill) t.(tyikillc) t.(tyicursor) t.(tyoflow)
    t.(tyoheld) t.(tyostop) t.(tyostart) t.(tyocrlf) t.(tyifullc).
Definition set_tyetail (x : Z) (t : ttycblk) : ttycblk :=
  Ttycblk t.(tyihead) t.(tyitail) t.(tyibuff) t.(tyisem) t.(tyohead) t.(tyotail) t.(tyobuff) t.(tyosem)
    t.(tyehead) x t.(tyebuff) t.(tyimode) t.(tyiecho) t.(tyieback) t.(tyevis) t.(tyecrlf) t.(tyicrlf)
    t.(tyierase) t.(tyierasec) t.(tyeof) t.(tyeofch) t.(tyikill) t.(tyikillc) t.(tyicursor) t.(tyoflow)
    t.(tyoheld) t.(tyostop) t.(tyostart) t.(tyocrlf) t.(tyifullc).
Definition set_tyebuff (x : gmap Z Z) (t : ttycblk) : ttycblk :=
  Ttycblk t.(tyihead) t.(tyitail) t.(tyibuff) t.(tyisem) t.(tyohead) t.(tyotail) t.(tyobuff) t.(tyosem)
    t.(tyehead) t.(tyetail) x t.(tyimode) t.(tyiecho) t.(tyieback) t.(tyevis) t.(tyecrlf) t.(tyicrlf)
    t.(tyierase) t.(tyierasec) t.(tyeof) t.(tyeofch) t.(tyikill) t.(tyikillc) t.(tyicursor) t.(tyoflow)
    t.(tyoheld) t.(tyostop) t.(tyostart) t.(tyocrlf) t.(tyifullc).
Definition set_tyimode (x : Z) (t : ttycblk) : ttycblk :=
  Ttycblk t.(tyihead) t.(tyitail) t.(tyibuff) t.(tyisem) t.(tyohead) t.(tyotail) t.(tyobuff) t.(tyosem)
    t.(tyehead) t.(tyetail) t.(tyebuff) x t.(tyiecho) t.(tyieback) t.(tyevis) t.(tyecrlf) t.(tyicrlf)
    t.(tyierase) t.(tyierasec) t.(tyeof) t.(tyeofch) t.(tyikill) t.(tyikillc) t.(tyicursor) t.(tyoflow)
    t.(tyoheld) t.(tyostop) t.(tyostart) t.(tyocrlf) t.(tyifullc).
Definition set_tyiecho (x : bool) (t : ttycblk) : ttycblk :=
  Ttycblk t.(tyihead) t.(tyitail) t.(tyibuff) t.(tyisem) t.(tyohead) t.(tyotail) t.(tyobuff) t.(tyosem)
    t.(tyehead) t.(tyetail) t.(tyebuff) t.(tyimode) x t.(tyieback) t.(tyevis) t.(tyecrlf) t.(tyicrlf)
    t.(tyierase) t.(tyierasec) t.(tyeof) t.(tyeofch) t.(tyikill) t.(tyikillc) t.(tyicursor) t.(tyoflow)
    t.(tyoheld) t.(tyostop) t.(tyostart) t.(tyocrlf) t.(tyifullc).
Definition set_tyicursor (x : Z) (t : ttycblk) : ttycblk :=
  Ttycblk t.(tyihead) t.(tyitail) t.(tyibuff) t.(tyisem) t.(tyohead) t.(tyotail) t.(tyobuff) t.(tyosem)
    t.(tyehead) t.(tyetail) t.(tyebuff) t.(tyimode) t.(tyiecho) t.(tyieback) t.(tyevis) t.(tyecrlf)
    t.(tyicrlf) t.(tyierase) t.(tyierasec) t.(tyeof) t.(tyeofch) t.(tyikill) t.(tyikillc) x t.(tyoflow)
    t.(tyoheld) t.(tyostop) t.(tyostart) t.(tyocrlf) t.(tyifullc).
Definition set_tyoheld (x : bool) (t : ttycblk) : ttycblk :=
  Ttycblk t.(tyihead) t.(tyitail) t.(tyibuff) t.(tyisem) t.(tyohead) t.(tyotail) t.(tyobuff) t.(tyosem)
    t.(tyehead) t.(tyetail) t.(tyebuff) t.(tyimode) t.(tyiecho) t.(tyieback) t.(tyevis) t.(tyecrlf)
    t.(tyicrlf) t.(tyierase) t.(tyierasec) t.(tyeof) t.(tyeofch) t.(tyikill) t.(tyikillc) t.(tyicursor)
    t.(tyoflow) x t.(tyostop) t.(tyostart) t.(tyocrlf) t.(tyifullc).

(** * include/uart.h *)

Definition UART_FIFO_SIZE : Z := 64.
Definition UART_DLL : Z := 26.
Definition UART_DLM : Z := 0.
Definition UART_LCR_DLAB : Z := 128.
Definition UART_LCR_8N1 : Z := 3.
Definition UART_IER_ERBFI : Z := 1.
Definition UART_IER_ETBEI : Z := 2.
Definition UART_IIR_IRQ : Z := 1.
Definition UART_IIR_IDMASK : Z := 14.
Definition UART_IIR_MSC : Z := 0.
Definition UART_IIR_THRE : Z := 2.
Definition UART_IIR_RDA : Z := 4.
Definition UART_IIR_RLSI : Z := 6.
Definition UART_IIR_RTO : Z := 12.
Definition UART_FCR_EFIFO : Z := 1.
Definition UART_FCR_RRESET : Z := 2.
Definition UART_FCR_TRESET : Z := 4.
Definition UART_FCR_TRIG2 : Z := 128.
Definition UART_LSR_DR : Z := 1.
Definition UART_LSR_BI : Z := 16.
Definition UART_MDR1_16X : Z := 0.

(** The registers of [struct uart_csreg] the driver uses; [dll] is [BUFFER], [dlm] is
    [IER] and [fcr] is [IIR]. *)
Inductive ureg := BUFFER | IER | IIR | LCR | LSR | MDR1 | TXFIFO_LVL.

(** A device: reading a register may change it. *)
Class Uart (D : Type) := {
  csr_read : ureg -> D -> Z * D;
  csr_write : ureg -> Z -> D -> D }.

(** * The state of the driver and its monad *)

Record tst (D : Type) := TSt { kern : kst; tty : ttycblk; dev : D }.
Arguments TSt {D}.
Arguments kern {D}.
Arguments tty {D}.
Arguments dev {D}.

(** [res] of Kernel.v with the control block and the device as part of the state. *)
Inductive tres (D A : Type) : Type :=
  | TDone (a : A) (s : tst D)
  | TCtxsw (old : Z) (s : tst D) (k : tst D -> tres D A)
  | THalted (s : tst D)
  | TUB.
Arguments TDone {D A}.
Arguments TCtxsw {D A}.
Arguments THalted {D A}.
Arguments TUB {D A}.

Fixpoint tbind {D A B} (f : A -> tst D -> tres D B) (r : tres D A) : tres D B :=
  match r with
  | TDone a s => f a s
  | TCtxsw old s k => TCtxsw old s (λ s', tbind f (k s'))
  | THalted s => THalted s
  | TUB => TUB
  end.

Definition T (D A : Type) : Type := tst D -> tres D A.

#[export] Instance T_ret D : MRet (T D) := λ A a s, TDone a s.
#[export] Instance T_bind D : MBind (T D) := λ A B f m s, tbind f (m s).

(** A kernel call. *)
Fixpoint lift_res {D A} (t : ttycblk) (d : D) (r : res A) : tres D A :=
  match r with
  | Done a s => TDone a (TSt s t d)
  | Ctxsw old s k => TCtxsw old (TSt s t d) (λ s', lift_res s'.(tty) s'.(dev) (k s'.(kern)))
  | Halted s => THalted (TSt s t d)
  | UB => TUB
  end.
Definition lift {D A} (m : K A) : T D A := λ s, lift_res s.(tty) s.(dev) (m s.(kern)).

Definition typtr {D} : T D ttycblk := λ s, TDone s.(tty) s.
Definition updtty {D} (f : ttycblk -> ttycblk) : T D unit := λ s, TDone tt (TSt s.(kern) (f s.(tty)) s.(dev)).
Definition topt {D A} (o : option A) : T D A := λ s, match o with Some a => TDone a s | None => TUB end.
Definition csr {D} `{Uart D} (r : ureg) : T D Z := λ s,
  let (v, d) := csr_read r s.(dev) in TDone v (TSt s.(kern) s.(tty) d).
Definition set_csr {D} `{Uart D} (r : ureg) (v : Z) : T D unit := λ s,
  TDone tt (TSt s.(kern) s.(tty) (csr_write r v s.(dev))).

Section Driver.
Context {D : Type} `{!Uart D}.

(** * Pointers into the buffers *)

(** [*typtr->tyitail++ = ch] *)
Definition put_itail (ch : Z) : T D unit :=
  t ← typtr;
  b ← topt (arr_upd (λ _, ch) t.(tyitail) t.(tyibuff));
  updtty (λ t, set_tyitail (t.(tyitail) + 1) (set_tyibuff b t)).

(** [if (typtr->tyitail >= &typtr->tyibuff[TY_IBUFLEN]) typtr->tyitail = typtr->tyibuff] *)
Definition wrap_itail : T D unit :=
  t ← typtr;
  if t.(tyitail) >=? TY_IBUFLEN then updtty (set_tyitail 0) else mret tt.

(** The number of characters in the input buffer, 0 when processes wait for one. *)
Definition navail : T D Z :=
  t ← typtr;
  avail ← lift (semcount t.(tyisem));
  mret (if avail <? 0 then 0 else avail).

(** * The lower half *)

(** device/tty/ttykickout.c: ttykickout *)
Definition ttykickout : T D unit := set_csr IER (Z.lor UART_IER_ERBFI UART_IER_ETBEI).

(** device/tty/ttyhandle_in.c: eputc *)
Definition eputc (ch : Z) : T D unit :=
  t ← typtr;
  b ← topt (arr_upd (λ _, ch) t.(tyetail) t.(tyebuff));
  updtty (λ t, set_tyetail (t.(tyetail) + 1) (set_tyebuff b t));;
  t ← typtr;
  (if t.(tyetail) >=? TY_EBUFLEN then updtty (set_tyetail 0) else mret tt);;
  ttykickout.

(** device/tty/ttyhandle_in.c: echoch *)
Definition echoch (ch : Z) : T D unit :=
  t ← typtr;
  if ((ch =? TY_NEWLINE) || (ch =? TY_RETURN)) && t.(tyecrlf) then
    eputc TY_RETURN;;
    eputc TY_NEWLINE
  else if ((ch <? TY_BLANK) || (ch =? 127)) && t.(tyevis) then
    eputc TY_UPARROW;;
    eputc (u8 (ch + 64))
  else
    eputc ch.

(** device/tty/ttyhandle_in.c: erase1 *)
Definition erase1 : T D unit :=
  updtty (λ t, set_tyitail (t.(tyitail) - 1) t);;
  t ← typtr;
  (if t.(tyitail) <? 0 then updtty (λ t, set_tyitail (t.(tyitail) + TY_IBUFLEN) t) else mret tt);;
  t ← typtr;
  ch ← topt (t.(tyibuff) !! t.(tyitail));
  if t.(tyiecho) then
    if (ch <? TY_BLANK) || (ch =? 127) then
      (if t.(tyevis) then
         eputc TY_BACKSP;;
         (if t.(tyieback) then eputc TY_BLANK;; eputc TY_BACKSP else mret tt)
       else mret tt);;
      eputc TY_BACKSP;;
      (if t.(tyieback) then eputc TY_BLANK;; eputc TY_BACKSP else mret tt)
    else
      eputc TY_BACKSP;;
      (if t.(tyieback) then eputc TY_BLANK;; eputc TY_BACKSP else mret tt)
  else mret tt.

(** device/tty/ttyhandle_in.c: ttyhandle_in, the cooked mode part. *)
Definition cooked_in (ch : Z) : T D unit :=
  t ← typtr;
  if (ch =? t.(tyikillc)) && t.(tyikill) then
    updtty (λ t, set_tyitail (t.(tyitail) - t.(tyicursor)) t);;
    t ← typtr;
    (if t.(tyitail) <? 0 then updtty (λ t, set_tyihead (t.(tyihead) + TY_IBUFLEN) t) else mret tt);;
    updtty (set_tyicursor 0);;
    eputc TY_RETURN;;
    eputc TY_NEWLINE
  else if (ch =? t.(tyierasec)) && t.(tyierase) then
    if 0 <? t.(tyicursor) then
      updtty (λ t, set_tyicursor (t.(tyicursor) - 1) t);;
      erase1
    else mret tt
  else if (ch =? TY_NEWLINE) || (ch =? TY_RETURN) then
    (if t.(tyiecho) then echoch ch else mret tt);;
    put_itail ch;;
    wrap_itail;;
    t ← typtr;
    lift (signaln t.(tyisem) (s32 (t.(tyicursor) + 1)));;
    updtty (set_tyicursor 0)
  else
    avail ← navail;
    if s32 (avail + t.(tyicursor)) >=? TY_IBUFLEN - 1 then eputc t.(tyifullc)
    else if (ch =? t.(tyeofch)) && t.(tyeof) then
      (if t.(tyiecho) then echoch ch else mret tt);;
      if negb (t.(tyicursor) =? 0) then mret tt
      else
        put_itail ch;;
        lift (signal t.(tyisem));;
        mret tt
    else
      (if t.(tyiecho) then echoch ch else mret tt);;
      updtty (λ t, set_tyicursor (s32 (t.(tyicursor) + 1)) t);;
      put_itail ch;;
      wrap_itail.

(** device/tty/ttyhandle_in.c: ttyhandle_in, the cbreak mode part. *)
Definition cbreak_in (avail ch : Z) : T D unit :=
  t ← typtr;
  if avail >=? TY_IBUFLEN then eputc t.(tyifullc)
  else
    put_itail ch;;
    wrap_itail;;
    if t.(tyiecho) then echoch ch else mret tt.

(** device/tty/ttyhandle_in.c: ttyhandle_in, the raw mode part. *)
Definition raw_in (avail ch : Z) : T D unit :=
  if avail >=? TY_IBUFLEN then mret tt
  else
    put_itail ch;;
    t ← typtr;
    (if t.(tyotail) >=? TY_OBUFLEN then updtty (set_tyotail 0) else mret tt);;
    lift (signal t.(tyisem));;
    mret tt.

(** device/tty/ttyhandle_in.c: ttyhandle_in *)
Definition ttyhandle_in : T D unit :=
  v ← csr BUFFER;
  let ch := u8 v in
  avail ← navail;
  t ← typtr;
  if t.(tyimode) =? TY_IMRAW then raw_in avail ch
  else
    let ch := if (ch =? TY_RETURN) && t.(tyicrlf) then TY_NEWLINE else ch in
    if t.(tyoflow) && (ch =? t.(tyostart)) then updtty (set_tyoheld false);; ttykickout
    else if t.(tyoflow) && (ch =? t.(tyostop)) then updtty (set_tyoheld true)
    else
      updtty (set_tyoheld false);;
      if t.(tyimode) =? TY_IMCBREAK then cbreak_in avail ch else cooked_in ch.

(** [typtr->tyehead == typtr->tyetail && semcount(typtr->tyosem) >= TY_OBUFLEN] *)
Definition nothing_to_send : T D bool :=
  t ← typtr;
  if t.(tyehead) =? t.(tyetail) then n ← lift (semcount t.(tyosem)); mret (n >=? TY_OBUFLEN)
  else mret false.

Definition stop_output : T D unit :=
  ier ← csr IER;
  set_csr IER (Z.ldiff ier UART_IER_ETBEI).

(** The first loop of ttyhandle_out, with [uspace] the space in the FIFO; it gives the
    space that is left. *)
Fixpoint send_echo (uspace : nat) : T D nat :=
  t ← typtr;
  match uspace with
  | O => mret O
  | S n =>
      if t.(tyehead) =? t.(tyetail) then mret uspace
      else
        ch ← topt (t.(tyebuff) !! t.(tyehead));
        set_csr BUFFER ch;;
        updtty (λ t, set_tyehead (t.(tyehead) + 1) t);;
        t ← typtr;
        (if t.(tyehead) >=? TY_EBUFLEN then updtty (set_tyehead 0) else mret tt);;
        send_echo n
  end.

(** The second loop, with [avail] characters in the output buffer; it gives the number
    of characters sent. *)
Fixpoint send_output (uspace : nat) (avail : Z) : T D Z :=
  match uspace with
  | O => mret 0
  | S n =>
      if 0 <? avail then
        t ← typtr;
        ch ← topt (t.(tyobuff) !! t.(tyohead));
        set_csr BUFFER ch;;
        updtty (λ t, set_tyohead (t.(tyohead) + 1) t);;
        t ← typtr;
        (if t.(tyohead) >=? TY_OBUFLEN then updtty (set_tyohead 0) else mret tt);;
        ochars ← send_output n (avail - 1);
        mret (ochars + 1)
      else mret 0
  end.

(** device/tty/ttyhandle_out.c: ttyhandle_out *)
Definition ttyhandle_out : T D unit :=
  t ← typtr;
  if t.(tyoheld) then mret tt
  else
    idle ← nothing_to_send;
    if (idle : bool) then stop_output
    else
      lvl ← csr TXFIFO_LVL;
      uspace ← send_echo (Z.to_nat (s32 (UART_FIFO_SIZE - lvl)));
      t ← typtr;
      n ← lift (semcount t.(tyosem));
      ochars ← send_output uspace (TY_OBUFLEN - n);
      (if 0 <? ochars then lift (signaln t.(tyosem) ochars);; mret tt else mret tt);;
      idle ← nothing_to_send;
      if (idle : bool) then stop_output else mret tt.

(** The loop of ttyhandler. *)
Fixpoint receive_loop (fuel : nat) : T D unit :=
  match fuel with
  | O => topt None
  | S fuel =>
      lsr ← csr LSR;
      if negb (Z.land lsr UART_LSR_DR =? 0) then ttyhandle_in;; receive_loop fuel else mret tt
  end.

(** device/tty/ttyhandler.c: ttyhandler; the device receives no more than [fuel]
    characters. *)
Definition ttyhandler (fuel : nat) : T D unit :=
  iir ← csr IIR;
  if negb (Z.land iir UART_IIR_IRQ =? 0) then mret tt
  else
    let iir := Z.land iir UART_IIR_IDMASK in
    if iir =? UART_IIR_RLSI then
      lsr ← csr LSR;
      if negb (Z.land lsr UART_LSR_BI =? 0) then csr BUFFER;; mret tt else mret tt
    else if (iir =? UART_IIR_RDA) || (iir =? UART_IIR_RTO) then
      lift (resched_cntl DEFER_START);;
      receive_loop fuel;;
      lift (resched_cntl DEFER_STOP);;
      mret tt
    else if iir =? UART_IIR_THRE then ttyhandle_out
    else mret tt.

(** * The upper half *)

(** device/tty/ttygetc.c: ttygetc *)
Definition ttygetc : T D Z :=
  t ← typtr;
  lift (wait t.(tyisem));;
  t ← typtr;
  ch ← topt (t.(tyibuff) !! t.(tyihead));
  updtty (λ t, set_tyihead (t.(tyihead) + 1) t);;
  t ← typtr;
  (if t.(tyihead) >=? TY_IBUFLEN then updtty (set_tyihead 0) else mret tt);;
  t ← typtr;
  if (t.(tyimode) =? TY_IMCOOKED) && t.(tyeof) && (ch =? t.(tyeofch)) then mret EOF
  else mret ch.

(** The loop of ttyread in raw and cbreak mode: the characters stored in [buff]. *)
Fixpoint read_chars (count : nat) : T D (list Z) :=
  match count with
  | O => mret []
  | S n => ch ← ttygetc; l ← read_chars n; mret (u8 ch :: l)
  end.

(** The loop of ttyread in cooked mode, after [ch]. *)
Fixpoint read_line (count : nat) (ch : Z) : T D (list Z) :=
  match count with
  | O => mret []
  | S n =>
      if negb (ch =? TY_NEWLINE) && negb (ch =? TY_RETURN) then
        c ← ttygetc;
        l ← read_line n (u8 c);
        mret (u8 c :: l)
      else mret []
  end.

(** device/tty/ttyread.c: ttyread, with the characters it stores at [buff]. *)
Definition ttyread (count : Z) : T D (Z * list Z) :=
  if count <? 0 then mret (SYSERR, [])
  else
    t ← typtr;
    if negb (t.(tyimode) =? TY_IMCOOKED) then
      n ← (if count =? 0 then lift (semcount t.(tyisem)) else mret count);
      l ← read_chars (Z.to_nat n);
      mret (Z.of_nat (length l), l)
    else
      firstch ← ttygetc;
      if firstch =? EOF then mret (EOF, [])
      else
        let ch := u8 firstch in
        l ← read_line (Z.to_nat (count - 1)) ch;
        mret (Z.of_nat (S (length l)), ch :: l).

(** ttyputc after the test for a newline; the call that sends the CR before it comes
    here at once, because a CR is not a newline. *)
Definition put_output (ch : Z) : T D Z :=
  t ← typtr;
  lift (wait t.(tyosem));;
  t ← typtr;
  b ← topt (arr_upd (λ _, ch) t.(tyotail) t.(tyobuff));
  updtty (λ t, set_tyotail (t.(tyotail) + 1) (set_tyobuff b t));;
  t ← typtr;
  (if t.(tyotail) >=? TY_OBUFLEN then updtty (set_tyotail 0) else mret tt);;
  ttykickout;;
  mret OK.

(** device/tty/ttyputc.c: ttyputc *)
Definition ttyputc (ch : Z) : T D Z :=
  t ← typtr;
  (if (ch =? TY_NEWLINE) && t.(tyocrlf) then put_output TY_RETURN;; mret tt else mret tt);;
  put_output ch.

(** The loop of ttywrite: [count] characters of [buff]. *)
Fixpoint write_chars (count : nat) (buff : list Z) : T D unit :=
  match count, buff with
  | O, _ => mret tt
  | S n, ch :: buff => ttyputc ch;; write_chars n buff
  | S _, [] => topt None
  end.

(** device/tty/ttywrite.c: ttywrite, with the characters at [buff]. *)
Definition ttywrite (buff : list Z) (count : Z) : T D Z :=
  if count <? 0 then mret SYSERR
  else if count =? 0 then mret OK
  else write_chars (Z.to_nat count) buff;; mret OK.

(** device/tty/ttycontrol.c: ttycontrol; the two arguments are not used. *)
Definition ttycontrol (func : Z) : T D Z :=
  t ← typtr;
  if func =? TC_NEXTC then
    lift (wait t.(tyisem));;
    t ← typtr;
    ch ← topt (t.(tyibuff) !! t.(tyitail));
    lift (signal t.(tyisem));;
    mret ch
  else if func =? TC_MODER then updtty (set_tyimode TY_IMRAW);; mret OK
  else if func =? TC_MODEC then updtty (set_tyimode TY_IMCOOKED);; mret OK
  else if func =? TC_MODEK then updtty (set_tyimode TY_IMCBREAK);; mret OK
  else if func =? TC_ICHARS then lift (semcount t.(tyisem))
  else if func =? TC_ECHO then updtty (set_tyiecho true);; mret OK
  else if func =? TC_NOECHO then updtty (set_tyiecho false);; mret OK
  else mret SYSERR.

(** device/tty/ttyinit.c: ttyinit; the interrupt vector is below the model. *)
Definition ttyinit : T D Z :=
  isem ← lift (semcreate 0);
  osem ← lift (semcreate TY_OBUFLEN);
  updtty (λ t, Ttycblk 0 0 t.(tyibuff) isem 0 0 t.(tyobuff) osem 0 0 t.(tyebuff) TY_IMCOOKED
    true true true true true true TY_BACKSP true TY_EOFCH true TY_KILLCH 0 true false
    TY_STOPCH TY_STRTCH true TY_FULLCH);;
  set_csr LCR UART_LCR_DLAB;;
  set_csr IER UART_DLM;;
  set_csr BUFFER UART_DLL;;
  set_csr LCR UART_LCR_8N1;;
  set_csr IIR 0;;
  set_csr IIR (Z.lor UART_FCR_EFIFO (Z.lor UART_FCR_RRESET (Z.lor UART_FCR_TRESET UART_FCR_TRIG2)));;
  set_csr MDR1 UART_MDR1_16X;;
  ttykickout;;
  mret OK.

End Driver.
