(* ===== verification/Ttylib.v ===== *)
(** The tools of the proofs about the terminal driver: semaphore calls when nobody waits,
    what the driver relies on of the device, and straight-line code. *)

From S2P Require Import Prelude Types Queue Memory Kernel Sched Sem Ring Tty.

(** * signaln on a semaphore that nobody waits for *)

Lemma signaln_loop_is n : ∀ i c s, sem_is s i c -> 0 <= c -> c + Z.of_nat n < 2147483648 ->
  ∃ s', signaln_loop n i s = Done tt s' /\ sem_is s' i (c + Z.of_nat n) /\ set_semtab s.(semtab) s' = s /\
    (∀ j c, j ≠ i -> sem_is s j c -> sem_is s' j c).
Proof.
  induction n as [|n IH]; intros i c s Hs H0 H1.
  - exists s. rewrite Z.add_0_r. split; [done|]. split; [done|]. split; [by destruct s|done].
  - cbn [signaln_loop]. pose proof Hs as (Hb & se & Hi & Hu & Hc).
    assert (Hone : signal_one i s = Done tt (set_semtab (<[i := set_scount (c + 1) se]> s.(semtab)) s)).
    { unfold signal_one, scount_postinc. krun. rewrite Hi. krun. rewrite (arr_upd_eq _ _ _ _ Hi). krun. rewrite Hc.
      rewrite s32_id by (unfold is_s32; lia). rewrite (proj2 (Z.ltb_ge c 0)) by lia. done. }
    rewrite (bind_done _ _ _ _ _ Hone).
    destruct (IH i (c + 1) (set_semtab (<[i := set_scount (c + 1) se]> s.(semtab)) s)) as (s' & Hr & His & Heq & Ho).
    + pose proof (set_count_is i c (c + 1) s Hs) as H. unfold set_count in H. by rewrite Hi in H.
    + lia.
    + lia.
    + exists s'. split; [done|]. rewrite Nat2Z.inj_succ. replace (c + Z.succ (Z.of_nat n)) with (c + 1 + Z.of_nat n) by lia.
      split; [done|]. split.
      * transitivity (set_semtab s.(semtab) (set_semtab (<[i := set_scount (c + 1) se]> (semtab s)) s')); [by destruct s'|].
        cbn [semtab set_semtab] in Heq. rewrite Heq. by destruct s.
      * intros j c0 Hne Hj. apply Ho; [done|]. pose proof (set_count_other i j c0 (c + 1) s Hj Hne) as H.
        unfold set_count in H. by rewrite Hi in H.
Qed.

(** resched_cntl without a rescheduling. *)
Lemma defer_start_any s : 0 <= s.(ndefers) < 2147483647 ->
  resched_cntl DEFER_START s =
    Done OK (set_attempt (if s.(ndefers) =? 0 then false else s.(attempt)) (set_ndefers (s.(ndefers) + 1) s)).
Proof.
  intros Hn. unfold resched_cntl. change (DEFER_START =? DEFER_START) with true. cbv iota.
  rewrite bind_gets, bind_modify. rewrite s32_id by (unfold is_s32; lia).
  destruct (ndefers s =? 0); [by rewrite bind_modify|]. rewrite (bind_done (mret tt) _ _ tt _ eq_refl). by destruct s.
Qed.

Lemma defer_stop_any s n : s.(ndefers) = n + 1 -> 0 <= n -> (n = 0 -> s.(attempt) = false) ->
  resched_cntl DEFER_STOP s = Done OK (set_ndefers n s).
Proof.
  intros Hn H0 Ha. unfold resched_cntl. change (DEFER_STOP =? DEFER_START) with false.
  change (DEFER_STOP =? DEFER_STOP) with true. cbv iota. rewrite bind_gets. rewrite (proj2 (Z.leb_gt _ _)) by lia.
  rewrite bind_modify, bind_gets. rewrite Hn. replace (n + 1 - 1) with n by lia. cbn [attempt set_ndefers].
  destruct (Z.eqb_spec n 0) as [E|E]; [rewrite Ha by done|]; done.
Qed.

(** signaln gives the processor to nobody when no process waits. *)
Lemma signaln_is i c n s : sem_is s i c -> 0 <= c -> 0 <= n -> c + n < 2147483648 -> 0 <= s.(ndefers) < 2147483647 ->
  ∃ s', signaln i n s = Done OK s' /\ sem_is s' i (c + n) /\ (∀ j c, j ≠ i -> sem_is s j c -> sem_is s' j c) /\
    s'.(ndefers) = s.(ndefers) /\ (s.(ndefers) ≠ 0 -> s'.(attempt) = s.(attempt)).
Proof.
  intros Hs H0 H1 H2 Hnd. pose proof Hs as (Hb & se & Hi & Hu & Hc).
  set (a := if s.(ndefers) =? 0 then false else s.(attempt)).
  set (s2 := set_attempt a (set_ndefers (s.(ndefers) + 1) (set_ie false s))).
  destruct (signaln_loop_is (Z.to_nat n) i c s2 Hs H0 ltac:(lia)) as (s3 & Hr & His & Heq & Ho).
  rewrite Z2Nat.id in His by lia.
  assert (Hn3 : s3.(ndefers) = s.(ndefers) + 1) by (change (ndefers s + 1) with (ndefers s2); rewrite <- Heq; by destruct s3).
  assert (Ha3 : s3.(attempt) = a) by (change a with (attempt s2); rewrite <- Heq; by destruct s3).
  exists (set_ie s.(ie) (set_ndefers s.(ndefers) s3)). split; [|split; [exact His|split; [exact Ho|split; [done|]]]].
  - unfold signaln. rewrite (bind_done disable _ s s.(ie) (set_ie false s) eq_refl).
    rewrite Hb, (proj2 (Z.ltb_ge n 0)) by lia. cbn [orb].
    rewrite (bind_done (getsem i) _ (set_ie false s) se (set_ie false s)) by (unfold getsem, opt; cbn [semtab set_ie]; by rewrite Hi).
    rewrite bool_decide_eq_false_2 by congruence. rewrite (bind_done _ _ _ _ _ (defer_start_any (set_ie false s) Hnd)).
    change (set_attempt _ _) with s2. rewrite (bind_done _ _ _ _ _ Hr).
    rewrite (bind_done _ _ _ _ _ (defer_stop_any s3 s.(ndefers) Hn3 ltac:(lia)
      ltac:(intros E; rewrite Ha3; unfold a; by rewrite E))).
    unfold restore. by rewrite bind_modify.
  - intros E. cbn [attempt set_ie set_ndefers]. rewrite Ha3. unfold a. by rewrite (proj2 (Z.eqb_neq _ _) E).
Qed.

(** * The device *)

(** What the driver relies on of a UART in operation (divisor latch closed, receive
    interrupts on): the characters it has received and not handed over are [rx], it has
    sent [tx] and has [lvl] characters in its output FIFO; [receive] is the line's
    doing. *)
Class UartLaws (D : Type) `{!Uart D} := {
  oper : D -> Prop;
  rx : D -> list Z;
  tx : D -> list Z;
  lvl : D -> Z;
  receive : list Z -> D -> D;
  receive_oper cs d : oper d -> oper (receive cs d);
  receive_rx cs d : rx (receive cs d) = rx d ++ cs;
  rd_oper r d : oper d -> oper (csr_read r d).2;
  rd_rx r d : oper d -> r ≠ BUFFER -> rx (csr_read r d).2 = rx d;
  rd_tx r d : oper d -> tx (csr_read r d).2 = tx d;
  rd_buffer c l d : oper d -> rx d = c :: l -> (csr_read BUFFER d).1 = c /\ rx (csr_read BUFFER d).2 = l;
  rd_lsr d : oper d -> Z.land (csr_read LSR d).1 UART_LSR_DR = if rx d is [] then 0 else 1;
  rd_iir d : oper d -> rx d ≠ [] -> (csr_read IIR d).1 = UART_IIR_RDA;
  rd_ier d : oper d -> Z.testbit (csr_read IER d).1 0 = true;
  rd_lvl d : oper d -> (csr_read TXFIFO_LVL d).1 = lvl d;
  lvl_range d : oper d -> 0 <= lvl d <= UART_FIFO_SIZE;
  lvl_read r d : oper d -> lvl (csr_read r d).2 <= lvl d;
  wr_ier v d : oper d -> Z.testbit v 0 = true ->
    oper (csr_write IER v d) /\ rx (csr_write IER v d) = rx d /\ tx (csr_write IER v d) = tx d /\
    lvl (csr_write IER v d) <= lvl d;
  wr_buffer v d : oper d -> lvl d < UART_FIFO_SIZE ->
    oper (csr_write BUFFER v d) /\ rx (csr_write BUFFER v d) = rx d /\
    tx (csr_write BUFFER v d) = tx d ++ [v] /\ lvl (csr_write BUFFER v d) <= lvl d + 1 }.

(** Straight-line code of the driver. *)
Lemma tbind_done {D A B} (m : T D A) (f : A -> T D B) s a s' : m s = TDone a s' -> (m ≫= f) s = f a s'.
Proof. intros H. unfold mbind, T_bind. by rewrite H. Qed.

Lemma bind_typtr {D B} (f : ttycblk -> T D B) s : (typtr ≫= f) s = f s.(tty) s.
Proof. done. Qed.

Lemma bind_updtty {D B} g (f : unit -> T D B) k t d : (updtty g ≫= f) (TSt k t d) = f tt (TSt k (g t) d).
Proof. done. Qed.

Lemma bind_topt {D A B} (a : A) (f : A -> T D B) s : (topt (Some a) ≫= f) s = f a s.
Proof. done. Qed.

Lemma bind_tret {D A B} (a : A) (f : A -> T D B) s : (mret a ≫= f) s = f a s.
Proof. done. Qed.

Lemma bind_if {D A B} (b : bool) (m1 m2 : T D A) (f : A -> T D B) s :
  ((if b then m1 else m2) ≫= f) s = if b then (m1 ≫= f) s else (m2 ≫= f) s.
Proof. by destruct b. Qed.

Lemma lift_run {D A} (m : K A) k t (d : D) a k' : m k = Done a k' -> lift m (TSt k t d) = TDone a (TSt k' t d).
Proof. intros H. unfold lift. cbn [kern tty dev]. by rewrite H. Qed.

Lemma bind_lift {D A B} (m : K A) (f : A -> T D B) k t d a k' :
  m k = Done a k' -> (lift m ≫= f) (TSt k t d) = f a (TSt k' t d).
Proof. intros H. apply tbind_done. by apply lift_run. Qed.
