(* ===== verification/Ttyin.v ===== *)
(** Input of the terminal driver, verified: the handler of arriving characters refines a
    line editor, and a typed line is read as it was edited.

    A line of the driver is two lists: the characters that can be read, one for each
    unit of the input semaphore, and the line being edited, [tyicursor] characters; the
    ring buffer holds one after the other.  [line_edit] is what a character does to
    them. *)

From S2P Require Import Prelude Types Queue Memory Kernel Sched Sem Ring Tty Ttylib.

(** * The line editor *)

(** What an arriving character does to the characters that can be read and to the line,
    after the flow control. *)
Definition cooked_edit (t : ttycblk) (ch : Z) (ql : list Z * list Z) : list Z * list Z :=
  let '(q, l) := ql in
  if (ch =? t.(tyikillc)) && t.(tyikill) then (q, [])
  else if (ch =? t.(tyierasec)) && t.(tyierase) then (q, take (length l - 1) l)
  else if (ch =? TY_NEWLINE) || (ch =? TY_RETURN) then (q ++ l ++ [ch], [])
  else if Z.of_nat (length (q ++ l)) >=? TY_IBUFLEN - 1 then (q, l)
  else if (ch =? t.(tyeofch)) && t.(tyeof) then (if l is [] then q ++ [ch] else q, l)
  else (q, l ++ [ch]).

(** The character [c]. *)
Definition line_edit (t : ttycblk) (c : Z) (ql : list Z * list Z) : list Z * list Z :=
  let ch := if (c =? TY_RETURN) && t.(tyicrlf) then TY_NEWLINE else c in
  if t.(tyoflow) && ((ch =? t.(tyostart)) || (ch =? t.(tyostop))) then ql else cooked_edit t ch ql.

(** Modes that no character changes. *)
Definition modes (t : ttycblk) :=
  (t.(tyimode), t.(tyiecho), t.(tyieback), t.(tyevis), t.(tyecrlf), t.(tyicrlf), t.(tyierase), t.(tyierasec),
   t.(tyeof), t.(tyeofch), t.(tyikill), t.(tyikillc), t.(tyoflow), t.(tyostop), t.(tyostart)).

Lemma line_edit_modes t t' c ql : modes t' = modes t -> line_edit t' c ql = line_edit t c ql.
Proof. intros [= H1 H2 H3 H4 H5 H6 H7 H8 H9 H10 H11 H12 H13 H14 H15]. unfold line_edit, cooked_edit. by rewrite H6, H7, H8, H9, H10, H11, H12, H13, H14, H15. Qed.

Section Line.
Context {D : Type} `{!Uart D, !UartLaws D}.

(** The driver in cooked mode, nobody waiting for input: [q] can be read, [l] is the
    line being edited. *)
Record line_state (s : tst D) (q l : list Z) : Prop := {
  ls_mode : s.(tty).(tyimode) = TY_IMCOOKED;
  ls_sem : sem_is s.(kern) s.(tty).(tyisem) (Z.of_nat (length q));
  ls_defer : 0 <= s.(kern).(ndefers) < 2147483646;
  ls_ring : ring_holds TY_IBUFLEN s.(tty).(tyibuff) s.(tty).(tyihead) s.(tty).(tyitail) (q ++ l);
  ls_cursor : s.(tty).(tyicursor) = Z.of_nat (length l);
  ls_echo : arr_len TY_EBUFLEN s.(tty).(tyebuff) /\ 0 <= s.(tty).(tyetail) < TY_EBUFLEN;
  ls_dev : oper s.(dev) }.

(** What a step on the input side leaves alone. *)
Record same_rest (s s' : tst D) : Prop := {
  sr_modes : modes s'.(tty) = modes s.(tty);
  sr_isem : s'.(tty).(tyisem) = s.(tty).(tyisem);
  sr_defer : s'.(kern).(ndefers) = s.(kern).(ndefers);
  sr_attempt : s.(kern).(ndefers) ≠ 0 -> s'.(kern).(attempt) = s.(kern).(attempt);
  sr_head : s'.(tty).(tyihead) = s.(tty).(tyihead);
  sr_rx : rx s'.(dev) = rx s.(dev) }.

Lemma same_rest_refl s : same_rest s s.
Proof. done. Qed.

Lemma same_rest_trans s1 s2 s3 : same_rest s1 s2 -> same_rest s2 s3 -> same_rest s1 s3.
Proof. intros [A1 B1 C1 D1 E1 F1] [A2 B2 C2 D2 E2 F2]. constructor; try congruence. intros H. rewrite D2, D1; congruence. Qed.

(** ** Echo changes the echo queue and the device's interrupt mask only *)

Definition echoed (t t' : ttycblk) : Prop := ∃ b e,
  t' = set_tyetail e (set_tyebuff b t) /\ arr_len TY_EBUFLEN b /\ 0 <= e < TY_EBUFLEN.

Definition quiet (m : T D unit) : Prop := ∀ k t d,
  arr_len TY_EBUFLEN t.(tyebuff) /\ 0 <= t.(tyetail) < TY_EBUFLEN -> oper d ->
  ∃ t' d', m (TSt k t d) = TDone tt (TSt k t' d') /\ echoed t t' /\ oper d' /\ rx d' = rx d.

Lemma quiet_ret : quiet (mret tt).
Proof. intros k t d [H1 H2] H3. exists t, d. split; [done|]. split; [|done]. exists t.(tyebuff), t.(tyetail). by destruct t. Qed.

Lemma quiet_seq m1 m2 : quiet m1 -> quiet m2 -> quiet (m1;; m2).
Proof.
  intros Q1 Q2 k t d He Hd. destruct (Q1 k t d He Hd) as (t1 & d1 & Hr1 & (b1 & e1 & -> & Hb1 & He1) & Hd1 & Hx1).
  destruct (Q2 k (set_tyetail e1 (set_tyebuff b1 t)) d1 (conj Hb1 He1) Hd1) as (t2 & d2 & Hr2 & (b2 & e2 & -> & Hb2 & He2) & Hd2 & Hx2).
  eexists _, d2. rewrite (tbind_done _ _ _ _ _ Hr1). split; [exact Hr2|]. split; [|split; [done|congruence]].
  by exists b2, e2.
Qed.

Lemma quiet_typtr f : (∀ t, quiet (f t)) -> quiet (typtr ≫= f).
Proof. intros H k t d. exact (H t k t d). Qed.

Lemma quiet_if (b : bool) m1 m2 : quiet m1 -> quiet m2 -> quiet (if b then m1 else m2).
Proof. by destruct b. Qed.

Lemma eputc_quiet ch : quiet (eputc ch).
Proof.
  intros k t d [Hb He] Hd. unfold eputc. rewrite bind_typtr. cbn [tty].
  destruct (arr_len_lookup _ _ _ Hb He) as [x Hx]. rewrite (arr_upd_Some _ _ _ _ Hx), bind_topt, bind_updtty, bind_typtr.
  cbn [tty]. rewrite bind_if, bind_updtty, bind_tret.
  destruct (wr_ier (Z.lor UART_IER_ERBFI UART_IER_ETBEI) d Hd eq_refl) as (Hd' & Hx' & _).
  set (b := <[tyetail t := ch]> (tyebuff t)). assert (Hb' : arr_len TY_EBUFLEN b) by (by apply arr_len_insert).
  change (tyetail (set_tyetail (tyetail t + 1) (set_tyebuff b t))) with (tyetail t + 1).
  pose proof (ring_wrap TY_EBUFLEN (tyetail t) He) as Hw.
  pose proof (Z.mod_pos_bound (tyetail t + 1) TY_EBUFLEN eq_refl) as Hm. rewrite <- Hw in Hm.
  destruct (tyetail t + 1 >=? TY_EBUFLEN); eexists _, _; (split; [reflexivity|]); (split; [|done]); by eexists b, _.
Qed.



Lemma echoch_quiet ch : quiet (echoch ch).
Proof. apply quiet_typtr. intros t. repeat first [apply quiet_if|apply quiet_seq|apply eputc_quiet|apply quiet_ret]. Qed.

(** After something quiet the line is the same. *)
Lemma line_quiet m {B} (f : unit -> T D B) s q l : quiet m -> line_state s q l ->
  ∃ s', (m ≫= f) s = f tt s' /\ line_state s' q l /\ same_rest s s' /\ s'.(kern) = s.(kern) /\ echoed s.(tty) s'.(tty).
Proof.
  intros Q L. destruct s as [k t d]. destruct (Q k t d (ls_echo _ _ _ L) (ls_dev _ _ _ L)) as (t' & d' & Hr & E & Hd' & Hx).
  exists (TSt k t' d'). rewrite (tbind_done _ _ _ _ _ Hr). split; [done|]. destruct L. destruct E as (b & e & -> & Hb & He).
  split; [by constructor|]. split; [by constructor|]. split; [done|]. by exists b, e.
Qed.

(** The same at the end of a handler. *)
Lemma line_quiet_end m s q l : quiet m -> line_state s q l ->
  ∃ s', m s = TDone tt s' /\ line_state s' q l /\ same_rest s s'.
Proof.
  intros Q L. destruct s as [k t d]. destruct (Q k t d (ls_echo _ _ _ L) (ls_dev _ _ _ L)) as (t' & d' & Hr & E & Hd' & Hx).
  exists (TSt k t' d'). split; [done|]. destruct L. destruct E as (b & e & -> & Hb & He).
  split; by constructor.
Qed.

(** ** The branches of ttyhandle_in *)

(** The control block after [ch] is put in the ring buffer. *)
Definition with_char (ch : Z) (t : ttycblk) : ttycblk :=
  set_tyitail ((t.(tyitail) + 1) mod TY_IBUFLEN) (set_tyibuff (<[t.(tyitail) := ch]> t.(tyibuff)) t).

Lemma put_char_run {B} (f : unit -> T D B) ch k t (d : D) xs :
  ring_holds TY_IBUFLEN t.(tyibuff) t.(tyihead) t.(tyitail) xs ->
  (put_itail ch ≫= f) (TSt k t d) = f tt (TSt k (set_tyitail (t.(tyitail) + 1) (set_tyibuff (<[t.(tyitail) := ch]> t.(tyibuff)) t)) d).
Proof.
  intros R. destruct (arr_len_lookup _ _ _ (rh_len _ _ _ _ _ R) (ring_tail _ _ _ _ _ R)) as [x Hx].
  apply (tbind_done (put_itail ch)). unfold put_itail. rewrite bind_typtr. cbn [tty].
  by rewrite (arr_upd_Some _ _ _ _ Hx), bind_topt.
Qed.

Lemma wrap_run k t (d : D) x b : 0 <= x < TY_IBUFLEN ->
  wrap_itail (TSt k (set_tyitail (x + 1) (set_tyibuff b t)) d) =
    TDone tt (TSt k (set_tyitail ((x + 1) mod TY_IBUFLEN) (set_tyibuff b t)) d).
Proof.
  intros H. unfold wrap_itail. rewrite bind_typtr. cbn [tty tyitail set_tyitail]. rewrite <- (ring_wrap _ _ H).
  by destruct (x + 1 >=? TY_IBUFLEN).
Qed.

Lemma put_wrap_run {B} (f : unit -> T D B) ch k t (d : D) xs :
  ring_holds TY_IBUFLEN t.(tyibuff) t.(tyihead) t.(tyitail) xs ->
  (put_itail ch ≫= λ _, wrap_itail ≫= f) (TSt k t d) = f tt (TSt k (with_char ch t) d).
Proof.
  intros R. rewrite (put_char_run _ _ _ _ _ _ R). by rewrite (tbind_done _ _ _ _ _ (wrap_run _ _ _ _ _ (ring_tail _ _ _ _ _ R))).
Qed.

Lemma put_wrap_end ch k t (d : D) xs :
  ring_holds TY_IBUFLEN t.(tyibuff) t.(tyihead) t.(tyitail) xs ->
  (put_itail ch;; wrap_itail) (TSt k t d) = TDone tt (TSt k (with_char ch t) d).
Proof. intros R. rewrite (put_char_run _ _ _ _ _ _ R). exact (wrap_run _ _ _ _ _ (ring_tail _ _ _ _ _ R)). Qed.

Lemma line_navail {B} (f : Z -> T D B) s q l : line_state s q l -> (navail ≫= f) s = f (Z.of_nat (length q)) s.
Proof.
  intros L. destruct s as [k t d]. apply tbind_done. unfold navail. rewrite bind_typtr. cbn [tty].
  rewrite (bind_lift _ _ _ _ _ _ _ (semcount_is _ _ _ (ls_sem _ _ _ L))).
  by rewrite (proj2 (Z.ltb_ge _ _)) by lia.
Qed.

(** A character is put at the end of the line. *)
Lemma insert_line s q l ch (echo : bool) : line_state s q l -> Z.of_nat (length (q ++ l)) < TY_IBUFLEN ->
  ∃ s', ((if echo then echoch ch else mret tt);;
    updtty (λ t, set_tyicursor (s32 (t.(tyicursor) + 1)) t);;
    put_itail ch;;
    wrap_itail) s = TDone tt s' /\ line_state s' q (l ++ [ch]) /\ same_rest s s'.
Proof.
  intros L Hroom.
  destruct (line_quiet (if echo then echoch ch else mret tt) (λ _, updtty (λ t, set_tyicursor (s32 (t.(tyicursor) + 1)) t);;
    put_itail ch;; wrap_itail) s q l) as ([k t d] & -> & L' & S' & _); [|done|].
  { apply quiet_if; [apply echoch_quiet|apply quiet_ret]. }
  rewrite bind_updtty. eexists. erewrite put_wrap_end by exact (ls_ring _ _ _ L'). split; [reflexivity|].
  destruct L' as [A1 A2 A3 A4 A5 A6 A7]. cbn [kern tty dev] in *. unfold TY_IBUFLEN in *. rewrite length_app in Hroom. split.
  - constructor; try done; cbn [tty].
    + rewrite app_assoc. apply ring_push; [done|]. rewrite length_app. unfold TY_IBUFLEN. lia.
    + cbn. rewrite A5, s32_id, length_app; [cbn; lia|unfold is_s32; lia].
  - eapply same_rest_trans; [exact S'|]. by constructor.
Qed.

(** The end of a line: every character of it can be read. *)
Lemma end_line s q l ch (echo : bool) : line_state s q l -> Z.of_nat (length (q ++ l)) < TY_IBUFLEN ->
  ∃ s', ((if echo then echoch ch else mret tt);;
    put_itail ch;;
    wrap_itail;;
    t ← typtr;
    lift (signaln t.(tyisem) (s32 (t.(tyicursor) + 1)));;
    updtty (set_tyicursor 0)) s = TDone tt s' /\ line_state s' (q ++ l ++ [ch]) [] /\ same_rest s s'.
Proof.
  intros L Hroom.
  destruct (line_quiet (if echo then echoch ch else mret tt) (λ _, put_itail ch;; wrap_itail;; t ← typtr;
    lift (signaln t.(tyisem) (s32 (t.(tyicursor) + 1)));; updtty (set_tyicursor 0)) s q l) as ([k t d] & -> & L' & S' & _); [|done|].
  { apply quiet_if; [apply echoch_quiet|apply quiet_ret]. }
  erewrite put_wrap_run by exact (ls_ring _ _ _ L'). rewrite bind_typtr. cbn [tty].
  change (tyisem (with_char ch t)) with (tyisem t). change (tyicursor (with_char ch t)) with (tyicursor t).
  destruct L' as [A1 A2 A3 A4 A5 A6 A7]. cbn [kern tty dev] in *. unfold TY_IBUFLEN in Hroom. rewrite length_app in Hroom.
  rewrite A5, s32_id by (unfold is_s32; lia).
  destruct (signaln_is _ _ (Z.of_nat (length l) + 1) k A2 ltac:(lia) ltac:(lia) ltac:(lia) ltac:(lia)) as (k' & Hr & Hs & _ & Hn & Ha).
  rewrite (bind_lift _ _ _ _ _ _ _ Hr). eexists. split; [reflexivity|]. split.
  - constructor; try done; cbn [kern tty dev].
    + replace (Z.of_nat (length (q ++ l ++ [ch]))) with (Z.of_nat (length q) + (Z.of_nat (length l) + 1)); [done|].
      rewrite !length_app. cbn [length]. lia.
    + by rewrite Hn.
    + rewrite app_nil_r, app_assoc. apply ring_push; [done|]. rewrite length_app. unfold TY_IBUFLEN. lia.
  - eapply same_rest_trans; [exact S'|]. by constructor.
Qed.

(** The end-of-file character at the beginning of a line. *)
Lemma eof_line s q ch (echo : bool) : line_state s q [] -> Z.of_nat (length q) < TY_IBUFLEN ->
  s.(tty).(tyitail) < TY_IBUFLEN - 1 ->
  ∃ s', ((if echo then echoch ch else mret tt);;
    put_itail ch;;
    lift (signal s.(tty).(tyisem));;
    mret tt) s = TDone tt s' /\ line_state s' (q ++ [ch]) [] /\ same_rest s s'.
Proof.
  intros L Hroom Hwrap.
  destruct (line_quiet (if echo then echoch ch else mret tt) (λ _, put_itail ch;; lift (signal s.(tty).(tyisem));; mret tt) s q [])
    as ([k t d] & -> & L' & S' & _ & E); [|done|].
  { apply quiet_if; [apply echoch_quiet|apply quiet_ret]. }
  pose proof (ring_tail _ _ _ _ _ (ls_ring _ _ _ L')) as Ht.
  erewrite put_char_run by exact (ls_ring _ _ _ L'). rewrite <- (sr_isem _ _ S').
  destruct L' as [A1 A2 A3 A4 A5 A6 A7]. cbn [kern tty dev] in *. unfold TY_IBUFLEN in *.
  rewrite (bind_lift _ _ _ _ _ _ _ (signal_is _ _ _ A2 ltac:(lia))). eexists. split; [reflexivity|].
  assert (Htl : tyitail t = tyitail (tty s)) by (by destruct E as (b & e & -> & _)).
  split.
  - constructor; try done; cbn [kern tty dev].
    + replace (Z.of_nat (length (q ++ [ch]))) with (Z.of_nat (length q) + 1); [|rewrite length_app; cbn [length]; lia].
      by eapply set_count_is.
    + by rewrite set_count_ndefers.
    + rewrite !app_nil_r. rewrite app_nil_r in A4. pose proof (ring_push _ _ _ _ _ ch A4 ltac:(lia)) as R.
      rewrite Z.mod_small in R by lia. exact R.
  - eapply same_rest_trans; [exact S'|]. constructor; try done; cbn [kern]; [by rewrite set_count_ndefers|].
    intros _. unfold set_count. by destruct (semtab k !! _).
Qed.

(** The last character of the line is erased. *)
Lemma erase_line s q l : line_state s q l ->
  ∃ s', (if 0 <? s.(tty).(tyicursor) then
      updtty (λ t, set_tyicursor (t.(tyicursor) - 1) t);;
      erase1
    else mret tt) s = TDone tt s' /\ line_state s' q (take (length l - 1) l) /\ same_rest s s'.
Proof.
  intros L. rewrite (ls_cursor _ _ _ L). destruct (decide (l = [])) as [->|Hne].
  { cbn [length]. cbn [Z.of_nat Z.ltb Z.compare]. exists s. split; [done|]. split; [by rewrite take_nil|done]. }
  destruct (exists_last Hne) as (l0 & c & ->). rewrite length_app. cbn [length]. rewrite Nat.add_sub, take_app_length.
  rewrite (proj2 (Z.ltb_lt _ _)) by lia. destruct s as [k t d]. rewrite bind_updtty. cbv beta.
  unfold erase1. rewrite bind_updtty, bind_typtr. cbn [tty].
  set (t1 := set_tyitail _ _). destruct L as [A1 A2 A3 A4 A5 A6 A7]. cbn [kern tty dev] in *.
  pose proof (ring_tail _ _ _ _ _ A4) as Ht. rewrite app_assoc in A4.
  pose proof (ring_last _ _ _ _ _ _ A4) as Hc. apply ring_drop in A4. cbn [length] in A4.
  assert (Hmod : (tyitail t - Z.of_nat 1) mod TY_IBUFLEN = if tyitail t - 1 <? 0 then tyitail t - 1 + TY_IBUFLEN else tyitail t - 1).
  { unfold TY_IBUFLEN in *. destruct (Z.ltb_spec (tyitail t - 1) 0); [|by rewrite Z.mod_small by lia].
    rewrite <- (Z.mod_add _ 1), Z.mod_small by lia. lia. }
  change (tyitail t1) with (tyitail t - 1). rewrite bind_if, bind_updtty, bind_tret. cbv beta.
  change (tyitail t1) with (tyitail t - 1).
  set (t2 := set_tyitail ((tyitail t - 1) mod TY_IBUFLEN) (set_tyicursor (tyicursor t - 1) t)).
  assert (L2 : line_state (TSt k t2 d) q l0).
  { constructor; try done. cbn [tty]. unfold t2. cbn. rewrite A5, length_app. cbn. lia. }
  match goal with |- context [?m (TSt k t1 d)] => set (rest := m) end.
  assert (Hq : ∃ s', rest (TSt k t2 d) = TDone tt s' /\ line_state s' q l0 /\ same_rest (TSt k t2 d) s').
  { unfold rest. rewrite bind_typtr. cbn [tty]. change (tyitail t2) with ((tyitail t - 1) mod TY_IBUFLEN).
    change (tyibuff t2) with (tyibuff t). rewrite Hc, bind_topt.
    apply line_quiet_end; [|exact L2].
    repeat first [apply quiet_if|apply quiet_seq|apply eputc_quiet|apply quiet_ret]. }
  destruct Hq as (s' & Hr & L' & S'). exists s'. split; [|split; [exact L'|eapply same_rest_trans; [|exact S']; by constructor]].
  change (Z.of_nat 1) with 1 in Hmod. rewrite <- Hr. unfold t2. rewrite Hmod. by destruct (tyitail t - 1 <? 0).
Qed.

(** The line is killed, if it does not wrap around in the buffer. *)
Lemma kill_line s q l : line_state s q l -> s.(tty).(tyicursor) <= s.(tty).(tyitail) ->
  ∃ s', (updtty (λ t, set_tyitail (t.(tyitail) - t.(tyicursor)) t);;
    t ← typtr;
    (if t.(tyitail) <? 0 then updtty (λ t, set_tyihead (t.(tyihead) + TY_IBUFLEN) t) else mret tt);;
    updtty (set_tyicursor 0);;
    eputc TY_RETURN;;
    eputc TY_NEWLINE) s = TDone tt s' /\ line_state s' q [] /\ same_rest s s'.
Proof.
  intros L Hle. destruct s as [k t d]. cbn [tty] in Hle. rewrite bind_updtty, bind_typtr. cbn [tty].
  change (tyitail (set_tyitail (tyitail t - tyicursor t) t)) with (tyitail t - tyicursor t).
  rewrite (proj2 (Z.ltb_ge _ _)) by lia. rewrite bind_tret, bind_updtty.
  set (t1 := set_tyicursor 0 _). destruct L as [A1 A2 A3 A4 A5 A6 A7]. cbn [kern tty dev] in *.
  pose proof (ring_tail _ _ _ _ _ A4) as Ht. apply ring_drop in A4.
  rewrite Z.mod_small in A4 by (rewrite <- A5; pose proof (Zle_0_nat (length l)); lia).
  destruct (line_quiet_end (eputc TY_RETURN;; eputc TY_NEWLINE) (TSt k t1 d) q []) as (s' & Hr & L' & S').
  - apply quiet_seq; apply eputc_quiet.
  - constructor; try done. cbn [tty]. rewrite app_nil_r. unfold t1. cbn. by rewrite A5.
  - exists s'. split; [exact Hr|]. split; [exact L'|]. eapply same_rest_trans; [|exact S']. by constructor.
Qed.

(** What the line editor of the driver gets right: the ring has room for one more
    character, a line kill does not go back past the start of the buffer, and an
    end-of-file character does not fill the last slot. *)
Record editable (t : ttycblk) (c : Z) (q l : list Z) : Prop := {
  ed_room : Z.of_nat (length (q ++ l)) < TY_IBUFLEN;
  ed_kill : c = t.(tyikillc) -> t.(tyicursor) <= t.(tyitail);
  ed_eof : c = t.(tyeofch) -> t.(tyitail) < TY_IBUFLEN - 1 }.

(** The part of the handler after the flow control and the cbreak mode. *)
Lemma cooked_run s q l c : line_state s q l -> editable s.(tty) c q l ->
  ∃ s', cooked_in c s = TDone tt s' /\ line_state s' (cooked_edit s.(tty) c (q, l)).1 (cooked_edit s.(tty) c (q, l)).2 /\ same_rest s s'.
Proof.
  intros L [Hroom Hkill Heof]. unfold cooked_in, cooked_edit. rewrite bind_typtr. cbn [tty]. set (t := tty s) in *.
  destruct ((c =? tyikillc t) && tyikill t) eqn:Hk.
  { apply andb_true_iff in Hk as [Hk _]. apply Z.eqb_eq in Hk. by apply (kill_line s q l L), Hkill. }
  destruct ((c =? tyierasec t) && tyierase t); [by apply erase_line|].
  destruct ((c =? TY_NEWLINE) || (c =? TY_RETURN)); [by apply end_line|].
  rewrite (line_navail _ _ _ _ L). unfold TY_IBUFLEN in Hroom. rewrite length_app in *.
  rewrite (ls_cursor _ _ _ L : tyicursor t = _), s32_id by (unfold is_s32; lia).
  replace (Z.of_nat (length q) + Z.of_nat (length l)) with (Z.of_nat (length q + length l)) by lia.
  destruct (_ >=? _); [apply line_quiet_end; [apply eputc_quiet|done]|].
  destruct ((c =? tyeofch t) && tyeof t) eqn:He.
  - apply andb_true_iff in He as [He _]. apply Z.eqb_eq in He. destruct l as [|x l]; cbn [length Z.of_nat Z.eqb negb].
    + apply eof_line; [done|unfold TY_IBUFLEN; cbn in Hroom; lia|by apply Heof].
    + change (Z.of_nat (S (length l)) =? 0) with false. cbn [negb].
      destruct (line_quiet (if tyiecho t then echoch c else mret tt) (λ _, mret tt) s q (x :: l)) as (s' & -> & L' & S' & _); [|done|].
      { apply quiet_if; [apply echoch_quiet|apply quiet_ret]. }
      by exists s'.
  - apply insert_line; [done|]. rewrite length_app. unfold TY_IBUFLEN. cbn [fst]. lia.
Qed.

(** No control character is the end of a line. *)
Definition plain_controls (t : ttycblk) : Prop :=
  (t.(tyikillc) ≠ TY_NEWLINE /\ t.(tyeofch) ≠ TY_NEWLINE) /\
  t.(tyierasec) ≠ TY_NEWLINE /\ t.(tyostart) ≠ TY_NEWLINE /\ t.(tyostop) ≠ TY_NEWLINE.

(** ttyhandle_in on the next character the device has received. *)
Lemma ttyhandle_in_run s q l v r : line_state s q l -> rx s.(dev) = v :: r ->
  editable s.(tty) (u8 v) q l -> plain_controls s.(tty) ->
  ∃ s', ttyhandle_in s = TDone tt s' /\
    line_state s' (line_edit s.(tty) (u8 v) (q, l)).1 (line_edit s.(tty) (u8 v) (q, l)).2 /\
    modes s'.(tty) = modes s.(tty) /\ s'.(tty).(tyihead) = s.(tty).(tyihead) /\
    s'.(kern).(ndefers) = s.(kern).(ndefers) /\
    (s.(kern).(ndefers) ≠ 0 -> s'.(kern).(attempt) = s.(kern).(attempt)) /\ rx s'.(dev) = r.
Proof.
  intros L Hrx Hed [[Hk He] _]. destruct s as [k t d]. cbn [tty dev kern] in *.
  destruct (rd_buffer _ _ d (ls_dev _ _ _ L) Hrx) as [Hv Hr].
  set (d1 := (csr_read BUFFER d).2) in *. set (c := u8 v) in *.
  assert (L1 : line_state (TSt k t d1) q l) by (destruct L; constructor; try done; by apply rd_oper).
  unfold ttyhandle_in. rewrite (tbind_done (csr BUFFER) _ _ v (TSt k t d1))
    by (unfold csr; cbn [dev kern tty]; unfold d1; rewrite <- Hv; by destruct (csr_read BUFFER d)).
  fold c. cbv beta zeta. rewrite (line_navail _ _ _ _ L1), bind_typtr. cbn [tty].
  rewrite (ls_mode _ _ _ L : tyimode t = _). change (TY_IMCOOKED =? TY_IMRAW) with false. cbv iota.
  unfold line_edit. set (ch := if (c =? TY_RETURN) && tyicrlf t then TY_NEWLINE else c).
  assert (Hch : ch = c \/ ch = TY_NEWLINE) by (unfold ch; destruct (_ && _); auto).
  assert (Hheld : ∀ b, line_state (TSt k (set_tyoheld b t) d1) q l) by (intros b; by destruct L1).
  destruct (tyoflow t && (ch =? tyostart t)) eqn:Hs.
  { rewrite andb_orb_distrib_r, Hs. cbn [orb]. rewrite bind_updtty.
    destruct (wr_ier (Z.lor UART_IER_ERBFI UART_IER_ETBEI) d1 (ls_dev _ _ _ L1) eq_refl) as (Hd' & Hx' & _).
    eexists. split; [reflexivity|]. cbn [kern tty dev]. split; [by destruct (Hheld false)|]. by rewrite Hx'. }
  destruct (tyoflow t && (ch =? tyostop t)) eqn:Hp.
  { rewrite andb_orb_distrib_r, Hs, Hp. cbn [orb]. eexists. split; [reflexivity|]. split; [apply Hheld|]. done. }
  rewrite andb_orb_distrib_r, Hs, Hp. cbn [orb]. rewrite bind_updtty. cbv beta.
  change (TY_IMCOOKED =? TY_IMCBREAK) with false. cbv iota.
  destruct (cooked_run _ q l ch (Hheld false)) as (s' & Hrun & L' & S').
  - destruct Hed. destruct Hch as [->| ->]; constructor; try done; cbn; congruence.
  - exists s'. split; [exact Hrun|]. split; [exact L'|]. destruct S' as [B1 B2 B3 B4 B5 B6]. cbn [tty kern dev] in *.
    repeat split; try done. by rewrite B6.
Qed.

(** ** Any sequence of characters, at any sequence of interrupts *)

Definition edits (t : ttycblk) (cs : list Z) (ql : list Z * list Z) : list Z * list Z :=
  foldl (λ ql c, line_edit t (u8 c) ql) ql cs.

(** The buffer has room for the characters [cs] after the [n] it has; it does not wrap
    around, unless there is no line kill and no end of file among them. *)
Definition fits (t : ttycblk) (n : Z) (cs : list Z) : Prop :=
  n + Z.of_nat (length cs) < TY_IBUFLEN /\
  (t.(tyihead) + n + Z.of_nat (length cs) < TY_IBUFLEN \/
   Forall (λ c, u8 c ≠ t.(tyikillc) /\ u8 c ≠ t.(tyeofch)) cs).

(** What stays the same while characters arrive. *)
Record same_line (s s' : tst D) : Prop := {
  sl_modes : modes s'.(tty) = modes s.(tty);
  sl_head : s'.(tty).(tyihead) = s.(tty).(tyihead);
  sl_defer : s'.(kern).(ndefers) = s.(kern).(ndefers) }.

Lemma edit_length t c q l :
  (length ((line_edit t c (q, l)).1 ++ (line_edit t c (q, l)).2) <= S (length (q ++ l)))%nat.
Proof.
  unfold line_edit, cooked_edit.
  repeat case_match; cbn [fst snd]; rewrite ?length_app, ?length_take; cbn [length]; lia.
Qed.

Lemma fits_editable s q l c cs : line_state s q l -> fits s.(tty) (Z.of_nat (length (q ++ l))) (c :: cs) ->
  editable s.(tty) (u8 c) q l.
Proof.
  intros L [Hn Hw]. pose proof (ls_ring _ _ _ L) as [_ Hh Ht _ _]. cbn [length] in *. rewrite Nat2Z.inj_succ in *.
  constructor; [lia|intros E..]; (destruct Hw as [Hw|Hw]; [|apply Forall_cons in Hw as [[H1 H2] _]; congruence]).
  - rewrite (ls_cursor _ _ _ L), Ht, Z.mod_small by lia. rewrite length_app. lia.
  - rewrite Ht, Z.mod_small by lia. lia.
Qed.

Lemma fits_step t t' n n' c cs : fits t n (c :: cs) -> n' <= n + 1 -> t'.(tyihead) = t.(tyihead) ->
  modes t' = modes t -> fits t' n' cs.
Proof.
  intros [Hn Hw] Hle Hh [= _ _ _ _ _ _ _ _ _ He _ Hk _ _ _]. cbn [length] in *. rewrite Nat2Z.inj_succ in *. unfold fits. rewrite Hh, He, Hk.
  split; [lia|]. destruct Hw as [Hw|Hw]; [left; lia|right]. by apply Forall_cons in Hw as [_ Hw].
Qed.

Lemma plain_controls_modes t t' : modes t' = modes t -> plain_controls t -> plain_controls t'.
Proof. intros [= _ _ _ _ _ _ _ H1 _ H2 _ H3 _ H4 H5]. unfold plain_controls. by rewrite H1, H2, H3, H4, H5. Qed.

Lemma edits_modes t t' cs ql : modes t' = modes t -> edits t' cs ql = edits t cs ql.
Proof.
  intros H. unfold edits. revert ql. induction cs as [|c cs IH]; intros ql; [done|]. cbn [foldl].
  by rewrite IH, (line_edit_modes t t').
Qed.

Lemma receive_run cs : ∀ fuel s q l, line_state s q l -> rx s.(dev) = cs -> (length cs < fuel)%nat ->
  plain_controls s.(tty) -> fits s.(tty) (Z.of_nat (length (q ++ l))) cs ->
  ∃ s', receive_loop fuel s = TDone tt s' /\ line_state s' (edits s.(tty) cs (q, l)).1 (edits s.(tty) cs (q, l)).2 /\
    same_line s s' /\ (s.(kern).(ndefers) ≠ 0 -> s'.(kern).(attempt) = s.(kern).(attempt)) /\ rx s'.(dev) = [].
Proof.
  induction cs as [|c cs IH]; intros fuel s q l L Hrx Hf Hpl Hfit; destruct fuel as [|fuel]; try (cbn in Hf; lia);
    destruct s as [k t d]; cbn [kern tty dev] in *; cbn [receive_loop];
    rewrite (tbind_done (csr LSR) _ _ (csr_read LSR d).1 (TSt k t (csr_read LSR d).2))
      by (unfold csr; cbn [dev kern tty]; by destruct (csr_read LSR d));
    pose proof (rd_rx LSR d (ls_dev _ _ _ L) ltac:(done)) as Hrx1;
    rewrite (rd_lsr d (ls_dev _ _ _ L)), Hrx;
    assert (L1 : line_state (TSt k t (csr_read LSR d).2) q l) by (destruct L; constructor; try done; by apply rd_oper).
  - cbn [Z.eqb negb]. eexists. split; [reflexivity|]. split; [exact L1|]. split; [by constructor|]. split; [done|].
    cbn [dev]. by rewrite Hrx1, Hrx.
  - cbn [Z.eqb negb]. destruct (ttyhandle_in_run _ q l c cs L1) as (s1 & Hr1 & L2 & Hm & Hh & Hn & Ha & Hx).
    + cbn [dev]. by rewrite Hrx1.
    + by apply (fits_editable _ _ _ _ cs L1).
    + done.
    + rewrite (tbind_done _ _ _ _ _ Hr1). cbn [tty kern] in *.
      destruct (line_edit t (u8 c) (q, l)) as [q1 l1] eqn:He. cbn [fst snd] in L2.
      pose proof (edit_length t (u8 c) q l) as Hlen. rewrite He in Hlen. cbn [fst snd] in Hlen.
      assert (Hfit1 : fits s1.(tty) (Z.of_nat (length (q1 ++ l1))) cs) by (eapply fits_step; [exact Hfit|lia|done..]).
      destruct (IH fuel s1 q1 l1 L2 Hx ltac:(cbn in Hf; lia) (plain_controls_modes _ _ Hm Hpl) Hfit1) as (s2 & Hr2 & L3 & [Hm2 Hh2 Hn2] & Ha2 & Hx2).
      exists s2. split; [exact Hr2|]. rewrite (edits_modes _ _ _ _ Hm) in L3.
      replace (edits t (c :: cs) (q, l)) with (edits t cs (q1, l1)) by (unfold edits; cbn [foldl]; by rewrite He).
      split; [exact L3|]. split; [constructor; cbn [tty kern]; congruence|]. split; [|done].
      intros H0. rewrite Ha2, Ha; congruence.
Qed.

(** [cs] arrives on the line and the device interrupts. *)
Definition arrive (cs : list Z) : T D unit := λ s, TDone tt (TSt s.(kern) s.(tty) (receive cs s.(dev))).

Fixpoint interrupts (batches : list (list Z)) : T D unit :=
  match batches with
  | [] => mret tt
  | cs :: batches => arrive cs;; ttyhandler (S (length cs));; interrupts batches
  end.

Lemma ttyhandler_run s q l cs : line_state s q l -> s.(kern).(ndefers) = 0 -> rx s.(dev) = cs -> cs ≠ [] ->
  plain_controls s.(tty) -> fits s.(tty) (Z.of_nat (length (q ++ l))) cs ->
  ∃ s', ttyhandler (S (length cs)) s = TDone tt s' /\
    line_state s' (edits s.(tty) cs (q, l)).1 (edits s.(tty) cs (q, l)).2 /\ same_line s s' /\ rx s'.(dev) = [].
Proof.
  intros L Hn Hrx Hne Hpl Hfit. destruct s as [k t d]. cbn [kern tty dev] in *. unfold ttyhandler.
  pose proof (ls_dev _ _ _ L : oper d) as Hd.
  rewrite (tbind_done (csr IIR) _ _ UART_IIR_RDA (TSt k t (csr_read IIR d).2)).
  2:{ unfold csr. cbn [dev kern tty]. rewrite <- (rd_iir d Hd) by congruence. by destruct (csr_read IIR d). }
  change (negb (Z.land UART_IIR_RDA UART_IIR_IRQ =? 0)) with false. cbv iota zeta.
  change (Z.land UART_IIR_RDA UART_IIR_IDMASK =? UART_IIR_RLSI) with false.
  change ((Z.land UART_IIR_RDA UART_IIR_IDMASK =? UART_IIR_RDA) || _) with true. cbv iota.
  rewrite (bind_lift _ _ _ _ _ _ _ (defer_start_any k ltac:(lia))). rewrite Hn. change (0 =? 0) with true. cbv iota.
  set (k1 := set_attempt false _).
  destruct (receive_run cs (S (length cs)) (TSt k1 t (csr_read IIR d).2) q l) as (s2 & Hr & L2 & [Hm Hh Hn2] & Ha & Hx).
  - destruct L as [A1 A2 A3 A4 A5 A6 A7]. constructor; try done. by apply rd_oper.
  - cbn [dev]. by rewrite (rd_rx IIR d Hd).
  - lia.
  - done.
  - done.
  - rewrite (tbind_done _ _ _ _ _ Hr). destruct s2 as [k2 t2 d2]. cbn [kern tty dev] in *.
    rewrite (bind_lift _ _ _ _ _ _ _ (defer_stop_any k2 0 Hn2 ltac:(lia) ltac:(intros _; apply Ha; cbn; lia))).
    eexists. split; [reflexivity|]. split; [|split; [constructor; cbn; congruence|done]].
    destruct L2 as [A1 A2 A3 A4 A5 A6 A7]. by constructor.
Qed.

Lemma fits_app t t' n n' cs cs' : fits t n (cs ++ cs') -> n' <= n + Z.of_nat (length cs) ->
  t'.(tyihead) = t.(tyihead) -> modes t' = modes t -> fits t' n' cs'.
Proof.
  revert t n. induction cs as [|c cs IH]; intros t n Hf Hle Hh Hm.
  - destruct Hf as [H1 H2]. injection Hm as _ _ _ _ _ _ _ _ _ He _ Hk _ _ _. cbn [length Z.of_nat app] in *. unfold fits. rewrite Hh, He, Hk.
    split; [lia|]. destruct H2; [left; lia|by right].
  - cbn [app length] in *. rewrite Nat2Z.inj_succ in Hle. apply (IH t (n + 1)); [|lia|done|done]. by eapply fits_step; [exact Hf|lia|..].
Qed.

Lemma fits_left t n cs cs' : fits t n (cs ++ cs') -> fits t n cs.
Proof.
  intros [H1 H2]. rewrite length_app in *. split; [lia|]. destruct H2 as [H2|H2]; [left; lia|right]. by apply Forall_app in H2 as [H2 _].
Qed.

Lemma edits_length t cs : ∀ q l, (length ((edits t cs (q, l)).1 ++ (edits t cs (q, l)).2) <= length (q ++ l) + length cs)%nat.
Proof.
  induction cs as [|c cs IH]; intros q l; cbn [edits foldl fst snd length]; [unfold edits; cbn; lia|].
  pose proof (edit_length t (u8 c) q l). unfold edits. cbn [foldl]. destruct (line_edit t (u8 c) (q, l)) as [q1 l1].
  specialize (IH q1 l1). unfold edits in IH. cbn [fst snd] in *. lia.
Qed.

Lemma interrupts_run batches : ∀ s q l, line_state s q l -> s.(kern).(ndefers) = 0 -> rx s.(dev) = [] ->
  Forall (λ cs, cs ≠ []) batches -> plain_controls s.(tty) ->
  fits s.(tty) (Z.of_nat (length (q ++ l))) (concat batches) ->
  ∃ s', interrupts batches s = TDone tt s' /\
    line_state s' (edits s.(tty) (concat batches) (q, l)).1 (edits s.(tty) (concat batches) (q, l)).2 /\
    same_line s s' /\ rx s'.(dev) = [].
Proof.
  induction batches as [|cs bs IH]; intros s q l L Hn Hrx Hne Hpl Hfit.
  { exists s. split; [done|]. split; [exact L|]. split; [done|exact Hrx]. }
  apply Forall_cons in Hne as [Hc Hne]. cbn [concat] in *. destruct s as [k t d]. cbn [kern tty dev] in *.
  destruct (ttyhandler_run (TSt k t (receive cs d)) q l cs) as (s1 & Hr1 & L1 & [Hm Hh Hn1] & Hx1); try done.
  { destruct L as [A1 A2 A3 A4 A5 A6 A7]. constructor; try done. by apply receive_oper. }
  { cbn [dev]. by rewrite receive_rx, Hrx. }
  { by eapply fits_left. }
  cbn [tty kern] in *. cbn [interrupts]. rewrite (tbind_done (arrive cs) _ _ tt _ eq_refl). cbn [kern tty dev].
  rewrite (tbind_done _ _ _ _ _ Hr1). pose proof (edits_length t cs q l) as Hlen.
  destruct (edits t cs (q, l)) as [q1 l1] eqn:He. cbn [fst snd] in *.
  assert (Hfit1 : fits s1.(tty) (Z.of_nat (length (q1 ++ l1))) (concat bs)) by (eapply fits_app; [exact Hfit|lia|done..]).
  destruct (IH s1 q1 l1 L1 ltac:(congruence) Hx1 Hne (plain_controls_modes _ _ Hm Hpl) Hfit1) as (s2 & Hr2 & L2 & [Hm2 Hh2 Hn2] & Hx2).
  exists s2. split; [exact Hr2|]. rewrite (edits_modes _ _ _ _ Hm) in L2.
  replace (edits t (cs ++ concat bs) (q, l)) with (edits t (concat bs) (q1, l1)) by (unfold edits in *; by rewrite foldl_app, He).
  split; [exact L2|]. split; [constructor; cbn [tty kern]; congruence|done].
Qed.

(** C21: the driver edits lines.  In cooked mode, with nobody waiting, the handler of an
    arriving character makes the step of [line_edit] on the characters that can be read
    and the line being edited: CR becomes a newline, the flow control characters only
    hold and release the output, a kill empties the line, an erase takes its last
    character, a newline makes it readable, and any other character is added while
    there is room. *)
Theorem tty_input_refines_line_editor s q l v r : line_state s q l -> rx s.(dev) = v :: r ->
  editable s.(tty) (u8 v) q l -> plain_controls s.(tty) ->
  ∃ s', ttyhandle_in s = TDone tt s' /\
    line_state s' (line_edit s.(tty) (u8 v) (q, l)).1 (line_edit s.(tty) (u8 v) (q, l)).2 /\
    modes s'.(tty) = modes s.(tty) /\ s'.(tty).(tyihead) = s.(tty).(tyihead) /\
    s'.(kern).(ndefers) = s.(kern).(ndefers) /\ rx s'.(dev) = r.
Proof.
  intros L Hrx He Hp. destruct (ttyhandle_in_run s q l v r L Hrx He Hp) as (s' & Hr & L' & Hm & Hh & Hn & _ & Hx). by exists s'.
Qed.

(** ** Reading *)

Lemma ttygetc_run s q l c : line_state s (c :: q) l ->
  ∃ s', ttygetc s = TDone (if s.(tty).(tyeof) && (c =? s.(tty).(tyeofch)) then EOF else c) s' /\
    line_state s' q l /\ modes s'.(tty) = modes s.(tty) /\ s'.(kern).(ndefers) = s.(kern).(ndefers) /\ s'.(dev) = s.(dev).
Proof.
  intros L. destruct s as [k t d]. destruct L as [A1 A2 A3 A4 A5 A6 A7]. cbn [kern tty dev] in *.
  pose proof (rh_head _ _ _ _ _ A4) as Hh. pose proof (rh_room _ _ _ _ _ A4) as Hroom.
  cbn [app length] in *. rewrite length_app in Hroom. unfold TY_IBUFLEN in Hroom. rewrite Nat2Z.inj_succ in *.
  destruct (ring_pop _ _ _ _ _ _ A4) as [Hc R]. unfold ttygetc. rewrite bind_typtr. cbn [tty].
  rewrite (bind_lift _ _ _ _ _ _ _ (wait_is _ _ _ A2 ltac:(lia))), bind_typtr. cbn [tty].
  rewrite Hc, bind_topt, bind_updtty, bind_typtr. cbn [tty]. rewrite bind_if, bind_updtty, bind_tret. cbv beta.
  change (tyihead (set_tyihead (tyihead t + 1) t)) with (tyihead t + 1).
  pose proof (ring_wrap _ _ Hh) as Hw.
  set (t' := set_tyihead ((tyihead t + 1) mod TY_IBUFLEN) t). set (k' := set_count _ _ k).
  exists (TSt k' t' d). split; [|split; [|split; [done|split; [apply set_count_ndefers|done]]]].
  - unfold t'. rewrite <- Hw. destruct (tyihead t + 1 >=? TY_IBUFLEN); rewrite bind_typtr; cbn [tty tyimode set_tyihead tyeof tyeofch];
      rewrite A1; change (TY_IMCOOKED =? TY_IMCOOKED) with true; cbn [andb]; by destruct (tyeof t && (c =? tyeofch t)).
  - constructor; try done; cbn [kern tty dev].
    + replace (Z.of_nat (length q)) with (Z.succ (Z.of_nat (length q)) - 1) by lia. by eapply set_count_is.
    + unfold k'. by rewrite set_count_ndefers.
Qed.

(** A character that is an ordinary part of a line. *)
Definition ordinary (t : ttycblk) (c : Z) : Prop :=
  0 <= c < 256 /\ c ≠ TY_NEWLINE /\ c ≠ TY_RETURN /\ c ≠ t.(tyeofch).

Lemma ordinary_modes t t' c : modes t' = modes t -> ordinary t c -> ordinary t' c.
Proof. intros [= _ _ _ _ _ _ _ _ _ H _ _ _ _ _]. unfold ordinary. by rewrite H. Qed.

Lemma getc_char t c : 0 <= c < 256 -> c ≠ t.(tyeofch) -> (if t.(tyeof) && (c =? t.(tyeofch)) then EOF else c) = c /\ u8 c = c.
Proof.
  intros H1 H2. rewrite (proj2 (Z.eqb_neq _ _) H2), andb_false_r. split; [done|]. by apply Z.mod_small.
Qed.

Lemma read_line_run line : ∀ n s ch q l, ch ≠ TY_NEWLINE -> ch ≠ TY_RETURN -> (length line < n)%nat ->
  line_state s (line ++ TY_NEWLINE :: q) l -> Forall (ordinary s.(tty)) line -> s.(tty).(tyeofch) ≠ TY_NEWLINE ->
  ∃ s', read_line n ch s = TDone (line ++ [TY_NEWLINE]) s' /\ line_state s' q l /\ s'.(dev) = s.(dev).
Proof.
  induction line as [|c line IH]; intros n s ch q l H1 H2 Hn L Ho He; (destruct n as [|n]; [cbn in Hn; lia|]);
    cbn [read_line]; rewrite (proj2 (Z.eqb_neq _ _) H1), (proj2 (Z.eqb_neq _ _) H2); cbn [negb andb].
  - destruct (ttygetc_run s q l TY_NEWLINE L) as (s1 & Hr & L1 & Hm & _ & Hd).
    destruct (getc_char s.(tty) TY_NEWLINE ltac:(done) ltac:(congruence)) as [E1 E2].
    rewrite E1 in Hr. rewrite (tbind_done _ _ _ _ _ Hr), E2. exists s1. split; [|by split].
    by destruct n.
  - apply Forall_cons in Ho as [(Hc & Hc1 & Hc2 & Hc3) Ho].
    destruct (ttygetc_run s (line ++ TY_NEWLINE :: q) l c L) as (s1 & Hr & L1 & Hm & _ & Hd).
    destruct (getc_char s.(tty) c Hc Hc3) as [E1 E2]. rewrite E1 in Hr. rewrite (tbind_done _ _ _ _ _ Hr), E2.
    destruct (IH n s1 c q l Hc1 Hc2 ltac:(cbn in Hn; lia) L1) as (s2 & Hr2 & L2 & Hd2).
    + eapply Forall_impl; [exact Ho|]. intros x. by apply ordinary_modes.
    + injection Hm as _ _ _ _ _ _ _ _ _ Hm _ _ _ _ _. congruence.
    + rewrite (tbind_done _ _ _ _ _ Hr2). exists s2. split; [done|]. split; [done|congruence].
Qed.

(** ttyread on a line that can be read. *)
Lemma ttyread_run s line q l count : line_state s (line ++ TY_NEWLINE :: q) l -> Forall (ordinary s.(tty)) line ->
  s.(tty).(tyeofch) ≠ TY_NEWLINE -> Z.of_nat (length line) < count ->
  ∃ s', ttyread count s = TDone (Z.of_nat (length line) + 1, line ++ [TY_NEWLINE]) s' /\ line_state s' q l /\ s'.(dev) = s.(dev).
Proof.
  intros L Ho He Hc. unfold ttyread. rewrite (proj2 (Z.ltb_ge _ _)) by lia. rewrite bind_typtr. rewrite (ls_mode _ _ _ L).
  change (negb (TY_IMCOOKED =? TY_IMCOOKED)) with false. cbv iota. destruct line as [|c line].
  - destruct (ttygetc_run s q l TY_NEWLINE L) as (s1 & Hr & L1 & _ & _ & Hd).
    destruct (getc_char s.(tty) TY_NEWLINE ltac:(done) ltac:(congruence)) as [E1 E2].
    rewrite E1 in Hr. rewrite (tbind_done _ _ _ _ _ Hr). change (TY_NEWLINE =? EOF) with false. cbv iota zeta. rewrite E2.
    exists s1. split; [|by split]. destruct (Z.to_nat (count - 1)); [done|]. cbn [read_line].
    change (negb (TY_NEWLINE =? TY_NEWLINE)) with false. done.
  - apply Forall_cons in Ho as [(Hc0 & Hc1 & Hc2 & Hc3) Ho]. cbn [length] in *. rewrite Nat2Z.inj_succ in *.
    destruct (ttygetc_run s (line ++ TY_NEWLINE :: q) l c L) as (s1 & Hr & L1 & Hm & _ & Hd).
    destruct (getc_char s.(tty) c Hc0 Hc3) as [E1 E2]. rewrite E1 in Hr. rewrite (tbind_done _ _ _ _ _ Hr).
    rewrite (proj2 (Z.eqb_neq c EOF)) by (unfold EOF; lia). cbv zeta. rewrite E2.
    destruct (read_line_run line (Z.to_nat (count - 1)) s1 c q l Hc1 Hc2 ltac:(lia) L1) as (s2 & Hr2 & L2 & Hd2).
    + eapply Forall_impl; [exact Ho|]. intros x. by apply ordinary_modes.
    + injection Hm as _ _ _ _ _ _ _ _ _ Hm _ _ _ _ _. congruence.
    + rewrite (tbind_done _ _ _ _ _ Hr2). exists s2. split; [|split; [done|congruence]].
      unfold mret, T_ret. f_equal. rewrite length_app. cbn [length]. f_equal. lia.
Qed.

(** Ordinary characters and the editing characters only change the line. *)
Lemma edits_ordinary t cs : plain_controls t -> Forall (λ c, ordinary t (u8 c)) cs -> ∀ q l, Forall (ordinary t) l ->
  (edits t cs (q, l)).1 = q /\ Forall (ordinary t) (edits t cs (q, l)).2.
Proof.
  intros Hp Hcs. induction Hcs as [|c cs Hc Hcs IH]; intros q l Hl; [done|]. unfold edits in *. cbn [foldl].
  assert (Hedit : ∃ l', line_edit t (u8 c) (q, l) = (q, l') /\ Forall (ordinary t) l').
  { pose proof Hc as (Hr & H1 & H2 & H3). unfold line_edit. rewrite (proj2 (Z.eqb_neq _ _) H2). cbn [andb].
    case_match; [by exists l|]. unfold cooked_edit. case_match; [by exists []|].
    case_match; [exists (take (length l - 1) l); split; [done|by apply Forall_take]|].
    rewrite (proj2 (Z.eqb_neq _ _) H1), (proj2 (Z.eqb_neq _ _) H2). cbn [orb].
    case_match; [by exists l|]. rewrite (proj2 (Z.eqb_neq _ _) H3). cbn [andb]. exists (l ++ [u8 c]).
    split; [done|]. apply Forall_app. by split; [|apply Forall_singleton]. }
  destruct Hedit as (l' & -> & Hl'). by apply IH.
Qed.

(** The end of the line after [cs]. *)
Lemma edits_newline t cs : plain_controls t -> Forall (λ c, ordinary t (u8 c)) cs ->
  edits t (cs ++ [TY_NEWLINE]) ([], []) = ((edits t cs ([], [])).2 ++ [TY_NEWLINE], []).
Proof.
  intros Hp Hcs. destruct (edits_ordinary t cs Hp Hcs [] [] (Forall_nil_2 _)) as [Hq _].
  unfold edits in *. rewrite foldl_app. cbn [foldl]. destruct (foldl _ _ cs) as [q l]. cbn [fst snd] in *. subst q.
  destruct Hp as [[H1 H2] (H3 & H4 & H5)]. unfold line_edit, cooked_edit. change (u8 TY_NEWLINE) with TY_NEWLINE.
  change (TY_NEWLINE =? TY_RETURN) with false. cbn [andb].
  rewrite !(proj2 (Z.eqb_neq _ _)) by congruence. cbn [andb orb]. rewrite andb_false_r. done.
Qed.

(** C18: a line typed in cooked mode is read as it was edited: however its characters
    are spread over interrupts, ttyread gives the line that the erase and kill
    characters leave, with the newline, and the input buffer is empty again.  The line
    has fewer than TY_IBUFLEN characters; when it contains a line kill it must not wrap
    around in the buffer, because the kill would leave it. *)
Theorem typed_line_is_read s batches cs count : line_state s [] [] -> s.(kern).(ndefers) = 0 -> rx s.(dev) = [] ->
  plain_controls s.(tty) -> Forall (λ c, ordinary s.(tty) (u8 c)) cs -> fits s.(tty) 0 (cs ++ [TY_NEWLINE]) ->
  Forall (λ b, b ≠ []) batches -> concat batches = cs ++ [TY_NEWLINE] -> Z.of_nat (length cs) < count ->
  let line := (edits s.(tty) cs ([], [])).2 in
  ∃ s', (interrupts batches;; ttyread count) s = TDone (Z.of_nat (length line) + 1, line ++ [TY_NEWLINE]) s' /\
    line_state s' [] [] /\ rx s'.(dev) = [].
Proof.
  intros L Hn Hrx Hpl Hcs Hfit Hne Hcat Hcount line.
  destruct (interrupts_run batches s [] [] L Hn Hrx Hne Hpl) as (s1 & Hr & L1 & [Hm _ _] & Hx); [by rewrite Hcat|].
  rewrite Hcat, edits_newline in L1 by done. cbn [fst snd] in L1. fold line in L1.
  rewrite (tbind_done _ _ _ _ _ Hr).
  destruct (ttyread_run s1 line [] [] count L1) as (s2 & Hr2 & L2 & Hd).
  - destruct (edits_ordinary _ cs Hpl Hcs [] [] (Forall_nil_2 _)) as [_ Ho]. eapply Forall_impl; [exact Ho|].
    intros x. by apply ordinary_modes.
  - destruct Hpl as [[_ H] _]. injection Hm as _ _ _ _ _ _ _ _ _ Hm _ _ _ _ _. congruence.
  - pose proof (edits_length s.(tty) cs [] []) as Hlen. rewrite length_app in Hlen. cbn [app length] in Hlen. unfold line. lia.
  - exists s2. split; [exact Hr2|]. split; [exact L2|]. by rewrite Hd.
Qed.

End Line.
