(* ===== verification/Ttyout.v ===== *)
(** Output and raw mode of the terminal driver, verified: what is written is sent in
    order, and raw mode leaves the input buffer.  ttyinit establishes the states the
    theorems start from; the witnesses run on a concrete device. *)

From S2P Require Import Prelude Types Queue Memory Kernel Sched Sem Init Ring Tty Ttylib Ttyin.

Section Output.
Context {D : Type} `{!Uart D, !UartLaws D}.

(** * Output *)

(** The echo queue holds [es], the output queue holds [xs]; the output is not held and
    nobody waits for space. *)
Record out_state (s : tst D) (es xs : list Z) : Prop := {
  os_held : s.(tty).(tyoheld) = false;
  os_sem : sem_is s.(kern) s.(tty).(tyosem) (TY_OBUFLEN - Z.of_nat (length xs));
  os_defer : 0 <= s.(kern).(ndefers) < 2147483646;
  os_out : ring_holds TY_OBUFLEN s.(tty).(tyobuff) s.(tty).(tyohead) s.(tty).(tyotail) xs;
  os_echo : ring_holds TY_EBUFLEN s.(tty).(tyebuff) s.(tty).(tyehead) s.(tty).(tyetail) es;
  os_short : Z.of_nat (length es) < TY_EBUFLEN;
  os_dev : oper s.(dev) }.

(** The characters ttyputc sends for [ch] and ttywrite for [buff]. *)
Definition sent_for (t : ttycblk) (ch : Z) : list Z :=
  if (ch =? TY_NEWLINE) && t.(tyocrlf) then [TY_RETURN; ch] else [ch].
Definition text_for (t : ttycblk) (buff : list Z) : list Z := concat (sent_for t <$> buff).

(** Steps of the upper half do not make the device send. *)
Definition out_kept (s s' : tst D) : Prop :=
  s'.(tty).(tyocrlf) = s.(tty).(tyocrlf) /\ tx s'.(dev) = tx s.(dev) /\ lvl s'.(dev) <= lvl s.(dev).

Lemma out_kept_trans s1 s2 s3 : out_kept s1 s2 -> out_kept s2 s3 -> out_kept s1 s3.
Proof. intros (A1 & B1 & C1) (A2 & B2 & C2). split; [congruence|]. split; [congruence|lia]. Qed.

Lemma text_kept s s' buff : out_kept s s' -> text_for s'.(tty) buff = text_for s.(tty) buff.
Proof. intros (H & _ & _). unfold text_for, sent_for. by rewrite H. Qed.

Lemma put_output_run s es xs ch : out_state s es xs -> Z.of_nat (length xs) < TY_OBUFLEN ->
  ∃ s', put_output ch s = TDone OK s' /\ out_state s' es (xs ++ [ch]) /\ out_kept s s'.
Proof.
  intros O Hroom. destruct s as [k t d]. destruct O as [A1 A2 A3 A4 A5 A6 A7]. cbn [kern tty dev] in *.
  pose proof (ring_tail _ _ _ _ _ A4) as Ht. destruct (arr_len_lookup _ _ _ (rh_len _ _ _ _ _ A4) Ht) as [x Hx].
  unfold put_output. rewrite bind_typtr. cbn [tty]. unfold TY_OBUFLEN in Hroom.
  rewrite (bind_lift _ _ _ _ _ _ _ (wait_is _ _ _ A2 ltac:(unfold TY_OBUFLEN; lia))), bind_typtr. cbn [tty].
  rewrite (arr_upd_Some _ _ _ _ Hx), bind_topt, bind_updtty, bind_typtr. cbn [tty]. rewrite bind_if, bind_updtty, bind_tret. cbv beta.
  set (b := <[tyotail t := ch]> (tyobuff t)).
  change (tyotail (set_tyotail (tyotail t + 1) (set_tyobuff b t))) with (tyotail t + 1).
  destruct (wr_ier (Z.lor UART_IER_ERBFI UART_IER_ETBEI) d A7 eq_refl) as (Hd' & _ & Htx & Hlvl).
  set (k' := set_count _ _ k). set (d' := csr_write IER _ d) in *.
  exists (TSt k' (set_tyotail ((tyotail t + 1) mod TY_OBUFLEN) (set_tyobuff b t)) d'). split; [|split].
  - rewrite <- (ring_wrap _ _ Ht). by destruct (tyotail t + 1 >=? TY_OBUFLEN).
  - constructor; try done; cbn [kern tty dev].
    + replace (TY_OBUFLEN - Z.of_nat (length (xs ++ [ch]))) with (TY_OBUFLEN - Z.of_nat (length xs) - 1);
        [by eapply set_count_is|]. rewrite length_app. cbn [length]. lia.
    + unfold k'. by rewrite set_count_ndefers.
    + by apply ring_push.
  - by split.
Qed.

Lemma ttyputc_run s es xs ch : out_state s es xs -> Z.of_nat (length (xs ++ sent_for s.(tty) ch)) <= TY_OBUFLEN ->
  ∃ s', ttyputc ch s = TDone OK s' /\ out_state s' es (xs ++ sent_for s.(tty) ch) /\ out_kept s s'.
Proof.
  intros O Hroom. unfold ttyputc. rewrite bind_typtr. unfold sent_for in *. rewrite length_app in Hroom.
  destruct ((ch =? TY_NEWLINE) && tyocrlf (tty s)); cbn [length] in Hroom.
  - destruct (put_output_run s es xs TY_RETURN O ltac:(lia)) as (s1 & Hr1 & O1 & K1).
    rewrite (tbind_done (put_output TY_RETURN;; mret tt) _ s tt s1) by (by rewrite (tbind_done _ _ _ _ _ Hr1)).
    destruct (put_output_run s1 es (xs ++ [TY_RETURN]) ch O1) as (s2 & Hr2 & O2 & K2); [rewrite length_app; cbn [length]; lia|].
    exists s2. split; [done|]. rewrite <- app_assoc in O2. split; [exact O2|]. by eapply out_kept_trans.
  - rewrite bind_tret. apply put_output_run; [done|lia].
Qed.

Lemma write_chars_run buff : ∀ s es xs, out_state s es xs -> Z.of_nat (length (xs ++ text_for s.(tty) buff)) <= TY_OBUFLEN ->
  ∃ s', write_chars (length buff) buff s = TDone tt s' /\ out_state s' es (xs ++ text_for s.(tty) buff) /\ out_kept s s'.
Proof.
  induction buff as [|ch buff IH]; intros s es xs O Hroom.
  - exists s. split; [done|]. unfold text_for. cbn. rewrite app_nil_r. split; [done|]. by split.
  - cbn [write_chars length]. unfold text_for in *. rewrite fmap_cons in *. cbn [concat] in *. rewrite app_assoc in *.
    destruct (ttyputc_run s es xs ch O) as (s1 & Hr1 & O1 & K1); [rewrite length_app in Hroom; lia|].
    rewrite (tbind_done _ _ _ _ _ Hr1). pose proof (text_kept _ _ buff K1) as Ht. unfold text_for in Ht.
    destruct (IH s1 es (xs ++ sent_for s.(tty) ch) O1) as (s2 & Hr2 & O2 & K2); [by rewrite Ht|].
    exists s2. rewrite Ht in O2. split; [done|]. split; [done|]. by eapply out_kept_trans.
Qed.

Lemma ttywrite_run s es xs buff : out_state s es xs -> Z.of_nat (length (xs ++ text_for s.(tty) buff)) <= TY_OBUFLEN ->
  ∃ s', ttywrite buff (Z.of_nat (length buff)) s = TDone OK s' /\ out_state s' es (xs ++ text_for s.(tty) buff) /\ out_kept s s'.
Proof.
  intros O Hroom. unfold ttywrite. rewrite (proj2 (Z.ltb_ge _ _)) by lia. destruct (Z.eqb_spec (Z.of_nat (length buff)) 0).
  - destruct buff; [|done]. exists s. split; [done|]. unfold text_for. cbn. rewrite app_nil_r. split; [done|]. by split.
  - rewrite Nat2Z.id. destruct (write_chars_run buff s es xs O Hroom) as (s' & Hr & O' & K'). exists s'.
    by rewrite (tbind_done _ _ _ _ _ Hr).
Qed.

(** ** The transmit interrupt *)

(** Writing a character to the device. *)
Lemma bind_send {B} (f : unit -> T D B) ch k t d :
  (set_csr BUFFER ch ≫= f) (TSt k t d) = f tt (TSt k t (csr_write BUFFER ch d)).
Proof. done. Qed.

Lemma send_echo_run u : ∀ k t d es, ring_holds TY_EBUFLEN t.(tyebuff) t.(tyehead) t.(tyetail) es ->
  Z.of_nat (length es) < TY_EBUFLEN -> oper d -> lvl d + Z.of_nat u <= UART_FIFO_SIZE ->
  ∃ h d', send_echo u (TSt k t d) = TDone (u - length es)%nat (TSt k (set_tyehead h t) d') /\
    ring_holds TY_EBUFLEN t.(tyebuff) h t.(tyetail) (drop u es) /\ oper d' /\
    tx d' = tx d ++ take u es /\ lvl d' + Z.of_nat (u - length es) <= UART_FIFO_SIZE.
Proof.
  induction u as [|u IH]; intros k t d es R Hs Hd Hl; cbn [send_echo]; rewrite bind_typtr; cbn [tty].
  { exists t.(tyehead), d. rewrite take_0, drop_0, app_nil_r. destruct t. done. }
  destruct es as [|c es].
  { rewrite (ring_empty _ _ _ _ _ R Hs), bool_decide_eq_true_2 by done. cbn [length].
    exists t.(tyehead), d. rewrite take_nil, drop_nil, app_nil_r, Nat.sub_0_r. destruct t. done. }
  rewrite (ring_empty _ _ _ _ _ R Hs). rewrite bool_decide_eq_false_2 by done. destruct (ring_pop _ _ _ _ _ _ R) as [Hc R1]. rewrite Hc, bind_topt, bind_send, bind_updtty, bind_typtr.
  cbn [tty]. rewrite bind_if, bind_updtty, bind_tret. cbv beta.
  change (tyehead (set_tyehead (tyehead t + 1) t)) with (tyehead t + 1). rewrite Nat2Z.inj_succ in Hl. cbn [length] in Hs.
  destruct (wr_buffer c d Hd ltac:(lia)) as (Hd1 & _ & Htx & Hlv).
  destruct (IH k (set_tyehead ((tyehead t + 1) mod TY_EBUFLEN) t) (csr_write BUFFER c d) es R1 ltac:(lia) Hd1 ltac:(lia))
    as (h & d' & Hr & R2 & Hd2 & Htx2 & Hl2).
  exists h, d'. cbn [length drop take Nat.sub]. split; [|split; [exact R2|split; [done|split; [|done]]]].
  - rewrite <- (ring_wrap _ _ (rh_head _ _ _ _ _ R)) in Hr. by destruct (tyehead t + 1 >=? TY_EBUFLEN).
  - by rewrite Htx2, Htx, <- app_assoc.
Qed.

Lemma send_output_run u : ∀ k t d xs, ring_holds TY_OBUFLEN t.(tyobuff) t.(tyohead) t.(tyotail) xs ->
  oper d -> lvl d + Z.of_nat u <= UART_FIFO_SIZE ->
  ∃ h d', send_output u (Z.of_nat (length xs)) (TSt k t d) =
      TDone (Z.of_nat (length (take u xs))) (TSt k (set_tyohead h t) d') /\
    ring_holds TY_OBUFLEN t.(tyobuff) h t.(tyotail) (drop u xs) /\ oper d' /\ tx d' = tx d ++ take u xs.
Proof.
  induction u as [|u IH]; intros k t d xs R Hd Hl; cbn [send_output].
  { exists t.(tyohead), d. rewrite take_0, drop_0, app_nil_r. destruct t. done. }
  destruct xs as [|c xs].
  { exists t.(tyohead), d. rewrite take_nil, drop_nil, app_nil_r. destruct t. done. }
  rewrite (proj2 (Z.ltb_lt _ _)) by (cbn [length]; lia). rewrite bind_typtr. cbn [tty].
  destruct (ring_pop _ _ _ _ _ _ R) as [Hc R1]. rewrite Hc, bind_topt, bind_send, bind_updtty, bind_typtr.
  cbn [tty]. rewrite bind_if, bind_updtty, bind_tret. cbv beta.
  change (tyohead (set_tyohead (tyohead t + 1) t)) with (tyohead t + 1). rewrite Nat2Z.inj_succ in Hl.
  destruct (wr_buffer c d Hd ltac:(lia)) as (Hd1 & _ & Htx & Hlv).
  destruct (IH k (set_tyohead ((tyohead t + 1) mod TY_OBUFLEN) t) (csr_write BUFFER c d) xs R1 Hd1 ltac:(lia))
    as (h & d' & Hr & R2 & Hd2 & Htx2).
  replace (Z.of_nat (length (c :: xs)) - 1) with (Z.of_nat (length xs)) by (cbn [length]; lia).
  exists h, d'. split; [|split; [exact R2|split; [done|]]].
  - rewrite <- (ring_wrap _ _ (rh_head _ _ _ _ _ R)) in Hr.
    destruct (tyohead t + 1 >=? TY_OBUFLEN); rewrite (tbind_done _ _ _ _ _ Hr); unfold mret, T_ret; cbn [take length]; f_equal; lia.
  - by rewrite Htx2, Htx, <- app_assoc.
Qed.

Lemma nothing_run {B} (f : bool -> T D B) s es xs : out_state s es xs ->
  (nothing_to_send ≫= f) s = f (bool_decide (es = []) && bool_decide (xs = [])) s.
Proof.
  intros [A1 A2 A3 A4 A5 A6 A7]. destruct s as [k t d]. cbn [kern tty dev] in *. apply tbind_done.
  unfold nothing_to_send. rewrite bind_typtr. cbn [tty]. rewrite (ring_empty _ _ _ _ _ A5 A6).
  destruct (bool_decide (es = [])); [|done]. rewrite (bind_lift _ _ _ _ _ _ _ (semcount_is _ _ _ A2)). cbn [andb].
  unfold mret, T_ret. f_equal. rewrite Z.geb_leb. destruct xs.
  - by rewrite bool_decide_eq_true_2.
  - rewrite bool_decide_eq_false_2 by done. apply Z.leb_gt. cbn [length]. lia.
Qed.

Lemma stop_output_run s es xs : out_state s es xs ->
  ∃ s', stop_output s = TDone tt s' /\ out_state s' es xs /\ tx s'.(dev) = tx s.(dev).
Proof.
  intros [A1 A2 A3 A4 A5 A6 A7]. destruct s as [k t d]. cbn [kern tty dev] in *. unfold stop_output.
  rewrite (tbind_done (csr IER) _ _ (csr_read IER d).1 (TSt k t (csr_read IER d).2))
    by (unfold csr; cbn [dev kern tty]; by destruct (csr_read IER d)).
  destruct (wr_ier (Z.ldiff (csr_read IER d).1 UART_IER_ETBEI) (csr_read IER d).2 (rd_oper IER d A7)) as (Hd & _ & Htx & _).
  { rewrite Z.ldiff_spec, (rd_ier d A7). done. }
  eexists. split; [reflexivity|]. split; [by constructor|]. cbn [dev]. by rewrite Htx, rd_tx.
Qed.

(** ttyhandle_out sends as many characters as the FIFO of the device has room for, the
    echo queue first. *)
Lemma ttyhandle_out_run s es xs : out_state s es xs ->
  ∃ u s', ttyhandle_out s = TDone tt s' /\ UART_FIFO_SIZE - lvl s.(dev) <= Z.of_nat u /\
    out_state s' (drop u es) (drop (u - length es) xs) /\ tx s'.(dev) = tx s.(dev) ++ take u (es ++ xs).
Proof.
  intros O. unfold ttyhandle_out. rewrite bind_typtr, (os_held _ _ _ O), (nothing_run _ _ _ _ O).
  pose proof (lvl_range s.(dev) (os_dev _ _ _ O)) as Hlv. unfold UART_FIFO_SIZE in Hlv.
  destruct (bool_decide (es = []) && bool_decide (xs = [])) eqn:Hidle.
  { apply andb_true_iff in Hidle as [->%bool_decide_eq_true_1 ->%bool_decide_eq_true_1].
    destruct (stop_output_run s [] [] O) as (s' & Hr & O' & Htx). exists 64%nat, s'. split; [done|]. unfold UART_FIFO_SIZE.
    split; [lia|]. split; [exact O'|]. rewrite Htx. cbn [app]. by rewrite take_nil, app_nil_r. }
  destruct s as [k t d]. pose proof O as [A1 A2 A3 A4 A5 A6 A7]. cbn [kern tty dev] in *.
  rewrite (tbind_done (csr TXFIFO_LVL) _ _ (lvl d) (TSt k t (csr_read TXFIFO_LVL d).2)).
  2:{ unfold csr. cbn [dev kern tty]. rewrite <- (rd_lvl d A7). by destruct (csr_read TXFIFO_LVL d). }
  pose proof (lvl_read TXFIFO_LVL d A7) as Hlv2. pose proof (rd_tx TXFIFO_LVL d A7) as Htx0.
  pose proof (rd_oper TXFIFO_LVL d A7) as Hop. set (d1 := (csr_read TXFIFO_LVL d).2) in *.
  rewrite s32_id by (unfold is_s32, UART_FIFO_SIZE; lia). set (u := Z.to_nat (UART_FIFO_SIZE - lvl d)).
  assert (Hu : Z.of_nat u = UART_FIFO_SIZE - lvl d) by (unfold u, UART_FIFO_SIZE; lia).
  destruct (send_echo_run u k t d1 es A5 A6 Hop ltac:(lia)) as (h & d2 & Hr2 & R2 & Hop2 & Htx2 & Hl2).
  rewrite (tbind_done _ _ _ _ _ Hr2), bind_typtr. cbn [tty].
  change (tyosem (set_tyehead h t)) with (tyosem t). rewrite (bind_lift _ _ _ _ _ _ _ (semcount_is _ _ _ A2)).
  replace (TY_OBUFLEN - (TY_OBUFLEN - Z.of_nat (length xs))) with (Z.of_nat (length xs)) by lia.
  destruct (send_output_run (u - length es) k (set_tyehead h t) d2 xs A4 Hop2 Hl2) as (h' & d3 & Hr3 & R3 & Hop3 & Htx3).
  rewrite (tbind_done _ _ _ _ _ Hr3). set (t3 := set_tyohead h' (set_tyehead h t)).
  set (sent := Z.of_nat (length (take (u - length es) xs))).
  assert (Hroom : Z.of_nat (length xs) <= 64) by apply A4.
  assert (Hsent : 0 <= sent /\ Z.of_nat (length (drop (u - length es) xs)) = Z.of_nat (length xs) - sent).
  { unfold sent. rewrite length_drop, length_take. lia. }
  assert (Hsig : ∃ k', ((if 0 <? sent then lift (signaln (tyosem t) sent);; mret tt else mret tt) : T D unit) (TSt k t3 d3) =
    TDone tt (TSt k' t3 d3) /\ sem_is k' (tyosem t) (TY_OBUFLEN - Z.of_nat (length (drop (u - length es) xs))) /\
    k'.(ndefers) = k.(ndefers)).
  { destruct Hsent as [Hs0 ->]. destruct (Z.ltb_spec 0 sent).
    - destruct (signaln_is _ _ sent k A2 ltac:(unfold TY_OBUFLEN; lia) Hs0
        ltac:(unfold TY_OBUFLEN, sent; rewrite length_take; lia) ltac:(lia)) as (k' & Hr & Hs & _ & Hn & _).
      exists k'. rewrite (bind_lift _ _ _ _ _ _ _ Hr). split; [done|]. split; [|done].
      by replace (TY_OBUFLEN - (Z.of_nat (length xs) - sent)) with (TY_OBUFLEN - Z.of_nat (length xs) + sent) by lia.
    - exists k. split; [done|]. split; [|done]. by replace (Z.of_nat (length xs) - sent) with (Z.of_nat (length xs)) by lia. }
  destruct Hsig as (k' & Hr4 & Hsem & Hnd). rewrite (tbind_done _ _ _ _ _ Hr4).
  assert (O4 : out_state (TSt k' t3 d3) (drop u es) (drop (u - length es) xs)).
  { constructor; try done; cbn [kern tty dev]; [by rewrite Hnd|]. rewrite length_drop. lia. }
  assert (Htx : tx d3 = tx d ++ take u (es ++ xs)) by (by rewrite Htx3, Htx2, Htx0, <- app_assoc, take_app).
  rewrite (nothing_run _ _ _ _ O4). exists u.
  destruct (bool_decide (drop u es = []) && _).
  - destruct (stop_output_run _ _ _ O4) as (s' & Hr & O' & Hx). exists s'. split; [exact Hr|]. split; [lia|]. split; [done|].
    rewrite Hx. exact Htx.
  - eexists. split; [reflexivity|]. split; [lia|]. by split.
Qed.

(** C22: what a process writes is sent in order.  ttywrite adds its characters, a CR
    before each newline when the mode asks for it, behind those of the output queue;
    the transmit interrupt sends the echo queue and then the output queue, as far as
    the FIFO of the device has room, and keeps the rest in the queues. *)
Theorem written_text_is_sent s es xs buff : out_state s es xs ->
  Z.of_nat (length (xs ++ text_for s.(tty) buff)) <= TY_OBUFLEN ->
  ∃ u s', (ttywrite buff (Z.of_nat (length buff));; ttyhandle_out) s = TDone tt s' /\
    UART_FIFO_SIZE - lvl s.(dev) <= Z.of_nat u /\
    tx s'.(dev) = tx s.(dev) ++ take u (es ++ xs ++ text_for s.(tty) buff) /\
    out_state s' (drop u es) (drop (u - length es) (xs ++ text_for s.(tty) buff)).
Proof.
  intros O Hroom. destruct (ttywrite_run s es xs buff O Hroom) as (s1 & Hr1 & O1 & (_ & Htx & Hlv)).
  destruct (ttyhandle_out_run s1 es _ O1) as (u & s2 & Hr2 & Hu & O2 & Htx2). exists u, s2.
  rewrite (tbind_done _ _ _ _ _ Hr1). split; [done|]. split; [lia|]. by rewrite Htx2, Htx.
Qed.

(** * Raw mode *)

(** Raw mode with an empty input buffer, the next slot being [p]. *)
Record raw_state (s : tst D) (p : Z) : Prop := {
  rs_mode : s.(tty).(tyimode) = TY_IMRAW;
  rs_sem : sem_is s.(kern) s.(tty).(tyisem) 0;
  rs_buf : arr_len TY_IBUFLEN s.(tty).(tyibuff);
  rs_tail : s.(tty).(tyitail) = p;
  rs_range : 0 <= p <= TY_IBUFLEN;
  rs_head : s.(tty).(tyihead) = p mod TY_IBUFLEN;
  rs_dev : oper s.(dev) }.

(** [n] characters arrive, and each is read before the next one comes. *)
Fixpoint each_read (n : nat) : T D (list Z) :=
  match n with
  | O => mret []
  | S n => ttyhandle_in;; c ← ttygetc; l ← each_read n; mret (c :: l)
  end.

(** The start of the handler. *)
Lemma raw_start s p v r : raw_state s p -> rx s.(dev) = v :: r ->
  ttyhandle_in s = raw_in 0 (u8 v) (TSt s.(kern) s.(tty) (csr_read BUFFER s.(dev)).2) /\
  oper (csr_read BUFFER s.(dev)).2 /\ rx (csr_read BUFFER s.(dev)).2 = r.
Proof.
  intros [A1 A2 A3 A4 A5 A6 A7] Hrx. destruct s as [k t d]. cbn [kern tty dev] in *.
  destruct (rd_buffer _ _ d A7 Hrx) as [Hv Hr]. split; [|split; [by apply rd_oper|done]].
  unfold ttyhandle_in. rewrite (tbind_done (csr BUFFER) _ _ v (TSt k t (csr_read BUFFER d).2))
    by (unfold csr; cbn [dev kern tty]; rewrite <- Hv; by destruct (csr_read BUFFER d)).
  cbv beta zeta. rewrite (tbind_done navail _ _ 0 (TSt k t (csr_read BUFFER d).2)), bind_typtr.
  - cbn [tty]. rewrite A1. done.
  - unfold navail. rewrite bind_typtr. cbn [tty]. by rewrite (bind_lift _ _ _ _ _ _ _ (semcount_is _ _ _ A2)).
Qed.

Lemma raw_round s p v r : raw_state s p -> p < TY_IBUFLEN -> rx s.(dev) = v :: r ->
  ∃ s1 s2, ttyhandle_in s = TDone tt s1 /\ ttygetc s1 = TDone (u8 v) s2 /\ raw_state s2 (p + 1) /\ rx s2.(dev) = r.
Proof.
  intros R Hp Hrx. destruct (raw_start s p v r R Hrx) as (Hstart & Hd1 & Hrx1). destruct s as [k t d].
  destruct R as [A1 A2 A3 A4 A5 A6 A7]. cbn [kern tty dev] in *. set (d1 := (csr_read BUFFER d).2) in *.
  destruct (arr_len_lookup _ _ p A3 ltac:(lia)) as [x Hx]. rewrite Z.mod_small in A6 by lia.
  set (t1 := set_tyitail (p + 1) (set_tyibuff (<[p := u8 v]> (tyibuff t)) t)).
  set (t2 := if tyotail t >=? TY_OBUFLEN then set_tyotail 0 t1 else t1).
  set (k1 := set_count (tyisem t) 1 k). set (k2 := set_count (tyisem t) 0 k1).
  set (t3 := set_tyihead ((p + 1) mod TY_IBUFLEN) t2).
  assert (Ht2 : tyisem t2 = tyisem t /\ tyihead t2 = p /\ tyitail t2 = p + 1 /\ tyibuff t2 = <[p := u8 v]> (tyibuff t) /\ tyimode t2 = TY_IMRAW).
  { unfold t2. destruct (tyotail t >=? TY_OBUFLEN); done. }
  destruct Ht2 as (Hsem & Hhead & Htail & Hbuf & Hmode).
  exists (TSt k1 t2 d1), (TSt k2 t3 d1). split; [|split; [|split; [|done]]].
  - rewrite Hstart. unfold raw_in. change (0 >=? TY_IBUFLEN) with false. cbv iota.
    rewrite (tbind_done (put_itail (u8 v)) _ _ tt (TSt k t1 d1)).
    2:{ unfold put_itail. rewrite bind_typtr. cbn [tty]. rewrite A4, (arr_upd_Some _ _ _ _ Hx), bind_topt.
        unfold updtty. cbn [kern tty dev tyitail set_tyibuff]. rewrite A4. done. }
    rewrite bind_typtr. cbn [tty]. change (tyotail t1) with (tyotail t). change (tyisem t1) with (tyisem t).
    rewrite (tbind_done _ _ _ tt (TSt k t2 d1)) by (unfold t2; by destruct (tyotail t >=? TY_OBUFLEN)).
    rewrite (bind_lift _ _ _ _ _ _ _ (signal_is _ _ _ A2 ltac:(lia))). done.
  - unfold ttygetc. rewrite bind_typtr. cbn [tty]. rewrite Hsem.
    rewrite (bind_lift _ _ _ _ _ _ _ (wait_is _ 1 k1 (set_count_is _ _ _ _ A2) ltac:(lia))), bind_typtr. cbn [tty].
    rewrite Hhead, Hbuf, lookup_insert_eq, bind_topt, bind_updtty, bind_typtr. cbn [tty]. rewrite bind_if, bind_updtty, bind_tret. cbv beta.
    change (tyihead (set_tyihead (tyihead t2 + 1) t2)) with (tyihead t2 + 1).
    unfold t3. rewrite <- (ring_wrap TY_IBUFLEN p) by lia. rewrite Hhead.
    destruct (p + 1 >=? TY_IBUFLEN); rewrite bind_typtr; cbn [tty tyimode set_tyihead]; rewrite Hmode; done.
  - constructor; cbn [kern tty dev]; unfold t3; cbn [set_tyihead tyimode tyisem tyibuff tyitail tyihead]; [done| | |done|lia|done|done].
    + rewrite Hsem. unfold k2, k1. by eapply set_count_is, set_count_is.
    + rewrite Hbuf. apply arr_len_insert; [done|lia].
Qed.

(** In raw mode the pointer to the next input slot is never brought back to the
    start of the buffer: each character is given to the reader until the pointer is
    past the end, and the next character is stored outside the buffer, even though
    everything before it has been read. *)
Theorem raw_mode_leaves_its_buffer s p cs : raw_state s p -> rx s.(dev) = cs ->
  if decide (p + Z.of_nat (length cs) <= TY_IBUFLEN)
  then ∃ s', each_read (length cs) s = TDone (u8 <$> cs) s' /\ raw_state s' (p + Z.of_nat (length cs))
  else each_read (length cs) s = TUB.
Proof.
  revert s p. induction cs as [|c cs IH]; intros s p R Hrx; cbn [length each_read].
  { rewrite Z.add_0_r, decide_True by apply R. by exists s. }
  destruct (decide (p = TY_IBUFLEN)) as [->|Hne].
  - rewrite decide_False by lia. destruct (raw_start _ _ _ _ R Hrx) as (Hstart & _).
    destruct R as [A1 A2 A3 A4 A5 A6 A7].
    assert (HUB : ttyhandle_in s = TUB).
    { rewrite Hstart. unfold raw_in. change (0 >=? TY_IBUFLEN) with false. cbv iota.
      unfold mbind, T_bind at 1, put_itail, mbind, T_bind, typtr. cbn [tbind tty]. rewrite A4. unfold arr_upd.
      destruct (tyibuff (tty s) !! TY_IBUFLEN) eqn:E; [|done]. pose proof (arr_len_lt _ _ _ _ A3 E). lia. }
    unfold mbind, T_bind. by rewrite HUB.
  - pose proof (rs_range _ _ R). destruct (raw_round s p c cs R ltac:(lia) Hrx) as (s1 & s2 & Hr1 & Hr2 & R2 & Hrx2).
    rewrite (tbind_done _ _ _ _ _ Hr1), (tbind_done _ _ _ _ _ Hr2). specialize (IH s2 (p + 1) R2 Hrx2).
    rewrite Nat2Z.inj_succ. replace (p + Z.succ (Z.of_nat (length cs))) with (p + 1 + Z.of_nat (length cs)) by lia.
    destruct (decide _).
    + destruct IH as (s' & Hr & R'). exists s'. by rewrite (tbind_done _ _ _ _ _ Hr).
    + unfold mbind at 1, T_bind at 1. by rewrite IH.
Qed.

End Output.

(** * Initialisation *)

(** The writes of ttyinit to the device. *)
Definition uart_setup {D} `{!Uart D} (d : D) : D :=
  csr_write IER (Z.lor UART_IER_ERBFI UART_IER_ETBEI)
  (csr_write MDR1 UART_MDR1_16X
  (csr_write IIR (Z.lor UART_FCR_EFIFO (Z.lor UART_FCR_RRESET (Z.lor UART_FCR_TRESET UART_FCR_TRIG2)))
  (csr_write IIR 0
  (csr_write LCR UART_LCR_8N1
  (csr_write BUFFER UART_DLL (csr_write IER UART_DLM (csr_write LCR UART_LCR_DLAB d))))))).

(** The control block ttyinit sets up. *)
Definition fresh_tty (t : ttycblk) (isem osem : Z) : ttycblk :=
  Ttycblk 0 0 t.(tyibuff) isem 0 0 t.(tyobuff) osem 0 0 t.(tyebuff) TY_IMCOOKED
    true true true true true true TY_BACKSP true TY_EOFCH true TY_KILLCH 0 true false
    TY_STOPCH TY_STRTCH true TY_FULLCH.

(** ttyinit when the next two semaphores are free. *)
Lemma ttyinit_run {D} `{!Uart D, !UartLaws D} k t (d : D) se1 se2 :
  0 <= k.(nextsem) < NSEM - 1 -> k.(semtab) !! k.(nextsem) = Some se1 -> se1.(sstate) = S_FREE ->
  k.(semtab) !! (k.(nextsem) + 1) = Some se2 -> se2.(sstate) = S_FREE -> 0 <= k.(ndefers) < 2147483646 ->
  arr_len TY_IBUFLEN t.(tyibuff) -> arr_len TY_OBUFLEN t.(tyobuff) -> arr_len TY_EBUFLEN t.(tyebuff) ->
  oper (uart_setup d) ->
  ∃ s', ttyinit (TSt k t d) = TDone OK s' /\ line_state s' [] [] /\ out_state s' [] [] /\
    s'.(kern).(ndefers) = k.(ndefers) /\ s'.(tty) = fresh_tty t k.(nextsem) (k.(nextsem) + 1) /\ s'.(dev) = uart_setup d.
Proof.
  intros Hn Hi1 Hf1 Hi2 Hf2 Hnd Hib Hob Heb Hup. unfold NSEM in Hn. unfold ttyinit.
  rewrite (bind_lift _ _ _ _ _ _ _ (semcreate_run k se1 0 Hi1 Hf1 ltac:(lia) ltac:(lia))).
  replace (nextsem k + 1 >=? NSEM) with false by (symmetry; rewrite Z.geb_leb; apply Z.leb_gt; unfold NSEM; lia).
  set (k1 := set_semtab _ _).
  assert (Hk1 : k1.(nextsem) = nextsem k + 1) by done.
  rewrite (bind_lift _ _ _ _ _ _ _ (semcreate_run k1 se2 TY_OBUFLEN ltac:(cbn; by rewrite lookup_insert_ne by lia) Hf2 ltac:(lia) ltac:(done))).
  rewrite Hk1. set (k2 := set_semtab _ (set_nextsem _ k1)). rewrite bind_updtty.
  assert (Hopen : isbadsem (nextsem k) = false /\ isbadsem (nextsem k + 1) = false).
  { unfold isbadsem, NSEM. rewrite !Z.geb_leb. split; apply orb_false_iff; split; (apply Z.ltb_ge || apply Z.leb_gt); lia. }
  destruct Hopen as [Hb1 Hb2].
  exists (TSt k2 (fresh_tty t (nextsem k) (nextsem k + 1)) (uart_setup d)). split; [reflexivity|].
  split; [|split; [|split; [done|split; [|reflexivity]]]].
  - constructor; cbn [kern tty dev tyisem fresh_tty]; [done| |done|by apply ring_start|done..].
    split; [done|]. eexists. unfold k2, k1. cbn [semtab set_semtab set_nextsem].
    rewrite lookup_insert_ne, lookup_insert_eq by lia. done.
  - constructor; cbn [kern tty dev tyosem fresh_tty]; [done| |done|by apply ring_start|by apply ring_start|done..].
    split; [done|]. eexists. unfold k2. cbn [semtab set_semtab]. by rewrite lookup_insert_eq.
  - done.
Qed.

(** * A device *)

(** A UART with a receive queue and a FIFO of characters to send. *)
Record uart := MkUart { u_rx : list Z; u_tx : list Z; u_lvl : Z; u_ier : Z; u_lcr : Z }.

#[export] Instance uart_regs : Uart uart := {|
  csr_read r u := match r with
    | BUFFER => match u.(u_rx) with
                | c :: l => (c, MkUart l u.(u_tx) u.(u_lvl) u.(u_ier) u.(u_lcr))
                | [] => (0, u)
                end
    | IER => (u.(u_ier), u)
    | IIR => (if bool_decide (u.(u_rx) ≠ []) && Z.testbit u.(u_ier) 0 then UART_IIR_RDA
              else if (u.(u_lvl) =? 0) && Z.testbit u.(u_ier) 1 then UART_IIR_THRE else UART_IIR_IRQ, u)
    | LCR => (u.(u_lcr), u)
    | LSR => (if u.(u_rx) is [] then 0 else UART_LSR_DR, u)
    | MDR1 => (0, u)
    | TXFIFO_LVL => (u.(u_lvl), u)
    end;
  csr_write r v u := match r with
    | BUFFER => if Z.testbit u.(u_lcr) 7 || (u.(u_lvl) >=? UART_FIFO_SIZE) then u
                else MkUart u.(u_rx) (u.(u_tx) ++ [v]) (u.(u_lvl) + 1) u.(u_ier) u.(u_lcr)
    | IER => if Z.testbit u.(u_lcr) 7 then u else MkUart u.(u_rx) u.(u_tx) u.(u_lvl) v u.(u_lcr)
    | IIR => MkUart (if Z.testbit v 1 then [] else u.(u_rx)) u.(u_tx) (if Z.testbit v 2 then 0 else u.(u_lvl)) u.(u_ier) u.(u_lcr)
    | LCR => MkUart u.(u_rx) u.(u_tx) u.(u_lvl) u.(u_ier) v
    | _ => u
    end |}.

Definition uart_oper (u : uart) : Prop :=
  Z.testbit u.(u_lcr) 7 = false /\ Z.testbit u.(u_ier) 0 = true /\ 0 <= u.(u_lvl) <= UART_FIFO_SIZE.

#[export] Instance uart_laws : UartLaws uart.
Proof.
  refine {| oper := uart_oper; rx := u_rx; tx := u_tx; lvl := u_lvl;
    receive cs u := MkUart (u.(u_rx) ++ cs) u.(u_tx) u.(u_lvl) u.(u_ier) u.(u_lcr) |}; unfold uart_oper.
  - done.
  - done.
  - intros [] d H; cbn; try done. by destruct (u_rx d).
  - intros [] d H Hne; done.
  - intros [] d H; cbn; try done. by destruct (u_rx d).
  - intros c l d H Hr. cbn. by rewrite Hr.
  - intros d H. cbn. by destruct (u_rx d).
  - intros d (H1 & H2 & H3) Hr. cbn -[Z.testbit]. by rewrite bool_decide_eq_true_2, H2.
  - intros d (H1 & H2 & H3). done.
  - done.
  - intros d H. apply H.
  - intros [] d H; cbn; try lia. destruct (u_rx d); cbn; lia.
  - intros v d (H1 & H2 & H3) Hv. cbn -[Z.testbit]. rewrite H1. cbn. split; [done|]. split; [done|]. split; [done|lia].
  - intros v d (H1 & H2 & H3) Hl. cbn -[Z.testbit]. rewrite H1. cbn [orb]. rewrite Z.geb_leb, (proj2 (Z.leb_gt _ _)) by done. cbn.
    split; [split; [done|]; split; [done|]; lia|]. split; [done|]. split; [done|lia].
Defined.

(** The driver at the start of the system. *)
Definition blank_tty : ttycblk :=
  Ttycblk 0 0 (arr_make 128 0) 0 0 0 (arr_make 64 0) 0 0 0 (arr_make 20 0) 0
    false false false false false false 0 false 0 false 0 0 false false 0 0 false 0.

Lemma tty_demo_init : ∃ s, ttyinit (TSt (boot 0) blank_tty (MkUart [] [] 0 0 0)) = TDone OK s /\
  line_state s [] [] /\ out_state s [] [] /\ s.(kern).(ndefers) = 0 /\ s.(tty) = fresh_tty blank_tty 0 1 /\
  s.(dev) = MkUart [] [] 0 3 3.
Proof.
  destruct (ttyinit_run (boot 0) blank_tty (MkUart [] [] 0 0 0) (Sentry S_FREE 0 0) (Sentry S_FREE 0 0))
    as (s & Hr & L & O & Hn & Hp & Hd); try done.
  - apply (arr_make_len 128).
  - apply (arr_make_len 64).
  - apply (arr_make_len 20).
  - exists s. split; [exact Hr|]. split; [exact L|]. split; [exact O|]. split; [exact Hn|]. split; [exact Hp|].
    by rewrite Hd.
Qed.

Definition typing (cs : list Z) (s : tst uart) : tst uart := TSt s.(kern) s.(tty) (receive cs s.(dev)).

Lemma tty_input_refines_line_editor_witness : ∃ s s', ttyhandle_in (typing [104] s) = TDone tt s' /\
  line_state s' [] [104] /\ rx s'.(dev) = [].
Proof.
  destruct tty_demo_init as (s & _ & L & _ & _ & Ht & Hd). exists s.
  destruct (tty_input_refines_line_editor (typing [104] s) [] [] 104 []) as (s' & Hr & L' & _ & _ & _ & Hx).
  - by destruct L.
  - cbn [typing dev]. by rewrite Hd.
  - cbn [typing tty]. rewrite Ht. done.
  - cbn [typing tty]. by rewrite Ht.
  - exists s'. split; [exact Hr|]. split; [|exact Hx]. cbn [typing tty] in L'. rewrite Ht in L'. exact L'.
Defined.

(** "hix", an erase and the end of the line, in three interrupts. *)
Lemma typed_line_is_read_witness : ∃ s s' : tst uart,
  (interrupts [[104; 105]; [120; 8]; [10]];; ttyread 80) s = TDone (3, [104; 105; 10]) s' /\ line_state s' [] [].
Proof.
  destruct tty_demo_init as (s & _ & L & _ & Hn & Ht & Hd). exists s.
  destruct (typed_line_is_read s [[104; 105]; [120; 8]; [10]] [104; 105; 120; 8] 80 L Hn) as (s' & Hr & L' & _).
  - by rewrite Hd.
  - by rewrite Ht.
  - rewrite Ht. repeat constructor; done.
  - rewrite Ht. split; [done|left; done].
  - repeat constructor; done.
  - done.
  - done.
  - exists s'. split; [|exact L']. rewrite Ht in Hr. exact Hr.
Defined.

(** "a" and a newline. *)
Lemma written_text_is_sent_witness : ∃ s s' : tst uart, (ttywrite [97; 10] 2;; ttyhandle_out) s = TDone tt s' /\
  tx s'.(dev) = [97; 13; 10] /\ out_state s' [] [].
Proof.
  destruct tty_demo_init as (s & _ & _ & O & _ & Ht & Hd). exists s.
  destruct (written_text_is_sent s [] [] [97; 10] O) as (u & s' & Hr & Hu & Htx & O').
  - by rewrite Ht.
  - rewrite Hd in Hu. cbn [lvl uart_laws u_lvl] in Hu. unfold UART_FIFO_SIZE in Hu. rewrite Ht in Htx, O'. rewrite Hd in Htx.
    change ([] ++ [] ++ text_for (fresh_tty blank_tty 0 1) [97; 10]) with [97; 13; 10] in Htx.
    change ([] ++ text_for (fresh_tty blank_tty 0 1) [97; 10]) with [97; 13; 10] in O'.
    rewrite take_ge in Htx by (cbn; lia). cbn [length] in O'. rewrite Nat.sub_0_r, drop_nil, drop_ge in O' by (cbn; lia).
    exists s'. split; [exact Hr|]. split; [exact Htx|exact O'].
Defined.

(** 129 characters in raw mode. *)
Definition raw_typing (s : tst uart) : tst uart :=
  TSt s.(kern) (set_tyimode TY_IMRAW s.(tty)) (receive (replicate 129 97) s.(dev)).

Lemma raw_mode_leaves_its_buffer_witness : ∃ s : tst uart, line_state s [] [] /\ each_read 129 (raw_typing s) = TUB.
Proof.
  destruct tty_demo_init as (s & _ & L & _ & _ & Ht & Hd). exists s. split; [exact L|].
  apply (raw_mode_leaves_its_buffer (raw_typing s) 0 (replicate 129 97)).
  - destruct L as [A1 A2 A3 [A4 _ _ _ _] A5 A6 A7]. unfold raw_typing. rewrite Ht in *.
    constructor; cbn [kern tty dev tyimode tyisem tyibuff tyitail tyihead set_tyimode fresh_tty]; done.
  - cbn [raw_typing dev]. by rewrite Hd.
Defined.
