(* ===== verification/Bufpool.v ===== *)
(** Buffer pools: system/mkbufpool.c, getbuf.c, freebuf.c (bufinit is in
    Init.v).  A pool is an entry of [buftab]: a semaphore that counts its free
    buffers and a list of them, linked through the first word of each buffer.
    A buffer in use has the number of its pool in that word. *)

From S2P Require Import Prelude Types Queue Memory Kernel Sched Observe Sem Devsw Init System.

(** * The operations *)

Definition getpool (poolid : Z) : K bpentry := λ s, opt (s.(buftab) !! poolid) s.
Definition updpool (f : bpentry -> bpentry) (poolid : Z) : K unit := λ s,
  match arr_upd f poolid s.(buftab) with
  | Some bt => Done tt (set_buftab bt s)
  | None => UB
  end.

(** Linking the buffers: [numbufs] more buffers follow the one at [buf]; the
    address of the last one is returned. *)
Fixpoint mkbufpool_link (numbufs : nat) (buf bufsiz : Z) : K Z :=
  match numbufs with
  | O => mret buf
  | S numbufs =>
      store buf (u32 (buf + bufsiz));;
      mkbufpool_link numbufs (u32 (buf + bufsiz)) bufsiz
  end.

(** system/mkbufpool.c: mkbufpool *)
Definition mkbufpool (bufsiz numbufs : Z) : K Z :=
  mask ← disable;
  nb ← gets nbpools;
  if (bufsiz <? BP_MINB) || (bufsiz >? BP_MAXB) || (numbufs <? 1) || (numbufs >? BP_MAXN) || (nb >=? NBPOOLS)
  then restore mask;; mret SYSERR
  else
    let bufsiz := Z.land (bufsiz + 3) (Z.lnot 3) in
    buf ← mop (getmem (u32 (numbufs * (bufsiz + 4))));
    if s32 buf =? SYSERR then restore mask;; mret SYSERR
    else
      poolid ← gets nbpools;
      modify (set_nbpools (poolid + 1));;
      updpool (set_bpnext buf) poolid;;
      updpool (set_bpsize bufsiz) poolid;;
      sem ← semcreate numbufs;
      updpool (set_bpsem sem) poolid;;
      if sem =? SYSERR then
        nb ← gets nbpools;
        modify (set_nbpools (nb - 1));;
        restore mask;;
        mret SYSERR
      else
        last ← mkbufpool_link (Z.to_nat (numbufs - 1)) buf (bufsiz + 4);
        store last NULL;;
        restore mask;;
        mret poolid.

(** system/getbuf.c: getbuf; the result is an address, [SYSERR] as an unsigned
    word for a bad pool. *)
Definition getbuf (poolid : Z) : K Z :=
  mask ← disable;
  nb ← gets nbpools;
  if (poolid <? 0) || (poolid >=? nb) then restore mask;; mret (u32 SYSERR)
  else
    bp ← getpool poolid;
    wait bp.(bpsem);;
    bp ← getpool poolid;
    let bufptr := bp.(bpnext) in
    nxt ← load bufptr;
    updpool (set_bpnext nxt) poolid;;
    store bufptr (u32 poolid);;
    restore mask;;
    mret (u32 (4 + bufptr)).

(** system/freebuf.c: freebuf *)
Definition freebuf (bufaddr : Z) : K Z :=
  mask ← disable;
  let bufaddr := u32 (bufaddr - 4) in
  w ← load bufaddr;
  let poolid := s32 w in
  nb ← gets nbpools;
  if (poolid <? 0) || (poolid >=? nb) then restore mask;; mret SYSERR
  else
    bp ← getpool poolid;
    store bufaddr bp.(bpnext);;
    updpool (set_bpnext bufaddr) poolid;;
    bp ← getpool poolid;
    signal bp.(bpsem);;
    restore mask;;
    mret OK.

(** * Pools as lists of free buffers *)

(** From the pointer [p], memory [w] links the buffers [l]. *)
Fixpoint bplist (w : gmap Z Z) (p : Z) (l : list Z) : Prop :=
  match l with
  | [] => p = NULL
  | b :: l => p = b /\ b ≠ NULL /\ ∃ nxt, w !! b = Some nxt /\ bplist w nxt l
  end.

(** Pool [id] has the free buffers [l] and nobody waits for one. *)
Definition pool_ok (s : kst) (id : Z) (l : list Z) : Prop :=
  0 <= id < s.(nbpools) /\ s.(nbpools) <= NBPOOLS /\
  ∃ bp se, s.(buftab) !! id = Some bp /\ s.(semtab) !! bp.(bpsem) = Some se /\
    isbadsem bp.(bpsem) = false /\ se.(sstate) = S_USED /\
    se.(scount) = Z.of_nat (length l) /\ Z.of_nat (length l) < 2147483647 /\
    bplist s.(mem).(words) bp.(bpnext) l /\ NoDup l /\ Forall (λ b, 0 < b < 4294967292) l.

Lemma bplist_frame w b v p l : b ∉ l -> bplist w p l -> bplist (<[b := v]> w) p l.
Proof.
  revert p. induction l as [|x l IH]; intros p Hb; simpl; [done|]. intros (-> & Hx & nxt & Hn & Hl).
  split; [done|]. split; [done|]. exists nxt. rewrite lookup_insert_ne by set_solver.
  split; [done|]. apply IH; [set_solver|done].
Qed.

Lemma bplist_ext w w' p l : (∀ x, x ∈ l -> w' !! x = w !! x) -> bplist w p l -> bplist w' p l.
Proof.
  revert p. induction l as [|x l IH]; intros p Hw; simpl; [done|]. intros (-> & Hx & nxt & Hn & Hl).
  split; [done|]. split; [done|]. exists nxt. rewrite Hw by set_solver. split; [done|].
  apply IH; [set_solver|done].
Qed.

(** Writes outside of the free buffers. *)
Lemma pool_ok_mem s id l m :
  pool_ok s id l -> (∀ x, x ∈ l -> m.(words) !! x = s.(mem).(words) !! x) -> pool_ok (set_mem m s) id l.
Proof.
  intros (H1 & H2 & bp & se & H3 & H4 & H5 & H6 & H7 & H8 & H9 & H10) Hw.
  do 2 (split; [done|]). exists bp, se. do 6 (split; [done|]). split; [by eapply bplist_ext|done].
Qed.

Lemma updpool_insert f id bp s : s.(buftab) !! id = Some bp ->
  updpool f id s = Done tt (set_buftab (<[id := f bp]> s.(buftab)) s).
Proof. intros H. unfold updpool. by rewrite (arr_upd_Some _ _ _ _ H). Qed.
#[local] Arguments Z.eqb : simpl never.
#[local] Arguments Z.ltb : simpl never.
#[local] Arguments Z.geb : simpl never.

Lemma pool_guard id nb : 0 <= id < nb -> (id <? 0) || (id >=? nb) = false.
Proof. intros H. rewrite Z.geb_leb. apply orb_false_iff. split; [apply Z.ltb_ge|apply Z.leb_gt]; lia. Qed.

(** Only the list of pool [id] changes. *)
Definition pool_step (id : Z) (s s' : kst) : Prop :=
  s'.(nbpools) = s.(nbpools) /\
  ∀ bp, s.(buftab) !! id = Some bp -> ∃ bp', s'.(buftab) !! id = Some bp' /\ bp'.(bpsize) = bp.(bpsize).

Lemma getbuf_run s id b l :
  pool_ok s id (b :: l) ->
  ∃ s', getbuf id s = Done (b + 4) s' /\ pool_ok s' id l /\ pool_step id s s' /\
    s'.(mem).(words) = <[b := id]> s.(mem).(words).
Proof.
  intros (Hid & Hnb & bp & se & Hbp & Hse & Hbad & Hu & Hc & Hlen & Hl & Hnd & Hr).
  simpl in Hl. destruct Hl as (Hp & Hb0 & nxt & Hnx & Hl). apply NoDup_cons in Hnd as [Hnin Hnd].
  apply Forall_cons in Hr as [Hb Hr]. simpl length in *.
  unfold getbuf. krun. rewrite pool_guard by done. krun. unfold getpool. krun. rewrite Hbp. krun.
  rewrite (wait_free _ _ se) by (try done; lia). krun. rewrite Hbp. krun. unfold load, ldw. krun.
  rewrite Hp, Hnx. krun. rewrite (updpool_insert _ _ bp) by done. krun.
  rewrite u32_id by (unfold is_u32; lia). eexists. split; [f_equal; lia|]. unfold stw, set_words. kst_simpl.
  cbn [words]. rewrite (u32_id id) by (unfold is_u32, NBPOOLS in *; lia). split; [|split; [|done]].
  2:{ split; [done|]. kst_simpl. intros bp0 Hbp0. rewrite Hbp in Hbp0. injection Hbp0 as <-. exists (set_bpnext nxt bp).
      by rewrite lookup_insert_eq. }
  split; [done|]. split; [done|]. exists (set_bpnext nxt bp), (set_scount (scount se - 1) se). kst_simpl.
  cbn [words]. rewrite !lookup_insert_eq. do 4 (split; [done|]). split; [simpl; lia|]. split; [lia|].
  split; [|done]. simpl. by apply bplist_frame.
Qed.

Lemma freebuf_run s id b l :
  pool_ok s id l -> s.(mem).(words) !! b = Some id -> b ∉ l -> 0 < b < 4294967292 ->
  Z.of_nat (length l) < 2147483646 ->
  ∃ s', freebuf (b + 4) s = Done OK s' /\ pool_ok s' id (b :: l) /\
    (∀ x, x ≠ b -> s'.(mem).(words) !! x = s.(mem).(words) !! x).
Proof.
  intros (Hid & Hnb & bp & se & Hbp & Hse & Hbad & Hu & Hc & Hlen & Hl & Hnd & Hr) Hw Hnin Hb Hmax.
  unfold freebuf. krun. replace (b + 4 - 4) with b by lia. rewrite u32_id by (unfold is_u32; lia).
  unfold load, ldw. krun. rewrite Hw. krun. rewrite s32_id by (unfold is_s32, NBPOOLS in *; lia).
  rewrite pool_guard by done. krun. unfold getpool. krun. rewrite Hbp. krun.
  rewrite (updpool_insert _ _ bp) by done. krun. rewrite lookup_insert_eq. krun.
  rewrite (signal_free _ _ se) by (try done; lia). krun. eexists. split; [done|].
  split; [|intros x Hx; unfold stw, set_words; kst_simpl; cbn [words]; by rewrite lookup_insert_ne].
  split; [done|]. split; [done|]. exists (set_bpnext b bp), (set_scount (scount se + 1) se). kst_simpl.
  unfold stw, set_words. cbn [words]. rewrite !lookup_insert_eq. do 4 (split; [done|]). simpl length.
  split; [simpl; lia|]. split; [lia|]. split; [|split; [by apply NoDup_cons|by apply Forall_cons]].
  simpl. split; [done|]. split; [unfold NULL; lia|]. exists (bpnext bp). rewrite lookup_insert_eq. split; [done|].
  by apply bplist_frame.
Qed.

(** C24: getbuf takes the first free buffer of the pool and marks it with the
    pool's number; whatever then happens, as long as the pool and that mark are
    intact, freebuf puts the buffer back at the head of the list. *)
Theorem getbuf_freebuf_roundtrip s id b l :
  pool_ok s id (b :: l) ->
  ∃ s1, getbuf id s = Done (b + 4) s1 /\ pool_ok s1 id l /\
    (∀ s2, pool_ok s2 id l -> s2.(mem).(words) !! b = s1.(mem).(words) !! b ->
      ∃ s3, freebuf (b + 4) s2 = Done OK s3 /\ pool_ok s3 id (b :: l)).
Proof.
  intros Hok. destruct (getbuf_run _ _ _ _ Hok) as (s1 & Hg & Hok1 & _ & Hw).
  exists s1. split; [done|]. split; [done|]. intros s2 Hok2 Hw2. rewrite Hw, lookup_insert_eq in Hw2.
  destruct Hok as (_ & _ & bp & se & _ & _ & _ & _ & _ & Hlen & _ & Hnd & Hr).
  apply NoDup_cons in Hnd as [Hnin _]. apply Forall_cons in Hr as [Hb _]. simpl in Hlen.
  destruct (freebuf_run s2 id b l) as (s3 & ? & ? & _); try done; [lia|]. by exists s3.
Qed.

(** ** Making a pool *)

Fixpoint pool_bufs (n : nat) (buf sz : Z) : list Z :=
  match n with O => [] | S n => buf :: pool_bufs n (buf + sz) sz end.

Lemma pool_bufs_length n buf sz : length (pool_bufs n buf sz) = n.
Proof. revert buf. induction n as [|n IH]; intros buf; simpl; [done|]. by rewrite IH. Qed.

Lemma pool_bufs_range n buf sz b :
  0 < sz -> b ∈ pool_bufs n buf sz -> buf <= b <= buf + sz * Z.of_nat n - sz.
Proof.
  intros Hsz. revert buf. induction n as [|n IH]; intros buf; simpl; [by intros ?%not_elem_of_nil|].
  intros [->|Hb]%elem_of_cons; [lia|]. specialize (IH _ Hb). lia.
Qed.

Lemma pool_bufs_NoDup n buf sz : 0 < sz -> NoDup (pool_bufs n buf sz).
Proof.
  intros Hsz. revert buf. induction n as [|n IH]; intros buf; simpl; constructor; [|apply IH].
  intros Hb. apply pool_bufs_range in Hb; lia.
Qed.

Lemma mkbufpool_link_run n sz : ∀ buf s,
  0 < sz -> 0 < buf -> buf + sz * Z.of_nat n < 4294967296 ->
  ∃ w, mkbufpool_link n buf sz s =
      Done (buf + sz * Z.of_nat n) (set_mem (set_words w s.(mem)) s) /\
    bplist (<[buf + sz * Z.of_nat n := NULL]> w) buf (pool_bufs (S n) buf sz) /\
    (∀ x, x < buf -> w !! x = s.(mem).(words) !! x).
Proof.
  induction n as [|n IH]; intros buf s Hsz Hbuf Hmax.
  - exists s.(mem).(words). simpl. split; [|split; [|done]].
    + change (Z.of_nat 0) with 0. rewrite Z.mul_0_r, Z.add_0_r. unfold mret, K_ret. f_equal.
      destruct s as []. simpl. by destruct mem.
    + split; [done|]. split; [unfold NULL; lia|]. exists NULL. split; [|done].
      change (Z.of_nat 0) with 0. rewrite Z.mul_0_r, Z.add_0_r. apply lookup_insert_eq.
  - simpl mkbufpool_link. rewrite u32_id by (unfold is_u32; lia). unfold store. rewrite bind_modify. cbv beta.
    destruct (IH (buf + sz) (set_mem (stw buf (buf + sz) s.(mem)) s)) as (w & Hrun & Hl & Hfr); [lia..|].
    exists w. split; [|split].
    + rewrite Hrun. f_equal; lia.
    + replace (buf + sz * Z.of_nat (S n)) with (buf + sz + sz * Z.of_nat n) by lia.
      change (pool_bufs (S (S n)) buf sz) with (buf :: pool_bufs (S n) (buf + sz) sz).
      split; [done|]. split; [unfold NULL; lia|]. exists (buf + sz). split; [|done].
      rewrite lookup_insert_ne by lia. rewrite Hfr by lia. simpl. apply lookup_insert_eq.
    + intros x Hx. rewrite Hfr by lia. simpl. by rewrite lookup_insert_ne by lia.
Qed.

Lemma land_not3 x : Z.land x (Z.lnot 3) = x - x mod 4.
Proof.
  change (Z.lnot 3) with (Z.lnot (Z.ones 2)). rewrite <- Z.ldiff_land, Z.ldiff_ones_r by lia.
  rewrite Z.shiftl_mul_pow2, Z.shiftr_div_pow2 by lia. change (2 ^ 2) with 4. pose proof (Z.div_mod x 4). lia.
Qed.

(** The size of a slot: the buffer, rounded up to a word, and its header. *)
Definition slot (bufsiz : Z) : Z := Z.land (bufsiz + 3) (Z.lnot 3) + 4.

Lemma slot_range bufsiz : BP_MINB <= bufsiz <= BP_MAXB ->
  12 <= slot bufsiz <= 8196 /\ bufsiz + 4 <= slot bufsiz.
Proof. unfold slot, BP_MINB, BP_MAXB. rewrite land_not3. intros H. Z.div_mod_to_equations. lia. Qed.

Lemma mkbufpool_run s bufsiz numbufs a m se bp :
  BP_MINB <= bufsiz <= BP_MAXB -> 1 <= numbufs <= BP_MAXN -> 0 <= s.(nbpools) < NBPOOLS ->
  getmem (numbufs * slot bufsiz) s.(mem) = Some (a, m) ->
  0 < a -> a + numbufs * slot bufsiz < 2147483648 ->
  s.(semtab) !! s.(nextsem) = Some se -> se.(sstate) = S_FREE -> 0 <= s.(nextsem) < NSEM ->
  s.(buftab) !! s.(nbpools) = Some bp ->
  ∃ s', mkbufpool bufsiz numbufs s = Done s.(nbpools) s' /\
    pool_ok s' s.(nbpools) (pool_bufs (Z.to_nat numbufs) a (slot bufsiz)) /\
    s'.(nbpools) = s.(nbpools) + 1.
Proof.
  intros Hb Hn Hnb Hg Ha Hmax Hse Hf Hns Hbp. pose proof (slot_range _ Hb) as [Hs _].
  assert (Hsz : 0 < numbufs * slot bufsiz) by nia. unfold mkbufpool. krun.
  assert (Hguard : (bufsiz <? BP_MINB) || (bufsiz >? BP_MAXB) || (numbufs <? 1) || (numbufs >? BP_MAXN)
           || (nbpools s >=? NBPOOLS) = false).
  { rewrite Z.geb_leb, !Z.gtb_ltb. repeat (apply orb_false_iff; split); try apply Z.ltb_ge; try apply Z.leb_gt; lia. }
  rewrite Hguard. krun. fold (slot bufsiz). unfold BP_MAXN in *.
  rewrite u32_id by (unfold is_u32; lia). rewrite Hg. krun.
  rewrite s32_id by (unfold is_s32; lia). rewrite (proj2 (Z.eqb_neq a SYSERR)) by (unfold SYSERR; lia). krun.
  rewrite (updpool_insert _ _ bp) by done. krun. rewrite (updpool_insert _ _ (set_bpnext a bp)) by apply lookup_insert_eq.
  krun. rewrite (semcreate_run _ se) by (kst_simpl; first [done|lia]). krun.
  rewrite (updpool_insert _ _ (set_bpsize (Z.land (bufsiz + 3) (Z.lnot 3)) (set_bpnext a bp)))
    by (rewrite insert_insert_eq; apply lookup_insert_eq). krun.
  rewrite (proj2 (Z.eqb_neq (nextsem s) SYSERR)) by (unfold SYSERR; lia). krun.
  set (s1 := set_buftab _ _).
  destruct (mkbufpool_link_run (Z.to_nat (numbufs - 1)) (slot bufsiz) a s1) as (w & -> & Hl & _); [lia..|nia|].
  replace (S (Z.to_nat (numbufs - 1))) with (Z.to_nat numbufs) in Hl by lia.
  krun. eexists. split; [reflexivity|]. split; [|reflexivity].
  split; [simpl; lia|]. split; [simpl; unfold NBPOOLS in *; lia|].
  exists (set_bpsem (nextsem s) (set_bpsize (Z.land (bufsiz + 3) (Z.lnot 3)) (set_bpnext a bp))), (Sentry S_USED numbufs (squeue se)).
  split; [apply lookup_insert_eq|]. split; [apply lookup_insert_eq|].
  split. { unfold isbadsem. simpl. rewrite Z.geb_leb. apply orb_false_iff. split; [apply Z.ltb_ge|apply Z.leb_gt]; lia. }
  rewrite pool_bufs_length. split; [done|]. split; [simpl; lia|]. split; [lia|].
  split; [exact Hl|]. split; [apply pool_bufs_NoDup; lia|]. apply Forall_forall. intros b Hin.
  apply pool_bufs_range in Hin; [|lia]. nia.
Qed.

(** Mkbufpool makes a pool of exactly [numbufs] free buffers, all of them
    distinct and inside of the block that getmem allocated, and the pool's
    semaphore counts them.  It fails, without a trace, when the arguments are out
    of range or the table is full. *)
Theorem mkbufpool_makes_the_pool s bufsiz numbufs a m se bp :
  BP_MINB <= bufsiz <= BP_MAXB -> 1 <= numbufs <= BP_MAXN -> 0 <= s.(nbpools) < NBPOOLS ->
  getmem (numbufs * slot bufsiz) s.(mem) = Some (a, m) ->
  0 < a -> a + numbufs * slot bufsiz < 2147483648 ->
  s.(semtab) !! s.(nextsem) = Some se -> se.(sstate) = S_FREE -> 0 <= s.(nextsem) < NSEM ->
  s.(buftab) !! s.(nbpools) = Some bp ->
  ∃ s', mkbufpool bufsiz numbufs s = Done s.(nbpools) s' /\
    pool_ok s' s.(nbpools) (pool_bufs (Z.to_nat numbufs) a (slot bufsiz)) /\
    s'.(nbpools) = s.(nbpools) + 1.
Proof. apply mkbufpool_run. Qed.

(** * On the concrete machine *)

Definition demo_pool : kst := state_of (mkbufpool 10 3 demo_main).
Definition demo_pool_mem : memst :=
  match getmem 48 demo_main.(mem) with Some (_, m) => m | None => demo_main.(mem) end.

Lemma mkbufpool_makes_the_pool_witness :
  ∃ s', mkbufpool 10 3 demo_main = Done demo_main.(nbpools) s' /\
    pool_ok s' demo_main.(nbpools) (pool_bufs 3 4096 16) /\ s'.(nbpools) = demo_main.(nbpools) + 1.
Proof.
  apply (mkbufpool_makes_the_pool demo_main 10 3 4096 demo_pool_mem (Sentry S_FREE 0 100) (Bpentry 0 0 0));
    by_run.
Defined.

Lemma demo_pool_ok : pool_ok demo_pool 0 [4096; 4112; 4128].
Proof.
  destruct (mkbufpool_run demo_main 10 3 4096 demo_pool_mem (Sentry S_FREE 0 100) (Bpentry 0 0 0))
    as (s' & Hrun & Hok & _); [by_run..|].
  unfold demo_pool. rewrite Hrun. exact Hok.
Qed.

Lemma getbuf_freebuf_roundtrip_witness :
  ∃ s1, getbuf 0 demo_pool = Done (4096 + 4) s1 /\ pool_ok s1 0 [4112; 4128] /\
    (∀ s2, pool_ok s2 0 [4112; 4128] -> s2.(mem).(words) !! 4096 = s1.(mem).(words) !! 4096 ->
      ∃ s3, freebuf (4096 + 4) s2 = Done OK s3 /\ pool_ok s3 0 [4096; 4112; 4128]).
Proof. exact (getbuf_freebuf_roundtrip _ _ _ _ demo_pool_ok). Defined.
