(* ===== verification/Ports.v ===== *)
(** Message ports: system/ptinit.c, ptcreate.c, ptsend.c, ptrecv.c, ptcount.c,
    ptreset.c, ptdelete.c, ptclear.c.  A port is a bounded queue of one-word
    messages: two semaphores, one that counts the free places and one that
    counts the messages, and a linked list of nodes taken from a free list that
    all ports share. *)

From S2P Require Import Prelude Types Queue Memory Kernel Sched Observe Sem Devsw Init System Bufpool.

(** * The operations *)

(** struct ptnode: the message and the link. *)
Definition ptmsg (a : Z) : Z := a.
Definition ptnext (a : Z) : Z := a + 4.

Definition getport (p : Z) : K ptentry := λ s, opt (s.(porttab) !! p) s.
Definition updport (f : ptentry -> ptentry) (p : Z) : K unit := λ s,
  match arr_upd f p s.(porttab) with
  | Some pt => Done tt (set_porttab pt s)
  | None => UB
  end.

(** The loop of ptinit that links the nodes; the last value of [curr] is
    returned. *)
Fixpoint ptinit_link (fuel : nat) (curr next maxmsgs : Z) : K Z :=
  match fuel with
  | O => undefined
  | S fuel =>
      let maxmsgs := s32 (maxmsgs - 1) in
      if maxmsgs >? 0 then
        let next := u32 (next + 8) in
        store (ptnext curr) next;;
        ptinit_link fuel next next maxmsgs
      else mret curr
  end.

(** system/ptinit.c: ptinit *)
Definition ptinit (maxmsgs : Z) : K Z :=
  a ← mop (getmem (u32 (maxmsgs * 8)));
  modify (set_ptfree a);;
  if a =? PSYSERR then panic
  else
    kfor (Z.to_nat NPORTS) 0 (λ i, updport (set_ptstate PT_FREE) i;; updport (set_ptseq 0) i);;
    modify (set_ptnextid 0);;
    last ← ptinit_link (S (Z.to_nat maxmsgs)) a a maxmsgs;
    store (ptnext last) NULL;;
    mret OK.

(** The loop of ptcreate, for [n] more entries. *)
Fixpoint ptcreate_loop (n : nat) (count : Z) : K Z :=
  match n with
  | O => mret SYSERR
  | S n =>
      ptnum ← gets ptnextid;
      modify (set_ptnextid (ptnum + 1));;
      (if ptnum + 1 >=? NPORTS then modify (set_ptnextid 0) else mret tt);;
      p ← getport ptnum;
      if bool_decide (p.(ptstate) = PT_FREE) then
        updport (set_ptstate PT_ALLOC) ptnum;;
        ssem ← semcreate count;
        updport (set_ptssem ssem) ptnum;;
        rsem ← semcreate 0;
        updport (set_ptrsem rsem) ptnum;;
        updport (λ p, set_pthead NULL (set_pttail NULL p)) ptnum;;
        updport (λ p, set_ptseq (s32 (p.(ptseq) + 1)) p) ptnum;;
        updport (set_ptmaxcnt (u16 count)) ptnum;;
        mret ptnum
      else ptcreate_loop n count
  end.

(** system/ptcreate.c: ptcreate *)
Definition ptcreate (count : Z) : K Z :=
  mask ← disable;
  if count <? 0 then restore mask;; mret SYSERR
  else
    r ← ptcreate_loop (Z.to_nat NPORTS) count;
    restore mask;;
    mret r.

(** [isbadport(portid) || porttab[portid].ptstate != PT_ALLOC] *)
Definition port_closed (portid : Z) : K bool :=
  if isbadport portid then mret true
  else p ← getport portid; mret (bool_decide (p.(ptstate) ≠ PT_ALLOC)).

(** [wait(sem) == SYSERR || ptptr->ptstate != PT_ALLOC || ptptr->ptseq != seq]:
    the entry is read again after the process has waited. *)
Definition port_wait (sem portid seq : Z) : K bool :=
  r ← wait sem;
  if r =? SYSERR then mret true
  else
    p ← getport portid;
    mret (bool_decide (p.(ptstate) ≠ PT_ALLOC) || negb (p.(ptseq) =? seq)).

(** system/ptsend.c: ptsend *)
Definition ptsend (portid msg : Z) : K Z :=
  mask ← disable;
  bad ← port_closed portid;
  if (bad : bool) then restore mask;; mret SYSERR
  else
    ptptr ← getport portid;
    bad ← port_wait ptptr.(ptssem) portid ptptr.(ptseq);
    if (bad : bool) then restore mask;; mret SYSERR
    else
      free ← gets ptfree;
      if free =? NULL then panic
      else
        let msgnode := free in
        nxt ← load (ptnext msgnode);
        modify (set_ptfree nxt);;
        store (ptnext msgnode) NULL;;
        store (ptmsg msgnode) msg;;
        ptptr ← getport portid;
        let tailnode := ptptr.(pttail) in
        (if tailnode =? NULL then
           updport (λ p, set_pttail msgnode (set_pthead msgnode p)) portid
         else
           store (ptnext tailnode) msgnode;;
           updport (set_pttail msgnode) portid);;
        ptptr ← getport portid;
        signal ptptr.(ptrsem);;
        restore mask;;
        mret OK.

(** system/ptrecv.c: ptrecv *)
Definition ptrecv (portid : Z) : K Z :=
  mask ← disable;
  bad ← port_closed portid;
  if (bad : bool) then restore mask;; mret (u32 SYSERR)
  else
    ptptr ← getport portid;
    bad ← port_wait ptptr.(ptrsem) portid ptptr.(ptseq);
    if (bad : bool) then restore mask;; mret (u32 SYSERR)
    else
      ptptr ← getport portid;
      let msgnode := ptptr.(pthead) in
      msg ← load (ptmsg msgnode);
      (if ptptr.(pthead) =? ptptr.(pttail) then
         updport (λ p, set_pthead NULL (set_pttail NULL p)) portid
       else
         nxt ← load (ptnext msgnode);
         updport (set_pthead nxt) portid);;
      free ← gets ptfree;
      store (ptnext msgnode) free;;
      modify (set_ptfree msgnode);;
      signal ptptr.(ptssem);;
      restore mask;;
      mret msg.

(** system/ptcount.c: ptcount *)
Definition ptcount (portid : Z) : K Z :=
  mask ← disable;
  bad ← port_closed portid;
  if (bad : bool) then restore mask;; mret SYSERR
  else
    ptptr ← getport portid;
    count ← semcount ptptr.(ptrsem);
    count ← (if count >=? 0 then
               sndcnt ← semcount ptptr.(ptssem);
               mret (if sndcnt <? 0 then s32 (count + - sndcnt) else count)
             else mret count);
    restore mask;;
    mret count.

(** The walk of _ptclear along the messages. *)
Fixpoint ptclear_walk (fuel : nat) (dispose : Z -> K Z) (walk : Z) : K unit :=
  match fuel with
  | O => undefined
  | S fuel =>
      if walk =? NULL then mret tt
      else
        msg ← load (ptmsg walk);
        dispose msg;;
        nxt ← load (ptnext walk);
        ptclear_walk fuel dispose nxt
  end.

(** system/ptclear.c: _ptclear; the walk visits each node once, so there are at
    most as many rounds as there are words of memory. *)
Definition _ptclear (portid : Z) (newstate : ptstate_t) (dispose : Z -> K Z) : K unit :=
  updport (set_ptstate PT_LIMBO) portid;;
  updport (λ p, set_ptseq (s32 (p.(ptseq) + 1)) p) portid;;
  ptptr ← getport portid;
  (if negb (ptptr.(pthead) =? NULL) then
     fuel ← gets (λ s, heap_fuel s.(mem));
     ptclear_walk fuel dispose ptptr.(pthead);;
     ptptr ← getport portid;
     free ← gets ptfree;
     store (ptnext ptptr.(pttail)) free;;
     modify (set_ptfree ptptr.(pthead))
   else mret tt);;
  ptptr ← getport portid;
  (if bool_decide (newstate = PT_ALLOC) then
     updport (λ p, set_pthead NULL (set_pttail NULL p)) portid;;
     semreset ptptr.(ptssem) ptptr.(ptmaxcnt);;
     semreset ptptr.(ptrsem) 0;;
     mret tt
   else
     semdelete ptptr.(ptssem);;
     semdelete ptptr.(ptrsem);;
     mret tt);;
  updport (set_ptstate newstate) portid.

(** system/ptreset.c: ptreset *)
Definition ptreset (portid : Z) (disp : Z -> K Z) : K Z :=
  mask ← disable;
  bad ← port_closed portid;
  if (bad : bool) then restore mask;; mret SYSERR
  else
    _ptclear portid PT_ALLOC disp;;
    restore mask;;
    mret OK.

(** system/ptdelete.c: ptdelete *)
Definition ptdelete (portid : Z) (disp : Z -> K Z) : K Z :=
  mask ← disable;
  bad ← port_closed portid;
  if (bad : bool) then restore mask;; mret SYSERR
  else
    _ptclear portid PT_FREE disp;;
    modify (set_ptnextid portid);;
    restore mask;;
    mret OK.

(** * A port is a queue of messages *)

#[local] Arguments Z.eqb : simpl never.
#[local] Arguments Z.ltb : simpl never.

(** From the pointer [p], memory [w] links the nodes [l], each an address and a
    message. *)
Fixpoint nodes (w : gmap Z Z) (p : Z) (l : list (Z * Z)) : Prop :=
  match l with
  | [] => p = NULL
  | (a, msg) :: l =>
      p = a /\ w !! ptmsg a = Some msg /\ ∃ nxt, w !! ptnext a = Some nxt /\ nodes w nxt l
  end.

(** Node addresses: distinct and aligned. *)
Definition nodes_sep (l : list Z) : Prop := NoDup l /\ Forall (λ a, 0 < a /\ a mod 8 = 0) l.

Lemma nodes_sep_perm l l' : l ≡ₚ l' -> nodes_sep l -> nodes_sep l'.
Proof. intros Hp [H1 H2]. split; by rewrite <- Hp. Qed.

Lemma sep_ne a b : a mod 8 = 0 -> b mod 8 = 0 -> a ≠ b -> a + 4 ≠ b /\ a ≠ b + 4.
Proof. intros. split; intros ?; Z.div_mod_to_equations; lia. Qed.

(** The free list: only the links matter. *)
Fixpoint links (w : gmap Z Z) (p : Z) (l : list Z) : Prop :=
  match l with
  | [] => p = NULL
  | a :: l => p = a /\ ∃ nxt, w !! ptnext a = Some nxt /\ links w nxt l
  end.

Lemma nodes_sep_sub l l' : nodes_sep l' -> NoDup l -> (∀ a, a ∈ l -> a ∈ l') -> nodes_sep l.
Proof.
  intros [_ Hal] Hnd Hin. split; [done|]. apply Forall_forall. intros a Ha.
  rewrite Forall_forall in Hal. by apply Hal, Hin.
Qed.

Lemma nodes_sep_app_cons a l1 l2 : nodes_sep (l1 ++ a :: l2) ->
  nodes_sep (a :: l1) /\ nodes_sep (a :: l2) /\ nodes_sep (a :: l1 ++ l2).
Proof.
  intros H. assert (H' : nodes_sep (a :: l1 ++ l2)) by (eapply nodes_sep_perm; [by rewrite Permutation_middle|done]).
  pose proof H' as [Hnd _]. apply NoDup_cons in Hnd as [Hn Hnd]. apply NoDup_app in Hnd as (H1 & H2 & H3).
  split; [|split; [|done]]; (eapply nodes_sep_sub; [exact H'| |set_solver]); constructor; set_solver.
Qed.

(** Writing to another node. *)
Lemma nodes_frame w a v1 p l :
  nodes_sep (a :: l.*1) -> nodes w p l ->
  nodes (<[ptnext a := v1]> w) p l /\ ∀ v2, nodes (<[ptmsg a := v2]> w) p l.
Proof.
  revert p. induction l as [|[b msg] l IH]; intros p Hsep; [by simpl|].
  destruct Hsep as [Hnd Hal]. simpl in Hnd, Hal. apply Forall_cons in Hal as [[Ha Ha8] Hal].
  pose proof Hal as Hal'. apply Forall_cons in Hal as [[Hb Hb8] Hal].
  apply NoDup_cons in Hnd as [Hnin Hnd]. pose proof Hnd as Hnd'. apply NoDup_cons in Hnd as [Hbnin Hnd].
  assert (Hne : a ≠ b) by set_solver. destruct (sep_ne a b Ha8 Hb8 Hne) as [H1 H2].
  simpl. intros (-> & Hm & nxt & Hn & Hl). unfold ptmsg, ptnext in *.
  destruct (IH nxt) as [IH1 IH2]; [split; [constructor; [set_solver|done]|by constructor]|done|].
  split; [|intros v2]; (split; [done|]); rewrite !lookup_insert_ne by lia; eauto.
Qed.

Lemma links_frame w a v1 p l :
  nodes_sep (a :: l) -> links w p l ->
  links (<[ptnext a := v1]> w) p l /\ ∀ v2, links (<[ptmsg a := v2]> w) p l.
Proof.
  revert p. induction l as [|b l IH]; intros p Hsep; [by simpl|].
  destruct Hsep as [Hnd Hal]. apply Forall_cons in Hal as [[Ha Ha8] Hal].
  pose proof Hal as Hal'. apply Forall_cons in Hal as [[Hb Hb8] Hal].
  apply NoDup_cons in Hnd as [Hnin Hnd]. pose proof Hnd as Hnd'. apply NoDup_cons in Hnd as [Hbnin Hnd].
  assert (Hne : a ≠ b) by set_solver. destruct (sep_ne a b Ha8 Hb8 Hne) as [H1 H2].
  simpl. intros (-> & nxt & Hn & Hl). unfold ptmsg, ptnext in *.
  destruct (IH nxt) as [IH1 IH2]; [split; [constructor; [set_solver|done]|by constructor]|done|].
  split; [|intros v2]; (split; [done|]); rewrite !lookup_insert_ne by lia; eauto.
Qed.

(** A new last node. *)
Lemma nodes_snoc w p l t m b msg :
  nodes_sep (b :: t :: l.*1) -> nodes w p (l ++ [(t, m)]) ->
  w !! ptmsg b = Some msg -> w !! ptnext b = Some NULL ->
  nodes (<[ptnext t := b]> w) p (l ++ [(t, m); (b, msg)]).
Proof.
  revert p. induction l as [|[x mx] l IH]; intros p Hsep Hl Hm Hn; unfold ptmsg, ptnext in *.
  - destruct Hsep as [Hnd Hal]. apply Forall_cons in Hal as [[Hb Hb8] Hal]. apply Forall_cons in Hal as [[Ht Ht8] _].
    apply NoDup_cons in Hnd as [Hnin _]. assert (Hne : t ≠ b) by set_solver.
    destruct (sep_ne t b Ht8 Hb8 Hne) as [H1 H2]. simpl in *. destruct Hl as (-> & Hmt & nxt & Hnt & ->).
    unfold ptmsg, ptnext in *. split; [done|]. rewrite lookup_insert_ne by lia. split; [done|].
    exists b. rewrite lookup_insert_eq. split; [done|]. rewrite !lookup_insert_ne by lia. eauto 6.
  - pose proof Hsep as [Hnd Hal]. simpl in Hnd, Hal.
    apply Forall_cons in Hal as [Hb Hal]. apply Forall_cons in Hal as [Ht Hal]. apply Forall_cons in Hal as [Hx Hal].
    apply NoDup_cons in Hnd as [Hb1 Hnd]. apply NoDup_cons in Hnd as [Ht1 Hnd]. apply NoDup_cons in Hnd as [Hx1 Hnd].
    assert (Hne : t ≠ x) by set_solver. destruct (sep_ne t x) as [H1 H2]; [tauto|tauto|done|].
    simpl in *. destruct Hl as (-> & Hmx & nxt & Hnx & Hl). unfold ptmsg, ptnext in *.
    split; [done|]. rewrite !lookup_insert_ne by lia. split; [done|]. exists nxt. split; [done|].
    apply IH; try done. split; [|by do 2 (apply Forall_cons; split; [done|])]. constructor; [set_solver|]. constructor; [set_solver|done].
Qed.

(** Port [id] holds the messages of [ns] and has [k] free places; the free nodes
    are those of [fs]; nobody waits. *)
Record port_ok (s : kst) (id k : Z) (ns : list (Z * Z)) (fs : list Z) : Prop := {
  po_id : 0 <= id < NPORTS;
  po_port : ∃ p ss rs, s.(porttab) !! id = Some p /\ p.(ptstate) = PT_ALLOC /\
    s.(semtab) !! p.(ptssem) = Some ss /\ s.(semtab) !! p.(ptrsem) = Some rs /\
    isbadsem p.(ptssem) = false /\ isbadsem p.(ptrsem) = false /\ p.(ptssem) ≠ p.(ptrsem) /\
    ss.(sstate) = S_USED /\ rs.(sstate) = S_USED /\
    ss.(scount) = k /\ rs.(scount) = Z.of_nat (length ns) /\
    nodes s.(mem).(words) p.(pthead) ns /\ p.(pttail) = default NULL (last ns.*1);
  po_k : 0 <= k < 2147483647 /\ Z.of_nat (length ns) < 2147483647;
  po_free : links s.(mem).(words) s.(ptfree) fs;
  po_sep : nodes_sep (ns.*1 ++ fs);
}.

(** What the rest of the kernel sees: the messages, in order, and how many free
    nodes there are. *)
Definition port_holds (s : kst) (id k : Z) (msgs : list Z) (nfree : nat) : Prop :=
  ∃ ns fs, port_ok s id k ns fs /\ ns.*2 = msgs /\ length fs = nfree.

Lemma updport_insert f id p s : s.(porttab) !! id = Some p ->
  updport f id s = Done tt (set_porttab (<[id := f p]> s.(porttab)) s).
Proof. intros H. unfold updport. by rewrite (arr_upd_Some _ _ _ _ H). Qed.

Lemma port_closed_open s id p :
  0 <= id < NPORTS -> s.(porttab) !! id = Some p -> p.(ptstate) = PT_ALLOC ->
  port_closed id s = Done false s.
Proof.
  intros Hid Hp Hst. unfold port_closed. assert (isbadport id = false) as ->.
  { unfold isbadport. rewrite Z.geb_leb. apply orb_false_iff. split; [apply Z.ltb_ge|apply Z.leb_gt]; lia. }
  unfold getport. krun. rewrite Hp. krun. by rewrite Hst.
Qed.

Lemma port_wait_open s id p se :
  s.(porttab) !! id = Some p -> p.(ptstate) = PT_ALLOC -> ∀ sem,
  s.(semtab) !! sem = Some se -> isbadsem sem = false -> se.(sstate) = S_USED -> 0 < se.(scount) < 2147483648 ->
  port_wait sem id p.(ptseq) s =
    Done false (set_semtab (<[sem := set_scount (se.(scount) - 1) se]> s.(semtab)) s).
Proof.
  intros Hp Hst sem Hse Hb Hu Hc. unfold port_wait. krun. rewrite (wait_free _ _ se) by done. krun.
  change (OK =? SYSERR) with false. krun.
  unfold getport. krun. rewrite Hp. krun. rewrite Hst, Z.eqb_refl. done.
Qed.

Lemma list_snoc_case (l : list (Z * Z)) : l = [] \/ ∃ l' a m, l = l' ++ [(a, m)].
Proof. destruct l as [|[a m] l' _] using rev_ind; [by left|right; eauto]. Qed.

Lemma ptsend_run s id k msg ns a fs :
  port_ok s id k ns (a :: fs) -> 0 < k -> Z.of_nat (length ns) < 2147483646 ->
  ∃ s', ptsend id msg s = Done OK s' /\ port_ok s' id (k - 1) (ns ++ [(a, msg)]) fs.
Proof.
  intros [Hid (p & ss & rs & Hp & Hst & Hss & Hrs & Hbs & Hbr & Hne & Hus & Hur & Hcs & Hcr & Hns & Htl) [Hk Hlen] Hfree Hsep] Hk0 Hmax.
  simpl in Hfree. destruct Hfree as (Hfa & nxt & Hnx & Hfs).
  unfold ptsend. krun. rewrite (port_closed_open _ _ p) by done. krun. unfold getport. krun. rewrite Hp. krun.
  rewrite (port_wait_open _ _ p ss) by (try done; lia). krun. rewrite Hfa.
  assert (Ha : 0 < a /\ a mod 8 = 0).
  { destruct Hsep as [_ Hal]. rewrite Forall_app in Hal. destruct Hal as [_ Hal]. simpl in Hal. by apply Forall_cons in Hal as [? _]. }
  rewrite (proj2 (Z.eqb_neq a NULL)) by (unfold NULL; lia). krun. unfold load, ldw. krun. rewrite Hnx. krun.
  rewrite Hp. krun.
  set (w := s.(mem).(words)) in *. set (w2 := <[ptmsg a := msg]> (<[ptnext a := NULL]> w)).
  apply nodes_sep_app_cons in Hsep as (Hs1 & Hs2 & Hs3).
  destruct (nodes_frame w a NULL p.(pthead) ns Hs1 Hns) as [Hns1 _].
  destruct (nodes_frame _ a NULL p.(pthead) ns Hs1 Hns1) as [_ Hns2]. specialize (Hns2 msg).
  destruct (links_frame w a NULL nxt fs Hs2 Hfs) as [Hfs1 _].
  destruct (links_frame _ a NULL nxt fs Hs2 Hfs1) as [_ Hfs2]. specialize (Hfs2 msg).
  fold w2 in Hns2, Hfs2.
  assert (Hnew : w2 !! ptmsg a = Some msg /\ w2 !! ptnext a = Some NULL).
  { unfold w2, ptmsg, ptnext. rewrite lookup_insert_eq, lookup_insert_ne by lia. by rewrite lookup_insert_eq. }
  destruct Hnew as [Hnew1 Hnew2].
  set (st1 := <[ptssem p := set_scount (scount ss - 1) ss]> s.(semtab)).
  assert (Hfin : ∀ w' p', p'.(ptstate) = PT_ALLOC -> p'.(ptssem) = p.(ptssem) -> p'.(ptrsem) = p.(ptrsem) ->
    nodes w' p'.(pthead) (ns ++ [(a, msg)]) -> p'.(pttail) = a -> links w' nxt fs ->
    let s1 := set_porttab (<[id := p']> s.(porttab)) (set_mem (set_words w' s.(mem))
      (set_ptfree nxt (set_semtab st1 (set_ie false s)))) in
    ∃ s', (signal p.(ptrsem);; restore s.(ie);; mret OK) s1 = Done OK s' /\
      port_ok s' id (k - 1) (ns ++ [(a, msg)]) fs).
  { intros w' p' E1 E2 E3 E4 E5 E6 s1.
    assert (Hrs1 : s1.(semtab) !! ptrsem p = Some rs) by (unfold s1, st1; kst_simpl; by rewrite lookup_insert_ne).
    rewrite (bind_done _ _ _ _ _ (signal_free s1 _ rs Hrs1 Hbr Hur ltac:(lia))). krun.
    eexists. split; [reflexivity|]. unfold s1, st1.
    constructor; kst_simpl; try done.
    - exists p', (set_scount (scount ss - 1) ss), (set_scount (scount rs + 1) rs).
      rewrite E2, E3, lookup_insert_eq, lookup_insert_eq, lookup_insert_ne, lookup_insert_eq by done.
      do 9 (split; [done|]). cbn [scount set_scount]. split; [lia|].
      split; [rewrite length_app; simpl; lia|]. split; [done|]. rewrite E5, fmap_app. simpl. by rewrite last_snoc.
    - rewrite length_app. simpl. lia.
    - rewrite fmap_app, <- app_assoc. simpl. eapply nodes_sep_perm; [|exact Hs3]. by rewrite Permutation_middle. }
  clearbody st1. destruct (list_snoc_case ns) as [->|(l & t & m & ->)].
  - simpl in Htl, Hns. rewrite Htl. change (NULL =? NULL) with true. krun.
    rewrite (updport_insert _ _ p) by done. krun. rewrite lookup_insert_eq. krun.
    unfold stw, set_words. cbn [words memlist minheap maxheap].
    apply (Hfin w2 (set_pttail a (set_pthead a p))); try done. simpl. split; [done|]. split; [done|]. by exists NULL.
  - rewrite fmap_app in Htl. simpl in Htl. rewrite last_snoc in Htl. simpl in Htl.
    assert (Ht : 0 < t).
    { destruct Hs1 as [_ Hal]. apply Forall_cons in Hal as [_ Hal]. rewrite fmap_app, Forall_app in Hal.
      destruct Hal as [_ Hal]. by apply Forall_cons in Hal as [[? _] _]. }
    rewrite Htl. rewrite (proj2 (Z.eqb_neq t NULL)) by (unfold NULL; lia). krun.
    rewrite (updport_insert _ _ p) by done. krun. rewrite lookup_insert_eq. krun.
    unfold stw, set_words. cbn [words memlist minheap maxheap].
    apply (Hfin (<[ptnext t := a]> w2) (set_pttail a p)); try done.
    + rewrite <- app_assoc. simpl. apply nodes_snoc; try done.
      eapply nodes_sep_perm; [|exact Hs1]. rewrite fmap_app. simpl. by rewrite <- Permutation_cons_append.
    + destruct (links_frame w2 t a nxt fs) as [Hf _]; [|done|exact Hf].
      rewrite fmap_app in Hs3. simpl in Hs3. eapply nodes_sep_sub; [exact Hs3| |set_solver].
      destruct Hs3 as [Hnd _]. apply NoDup_cons in Hnd as [_ Hnd]. rewrite <- app_assoc in Hnd.
      apply NoDup_app in Hnd as (_ & _ & Hnd). exact Hnd.
Qed.

Lemma ptrecv_run s id k a m ns fs :
  port_ok s id k ((a, m) :: ns) fs -> k < 2147483646 ->
  ∃ s', ptrecv id s = Done m s' /\ port_ok s' id (k + 1) ns (a :: fs).
Proof.
  intros [Hid (p & ss & rs & Hp & Hst & Hss & Hrs & Hbs & Hbr & Hne & Hus & Hur & Hcs & Hcr & Hns & Htl) [Hk Hlen] Hfree Hsep] Hmax.
  simpl in Hns, Hcr, Hlen. destruct Hns as (Hfa & Hm & nxt & Hnx & Hns).
  unfold ptrecv. krun. rewrite (port_closed_open _ _ p) by done. krun. unfold getport. krun. rewrite Hp. krun.
  rewrite (port_wait_open _ _ p rs) by (try done; lia). krun. rewrite Hp. krun. rewrite Hfa.
  unfold load, ldw. krun. rewrite Hm. krun.
  pose proof Hsep as Hs0. simpl in Hs0.
  assert (Hs1 : nodes_sep (a :: ns.*1)).
  { eapply nodes_sep_sub; [exact Hs0| |set_solver]. destruct Hs0 as [Hnd _]. apply NoDup_cons in Hnd as [H1 H2].
    apply NoDup_app in H2 as (H2 & _). constructor; set_solver. }
  assert (Hs2 : nodes_sep (a :: fs)).
  { eapply nodes_sep_sub; [exact Hs0| |set_solver]. destruct Hs0 as [Hnd _]. apply NoDup_cons in Hnd as [H1 H2].
    apply NoDup_app in H2 as (_ & _ & H2). constructor; set_solver. }
  set (w := s.(mem).(words)) in *. set (w2 := <[ptnext a := s.(ptfree)]> w).
  destruct (nodes_frame w a (ptfree s) nxt ns Hs1 Hns) as [Hns1 _].
  destruct (links_frame w a (ptfree s) (ptfree s) fs Hs2 Hfree) as [Hfs1 _]. fold w2 in Hns1, Hfs1.
  set (st1 := <[ptrsem p := set_scount (scount rs - 1) rs]> s.(semtab)).
  assert (Hfin : ∀ p', p'.(ptstate) = PT_ALLOC -> p'.(ptssem) = p.(ptssem) -> p'.(ptrsem) = p.(ptrsem) ->
    nodes w2 p'.(pthead) ns -> p'.(pttail) = default NULL (last ns.*1) ->
    let s1 := set_ptfree a (set_mem (set_words w2 s.(mem)) (set_porttab (<[id := p']> s.(porttab))
      (set_semtab st1 (set_ie false s)))) in
    ∃ s', (signal p.(ptssem);; restore s.(ie);; mret m) s1 = Done m s' /\
      port_ok s' id (k + 1) ns (a :: fs)).
  { intros p' E1 E2 E3 E4 E5 s1.
    assert (Hss1 : s1.(semtab) !! ptssem p = Some ss) by (unfold s1, st1; kst_simpl; by rewrite lookup_insert_ne).
    rewrite (bind_done _ _ _ _ _ (signal_free s1 _ ss Hss1 Hbs Hus ltac:(lia))). krun.
    eexists. split; [reflexivity|]. unfold s1, st1.
    constructor; kst_simpl; try done.
    - exists p', (set_scount (scount ss + 1) ss), (set_scount (scount rs - 1) rs).
      rewrite E2, E3, lookup_insert_eq, lookup_insert_eq, lookup_insert_ne, lookup_insert_eq by done.
      do 9 (split; [done|]). cbn [scount set_scount]. split; [lia|]. split; [lia|]. done.
    - lia.
    - cbn [words set_words]. simpl. split; [done|]. exists (ptfree s). unfold w2. by rewrite lookup_insert_eq.
    - eapply nodes_sep_perm; [|exact Hs0]. simpl. by rewrite Permutation_middle. }
  clearbody st1. simpl in Htl. destruct ns as [|[b mb] ns].
  - simpl in Htl. rewrite Htl. rewrite Z.eqb_refl. krun. rewrite (updport_insert _ _ p) by done. krun.
    unfold stw, set_words. cbn [words memlist minheap maxheap].
    apply (Hfin (set_pthead NULL (set_pttail NULL p))); done.
  - assert (Hat : a ≠ pttail p).
    { assert (Htl' : pttail p = default NULL (last (b :: ns.*1))) by (rewrite Htl; done).
      rewrite Htl'. intros Ha. destruct Hs1 as [Hnd _]. apply NoDup_cons in Hnd as [Hnin _]. apply Hnin.
      destruct (last (b :: ns.*1)) as [t|] eqn:E; [|by apply last_None in E]. simpl in Ha. subst t.
      apply last_Some in E as [l' E]. change (a ∈ b :: ns.*1). rewrite E. set_solver. }
    rewrite (proj2 (Z.eqb_neq _ _) Hat). krun. change (words (mem s)) with w. rewrite Hnx. krun. rewrite (updport_insert _ _ p) by done. krun.
    unfold stw, set_words. cbn [words memlist minheap maxheap].
    apply (Hfin (set_pthead nxt p)); done.
Qed.

(** ** Making ports *)

Lemma ptinit_link_run n : ∀ fuel curr s,
  (n < fuel)%nat -> 0 < curr -> curr + 8 * Z.of_nat (S n) < 4294967296 -> Z.of_nat (S n) < 2147483648 ->
  ∃ w, ptinit_link fuel curr curr (Z.of_nat (S n)) s =
      Done (curr + 8 * Z.of_nat n) (set_mem (set_words w s.(mem)) s) /\
    links (<[ptnext (curr + 8 * Z.of_nat n) := NULL]> w) curr (pool_bufs (S n) curr 8) /\
    (∀ x, x < curr + 4 -> w !! x = s.(mem).(words) !! x).
Proof.
  induction n as [|n IH]; intros [|fuel] curr s Hf Hc Hmax Hn; try lia; cbn [ptinit_link].
  - exists s.(mem).(words). change (s32 (Z.of_nat 1 - 1)) with 0. change (0 >? 0) with false. cbv iota.
    split; [|split; [|done]].
    + change (Z.of_nat 0) with 0. rewrite Z.mul_0_r, Z.add_0_r. unfold mret, K_ret. f_equal.
      destruct s as []. simpl. by destruct mem.
    + split; [done|]. exists NULL. split; [|done]. change (Z.of_nat 0) with 0. rewrite Z.mul_0_r, Z.add_0_r.
      apply lookup_insert_eq.
  - replace (Z.of_nat (S (S n)) - 1) with (Z.of_nat (S n)) by lia. rewrite s32_id by (unfold is_s32; lia).
    rewrite Z.gtb_ltb, (proj2 (Z.ltb_lt _ _)) by lia. rewrite u32_id by (unfold is_u32; lia).
    unfold store. rewrite bind_modify. cbv beta.
    destruct (IH fuel (curr + 8) (set_mem (stw (ptnext curr) (curr + 8) s.(mem)) s)) as (w & Hrun & Hl & Hfr); [lia..|].
    exists w. split; [|split].
    + rewrite Hrun. f_equal; lia.
    + replace (curr + 8 * Z.of_nat (S n)) with (curr + 8 + 8 * Z.of_nat n) by lia.
      change (pool_bufs (S (S n)) curr 8) with (curr :: pool_bufs (S n) (curr + 8) 8).
      split; [done|]. exists (curr + 8). split; [|done]. unfold ptnext in *.
      rewrite lookup_insert_ne by lia. rewrite Hfr by lia. simpl. apply lookup_insert_eq.
    + intros x Hx. rewrite Hfr by lia. simpl. unfold ptnext. by rewrite lookup_insert_ne by lia.
Qed.

Definition reset_port (p : ptentry) : ptentry := set_ptseq 0 (set_ptstate PT_FREE p).

Lemma ptinit_ports n : ∀ i s,
  (∀ j, i <= j < i + Z.of_nat n -> is_Some (s.(porttab) !! j)) ->
  ∃ pt, kfor n i (λ i, updport (set_ptstate PT_FREE) i;; updport (set_ptseq 0) i) s =
      Done tt (set_porttab pt s) /\
    ∀ j, pt !! j = (if decide (i <= j < i + Z.of_nat n) then reset_port else id) <$> s.(porttab) !! j.
Proof.
  induction n as [|n IH]; intros i s Hs.
  - exists s.(porttab). split; [by destruct s|]. intros j. rewrite decide_False by lia. by rewrite option_fmap_id.
  - destruct (Hs i ltac:(lia)) as [p Hp].
    set (s1 := set_porttab (<[i := reset_port p]> s.(porttab)) s).
    destruct (IH (i + 1) s1) as (pt & Hrun & Hpt).
    { intros j Hj. unfold s1. simpl. rewrite lookup_insert_ne by lia. apply Hs. lia. }
    exists pt. split.
    + rewrite (kfor_S _ _ _ _ s1); [exact Hrun|]. rewrite (bind_done _ _ _ _ _ (updport_insert _ _ p s Hp)). cbv beta.
      rewrite (updport_insert _ _ (set_ptstate PT_FREE p)) by (simpl; apply lookup_insert_eq).
      simpl. by rewrite insert_insert_eq.
    + intros j. rewrite Hpt. unfold s1. simpl. destruct (decide (i = j)) as [<-|Hne].
      * rewrite lookup_insert_eq, Hp, decide_False, decide_True by lia. done.
      * rewrite lookup_insert_ne by done.
        destruct (decide (i + 1 <= j < i + 1 + Z.of_nat n)), (decide (i <= j < i + Z.of_nat (S n))); try done; lia.
Qed.

(** ptinit leaves every port free and a free list of [maxmsgs] nodes. *)
Lemma ptinit_run s maxmsgs a m :
  1 <= maxmsgs < 268435456 -> arr_len NPORTS s.(porttab) ->
  getmem (maxmsgs * 8) s.(mem) = Some (a, m) -> 0 < a -> a mod 8 = 0 -> a + maxmsgs * 8 < 4294967295 ->
  ∃ pt w, ptinit maxmsgs s =
      Done OK (set_mem (set_words w m) (set_ptnextid 0 (set_porttab pt (set_ptfree a s)))) /\
    (∀ j, pt !! j = reset_port <$> s.(porttab) !! j) /\
    links w a (pool_bufs (Z.to_nat maxmsgs) a 8) /\ nodes_sep (pool_bufs (Z.to_nat maxmsgs) a 8).
Proof.
  intros Hm Hlen Hg Ha Ha8 Hmax. unfold ptinit. rewrite u32_id by (unfold is_u32; lia).
  rewrite (bind_done _ _ _ _ _ (mop_run _ _ _ _ Hg)). cbv beta. rewrite bind_modify. cbv beta.
  rewrite (proj2 (Z.eqb_neq a PSYSERR)) by (unfold PSYSERR, u32, SYSERR; Z.div_mod_to_equations; lia).
  destruct (ptinit_ports (Z.to_nat NPORTS) 0 (set_ptfree a (set_mem m s))) as (pt & Hrun & Hpt).
  { intros j Hj. simpl. apply Hlen. unfold NPORTS in *. lia. }
  rewrite (bind_done _ _ _ _ _ Hrun). cbv beta. rewrite bind_modify. cbv beta.
  destruct (ptinit_link_run (Z.to_nat (maxmsgs - 1)) (S (Z.to_nat maxmsgs)) a
    (set_ptnextid 0 (set_porttab pt (set_ptfree a (set_mem m s))))) as (w & Hl & Hli & _); [lia..|].
  replace (Z.of_nat (S (Z.to_nat (maxmsgs - 1)))) with maxmsgs in Hl by lia.
  rewrite (bind_done _ _ _ _ _ Hl). cbv beta. unfold store. rewrite bind_modify. cbv beta.
  exists pt, (<[ptnext (a + 8 * Z.of_nat (Z.to_nat (maxmsgs - 1))) := NULL]> w). split; [done|].
  split.
  { intros j. rewrite Hpt. simpl. destruct (porttab s !! j) as [p|] eqn:Hp; [|done].
    pose proof (arr_len_lt _ _ _ _ Hlen Hp) as Hr. rewrite decide_True by (unfold NPORTS in *; lia). done. }
  replace (S (Z.to_nat (maxmsgs - 1))) with (Z.to_nat maxmsgs) in Hli by lia.
  split; [exact Hli|]. split; [by apply pool_bufs_NoDup|]. clear -Ha Ha8. revert a Ha Ha8.
  induction (Z.to_nat maxmsgs) as [|n IH]; intros a Ha Ha8; simpl; constructor; [done|].
  apply IH; [lia|]. by apply mod8_add.
Qed.

Definition sem_after (i : Z) : Z := if i + 1 >=? NSEM then 0 else i + 1.

Lemma sem_after_spec i : 0 <= i < NSEM -> 0 <= sem_after i < NSEM /\ sem_after i ≠ i.
Proof. unfold sem_after, NSEM. intros H. rewrite Z.geb_leb. destruct (100 <=? i + 1) eqn:E; bool_hyps; lia. Qed.

Lemma isbadsem_ok i : 0 <= i < NSEM -> isbadsem i = false.
Proof. intros H. unfold isbadsem. rewrite Z.geb_leb. apply orb_false_iff. split; [apply Z.ltb_ge|apply Z.leb_gt]; lia. Qed.

(** The first round of ptcreate's loop, when the entry and two semaphores are
    free. *)
Lemma ptcreate_first n count s p se1 se2 :
  let i1 := s.(nextsem) in let i2 := sem_after s.(nextsem) in let id := s.(ptnextid) in
  s.(porttab) !! id = Some p -> p.(ptstate) = PT_FREE -> 0 <= id < NPORTS ->
  0 <= i1 < NSEM -> s.(semtab) !! i1 = Some se1 -> se1.(sstate) = S_FREE ->
  s.(semtab) !! i2 = Some se2 -> se2.(sstate) = S_FREE -> 0 <= count ->
  ptcreate_loop (S n) count s = Done id
    (set_porttab (<[id := Ptentry i1 i2 PT_ALLOC (u16 count) (s32 (p.(ptseq) + 1)) NULL NULL]> s.(porttab))
       (set_nextsem (sem_after i2)
          (set_semtab (<[i2 := Sentry S_USED 0 se2.(squeue)]> (<[i1 := Sentry S_USED count se1.(squeue)]> s.(semtab)))
             (set_ptnextid (if id + 1 >=? NPORTS then 0 else id + 1) s)))).
Proof.
  intros i1 i2 id Hp Hst Hid Hi1 Hse1 Hf1 Hse2 Hf2 Hc. simpl ptcreate_loop.
  destruct (sem_after_spec i1 Hi1) as [Hi2 Hne]. fold i2 in Hi2, Hne.
  rewrite bind_gets. cbv beta. rewrite bind_modify. cbv beta. fold id.
  rewrite (bind_done _ _ _ tt (set_ptnextid (if id + 1 >=? NPORTS then 0 else id + 1) s))
    by (destruct (id + 1 >=? NPORTS); done).
  cbv beta. set (s1 := set_ptnextid _ s). unfold getport. rewrite (bind_done _ _ s1 p s1) by (unfold s1; krun; by rewrite Hp).
  cbv beta. rewrite Hst, bool_decide_eq_true_2 by done.
  rewrite (bind_done _ _ _ _ _ (updport_insert _ id p s1 Hp)). cbv beta.
  set (s2 := set_porttab _ s1).
  assert (Hr1 : semcreate count s2 = Done i1
    (set_semtab (<[i1 := Sentry S_USED count se1.(squeue)]> s.(semtab)) (set_nextsem i2 s2))).
  { apply (semcreate_run s2 se1 count); try done. apply Hi1. }
  rewrite (bind_done _ _ _ _ _ Hr1). cbv beta.
  rewrite (bind_done _ _ _ _ _ (updport_insert _ id (set_ptstate PT_ALLOC p) (set_semtab _ (set_nextsem i2 s2)) ltac:(apply lookup_insert_eq))).
  cbv beta. set (s3 := set_porttab _ (set_semtab _ (set_nextsem i2 s2))).
  assert (Hr2 : semcreate 0 s3 = Done i2
    (set_semtab (<[i2 := Sentry S_USED 0 se2.(squeue)]> s3.(semtab)) (set_nextsem (sem_after i2) s3))).
  { apply (semcreate_run s3 se2 0); try done; [|apply Hi2]. unfold s3. simpl. by rewrite lookup_insert_ne. }
  rewrite (bind_done _ _ _ _ _ Hr2). cbv beta. unfold s3, s2, s1. clear Hr1 Hr2 s1 s2 s3.
  repeat (erewrite bind_done; [|apply updport_insert; apply lookup_insert_eq]; cbv beta).
  unfold mret, K_ret. f_equal. cbn [set_porttab porttab set_semtab set_nextsem]. rewrite !insert_insert_eq. done.
Qed.

Lemma ptcreate_run count s p se1 se2 fs :
  s.(porttab) !! s.(ptnextid) = Some p -> p.(ptstate) = PT_FREE -> 0 <= s.(ptnextid) < NPORTS ->
  0 <= s.(nextsem) < NSEM -> s.(semtab) !! s.(nextsem) = Some se1 -> se1.(sstate) = S_FREE ->
  s.(semtab) !! sem_after s.(nextsem) = Some se2 -> se2.(sstate) = S_FREE -> 0 <= count < 2147483647 ->
  links s.(mem).(words) s.(ptfree) fs -> nodes_sep fs ->
  ∃ s', ptcreate count s = Done s.(ptnextid) s' /\ port_ok s' s.(ptnextid) count [] fs.
Proof.
  intros Hp Hst Hid Hi1 Hse1 Hf1 Hse2 Hf2 Hc Hl Hsep.
  destruct (sem_after_spec _ Hi1) as [Hi2 Hne].
  unfold ptcreate. rewrite (bind_done disable _ s s.(ie) (set_ie false s)) by done. cbv beta.
  rewrite (proj2 (Z.ltb_ge count 0)) by lia.
  change (Z.to_nat NPORTS) with (S 29).
  pose proof (ptcreate_first 29 count (set_ie false s) p se1 se2 Hp Hst Hid Hi1 Hse1 Hf1 Hse2 Hf2 ltac:(lia)) as Hrun.
  rewrite (bind_done _ _ _ _ _ Hrun). cbv beta. unfold restore. rewrite bind_modify. cbv beta.
  eexists. split; [reflexivity|]. constructor; kst_simpl; try done.
  do 3 eexists. split; [apply lookup_insert_eq|]. split; [done|]. cbn [ptssem ptrsem].
  split; [rewrite lookup_insert_ne by done; apply lookup_insert_eq|]. split; [apply lookup_insert_eq|].
  split; [by apply isbadsem_ok|]. split; [by apply isbadsem_ok|]. done.
Qed.

(** Ptcreate makes an empty port with room for [count] messages, and leaves
    the free nodes as they were. *)
Theorem ptcreate_makes_an_empty_port count s p se1 se2 fs :
  s.(porttab) !! s.(ptnextid) = Some p -> p.(ptstate) = PT_FREE -> 0 <= s.(ptnextid) < NPORTS ->
  0 <= s.(nextsem) < NSEM -> s.(semtab) !! s.(nextsem) = Some se1 -> se1.(sstate) = S_FREE ->
  s.(semtab) !! sem_after s.(nextsem) = Some se2 -> se2.(sstate) = S_FREE -> 0 <= count < 2147483647 ->
  links s.(mem).(words) s.(ptfree) fs -> nodes_sep fs ->
  ∃ s', ptcreate count s = Done s.(ptnextid) s' /\ port_holds s' s.(ptnextid) count [] (length fs).
Proof.
  intros. destruct (ptcreate_run count s p se1 se2 fs) as (s' & Hrun & Hok); try done.
  exists s'. split; [done|]. by exists [], fs.
Qed.

(** C13: a port is a first-in first-out queue.  As long as there is room and a
    free node, ptsend puts a message behind all others and ptrecv takes the
    oldest one; each keeps the count of free places and of free nodes. *)
Theorem port_is_a_fifo_queue s id k msgs nfree :
  port_holds s id k msgs nfree -> 0 <= k < 2147483646 -> Z.of_nat (length msgs) < 2147483646 ->
  (∀ msg n, 0 < k -> nfree = S n ->
     ∃ s', ptsend id msg s = Done OK s' /\ port_holds s' id (k - 1) (msgs ++ [msg]) n) /\
  (∀ m rest, msgs = m :: rest ->
     ∃ s', ptrecv id s = Done m s' /\ port_holds s' id (k + 1) rest (S nfree)).
Proof.
  intros (ns & fs & Hok & <- & <-) Hk Hlen. rewrite length_fmap in Hlen. split.
  - intros msg n Hk0 Hn. destruct fs as [|a fs]; [done|]. injection Hn as <-.
    destruct (ptsend_run _ _ _ msg _ _ _ Hok Hk0 Hlen) as (s' & Hrun & Hok').
    exists s'. split; [done|]. exists (ns ++ [(a, msg)]), fs. split; [done|]. by rewrite fmap_app.
  - intros m rest Hm. destruct ns as [|[a m'] ns]; [done|]. injection Hm as -> <-.
    destruct (ptrecv_run _ _ _ _ _ _ _ Hok ltac:(lia)) as (s' & Hrun & Hok').
    exists s'. split; [done|]. by exists ns, (a :: fs).
Qed.

(** * On the concrete machine *)

Definition demo_ports : kst := state_of (ptinit 3 demo_main).
Definition demo_port : kst := state_of (ptcreate 2 demo_ports).

Lemma demo_links : links demo_ports.(mem).(words) demo_ports.(ptfree) [4096; 4104; 4112].
Proof. vm_compute. eauto 10. Qed.

Lemma demo_sep : nodes_sep [4096; 4104; 4112].
Proof. split; [apply (pool_bufs_NoDup 3 4096 8); lia|repeat constructor]. Qed.

Lemma ptcreate_makes_an_empty_port_witness :
  ∃ s', ptcreate 2 demo_ports = Done demo_ports.(ptnextid) s' /\
    port_holds s' demo_ports.(ptnextid) 2 [] 3.
Proof.
  apply (ptcreate_makes_an_empty_port 2 demo_ports (Ptentry 0 0 PT_FREE 0 0 0 0) (Sentry S_FREE 0 100)
    (Sentry S_FREE 0 102) [4096; 4104; 4112]);
    [by_run|reflexivity|by_run|by_run|by_run|reflexivity|by_run|reflexivity|lia|exact demo_links|exact demo_sep].
Defined.

Lemma demo_port_holds : port_holds demo_port 0 2 [] 3.
Proof.
  destruct (ptcreate_run 2 demo_ports (Ptentry 0 0 PT_FREE 0 0 0 0) (Sentry S_FREE 0 100)
    (Sentry S_FREE 0 102) [4096; 4104; 4112]) as (s' & Hrun & Hok);
    [by_run|reflexivity|by_run|by_run|by_run|reflexivity|by_run|reflexivity|lia|exact demo_links|exact demo_sep|].
  assert (Hid : demo_ports.(ptnextid) = 0) by by_run. rewrite Hid in Hok.
  unfold demo_port. rewrite Hrun. exists [], [4096; 4104; 4112].
  split; [exact Hok|split; reflexivity].
Qed.

Lemma port_is_a_fifo_queue_witness :
  ∃ s', ptsend 0 42 demo_port = Done OK s' /\ port_holds s' 0 (2 - 1) ([] ++ [42]) 2.
Proof.
  apply (port_is_a_fifo_queue demo_port 0 2 [] 3 demo_port_holds); [lia|simpl; lia|lia|reflexivity].
Defined.
