(* ===== verification/Xmalloc.v ===== *)
(** The storage allocator on top of the buffer pools: system/xmalloc.c.
    Pool [i] has buffers of [bufsize[i]] usable bytes; a request is served from
    the smallest pool it fits in, and the bytes asked for are recorded in the
    last word of the buffer.

    The arrays of include/xmalloc.h are in memory, at addresses that the linker
    chooses; element [i] of [a] is the word at [a + 4 * i].  The messages that
    the code prints are not modelled. *)

From S2P Require Import Prelude Types Queue Memory Kernel Sched Observe Sem Devsw Init System Bufpool.

(** * The operations *)

(** Signed words. *)
Definition loadi (a : Z) : K Z := w ← load a; mret (s32 w).
Definition storei (a v : Z) : K unit := store a (u32 v).

Section Xmalloc.
Context (poolnum bufsize bufnumb allocBy allocBf fragmBy : Z).

Definition elem (a i : Z) : Z := u32 (a + 4 * i).

(** The bisection of findClosestIndex; the distance shrinks in every round. *)
Fixpoint closest_bisect (fuel : nat) (size start stop : Z) : K (Z * Z) :=
  match fuel with
  | O => undefined
  | S fuel =>
      if start + 1 <? stop then
        let mid := start + (stop - start) / 2 in
        b ← loadi (elem bufsize mid);
        if b <? size then closest_bisect fuel size mid stop else closest_bisect fuel size start mid
      else mret (start, stop)
  end.

(** system/xmalloc.c: findClosestIndex *)
Definition findClosestIndex (size : Z) : K Z :=
  bad ← (if size <=? 0 then mret true
         else np ← gets nbpools; top ← loadi (elem bufsize (np - 1)); mret (size >? top));
  if (bad : bool) then mret SYSERR
  else
    b0 ← loadi (elem bufsize 0);
    if size <=? b0 then mret 0
    else
      np ← gets nbpools;
      r ← closest_bisect (S (Z.to_nat np)) size 0 (np - 1);
      bstart ← loadi (elem bufsize r.1);
      if bstart >=? size then mret r.1
      else
        bstop ← loadi (elem bufsize r.2);
        if bstop >=? size then mret r.2 else mret SYSERR.

(** [allocBy[i] += d; allocBf[i] += n; fragmBy[i] = ...] *)
Definition account (i d n : Z) : K unit :=
  ab ← loadi (elem allocBy i);
  storei (elem allocBy i) (s32 (ab + d));;
  af ← loadi (elem allocBf i);
  storei (elem allocBf i) (s32 (af + n));;
  sz ← loadi (elem bufsize i);
  af ← loadi (elem allocBf i);
  ab ← loadi (elem allocBy i);
  storei (elem fragmBy i) (s32 (sz * af - ab)).

(** system/xmalloc.c: xmalloc *)
Definition xmalloc (size : Z) : K Z :=
  bad ← (if size <=? 0 then mret true
         else np ← gets nbpools; top ← loadi (elem bufsize (np - 1)); mret (size >? top));
  if (bad : bool) then mret NULL
  else
    poolid ← findClosestIndex size;
    if poolid =? SYSERR then mret NULL
    else
      bpptr ← getpool poolid;
      if bpptr.(bpnext) =? NULL then mret NULL
      else
        bufptr ← getbuf poolid;
        if bufptr =? PSYSERR then mret NULL
        else
          bpptr ← getpool poolid;
          storei (u32 (bufptr + bpptr.(bpsize) - 4)) size;;
          account poolid size 1;;
          mret bufptr.

(** system/xmalloc.c: xfree *)
Definition xfree (bufaddr : Z) : K unit :=
  if bufaddr =? NULL then mret tt
  else
    let addr := u32 (bufaddr - 4) in
    poolid ← loadi addr;
    np ← gets nbpools;
    if (poolid <? 0) || (poolid >=? np) then mret tt
    else
      bpptr ← getpool poolid;
      size ← loadi (u32 (addr + 4 + bpptr.(bpsize) - 4));
      st ← freebuf bufaddr;
      if st =? SYSERR then mret tt
      else account poolid (- size) (-1).

(** The first loop of xmalloc_init: the parameters of pool [i]. *)
Definition xinit_pool (i : Z) : K unit :=
  let sz := s32 (Z.shiftl 16 i - 4) in
  storei (elem bufsize i) sz;;
  storei (elem bufnumb i) (if sz <=? 128 then 2048 else if sz <=? 2048 then 2048 else 2);;
  storei (elem allocBy i) 0;;
  storei (elem allocBf i) 0.

(** The second loop: the pools are made until one fails. *)
Fixpoint xinit_pools (n : nat) (i : Z) : K unit :=
  match n with
  | O => mret tt
  | S n =>
      sz ← loadi (elem bufsize i);
      nb ← loadi (elem bufnumb i);
      pid ← mkbufpool (s32 (sz + 4)) nb;
      if pid =? SYSERR then mret tt else xinit_pools n (i + 1)
  end.

(** system/xmalloc.c: xmalloc_init *)
Definition xmalloc_init : K unit :=
  st ← bufinit;
  if st =? SYSERR then mret tt
  else
    storei poolnum 10;;
    kfor 10 0 xinit_pool;;
    xinit_pools 10 0.
End Xmalloc.

(** * findClosestIndex finds the smallest pool that fits *)

#[local] Arguments Z.eqb : simpl never.
#[local] Arguments Z.ltb : simpl never.
#[local] Arguments Z.leb : simpl never.
#[local] Arguments Z.div : simpl never.
#[local] Arguments Z.mul : simpl never.

(** The words of the array [a] hold [f 0], ..., [f (n - 1)]. *)
Definition array_at (w : gmap Z Z) (a n : Z) (f : Z -> Z) : Prop :=
  ∀ i, 0 <= i < n -> w !! elem a i = Some (u32 (f i)) /\ is_s32 (f i).

Lemma loadi_run s a v : s.(mem).(words) !! a = Some (u32 v) -> is_s32 v -> loadi a s = Done v s.
Proof. intros Ha Hv. unfold loadi, load, ldw. krun. rewrite Ha. krun. by rewrite s32_u32. Qed.

Lemma array_run s a n f i : array_at s.(mem).(words) a n f -> 0 <= i < n -> loadi (elem a i) s = Done (f i) s.
Proof. intros Ha Hi. destruct (Ha i Hi). by apply loadi_run. Qed.

Section Closest.
Context (a np size : Z) (f : Z -> Z) (s : kst).
Hypothesis Hf : array_at s.(mem).(words) a np f.

Lemma closest_bisect_spec fuel : ∀ start stop,
  0 <= start -> start < stop -> stop < np -> f start < size -> size <= f stop ->
  (Z.to_nat (stop - start) < fuel)%nat ->
  ∃ i, closest_bisect a fuel size start stop s = Done (i, i + 1) s /\
    0 <= i /\ i + 1 < np /\ f i < size /\ size <= f (i + 1).
Proof.
  induction fuel as [|fuel IH]; intros start stop H0 H1 H2 Hlo Hhi Hfuel; [lia|]. simpl.
  destruct (start + 1 <? stop) eqn:E; bool_hyps.
  - assert (Hmid : start < start + (stop - start) / 2 < stop) by (Z.div_mod_to_equations; lia).
    set (mid := start + (stop - start) / 2) in *.
    rewrite (bind_done _ _ _ _ _ (array_run s a np f mid Hf ltac:(lia))). cbv beta.
    destruct (f mid <? size) eqn:E2; bool_hyps; apply IH; try done; lia.
  - exists start. replace (start + 1) with stop by lia. repeat split; try done; lia.
Qed.

Lemma findClosestIndex_run :
  s.(nbpools) = np -> 0 < np -> 0 < size <= f (np - 1) ->
  (∀ i j, 0 <= i <= j -> j < np -> f i <= f j) ->
  ∃ i, findClosestIndex a size s = Done i s /\ 0 <= i < np /\ size <= f i /\
    ∀ j, 0 <= j < i -> f j < size.
Proof.
  intros Hnp Hp Hsz Hmono. unfold findClosestIndex. rewrite (proj2 (Z.leb_gt size 0)) by lia.
  rewrite (bind_done _ _ s false s).
  2:{ rewrite bind_gets. cbv beta. rewrite Hnp. rewrite (bind_done _ _ _ _ _ (array_run s a np f (np - 1) Hf ltac:(lia))).
      unfold mret, K_ret. f_equal. rewrite Z.gtb_ltb. apply Z.ltb_ge. lia. }
  cbv beta iota. rewrite (bind_done _ _ _ _ _ (array_run s a np f 0 Hf ltac:(lia))). cbv beta.
  destruct (size <=? f 0) eqn:E; bool_hyps.
  { exists 0. split; [done|]. split; [lia|]. split; [done|]. intros. lia. }
  assert (Hnp2 : np ≠ 1) by (intros ->; change (1 - 1) with 0 in Hsz; lia).
  rewrite bind_gets. cbv beta. rewrite Hnp.
  destruct (closest_bisect_spec (S (Z.to_nat np)) 0 (np - 1)) as (i & Hrun & H1 & H2 & H3 & H4); [lia..|].
  rewrite (bind_done _ _ _ _ _ Hrun). cbv beta. cbn [fst snd].
  rewrite (bind_done _ _ _ _ _ (array_run s a np f i Hf ltac:(lia))). cbv beta.
  rewrite Z.geb_leb, (proj2 (Z.leb_gt size (f i))) by lia.
  rewrite (bind_done _ _ _ _ _ (array_run s a np f (i + 1) Hf ltac:(lia))). cbv beta.
  rewrite Z.geb_leb, (proj2 (Z.leb_le size (f (i + 1)))) by lia.
  exists (i + 1). split; [done|]. split; [lia|]. split; [done|]. intros j Hj.
  assert (f j <= f i) by (apply Hmono; lia). lia.
Qed.
End Closest.

(** FindClosestIndex is a correct binary search: with the sizes of the pools
    in ascending order it returns the smallest pool whose buffers are large
    enough, in every case in which there is one, and changes nothing. *)
Theorem findClosestIndex_is_smallest_fit a np size f s :
  array_at s.(mem).(words) a np f -> s.(nbpools) = np -> 0 < np -> 0 < size <= f (np - 1) ->
  (∀ i j, 0 <= i <= j -> j < np -> f i <= f j) ->
  ∃ i, findClosestIndex a size s = Done i s /\ 0 <= i < np /\ size <= f i /\
    ∀ j, 0 <= j < i -> f j < size.
Proof. apply findClosestIndex_run. Qed.

(** * xmalloc and xfree *)

Lemma storei_run a v s : storei a v s = Done tt (set_mem (stw a (u32 v) s.(mem)) s).
Proof. done. Qed.

Ltac ne := first [assumption | apply not_eq_sym; assumption | congruence].

Lemma NoDup_5 (a b c d e : Z) : NoDup [a; b; c; d; e] ->
  (a ≠ b /\ a ≠ c /\ a ≠ d /\ a ≠ e) /\ (b ≠ c /\ b ≠ d /\ b ≠ e) /\ (c ≠ d /\ c ≠ e) /\ d ≠ e.
Proof. rewrite !NoDup_cons. set_solver. Qed.

(** The bytes and the buffers that pool [id] has handed out. *)
Definition stats (w : gmap Z Z) (allocBy allocBf fragmBy id by_ bf : Z) : Prop :=
  w !! elem allocBy id = Some (u32 by_) /\ w !! elem allocBf id = Some (u32 bf) /\ is_s32 by_ /\ is_s32 bf.

Lemma account_run bufsize allocBy allocBf fragmBy id d n s by_ bf sz :
  stats s.(mem).(words) allocBy allocBf fragmBy id by_ bf ->
  s.(mem).(words) !! elem bufsize id = Some (u32 sz) -> is_s32 sz ->
  is_s32 (by_ + d) -> is_s32 (bf + n) ->
  elem allocBy id ≠ elem allocBf id -> elem allocBy id ≠ elem bufsize id -> elem allocBf id ≠ elem bufsize id ->
  account bufsize allocBy allocBf fragmBy id d n s =
    Done tt (set_mem (stw (elem fragmBy id) (u32 (s32 (sz * (bf + n) - (by_ + d))))
                       (stw (elem allocBf id) (u32 (bf + n)) (stw (elem allocBy id) (u32 (by_ + d)) s.(mem)))) s).
Proof.
  intros (Hby & Hbf & Rby & Rbf) Hsz Rsz R1 R2 N1 N2 N3. unfold account.
  rewrite (bind_done _ _ _ _ _ (loadi_run s _ _ Hby Rby)). cbv beta. rewrite (s32_id (by_ + d)) by done.
  rewrite (bind_done _ _ _ _ _ (storei_run _ _ _)). cbv beta. set (s1 := set_mem _ s).
  assert (E1 : s1.(mem).(words) !! elem allocBf id = Some (u32 bf)) by (simpl; by rewrite lookup_insert_ne).
  rewrite (bind_done _ _ _ _ _ (loadi_run s1 _ _ E1 Rbf)). cbv beta. rewrite (s32_id (bf + n)) by done.
  rewrite (bind_done _ _ _ _ _ (storei_run _ _ _)). cbv beta. set (s2 := set_mem _ s1).
  assert (E2 : s2.(mem).(words) !! elem bufsize id = Some (u32 sz)) by (simpl; by rewrite !lookup_insert_ne).
  rewrite (bind_done _ _ _ _ _ (loadi_run s2 _ _ E2 Rsz)). cbv beta.
  assert (E3 : s2.(mem).(words) !! elem allocBf id = Some (u32 (bf + n))) by (simpl; by rewrite lookup_insert_eq).
  rewrite (bind_done _ _ _ _ _ (loadi_run s2 _ _ E3 R2)). cbv beta.
  assert (E4 : s2.(mem).(words) !! elem allocBy id = Some (u32 (by_ + d))).
  { simpl. rewrite lookup_insert_ne by done. by rewrite lookup_insert_eq. }
  rewrite (bind_done _ _ _ _ _ (loadi_run s2 _ _ E4 R1)). cbv beta. done.
Qed.

Section Roundtrip.
Context (bufsize allocBy allocBf fragmBy : Z).

(** Pool [id] is the class of requests of [size] bytes: the smallest that fits. *)
Definition class_of (s : kst) (id size : Z) (f : Z -> Z) : Prop :=
  array_at s.(mem).(words) bufsize s.(nbpools) f /\
  (∀ i j, 0 <= i <= j -> j < s.(nbpools) -> f i <= f j) /\
  0 < size /\ 0 <= id < s.(nbpools) /\ size <= f id /\ ∀ j, 0 <= j < id -> f j < size.

Lemma class_run s id size f : class_of s id size f -> findClosestIndex bufsize size s = Done id s.
Proof.
  intros (Hf & Hmono & Hsz & Hid & Hfit & Hmin).
  assert (f id <= f (s.(nbpools) - 1)) by (apply Hmono; lia).
  destruct (findClosestIndex_run bufsize (nbpools s) size f s Hf) as (i & Hrun & Hi & Hfi & Hmi); try done; [lia..|].
  replace i with id in Hrun; [done|]. destruct (Z.lt_trichotomy i id) as [H1|[H1|H1]]; [|done|].
  - specialize (Hmin i ltac:(lia)). lia.
  - specialize (Hmi id ltac:(lia)). lia.
Qed.

(** The words of the buffer and of the statistics are distinct, and distinct from
    the other words in use. *)
Definition outside (id b psz x : Z) : Prop :=
  x ≠ elem allocBy id /\ x ≠ elem allocBf id /\ x ≠ elem fragmBy id /\ x ≠ b /\ x ≠ b + psz.

Definition apart (id b psz np : Z) (l : list Z) : Prop :=
  NoDup [elem allocBy id; elem allocBf id; elem fragmBy id; b; b + psz] /\
  (∀ x, x ∈ l -> outside id b psz x) /\ (∀ i, 0 <= i < np -> outside id b psz (elem bufsize i)).

Lemma xmalloc_run s id size f b l bp by_ bf :
  class_of s id size f -> pool_ok s id (b :: l) -> s.(buftab) !! id = Some bp ->
  apart id b bp.(bpsize) s.(nbpools) l -> 4 <= bp.(bpsize) -> b + bp.(bpsize) < 4294967292 ->
  stats s.(mem).(words) allocBy allocBf fragmBy id by_ bf -> is_s32 size -> is_s32 (by_ + size) -> is_s32 (bf + 1) ->
  ∃ s', xmalloc bufsize allocBy allocBf fragmBy size s = Done (b + 4) s' /\
    pool_ok s' id l /\ pool_step id s s' /\ class_of s' id size f /\
    s'.(mem).(words) !! b = Some id /\ s'.(mem).(words) !! (b + bp.(bpsize)) = Some (u32 size) /\
    stats s'.(mem).(words) allocBy allocBf fragmBy id (by_ + size) (bf + 1) /\
    s'.(mem).(words) !! elem fragmBy id = Some (u32 (s32 (f id * (bf + 1) - (by_ + size)))).
Proof.
  intros Hcl Hok Hbp (Hap & Hal & Hbs) Hpsz Hmax Hst Rsz Rby Rbf.
  pose proof (class_run s id size f Hcl) as Hfind. destruct Hcl as (Hf & Hmono & Hsz & Hid & Hfit & Hmin).
  assert (Htop : f id <= f (s.(nbpools) - 1)) by (apply Hmono; lia).
  unfold xmalloc. rewrite (proj2 (Z.leb_gt size 0)) by lia.
  rewrite (bind_done _ _ s false s).
  2:{ rewrite bind_gets. cbv beta.
      rewrite (bind_done _ _ _ _ _ (array_run s bufsize _ f (s.(nbpools) - 1) Hf ltac:(lia))).
      unfold mret, K_ret. f_equal. rewrite Z.gtb_ltb. apply Z.ltb_ge. lia. }
  cbv beta iota. rewrite (bind_done _ _ _ _ _ Hfind). cbv beta.
  rewrite (proj2 (Z.eqb_neq id SYSERR)) by (unfold SYSERR; lia).
  rewrite (bind_done _ _ s bp s) by (unfold getpool; by rewrite Hbp). cbv beta.
  assert (Hb : bpnext bp = b /\ 0 < b).
  { destruct Hok as (_ & _ & bp0 & se & E & _ & _ & _ & _ & _ & (E1 & _) & _ & Hr). rewrite Hbp in E.
    injection E as <-. apply Forall_cons in Hr as [Hr _]. split; [done|lia]. }
  destruct Hb as [Hb Hb0]. rewrite Hb, (proj2 (Z.eqb_neq b NULL)) by (unfold NULL; lia).
  destruct (getbuf_run _ _ _ _ Hok) as (s1 & Hg & Hok1 & [Hnp1 Hstep] & Hw1).
  destruct (Hstep bp Hbp) as (bp1 & Hbp1 & Hsz1).
  rewrite (bind_done _ _ _ _ _ Hg). cbv beta.
  rewrite (proj2 (Z.eqb_neq (b + 4) PSYSERR)) by (unfold PSYSERR, u32, SYSERR; Z.div_mod_to_equations; lia).
  rewrite (bind_done _ _ s1 bp1 s1) by (unfold getpool; by rewrite Hbp1). cbv beta.
  rewrite Hsz1. replace (b + 4 + bpsize bp - 4) with (b + bpsize bp) by lia.
  rewrite u32_id by (unfold is_u32; lia).
  rewrite (bind_done _ _ _ _ _ (storei_run _ _ _)). cbv beta. set (s2 := set_mem _ s1).
  apply NoDup_5 in Hap as ((A1 & A2 & A3 & A4) & (A5 & A6 & A7) & (A8 & A9) & A10).
  assert (Hw2 : ∀ x, x ≠ b -> x ≠ b + bpsize bp -> s2.(mem).(words) !! x = s.(mem).(words) !! x).
  { intros x H1 H2. simpl. rewrite lookup_insert_ne by done. rewrite Hw1. by rewrite lookup_insert_ne. }
  destruct (Hbs id Hid) as (B1 & B2 & B3 & B4 & B5). destruct Hst as (Hby & Hbf & Rb & Rf).
  assert (Hst2 : stats s2.(mem).(words) allocBy allocBf fragmBy id by_ bf).
  { split; [rewrite Hw2 by ne; exact Hby|]. split; [rewrite Hw2 by ne; exact Hbf|]. by split. }
  assert (Hsz2 : s2.(mem).(words) !! elem bufsize id = Some (u32 (f id))) by (rewrite Hw2 by ne; apply (Hf id Hid)).
  rewrite (bind_done _ _ s2 tt _ (account_run bufsize allocBy allocBf fragmBy id size 1 s2 by_ bf (f id)
    Hst2 Hsz2 (proj2 (Hf id Hid)) Rby Rbf A1 (not_eq_sym B1) (not_eq_sym B2))).
  cbv beta. set (m := stw (elem fragmBy id) _ _).
  assert (Hm : ∀ x, x ≠ elem allocBy id -> x ≠ elem allocBf id -> x ≠ elem fragmBy id ->
    m.(words) !! x = s2.(mem).(words) !! x).
  { intros x H1 H2 H3. unfold m. simpl. by rewrite !lookup_insert_ne by ne. }
  assert (Hm2 : ∀ x, outside id b bp.(bpsize) x -> m.(words) !! x = s.(mem).(words) !! x).
  { intros x (H1 & H2 & H3 & H4 & H5). rewrite Hm by done. by apply Hw2. }
  assert (Hwords : words (mem (set_mem m s2)) = words m) by done.
  eexists. split; [reflexivity|]. rewrite Hwords. split.
  { apply pool_ok_mem; [apply pool_ok_mem; [exact Hok1|]|].
    - intros x Hx. destruct (Hal x Hx) as (H1 & H2 & H3 & H4 & H5). simpl. by rewrite lookup_insert_ne by ne.
    - intros x Hx. destruct (Hal x Hx) as (H1 & H2 & H3 & H4 & H5). by apply Hm. }
  split; [split; [exact Hnp1|]; intros bp0 Hbp0; exists bp1; split; [exact Hbp1|congruence]|].
  split.
  { unfold class_of. change (nbpools (set_mem m s2)) with (nbpools s1). rewrite Hnp1, Hwords. split; [|exact (conj Hmono (conj Hsz (conj Hid (conj Hfit Hmin))))].
    intros i Hi. rewrite Hm2 by (by apply Hbs). by apply Hf. }
  split. { rewrite Hm by ne. simpl. rewrite lookup_insert_ne by ne. rewrite Hw1. apply lookup_insert_eq. }
  split. { rewrite Hm by ne. simpl. apply lookup_insert_eq. }
  split; [split; [|split; [|done]]|].
  - unfold m. simpl. rewrite !lookup_insert_ne by ne. apply lookup_insert_eq.
  - unfold m. simpl. rewrite lookup_insert_ne by ne. apply lookup_insert_eq.
  - unfold m. simpl. apply lookup_insert_eq.
Qed.

Lemma xfree_run s id size f b l bp by_ bf :
  class_of s id size f -> pool_ok s id l -> s.(buftab) !! id = Some bp ->
  apart id b bp.(bpsize) s.(nbpools) l -> b ∉ l -> 4 <= bp.(bpsize) -> 0 < b -> b + bp.(bpsize) < 4294967292 ->
  Z.of_nat (length l) < 2147483646 ->
  s.(mem).(words) !! b = Some id -> s.(mem).(words) !! (b + bp.(bpsize)) = Some (u32 size) -> is_s32 size ->
  stats s.(mem).(words) allocBy allocBf fragmBy id by_ bf -> is_s32 (by_ - size) -> is_s32 (bf - 1) ->
  ∃ s', xfree bufsize allocBy allocBf fragmBy (b + 4) s = Done tt s' /\
    pool_ok s' id (b :: l) /\
    stats s'.(mem).(words) allocBy allocBf fragmBy id (by_ - size) (bf - 1) /\
    s'.(mem).(words) !! elem fragmBy id = Some (u32 (s32 (f id * (bf - 1) - (by_ - size)))).
Proof.
  intros (Hf & _ & _ & Hid & _) Hok Hbp (Hap & Hal & Hbs) Hbl Hpsz Hb Hmax Hlen Hwb Hwp Rsz (Hby & Hbf & Rb & Rf) Rby Rbf.
  assert (Hidr : id < NBPOOLS) by (destruct Hok as (? & ? & _); lia).
  unfold xfree. rewrite (proj2 (Z.eqb_neq (b + 4) NULL)) by (unfold NULL; lia).
  replace (b + 4 - 4) with b by lia. rewrite (u32_id b) by (unfold is_u32; lia).
  assert (Hidw : s.(mem).(words) !! b = Some (u32 id)) by (rewrite Hwb, u32_id by (unfold is_u32, NBPOOLS in *; lia); done).
  rewrite (bind_done _ _ _ _ _ (loadi_run s b id Hidw ltac:(unfold is_s32, NBPOOLS in *; lia))). cbv beta.
  rewrite bind_gets. cbv beta. rewrite pool_guard by done.
  rewrite (bind_done _ _ s bp s) by (unfold getpool; by rewrite Hbp). cbv beta.
  replace (b + 4 + bpsize bp - 4) with (b + bpsize bp) by lia. rewrite u32_id by (unfold is_u32; lia).
  rewrite (bind_done _ _ _ _ _ (loadi_run s _ _ Hwp Rsz)). cbv beta.
  destruct (freebuf_run s id b l Hok Hwb Hbl ltac:(lia) Hlen) as (s1 & Hfree & Hok1 & Hw1).
  rewrite (bind_done _ _ _ _ _ Hfree). cbv beta. change (OK =? SYSERR) with false. cbv iota.
  apply NoDup_5 in Hap as ((A1 & A2 & A3 & A4) & (A5 & A6 & A7) & (A8 & A9) & A10).
  destruct (Hbs id Hid) as (B1 & B2 & B3 & B4 & B5).
  assert (Hst1 : stats s1.(mem).(words) allocBy allocBf fragmBy id by_ bf).
  { split; [rewrite Hw1 by ne; exact Hby|]. split; [rewrite Hw1 by ne; exact Hbf|]. by split. }
  assert (Hsz1 : s1.(mem).(words) !! elem bufsize id = Some (u32 (f id))) by (rewrite Hw1 by ne; apply (Hf id Hid)).
  rewrite (account_run bufsize allocBy allocBf fragmBy id (- size) (-1) s1 by_ bf (f id)
    Hst1 Hsz1 (proj2 (Hf id Hid)) Rby Rbf A1 (not_eq_sym B1) (not_eq_sym B2)).
  set (m := stw (elem fragmBy id) _ _). assert (Hwords : words (mem (set_mem m s1)) = words m) by done.
  eexists. split; [reflexivity|]. rewrite Hwords. split; [|split; [split; [|split; [|done]]|]].
  - apply pool_ok_mem; [exact Hok1|]. intros x Hx.
    assert (Hx' : x ≠ elem allocBy id /\ x ≠ elem allocBf id /\ x ≠ elem fragmBy id).
    { apply elem_of_cons in Hx as [->|Hx]; [split; [ne|split; ne]|].
      destruct (Hal x Hx) as (H1 & H2 & H3 & H4 & H5). done. }
    destruct Hx' as (H1 & H2 & H3). unfold m. simpl. by rewrite !lookup_insert_ne by ne.
  - unfold m. simpl. rewrite !lookup_insert_ne by ne. apply lookup_insert_eq.
  - unfold m. simpl. rewrite lookup_insert_ne by ne. apply lookup_insert_eq.
  - unfold m. simpl. apply lookup_insert_eq.
Qed.

(** C26: xmalloc gives a request the first free buffer of the smallest pool that
    fits, records in the buffer how many bytes were asked for, and adds them to
    the statistics of the pool; xfree, given the address back, returns the buffer
    to its pool and takes exactly these bytes off again. *)
Theorem xmalloc_xfree_roundtrip s id size f b l bp by_ bf :
  class_of s id size f -> pool_ok s id (b :: l) -> s.(buftab) !! id = Some bp ->
  apart id b bp.(bpsize) s.(nbpools) l -> 4 <= bp.(bpsize) -> b + bp.(bpsize) < 4294967292 ->
  stats s.(mem).(words) allocBy allocBf fragmBy id by_ bf -> is_s32 size -> is_s32 (by_ + size) -> is_s32 (bf + 1) ->
  ∃ s1, xmalloc bufsize allocBy allocBf fragmBy size s = Done (b + 4) s1 /\
    pool_ok s1 id l /\ s1.(mem).(words) !! (b + bp.(bpsize)) = Some (u32 size) /\
    stats s1.(mem).(words) allocBy allocBf fragmBy id (by_ + size) (bf + 1) /\
    s1.(mem).(words) !! elem fragmBy id = Some (u32 (s32 (f id * (bf + 1) - (by_ + size)))) /\
    ∃ s2, xfree bufsize allocBy allocBf fragmBy (b + 4) s1 = Done tt s2 /\
      pool_ok s2 id (b :: l) /\ stats s2.(mem).(words) allocBy allocBf fragmBy id by_ bf /\
      s2.(mem).(words) !! elem fragmBy id = Some (u32 (s32 (f id * bf - by_))).
Proof.
  intros Hcl Hok Hbp Hap Hpsz Hmax Hst Rsz Rby Rbf.
  destruct (xmalloc_run s id size f b l bp by_ bf) as (s1 & Hrun & Hok1 & [Hnp Hstep] & Hcl1 & Hwb & Hwp & Hst1 & Hfr); try done.
  exists s1. do 5 (split; [done|]). destruct (Hstep bp Hbp) as (bp1 & Hbp1 & Hsz1).
  assert (Hb : (b ∉ l) /\ 0 < b /\ Z.of_nat (length l) < 2147483646).
  { destruct Hok as (_ & _ & bp0 & se & _ & _ & _ & _ & _ & Hlen & _ & Hnd & Hr).
    apply NoDup_cons in Hnd as [Hn _]. apply Forall_cons in Hr as [Hr _]. simpl in Hlen. split; [done|]. lia. }
  destruct Hb as (Hn & Hb & Hlen). destruct Hst as (_ & _ & Rb & Rf). rewrite <- Hsz1 in *. rewrite <- Hnp in Hap.
  destruct (xfree_run s1 id size f b l bp1 (by_ + size) (bf + 1)) as (s2 & Hrun2 & Hok2 & Hst2 & Hfr2); try done.
  { by replace (by_ + size - size) with by_ by lia. }
  { by replace (bf + 1 - 1) with bf by lia. }
  replace (by_ + size - size) with by_ in * by lia. replace (bf + 1 - 1) with bf in * by lia. by exists s2.
Qed.
End Roundtrip.

(** * On the concrete machine *)

(** The pool of Bufpool.v with the arrays at 1100, 1300, 1400 and 1500. *)
Definition demo_xpool : kst :=
  set_mem (stw 1400 0 (stw 1300 0 (stw 1100 8 demo_pool.(mem)))) demo_pool.

Lemma demo_xpool_words a : a ≠ 1100 -> a ≠ 1300 -> a ≠ 1400 ->
  demo_xpool.(mem).(words) !! a = demo_pool.(mem).(words) !! a.
Proof.
  intros H1 H2 H3. unfold demo_xpool. cbn [mem set_mem words stw set_words].
  rewrite !lookup_insert_ne by ne. reflexivity.
Qed.

Lemma demo_xpool_ok : pool_ok demo_xpool 0 [4096; 4112; 4128].
Proof.
  apply (pool_ok_mem demo_pool 0 [4096; 4112; 4128] demo_xpool.(mem) demo_pool_ok).
  intros x Hx. apply demo_xpool_words; intros ->; set_solver.
Qed.

Lemma findClosestIndex_is_smallest_fit_witness :
  ∃ i, findClosestIndex 1100 5 demo_xpool = Done i demo_xpool /\ 0 <= i < 1 /\ 5 <= 8 /\
    ∀ j, 0 <= j < i -> 8 < 5.
Proof.
  apply (findClosestIndex_is_smallest_fit 1100 1 5 (λ _, 8) demo_xpool); [|by_run|lia|lia|intros; lia].
  intros i Hi. replace i with 0 by lia. split; [by_run|unfold is_s32; lia].
Defined.

Lemma xmalloc_xfree_roundtrip_witness :
  ∃ s1, xmalloc 1100 1300 1400 1500 5 demo_xpool = Done (4096 + 4) s1 /\
    pool_ok s1 0 [4112; 4128] /\ s1.(mem).(words) !! (4096 + 12) = Some (u32 5) /\
    stats s1.(mem).(words) 1300 1400 1500 0 (0 + 5) (0 + 1) /\
    s1.(mem).(words) !! elem 1500 0 = Some (u32 (s32 (8 * (0 + 1) - (0 + 5)))) /\
    ∃ s2, xfree 1100 1300 1400 1500 (4096 + 4) s1 = Done tt s2 /\
      pool_ok s2 0 [4096; 4112; 4128] /\ stats s2.(mem).(words) 1300 1400 1500 0 0 0 /\
      s2.(mem).(words) !! elem 1500 0 = Some (u32 (s32 (8 * 0 - 0))).
Proof.
  assert (Hbp : demo_xpool.(buftab) !! 0 = Some (Bpentry 4096 0 12)) by by_run.
  assert (Hnp : demo_xpool.(nbpools) = 1) by by_run.
  apply (xmalloc_xfree_roundtrip 1100 1300 1400 1500 demo_xpool 0 5 (λ _, 8) 4096 [4112; 4128] (Bpentry 4096 0 12) 0 0);
    try exact demo_xpool_ok; try exact Hbp; simpl bpsize.
  - unfold class_of. rewrite Hnp. split; [|repeat split; intros; lia].
    intros i Hi. replace i with 0 by lia. split; [by_run|unfold is_s32; lia].
  - unfold apart. rewrite Hnp. split; [apply (bool_decide_eq_true_1 _); vm_compute; reflexivity|split].
    + intros x Hx. unfold outside.
      change (elem 1300 0) with 1300; change (elem 1400 0) with 1400; change (elem 1500 0) with 1500; simpl bpsize.
      apply elem_of_cons in Hx as [->|Hx]; [lia|].
      apply list_elem_of_singleton in Hx as ->. lia.
    + intros i Hi. replace i with 0 by lia. unfold outside.
      change (elem 1100 0) with 1100; change (elem 1300 0) with 1300; change (elem 1400 0) with 1400;
      change (elem 1500 0) with 1500; simpl bpsize. lia.
  - lia.
  - lia.
  - split; [by_run|split; [by_run|unfold is_s32; lia]].
  - unfold is_s32; lia.
  - unfold is_s32; lia.
  - unfold is_s32; lia.
Defined.
