(* ===== verification/Qsort.v ===== *)
(** The sort routine of lib/qsort.c: a quicksort of an array of [es]-byte
    records that partitions into less, equal and greater records, recurses into
    the smaller part and goes round its loop again for the larger one.

    Pointers are addresses of the byte memory of Cstring.v.  [qs1] takes the
    number of stack frames that are left and has the value [None] when they run
    out; the loops have a fuel that is computed from the length of the array. *)

From S2P Require Import Prelude Types Cstring.

(** * The functions *)

Section Qsort.
(** The comparison function and the size of a record: the static variables
    [qscmp] and [qses]. *)
Context (qscmp : bmem -> Z -> Z -> option Z) (qses : Z).

Fixpoint qsexc_loop (n : nat) (ri rj : Z) (m : bmem) : option bmem :=
  match n with
  | O => Some m
  | S n =>
      c ← ldb m ri;
      x ← ldb m rj;
      m ← stb ri x m;
      m ← stb rj c m;
      qsexc_loop n (ri + 1) (rj + 1) m
  end.

(** lib/qsort.c: qsexc.  [while (--n)] counts down to INT_MIN and overflows when
    the size is not positive. *)
Definition qsexc (i j : Z) (m : bmem) : option bmem :=
  if qses <=? 0 then None else qsexc_loop (Z.to_nat qses) i j m.

Fixpoint qstexc_loop (n : nat) (ri rj rk : Z) (m : bmem) : option bmem :=
  match n with
  | O => Some m
  | S n =>
      c ← ldb m ri;
      x ← ldb m rk;
      m ← stb ri x m;
      y ← ldb m rj;
      m ← stb rk y m;
      m ← stb rj c m;
      qstexc_loop n (ri + 1) (rj + 1) (rk + 1) m
  end.

(** lib/qsort.c: qstexc *)
Definition qstexc (i j k : Z) (m : bmem) : option bmem :=
  if qses <=? 0 then None else qstexc_loop (Z.to_nat qses) i j k m.

(** Where the loop of qs1 stands: at [for (;;)] or at the label [loop]. *)
Inductive label := Top | Loop.

(** The loop of qs1 up to the test [if (i == lp)]: the new [lp] and [hp]. *)
Fixpoint partition (fuel : nat) (pc : label) (i lp hp j : Z) (m : bmem) : option (Z * Z * bmem) :=
  match fuel with
  | O => None
  | S fuel =>
      match pc with
      | Top =>
          if i <? lp then
            c ← qscmp m i lp;
            if c =? 0 then
              m ← qsexc i (lp - qses) m;
              partition fuel Top i (lp - qses) hp j m
            else if c <? 0 then partition fuel Top (i + qses) lp hp j m
            else partition fuel Loop i lp hp j m
          else partition fuel Loop i lp hp j m
      | Loop =>
          if j >? hp then
            c ← qscmp m hp j;
            if c =? 0 then
              m ← qsexc (hp + qses) j m;
              partition fuel Loop i lp (hp + qses) j m
            else if c >? 0 then
              if i =? lp then
                m ← qstexc i (hp + qses) j m;
                partition fuel Loop (lp + qses) (lp + qses) (hp + qses) j m
              else
                m ← qsexc i j m;
                partition fuel Top (i + qses) lp hp (j - qses) m
            else partition fuel Loop i lp hp (j - qses) m
          else if i =? lp then Some (lp, hp, m)
          else
            m ← qstexc j (lp - qses) i m;
            partition fuel Top i (lp - qses) (hp - qses) (hp - qses) m
      end
  end.

(** qs1 from the label [start] on; [rec] is the recursive call. *)
Fixpoint qs1_start (rec : Z -> Z -> bmem -> option bmem) (fuel : nat) (a l : Z) (m : bmem)
    : option bmem :=
  match fuel with
  | O => None
  | S fuel =>
      let n := u32 (l - a) in
      if n <=? u32 qses then Some m
      else
        let n := u32 (qses * (n / u32 (2 * qses))) in
        '(lp, hp, m) ← partition (S (Z.to_nat (2 * (l - a)))) Top a (a + n) (a + n) (l - qses) m;
        if lp - a >=? l - hp then
          m ← rec (hp + qses) l m;
          qs1_start rec fuel a lp m
        else
          m ← rec a lp m;
          qs1_start rec fuel (hp + qses) l m
  end.

(** lib/qsort.c: qs1 *)
Fixpoint qs1 (depth : nat) (a l : Z) (m : bmem) : option bmem :=
  match depth with
  | O => None
  | S depth => qs1_start (qs1 depth) (S (Z.to_nat (l - a))) a l m
  end.
End Qsort.

(** lib/qsort.c: qsort *)
Definition qsort (depth : nat) (a n es : Z) (fc : bmem -> Z -> Z -> option Z) (m : bmem) : option bmem :=
  qs1 fc es depth a (a + u32 (n * u32 es)) m.

(** * The exchanges, byte by byte *)

(** The bytes of [p, p + n). *)
Definition inb (p n x : Z) : bool := (p <=? x) && (x <? p + n).

Ltac bytes :=
  unfold inb in *;
  repeat match goal with
  | |- context [?a <=? ?b] => destruct (Z.leb_spec a b)
  | |- context [?a <? ?b] => destruct (Z.ltb_spec a b)
  end; simpl in *; try lia.

Ltac eqbs := repeat match goal with |- context [?a =? ?b] => destruct (Z.eqb_spec a b) end.

Lemma stb_Some a v (m : bmem) : is_Some (m !! a) -> stb a v m = Some (<[a := v]> m).
Proof. intros [x Hx]. unfold stb. by rewrite Hx. Qed.

Lemma is_Some_insert (m : bmem) a v x : is_Some (m !! x) -> is_Some (<[a := v]> m !! x).
Proof. intros Hx. destruct (decide (a = x)) as [->|Hne]; [rewrite lookup_insert_eq; eauto|by rewrite lookup_insert_ne]. Qed.

Lemma mapped_insert m p n a v : mapped m p n -> mapped (<[a := v]> m) p n.
Proof. intros H x Hx. by apply is_Some_insert, H. Qed.

Lemma mapped_tail m p n : mapped m p (Z.of_nat (S n)) -> mapped m (p + 1) (Z.of_nat n).
Proof. intros H x Hx. apply H. lia. Qed.

Lemma qsexc_loop_run n : ∀ i j m,
  (i = j \/ i + Z.of_nat n <= j \/ j + Z.of_nat n <= i) ->
  mapped m i (Z.of_nat n) -> mapped m j (Z.of_nat n) ->
  ∃ m', qsexc_loop n i j m = Some m' /\
    ∀ x, m' !! x = if inb i (Z.of_nat n) x then m !! (j + (x - i))
                   else if inb j (Z.of_nat n) x then m !! (i + (x - j)) else m !! x.
Proof.
  induction n as [|n IH]; intros i j m Hd Hi Hj.
  - exists m. split; [done|]. intros x. bytes; done.
  - simpl qsexc_loop. unfold ldb.
    destruct (Hi i ltac:(lia)) as [c Hc]. destruct (Hj j ltac:(lia)) as [d Hd'].
    rewrite Hc, Hd'. simpl. rewrite (stb_Some i d m) by eauto. simpl.
    rewrite stb_Some by (apply is_Some_insert; eauto). simpl.
    edestruct (IH (i + 1) (j + 1) (<[j := c]> (<[i := d]> m))) as (m' & -> & Hm').
    { lia. }
    { by apply mapped_insert, mapped_insert, mapped_tail. }
    { by apply mapped_insert, mapped_insert, mapped_tail. }
    exists m'. split; [done|]. intros x. rewrite Hm'.
    destruct (decide (x = j)) as [->|Hxj]; [|destruct (decide (x = i)) as [->|Hxi]].
    + destruct (decide (i = j)) as [->|Hij].
      * replace (j + (j - j)) with j by lia. bytes; rewrite lookup_insert_eq; congruence.
      * replace (i + (j - j)) with i by lia.
        bytes; rewrite lookup_insert_eq; congruence.
    + replace (j + (i - i)) with j by lia.
      bytes; rewrite lookup_insert_ne by done; rewrite lookup_insert_eq; congruence.
    + replace (j + 1 + (x - (i + 1))) with (j + (x - i)) by lia.
      replace (i + 1 + (x - (j + 1))) with (i + (x - j)) by lia.
      bytes; rewrite !lookup_insert_ne by lia; done.
Qed.

Lemma qstexc_loop_run n : ∀ i j k m,
  (i + Z.of_nat n <= j \/ j + Z.of_nat n <= i) -> (i + Z.of_nat n <= k \/ k + Z.of_nat n <= i) ->
  (j = k \/ j + Z.of_nat n <= k \/ k + Z.of_nat n <= j) ->
  mapped m i (Z.of_nat n) -> mapped m j (Z.of_nat n) -> mapped m k (Z.of_nat n) ->
  ∃ m', qstexc_loop n i j k m = Some m' /\
    ∀ x, m' !! x = if inb i (Z.of_nat n) x then m !! (k + (x - i))
                   else if inb j (Z.of_nat n) x then m !! (i + (x - j))
                   else if inb k (Z.of_nat n) x then m !! (j + (x - k)) else m !! x.
Proof.
  induction n as [|n IH]; intros i j k m Hij Hik Hjk Hi Hj Hk.
  - exists m. split; [done|]. intros x. bytes; done.
  - simpl qstexc_loop. unfold ldb.
    destruct (Hi i ltac:(lia)) as [c Hc]. destruct (Hk k ltac:(lia)) as [d Hd].
    destruct (Hj j ltac:(lia)) as [e He].
    rewrite Hc, Hd. simpl. rewrite (stb_Some i d m) by eauto. simpl.
    rewrite (lookup_insert_ne _ i j) by lia. rewrite He. simpl.
    rewrite stb_Some by (apply is_Some_insert; eauto). simpl.
    rewrite stb_Some by (do 2 apply is_Some_insert; eauto). simpl.
    edestruct (IH (i + 1) (j + 1) (k + 1) (<[j := c]> (<[k := e]> (<[i := d]> m)))) as (m' & -> & Hm');
      [lia|lia|lia|by do 3 apply mapped_insert; apply mapped_tail..|].
    exists m'. split; [done|]. intros x. rewrite Hm'.
    destruct (decide (x = i)) as [->|Hxi]; [|destruct (decide (x = j)) as [->|Hxj];
      [|destruct (decide (x = k)) as [->|Hxk]]].
    + replace (k + (i - i)) with k by lia.
      bytes; rewrite !lookup_insert_ne by lia; rewrite lookup_insert_eq; congruence.
    + replace (i + (j - j)) with i by lia. bytes; rewrite lookup_insert_eq; congruence.
    + replace (j + (k - k)) with j by lia.
      bytes; rewrite lookup_insert_ne by done; rewrite lookup_insert_eq; congruence.
    + replace (k + 1 + (x - (i + 1))) with (k + (x - i)) by lia.
      replace (i + 1 + (x - (j + 1))) with (i + (x - j)) by lia.
      replace (j + 1 + (x - (k + 1))) with (j + (x - k)) by lia.
      bytes; rewrite !lookup_insert_ne by lia; done.
Qed.

(** * Records *)

Section Records.
(** The array starts at [base] and has records of [es] bytes. *)
Context (base es : Z) (Hes : 0 < es).

Definition ptr (k : Z) : Z := base + es * k.

(** The record at the address [p], and record [k] of the array. *)
Definition record (m : bmem) (p : Z) : list (option Z) := map (λ o, m !! (p + o)) (seqZ 0 es).
Definition item (m : bmem) (k : Z) : list (option Z) := record m (ptr k).
Definition items (m : bmem) (A L : Z) : list (list (option Z)) := map (item m) (seqZ A (L - A)).

(** The records of [A, L) are rearranged, and nothing else is changed. *)
Definition rearr (A L : Z) (m m' : bmem) : Prop :=
  items m' A L ≡ₚ items m A L /\
  (∀ x, x < ptr A \/ ptr L <= x -> m' !! x = m !! x) /\
  (∀ x, is_Some (m' !! x) <-> is_Some (m !! x)).

Lemma item_ext m m' k k' :
  (∀ o, 0 <= o < es -> m' !! (ptr k + o) = m !! (ptr k' + o)) -> item m' k = item m k'.
Proof. intros H. apply map_ext_in. intros o Ho. apply H. apply list_elem_of_In, elem_of_seqZ in Ho. lia. Qed.

Lemma item_frame A L m m' k :
  (∀ x, x < ptr A \/ ptr L <= x -> m' !! x = m !! x) -> k < A \/ L <= k -> item m' k = item m k.
Proof. intros H Hk. apply item_ext. intros o Ho. apply H. unfold ptr. nia. Qed.

Lemma items_split m A B L : A <= B <= L -> items m A L = items m A B ++ items m B L.
Proof.
  intros H. unfold items. rewrite <- map_app. f_equal.
  replace (L - A) with ((B - A) + (L - B)) by lia. rewrite seqZ_app by lia. do 2 f_equal; lia.
Qed.

Lemma items_frame A L m m' B C :
  (∀ x, x < ptr A \/ ptr L <= x -> m' !! x = m !! x) -> C <= A \/ L <= B -> items m' B C = items m B C.
Proof.
  intros H Hd. apply map_ext_in. intros k Hk. apply list_elem_of_In, elem_of_seqZ in Hk.
  apply (item_frame A L); [done|lia].
Qed.

Lemma rearr_refl A L m : rearr A L m m.
Proof. by split. Qed.

Lemma rearr_trans A L m1 m2 m3 : rearr A L m1 m2 -> rearr A L m2 m3 -> rearr A L m1 m3.
Proof.
  intros (P1 & F1 & D1) (P2 & F2 & D2). split; [by rewrite P2|]. split.
  - intros x Hx. by rewrite F2, F1.
  - intros x. by rewrite D2, D1.
Qed.

Lemma rearr_widen A L A' L' m m' : A <= A' -> A' <= L' -> L' <= L -> rearr A' L' m m' -> rearr A L m m'.
Proof.
  intros H1 H2 H3 (P & F & D). split; [|split; [|done]].
  - rewrite !(items_split _ A A' L), !(items_split _ A' L' L) by lia.
    rewrite (items_frame A' L' m m' A A'), (items_frame A' L' m m' L' L) by (done || lia). by rewrite P.
  - intros x Hx. apply F. unfold ptr in *. nia.
Qed.

(** A property of all the records of [A, L) outlives a rearrangement. *)
Lemma rearr_all (P : list (option Z) -> Prop) A L m m' :
  rearr A L m m' -> (∀ k, A <= k < L -> P (item m k)) -> ∀ k, A <= k < L -> P (item m' k).
Proof.
  intros (Hp & _ & _) H k Hk.
  assert (Hin : item m' k ∈ items m' A L)
    by (apply list_elem_of_fmap; exists k; split; [done|apply elem_of_seqZ; lia]).
  rewrite Hp in Hin. apply list_elem_of_fmap in Hin as (k' & -> & Hk').
  apply H. apply elem_of_seqZ in Hk'. lia.
Qed.

(** Records that are permuted by [σ]. *)
Lemma rearr_perm (σ : Z -> Z) A L m m' :
  (∀ k, item m' k = item m (σ k)) ->
  (∀ k, A <= k < L -> A <= σ k < L) -> (∀ k k', σ k = σ k' -> k = k') ->
  (∀ x, x < ptr A \/ ptr L <= x -> m' !! x = m !! x) -> (∀ x, is_Some (m' !! x) <-> is_Some (m !! x)) ->
  rearr A L m m'.
Proof.
  intros Hi Hr Hinj HF HD. split; [|by split].
  unfold items. rewrite (map_ext _ (λ k, item m (σ k)) Hi).
  rewrite <- (map_map σ (item m)). apply (Permutation_map (item m)).
  apply NoDup_Permutation_bis.
  - apply NoDup_ListNoDup. apply (NoDup_fmap_2_strong σ); [intros k k' _ _; apply Hinj|apply NoDup_seqZ].
  - by rewrite length_map.
  - intros k Hk. apply list_elem_of_In, list_elem_of_fmap in Hk as (k' & -> & Hk').
    apply list_elem_of_In, elem_of_seqZ. apply elem_of_seqZ in Hk'. specialize (Hr k'). lia.
Qed.

(** The transposition of [I] and [J] and the cycle of [I], [J] and [K]. *)
Definition swap (I J k : Z) : Z := if k =? I then J else if k =? J then I else k.
Definition cycle (I J K k : Z) : Z :=
  if k =? I then K else if k =? J then I else if k =? K then J else k.

Lemma inb_ptr I k o : 0 <= o < es -> inb (ptr I) es (ptr k + o) = (k =? I).
Proof. intros Ho. unfold inb, ptr. destruct (Z.eqb_spec k I) as [->|Hne]; bytes; nia. Qed.

Lemma inb_out A L I x : A <= I < L -> x < ptr A \/ ptr L <= x -> inb (ptr I) es x = false.
Proof. intros HI Hx. unfold ptr in *. bytes; nia. Qed.

Lemma inb_lookup (m : bmem) p n x : mapped m p n -> inb p n x = true -> is_Some (m !! x).
Proof. unfold inb. intros H Hb. bool_hyps. by apply H. Qed.

Lemma mapped_in m A L I : mapped m (ptr A) (es * (L - A)) -> A <= I < L -> mapped m (ptr I) es.
Proof. intros H HI x Hx. apply H. unfold ptr in *. nia. Qed.

Lemma qsexc_rearr m A L I J :
  mapped m (ptr A) (es * (L - A)) -> A <= I < L -> A <= J < L ->
  ∃ m', qsexc es (ptr I) (ptr J) m = Some m' /\ rearr A L m m' /\ ∀ k, item m' k = item m (swap I J k).
Proof.
  intros Hm HI HJ. pose proof (mapped_in m A L I Hm HI) as MI. pose proof (mapped_in m A L J Hm HJ) as MJ.
  unfold qsexc. rewrite (proj2 (Z.leb_gt es 0)) by lia.
  edestruct (qsexc_loop_run (Z.to_nat es) (ptr I) (ptr J) m) as (m' & Hrun & Hm'); rewrite ?Z2Nat.id by lia; try done.
  { unfold ptr. assert (I = J \/ I < J \/ J < I) as [->|[H|H]] by lia; [by left|right; left; nia|right; right; nia]. }
  rewrite Z2Nat.id in Hm' by lia. exists m'. split; [done|].
  assert (Hit : ∀ k, item m' k = item m (swap I J k)).
  { intros k. apply item_ext. intros o Ho. rewrite Hm', !inb_ptr by done. unfold swap, ptr. eqbs; subst; f_equal; lia. }
  split; [|done]. apply (rearr_perm (swap I J)); [done| | | |].
  - intros k Hk. unfold swap. eqbs; lia.
  - intros k k'. unfold swap. eqbs; lia.
  - intros x Hx. rewrite Hm'. by rewrite !(inb_out A L) by done.
  - intros x. rewrite Hm'. destruct (inb (ptr I) es x) eqn:E1; [|destruct (inb (ptr J) es x) eqn:E2; [|done]].
    + split; intros _; [exact (inb_lookup _ _ _ _ MI E1)|]. apply MJ. unfold inb in E1. bool_hyps. lia.
    + split; intros _; [exact (inb_lookup _ _ _ _ MJ E2)|]. apply MI. unfold inb in E2. bool_hyps. lia.
Qed.

Lemma qstexc_rearr m A L I J K :
  mapped m (ptr A) (es * (L - A)) -> A <= I < L -> A <= J < L -> A <= K < L -> I ≠ J -> I ≠ K ->
  ∃ m', qstexc es (ptr I) (ptr J) (ptr K) m = Some m' /\ rearr A L m m' /\ ∀ k, item m' k = item m (cycle I J K k).
Proof.
  intros Hm HI HJ HK HIJ HIK. pose proof (mapped_in m A L I Hm HI) as MI.
  pose proof (mapped_in m A L J Hm HJ) as MJ. pose proof (mapped_in m A L K Hm HK) as MK.
  unfold qstexc. rewrite (proj2 (Z.leb_gt es 0)) by lia.
  assert (Hsep : ∀ X Y, X ≠ Y -> ptr X + es <= ptr Y \/ ptr Y + es <= ptr X).
  { intros X Y HXY. unfold ptr. assert (X < Y \/ Y < X) as [H|H] by lia; [left|right]; nia. }
  edestruct (qstexc_loop_run (Z.to_nat es) (ptr I) (ptr J) (ptr K) m) as (m' & Hrun & Hm');
    rewrite ?Z2Nat.id by lia; auto.
  { destruct (decide (J = K)) as [->|HJK]; [by left|right; auto]. }
  rewrite Z2Nat.id in Hm' by lia. exists m'. split; [done|].
  assert (Hit : ∀ k, item m' k = item m (cycle I J K k)).
  { intros k. apply item_ext. intros o Ho. rewrite Hm', !inb_ptr by done. unfold cycle, ptr. eqbs; subst; f_equal; lia. }
  split; [|done]. apply (rearr_perm (cycle I J K)); [done| | | |].
  - intros k Hk. unfold cycle. eqbs; lia.
  - intros k k'. unfold cycle. eqbs; lia.
  - intros x Hx. rewrite Hm'. by rewrite !(inb_out A L) by done.
  - intros x. rewrite Hm'. destruct (inb (ptr I) es x) eqn:E1; [|destruct (inb (ptr J) es x) eqn:E2;
      [|destruct (inb (ptr K) es x) eqn:E3; [|done]]].
    + split; intros _; [exact (inb_lookup _ _ _ _ MI E1)|]. apply MK. unfold inb in E1. bool_hyps. lia.
    + split; intros _; [exact (inb_lookup _ _ _ _ MJ E2)|]. apply MI. unfold inb in E2. bool_hyps. lia.
    + split; intros _; [exact (inb_lookup _ _ _ _ MK E3)|]. apply MJ. unfold inb in E3. bool_hyps. lia.
Qed.
End Records.

(** * The partition *)

(** What the C code relies on: the comparison function reads two records and
    orders them by a total preorder [cmp]. *)
Record comparison (es : Z) (qscmp : bmem -> Z -> Z -> option Z)
    (cmp : list (option Z) -> list (option Z) -> Z) : Prop := {
  cmp_run m p q : mapped m p es -> mapped m q es -> qscmp m p q = Some (cmp (record es m p) (record es m q));
  cmp_anti x y : cmp x y < 0 <-> 0 < cmp y x;
  cmp_trans x y z : cmp x y <= 0 -> cmp y z <= 0 -> cmp x z <= 0 }.

Section Sorting.
Context (base es : Z) (Hes : 0 < es).
Context (qscmp : bmem -> Z -> Z -> option Z) (cmp : list (option Z) -> list (option Z) -> Z).
Context (Hcmp : comparison es qscmp cmp).
#[local] Abbreviation ptr := (ptr base es).
#[local] Abbreviation item := (item base es).
#[local] Abbreviation rearr := (rearr base es).

Lemma cmp_eq_l x y p : cmp y p = 0 -> (cmp x y < 0 <-> cmp x p < 0) /\ (0 < cmp x y <-> 0 < cmp x p).
Proof.
  intros Hy. destruct Hcmp as [_ Ha Ht].
  pose proof (Ha y p). pose proof (Ha p y). pose proof (Ha x y). pose proof (Ha y x). pose proof (Ha x p).
  pose proof (Ha p x). pose proof (Ht x y p). pose proof (Ht x p y). pose proof (Ht p x y). pose proof (Ht y x p).
  pose proof (Ht y p x). pose proof (Ht p y x). lia.
Qed.

Lemma ptr_succ k : ptr k + es = ptr (k + 1).
Proof. unfold Qsort.ptr. lia. Qed.
Lemma ptr_pred k : ptr k - es = ptr (k - 1).
Proof. unfold Qsort.ptr. lia. Qed.
Lemma ptr_ltb k k' : (ptr k <? ptr k') = (k <? k').
Proof. unfold Qsort.ptr. destruct (Z.ltb_spec k k'); [apply Z.ltb_lt|apply Z.ltb_ge]; nia. Qed.
Lemma ptr_eqb k k' : (ptr k =? ptr k') = (k =? k').
Proof. unfold Qsort.ptr. destruct (Z.eqb_spec k k'); [apply Z.eqb_eq|apply Z.eqb_neq]; nia. Qed.
Lemma ptr_gtb k k' : (ptr k >? ptr k') = (k >? k').
Proof. rewrite !Z.gtb_ltb. apply ptr_ltb. Qed.

(** The records before [I] are less than [p], those of [LP, HP] equal, those
    after [J] greater. *)
Record split_at (A L : Z) (p : list (option Z)) (m : bmem) (I LP HP J : Z) : Prop := {
  sp_order : A <= I <= LP /\ LP <= HP <= J /\ J < L;
  sp_less k : A <= k < I -> cmp (item m k) p < 0;
  sp_equal k : LP <= k <= HP -> cmp (item m k) p = 0;
  sp_greater k : J < k < L -> 0 < cmp (item m k) p }.

Definition measure (pc : label) (I LP HP J : Z) : Z :=
  2 * ((LP - I) + (J - HP)) + match pc with Top => 1 | Loop => 0 end.

Lemma rearr_mapped A L m m' p n : rearr A L m m' -> mapped m p n -> mapped m' p n.
Proof. intros (_ & _ & HD) H x Hx. by apply HD, H. Qed.

(** The comparison of two records of the array. *)
Lemma qscmp_run m A L I J : mapped m (ptr A) (es * (L - A)) -> A <= I < L -> A <= J < L ->
  qscmp m (ptr I) (ptr J) = Some (cmp (item m I) (item m J)).
Proof. intros Hm HI HJ. apply (cmp_run _ _ _ Hcmp); by apply (mapped_in base es Hes m A L). Qed.

Ltac sorted_by m Hit Hs :=
  let k := fresh "k" in let Hk := fresh "Hk" in
  destruct Hs as [? Sl Se Sg];
  constructor; [lia|intros k Hk; rewrite ?Hit; unfold swap, cycle; eqbs; subst;
    first [lia | apply Sl; lia | apply Se; lia | apply Sg; lia
    | match goal with H : context [item m ?b] |- context [item m ?a] => replace a with b by lia; lia end]..].

Lemma partition_run p A L fuel : ∀ pc m I LP HP J,
  mapped m (ptr A) (es * (L - A)) -> split_at A L p m I LP HP J ->
  (pc = Loop -> I < LP -> 0 < cmp (item m I) p) -> measure pc I LP HP J < Z.of_nat fuel ->
  ∃ LP' HP' m', partition qscmp es fuel pc (ptr I) (ptr LP) (ptr HP) (ptr J) m = Some (ptr LP', ptr HP', m') /\
    rearr A L m m' /\ split_at A L p m' LP' LP' HP' HP'.
Proof.
  induction fuel as [|fuel IH]; intros pc m I LP HP J Hm Hs Hpc Hf.
  { destruct Hs as [? _ _ _]. unfold measure in Hf. destruct pc; lia. }
  assert (Hord := sp_order _ _ _ _ _ _ _ _ Hs).
  destruct pc; cbn [partition]; unfold measure in Hf.
  - rewrite ptr_ltb. destruct (Z.ltb_spec I LP) as [HI|HI]; [|apply IH; [done|done|lia|unfold measure; lia]].
    rewrite (qscmp_run m A L I LP Hm) by lia. simpl.
    destruct (cmp_eq_l (item m I) (item m LP) p (sp_equal _ _ _ _ _ _ _ _ Hs LP ltac:(lia))) as [C1 C2].
    destruct (Z.eqb_spec (cmp (item m I) (item m LP)) 0) as [E|E]; [|destruct (Z.ltb_spec (cmp (item m I) (item m LP)) 0)].
    + rewrite ptr_pred. destruct (qsexc_rearr base es Hes m A L I (LP - 1) Hm) as (m1 & -> & Hr & Hit); [lia|lia|].
      simpl. destruct (IH Top m1 I (LP - 1) HP J) as (LP' & HP' & m' & Hrun & Hr' & Hs');
        [by eapply rearr_mapped| |done|unfold measure; lia|].
      { sorted_by m Hit Hs. }
      exists LP', HP', m'. split; [done|]. split; [by eapply rearr_trans|done].
    + rewrite ptr_succ. apply IH; [done| |done|unfold measure; lia].
      destruct Hs as [? Sl Se Sg]. constructor; [lia| |done|done].
      intros k Hk. destruct (decide (k = I)) as [->|]; [lia|apply Sl; lia].
    + apply IH; [done|done|intros; lia|unfold measure; lia].
  - rewrite ptr_gtb, ptr_eqb, Z.gtb_ltb. destruct (Z.ltb_spec HP J) as [HJ|HJ].
    + rewrite (qscmp_run m A L HP J Hm) by lia. simpl.
      destruct (cmp_eq_l (item m J) (item m HP) p (sp_equal _ _ _ _ _ _ _ _ Hs HP ltac:(lia))) as [C1 C2].
      pose proof (cmp_anti _ _ _ Hcmp (item m J) (item m HP)). pose proof (cmp_anti _ _ _ Hcmp (item m HP) (item m J)).
      destruct (Z.eqb_spec (cmp (item m HP) (item m J)) 0) as [E|E]; [|rewrite Z.gtb_ltb;
        destruct (Z.ltb_spec 0 (cmp (item m HP) (item m J))); [destruct (Z.eqb_spec I LP)|]].
      * rewrite ptr_succ. destruct (qsexc_rearr base es Hes m A L (HP + 1) J Hm) as (m1 & -> & Hr & Hit); [lia|lia|].
        simpl. destruct (IH Loop m1 I LP (HP + 1) J) as (LP' & HP' & m' & Hrun & Hr' & Hs');
          [by eapply rearr_mapped| | |unfold measure; lia|].
        { sorted_by m Hit Hs. }
        { intros _ HI. rewrite Hit. unfold swap. eqbs; try lia. by apply Hpc. }
        exists LP', HP', m'. split; [done|]. split; [by eapply rearr_trans|done].
      * subst I. rewrite !ptr_succ. destruct (qstexc_rearr base es Hes m A L LP (HP + 1) J Hm) as (m1 & -> & Hr & Hit); [lia..|].
        simpl. destruct (IH Loop m1 (LP + 1) (LP + 1) (HP + 1) J) as (LP' & HP' & m' & Hrun & Hr' & Hs');
          [by eapply rearr_mapped| |intros; lia|unfold measure; lia|].
        { sorted_by m Hit Hs. }
        exists LP', HP', m'. split; [done|]. split; [by eapply rearr_trans|done].
      * rewrite ptr_succ, ptr_pred. destruct (qsexc_rearr base es Hes m A L I J Hm) as (m1 & -> & Hr & Hit); [lia|lia|].
        simpl. destruct (IH Top m1 (I + 1) LP HP (J - 1)) as (LP' & HP' & m' & Hrun & Hr' & Hs');
          [by eapply rearr_mapped| |done|unfold measure; lia|].
        { specialize (Hpc eq_refl). sorted_by m Hit Hs. }
        exists LP', HP', m'. split; [done|]. split; [by eapply rearr_trans|done].
      * rewrite ptr_pred. apply IH; [done| |done|unfold measure; lia].
        destruct Hs as [? Sl Se Sg]. constructor; [lia|done|done|].
        intros k Hk. destruct (decide (k = J)) as [->|]; [lia|apply Sg; lia].
    + assert (J = HP) as -> by lia. destruct (Z.eqb_spec I LP) as [->|HI].
      { exists LP, HP, m. split; [done|]. split; [apply rearr_refl|done]. }
      rewrite !ptr_pred. destruct (qstexc_rearr base es Hes m A L HP (LP - 1) I Hm) as (m1 & -> & Hr & Hit); [lia..|].
      simpl. destruct (IH Top m1 I (LP - 1) (HP - 1) (HP - 1)) as (LP' & HP' & m' & Hrun & Hr' & Hs');
        [by eapply rearr_mapped| |done|unfold measure; lia|].
      { specialize (Hpc eq_refl). sorted_by m Hit Hs. }
      exists LP', HP', m'. split; [done|]. split; [by eapply rearr_trans|done].
Qed.

(** * The whole sort *)

Definition sorted (A L : Z) (m : bmem) : Prop :=
  ∀ k1 k2, A <= k1 -> k1 <= k2 -> k2 < L -> cmp (item m k1) (item m k2) <= 0.

Lemma cmp_refl x : cmp x x = 0.
Proof. pose proof (cmp_anti _ _ _ Hcmp x x). lia. Qed.

Lemma split_sorted A L p m LP HP :
  split_at A L p m LP LP HP HP -> sorted A LP m -> sorted (HP + 1) L m -> sorted A L m.
Proof.
  intros [Ho Sl Se Sg] S1 S2 k1 k2 H1 H2 H3.
  pose proof (cmp_anti _ _ _ Hcmp (item m k1) p). pose proof (cmp_anti _ _ _ Hcmp p (item m k1)).
  pose proof (cmp_anti _ _ _ Hcmp (item m k2) p). pose proof (cmp_anti _ _ _ Hcmp p (item m k2)).
  destruct (decide (k2 < LP)); [apply S1; lia|]. destruct (decide (HP < k1)); [apply S2; lia|].
  apply (cmp_trans _ _ _ Hcmp _ p).
  - destruct (decide (k1 < LP)); [pose proof (Sl k1)|pose proof (Se k1)]; lia.
  - destruct (decide (HP < k2)); [pose proof (Sg k2)|pose proof (Se k2)]; lia.
Qed.

Lemma rearr_item A L m m' k : rearr A L m m' -> k < A \/ L <= k -> item m' k = item m k.
Proof. intros (_ & HF & _). by apply item_frame. Qed.

Lemma sorted_frame A L m m' B C : rearr A L m m' -> C <= A \/ L <= B -> sorted B C m -> sorted B C m'.
Proof. intros Hr Hd Hs k1 k2 H1 H2 H3. rewrite !(rearr_item A L m m') by (done || lia). by apply Hs. Qed.

Lemma split_rearr A L p m m' LP HP :
  split_at A L p m LP LP HP HP -> rearr A LP m m' \/ rearr (HP + 1) L m m' -> split_at A L p m' LP LP HP HP.
Proof.
  intros [Ho Sl Se Sg] [Hr|Hr]; constructor; [done| | | |done| | |].
  - by apply (rearr_all base es (λ x, cmp x p < 0) A LP m m').
  - intros k Hk. rewrite (rearr_item A LP m m') by (done || lia). by apply Se.
  - intros k Hk. rewrite (rearr_item A LP m m') by (done || lia). by apply Sg.
  - intros k Hk. rewrite (rearr_item (HP + 1) L m m') by (done || lia). by apply Sl.
  - intros k Hk. rewrite (rearr_item (HP + 1) L m m') by (done || lia). by apply Se.
  - intros k Hk. apply (rearr_all base es (λ x, 0 < cmp x p) (HP + 1) L m m'); [done| |lia]. intros; apply Sg; lia.
Qed.

(** What a call of qs1 for [A, L) does. *)
Definition sorts (f : Z -> Z -> bmem -> option bmem) (A L : Z) (m : bmem) : Prop :=
  ∃ m', f (ptr A) (ptr L) m = Some m' /\ rearr A L m m' /\ sorted A L m'.

Lemma mapped_sub m A L B C : mapped m (ptr A) (es * (L - A)) -> A <= B -> C <= L -> mapped m (ptr B) (es * (C - B)).
Proof. intros Hm HB HC x Hx. apply Hm. unfold Qsort.ptr in *. nia. Qed.

(** The first pivot: the record in the middle. *)
Lemma middle A L : 1 < L - A -> es * (L - A) < 2147483648 ->
  u32 (ptr L - ptr A) = es * (L - A) /\ u32 es = es /\
  ptr A + u32 (es * (es * (L - A) / u32 (2 * es))) = ptr (A + (L - A) / 2) /\ 0 < (L - A) / 2 < L - A.
Proof.
  intros Hn Hb. assert (Hd : 0 < (L - A) / 2 < L - A)
    by (split; [apply Z.div_str_pos; lia|apply Z.div_lt_upper_bound; lia]).
  assert (es * ((L - A) / 2) <= es * (L - A)) by nia.
  rewrite !(u32_id es), (u32_id (2 * es)) by (unfold is_u32; nia).
  replace (2 * es) with (es * 2) by lia. rewrite Z.div_mul_cancel_l by lia.
  rewrite (u32_id (es * _)) by (unfold is_u32; nia). unfold Qsort.ptr.
  replace (base + es * L - (base + es * A)) with (es * (L - A)) by lia.
  rewrite u32_id by (unfold is_u32; nia). repeat split; lia.
Qed.

Lemma qs1_start_run rec d : (0 < d -> ∀ A L m, A <= L -> L - A < 2 ^ d -> es * (L - A) < 2147483648 ->
    mapped m (ptr A) (es * (L - A)) -> sorts rec A L m) -> 0 <= d ->
  ∀ fuel A L m, A <= L -> L - A < 2 ^ (d + 1) -> L - A < Z.of_nat fuel -> es * (L - A) < 2147483648 ->
    mapped m (ptr A) (es * (L - A)) -> sorts (qs1_start qscmp es rec fuel) A L m.
Proof.
  intros Hrec Hd. rewrite Z.pow_add_r, Z.pow_1_r by lia.
  induction fuel as [|fuel IH]; intros A L m HAL Hsz Hf Hb Hm; [lia|]. unfold sorts. cbn [qs1_start].
  destruct (decide (L - A <= 1)) as [H1|H1].
  { rewrite (proj2 (Z.leb_le _ _)).
    - exists m. split; [done|]. split; [apply rearr_refl|]. intros k1 k2 ???.
      replace k2 with k1 by lia. rewrite cmp_refl. lia.
    - assert (es < 2147483648 \/ L = A) as [He| ->] by (destruct (decide (L = A)); [by right|left; nia]).
      + unfold Qsort.ptr. rewrite !u32_id by (unfold is_u32; nia). nia.
      + replace (ptr A - ptr A) with 0 by lia. apply (u32_range es). }
  destruct (middle A L) as (-> & -> & -> & Hmid); [lia..|]. rewrite (proj2 (Z.leb_gt _ _)) by nia.
  assert (Hd0 : 0 < d) by (destruct (decide (d = 0)) as [->|]; [simpl in Hsz|]; lia). specialize (Hrec Hd0).
  set (M := A + (L - A) / 2). rewrite ptr_pred.
  destruct (partition_run (item m M) A L (S (Z.to_nat (2 * (ptr L - ptr A)))) Top m A M M (L - 1))
    as (LP & HP & m1 & -> & Hr1 & Hs1); [done| |done|unfold measure, Qsort.ptr; nia|].
  { constructor; [lia|intros; lia| |intros; lia]. intros k Hk. replace k with M by lia. apply cmp_refl. }
  simpl. assert (Ho := sp_order _ _ _ _ _ _ _ _ Hs1).
  assert (Hm1 : mapped m1 (ptr A) (es * (L - A))) by by eapply rearr_mapped.
  rewrite Z.geb_leb. destruct (Z.leb_spec (ptr L - ptr HP) (ptr LP - ptr A)) as [Hc|Hc];
    unfold Qsort.ptr in Hc; rewrite ?ptr_succ.
  - destruct (Hrec (HP + 1) L m1) as (m2 & -> & Hr2 & So2); [lia|nia|nia|by apply (mapped_sub m1 A L); [|lia..]|].
    simpl. destruct (IH A LP m2) as (m3 & -> & Hr3 & So3); [lia|lia|lia|nia| |].
    { eapply rearr_mapped; [exact Hr2|]. apply (mapped_sub m1 A L); [done|lia..]. }
    exists m3. split; [done|]. split.
    + eapply rearr_trans; [exact Hr1|]. eapply rearr_trans; [eapply (rearr_widen base es Hes A L); [..|exact Hr2]; lia|].
      eapply (rearr_widen base es Hes A L); [..|exact Hr3]; lia.
    + apply (split_sorted A L (item m M) m3 LP HP); [|done|].
      * eapply split_rearr; [eapply split_rearr; [done|by right]|by left].
      * apply (sorted_frame A LP m2); [done|lia|done].
  - destruct (Hrec A LP m1) as (m2 & -> & Hr2 & So2); [lia|nia|nia|by apply (mapped_sub m1 A L); [|lia..]|].
    simpl. destruct (IH (HP + 1) L m2) as (m3 & -> & Hr3 & So3); [lia|lia|lia|nia| |].
    { eapply rearr_mapped; [exact Hr2|]. apply (mapped_sub m1 A L); [done|lia..]. }
    exists m3. split; [done|]. split.
    + eapply rearr_trans; [exact Hr1|]. eapply rearr_trans; [eapply (rearr_widen base es Hes A L); [..|exact Hr2]; lia|].
      eapply (rearr_widen base es Hes A L); [..|exact Hr3]; lia.
    + apply (split_sorted A L (item m M) m3 LP HP); [|by apply (sorted_frame (HP + 1) L m2); [|lia|]|done].
      eapply split_rearr; [eapply split_rearr; [done|by left]|by right].
Qed.

Lemma qs1_run depth : ∀ A L m, A <= L -> L - A < 2 ^ Z.of_nat depth -> (0 < depth)%nat ->
  es * (L - A) < 2147483648 -> mapped m (ptr A) (es * (L - A)) -> sorts (qs1 qscmp es depth) A L m.
Proof.
  induction depth as [|d IH]; intros A L m HAL Hsz Hd Hb Hm; [lia|].
  rewrite Nat2Z.inj_succ, <- Z.add_1_r in Hsz. unfold sorts. cbn [qs1].
  apply (qs1_start_run _ (Z.of_nat d)); [|lia|done|done| |done|done].
  - intros Hd0 A' L' m' H1 H2 H3 H4. apply IH; try done. lia.
  - unfold Qsort.ptr. nia.
Qed.

(** C12: qsort, given a comparison function that orders the records by a total
    preorder, terminates, leaves the records in ascending order, has only moved
    them around, and has changed nothing outside the array.  Because it recurses
    into the smaller part, [depth] stack frames are enough for fewer than
    [2 ^ depth] records. *)
Theorem qsort_sorts depth n m :
  0 <= n < 2 ^ Z.of_nat depth -> (0 < depth)%nat -> n * es < 2147483648 -> mapped m base (n * es) ->
  ∃ m', qsort depth base n es qscmp m = Some m' /\ sorted 0 n m' /\
    items base es m' 0 n ≡ₚ items base es m 0 n /\
    (∀ x, x < base \/ base + n * es <= x -> m' !! x = m !! x).
Proof.
  intros Hn Hd Hb Hm.
  assert (H0 : ptr 0 = base) by (unfold Qsort.ptr; lia). assert (Hl : ptr n = base + n * es) by (unfold Qsort.ptr; lia).
  destruct (qs1_run depth 0 n m) as (m' & Hrun & (Hp & Hfr & _) & Hs); [lia|lia|done|lia| |].
  { rewrite H0. by replace (es * (n - 0)) with (n * es) by lia. }
  exists m'. unfold qsort. rewrite H0, Hl in *. split; [|done]. rewrite <- Hrun. f_equal. f_equal.
  destruct (decide (n = 0)) as [->|]; [done|]. rewrite !u32_id; [done|unfold is_u32; nia..| |]; unfold is_u32.
  all: rewrite ?u32_id by (unfold is_u32; nia); nia.
Qed.
End Sorting.

(** * On a concrete array *)

(** Five records of a key and a value, compared by their keys. *)
Definition demo_array : bmem :=
  list_to_map (zip (seqZ 100 10) [3; 1;  2; 2;  3; 3;  1; 4;  2; 5]).
Definition demo_cmp (m : bmem) (p q : Z) : option Z := x ← ldb m p; y ← ldb m q; Some (x - y).
Definition demo_key (r : list (option Z)) : Z := match r with Some x :: _ => x | _ => 0 end.

Lemma demo_cmp_comparison : comparison 2 demo_cmp (λ x y, demo_key x - demo_key y).
Proof.
  constructor; [|intros; lia|intros; lia]. intros m p q Hp Hq.
  destruct (Hp p ltac:(lia)) as [x Hx]. destruct (Hq q ltac:(lia)) as [y Hy].
  unfold demo_cmp, ldb, record. rewrite Hx, Hy. change (seqZ 0 2) with [0; 1]. simpl.
  rewrite !Z.add_0_r. by rewrite Hx, Hy.
Qed.

Lemma qsort_sorts_witness :
  ∃ m', qsort 3 100 5 2 demo_cmp demo_array = Some m' /\
    sorted 100 2 (λ x y, demo_key x - demo_key y) 0 5 m' /\
    items 100 2 m' 0 5 ≡ₚ items 100 2 demo_array 0 5 /\
    (∀ x, x < 100 \/ 100 + 5 * 2 <= x -> m' !! x = demo_array !! x).
Proof.
  apply (qsort_sorts 100 2 ltac:(lia) demo_cmp (λ x y, demo_key x - demo_key y) demo_cmp_comparison 3 5 demo_array);
    [simpl; lia|lia|lia|].
  intros x Hx. assert (Hin : x ∈ seqZ 100 10) by (apply elem_of_seqZ; lia).
  change (seqZ 100 10) with [100; 101; 102; 103; 104; 105; 106; 107; 108; 109] in Hin.
  repeat (apply elem_of_cons in Hin as [->|Hin]; [eexists; vm_compute; reflexivity|]). by apply not_elem_of_nil in Hin.
Defined.

Example qsort_demo :
  (λ m, map (λ x, default 0 (m !! x)) (seqZ 100 10)) <$> qsort 3 100 5 2 demo_cmp demo_array
  = Some [1; 4;  2; 5;  2; 2;  3; 1;  3; 3].
Proof. vm_compute. reflexivity. Qed.
