(* ===== verification/Clib.v ===== *)
(** Character classes and numbers: include/ctype.h and lib/ctype_.c, lib/abs.c,
    lib/labs.c, lib/rand.c, lib/atoi.c, lib/atol.c, lib/strtol.c.

    The functions read the byte memory of Cstring.v.  An index outside the table
    of character classes and an address that is not mapped give [None].  [long]
    has 32 bits. *)

From S2P Require Import Prelude Types Cstring.

(** * Character classes *)

Definition CT_U : Z := 1.
Definition CT_L : Z := 2.
Definition CT_N : Z := 4.
Definition CT_S : Z := 8.
Definition CT_P : Z := 16.
Definition CT_C : Z := 32.
Definition CT_X : Z := 64.

(** lib/ctype_.c: the table [_ctype_]; entry 0 is for EOF. *)
Definition _ctype_ : list Z :=
  [0] ++
  [CT_C; CT_C; CT_C; CT_C; CT_C; CT_C; CT_C; CT_C;
   CT_C; CT_S; CT_S; CT_S; CT_S; CT_S; CT_C; CT_C] ++
  repeat CT_C 16 ++
  [CT_S] ++ repeat CT_P 15 ++
  repeat CT_N 10 ++ repeat CT_P 6 ++
  [CT_P] ++ repeat (Z.lor CT_U CT_X) 6 ++ repeat CT_U 20 ++ repeat CT_P 5 ++
  [CT_P] ++ repeat (Z.lor CT_L CT_X) 6 ++ repeat CT_L 20 ++ repeat CT_P 4 ++ [CT_C].

(** [(_ctype_ + 1)[c] & mask] *)
Definition isclass (mask c : Z) : option bool :=
  if c <? -1 then None else e ← _ctype_ !! Z.to_nat (c + 1); Some (negb (Z.land e mask =? 0)).

Definition isalpha (c : Z) : option bool := isclass (Z.lor CT_U CT_L) c.
Definition isupper (c : Z) : option bool := isclass CT_U c.
Definition isdigit (c : Z) : option bool := isclass CT_N c.
Definition isspace (c : Z) : option bool := isclass CT_S c.

(** * Small functions *)

(** lib/abs.c: abs, lib/labs.c: labs *)
Definition abs (arg : Z) : Z := if arg <? 0 then s32 (- arg) else arg.
Definition labs (arg : Z) : Z := if arg <? 0 then s32 (- arg) else arg.

(** lib/rand.c: rand; the new value of [randx] and the result. *)
Definition rand (randx : Z) : Z * Z :=
  let randx := u32 (u32 (randx * 1103515245) + 12345) in
  (randx, Z.land (Z.shiftr randx 16) 32767).

(** * atoi and atol *)

(** The loop over blanks and the sign: the address of the digits and [f]. *)
Fixpoint atoi_skip (fuel : nat) (m : bmem) (p : Z) : option (Z * Z) :=
  match fuel with
  | O => None
  | S fuel =>
      c ← ldb m p;
      if (c =? 32) || (c =? 9) then atoi_skip fuel m (p + 1)
      else if c =? 45 then Some (p + 1, 1)
      else if c =? 43 then Some (p + 1, 0)
      else Some (p, 0)
  end.

(** [while ('0' <= *p && *p <= '9') n = n * 10 + *p++ - '0']: [n] and [p]. *)
Fixpoint scan_dec (fuel : nat) (m : bmem) (p n : Z) : option (Z * Z) :=
  match fuel with
  | O => None
  | S fuel =>
      c ← ldb m p;
      if (48 <=? c) && (c <=? 57) then scan_dec fuel m (p + 1) (s32 (s32 (s32 (n * 10) + c) - 48))
      else Some (n, p)
  end.

(** lib/atoi.c: atoi *)
Definition atoi (m : bmem) (p : Z) : option Z :=
  '(p, f) ← atoi_skip (str_fuel m) m p;
  '(n, _) ← scan_dec (str_fuel m) m p 0;
  Some (if negb (f =? 0) then s32 (- n) else n).

(** lib/atol.c: atol *)
Definition atol (m : bmem) (p : Z) : option Z :=
  '(p, f) ← atoi_skip (str_fuel m) m p;
  '(n, _) ← scan_dec (str_fuel m) m p 0;
  Some (if negb (f =? 0) then s32 (- n) else n).

(** * strtol and strtoul *)

(** [do c = *s++; while (isspace(c))]: [c] and [s]. *)
Fixpoint strto_space (fuel : nat) (m : bmem) (s : Z) : option (Z * Z) :=
  match fuel with
  | O => None
  | S fuel =>
      c ← ldb m s;
      sp ← isspace c;
      if (sp : bool) then strto_space fuel m (s + 1) else Some (c, s + 1)
  end.

(** The sign: [neg], [c] and [s]. *)
Definition strto_sign (m : bmem) (c s : Z) : option (bool * Z * Z) :=
  if c =? 45 then c ← ldb m s; Some (true, c, s + 1)
  else if c =? 43 then c ← ldb m s; Some (false, c, s + 1)
  else Some (false, c, s).

(** The prefixes 0x and 0b, and the base they or a leading 0 give: [c], [s] and
    [base]. *)
Definition strto_base (m : bmem) (c s base : Z) : option (Z * Z * Z) :=
  x ← (if ((base =? 0) || (base =? 16)) && (c =? 48) then x ← ldb m s; Some ((x =? 120) || (x =? 88))
       else Some false);
  if (x : bool) then c ← ldb m (s + 1); Some (c, s + 2, 16)
  else
    b ← (if ((base =? 0) || (base =? 2)) && (c =? 48) then b ← ldb m s; Some ((b =? 98) || (b =? 66))
         else Some false);
    if (b : bool) then c ← ldb m (s + 1); Some (c, s + 2, 2)
    else Some (c, s, if base =? 0 then (if c =? 48 then 8 else 10) else base).

(** The value of the digit [c]; [Some None] at a character that ends the number. *)
Definition strto_digit (c : Z) : option (option Z) :=
  d ← isdigit c;
  if (d : bool) then Some (Some (c - 48))
  else
    a ← isalpha c;
    if (a : bool) then
      u ← isupper c;
      Some (Some (c - (if (u : bool) then 65 - 10 else 97 - 10)))
    else Some None.

(** The loop over the digits: [acc], [any] and [s]. *)
Fixpoint strto_loop (fuel : nat) (m : bmem) (base cutoff cutlim c s acc any : Z) : option (Z * Z * Z) :=
  match fuel with
  | O => None
  | S fuel =>
      d ← strto_digit c;
      match d with
      | None => Some (acc, any, s)
      | Some c =>
          if c >=? base then Some (acc, any, s)
          else
            let '(acc, any) :=
              if (any <? 0) || (acc >? cutoff) || ((acc =? cutoff) && (c >? cutlim)) then (acc, -1)
              else (u32 (u32 (acc * u32 base) + c), 1) in
            c ← ldb m s;
            strto_loop fuel m base cutoff cutlim c (s + 1) acc any
      end
  end.

(** lib/strtol.c: strtol; the result and what is stored through [endptr]. *)
Definition strtol (m : bmem) (nptr base : Z) : option (Z * Z) :=
  '(c, s) ← strto_space (str_fuel m) m nptr;
  '(neg, c, s) ← strto_sign m c s;
  '(c, s, base) ← strto_base m c s base;
  let cutoff := if (neg : bool) then 2147483648 else 2147483647 in
  let cutlim := cutoff mod u32 base in
  let cutoff := cutoff / u32 base in
  '(acc, any, s) ← strto_loop (str_fuel m) m base cutoff cutlim c s 0 0;
  let acc := if any <? 0 then u32 (if neg then -2147483648 else 2147483647)
             else if neg then u32 (- acc) else acc in
  Some (s32 acc, if negb (any =? 0) then s - 1 else nptr).

(** lib/strtol.c: strtoul *)
Definition strtoul (m : bmem) (nptr base : Z) : option (Z * Z) :=
  '(c, s) ← strto_space (str_fuel m) m nptr;
  '(neg, c, s) ← strto_sign m c s;
  '(c, s, base) ← strto_base m c s base;
  let cutoff := 4294967295 / u32 base in
  let cutlim := 4294967295 mod u32 base in
  '(acc, any, s) ← strto_loop (str_fuel m) m base cutoff cutlim c s 0 0;
  let acc := if any <? 0 then 4294967295 else if (neg : bool) then u32 (- acc) else acc in
  Some (acc, if negb (any =? 0) then s - 1 else nptr).

(** * What the table says *)

#[local] Arguments Z.eqb : simpl never.
#[local] Arguments Z.ltb : simpl never.
#[local] Arguments Z.leb : simpl never.
#[local] Arguments Z.mul : simpl never.
#[local] Arguments Z.add : simpl never.

(** The value of a digit or letter. *)
Definition dval (c : Z) : option Z :=
  if (48 <=? c) && (c <=? 57) then Some (c - 48)
  else if (65 <=? c) && (c <=? 90) then Some (c - 55)
  else if (97 <=? c) && (c <=? 122) then Some (c - 87)
  else None.

Definition space (c : Z) : bool := (c =? 32) || ((9 <=? c) && (c <=? 13)).

(** A statement about the ASCII characters is checked for each of them. *)
Lemma ascii_all (P : Z -> bool) : forallb P (seqZ 0 128) = true -> ∀ c, 0 <= c < 128 -> P c = true.
Proof.
  intros H c Hc. rewrite forallb_forall in H. apply H. apply list_elem_of_In, elem_of_seqZ. lia.
Qed.

Lemma strto_digit_dval c : 0 <= c < 128 -> strto_digit c = Some (dval c).
Proof.
  intros Hc. pose proof (ascii_all (λ c, bool_decide (strto_digit c = Some (dval c))) ltac:(by vm_compute) c Hc) as H.
  by apply bool_decide_eq_true_1 in H.
Qed.

Lemma isspace_space c : 0 <= c < 128 -> isspace c = Some (space c).
Proof.
  intros Hc. pose proof (ascii_all (λ c, bool_decide (isspace c = Some (space c))) ltac:(by vm_compute) c Hc) as H.
  by apply bool_decide_eq_true_1 in H.
Qed.

Lemma dval_range c d : dval c = Some d -> 0 <= c < 128 /\ 0 <= d < 36.
Proof. unfold dval. intros H. repeat case_match; simplify_eq; bool_hyps; lia. Qed.

(** * Numbers *)

(** The number that the digits [l] continue, after [v]. *)
Definition value (base v : Z) (l : list Z) : Z := fold_left (λ v c, v * base + default 0 (dval c)) l v.

(** A digit in base [base]. *)
Definition is_digit (base c : Z) : Prop := ∃ d, dval c = Some d /\ d < base.

Lemma value_ge base l : 1 <= base -> ∀ v, 0 <= v -> Forall (is_digit base) l -> v <= value base v l.
Proof.
  intros Hb. induction l as [|c l IH]; intros v Hv Hl; unfold value; simpl; [lia|].
  apply Forall_cons in Hl as [(d & Hd & _) Hl]. pose proof (dval_range c d Hd).
  rewrite Hd. simpl. etransitivity; [|apply IH; [nia|done]]. nia.
Qed.

(** [acc > cutoff || acc == cutoff && c > cutlim] tells that the number leaves
    [0, limit]. *)
Lemma cutoff_spec limit base acc d : 0 < base -> 0 <= d < base ->
  (acc >? limit / base) || ((acc =? limit / base) && (d >? limit mod base)) = (limit <? acc * base + d).
Proof.
  intros Hb Hd. pose proof (Z.div_mod limit base ltac:(lia)). pose proof (Z.mod_pos_bound limit base Hb).
  rewrite !Z.gtb_ltb. set (q := limit / base) in *. set (r := limit mod base) in *.
  destruct (Z.ltb_spec q acc); destruct (Z.eqb_spec acc q); destruct (Z.ltb_spec r d);
    destruct (Z.ltb_spec limit (acc * base + d)); simpl; try done; nia.
Qed.

Lemma strto_loop_run m base limit t : 2 <= base <= 36 -> 0 <= limit < 4294967296 ->
  0 <= t < 128 -> ¬ is_digit base t ->
  ∀ l fuel q acc any v, bytes_at m q (l ++ [t]) -> Forall (is_digit base) l -> (length l < fuel)%nat ->
  0 <= v -> (if limit <? v then any = -1 else acc = v /\ 0 <= any) ->
  ∃ acc' any', strto_loop fuel m base (limit / base) (limit mod base)
      (default t (head l)) (q + 1) acc any = Some (acc', any', q + Z.of_nat (length l) + 1) /\
    if limit <? value base v l then any' = -1
    else acc' = value base v l /\ any' = match l with [] => any | _ => 1 end.
Proof.
  intros Hb Hlim Ht Hnt. induction l as [|c l IH]; intros [|fuel] q acc any v Hm Hl Hf Hv Hst; simpl in Hf; try lia.
  - cbn [strto_loop default head length]. exists acc, any. rewrite strto_digit_dval by done. simpl.
    replace (q + Z.of_nat 0 + 1) with (q + 1) by lia. split.
    + destruct (dval t) as [d|] eqn:E; [|done]. rewrite Z.geb_leb.
      destruct (Z.leb_spec base d); [done|]. exfalso. apply Hnt. by exists d.
    + unfold value. simpl. destruct (limit <? v); [done|]. tauto.
  - apply Forall_cons in Hl as [(d & Hd & Hdb) Hl]. pose proof (dval_range c d Hd) as [Hc Hd0].
    assert (HV : value base v (c :: l) = value base (v * base + d) l) by (unfold value; simpl; by rewrite Hd).
    rewrite HV. clear HV. cbn [strto_loop default head length]. rewrite strto_digit_dval by done. simpl. rewrite Hd.
    rewrite Z.geb_leb, (proj2 (Z.leb_gt base d)) by done.
    set (step := if _ || _ then _ else _).
    destruct Hm as [_ Hm]. assert (Hnext : m !! (q + 1) = Some (default t (head l))).
    { destruct l; [by destruct Hm|by destruct Hm]. }
    assert (Hstep : ∃ acc1 any1, step = (acc1, any1) /\
      if limit <? v * base + d then any1 = -1 else acc1 = v * base + d /\ any1 = 1).
    { unfold step. destruct (Z.ltb_spec limit v).
      - subst any. simpl. exists acc, (-1). split; [done|]. by rewrite (proj2 (Z.ltb_lt _ _)) by nia.
      - destruct Hst as [-> Hany]. rewrite (proj2 (Z.ltb_ge any 0)) by done. rewrite orb_false_l.
        rewrite cutoff_spec by lia. destruct (Z.ltb_spec limit (v * base + d)); [by exists v, (-1)|].
        exists (v * base + d), 1. split; [|done]. rewrite (u32_id base) by (unfold is_u32; lia).
        rewrite (u32_id (v * base)) by (unfold is_u32; nia). by rewrite u32_id by (unfold is_u32; nia). }
    destruct Hstep as (acc1 & any1 & -> & Hst1). unfold ldb. rewrite Hnext. simpl.
    destruct (IH fuel (q + 1) acc1 any1 (v * base + d)) as (acc' & any' & Hrun & Hres); [done|done|lia|nia| |].
    { destruct (limit <? v * base + d); [done|]. destruct Hst1 as [-> ->]. split; lia. }
    exists acc', any'. split.
    + rewrite Hrun. do 2 f_equal. lia.
    + destruct (Z.ltb_spec limit (value base (v * base + d) l)) as [|Hle]; [done|]. destruct Hres as [-> Hany]. split; [done|].
      rewrite Hany. destruct l; [|done].
      unfold value in Hle. simpl in Hle. rewrite (proj2 (Z.ltb_ge _ _)) in Hst1 by done. by destruct Hst1.
Qed.

Lemma strto_space_run m ws c : Forall (λ x, 0 <= x < 128 /\ space x = true) ws -> 0 <= c < 128 -> space c = false ->
  ∀ fuel q, bytes_at m q (ws ++ [c]) -> (length ws < fuel)%nat ->
  strto_space fuel m q = Some (c, q + Z.of_nat (length ws) + 1).
Proof.
  intros Hws Hc Hsc. induction Hws as [|w ws [Hw Hsw] Hws IH]; intros [|fuel] q Hm Hf; simpl in Hf; try lia;
    cbn [strto_space]; unfold ldb; destruct Hm as [Hq Hm]; rewrite Hq; simpl.
  - rewrite isspace_space, Hsc by done. simpl. do 2 f_equal. lia.
  - rewrite isspace_space, Hsw by done. simpl. rewrite IH by (done || lia). do 2 f_equal. lia.
Qed.

(** A number as the functions take it: white space, a sign, digits in base
    [base], and a character that ends it. *)
Record number_at (m : bmem) (p base : Z) (ws sg ds : list Z) (t : Z) : Prop := {
  num_bytes : bytes_at m p (ws ++ sg ++ ds ++ [t]);
  num_base : 2 <= base <= 36;
  num_space : Forall (λ x, 0 <= x < 128 /\ space x = true) ws;
  num_sign : sg = [] \/ sg = [43] \/ sg = [45];
  num_digits : ds ≠ [] /\ Forall (is_digit base) ds;
  num_end : 0 <= t < 128 /\ ¬ is_digit base t /\ t ∉ [120; 88; 98; 66] }.

Definition negative (sg : list Z) : bool := match sg with [45] => true | _ => false end.

Lemma digit_nospace base c : is_digit base c -> 0 <= c < 128 /\ space c = false /\ c ≠ 43 /\ c ≠ 45.
Proof.
  intros (d & Hd & _). split; [by eapply dval_range|]. unfold dval, space in *.
  repeat case_match; simplify_eq; bool_hyps;
    (split; [|lia]); apply orb_false_iff; (split; [apply Z.eqb_neq; lia|apply andb_false_iff; right; apply Z.leb_gt; lia]).
Qed.

Section Number.
Context (m : bmem) (nptr base : Z) (ws sg ds : list Z) (t : Z) (H : number_at m nptr base ws sg ds t).
#[local] Abbreviation digits := (nptr + Z.of_nat (length ws) + Z.of_nat (length sg)).

Lemma number_digits : bytes_at m digits (ds ++ [t]).
Proof.
  destruct H as [Hb _ _ _ _ _]. apply bytes_at_app in Hb as [_ Hb]. by apply bytes_at_app in Hb as [_ Hb].
Qed.

Lemma number_fuel : (length ws < str_fuel m)%nat /\ (length ds < str_fuel m)%nat.
Proof.
  destruct H as [Hb _ _ _ _ _]. apply bytes_at_size in Hb. rewrite !length_app in Hb. simpl in Hb. unfold str_fuel. lia.
Qed.

Lemma number_head : ∃ c ds', ds = c :: ds' /\ is_digit base c.
Proof.
  destruct H as [_ _ _ _ [Hne Hd] _]. destruct ds as [|c ds']; [done|]. apply Forall_cons in Hd as [Hc _]. eauto.
Qed.

(** Up to the first digit. *)
Lemma strto_start_run :
  ('(c, s) ← strto_space (str_fuel m) m nptr; strto_sign m c s)
  = Some (negative sg, default t (head ds), digits + 1).
Proof.
  destruct number_head as (c & ds' & E & Hc). pose proof (digit_nospace base c Hc) as (Hr & Hsp & Hp & Hm).
  destruct number_fuel as [Hf _]. destruct H as [Hb _ Hws Hsg _ _]. rewrite E in Hb |- *.
  assert (Hst : ∀ x l, bytes_at m nptr (ws ++ x :: l) -> 0 <= x < 128 -> space x = false ->
    strto_space (str_fuel m) m nptr = Some (x, nptr + Z.of_nat (length ws) + 1)).
  { intros x l Hx Hxr Hxs. apply (strto_space_run m ws x); try done.
    apply bytes_at_app in Hx as [Hx1 [Hx2 _]]. apply bytes_at_app. by repeat split. }
  destruct Hsg as [Esg|[Esg|Esg]]; rewrite Esg in Hb |- *; cbn [app length negative head default] in Hb |- *.
  - rewrite (Hst c _ Hb Hr Hsp). simpl. unfold strto_sign.
    rewrite (proj2 (Z.eqb_neq c 45)), (proj2 (Z.eqb_neq c 43)) by done. apply (f_equal Some), (f_equal2 pair); [done|lia].
  - rewrite (Hst 43 _ Hb ltac:(lia) eq_refl). simpl. unfold strto_sign, ldb.
    apply bytes_at_app in Hb as [_ [_ [Hb _]]]. change (43 =? 45) with false. change (43 =? 43) with true. cbv iota.
    rewrite Hb. simpl. apply (f_equal Some), (f_equal2 pair); [done|lia].
  - rewrite (Hst 45 _ Hb ltac:(lia) eq_refl). simpl. unfold strto_sign, ldb.
    apply bytes_at_app in Hb as [_ [_ [Hb _]]]. change (45 =? 45) with true. cbv iota.
    rewrite Hb. simpl. apply (f_equal Some), (f_equal2 pair); [done|lia].
Qed.

(** No prefix: the digits are the number. *)
Lemma strto_base_run : strto_base m (default t (head ds)) (digits + 1) base = Some (default t (head ds), digits + 1, base).
Proof.
  destruct number_head as (c & ds' & E & Hc). pose proof number_digits as Hd.
  destruct H as [_ Hb _ _ [_ Hds] (Ht & Hnt & Htx)]. rewrite E in Hd, Hds |- *. simpl in Hd |- *. destruct Hd as [_ Hd].
  assert (Hnext : ∃ x, m !! (digits + 1) = Some x /\ ((x = 120 \/ x = 88) -> base ≠ 16) /\ ((x = 98 \/ x = 66) -> base ≠ 2)).
  { apply Forall_cons in Hds as [_ Hds]. destruct ds' as [|x ds'].
    - destruct Hd as [Hd _]. exists t. split; [done|]. set_solver.
    - destruct Hd as [Hd _]. exists x. split; [done|]. apply Forall_cons in Hds as [(d & Hx & Hdb) _].
      split; intros Hxe ->; destruct Hxe as [->| ->]; vm_compute in Hx; simplify_eq; lia. }
  destruct Hnext as (x & Hx & H16 & H2). unfold strto_base, ldb. rewrite Hx.
  rewrite !(proj2 (Z.eqb_neq base 0)) by lia. simpl.
  assert (E1 : (if (base =? 16) && (c =? 48) then Some ((x =? 120) || (x =? 88)) else Some false) = Some false).
  { destruct (Z.eqb_spec base 16), (Z.eqb_spec x 120), (Z.eqb_spec x 88), (c =? 48); simpl; try done; exfalso; by apply H16; auto. }
  rewrite E1. simpl.
  assert (E2 : (if (base =? 2) && (c =? 48) then Some ((x =? 98) || (x =? 66)) else Some false) = Some false).
  { destruct (Z.eqb_spec base 2), (Z.eqb_spec x 98), (Z.eqb_spec x 66), (c =? 48); simpl; try done; exfalso; by apply H2; auto. }
  by rewrite E2.
Qed.

Lemma value_nonneg : 0 <= value base 0 ds.
Proof. destruct H as [_ Hb _ _ [_ Hd] _]. apply value_ge; [lia|lia|done]. Qed.

Lemma strto_digits_run limit : 0 <= limit < 4294967296 ->
  ∃ acc any, strto_loop (str_fuel m) m base (limit / base) (limit mod base) (default t (head ds)) (digits + 1) 0 0
    = Some (acc, any, digits + Z.of_nat (length ds) + 1) /\
    if limit <? value base 0 ds then any = -1 else acc = value base 0 ds /\ any = 1.
Proof.
  intros Hlim. pose proof number_digits as Hd. destruct number_fuel as [_ Hf]. destruct number_head as (c & ds' & E & _).
  destruct H as [_ Hb _ _ [_ Hds] (Ht & Hnt & _)].
  destruct (strto_loop_run m base limit t Hb Hlim Ht Hnt ds (str_fuel m) digits 0 0 0) as (acc & any & Hrun & Hres);
    try done. { by rewrite (proj2 (Z.ltb_ge _ _)) by lia. }
  exists acc, any. split; [done|]. by rewrite E in Hres |- *.
Qed.
End Number.

(** C27: strtol reads a number in any base from 2 to 36, after white space and a
    sign: its value is the value of the digits, made [LONG_MAX] or [LONG_MIN] when
    it is out of the range of a long, and [*endptr] is the character behind the
    last digit.  The two comparisons with the cutoff detect exactly the numbers
    that are too large. *)
Theorem strtol_clamps m nptr base ws sg ds t : number_at m nptr base ws sg ds t ->
  strtol m nptr base =
    Some (if negative sg then Z.max (-2147483648) (- value base 0 ds) else Z.min 2147483647 (value base 0 ds),
          nptr + Z.of_nat (length (ws ++ sg ++ ds))).
Proof.
  intros H. pose proof (strto_start_run _ _ _ _ _ _ _ H) as Hst. pose proof (strto_base_run _ _ _ _ _ _ _ H) as Hba.
  pose proof (value_nonneg _ _ _ _ _ _ _ H) as Hv. set (v := value base 0 ds) in *. assert (Hb := num_base _ _ _ _ _ _ _ H).
  unfold strtol. destruct (strto_space (str_fuel m) m nptr) as [[c s]|]; cbn [mbind option_bind] in Hst |- *; [|done].
  rewrite Hst. cbn [mbind option_bind]. rewrite Hba. cbn [mbind option_bind]. rewrite (u32_id base) by (unfold is_u32; lia).
  set (limit := if negative sg then 2147483648 else 2147483647).
  assert (Hlim : 0 <= limit < 4294967296) by (unfold limit; destruct (negative sg); lia).
  destruct (strto_digits_run _ _ _ _ _ _ _ H limit Hlim) as (acc & any & -> & Hres). fold v in Hres. simpl.
  rewrite !length_app. f_equal. f_equal.
  - unfold limit in Hres. destruct (negative sg).
    + destruct (Z.ltb_spec 2147483648 v).
      * subst any. simpl. change (s32 (u32 (-2147483648))) with (-2147483648). lia.
      * destruct Hres as [-> ->]. simpl. unfold s32, u32. rewrite Zplus_mod_idemp_l, Z.mod_small by lia. lia.
    + destruct (Z.ltb_spec 2147483647 v).
      * subst any. simpl. change (s32 (u32 2147483647)) with 2147483647. lia.
      * destruct Hres as [-> ->]. simpl. rewrite s32_id by (unfold is_s32; lia). lia.
  - assert (any ≠ 0) as Hany by (destruct (limit <? v); [subst any; lia|destruct Hres; subst any; lia]).
    rewrite (proj2 (Z.eqb_neq any 0)) by done. simpl. lia.
Qed.

(** The text [" -80000000z"] at 100, in base 16. *)
Definition demo_number : bmem := list_to_map (zip (seqZ 100 11) [32; 45; 56; 48; 48; 48; 48; 48; 48; 48; 122]).

Lemma strtol_clamps_witness : strtol demo_number 100 16 = Some (Z.max (-2147483648) (- 2147483648), 110).
Proof.
  apply (strtol_clamps demo_number 100 16 [32] [45] [56; 48; 48; 48; 48; 48; 48; 48] 122).
  constructor; [by vm_compute|lia|by repeat constructor|by right; right| |].
  - split; [done|]. repeat (constructor; [eexists; split; [by vm_compute|lia]|]). constructor.
  - split; [lia|]. split; [intros (d & Hd & Hlt); vm_compute in Hd; simplify_eq; lia|set_solver].
Defined.

(** * atoi *)

Lemma s32_add_l a b : s32 (s32 a + b) = s32 (a + b).
Proof.
  unfold s32. replace ((a + 2147483648) mod 4294967296 - 2147483648 + b + 2147483648)
    with ((a + 2147483648) mod 4294967296 + b) by lia.
  rewrite Zplus_mod_idemp_l. do 2 f_equal. lia.
Qed.

(** A decimal digit. *)
Definition decimal (c : Z) : Prop := 48 <= c <= 57.

Lemma decimal_digit c : decimal c -> is_digit 10 c /\ dval c = Some (c - 48).
Proof.
  unfold decimal, is_digit, dval. intros Hc. rewrite (proj2 (Z.leb_le 48 c)), (proj2 (Z.leb_le c 57)) by lia.
  simpl. split; [|done]. exists (c - 48). split; [done|lia].
Qed.

Lemma scan_dec_run m t : ¬ decimal t -> ∀ l fuel p v,
  bytes_at m p (l ++ [t]) -> Forall decimal l -> (length l < fuel)%nat -> 0 <= v -> value 10 v l < 2147483648 ->
  scan_dec fuel m p v = Some (value 10 v l, p + Z.of_nat (length l)).
Proof.
  intros Ht. induction l as [|c l IH]; intros [|fuel] p v Hm Hl Hf Hv Hmax; simpl in Hf; try lia;
    cbn [scan_dec]; unfold ldb; destruct Hm as [Hp Hm]; rewrite Hp; cbn [mbind option_bind].
  - replace ((48 <=? t) && (t <=? 57)) with false; [simpl; f_equal; f_equal; lia|]. symmetry.
    apply andb_false_iff. unfold decimal in Ht.
    destruct (Z.leb_spec 48 t); [right; apply Z.leb_gt; lia|by left].
  - apply Forall_cons in Hl as [Hc Hl]. destruct (decimal_digit c Hc) as [_ Hd]. unfold decimal in Hc.
    rewrite (proj2 (Z.leb_le 48 c)), (proj2 (Z.leb_le c 57)) by lia. cbn [andb].
    assert (HV : value 10 v (c :: l) = value 10 (v * 10 + (c - 48)) l) by (unfold value; simpl; by rewrite Hd).
    rewrite HV in Hmax |- *.
    assert (Hge : v * 10 + (c - 48) <= value 10 (v * 10 + (c - 48)) l).
    { apply value_ge; [lia|lia|]. eapply Forall_impl; [exact Hl|]. intros x Hx. by apply decimal_digit. }
    replace (s32 (s32 (s32 (v * 10) + c) - 48)) with (v * 10 + (c - 48)).
    + rewrite IH by (done || lia). cbn [length]. do 2 f_equal. lia.
    + rewrite s32_add_l. replace (s32 (v * 10 + c) - 48) with (s32 (v * 10 + c) + -48) by lia. rewrite s32_add_l. rewrite s32_id; [lia|unfold is_s32; lia].
Qed.

Lemma atoi_run m p neg ds t : ¬ decimal t -> ds ≠ [] -> Forall decimal ds ->
  bytes_at m p ((if neg : bool then [45] else []) ++ ds ++ [t]) -> value 10 0 ds < 2147483648 ->
  atoi m p = Some (if neg then - value 10 0 ds else value 10 0 ds).
Proof.
  intros Ht Hne Hds Hb Hmax. pose proof (bytes_at_size _ _ _ Hb) as Hsz. rewrite !length_app in Hsz. simpl in Hsz.
  assert (Hv : 0 <= value 10 0 ds).
  { apply value_ge; [lia|lia|]. eapply Forall_impl; [exact Hds|]. intros x Hx. by apply decimal_digit. }
  unfold atoi, str_fuel. cbn [atoi_skip]. unfold ldb.
  apply bytes_at_app in Hb as [Hs Hb]. destruct neg.
  - destruct Hs as [Hs _]. rewrite Hs. cbn [mbind option_bind].
    change ((45 =? 32) || (45 =? 9)) with false. change (45 =? 45) with true. cbn [mbind option_bind].
    rewrite (scan_dec_run m t Ht ds) by (done || lia). cbn [mbind option_bind].
    change (negb (1 =? 0)) with true. cbv iota. f_equal. rewrite s32_id; [done|unfold is_s32; lia].
  - replace (p + Z.of_nat (length [])) with p in Hb by (simpl; lia). 
    destruct ds as [|c ds]; [done|]. assert (Hc : decimal c) by by inversion Hds. destruct Hb as [Hp Hb'].
    rewrite Hp. cbn [mbind option_bind]. unfold decimal in Hc.
    rewrite !(proj2 (Z.eqb_neq c _)) by lia. cbn [orb]. cbn [mbind option_bind].
    rewrite (scan_dec_run m t Ht (c :: ds)) by (done || simpl in *; lia). done.
Qed.

(** strtoul of an unsigned number in range. *)
Lemma strtoul_run m nptr base ws sg ds t : number_at m nptr base ws sg ds t -> negative sg = false ->
  value base 0 ds < 4294967296 ->
  strtoul m nptr base = Some (value base 0 ds, nptr + Z.of_nat (length (ws ++ sg ++ ds))).
Proof.
  intros H Hsg Hmax. pose proof (strto_start_run _ _ _ _ _ _ _ H) as Hst. pose proof (strto_base_run _ _ _ _ _ _ _ H) as Hba.
  assert (Hb := num_base _ _ _ _ _ _ _ H).
  unfold strtoul. destruct (strto_space (str_fuel m) m nptr) as [[c s]|]; cbn [mbind option_bind] in Hst |- *; [|done].
  rewrite Hst. cbn [mbind option_bind]. rewrite Hba. cbn [mbind option_bind]. rewrite (u32_id base) by (unfold is_u32; lia).
  destruct (strto_digits_run _ _ _ _ _ _ _ H 4294967295) as (acc & any & -> & Hres); [lia|].
  cbn [mbind option_bind]. rewrite (proj2 (Z.ltb_ge _ _)) in Hres by lia. destruct Hres as [-> ->]. rewrite Hsg.
  rewrite !length_app. simpl. f_equal. f_equal. lia.
Qed.
