(* ===== verification/Doprnt.v ===== *)
(** Formatted output: lib/doprnt.c, lib/fdoprnt.c and lib/sprintf.c.

    [_doprnt] and [_fdoprnt] differ in the order of the arguments of [func] and in
    the conversions %H and %h; one definition has a flag for them.  The state is
    the byte memory of Cstring.v with what the output function keeps ([D]).  The
    buffer [string] is a local array of 20 bytes: a write outside it, and a read
    of a byte that was never written, is [None].  It keeps its contents from one
    conversion to the next.  The variable arguments are the list of the 32-bit
    words that are left. *)

From S2P Require Import Prelude Types Cstring Clib.

(** * The digits of a number *)

(** [string[i] = v], and the copy of [l] to [string + i]. *)
Definition put (i v : Z) (string : gmap Z Z) : option (gmap Z Z) :=
  if (0 <=? i) && (i <? 20) then Some (<[i := u8 v]> string) else None.
Fixpoint puts (i : Z) (l : list Z) (string : gmap Z Z) : option (gmap Z Z) :=
  match l with
  | [] => Some string
  | v :: l => string ← put i v string; puts (i + 1) l string
  end.

(** [for (i = n; temp[i] == '0'; i--)] *)
Fixpoint prt_scan (temp : list Z) (i : nat) : option nat :=
  c ← temp !! i;
  if c =? 48 then match i with O => None | S i => prt_scan temp i end else Some i.

(** The end of each _prt function: the digits in [temp] from the first that is not
    '0' down to [temp[0]], which is the terminating zero. *)
Definition prt_out (temp : list Z) (n : nat) (i : Z) (string : gmap Z Z) : option (gmap Z Z) :=
  k ← prt_scan temp n;
  let k := if (k =? 0)%nat then 1%nat else k in
  puts i (reverse (take (S k) temp)) string.

(** The loops that fill [temp[1]] to [temp[n]]. *)
Fixpoint digits10 (n : nat) (num : Z) : list Z :=
  match n with
  | O => []
  | S n => u8 (Z.rem num 10 + 48) :: digits10 n (Z.quot num 10)
  end.
Fixpoint digits8 (n : nat) (num : Z) : list Z :=
  match n with
  | O => []
  | S n => u8 (Z.land num 7 + 48) :: digits8 n (Z.shiftr num 3)
  end.
Fixpoint digits16 (tab : list Z) (n : nat) (num : Z) : list Z :=
  match n with
  | O => []
  | S n => default 0 (tab !! Z.to_nat (Z.land num 15)) :: digits16 tab n (Z.shiftr num 4)
  end.
Fixpoint digits2 (n : nat) (num : Z) : list Z :=
  match n with
  | O => []
  | S n => (if Z.rem num 2 =? 0 then 48 else 49) :: digits2 n (Z.shiftr num 1)
  end.

(** ["0123456789abcdef"] and ["0123456789ABCDEF"] *)
Definition lowdigits : list Z := [48; 49; 50; 51; 52; 53; 54; 55; 56; 57; 97; 98; 99; 100; 101; 102].
Definition updigits : list Z := [48; 49; 50; 51; 52; 53; 54; 55; 56; 57; 65; 66; 67; 68; 69; 70].

(** lib/doprnt.c: _prtl10, _prtl8, _prtl16, _prtX16, _prtl2; [str] is [string + i]. *)
Definition _prtl10 (num i : Z) (string : gmap Z Z) : option (gmap Z Z) :=
  prt_out (0 :: digits10 10 num) 10 i string.
Definition _prtl8 (num i : Z) (string : gmap Z Z) : option (gmap Z Z) :=
  let temp := 0 :: digits8 11 num in
  prt_out (alter (λ c, Z.land c 51) 11%nat temp) 11 i string.
Definition _prtl16 (num i : Z) (string : gmap Z Z) : option (gmap Z Z) :=
  prt_out (0 :: digits16 lowdigits 8 num) 8 i string.
Definition _prtX16 (num i : Z) (string : gmap Z Z) : option (gmap Z Z) :=
  prt_out (0 :: digits16 updigits 8 num) 8 i string.
Definition _prtl2 (num i : Z) (string : gmap Z Z) : option (gmap Z Z) :=
  prt_out (0 :: digits2 32 num) 32 i string.

(** * _doprnt *)

(** What [str] points to: [string], the caller's memory, or the literal "(null)". *)
Inductive strptr := OnStack | InMem (a : Z) | NullText.

Definition null_text : list Z := [40; 110; 117; 108; 108; 41; 0].

(** [str[i]] *)
Definition str_get (m : bmem) (string : gmap Z Z) (str : strptr) (i : Z) : option Z :=
  match str with
  | OnStack => string !! i
  | InMem a => ldb m (a + i)
  | NullText => null_text !! Z.to_nat i
  end.

(** [va_arg(ap, int)] *)
Definition va_arg (ap : list Z) : option (Z * list Z) :=
  match ap with [] => None | x :: ap => Some (x, ap) end.

(** [for (length = 0; str[length] != '\0'; length++)] *)
Fixpoint str_length (fuel : nat) (m : bmem) (string : gmap Z Z) (str : strptr) (length : Z) : option Z :=
  match fuel with
  | O => None
  | S fuel =>
      c ← str_get m string str length;
      if c =? 0 then Some length else str_length fuel m string str (length + 1)
  end.

(** A width or a precision: [*] or digits. *)
Definition parse_width (m : bmem) (fmt : Z) (ap : list Z) : option (Z * Z * list Z) :=
  c ← ldb m fmt;
  if c =? 42 then '(w, ap) ← va_arg ap; Some (w, fmt + 1, ap)
  else '(w, fmt) ← scan_dec (str_fuel m) m fmt 0; Some (w, fmt, ap).

(** The flags, the field specifications and the format character behind a '%'. *)
Record spec := Spec { leftjust : bool; fill : Z; fmin : Z; fmax : Z; fchar : Z }.

Definition parse_spec (m : bmem) (fmt : Z) (ap : list Z) : option (spec * Z * list Z) :=
  c ← ldb m fmt;
  let leftjust := c =? 45 in
  let fmt := if leftjust then fmt + 1 else fmt in
  c ← ldb m fmt;
  let fill := if c =? 48 then 48 else 32 in
  let fmt := if c =? 48 then fmt + 1 else fmt in
  '(fmin, fmt, ap) ← parse_width m fmt ap;
  c ← ldb m fmt;
  '(fmax, fmt, ap) ← (if c =? 46 then parse_width m (fmt + 1) ap else Some (0, fmt, ap));
  f ← ldb m fmt;
  Some (Spec leftjust fill fmin fmax f, fmt + 1, ap).

(** [while (larg < 0) { larg -= 1000000000L; ++digit1; }] *)
Fixpoint unsign (fuel : nat) (larg digit1 : Z) : option (Z * Z) :=
  match fuel with
  | O => None
  | S fuel => if larg <? 0 then unsign fuel (s32 (larg - 1000000000)) (u8 (digit1 + 1)) else Some (larg, digit1)
  end.

(** What a conversion leaves in the local variables. *)
Record conv := Conv { cv_str : strptr; cv_sign : Z; cv_fill : Z; cv_fmax : Z }.

(** The cases of the switch, but for its default; [wide] is for %H and %h. *)
Definition convert (wide : bool) (sp : spec) (ap : list Z) (string : gmap Z Z)
    : option (option (conv * list Z * gmap Z Z)) :=
  let f := sp.(fchar) in
  let number prt :=
    '(larg, ap) ← va_arg ap;
    string ← prt larg 0 string;
    Some (Some (Conv OnStack 0 sp.(fill) 0, ap, string)) in
  let number2 prt :=
    '(larg, ap) ← va_arg ap;
    string ← prt larg 0 string;
    '(larg, ap) ← va_arg ap;
    string ← prt larg 8 string;
    Some (Some (Conv OnStack 0 sp.(fill) 0, ap, string)) in
  if f =? 99 then
    '(x, ap) ← va_arg ap;
    string ← put 0 x string;
    string ← put 1 0 string;
    Some (Some (Conv OnStack 0 32 0, ap, string))
  else if f =? 115 then
    '(a, ap) ← va_arg ap;
    Some (Some (Conv (if a =? 0 then NullText else InMem (u32 a)) 0 32 sp.(fmax), ap, string))
  else if f =? 100 then
    '(larg, ap) ← va_arg ap;
    let sign := if larg <? 0 then 45 else 0 in
    let larg := if larg <? 0 then s32 (- larg) else larg in
    string ← _prtl10 larg 0 string;
    Some (Some (Conv OnStack sign sp.(fill) sp.(fmax), ap, string))
  else if f =? 117 then
    '(larg, ap) ← va_arg ap;
    '(larg, digit1) ← unsign 5 larg 0;
    string ← _prtl10 larg 0 string;
    c ← string !! 0;
    string ← put 0 (c + digit1) string;
    Some (Some (Conv OnStack 0 sp.(fill) 0, ap, string))
  else if f =? 111 then number _prtl8
  else if f =? 88 then number _prtX16
  else if f =? 120 then number _prtl16
  else if wide && (f =? 72) then number2 _prtX16
  else if wide && (f =? 104) then number2 _prtl16
  else if f =? 98 then number _prtl2
  else Some None.

Section Doprnt.
Context {D : Type} (func : Z -> bmem * D -> option (bmem * D)).

(** [for (i = 0; i < n; i++) func(c)] *)
Fixpoint repeat_out (n : nat) (c : Z) (st : bmem * D) : option (bmem * D) :=
  match n with
  | O => Some st
  | S n => st ← func c st; repeat_out n c st
  end.

(** [for (i = 0; i < length; i++) func(str[i])] *)
Fixpoint str_out (n : nat) (string : gmap Z Z) (str : strptr) (i : Z) (st : bmem * D) : option (bmem * D) :=
  match n with
  | O => Some st
  | S n => c ← str_get st.1 string str i; st ← func c st; str_out n string str (i + 1) st
  end.

(** From the measurement of the string to the trailing fill characters. *)
Definition emit (leftjust : bool) (fmin : Z) (cv : conv) (string : gmap Z Z) (st : bmem * D) : option (bmem * D) :=
  length ← str_length (20 + str_fuel st.1) st.1 string cv.(cv_str) 0;
  let fmin := if (fmin >? 80) || (fmin <? 0) then 0 else fmin in
  let fmax := if (cv.(cv_fmax) >? 80) || (cv.(cv_fmax) <? 0) then 0 else cv.(cv_fmax) in
  let minus := cv.(cv_sign) =? 45 in
  let field := negb (fmax =? 0) || negb (fmin =? 0) in
  let length := if field && negb (fmax =? 0) && (length >? fmax) then fmax else length in
  let leading := if field then
      (if negb (fmin =? 0) then fmin - length else 0) - (if minus then 1 else 0) else 0 in
  st ← (if minus && (cv.(cv_fill) =? 48) then func cv.(cv_sign) st else Some st);
  st ← (if negb leftjust then repeat_out (Z.to_nat leading) cv.(cv_fill) st else Some st);
  st ← (if minus && (cv.(cv_fill) =? 32) then func cv.(cv_sign) st else Some st);
  st ← str_out (Z.to_nat length) string cv.(cv_str) 0 st;
  if leftjust then repeat_out (Z.to_nat leading) cv.(cv_fill) st else Some st.

(** The loop over the format. *)
Fixpoint doprnt_loop (fuel : nat) (wide : bool) (fmt : Z) (ap : list Z) (string : gmap Z Z)
    (st : bmem * D) : option (bmem * D) :=
  match fuel with
  | O => None
  | S fuel =>
      c ← ldb st.1 fmt;
      if negb (c =? 37) then
        if c =? 0 then Some st else st ← func c st; doprnt_loop fuel wide (fmt + 1) ap string st
      else
        c ← ldb st.1 (fmt + 1);
        if c =? 37 then st ← func c st; doprnt_loop fuel wide (fmt + 2) ap string st
        else
          '(sp, fmt, ap) ← parse_spec st.1 (fmt + 1) ap;
          if sp.(fchar) =? 0 then func 37 st
          else
            cv ← convert wide sp ap string;
            '(cv, ap, string, st) ←
              match cv with
              | Some (cv, ap, string) => Some (cv, ap, string, st)
              | None =>
                  st ← func sp.(fchar) st;
                  Some (Conv OnStack 0 sp.(fill) sp.(fmax), ap, string, st)
              end;
            st ← emit sp.(leftjust) sp.(fmin) cv string st;
            doprnt_loop fuel wide fmt ap string st
  end.

(** lib/doprnt.c: _doprnt, lib/fdoprnt.c: _fdoprnt *)
Definition _doprnt (fmt : Z) (ap : list Z) (st : bmem * D) : option (bmem * D) :=
  doprnt_loop (str_fuel st.1) true fmt ap ∅ st.
Definition _fdoprnt (fmt : Z) (ap : list Z) (st : bmem * D) : option (bmem * D) :=
  doprnt_loop (str_fuel st.1) false fmt ap ∅ st.
End Doprnt.

(** * sprintf *)

(** lib/sprintf.c: sprntf; the device word is the cursor. *)
Definition sprntf (ac : Z) (st : bmem * Z) : option (bmem * Z) :=
  let '(m, s) := st in m ← stb s (u8 ac) m; Some (m, s + 1).

(** lib/sprintf.c: sprintf *)
Definition sprintf (str fmt : Z) (args : list Z) (m : bmem) : option (Z * bmem) :=
  '(m, s) ← _fdoprnt sprntf fmt args (m, str);
  m ← stb s 0 m;
  Some (str, m).

#[local] Arguments Z.eqb : simpl never.
#[local] Arguments Z.ltb : simpl never.
#[local] Arguments Z.leb : simpl never.
#[local] Arguments Z.mul : simpl never.
#[local] Arguments Z.add : simpl never.
#[local] Arguments Z.sub : simpl never.

(** * The digits *)

(** The buffer holds the bytes [l] from its start. *)
Definition holds (string : gmap Z Z) (l : list Z) : Prop :=
  ∀ i c, l !! i = Some c -> string !! Z.of_nat i = Some c.

Lemma puts_run l : ∀ i string, 0 <= i -> i + Z.of_nat (length l) <= 20 -> Forall (λ c, 0 <= c < 256) l ->
  ∃ string', puts i l string = Some string' /\
    (∀ k c, l !! k = Some c -> string' !! (i + Z.of_nat k) = Some c) /\
    (∀ k, k < i -> string' !! k = string !! k).
Proof.
  induction l as [|v l IH]; intros i string Hi Hl Hb; simpl in Hl; cbn [puts].
  { exists string. split; [done|]. split; [|done]. intros k c Hc. by rewrite lookup_nil in Hc. }
  apply Forall_cons in Hb as [Hv Hb]. unfold put.
  rewrite (proj2 (Z.leb_le 0 i)), (proj2 (Z.ltb_lt i 20)) by lia. simpl.
  destruct (IH (i + 1) (<[i:=u8 v]> string)) as (string' & -> & Hin & Hout); [lia|lia|done|].
  exists string'. split; [done|]. split.
  - intros [|k] c Hc; simpl in Hc.
    + simplify_eq. rewrite Z.add_0_r, Hout by lia. rewrite lookup_insert_eq. unfold u8. by rewrite Z.mod_small.
    + replace (i + Z.of_nat (S k)) with (i + 1 + Z.of_nat k) by lia. by apply Hin.
  - intros k Hk. rewrite Hout by lia. by rewrite lookup_insert_ne by lia.
Qed.

Lemma puts_overflow l : ∀ i string, 0 <= i <= 20 -> 20 < i + Z.of_nat (length l) -> puts i l string = None.
Proof.
  induction l as [|v l IH]; intros i string Hi Hl; cbn [length] in Hl; [simpl in Hl; lia|]. cbn [puts]. unfold put.
  rewrite (proj2 (Z.leb_le 0 i)) by lia. simpl. destruct (Z.ltb_spec i 20); [|done]. simpl. apply IH; lia.
Qed.

Lemma puts_holds l string : Z.of_nat (length l) <= 20 -> Forall (λ c, 0 <= c < 256) l ->
  ∃ string', puts 0 l string = Some string' /\ holds string' l.
Proof.
  intros Hl Hb. destruct (puts_run l 0 string) as (string' & Hp & Hin & _); [lia|lia|done|].
  exists string'. split; [done|]. intros i c Hc. specialize (Hin i c Hc). by rewrite Z.add_0_l in Hin.
Qed.

Lemma value_app base v l1 l2 : value base v (l1 ++ l2) = value base (value base v l1) l2.
Proof. apply fold_left_app. Qed.

(** prt_scan looks only at the part of [temp] below its start. *)
Lemma prt_scan_app temp temp' : ∀ i, (i < length temp)%nat -> prt_scan (temp ++ temp') i = prt_scan temp i.
Proof.
  induction i as [|i IH]; intros Hi; cbn [prt_scan]; rewrite lookup_app_l by done; [done|].
  destruct (temp !! S i); [|done]. simpl. case_if; [|done]. apply IH. lia.
Qed.

(** What is written: the digits without leading zeros, which have the same
    value. *)
Lemma prt_out_run base l i string : 1 <= base -> l ≠ [] -> Forall (is_digit base) l ->
  ∃ ds, prt_out (0 :: l) (length l) i string = puts i (ds ++ [0]) string /\
    ds ≠ [] /\ Forall (is_digit base) ds /\ value base 0 ds = value base 0 (reverse l) /\
    (length ds <= length l)%nat /\ (head ds = Some 48 -> ds = [48]).
Proof.
  intros Hb. induction l as [|c l IH] using rev_ind; intros Hne Hl; [done|]. apply Forall_app in Hl as [Hl Hc].
  apply Forall_cons in Hc as [Hc _]. unfold prt_out. rewrite length_app. simpl length. rewrite Nat.add_1_r.
  cbn [prt_scan]. change ((0 :: l ++ [c]) !! S (length l)) with ((l ++ [c]) !! length l).
  rewrite list_lookup_middle by done. cbn [mbind option_bind].
  destruct (Z.eqb_spec c 48) as [->|Hc48].
  - rewrite app_comm_cons, prt_scan_app by (simpl; lia). destruct l as [|x l].
    + exists [48]. simpl. split_and!; try done. by constructor.
    + destruct IH as (ds & Hrun & Hne' & Hds & Hval & Hlen & Hhd); [done|done|].
      exists ds. unfold prt_out in Hrun.
      destruct (prt_scan (0 :: x :: l) (length (x :: l))) as [k|] eqn:E; cbn [mbind option_bind] in Hrun |- *.
      * assert (Hk : (k <= length (x :: l))%nat).
        { clear -E. revert k E. generalize (length (x :: l)) as i. induction i as [|i IH]; intros k; cbn [prt_scan].
          - destruct (_ !! 0%nat); [|done]. simpl. case_if; [done|]. by intros [= <-].
          - destruct (_ !! S i); [|done]. simpl. case_if; [|by intros [= <-]]. intros Hk. apply IH in Hk. lia. }
        assert (Hk2 : (S (if (k =? 0)%nat then 1%nat else k) <= length (0%Z :: x :: l))%nat) by (destruct k; simpl in *; lia).
        rewrite take_app_le by exact Hk2. split; [done|].
        split; [done|]. split; [done|]. split; [|split; [lia|done]].
        rewrite reverse_app, reverse_singleton, value_app. rewrite Hval. unfold value at 3. simpl. done.
      * exfalso. assert (E' : ∀ i, (i <= length (x :: l))%nat -> prt_scan (0 :: x :: l) i ≠ None).
        { clear. induction i as [|i IH]; intros Hi; [done|]. cbn [prt_scan].
          destruct (lookup_lt_is_Some_2 (0 :: x :: l) (S i)) as [y Hy]; [simpl in *; lia|]. rewrite Hy. simpl.
          case_if; [|done]. apply IH. lia. }
        by apply (E' (length (x :: l))).
  - exists (reverse (l ++ [c])). cbn [mbind option_bind Nat.eqb]. rewrite firstn_all2 by (simpl; rewrite length_app; simpl; lia).
    rewrite reverse_cons. split; [done|]. split; [rewrite reverse_app; done|]. split.
    { rewrite reverse_app, reverse_singleton. constructor; [done|]. by apply Forall_reverse. }
    split; [done|]. split; [rewrite length_reverse, length_app; simpl; lia|].
    rewrite reverse_app, reverse_singleton. by intros [= ->].
Qed.

Lemma digit_byte base c : is_digit base c -> 0 < c < 128.
Proof.
  intros (d & Hd & _). pose proof (dval_range c d Hd) as [Hc _].
  destruct (decide (c = 0)) as [->|]; [done|lia].
Qed.

(** The number that the digits of [v] in base [base] are written for: [ds] is in
    the buffer, without leading zeros and with a zero byte behind it. *)
Definition printed (base v : Z) (string : gmap Z Z) (ds : list Z) : Prop :=
  holds string (ds ++ [0]) /\ ds ≠ [] /\ Forall (is_digit base) ds /\ value base 0 ds = v /\
  (head ds = Some 48 -> ds = [48]).

Lemma prt_printed base n l v string : 1 <= base -> length l = n -> (0 < n <= 19)%nat -> Forall (is_digit base) l ->
  value base 0 (reverse l) = v ->
  ∃ ds string', prt_out (0 :: l) n 0 string = Some string' /\ printed base v string' ds /\
    (length ds <= n)%nat.
Proof.
  intros Hb <- Hlen Hl Hv. assert (Hne : l ≠ []) by (intros ->; simpl in Hlen; lia).
  destruct (prt_out_run base l 0 string Hb Hne Hl) as (ds & -> & Hne' & Hds & Hval & Hlen' & Hhd).
  destruct (puts_holds (ds ++ [0]) string) as (string' & Hp & Hh).
  - rewrite length_app. simpl. lia.
  - apply Forall_app. split; [|by repeat constructor]. eapply Forall_impl; [exact Hds|].
    intros c Hc. apply digit_byte in Hc. lia.
  - exists ds, string'. split; [done|]. split; [|done]. unfold printed. rewrite Hval. auto.
Qed.

Lemma digits10_value n : ∀ num, 0 <= num < 10 ^ Z.of_nat n ->
  Forall decimal (digits10 n num) /\ length (digits10 n num) = n /\ value 10 0 (reverse (digits10 n num)) = num.
Proof.
  induction n as [|n IH]; intros num Hn; cbn [digits10].
  { simpl in Hn. split; [done|]. split; [done|]. unfold value. simpl. lia. }
  rewrite Nat2Z.inj_succ, Z.pow_succ_r in Hn by lia.
  rewrite Z.rem_mod_nonneg, Z.quot_div_nonneg by lia.
  pose proof (Z.mod_pos_bound num 10 ltac:(lia)). pose proof (Z.div_mod num 10 ltac:(lia)).
  destruct (IH (num / 10)) as (Hd & Hlen & Hv).
  { split; [apply Z.div_pos; lia|apply Z.div_lt_upper_bound; lia]. }
  assert (Hc : u8 (num mod 10 + 48) = num mod 10 + 48) by (unfold u8; rewrite Z.mod_small; lia). rewrite Hc.
  assert (Hdec : decimal (num mod 10 + 48)) by (unfold decimal; lia).
  split; [by constructor|]. split; [by rewrite <- Hlen at 2|].
  rewrite reverse_cons, value_app, Hv. unfold value. simpl. rewrite (proj2 (decimal_digit _ Hdec)). simpl. lia.
Qed.

(** The digits of the functions that shift. *)
Fixpoint shifted (bits : Z) (f : Z -> Z) (n : nat) (num : Z) : list Z :=
  match n with O => [] | S n => f num :: shifted bits f n (Z.shiftr num bits) end.

Lemma shifted_value bits f n : 0 < bits ->
  (∀ num, dval (f num) = Some (num mod 2 ^ bits)) -> ∀ num,
  Forall (is_digit (2 ^ bits)) (shifted bits f n num) /\ length (shifted bits f n num) = n /\
  value (2 ^ bits) 0 (reverse (shifted bits f n num)) = num mod (2 ^ bits) ^ Z.of_nat n.
Proof.
  intros Hb Hf. assert (Hpos : 0 < 2 ^ bits) by (apply Z.pow_pos_nonneg; lia).
  induction n as [|n IH]; intros num; cbn [shifted].
  { split; [done|]. split; [done|]. by rewrite Z.pow_0_r, Z.mod_1_r. }
  destruct (IH (Z.shiftr num bits)) as (Hd & Hlen & Hv). pose proof (Z.mod_pos_bound num (2 ^ bits) Hpos).
  split; [constructor; [exists (num mod 2 ^ bits); split; [apply Hf|lia]|done]|]. split; [by rewrite <- Hlen at 2|].
  rewrite reverse_cons, value_app, Hv. unfold value. simpl. rewrite Hf. simpl. rewrite Z.shiftr_div_pow2 by lia.
  rewrite Nat2Z.inj_succ, Z.pow_succ_r, Z.rem_mul_r by (try apply Z.pow_pos_nonneg; lia). lia.
Qed.

Lemma digit_table (tab : list Z) : (∀ d, 0 <= d < 16 -> dval (default 0 (tab !! Z.to_nat d)) = Some d) ->
  ∀ num, dval (default 0 (tab !! Z.to_nat (Z.land num 15))) = Some (num mod 2 ^ 4).
Proof.
  intros H num. change 15 with (Z.ones 4). rewrite Z.land_ones by lia. apply H. apply Z.mod_pos_bound. lia.
Qed.

Lemma hex_cases (P : Z -> bool) : forallb P (seqZ 0 16) = true -> ∀ d, 0 <= d < 16 -> P d = true.
Proof. intros H d Hd. rewrite forallb_forall in H. apply H. apply list_elem_of_In, elem_of_seqZ. lia. Qed.

Lemma digits16_value (tab : list Z) : tab = lowdigits \/ tab = updigits -> ∀ num,
  Forall (is_digit 16) (digits16 tab 8 num) /\ length (digits16 tab 8 num) = 8%nat /\
  value 16 0 (reverse (digits16 tab 8 num)) = u32 num.
Proof.
  intros Ht num. change 16 with (2 ^ 4).
  assert (Heq : ∀ n num, digits16 tab n num = shifted 4 (λ num, default 0 (tab !! Z.to_nat (Z.land num 15))) n num)
    by (induction n as [|n IH]; intros x; [done|]; cbn [digits16 shifted]; by rewrite IH).
  rewrite Heq.
  apply (shifted_value 4 (λ num, default 0 (tab !! Z.to_nat (Z.land num 15))) 8); [lia|]. apply digit_table. intros d Hd.
  destruct Ht as [-> | ->].
  - pose proof (hex_cases (λ d, bool_decide (dval (default 0 (lowdigits !! Z.to_nat d)) = Some d)) ltac:(by vm_compute) d Hd) as H.
    by apply bool_decide_eq_true_1 in H.
  - pose proof (hex_cases (λ d, bool_decide (dval (default 0 (updigits !! Z.to_nat d)) = Some d)) ltac:(by vm_compute) d Hd) as H.
    by apply bool_decide_eq_true_1 in H.
Qed.

Lemma shifted_snoc bits f n : 0 <= bits -> ∀ num,
  shifted bits f (S n) num = shifted bits f n num ++ [f (Z.shiftr num (bits * Z.of_nat n))].
Proof.
  intros Hb. induction n as [|n IH]; intros num.
  - simpl. by rewrite Z.mul_0_r, Z.shiftr_0_r.
  - change (shifted bits f (S (S n)) num) with (f num :: shifted bits f (S n) (Z.shiftr num bits)). rewrite IH.
    cbn [shifted app]. do 4 f_equal. rewrite Z.shiftr_shiftr by lia. f_equal. lia.
Qed.

Lemma value_cons base v c l : value base v (c :: l) = value base (v * base + default 0 (dval c)) l.
Proof. done. Qed.

Lemma value_lead base l : ∀ v, value base v l = v * base ^ Z.of_nat (length l) + value base 0 l.
Proof.
  induction l as [|c l IH]; intros v.
  - unfold value. simpl. lia.
  - rewrite !value_cons, IH, (IH (0 * base + _)). cbn [length]. rewrite Nat2Z.inj_succ, Z.pow_succ_r by lia. lia.
Qed.

(** The top octal digit has only two bits: [temp[11] &= '3']. *)
Lemma top_digit num : let c := Z.land (u8 (Z.land num 7 + 48)) 51 in dval c = Some (num mod 4).
Proof.
  change 7 with (Z.ones 3). rewrite Z.land_ones by lia. change (2 ^ 3) with 8.
  replace (num mod 4) with ((num mod 8) mod 4) by (Z.to_euclidean_division_equations; lia).
  pose proof (Z.mod_pos_bound num 8 ltac:(lia)) as Hd. set (d := num mod 8) in *.
  pose proof (hex_cases (λ d, bool_decide (dval (Z.land (u8 (d + 48)) 51) = Some (d mod 4))) ltac:(by vm_compute) d ltac:(lia)) as H.
  by apply bool_decide_eq_true_1 in H.
Qed.

Lemma digits8_value num :
  let l := alter (λ c, Z.land c 51) 10%nat (digits8 11 num) in
  Forall (is_digit 8) l /\ length l = 11%nat /\ value 8 0 (reverse l) = u32 num.
Proof.
  set (f := λ num, u8 (Z.land num 7 + 48)).
  assert (Hf : ∀ num, dval (f num) = Some (num mod 2 ^ 3)).
  { intros n. unfold f. change 7 with (Z.ones 3). rewrite Z.land_ones by lia. change (2 ^ 3) with 8.
    pose proof (Z.mod_pos_bound n 8 ltac:(lia)) as Hd. set (d := n mod 8) in *.
    pose proof (hex_cases (λ d, bool_decide (d < 8 -> dval (u8 (d + 48)) = Some d)) ltac:(by vm_compute) d ltac:(lia)) as H.
    apply bool_decide_eq_true_1 in H. apply H. lia. }
  assert (Heq : ∀ n num, digits8 n num = shifted 3 f n num)
    by (induction n as [|n IH]; intros x; [done|]; cbn [digits8 shifted]; by rewrite IH).
  rewrite Heq, shifted_snoc by lia.
  destruct (shifted_value 3 f 10 ltac:(lia) Hf num) as (Hd & Hlen & Hv).
  assert (Halt : ∀ l c, length l = 10%nat -> alter (λ c, Z.land c 51) 10%nat (l ++ [c]) = l ++ [Z.land c 51]).
  { intros l c Hl. rewrite <- (Nat.add_0_r 10), <- Hl at 1. by rewrite alter_app_r. }
  rewrite Halt by done. set (q := Z.shiftr num (3 * Z.of_nat 10)).
  pose proof (top_digit q) as Ht. cbv zeta in Ht. fold (f q) in Ht.
  split; [|split].
  - apply Forall_app. split; [done|]. constructor; [|done]. exists (q mod 4). split; [done|].
    pose proof (Z.mod_pos_bound q 4). lia.
  - rewrite length_app, Hlen. done.
  - rewrite reverse_app, reverse_singleton. change ([Z.land (f q) 51] ++ reverse (shifted 3 f 10 num))
      with (Z.land (f q) 51 :: reverse (shifted 3 f 10 num)).
    rewrite value_cons, Ht, value_lead, length_reverse, Hlen. change (2 ^ 3) with 8 in Hv. rewrite Hv. simpl default.
    unfold q. rewrite Z.shiftr_div_pow2 by lia. change (3 * Z.of_nat 10) with 30. change (8 ^ Z.of_nat 10) with 1073741824.
    change (2 ^ 30) with 1073741824. unfold u32. change 4294967296 with (1073741824 * 4).
    rewrite (Z.rem_mul_r num 1073741824 4) by lia. lia.
Qed.

(** The decimal digits: also of an unsigned number, whose first digit is
    corrected afterwards. *)
Lemma value_lt base l : 1 < base -> Forall (is_digit base) l -> 0 <= value base 0 l < base ^ Z.of_nat (length l).
Proof.
  intros Hb. induction l as [|c l IH] using rev_ind; intros Hl; [unfold value; simpl; lia|].
  apply Forall_app in Hl as [Hl Hc]. apply Forall_cons in Hc as [(d & Hd & Hlt) _]. specialize (IH Hl).
  pose proof (dval_range c d Hd). rewrite value_app, length_app. simpl length.
  rewrite Nat2Z.inj_add, Z.pow_add_r, Z.pow_1_r by lia. unfold value at 1 3. simpl. rewrite Hd. simpl. nia.
Qed.

Lemma decimal_of_digit c : is_digit 10 c -> decimal c.
Proof. intros (d & Hd & Hlt). unfold dval, decimal in *. repeat case_match; simplify_eq; bool_hyps; lia. Qed.

Lemma _prtl10_run num string : 0 <= num < 10 ^ 10 -> ∃ ds string', _prtl10 num 0 string = Some string' /\
  printed 10 num string' ds /\ (length ds <= 10)%nat.
Proof.
  intros Hn. destruct (digits10_value 10 num Hn) as (Hd & Hlen & Hv). unfold _prtl10.
  apply prt_printed; [lia|done|lia| |done].
  eapply Forall_impl; [exact Hd|]. intros c Hc. by apply decimal_digit.
Qed.

Lemma _prtl8_run num string : ∃ ds string', _prtl8 num 0 string = Some string' /\
  printed 8 (u32 num) string' ds /\ (length ds <= 11)%nat.
Proof.
  destruct (digits8_value num) as (Hd & Hlen & Hv). unfold _prtl8.
  change (alter (λ c, Z.land c 51) 11%nat (0 :: digits8 11 num)) with (0 :: alter (λ c, Z.land c 51) 10%nat (digits8 11 num)).
  apply prt_printed; [lia|done|lia|done|done].
Qed.

Lemma _prt16_run (tab : list Z) num string : tab = lowdigits \/ tab = updigits -> ∃ ds string',
  prt_out (0 :: digits16 tab 8 num) 8 0 string = Some string' /\
  printed 16 (u32 num) string' ds /\ (length ds <= 8)%nat.
Proof.
  intros Ht. destruct (digits16_value tab Ht num) as (Hd & Hlen & Hv).
  apply prt_printed; [lia|done|lia|done|done].
Qed.

(** * The output *)

Section Output.
Context {D : Type} (func : Z -> bmem * D -> option (bmem * D)).

(** Writing the characters [l] one after the other. *)
Fixpoint outs (l : list Z) (st : bmem * D) : option (bmem * D) :=
  match l with [] => Some st | c :: l => st ← func c st; outs l st end.

Lemma outs_app l1 l2 st : outs (l1 ++ l2) st = (st ← outs l1 st; outs l2 st).
Proof. revert st. induction l1 as [|c l1 IH]; intros st; simpl; [done|]. destruct (func c st); simpl; auto. Qed.

Lemma repeat_out_outs n c st : repeat_out func n c st = outs (replicate n c) st.
Proof. revert st. induction n as [|n IH]; intros st; simpl; [done|]. destruct (func c st); simpl; auto. Qed.

Lemma str_out_outs string ds : ∀ i st, (∀ k c, ds !! k = Some c -> string !! (i + Z.of_nat k) = Some c) ->
  str_out func (length ds) string OnStack i st = outs ds st.
Proof.
  induction ds as [|c ds IH]; intros i st H; [done|]. cbn [length str_out outs]. unfold str_get.
  assert (Hc : string !! i = Some c) by (rewrite <- (Z.add_0_r i); by apply (H 0%nat)).
  rewrite Hc. cbn [mbind option_bind]. destruct (func c st) as [st'|]; [|done]. simpl.
  apply IH. intros k x Hx. replace (i + 1 + Z.of_nat k) with (i + Z.of_nat (S k)) by lia. by apply (H (S k)).
Qed.

Lemma str_length_run m string ds : Forall (λ c, c ≠ 0) ds -> ∀ fuel i, (length ds < fuel)%nat ->
  (∀ k c, (ds ++ [0]) !! k = Some c -> string !! (i + Z.of_nat k) = Some c) ->
  str_length fuel m string OnStack i = Some (i + Z.of_nat (length ds)).
Proof.
  induction 1 as [|c ds Hc Hds IH]; intros [|fuel] i Hf H; simpl in Hf; try lia; cbn [str_length]; unfold str_get.
  - assert (Hz : string !! i = Some 0) by (rewrite <- (Z.add_0_r i); by apply (H 0%nat)). rewrite Hz. simpl. f_equal. lia.
  - assert (Hi : string !! i = Some c) by (rewrite <- (Z.add_0_r i); by apply (H 0%nat)). rewrite Hi. cbn [mbind option_bind].
    rewrite (proj2 (Z.eqb_neq c 0)) by done. rewrite IH; [f_equal; simpl length; lia|lia|].
    intros k x Hx. replace (i + 1 + Z.of_nat k) with (i + Z.of_nat (S k)) by lia. by apply (H (S k)).
Qed.

(** The width that counts: a request out of range is ignored. *)
Definition width (fmin : Z) : Z := if (fmin >? 80) || (fmin <? 0) then 0 else fmin.

(** The field a number is printed in: fill characters up to the width, between
    the sign and the digits when they are zeros. *)
Definition field (leftjust : bool) (fmin fill : Z) (minus : bool) (ds : list Z) : list Z :=
  let sg := if minus then [45] else [] in
  let pad := replicate (Z.to_nat (width fmin - Z.of_nat (length ds) - (if minus then 1 else 0))) fill in
  if leftjust then sg ++ ds ++ pad else if fill =? 48 then sg ++ pad ++ ds else pad ++ sg ++ ds.

Lemma emit_run leftjust fmin fill (minus : bool) ds string st :
  holds string (ds ++ [0]) -> Forall (λ c, c ≠ 0) ds -> (length ds <= 19)%nat -> fill = 32 \/ fill = 48 ->
  emit func leftjust fmin (Conv OnStack (if minus then 45 else 0) fill 0) string st
  = outs (field leftjust fmin fill minus ds) st.
Proof.
  intros Hh Hnz Hlen Hfill. unfold emit. cbn [cv_str cv_sign cv_fill cv_fmax].
  rewrite (str_length_run st.1 string ds Hnz) by (try lia; exact Hh). cbn [mbind option_bind].
  fold (width fmin). change ((0 >? 80) || (0 <? 0)) with false. cbn [Z.eqb negb orb andb].
  set (w := width fmin). change (0 =? 0) with true. cbn [negb orb andb]. rewrite andb_false_r. cbn [andb]. rewrite Z.add_0_l, Nat2Z.id.
  assert (Hlead : Z.to_nat (if negb (w =? 0) then (if negb (w =? 0) then w - Z.of_nat (length ds) else 0)
       - (if (if minus then 45 else 0) =? 45 then 1 else 0) else 0)
    = Z.to_nat (w - Z.of_nat (length ds) - (if minus then 1 else 0))).
  { destruct (Z.eqb_spec w 0) as [->|]; destruct minus; simpl; lia. }
  rewrite Hlead. unfold field. fold w. set (pad := replicate _ fill).
  assert (Hm : ((if minus then 45 else 0) =? 45) = minus) by by destruct minus. rewrite Hm.
  assert (Hds : ∀ st, str_out func (length ds) string OnStack 0 st = outs ds st).
  { intros st'. apply str_out_outs. intros k c Hc. rewrite Z.add_0_l. apply Hh. by apply lookup_app_l_Some. }
  destruct Hfill as [-> | ->]; [change (32 =? 48) with false; change (32 =? 32) with true|
    change (48 =? 32) with false; change (48 =? 48) with true]; rewrite ?andb_false_r, ?andb_true_r;
    destruct leftjust, minus; cbn [negb mbind option_bind app];
    rewrite ?outs_app; cbn [outs]; rewrite ?repeat_out_outs; fold pad;
    repeat (rewrite ?outs_app, ?Hds; first [done | match goal with
      | |- context [func ?c ?s] => destruct (func c s); cbn [mbind option_bind]
      | |- context [outs pad ?s] => destruct (outs pad s); cbn [mbind option_bind]
      | |- context [outs ds ?s] => destruct (outs ds s); cbn [mbind option_bind] end;
      rewrite ?repeat_out_outs; fold pad]).
Qed.

Lemma field_length leftjust fmin fill minus ds :
  Z.of_nat (length (field leftjust fmin fill minus ds))
  = Z.max (width fmin) (Z.of_nat (length ds) + if minus then 1 else 0).
Proof.
  unfold field. destruct leftjust, minus, (fill =? 48); rewrite ?length_app, ?length_replicate; cbn [length]; lia.
Qed.
End Output.
(** * Directives *)

Section Directives.
Context {D : Type} (func : Z -> bmem * D -> option (bmem * D)).

(** An output function that leaves memory alone, as putc of a device does. *)
Definition on_device : Prop := ∀ c st, ∃ d, func c st = Some (st.1, d).

Lemma outs_device : on_device -> ∀ l st, ∃ d, outs func l st = Some (st.1, d).
Proof.
  intros Hf. induction l as [|c l IH]; intros [m d]; simpl; [by exists d|].
  destruct (Hf c (m, d)) as [d' ->]. simpl. apply IH.
Qed.

(** The digits of [%d]. *)
Lemma convert_d wide sp v ap string : sp.(fchar) = 100 -> -2147483648 < v < 2147483648 ->
  ∃ ds string', convert wide sp (v :: ap) string
    = Some (Some (Conv OnStack (if v <? 0 then 45 else 0) sp.(fill) sp.(fmax), ap, string')) /\
    printed 10 (Z.abs v) string' ds /\ (length ds <= 10)%nat.
Proof.
  intros Hf Hv. unfold convert. rewrite Hf.
  change (100 =? 99) with false. change (100 =? 115) with false. change (100 =? 100) with true. cbv iota.
  cbn [va_arg mbind option_bind].
  assert (Habs : (if v <? 0 then s32 (- v) else v) = Z.abs v).
  { destruct (Z.ltb_spec v 0); [rewrite s32_id by (unfold is_s32; lia)|]; lia. }
  rewrite Habs. destruct (_prtl10_run (Z.abs v) string) as (ds & string' & -> & Hp & Hlen); [lia|].
  exists ds, string'. done.
Qed.

(** The text of a directive [%*d] with flags. *)
Definition directive (leftjust zero : bool) : list Z :=
  [37] ++ (if leftjust then [45] else []) ++ (if zero then [48] else []) ++ [42; 100; 0].

Lemma printed_nonzero base v string ds : printed base v string ds -> Forall (λ c, c ≠ 0) ds.
Proof. intros (_ & _ & Hd & _). eapply Forall_impl; [exact Hd|]. intros c Hc. apply digit_byte in Hc. lia. Qed.

(** Read the next byte of a text whose bytes are in the context. *)
Ltac next_byte m := match goal with
  | H : m !! ?a = Some _ |- context [m !! ?b] => replace b with a by lia; rewrite H; cbv [mbind option_bind Z.eqb Pos.eqb va_arg]
  end.

Lemma parse_directive leftjust zero m fmt w v : bytes_at m fmt (directive leftjust zero) ->
  parse_spec m (fmt + 1) [w; v] = Some (Spec leftjust (if zero then 48 else 32) w 0 100,
    fmt + Z.of_nat (length (directive leftjust zero)) - 1, [v]) /\
  m !! fmt = Some 37 /\ m !! (fmt + Z.of_nat (length (directive leftjust zero)) - 1) = Some 0 /\
  (∃ c, m !! (fmt + 1) = Some c /\ c ≠ 37) /\ (4 <= length (directive leftjust zero) <= size m)%nat.
Proof.
  intros Hb. pose proof (bytes_at_size _ _ _ Hb) as Hsz. unfold directive in *.
  destruct leftjust, zero; cbn [app length bytes_at] in Hb, Hsz |- *; decompose [and] Hb; clear Hb;
    (split; [|split; [done|split; [by next_byte m|split; [eexists; split; [done|lia]|lia]]]]);
    unfold parse_spec, parse_width, ldb; repeat next_byte m; repeat f_equal; lia.
Qed.

(** C28: [%*d], with any flags, prints the sign and the decimal digits of the
    number, without leading zeros, in a field of the width asked for, or as wide
    as the number if that is wider; a width above 80 or below 0 is ignored. *)
Theorem doprnt_prints_fields leftjust zero m d fmt w v :
  on_device -> bytes_at m fmt (directive leftjust zero) -> -2147483648 < v < 2147483648 ->
  ∃ ds, Forall decimal ds /\ (head ds = Some 48 -> ds = [48]) /\ value 10 0 ds = Z.abs v /\
    let out := field leftjust w (if zero then 48 else 32) (v <? 0) ds in
    _doprnt func fmt [w; v] (m, d) = outs func out (m, d) /\
    Z.of_nat (length out) = Z.max (width w) (Z.of_nat (length ds) + if v <? 0 then 1 else 0).
Proof.
  intros Hf Hb Hv. set (sp := Spec leftjust (if zero then 48 else 32) w 0 100).
  destruct (convert_d true sp v [] ∅ eq_refl Hv) as (ds & string & Hconv & Hp & Hlen).
  assert (Hnz := printed_nonzero _ _ _ _ Hp). destruct Hp as (Hh & Hne & Hd & Hval & Hhd).
  exists ds. split; [eapply Forall_impl; [exact Hd|]; intros c; apply decimal_of_digit|]. do 2 (split; [done|]).
  split; [|apply field_length]. unfold _doprnt.
  destruct (parse_directive leftjust zero m fmt w v Hb) as (Hparse & H0 & Hz & (c & H1 & Hc) & Hsz).
  destruct (size m) as [|[|n]] eqn:Hn; [lia|lia|]. unfold str_fuel. cbn [fst]. rewrite Hn. clear Hn.
  assert (Hend : ∀ string st, st.1 = m -> doprnt_loop func (S (S n)) true
    (fmt + Z.of_nat (length (directive leftjust zero)) - 1) [] string st = Some st).
  { intros string' st Hst. cbn [doprnt_loop]. unfold ldb. rewrite Hst, Hz. done. }
  remember (S (S n)) as fuel eqn:Ef. cbn [doprnt_loop fst]. unfold ldb. rewrite H0. cbn [mbind option_bind].
  change (negb (37 =? 37)) with false. cbv iota. rewrite H1. cbn [mbind option_bind].
  rewrite (proj2 (Z.eqb_neq c 37)) by done. rewrite Hparse. cbn [mbind option_bind].
  fold sp. change (fchar sp =? 0) with false. cbv iota. rewrite Hconv. cbn [mbind option_bind].
  change (fmin sp) with w. change (fill sp) with (if zero then 48 else 32). change (fmax sp) with 0.
  change (Doprnt.leftjust sp) with leftjust.
  rewrite (emit_run func leftjust w _ (v <? 0) ds) by (done || lia || (by destruct zero; auto)).
  destruct (outs_device Hf (field leftjust w (if zero then 48 else 32) (v <? 0) ds) (m, d)) as [d' Ho].
  rewrite Ho. cbn [mbind option_bind]. by apply Hend.
Qed.
End Directives.

(** * sprintf *)

Lemma outs_memory l : ∀ m s, mapped m s (Z.of_nat (length l)) -> Forall (λ c, 0 <= c < 256) l ->
  ∃ m', outs sprntf l (m, s) = Some (m', s + Z.of_nat (length l)) /\ bytes_at m' s l /\
    (∀ x, x < s \/ s + Z.of_nat (length l) <= x -> m' !! x = m !! x) /\ (∀ x, is_Some (m !! x) -> is_Some (m' !! x)).
Proof.
  induction l as [|c l IH]; intros m s Hm Hl; cbn [outs length] in *.
  { exists m. split; [f_equal; f_equal; lia|]. done. }
  apply Forall_cons in Hl as [Hc Hl]. destruct (Hm s ltac:(lia)) as [y Hy].
  cbn [sprntf]. unfold stb. rewrite Hy. cbn [mbind option_bind].
  assert (Hu : u8 c = c) by (unfold u8; by rewrite Z.mod_small). rewrite Hu.
  assert (Hs : ∀ x, is_Some (m !! x) -> is_Some (<[s := c]> m !! x)).
  { intros x Hx. destruct (decide (s = x)) as [->|]; [rewrite lookup_insert_eq; eauto|by rewrite lookup_insert_ne]. }
  destruct (IH (<[s := c]> m) (s + 1)) as (m' & Hrun & Hb & Hf & Hd); [|done|].
  { intros x Hx. apply Hs, Hm. lia. }
  exists m'. split; [rewrite Hrun; do 2 f_equal; lia|]. split; [split; [|done]|].
  - rewrite Hf by lia. apply lookup_insert_eq.
  - split; [|by intros x Hx; apply Hd, Hs]. intros x Hx. rewrite Hf by lia. apply lookup_insert_ne. lia.
Qed.

(** A directive without flags and widths. *)
Lemma parse_plain m fmt f ap : m !! (fmt + 1) = Some f ->
  f ∉ [0; 37; 42; 45; 46] -> (f < 48 \/ 57 < f) ->
  parse_spec m (fmt + 1) ap = Some (Spec false 32 0 0 f, fmt + 2, ap).
Proof.
  intros H1 Hf Hfd.
  assert (Hsc : ∀ fuel, scan_dec (S fuel) m (fmt + 1) 0 = Some (0, fmt + 1)).
  { intros fuel. cbn [scan_dec]. unfold ldb. rewrite H1. cbn [mbind option_bind].
    destruct (Z.leb_spec 48 f); destruct (Z.leb_spec f 57); try done. lia. }
  unfold parse_spec, parse_width, ldb. rewrite H1. cbn [mbind option_bind].
  rewrite (proj2 (Z.eqb_neq f 45)) by set_solver. rewrite H1. cbn [mbind option_bind].
  rewrite (proj2 (Z.eqb_neq f 48)) by lia. rewrite H1. cbn [mbind option_bind].
  rewrite (proj2 (Z.eqb_neq f 42)) by set_solver. unfold str_fuel. rewrite Hsc. cbn [mbind option_bind].
  rewrite H1. cbn [mbind option_bind]. rewrite (proj2 (Z.eqb_neq f 46)) by set_solver. cbn [mbind option_bind].
  rewrite H1. cbn [mbind option_bind]. do 3 f_equal. lia.
Qed.

(** sprintf with a single conversion of a number. *)
Lemma sprintf_number m str fmt f v (minus : bool) ds string :
  bytes_at m fmt [37; f; 0] -> f ∉ [0; 37; 42; 45; 46] -> (f < 48 \/ 57 < f) ->
  convert false (Spec false 32 0 0 f) [v] ∅ = Some (Some (Conv OnStack (if minus then 45 else 0) 32 0, [], string)) ->
  holds string (ds ++ [0]) -> Forall (λ c, 0 < c < 256) ds -> (length ds <= 11)%nat -> (minus = true -> (length ds <= 10)%nat) ->
  mapped m str 12 -> (str + 12 <= fmt \/ fmt + 3 <= str) ->
  ∃ m', sprintf str fmt [v] m = Some (str, m') /\
    bytes_at m' str ((if minus then [45] else []) ++ ds ++ [0]) /\
    (∀ x, x < str \/ str + 12 <= x -> m' !! x = m !! x).
Proof.
  intros Hb Hf Hfd Hconv Hh Hds Hlen Hlen2 Hm Hsep. pose proof (bytes_at_size _ _ _ Hb) as Hsz. cbn [length] in Hsz.
  destruct Hb as (H0 & H1 & H2 & _). replace (fmt + 1 + 1) with (fmt + 2) in H2 by lia.
  unfold sprintf, _fdoprnt, str_fuel. cbn [fst]. destruct (size m) as [|n] eqn:Hn; [lia|].
  assert (Hparse := parse_plain m fmt f [v] H1 Hf Hfd).
  remember (S n) as fuel eqn:Efuel. cbn [doprnt_loop fst]. unfold ldb. rewrite H0. cbn [mbind option_bind].
  change (negb (37 =? 37)) with false. cbv iota. rewrite H1. cbn [mbind option_bind].
  rewrite (proj2 (Z.eqb_neq f 37)) by set_solver. rewrite Hparse. cbn [mbind option_bind fchar].
  rewrite (proj2 (Z.eqb_neq f 0)) by set_solver. rewrite Hconv. cbn [mbind option_bind leftjust fmin].
  rewrite (emit_run sprntf false 0 32 minus ds) by
    (first [done | lia | eapply Forall_impl; [exact Hds|]; simpl; lia | by left]).
  assert (Hfield : field false 0 32 minus ds = (if minus then [45] else []) ++ ds).
  { unfold field. change (width 0) with 0. change (32 =? 48) with false. cbv iota.
    replace (Z.to_nat _) with 0%nat by (destruct minus; lia). done. }
  rewrite Hfield. set (out := (if minus then [45] else []) ++ ds).
  assert (Hout : (length out <= 11)%nat).
  { unfold out. rewrite length_app. destruct minus; cbn [length]; [specialize (Hlen2 eq_refl)|]; lia. }
  assert (Hbytes : Forall (λ c, 0 <= c < 256) out).
  { unfold out. apply Forall_app. split; [destruct minus; [by repeat constructor|constructor]|].
    eapply Forall_impl; [exact Hds|]. simpl. lia. }
  destruct (outs_memory out m str) as (m' & -> & Hb' & Hfr & Hdom); [intros x Hx; apply Hm; lia|done|].
  cbn [mbind option_bind].
  assert (Hend : doprnt_loop sprntf fuel false (fmt + 2) [] string (m', str + Z.of_nat (length out))
    = Some (m', str + Z.of_nat (length out))).
  { subst fuel. cbn [doprnt_loop fst]. unfold ldb. rewrite (Hfr (fmt + 2)) by lia. by rewrite H2. }
  rewrite Hend. cbn [mbind option_bind]. unfold stb.
  destruct (Hdom (str + Z.of_nat (length out))) as [y ->]; [apply Hm; lia|]. cbn [mbind option_bind].
  eexists. split; [done|]. split.
  - rewrite app_assoc. fold out. apply bytes_at_app. split; [|split; [apply lookup_insert_eq|done]].
    eapply bytes_at_frame; [exact Hb'|]. intros a Ha. apply lookup_insert_ne. lia.
  - intros x Hx. rewrite lookup_insert_ne by lia. apply Hfr. lia.
Qed.

(** ** Unsigned numbers

    [%u] subtracts 10^9 until the number, taken as signed, is not negative: it
    relies on the wrap-around of the subtraction, and on the first of the ten
    digits having room for what was subtracted. *)
Lemma unsign_run v : is_s32 v -> ∃ r d, unsign 5 v 0 = Some (r, d) /\ 0 <= d <= 3 /\ 0 <= r < 2147483648 /\
  r + d * 1000000000 = u32 v /\ (d ≠ 0 -> 1000000000 <= r).
Proof.
  unfold is_s32. intros Hv.
  assert (Hw : ∀ x, -2147483648 <= x < 0 -> s32 (x - 1000000000)
    = if x <? -1147483648 then x - 1000000000 + 4294967296 else x - 1000000000).
  { intros x Hx. unfold s32. destruct (Z.ltb_spec x (-1147483648)).
    - replace (x - 1000000000 + 2147483648) with (x - 1000000000 + 4294967296 + 2147483648 + (-1) * 4294967296) by lia.
      rewrite Z.mod_add, Z.mod_small; lia.
    - rewrite Z.mod_small; lia. }
  assert (Hu : u32 v = if v <? 0 then v + 4294967296 else v).
  { unfold u32. destruct (Z.ltb_spec v 0); [|apply Z.mod_small; lia].
    replace v with (v + 4294967296 + (-1) * 4294967296) at 1 by lia. rewrite Z.mod_add, Z.mod_small; lia. }
  rewrite Hu. clear Hu.
  assert (E : (0 <= v \/ -2147483648 <= v < -1147483648) \/ (-1147483648 <= v < -147483648) \/ (-147483648 <= v < 0)) by lia.
  cbn [unsign]. destruct (Z.ltb_spec v 0) as [Hneg|Hpos]; [|exists v, 0; split; [done|lia]].
  rewrite (Hw v) by lia. destruct (Z.ltb_spec v (-1147483648)) as [H1|H1].
  { rewrite (proj2 (Z.ltb_ge _ _)) by lia. eexists _, 1. split; [done|]. lia. }
  rewrite (proj2 (Z.ltb_lt (v - 1000000000) 0)) by lia. rewrite (Hw (v - 1000000000)) by lia.
  destruct (Z.ltb_spec (v - 1000000000) (-1147483648)) as [H2|H2].
  { rewrite (proj2 (Z.ltb_ge _ _)) by lia. eexists _, 2. split; [done|]. lia. }
  rewrite (proj2 (Z.ltb_lt (v - 1000000000 - 1000000000) 0)) by lia. rewrite (Hw (v - 1000000000 - 1000000000)) by lia.
  rewrite (proj2 (Z.ltb_lt (v - 1000000000 - 1000000000) (-1147483648))) by lia.
  rewrite (proj2 (Z.ltb_ge _ _)) by lia. eexists _, 3. split; [done|]. lia.
Qed.

(** An unsigned conversion: format character and base. *)
Definition unsigned_conversion (f base : Z) : Prop :=
  (f = 117 /\ base = 10) \/ (f = 111 /\ base = 8) \/ (f = 120 /\ base = 16) \/ (f = 88 /\ base = 16).

Lemma convert_u v string : is_s32 v ->
  ∃ ds string', convert false (Spec false 32 0 0 117) [v] string = Some (Some (Conv OnStack 0 32 0, [], string')) /\
    holds string' (ds ++ [0]) /\ ds ≠ [] /\ Forall (is_digit 10) ds /\ value 10 0 ds = u32 v /\ (length ds <= 11)%nat.
Proof.
  intros Hv. destruct (unsign_run v Hv) as (r & d & Hun & Hd & Hr & Hsum & Hbig).
  unfold convert. cbn [fchar]. change (117 =? 99) with false. change (117 =? 115) with false.
  change (117 =? 100) with false. change (117 =? 117) with true. cbv iota. cbn [va_arg mbind option_bind].
  rewrite Hun. cbn [mbind option_bind].
  destruct (_prtl10_run r string) as (ds & string1 & -> & (Hh & Hne & Hds & Hval & _) & Hlen); [lia|].
  destruct ds as [|c ds]; [done|]. cbn [mbind option_bind]. apply Forall_cons in Hds as [Hc Hds].
  apply decimal_of_digit in Hc. destruct (decimal_digit c Hc) as [_ Hdc]. unfold decimal in Hc.
  pose proof (Hh 0%nat c eq_refl) as Hh0. change (Z.of_nat 0) with 0 in Hh0. rewrite Hh0. cbn [mbind option_bind]. unfold put.
  change ((0 <=? 0) && (0 <? 20)) with true. cbv iota. cbn [mbind option_bind fill].
  assert (Hlt : r < 10 ^ Z.of_nat (length (c :: ds))).
  { rewrite <- Hval. apply value_lt; [lia|]. constructor; [by apply decimal_digit|done]. }
  rewrite value_cons, Hdc, value_lead in Hval. simpl default in Hval.
  destruct (value_lt 10 ds ltac:(lia) Hds) as [Hlo Hhi].
  assert (Hpow : d ≠ 0 -> 10 ^ Z.of_nat (length ds) = 1000000000).
  { intros Hdn. specialize (Hbig Hdn). cbn [length] in Hlen, Hlt. replace (length ds) with 9%nat; [done|].
    assert (10 ^ 9 < 10 ^ Z.of_nat (S (length ds))) as Hp by lia. apply Z.pow_lt_mono_r_iff in Hp; lia. }
  assert (Hcd : c + d <= 57 /\ value 10 0 ((c + d) :: ds) = u32 v).
  { destruct (decide (d = 0)) as [->|Hdn].
    - rewrite !Z.add_0_r. split; [lia|]. rewrite value_cons, Hdc, value_lead. simpl default. lia.
    - specialize (Hpow Hdn). rewrite Hpow in *. assert (c + d <= 57) by lia. split; [done|].
      rewrite value_cons, (proj2 (decimal_digit (c + d) ltac:(unfold decimal; lia))), value_lead, Hpow. simpl default. lia. }
  destruct Hcd as [Hcd Hv']. exists ((c + d) :: ds). eexists. split; [done|]. split; [|split; [done|split; [|split; [done|cbn [length] in *; lia]]]].
  - intros [|i] x Hx; simpl in Hx.
    + simplify_eq. rewrite lookup_insert_eq. f_equal. unfold u8. rewrite Z.mod_small; lia.
    + rewrite lookup_insert_ne by lia. by apply (Hh (S i)).
  - constructor; [|done]. apply decimal_digit. unfold decimal. lia.
Qed.

Lemma convert_unsigned f base v : unsigned_conversion f base -> is_s32 v ->
  ∃ ds string', convert false (Spec false 32 0 0 f) [v] ∅ = Some (Some (Conv OnStack 0 32 0, [], string')) /\
    holds string' (ds ++ [0]) /\ ds ≠ [] /\ Forall (is_digit base) ds /\ value base 0 ds = u32 v /\ (length ds <= 11)%nat.
Proof.
  intros [[-> ->]|[[-> ->]|[[-> ->]|[-> ->]]]] Hv; [by apply convert_u| | |]; unfold convert; cbn [fchar].
  - change (111 =? 99) with false. change (111 =? 115) with false. change (111 =? 100) with false.
    change (111 =? 117) with false. change (111 =? 111) with true. cbv iota. cbn [va_arg mbind option_bind].
    destruct (_prtl8_run v ∅) as (ds & string & -> & (Hh & Hne & Hd & Hval & _) & Hlen). by exists ds, string.
  - change (120 =? 99) with false. change (120 =? 115) with false. change (120 =? 100) with false.
    change (120 =? 117) with false. change (120 =? 111) with false. change (120 =? 88) with false.
    change (120 =? 120) with true. cbv iota. cbn [va_arg mbind option_bind].
    destruct (_prt16_run lowdigits v ∅ ltac:(by left)) as (ds & string & Hrun & (Hh & Hne & Hd & Hval & _) & Hlen).
    unfold _prtl16. rewrite Hrun. exists ds, string. do 5 (split; [done|]). lia.
  - change (88 =? 99) with false. change (88 =? 115) with false. change (88 =? 100) with false.
    change (88 =? 117) with false. change (88 =? 111) with false. change (88 =? 88) with true. cbv iota.
    cbn [va_arg mbind option_bind].
    destruct (_prt16_run updigits v ∅ ltac:(by right)) as (ds & string & Hrun & (Hh & Hne & Hd & Hval & _) & Hlen).
    unfold _prtX16. rewrite Hrun. exists ds, string. do 5 (split; [done|]). lia.
Qed.

(** * Printing and reading back *)

(** The format ["%f"] at [fmt] and a buffer of 12 bytes at [str]. *)
Definition format_and_buffer (m : bmem) (fmt str f : Z) : Prop :=
  bytes_at m fmt [37; f; 0] /\ mapped m str 12 /\ (str + 12 <= fmt \/ fmt + 3 <= str).

(** Sprintf with [%d] writes a text that atoi reads back as the number, for
    every number but INT_MIN; a buffer of 12 bytes is enough and nothing else is
    written. *)
Theorem sprintf_atoi_roundtrip m fmt str v :
  format_and_buffer m fmt str 100 -> -2147483648 < v < 2147483648 ->
  ∃ m', sprintf str fmt [v] m = Some (str, m') /\ atoi m' str = Some v /\
    (∀ x, x < str \/ str + 12 <= x -> m' !! x = m !! x).
Proof.
  intros (Hb & Hm & Hsep) Hv.
  destruct (convert_d false (Spec false 32 0 0 100) v [] ∅ eq_refl Hv) as (ds & string & Hconv & Hp & Hlen).
  destruct Hp as (Hh & Hne & Hds & Hval & _). cbn [fill fmax] in Hconv.
  destruct (sprintf_number m str fmt 100 v (v <? 0) ds string Hb) as (m' & Hrun & Hb' & Hfr); try done; try lia.
  { set_solver by lia. }
  { eapply Forall_impl; [exact Hds|]. intros c Hc. apply digit_byte in Hc. lia. }
  exists m'. split; [done|]. split; [|done].
  rewrite (atoi_run m' str (v <? 0) ds 0); [|unfold decimal; lia|done| |done|lia].
  - f_equal. destruct (Z.ltb_spec v 0); lia.
  - eapply Forall_impl; [exact Hds|]. intros c. apply decimal_of_digit.
Qed.

(** Sprintf with [%u], [%o], [%x] or [%X] writes a text that strtoul reads
    back, in the base of the conversion, as the 32-bit word that was printed. *)
Theorem sprintf_strtoul_roundtrip m fmt str f base v :
  unsigned_conversion f base -> format_and_buffer m fmt str f -> is_s32 v ->
  ∃ m' n, sprintf str fmt [v] m = Some (str, m') /\ strtoul m' str base = Some (u32 v, str + n) /\ 0 < n <= 11.
Proof.
  intros Hf (Hb & Hm & Hsep) Hv.
  destruct (convert_unsigned f base v Hf Hv) as (ds & string & Hconv & Hh & Hne & Hds & Hval & Hlen).
  assert (Hbase : 2 <= base <= 36) by (unfold unsigned_conversion in Hf; lia).
  destruct (sprintf_number m str fmt f v false ds string Hb) as (m' & Hrun & Hb' & _); try done.
  { destruct Hf as [[-> _]|[[-> _]|[[-> _]|[-> _]]]]; set_solver by lia. }
  { unfold unsigned_conversion in Hf. lia. }
  { eapply Forall_impl; [exact Hds|]. intros c Hc. apply digit_byte in Hc. lia. }
  exists m', (Z.of_nat (length ds)). split; [done|]. split; [|destruct ds; [done|cbn [length] in *; lia]].
  rewrite (strtoul_run m' str base [] [] ds 0).
  - by rewrite Hval.
  - constructor; [done|lia|done|by left|done|]. split; [lia|]. split; [|set_solver by lia].
    intros (d & Hd & _). vm_compute in Hd. done.
  - done.
  - rewrite Hval. apply u32_range.
Qed.

(** The binary digits of a word that has [n] of them do not fit in less than
    [n + 1] bytes. *)
Lemma _prtl2_overflow v : 524288 <= u32 v -> _prtl2 v 0 ∅ = None.
Proof.
  intros Hv. set (f := λ num, if Z.rem num 2 =? 0 then 48 else 49).
  assert (Heq : ∀ n num, digits2 n num = shifted 1 f n num)
    by (induction n as [|n IH]; intros x; [done|]; cbn [digits2 shifted]; by rewrite IH).
  assert (Hf : ∀ num, dval (f num) = Some (num mod 2 ^ 1)).
  { intros num. unfold f. change (2 ^ 1) with 2. destruct (Z.eqb_spec (Z.rem num 2) 0) as [E|E]; cbn [dval];
      [change (dval 48) with (Some 0)|change (dval 49) with (Some 1)]; f_equal; Z.to_euclidean_division_equations; lia. }
  destruct (shifted_value 1 f 32 ltac:(lia) Hf v) as (Hd & Hlen & Hval).
  unfold _prtl2. rewrite Heq. change (2 ^ 1) with 2 in Hd, Hval.
  destruct (prt_out_run 2 (shifted 1 f 32 v) 0 ∅ ltac:(lia)) as (ds & Hrun & _ & Hds & Hds2 & _); [by intros E; rewrite E in Hlen|done|].
  rewrite Hlen in Hrun. rewrite Hrun. rewrite Hval in Hds2. change (2 ^ Z.of_nat 32) with 4294967296 in Hds2. fold (u32 v) in Hds2.
  destruct (value_lt 2 ds ltac:(lia) Hds) as [_ Hlt]. rewrite Hds2 in Hlt.
  assert (2 ^ 19 < 2 ^ Z.of_nat (length ds)) as Hp by lia. apply Z.pow_lt_mono_r_iff in Hp; [|lia|lia].
  apply puts_overflow; [lia|]. rewrite length_app. cbn [length]. lia.
Qed.

(** [%b] of a number of 20 or more binary digits writes past the end of the
    20-byte buffer of _fdoprnt. *)
Theorem binary_conversion_overflows m fmt str v :
  format_and_buffer m fmt str 98 -> 524288 <= u32 v -> sprintf str fmt [v] m = None.
Proof.
  intros (Hb & _ & _) Hv. pose proof (bytes_at_size _ _ _ Hb) as Hsz. cbn [length] in Hsz.
  destruct Hb as (H0 & H1 & H2 & _). replace (fmt + 1 + 1) with (fmt + 2) in H2 by lia.
  unfold sprintf, _fdoprnt, str_fuel. cbn [fst]. destruct (size m) as [|n]; [lia|].
  cbn [doprnt_loop fst]. unfold ldb. rewrite H0. cbn [mbind option_bind].
  change (negb (37 =? 37)) with false. cbv iota. rewrite H1. cbn [mbind option_bind]. change (98 =? 37) with false. cbv iota.
  rewrite (parse_plain m fmt 98 [v] H1) by (set_solver by lia || lia). cbn [mbind option_bind fchar].
  change (98 =? 0) with false. cbv iota.
  assert (Hc : convert false (Spec false 32 0 0 98) [v] ∅ = None).
  { unfold convert. cbn [fchar]. change (98 =? 99) with false. change (98 =? 115) with false. change (98 =? 100) with false.
    change (98 =? 117) with false. change (98 =? 111) with false. change (98 =? 88) with false. change (98 =? 120) with false.
    change (98 =? 98) with true. cbn [andb va_arg mbind option_bind]. by rewrite _prtl2_overflow. }
  by rewrite Hc.
Qed.

(** * On a concrete memory *)

(** A format at 100 and a buffer at 200. *)
Definition demo_text (l : list Z) : bmem :=
  list_to_map (zip (seqZ 100 (Z.of_nat (length l))) l) ∪ list_to_map (zip (seqZ 200 12) (repeat 0 12)).

Lemma demo_text_ok f : f = 100 \/ f = 117 \/ f = 98 -> format_and_buffer (demo_text [37; f; 0]) 100 200 f.
Proof.
  intros Hf. split; [destruct Hf as [-> | [-> | ->]]; by vm_compute|]. split; [|lia].
  intros x Hx. assert (Hin : x ∈ seqZ 200 12) by (apply elem_of_seqZ; lia).
  change (seqZ 200 12) with [200; 201; 202; 203; 204; 205; 206; 207; 208; 209; 210; 211] in Hin.
  destruct Hf as [-> | [-> | ->]];
    repeat (apply elem_of_cons in Hin as [->|Hin]; [eexists; vm_compute; reflexivity|]); by apply not_elem_of_nil in Hin.
Qed.

Lemma sprintf_atoi_roundtrip_witness :
  ∃ m', sprintf 200 100 [-120] (demo_text [37; 100; 0]) = Some (200, m') /\ atoi m' 200 = Some (-120) /\
    (∀ x, x < 200 \/ 200 + 12 <= x -> m' !! x = demo_text [37; 100; 0] !! x).
Proof. apply (sprintf_atoi_roundtrip (demo_text [37; 100; 0]) 100 200 (-120)); [apply demo_text_ok; auto|lia]. Defined.

Lemma sprintf_strtoul_roundtrip_witness :
  ∃ m' n, sprintf 200 100 [-1] (demo_text [37; 117; 0]) = Some (200, m') /\
    strtoul m' 200 10 = Some (4294967295, 200 + n) /\ 0 < n <= 11.
Proof.
  apply (sprintf_strtoul_roundtrip (demo_text [37; 117; 0]) 100 200 117 10 (-1));
    [by left|apply demo_text_ok; auto|unfold is_s32; lia].
Defined.

Lemma binary_conversion_overflows_witness : sprintf 200 100 [524288] (demo_text [37; 98; 0]) = None.
Proof. apply (binary_conversion_overflows (demo_text [37; 98; 0]) 100 200 524288); [apply demo_text_ok; auto|by vm_compute]. Defined.

(** A device that keeps the list of the characters it was given. *)
Definition demo_putc (c : Z) (st : bmem * list Z) : option (bmem * list Z) := Some (st.1, st.2 ++ [c]).

Lemma doprnt_prints_fields_witness :
  ∃ ds, Forall decimal ds /\ (head ds = Some 48 -> ds = [48]) /\ value 10 0 ds = 12 /\
    let out := field false 6 48 true ds in
    _doprnt demo_putc 100 [6; -12] (demo_text (directive false true), []) = outs demo_putc out (demo_text (directive false true), []) /\
    Z.of_nat (length out) = Z.max 6 (Z.of_nat (length ds) + 1).
Proof.
  apply (doprnt_prints_fields demo_putc false true (demo_text (directive false true)) [] 100 6 (-12));
    [intros c st; by eexists|by vm_compute|lia].
Defined.
