(* ===== verification/Bytes.v ===== *)
(** Integers in the byte memory of Cstring.v, the least significant byte first, and
    the lemmas that the components on that memory share: copies, writes and what they
    leave as it is, and blocks of memory to build examples from. *)

From S2P Require Import Prelude Types Cstring.

(** * Integers in memory *)

Fixpoint ld_le (n : nat) (m : bmem) (a : Z) : option Z :=
  match n with
  | O => Some 0
  | S n => b ← ldb m a; r ← ld_le n m (a + 1); Some (b + 256 * r)
  end.

Fixpoint st_le (n : nat) (a v : Z) (m : bmem) : option bmem :=
  match n with
  | O => Some m
  | S n => m ← stb a (v mod 256) m; st_le n (a + 1) (v / 256) m
  end.

Definition ldi (m : bmem) (a : Z) : option Z := v ← ld_le 4 m a; Some (s32 v).
Definition sti (a v : Z) (m : bmem) : option bmem := st_le 4 a (u32 v) m.
Definition sth (a v : Z) (m : bmem) : option bmem := st_le 2 a (u16 v) m.

#[local] Arguments Z.add : simpl never.
#[local] Arguments Z.mul : simpl never.
#[local] Arguments Z.modulo : simpl never.
#[local] Arguments Z.div : simpl never.

(** * Memory of zeros *)

(** [n] zero bytes from [p] on, in [m]. *)
Fixpoint ram (n : nat) (p : Z) (m : bmem) : bmem :=
  match n with O => m | S n => <[p := 0]> (ram n (p + 1) m) end.

Lemma ram_mapped n m : ∀ p, mapped (ram n p m) p (Z.of_nat n).
Proof.
  induction n as [|n IH]; intros p x Hx; [lia|]. cbn [ram]. destruct (decide (p = x)) as [<-|Hne].
  - rewrite lookup_insert_eq. eauto.
  - rewrite lookup_insert_ne by done. apply IH. lia.
Qed.

(** A test for mapped memory. *)
Definition mappedb (m : bmem) (p : Z) (n : nat) : bool := forallb (λ i, bool_decide (is_Some (m !! (p + Z.of_nat i)))) (seq 0 n).

Lemma mappedb_true m p n : mappedb m p n = true -> mapped m p (Z.of_nat n).
Proof.
  unfold mappedb. rewrite forallb_forall. intros H x Hx. specialize (H (Z.to_nat (x - p))).
  apply bool_decide_eq_true_1 in H; [|apply in_seq; lia]. replace (p + Z.of_nat (Z.to_nat (x - p))) with x in H by lia. done.
Qed.

Lemma mapped_part m p n q k : mapped m p n -> p <= q -> q + k <= p + n -> mapped m q k.
Proof. intros H H1 H2 x Hx. apply H. lia. Qed.

(** * What a write leaves as it is *)

(** [m'] is [m] with other bytes at [p, p + n). *)
Definition writes (p n : Z) (m m' : bmem) : Prop :=
  (∀ x, x < p \/ p + n <= x -> m' !! x = m !! x) /\ (∀ x, is_Some (m !! x) -> is_Some (m' !! x)).

Lemma writes_mapped p n m m' q k : writes p n m m' -> mapped m q k -> mapped m' q k.
Proof. intros [_ H] Hm x Hx. by apply H, Hm. Qed.

Lemma writes_out p n m m' x : writes p n m m' -> x < p \/ p + n <= x -> m' !! x = m !! x.
Proof. intros [H _]. apply H. Qed.

Lemma writes_refl p m : writes p 0 m m.
Proof. by split. Qed.

Lemma writes_one p v m : is_Some (m !! p) -> stb p v m = Some (<[p := v]> m) /\ writes p 1 m (<[p := v]> m).
Proof.
  intros [y Hy]. unfold stb. rewrite Hy. split; [done|]. split.
  - intros x Hx. apply lookup_insert_ne. lia.
  - intros x Hx. destruct (decide (p = x)) as [->|]; [rewrite lookup_insert_eq; eauto|by rewrite lookup_insert_ne].
Qed.

(** * memcpy *)

Lemma memcpy_loop_run n : ∀ dst src m, mapped m dst (Z.of_nat n) -> mapped m src (Z.of_nat n) ->
  (dst + Z.of_nat n <= src \/ src + Z.of_nat n <= dst) ->
  ∃ m', memcpy_loop n dst src m = Some m' /\ writes dst (Z.of_nat n) m m' /\
    ∀ i, 0 <= i < Z.of_nat n -> m' !! (dst + i) = m !! (src + i).
Proof.
  induction n as [|n IH]; intros dst src m Hd Hs Hsep; cbn [memcpy_loop].
  { exists m. split; [done|]. split; [by split|lia]. }
  destruct (Hs src ltac:(lia)) as [c Hc]. unfold ldb. rewrite Hc. cbn [mbind option_bind].
  destruct (writes_one dst c m (Hd dst ltac:(lia))) as [-> Hw]. cbn [mbind option_bind].
  destruct (IH (dst + 1) (src + 1) (<[dst := c]> m)) as (m' & -> & [Hf Hdom] & Hcp).
  - eapply writes_mapped; [exact Hw|]. eapply mapped_part; [exact Hd|lia|lia].
  - eapply writes_mapped; [exact Hw|]. eapply mapped_part; [exact Hs|lia|lia].
  - lia.
  - exists m'. split; [done|]. split; [split|].
    + intros x Hx. rewrite Hf by lia. apply lookup_insert_ne. lia.
    + intros x Hx. by apply Hdom, Hw.
    + intros i Hi. destruct (decide (i = 0)) as [->|Hne].
      * rewrite !Z.add_0_r, Hf by lia. by rewrite lookup_insert_eq.
      * replace (dst + i) with (dst + 1 + (i - 1)) by lia. rewrite Hcp by lia.
        replace (src + 1 + (i - 1)) with (src + i) by lia. apply lookup_insert_ne. lia.
Qed.

Lemma memcpy_run dst src n m : 0 <= n -> mapped m dst n -> mapped m src n -> (dst + n <= src \/ src + n <= dst) ->
  ∃ m', memcpy dst src n m = Some (dst, m') /\ writes dst n m m' /\ ∀ i, 0 <= i < n -> m' !! (dst + i) = m !! (src + i).
Proof.
  intros Hn Hd Hs Hsep. unfold memcpy. replace n with (Z.of_nat (Z.to_nat n)) in Hd, Hs, Hsep by lia.
  destruct (memcpy_loop_run _ _ _ _ Hd Hs Hsep) as (m' & -> & Hw & Hc). exists m'. split; [done|].
  rewrite Z2Nat.id in Hw, Hc by done. done.
Qed.

(** * Integers that were written *)

Lemma ld_le_frame n m m' : ∀ a, (∀ x, a <= x < a + Z.of_nat n -> m' !! x = m !! x) -> ld_le n m' a = ld_le n m a.
Proof.
  induction n as [|n IH]; intros a Hf; [done|]. cbn [ld_le]. unfold ldb. rewrite Hf by lia.
  destruct (m !! a); [|done]. cbn [mbind option_bind]. rewrite IH; [done|]. intros x Hx. apply Hf. lia.
Qed.

Lemma st_le_run n : ∀ a v m, mapped m a (Z.of_nat n) ->
  ∃ m', st_le n a v m = Some m' /\ writes a (Z.of_nat n) m m' /\ ld_le n m' a = Some (v mod 256 ^ Z.of_nat n).
Proof.
  induction n as [|n IH]; intros a v m Hm; cbn [st_le].
  { exists m. split; [done|]. split; [by split|]. cbn. by rewrite Z.mod_1_r. }
  destruct (writes_one a (v mod 256) m (Hm a ltac:(lia))) as [-> Hw]. cbn [mbind option_bind].
  destruct (IH (a + 1) (v / 256) (<[a := v mod 256]> m)) as (m' & -> & [Hf Hd] & Hl).
  { eapply writes_mapped; [exact Hw|]. eapply mapped_part; [exact Hm|lia|lia]. }
  exists m'. split; [done|]. split; [split|].
  - intros x Hx. rewrite Hf by lia. apply lookup_insert_ne. lia.
  - intros x Hx. by apply Hd, Hw.
  - cbn [ld_le]. unfold ldb. rewrite Hf by lia. rewrite lookup_insert_eq. cbn [mbind option_bind]. rewrite Hl.
    cbn [mbind option_bind]. f_equal. rewrite Nat2Z.inj_succ, Z.pow_succ_r by lia.
    rewrite Z.rem_mul_r by lia. done.
Qed.

Lemma sti_run a v m : mapped m a 4 -> is_s32 v -> ∃ m', sti a v m = Some m' /\ writes a 4 m m' /\ ldi m' a = Some v.
Proof.
  intros Hm Hv. destruct (st_le_run 4 a (u32 v) m Hm) as (m' & Hs & Hw & Hl). exists m'. split; [done|]. split; [done|].
  unfold ldi. rewrite Hl. cbn [mbind option_bind]. f_equal. change (256 ^ Z.of_nat 4) with 4294967296.
  unfold u32. rewrite Z.mod_mod by lia. unfold s32, is_s32 in *.
  destruct (Z.leb_spec 0 v).
  - rewrite (Z.mod_small v) by lia. rewrite Z.mod_small; lia.
  - replace (v mod 4294967296) with (v + 4294967296).
    + replace (v + 4294967296 + 2147483648) with (v + 2147483648 + 1 * 4294967296) by lia.
      rewrite Z.mod_add by lia. rewrite Z.mod_small; lia.
    + symmetry. rewrite <- (Z.mod_add v 1) by lia. apply Z.mod_small. lia.
Qed.

Lemma ldi_frame m m' a : (∀ x, a <= x < a + 4 -> m' !! x = m !! x) -> ldi m' a = ldi m a.
Proof. intros Hf. unfold ldi. by rewrite (ld_le_frame 4 m m' a). Qed.

Lemma ldi_writes m m' p n a : writes p n m m' -> (a + 4 <= p \/ p + n <= a) -> ldi m' a = ldi m a.
Proof. intros Hw Ha. apply ldi_frame. intros x Hx. eapply writes_out; [exact Hw|lia]. Qed.

(** * Bytes at an address *)

Lemma writes_weaken p n q k m m' : writes p n m m' -> q <= p -> p + n <= q + k -> writes q k m m'.
Proof. intros [H1 H2] Hq Hk. split; [|done]. intros x Hx. apply H1. lia. Qed.

Lemma writes_trans p n m1 m2 m3 : writes p n m1 m2 -> writes p n m2 m3 -> writes p n m1 m3.
Proof. intros [H1 H2] [H3 H4]. split; [|by auto]. intros x Hx. rewrite H3, H1 by done. done. Qed.

Lemma writes_bytes p n m m' q l : writes p n m m' -> bytes_at m q l -> q + Z.of_nat (length l) <= p \/ p + n <= q -> bytes_at m' q l.
Proof. intros [H _] Hb Hd. eapply bytes_at_frame; [exact Hb|]. intros a Ha. apply H. lia. Qed.

Lemma bytes_copy l : ∀ m m' dst src, bytes_at m src l ->
  (∀ i, 0 <= i < Z.of_nat (length l) -> m' !! (dst + i) = m !! (src + i)) -> bytes_at m' dst l.
Proof.
  induction l as [|c l IH]; intros m m' dst src Hb Hc; [done|]. destruct Hb as [H1 Hb]. cbn [length] in Hc. split.
  - rewrite <- (Z.add_0_r dst), Hc by lia. by rewrite Z.add_0_r.
  - eapply IH; [exact Hb|]. intros i Hi. specialize (Hc (i + 1) ltac:(lia)). rewrite !Z.add_assoc in Hc.
    replace (dst + 1 + i) with (dst + i + 1) by lia. rewrite Hc. f_equal. lia.
Qed.

Lemma bytes_mapped m p l : bytes_at m p l -> mapped m p (Z.of_nat (length l)).
Proof.
  revert p. induction l as [|c l IH]; intros p Hb x Hx; cbn [length] in Hx; [lia|]. destruct Hb as [H1 Hb].
  destruct (decide (x = p)) as [->|]; [eauto|]. apply (IH (p + 1) Hb). lia.
Qed.

(** The bytes [l] from [p] on, in [m]. *)
Fixpoint put_list (p : Z) (l : list Z) (m : bmem) : bmem :=
  match l with [] => m | c :: l => <[p := c]> (put_list (p + 1) l m) end.
