(* ===== verification/Doscan.v ===== *)
(** Formatted input: lib/doscan.c, lib/sscanf.c, lib/fscanf.c.

    The input is behind [getch] and [ungetch], as in the C code; they may look at the
    byte memory, where sscanf has its string.  [_sctab] is a global array of 128 bytes
    that _getccl changes.  [char] is unsigned; an index outside of an array, a store to
    memory that is not mapped, and an argument that was not passed are [None].  Values
    of [long] wrap around. *)

From S2P Require Import Prelude Types Cstring Clib Bytes.

Definition EOF : Z := -2.
Definition SPC : Z := 1.
Definition STP : Z := 2.
Definition SHORT : Z := 0.
Definition REGULAR : Z := 1.
Definition LONG : Z := 2.

(** [_sctab] before the first call *)
Definition _sctab : gmap Z Z :=
  <[9 := SPC]> (<[10 := SPC]> (<[32 := SPC]> (arr_make 128 0))).

(** lib/doscan.c: _getccl.  The loop over the characters of the class: the address
    behind it and [_sctab]; [t] is set for a class that starts with a caret. *)
Fixpoint getccl_loop (fuel : nat) (m : bmem) (t : bool) (s : Z) (sctab : gmap Z Z) : option (Z * gmap Z Z) :=
  match fuel with
  | O => None
  | S fuel =>
      c ← ldb m s;
      if Z.land c 127 =? 93 then Some (s + 1, sctab)
      else
        sctab ← arr_upd (λ x, if t then Z.lor x STP else Z.land x (Z.lnot STP)) c sctab;
        if c + 1 =? 0 then Some (s, sctab) else getccl_loop fuel m t (s + 1) sctab
  end.
Definition _getccl (m : bmem) (s : Z) (sctab : gmap Z Z) : option (Z * gmap Z Z) :=
  c ← ldb m s;
  let '(t, s) := if c =? 94 then (true, s + 1) else (false, s) in
  let sctab := (λ x, if (t : bool) then Z.land x (Z.lnot STP) else Z.lor x STP) <$> sctab in
  getccl_loop (str_fuel m) m t s sctab.

(** [while (isdigit(ch)) len = ...] in a directive: [len], [ch] and [fmt]. *)
Fixpoint scan_len (fuel : nat) (m : bmem) (ch fmt len : Z) : option (Z * Z * Z) :=
  match fuel with
  | O => None
  | S fuel =>
      d ← isdigit ch;
      if (d : bool) then
        ch' ← ldb m fmt; scan_len fuel m ch' (fmt + 1) (s32 (s32 (s32 (len * 10) + ch) - 48))
      else Some (len, ch, fmt)
  end.

Section Scan.
Context {St : Type} (getch : bmem -> St -> option (Z * St)) (ungetch : bmem -> St -> option St).

(** What the functions work on. *)
Record scan := Scan { mem : bmem; sctab : gmap Z Z; inp : St }.

Definition get (st : scan) : option (Z * scan) :=
  '(c, i) ← getch st.(mem) st.(inp); Some (c, Scan st.(mem) st.(sctab) i).
Definition unget (st : scan) : option scan :=
  i ← ungetch st.(mem) st.(inp); Some (Scan st.(mem) st.(sctab) i).

(** * Strings: _instr *)

(** [while (_sctab[ch = getch()] & ignstp)]: [ch], which is unsigned. *)
Fixpoint instr_skip (fuel : nat) (ignstp : Z) (st : scan) : option (Z * scan) :=
  match fuel with
  | O => None
  | S fuel =>
      '(c, st) ← get st;
      let ch := u32 c in
      f ← st.(sctab) !! ch;
      if negb (Z.land f ignstp =? 0) then
        if ch =? u32 EOF then Some (ch, st) else instr_skip fuel ignstp st
      else Some (ch, st)
  end.

(** The loop that copies: [ptr], which may be null, [len], [ch]. *)
Fixpoint instr_copy (fuel : nat) (ptr len ignstp ch : Z) (st : scan) : option (Z * Z * Z * scan) :=
  match fuel with
  | O => None
  | S fuel =>
      if ch =? u32 EOF then Some (ptr, len, ch, st)
      else
        f ← st.(sctab) !! ch;
        if negb (Z.land f ignstp =? 0) then Some (ptr, len, ch, st)
        else
          '(ptr, st) ← (if negb (ptr =? 0) then
                          m ← stb ptr (u8 ch) st.(mem); Some (ptr + 1, Scan m st.(sctab) st.(inp))
                        else Some (ptr, st));
          let len := s32 (len - 1) in
          if len <=? 0 then Some (ptr, len, ch, st)
          else '(c, st) ← get st; instr_copy fuel ptr len ignstp (u32 c) st
  end.

(** The result, [*eofptr], and the state. *)
Definition _instr (fuel : nat) (ptr type len : Z) (st : scan) : option (Z * bool * scan) :=
  let optr := ptr in
  let len := if (type =? 99) && (len =? 30000) then 1 else len in
  '(ch, st) ← instr_skip fuel (if type =? 115 then SPC else 0) st;
  let ignstp := if type =? 99 then 0 else if type =? 91 then STP else SPC in
  '(ptr, len, ch, st) ← instr_copy (S (Z.to_nat len)) ptr len ignstp ch st;
  '(eof, st) ← (if negb (ch =? u32 EOF) then
                  st ← (if 0 <? len then unget st else Some st); Some (false, st)
                else Some (true, st));
  if negb (ptr =? 0) && negb (ptr =? optr) then
    m ← (if negb (type =? 99) then stb ptr 0 st.(mem) else Some st.(mem));
    Some (1, eof, Scan m st.(sctab) st.(inp))
  else Some (0, eof, st).

(** * Numbers: _innum *)

(** [while ((c = getch()) == ' ' ...)]; [c] is a char. *)
Fixpoint innum_blanks (fuel : nat) (st : scan) : option (Z * scan) :=
  match fuel with
  | O => None
  | S fuel =>
      '(c, st) ← get st;
      let c := u8 c in
      if (c =? 32) || (c =? 9) || (c =? 10) then innum_blanks fuel st else Some (c, st)
  end.

(** The condition of the loop over the digits. *)
Definition innum_takes (base c : Z) : option bool :=
  d ← isdigit c;
  Some (((d : bool) || (base =? 16)) && (((97 <=? c) && (c <=? 102)) || ((65 <=? c) && (c <=? 70)))).
(** [lcval = lcval * base], as shifts, and the value of the character added. *)
Definition innum_add (base lcval c : Z) : Z :=
  let lcval :=
    if base =? 8 then s32 (Z.shiftl lcval 3)
    else if base =? 10 then s32 (Z.shiftl (s32 (s32 (Z.shiftl lcval 2) + lcval)) 1)
    else s32 (Z.shiftl lcval 4) in
  let c :=
    if (48 <=? c) && (c <=? 57) then u8 (c - 48)
    else if (97 <=? c) && (c <=? 102) then u8 (c - 87) else u8 (c - 55) in
  s32 (lcval + c).
(** The loop: [lcval], the number of characters in [numbuf], and [c]. *)
Fixpoint innum_digits (fuel : nat) (base len lcval np c : Z) (st : scan) : option (Z * Z * Z * scan) :=
  match fuel with
  | O => None
  | S fuel =>
      let len := len - 1 in
      if len <? 0 then Some (lcval, np, c, st)
      else
        t ← innum_takes base c;
        if (t : bool) then
          if np >=? 64 then None
          else '(c', st) ← get st; innum_digits fuel base len (innum_add base lcval c) (np + 1) (u8 c') st
        else Some (lcval, np, c, st)
  end.

(** The sign: [negflg], [np], [c], [len]. *)
Definition innum_sign (c len : Z) (st : scan) : option (bool * Z * Z * Z * scan) :=
  if c =? 45 then '(c, st) ← get st; Some (true, 1, u8 c, len - 1, st)
  else if c =? 43 then '(c, st) ← get st; Some (false, 0, u8 c, len - 1, st)
  else Some (false, 0, c, len, st).

(** Storing the number in an object of the size. *)
Definition innum_store (size a lcval : Z) (m : bmem) : option bmem :=
  if size =? SHORT then sth a lcval m
  else if (size =? REGULAR) || (size =? LONG) then sti a lcval m
  else Some m.

(** The result, [*eofptr], and the state; [ptr] is null or points into the arguments. *)
Definition _innum (fuel : nat) (ptr : option (list Z)) (type len size : Z) (st : scan) : option (Z * bool * scan) :=
  if (type =? 99) || (type =? 115) || (type =? 91) then
    a ← (match ptr with Some argp => head argp | None => Some 0 end);
    _instr fuel a type len st
  else
    let base := if type =? 111 then 8 else if type =? 120 then 16 else 10 in
    '(c, st) ← innum_blanks fuel st;
    '(negflg, np, c, len, st) ← innum_sign c len st;
    '(lcval, np, c, st) ← innum_digits (S (Z.to_nat len)) base len 0 np c st;
    let lcval := if (negflg : bool) then s32 (- lcval) else lcval in
    '(eof, st) ← (if negb (c =? EOF) then st ← unget st; Some (false, st) else Some (true, st));
    match ptr with
    | None => Some (0, eof, st)
    | Some argp =>
        if np =? 0 then Some (0, eof, st)
        else if np >=? 64 then None
        else a ← head argp; m ← innum_store size a lcval st.(mem); Some (1, eof, Scan m st.(sctab) st.(inp))
    end.

(** * _doscan *)

(** A directive, whose first character after the percent sign is [ch]: [ptr], the
    type, [len], [size], and [fmt], [argp], [_sctab] behind it. *)
Definition directive (m : bmem) (ch fmt : Z) (argp : list Z) (tab : gmap Z Z)
    : option (option (list Z) * Z * Z * Z * Z * list Z * gmap Z Z) :=
  '(ptr, ch, fmt, argp) ← (if negb (ch =? 42) then Some (Some argp, ch, fmt, tail argp)
                           else ch ← ldb m fmt; Some (None, ch, fmt + 1, argp));
  '(len, ch, fmt) ← scan_len (str_fuel m) m ch fmt 0;
  let len := if len =? 0 then 30000 else len in
  '(ch, fmt, size, tab) ← (if ch =? 108 then ch ← ldb m fmt; Some (ch, fmt + 1, LONG, tab)
                           else if ch =? 104 then ch ← ldb m fmt; Some (ch, fmt + 1, SHORT, tab)
                           else if ch =? 91 then '(fmt, tab) ← _getccl m fmt tab; Some (ch, fmt, REGULAR, tab)
                           else Some (ch, fmt, REGULAR, tab));
  up ← isupper ch;
  let '(ch, size) := if (up : bool) then (ch - 65 + 97, LONG) else (ch, size) in
  Some (ptr, ch, len, size, fmt, argp, tab).

(** [while ((ch1 = getch()) == ' ' ...)] *)
Fixpoint skip_input (fuel : nat) (st : scan) : option (Z * scan) :=
  match fuel with
  | O => None
  | S fuel =>
      '(ch1, st) ← get st;
      if (ch1 =? 32) || (ch1 =? 9) || (ch1 =? 10) then skip_input fuel st else Some (ch1, st)
  end.

(** The default case: the value to return, if the input does not match. *)
Definition match_char (ch nmatch : Z) (st : scan) : option (option Z * scan) :=
  '(ch1, st) ← get st;
  if negb (ch1 =? ch) then
    if ch1 =? EOF then Some (Some (-1), st) else st ← unget st; Some (Some nmatch, st)
  else Some (None, st).

Fixpoint doscan_loop (n fuel : nat) (fmt : Z) (argp : list Z) (nmatch : Z) (st : scan) : option (Z * scan) :=
  match n with
  | O => None
  | S n =>
      ch ← ldb st.(mem) fmt;
      if ch =? 0 then Some (nmatch, st)
      else if ch =? 37 then
        ch ← ldb st.(mem) (fmt + 1);
        if ch =? 37 then
          '(r, st) ← match_char ch nmatch st;
          match r with Some r => Some (r, st) | None => doscan_loop n fuel (fmt + 2) argp nmatch st end
        else
          '(ptr, type, len, size, fmt, argp, tab) ← directive st.(mem) ch (fmt + 2) argp st.(sctab);
          let st := Scan st.(mem) tab st.(inp) in
          if type =? 0 then Some (-1, st)
          else
            '(r, eof, st) ← _innum fuel ptr type len size st;
            let nmatch := if negb (r =? 0) && bool_decide (is_Some ptr) then s32 (nmatch + 1) else nmatch in
            if (eof : bool) then Some (if negb (nmatch =? 0) then nmatch else -1, st)
            else doscan_loop n fuel fmt argp nmatch st
      else if (ch =? 32) || (ch =? 10) || (ch =? 9) then
        '(ch1, st) ← skip_input fuel st;
        st ← (if negb (ch1 =? EOF) then unget st else Some st);
        doscan_loop n fuel (fmt + 1) argp nmatch st
      else
        '(r, st) ← match_char ch nmatch st;
        match r with Some r => Some (r, st) | None => doscan_loop n fuel (fmt + 1) argp nmatch st end
  end.

(** lib/doscan.c: _doscan; one round for every character of the format is enough. *)
Definition _doscan (fuel : nat) (fmt : Z) (argp : list Z) (st : scan) : option (Z * scan) :=
  doscan_loop (str_fuel st.(mem)) fuel fmt argp 0 st.
End Scan.

(** * sscanf *)

(** lib/sscanf.c: sgetch, sungetch; the state is the pointer into the string. *)
Definition sgetch (m : bmem) (s : Z) : option (Z * Z) := c ← ldb m s; Some (if c =? 0 then (EOF, s) else (c, s + 1)).
Definition sungetch (m : bmem) (s : Z) : option Z := _ ← ldb m s; Some (s - 1).
Definition sscanf (str fmt : Z) (args : list Z) (tab : gmap Z Z) (m : bmem) : option (Z * scan (St := Z)) :=
  _doscan sgetch sungetch (str_fuel m) fmt args (Scan m tab str).

(** * fscanf *)

Section Fscanf.
Context {D : Type} (getc : D -> option (Z * D)).

Definition EMPTY : Z := -1.

(** lib/fscanf.c: getch, ungetch; the state is [buf] and the device. *)
Definition fgetch (m : bmem) (s : Z * D) : option (Z * (Z * D)) :=
  let '(buf, dev) := s in
  if negb (buf =? EOF) && negb (buf =? EMPTY) then '(c, dev) ← getc dev; Some (c, (c, dev))
  else Some (buf, (buf, dev)).
Definition fungetch (m : bmem) (s : Z * D) : option (Z * D) := Some (EMPTY, s.2).
(** [fuel] bounds the blanks that are skipped at a time. *)
Definition fscanf (fuel : nat) (dev : D) (fmt : Z) (args : list Z) (tab : gmap Z Z) (m : bmem) : option (Z * scan (St := Z * D)) :=
  _doscan fgetch fungetch fuel fmt args (Scan m tab (EMPTY, dev)).
End Fscanf.
