(* ===== verification/Doscanthm.v ===== *)
(** The theorems about formatted input: %s reads a word; %d, %u and %o read no number. *)

From S2P Require Import Prelude Types Cstring Clib Bytes Doscan.

Definition blank (c : Z) : Prop := c = 32 \/ c = 9 \/ c = 10.

(** [_sctab] marks the blanks. *)
Definition marks_blanks (tab : gmap Z Z) : Prop :=
  ∀ c, 0 <= c < 128 -> ∃ f, tab !! c = Some f /\ (Z.land f SPC =? 0) = negb ((c =? 32) || (c =? 9) || (c =? 10)).

Lemma _sctab_marks : marks_blanks _sctab.
Proof.
  intros c Hc. assert (H : forallb (λ c, match _sctab !! c with
    | Some f => bool_decide ((Z.land f SPC =? 0) = negb ((c =? 32) || (c =? 9) || (c =? 10))) | None => false end) (seqZ 0 128) = true)
    by (vm_compute; reflexivity).
  rewrite forallb_forall in H. specialize (H c). destruct (_sctab !! c) as [f|].
  - exists f. split; [done|]. eapply bool_decide_eq_true_1. apply H, list_elem_of_In, elem_of_seqZ. lia.
  - discriminate H. apply list_elem_of_In, elem_of_seqZ. lia.
Qed.

Lemma blank_test c : blank c -> (c =? 32) || (c =? 9) || (c =? 10) = true.
Proof. by intros [->|[->| ->]]. Qed.

Lemma not_blank_test c : ¬ blank c -> (c =? 32) || (c =? 9) || (c =? 10) = false.
Proof.
  unfold blank. intros H. destruct (Z.eqb_spec c 32), (Z.eqb_spec c 9), (Z.eqb_spec c 10); try done; exfalso; tauto.
Qed.

(** * Reading from a string *)

Lemma sget m tab s c : m !! s = Some c -> c ≠ 0 -> get sgetch (Scan m tab s) = Some (c, Scan m tab (s + 1)).
Proof. intros H Hc. unfold get, sgetch, ldb. cbn [mem inp sctab]. rewrite H. cbn [mbind option_bind]. by rewrite (proj2 (Z.eqb_neq _ _) Hc). Qed.

Lemma sget_end m tab s : m !! s = Some 0 -> get sgetch (Scan m tab s) = Some (EOF, Scan m tab s).
Proof. intros H. unfold get, sgetch, ldb. cbn [mem inp sctab]. by rewrite H. Qed.

Lemma sunget m tab s : is_Some (m !! s) -> unget sungetch (Scan m tab s) = Some (Scan m tab (s - 1)).
Proof. intros [c H]. unfold unget, sungetch, ldb. cbn [mem inp sctab]. by rewrite H. Qed.

(** * %s *)

(** A character of a word. *)
Definition wordchar (c : Z) : Prop := 0 < c < 128 /\ ¬ blank c.

Lemma instr_skip_run tab : marks_blanks tab -> ∀ bl m s c fuel, bytes_at m s (bl ++ [c]) -> Forall blank bl -> wordchar c ->
  (length bl < fuel)%nat ->
  instr_skip sgetch fuel SPC (Scan m tab s) = Some (c, Scan m tab (s + Z.of_nat (length bl) + 1)).
Proof.
  intros Ht bl. induction bl as [|b bl IH]; intros m s c [|fuel] Hb Hbl [Hc Hnb] Hf; cbn [length] in *; try lia.
  - destruct Hb as [Hs _]. cbn [instr_skip]. rewrite (sget _ _ _ _ Hs) by lia. cbn [mbind option_bind sctab].
    rewrite u32_id by (unfold is_u32; lia). destruct (Ht c ltac:(lia)) as (f & -> & E). cbn [mbind option_bind].
    rewrite E, (not_blank_test _ Hnb). cbn [negb]. by replace (s + Z.of_nat 0 + 1) with (s + 1) by lia.
  - destruct Hb as [Hs Hb]. apply Forall_cons in Hbl as [Hb1 Hbl]. cbn [instr_skip].
    assert (Hr : 0 < b < 128) by (destruct Hb1 as [->|[->| ->]]; lia).
    rewrite (sget _ _ _ _ Hs) by lia. cbn [mbind option_bind sctab].
    rewrite u32_id by (unfold is_u32; lia). destruct (Ht b ltac:(lia)) as (f & -> & E). cbn [mbind option_bind].
    rewrite E, (blank_test _ Hb1). cbn [negb]. rewrite (proj2 (Z.eqb_neq b (u32 EOF))) by (change (u32 EOF) with 4294967294; lia).
    rewrite (IH _ _ c) by (done || lia). do 3 f_equal. lia.
Qed.

(** The copy of the word [c :: w], of which [c] was read, up to [e]. *)
Lemma instr_copy_run tab : marks_blanks tab -> ∀ w m s c e p len fuel,
  bytes_at m s (w ++ [e]) -> Forall wordchar (c :: w) -> e = 0 \/ blank e -> 0 < p -> mapped m p (Z.of_nat (length w) + 1) ->
  (p + Z.of_nat (length w) + 1 <= s \/ s + Z.of_nat (length w) + 1 <= p) -> Z.of_nat (length w) + 1 < len < 2147483648 -> (length w + 1 < fuel)%nat ->
  ∃ m' len', instr_copy sgetch fuel p len SPC c (Scan m tab s) =
      Some (p + Z.of_nat (length w) + 1, len', if e =? 0 then u32 EOF else e,
        Scan m' tab (s + Z.of_nat (length w) + (if e =? 0 then 0 else 1))) /\ 0 < len' /\
    writes p (Z.of_nat (length w) + 1) m m' /\ bytes_at m' p (c :: w).
Proof.
  intros Ht w. induction w as [|d w IH]; intros m s c e p len [|fuel] Hb Hw He Hp Hm Hsep Hlen Hf; cbn [length] in *; try lia;
    apply Forall_cons in Hw as [[Hc Hnb] Hw]; cbn [instr_copy].
  all: rewrite (proj2 (Z.eqb_neq c (u32 EOF))) by (change (u32 EOF) with 4294967294; lia); cbn [sctab mem inp].
  all: destruct (Ht c ltac:(lia)) as (f & -> & E); cbn [mbind option_bind]; rewrite E, (not_blank_test _ Hnb); cbn [negb].
  all: rewrite (proj2 (Z.eqb_neq p 0)) by lia; cbn [negb].
  all: destruct (writes_one p (u8 c) m (Hm p ltac:(lia))) as [E1 W1]; rewrite E1; cbn [mbind option_bind].
  all: rewrite s32_id by (unfold is_s32; lia); rewrite (proj2 (Z.leb_gt _ _)) by lia.
  all: assert (Hu : u8 c = c) by (unfold u8; apply Z.mod_small; lia); rewrite Hu in *.
  - destruct Hb as [He' _].
    assert (He1 : <[p:=c]> m !! s = Some e) by (rewrite lookup_insert_ne by lia; done).
    exists (<[p := c]> m), (len - 1). rewrite Z.add_0_r. destruct fuel as [|fuel]; [lia|].
    split; [|split; [lia|split; [done|split; [apply lookup_insert_eq|done]]]].
    destruct He as [->|He].
    + rewrite (sget_end _ _ _ He1). cbn [mbind option_bind instr_copy]. change (u32 EOF =? u32 EOF) with true. cbv iota.
      change (0 =? 0) with true. cbv iota. do 3 f_equal. lia.
    + assert (Hr : 0 < e < 128) by (destruct He as [->|[->| ->]]; lia).
      rewrite (sget _ _ _ _ He1) by lia. cbn [mbind option_bind instr_copy]. rewrite u32_id by (unfold is_u32; lia).
      rewrite (proj2 (Z.eqb_neq e (u32 EOF))) by (change (u32 EOF) with 4294967294; lia). cbn [sctab].
      destruct (Ht e ltac:(lia)) as (g & -> & Eg). cbn [mbind option_bind]. rewrite Eg, (blank_test _ He). cbn [negb].
      rewrite (proj2 (Z.eqb_neq e 0)) by lia. repeat f_equal; lia.
  - destruct Hb as [Hd Hb]. pose proof Hw as [[Hdr _] _]%Forall_cons.
    assert (Hd1 : <[p:=c]> m !! s = Some d) by (rewrite lookup_insert_ne by lia; done).
    rewrite (sget _ _ _ _ Hd1) by lia. cbn [mbind option_bind]. rewrite u32_id by (unfold is_u32; lia).
    destruct (IH (<[p := c]> m) (s + 1) d e (p + 1) (len - 1) fuel) as (m' & len' & E2 & Hl & W2 & B2); try done; try lia.
    { eapply writes_bytes; [exact W1|exact Hb|]. rewrite length_app. cbn [length]. lia. }
    { eapply writes_mapped; [exact W1|]. eapply mapped_part; [exact Hm|lia|lia]. }
    exists m', len'. split; [rewrite E2; do 4 f_equal; lia|]. split; [done|]. split.
    + eapply writes_trans; eapply writes_weaken; [exact W1|lia|lia|exact W2|lia|lia].
    + split; [|exact B2]. destruct W2 as [W2 _]. rewrite W2 by lia. apply lookup_insert_eq.
Qed.

Lemma instr_run tab m s bl c w e p fuel : marks_blanks tab -> bytes_at m s (bl ++ c :: w ++ [e]) -> Forall blank bl -> Forall wordchar (c :: w) ->
  e = 0 \/ (blank e /\ is_Some (m !! (s + Z.of_nat (length (bl ++ c :: w)) + 1))) ->
  0 < p -> mapped m p (Z.of_nat (length w) + 2) ->
  (p + Z.of_nat (length w) + 2 <= s \/ s + Z.of_nat (length (bl ++ c :: w)) + 2 <= p) ->
  Z.of_nat (length w) + 1 < 30000 -> (length bl < fuel)%nat ->
  ∃ m', _instr sgetch sungetch fuel p 115 30000 (Scan m tab s) =
      Some (1, e =? 0, Scan m' tab (s + Z.of_nat (length (bl ++ c :: w)))) /\
    writes p (Z.of_nat (length w) + 2) m m' /\ bytes_at m' p (c :: w ++ [0]).
Proof.
  intros Ht Hb Hbl Hw He Hp Hm Hsep Hlen Hf. pose proof Hw as [Hc _]%Forall_cons. unfold _instr.
  change (115 =? 115) with true. change (115 =? 99) with false. change (115 =? 91) with false. cbn [andb]. cbv zeta iota.
  apply bytes_at_app in Hb as [Hb1 [Hb2 Hb3]]. rewrite length_app in *. cbn [length] in *.
  rewrite (instr_skip_run tab Ht bl m s c fuel); [|apply bytes_at_app; by split; [|split]|done|done|done]. cbn [mbind option_bind].
  replace (s + Z.of_nat (length bl) + 1) with (s + (Z.of_nat (length bl) + 1)) in * by lia.
  destruct (instr_copy_run tab Ht w m (s + (Z.of_nat (length bl) + 1)) c e p 30000 (S (Z.to_nat 30000))) as (m1 & len' & E & Hl & W & B);
    [done|done|tauto|done|eapply mapped_part; [exact Hm|lia|lia]|lia|lia|lia|].
  rewrite E. cbn [mbind option_bind].
  assert (W' : writes p (Z.of_nat (length w) + 2) m m1) by (eapply writes_weaken; [exact W|lia|lia]).
  destruct (writes_one (p + Z.of_nat (length w) + 1) 0 m1) as [E1 W1].
  { eapply writes_mapped; [exact W'|exact Hm|lia]. }
  exists (<[p + Z.of_nat (length w) + 1 := 0]> m1). split; [|split].
  - destruct He as [->|[He Hx]].
    + change (0 =? 0) with true. cbv iota. change (u32 EOF =? u32 EOF) with true. cbn [negb mbind option_bind].
      rewrite (proj2 (Z.eqb_neq _ 0)), (proj2 (Z.eqb_neq _ p)) by lia. cbn [negb andb mem inp sctab]. rewrite E1. cbn [mbind option_bind].
      do 3 f_equal; lia.
    + assert (Hr : 0 < e < 128) by (destruct He as [->|[->| ->]]; lia). rewrite (proj2 (Z.eqb_neq e 0)) by lia.
      rewrite (proj2 (Z.eqb_neq e (u32 EOF))) by (change (u32 EOF) with 4294967294; lia). cbn [negb].
      rewrite (proj2 (Z.ltb_lt _ _) Hl). rewrite sunget.
      2: { destruct W as [_ W]. apply W. replace (s + (Z.of_nat (length bl) + 1) + Z.of_nat (length w) + 1)
            with (s + Z.of_nat (length bl + S (length w)) + 1) by lia. done. }
      cbn [mbind option_bind]. rewrite (proj2 (Z.eqb_neq _ 0)), (proj2 (Z.eqb_neq _ p)) by lia. cbn [negb andb mem inp sctab]. rewrite E1.
      cbn [mbind option_bind]. do 3 f_equal; lia.
  - eapply writes_trans; [exact W'|]. eapply writes_weaken; [exact W1|lia|lia].
  - apply (bytes_at_app _ p (c :: w)). split.
    + eapply writes_bytes; [exact W1|exact B|cbn [length]; lia].
    + cbn [length]. replace (p + Z.of_nat (S (length w))) with (p + Z.of_nat (length w) + 1) by lia. split; [apply lookup_insert_eq|done].
Qed.

(** A format of one directive without a width: the type [t]. *)
Lemma directive_plain m fmt argp tab t : ldb m fmt = Some 0 -> t = 115 \/ t = 100 \/ t = 117 \/ t = 111 ->
  directive m t fmt argp tab = Some (Some argp, t, 30000, REGULAR, fmt, tail argp, tab).
Proof. intros H [->|[->|[->| ->]]]; unfold directive; reflexivity. Qed.

(** C34: %s reads a word.  When the string is blanks, the characters of a word, and a
    blank or the end, sscanf with the format "%s" returns 1, leaves the word with a
    terminating zero where the argument points, writes nothing else, and the pointer
    stands behind the word. *)
Theorem sscanf_reads_a_word m tab str fmt bl c w e p rest (Htab : marks_blanks tab)
  (Hstr : bytes_at m str (bl ++ c :: w ++ [e])) (Hbl : Forall blank bl) (Hw : Forall wordchar (c :: w))
  (He : e = 0 \/ (blank e /\ is_Some (m !! (str + Z.of_nat (length (bl ++ c :: w)) + 1))))
  (Hfmt : bytes_at m fmt [37; 115; 0]) (Hp : 0 < p) (Hm : mapped m p (Z.of_nat (length w) + 2))
  (Hlen : Z.of_nat (length w) < 29999)
  (Hsep : p + Z.of_nat (length w) + 2 <= str \/ str + Z.of_nat (length (bl ++ c :: w)) + 2 <= p)
  (Hfsep : p + Z.of_nat (length w) + 2 <= fmt \/ fmt + 3 <= p) :
  ∃ m', sscanf str fmt (p :: rest) tab m = Some (1, Scan m' tab (str + Z.of_nat (length (bl ++ c :: w)))) /\
    writes p (Z.of_nat (length w) + 2) m m' /\ bytes_at m' p (c :: w ++ [0]).
Proof.
  destruct (instr_run tab m str bl c w e p (str_fuel m) Htab Hstr Hbl Hw He Hp Hm Hsep ltac:(lia)) as (m' & E & W & B).
  { apply bytes_at_size in Hstr. rewrite length_app in Hstr. cbn [length] in Hstr. unfold str_fuel. lia. }
  exists m'. split; [|done]. destruct Hfmt as (F0 & F1 & F2 & _).
  assert (F2' : m' !! (fmt + 1 + 1) = Some 0) by (rewrite (writes_out _ _ _ _ _ W) by lia; done).
  assert (Hfuel : ∃ n, str_fuel m = S (S n)).
  { apply bytes_at_size in Hstr. rewrite length_app in Hstr. cbn [length] in Hstr. exists (size m - 1)%nat. unfold str_fuel. lia. }
  destruct Hfuel as [n Hn]. unfold sscanf, _doscan. cbn [mem]. rewrite Hn at 1. cbn [doscan_loop mem]. rewrite (F0 : ldb m fmt = Some 37). cbn [mbind option_bind].
  change (37 =? 0) with false. change (37 =? 37) with true. cbv iota. rewrite (F1 : ldb m (fmt + 1) = Some 115). cbn [mbind option_bind].
  change (115 =? 37) with false. cbv iota. cbn [sctab mem inp]. replace (fmt + 2) with (fmt + 1 + 1) by lia.
  rewrite (directive_plain m _ _ _ 115 F2) by tauto. cbn [mbind option_bind]. change (115 =? 0) with false. cbv iota.
  unfold _innum. change ((115 =? 99) || (115 =? 115) || (115 =? 91)) with true. cbv iota. cbn [head mbind option_bind].
  rewrite E. cbn [mbind option_bind]. change (1 =? 0) with false. rewrite (bool_decide_eq_true_2 (is_Some (Some (p :: rest)))) by eauto.
  cbn [negb andb]. change (s32 (0 + 1)) with 1. destruct (e =? 0); [done|].
  cbn [doscan_loop mem]. rewrite (F2' : ldb m' (fmt + 1 + 1) = Some 0). cbn [mbind option_bind]. by change (0 =? 0) with true.
Qed.

(** * %d, %u, %o *)

Definition decimal_base (t : Z) : Z := if t =? 111 then 8 else 10.

Lemma digit_not_taken base c : base ≠ 16 -> 48 <= c <= 57 -> innum_takes base c = Some false.
Proof.
  intros Hb Hc. unfold innum_takes. assert (E : is_Some (isdigit c)).
  { unfold isdigit, isclass. rewrite (proj2 (Z.ltb_ge _ _)) by lia.
    destruct (lookup_lt_is_Some_2 _ctype_ (Z.to_nat (c + 1))) as [x ->]; [change (length _ctype_) with 129%nat; lia|]. cbn. eauto. }
  destruct E as [d ->]. cbn [mbind option_bind]. do 2 f_equal.
  rewrite (proj2 (Z.leb_gt 97 c)), (proj2 (Z.leb_gt 65 c)) by lia. cbn [andb orb]. apply andb_false_r.
Qed.

Lemma innum_digits_stop base len np c st : base ≠ 16 -> 48 <= c <= 57 -> 0 < len ->
  innum_digits sgetch (S (Z.to_nat len)) base len 0 np c st = Some (0, np, c, st).
Proof.
  intros Hb Hc Hl. cbn [innum_digits]. rewrite (proj2 (Z.ltb_ge _ _)) by lia. rewrite digit_not_taken by done. done.
Qed.

Definition number_type (t : Z) : Prop := t = 100 \/ t = 117 \/ t = 111.

Lemma innum_digit fuel m tab s t size argp c d : number_type t -> m !! s = Some c -> 48 <= c <= 57 -> m !! (s + 1) = Some d ->
  _innum sgetch sungetch (S fuel) (Some argp) t 30000 size (Scan m tab s) = Some (0, false, Scan m tab s).
Proof.
  intros Ht Hs Hc Hd. unfold _innum. assert ((t =? 99) || (t =? 115) || (t =? 91) = false) as -> by (destruct Ht as [->|[->| ->]]; done).
  cbn [innum_blanks]. rewrite (sget _ _ _ _ Hs) by lia. cbn [mbind option_bind]. assert (Hu : u8 c = c) by (unfold u8; apply Z.mod_small; lia). rewrite Hu.
  rewrite not_blank_test by (unfold blank; lia). cbn [mbind option_bind]. unfold innum_sign.
  rewrite (proj2 (Z.eqb_neq c 45)), (proj2 (Z.eqb_neq c 43)) by lia. cbn [mbind option_bind].
  rewrite innum_digits_stop by (lia || (destruct Ht as [->|[->| ->]]; done)). cbn [mbind option_bind].
  rewrite (proj2 (Z.eqb_neq c EOF)) by (unfold EOF; lia). cbn [negb]. rewrite sunget by eauto. cbn [mbind option_bind].
  change (0 =? 0) with true. cbv iota. do 3 f_equal. lia.
Qed.

Lemma innum_minus fuel m m' tab s t a argp c d : number_type t -> m !! s = Some 45 -> m !! (s + 1) = Some c -> 48 <= c <= 57 ->
  m !! (s + 2) = Some d -> sti a 0 m = Some m' ->
  _innum sgetch sungetch (S fuel) (Some (a :: argp)) t 30000 REGULAR (Scan m tab s) = Some (1, false, Scan m' tab (s + 1)).
Proof.
  intros Ht H0 H1 Hc H2 Ha. unfold _innum. assert ((t =? 99) || (t =? 115) || (t =? 91) = false) as -> by (destruct Ht as [->|[->| ->]]; done).
  cbn [innum_blanks]. rewrite (sget _ _ _ _ H0) by lia. cbn [mbind option_bind]. change (u8 45) with 45.
  change ((45 =? 32) || (45 =? 9) || (45 =? 10)) with false. cbn [mbind option_bind]. unfold innum_sign. change (45 =? 45) with true. cbv iota.
  rewrite (sget _ _ _ _ H1) by lia. cbn [mbind option_bind]. assert (Hu : u8 c = c) by (unfold u8; apply Z.mod_small; lia). rewrite Hu.
  rewrite innum_digits_stop by (lia || (destruct Ht as [->|[->| ->]]; done)). cbn [mbind option_bind].
  rewrite (proj2 (Z.eqb_neq c EOF)) by (unfold EOF; lia). cbn [negb]. replace (s + 1 + 1) with (s + 2) by lia.
  rewrite sunget by eauto. cbn [mbind option_bind]. change (1 =? 0) with false. change (1 >=? 64) with false. cbv iota.
  cbn [head mbind option_bind mem]. unfold innum_store. change (REGULAR =? SHORT) with false. change ((REGULAR =? REGULAR) || (REGULAR =? LONG)) with true.
  cbv iota. change (s32 (- 0)) with 0. rewrite Ha. cbn [mbind option_bind sctab inp]. do 3 f_equal. lia.
Qed.

(** A format with one directive for a number. *)
Lemma doscan_number n fuel m tab str fmt args t r m' s' : number_type t -> bytes_at m fmt [37; t; 0] ->
  _innum sgetch sungetch fuel (Some args) t 30000 REGULAR (Scan m tab str) = Some (r, false, Scan m' tab s') ->
  m' !! (fmt + 2) = Some 0 ->
  doscan_loop sgetch sungetch (S (S n)) fuel fmt args 0 (Scan m tab str) = Some (if r =? 0 then 0 else 1, Scan m' tab s').
Proof.
  intros Ht (F0 & F1 & F2 & _) E H0. replace (fmt + 1 + 1) with (fmt + 2) in F2 by lia.
  cbn [doscan_loop mem]. rewrite (F0 : ldb m fmt = Some 37). cbn [mbind option_bind].
  change (37 =? 0) with false. change (37 =? 37) with true. cbv iota. rewrite (F1 : ldb m (fmt + 1) = Some t). cbn [mbind option_bind].
  rewrite (proj2 (Z.eqb_neq t 37)) by (destruct Ht as [->|[->| ->]]; done). cbn [sctab mem inp].
  rewrite (directive_plain m _ _ _ t F2) by (unfold number_type in Ht; tauto). cbn [mbind option_bind].
  rewrite (proj2 (Z.eqb_neq t 0)) by (destruct Ht as [->|[->| ->]]; done). rewrite E. cbn [mbind option_bind].
  rewrite (bool_decide_eq_true_2 (is_Some (Some args))) by eauto. rewrite andb_true_r. cbn [doscan_loop mem].
  rewrite (H0 : ldb m' (fmt + 2) = Some 0). cbn [mbind option_bind]. change (0 =? 0) with true. cbv iota. by destruct (r =? 0).
Qed.

(** C35: sscanf reads no decimal and no octal number.  With the format "%d", "%u" or
    "%o" and a string that starts with a digit it converts nothing: it returns 0, stores
    nothing and leaves the pointer at the digit; with a string that starts with a minus
    sign and a digit it returns 1 and stores 0.  The condition of the loop over the
    digits asks for a decimal digit that is also one of the letters a to f. *)
Theorem sscanf_reads_no_number m tab str fmt t a args (Ht : number_type t) (Hfmt : bytes_at m fmt [37; t; 0]) :
  (∀ c d l, bytes_at m str (c :: d :: l) -> 48 <= c <= 57 -> sscanf str fmt (a :: args) tab m = Some (0, Scan m tab str)) /\
  (∀ c d l m', bytes_at m str (45 :: c :: d :: l) -> 48 <= c <= 57 -> sti a 0 m = Some m' -> m' !! (fmt + 2) = Some 0 ->
    sscanf str fmt (a :: args) tab m = Some (1, Scan m' tab (str + 1))).
Proof.
  assert (Hn : ∃ n, str_fuel m = S (S n)).
  { pose proof (bytes_at_size _ _ _ Hfmt) as H. cbn [length] in H. exists (size m - 1)%nat. unfold str_fuel. lia. }
  destruct Hn as [n Hn]. unfold sscanf, _doscan. cbn [mem]. rewrite Hn. split.
  - intros c d l (H0 & H1 & _) Hc. apply (doscan_number n (S (S n)) m tab str fmt (a :: args) t 0); try done.
    + by eapply innum_digit.
    + destruct Hfmt as (_ & _ & F2 & _). by replace (fmt + 2) with (fmt + 1 + 1) by lia.
  - intros c d l m' (H0 & H1 & H2 & _) Hc Ha Hf. apply (doscan_number n (S (S n)) m tab str fmt (a :: args) t 1); try done.
    eapply innum_minus; try done. by replace (str + 2) with (str + 1 + 1) by lia.
Qed.

(** * fscanf *)

(** fscanf never calls getc: its one-character buffer starts out as EMPTY, which getch
    returns as it is. *)
Lemma fscanf_getch_reads_nothing {D} (getc : D -> option (Z * D)) m dev :
  fgetch getc m (EMPTY, dev) = Some (EMPTY, (EMPTY, dev)) /\ ∀ s : Z * D, fungetch m s = Some (EMPTY, s.2).
Proof. done. Qed.

(** * On concrete strings *)

(** The string [s] at 100, the format [f] at 200, 40 bytes for the results at 300. *)
Definition demo_scan (s f : list Z) : bmem := put_list 100 s (put_list 200 f (ram 40 300 ∅)).

Lemma sscanf_reads_a_word_witness : ∃ m',
  sscanf 100 200 [300] _sctab (demo_scan [32; 97; 98; 32; 99; 0] [37; 115; 0]) = Some (1, Scan m' _sctab 103) /\ bytes_at m' 300 [97; 98; 0].
Proof.
  destruct (sscanf_reads_a_word (demo_scan [32; 97; 98; 32; 99; 0] [37; 115; 0]) _sctab 100 200 [32] 97 [98] 32 300 []) as (m' & E & _ & B).
  - exact _sctab_marks.
  - repeat (split; [vm_compute; reflexivity|]). exact I.
  - repeat constructor.
  - repeat constructor; unfold blank; lia.
  - right. split; [by left|]. exists 99. vm_compute. reflexivity.
  - repeat (split; [vm_compute; reflexivity|]). exact I.
  - lia.
  - apply (mappedb_true _ 300 3). vm_compute. reflexivity.
  - cbn [length]. lia.
  - cbn [length app]. lia.
  - cbn [length]. lia.
  - exists m'. split; [exact E|exact B].
Defined.

Lemma sscanf_reads_no_number_witness :
  sscanf 100 200 [300] _sctab (demo_scan [52; 50; 0] [37; 100; 0]) = Some (0, Scan (demo_scan [52; 50; 0] [37; 100; 0]) _sctab 100).
Proof.
  destruct (sscanf_reads_no_number (demo_scan [52; 50; 0] [37; 100; 0]) _sctab 100 200 100 300 []) as [H _].
  - by left.
  - repeat (split; [vm_compute; reflexivity|]). exact I.
  - apply (H 52 50 [0]); [|lia]. repeat (split; [vm_compute; reflexivity|]). exact I.
Defined.
