(* ===== verification/Lift.v ===== *)
(** The monad of system calls over a larger state.

    Drivers and protocols keep tables of their own next to those of the kernel.  [lst X]
    is the kernel state with such an extension, [L X] the monad [K] of Kernel.v over it:
    a kernel call is lifted, and when one gives up the processor, the process that
    resumes finds both parts as the others left them. *)

From S2P Require Import Prelude Types Queue Memory Kernel.

Record lst (X : Type) := Lst { lk : kst; lx : X }.
Arguments Lst {X}.
Arguments lk {X}.
Arguments lx {X}.

Inductive lres (X A : Type) : Type :=
  | LDone (a : A) (s : lst X)
  | LCtxsw (old : Z) (s : lst X) (k : lst X -> lres X A)
  | LHalted (s : lst X)
  | LUB.
Arguments LDone {X A}.
Arguments LCtxsw {X A}.
Arguments LHalted {X A}.
Arguments LUB {X A}.

Fixpoint lbind {X A B} (f : A -> lst X -> lres X B) (r : lres X A) : lres X B :=
  match r with
  | LDone a s => f a s
  | LCtxsw old s k => LCtxsw old s (λ s', lbind f (k s'))
  | LHalted s => LHalted s
  | LUB => LUB
  end.

Definition L (X A : Type) : Type := lst X -> lres X A.

#[export] Instance L_ret X : MRet (L X) := λ A a s, LDone a s.
#[export] Instance L_bind X : MBind (L X) := λ A B f m s, lbind f (m s).

(** A kernel call. *)
Fixpoint lift_res {X A} (x : X) (r : res A) : lres X A :=
  match r with
  | Done a s => LDone a (Lst s x)
  | Ctxsw old s k => LCtxsw old (Lst s x) (λ s', lift_res s'.(lx) (k s'.(lk)))
  | Halted s => LHalted (Lst s x)
  | UB => LUB
  end.
Definition lift {X A} (m : K A) : L X A := λ s, lift_res s.(lx) (m s.(lk)).

(** The extension. *)
Definition getx {X A} (f : X -> A) : L X A := λ s, LDone (f s.(lx)) s.
Definition modx {X} (f : X -> X) : L X unit := λ s, LDone tt (Lst s.(lk) (f s.(lx))).
(** An index out of range is undefined behaviour. *)
Definition lopt {X A} (o : option A) : L X A := λ s,
  match o with Some a => LDone a s | None => LUB end.
Definition lundefined {X A} : L X A := λ _, LUB.

(** * Straight-line code *)

Section Run.
Context {X : Type}.

Lemma lbind_done {A B} (m : L X A) (f : A -> L X B) s a s' : m s = LDone a s' -> (m ≫= f) s = f a s'.
Proof. intros H. unfold mbind, L_bind. by rewrite H. Qed.

Lemma bind_getx {A B} (g : X -> A) (f : A -> L X B) s : (getx g ≫= f) s = f (g s.(lx)) s.
Proof. done. Qed.

Lemma bind_modx {B} g (f : unit -> L X B) k x : (modx g ≫= f) (Lst k x) = f tt (Lst k (g x)).
Proof. done. Qed.

Lemma bind_lopt {A B} (a : A) (f : A -> L X B) s : (lopt (Some a) ≫= f) s = f a s.
Proof. done. Qed.

Lemma bind_lret {A B} (a : A) (f : A -> L X B) s : (mret a ≫= f) s = f a s.
Proof. done. Qed.


Lemma lift_done {A} (m : K A) k (x : X) a k' : m k = Done a k' -> lift m (Lst k x) = LDone a (Lst k' x).
Proof. intros H. unfold lift. cbn [lk lx]. by rewrite H. Qed.

Lemma bind_klift {A B} (m : K A) (f : A -> L X B) k x a k' :
  m k = Done a k' -> (lift m ≫= f) (Lst k x) = f a (Lst k' x).
Proof. intros H. apply lbind_done. by apply lift_done. Qed.

(** * What an extension keeps

    [keeps I m]: if the extension satisfies [I] then it does so whenever [m] gives up
    the processor and when it ends, provided the other processes do their part. *)

Fixpoint stays {A} (I : X -> Prop) (Q : A -> X -> Prop) (r : lres X A) : Prop :=
  match r with
  | LDone a s => Q a s.(lx)
  | LCtxsw _ s k => I s.(lx) /\ ∀ s', I s'.(lx) -> stays I Q (k s')
  | LHalted _ | LUB => True
  end.

Definition keeps {A} (I : X -> Prop) (m : L X A) : Prop := ∀ s, I s.(lx) -> stays I (λ _, I) (m s).

Lemma stays_bind {A B} I Q (f : A -> L X B) (r : lres X A) :
  stays I (λ a x, ∀ k, stays I Q (f a (Lst k x))) r -> stays I Q (lbind f r).
Proof.
  induction r as [a [k x]| old s k IH | |]; simpl; try done. intros [HI Hk]. eauto.
Qed.

Lemma stays_mono {A} I (Q Q' : A -> X -> Prop) r : stays I Q r -> (∀ a x, Q a x -> Q' a x) -> stays I Q' r.
Proof. induction r as [a s| old s k IH | |]; simpl; try done; [eauto|]. intros [HI Hk] HQ. eauto. Qed.

Lemma keeps_bind {A B} I (m : L X A) (f : A -> L X B) : keeps I m -> (∀ a, keeps I (f a)) -> keeps I (m ≫= f).
Proof.
  intros Hm Hf s Hs. apply stays_bind. eapply stays_mono; [by apply Hm|]. simpl. intros a x Hx k. by apply Hf.
Qed.

Lemma keeps_ret {A} I (a : A) : keeps I (mret a).
Proof. by intros s Hs. Qed.

Lemma keeps_getx {A} I (f : X -> A) : keeps I (getx f).
Proof. by intros s Hs. Qed.

Lemma keeps_lopt {A} I (o : option A) : keeps I (lopt o).
Proof. intros s Hs. by destruct o. Qed.

Lemma keeps_undefined {A} I : keeps I (lundefined : L X A).
Proof. done. Qed.

Lemma keeps_modx I f : (∀ x, I x -> I (f x)) -> keeps I (modx f).
Proof. intros Hf s Hs. by apply Hf. Qed.

Lemma stays_lift {A} (I : X -> Prop) (r : res A) : ∀ x, I x -> stays I (λ _, I) (lift_res x r).
Proof. induction r as [| old s k IH | |]; simpl; try done. intros x Hx. split; [done|]. intros s' Hs'. by apply IH. Qed.

Lemma keeps_lift {A} I (m : K A) : keeps I (lift m).
Proof. intros s Hs. by apply stays_lift. Qed.

(** A property of a value that was read, in the code that uses it. *)
Lemma stays_getx {A B} I (g : X -> A) (f : A -> L X B) Q s :
  stays I Q (f (g s.(lx)) s) -> stays I Q ((getx g ≫= f) s).
Proof. done. Qed.
End Run.

Create HintDb keeps.
#[export] Hint Resolve keeps_bind keeps_ret keeps_getx keeps_lopt keeps_undefined keeps_lift : keeps.
