(* ===== verification/Name.v ===== *)
(** The name space: device/nam/naminit.c, mount.c, nammap.c, namopen.c.

    [nametab] is a list of prefixes, each with the string that replaces it and the device
    that takes the rest of the name.  naminit enters the devices of the switch as
    /dev/<name> and the directories of the file systems; nammap finds the first prefix that
    matches a name; namopen opens the device with the name that results.

    The arrays of an entry and the arguments of mount are objects of their own; names are
    in the memory [strs].  A local array of a function is at an address that is passed to
    it.  The messages that naminit prints are left out. *)

From S2P Require Import Prelude Types Cstring Queue Memory Kernel Sched Bytes Lift Devsw.

(** include/name.h *)
Definition NM_PRELEN : Z := 64.
Definition NM_REPLLEN : Z := 96.
Definition NM_MAXLEN : Z := 256.
Definition NNAMES : Z := 40.

(** struct nmentry *)
Record nmentry := Nmentry { nprefix : bmem; nreplace : bmem; ndevice : Z }.
Definition set_nprefix v e := let 'Nmentry _ b c := e in Nmentry v b c.
Definition set_nreplace v e := let 'Nmentry a _ c := e in Nmentry a v c.
Definition set_ndevice v e := let 'Nmentry a b _ := e in Nmentry a b v.

Record names := Names { nametab : gmap Z nmentry; nnames : Z; strs : bmem }.
Definition set_nametab v x := let 'Names _ b c := x in Names v b c.
Definition set_nnames v x := let 'Names a _ c := x in Names a v c.
Definition set_strs v x := let 'Names a b _ := x in Names a b v.

(** A pointer: an object and an offset in it. *)
Definition cptr : Type := bmem * Z.
(** A string literal. *)
Definition cstr (l : list Z) : cptr := (put_list 0 (l ++ [0]) ∅, 0).

(** * mount.c *)

(** mount.c: namlen *)
Fixpoint namlen_loop (n : nat) (i : Z) (m : bmem) (name : Z) : option Z :=
  match n with
  | O => Some SYSERR
  | S n => c ← ldb m name; if c =? 0 then Some (i + 1) else namlen_loop n (i + 1) m (name + 1)
  end.
Definition namlen (p : cptr) (maxlen : Z) : option Z := namlen_loop (Z.to_nat maxlen) 0 p.1 p.2.

(** [for (i=0; i<psiz; i++) namptr->nprefix[i] = *prefix++;] *)
Fixpoint field_copy (n : nat) (i : Z) (m : bmem) (p : Z) (field : bmem) : option bmem :=
  match n with
  | O => Some field
  | S n => c ← ldb m p; field ← stb i c field; field_copy n (i + 1) m (p + 1) field
  end.

Definition upd_name (f : nmentry -> nmentry) (i : Z) : L names unit :=
  t ← getx nametab; e ← lopt (t !! i); modx (λ x, set_nametab (<[i := f e]> x.(nametab)) x).
Definition get_name (i : Z) : L names nmentry := t ← getx nametab; lopt (t !! i).

(** mount.c: mount *)
Definition mount (prefix replace : cptr) (device : Z) : L names Z :=
  mask ← lift disable;
  psiz ← lopt (namlen prefix NM_PRELEN);
  rsiz ← lopt (namlen replace NM_REPLLEN);
  n ← getx nnames;
  if (psiz =? SYSERR) || (rsiz =? SYSERR) || isbaddev device || (n >=? NNAMES) then
    lift (restore mask);; mret SYSERR
  else
    namptr ← get_name n;
    f ← lopt (field_copy (Z.to_nat psiz) 0 prefix.1 prefix.2 namptr.(nprefix));
    upd_name (set_nprefix f) n;;
    g ← lopt (field_copy (Z.to_nat rsiz) 0 replace.1 replace.2 namptr.(nreplace));
    upd_name (set_nreplace g) n;;
    upd_name (set_ndevice device) n;;
    modx (set_nnames (n + 1));;
    lift (restore mask);;
    mret OK.

(** * nammap.c *)

(** [for (plen=0; *pptr != NULLCH; plen++) ...], which compares a prefix with the name:
    where it stops in either. *)
Fixpoint prefix_loop (fuel : nat) (pm : bmem) (pptr : Z) (m : bmem) (optr plen : Z) : option (Z * Z * Z) :=
  match fuel with
  | O => None
  | S fuel =>
      p ← ldb pm pptr;
      if p =? 0 then Some (pptr, optr, plen)
      else
        o ← ldb m optr;
        if negb (p =? o) then Some (pptr, optr, plen) else prefix_loop fuel pm (pptr + 1) m (optr + 1) (plen + 1)
  end.

(** [for (; rlen>0; rlen--) *nptr++ = *rptr++;] *)
Fixpoint repl_copy (n : nat) (rm : bmem) (rptr nptr : Z) (m : bmem) : option bmem :=
  match n with
  | O => Some m
  | S n => c ← ldb rm rptr; m ← stb nptr c m; repl_copy n rm (rptr + 1) (nptr + 1) m
  end.

(** namrepl, from a match on: [olen] is a char.  The second loop is that of memcpy. *)
Definition namrepl_at (e : nmentry) (name newname optr plen : Z) (m : bmem) : option (Z * bmem) :=
  n ← namlen (m, name) NM_MAXLEN;
  let olen := u8 n in
  r ← namlen (e.(nreplace), 0) NM_MAXLEN;
  let rlen := r - 1 in
  let remain := olen - plen in
  if rlen + remain >? NM_MAXLEN then Some (SYSERR, m)
  else
    m ← repl_copy (Z.to_nat rlen) e.(nreplace) 0 newname m;
    m ← memcpy_loop (Z.to_nat remain) (newname + Z.max 0 rlen) optr m;
    Some (e.(ndevice), m).

(** nammap.c: namrepl; [n] entries are left, from [i] on. *)
Fixpoint namrepl_loop (n : nat) (i : Z) (t : gmap Z nmentry) (name newname : Z) (m : bmem) : option (Z * bmem) :=
  match n with
  | O => Some (SYSERR, m)
  | S n =>
      namptr ← t !! i;
      '(pptr, optr, plen) ← prefix_loop (str_fuel namptr.(nprefix)) namptr.(nprefix) 0 m name 0;
      c ← ldb namptr.(nprefix) pptr;
      if negb (c =? 0) then namrepl_loop n (i + 1) t name newname m
      else namrepl_at namptr name newname optr plen m
  end.
Definition namrepl (x : names) (name newname : Z) (m : bmem) : option (Z * bmem) :=
  namrepl_loop (Z.to_nat x.(nnames)) 0 x.(nametab) name newname m.

(** nammap.c: namcpy *)
Fixpoint namcpy_loop (n : nat) (nptr optr : Z) (m : bmem) : option (Z * bmem) :=
  match n with
  | O => Some (SYSERR, m)
  | S n => c ← ldb m optr; m ← stb nptr c m; if c =? 0 then Some (OK, m) else namcpy_loop n (nptr + 1) (optr + 1) m
  end.
Definition namcpy (newname oldname buflen : Z) (m : bmem) : option (Z * bmem) :=
  namcpy_loop (Z.to_nat buflen) newname oldname m.

(** [for (iter=0; iter<nnames; iter++)] *)
Fixpoint nammap_loop (n : nat) (x : names) (tmpname newname namdev : Z) (m : bmem) : option (Z * bmem) :=
  match n with
  | O => Some (SYSERR, m)
  | S n =>
      '(newdev, m) ← namrepl x tmpname newname m;
      if negb (newdev =? namdev) then
        '(_, m) ← namcpy tmpname newname NM_MAXLEN m; Some (newdev, m)
      else nammap_loop n x tmpname newname namdev m
  end.

(** nammap.c: nammap; [tmpname] is its local array. *)
Definition nammap (x : names) (tmpname name newname namdev : Z) (m : bmem) : option (Z * bmem) :=
  '(r, m) ← namcpy tmpname name NM_MAXLEN m;
  if r =? SYSERR then Some (SYSERR, m)
  else nammap_loop (Z.to_nat x.(nnames)) x tmpname newname namdev m.

(** * naminit.c and namopen.c *)

(** include/conf.h *)
Definition NULLDEV : Z := 1.
Definition LFILESYS : Z := 4.
(** There is no remote file system in conf.h: naminit.c defines RFILESYS as SYSERR. *)
Definition RFILESYS : Z := SYSERR.

(** [while (( *tptr++ = *nptr++) != NULLCH) len++;]: where [tptr] ends, and [len]. *)
Fixpoint devprefix_loop (fuel : nat) (src : bmem) (nptr tptr len : Z) (m : bmem) : option (Z * Z * bmem) :=
  match fuel with
  | O => None
  | S fuel =>
      c ← ldb src nptr;
      m ← stb tptr c m;
      if c =? 0 then Some (tptr + 1, len, m) else devprefix_loop fuel src (nptr + 1) (tptr + 1) (len + 1) m
  end.

(** [while (++len < NM_MAXLEN) ...], which appends the name in lower case. *)
Definition lower (ch : Z) : Z := if (ch >=? 65) && (ch <=? 90) then u8 (ch + (97 - 65)) else ch.
Fixpoint lower_loop (fuel : nat) (src : bmem) (nptr tptr len : Z) (m : bmem) : option (Z * bmem) :=
  match fuel with
  | O => None
  | S fuel =>
      let len := len + 1 in
      if len <? NM_MAXLEN then
        ch ← ldb src nptr;
        let ch := lower ch in
        m ← stb tptr ch m;
        if ch =? 0 then Some (len, m) else lower_loop fuel src (nptr + 1) (tptr + 1) len m
      else Some (len, m)
  end.

(** The local arrays [devprefix] and [tmpstr] of naminit.  Here [tmpstr] is cleared for every
    device; in the code it keeps the name before, which is seen only when a name is so long
    that it is stored without its null. *)
Definition slash_dev : list Z := [47; 100; 101; 118; 47].
Definition tmpstr0 : bmem := ram (Z.to_nat NM_MAXLEN) 0 ∅.
Definition dev_name (dvname : list Z) : option (Z * bmem) :=
  '(tptr, len, m) ← devprefix_loop (str_fuel (cstr slash_dev).1) (cstr slash_dev).1 0 0 0 tmpstr0;
  lower_loop (S (Z.to_nat NM_MAXLEN)) (cstr dvname).1 0 (tptr - 1) len m.

(** The names that naminit mounts last. *)
Definition s_null : list Z := [47; 100; 101; 118; 47; 110; 117; 108; 108].
Definition s_remote : list Z := [47; 114; 101; 109; 111; 116; 101; 47].
Definition s_remote' : list Z := [114; 101; 109; 111; 116; 101; 58].
Definition s_local : list Z := [47; 108; 111; 99; 97; 108; 47].
Definition s_home : list Z := [126; 47].
Definition s_root' : list Z := [114; 111; 111; 116; 58].

Section Switch.
Context (devtab : Z -> dentry).

(** [for (i=0; i<NDEVS; i++)]: either way the loop goes on with the next device. *)
Fixpoint naminit_loop (n : nat) (i : Z) : L names unit :=
  match n with
  | O => mret tt
  | S n =>
      '(len, tmpstr) ← lopt (dev_name (devtab i).(dvname));
      if len >? NM_MAXLEN then naminit_loop n (i + 1)
      else
        mount (tmpstr, 0) (cstr []) (devtab i).(dvnum);;
        naminit_loop n (i + 1)
  end.

(** naminit.c: naminit *)
Definition naminit : L names Z :=
  modx (set_nnames 0);;
  naminit_loop (Z.to_nat NDEVS) 0;;
  mount (cstr s_null) (cstr []) NULLDEV;;
  mount (cstr s_remote) (cstr s_remote') RFILESYS;;
  mount (cstr s_local) (cstr []) LFILESYS;;
  mount (cstr slash_dev) (cstr []) SYSERR;;
  mount (cstr s_home) (cstr []) LFILESYS;;
  mount (cstr [47]) (cstr s_root') RFILESYS;;
  mount (cstr []) (cstr []) LFILESYS;;
  mret OK.

(** namopen.c: namopen; [newname] is its local array, [tmpname] that of nammap. *)
Definition namopen (tmpname newname devptr name mode : Z) : L names Z :=
  x ← getx id;
  '(newdev, m) ← lopt (nammap x tmpname name newname (devtab devptr).(dvnum) x.(strs));
  modx (set_strs m);;
  if newdev =? SYSERR then mret SYSERR else lift (open devtab newdev newname mode).
End Switch.
