(* ===== verification/Namethm.v ===== *)
(** Names are mapped by the first prefix that matches, mount adds a prefix at the end, and
    what the table of naminit maps. *)

From S2P Require Import Prelude Types Cstring Queue Memory Kernel Sched Devsw System Bytes Lift Name.

(** * The table as a list *)

(** A prefix, its replacement and the device. *)
Definition entry : Type := list Z * list Z * Z.

Record entry_at (e : nmentry) (s : entry) : Prop := {
  ea_prefix : str_at e.(nprefix) 0 s.1.1;
  ea_replace : str_at e.(nreplace) 0 s.1.2;
  ea_device : e.(ndevice) = s.2;
  ea_bad : isbaddev s.2 = false;
  ea_plen : Z.of_nat (length s.1.1) < NM_PRELEN;
  ea_rlen : Z.of_nat (length s.1.2) < NM_REPLLEN }.

Definition room (e : nmentry) : Prop := mapped e.(nprefix) 0 NM_PRELEN /\ mapped e.(nreplace) 0 NM_REPLLEN.

Record table_is (x : names) (es : list entry) : Prop := {
  ti_len : arr_len NNAMES x.(nametab);
  ti_room : map_Forall (λ _, room) x.(nametab);
  ti_count : x.(nnames) = Z.of_nat (length es);
  ti_max : Z.of_nat (length es) <= NNAMES;
  ti_entries : ∀ i s, es !! i = Some s -> ∃ e, x.(nametab) !! Z.of_nat i = Some e /\ entry_at e s }.

(** The first entry whose prefix matches a name, and what the name stands for: the device,
    and the name for it.  The first prefix decides, even if the new name is too long. *)
Fixpoint matching (es : list entry) (name : list Z) : option entry :=
  match es with
  | [] => None
  | s :: es => if bool_decide (s.1.1 `prefix_of` name) then Some s else matching es name
  end.
Definition resolve (es : list entry) (name : list Z) : option (Z * list Z) :=
  match matching es name with
  | Some (p, r, d) =>
      let name' := r ++ drop (length p) name in
      if Z.of_nat (length name') <? NM_MAXLEN then Some (d, name') else None
  | None => None
  end.

Lemma str_at_unmapped m m' p l : str_at m p l -> (∀ a, p <= a <= p + Z.of_nat (length l) -> m' !! a = m !! a) -> str_at m' p l.
Proof.
  intros [Hb H0] Hm. split; [|done]. eapply bytes_at_frame; [exact Hb|]. intros a Ha. rewrite length_app in Ha. cbn [length] in Ha. apply Hm. lia.
Qed.

Lemma str_writes p n m m' q l : writes p n m m' -> str_at m q l -> q + Z.of_nat (length l) < p \/ p + n <= q -> str_at m' q l.
Proof. intros [H _] Hs Hd. eapply str_at_unmapped; [exact Hs|]. intros a Ha. apply H. lia. Qed.

(** * The loops *)

Lemma namlen_loop_str l : ∀ n i m p, str_at m p l -> (length l < n)%nat ->
  namlen_loop n i m p = Some (i + Z.of_nat (length l) + 1).
Proof.
  induction l as [|c l IH]; intros [|n] i m p Hs Hn; cbn [length] in Hn; try lia; cbn [namlen_loop]; unfold ldb.
  - apply str_at_nil in Hs. rewrite Hs. cbn. f_equal. lia.
  - apply str_at_cons in Hs as (Hp & Hc & Hs). rewrite Hp. cbn [mbind option_bind]. rewrite (proj2 (Z.eqb_neq _ _) Hc).
    rewrite IH by (done || lia). cbn [length]. f_equal. lia.
Qed.

(** A string that does not end within [n] bytes. *)
Lemma namlen_loop_long n : ∀ i m p l, bytes_at m p l -> Forall (λ c, c ≠ 0) l -> length l = n -> namlen_loop n i m p = Some SYSERR.
Proof.
  induction n as [|n IH]; intros i m p [|c l] Hb H0 Hl; cbn [length] in Hl; try lia; cbn [namlen_loop]; [done|].
  destruct Hb as [Hp Hb]. apply Forall_cons in H0 as [Hc H0]. unfold ldb. rewrite Hp. cbn [mbind option_bind].
  rewrite (proj2 (Z.eqb_neq _ _) Hc). eapply IH; [done|done|lia].
Qed.

Lemma prefix_loop_run p : ∀ l fuel pm pptr m optr plen, str_at pm pptr p -> str_at m optr l -> (length p < fuel)%nat ->
  ∃ pp oo n, prefix_loop fuel pm pptr m optr plen = Some (pp, oo, n) /\
    if bool_decide (p `prefix_of` l)
    then pm !! pp = Some 0 /\ oo = optr + Z.of_nat (length p) /\ n = plen + Z.of_nat (length p)
    else ∃ c, pm !! pp = Some c /\ c ≠ 0.
Proof.
  induction p as [|a p IH]; intros l [|fuel] pm pptr m optr plen Hp Hl Hf; cbn [length] in *; try lia; cbn [prefix_loop]; unfold ldb.
  - apply str_at_nil in Hp. rewrite Hp. cbn [mbind option_bind]. rewrite Z.eqb_refl. do 3 eexists. split; [reflexivity|].
    rewrite bool_decide_eq_true_2 by apply prefix_nil. split; [done|]. lia.
  - apply str_at_cons in Hp as (Ha & Ha0 & Hp). rewrite Ha. cbn [mbind option_bind]. rewrite (proj2 (Z.eqb_neq _ _) Ha0).
    destruct l as [|b l].
    { apply str_at_nil in Hl. rewrite Hl. cbn [mbind option_bind]. rewrite (proj2 (Z.eqb_neq _ _) Ha0). do 3 eexists. split; [reflexivity|].
      rewrite bool_decide_eq_false_2 by apply prefix_nil_not. eauto. }
    apply str_at_cons in Hl as (Hb & Hb0 & Hl). rewrite Hb. cbn [mbind option_bind]. destruct (Z.eqb_spec a b) as [->|Hne]; cbn [negb].
    + destruct (IH l fuel pm (pptr + 1) m (optr + 1) (plen + 1)) as (pp & oo & n & E & H); [done|done|lia|]. exists pp, oo, n.
      split; [done|]. assert (Hd : bool_decide (b :: p `prefix_of` b :: l) = bool_decide (p `prefix_of` l)).
      { apply bool_decide_ext. split; [apply prefix_cons_inv_2|apply prefix_cons]. }
      rewrite Hd. destruct (bool_decide _); [|done]. destruct H as (? & -> & ->). split; [done|]. lia.
    + do 3 eexists. split; [reflexivity|]. rewrite bool_decide_eq_false_2; [eauto|]. intros H. by apply prefix_cons_inv_1 in H.
Qed.

Lemma namlen_any l m p maxlen : str_at m p l -> 0 <= maxlen ->
  namlen (m, p) maxlen = Some (if Z.of_nat (length l) <? maxlen then Z.of_nat (length l) + 1 else SYSERR).
Proof.
  intros Hs Hm. unfold namlen. cbn [fst snd]. destruct (Z.ltb_spec (Z.of_nat (length l)) maxlen).
  - by rewrite (namlen_loop_str l) by (done || lia).
  - destruct Hs as [Hb H0]. rewrite <- (take_drop (Z.to_nat maxlen) l), <- app_assoc in Hb. apply bytes_at_app in Hb as [Hb _].
    eapply namlen_loop_long; [exact Hb|by apply Forall_take|rewrite length_take; lia].
Qed.

Lemma namlen_str l m p maxlen : str_at m p l -> Z.of_nat (length l) < maxlen ->
  namlen (m, p) maxlen = Some (Z.of_nat (length l) + 1).
Proof. intros Hs Hl. rewrite (namlen_any l) by (done || lia). by rewrite (proj2 (Z.ltb_lt _ _) Hl). Qed.

(** Copying bytes from one object to another. *)
Lemma repl_copy_run l : ∀ rm rptr nptr m, bytes_at rm rptr l -> mapped m nptr (Z.of_nat (length l)) ->
  ∃ m', repl_copy (length l) rm rptr nptr m = Some m' /\ writes nptr (Z.of_nat (length l)) m m' /\ bytes_at m' nptr l.
Proof.
  induction l as [|c l IH]; intros rm rptr nptr m Hb Hm; cbn [length repl_copy] in *.
  { exists m. by split; [|split; [apply writes_refl|]]. }
  destruct Hb as [Hc Hb]. unfold ldb. rewrite Hc. cbn [mbind option_bind].
  destruct (writes_one nptr c m (Hm nptr ltac:(lia))) as [-> Hw]. cbn [mbind option_bind].
  destruct (IH rm (rptr + 1) (nptr + 1) (<[nptr := c]> m) Hb) as (m' & E & Hw' & Hb').
  { eapply writes_mapped; [exact Hw|]. eapply mapped_part; [exact Hm|lia|lia]. }
  exists m'. split; [done|]. split; [eapply writes_trans; eapply writes_weaken; [exact Hw|lia|lia|exact Hw'|lia|lia]|]. split; [|done].
  rewrite (writes_out _ _ _ _ _ Hw') by lia. apply lookup_insert_eq.
Qed.

Lemma field_copy_repl n : ∀ i m p f, field_copy n i m p f = repl_copy n m p i f.
Proof.
  induction n as [|n IH]; intros i m p f; cbn [field_copy repl_copy]; [done|]. destruct (ldb m p); [|done]. cbn [mbind option_bind].
  destruct (stb i z f); [apply IH|done].
Qed.

Lemma namcpy_loop_str l : ∀ n nptr optr m, str_at m optr l -> (length l < n)%nat -> mapped m nptr (Z.of_nat n) ->
  nptr + Z.of_nat n <= optr \/ optr + Z.of_nat (length l) < nptr ->
  ∃ m', namcpy_loop n nptr optr m = Some (OK, m') /\ writes nptr (Z.of_nat n) m m' /\ str_at m' nptr l.
Proof.
  induction l as [|c l IH]; intros [|n] nptr optr m Hs Hn Hm Hd; cbn [length] in *; try lia; cbn [namcpy_loop]; unfold ldb.
  - apply str_at_nil in Hs. rewrite Hs. cbn [mbind option_bind]. destruct (writes_one nptr 0 m (Hm nptr ltac:(lia))) as [-> Hw].
    cbn [mbind option_bind]. exists (<[nptr := 0]> m). split; [done|]. split; [eapply writes_weaken; [exact Hw|lia|lia]|].
    apply str_at_nil, lookup_insert_eq.
  - apply str_at_cons in Hs as (Hp & Hc & Hs). rewrite Hp. cbn [mbind option_bind].
    destruct (writes_one nptr c m (Hm nptr ltac:(lia))) as [-> Hw]. cbn [mbind option_bind]. rewrite (proj2 (Z.eqb_neq _ _) Hc).
    destruct (IH n (nptr + 1) (optr + 1) (<[nptr := c]> m)) as (m' & E & Hw' & Hs').
    + eapply str_writes; [exact Hw|exact Hs|lia].
    + lia.
    + eapply writes_mapped; [exact Hw|]. eapply mapped_part; [exact Hm|lia|lia].
    + lia.
    + exists m'. split; [done|]. split; [eapply writes_trans; eapply writes_weaken; [exact Hw|lia|lia|exact Hw'|lia|lia]|].
      apply str_at_cons. split; [|done]. rewrite (writes_out _ _ _ _ _ Hw') by lia. apply lookup_insert_eq.
Qed.

(** At most [n] bytes are copied, whatever they are. *)
Lemma namcpy_loop_any n : ∀ nptr optr m, mapped m optr (Z.of_nat n) -> mapped m nptr (Z.of_nat n) ->
  ∃ r m', namcpy_loop n nptr optr m = Some (r, m') /\ writes nptr (Z.of_nat n) m m'.
Proof.
  induction n as [|n IH]; intros nptr optr m Ho Hm; cbn [namcpy_loop]; [eauto using writes_refl|].
  destruct (Ho optr ltac:(lia)) as [c Hc]. unfold ldb. rewrite Hc. cbn [mbind option_bind].
  destruct (writes_one nptr c m (Hm nptr ltac:(lia))) as [-> Hw]. cbn [mbind option_bind].
  destruct (c =? 0); [do 2 eexists; split; [reflexivity|]; eapply writes_weaken; [exact Hw|lia|lia]|].
  destruct (IH (nptr + 1) (optr + 1) (<[nptr := c]> m)) as (r & m' & E & Hw').
  - eapply writes_mapped; [exact Hw|]. eapply mapped_part; [exact Ho|lia|lia].
  - eapply writes_mapped; [exact Hw|]. eapply mapped_part; [exact Hm|lia|lia].
  - exists r, m'. split; [done|]. eapply writes_trans; eapply writes_weaken; [exact Hw|lia|lia|exact Hw'|lia|lia].
Qed.

Lemma namcpy_loop_long n : ∀ nptr optr m l, bytes_at m optr l -> Forall (λ c, c ≠ 0) l -> length l = n -> mapped m nptr (Z.of_nat n) ->
  nptr + Z.of_nat n <= optr \/ optr + Z.of_nat n <= nptr ->
  ∃ m', namcpy_loop n nptr optr m = Some (SYSERR, m') /\ writes nptr (Z.of_nat n) m m'.
Proof.
  induction n as [|n IH]; intros nptr optr m [|c l] Hb H0 Hl Hm Hd; cbn [length] in Hl; try lia; cbn [namcpy_loop].
  { exists m. split; [done|apply writes_refl]. }
  destruct Hb as [Hp Hb]. apply Forall_cons in H0 as [Hc H0]. unfold ldb. rewrite Hp. cbn [mbind option_bind].
  destruct (writes_one nptr c m (Hm nptr ltac:(lia))) as [-> Hw]. cbn [mbind option_bind]. rewrite (proj2 (Z.eqb_neq _ _) Hc).
  destruct (IH (nptr + 1) (optr + 1) (<[nptr := c]> m) l) as (m' & E & Hw').
  - eapply writes_bytes; [exact Hw|exact Hb|lia].
  - done.
  - lia.
  - eapply writes_mapped; [exact Hw|]. eapply mapped_part; [exact Hm|lia|lia].
  - lia.
  - exists m'. split; [done|]. eapply writes_trans; eapply writes_weaken; [exact Hw|lia|lia|exact Hw'|lia|lia].
Qed.

(** * Mapping *)

Section Map.
Implicit Types (x : names) (m : bmem).

(** The entry that matches: the replacement and then the rest of the name, with its null. *)
Lemma namrepl_at_run e p r d l name newname m : entry_at e (p, r, d) -> p `prefix_of` l -> str_at m name l ->
  (length l < 255)%nat -> mapped m newname NM_MAXLEN -> newname + NM_MAXLEN <= name \/ name + Z.of_nat (length l) < newname ->
  let l' := r ++ drop (length p) l in
  if Z.of_nat (length l') <? NM_MAXLEN
  then ∃ m', namrepl_at e name newname (name + Z.of_nat (length p)) (Z.of_nat (length p)) m = Some (d, m') /\
         writes newname NM_MAXLEN m m' /\ str_at m' newname l'
  else namrepl_at e name newname (name + Z.of_nat (length p)) (Z.of_nat (length p)) m = Some (SYSERR, m).
Proof.
  intros [] [q ->] Hs Hl Hm Hd l'. subst l'. cbn [fst snd] in *. rewrite drop_app_length. rewrite length_app in Hl, Hd.
  unfold namrepl_at. rewrite (namlen_str (p ++ q) m name) by (done || (rewrite ?length_app; unfold NM_MAXLEN; lia)). cbn [mbind option_bind].
  rewrite (namlen_str r (nreplace e) 0) by (done || (unfold NM_MAXLEN, NM_REPLLEN in *; lia)). cbn [mbind option_bind]. rewrite !length_app.
  replace (u8 (Z.of_nat (length p + length q) + 1)) with (Z.of_nat (length p + length q) + 1) by (symmetry; apply Z.mod_small; lia).
  replace (Z.of_nat (length p + length q) + 1 - Z.of_nat (length p)) with (Z.of_nat (length q) + 1) by lia.
  replace (Z.of_nat (length r) + 1 - 1) with (Z.of_nat (length r)) by lia. unfold NM_MAXLEN in *.
  destruct (Z.ltb_spec (Z.of_nat (length r + length q)) 256) as [Hfit|Hfit]; rewrite Z.gtb_ltb; [rewrite (proj2 (Z.ltb_ge _ _)) by lia|by rewrite (proj2 (Z.ltb_lt _ _)) by lia].
  rewrite Nat2Z.id. destruct ea_replace0 as [Hr Hr0], Hs as [Hb Hb0]. apply bytes_at_app in Hr as [Hr _].
  destruct (repl_copy_run r (nreplace e) 0 newname m Hr) as (m1 & -> & W1 & B1); [eapply mapped_part; [exact Hm|lia|lia]|].
  cbn [mbind option_bind]. rewrite Z.max_r by lia. rewrite <- app_assoc in Hb. apply bytes_at_app in Hb as [_ Hq].
  assert (Hq1 : bytes_at m1 (name + Z.of_nat (length p)) (q ++ [0])) by (eapply writes_bytes; [exact W1|exact Hq|rewrite length_app; cbn [length]; lia]).
  assert (Hn : Z.to_nat (Z.of_nat (length q) + 1) = length (q ++ [0])) by (rewrite length_app; cbn [length]; lia). rewrite Hn.
  destruct (memcpy_loop_run (length (q ++ [0])) (newname + Z.of_nat (length r)) (name + Z.of_nat (length p)) m1) as (m2 & -> & W2 & C2).
  { eapply writes_mapped; [exact W1|]. eapply mapped_part; [exact Hm|lia|lia]. }
  { by apply bytes_mapped. }
  { lia. }
  cbn [mbind option_bind]. rewrite ea_device0. exists m2. split; [done|]. split.
  { eapply writes_trans; eapply writes_weaken; [exact W1|lia|lia|exact W2|lia|lia]. }
  split; [|apply Forall_app; split; [done|]; by apply Forall_app in Hb0 as [_ ?]].
  rewrite <- app_assoc. apply bytes_at_app. split; [eapply writes_bytes; [exact W2|exact B1|lia]|]. by eapply bytes_copy.
Qed.

Lemma namrepl_loop_run x name newname l m : str_at m name l -> ∀ es i,
  (∀ j s, es !! j = Some s -> ∃ e, x.(nametab) !! (i + Z.of_nat j) = Some e /\ entry_at e s) ->
  match matching es l with
  | Some s => ∃ e, entry_at e s /\ s.1.1 `prefix_of` l /\ namrepl_loop (length es) i x.(nametab) name newname m =
      namrepl_at e name newname (name + Z.of_nat (length s.1.1)) (Z.of_nat (length s.1.1)) m
  | None => namrepl_loop (length es) i x.(nametab) name newname m = Some (SYSERR, m)
  end.
Proof.
  intros Hs. induction es as [|s es IH]; intros i He; [done|]. cbn [length namrepl_loop matching].
  destruct (He 0%nat _ eq_refl) as (e & Ht & Hat). rewrite Z.add_0_r in Ht. rewrite Ht. cbn [mbind option_bind].
  pose proof (ea_prefix _ _ Hat) as Hp.
  destruct (prefix_loop_run s.1.1 l (str_fuel (nprefix e)) (nprefix e) 0 m name 0 Hp Hs (str_at_fuel _ _ _ Hp)) as (pp & oo & n & -> & H).
  cbn [mbind option_bind]. unfold ldb. case_bool_decide as Hpre.
  - destruct H as (-> & -> & ->). cbn [mbind option_bind]. change (negb (0 =? 0)) with false. cbv iota. by exists e.
  - destruct H as (c & -> & Hc). cbn [mbind option_bind]. rewrite (proj2 (Z.eqb_neq _ _) Hc). cbn [negb].
    apply IH. intros j s' Hj. destruct (He (S j) s' Hj) as (e' & He' & Hat'). exists e'. split; [|done]. rewrite <- He'. f_equal. lia.
Qed.

Lemma namrepl_match x es name newname l m : table_is x es -> str_at m name l ->
  match matching es l with
  | Some s => ∃ e, entry_at e s /\ s.1.1 `prefix_of` l /\ namrepl x name newname m =
      namrepl_at e name newname (name + Z.of_nat (length s.1.1)) (Z.of_nat (length s.1.1)) m
  | None => namrepl x name newname m = Some (SYSERR, m)
  end.
Proof. intros [] Hs. unfold namrepl. rewrite ti_count0, Nat2Z.id. by apply namrepl_loop_run. Qed.

Lemma namrepl_run x es name newname l m : table_is x es ->
  str_at m name l -> (length l < 255)%nat -> mapped m newname NM_MAXLEN ->
  newname + NM_MAXLEN <= name \/ name + Z.of_nat (length l) < newname ->
  match resolve es l with
  | Some (d, l') => ∃ m', namrepl x name newname m = Some (d, m') /\ writes newname NM_MAXLEN m m' /\ str_at m' newname l'
  | None => namrepl x name newname m = Some (SYSERR, m)
  end.
Proof.
  intros Ht Hs Hl Hm Hd. pose proof (namrepl_match x es name newname l m Ht Hs) as H. unfold resolve.
  destruct (matching es l) as [[[p r] d]|]; [|done]. destruct H as (e & Hat & Hpre & ->).
  pose proof (namrepl_at_run e p r d l name newname m Hat Hpre Hs Hl Hm Hd) as HR. cbn zeta in *. by destruct (_ <? NM_MAXLEN).
Qed.

(** The device that nammap returns: one that is the name space itself is no answer. *)
Definition mapped_to (namdev : Z) (o : option (Z * list Z)) : Z :=
  match o with Some (d, _) => if d =? namdev then SYSERR else d | None => SYSERR end.

Lemma resolve_fits es l d l' : resolve es l = Some (d, l') -> Z.of_nat (length l') < NM_MAXLEN.
Proof.
  unfold resolve. destruct (matching es l) as [[[p r] d']|]; [|done]. cbn zeta.
  destruct (Z.ltb_spec (Z.of_nat (length (r ++ drop (length p) l))) NM_MAXLEN); [|done]. by intros [= _ <-].
Qed.

(** The loop of nammap substitutes in the same name each time. *)
Lemma nammap_loop_self x es tmpname newname namdev l l' : table_is x es -> resolve es l = Some (namdev, l') -> ∀ n m,
  str_at m tmpname l -> (length l < 255)%nat -> mapped m newname NM_MAXLEN ->
  newname + NM_MAXLEN <= tmpname \/ tmpname + NM_MAXLEN <= newname ->
  ∃ m', nammap_loop n x tmpname newname namdev m = Some (SYSERR, m') /\ writes newname NM_MAXLEN m m'.
Proof.
  intros Ht Hr. induction n as [|n IH]; intros m Hs Hl Hm Hd; cbn [nammap_loop].
  { exists m. split; [done|]. apply (writes_weaken newname 0); [apply writes_refl|lia|unfold NM_MAXLEN; lia]. }
  assert (Hd' : newname + NM_MAXLEN <= tmpname \/ tmpname + Z.of_nat (length l) < newname) by (unfold NM_MAXLEN in *; lia).
  pose proof (namrepl_run x es tmpname newname l m Ht Hs Hl Hm Hd') as H. rewrite Hr in H.
  destruct H as (m1 & -> & W1 & _). cbn [mbind option_bind]. rewrite Z.eqb_refl. cbn [negb].
  destruct (IH m1) as (m2 & E2 & W2).
  - eapply str_writes; [exact W1|exact Hs|unfold NM_MAXLEN in *; lia].
  - done.
  - by eapply writes_mapped.
  - done.
  - exists m2. split; [done|]. by eapply writes_trans.
Qed.

(** Where a call of nammap finds its arguments and its local array: three strings apart. *)
Record frame_ok m (tmpname newname name : Z) (n : Z) : Prop := {
  fo_tmp : mapped m tmpname NM_MAXLEN;
  fo_new : mapped m newname NM_MAXLEN;
  fo_tmp_new : newname + NM_MAXLEN <= tmpname \/ tmpname + NM_MAXLEN <= newname;
  fo_tmp_name : tmpname + NM_MAXLEN <= name \/ name + n <= tmpname }.

Lemma nammap_run x es tmpname name newname namdev l m : table_is x es -> str_at m name l -> (length l < 255)%nat ->
  frame_ok m tmpname newname name (Z.of_nat (length l) + 1) -> namdev ≠ SYSERR ->
  ∃ m', nammap x tmpname name newname namdev m = Some (mapped_to namdev (resolve es l), m') /\
    (∀ d l', resolve es l = Some (d, l') -> d ≠ namdev -> str_at m' newname l').
Proof.
  intros Ht Hs Hl [] Hdev. pose proof Ht as [].
  destruct (namcpy_loop_str l (Z.to_nat NM_MAXLEN) tmpname name m) as (m1 & E1 & W1 & S1); [done|unfold NM_MAXLEN; lia|done|unfold NM_MAXLEN in *; lia|].
  unfold nammap, namcpy. rewrite E1. cbn [mbind option_bind]. change (OK =? SYSERR) with false. cbv iota. clear E1.
  assert (Hnew : mapped m1 newname NM_MAXLEN) by (by eapply writes_mapped).
  assert (Hd : newname + NM_MAXLEN <= tmpname \/ tmpname + Z.of_nat (length l) < newname) by (unfold NM_MAXLEN in *; lia).
  destruct (resolve es l) as [[d l']|] eqn:Hr; cbn [mapped_to].
  - destruct (Z.eqb_spec d namdev) as [->|Hne].
    { destruct (nammap_loop_self x es tmpname newname namdev l l' Ht Hr (Z.to_nat (nnames x)) m1 S1 Hl Hnew fo_tmp_new0) as (m2 & -> & _).
      exists m2. split; [done|]. by intros d l'' [= <- _]. }
    destruct (Z.to_nat (nnames x)) as [|n] eqn:Hn.
    { rewrite ti_count0, Nat2Z.id in Hn. by destruct es. }
    pose proof (namrepl_run x es tmpname newname l m1 Ht S1 Hl Hnew Hd) as H. rewrite Hr in H. destruct H as (m2 & E2 & W2 & S2).
    cbn [nammap_loop]. rewrite E2. cbn [mbind option_bind]. rewrite (proj2 (Z.eqb_neq _ _) Hne). cbn [negb]. unfold namcpy.
    destruct (namcpy_loop_any (Z.to_nat NM_MAXLEN) tmpname newname m2) as (r & m3 & -> & W3).
    + by eapply writes_mapped.
    + eapply writes_mapped; [exact W2|]. by eapply writes_mapped.
    + exists m3. split; [done|]. intros d' l'' [= <- <-] _. eapply str_writes; [exact W3|exact S2|].
      apply resolve_fits in Hr. unfold NM_MAXLEN in *. lia.
  - destruct (Z.to_nat (nnames x)) as [|n] eqn:Hn; cbn [nammap_loop]; [by exists m1|].
    pose proof (namrepl_run x es tmpname newname l m1 Ht S1 Hl Hnew Hd) as H. rewrite Hr in H. rewrite H. cbn [mbind option_bind].
    rewrite (proj2 (Z.eqb_neq SYSERR namdev)) by done. cbn [negb].
    unfold namcpy. destruct (namcpy_loop_any (Z.to_nat NM_MAXLEN) tmpname newname m1) as (r & m3 & -> & W3); [done|by eapply writes_mapped|].
    by exists m3.
Qed.
End Map.

(** * Mounting *)

Section Mount.
Implicit Types (x : names) (k : kst).

Lemma entry_room x es : table_is x es -> Z.of_nat (length es) < NNAMES ->
  ∃ e, x.(nametab) !! Z.of_nat (length es) = Some e /\ room e.
Proof.
  intros [] Hn. destruct (arr_len_lookup _ _ (Z.of_nat (length es)) ti_len0 ltac:(lia)) as [e He]. exists e. split; [done|].
  by apply (ti_room0 _ _ He).
Qed.

(** A string and its null in an array with room for them. *)
Lemma field_copy_str l m p f n : str_at m p l -> mapped f 0 n -> Z.of_nat (length l) < n ->
  ∃ f', field_copy (Z.to_nat (Z.of_nat (length l) + 1)) 0 m p f = Some f' /\ str_at f' 0 l /\ mapped f' 0 n.
Proof.
  intros [Hb H0] Hm Hn. rewrite field_copy_repl. replace (Z.to_nat (Z.of_nat (length l) + 1)) with (length (l ++ [0])) by (rewrite length_app; cbn [length]; lia).
  destruct (repl_copy_run (l ++ [0]) m p 0 f Hb) as (f' & -> & W & B).
  - eapply mapped_part; [exact Hm|lia|rewrite length_app; cbn [length]; lia].
  - exists f'. split; [done|]. split; [done|]. by eapply writes_mapped.
Qed.

Lemma table_is_app x es e s : table_is x es -> Z.of_nat (length es) < NNAMES -> entry_at e s -> room e ->
  table_is (set_nnames (Z.of_nat (length es) + 1) (set_nametab (<[Z.of_nat (length es) := e]> x.(nametab)) x)) (es ++ [s]).
Proof.
  intros [] Hn He Hr. destruct x as [t n st]. cbn [nametab nnames set_nametab set_nnames] in *. constructor; cbn [nametab nnames].
  - apply arr_len_insert; [done|lia].
  - by apply map_Forall_insert_2.
  - rewrite length_app. cbn [length]. lia.
  - rewrite length_app. cbn [length]. lia.
  - intros i s' Hi. apply lookup_app_Some in Hi as [Hi|[Hi Hs]].
    + pose proof (lookup_lt_Some _ _ _ Hi). rewrite lookup_insert_ne by lia. by apply ti_entries0.
    + apply list_lookup_singleton_Some in Hs as [Hi' <-]. exists e. split; [|done].
      replace (Z.of_nat i) with (Z.of_nat (length es)) by lia. apply lookup_insert_eq.
Qed.

(** When mount takes an entry. *)
Definition mountable (es : list entry) (p r : list Z) (d : Z) : bool :=
  (Z.of_nat (length p) <? NM_PRELEN) && (Z.of_nat (length r) <? NM_REPLLEN) && negb (isbaddev d) && (Z.of_nat (length es) <? NNAMES).

Lemma lift_disable k x : lift disable (Lst k x) = LDone k.(ie) (Lst (set_ie false k) x).
Proof. reflexivity. Qed.
Lemma lift_restore k x b : lift (restore b) (Lst k x) = LDone tt (Lst (set_ie b k) x).
Proof. reflexivity. Qed.
Lemma names_ie_back k : set_ie k.(ie) (set_ie false k) = k.
Proof. by destruct k. Qed.

Lemma mount_guard (es : list entry) (p r : list Z) d :
  ((if Z.of_nat (length p) <? NM_PRELEN then Z.of_nat (length p) + 1 else SYSERR) =? SYSERR)
  || ((if Z.of_nat (length r) <? NM_REPLLEN then Z.of_nat (length r) + 1 else SYSERR) =? SYSERR)
  || isbaddev d || (Z.of_nat (length es) >=? NNAMES) = negb (mountable es p r d).
Proof.
  assert (H : ∀ n, (Z.of_nat n + 1 =? SYSERR) = false) by (intros n; apply Z.eqb_neq; unfold SYSERR; lia).
  unfold mountable. rewrite Z.geb_leb, Z.leb_antisym. destruct (_ <? NM_PRELEN), (_ <? NM_REPLLEN); rewrite ?H;
    destruct (isbaddev d), (_ <? NNAMES); reflexivity.
Qed.

Lemma bind_upd_name {B} u (h : unit -> L names B) i k t c st e : t !! i = Some e ->
  (upd_name u i ≫= h) (Lst k (Names t c st)) = h tt (Lst k (Names (<[i := u e]> t) c st)).
Proof. intros He. apply lbind_done. unfold upd_name. rewrite bind_getx. cbn [lx nametab]. by rewrite He. Qed.

Lemma mount_run k x es p r d pp rp : table_is x es -> str_at pp.1 pp.2 p -> str_at rp.1 rp.2 r ->
  if mountable es p r d
  then ∃ x', mount pp rp d (Lst k x) = LDone OK (Lst k x') /\ table_is x' (es ++ [(p, r, d)]) /\ x'.(strs) = x.(strs)
  else mount pp rp d (Lst k x) = LDone SYSERR (Lst k x).
Proof.
  intros Ht Hp Hr. destruct pp as [pm pp], rp as [rm rp]. cbn [fst snd] in *.
  unfold mount. rewrite (lbind_done _ _ _ _ _ (lift_disable k x)).
  rewrite (namlen_any p pm pp) by (done || (unfold NM_PRELEN, NM_REPLLEN; lia)). rewrite bind_lopt. rewrite (namlen_any r rm rp) by (done || (unfold NM_PRELEN, NM_REPLLEN; lia)). rewrite bind_lopt, bind_getx.
  cbn [lx]. rewrite (ti_count _ _ Ht), mount_guard. destruct (mountable es p r d) eqn:Hm; cbn [negb].
  2: { rewrite (lbind_done _ _ _ _ _ (lift_restore _ x _)). by rewrite names_ie_back. }
  unfold mountable in Hm. rewrite !andb_true_iff, negb_true_iff, !Z.ltb_lt in Hm. destruct Hm as [[[Hpl Hrl] Hdev] Hn].
  rewrite (proj2 (Z.ltb_lt _ _) Hpl), (proj2 (Z.ltb_lt _ _) Hrl). destruct (entry_room x es Ht Hn) as (e & He & Hroom). destruct Hroom as [R1 R2].
  unfold get_name. rewrite (lbind_done _ _ _ e (Lst (set_ie false k) x)) by (rewrite bind_getx; cbn [lx]; by rewrite He). cbn [fst snd].
  destruct (field_copy_str p pm pp (nprefix e) _ Hp R1 Hpl) as (f & -> & S1 & M1). rewrite bind_lopt.
  destruct (field_copy_str r rm rp (nreplace e) _ Hr R2 Hrl) as (g & E2 & S2 & M2).
  destruct x as [t c st]. cbn [nametab nnames strs] in *.
  rewrite (bind_upd_name _ _ _ _ _ _ _ _ He), E2, bind_lopt, (bind_upd_name _ _ _ _ _ _ _ _ (lookup_insert_eq _ _ _)), insert_insert_eq.
  rewrite (bind_upd_name _ _ _ _ _ _ _ _ (lookup_insert_eq _ _ _)), insert_insert_eq, bind_modx.
  rewrite (lbind_done _ _ _ _ _ (lift_restore _ _ _)), names_ie_back. eexists. split; [reflexivity|]. split; [|done].
  apply (table_is_app (Names t c st)); [done|done| |by destruct e].
  destruct e as [np nr nd]. by constructor.
Qed.
End Mount.

(** * The table of naminit *)

Section Init.
Implicit Types (x : names) (k : kst).

Lemma put_list_bytes l : ∀ p m, bytes_at (put_list p l m) p l.
Proof.
  induction l as [|c l IH]; intros p m; cbn [put_list]; [done|]. split; [apply lookup_insert_eq|].
  eapply bytes_at_frame; [apply IH|]. intros a Ha. apply lookup_insert_ne. lia.
Qed.

Lemma cstr_at l : Forall (λ c, c ≠ 0) l -> str_at (cstr l).1 (cstr l).2 l.
Proof. intros H. split; [apply put_list_bytes|done]. Qed.

Lemma lower_nonzero c : c ≠ 0 -> lower c ≠ 0.
Proof.
  intros Hc. unfold lower. rewrite Z.geb_leb. destruct (Z.leb_spec 65 c), (Z.leb_spec c 90); cbn [andb]; try done.
  unfold u8. rewrite Z.mod_small; lia.
Qed.

Lemma lower_loop_run l : ∀ fuel src nptr tptr len m, str_at src nptr l -> (length l < fuel)%nat -> mapped m tptr (Z.of_nat (length l) + 1) ->
  len + Z.of_nat (length l) + 1 < NM_MAXLEN ->
  ∃ m', lower_loop fuel src nptr tptr len m = Some (len + Z.of_nat (length l) + 1, m') /\
    writes tptr (Z.of_nat (length l) + 1) m m' /\ str_at m' tptr (lower <$> l).
Proof.
  induction l as [|c l IH]; intros [|fuel] src nptr tptr len m Hs Hf Hm Hlen; cbn [length] in *; try lia; cbn [lower_loop]; cbv zeta;
    rewrite (proj2 (Z.ltb_lt _ _)) by lia; unfold ldb.
  - apply str_at_nil in Hs. rewrite Hs. cbn [mbind option_bind]. change (lower 0) with 0.
    destruct (writes_one tptr 0 m (Hm tptr ltac:(lia))) as [-> Hw]. cbn [mbind option_bind]. rewrite Z.eqb_refl.
    exists (<[tptr := 0]> m). split; [do 2 f_equal; lia|]. split; [done|]. apply str_at_nil, lookup_insert_eq.
  - apply str_at_cons in Hs as (Hp & Hc & Hs). rewrite Hp. cbn [mbind option_bind].
    destruct (writes_one tptr (lower c) m (Hm tptr ltac:(lia))) as [-> Hw]. cbn [mbind option_bind].
    rewrite (proj2 (Z.eqb_neq _ _) (lower_nonzero c Hc)).
    destruct (IH fuel src (nptr + 1) (tptr + 1) (len + 1) (<[tptr := lower c]> m)) as (m' & -> & W & S); [done|lia| |lia|].
    { eapply writes_mapped; [exact Hw|]. eapply mapped_part; [exact Hm|lia|lia]. }
    exists m'. split; [do 2 f_equal; lia|]. split; [eapply writes_trans; eapply writes_weaken; [exact Hw|lia|lia|exact W|lia|lia]|].
    apply str_at_cons. split; [|split; [by apply lower_nonzero|done]]. rewrite (writes_out _ _ _ _ _ W) by lia. apply lookup_insert_eq.
Qed.

Definition dev_start : bmem := put_list 0 slash_dev tmpstr0.
Lemma devprefix_run : devprefix_loop (str_fuel (cstr slash_dev).1) (cstr slash_dev).1 0 0 0 tmpstr0 = Some (6, 5, dev_start).
Proof. vm_compute. reflexivity. Qed.

(** The entry of a device. *)
Definition dev_path (l : list Z) : list Z := slash_dev ++ (lower <$> l).

Lemma dev_path_nonzero l : Forall (λ c, c ≠ 0) l -> Forall (λ c, c ≠ 0) (dev_path l).
Proof.
  intros H. apply Forall_app. split; [repeat constructor; discriminate|]. apply Forall_fmap. eapply Forall_impl; [exact H|]. apply lower_nonzero.
Qed.

Lemma dev_name_run l : Forall (λ c, c ≠ 0) l -> (length l < 59)%nat ->
  ∃ m, dev_name l = Some (6 + Z.of_nat (length l), m) /\ str_at m 0 (dev_path l).
Proof.
  intros H0 Hl. unfold dev_name. rewrite devprefix_run. cbn [mbind option_bind].
  destruct (lower_loop_run l (S (Z.to_nat NM_MAXLEN)) (cstr l).1 0 (6 - 1) 5 dev_start) as (m & -> & W & S).
  - exact (cstr_at l H0).
  - unfold NM_MAXLEN. lia.
  - eapply mapped_part; [apply (mappedb_true dev_start 0 256); vm_compute; reflexivity|lia|lia].
  - unfold NM_MAXLEN. lia.
  - exists m. split; [do 2 f_equal; lia|]. destruct S as [B _]. split; [|by apply dev_path_nonzero].
    unfold dev_path. rewrite <- app_assoc. apply bytes_at_app. split; [|exact B].
    eapply writes_bytes; [exact W|apply put_list_bytes|change (length slash_dev) with 5%nat; lia].
Qed.

Context (devtab : Z -> dentry).

(** The device switch as the configuration generates it. *)
Definition switch_ok : Prop := ∀ i, 0 <= i < NDEVS ->
  (devtab i).(dvnum) = i /\ Forall (λ c, c ≠ 0) (devtab i).(dvname) /\ (length (devtab i).(dvname) < 59)%nat.

Definition dev_entry (i : Z) : entry := (dev_path (devtab i).(dvname), [], i).

Lemma mountable_dev es i : switch_ok -> 0 <= i < NDEVS -> Z.of_nat (length es) < NNAMES ->
  mountable es (dev_path (devtab i).(dvname)) [] i = true.
Proof.
  intros Hok Hi Hn. destruct (Hok i Hi) as (_ & _ & Hl). unfold mountable, dev_path. rewrite length_app, length_fmap. cbn [length slash_dev].
  unfold isbaddev, NM_PRELEN, NM_REPLLEN. rewrite (proj2 (Z.ltb_lt _ 64)) by lia. rewrite (proj2 (Z.ltb_ge i 0)), Z.geb_leb, (proj2 (Z.leb_gt _ _)) by lia.
  by rewrite (proj2 (Z.ltb_lt _ NNAMES)) by lia.
Qed.

Lemma naminit_loop_run n : switch_ok -> ∀ i x k es, table_is x es -> 0 <= i -> i + Z.of_nat n <= NDEVS -> Z.of_nat (length es + n) <= NNAMES ->
  ∃ x', naminit_loop devtab n i (Lst k x) = LDone tt (Lst k x') /\ table_is x' (es ++ (dev_entry <$> seqZ i (Z.of_nat n))) /\
    x'.(strs) = x.(strs).
Proof.
  intros Hok. induction n as [|n IH]; intros i x k es Ht Hi Hn Hes; cbn [naminit_loop].
  { exists x. split; [done|]. split; [|done]. cbn [seqZ Z.of_nat fmap list_fmap]. by rewrite app_nil_r. }
  destruct (Hok i ltac:(lia)) as (Hnum & H0 & Hl). destruct (dev_name_run _ H0 Hl) as (m & -> & St). rewrite bind_lopt.
  rewrite Z.gtb_ltb, (proj2 (Z.ltb_ge _ _)) by (unfold NM_MAXLEN; lia). rewrite Hnum.
  pose proof (mount_run k x es (dev_path (dvname (devtab i))) [] i (m, 0) (cstr []) Ht St (cstr_at [] (Forall_nil_2 _))) as H.
  rewrite mountable_dev in H by (done || lia). destruct H as (x1 & E & Ht1 & S1). rewrite (lbind_done _ _ _ _ _ E).
  destruct (IH (i + 1) x1 k _ Ht1) as (x2 & E2 & Ht2 & S2); [lia|lia|rewrite length_app; cbn [length]; lia|].
  exists x2. split; [done|]. split; [|by rewrite S2]. rewrite <- app_assoc in Ht2. rewrite seqZ_cons by lia.
  cbn [fmap list_fmap]. replace (Z.pred (Z.of_nat (S n))) with (Z.of_nat n) by lia. exact Ht2.
Qed.

(** What naminit leaves. *)
Definition init_names : list entry := (dev_entry <$> seqZ 0 NDEVS) ++
  [(s_null, [], NULLDEV); (s_local, [], LFILESYS); (s_home, [], LFILESYS); ([], [], LFILESYS)].

Lemma mount_literal k x es p r d : table_is x es -> Forall (λ c, c ≠ 0) p -> Forall (λ c, c ≠ 0) r -> mountable es p r d = true ->
  ∃ x', mount (cstr p) (cstr r) d (Lst k x) = LDone OK (Lst k x') /\ table_is x' (es ++ [(p, r, d)]) /\ x'.(strs) = x.(strs).
Proof.
  intros Ht Hp Hr Hm. pose proof (mount_run k x es p r d (cstr p) (cstr r) Ht (cstr_at p Hp) (cstr_at r Hr)) as H. by rewrite Hm in H.
Qed.
Lemma mount_refused k x es p r d : table_is x es -> Forall (λ c, c ≠ 0) p -> Forall (λ c, c ≠ 0) r -> isbaddev d = true ->
  mount (cstr p) (cstr r) d (Lst k x) = LDone SYSERR (Lst k x).
Proof.
  intros Ht Hp Hr Hm. pose proof (mount_run k x es p r d (cstr p) (cstr r) Ht (cstr_at p Hp) (cstr_at r Hr)) as H.
  unfold mountable in H. rewrite Hm in H. by rewrite andb_false_r in H.
Qed.

Lemma naminit_run k x : switch_ok -> arr_len NNAMES x.(nametab) -> map_Forall (λ _, room) x.(nametab) ->
  ∃ x', naminit devtab (Lst k x) = LDone OK (Lst k x') /\ table_is x' init_names /\ x'.(strs) = x.(strs).
Proof.
  intros Hok Hlen Hroom. unfold naminit. rewrite bind_modx.
  assert (T0 : table_is (set_nnames 0 x) []) by (destruct x; constructor; cbn in *; done).
  destruct (naminit_loop_run (Z.to_nat NDEVS) Hok 0 (set_nnames 0 x) k [] T0) as (x1 & E1 & T1 & S1); [unfold NDEVS, NNAMES; cbn; lia..|].
  rewrite (lbind_done _ _ _ _ _ E1). cbn [app] in T1. change (Z.of_nat (Z.to_nat NDEVS)) with NDEVS in T1.
  assert (Hm : ∀ es p d, length es = 13%nat \/ length es = 14%nat \/ length es = 15%nat \/ length es = 16%nat -> Z.of_nat (length p) < NM_PRELEN ->
    isbaddev d = false -> mountable es p [] d = true).
  { intros es p d Hes Hp Hd. unfold mountable. rewrite Hd, (proj2 (Z.ltb_lt _ _) Hp). cbn [length negb andb].
    unfold NNAMES. by rewrite (proj2 (Z.ltb_lt (Z.of_nat (length es)) 40)) by lia. }
  assert (Hn : length (dev_entry <$> seqZ 0 NDEVS) = 13%nat) by (by rewrite length_fmap, length_seqZ).
  destruct (mount_literal k x1 _ s_null [] NULLDEV T1) as (x2 & E2 & T2 & S2); [repeat constructor; discriminate|constructor|apply Hm; [lia|done|done]|].
  rewrite (lbind_done _ _ _ _ _ E2). rewrite (lbind_done _ _ _ _ _ (mount_refused k x2 _ s_remote s_remote' RFILESYS T2 ltac:(repeat constructor; discriminate) ltac:(repeat constructor; discriminate) eq_refl)).
  destruct (mount_literal k x2 _ s_local [] LFILESYS T2) as (x3 & E3 & T3 & S3); [repeat constructor; discriminate|constructor|apply Hm; [rewrite length_app; cbn [length]; lia|done|done]|].
  rewrite (lbind_done _ _ _ _ _ E3). rewrite (lbind_done _ _ _ _ _ (mount_refused k x3 _ slash_dev [] SYSERR T3 ltac:(repeat constructor; discriminate) ltac:(constructor) eq_refl)).
  destruct (mount_literal k x3 _ s_home [] LFILESYS T3) as (x4 & E4 & T4 & S4); [repeat constructor; discriminate|constructor|apply Hm; [rewrite !length_app; cbn [length]; lia|done|done]|].
  rewrite (lbind_done _ _ _ _ _ E4). rewrite (lbind_done _ _ _ _ _ (mount_refused k x4 _ [47] s_root' RFILESYS T4 ltac:(repeat constructor; discriminate) ltac:(repeat constructor; discriminate) eq_refl)).
  destruct (mount_literal k x4 _ [] [] LFILESYS T4) as (x5 & E5 & T5 & S5); [constructor|constructor|apply Hm; [rewrite !length_app; cbn [length]; lia|done|done]|].
  rewrite (lbind_done _ _ _ _ _ E5). exists x5. split; [done|]. split; [|rewrite S5, S4, S3, S2, S1; by destruct x].
  unfold init_names. by rewrite <- !app_assoc in T5.
Qed.
End Init.

(** * What the first match decides *)

Lemma matching_app es1 es2 l : matching (es1 ++ es2) l = match matching es1 l with Some s => Some s | None => matching es2 l end.
Proof. induction es1 as [|s es1 IH]; [done|]. cbn [app matching]. by case_bool_decide. Qed.

Lemma matching_fmap (f : Z -> entry) n : ∀ a i l, a <= i < a + Z.of_nat n -> (f i).1.1 `prefix_of` l ->
  (∀ j, a <= j < i -> ¬ (f j).1.1 `prefix_of` l) -> matching (f <$> seqZ a (Z.of_nat n)) l = Some (f i).
Proof.
  induction n as [|n IH]; intros a i l Hi Hp Hj; [lia|]. rewrite seqZ_cons by lia. cbn [fmap list_fmap matching].
  destruct (decide (a = i)) as [->|Hne]; [by rewrite bool_decide_eq_true_2|].
  rewrite bool_decide_eq_false_2 by (apply Hj; lia). replace (Z.pred (Z.of_nat (S n))) with (Z.of_nat n) by lia.
  apply IH; [lia|done|]. intros j Hj'. apply Hj. lia.
Qed.

Lemma matching_none (f : Z -> entry) n : ∀ a l, (∀ j, a <= j < a + Z.of_nat n -> ¬ (f j).1.1 `prefix_of` l) ->
  matching (f <$> seqZ a (Z.of_nat n)) l = None.
Proof.
  induction n as [|n IH]; intros a l Hj; [done|]. rewrite seqZ_cons by lia. cbn [fmap list_fmap matching].
  rewrite bool_decide_eq_false_2 by (apply Hj; lia). replace (Z.pred (Z.of_nat (S n))) with (Z.of_nat n) by lia.
  apply IH. intros j Hj'. apply Hj. lia.
Qed.

Lemma prefix_apart c1 c2 (p l : list Z) n : p !! n = Some c1 -> l !! n = Some c2 -> c1 ≠ c2 -> ¬ p `prefix_of` l.
Proof. intros Hp Hl Hne H. pose proof (prefix_lookup_Some _ _ _ _ Hp H). congruence. Qed.

(** C38: a name is mapped by the first prefix of the table that it starts with: nammap
    returns the device of that entry and leaves in [newname] its replacement
    followed by the rest of the name; when nothing matches, when the result would not
    fit in NM_MAXLEN bytes, or when the device is the name space itself, it returns
    SYSERR, and namopen does so too; else namopen opens that device with the new name.
    A name that does not end within NM_MAXLEN bytes is refused. *)
Theorem names_map_by_the_first_prefix x es tmpname name newname namdev m (Ht : table_is x es) (Hdev : namdev ≠ SYSERR) :
  (∀ l, str_at m name l -> (length l < 255)%nat -> frame_ok m tmpname newname name (Z.of_nat (length l) + 1) ->
    ∃ m', nammap x tmpname name newname namdev m = Some (mapped_to namdev (resolve es l), m') /\
      (∀ d l', resolve es l = Some (d, l') -> d ≠ namdev -> str_at m' newname l') /\
      ∀ devtab devptr mode k, x.(strs) = m -> (devtab devptr).(dvnum) = namdev ->
        namopen devtab tmpname newname devptr name mode (Lst k x) =
          if mapped_to namdev (resolve es l) =? SYSERR then LDone SYSERR (Lst k (set_strs m' x))
          else lift (open devtab (mapped_to namdev (resolve es l)) newname mode) (Lst k (set_strs m' x))) /\
  (∀ l, bytes_at m name l -> Forall (λ c, c ≠ 0) l -> Z.of_nat (length l) = NM_MAXLEN -> frame_ok m tmpname newname name NM_MAXLEN ->
    ∃ m', nammap x tmpname name newname namdev m = Some (SYSERR, m')).
Proof.
  split.
  { intros l Hs Hl Hf. destruct (nammap_run x es tmpname name newname namdev l m Ht Hs Hl Hf Hdev) as (m' & E & Hm).
    exists m'. split; [done|]. split; [done|]. intros devtab devptr mode k <- <-. unfold namopen. rewrite bind_getx. cbn [lx id].
    rewrite E, bind_lopt, bind_modx. by destruct (_ =? SYSERR). }
  intros l Hb H0 Hl [].
  destruct (namcpy_loop_long (Z.to_nat NM_MAXLEN) tmpname name m l Hb H0) as (m' & E & _); [lia|done|unfold NM_MAXLEN in *; lia|].
  exists m'. unfold nammap, namcpy. by rewrite E.
Qed.

(** C39: mount adds a prefix at the end of the table, so that it never changes what a name
    stands for that already matches; it refuses a prefix or a replacement that is too
    long, a bad device and a full table, and then leaves the table as it is. *)
Theorem mount_keeps_the_meaning_of_names k x es p r d pp rp (Ht : table_is x es) (Hp : str_at pp.1 pp.2 p) (Hr : str_at rp.1 rp.2 r) :
  if mountable es p r d
  then ∃ x' es', mount pp rp d (Lst k x) = LDone OK (Lst k x') /\ table_is x' es' /\ length es' = S (length es) /\
    (∀ l s, matching es l = Some s -> matching es' l = Some s) /\
    (∀ l, matching es l = None -> matching es' l = if bool_decide (p `prefix_of` l) then Some (p, r, d) else None)
  else mount pp rp d (Lst k x) = LDone SYSERR (Lst k x).
Proof.
  pose proof (mount_run k x es p r d pp rp Ht Hp Hr) as H. destruct (mountable es p r d); [|done].
  destruct H as (x' & E & Ht' & _). exists x', (es ++ [(p, r, d)]). split; [done|]. split; [done|].
  split; [rewrite length_app; cbn [length]; lia|]. split; intros l; [intros s Hs|intros Hn]; rewrite matching_app; [by rewrite Hs|by rewrite Hn].
Qed.

(** C40: after naminit, /dev/ followed by the name of a device in lower case is that device,
    unless the name of an earlier device is a prefix of it (the name space itself is
    refused); any other name that starts with /dev/, apart from those that start with
    /dev/null, is not an error: it is passed on, unchanged, to the local file system,
    because mount refuses the entry for /dev/ with the device SYSERR. *)
Theorem naminit_names_the_devices (devtab : Z -> dentry) k x (Hok : switch_ok devtab) (Hlen : arr_len NNAMES x.(nametab))
  (Hroom : map_Forall (λ _, room) x.(nametab)) :
  ∃ x', naminit devtab (Lst k x) = LDone OK (Lst k x') /\
    ∀ tmpname name newname l m, str_at m name l -> (length l < 255)%nat -> frame_ok m tmpname newname name (Z.of_nat (length l) + 1) ->
      (∀ i, 0 <= i < NDEVS -> l = dev_path (devtab i).(dvname) ->
        (∀ j, 0 <= j < i -> ¬ dev_path (devtab j).(dvname) `prefix_of` l) ->
        ∃ m', nammap x' tmpname name newname 2 m = Some (if i =? 2 then SYSERR else i, m') /\ (i ≠ 2 -> str_at m' newname [])) /\
      (slash_dev `prefix_of` l -> ¬ s_null `prefix_of` l -> (∀ j, 0 <= j < NDEVS -> ¬ dev_path (devtab j).(dvname) `prefix_of` l) ->
        ∃ m', nammap x' tmpname name newname 2 m = Some (LFILESYS, m') /\ str_at m' newname l).
Proof.
  destruct (naminit_run devtab k x Hok Hlen Hroom) as (x' & E & Ht & _). exists x'. split; [done|].
  intros tmpname name newname l m Hs Hl Hf. destruct (nammap_run x' _ tmpname name newname 2 l m Ht Hs Hl Hf ltac:(done)) as (m' & Em & Hm).
  split.
  - intros i Hi Hli Hj. assert (Hr : resolve (init_names devtab) l = Some (i, [])).
    { unfold resolve, init_names. rewrite matching_app. change NDEVS with (Z.of_nat 13) in *.
      rewrite (matching_fmap (dev_entry devtab) 13 0 i l); [|lia|by rewrite Hli|done]. unfold dev_entry. rewrite <- Hli, drop_all. reflexivity. }
    exists m'. rewrite Em, Hr. split; [done|]. intros Hne. by apply (Hm i []).
  - intros Hdev Hnull Hj. assert (Hr : resolve (init_names devtab) l = Some (LFILESYS, l)).
    { destruct Hdev as [w Hw]. unfold resolve, init_names. rewrite matching_app. change NDEVS with (Z.of_nat 13) in *.
      rewrite (matching_none (dev_entry devtab) 13 0 l Hj). cbn [matching fst snd].
      rewrite (bool_decide_eq_false_2 _ Hnull), bool_decide_eq_false_2, bool_decide_eq_false_2, bool_decide_eq_true_2; [|apply prefix_nil| |].
      - cbn [length app]. rewrite drop_0, (proj2 (Z.ltb_lt (Z.of_nat (length l)) NM_MAXLEN)) by (unfold NM_MAXLEN; lia). done.
      - apply (prefix_apart 126 47 _ _ 0); [done|by rewrite Hw|done].
      - apply (prefix_apart 108 100 _ _ 1); [done|by rewrite Hw|done]. }
    exists m'. rewrite Em, Hr. split; [done|]. by apply (Hm LFILESYS l Hr).
Qed.

(** A name of 255 bytes loses its end: its length with the null is 256, which the char
    olen holds as 0, so that namrepl copies the replacement of the entry and nothing after
    it, not even a null: [newname] keeps the bytes that were there. *)
Theorem name_of_255_bytes_is_lost x es p r d name newname l m (Ht : table_is x es) (Hs : str_at m name l) (Hl : length l = 255%nat)
  (Hm : matching es l = Some (p, r, d)) (Hnew : mapped m newname NM_MAXLEN) :
  ∃ m', namrepl x name newname m = Some (d, m') /\ bytes_at m' newname r /\
    ∀ i, Z.of_nat (length r) <= i -> m' !! (newname + i) = m !! (newname + i).
Proof.
  pose proof (namrepl_match x es name newname l m Ht Hs) as H. rewrite Hm in H. destruct H as (e & [] & Hpre & ->). cbn [fst snd] in *.
  unfold namrepl_at. rewrite (namlen_str l m name) by (done || (rewrite Hl; done)). cbn [mbind option_bind].
  rewrite (namlen_str r (nreplace e) 0) by (done || (unfold NM_MAXLEN, NM_REPLLEN in *; lia)). cbn [mbind option_bind]. rewrite Hl.
  change (u8 (Z.of_nat 255 + 1)) with 0. replace (Z.of_nat (length r) + 1 - 1) with (Z.of_nat (length r)) by lia.
  rewrite Z.gtb_ltb, (proj2 (Z.ltb_ge _ _)) by (unfold NM_MAXLEN, NM_REPLLEN in *; lia).
  destruct ea_replace0 as [Hb _]. apply bytes_at_app in Hb as [Hb _]. rewrite Nat2Z.id.
  destruct (repl_copy_run r (nreplace e) 0 newname m Hb) as (m1 & -> & W & B); [eapply mapped_part; [exact Hnew|lia|unfold NM_MAXLEN, NM_REPLLEN in *; lia]|].
  cbn [mbind option_bind]. replace (Z.to_nat (0 - Z.of_nat (length p))) with 0%nat by lia. cbn [memcpy_loop mbind option_bind].
  rewrite ea_device0. exists m1. split; [done|]. split; [done|]. intros i Hi. eapply writes_out; [exact W|lia].
Qed.

(** * Examples *)

(** The devices of include/conf.h, by name. *)
Definition demo_devices : list (list Z) :=
  [[67; 79; 78; 83; 79; 76; 69];
   [78; 85; 76; 76; 68; 69; 86];
   [78; 65; 77; 69; 83; 80; 65; 67; 69];
   [82; 65; 77; 48];
   [76; 70; 73; 76; 69; 83; 89; 83];
   [76; 70; 73; 76; 69; 48];
   [76; 70; 73; 76; 69; 49];
   [76; 70; 73; 76; 69; 50];
   [76; 70; 73; 76; 69; 51];
   [76; 70; 73; 76; 69; 52];
   [76; 70; 73; 76; 69; 53];
   [83; 69; 82; 73; 65; 76; 48];
   [76; 79; 79; 80; 48]].
Definition demo_switch (i : Z) : dentry :=
  Dentry i 0 (demo_devices !!! Z.to_nat i) (λ _, ionull) (λ _ _ _, ionull) (λ _, ionull) (λ _ _ _, ionull) (λ _ _ _, ionull)
    (λ _ _, ionull) (λ _, ionull) (λ _ _, ionull) (λ _ _ _ _, ionull).
Definition demo_entry0 : nmentry := Nmentry (ram 64 0 ∅) (ram 96 0 ∅) 0.

(** Names are at 100; the local arrays are at 1000 and 2000. *)
Definition demo_strs (l : list Z) : bmem := put_list 100 (l ++ [0]) (ram 256 1000 (ram 256 2000 ∅)).
Definition demo_names : names := Names (arr_make 40 demo_entry0) 0 ∅.

Lemma demo_str l : Forall (λ c, c ≠ 0) l -> str_at (demo_strs l) 100 l.
Proof. intros H. split; [apply put_list_bytes|done]. Qed.

Lemma demo_switch_ok : switch_ok demo_switch.
Proof.
  intros i Hi. split; [done|]. cbn [demo_switch dvname]. split.
  - assert (H : Forall (Forall (λ c, c ≠ 0)) demo_devices) by (unfold demo_devices; repeat constructor; discriminate).
    apply (Forall_lookup_total_1 _ _ _ H). unfold NDEVS in Hi. cbn [length demo_devices]. lia.
  - assert (H : Forall (λ l, (length l < 59)%nat) demo_devices) by (unfold demo_devices; repeat constructor; cbn [length]; lia).
    apply (Forall_lookup_total_1 _ _ _ H). unfold NDEVS in Hi. cbn [length demo_devices]. lia.
Qed.

Lemma demo_room : map_Forall (λ _, room) demo_names.(nametab).
Proof.
  intros i e He. pose proof (arr_len_lt _ _ _ _ (arr_make_len 40 demo_entry0) He) as Hr. cbn [demo_names nametab] in He.
  rewrite (arr_make_lookup 40) in He by lia. injection He as <-. split; [apply (ram_mapped 64)|apply (ram_mapped 96)].
Qed.

Lemma demo_table : table_is demo_names [].
Proof. constructor; [apply (arr_make_len 40)|apply demo_room|done|done|done]. Qed.

Lemma demo_frame l : (length l < 255)%nat -> mapped (demo_strs l) 1000 256 -> mapped (demo_strs l) 2000 256 ->
  frame_ok (demo_strs l) 1000 2000 100 (Z.of_nat (length l) + 1).
Proof. intros Hl H1 H2. constructor; [done|done|unfold NM_MAXLEN; lia|unfold NM_MAXLEN; lia]. Qed.

(** A table with an entry for /local/, whose names go to device 4. *)
Definition demo_local : names := match mount (cstr s_local) (cstr []) 4 (Lst demo_main demo_names) with LDone _ s => s.(lx) | _ => demo_names end.
Lemma demo_local_table : table_is demo_local [(s_local, [], 4)].
Proof.
  destruct (mount_literal demo_main demo_names [] s_local [] 4 demo_table) as (x & E & Ht & _); [repeat constructor; discriminate|constructor|done|].
  unfold demo_local. rewrite E. exact Ht.
Qed.

(** /local/a is the file a. *)
Definition demo_file : list Z := s_local ++ [97].
Lemma names_map_by_the_first_prefix_witness : ∃ m', nammap demo_local 1000 100 2000 2 (demo_strs demo_file) = Some (4, m') /\ str_at m' 2000 [97].
Proof.
  destruct (names_map_by_the_first_prefix demo_local _ 1000 100 2000 2 (demo_strs demo_file) demo_local_table) as [H _]; [done|].
  destruct (H demo_file) as (m' & E & Hm & _).
  - apply demo_str. repeat constructor; discriminate.
  - cbn [length demo_file s_local app]. lia.
  - apply demo_frame; [cbn [length demo_file s_local app]; lia|apply (mappedb_true _ _ 256); vm_compute; reflexivity..].
  - exists m'. split; [exact E|]. by apply (Hm 4).
Defined.

Lemma mount_keeps_the_meaning_of_names_witness :
  ∃ x' es', mount (cstr s_home) (cstr []) 4 (Lst demo_main demo_local) = LDone OK (Lst demo_main x') /\ table_is x' es' /\
    matching es' demo_file = Some (s_local, [], 4).
Proof.
  pose proof (mount_keeps_the_meaning_of_names demo_main demo_local _ s_home [] 4 (cstr s_home) (cstr []) demo_local_table) as H.
  destruct H as (x' & es' & E & Ht & _ & Hk & _); [apply cstr_at; repeat constructor; discriminate|apply cstr_at; constructor|].
  exists x', es'. split; [exact E|]. split; [exact Ht|]. by apply Hk.
Defined.

(** /dev/serial0 is device 11, and /dev/hda a file. *)
Definition demo_serial : list Z := [47; 100; 101; 118; 47; 115; 101; 114; 105; 97; 108; 48].
Definition demo_hda : list Z := [47; 100; 101; 118; 47; 104; 100; 97].
Definition no_device (l : list Z) (j : Z) : bool := negb (bool_decide (dev_path (dvname (demo_switch j)) `prefix_of` l)).
Lemma naminit_names_the_devices_witness : ∃ x' m1 m2, naminit demo_switch (Lst demo_main demo_names) = LDone OK (Lst demo_main x') /\
  nammap x' 1000 100 2000 2 (demo_strs demo_serial) = Some (11, m1) /\
  nammap x' 1000 100 2000 2 (demo_strs demo_hda) = Some (LFILESYS, m2) /\ str_at m2 2000 demo_hda.
Proof.
  destruct (naminit_names_the_devices demo_switch demo_main demo_names demo_switch_ok (arr_make_len 40 demo_entry0) demo_room) as (x' & E & H).
  assert (Hs : ∀ P : Z -> bool, forallb P (seqZ 0 13) = true -> ∀ j, 0 <= j < 13 -> P j = true).
  { intros P HP j Hj. rewrite forallb_forall in HP. apply HP. apply list_elem_of_In, elem_of_seqZ. lia. }
  destruct (H 1000 100 2000 demo_serial (demo_strs demo_serial)) as [H1 _].
  { apply demo_str. repeat constructor; discriminate. }
  { cbn [length demo_serial]. lia. }
  { apply demo_frame; [cbn [length demo_serial]; lia|apply (mappedb_true _ _ 256); vm_compute; reflexivity..]. }
  destruct (H 1000 100 2000 demo_hda (demo_strs demo_hda)) as [_ H2].
  { apply demo_str. repeat constructor; discriminate. }
  { cbn [length demo_hda]. lia. }
  { apply demo_frame; [cbn [length demo_hda]; lia|apply (mappedb_true _ _ 256); vm_compute; reflexivity..]. }
  destruct (H1 11) as (m1 & E1 & _); [unfold NDEVS; lia|vm_compute; reflexivity| |].
  { intros j Hj. assert (Hb := Hs (λ j, (11 <=? j) || no_device demo_serial j) ltac:(vm_compute; reflexivity) j ltac:(lia)).
    apply orb_true_iff in Hb as [Hb|Hb]; [apply Z.leb_le in Hb; lia|]. by apply negb_true_iff, bool_decide_eq_false in Hb. }
  destruct H2 as (m2 & E2 & B2).
  { by exists [104; 100; 97]. }
  { by apply (prefix_apart 110 104 _ _ 5). }
  { intros j Hj. assert (Hb := Hs (no_device demo_hda) ltac:(vm_compute; reflexivity) j Hj).
    by apply negb_true_iff, bool_decide_eq_false in Hb. }
  exists x', m1, m2. split; [exact E|]. split; [exact E1|]. split; [exact E2|exact B2].
Defined.

Definition demo_long : list Z := s_local ++ repeat 97 248.
Lemma name_of_255_bytes_is_lost_witness : ∃ m', namrepl demo_local 100 2000 (put_list 100 (demo_long ++ [0]) (ram 256 2000 ∅)) = Some (4, m').
Proof.
  destruct (name_of_255_bytes_is_lost demo_local _ s_local [] 4 100 2000 demo_long (put_list 100 (demo_long ++ [0]) (ram 256 2000 ∅)) demo_local_table)
    as (m' & E & _).
  - split; [apply put_list_bytes|]. apply Forall_app. split; [repeat constructor; discriminate|]. cbn [repeat]. repeat constructor; discriminate.
  - reflexivity.
  - reflexivity.
  - apply (mappedb_true _ _ 256). vm_compute. reflexivity.
  - exists m'. exact E.
Defined.
