(* ===== verification/Net.v ===== *)
(** The network stack, its data: include/net.h, ether.h, arp.h, ip.h, udp.h, icmp.h; the
    parts of net/ that work on one packet or one queue: the byte order conversions, the
    checksums, ip_enqueue.

    A packet is bytes in memory; a field of [struct netpacket] or [struct arppacket] is its
    address.  The memory of the packets is a byte memory of its own: the first word of
    each buffer, which getbuf and freebuf use, lies before the packet and is in the heap of
    the kernel.  The Ethernet device is behind the class [Ether], what the stack uses of
    the device switch. *)

From S2P Require Import Prelude Types Cstring Queue Memory Kernel Sched Sem Msg Bufpool Bytes Lift.

(** * Constants *)

Definition ETH_ADDR_LEN : Z := 6.
Definition ETH_HDR_LEN : Z := 14.
Definition ETH_ARP : Z := 2054.  (** 0x0806 *)
Definition ETH_IP : Z := 2048.  (** 0x0800 *)
Definition ETH_IPv6 : Z := 34525.  (** 0x86DD *)
Definition PACKLEN : Z := 1514.

Definition IP_BCAST : Z := 4294967295.
Definition IP_ICMP : Z := 1.
Definition IP_UDP : Z := 17.
Definition IP_HDR_LEN : Z := 20.
Definition IP_OQSIZ : Z := 8.

Definition UDP_SLOTS : Z := 6.
Definition UDP_QSIZ : Z := 8.
Definition UDP_FREE : Z := 0.
Definition UDP_USED : Z := 1.
Definition UDP_RECV : Z := 2.
Definition UDP_HDR_LEN : Z := 8.

Definition ICMP_SLOTS : Z := 10.
Definition ICMP_QSIZ : Z := 8.
Definition ICMP_FREE : Z := 0.
Definition ICMP_USED : Z := 1.
Definition ICMP_RECV : Z := 2.
Definition ICMP_HDR_LEN : Z := 8.
Definition ICMP_ECHOREPLY : Z := 0.
Definition ICMP_ECHOREQST : Z := 8.

Definition ARP_HALEN : Z := 6.
Definition ARP_PALEN : Z := 4.
Definition ARP_HTYPE : Z := 1.
Definition ARP_PTYPE : Z := 2048.  (** 0x0800 *)
Definition ARP_OP_REQ : Z := 1.
Definition ARP_OP_RPLY : Z := 2.
Definition ARP_SIZ : Z := 16.
Definition ARP_RETRY : nat := 3.
Definition ARP_TIMEOUT : Z := 300.
Definition AR_FREE : Z := 0.
Definition AR_PENDING : Z := 1.
Definition AR_RESOLVED : Z := 2.

(** * Tables *)

(** include/udp.h: struct udpentry *)
Record udpentry := Udpentry {
  udstate : Z;
  udremip : Z;
  udremport : Z;
  udlocport : Z;
  udhead : Z;  (** index of next packet to read *)
  udtail : Z;  (** index of next slot to insert *)
  udcount : Z;  (** count of packets enqueued *)
  udpid : Z;  (** the waiting process *)
  udqueue : gmap Z Z;
}.
Definition set_udstate (x : Z) (u : udpentry) : udpentry :=
  Udpentry x u.(udremip) u.(udremport) u.(udlocport) u.(udhead) u.(udtail) u.(udcount) u.(udpid) u.(udqueue).
Definition set_udhead (x : Z) (u : udpentry) : udpentry :=
  Udpentry u.(udstate) u.(udremip) u.(udremport) u.(udlocport) x u.(udtail) u.(udcount) u.(udpid) u.(udqueue).
Definition set_udtail (x : Z) (u : udpentry) : udpentry :=
  Udpentry u.(udstate) u.(udremip) u.(udremport) u.(udlocport) u.(udhead) x u.(udcount) u.(udpid) u.(udqueue).
Definition set_udcount (x : Z) (u : udpentry) : udpentry :=
  Udpentry u.(udstate) u.(udremip) u.(udremport) u.(udlocport) u.(udhead) u.(udtail) x u.(udpid) u.(udqueue).
Definition set_udpid (x : Z) (u : udpentry) : udpentry :=
  Udpentry u.(udstate) u.(udremip) u.(udremport) u.(udlocport) u.(udhead) u.(udtail) u.(udcount) x u.(udqueue).
Definition set_udqueue (x : gmap Z Z) (u : udpentry) : udpentry :=
  Udpentry u.(udstate) u.(udremip) u.(udremport) u.(udlocport) u.(udhead) u.(udtail) u.(udcount) u.(udpid) x.

(** include/icmp.h: struct icmpentry *)
Record icmpentry := Icmpentry {
  icstate : Z;
  icremip : Z;
  ichead : Z;
  ictail : Z;
  iccount : Z;
  icpid : Z;
  icqueue : gmap Z Z;
}.
Definition set_icstate (x : Z) (u : icmpentry) : icmpentry :=
  Icmpentry x u.(icremip) u.(ichead) u.(ictail) u.(iccount) u.(icpid) u.(icqueue).
Definition set_ichead (x : Z) (u : icmpentry) : icmpentry :=
  Icmpentry u.(icstate) u.(icremip) x u.(ictail) u.(iccount) u.(icpid) u.(icqueue).
Definition set_ictail (x : Z) (u : icmpentry) : icmpentry :=
  Icmpentry u.(icstate) u.(icremip) u.(ichead) x u.(iccount) u.(icpid) u.(icqueue).
Definition set_iccount (x : Z) (u : icmpentry) : icmpentry :=
  Icmpentry u.(icstate) u.(icremip) u.(ichead) u.(ictail) x u.(icpid) u.(icqueue).
Definition set_icpid (x : Z) (u : icmpentry) : icmpentry :=
  Icmpentry u.(icstate) u.(icremip) u.(ichead) u.(ictail) u.(iccount) x u.(icqueue).
Definition set_icqueue (x : gmap Z Z) (u : icmpentry) : icmpentry :=
  Icmpentry u.(icstate) u.(icremip) u.(ichead) u.(ictail) u.(iccount) u.(icpid) x.

(** include/arp.h: struct arpentry *)
Record arpentry := Arpentry {
  arstate : Z;
  arpaddr : Z;  (** IP address *)
  arpid : Z;  (** the waiting process *)
  arhaddr : list Z;  (** Ethernet address *)
}.
Definition set_arstate (x : Z) (a : arpentry) : arpentry := Arpentry x a.(arpaddr) a.(arpid) a.(arhaddr).
Definition set_arpaddr (x : Z) (a : arpentry) : arpentry := Arpentry a.(arstate) x a.(arpid) a.(arhaddr).
Definition set_arpid (x : Z) (a : arpentry) : arpentry := Arpentry a.(arstate) a.(arpaddr) x a.(arhaddr).
Definition set_arhaddr (x : list Z) (a : arpentry) : arpentry := Arpentry a.(arstate) a.(arpaddr) a.(arpid) x.

(** include/ip.h: struct iqentry *)
Record iqentry := Iqentry { iqhead : Z; iqtail : Z; iqsem : Z; iqbuf : gmap Z Z }.
Definition set_iqhead (x : Z) (q : iqentry) : iqentry := Iqentry x q.(iqtail) q.(iqsem) q.(iqbuf).
Definition set_iqtail (x : Z) (q : iqentry) : iqentry := Iqentry q.(iqhead) x q.(iqsem) q.(iqbuf).
Definition set_iqsem (x : Z) (q : iqentry) : iqentry := Iqentry q.(iqhead) q.(iqtail) x q.(iqbuf).
Definition set_iqbuf (x : gmap Z Z) (q : iqentry) : iqentry := Iqentry q.(iqhead) q.(iqtail) q.(iqsem) x.

(** include/net.h: struct network; [bootserver] and [bootfile] are only zeroed here. *)
Record network := Network {
  ipucast : Z;
  ipbcast : Z;
  ipmask : Z;
  ipprefix : Z;
  iprouter : Z;
  bootserver : Z;
  ipvalid : bool;
  ethucast : list Z;
  ethbcast : list Z;
  bootfile : list Z;
}.

(** * The state of the stack; [D] is the state of the device. *)
Record nst (D : Type) := Nst {
  bytes : bmem;  (** packets and the buffers of the callers *)
  udptab : gmap Z udpentry;
  icmptab : gmap Z icmpentry;
  arpcache : gmap Z arpentry;
  ipoqueue : iqentry;
  NetData : network;
  netbufpool : Z;
  udp_ident : Z;  (** the static ident of udp_send *)
  sendto_ident : Z;  (** the static ident of udp_sendto *)
  ipident : Z;  (** the static ipident of icmp_mkpkt *)
  ether : D;
}.
Arguments Nst {D}.
Arguments bytes {D}.
Arguments udptab {D}.
Arguments icmptab {D}.
Arguments arpcache {D}.
Arguments ipoqueue {D}.
Arguments NetData {D}.
Arguments netbufpool {D}.
Arguments udp_ident {D}.
Arguments sendto_ident {D}.
Arguments ipident {D}.
Arguments ether {D}.

Section Setters.
Context {D : Type}.
Implicit Types n : nst D.
Definition set_bytes x n := Nst x n.(udptab) n.(icmptab) n.(arpcache) n.(ipoqueue) n.(NetData) n.(netbufpool)
  n.(udp_ident) n.(sendto_ident) n.(ipident) n.(ether).
Definition set_udptab x n := Nst n.(bytes) x n.(icmptab) n.(arpcache) n.(ipoqueue) n.(NetData) n.(netbufpool)
  n.(udp_ident) n.(sendto_ident) n.(ipident) n.(ether).
Definition set_icmptab x n := Nst n.(bytes) n.(udptab) x n.(arpcache) n.(ipoqueue) n.(NetData) n.(netbufpool)
  n.(udp_ident) n.(sendto_ident) n.(ipident) n.(ether).
Definition set_arpcache x n := Nst n.(bytes) n.(udptab) n.(icmptab) x n.(ipoqueue) n.(NetData) n.(netbufpool)
  n.(udp_ident) n.(sendto_ident) n.(ipident) n.(ether).
Definition set_ipoqueue x n := Nst n.(bytes) n.(udptab) n.(icmptab) n.(arpcache) x n.(NetData) n.(netbufpool)
  n.(udp_ident) n.(sendto_ident) n.(ipident) n.(ether).
Definition set_NetData x n := Nst n.(bytes) n.(udptab) n.(icmptab) n.(arpcache) n.(ipoqueue) x n.(netbufpool)
  n.(udp_ident) n.(sendto_ident) n.(ipident) n.(ether).
Definition set_netbufpool x n := Nst n.(bytes) n.(udptab) n.(icmptab) n.(arpcache) n.(ipoqueue) n.(NetData) x
  n.(udp_ident) n.(sendto_ident) n.(ipident) n.(ether).
Definition set_udp_ident x n := Nst n.(bytes) n.(udptab) n.(icmptab) n.(arpcache) n.(ipoqueue) n.(NetData)
  n.(netbufpool) x n.(sendto_ident) n.(ipident) n.(ether).
Definition set_sendto_ident x n := Nst n.(bytes) n.(udptab) n.(icmptab) n.(arpcache) n.(ipoqueue) n.(NetData)
  n.(netbufpool) n.(udp_ident) x n.(ipident) n.(ether).
Definition set_ipident x n := Nst n.(bytes) n.(udptab) n.(icmptab) n.(arpcache) n.(ipoqueue) n.(NetData)
  n.(netbufpool) n.(udp_ident) n.(sendto_ident) x n.(ether).
Definition set_ether (x : D) n := Nst n.(bytes) n.(udptab) n.(icmptab) n.(arpcache) n.(ipoqueue) n.(NetData)
  n.(netbufpool) n.(udp_ident) n.(sendto_ident) n.(ipident) x.
End Setters.

(** * The Ethernet device *)

(** The driver functions of ETHER0 in the device switch: [eth_write l] is dvwrite with a
    buffer that holds the bytes [l]; [eth_read count] is dvread, with the value it returns
    and the bytes it stores at the start of the caller's buffer; [eth_mac] is what
    dvcntl gives for ETH_CTRL_GET_MAC. *)
Class Ether (D : Type) := {
  eth_write : list Z -> L (nst D) Z;
  eth_read : Z -> L (nst D) (Z * list Z);
  eth_mac : D -> list Z }.

(** * Packets *)

(** include/net.h: struct netpacket (packed); the fields of the UDP and of the ICMP header
    overlap. *)
Definition net_ethdst (p : Z) : Z := p.
Definition net_ethsrc (p : Z) : Z := p + 6.
Definition net_ethtype (p : Z) : Z := p + 12.
Definition net_ipvh (p : Z) : Z := p + 14.
Definition net_iptos (p : Z) : Z := p + 15.
Definition net_iplen (p : Z) : Z := p + 16.
Definition net_ipid (p : Z) : Z := p + 18.
Definition net_ipfrag (p : Z) : Z := p + 20.
Definition net_ipttl (p : Z) : Z := p + 22.
Definition net_ipproto (p : Z) : Z := p + 23.
Definition net_ipcksum (p : Z) : Z := p + 24.
Definition net_ipsrc (p : Z) : Z := p + 26.
Definition net_ipdst (p : Z) : Z := p + 30.
Definition net_udpsport (p : Z) : Z := p + 34.
Definition net_udpdport (p : Z) : Z := p + 36.
Definition net_udplen (p : Z) : Z := p + 38.
Definition net_udpcksum (p : Z) : Z := p + 40.
Definition net_udpdata (p : Z) : Z := p + 42.
Definition net_ictype (p : Z) : Z := p + 34.
Definition net_iccode (p : Z) : Z := p + 35.
Definition net_iccksum (p : Z) : Z := p + 36.
Definition net_icident (p : Z) : Z := p + 38.
Definition net_icseq (p : Z) : Z := p + 40.
Definition net_icdata (p : Z) : Z := p + 42.

(** include/arp.h: struct arppacket *)
Definition arp_ethdst (p : Z) : Z := p.
Definition arp_ethsrc (p : Z) : Z := p + 6.
Definition arp_ethtype (p : Z) : Z := p + 12.
Definition arp_htype (p : Z) : Z := p + 14.
Definition arp_ptype (p : Z) : Z := p + 16.
Definition arp_hlen (p : Z) : Z := p + 18.
Definition arp_plen (p : Z) : Z := p + 19.
Definition arp_op (p : Z) : Z := p + 20.
Definition arp_sndha (p : Z) : Z := p + 22.
Definition arp_sndpa (p : Z) : Z := p + 28.
Definition arp_tarha (p : Z) : Z := p + 32.
Definition arp_tarpa (p : Z) : Z := p + 38.
Definition ARP_PACKLEN : Z := 42.

(** Fields of 16 and of 32 bits; [sth] and [ldb], [stb] are those of Bytes.v. *)
Definition ldh (m : bmem) (a : Z) : option Z := ld_le 2 m a.
Definition ldl (m : bmem) (a : Z) : option Z := ld_le 4 m a.
Definition stl (a v : Z) (m : bmem) : option bmem := st_le 4 a (u32 v) m.

(** [memcpy] from and to an array that is not in the byte memory. *)
Fixpoint put_bytes (a : Z) (l : list Z) (m : bmem) : option bmem :=
  match l with
  | [] => Some m
  | b :: l => m ← stb a b m; put_bytes (a + 1) l m
  end.
Fixpoint get_bytes (n : nat) (m : bmem) (a : Z) : option (list Z) :=
  match n with
  | O => Some []
  | S n => b ← ldb m a; l ← get_bytes n m (a + 1); Some (b :: l)
  end.

(** include/prototypes.h: htons, ntohs, htonl, ntohl *)
Definition htons (x : Z) : Z := Z.lor (Z.land 255 (Z.shiftr x 8)) (Z.shiftl (Z.land 255 x) 8).
Definition ntohs (x : Z) : Z := Z.lor (Z.land 255 (Z.shiftr x 8)) (Z.shiftl (Z.land 255 x) 8).
Definition htonl (x : Z) : Z :=
  Z.lor (Z.lor (Z.lor (Z.land (Z.shiftr x 24) 255) (Z.land (Z.shiftr x 8) 65280))
    (Z.land (Z.shiftl x 8) 16711680)) (Z.land (Z.shiftl x 24) 4278190080).
Definition ntohl (x : Z) : Z :=
  Z.lor (Z.lor (Z.lor (Z.land (Z.shiftr x 24) 255) (Z.land (Z.shiftr x 8) 65280))
    (Z.land (Z.shiftl x 8) 16711680)) (Z.land (Z.shiftl x 24) 4278190080).

(** [f = conv(f)] for a field of 16 or 32 bits at [a]. *)
Definition conv16 (conv : Z -> Z) (a : Z) (m : bmem) : option bmem := x ← ldh m a; sth a (conv x) m.
Definition conv32 (conv : Z -> Z) (a : Z) (m : bmem) : option bmem := x ← ldl m a; stl a (conv x) m.

(** net/net.c: eth_hton, eth_ntoh *)
Definition eth_hton (pktptr : Z) (m : bmem) : option bmem := conv16 htons (net_ethtype pktptr) m.
Definition eth_ntoh (pktptr : Z) (m : bmem) : option bmem := conv16 ntohs (net_ethtype pktptr) m.

(** net/ip.c: ip_ntoh, ip_hton *)
Definition ip_ntoh (pktptr : Z) (m : bmem) : option bmem :=
  m ← conv16 ntohs (net_iplen pktptr) m;
  m ← conv16 ntohs (net_ipid pktptr) m;
  m ← conv16 ntohs (net_ipfrag pktptr) m;
  m ← conv32 ntohl (net_ipsrc pktptr) m;
  conv32 ntohl (net_ipdst pktptr) m.
Definition ip_hton (pktptr : Z) (m : bmem) : option bmem :=
  m ← conv16 htons (net_iplen pktptr) m;
  m ← conv16 htons (net_ipid pktptr) m;
  m ← conv16 htons (net_ipfrag pktptr) m;
  m ← conv32 htonl (net_ipsrc pktptr) m;
  conv32 htonl (net_ipdst pktptr) m.

(** net/udp.c: udp_ntoh, udp_hton *)
Definition udp_ntoh (pktptr : Z) (m : bmem) : option bmem :=
  m ← conv16 ntohs (net_udpsport pktptr) m;
  m ← conv16 ntohs (net_udpdport pktptr) m;
  conv16 ntohs (net_udplen pktptr) m.
Definition udp_hton (pktptr : Z) (m : bmem) : option bmem :=
  m ← conv16 htons (net_udpsport pktptr) m;
  m ← conv16 htons (net_udpdport pktptr) m;
  conv16 htons (net_udplen pktptr) m.

(** net/icmp.c: icmp_hton, icmp_ntoh *)
Definition icmp_hton (pktptr : Z) (m : bmem) : option bmem :=
  m ← conv16 htons (net_iccksum pktptr) m;
  m ← conv16 htons (net_icident pktptr) m;
  conv16 htons (net_icseq pktptr) m.
Definition icmp_ntoh (pktptr : Z) (m : bmem) : option bmem :=
  m ← conv16 ntohs (net_iccksum pktptr) m;
  m ← conv16 ntohs (net_icident pktptr) m;
  conv16 ntohs (net_icseq pktptr) m.

(** net/arp.c: arp_ntoh, arp_hton *)
Definition arp_ntoh (pktptr : Z) (m : bmem) : option bmem :=
  m ← conv16 ntohs (arp_htype pktptr) m;
  m ← conv16 ntohs (arp_ptype pktptr) m;
  m ← conv16 ntohs (arp_op pktptr) m;
  m ← conv32 ntohl (arp_sndpa pktptr) m;
  conv32 ntohl (arp_tarpa pktptr) m.
Definition arp_hton (pktptr : Z) (m : bmem) : option bmem :=
  m ← conv16 htons (arp_htype pktptr) m;
  m ← conv16 htons (arp_ptype pktptr) m;
  m ← conv16 htons (arp_op pktptr) m;
  m ← conv32 htonl (arp_sndpa pktptr) m;
  conv32 htonl (arp_tarpa pktptr) m.

(** net/ip.c: ipcksum; [cksum] is unsigned, and the sum of the words is taken in host
    order whatever the name of the macro. *)
Fixpoint ipcksum_sum (n : nat) (m : bmem) (hptr cksum : Z) : option Z :=
  match n with
  | O => Some cksum
  | S n => word ← ldh m hptr; ipcksum_sum n m (hptr + 2) (u32 (cksum + htons word))
  end.
Definition ipcksum (m : bmem) (pkt : Z) : option Z :=
  cksum ← ipcksum_sum 10 m (net_ipvh pkt) 0;
  let cksum := u32 (cksum + Z.shiftr cksum 16) in
  let cksum := Z.land 65535 (Z.lnot cksum) in
  let cksum := if cksum =? 65535 then 0 else cksum in
  Some (Z.land 65535 cksum).

(** net/icmp.c: icmp_cksum *)
Fixpoint icmp_cksum_sum (scount : nat) (m : bmem) (sptr cksum : Z) : option (Z * Z) :=
  match scount with
  | O => Some (sptr, cksum)
  | S scount => word ← ldh m sptr; icmp_cksum_sum scount m (sptr + 2) (u32 (cksum + ntohs word))
  end.
Definition icmp_cksum (m : bmem) (buf buflen : Z) : option Z :=
  r ← icmp_cksum_sum (Z.to_nat (Z.shiftr buflen 1)) m buf 0;
  let '(sptr, cksum) := r in
  cksum ← (if negb (Z.land buflen 1 =? 0) then c ← ldb m sptr; Some (u32 (cksum + Z.shiftl c 8)) else Some cksum);
  let cksum := u32 (cksum + Z.shiftr cksum 16) in
  Some (Z.land 65535 (Z.land 65535 (Z.lnot cksum))).

(** * Access to the state *)

Section Access.
Context {D : Type}.

Definition bget {A} (f : bmem -> option A) : L (nst D) A := m ← getx bytes; lopt (f m).
Definition bput (f : bmem -> option bmem) : L (nst D) unit :=
  m ← getx bytes; m ← lopt (f m); modx (set_bytes m).
Definition getud (slot : Z) : L (nst D) udpentry := t ← getx udptab; lopt (t !! slot).
Definition updud (f : udpentry -> udpentry) (slot : Z) : L (nst D) unit :=
  t ← getx udptab; t ← lopt (arr_upd f slot t); modx (set_udptab t).
Definition getic (slot : Z) : L (nst D) icmpentry := t ← getx icmptab; lopt (t !! slot).
Definition updic (f : icmpentry -> icmpentry) (slot : Z) : L (nst D) unit :=
  t ← getx icmptab; t ← lopt (arr_upd f slot t); modx (set_icmptab t).
Definition getar (slot : Z) : L (nst D) arpentry := t ← getx arpcache; lopt (t !! slot).
Definition updar (f : arpentry -> arpentry) (slot : Z) : L (nst D) unit :=
  t ← getx arpcache; t ← lopt (arr_upd f slot t); modx (set_arpcache t).
Definition updiq (f : iqentry -> iqentry) : L (nst D) unit := q ← getx ipoqueue; modx (set_ipoqueue (f q)).
Definition updnd (f : network -> network) : L (nst D) unit := d ← getx NetData; modx (set_NetData (f d)).

Definition ldisable : L (nst D) bool := lift disable.
Definition lrestore (mask : bool) : L (nst D) unit := lift (restore mask).
Definition lfreebuf (pktptr : Z) : L (nst D) unit := lift (freebuf pktptr);; mret tt.

(** system/write.c for ETHER0: [count] bytes at [buf] in the byte memory [m]. *)
Definition write_ether `{Ether D} (l : list Z) : L (nst D) Z :=
  mask ← ldisable;
  retval ← eth_write l;
  lrestore mask;;
  mret retval.
(** system/read.c for ETHER0 *)
Definition read_ether `{Ether D} (buf count : Z) : L (nst D) Z :=
  mask ← ldisable;
  r ← eth_read count;
  bput (put_bytes buf r.2);;
  lrestore mask;;
  mret r.1.

(** [iptr->iqbuf[iptr->iqtail++] = pktptr] and the wrap-around. *)
Definition iq_push (pktptr : Z) : L (nst D) unit :=
  iptr ← getx ipoqueue;
  b ← lopt (arr_upd (λ _, pktptr) iptr.(iqtail) iptr.(iqbuf));
  updiq (set_iqbuf b);;
  updiq (set_iqtail (iptr.(iqtail) + 1));;
  iptr ← getx ipoqueue;
  if iptr.(iqtail) >=? IP_OQSIZ then updiq (set_iqtail 0) else mret tt.

(** net/ip.c: ip_enqueue *)
Definition ip_enqueue (pktptr : Z) : L (nst D) Z :=
  mask ← ldisable;
  iptr ← getx ipoqueue;
  c ← lift (semcount iptr.(iqsem));
  if c >=? IP_OQSIZ then
    lfreebuf pktptr;;
    lrestore mask;;
    mret SYSERR
  else
    iq_push pktptr;;
    lift (signal iptr.(iqsem));;
    lrestore mask;;
    mret OK.
End Access.
