(* ===== verification/Netlib.v ===== *)
(** The tools of the proofs about the network: packets as lists of bytes, on which every
    step of the C code that fills in, converts or checks a header is a function on lists,
    and the arithmetic of byte order and of the checksums. *)

From S2P Require Import Prelude Types Cstring Queue Memory Kernel Sched Bufpool Bytes Lift Net.

(** * Bytes *)

Definition byte (b : Z) : Prop := 0 <= b < 256.

Lemma byte_mod v : byte (v mod 256).
Proof. unfold byte. apply Z.mod_pos_bound. lia. Qed.

Lemma byte_u8 v : byte (u8 v).
Proof. apply byte_mod. Qed.

Definition be16 (x : Z) : list Z := [x / 256 mod 256; x mod 256].
Definition be32 (x : Z) : list Z := [x / 16777216 mod 256; x / 65536 mod 256; x / 256 mod 256; x mod 256].
Definition le16 (x : Z) : list Z := [x mod 256; x / 256 mod 256].
Definition le32 (x : Z) : list Z := [x mod 256; x / 256 mod 256; x / 65536 mod 256; x / 16777216 mod 256].

Lemma le16_bytes x : Forall byte (le16 x).
Proof. unfold le16. repeat constructor; apply byte_mod. Qed.

Lemma le32_bytes x : Forall byte (le32 x).
Proof. unfold le32. repeat constructor; apply byte_mod. Qed.

Lemma le16_val x : 0 <= x < 65536 -> x mod 256 + 256 * (x / 256 mod 256) = x.
Proof. intros H. rewrite (Z.mod_small (x / 256)); Z.to_euclidean_division_equations; lia. Qed.

Lemma le32_val x : is_u32 x ->
  x mod 256 + 256 * (x / 256 mod 256) + 65536 * (x / 65536 mod 256) + 16777216 * (x / 16777216 mod 256) = x.
Proof.
  unfold is_u32. intros H. replace (x / 16777216) with (x / 256 / 256 / 256) by (by rewrite !Z.div_div by lia).
  replace (x / 65536) with (x / 256 / 256) by (by rewrite !Z.div_div by lia).
  rewrite (Z.mod_small (x / 256 / 256 / 256)) by (Z.to_euclidean_division_equations; lia). Z.to_euclidean_division_equations. lia.
Qed.

(** The byte swaps of the macros, on the bytes of their argument. *)
Lemma htons_swap a b : byte a -> byte b -> htons (a + 256 * b) = b + 256 * a.
Proof.
  unfold byte. intros Ha Hb. unfold htons. rewrite Z.shiftr_div_pow2, Z.shiftl_mul_pow2 by lia.
  change (2 ^ 8) with 256. replace ((a + 256 * b) / 256) with b by (Z.to_euclidean_division_equations; lia).
  rewrite !(Z.land_comm 255). change 255 with (Z.ones 8). rewrite !Z.land_ones by lia. change (2 ^ 8) with 256.
  rewrite (Z.mod_small b) by lia. replace ((a + 256 * b) mod 256) with a by (Z.to_euclidean_division_equations; lia).
  rewrite (Z.mul_comm 256 a), <- Z.add_lor_land. replace (Z.land b (a * 256)) with 0; [lia|]. symmetry.
  change 256 with (2 ^ 8). rewrite <- Z.shiftl_mul_pow2 by lia. apply Z.bits_inj'. intros i Hi.
  rewrite Z.land_spec, Z.bits_0. destruct (Z.ltb_spec i 8).
  - rewrite Z.shiftl_spec_low by lia. apply andb_false_r.
  - replace b with (b mod 2 ^ 8) by (apply Z.mod_small; lia). by rewrite Z.mod_pow2_bits_high by lia.
Qed.

Lemma ntohs_swap a b : byte a -> byte b -> ntohs (a + 256 * b) = b + 256 * a.
Proof. apply htons_swap. Qed.

(** An or of numbers without a common bit. *)
Lemma lor_add x y k : 0 <= k -> 0 <= x < 2 ^ k -> y mod 2 ^ k = 0 -> Z.lor x y = x + y.
Proof.
  intros Hk Hx Hy. rewrite <- Z.add_lor_land. replace (Z.land x y) with 0; [lia|]. symmetry.
  apply Z.bits_inj'. intros i Hi. rewrite Z.land_spec, Z.bits_0. destruct (Z.ltb_spec i k).
  - apply andb_false_iff. right. rewrite <- (Z.mod_pow2_bits_low y k) by lia. rewrite Hy. apply Z.bits_0.
  - apply andb_false_iff. left. rewrite <- (Z.mod_small x (2 ^ k)) by lia. by apply Z.mod_pow2_bits_high.
Qed.

(** The bits of [x] at [8 * i, 8 * i + 8), by a mask. *)
Lemma land_field x i : 0 <= i -> Z.land x (255 * 2 ^ i) = (x / 2 ^ i) mod 256 * 2 ^ i.
Proof.
  intros Hi. rewrite <- !Z.shiftl_mul_pow2, <- Z.shiftr_div_pow2 by done. change 256 with (2 ^ 8).
  rewrite <- Z.land_ones by lia. change (Z.ones 8) with 255. apply Z.bits_inj'. intros j Hj.
  rewrite Z.land_spec, !Z.shiftl_spec by done. destruct (Z.ltb_spec j i).
  - rewrite !(Z.testbit_neg_r _ (j - i)) by lia. apply andb_false_r.
  - rewrite Z.land_spec, Z.shiftr_spec by lia. by replace (j - i + i) with j by lia.
Qed.

Lemma htonl_swap a b c d : byte a -> byte b -> byte c -> byte d ->
  htonl (a + 256 * b + 65536 * c + 16777216 * d) = d + 256 * c + 65536 * b + 16777216 * a.
Proof.
  unfold byte. intros Ha Hb Hc Hd. unfold htonl. set (x := a + 256 * b + 65536 * c + 16777216 * d).
  rewrite (Z.shiftr_div_pow2 x 24), (Z.shiftr_div_pow2 x 8), (Z.shiftl_mul_pow2 x 8), (Z.shiftl_mul_pow2 x 24) by lia.
  change 65280 with (255 * 2 ^ 8). change 16711680 with (255 * 2 ^ 16). change 4278190080 with (255 * 2 ^ 24).
  replace 255 with (255 * 2 ^ 0) at 1 by done. rewrite !land_field by lia.
  change (2 ^ 0) with 1. change (2 ^ 8) with 256. change (2 ^ 16) with 65536. change (2 ^ 24) with 16777216.
  rewrite Z.mul_1_r, Z.div_1_r. replace (x / 256 / 256) with (x / 65536) by (by rewrite Z.div_div by lia).
  rewrite (Z.div_mul x 16777216) by lia. replace (x * 256 / 65536) with (x / 256)
    by (change 65536 with (256 * 256); by rewrite Z.div_mul_cancel_r by lia).
  replace (x / 16777216 mod 256) with d by (unfold x; Z.to_euclidean_division_equations; lia).
  replace (x / 65536 mod 256) with c by (unfold x; Z.to_euclidean_division_equations; lia).
  replace (x / 256 mod 256) with b by (unfold x; Z.to_euclidean_division_equations; lia).
  replace (x mod 256) with a by (unfold x; Z.to_euclidean_division_equations; lia).
  rewrite (lor_add d (c * 256) 8), (lor_add (d + c * 256) (b * 65536) 16), (lor_add (d + c * 256 + b * 65536) (a * 16777216) 24);
    try lia; rewrite Z.mod_divide by lia; [exists a|exists b|exists c]; lia.
Qed.

Lemma ntohl_swap a b c d : byte a -> byte b -> byte c -> byte d ->
  ntohl (a + 256 * b + 65536 * c + 16777216 * d) = d + 256 * c + 65536 * b + 16777216 * a.
Proof. apply htonl_swap. Qed.

(** * Packets as lists *)

(** The list with [bs] in place of the bytes at [off]. *)
Definition put (off : nat) (bs l : list Z) : list Z := take off l ++ bs ++ drop (off + length bs) l.
Definition swap2 (off : nat) (l : list Z) : list Z := put off [l !!! S off; l !!! off] l.
Definition swap4 (off : nat) (l : list Z) : list Z :=
  put off [l !!! S (S (S off)); l !!! S (S off); l !!! S off; l !!! off] l.
(** One step after another. *)
Definition andthen (g1 g2 : list Z -> list Z) (l : list Z) : list Z := g2 (g1 l).

(** On a packet at [p], of [n] bytes at least, [f p] does what [g] does on the list of its
    bytes, and nothing else. *)
Definition acts (n : nat) (f : Z -> bmem -> option bmem) (g : list Z -> list Z) : Prop :=
  ∀ m p l, bytes_at m p l -> Forall byte l -> (n <= length l)%nat ->
    ∃ m', f p m = Some m' /\ bytes_at m' p (g l) /\ Forall byte (g l) /\ length (g l) = length l /\
      writes p (Z.of_nat (length l)) m m'.

Lemma put_length off bs l : (off + length bs <= length l)%nat -> length (put off bs l) = length l.
Proof. intros H. unfold put. rewrite !length_app, length_take, length_drop. lia. Qed.

Lemma put_bytes_ok off bs l : Forall byte bs -> Forall byte l -> Forall byte (put off bs l).
Proof. intros Hb Hl. unfold put. apply Forall_app. split; [by apply Forall_take|]. apply Forall_app. split; [done|by apply Forall_drop]. Qed.

Lemma acts_seq n f1 f2 g1 g2 : acts n f1 g1 -> acts n f2 g2 ->
  acts n (λ p m, m ← f1 p m; f2 p m) (andthen g1 g2).
Proof.
  intros H1 H2 m p l Hb Hl Hn. destruct (H1 m p l Hb Hl Hn) as (m1 & E1 & B1 & L1 & N1 & W1).
  destruct (H2 m1 p (g1 l) B1 L1) as (m2 & E2 & B2 & L2 & N2 & W2); [lia|].
  exists m2. rewrite E1. cbn [mbind option_bind]. split; [done|]. split; [done|]. split; [done|].
  split; [unfold andthen; lia|]. rewrite N1 in W2. by eapply writes_trans.
Qed.

Lemma acts_ret n : acts n (λ _ m, Some m) (λ l, l).
Proof. intros m p l Hb Hl Hn. exists m. do 4 (split; [done|]). by split. Qed.

(** A write of the bytes [bs] at [off]. *)
Lemma bytes_at_put m m' p l off bs :
  bytes_at m p l -> (off + length bs <= length l)%nat -> writes (p + Z.of_nat off) (Z.of_nat (length bs)) m m' ->
  bytes_at m' (p + Z.of_nat off) bs -> bytes_at m' p (put off bs l).
Proof.
  intros Hb Hn Hw Hbs. unfold put. rewrite <- (take_drop off l) in Hb. rewrite <- (take_drop (length bs) (drop off l)) in Hb.
  rewrite drop_drop in Hb. apply bytes_at_app in Hb as [H1 Hb]. apply bytes_at_app in Hb as [_ H3].
  rewrite !length_take, length_drop in H3. apply bytes_at_app. rewrite length_take.
  rewrite Nat.min_l in * by lia. rewrite Nat.min_l in H3 by lia. split.
  - eapply writes_bytes; [exact Hw|exact H1|]. rewrite length_take. lia.
  - apply bytes_at_app. split; [done|]. eapply writes_bytes; [exact Hw|exact H3|]. lia.
Qed.

Lemma acts_put n off bs f :
  (off + length bs <= n)%nat -> Forall byte bs ->
  (∀ m p, mapped m (p + Z.of_nat off) (Z.of_nat (length bs)) ->
    ∃ m', f p m = Some m' /\ writes (p + Z.of_nat off) (Z.of_nat (length bs)) m m' /\ bytes_at m' (p + Z.of_nat off) bs) ->
  acts n f (put off bs).
Proof.
  intros Hoff Hbs Hf m p l Hb Hl Hn. destruct (Hf m p) as (m' & E & W & B).
  { eapply mapped_part; [by apply bytes_mapped|lia|lia]. }
  exists m'. split; [done|]. split; [eapply bytes_at_put; [done|lia|done|done]|].
  split; [by apply put_bytes_ok|]. split; [apply put_length; lia|]. eapply writes_weaken; [exact W|lia|lia].
Qed.

Lemma stb_writes a v m : mapped m a 1 -> ∃ m', stb a v m = Some m' /\ writes a 1 m m' /\ bytes_at m' a [v].
Proof.
  intros Hm. destruct (writes_one a v m (Hm a ltac:(lia))) as [E W]. exists (<[a := v]> m). split; [done|].
  split; [done|]. split; [apply lookup_insert_eq|done].
Qed.

Lemma put_bytes_run l : ∀ a m, mapped m a (Z.of_nat (length l)) ->
  ∃ m', put_bytes a l m = Some m' /\ writes a (Z.of_nat (length l)) m m' /\ bytes_at m' a l.
Proof.
  induction l as [|b l IH]; intros a m Hm; cbn [put_bytes length].
  { exists m. split; [done|]. split; [apply writes_refl|done]. }
  cbn [length] in Hm. destruct (stb_writes a b m) as (m1 & -> & W1 & B1); [eapply mapped_part; [exact Hm|lia|lia]|].
  cbn [mbind option_bind]. destruct (IH (a + 1) m1) as (m2 & -> & W2 & B2).
  { eapply writes_mapped; [exact W1|]. eapply mapped_part; [exact Hm|lia|lia]. }
  exists m2. split; [done|]. split.
  - eapply writes_trans; eapply writes_weaken; [exact W1|lia|lia|exact W2|lia|lia].
  - apply (bytes_at_app m2 a [b]). split; [|done]. eapply writes_bytes; [exact W2|exact B1|]. simpl. lia.
Qed.

(** Storing an integer is storing its bytes. *)
Lemma st_le_put n : ∀ a v m, st_le n a v m = put_bytes a ((λ i, v / 256 ^ Z.of_nat i mod 256) <$> seq 0 n) m.
Proof.
  induction n as [|n IH]; intros a v m; [done|]. cbn [st_le seq fmap list_fmap put_bytes].
  rewrite Z.pow_0_r, Z.div_1_r. destruct (stb a (v mod 256) m) as [m'|]; [|done]. cbn [mbind option_bind].
  rewrite IH. f_equal. rewrite <- fmap_S_seq, <- list_fmap_compose. apply list_fmap_ext. intros i x Hx. cbn [compose].
  rewrite Nat2Z.inj_succ, Z.pow_succ_r, Z.div_div by lia. done.
Qed.

Lemma sth_put a v m : sth a v m = put_bytes a (le16 v) m.
Proof.
  unfold sth. rewrite st_le_put. cbn [seq fmap list_fmap]. unfold le16. change (256 ^ Z.of_nat 0) with 1.
  change (256 ^ Z.of_nat 1) with 256. rewrite Z.div_1_r. unfold u16.
  replace (v mod 65536 mod 256) with (v mod 256) by (Z.to_euclidean_division_equations; lia).
  by replace (v mod 65536 / 256 mod 256) with (v / 256 mod 256) by (Z.to_euclidean_division_equations; lia).
Qed.

Lemma mod_div_mod v a b c k : 0 < a -> 0 < b -> 0 < k -> c = a * b * k -> v mod c / a mod b = v / a mod b.
Proof.
  intros Ha Hb Hk ->. rewrite (Z.mod_eq v) by nia.
  replace (v - a * b * k * (v / (a * b * k))) with (v + - (b * k * (v / (a * b * k))) * a) by lia.
  rewrite Z.div_add by lia. replace (v / a + - (b * k * (v / (a * b * k)))) with (v / a + - (k * (v / (a * b * k))) * b) by lia.
  by rewrite Z.mod_add by lia.
Qed.

Lemma stl_put a v m : stl a v m = put_bytes a (le32 v) m.
Proof.
  unfold stl. rewrite st_le_put. cbn [seq fmap list_fmap]. unfold le32. change (256 ^ Z.of_nat 0) with 1.
  change (256 ^ Z.of_nat 1) with 256. change (256 ^ Z.of_nat 2) with 65536. change (256 ^ Z.of_nat 3) with 16777216.
  rewrite Z.div_1_r. unfold u32. replace (v mod 4294967296 mod 256) with (v mod 256) by (Z.to_euclidean_division_equations; lia).
  by rewrite (mod_div_mod v 256 256 _ 65536), (mod_div_mod v 65536 256 _ 256), (mod_div_mod v 16777216 256 _ 1).
Qed.

(** The steps. *)
Lemma acts_bytes n off bs a : (∀ p, a p = p + Z.of_nat off) -> (off + length bs <= n)%nat -> Forall byte bs ->
  acts n (λ p m, put_bytes (a p) bs m) (put off bs).
Proof. intros Ha Hn Hbs. apply acts_put; [done..|]. intros m p Hm. rewrite Ha. by apply put_bytes_run. Qed.

Lemma acts_sth n off v a : (∀ p, a p = p + Z.of_nat off) -> (off + 2 <= n)%nat ->
  acts n (λ p m, sth (a p) v m) (put off (le16 v)).
Proof.
  intros Ha Hn. apply acts_put; [done|apply le16_bytes|]. intros m p Hm. rewrite Ha, sth_put. by apply put_bytes_run.
Qed.

Lemma acts_stl n off v a : (∀ p, a p = p + Z.of_nat off) -> (off + 4 <= n)%nat ->
  acts n (λ p m, stl (a p) v m) (put off (le32 v)).
Proof.
  intros Ha Hn. apply acts_put; [done|apply le32_bytes|]. intros m p Hm. rewrite Ha, stl_put. by apply put_bytes_run.
Qed.

Lemma acts_stb n off v a : (∀ p, a p = p + Z.of_nat off) -> (off + 1 <= n)%nat -> byte v ->
  acts n (λ p m, stb (a p) v m) (put off [v]).
Proof.
  intros Ha Hn Hv. apply acts_put; [done|by rewrite Forall_singleton|]. intros m p Hm. rewrite Ha. by apply stb_writes.
Qed.

(** Reading fields. *)
Lemma read_byte m p l i : bytes_at m p l -> (i < length l)%nat -> m !! (p + Z.of_nat i) = Some (l !!! i).
Proof.
  intros Hb Hi. destruct (lookup_lt_is_Some_2 l i Hi) as [c Hc]. rewrite (list_lookup_total_correct _ _ _ Hc).
  by eapply bytes_at_lookup.
Qed.

Lemma read16 m p l off : bytes_at m p l -> (off + 2 <= length l)%nat ->
  ldh m (p + Z.of_nat off) = Some (l !!! off + 256 * l !!! S off).
Proof.
  intros Hb Hn. unfold ldh. cbn [ld_le]. unfold ldb. rewrite (read_byte _ _ _ _ Hb) by lia. cbn [mbind option_bind].
  replace (p + Z.of_nat off + 1) with (p + Z.of_nat (S off)) by lia. rewrite (read_byte _ _ _ _ Hb) by lia.
  cbn [mbind option_bind]. f_equal. lia.
Qed.

Lemma read32 m p l off : bytes_at m p l -> (off + 4 <= length l)%nat ->
  ldl m (p + Z.of_nat off) =
    Some (l !!! off + 256 * l !!! S off + 65536 * l !!! S (S off) + 16777216 * l !!! S (S (S off))).
Proof.
  intros Hb Hn. unfold ldl. cbn [ld_le]. unfold ldb. rewrite (read_byte _ _ _ _ Hb) by lia. cbn [mbind option_bind].
  replace (p + Z.of_nat off + 1) with (p + Z.of_nat (S off)) by lia. rewrite (read_byte _ _ _ _ Hb) by lia. cbn [mbind option_bind].
  replace (p + Z.of_nat (S off) + 1) with (p + Z.of_nat (S (S off))) by lia. rewrite (read_byte _ _ _ _ Hb) by lia. cbn [mbind option_bind].
  replace (p + Z.of_nat (S (S off)) + 1) with (p + Z.of_nat (S (S (S off)))) by lia. rewrite (read_byte _ _ _ _ Hb) by lia.
  cbn [mbind option_bind]. f_equal. lia.
Qed.

Lemma byte_total l i : Forall byte l -> (i < length l)%nat -> byte (l !!! i).
Proof. intros Hl Hi. by apply (Forall_lookup_total_1 _ _ _ Hl). Qed.

Lemma le16_pair a b : byte a -> byte b -> le16 (a + 256 * b) = [a; b].
Proof. unfold byte, le16. intros Ha Hb. repeat (f_equal; try (Z.to_euclidean_division_equations; lia)). Qed.

Lemma le32_quad a b c d : byte a -> byte b -> byte c -> byte d ->
  le32 (a + 256 * b + 65536 * c + 16777216 * d) = [a; b; c; d].
Proof. unfold byte, le32. intros Ha Hb Hc Hd. repeat (f_equal; try (Z.to_euclidean_division_equations; lia)). Qed.

Lemma acts_conv16 n off conv a : (∀ p, a p = p + Z.of_nat off) -> (off + 2 <= n)%nat ->
  (∀ a b, byte a -> byte b -> conv (a + 256 * b) = b + 256 * a) ->
  acts n (λ p m, conv16 conv (a p) m) (swap2 off).
Proof.
  intros Ha Hn Hc m p l Hb Hl Hlen. unfold conv16. rewrite Ha, (read16 _ _ _ _ Hb) by lia. cbn [mbind option_bind].
  rewrite Hc by (apply byte_total; [done|lia]).
  destruct (acts_sth n off (l !!! S off + 256 * l !!! off) (λ p, p + Z.of_nat off) ltac:(done) Hn m p l Hb Hl Hlen) as (m' & H).
  exists m'. unfold swap2. rewrite le16_pair in H by (apply byte_total; [done|lia]). done.
Qed.

Lemma acts_conv32 n off conv a : (∀ p, a p = p + Z.of_nat off) -> (off + 4 <= n)%nat ->
  (∀ a b c d, byte a -> byte b -> byte c -> byte d ->
    conv (a + 256 * b + 65536 * c + 16777216 * d) = d + 256 * c + 65536 * b + 16777216 * a) ->
  acts n (λ p m, conv32 conv (a p) m) (swap4 off).
Proof.
  intros Ha Hn Hc m p l Hb Hl Hlen. unfold conv32. rewrite Ha, (read32 _ _ _ _ Hb) by lia. cbn [mbind option_bind].
  rewrite Hc by (apply byte_total; [done|lia]).
  set (v := _ + 16777216 * _).
  destruct (acts_stl n off v (λ p, p + Z.of_nat off) ltac:(done) Hn m p l Hb Hl Hlen) as (m' & H).
  exists m'. unfold swap4. unfold v in H. rewrite !le32_quad in H by (apply byte_total; [done|lia]). done.
Qed.

(** Memory of zeros. *)
Lemma ram_bytes n m : ∀ p, bytes_at (ram n p m) p (repeat 0 n).
Proof.
  induction n as [|n IH]; intros p; [done|]. cbn [ram repeat]. split; [apply lookup_insert_eq|].
  eapply bytes_at_frame; [apply IH|]. intros a Ha. apply lookup_insert_ne. lia.
Qed.

Lemma zeros_bytes n : Forall byte (repeat 0 n).
Proof. apply Forall_forall. intros b Hb%list_elem_of_In%repeat_spec. subst b. done. Qed.

(** * The header checksum *)

(** The [n] words in network order from [off] on. *)
Fixpoint words (n off : nat) (l : list Z) : list Z :=
  match n with
  | O => []
  | S n => (256 * l !!! off + l !!! S off) :: words n (S (S off)) l
  end.
Definition sum (ws : list Z) : Z := foldr Z.add 0 ws.

(** What ipcksum makes of the sum of the words. *)
Definition fold_once (s : Z) : Z := (s + s / 65536) mod 65536.
Definition cksum_of (s : Z) : Z := if fold_once s =? 0 then 0 else 65535 - fold_once s.

Definition word16 (w : Z) : Prop := 0 <= w < 65536.

Lemma words_range n : ∀ off l, Forall byte l -> (off + 2 * n <= length l)%nat -> Forall word16 (words n off l).
Proof.
  induction n as [|n IH]; intros off l Hl Hn; [constructor|]. cbn [words]. constructor.
  - pose proof (byte_total l off Hl ltac:(lia)). pose proof (byte_total l (S off) Hl ltac:(lia)). unfold byte, word16 in *. lia.
  - apply IH; [done|lia].
Qed.

Lemma sum_range ws : Forall word16 ws -> 0 <= sum ws <= 65535 * Z.of_nat (length ws).
Proof. induction 1 as [|w ws Hw _ IH]; cbn [sum foldr length]; unfold word16, sum in *; lia. Qed.

Lemma words_length n : ∀ off l, length (words n off l) = n.
Proof. induction n as [|n IH]; intros off l; [done|]. cbn [words length]. by rewrite IH. Qed.

Lemma ipcksum_sum_run n : ∀ off m p l c, bytes_at m p l -> Forall byte l -> (off + 2 * n <= length l)%nat ->
  0 <= c -> c + 65535 * Z.of_nat n < 4294967296 ->
  ipcksum_sum n m (p + Z.of_nat off) c = Some (c + sum (words n off l)).
Proof.
  induction n as [|n IH]; intros off m p l c Hb Hl Hn H0 Hc; cbn [ipcksum_sum words sum foldr].
  { by rewrite Z.add_0_r. }
  pose proof (byte_total l off Hl ltac:(lia)) as Ba. pose proof (byte_total l (S off) Hl ltac:(lia)) as Bb.
  rewrite (read16 _ _ _ _ Hb) by lia. cbn [mbind option_bind]. rewrite htons_swap by done. unfold byte in *.
  rewrite u32_id by (unfold is_u32; lia). replace (p + Z.of_nat off + 2) with (p + Z.of_nat (S (S off))) by lia.
  rewrite (IH _ _ _ l) by (done || lia). f_equal. unfold sum. lia.
Qed.

Lemma ones_mask x : Z.land 65535 (Z.lnot x) = 65535 - x mod 65536.
Proof.
  rewrite Z.land_comm. change 65535 with (Z.ones 16) at 1. rewrite Z.land_ones by lia. change (2 ^ 16) with 65536.
  unfold Z.lnot. Z.to_euclidean_division_equations. lia.
Qed.

Lemma ipcksum_run m p l : bytes_at m p l -> Forall byte l -> (34 <= length l)%nat ->
  ipcksum m p = Some (cksum_of (sum (words 10 14 l))).
Proof.
  intros Hb Hl Hn. unfold ipcksum, net_ipvh. change (p + 14) with (p + Z.of_nat 14).
  rewrite (ipcksum_sum_run 10 14 m p l 0) by (done || lia). cbn [mbind option_bind]. rewrite Z.add_0_l.
  pose proof (sum_range _ (words_range 10 14 l Hl ltac:(lia))) as Hs. rewrite words_length in Hs.
  set (s := sum (words 10 14 l)) in *. rewrite Z.shiftr_div_pow2 by lia. change (2 ^ 16) with 65536.
  rewrite u32_id by (unfold is_u32; Z.to_euclidean_division_equations; lia). rewrite ones_mask. unfold cksum_of.
  change ((s + s / 65536) mod 65536) with (fold_once s).
  assert (Hf : word16 (fold_once s)) by (apply Z.mod_pos_bound; lia). unfold word16 in Hf.
  destruct (Z.eqb_spec (fold_once s) 0) as [->|Hne].
  - done.
  - rewrite (proj2 (Z.eqb_neq _ _)) by lia. rewrite Z.land_comm. change 65535 with (Z.ones 16) at 2.
    rewrite Z.land_ones by lia. by rewrite Z.mod_small by lia.
Qed.

(** A header with the checksum that ip_out stored passes the check of ip_in. *)
Lemma cksum_verifies s : 0 <= s <= 9 * 65535 -> cksum_of (s + cksum_of s) = 0.
Proof.
  intros Hs. unfold cksum_of at 2. unfold fold_once. set (h := s / 65536). set (l := s mod 65536).
  assert (E : s = 65536 * h + l) by (apply Z.div_mod; lia). assert (Hl : 0 <= l < 65536) by (apply Z.mod_pos_bound; lia).
  assert (Hh : 0 <= h <= 8) by (unfold h; Z.to_euclidean_division_equations; lia).
  assert (T : (s + h) mod 65536 = if h + l <? 65536 then h + l else h + l - 65536).
  { destruct (Z.ltb_spec (h + l) 65536).
    - replace (s + h) with (h + l + h * 65536) by lia. rewrite Z.mod_add by lia. apply Z.mod_small. lia.
    - replace (s + h) with (h + l - 65536 + (h + 1) * 65536) by lia. rewrite Z.mod_add by lia. apply Z.mod_small. lia. }
  rewrite T.
  assert (F : ∀ c q r, s + c = 65536 * q + r -> 0 <= r < 65536 -> 0 <= q < 65536 -> q + r = 65535 \/ q + r = 65536 \/ q + r = 0 ->
    cksum_of (s + c) = 0).
  { intros c q r Ec Hr Hq Hqr. unfold cksum_of, fold_once. rewrite Ec.
    replace ((65536 * q + r) / 65536) with q by (Z.to_euclidean_division_equations; lia).
    replace (65536 * q + r + q) with (q + r + q * 65536) by lia. rewrite Z.mod_add by lia.
    destruct Hqr as [-> | [-> | ->]]; done. }
  destruct (Z.ltb_spec (h + l) 65536).
  - destruct (Z.eqb_spec (h + l) 0); [apply (F 0 h l); lia|]. apply (F _ h (65535 - h)); lia.
  - destruct (Z.eqb_spec (h + l - 65536) 0); [apply (F 0 h l); lia|]. apply (F _ (h + 1) (65535 - h)); lia.
Qed.

(** ** The Internet checksum *)

(** The sum of 16-bit words in one's complement, each carry added back, and its
    complement (RFC 1071). *)
Definition onec_add (x y : Z) : Z := (x + y) mod 65536 + (x + y) / 65536.
Definition onec_sum (ws : list Z) : Z := foldl onec_add 0 ws.
Definition internet_checksum (ws : list Z) : Z := 65535 - onec_sum ws.

(** The representative of [s] modulo 65535 that a one's complement sum gives. *)
Definition onec_rep (s : Z) : Z := if s =? 0 then 0 else (s - 1) mod 65535 + 1.

Lemma onec_add_rep a w : 0 <= a -> word16 w -> onec_add (onec_rep a) w = onec_rep (a + w).
Proof.
  unfold word16, onec_rep, onec_add. intros Ha Hw. destruct (Z.eqb_spec a 0) as [->|Hne].
  - rewrite Z.add_0_l. destruct (Z.eqb_spec w 0) as [->|]; [done|]. rewrite (Z.mod_small (w - 1)) by lia.
    rewrite Z.mod_small, Z.div_small by lia. lia.
  - rewrite (proj2 (Z.eqb_neq (a + w) 0)) by lia. set (r := (a - 1) mod 65535).
    assert (Hr : 0 <= r < 65535) by (apply Z.mod_pos_bound; lia).
    assert (Er : (a + w - 1) mod 65535 = (r + w) mod 65535).
    { unfold r. rewrite Zplus_mod_idemp_l. f_equal. lia. }
    rewrite Er. destruct (Z.ltb_spec (r + 1 + w) 65536).
    + rewrite Z.mod_small, Z.div_small by lia. rewrite Z.mod_small by lia. lia.
    + replace ((r + 1 + w) / 65536) with 1 by (Z.to_euclidean_division_equations; lia).
      replace ((r + 1 + w) mod 65536) with (r + 1 + w - 65536) by (Z.to_euclidean_division_equations; lia).
      replace (r + w) with (r + w - 65535 + 1 * 65535) by lia. rewrite Z.mod_add by lia.
      destruct (Z.eqb_spec (r + w - 65535) 65535); [lia|]. rewrite Z.mod_small by lia. lia.
Qed.

Lemma onec_sum_rep ws : Forall word16 ws -> onec_sum ws = onec_rep (sum ws).
Proof.
  intros Hws. unfold onec_sum. change 0 with (onec_rep 0) at 1.
  assert (G : ∀ a, 0 <= a -> foldl onec_add (onec_rep a) ws = onec_rep (a + sum ws)).
  { induction Hws as [|w ws Hw _ IH]; intros a Ha; cbn [foldl sum foldr]; [by rewrite Z.add_0_r|].
    rewrite onec_add_rep by done. unfold word16 in Hw. rewrite IH by lia. f_equal. unfold sum. lia. }
  rewrite G by done. done.
Qed.

(** The second carry, which ipcksum does not add back. *)
Definition carries (s : Z) : bool := 65536 <=? s mod 65536 + s / 65536.

Lemma cksum_internet ws : Forall word16 ws -> (length ws <= 10)%nat -> 0 < sum ws ->
  cksum_of (sum ws) = (if carries (sum ws) then (internet_checksum ws + 1) mod 65535 else internet_checksum ws) /\
  (onec_sum ws = 65535 -> cksum_of (sum ws) = 0).
Proof.
  intros Hws Hn Hs. pose proof (sum_range _ Hws) as Hr. unfold internet_checksum. rewrite (onec_sum_rep _ Hws).
  set (s := sum ws) in *. unfold cksum_of, fold_once, carries, onec_rep. rewrite (proj2 (Z.eqb_neq s 0)) by lia.
  set (h := s / 65536). set (l := s mod 65536).
  assert (E : s = 65536 * h + l) by (apply Z.div_mod; lia). assert (Hl : 0 <= l < 65536) by (apply Z.mod_pos_bound; lia).
  assert (Hh : 0 <= h <= 9) by (unfold h; Z.to_euclidean_division_equations; lia).
  destruct (Z.leb_spec 65536 (l + h)).
  - replace (s + h) with (h + l - 65536 + (h + 1) * 65536) by lia. rewrite Z.mod_add, (Z.mod_small (h + l - 65536)) by lia.
    replace (s - 1) with (h + l - 65536 + (h + 1) * 65535) by lia. rewrite Z.mod_add, (Z.mod_small (h + l - 65536)) by lia.
    split; [|lia]. destruct (Z.eqb_spec (h + l - 65536) 0) as [->|]; [done|]. rewrite Z.mod_small by lia. lia.
  - replace (s + h) with (h + l + h * 65536) by lia. rewrite Z.mod_add, (Z.mod_small (h + l)) by lia.
    replace (s - 1) with (h + l - 1 + h * 65535) by lia. rewrite Z.mod_add, (Z.mod_small (h + l - 1)) by lia.
    rewrite (proj2 (Z.eqb_neq (h + l) 0)) by lia. lia.
Qed.

(** * Straight-line code of the stack *)

Section Straight.
Context {D : Type}.
Implicit Types (x : nst D) (k : kst).

Lemma bget_run {A} (f : bmem -> option A) k x v : f x.(bytes) = Some v -> bget f (Lst k x) = LDone v (Lst k x).
Proof. intros H. unfold bget. rewrite bind_getx. cbn [lx]. by rewrite H. Qed.

Lemma bput_run f k x m : f x.(bytes) = Some m -> bput f (Lst k x) = LDone tt (Lst k (set_bytes m x)).
Proof. intros H. unfold bput. rewrite bind_getx. cbn [lx]. rewrite H. by rewrite bind_lopt. Qed.

Lemma bind_bget {A B} (f : bmem -> option A) (g : A -> L (nst D) B) k x v :
  f x.(bytes) = Some v -> (bget f ≫= g) (Lst k x) = g v (Lst k x).
Proof. intros H. by apply lbind_done, bget_run. Qed.

Lemma bind_bput {B} f (g : unit -> L (nst D) B) k x m :
  f x.(bytes) = Some m -> (bput f ≫= g) (Lst k x) = g tt (Lst k (set_bytes m x)).
Proof. intros H. by apply lbind_done, bput_run. Qed.

Lemma bind_getud {B} i (g : udpentry -> L (nst D) B) k x u :
  x.(udptab) !! i = Some u -> (getud i ≫= g) (Lst k x) = g u (Lst k x).
Proof. intros H. apply lbind_done. unfold getud. rewrite bind_getx. cbn [lx]. by rewrite H. Qed.

Lemma bind_updud {B} f i (g : unit -> L (nst D) B) k x u :
  x.(udptab) !! i = Some u -> (updud f i ≫= g) (Lst k x) = g tt (Lst k (set_udptab (<[i := f u]> x.(udptab)) x)).
Proof.
  intros H. apply lbind_done. unfold updud. rewrite bind_getx. cbn [lx]. rewrite (arr_upd_Some _ _ _ _ H). by rewrite bind_lopt.
Qed.

Lemma updud_run f i k x u :
  x.(udptab) !! i = Some u -> updud f i (Lst k x) = LDone tt (Lst k (set_udptab (<[i := f u]> x.(udptab)) x)).
Proof. intros H. unfold updud. rewrite bind_getx. cbn [lx]. rewrite (arr_upd_Some _ _ _ _ H). by rewrite bind_lopt. Qed.

Lemma bind_getic {B} i (g : icmpentry -> L (nst D) B) k x u :
  x.(icmptab) !! i = Some u -> (getic i ≫= g) (Lst k x) = g u (Lst k x).
Proof. intros H. apply lbind_done. unfold getic. rewrite bind_getx. cbn [lx]. by rewrite H. Qed.

Lemma bind_updic {B} f i (g : unit -> L (nst D) B) k x u :
  x.(icmptab) !! i = Some u -> (updic f i ≫= g) (Lst k x) = g tt (Lst k (set_icmptab (<[i := f u]> x.(icmptab)) x)).
Proof.
  intros H. apply lbind_done. unfold updic. rewrite bind_getx. cbn [lx]. rewrite (arr_upd_Some _ _ _ _ H). by rewrite bind_lopt.
Qed.

Lemma updic_run f i k x u :
  x.(icmptab) !! i = Some u -> updic f i (Lst k x) = LDone tt (Lst k (set_icmptab (<[i := f u]> x.(icmptab)) x)).
Proof. intros H. unfold updic. rewrite bind_getx. cbn [lx]. rewrite (arr_upd_Some _ _ _ _ H). by rewrite bind_lopt. Qed.

Lemma bind_getar {B} i (g : arpentry -> L (nst D) B) k x u :
  x.(arpcache) !! i = Some u -> (getar i ≫= g) (Lst k x) = g u (Lst k x).
Proof. intros H. apply lbind_done. unfold getar. rewrite bind_getx. cbn [lx]. by rewrite H. Qed.

Lemma bind_updar {B} f i (g : unit -> L (nst D) B) k x u :
  x.(arpcache) !! i = Some u -> (updar f i ≫= g) (Lst k x) = g tt (Lst k (set_arpcache (<[i := f u]> x.(arpcache)) x)).
Proof.
  intros H. apply lbind_done. unfold updar. rewrite bind_getx. cbn [lx]. rewrite (arr_upd_Some _ _ _ _ H). by rewrite bind_lopt.
Qed.

Lemma bind_updiq {B} f (g : unit -> L (nst D) B) k x :
  (updiq f ≫= g) (Lst k x) = g tt (Lst k (set_ipoqueue (f x.(ipoqueue)) x)).
Proof. done. Qed.

Lemma bind_ldisable {B} (g : bool -> L (nst D) B) k x : (ldisable ≫= g) (Lst k x) = g k.(ie) (Lst (set_ie false k) x).
Proof. done. Qed.

Lemma lrestore_run b k x : lrestore b (Lst k x) = LDone tt (Lst (set_ie b k) x).
Proof. done. Qed.

Lemma bind_lrestore {B} b (g : unit -> L (nst D) B) k x : (lrestore b ≫= g) (Lst k x) = g tt (Lst (set_ie b k) x).
Proof. done. Qed.

Lemma bind_lassoc {A B C} (m : L (nst D) A) (f : A -> L (nst D) B) (g : B -> L (nst D) C) s a s' :
  m s = LDone a s' -> ((m ≫= f) ≫= g) s = (f a ≫= g) s'.
Proof. intros H. unfold mbind, L_bind. by rewrite H. Qed.
End Straight.

(** * Buffers *)

(** The packet at [pkt] is in a buffer of pool [id] that is in use; [l] are the free ones. *)
Definition buf_used (k : kst) (id : Z) (l : list Z) (pkt : Z) : Prop :=
  pool_ok k id l /\ k.(mem).(Memory.words) !! (pkt - 4) = Some id /\ ((pkt - 4) ∉ l) /\ 0 < pkt - 4 < 4294967292 /\
  Z.of_nat (length l) < 2147483646.

Lemma lfreebuf_run {D} id l pkt k (x : nst D) : buf_used k id l pkt ->
  ∃ k', lfreebuf pkt (Lst k x) = LDone tt (Lst k' x) /\ pool_ok k' id ((pkt - 4) :: l) /\
    (∀ a, a ≠ pkt - 4 -> k'.(mem).(Memory.words) !! a = k.(mem).(Memory.words) !! a).
Proof.
  intros (Hp & Hw & Hn & Hr & Hl). destruct (freebuf_run k id (pkt - 4) l Hp Hw Hn Hr Hl) as (k' & E & Hp' & Hw').
  exists k'. split; [|done]. unfold lfreebuf. replace (pkt - 4 + 4) with pkt in E by lia.
  by rewrite (bind_klift _ _ _ _ _ _ E).
Qed.

Lemma set_udptab_twice {D} a b (x : nst D) : set_udptab a (set_udptab b x) = set_udptab a x.
Proof. done. Qed.

Lemma set_icmptab_twice {D} a b (x : nst D) : set_icmptab a (set_icmptab b x) = set_icmptab a x.
Proof. done. Qed.

Lemma set_arpcache_twice {D} a b (x : nst D) : set_arpcache a (set_arpcache b x) = set_arpcache a x.
Proof. done. Qed.

Lemma set_ipoqueue_twice {D} a b (x : nst D) : set_ipoqueue a (set_ipoqueue b x) = set_ipoqueue a x.
Proof. done. Qed.

(** The projections of a state that was written, and one step of straight-line code. *)
Ltac nsimpl :=
  cbn [lk lx bytes udptab icmptab arpcache ipoqueue NetData netbufpool udp_ident sendto_ident ipident ether
       set_bytes set_udptab set_icmptab set_arpcache set_ipoqueue set_NetData set_netbufpool set_udp_ident
       set_sendto_ident set_ipident set_ether];
  rewrite ?set_udptab_twice, ?set_icmptab_twice, ?set_arpcache_twice, ?set_ipoqueue_twice, ?insert_insert_eq.
Ltac nlookup := nsimpl; first [eassumption | apply lookup_insert_eq].
Ltac nstep :=
  first
    [ rewrite bind_ldisable | rewrite bind_lrestore | rewrite bind_lret | rewrite bind_modx | rewrite bind_updiq
    | rewrite bind_getx | erewrite bind_getud by nlookup | erewrite bind_updud by nlookup
    | erewrite bind_getic by nlookup | erewrite bind_updic by nlookup
    | erewrite bind_getar by nlookup | erewrite bind_updar by nlookup
    | erewrite updud_run by nlookup | erewrite updic_run by nlookup ];
  nsimpl.
Ltac nrun := nsimpl; repeat nstep.

(** A copy of a part of the packet [l] at [p]. *)
Lemma copy_part m p l off n dst : bytes_at m p l -> (off + n <= length l)%nat -> mapped m dst (Z.of_nat n) ->
  (dst + Z.of_nat n <= p + Z.of_nat off \/ p + Z.of_nat off + Z.of_nat n <= dst) ->
  ∃ m', memcpy_loop n dst (p + Z.of_nat off) m = Some m' /\ writes dst (Z.of_nat n) m m' /\
    bytes_at m' dst (take n (drop off l)).
Proof.
  intros Hb Hn Hd Hsep. rewrite <- (take_drop off l) in Hb. apply bytes_at_app in Hb as [_ Hb].
  rewrite length_take, Nat.min_l in Hb by lia. rewrite <- (take_drop n (drop off l)) in Hb. apply bytes_at_app in Hb as [Hb _].
  assert (Hlen : length (take n (drop off l)) = n) by (rewrite length_take, length_drop; lia).
  destruct (memcpy_loop_run n dst (p + Z.of_nat off) m) as (m' & E & W & C); [done| |lia|].
  { rewrite <- Hlen. by apply bytes_mapped. }
  exists m'. split; [done|]. split; [done|]. eapply bytes_copy; [exact Hb|]. by rewrite Hlen.
Qed.
