(* ===== verification/Arp.v ===== *)
(** The address resolution protocol: net/arp.c.

    [arpcache] maps IP addresses to Ethernet addresses.  arp_resolve asks the network for
    an address that is not in it and waits for a message from arp_in, which handles the
    packets that arrive; the entry is pending meanwhile. *)

From S2P Require Import Prelude Types Cstring Queue Memory Kernel Sched Sem Msg Bufpool Bytes Lift Net.

(** [for (slot=0; slot<ARP_SIZ; slot++)], up to the first entry that satisfies [f]. *)
Fixpoint arp_scan (f : arpentry -> bool) (n : nat) (slot : Z) (t : gmap Z arpentry) : option (option Z) :=
  match n with
  | O => Some None
  | S n => a ← t !! slot; if f a then Some (Some slot) else arp_scan f n (slot + 1) t
  end.
Definition arp_search (f : arpentry -> bool) (t : gmap Z arpentry) : option (option Z) :=
  arp_scan f (Z.to_nat ARP_SIZ) 0 t.
Definition arp_has (addr : Z) (a : arpentry) : bool := negb (a.(arstate) =? AR_FREE) && (a.(arpaddr) =? addr).

(** An entry that memset cleared. *)
Definition arp_zero : arpentry := Arpentry 0 0 0 [0; 0; 0; 0; 0; 0].

Section Arp.
Context {D : Type} `{!Ether D}.

(** net/arp.c: arp_init, which starts at entry 1. *)
Fixpoint arp_init_loop (n : nat) (i : Z) : L (nst D) unit :=
  match n with
  | O => mret tt
  | S n => updar (set_arstate AR_FREE) i;; arp_init_loop n (i + 1)
  end.
Definition arp_init : L (nst D) unit := arp_init_loop (Z.to_nat (ARP_SIZ - 1)) 1.

(** net/arp.c: arp_alloc *)
Definition arp_alloc : L (nst D) Z :=
  t ← getx arpcache;
  r ← lopt (arp_search (λ a, a.(arstate) =? AR_FREE) t);
  match r with
  | Some slot => updar (λ _, arp_zero) slot;; mret slot
  | None =>
      r ← lopt (arp_search (λ a, a.(arstate) =? AR_RESOLVED) t);
      match r with
      | Some slot => updar (λ _, arp_zero) slot;; mret slot
      | None => mret SYSERR
      end
  end.

(** The local variable [apkt]: 42 bytes of its own, at address 0. *)
Definition apkt0 : bmem := ram (Z.to_nat ARP_PACKLEN) 0 ∅.
Definition arp_request (nd : network) (nxthop : Z) : option bmem :=
  let m := apkt0 in
  m ← put_bytes (arp_ethdst 0) nd.(ethbcast) m;
  m ← put_bytes (arp_ethsrc 0) nd.(ethucast) m;
  m ← sth (arp_ethtype 0) ETH_ARP m;
  m ← sth (arp_htype 0) ARP_HTYPE m;
  m ← sth (arp_ptype 0) ARP_PTYPE m;
  m ← stb (arp_hlen 0) (u8 (Z.land 255 ARP_HALEN)) m;
  m ← stb (arp_plen 0) (u8 (Z.land 255 ARP_PALEN)) m;
  m ← sth (arp_op 0) (Z.land 65535 ARP_OP_REQ) m;
  m ← put_bytes (arp_sndha 0) nd.(ethucast) m;
  m ← stl (arp_sndpa 0) nd.(ipucast) m;
  r ← memset (arp_tarha 0) 0 ARP_HALEN m;
  let m := r.2 in
  m ← stl (arp_tarpa 0) nxthop m;
  m ← arp_hton 0 m;
  eth_hton 0 m.
Definition arp_reply (nd : network) (sndha : list Z) (sndpa : Z) : option bmem :=
  let m := apkt0 in
  m ← put_bytes (arp_ethdst 0) sndha m;
  m ← put_bytes (arp_ethsrc 0) nd.(ethucast) m;
  m ← sth (arp_ethtype 0) ETH_ARP m;
  m ← sth (arp_htype 0) ARP_HTYPE m;
  m ← sth (arp_ptype 0) ARP_PTYPE m;
  m ← stb (arp_hlen 0) ARP_HALEN m;
  m ← stb (arp_plen 0) ARP_PALEN m;
  m ← sth (arp_op 0) ARP_OP_RPLY m;
  m ← put_bytes (arp_sndha 0) nd.(ethucast) m;
  m ← stl (arp_sndpa 0) nd.(ipucast) m;
  m ← put_bytes (arp_tarha 0) sndha m;
  m ← stl (arp_tarpa 0) sndpa m;
  m ← arp_hton 0 m;
  eth_hton 0 m.
(** [write(ETHER0, (char * )&apkt, sizeof(struct arppacket))] *)
Definition write_apkt (apkt : bmem) : L (nst D) Z :=
  l ← lopt (get_bytes (Z.to_nat ARP_PACKLEN) apkt 0); write_ether l.

(** The requests of arp_resolve: [n] more of them; [msg] is the last message. *)
Fixpoint arp_retry (n : nat) (apkt : bmem) (msg : Z) : L (nst D) Z :=
  match n with
  | O => mret msg
  | S n =>
      write_apkt apkt;;
      msg ← lift (recvtime ARP_TIMEOUT);
      let msg := s32 msg in
      if msg =? TIMEOUT then arp_retry n apkt msg else mret msg
  end.

(** arp_resolve, from the allocation of an entry on. *)
Definition arp_ask (mask : bool) (nxthop mac : Z) : L (nst D) Z :=
  slot ← arp_alloc;
  if slot =? SYSERR then lrestore mask;; mret SYSERR
  else
    updar (set_arstate AR_PENDING) slot;;
    updar (set_arpaddr nxthop) slot;;
    me ← lift (gets currpid);
    updar (set_arpid me) slot;;
    nd ← getx NetData;
    apkt ← lopt (arp_request nd nxthop);
    msg ← lift recvclr;
    msg ← arp_retry ARP_RETRY apkt (s32 msg);
    if msg =? SYSERR then lrestore mask;; mret SYSERR
    else if msg =? TIMEOUT then
      updar (set_arstate AR_FREE) slot;;
      lrestore mask;;
      mret TIMEOUT
    else
      arptr ← getar slot;
      bput (put_bytes mac arptr.(arhaddr));;
      lrestore mask;;
      mret OK.

(** net/arp.c: arp_resolve; [mac] is the address the result is stored at. *)
Definition arp_resolve (nxthop mac : Z) : L (nst D) Z :=
  nd ← getx NetData;
  if nxthop =? IP_BCAST then bput (put_bytes mac nd.(ethbcast));; mret OK
  else if nxthop =? nd.(ipbcast) then bput (put_bytes mac nd.(ethbcast));; mret OK
  else
    mask ← ldisable;
    t ← getx arpcache;
    i ← lopt (arp_search (arp_has nxthop) t);
    arptr ← (match i with Some i => a ← getar i; mret (Some a) | None => mret None end);
    match arptr with
    | Some arptr =>
        if arptr.(arstate) =? AR_RESOLVED then
          bput (put_bytes mac arptr.(arhaddr));;
          lrestore mask;;
          mret OK
        else if arptr.(arstate) =? AR_PENDING then lrestore mask;; mret SYSERR
        else arp_ask mask nxthop mac
    | None => arp_ask mask nxthop mac
    end.

(** net/arp.c: arp_in *)
Definition arp_in (pktptr : Z) : L (nst D) unit :=
  bput (arp_ntoh pktptr);;
  htype ← bget (λ m, ldh m (arp_htype pktptr));
  ptype ← bget (λ m, ldh m (arp_ptype pktptr));
  if negb (htype =? ARP_HTYPE) || negb (ptype =? ARP_PTYPE) then lfreebuf pktptr
  else
    mask ← ldisable;
    sndpa ← bget (λ m, ldl m (arp_sndpa pktptr));
    t ← getx arpcache;
    found ← lopt (arp_search (arp_has sndpa) t);
    (match found with
     | Some slot =>
         sndha ← bget (λ m, get_bytes 6 m (arp_sndha pktptr));
         updar (set_arhaddr sndha) slot;;
         arptr ← getar slot;
         if arptr.(arstate) =? AR_PENDING then
           updar (set_arstate AR_RESOLVED) slot;;
           lift (send arptr.(arpid) OK);;
           mret tt
         else mret tt
     | None => mret tt
     end);;
    op ← bget (λ m, ldh m (arp_op pktptr));
    if op =? ARP_OP_RPLY then lfreebuf pktptr;; lrestore mask
    else
      nd ← getx NetData;
      tarpa ← bget (λ m, ldl m (arp_tarpa pktptr));
      if negb nd.(ipvalid) || negb (tarpa =? nd.(ipucast)) then lfreebuf pktptr;; lrestore mask
      else
        full ← (match found with
                | Some _ => mret false
                | None =>
                    slot ← arp_alloc;
                    if slot =? SYSERR then mret true
                    else
                      sndpa ← bget (λ m, ldl m (arp_sndpa pktptr));
                      updar (set_arpaddr sndpa) slot;;
                      sndha ← bget (λ m, get_bytes 6 m (arp_sndha pktptr));
                      updar (set_arhaddr sndha) slot;;
                      updar (set_arstate AR_RESOLVED) slot;;
                      mret false
                end);
        if (full : bool) then lfreebuf pktptr;; lrestore mask
        else
          sndha ← bget (λ m, get_bytes 6 m (arp_sndha pktptr));
          sndpa ← bget (λ m, ldl m (arp_sndpa pktptr));
          nd ← getx NetData;
          apkt ← lopt (arp_reply nd sndha sndpa);
          write_apkt apkt;;
          lfreebuf pktptr;;
          lrestore mask.
End Arp.
