(* ===== verification/Udp.v ===== *)
(** UDP endpoints: net/udp.c without the two functions that send, which are in Ip.v.

    An entry of [udptab] in use is an endpoint: packets for its local port that udp_in
    gets from the network wait in its ring of UDP_QSIZ buffers until udp_recv takes
    them.  The counters, which are signed and stay far from the ends of their type, are
    plain integers. *)

From S2P Require Import Prelude Types Cstring Queue Memory Kernel Sched Sem Msg Bufpool Bytes Lift Net.

(** The conditions of udp_in and of udp_register on an entry. *)
Definition udp_matches (dport sport src : Z) (u : udpentry) : bool :=
  (dport =? u.(udlocport)) && ((u.(udremport) =? 0) || (sport =? u.(udremport))) &&
  ((u.(udremip) =? 0) || (src =? u.(udremip))).
Definition udp_same (remip remport locport : Z) (u : udpentry) : bool :=
  (remport =? u.(udremport)) && (locport =? u.(udlocport)) && (remip =? u.(udremip)).

(** [slot < 0 || slot >= UDP_SLOTS] *)
Definition isbadslot (slot : Z) : bool := (slot <? 0) || (slot >=? UDP_SLOTS).

Section Udp.
Context {D : Type}.

(** net/udp.c: udp_init *)
Fixpoint udp_init_loop (n : nat) (i : Z) : L (nst D) unit :=
  match n with
  | O => mret tt
  | S n => updud (set_udstate UDP_FREE) i;; udp_init_loop n (i + 1)
  end.
Definition udp_init : L (nst D) unit := udp_init_loop (Z.to_nat UDP_SLOTS) 0.

(** [udptr->udcount++; udptr->udqueue[udptr->udtail++] = pktptr;] and the wrap-around *)
Definition udp_push (slot pktptr : Z) : L (nst D) unit :=
  updud (λ u, set_udcount (u.(udcount) + 1) u) slot;;
  u ← getud slot;
  q ← lopt (arr_upd (λ _, pktptr) u.(udtail) u.(udqueue));
  updud (set_udqueue q) slot;;
  updud (λ u, set_udtail (u.(udtail) + 1) u) slot;;
  u ← getud slot;
  if u.(udtail) >=? UDP_QSIZ then updud (set_udtail 0) slot else mret tt.

(** The packet goes to entry [slot]. *)
Definition udp_enter (slot pktptr : Z) : L (nst D) unit :=
  udp_push slot pktptr;;
  u ← getud slot;
  if u.(udstate) =? UDP_RECV then
    updud (set_udstate UDP_USED) slot;;
    lift (send u.(udpid) OK);;
    mret tt
  else mret tt.

(** net/udp.c: udp_in; an entry that matches and is full is passed over. *)
Fixpoint udp_in_scan (n : nat) (i pktptr : Z) (mask : bool) : L (nst D) unit :=
  match n with
  | O => lfreebuf pktptr;; lrestore mask
  | S n =>
      u ← getud i;
      if u.(udstate) =? UDP_FREE then udp_in_scan n (i + 1) pktptr mask
      else
        dport ← bget (λ m, ldh m (net_udpdport pktptr));
        sport ← bget (λ m, ldh m (net_udpsport pktptr));
        src ← bget (λ m, ldl m (net_ipsrc pktptr));
        if udp_matches dport sport src u then
          if u.(udcount) <? UDP_QSIZ then
            udp_enter i pktptr;;
            lrestore mask
          else udp_in_scan n (i + 1) pktptr mask
        else udp_in_scan n (i + 1) pktptr mask
  end.
Definition udp_in (pktptr : Z) : L (nst D) unit :=
  mask ← ldisable;
  udp_in_scan (Z.to_nat UDP_SLOTS) 0 pktptr mask.

(** [for (slot=0; slot<UDP_SLOTS; slot++)], up to the first entry that satisfies [f]. *)
Fixpoint udp_scan (f : udpentry -> bool) (n : nat) (slot : Z) (t : gmap Z udpentry) : option (option Z) :=
  match n with
  | O => Some None
  | S n => u ← t !! slot; if f u then Some (Some slot) else udp_scan f n (slot + 1) t
  end.
Definition udp_search (f : udpentry -> bool) (t : gmap Z udpentry) : option (option Z) :=
  udp_scan f (Z.to_nat UDP_SLOTS) 0 t.

(** net/udp.c: udp_register; the queue itself is not touched. *)
Definition udp_register (remip remport locport : Z) : L (nst D) Z :=
  mask ← ldisable;
  t ← getx udptab;
  dup ← lopt (udp_search (λ u, negb (u.(udstate) =? UDP_FREE) && udp_same remip remport locport u) t);
  match dup with
  | Some _ => lrestore mask;; mret SYSERR
  | None =>
      free ← lopt (udp_search (λ u, u.(udstate) =? UDP_FREE) t);
      match free with
      | Some slot =>
          updud (λ u, Udpentry UDP_USED remip remport locport 0 0 0 (-1) u.(udqueue)) slot;;
          lrestore mask;;
          mret slot
      | None => lrestore mask;; mret SYSERR
      end
  end.

(** [pkt = udptr->udqueue[udptr->udhead++]] and the wrap-around *)
Definition udp_pop (slot : Z) : L (nst D) Z :=
  u ← getud slot;
  pkt ← lopt (u.(udqueue) !! u.(udhead));
  updud (set_udhead (u.(udhead) + 1)) slot;;
  u ← getud slot;
  (if u.(udhead) >=? UDP_QSIZ then updud (set_udhead 0) slot else mret tt);;
  mret pkt.

(** The copy of the data of [pkt] to the caller's buffer. *)
Definition udp_copy (pkt buff len : Z) : L (nst D) Z :=
  udplen ← bget (λ m, ldh m (net_udplen pkt));
  let msglen := udplen - UDP_HDR_LEN in
  let msglen := if len <? msglen then len else msglen in
  bput (memcpy_loop (Z.to_nat msglen) buff (net_udpdata pkt));;
  mret msglen.

(** Waiting for a packet: [None] when there is one, the value to return otherwise. *)
Definition udp_await (slot timeout : Z) : L (nst D) (option Z) :=
  u ← getud slot;
  if u.(udcount) =? 0 then
    updud (set_udstate UDP_RECV) slot;;
    me ← lift (gets currpid);
    updud (set_udpid me) slot;;
    lift recvclr;;
    msg ← lift (recvtime (s32 timeout));
    updud (set_udstate UDP_USED) slot;;
    if msg =? u32 TIMEOUT then mret (Some TIMEOUT)
    else if negb (msg =? OK) then mret (Some SYSERR)
    else mret None
  else mret None.

(** net/udp.c: udp_recv; recvtime takes an int32. *)
Definition udp_recv (slot buff len timeout : Z) : L (nst D) Z :=
  mask ← ldisable;
  if isbadslot slot then lrestore mask;; mret SYSERR
  else
    u ← getud slot;
    if negb (u.(udstate) =? UDP_USED) then lrestore mask;; mret SYSERR
    else
      err ← udp_await slot timeout;
      match err with
      | Some err => lrestore mask;; mret err
      | None =>
          pkt ← udp_pop slot;
          updud (λ u, set_udcount (u.(udcount) - 1) u) slot;;
          msglen ← udp_copy pkt buff len;
          lfreebuf pkt;;
          lrestore mask;;
          mret msglen
      end.

(** net/udp.c: udp_recvaddr; the two addresses receive the source of the packet. *)
Definition udp_recvaddr (slot remip remport buff len timeout : Z) : L (nst D) Z :=
  mask ← ldisable;
  if isbadslot slot then lrestore mask;; mret SYSERR
  else
    u ← getud slot;
    if negb (u.(udstate) =? UDP_USED) then lrestore mask;; mret SYSERR
    else
      err ← udp_await slot timeout;
      match err with
      | Some err => lrestore mask;; mret err
      | None =>
          pkt ← udp_pop slot;
          src ← bget (λ m, ldl m (net_ipsrc pkt));
          bput (stl remip src);;
          sport ← bget (λ m, ldh m (net_udpsport pkt));
          bput (sth remport sport);;
          updud (λ u, set_udcount (u.(udcount) - 1) u) slot;;
          msglen ← udp_copy pkt buff len;
          lfreebuf pkt;;
          lrestore mask;;
          mret msglen
      end.

(** net/udp.c: udp_release; [n] rounds of the loop, one for every packet that can be
    in the queue. *)
Fixpoint udp_drain (n : nat) (slot : Z) : L (nst D) unit :=
  u ← getud slot;
  if 0 <? u.(udcount) then
    match n with
    | O => lundefined
    | S n =>
        pkt ← udp_pop slot;
        lfreebuf pkt;;
        updud (λ u, set_udcount (u.(udcount) - 1) u) slot;;
        udp_drain n slot
    end
  else mret tt.
Definition udp_release (slot : Z) : L (nst D) Z :=
  mask ← ldisable;
  if isbadslot slot then lrestore mask;; mret SYSERR
  else
    u ← getud slot;
    if u.(udstate) =? UDP_FREE then lrestore mask;; mret SYSERR
    else
      lift (resched_cntl DEFER_START);;
      udp_drain (Z.to_nat u.(udcount)) slot;;
      updud (set_udstate UDP_FREE) slot;;
      lift (resched_cntl DEFER_STOP);;
      lrestore mask;;
      mret OK.
End Udp.
