(* ===== verification/Icmp.v ===== *)
(** Ping: net/icmp.c without icmp_send, which is in Ip.v.

    A process that sends echo requests registers the remote address in [icmptab]; the
    index of its entry is the identifier of the requests.  icmp_in answers the requests
    of others and puts the replies in the ring of the entry they name.  The counters are plain
    integers, as in Udp.v. *)

From S2P Require Import Prelude Types Cstring Queue Memory Kernel Sched Sem Msg Bufpool Bytes Lift Net.

(** [icmpid < 0 || icmpid >= ICMP_SLOTS] *)
Definition isbadicmp (icmpid : Z) : bool := (icmpid <? 0) || (icmpid >=? ICMP_SLOTS).

Section Icmp.
Context {D : Type}.

(** net/icmp.c: icmp_init *)
Fixpoint icmp_init_loop (n : nat) (i : Z) : L (nst D) unit :=
  match n with
  | O => mret tt
  | S n => updic (set_icstate ICMP_FREE) i;; icmp_init_loop n (i + 1)
  end.
Definition icmp_init : L (nst D) unit := icmp_init_loop (Z.to_nat ICMP_SLOTS) 0.

(** The fields of the packet that icmp_mkpkt fills in. *)
Definition icmp_fill (nd : network) (id remip type ident seq buf len pkt : Z) (m : bmem) : option bmem :=
  m ← put_bytes (net_ethsrc pkt) nd.(ethucast) m;
  m ← sth (net_ethtype pkt) 2048 m;
  m ← stb (net_ipvh pkt) 69 m;
  m ← stb (net_iptos pkt) 0 m;
  m ← sth (net_iplen pkt) (IP_HDR_LEN + ICMP_HDR_LEN + len) m;
  m ← sth (net_ipid pkt) id m;
  m ← sth (net_ipfrag pkt) 0 m;
  m ← stb (net_ipttl pkt) 255 m;
  m ← stb (net_ipproto pkt) IP_ICMP m;
  m ← sth (net_ipcksum pkt) 0 m;
  m ← stl (net_ipsrc pkt) nd.(ipucast) m;
  m ← stl (net_ipdst pkt) remip m;
  m ← stb (net_ictype pkt) (u8 type) m;
  m ← stb (net_iccode pkt) 0 m;
  m ← sth (net_iccksum pkt) 0 m;
  m ← sth (net_icident pkt) ident m;
  m ← sth (net_icseq pkt) seq m;
  r ← memcpy (net_icdata pkt) buf len m;
  Some r.2.

(** net/icmp.c: icmp_mkpkt *)
Definition icmp_mkpkt (remip type ident seq buf len : Z) : L (nst D) Z :=
  pool ← getx netbufpool;
  pkt ← lift (getbuf pool);
  if s32 pkt =? SYSERR then lift panic
  else
    nd ← getx NetData;
    id ← getx ipident;
    modx (set_ipident (u32 (id + 1)));;
    bput (icmp_fill nd id remip type ident seq buf len pkt);;
    mret pkt.

(** [icmptr->iccount++; icmptr->icqueue[icmptr->ictail++] = pkt;] and the wrap-around *)
Definition icmp_push (slot pkt : Z) : L (nst D) unit :=
  updic (λ u, set_iccount (u.(iccount) + 1) u) slot;;
  u ← getic slot;
  q ← lopt (arr_upd (λ _, pkt) u.(ictail) u.(icqueue));
  updic (set_icqueue q) slot;;
  updic (λ u, set_ictail (u.(ictail) + 1) u) slot;;
  u ← getic slot;
  if u.(ictail) >=? ICMP_QSIZ then updic (set_ictail 0) slot else mret tt.

(** The part of icmp_in for an echo request. *)
Definition icmp_echo (pkt : Z) : L (nst D) unit :=
  src ← bget (λ m, ldl m (net_ipsrc pkt));
  ident ← bget (λ m, ldh m (net_icident pkt));
  seq ← bget (λ m, ldh m (net_icseq pkt));
  iplen ← bget (λ m, ldh m (net_iplen pkt));
  replypkt ← icmp_mkpkt src ICMP_ECHOREPLY ident seq (net_icdata pkt) (iplen - IP_HDR_LEN - ICMP_HDR_LEN);
  (if negb (s32 replypkt =? SYSERR) then ip_enqueue replypkt;; mret tt else mret tt);;
  lfreebuf pkt.

(** net/icmp.c: icmp_in *)
Definition icmp_in (pkt : Z) : L (nst D) unit :=
  mask ← ldisable;
  ictype ← bget (λ m, ldb m (net_ictype pkt));
  if negb (ictype =? ICMP_ECHOREPLY) && negb (ictype =? ICMP_ECHOREQST) then
    lfreebuf pkt;; lrestore mask
  else if ictype =? ICMP_ECHOREQST then icmp_echo pkt;; lrestore mask
  else
    slot ← bget (λ m, ldh m (net_icident pkt));
    if isbadicmp slot then lfreebuf pkt;; lrestore mask
    else
      u ← getic slot;
      src ← bget (λ m, ldl m (net_ipsrc pkt));
      if (u.(icstate) =? ICMP_FREE) || negb (src =? u.(icremip)) then lfreebuf pkt;; lrestore mask
      else
        icmp_push slot pkt;;
        u ← getic slot;
        (if u.(icstate) =? ICMP_RECV then
           updic (set_icstate ICMP_USED) slot;;
           lift (send u.(icpid) OK);;
           mret tt
         else mret tt);;
        lrestore mask.

(** The loop of icmp_register: [None] when the address is registered already, else the
    first free slot, -1 if there is none. *)
Fixpoint icmp_reg_scan (n : nat) (i freeslot remip : Z) (t : gmap Z icmpentry) : option (option Z) :=
  match n with
  | O => Some (Some freeslot)
  | S n =>
      u ← t !! i;
      if u.(icstate) =? ICMP_FREE then
        icmp_reg_scan n (i + 1) (if freeslot =? -1 then i else freeslot) remip t
      else if u.(icremip) =? remip then Some None
      else icmp_reg_scan n (i + 1) freeslot remip t
  end.

(** net/icmp.c: icmp_register *)
Definition icmp_register (remip : Z) : L (nst D) Z :=
  mask ← ldisable;
  t ← getx icmptab;
  r ← lopt (icmp_reg_scan (Z.to_nat ICMP_SLOTS) 0 (-1) remip t);
  match r with
  | None => lrestore mask;; mret SYSERR
  | Some freeslot =>
      if freeslot =? -1 then lrestore mask;; mret SYSERR
      else
        updic (λ u, Icmpentry ICMP_USED remip 0 0 0 (-1) u.(icqueue)) freeslot;;
        lrestore mask;;
        mret freeslot
  end.

(** [pkt = icmptr->icqueue[icmptr->ichead++]]; the wrap-around is at ICMP_SLOTS. *)
Definition icmp_pop (slot : Z) : L (nst D) Z :=
  u ← getic slot;
  pkt ← lopt (u.(icqueue) !! u.(ichead));
  updic (set_ichead (u.(ichead) + 1)) slot;;
  u ← getic slot;
  (if u.(ichead) >=? ICMP_SLOTS then updic (set_ichead 0) slot else mret tt);;
  mret pkt.

(** Waiting for a reply: [None] when there is one, the value to return otherwise. *)
Definition icmp_await (slot timeout : Z) : L (nst D) (option Z) :=
  u ← getic slot;
  if u.(iccount) =? 0 then
    updic (set_icstate ICMP_RECV) slot;;
    me ← lift (gets currpid);
    updic (set_icpid me) slot;;
    lift recvclr;;
    msg ← lift (recvtime (s32 timeout));
    updic (set_icstate ICMP_USED) slot;;
    if msg =? u32 TIMEOUT then mret (Some TIMEOUT)
    else if negb (msg =? OK) then mret (Some SYSERR)
    else mret None
  else mret None.

(** net/icmp.c: icmp_recv; the loop copies [i] bytes, up to both lengths. *)
Definition icmp_recv (icmpid buff len timeout : Z) : L (nst D) Z :=
  if isbadicmp icmpid then mret SYSERR
  else
    mask ← ldisable;
    u ← getic icmpid;
    if negb (u.(icstate) =? ICMP_USED) then lrestore mask;; mret SYSERR
    else
      err ← icmp_await icmpid timeout;
      match err with
      | Some err => lrestore mask;; mret err
      | None =>
          pkt ← icmp_pop icmpid;
          updic (λ u, set_iccount (u.(iccount) - 1) u) icmpid;;
          iplen ← bget (λ m, ldh m (net_iplen pkt));
          let datalen := iplen - IP_HDR_LEN - ICMP_HDR_LEN in
          let i := Z.max 0 (Z.min datalen len) in
          bput (memcpy_loop (Z.to_nat i) buff (net_icdata pkt));;
          lfreebuf pkt;;
          lrestore mask;;
          mret i
      end.

(** net/icmp.c: icmp_release *)
Fixpoint icmp_drain (n : nat) (slot : Z) : L (nst D) unit :=
  u ← getic slot;
  if 0 <? u.(iccount) then
    match n with
    | O => lundefined
    | S n =>
        pkt ← icmp_pop slot;
        lfreebuf pkt;;
        updic (λ u, set_iccount (u.(iccount) - 1) u) slot;;
        icmp_drain n slot
    end
  else mret tt.
Definition icmp_release (icmpid : Z) : L (nst D) Z :=
  mask ← ldisable;
  if isbadicmp icmpid then lrestore mask;; mret SYSERR
  else
    u ← getic icmpid;
    if negb (u.(icstate) =? ICMP_USED) then lrestore mask;; mret SYSERR
    else
      lift (resched_cntl DEFER_START);;
      icmp_drain (Z.to_nat u.(iccount)) icmpid;;
      updic (set_icstate ICMP_FREE) icmpid;;
      lift (resched_cntl DEFER_STOP);;
      lrestore mask;;
      mret OK.
End Icmp.
