(* ===== verification/Ip.v ===== *)
(** IP and the processes of the network: net/ip.c, net/net.c, netstart.c, dot2ip.c, the
    functions of udp.c and icmp.c that send.

    A datagram from the network goes from netin over ip_in and ip_local to udp_in or
    icmp_in; one from a process goes over ip_send and ip_out to the device, or back to
    ip_local.  Replies to pings go over the queue [ipoqueue] and the process ipout. *)

From S2P Require Import Prelude Types Cstring Queue Memory Kernel Sched Sem Msg Devsw Proc Bufpool Bytes Lift Net Arp Udp Icmp.

(** * Addresses in dotted decimal *)

(** net/dot2ip.c: the characters of one segment; the value and the last character. *)
Fixpoint dot2ip_seg (n : nat) (nch : Z) (m : bmem) (dotted val : Z) : option (option (Z * Z * Z)) :=
  match n with
  | O => Some None
  | S n =>
      ch ← ldb m dotted;
      if (ch =? 0) || (ch =? 46) then
        if nch =? 0 then Some None else Some (Some (val, ch, dotted + 1))
      else if (3 <=? nch) || (ch <? 48) || (57 <? ch) then Some None
      else dot2ip_seg n (nch + 1) m (dotted + 1) (10 * val + (ch - 48))
  end.
(** The loop over the segments; the address and whether the string has ended. *)
Fixpoint dot2ip_loop (n : nat) (m : bmem) (dotted ipaddr : Z) : option (option Z) :=
  match n with
  | O => Some None
  | S n =>
      r ← dot2ip_seg 4 0 m dotted 0;
      match r with
      | None => Some None
      | Some (val, ch, dotted) =>
          if 255 <? val then Some None
          else
            let ipaddr := Z.lor (u32 (Z.shiftl ipaddr 8)) val in
            if ch =? 0 then Some (Some ipaddr) else dot2ip_loop n m dotted ipaddr
      end
  end.
(** net/dot2ip.c: dot2ip, which returns a uint32; the result is stored at [result]. *)
Definition dot2ip (dotted result : Z) (m : bmem) : option (Z * bmem) :=
  r ← dot2ip_loop 4 m dotted 0;
  match r with
  | None => Some (u32 SYSERR, m)
  | Some ipaddr => m ← stl result ipaddr m; Some (OK, m)
  end.

Section Ip.
Context {D : Type} `{!Ether D}.

(** net/ip.c: ip_local *)
Definition ip_local (pktptr : Z) : L (nst D) unit :=
  ipproto ← bget (λ m, ldb m (net_ipproto pktptr));
  if ipproto =? IP_UDP then udp_in pktptr
  else if ipproto =? IP_ICMP then icmp_in pktptr
  else lfreebuf pktptr.

(** net/ip.c: ip_out, the conversions and checksums. *)
Definition ip_frame (pktptr : Z) (m : bmem) : option bmem :=
  ipproto ← ldb m (net_ipproto pktptr);
  m ← (if ipproto =? IP_UDP then m ← sth (net_udpcksum pktptr) 0 m; udp_hton pktptr m
       else if ipproto =? IP_ICMP then
         m ← icmp_hton pktptr m;
         m ← sth (net_iccksum pktptr) 0 m;
         iplen ← ldh m (net_iplen pktptr);
         cksum ← icmp_cksum m (net_ictype pktptr) (iplen - IP_HDR_LEN);
         sth (net_iccksum pktptr) (Z.land 65535 (htons cksum)) m
       else Some m);
  m ← ip_hton pktptr m;
  m ← sth (net_ipcksum pktptr) 0 m;
  cksum ← ipcksum m pktptr;
  m ← sth (net_ipcksum pktptr) (Z.land 65535 (htons cksum)) m;
  eth_hton pktptr m.
(** net/ip.c: ip_out *)
Definition ip_out (pktptr : Z) : L (nst D) Z :=
  iplen ← bget (λ m, ldh m (net_iplen pktptr));
  let pktlen := iplen + ETH_HDR_LEN in
  bput (ip_frame pktptr);;
  l ← bget (λ m, get_bytes (Z.to_nat pktlen) m pktptr);
  retval ← write_ether l;
  lfreebuf pktptr;;
  if retval =? SYSERR then mret SYSERR else mret OK.

(** The next hop for [dest], as in ip_send and in ipout. *)
Definition next_hop (nd : network) (dest : Z) : Z :=
  if Z.land dest nd.(ipmask) =? nd.(ipprefix) then dest else nd.(iprouter).

(** net/ip.c: ip_send; it returns with interrupts disabled when there is no next hop or
    arp_resolve fails. *)
Definition ip_send (pktptr : Z) : L (nst D) Z :=
  mask ← ldisable;
  dest ← bget (λ m, ldl m (net_ipdst pktptr));
  nd ← getx NetData;
  if Z.land dest 4278190080 =? 2130706432 then ip_local pktptr;; lrestore mask;; mret OK
  else if dest =? nd.(ipucast) then ip_local pktptr;; lrestore mask;; mret OK
  else if (dest =? IP_BCAST) || (dest =? nd.(ipbcast)) then
    bput (put_bytes (net_ethdst pktptr) nd.(ethbcast));;
    retval ← ip_out pktptr;
    lrestore mask;;
    mret retval
  else
    let nxthop := next_hop nd dest in
    if nxthop =? 0 then lfreebuf pktptr;; mret SYSERR
    else
      retval ← arp_resolve nxthop (net_ethdst pktptr);
      if negb (retval =? OK) then lfreebuf pktptr;; mret SYSERR
      else
        retval ← ip_out pktptr;
        lrestore mask;;
        mret retval.

(** net/ip.c: ip_in, from the conversion of the encapsulated header on. *)
Definition ip_deliver (pktptr : Z) : L (nst D) unit :=
  ipdst ← bget (λ m, ldl m (net_ipdst pktptr));
  nd ← getx NetData;
  if ipdst =? IP_BCAST then ip_local pktptr
  else if negb nd.(ipvalid) then
    ipproto ← bget (λ m, ldb m (net_ipproto pktptr));
    if ipproto =? IP_UDP then ip_local pktptr else lfreebuf pktptr
  else if (ipdst =? nd.(ipucast)) || (ipdst =? nd.(ipbcast)) || (ipdst =? IP_BCAST) then ip_local pktptr
  else lfreebuf pktptr.
(** net/ip.c: ip_in *)
Definition ip_in (pktptr : Z) : L (nst D) unit :=
  c ← bget (λ m, ipcksum m pktptr);
  if negb (c =? 0) then lfreebuf pktptr
  else
    bput (ip_ntoh pktptr);;
    ipvh ← bget (λ m, ldb m (net_ipvh pktptr));
    if negb (ipvh =? 69) then lfreebuf pktptr
    else
      ipproto ← bget (λ m, ldb m (net_ipproto pktptr));
      if ipproto =? IP_UDP then bput (udp_ntoh pktptr);; ip_deliver pktptr
      else if ipproto =? IP_ICMP then
        iplen ← bget (λ m, ldh m (net_iplen pktptr));
        c ← bget (λ m, icmp_cksum m (net_ictype pktptr) (iplen - IP_HDR_LEN));
        if negb (c =? 0) then lfreebuf pktptr
        else bput (icmp_ntoh pktptr);; ip_deliver pktptr
      else ip_deliver pktptr.

(** [pktptr = ipqptr->iqbuf[ipqptr->iqhead++]] and the wrap-around *)
Definition iq_pop : L (nst D) Z :=
  q ← getx ipoqueue;
  pktptr ← lopt (q.(iqbuf) !! q.(iqhead));
  updiq (set_iqhead (q.(iqhead) + 1));;
  q ← getx ipoqueue;
  (if q.(iqhead) >=? IP_OQSIZ then updiq (set_iqhead 0) else mret tt);;
  mret pktptr.

(** net/ip.c: ipout, one round of its loop. *)
Definition ipout_round : L (nst D) unit :=
  q ← getx ipoqueue;
  lift (wait q.(iqsem));;
  pktptr ← iq_pop;
  nd ← getx NetData;
  bput (put_bytes (net_ethsrc pktptr) nd.(ethucast));;
  destip ← bget (λ m, ldl m (net_ipdst pktptr));
  if (destip =? IP_BCAST) || (destip =? nd.(ipbcast)) then lfreebuf pktptr
  else if destip =? nd.(ipucast) then ip_local pktptr
  else
    let nxthop := next_hop nd destip in
    if nxthop =? 0 then lfreebuf pktptr
    else
      retval ← arp_resolve nxthop (net_ethdst pktptr);
      if negb (retval =? OK) then lfreebuf pktptr
      else ip_out pktptr;; mret tt.

(** [while(1) body], for [n] rounds. *)
Fixpoint rounds (n : nat) (body : L (nst D) unit) : L (nst D) unit :=
  match n with O => mret tt | S n => body;; rounds n body end.
Definition ipout (n : nat) : L (nst D) unit := rounds n ipout_round.

(** net/net.c: netin, one round of its loop. *)
Definition netin_round : L (nst D) unit :=
  pool ← getx netbufpool;
  pkt ← lift (getbuf pool);
  retval ← read_ether pkt PACKLEN;
  if retval =? SYSERR then lift panic
  else
    bput (eth_ntoh pkt);;
    ethtype ← bget (λ m, ldh m (net_ethtype pkt));
    if ethtype =? ETH_ARP then arp_in pkt
    else if ethtype =? ETH_IP then ip_in pkt
    else lfreebuf pkt.
Definition netin (n : nat) : L (nst D) unit := rounds n netin_round.

(** * Sending *)

(** The fields of the packet that udp_send and udp_sendto fill in. *)
Definition udp_fill (mac : list Z) (locip id remip remport locport buff len pkt : Z) (m : bmem) : option bmem :=
  let pktlen := net_udpdata pkt - pkt + len in
  m ← put_bytes (net_ethsrc pkt) mac m;
  m ← sth (net_ethtype pkt) 2048 m;
  m ← stb (net_ipvh pkt) 69 m;
  m ← stb (net_iptos pkt) 0 m;
  m ← sth (net_iplen pkt) (pktlen - ETH_HDR_LEN) m;
  m ← sth (net_ipid pkt) id m;
  m ← sth (net_ipfrag pkt) 0 m;
  m ← stb (net_ipttl pkt) 255 m;
  m ← stb (net_ipproto pkt) IP_UDP m;
  m ← sth (net_ipcksum pkt) 0 m;
  m ← stl (net_ipsrc pkt) locip m;
  m ← stl (net_ipdst pkt) remip m;
  m ← sth (net_udpsport pkt) locport m;
  m ← sth (net_udpdport pkt) remport m;
  m ← sth (net_udplen pkt) (u16 (UDP_HDR_LEN + len)) m;
  m ← sth (net_udpcksum pkt) 0 m;
  memcpy_loop (Z.to_nat len) (net_udpdata pkt) buff m.

(** net/udp.c: udp_send *)
Definition udp_send (slot buff len : Z) : L (nst D) Z :=
  mask ← ldisable;
  if isbadslot slot then lrestore mask;; mret SYSERR
  else
    u ← getud slot;
    if u.(udstate) =? UDP_FREE then lrestore mask;; mret SYSERR
    else
      let remip := u.(udremip) in
      if remip =? 0 then lrestore mask;; mret SYSERR
      else
        locip ← getx (λ n, n.(NetData).(ipucast));
        pool ← getx netbufpool;
        pkt ← lift (getbuf pool);
        if s32 pkt =? SYSERR then lrestore mask;; mret SYSERR
        else
          mac ← getx (λ n, n.(NetData).(ethucast));
          id ← getx udp_ident;
          modx (set_udp_ident (u16 (id + 1)));;
          bput (udp_fill mac locip id remip u.(udremport) u.(udlocport) buff len pkt);;
          ip_send pkt;;
          lrestore mask;;
          mret OK.

(** net/udp.c: udp_sendto *)
Definition udp_sendto (slot remip remport buff len : Z) : L (nst D) Z :=
  mask ← ldisable;
  if isbadslot slot then lrestore mask;; mret SYSERR
  else
    u ← getud slot;
    if u.(udstate) =? UDP_FREE then lrestore mask;; mret SYSERR
    else
      pool ← getx netbufpool;
      pkt ← lift (getbuf pool);
      if s32 pkt =? SYSERR then lrestore mask;; mret SYSERR
      else
        nd ← getx NetData;
        u ← getud slot;
        id ← getx sendto_ident;
        modx (set_sendto_ident (u16 (id + 1)));;
        bput (udp_fill nd.(ethucast) nd.(ipucast) id remip remport u.(udlocport) buff len pkt);;
        ip_send pkt;;
        lrestore mask;;
        mret OK.

(** net/icmp.c: icmp_send *)
Definition icmp_send (remip type ident seq buf len : Z) : L (nst D) Z :=
  mask ← ldisable;
  pkt ← icmp_mkpkt remip type ident seq buf len;
  if s32 pkt =? SYSERR then mret SYSERR
  else
    retval ← ip_send pkt;
    lrestore mask;;
    mret retval.

(** * The start of the network *)

Section Start.
Context (p : platform) (initret ipout_addr netin_addr : Z).

Definition NETSTK : Z := 8192.
Definition NETPRIO : Z := 500.

(** net/net.c: net_init; [NetData] is cleared, the names are "ipout" and "netin". *)
Definition net_init : L (nst D) unit :=
  modx (λ n, set_NetData (Network 0 0 0 0 0 0 false (repeat 0 6) (repeat 0 6) (repeat 0 128)) n);;
  mac ← getx (λ n, eth_mac n.(ether));
  updnd (λ d, Network d.(ipucast) d.(ipbcast) d.(ipmask) d.(ipprefix) d.(iprouter) d.(bootserver)
                d.(ipvalid) mac (repeat 255 6) d.(bootfile));;
  let nbufs := UDP_SLOTS * UDP_QSIZ + ICMP_SLOTS * ICMP_QSIZ + 1 in
  pool ← lift (mkbufpool PACKLEN nbufs);
  modx (set_netbufpool pool);;
  arp_init;;
  udp_init;;
  icmp_init;;
  updiq (set_iqhead 0);;
  updiq (set_iqtail 0);;
  sem ← lift (semcreate 0);
  updiq (set_iqsem sem);;
  if sem =? SYSERR then lift panic
  else
    pid ← lift (create p initret ipout_addr NETSTK NETPRIO [105; 112; 111; 117; 116; 0] []);
    lift (resume pid);;
    pid ← lift (create p initret netin_addr NETSTK NETPRIO [110; 101; 116; 105; 110; 0] []);
    lift (resume pid);;
    mret tt.

(** net/netstart.c: netstart; [ipaddr] and [router] are local variables at the address
    given, which keep what they had when a string is not an address. *)
Definition netstart (bbb_ipaddr bbb_router ipaddr router : Z) : L (nst D) unit :=
  net_init;;
  bput (λ m, r ← dot2ip bbb_ipaddr ipaddr m; Some r.2);;
  a ← bget (λ m, ldl m ipaddr);
  bput (λ m, r ← dot2ip bbb_router router m; Some r.2);;
  r ← bget (λ m, ldl m router);
  let mask := 4294967040 in
  let prefix := Z.land a mask in
  updnd (λ d, Network a (Z.lor prefix (u32 (Z.lnot mask))) mask prefix r d.(bootserver) true
                d.(ethucast) d.(ethbcast) d.(bootfile)).
End Start.
End Ip.
