(* ===== verification/Dotted.v ===== *)
(** Addresses in dotted decimal: net/ip2dot.c against net/dot2ip.c. *)

From S2P Require Import Prelude Types Cstring Clib Doprnt Bytes Net Netlib Ip.

(** net/ip2dot.c: ip2dot; [fmt] is the address of the constant "%d.%d.%d.%d". *)
Definition ip2dot (fmt dotted ipaddress : Z) (m : bmem) : option (Z * bmem) :=
  r ← sprintf dotted fmt
        [Z.land (Z.shiftr ipaddress 24) 255; Z.land (Z.shiftr ipaddress 16) 255; Z.land (Z.shiftr ipaddress 8) 255;
         Z.land ipaddress 255] m;
  Some (OK, r.2).

Definition dotted_format : list Z := [37; 100; 46; 37; 100; 46; 37; 100; 46; 37; 100; 0].

(** * The text of a number below 256 *)

(** [ds] are the decimal digits of [v]. *)
Definition numeral (v : Z) (ds : list Z) : Prop :=
  ds ≠ [] /\ Forall decimal ds /\ value 10 0 ds = v /\ (length ds <= 3)%nat.

Lemma printed_numeral v string ds : 0 <= v < 256 -> printed 10 v string ds -> numeral v ds.
Proof.
  intros Hv (_ & Hne & Hd & Hval & Hhd). split; [done|]. split; [eapply Forall_impl; [exact Hd|]; intros c; apply decimal_of_digit|].
  split; [done|]. destruct ds as [|c l]; [done|]. cbn [length head] in *. apply Forall_cons in Hd as [Hc Hl].
  rewrite value_cons, value_lead in Hval. pose proof (value_lt 10 l ltac:(lia) Hl) as Hlt.
  destruct (decide (c = 48)) as [->|Hc48]; [specialize (Hhd eq_refl); injection Hhd as ->; cbn [length]; lia|].
  pose proof (decimal_of_digit _ Hc) as Hcd. pose proof (decimal_digit c Hcd) as [_ E]. rewrite E in Hval. cbn [from_option id] in Hval.
  unfold decimal in Hcd. assert (Hp : 10 ^ Z.of_nat (length l) <= v).
  { assert (0 < 10 ^ Z.of_nat (length l)) by (apply Z.pow_pos_nonneg; lia).
    pose proof (Z.mul_le_mono_nonneg_r 1 (c - 48) (10 ^ Z.of_nat (length l)) ltac:(lia) ltac:(lia)). lia. }
  destruct (Nat.le_gt_cases (length l) 2); [lia|]. assert (10 ^ 3 <= 10 ^ Z.of_nat (length l)) by (apply Z.pow_le_mono_r; lia). lia.
Qed.

(** One conversion %d of sprintf. *)
Lemma doprnt_step_d fuel fmt v ap string m s : m !! fmt = Some 37 -> m !! (fmt + 1) = Some 100 -> 0 <= v < 256 -> mapped m s 3 ->
  ∃ ds m' string', doprnt_loop sprntf (S fuel) false fmt (v :: ap) string (m, s) =
      doprnt_loop sprntf fuel false (fmt + 2) ap string' (m', s + Z.of_nat (length ds)) /\
    numeral v ds /\ bytes_at m' s ds /\ writes s (Z.of_nat (length ds)) m m'.
Proof.
  intros H0 H1 Hv Hm. destruct (convert_d false (Spec false 32 0 0 100) v ap string eq_refl ltac:(lia)) as (ds & string' & Hc & Hp & Hlen).
  rewrite Z.abs_eq in Hp by lia. pose proof (printed_numeral v string' ds Hv Hp) as Hnum. exists ds.
  destruct (outs_memory ds m s) as (m' & Ho & Hb & Hfr & Hdom).
  { intros x Hx. apply Hm. destruct Hnum as (_ & _ & _ & Hl). lia. }
  { destruct Hnum as (_ & Hd & _). eapply Forall_impl; [exact Hd|]. unfold decimal. lia. }
  exists m', string'. split; [|by split]. cbn [doprnt_loop fst]. rewrite (H0 : ldb m fmt = Some 37). cbn [mbind option_bind].
  change (negb (37 =? 37)) with false. cbv iota. rewrite (H1 : ldb m (fmt + 1) = Some 100). cbn [mbind option_bind].
  change (100 =? 37) with false. cbv iota. rewrite (parse_plain m fmt 100 (v :: ap) H1) by (set_solver || lia).
  cbn [mbind option_bind fchar]. change (100 =? 0) with false. cbv iota. rewrite Hc. cbn [mbind option_bind leftjust fmin].
  rewrite (proj2 (Z.ltb_ge v 0)) by lia. pose proof (printed_nonzero _ _ _ _ Hp) as Hnz. destruct Hp as (Hh & _). cbn [fill fmax].
  rewrite (emit_run sprntf false 0 32 false ds string' (m, s) Hh Hnz) by (lia || tauto).
  assert (Hfield : field false 0 32 false ds = ds).
  { unfold field. change (width 0) with 0. change (32 =? 48) with false. cbv iota. by replace (Z.to_nat _) with 0%nat by lia. }
  by rewrite Hfield, Ho.
Qed.

(** A character of the format that is copied. *)
Lemma doprnt_step_char fuel fmt c ap string m s : m !! fmt = Some c -> c ≠ 37 -> c ≠ 0 -> 0 <= c < 256 -> is_Some (m !! s) ->
  doprnt_loop sprntf (S fuel) false fmt ap string (m, s) =
    doprnt_loop sprntf fuel false (fmt + 1) ap string (<[s := c]> m, s + 1).
Proof.
  intros H Hc H0 Hr [y Hy]. cbn [doprnt_loop fst]. rewrite (H : ldb m fmt = Some c). cbn [mbind option_bind].
  rewrite (proj2 (Z.eqb_neq c 37)), (proj2 (Z.eqb_neq c 0)) by done. cbn [negb]. cbn [sprntf]. unfold stb. rewrite Hy. cbn [mbind option_bind].
  assert (Hu : u8 c = c) by (unfold u8; by apply Z.mod_small). by rewrite Hu.
Qed.

(** One conversion and the dot behind it. *)
Lemma doprnt_step_seg fuel fmt v ap string m s : m !! fmt = Some 37 -> m !! (fmt + 1) = Some 100 -> m !! (fmt + 2) = Some 46 ->
  0 <= v < 256 -> mapped m s 4 -> s + 4 <= fmt \/ fmt + 3 <= s ->
  ∃ ds m' string', doprnt_loop sprntf (S (S fuel)) false fmt (v :: ap) string (m, s) =
      doprnt_loop sprntf fuel false (fmt + 3) ap string' (m', s + Z.of_nat (length ds) + 1) /\
    numeral v ds /\ bytes_at m' s (ds ++ [46]) /\ writes s (Z.of_nat (length ds) + 1) m m'.
Proof.
  intros H0 H1 H2 Hv Hm Hsep. destruct (doprnt_step_d (S fuel) fmt v ap string m s H0 H1 Hv) as (ds & m1 & string' & E & Hn & B & W).
  { eapply mapped_part; [exact Hm|lia|lia]. }
  pose proof Hn as (_ & _ & _ & Hl). assert (Hs : is_Some (m1 !! (s + Z.of_nat (length ds)))).
  { eapply writes_mapped; [exact W|exact Hm|lia]. }
  exists ds, (<[s + Z.of_nat (length ds) := 46]> m1), string'. destruct (writes_one _ 46 _ Hs) as [_ W1]. split; [|split; [done|split]].
  - assert (H2' : m1 !! (fmt + 2) = Some 46) by (rewrite (writes_out _ _ _ _ _ W) by lia; done).
    rewrite E, (doprnt_step_char _ _ 46 _ _ _ _ H2') by (done || lia). by replace (fmt + 2 + 1) with (fmt + 3) by lia.
  - apply bytes_at_app. split; [|split; [apply lookup_insert_eq|done]]. eapply writes_bytes; [exact W1|exact B|lia].
  - eapply writes_trans; eapply writes_weaken; [exact W|lia|lia|exact W1|lia|lia].
Qed.

Lemma str_fuel_split m p l n : bytes_at m p l -> (n <= length l)%nat -> ∃ k, str_fuel m = (n + k)%nat.
Proof. intros H Hn. apply bytes_at_size in H. exists (S (size m) - n)%nat. unfold str_fuel. lia. Qed.

(** The text that ip2dot writes for four numbers. *)
Definition dotted_text (d1 d2 d3 d4 : list Z) : list Z :=
  (d1 ++ [46]) ++ (d2 ++ [46]) ++ (d3 ++ [46]) ++ d4 ++ [0].

Section Text.
Context (fmt dotted : Z) (m0 : bmem) (Hf : bytes_at m0 fmt dotted_format) (Hm : mapped m0 dotted 16)
  (Hsep : dotted + 16 <= fmt \/ fmt + 12 <= dotted).

Lemma format_at m i c : writes dotted 16 m0 m -> dotted_format !! i = Some c -> m !! (fmt + Z.of_nat i) = Some c.
Proof.
  intros W Hi. pose proof (lookup_lt_Some _ _ _ Hi) as Hl. cbn [dotted_format length] in Hl. rewrite (writes_out _ _ _ _ _ W) by lia.
  by eapply bytes_at_lookup.
Qed.

Lemma dotted_seg fuel (i : nat) v ap string m s : writes dotted 16 m0 m -> (i = 0 \/ i = 3 \/ i = 6)%nat -> 0 <= v < 256 ->
  dotted <= s -> s + 4 <= dotted + 16 ->
  ∃ ds m' string', doprnt_loop sprntf (S (S fuel)) false (fmt + Z.of_nat i) (v :: ap) string (m, s) =
      doprnt_loop sprntf fuel false (fmt + Z.of_nat (i + 3)) ap string' (m', s + Z.of_nat (length ds) + 1) /\
    numeral v ds /\ bytes_at m' s (ds ++ [46]) /\ writes dotted 16 m0 m' /\ writes s (dotted + 16 - s) m m'.
Proof.
  intros W Hi Hv H1 H2.
  assert (F : m !! (fmt + Z.of_nat i) = Some 37 /\ m !! (fmt + Z.of_nat i + 1) = Some 100 /\ m !! (fmt + Z.of_nat i + 2) = Some 46).
  { replace (fmt + Z.of_nat i + 1) with (fmt + Z.of_nat (i + 1)) by lia. replace (fmt + Z.of_nat i + 2) with (fmt + Z.of_nat (i + 2)) by lia.
    destruct Hi as [->|[->| ->]]; repeat split; by apply format_at. }
  destruct F as (F0 & F1 & F2).
  destruct (doprnt_step_seg fuel (fmt + Z.of_nat i) v ap string m s F0 F1 F2 Hv) as (ds & m' & string' & E & N & B & W').
  { eapply writes_mapped; [exact W|]. eapply mapped_part; [exact Hm|lia|lia]. }
  { lia. }
  pose proof N as (_ & _ & _ & Hl). exists ds, m', string'. split; [rewrite E; f_equal; lia|]. split; [done|]. split; [done|]. split.
  - eapply writes_trans; [exact W|]. eapply writes_weaken; [exact W'|lia|lia].
  - eapply writes_weaken; [exact W'|lia|lia].
Qed.

(** The last number, and the end of the format. *)
Lemma dotted_last fuel v string m s : writes dotted 16 m0 m -> 0 <= v < 256 -> dotted <= s -> s + 4 <= dotted + 16 ->
  ∃ ds m', doprnt_loop sprntf (S (S fuel)) false (fmt + Z.of_nat 9) [v] string (m, s) = Some (m', s + Z.of_nat (length ds)) /\
    numeral v ds /\ bytes_at m' s ds /\ writes dotted 16 m0 m' /\ writes s (dotted + 16 - s) m m'.
Proof.
  intros W Hv H1 H2.
  pose proof (format_at m 9 37 W eq_refl) as F0. pose proof (format_at m 10 100 W eq_refl) as F1.
  replace (fmt + Z.of_nat 10) with (fmt + Z.of_nat 9 + 1) in F1 by lia.
  destruct (doprnt_step_d (S fuel) (fmt + Z.of_nat 9) v [] string m s F0 F1 Hv) as (ds & m' & string' & E & N & B & W').
  { eapply writes_mapped; [exact W|]. eapply mapped_part; [exact Hm|lia|lia]. }
  pose proof N as (_ & _ & _ & Hl). assert (W2 : writes dotted 16 m0 m').
  { eapply writes_trans; [exact W|]. eapply writes_weaken; [exact W'|lia|lia]. }
  exists ds, m'. split; [|split; [done|split; [done|split; [done|eapply writes_weaken; [exact W'|lia|lia]]]]].
  rewrite E. pose proof (format_at m' 11 0 W2 eq_refl) as F2. replace (fmt + Z.of_nat 9 + 2) with (fmt + Z.of_nat 11) by lia.
  cbn [doprnt_loop fst]. by rewrite (F2 : ldb m' (fmt + Z.of_nat 11) = Some 0).
Qed.

Lemma sprintf_dotted v1 v2 v3 v4 : 0 <= v1 < 256 -> 0 <= v2 < 256 -> 0 <= v3 < 256 -> 0 <= v4 < 256 ->
  ∃ d1 d2 d3 d4 m', sprintf dotted fmt [v1; v2; v3; v4] m0 = Some (dotted, m') /\
    numeral v1 d1 /\ numeral v2 d2 /\ numeral v3 d3 /\ numeral v4 d4 /\
    bytes_at m' dotted (dotted_text d1 d2 d3 d4) /\ writes dotted 16 m0 m'.
Proof.
  intros R1 R2 R3 R4. destruct (str_fuel_split m0 fmt dotted_format 8 Hf) as [k Hk]; [cbn [dotted_format length]; lia|].
  assert (W0 : writes dotted 16 m0 m0) by (eapply writes_weaken; [apply (writes_refl dotted)|lia|lia]).
  destruct (dotted_seg (6 + k) 0 v1 [v2; v3; v4] ∅ m0 dotted W0) as (d1 & m1 & st1 & E1 & N1 & B1 & W1 & V1); [tauto|lia..|].
  pose proof N1 as (_ & _ & _ & L1).
  set (p1 := dotted + Z.of_nat (length d1) + 1) in *.
  destruct (dotted_seg (4 + k) 3 v2 [v3; v4] st1 m1 p1 W1) as (d2 & m2 & st2 & E2 & N2 & B2 & W2 & V2); [tauto|lia..|].
  pose proof N2 as (_ & _ & _ & L2). set (p2 := p1 + Z.of_nat (length d2) + 1) in *.
  destruct (dotted_seg (2 + k) 6 v3 [v4] st2 m2 p2 W2) as (d3 & m3 & st3 & E3 & N3 & B3 & W3 & V3); [tauto|lia..|].
  pose proof N3 as (_ & _ & _ & L3). set (p3 := p2 + Z.of_nat (length d3) + 1) in *.
  destruct (dotted_last k v4 st3 m3 p3 W3) as (d4 & m4 & E4 & N4 & B4 & W4 & V4); [lia..|].
  pose proof N4 as (_ & _ & _ & L4). set (p4 := p3 + Z.of_nat (length d4)) in *.
  destruct (writes_one p4 0 m4) as [E5 V5]; [eapply writes_mapped; [exact W4|exact Hm|lia]|].
  exists d1, d2, d3, d4, (<[p4 := 0]> m4). split.
  { change (fmt + Z.of_nat 0) with (fmt + 0) in E1. rewrite Z.add_0_r in E1.
    change (0 + 3)%nat with 3%nat in E1. change (3 + 3)%nat with 6%nat in E2. change (6 + 3)%nat with 9%nat in E3. unfold sprintf, _fdoprnt. cbn [fst]. rewrite Hk.
    change (8 + k)%nat with (S (S (6 + k))). rewrite E1. change (6 + k)%nat with (S (S (4 + k))). rewrite E2.
    change (4 + k)%nat with (S (S (2 + k))). rewrite E3. change (2 + k)%nat with (S (S k)). rewrite E4. cbn [mbind option_bind].
    by rewrite E5. }
  do 4 (split; [done|]). split; [|eapply writes_trans; [exact W4|eapply writes_weaken; [exact V5|lia|lia]]].
  assert (K1 : length (d1 ++ [46]) = (length d1 + 1)%nat) by by rewrite length_app.
  assert (K2 : length (d2 ++ [46]) = (length d2 + 1)%nat) by by rewrite length_app.
  assert (K3 : length (d3 ++ [46]) = (length d3 + 1)%nat) by by rewrite length_app.
  unfold dotted_text. apply bytes_at_app. split; [|apply bytes_at_app; split; [|apply bytes_at_app; split; [|apply bytes_at_app; split]]].
  - eapply writes_bytes; [exact V5| |rewrite K1; lia]. eapply writes_bytes; [exact V4| |rewrite K1; lia].
    eapply writes_bytes; [exact V3| |rewrite K1; lia]. eapply writes_bytes; [exact V2|exact B1|rewrite K1; lia].
  - rewrite K1. replace (dotted + _) with p1 by lia. eapply writes_bytes; [exact V5| |rewrite K2; lia].
    eapply writes_bytes; [exact V4| |rewrite K2; lia]. eapply writes_bytes; [exact V3|exact B2|rewrite K2; lia].
  - rewrite K1, K2. replace (dotted + _ + _) with p2 by lia. eapply writes_bytes; [exact V5| |rewrite K3; lia].
    eapply writes_bytes; [exact V4|exact B3|rewrite K3; lia].
  - rewrite K1, K2, K3. replace (dotted + _ + _ + _) with p3 by lia. eapply writes_bytes; [exact V5|exact B4|lia].
  - rewrite K1, K2, K3. replace (dotted + _ + _ + _ + _) with p4 by lia. split; [apply lookup_insert_eq|done].
Qed.
End Text.

(** * dot2ip *)

Lemma dot2ip_seg_run ds : ∀ n nch m p val ch, Forall decimal ds -> (Z.of_nat (length ds) + nch <= 3) -> 0 <= nch -> 0 < Z.of_nat (length ds) + nch ->
  (length ds < n)%nat -> bytes_at m p (ds ++ [ch]) -> ch = 0 \/ ch = 46 ->
  dot2ip_seg n nch m p val = Some (Some (value 10 val ds, ch, p + Z.of_nat (length ds) + 1)).
Proof.
  induction ds as [|d ds IH]; intros [|n] nch m p val ch Hd Hl H0 Hpos Hn Hb Hch; cbn [length] in *; try lia.
  - destruct Hb as [Hb _]. cbn [dot2ip_seg]. rewrite (Hb : ldb m p = Some ch). cbn [mbind option_bind].
    assert ((ch =? 0) || (ch =? 46) = true) as -> by (destruct Hch as [->| ->]; done).
    rewrite (proj2 (Z.eqb_neq nch 0)) by lia. do 3 f_equal. lia.
  - destruct Hb as [Hb Hbs]. apply Forall_cons in Hd as [Hd Hds]. cbn [dot2ip_seg]. rewrite (Hb : ldb m p = Some d). cbn [mbind option_bind].
    pose proof (decimal_digit d Hd) as [_ E]. unfold decimal in Hd.
    rewrite (proj2 (Z.eqb_neq d 0)), (proj2 (Z.eqb_neq d 46)) by lia. cbn [orb].
    rewrite (proj2 (Z.leb_gt 3 nch)), (proj2 (Z.ltb_ge d 48)), (proj2 (Z.ltb_ge 57 d)) by lia. cbn [orb].
    rewrite (IH n (nch + 1) m (p + 1) _ ch) by (done || lia). rewrite value_cons, E. cbn [from_option id].
    replace (10 * val + (d - 48)) with (val * 10 + (d - 48)) by lia. do 3 f_equal. lia.
Qed.

(** One segment of dot2ip. *)
Lemma dot2ip_loop_seg n m p ip v ds ch : numeral v ds -> 0 <= v < 256 -> 0 <= ip < 16777216 -> bytes_at m p (ds ++ [ch]) -> ch = 0 \/ ch = 46 ->
  dot2ip_loop (S n) m p ip =
    (if ch =? 0 then Some (Some (ip * 256 + v)) else dot2ip_loop n m (p + Z.of_nat (length ds) + 1) (ip * 256 + v)).
Proof.
  intros (Hne & Hd & Hv & Hl) Hr Hip Hb Hch. cbn [dot2ip_loop].
  rewrite (dot2ip_seg_run ds 4 0 m p 0 ch Hd) by (done || lia || (destruct ds; [done|cbn [length]; lia])). cbn [mbind option_bind]. rewrite Hv.
  rewrite (proj2 (Z.ltb_ge 255 v)) by lia. rewrite Z.shiftl_mul_pow2 by lia. change (2 ^ 8) with 256.
  rewrite u32_id by (unfold is_u32; lia). rewrite Z.lor_comm, (lor_add v (ip * 256) 8), Z.add_comm; try done; try lia.
  apply Z.mod_divide; [lia|]. by exists ip.
Qed.

Lemma dot2ip_text m p v1 v2 v3 v4 d1 d2 d3 d4 : numeral v1 d1 -> numeral v2 d2 -> numeral v3 d3 -> numeral v4 d4 ->
  0 <= v1 < 256 -> 0 <= v2 < 256 -> 0 <= v3 < 256 -> 0 <= v4 < 256 -> bytes_at m p (dotted_text d1 d2 d3 d4) ->
  dot2ip_loop 4 m p 0 = Some (Some (((v1 * 256 + v2) * 256 + v3) * 256 + v4)).
Proof.
  intros N1 N2 N3 N4 R1 R2 R3 R4 Hb. unfold dotted_text in Hb. apply bytes_at_app in Hb as [B1 Hb]. apply bytes_at_app in Hb as [B2 Hb].
  apply bytes_at_app in Hb as [B3 B4]. 
  assert (K : ∀ d : list Z, length (d ++ [46]) = (length d + 1)%nat) by (intros d; by rewrite length_app).
  rewrite K in B2. rewrite !K in B3. rewrite !K in B4.
  rewrite (dot2ip_loop_seg 3 m p 0 v1 d1 46) by (done || lia || tauto). change (46 =? 0) with false. cbv iota.
  replace (p + Z.of_nat (length d1 + 1)) with (p + Z.of_nat (length d1) + 1) in * by lia.
  rewrite (dot2ip_loop_seg 2 m _ _ v2 d2 46) by (done || lia || tauto). change (46 =? 0) with false. cbv iota.
  set (p1 := p + Z.of_nat (length d1) + 1) in *. replace (p1 + Z.of_nat (length d2 + 1)) with (p1 + Z.of_nat (length d2) + 1) in * by lia.
  rewrite (dot2ip_loop_seg 1 m _ _ v3 d3 46) by (done || lia || tauto). change (46 =? 0) with false. cbv iota.
  set (p2 := p1 + Z.of_nat (length d2) + 1) in *. replace (p2 + Z.of_nat (length d3 + 1)) with (p2 + Z.of_nat (length d3) + 1) in * by lia.
  rewrite (dot2ip_loop_seg 0 m _ _ v4 d4 0) by (done || lia || tauto). by rewrite Z.mul_0_l, Z.add_0_l.
Qed.

Lemma field_byte x i : 0 <= i -> Z.land (Z.shiftr x i) 255 = x / 2 ^ i mod 256.
Proof. intros Hi. rewrite Z.shiftr_div_pow2 by done. change 255 with (Z.ones 8). by rewrite Z.land_ones by lia. Qed.

(** C36: dot2ip reads back what ip2dot wrote.  For every address, ip2dot writes a text
    of at most 16 bytes in dotted decimal, and dot2ip on this text returns OK and stores
    the address. *)
Theorem ip2dot_dot2ip_roundtrip fmt dotted result a m (Hf : bytes_at m fmt dotted_format) (Hm : mapped m dotted 16)
  (Hsep : dotted + 16 <= fmt \/ fmt + 12 <= dotted) (Hr : mapped m result 4) (Ha : is_u32 a) :
  ∃ m' m'', ip2dot fmt dotted a m = Some (OK, m') /\ writes dotted 16 m m' /\
    dot2ip dotted result m' = Some (OK, m'') /\ ldl m'' result = Some a.
Proof.
  pose proof (byte_mod (a / 2 ^ 24)) as R1. pose proof (byte_mod (a / 2 ^ 16)) as R2. pose proof (byte_mod (a / 2 ^ 8)) as R3.
  pose proof (byte_mod a) as R4.
  destruct (sprintf_dotted fmt dotted m Hf Hm Hsep _ _ _ _ R1 R2 R3 R4) as (d1 & d2 & d3 & d4 & m' & E & N1 & N2 & N3 & N4 & B & W).
  assert (Hsum : ((a / 2 ^ 24 mod 256 * 256 + a / 2 ^ 16 mod 256) * 256 + a / 2 ^ 8 mod 256) * 256 + a mod 256 = a).
  { change (2 ^ 24) with 16777216. change (2 ^ 16) with 65536. change (2 ^ 8) with 256. pose proof (le32_val a Ha). lia. }
  destruct (put_bytes_run (le32 a) result m') as (m'' & E2 & _ & B2); [eapply writes_mapped; [exact W|exact Hr]|].
  exists m', m''. split; [|split; [done|split]].
  - unfold ip2dot. rewrite !field_byte by lia. change 255 with (Z.ones 8). rewrite Z.land_ones by lia. change (2 ^ 8) with 256 in *.
    by rewrite E.
  - unfold dot2ip. rewrite (dot2ip_text m' dotted _ _ _ _ d1 d2 d3 d4 N1 N2 N3 N4 R1 R2 R3 R4 B). cbn [mbind option_bind].
    rewrite Hsum, stl_put, E2. done.
  - pose proof (read32 m'' result (le32 a) 0 B2 ltac:(cbn [le32 length]; lia)) as R. rewrite Z.add_0_r in R. rewrite R.
    f_equal. exact (le32_val a Ha).
Qed.

(** The address 10.0.0.255. *)
Lemma ip2dot_dot2ip_roundtrip_witness : ∃ m' m'',
  ip2dot 100 200 167772415 (put_list 100 dotted_format (ram 16 200 (ram 4 300 ∅))) = Some (OK, m') /\
  dot2ip 200 300 m' = Some (OK, m'') /\ ldl m'' 300 = Some 167772415.
Proof.
  destruct (ip2dot_dot2ip_roundtrip 100 200 300 167772415 (put_list 100 dotted_format (ram 16 200 (ram 4 300 ∅)))) as (m' & m'' & E & _ & E2 & V).
  - repeat (split; [vm_compute; reflexivity|]). exact I.
  - apply (mappedb_true _ 200 16). vm_compute. reflexivity.
  - lia.
  - apply (mappedb_true _ 300 4). vm_compute. reflexivity.
  - by unfold is_u32.
  - exists m', m''. split; [exact E|]. split; [exact E2|exact V].
Defined.
