(* ===== verification/Udpthm.v ===== *)
(** The theorems about UDP endpoints: an entry of [udptab] refines a bounded queue of
    packets, udp_register and udp_release against the set of endpoints in use. *)

From S2P Require Import Prelude Types Cstring Queue Memory Kernel Sched Sem Msg Bufpool Bytes Ring Lift Net Netlib Udp.

(** * An entry as a queue *)

(** Entry [u] has the packets [xs], the oldest first. *)
Definition ud_holds (u : udpentry) (xs : list Z) : Prop :=
  ring_holds UDP_QSIZ u.(udqueue) u.(udhead) u.(udtail) xs /\ u.(udcount) = Z.of_nat (length xs).

Definition ud_pushed (pktptr : Z) (u : udpentry) : udpentry :=
  Udpentry u.(udstate) u.(udremip) u.(udremport) u.(udlocport) u.(udhead) ((u.(udtail) + 1) mod UDP_QSIZ)
    (u.(udcount) + 1) u.(udpid) (<[u.(udtail) := pktptr]> u.(udqueue)).
Definition ud_popped (u : udpentry) : udpentry :=
  Udpentry u.(udstate) u.(udremip) u.(udremport) u.(udlocport) ((u.(udhead) + 1) mod UDP_QSIZ) u.(udtail)
    u.(udcount) u.(udpid) u.(udqueue).

Lemma ud_push_holds u xs pktptr : ud_holds u xs -> Z.of_nat (length xs) < UDP_QSIZ -> ud_holds (ud_pushed pktptr u) (xs ++ [pktptr]).
Proof.
  intros [R C] Hn. split; [by apply ring_push|]. cbn [ud_pushed udcount]. rewrite C, length_app. cbn [length]. lia.
Qed.

Lemma ud_pop_holds u pkt xs : ud_holds u (pkt :: xs) ->
  u.(udqueue) !! u.(udhead) = Some pkt /\ ud_holds (set_udcount (u.(udcount) - 1) (ud_popped u)) xs.
Proof.
  intros [R C]. destruct (ring_pop _ _ _ _ _ _ R) as [Hp R']. split; [done|]. split; [done|].
  cbn [ud_popped set_udcount udcount]. cbn [length] in *. lia.
Qed.

Section Run.
Context {D : Type}.
Implicit Types (x : nst D) (k : kst).

Lemma udp_push_run i pktptr u xs k x : x.(udptab) !! i = Some u -> ud_holds u xs -> Z.of_nat (length xs) < UDP_QSIZ ->
  udp_push i pktptr (Lst k x) = LDone tt (Lst k (set_udptab (<[i := ud_pushed pktptr u]> x.(udptab)) x)).
Proof.
  intros Hu [R C] Hn. pose proof (ring_tail _ _ _ _ _ R) as Ht. unfold udp_push. nrun.
  destruct (arr_len_lookup _ _ _ (rh_len _ _ _ _ _ R) Ht) as [y Hy]. cbn [udtail udqueue set_udcount].
  rewrite (arr_upd_Some _ _ _ _ Hy), bind_lopt. nrun. cbn [udtail set_udqueue set_udcount set_udtail udcount].
  pose proof (ring_wrap UDP_QSIZ (udtail u) Ht) as Hw.
  unfold ud_pushed. rewrite <- Hw. destruct (udtail u + 1 >=? UDP_QSIZ); [|done].
  by nrun.
Qed.

Lemma udp_pop_run i u pkt xs k x : x.(udptab) !! i = Some u -> ud_holds u (pkt :: xs) ->
  udp_pop i (Lst k x) = LDone pkt (Lst k (set_udptab (<[i := ud_popped u]> x.(udptab)) x)).
Proof.
  intros Hu H. destruct (ud_pop_holds _ _ _ H) as [Hp _]. destruct H as [R C].
  pose proof (ring_wrap UDP_QSIZ (udhead u) (rh_head _ _ _ _ _ R)) as Hw. unfold udp_pop. nrun.
  rewrite Hp, bind_lopt. nrun. cbn [udhead set_udhead]. unfold ud_popped. rewrite <- Hw.
  by destruct (udhead u + 1 >=? UDP_QSIZ); nrun.
Qed.

(** * Arrival of a packet *)

(** Entry [u] takes a packet with this header. *)
Definition udp_takes (dport sport src : Z) (u : udpentry) : bool :=
  negb (u.(udstate) =? UDP_FREE) && udp_matches dport sport src u && (u.(udcount) <? UDP_QSIZ).

(** The header of the packet at [pktptr], in host order. *)
Definition udp_header (m : bmem) (pktptr dport sport src : Z) : Prop :=
  ldh m (net_udpdport pktptr) = Some dport /\ ldh m (net_udpsport pktptr) = Some sport /\
  ldl m (net_ipsrc pktptr) = Some src.

Lemma udp_in_scan_run n : ∀ i pktptr mask k x r dport sport src,
  udp_header x.(bytes) pktptr dport sport src -> udp_scan (udp_takes dport sport src) n i x.(udptab) = Some r ->
  udp_in_scan n i pktptr mask (Lst k x) =
    match r with
    | Some slot => (udp_enter slot pktptr;; lrestore mask) (Lst k x)
    | None => (lfreebuf pktptr;; lrestore mask) (Lst k x)
    end.
Proof.
  induction n as [|n IH]; intros i pktptr mask k x r dport sport src Hh; cbn [udp_scan udp_in_scan]; [by intros [= <-]|].
  destruct (udptab x !! i) as [u|] eqn:Hu; [|done]. cbn [mbind option_bind]. intros Hs. nrun.
  unfold udp_takes in Hs at 1. destruct (udstate u =? UDP_FREE); cbn [negb andb] in Hs; [by eapply IH|].
  pose proof Hh as (H1 & H2 & H3). erewrite !bind_bget by eassumption.
  destruct (udp_matches dport sport src u); cbn [andb] in Hs; [|by eapply IH].
  destruct (udcount u <? UDP_QSIZ); [|by eapply IH]. by injection Hs as <-.
Qed.

(** What entry [u] becomes when it gets a packet. *)
Definition ud_entered (pktptr : Z) (u : udpentry) : udpentry :=
  if u.(udstate) =? UDP_RECV then set_udstate UDP_USED (ud_pushed pktptr u) else ud_pushed pktptr u.

(** Telling the process that waits for a packet, if there is one. *)
Definition udp_notify (u : udpentry) : L (nst D) unit :=
  if u.(udstate) =? UDP_RECV then lift (send u.(udpid) OK);; mret tt else mret tt.

Lemma udp_enter_run i pktptr u xs k x : x.(udptab) !! i = Some u -> ud_holds u xs -> Z.of_nat (length xs) < UDP_QSIZ ->
  udp_enter i pktptr (Lst k x) = udp_notify u (Lst k (set_udptab (<[i := ud_entered pktptr u]> x.(udptab)) x)).
Proof.
  intros Hu Hh Hn. unfold udp_enter. rewrite (lbind_done _ _ _ _ _ (udp_push_run _ _ _ _ _ _ Hu Hh Hn)). nrun.
  unfold udp_notify, ud_entered. cbn [udstate ud_pushed udpid]. destruct (udstate u =? UDP_RECV); [|done]. by nrun.
Qed.

Lemma ud_entered_holds u xs pktptr : ud_holds u xs -> Z.of_nat (length xs) < UDP_QSIZ -> ud_holds (ud_entered pktptr u) (xs ++ [pktptr]).
Proof. intros H Hn. unfold ud_entered. destruct (udstate u =? UDP_RECV); by apply ud_push_holds. Qed.

Lemma udp_scan_found f n : ∀ i t slot, udp_scan f n i t = Some (Some slot) -> ∃ u, t !! slot = Some u /\ f u = true.
Proof.
  induction n as [|n IH]; intros i t slot; cbn [udp_scan]; [done|]. destruct (t !! i) as [u|] eqn:Hu; [|done].
  cbn [mbind option_bind]. destruct (f u) eqn:Hf; [|apply IH]. intros [= <-]. eauto.
Qed.

Lemma lbind_eq {A B} (m m' : L (nst D) A) (f : A -> L (nst D) B) s s' : m s = m' s' -> (m ≫= f) s = (m' ≫= f) s'.
Proof. intros H. unfold mbind, L_bind. by rewrite H. Qed.

Lemma udp_in_run pktptr k x r dport sport src :
  udp_header x.(bytes) pktptr dport sport src -> udp_search (udp_takes dport sport src) x.(udptab) = Some r ->
  match r with
  | Some slot => ∀ u xs, x.(udptab) !! slot = Some u -> ud_holds u xs ->
      ud_holds (ud_entered pktptr u) (xs ++ [pktptr]) /\
      udp_in pktptr (Lst k x) = (udp_notify u;; lrestore k.(ie))
        (Lst (set_ie false k) (set_udptab (<[slot := ud_entered pktptr u]> x.(udptab)) x))
  | None => udp_in pktptr (Lst k x) = (lfreebuf pktptr;; lrestore k.(ie)) (Lst (set_ie false k) x)
  end.
Proof.
  intros Hh Hs. assert (E := udp_in_scan_run _ _ _ k.(ie) (set_ie false k) x _ _ _ _ Hh Hs).
  destruct r as [slot|]; [|exact E]. intros u xs Hu Hud.
  assert (Hn : Z.of_nat (length xs) < UDP_QSIZ).
  { destruct (udp_scan_found _ _ _ _ _ Hs) as (u' & Hu' & Ht). rewrite Hu in Hu'. injection Hu' as <-.
    unfold udp_takes in Ht. bool_hyps. destruct Hud as [_ <-]. done. }
  split; [by apply ud_entered_holds|]. unfold udp_in. rewrite bind_ldisable. rewrite E.
  by apply lbind_eq, (udp_enter_run _ _ _ xs).
Qed.

(** * Taking a packet *)

(** The length that the UDP header of the packet [l] has, in host order. *)
Definition udp_length (l : list Z) : Z := l !!! 38%nat + 256 * l !!! 39%nat.

(** What udp_recv makes of the entry. *)
Definition ud_taken (u : udpentry) : udpentry := set_udcount (u.(udcount) - 1) (ud_popped u).

Lemma udp_copy_run pkt buff len l k x : bytes_at x.(bytes) pkt l -> (42 <= length l)%nat ->
  let n := Z.min len (udp_length l - UDP_HDR_LEN) in
  0 <= n -> 42 + n <= Z.of_nat (length l) -> mapped x.(bytes) buff n -> (buff + n <= pkt + 42 \/ pkt + 42 + n <= buff) ->
  ∃ m', udp_copy pkt buff len (Lst k x) = LDone n (Lst k (set_bytes m' x)) /\ writes buff n x.(bytes) m' /\
    bytes_at m' buff (take (Z.to_nat n) (drop 42 l)).
Proof.
  intros Hb Hl n H0 Hn Hm Hsep. unfold udp_copy.
  erewrite bind_bget by exact (read16 _ _ _ 38 Hb ltac:(lia)). change (_ + 256 * _) with (udp_length l).
  replace (if len <? udp_length l - UDP_HDR_LEN then len else udp_length l - UDP_HDR_LEN) with n
    by (unfold n; destruct (Z.ltb_spec len (udp_length l - UDP_HDR_LEN)); lia).
  destruct (copy_part (bytes x) pkt l 42 (Z.to_nat n) buff Hb) as (m' & E & W & B); [lia|by rewrite Z2Nat.id|lia|].
  rewrite Z2Nat.id in W by done. exists m'. split; [|done]. by erewrite bind_bput by exact E.
Qed.

Lemma udp_await_ready slot timeout u k x : x.(udptab) !! slot = Some u -> 0 < u.(udcount) ->
  udp_await slot timeout (Lst k x) = LDone None (Lst k x).
Proof. intros Hu Hc. unfold udp_await. nrun. by rewrite (proj2 (Z.eqb_neq _ _)) by lia. Qed.

Lemma isbadslot_false slot : 0 <= slot < UDP_SLOTS -> isbadslot slot = false.
Proof. intros H. unfold isbadslot. rewrite Z.geb_leb. apply orb_false_iff. split; [apply Z.ltb_ge|apply Z.leb_gt]; lia. Qed.

Lemma udp_recv_run slot buff len timeout k x u pkt xs l id fl :
  0 <= slot < UDP_SLOTS -> x.(udptab) !! slot = Some u -> u.(udstate) = UDP_USED -> ud_holds u (pkt :: xs) ->
  bytes_at x.(bytes) pkt l -> (42 <= length l)%nat ->
  let n := Z.min len (udp_length l - UDP_HDR_LEN) in
  0 <= n -> 42 + n <= Z.of_nat (length l) -> mapped x.(bytes) buff n -> (buff + n <= pkt + 42 \/ pkt + 42 + n <= buff) ->
  buf_used k id fl pkt ->
  ∃ k' m', udp_recv slot buff len timeout (Lst k x) =
      LDone n (Lst k' (set_bytes m' (set_udptab (<[slot := ud_taken u]> x.(udptab)) x))) /\
    ud_holds (ud_taken u) xs /\ writes buff n x.(bytes) m' /\ bytes_at m' buff (take (Z.to_nat n) (drop 42 l)) /\
    pool_ok k' id ((pkt - 4) :: fl).
Proof.
  intros Hs Hu Hst Hud Hb Hl n H0 Hn Hm Hsep Hbuf. destruct (ud_pop_holds _ _ _ Hud) as [_ Hud'].
  unfold udp_recv. nrun. rewrite isbadslot_false by done. nrun. rewrite Hst. change (UDP_USED =? UDP_USED) with true. cbn [negb].
  rewrite (lbind_done _ _ _ _ _ (udp_await_ready slot timeout u _ x Hu ltac:(destruct Hud as [_ ->]; cbn [length]; lia))).
  rewrite (lbind_done _ _ _ _ _ (udp_pop_run slot u pkt xs _ x Hu Hud)). nrun.
  change (set_udcount _ (ud_popped u)) with (ud_taken u). set (x1 := set_udptab _ x).
  destruct (udp_copy_run pkt buff len l (set_ie false k) x1 Hb Hl H0 Hn Hm Hsep) as (m' & E & W & B).
  rewrite (lbind_done _ _ _ _ _ E). destruct (lfreebuf_run id fl pkt (set_ie false k) (set_bytes m' x1) Hbuf) as (k' & E' & P & _).
  rewrite (lbind_done _ _ _ _ _ E'). nrun. exists (set_ie k.(ie) k'), m'. by split.
Qed.
End Run.
