(* ===== verification/Frame.v ===== *)
(** Frames: what the byte order conversions, ip_out and the functions that fill in a
    packet make of its bytes, and the frame of a UDP datagram as the network has it. *)

From S2P Require Import Prelude Types Cstring Queue Memory Kernel Bytes Lift Net Netlib Arp Udp Icmp Ip.

Ltac acts_step :=
  first
    [ eapply acts_conv16; [intros ?; reflexivity|lia|apply htons_swap || apply ntohs_swap]
    | eapply acts_conv32; [intros ?; reflexivity|lia|apply htonl_swap || apply ntohl_swap]
    | eapply acts_sth; [intros ?; reflexivity|lia]
    | eapply acts_stl; [intros ?; reflexivity|lia]
    | eapply acts_stb; [intros ?; reflexivity|lia|first [unfold byte, IP_UDP, IP_ICMP; lia | apply byte_u8]] ].
Ltac acts_run := repeat (first [acts_step | eapply acts_seq; [acts_step|]]).

(** * The conversions *)

Lemma eth_hton_acts : acts 42 eth_hton (swap2 12).
Proof. unfold eth_hton. acts_run. Qed.

Lemma eth_ntoh_acts : acts 42 eth_ntoh (swap2 12).
Proof. unfold eth_ntoh. acts_run. Qed.

Definition swap_ip : list Z -> list Z := andthen (swap2 16) (andthen (swap2 18) (andthen (swap2 20) (andthen (swap4 26) (swap4 30)))).
Definition swap_udp : list Z -> list Z := andthen (swap2 34) (andthen (swap2 36) (swap2 38)).
Definition swap_icmp : list Z -> list Z := andthen (swap2 36) (andthen (swap2 38) (swap2 40)).
Definition swap_arp : list Z -> list Z := andthen (swap2 14) (andthen (swap2 16) (andthen (swap2 20) (andthen (swap4 28) (swap4 38)))).

Lemma ip_hton_acts : acts 42 ip_hton swap_ip.
Proof. unfold ip_hton, swap_ip. acts_run. Qed.

Lemma ip_ntoh_acts : acts 42 ip_ntoh swap_ip.
Proof. unfold ip_ntoh, swap_ip. acts_run. Qed.

Lemma udp_hton_acts : acts 42 udp_hton swap_udp.
Proof. unfold udp_hton, swap_udp. acts_run. Qed.

Lemma udp_ntoh_acts : acts 42 udp_ntoh swap_udp.
Proof. unfold udp_ntoh, swap_udp. acts_run. Qed.

Lemma icmp_hton_acts : acts 42 icmp_hton swap_icmp.
Proof. unfold icmp_hton, swap_icmp. acts_run. Qed.

Lemma icmp_ntoh_acts : acts 42 icmp_ntoh swap_icmp.
Proof. unfold icmp_ntoh, swap_icmp. acts_run. Qed.

Lemma arp_hton_acts : acts 42 arp_hton swap_arp.
Proof. unfold arp_hton, swap_arp. acts_run. Qed.

Lemma arp_ntoh_acts : acts 42 arp_ntoh swap_arp.
Proof. unfold arp_ntoh, swap_arp. acts_run. Qed.

(** Converting back gives the same packet. *)
Ltac explode l := do 42 (destruct l as [|? l]; [cbn [length] in *; lia|]).

Lemma swap_ip_twice l : (42 <= length l)%nat -> swap_ip (swap_ip l) = l.
Proof. intros H. explode l. reflexivity. Qed.

Lemma swap_udp_twice l : (42 <= length l)%nat -> swap_udp (swap_udp l) = l.
Proof. intros H. explode l. reflexivity. Qed.

Lemma swap_icmp_twice l : (42 <= length l)%nat -> swap_icmp (swap_icmp l) = l.
Proof. intros H. explode l. reflexivity. Qed.

Lemma swap_arp_twice l : (42 <= length l)%nat -> swap_arp (swap_arp l) = l.
Proof. intros H. explode l. reflexivity. Qed.

(** * ip_out *)

(** The steps of ip_out on the IP header, which is complete in host order. *)
Definition seal_ip (l : list Z) : list Z :=
  let l := put 24 (le16 0) (swap_ip l) in
  swap2 12 (put 24 (be16 (cksum_of (sum (words 10 14 l)))) l).

Lemma le16_htons c : word16 c -> le16 (Z.land 65535 (htons c)) = be16 c.
Proof.
  unfold word16. intros Hc. rewrite <- (le16_val c) at 1 by done.
  assert (B1 := byte_mod c). assert (B2 := byte_mod (c / 256)). rewrite htons_swap by done.
  rewrite Z.land_comm. change 65535 with (Z.ones 16). rewrite Z.land_ones by lia. change (2 ^ 16) with 65536.
  rewrite Z.mod_small by (unfold byte in *; lia). by rewrite le16_pair.
Qed.

Lemma cksum_word s : word16 (cksum_of s).
Proof.
  unfold cksum_of, fold_once, word16. pose proof (Z.mod_pos_bound (s + s / 65536) 65536 ltac:(lia)).
  destruct (_ =? 0); lia.
Qed.

Lemma clear_cksum_acts : acts 42 (λ p m, m ← ip_hton p m; sth (net_ipcksum p) 0 m) (andthen swap_ip (put 24 (le16 0))).
Proof. eapply acts_seq; [apply ip_hton_acts|acts_step]. Qed.

Lemma store_cksum_acts c : word16 c ->
  acts 42 (λ p m, m ← sth (net_ipcksum p) (Z.land 65535 (htons c)) m; eth_hton p m) (andthen (put 24 (be16 c)) (swap2 12)).
Proof. intros Hc. rewrite <- (le16_htons c Hc). eapply acts_seq; [acts_step|apply eth_hton_acts]. Qed.

Lemma seal_ip_acts : acts 42 (λ pktptr m,
  m ← ip_hton pktptr m;
  m ← sth (net_ipcksum pktptr) 0 m;
  cksum ← ipcksum m pktptr;
  m ← sth (net_ipcksum pktptr) (Z.land 65535 (htons cksum)) m;
  eth_hton pktptr m) seal_ip.
Proof.
  intros m p l Hb Hl Hn. destruct (clear_cksum_acts m p l Hb Hl Hn) as (m1 & E1 & B1 & L1 & N1 & W1). unfold andthen in *.
  unfold seal_ip. cbv zeta. generalize dependent (put 24 (le16 0) (swap_ip l)). intros l1 B1 L1 N1.
  destruct (ip_hton p m) as [m0|]; [|done]. cbn [mbind option_bind] in *. rewrite E1. cbn [mbind option_bind].
  rewrite (ipcksum_run m1 p l1 B1 L1) by lia. cbn [mbind option_bind].
  pose proof (cksum_word (sum (words 10 14 l1))) as Hc. generalize dependent (cksum_of (sum (words 10 14 l1))). intros c Hc.
  destruct (store_cksum_acts c Hc m1 p l1 B1 L1 ltac:(lia)) as (m2 & E2 & B2 & L2 & N2 & W2). unfold andthen in *.
  exists m2. split; [exact E2|]. split; [exact B2|]. split; [exact L2|].
  split; [exact (eq_trans N2 N1)|]. rewrite N1 in W2. by eapply writes_trans.
Qed.

(** What ip_out does with a UDP datagram. *)
Definition out_udp : list Z -> list Z := andthen (andthen (put 40 (le16 0)) swap_udp) seal_ip.

Lemma udp_out_acts : acts 42 (λ pktptr m,
  m ← (m ← sth (net_udpcksum pktptr) 0 m; udp_hton pktptr m);
  m ← ip_hton pktptr m;
  m ← sth (net_ipcksum pktptr) 0 m;
  cksum ← ipcksum m pktptr;
  m ← sth (net_ipcksum pktptr) (Z.land 65535 (htons cksum)) m;
  eth_hton pktptr m) out_udp.
Proof. unfold out_udp. eapply acts_seq; [|apply seal_ip_acts]. eapply acts_seq; [acts_step|apply udp_hton_acts]. Qed.

Lemma ip_frame_is_udp m p : ldb m (net_ipproto p) = Some IP_UDP -> ip_frame p m = (
  m ← (m ← sth (net_udpcksum p) 0 m; udp_hton p m);
  m ← ip_hton p m;
  m ← sth (net_ipcksum p) 0 m;
  cksum ← ipcksum m p;
  m ← sth (net_ipcksum p) (Z.land 65535 (htons cksum)) m;
  eth_hton p m).
Proof. intros H. unfold ip_frame. by rewrite H. Qed.

Lemma ip_frame_udp m p l : bytes_at m p l -> Forall byte l -> (42 <= length l)%nat -> l !!! 23%nat = IP_UDP ->
  ∃ m', ip_frame p m = Some m' /\ bytes_at m' p (out_udp l) /\ Forall byte (out_udp l) /\
    length (out_udp l) = length l /\ writes p (Z.of_nat (length l)) m m'.
Proof.
  intros Hb Hl Hn Hp. pose proof (read_byte m p l 23 Hb ltac:(lia)) as Hr. rewrite Hp in Hr.
  rewrite (ip_frame_is_udp m p Hr). exact (udp_out_acts m p l Hb Hl Hn).
Qed.

(** * The frame of a UDP datagram *)

(** The IP header (20 bytes) with checksum [ck], in network order; [len] is the number of
    bytes of data. *)
Definition ip_header (len id src dst ck : Z) : list Z :=
  [69; 0] ++ be16 (28 + len) ++ be16 id ++ [0; 0; 255; 17] ++ be16 ck ++ be32 src ++ be32 dst.
Definition udp_frame (dmac smac : list Z) (id src dst sport dport : Z) (data : list Z) : list Z :=
  let len := Z.of_nat (length data) in
  dmac ++ smac ++ be16 ETH_IP ++
  ip_header len id src dst (cksum_of (sum (words 10 0 (ip_header len id src dst 0)))) ++
  be16 sport ++ be16 dport ++ be16 (8 + len) ++ [0; 0] ++ data.

(** The packet that udp_send fills in, before ip_out: the same fields in host order. *)
Definition udp_packet (dmac smac : list Z) (id src dst sport dport : Z) (data : list Z) : list Z :=
  let len := Z.of_nat (length data) in
  dmac ++ smac ++ le16 2048 ++ [69; 0] ++ le16 (28 + len) ++ le16 id ++ [0; 0; 255; 17; 0; 0] ++
  le32 src ++ le32 dst ++ le16 sport ++ le16 dport ++ le16 (8 + len) ++ [0; 0] ++ data.

Lemma mac_explode (mac : list Z) : length mac = 6%nat -> ∃ a b c d e f, mac = [a; b; c; d; e; f].
Proof. intros H. do 6 (destruct mac as [|? mac]; [done|]). destruct mac; [|done]. by do 6 eexists. Qed.

Lemma seal_udp dmac smac id src dst sport dport data rest : length dmac = 6%nat -> length smac = 6%nat ->
  out_udp (udp_packet dmac smac id src dst sport dport data ++ rest) =
    udp_frame dmac smac id src dst sport dport data ++ rest.
Proof.
  intros H1 H2. destruct (mac_explode _ H1) as (a & b & c & d & e & f & ->).
  destruct (mac_explode _ H2) as (a' & b' & c' & d' & e' & f' & ->). reflexivity.
Qed.

(** * Filling in a datagram *)

Lemma le16_u16 v : le16 (u16 v) = le16 v.
Proof.
  unfold le16, u16. f_equal; [Z.to_euclidean_division_equations; lia|]. f_equal.
  by rewrite (mod_div_mod v 256 256 65536 1).
Qed.

(** The header fields that udp_send and udp_sendto set, in their order. *)
Definition udp_fields (mac : list Z) (src id dst dport sport len : Z) : list Z -> list Z :=
  andthen (put 6 mac) (andthen (put 12 (le16 2048)) (andthen (put 14 [69]) (andthen (put 15 [0])
  (andthen (put 16 (le16 (28 + len))) (andthen (put 18 (le16 id)) (andthen (put 20 (le16 0)) (andthen (put 22 [255])
  (andthen (put 23 [IP_UDP]) (andthen (put 24 (le16 0)) (andthen (put 26 (le32 src)) (andthen (put 30 (le32 dst))
  (andthen (put 34 (le16 sport)) (andthen (put 36 (le16 dport)) (andthen (put 38 (le16 (u16 (8 + len))))
    (put 40 (le16 0)))))))))))))))).

Definition fill_header (mac : list Z) (src id dst dport sport len p : Z) (m : bmem) : option bmem :=
  m ← put_bytes (net_ethsrc p) mac m; m ← sth (net_ethtype p) 2048 m;
  m ← stb (net_ipvh p) 69 m; m ← stb (net_iptos p) 0 m; m ← sth (net_iplen p) (28 + len) m;
  m ← sth (net_ipid p) id m; m ← sth (net_ipfrag p) 0 m; m ← stb (net_ipttl p) 255 m;
  m ← stb (net_ipproto p) IP_UDP m; m ← sth (net_ipcksum p) 0 m; m ← stl (net_ipsrc p) src m;
  m ← stl (net_ipdst p) dst m; m ← sth (net_udpsport p) sport m; m ← sth (net_udpdport p) dport m;
  m ← sth (net_udplen p) (u16 (8 + len)) m; sth (net_udpcksum p) 0 m.

Lemma fill_header_acts mac src id dst dport sport len : length mac = 6%nat -> Forall byte mac ->
  acts 42 (fill_header mac src id dst dport sport len) (udp_fields mac src id dst dport sport len).
Proof.
  intros H1 H2. unfold fill_header, udp_fields.
  eapply acts_seq; [eapply acts_bytes; [intros ?; reflexivity|lia|done]|]. acts_run.
Qed.

Lemma udp_fill_split mac src id dst dport sport buff len p m :
  udp_fill mac src id dst dport sport buff len p m =
    (m ← fill_header mac src id dst dport sport len p m; memcpy_loop (Z.to_nat len) (net_udpdata p) buff m).
Proof.
  unfold udp_fill, fill_header, UDP_HDR_LEN. cbv zeta.
  replace (net_udpdata p - p + len - ETH_HDR_LEN) with (28 + len) by (unfold net_udpdata, ETH_HDR_LEN; lia).
  assert (A : ∀ (o : option bmem) (f g : bmem -> option bmem), (∀ m, f m = (m ← g m; memcpy_loop (Z.to_nat len) (net_udpdata p) buff m)) ->
    (m ← o; f m) = (m ← (m ← o; g m); memcpy_loop (Z.to_nat len) (net_udpdata p) buff m)) by (intros [o|] f g Hf; [apply Hf|done]).
  do 15 (apply A; clear m; intros m). done.
Qed.

Lemma udp_fields_packet mac src id dst dport sport len l : length mac = 6%nat -> (42 <= length l)%nat ->
  udp_fields mac src id dst dport sport len l =
    take 6 l ++ mac ++ le16 2048 ++ [69; 0] ++ le16 (28 + len) ++ le16 id ++ [0; 0; 255; 17; 0; 0] ++
    le32 src ++ le32 dst ++ le16 sport ++ le16 dport ++ le16 (u16 (8 + len)) ++ [0; 0] ++ drop 42 l.
Proof.
  intros H1 H2. destruct (mac_explode _ H1) as (a & b & c & d & e & f & ->). explode l. reflexivity.
Qed.

Lemma put_data dmac mac r data a b c d e f g h i : length dmac = 6%nat -> length mac = 6%nat ->
  put 42 data (dmac ++ mac ++ le16 a ++ [69; 0] ++ le16 b ++ le16 c ++ [0; 0; 255; 17; 0; 0] ++
    le32 d ++ le32 e ++ le16 f ++ le16 g ++ le16 h ++ [i; 0] ++ r) =
  (dmac ++ mac ++ le16 a ++ [69; 0] ++ le16 b ++ le16 c ++ [0; 0; 255; 17; 0; 0] ++
    le32 d ++ le32 e ++ le16 f ++ le16 g ++ le16 h ++ [i; 0] ++ data) ++ drop (length data) r.
Proof.
  intros H1 H2. destruct (mac_explode _ H1) as (a1 & a2 & a3 & a4 & a5 & a6 & ->).
  destruct (mac_explode _ H2) as (b1 & b2 & b3 & b4 & b5 & b6 & ->). reflexivity.
Qed.

(** The packet is filled in, with the data behind the header; what was behind the data
    stays there. *)
Lemma udp_fill_run mac src id dst dport sport buff p l data m :
  let len := Z.of_nat (length data) in
  length mac = 6%nat -> Forall byte mac -> bytes_at m p l -> Forall byte l -> (42 + length data <= length l)%nat ->
  bytes_at m buff data -> Forall byte data -> (buff + len <= p \/ p + Z.of_nat (length l) <= buff) ->
  ∃ m', udp_fill mac src id dst dport sport buff len p m = Some m' /\
    bytes_at m' p (udp_packet (take 6 l) mac id src dst sport dport data ++ drop (42 + length data) l) /\
    writes p (Z.of_nat (length l)) m m'.
Proof.
  intros len H1 H2 Hb Hl Hn Hd Hdb Hsep.
  destruct (fill_header_acts mac src id dst dport sport len H1 H2 m p l Hb Hl ltac:(lia)) as (m1 & E1 & B1 & L1 & N1 & W1).
  rewrite udp_fill_split, E1. cbn [mbind option_bind]. unfold net_udpdata. subst len. rewrite Nat2Z.id.
  change 42 with (Z.of_nat 42).
  assert (Hd1 : bytes_at m1 buff data) by (eapply writes_bytes; [exact W1|exact Hd|lia]).
  destruct (copy_part m1 buff data 0 (length data) (p + Z.of_nat 42) Hd1) as (m2 & E2 & W2 & B2); [lia| |lia|].
  { eapply mapped_part; [exact (bytes_mapped _ _ _ B1)|lia|rewrite N1; lia]. }
  rewrite Z.add_0_r in E2. rewrite drop_0, take_ge in B2 by lia. exists m2. split; [exact E2|]. split.
  - pose proof (bytes_at_put m1 m2 p _ 42 data B1 ltac:(rewrite N1; lia) W2 B2) as B3. clear B1 L1 N1.
    rewrite udp_fields_packet, le16_u16 in B3 by (done || lia). unfold udp_packet. revert B3.
    rewrite <- drop_drop.
    assert (H6 : length (take 6 l) = 6%nat) by (rewrite length_take; lia). revert H6. generalize (take 6 l), (drop 42 l).
    intros dmac r H6 B3. rewrite put_data in B3 by done. exact B3.
  - eapply writes_trans; [exact W1|]. eapply writes_weaken; [exact W2|lia|lia].
Qed.
