(* ===== verification/Netsend.v ===== *)
(** Sending: what the stack relies on of the Ethernet device, and a datagram on its way
    from udp_sendto to the device. *)

From S2P Require Import Prelude Types Cstring Queue Memory Kernel Sched Sem Bufpool Bytes Ring Lift Net Netlib Arp Udp Icmp Ip Udpthm Frame.

(** The buffer pools are the same, and so is what is in the heap. *)
Definition same_pools (k k' : kst) : Prop :=
  (∀ id l, pool_ok k id l -> pool_ok k' id l) /\ k'.(mem).(Memory.words) = k.(mem).(Memory.words).

(** The frame [f] on the wire carries the bytes [l]: the device may pad a short one. *)
Definition carries_frame (l f : list Z) : Prop := ∃ pad, f = l ++ pad /\ Forall byte pad /\ (length f <= 1514)%nat.

(** What the stack relies on of the device.  [wire d] are the frames that were handed to
    the network, [arrived d] those that came from it and were not read; the device takes
    a frame when it [can_send], and a read gives the first frame that has arrived.
    Neither call gives up the processor then. *)
Class EtherLaws (D : Type) `{!Ether D} := {
  can_send : kst -> D -> Prop;
  can_recv : kst -> D -> Prop;
  wire : D -> list (list Z);
  arrived : D -> list (list Z);
  can_send_ie b k d : can_send k d -> can_send (set_ie b k) d;
  can_recv_ie b k d : can_recv k d -> can_recv (set_ie b k) d;
  eth_write_sends l k (x : nst D) : can_send k x.(ether) -> Forall byte l -> (length l <= 1514)%nat ->
    ∃ r k' d' f, eth_write l (Lst k x) = LDone r (Lst k' (set_ether d' x)) /\ r ≠ SYSERR /\ same_pools k k' /\
      wire d' = wire x.(ether) ++ [f] /\ carries_frame l f;
  eth_read_takes f fs k (x : nst D) : can_recv k x.(ether) -> arrived x.(ether) = f :: fs -> (length f <= 1514)%nat ->
    ∃ k' d', eth_read PACKLEN (Lst k x) = LDone (Z.of_nat (length f), f) (Lst k' (set_ether d' x)) /\
      same_pools k k' /\ arrived d' = fs }.

Lemma get_bytes_run n : ∀ m p l, bytes_at m p l -> (n <= length l)%nat -> get_bytes n m p = Some (take n l).
Proof.
  induction n as [|n IH]; intros m p [|b l] Hb Hn; cbn [length] in *; try lia; try done. destruct Hb as [H1 Hb].
  cbn [get_bytes take]. unfold ldb. rewrite H1. cbn [mbind option_bind]. rewrite (IH _ _ l) by (done || lia). done.
Qed.

Lemma buf_used_same k k' id fl pkt : buf_used k id fl pkt -> same_pools k k' -> buf_used k' id fl pkt.
Proof. intros (H1 & H2 & H3) [S1 S2]. split; [by apply S1|]. by rewrite S2. Qed.

Section Send.
Context {D : Type} `{!Ether D} `{!EtherLaws D}.
Implicit Types (x : nst D) (k : kst).

Lemma write_ether_run l k x : can_send k x.(ether) -> Forall byte l -> (length l <= 1514)%nat ->
  ∃ r k' d' f, write_ether l (Lst k x) = LDone r (Lst k' (set_ether d' x)) /\ r ≠ SYSERR /\ same_pools k k' /\
    wire d' = wire x.(ether) ++ [f] /\ carries_frame l f.
Proof.
  intros Hc Hl Hn. destruct (eth_write_sends l (set_ie false k) x (can_send_ie false _ _ Hc) Hl Hn) as (r & k' & d' & f & E & Hr & S & W).
  exists r, (set_ie k.(ie) k'), d', f. split; [|by split]. unfold write_ether. nrun.
  by rewrite (lbind_done _ _ _ _ _ E).
Qed.

(** The length of the frame, from the header in host order. *)
Definition frame_length (l : list Z) : nat := Z.to_nat (l !!! 16%nat + 256 * l !!! 17%nat + ETH_HDR_LEN).

Lemma ip_out_udp pkt l k x id fl : bytes_at x.(bytes) pkt l -> Forall byte l -> (42 <= length l <= 1514)%nat ->
  l !!! 23%nat = IP_UDP -> (frame_length l <= length l)%nat -> can_send k x.(ether) -> buf_used k id fl pkt ->
  ∃ k' m' d' f, ip_out pkt (Lst k x) = LDone OK (Lst k' (set_ether d' (set_bytes m' x))) /\
    writes pkt (Z.of_nat (length l)) x.(bytes) m' /\ wire d' = wire x.(ether) ++ [f] /\
    carries_frame (take (frame_length l) (out_udp l)) f /\ pool_ok k' id ((pkt - 4) :: fl).
Proof.
  intros Hb Hl Hn Hp Hf Hc Hu. unfold ip_out.
  erewrite bind_bget by exact (read16 _ _ _ 16 Hb ltac:(lia)). cbv zeta. fold (frame_length l).
  destruct (ip_frame_udp _ _ _ Hb Hl ltac:(lia) Hp) as (m' & E & B & L & N & W). rewrite (bind_bput _ _ _ _ _ E).
  erewrite bind_bget by (apply get_bytes_run; [exact B|lia]).
  destruct (write_ether_run (take (frame_length l) (out_udp l)) k (set_bytes m' x)) as (r & k1 & d' & f & E1 & Hr & S & Wr & Cf);
    [done|by apply Forall_take|rewrite length_take; lia|].
  rewrite (lbind_done _ _ _ _ _ E1).
  destruct (lfreebuf_run id fl pkt k1 (set_ether d' (set_bytes m' x)) (buf_used_same _ _ _ _ _ Hu S)) as (k' & E2 & P & _).
  rewrite (lbind_done _ _ _ _ _ E2). rewrite (proj2 (Z.eqb_neq _ _) Hr). by exists k', m', d', f.
Qed.

(** arp_resolve for an address that is in the cache. *)
Definition arp_known (x : nst D) (addr : Z) (mac : list Z) : Prop :=
  ∃ i a, arp_search (arp_has addr) x.(arpcache) = Some (Some i) /\ x.(arpcache) !! i = Some a /\
    a.(arstate) = AR_RESOLVED /\ a.(arhaddr) = mac.

Lemma arp_resolve_known nxthop mac pkt k x m' : nxthop ≠ IP_BCAST -> nxthop ≠ x.(NetData).(ipbcast) -> arp_known x nxthop mac ->
  put_bytes pkt mac x.(bytes) = Some m' ->
  arp_resolve nxthop pkt (Lst k x) = LDone OK (Lst k (set_bytes m' x)).
Proof.
  intros H1 H2 (i & a & Hs & Ha & Hr & <-) Hm. unfold arp_resolve. nrun.
  rewrite (proj2 (Z.eqb_neq _ _) H1), (proj2 (Z.eqb_neq _ _) H2). nrun. rewrite Hs, bind_lopt.
  erewrite lbind_done; [|erewrite bind_getar by exact Ha; reflexivity].
  cbv iota. rewrite Hr. change (AR_RESOLVED =? AR_RESOLVED) with true. cbv iota. rewrite (bind_bput _ _ _ _ _ Hm). nrun.
  by destruct k.
Qed.

(** [dest] is another machine, and the way there is known: the next hop has the Ethernet
    address [mac] in the cache. *)
Definition reaches (x : nst D) (dest : Z) (mac : list Z) : Prop :=
  let nd := x.(NetData) in
  Z.land dest 4278190080 ≠ 2130706432 /\ dest ≠ nd.(ipucast) /\ dest ≠ IP_BCAST /\ dest ≠ nd.(ipbcast) /\
  next_hop nd dest ≠ 0 /\ next_hop nd dest ≠ IP_BCAST /\ next_hop nd dest ≠ nd.(ipbcast) /\
  arp_known x (next_hop nd dest) mac /\ length mac = 6%nat /\ Forall byte mac.

Lemma ip_send_udp pkt l k x id fl dest mac : reaches x dest mac ->
  bytes_at x.(bytes) pkt l -> Forall byte l -> (42 <= length l <= 1514)%nat ->
  let l' := put 0 mac l in
  l !!! 30%nat + 256 * l !!! 31%nat + 65536 * l !!! 32%nat + 16777216 * l !!! 33%nat = dest ->
  l' !!! 23%nat = IP_UDP -> (frame_length l' <= length l)%nat -> can_send k x.(ether) -> buf_used k id fl pkt ->
  ∃ k' m' d' f, ip_send pkt (Lst k x) = LDone OK (Lst k' (set_ether d' (set_bytes m' x))) /\
    writes pkt (Z.of_nat (length l)) x.(bytes) m' /\ wire d' = wire x.(ether) ++ [f] /\
    carries_frame (take (frame_length l') (out_udp l')) f /\ pool_ok k' id ((pkt - 4) :: fl).
Proof.
  intros (R1 & R2 & R3 & R4 & R5 & R6 & R7 & R8 & R9 & R10) Hb Hl Hn l' Hd Hp Hf Hc Hu. unfold ip_send. nrun.
  erewrite bind_bget by exact (read32 _ _ _ 30 Hb ltac:(lia)). rewrite Hd. nrun.
  rewrite (proj2 (Z.eqb_neq _ _) R1), (proj2 (Z.eqb_neq _ _) R2), (proj2 (Z.eqb_neq _ _) R3), (proj2 (Z.eqb_neq _ _) R4).
  cbn [orb]. rewrite (proj2 (Z.eqb_neq _ _) R5).
  destruct (acts_bytes 42 0 mac net_ethdst (λ p, eq_sym (Z.add_0_r p)) ltac:(lia) R10 (bytes x) pkt l Hb Hl ltac:(lia))
    as (m1 & E1 & B1 & L1 & N1 & W1).
  rewrite (lbind_done _ _ _ _ _ (arp_resolve_known _ mac (net_ethdst pkt) (set_ie false k) x m1 R6 R7 R8 E1)).
  change (negb (OK =? OK)) with false. cbv iota. fold l' in B1, L1, N1.
  destruct (ip_out_udp pkt l' (set_ie false k) (set_bytes m1 x) id fl B1 L1) as (k' & m' & d' & f & E & W & Wr & Cf & P);
    [lia|done|lia|by apply can_send_ie|done|].
  rewrite (lbind_done _ _ _ _ _ E). nrun. exists (set_ie k.(ie) k'), m', d', f. split; [done|].
  split; [|done]. eapply writes_trans; [exact W1|]. rewrite N1 in W. exact W.
Qed.
(** ** udp_sendto *)

(** A datagram with the bytes [data], which are at [buff], can be sent from [slot] to
    [dest]: the endpoint is in use, there is a free buffer [b], and the device takes a
    frame. *)
Record sendable (k : kst) (x : nst D) (slot : Z) (u : udpentry) (b : Z) (fl : list Z) (dest : Z) (mac : list Z)
    (buff : Z) (data l0 : list Z) : Prop := {
  sd_slot : 0 <= slot < UDP_SLOTS;
  sd_entry : x.(udptab) !! slot = Some u;
  sd_used : u.(udstate) ≠ UDP_FREE;
  sd_pool : pool_ok k x.(netbufpool) (b :: fl);
  sd_addr : b + 4 < 2147483648;
  sd_free : Z.of_nat (length fl) < 2147483646;
  sd_buffer : bytes_at x.(bytes) (b + 4) l0;
  sd_bytes : Forall byte l0;
  sd_len : length l0 = 1514%nat;
  sd_data : bytes_at x.(bytes) buff data;
  sd_data_bytes : Forall byte data;
  sd_data_len : (length data <= 1472)%nat;
  sd_apart : buff + Z.of_nat (length data) <= b + 4 \/ b + 4 + 1514 <= buff;
  sd_reaches : reaches x dest mac;
  sd_dest : is_u32 dest;
  sd_mac : length x.(NetData).(ethucast) = 6%nat;
  sd_mac_bytes : Forall byte x.(NetData).(ethucast);
  sd_device : ∀ p k', getbuf x.(netbufpool) (set_ie false k) = Done p k' -> can_send k' x.(ether) }.

Lemma put_mac mac dmac rest : length mac = 6%nat -> length dmac = 6%nat -> put 0 mac (dmac ++ rest) = mac ++ rest.
Proof.
  intros H1 H2. unfold put. rewrite take_0, H1. cbn [app]. f_equal. by apply drop_app_length'.
Qed.

Lemma udp_packet_fields dmac smac id src dst sport dport data rest : length dmac = 6%nat -> length smac = 6%nat ->
  is_u32 dst -> (length data <= 1472)%nat ->
  let l := udp_packet dmac smac id src dst sport dport data ++ rest in
  l !!! 30%nat + 256 * l !!! 31%nat + 65536 * l !!! 32%nat + 16777216 * l !!! 33%nat = dst /\
  l !!! 23%nat = IP_UDP /\ frame_length l = (42 + length data)%nat.
Proof.
  intros H1 H2 Hd Hn. destruct (mac_explode _ H1) as (a & b & c & d & e & f & ->).
  destruct (mac_explode _ H2) as (a' & b' & c' & d' & e' & f' & ->). cbv zeta. split; [exact (le32_val dst Hd)|]. split; [reflexivity|].
  change (Z.to_nat ((28 + Z.of_nat (length data)) mod 256 + 256 * ((28 + Z.of_nat (length data)) / 256 mod 256) + ETH_HDR_LEN) =
    (42 + length data)%nat). rewrite le16_val by lia. unfold ETH_HDR_LEN. lia.
Qed.

Lemma udp_packet_shape dmac smac id src dst sport dport data : length dmac = 6%nat -> length smac = 6%nat ->
  Forall byte dmac -> Forall byte smac -> Forall byte data ->
  length (udp_packet dmac smac id src dst sport dport data) = (42 + length data)%nat /\
  Forall byte (udp_packet dmac smac id src dst sport dport data).
Proof.
  intros H1 H2 B1 B2 Bd. unfold udp_packet. split; [rewrite !length_app, H1, H2; reflexivity|].
  repeat (apply Forall_app; split); try done; try apply le16_bytes; try apply le32_bytes; repeat constructor; unfold byte; lia.
Qed.

Lemma udp_frame_length dmac smac id src dst sport dport data : length dmac = 6%nat -> length smac = 6%nat ->
  length (udp_frame dmac smac id src dst sport dport data) = (42 + length data)%nat.
Proof. intros H1 H2. unfold udp_frame, ip_header. rewrite !length_app, H1, H2. reflexivity. Qed.

Lemma getbuf_used k id b fl : pool_ok k id (b :: fl) -> Z.of_nat (length fl) < 2147483646 ->
  ∃ k', getbuf id k = Done (b + 4) k' /\ buf_used k' id fl (b + 4).
Proof.
  intros Hp Hn. destruct (getbuf_run k id b fl Hp) as (k' & E & P & _ & W). exists k'. split; [done|].
  destruct Hp as (_ & _ & bp & se & _ & _ & _ & _ & _ & _ & _ & Hnd & Hr). apply NoDup_cons in Hnd as [Hni _].
  apply Forall_cons in Hr as [Hb _]. unfold buf_used. replace (b + 4 - 4) with b by lia. split; [done|].
  rewrite W, lookup_insert_eq. split; [done|]. split; [done|]. by split.
Qed.

Lemma udp_sendto_run k x slot u b fl dest mac buff data l0 remport :
  sendable k x slot u b fl dest mac buff data l0 ->
  ∃ k' m' d' f, udp_sendto slot dest remport buff (Z.of_nat (length data)) (Lst k x) =
      LDone OK (Lst k' (set_ether d' (set_bytes m' (set_sendto_ident (u16 (x.(sendto_ident) + 1)) x)))) /\
    writes (b + 4) 1514 x.(bytes) m' /\ pool_ok k' x.(netbufpool) (b :: fl) /\ wire d' = wire x.(ether) ++ [f] /\
    carries_frame (udp_frame mac x.(NetData).(ethucast) x.(sendto_ident) x.(NetData).(ipucast) dest u.(udlocport)
      remport data) f.
Proof.
  intros []. set (nd := NetData x) in *. unfold udp_sendto. nrun. rewrite isbadslot_false by done. nrun.
  rewrite (proj2 (Z.eqb_neq _ _) sd_used0). nrun.
  destruct (getbuf_used (set_ie false k) _ b fl sd_pool0 sd_free0) as (k1 & E1 & U1).
  rewrite (bind_klift _ _ _ _ _ _ E1). assert (Hb0 : 0 < b).
  { destruct sd_pool0 as (_ & _ & bp & se & _ & _ & _ & _ & _ & _ & _ & _ & Hr). apply Forall_cons in Hr as [Hb _]. lia. }
  rewrite s32_id by (unfold is_s32; lia). rewrite (proj2 (Z.eqb_neq _ SYSERR)) by (unfold SYSERR; lia). nrun.
  destruct (udp_fill_run (ethucast nd) (ipucast nd) (sendto_ident x) dest remport (udlocport u) buff (b + 4) l0 data (bytes x))
    as (m1 & E2 & B2 & W2); [done..|lia|done|done|lia|].
  erewrite bind_bput by exact E2. nsimpl.
  clear E2. set (l := _ ++ drop _ _) in B2.
  assert (H6 : length (take 6 l0) = 6%nat) by (rewrite length_take; lia).
  destruct (udp_packet_fields (take 6 l0) (ethucast nd) (sendto_ident x) (ipucast nd) dest (udlocport u) remport data
    (drop (42 + length data) l0) H6 sd_mac0 sd_dest0 sd_data_len0) as (F1 & _ & _). fold l in F1.
  pose proof sd_reaches0 as (_ & _ & _ & _ & _ & _ & _ & _ & R9 & R10).
  destruct (udp_packet_fields mac (ethucast nd) (sendto_ident x) (ipucast nd) dest (udlocport u) remport data
    (drop (42 + length data) l0) R9 sd_mac0 sd_dest0 sd_data_len0) as (_ & F2 & F3).
  destruct (udp_packet_shape (take 6 l0) (ethucast nd) (sendto_ident x) (ipucast nd) dest (udlocport u) remport data
    H6 sd_mac0 (Forall_take _ _ _ sd_bytes0) sd_mac_bytes0 sd_data_bytes0) as [Hn Hl].
  assert (Hl' : Forall byte l) by (apply Forall_app; split; [done|by apply Forall_drop]).
  assert (Hn' : length l = 1514%nat) by (unfold l; rewrite length_app, Hn, length_drop; lia).
  assert (Hp : put 0 mac l = udp_packet mac (ethucast nd) (sendto_ident x) (ipucast nd) dest (udlocport u) remport data ++
    drop (42 + length data) l0) 
    by (unfold l, udp_packet; cbv zeta; rewrite <- !app_assoc; exact (put_mac mac (take 6 l0) _ R9 H6)).
  destruct (ip_send_udp (b + 4) l k1 (set_bytes m1 (set_sendto_ident (u16 (sendto_ident x + 1)) x)) (netbufpool x) fl dest mac sd_reaches0 B2 Hl')
    as (k' & m' & d' & f & E & W & Wr & Cf & P); [lia|done|by rewrite Hp|rewrite Hp; lia|by eapply sd_device0|exact U1|].
  rewrite (lbind_done _ _ _ _ _ E). nrun. rewrite Hp, F3, seal_udp, take_app_length' in Cf by (done || by rewrite udp_frame_length).
  replace (b + 4 - 4) with b in P by lia. exists (set_ie k.(ie) k'), m', d', f. split; [done|].
  rewrite Hn' in W. rewrite sd_len0 in W2. split; [by eapply writes_trans|done].
Qed.
End Send.
