(* ===== verification/Netrecv.v ===== *)
(** Receiving: a frame from the device on its way through netin, ip_in and udp_in, and
    the exchange of a datagram between two machines. *)

From S2P Require Import Prelude Types Cstring Queue Memory Kernel Sched Sem Bufpool Bytes Ring Lift Net Netlib Arp Udp Icmp Ip Udpthm Frame Netsend.

(** * The frame of a datagram, converted to host order *)

(** The packet as udp_in gets it. *)
Definition udp_arrived (dmac smac : list Z) (id src dst sport dport : Z) (data : list Z) : list Z :=
  let len := Z.of_nat (length data) in
  dmac ++ smac ++ le16 ETH_IP ++ [69; 0] ++ le16 (28 + len) ++ le16 id ++ [0; 0; 255; 17] ++
  be16 (cksum_of (sum (words 10 0 (ip_header len id src dst 0)))) ++
  le32 src ++ le32 dst ++ le16 sport ++ le16 dport ++ le16 (8 + len) ++ [0; 0] ++ data.

Lemma be16_val x : 0 <= x < 65536 -> 256 * (x / 256 mod 256) + x mod 256 = x.
Proof. intros H. rewrite <- (le16_val x H) at 3. lia. Qed.

(** The bytes of a header are any bytes. *)
Ltac name_bytes := repeat match goal with |- context [?a mod 256] =>
  let H := fresh in let b := fresh in
  pose proof (byte_mod a) as H; unfold byte in H; set (b := a mod 256) in *; clearbody b end.

Lemma header_sum len id src dst ck : word16 ck ->
  sum (words 10 0 (ip_header len id src dst ck)) = sum (words 10 0 (ip_header len id src dst 0)) + ck.
Proof.
  intros Hc. rewrite <- (be16_val ck Hc) at 2. unfold sum. cbn -[Z.mul Z.add Z.modulo Z.div].
  change (0 / 256 mod 256) with 0. change (0 mod 256) with 0. name_bytes. lia.
Qed.

Lemma header_sum_range len id src dst : 0 <= sum (words 10 0 (ip_header len id src dst 0)) <= 9 * 65535.
Proof.
  unfold sum. cbn -[Z.mul Z.add Z.modulo Z.div].
  name_bytes. lia.
Qed.

Lemma frame_in dmac smac id src dst sport dport data rest : length dmac = 6%nat -> length smac = 6%nat ->
  let len := Z.of_nat (length data) in
  let l := swap2 12 (udp_frame dmac smac id src dst sport dport data ++ rest) in
  l !!! 12%nat + 256 * l !!! 13%nat = ETH_IP /\
  words 10 14 l = words 10 0 (ip_header len id src dst (cksum_of (sum (words 10 0 (ip_header len id src dst 0))))) /\
  swap_ip l !!! 14%nat = 69 /\ swap_ip l !!! 23%nat = IP_UDP /\
  swap_udp (swap_ip l) = udp_arrived dmac smac id src dst sport dport data ++ rest.
Proof.
  intros H1 H2. destruct (mac_explode _ H1) as (a & b & c & d & e & f & ->).
  destruct (mac_explode _ H2) as (a' & b' & c' & d' & e' & f' & ->). cbv zeta.
  do 4 (split; [reflexivity|]). reflexivity.
Qed.

Lemma arrived_fields dmac smac id src dst sport dport data rest : length dmac = 6%nat -> length smac = 6%nat ->
  is_u32 src -> is_u32 dst -> 0 <= sport < 65536 -> 0 <= dport < 65536 -> (length data <= 1472)%nat ->
  let l := udp_arrived dmac smac id src dst sport dport data ++ rest in
  l !!! 26%nat + 256 * l !!! 27%nat + 65536 * l !!! 28%nat + 16777216 * l !!! 29%nat = src /\
  l !!! 30%nat + 256 * l !!! 31%nat + 65536 * l !!! 32%nat + 16777216 * l !!! 33%nat = dst /\
  l !!! 34%nat + 256 * l !!! 35%nat = sport /\ l !!! 36%nat + 256 * l !!! 37%nat = dport /\
  l !!! 23%nat = IP_UDP /\ udp_length l = 8 + Z.of_nat (length data) /\ drop 42 l = data ++ rest.
Proof.
  intros H1 H2 Hs Hd Hsp Hdp Hn. destruct (mac_explode _ H1) as (a & b & c & d & e & f & ->).
  destruct (mac_explode _ H2) as (a' & b' & c' & d' & e' & f' & ->). cbv zeta.
  split; [exact (le32_val src Hs)|]. split; [exact (le32_val dst Hd)|]. split; [exact (le16_val sport Hsp)|].
  split; [exact (le16_val dport Hdp)|]. split; [reflexivity|].
  split; [exact (le16_val (8 + Z.of_nat (length data)) ltac:(lia))|reflexivity].
Qed.

Section Recv.
Context {D : Type} `{!Ether D} `{!EtherLaws D}.
Implicit Types (x : nst D) (k : kst).

(** * From the device to udp_in *)

Lemma read_ether_run f fs k x p l : can_recv k x.(ether) -> arrived x.(ether) = f :: fs -> Forall byte f -> Forall byte l ->
  bytes_at x.(bytes) p l -> (length f <= 1514)%nat -> length l = 1514%nat ->
  ∃ k' d' m', read_ether p PACKLEN (Lst k x) = LDone (Z.of_nat (length f)) (Lst k' (set_bytes m' (set_ether d' x))) /\
    same_pools k k' /\ arrived d' = fs /\ bytes_at m' p (f ++ drop (length f) l) /\ writes p 1514 x.(bytes) m'.
Proof.
  intros Hc Ha Hf Hl Hb Hn Hln.
  destruct (eth_read_takes f fs (set_ie false k) x (can_recv_ie false _ _ Hc) Ha Hn) as (k' & d' & E & S & A).
  destruct (acts_bytes 1514 0 f id (λ p, eq_sym (Z.add_0_r p)) ltac:(lia) Hf (bytes x) p l Hb Hl ltac:(lia))
    as (m' & E' & B & L & N & W). rewrite Hln in W.
  exists (set_ie k.(ie) k'), d', m'. split; [|done]. unfold read_ether. nrun. rewrite (lbind_done _ _ _ _ _ E).
  cbn [fst snd]. erewrite bind_bput by exact E'. by nrun.
Qed.

(** The checks of ip_in on a datagram for this machine. *)
Lemma ip_in_udp pkt l k x : bytes_at x.(bytes) pkt l -> Forall byte l -> (42 <= length l)%nat ->
  cksum_of (sum (words 10 14 l)) = 0 -> swap_ip l !!! 14%nat = 69 -> swap_ip l !!! 23%nat = IP_UDP ->
  let l' := swap_udp (swap_ip l) in
  l' !!! 23%nat = IP_UDP -> x.(NetData).(ipvalid) = true ->
  l' !!! 30%nat + 256 * l' !!! 31%nat + 65536 * l' !!! 32%nat + 16777216 * l' !!! 33%nat = x.(NetData).(ipucast) ->
  x.(NetData).(ipucast) ≠ IP_BCAST ->
  ∃ m', ip_in pkt (Lst k x) = udp_in pkt (Lst k (set_bytes m' x)) /\ bytes_at m' pkt l' /\ Forall byte l' /\
    length l' = length l /\ writes pkt (Z.of_nat (length l)) x.(bytes) m'.
Proof.
  intros Hb Hl Hn Hck Hvh Hpr l' Hpr' Hv Hd Hbc.
  destruct (ip_ntoh_acts (bytes x) pkt l Hb Hl Hn) as (m1 & E1 & B1 & L1 & N1 & W1).
  destruct (udp_ntoh_acts m1 pkt _ B1 L1 ltac:(lia)) as (m2 & E2 & B2 & L2 & N2 & W2). fold l' in B2, L2, N2.
  exists m2. split; [|split; [done|split; [done|split; [lia|eapply writes_trans; [exact W1|by rewrite <- N1]]]]].
  pose proof (read_byte m1 pkt _ 14 B1 ltac:(lia)) as R14. pose proof (read_byte m1 pkt _ 23 B1 ltac:(lia)) as R23.
  pose proof (read_byte m2 pkt _ 23 B2 ltac:(lia)) as R23'. pose proof (read32 m2 pkt _ 30 B2 ltac:(lia)) as R30.
  rewrite Hvh in R14. rewrite Hpr in R23. rewrite Hpr' in R23'. rewrite Hd in R30. clearbody l'. clear B1 B2.
  pose proof (ipcksum_run _ _ _ Hb Hl ltac:(lia)) as Rc. rewrite Hck in Rc.
  unfold ip_in. erewrite bind_bget by exact Rc.
  change (negb (0 =? 0)) with false. cbv iota. erewrite bind_bput by exact E1.
  erewrite bind_bget by exact R14. change (negb (69 =? 69)) with false. cbv iota.
  erewrite bind_bget by exact R23. change (IP_UDP =? IP_UDP) with true. cbv iota.
  erewrite bind_bput by exact E2. unfold ip_deliver. erewrite bind_bget by exact R30. nrun.
  rewrite (proj2 (Z.eqb_neq _ _) Hbc), Hv. cbn [negb]. rewrite Z.eqb_refl. cbn [orb].
  unfold ip_local. erewrite bind_bget by exact R23'. done.
Qed.

(** A machine that can take the frame [f]: the device has it, and [b] is a free buffer with
    the bytes [l0]. *)
Record gets_frame (k : kst) (x : nst D) (f : list Z) (fs : list (list Z)) (b : Z) (fl l0 : list Z) : Prop := {
  rc_pool : pool_ok k x.(netbufpool) (b :: fl);
  rc_free : Z.of_nat (length fl) < 2147483646;
  rc_buffer : bytes_at x.(bytes) (b + 4) l0;
  rc_bytes : Forall byte l0;
  rc_len : length l0 = 1514%nat;
  rc_arrived : arrived x.(ether) = f :: fs;
  rc_device : ∀ p k', getbuf x.(netbufpool) k = Done p k' -> can_recv k' x.(ether) }.

(** A machine that takes the datagram in frame [f]: it has the address [dst], and entry
    [slot] of [udptab] is the first with room that matches. *)
Record receives (k : kst) (x : nst D) (f : list Z) (fs : list (list Z)) (src dst sport dport : Z) (slot : Z) (u : udpentry)
    (xs : list Z) (b : Z) (fl l0 : list Z) : Prop := {
  rc_frame : gets_frame k x f fs b fl l0;
  rc_valid : x.(NetData).(ipvalid) = true;
  rc_addr : x.(NetData).(ipucast) = dst;
  rc_unicast : dst ≠ IP_BCAST;
  rc_slot : udp_search (udp_takes dport sport src) x.(udptab) = Some (Some slot);
  rc_entry : x.(udptab) !! slot = Some u;
  rc_queue : ud_holds u xs }.

(** What is on the wire: addresses and ports are numbers of their width. *)
Record datagram (dmac smac : list Z) (src dst sport dport : Z) (data : list Z) : Prop := {
  dg_dmac : length dmac = 6%nat;
  dg_smac : length smac = 6%nat;
  dg_dmac_bytes : Forall byte dmac;
  dg_smac_bytes : Forall byte smac;
  dg_src : is_u32 src;
  dg_dst : is_u32 dst;
  dg_sport : 0 <= sport < 65536;
  dg_dport : 0 <= dport < 65536;
  dg_data : Forall byte data;
  dg_len : (length data <= 1472)%nat }.

Lemma be16_bytes v : Forall byte (be16 v).
Proof. unfold be16. repeat constructor; apply byte_mod. Qed.

Lemma be32_bytes v : Forall byte (be32 v).
Proof. unfold be32. repeat constructor; apply byte_mod. Qed.

Lemma udp_frame_bytes dmac smac id src dst sport dport data : datagram dmac smac src dst sport dport data ->
  Forall byte (udp_frame dmac smac id src dst sport dport data).
Proof.
  intros []. unfold udp_frame, ip_header. generalize (cksum_of (sum (words 10 0
    ([69; 0] ++ be16 (28 + Z.of_nat (length data)) ++ be16 id ++ [0; 0; 255; 17] ++ be16 0 ++ be32 src ++ be32 dst)))). intros ck.
  repeat (apply Forall_app; split); try done; try apply be16_bytes; try apply be32_bytes; repeat constructor; unfold byte; lia.
Qed.

Lemma frame_cksum dmac smac id src dst sport dport data rest : length dmac = 6%nat -> length smac = 6%nat ->
  cksum_of (sum (words 10 14 (swap2 12 (udp_frame dmac smac id src dst sport dport data ++ rest)))) = 0.
Proof.
  intros H1 H2. destruct (frame_in dmac smac id src dst sport dport data rest H1 H2) as (_ & -> & _).
  rewrite header_sum by apply cksum_word. apply cksum_verifies, header_sum_range.
Qed.

Lemma getbuf_next k id b fl : pool_ok k id (b :: fl) -> 0 < b.
Proof. intros (_ & _ & bp & se & _ & _ & _ & _ & _ & _ & _ & _ & Hr). apply Forall_cons in Hr as [Hb _]. lia. Qed.

(** A frame after netin has put it into a buffer and converted its type. *)
Lemma netin_frame_run k x f fs b fl l0 : gets_frame k x f fs b fl l0 -> Forall byte f -> (42 <= length f <= 1514)%nat ->
  let l := swap2 12 (f ++ drop (length f) l0) in
  let ethtype := l !!! 12%nat + 256 * l !!! 13%nat in
  ∃ k' m' d', netin_round (Lst k x) =
      (if ethtype =? ETH_ARP then arp_in (b + 4) else if ethtype =? ETH_IP then ip_in (b + 4) else lfreebuf (b + 4))
        (Lst k' (set_bytes m' (set_ether d' x))) /\
    buf_used k' x.(netbufpool) fl (b + 4) /\ arrived d' = fs /\
    bytes_at m' (b + 4) l /\ Forall byte l /\ length l = 1514%nat /\ writes (b + 4) 1514 x.(bytes) m'.
Proof.
  intros [] Hf Hn l ethtype. destruct (getbuf_used k _ b fl rc_pool0 rc_free0) as (k1 & E1 & U1).
  destruct (read_ether_run f fs k1 x (b + 4) l0) as (k2 & d' & m1 & E2 & S2 & A2 & B2 & W2); try done; [by eapply rc_device0|lia|].
  assert (Hb : Forall byte (f ++ drop (length f) l0)) by (apply Forall_app; split; [done|by apply Forall_drop]).
  assert (Hln : length (f ++ drop (length f) l0) = 1514%nat) by (rewrite length_app, length_drop; lia).
  destruct (eth_ntoh_acts m1 (b + 4) _ B2 Hb ltac:(lia)) as (m2 & E3 & B3 & L3 & N3 & W3). fold l in B3, L3, N3.
  rewrite Hln in N3, W3. exists k2, m2, d'. split; [|split; [by eapply buf_used_same|]].
  - unfold netin_round. nrun. rewrite (bind_klift _ _ _ _ _ _ E1). rewrite (lbind_done _ _ _ _ _ E2).
    rewrite (proj2 (Z.eqb_neq _ SYSERR)) by (unfold SYSERR; lia). erewrite bind_bput by exact E3. nsimpl.
    by erewrite bind_bget by exact (read16 m2 (b + 4) l 12 B3 ltac:(lia)).
  - do 4 (split; [done|]). by eapply writes_trans.
Qed.

Lemma netin_udp_run k x fs dmac smac id src dst sport dport data pad slot u xs b fl l0 :
  let f := udp_frame dmac smac id src dst sport dport data ++ pad in
  receives k x f fs src dst sport dport slot u xs b fl l0 ->
  datagram dmac smac src dst sport dport data -> Forall byte pad -> (length f <= 1514)%nat ->
  ∃ k' m' d' rest, netin_round (Lst k x) = (udp_notify u;; lrestore k'.(ie))
      (Lst (set_ie false k') (set_udptab (<[slot := ud_entered (b + 4) u]> x.(udptab)) (set_bytes m' (set_ether d' x)))) /\
    ud_holds (ud_entered (b + 4) u) (xs ++ [b + 4]) /\ buf_used k' x.(netbufpool) fl (b + 4) /\ arrived d' = fs /\
    let l := udp_arrived dmac smac id src dst sport dport data ++ rest in
    bytes_at m' (b + 4) l /\ length l = 1514%nat /\ writes (b + 4) 1514 x.(bytes) m'.
Proof.
  intros f Hr [] Hp Hn. assert (Hfb : Forall byte f) by (apply Forall_app; split; [by apply udp_frame_bytes|done]).
  pose proof Hr as []. assert (Hfl : length f = (42 + length data + length pad)%nat) by (unfold f; by rewrite length_app, udp_frame_length).
  destruct (frame_in dmac smac id src dst sport dport data (pad ++ drop (length f) l0) dg_dmac0 dg_smac0) as (F1 & _ & F3 & F4 & F5).
  pose proof (frame_cksum dmac smac id src dst sport dport data (pad ++ drop (length f) l0) dg_dmac0 dg_smac0) as F2.
  rewrite app_assoc in F1, F2, F3, F4, F5. fold f in F1, F2, F3, F4, F5.
  destruct (netin_frame_run _ _ _ _ _ _ _ rc_frame0 Hfb ltac:(lia)) as (k' & m1 & d' & E1 & U1 & A1 & B1 & L1 & N1 & W1).
  rewrite F1 in E1. change (ETH_IP =? ETH_ARP) with false in E1. change (ETH_IP =? ETH_IP) with true in E1. cbv iota in E1.
  destruct (arrived_fields dmac smac id src dst sport dport data (pad ++ drop (length f) l0))
    as (G1 & G2 & G3 & G4 & G5 & _ & _); [done..|]. rewrite app_assoc, <- app_assoc in F5.
  set (l2 := udp_arrived _ _ _ _ _ _ _ _ ++ _) in *. set (l1 := swap2 12 (f ++ _)) in *. clearbody l1. symmetry in F5.
  destruct (ip_in_udp (b + 4) l1 k' (set_bytes m1 (set_ether d' x)) B1 L1 ltac:(lia) F2 F3 F4)
    as (m2 & E2 & B2 & L2 & N2 & W2); [by rewrite <- F5|done|rewrite <- F5; exact (eq_trans G2 (eq_sym rc_addr0))|nsimpl; by rewrite rc_addr0|].
  rewrite <- F5 in B2, L2, N2. clear F5. rewrite N1 in N2, W2.
  assert (Hh : udp_header m2 (b + 4) dport sport src).
  { pose proof (read16 _ _ _ 36 B2 ltac:(lia)) as R1. pose proof (read16 _ _ _ 34 B2 ltac:(lia)) as R2.
    pose proof (read32 _ _ _ 26 B2 ltac:(lia)) as R3. rewrite G4 in R1. rewrite G3 in R2. rewrite G1 in R3. by split. }
  destruct (udp_in_run (b + 4) k' (set_bytes m2 (set_ether d' x)) _ _ _ _ Hh rc_slot0 u xs rc_entry0 rc_queue0) as [Hu E3].
  exists k', m2, d', (pad ++ drop (length f) l0). split; [rewrite E1, E2; exact E3|].
  do 3 (split; [done|]). split; [exact B2|]. split; [exact N2|]. by eapply writes_trans.
Qed.
End Recv.
