(* ===== verification/Netok.v ===== *)
(** The tables of the network stack stay well formed: whatever a system call or a process
    of the network does, and wherever the others go on in between.

    [net_ok] is kept by every operation of net/ in the sense of Lift.v: it holds whenever
    the operation gives up the processor and when it ends, if the other processes keep it
    meanwhile.  What an operation does between two such points is computed, so that an index
    may be past the end before it wraps around. *)

From S2P Require Import Prelude Types Cstring Queue Memory Kernel Sched Sem Msg Devsw Proc Bufpool Bytes Lift Net Netlib Arp Udp Icmp Ip.

(** * The invariant *)

Record ud_ok (u : udpentry) : Prop := {
  uo_state : u.(udstate) = UDP_FREE \/ u.(udstate) = UDP_USED \/ u.(udstate) = UDP_RECV;
  uo_head : 0 <= u.(udhead) < UDP_QSIZ;
  uo_tail : 0 <= u.(udtail) < UDP_QSIZ;
  uo_queue : arr_len UDP_QSIZ u.(udqueue) }.

(** The index of the next reply to read is below [h]: icmp_recv and icmp_release set it back
    at ICMP_SLOTS, the other operations leave it below ICMP_QSIZ. *)
Record ic_ok (h : Z) (u : icmpentry) : Prop := {
  io_state : u.(icstate) = ICMP_FREE \/ u.(icstate) = ICMP_USED \/ u.(icstate) = ICMP_RECV;
  io_head : 0 <= u.(ichead) < h;
  io_tail : 0 <= u.(ictail) < ICMP_QSIZ;
  io_queue : arr_len ICMP_QSIZ u.(icqueue) }.

Record ar_ok (a : arpentry) : Prop := {
  ao_state : a.(arstate) = AR_FREE \/ a.(arstate) = AR_PENDING \/ a.(arstate) = AR_RESOLVED;
  ao_mac : length a.(arhaddr) = 6%nat }.

Record iq_ok (q : iqentry) : Prop := {
  qo_head : 0 <= q.(iqhead) < IP_OQSIZ;
  qo_tail : 0 <= q.(iqtail) < IP_OQSIZ;
  qo_buf : arr_len IP_OQSIZ q.(iqbuf) }.

(** No address has two entries. *)
Definition ar_unique (t : gmap Z arpentry) : Prop :=
  ∀ i j a b, t !! i = Some a -> t !! j = Some b -> a.(arstate) ≠ AR_FREE -> b.(arstate) ≠ AR_FREE ->
    a.(arpaddr) = b.(arpaddr) -> i = j.

Record net_ok {D} (h : Z) (x : nst D) : Prop := {
  no_udp : arr_len UDP_SLOTS x.(udptab) /\ map_Forall (λ _, ud_ok) x.(udptab);
  no_icmp : arr_len ICMP_SLOTS x.(icmptab) /\ map_Forall (λ _, ic_ok h) x.(icmptab);
  no_arp : arr_len ARP_SIZ x.(arpcache) /\ map_Forall (λ _, ar_ok) x.(arpcache) /\ ar_unique x.(arpcache);
  no_iq : iq_ok x.(ipoqueue) }.

Section Keep.
Context {D : Type} {hmax : Z}.
Implicit Types x : nst D.

(** * One step *)

Lemma stays_eq {A B} I Q (m m' : L (nst D) A) (g : A -> L (nst D) B) s : m s = m' s -> stays I Q ((m' ≫= g) s) -> stays I Q ((m ≫= g) s).
Proof. intros H. unfold mbind, L_bind. by rewrite H. Qed.

Lemma stays_bget {A B} I Q (f : bmem -> option A) (g : A -> L (nst D) B) k x :
  (∀ a, f x.(bytes) = Some a -> stays I Q (g a (Lst k x))) -> stays I Q ((bget f ≫= g) (Lst k x)).
Proof.
  intros H. destruct (f (bytes x)) as [a|] eqn:E; [by rewrite (bind_bget _ _ _ _ _ E); apply H|].
  unfold bget, mbind, L_bind, getx, lopt. cbn [lbind lx]. by rewrite E.
Qed.

Lemma stays_bput {B} I Q f (g : unit -> L (nst D) B) k x :
  (∀ m, stays I Q (g tt (Lst k (set_bytes m x)))) -> stays I Q ((bput f ≫= g) (Lst k x)).
Proof.
  intros H. destruct (f (bytes x)) as [m|] eqn:E; [by rewrite (bind_bput _ _ _ _ _ E)|].
  unfold bput, mbind, L_bind, getx, lopt, modx. cbn [lbind lx]. by rewrite E.
Qed.

Lemma stays_lopt {A B} I Q (o : option A) (g : A -> L (nst D) B) s :
  (∀ a, o = Some a -> stays I Q (g a s)) -> stays I Q ((lopt o ≫= g) s).
Proof. intros H. destruct o as [a|]; [by apply H|done]. Qed.

Lemma stays_getud {B} I Q i (g : udpentry -> L (nst D) B) k x :
  (∀ u, x.(udptab) !! i = Some u -> stays I Q (g u (Lst k x))) -> stays I Q ((getud i ≫= g) (Lst k x)).
Proof.
  intros H. destruct (udptab x !! i) as [u|] eqn:E; [by rewrite (bind_getud _ _ _ _ _ E); apply H|].
  unfold getud, mbind, L_bind, getx, lopt. cbn [lbind lx]. by rewrite E.
Qed.

Lemma arr_upd_None {V} (f : V -> V) i t : t !! i = None -> arr_upd f i t = None.
Proof. intros H. unfold arr_upd. by rewrite H. Qed.

Lemma stays_updud {B} I Q f i (g : unit -> L (nst D) B) k x :
  (∀ u, x.(udptab) !! i = Some u -> stays I Q (g tt (Lst k (set_udptab (<[i := f u]> x.(udptab)) x)))) ->
  stays I Q ((updud f i ≫= g) (Lst k x)).
Proof.
  intros H. destruct (udptab x !! i) as [u|] eqn:E; [by rewrite (bind_updud _ _ _ _ _ _ E); apply H|].
  unfold updud, mbind, L_bind, getx, lopt. cbn [lbind lx]. by rewrite (arr_upd_None _ _ _ E).
Qed.

Lemma stays_getic {B} I Q i (g : icmpentry -> L (nst D) B) k x :
  (∀ u, x.(icmptab) !! i = Some u -> stays I Q (g u (Lst k x))) -> stays I Q ((getic i ≫= g) (Lst k x)).
Proof.
  intros H. destruct (icmptab x !! i) as [u|] eqn:E; [by rewrite (bind_getic _ _ _ _ _ E); apply H|].
  unfold getic, mbind, L_bind, getx, lopt. cbn [lbind lx]. by rewrite E.
Qed.

Lemma stays_updic {B} I Q f i (g : unit -> L (nst D) B) k x :
  (∀ u, x.(icmptab) !! i = Some u -> stays I Q (g tt (Lst k (set_icmptab (<[i := f u]> x.(icmptab)) x)))) ->
  stays I Q ((updic f i ≫= g) (Lst k x)).
Proof.
  intros H. destruct (icmptab x !! i) as [u|] eqn:E; [by rewrite (bind_updic _ _ _ _ _ _ E); apply H|].
  unfold updic, mbind, L_bind, getx, lopt. cbn [lbind lx]. by rewrite (arr_upd_None _ _ _ E).
Qed.

Lemma stays_getar {B} I Q i (g : arpentry -> L (nst D) B) k x :
  (∀ u, x.(arpcache) !! i = Some u -> stays I Q (g u (Lst k x))) -> stays I Q ((getar i ≫= g) (Lst k x)).
Proof.
  intros H. destruct (arpcache x !! i) as [u|] eqn:E; [by rewrite (bind_getar _ _ _ _ _ E); apply H|].
  unfold getar, mbind, L_bind, getx, lopt. cbn [lbind lx]. by rewrite E.
Qed.

Lemma stays_updar {B} I Q f i (g : unit -> L (nst D) B) k x :
  (∀ u, x.(arpcache) !! i = Some u -> stays I Q (g tt (Lst k (set_arpcache (<[i := f u]> x.(arpcache)) x)))) ->
  stays I Q ((updar f i ≫= g) (Lst k x)).
Proof.
  intros H. destruct (arpcache x !! i) as [u|] eqn:E; [by rewrite (bind_updar _ _ _ _ _ _ E); apply H|].
  unfold updar, mbind, L_bind, getx, lopt. cbn [lbind lx]. by rewrite (arr_upd_None _ _ _ E).
Qed.

(** A part that keeps the invariant, in the middle of a computation. *)
Lemma stays_keeps {A B} I (m : L (nst D) A) (g : A -> L (nst D) B) s : keeps I m -> I s.(lx) ->
  (∀ a, keeps I (g a)) -> stays I (λ _, I) ((m ≫= g) s).
Proof. intros Hm Hs Hg. by apply (keeps_bind I m g Hm Hg). Qed.

Lemma stays_tail {A} I Q (m : L (nst D) A) s : stays I Q ((m ≫= mret) s) -> stays I Q (m s).
Proof.
  unfold mbind, L_bind. generalize (m s). intros r. induction r as [a s'|o s' g IH| |]; simpl; [done| |done|done].
  intros [H1 H2]. split; [done|]. intros s'' Hs. apply IH, H2, Hs.
Qed.

Lemma stays_assoc {A B C} I Q (m : L (nst D) A) (f : A -> L (nst D) B) (g : B -> L (nst D) C) s :
  stays I Q ((m ≫= λ a, f a ≫= g) s) -> stays I Q (((m ≫= f) ≫= g) s).
Proof.
  unfold mbind, L_bind. generalize (m s). intros r. induction r as [a s'|o s' h IH| |]; simpl; [done| |done|done].
  intros [H1 H2]. split; [done|]. intros s'' Hs. apply IH, H2, Hs.
Qed.

(** * Writes that keep the invariant *)

Lemma net_ok_same x (y : nst D) : udptab y = udptab x -> icmptab y = icmptab x -> arpcache y = arpcache x -> ipoqueue y = ipoqueue x ->
  (net_ok hmax) x -> (net_ok hmax) y.
Proof. intros E1 E2 E3 E4 []. constructor; by rewrite ?E1, ?E2, ?E3, ?E4. Qed.

Lemma arr_ok_insert {V} (P : V -> Prop) n t i v w : arr_len n t /\ map_Forall (λ _, P) t -> t !! i = Some v -> P w ->
  arr_len n (<[i := w]> t) /\ map_Forall (λ _, P) (<[i := w]> t).
Proof.
  intros [Hl Hf] Hv Hw. split; [apply arr_len_insert; [done|by eapply arr_len_lt]|]. by apply map_Forall_insert_2.
Qed.

Lemma net_ok_udptab x i u v : (net_ok hmax) x -> x.(udptab) !! i = Some u -> ud_ok v -> (net_ok hmax) (set_udptab (<[i := v]> x.(udptab)) x).
Proof. intros [Hu Hi Ha Hq] Hx Hv. constructor; [by eapply arr_ok_insert|done..]. Qed.

Lemma net_ok_icmptab x i u v : (net_ok hmax) x -> x.(icmptab) !! i = Some u -> (ic_ok hmax) v -> (net_ok hmax) (set_icmptab (<[i := v]> x.(icmptab)) x).
Proof. intros [Hu Hi Ha Hq] Hx Hv. constructor; [done|by eapply arr_ok_insert|done..]. Qed.

(** An entry that is free, or keeps its address, or gets an address that is not there. *)
Lemma ar_unique_insert t i a b : ar_unique t -> t !! i = Some a ->
  b.(arstate) = AR_FREE \/ (a.(arstate) ≠ AR_FREE /\ b.(arpaddr) = a.(arpaddr)) \/
    (∀ j c, t !! j = Some c -> j ≠ i -> c.(arstate) ≠ AR_FREE -> c.(arpaddr) ≠ b.(arpaddr)) ->
  ar_unique (<[i := b]> t).
Proof.
  intros Hu Ha Hb j j' c c' Hj Hj' Hc Hc' E.
  assert (G : ∀ k d, <[i := b]> t !! k = Some d -> d.(arstate) ≠ AR_FREE -> k ≠ i -> d.(arpaddr) = b.(arpaddr) ->
    b.(arstate) ≠ AR_FREE -> False).
  { intros k d Hk Hd Hne Ed Hbf. rewrite lookup_insert_ne in Hk by done. destruct Hb as [Hb|[[Hb Eb]|Hb]].
    - done.
    - apply Hne. apply (Hu k i d a Hk Ha Hd Hb). congruence.
    - by apply (Hb k d Hk Hne Hd). }
  destruct (decide (j = i)) as [->|Hj1], (decide (j' = i)) as [->|Hj2]; [done|..].
  - rewrite lookup_insert_eq in Hj. injection Hj as <-. by destruct (G j' c' Hj' Hc' Hj2 (eq_sym E) Hc).
  - rewrite lookup_insert_eq in Hj'. injection Hj' as <-. by destruct (G j c Hj Hc Hj1 E Hc').
  - rewrite lookup_insert_ne in Hj, Hj' by done. by apply (Hu j j' c c').
Qed.

Lemma net_ok_arpcache x i a b : (net_ok hmax) x -> x.(arpcache) !! i = Some a -> ar_ok b ->
  b.(arstate) = AR_FREE \/ (a.(arstate) ≠ AR_FREE /\ b.(arpaddr) = a.(arpaddr)) \/
    (∀ j c, x.(arpcache) !! j = Some c -> j ≠ i -> c.(arstate) ≠ AR_FREE -> c.(arpaddr) ≠ b.(arpaddr)) ->
  (net_ok hmax) (set_arpcache (<[i := b]> x.(arpcache)) x).
Proof.
  intros [Hu Hi (Hl & Hf & Hun) Hq] Hx Hb Hd.
  constructor; [done|done| |done]. destruct (arr_ok_insert ar_ok ARP_SIZ _ _ _ _ (conj Hl Hf) Hx Hb) as [H1 H2].
  split; [done|]. split; [done|]. by eapply ar_unique_insert.
Qed.

Lemma net_ok_ud x i u : (net_ok hmax) x -> x.(udptab) !! i = Some u -> ud_ok u.
Proof. intros [[_ H] _ _ _] Hi. exact (H i u Hi). Qed.

Lemma net_ok_ic x i u : (net_ok hmax) x -> x.(icmptab) !! i = Some u -> (ic_ok hmax) u.
Proof. intros [_ [_ H] _ _] Hi. exact (H i u Hi). Qed.

Lemma net_ok_ar x i a : (net_ok hmax) x -> x.(arpcache) !! i = Some a -> ar_ok a.
Proof. intros [_ _ (_ & H & _) _] Hi. exact (H i a Hi). Qed.

(** * The steps that keep it by themselves *)

Lemma keeps_bget {A} I (f : bmem -> option A) : keeps I (bget f : L (nst D) A).
Proof. intros [k x] H. apply stays_tail, stays_bget. by intros a _. Qed.

Lemma keeps_bput f : keeps (net_ok hmax) (bput f : L (nst D) unit).
Proof. intros [k x] H. apply stays_tail, stays_bput. intros m. by apply (net_ok_same x). Qed.

Lemma keeps_getud I i : keeps I (getud i : L (nst D) udpentry).
Proof. intros [k x] H. apply stays_tail, stays_getud. by intros a _. Qed.

Lemma keeps_getic I i : keeps I (getic i : L (nst D) icmpentry).
Proof. intros [k x] H. apply stays_tail, stays_getic. by intros a _. Qed.

Lemma keeps_getar I i : keeps I (getar i : L (nst D) arpentry).
Proof. intros [k x] H. apply stays_tail, stays_getar. by intros a _. Qed.

Lemma keeps_updud f i : (∀ u, ud_ok u -> ud_ok (f u)) -> keeps (net_ok hmax) (updud f i : L (nst D) unit).
Proof. intros Hf [k x] H. apply stays_tail, stays_updud. intros u Hu. eapply net_ok_udptab; [done..|]. by eapply Hf, net_ok_ud. Qed.

Lemma keeps_updic f i : (∀ u, (ic_ok hmax) u -> (ic_ok hmax) (f u)) -> keeps (net_ok hmax) (updic f i : L (nst D) unit).
Proof. intros Hf [k x] H. apply stays_tail, stays_updic. intros u Hu. eapply net_ok_icmptab; [done..|]. by eapply Hf, net_ok_ic. Qed.

Lemma keeps_updiq f : (∀ q, iq_ok q -> iq_ok (f q)) -> keeps (net_ok hmax) (updiq f : L (nst D) unit).
Proof. intros Hf [k x] []. constructor; [done..|]. by apply Hf. Qed.

Lemma keeps_updnd f : keeps (net_ok hmax) (updnd f : L (nst D) unit).
Proof. intros [k x] H. by apply (net_ok_same x). Qed.

Lemma keeps_ldisable I : keeps I (ldisable : L (nst D) bool).
Proof. apply keeps_lift. Qed.

Lemma keeps_lrestore I b : keeps I (lrestore b : L (nst D) unit).
Proof. apply keeps_lift. Qed.

Lemma keeps_lfreebuf I p : keeps I (lfreebuf p : L (nst D) unit).
Proof. unfold lfreebuf. auto with keeps. Qed.

Lemma ud_ok_state v u : v = UDP_FREE \/ v = UDP_USED \/ v = UDP_RECV -> ud_ok u -> ud_ok (set_udstate v u).
Proof. by intros Hv []. Qed.
Lemma ud_ok_count v u : ud_ok u -> ud_ok (set_udcount v u).
Proof. by intros []. Qed.
Lemma ud_ok_pid v u : ud_ok u -> ud_ok (set_udpid v u).
Proof. by intros []. Qed.
Lemma ic_ok_state v u : v = ICMP_FREE \/ v = ICMP_USED \/ v = ICMP_RECV -> (ic_ok hmax) u -> (ic_ok hmax) (set_icstate v u).
Proof. by intros Hv []. Qed.
Lemma ic_ok_count v u : (ic_ok hmax) u -> (ic_ok hmax) (set_iccount v u).
Proof. by intros []. Qed.
Lemma ic_ok_pid v u : (ic_ok hmax) u -> (ic_ok hmax) (set_icpid v u).
Proof. by intros []. Qed.
End Keep.

#[export] Hint Resolve keeps_bget keeps_bput keeps_getud keeps_getic keeps_getar keeps_updud keeps_updic keeps_updiq keeps_updnd
  keeps_ldisable keeps_lrestore keeps_lfreebuf : keeps.
#[export] Hint Resolve ud_ok_state ud_ok_count ud_ok_pid ic_ok_state ic_ok_count ic_ok_pid : keeps.

(** Code of steps that keep the invariant each. *)
Ltac keeps_run := repeat first
  [ match goal with |- keeps _ (mbind _ _) => apply keeps_bind; [|intros] end
  | solve [auto 6 with keeps]
  | apply keeps_modx; let y := fresh "y" in let Hy := fresh "Hy" in intros y Hy; apply (net_ok_same y); done
  | match goal with |- keeps _ (match ?o with _ => _ end) => destruct o end
  | match goal with |- keeps _ (let '_ := ?o in _) => destruct o end ].

Section Udp.
Context {D : Type} {hmax : Z}.
Hypothesis Hmax : 0 < hmax.
Implicit Types x : nst D.

(** * UDP *)

Lemma ud_wrap t : 0 <= t < UDP_QSIZ -> (t + 1 >=? UDP_QSIZ) = false -> 0 <= t + 1 < UDP_QSIZ.
Proof. rewrite Z.geb_leb. intros H ?%Z.leb_gt. lia. Qed.

Lemma keeps_udp_push slot pktptr : keeps (net_ok hmax) (udp_push slot pktptr : L (nst D) unit).
Proof.
  intros [k x] H. unfold udp_push. apply stays_updud. intros u Hu. nrun. apply stays_lopt. intros q Hq. nrun.
  pose proof (net_ok_ud _ _ _ H Hu) as []. cbn [udtail set_udqueue set_udcount set_udtail udqueue] in *.
  assert (Hq' : arr_len UDP_QSIZ q).
  { destruct (arr_len_lookup _ _ _ uo_queue0 uo_tail0) as [y Hy]. rewrite (arr_upd_Some _ _ _ _ Hy) in Hq. injection Hq as <-.
    by apply arr_len_insert. }
  destruct (udtail u + 1 >=? UDP_QSIZ) eqn:E; nrun; (eapply net_ok_udptab; [done|done|]); constructor; cbn; try done.
  by apply ud_wrap.
Qed.

Lemma keeps_udp_pop slot : keeps (net_ok hmax) (udp_pop slot : L (nst D) Z).
Proof.
  intros [k x] H. unfold udp_pop. apply stays_getud. intros u Hu. apply stays_lopt. intros pkt _. nrun.
  pose proof (net_ok_ud _ _ _ H Hu) as []. cbn [udhead set_udhead].
  destruct (udhead u + 1 >=? UDP_QSIZ) eqn:E; nrun; (eapply net_ok_udptab; [done|done|]); constructor; cbn; try done.
  by apply ud_wrap.
Qed.
#[local] Hint Resolve keeps_udp_push keeps_udp_pop : keeps.

Lemma keeps_udp_in pktptr : keeps (net_ok hmax) (udp_in pktptr : L (nst D) unit).
Proof.
  unfold udp_in. apply keeps_bind; [auto with keeps|]. intros mask. generalize (Z.to_nat UDP_SLOTS), 0. intros n.
  induction n as [|n IH]; intros i; cbn [udp_in_scan]; unfold udp_enter; keeps_run.

Qed.

Lemma keeps_udp_register remip remport locport : keeps (net_ok hmax) (udp_register remip remport locport : L (nst D) Z).
Proof.
  unfold udp_register. keeps_run. apply keeps_updud. intros u []. constructor; cbn; try done. by right; left.
Qed.

Lemma keeps_udp_await slot timeout : keeps (net_ok hmax) (udp_await slot timeout : L (nst D) (option Z)).
Proof. unfold udp_await. keeps_run. Qed.
#[local] Hint Resolve keeps_udp_await : keeps.

Lemma keeps_udp_recv slot buff len timeout : keeps (net_ok hmax) (udp_recv slot buff len timeout : L (nst D) Z).
Proof. unfold udp_recv, udp_copy. keeps_run. Qed.

Lemma keeps_udp_recvaddr slot remip remport buff len timeout : keeps (net_ok hmax) (udp_recvaddr slot remip remport buff len timeout : L (nst D) Z).
Proof. unfold udp_recvaddr, udp_copy. keeps_run. Qed.

Lemma keeps_udp_release slot : keeps (net_ok hmax) (udp_release slot : L (nst D) Z).
Proof.
  assert (Hd : ∀ n, keeps (net_ok hmax) (udp_drain n slot : L (nst D) unit)) by (induction n; cbn [udp_drain]; keeps_run).
  unfold udp_release. keeps_run.
Qed.

Lemma keeps_udp_init : keeps (net_ok hmax) (udp_init : L (nst D) unit).
Proof. unfold udp_init. generalize (Z.to_nat UDP_SLOTS), 0. intros n. induction n; intros i; cbn [udp_init_loop]; keeps_run. Qed.

(** * ICMP *)

Lemma keeps_icmp_push slot pkt : keeps (net_ok hmax) (icmp_push slot pkt : L (nst D) unit).
Proof.
  intros [k x] H. unfold icmp_push. apply stays_updic. intros u Hu. nrun. apply stays_lopt. intros q Hq. nrun.
  pose proof (net_ok_ic _ _ _ H Hu) as []. cbn [ictail set_icqueue set_iccount set_ictail icqueue] in *.
  assert (Hq' : arr_len ICMP_QSIZ q).
  { destruct (arr_len_lookup _ _ _ io_queue0 io_tail0) as [y Hy]. rewrite (arr_upd_Some _ _ _ _ Hy) in Hq. injection Hq as <-.
    by apply arr_len_insert. }
  destruct (ictail u + 1 >=? ICMP_QSIZ) eqn:E; nrun; (eapply net_ok_icmptab; [done|done|]); constructor; cbn; try done.
  by apply (ud_wrap (ictail u)).
Qed.

Lemma keeps_icmp_pop slot : ICMP_SLOTS <= hmax -> keeps (net_ok hmax) (icmp_pop slot : L (nst D) Z).
Proof.
  intros Hs [k x] H. unfold icmp_pop. apply stays_getic. intros u Hu. apply stays_lopt. intros pkt _. nrun.
  pose proof (net_ok_ic _ _ _ H Hu) as []. cbn [ichead set_ichead].
  destruct (ichead u + 1 >=? ICMP_SLOTS) eqn:E; nrun; (eapply net_ok_icmptab; [done|done|]); constructor; cbn; try done.
  rewrite Z.geb_leb in E. apply Z.leb_gt in E. lia.
Qed.
#[local] Hint Resolve keeps_icmp_push keeps_icmp_pop : keeps.

Lemma keeps_iq_push pktptr : keeps (net_ok hmax) (iq_push pktptr : L (nst D) unit).
Proof.
  intros [k x] H. unfold iq_push. nrun. apply stays_lopt. intros q Hq. nrun. pose proof (no_iq _ _ H) as [].
  assert (Hq' : arr_len IP_OQSIZ q).
  { destruct (arr_len_lookup _ _ _ qo_buf0 qo_tail0) as [y Hy]. rewrite (arr_upd_Some _ _ _ _ Hy) in Hq. injection Hq as <-.
    by apply arr_len_insert. }
  cbn [iqtail set_iqtail]. destruct (iqtail (ipoqueue x) + 1 >=? IP_OQSIZ) eqn:E; destruct H; (constructor; [done..|]); constructor; cbn; try done.
  by apply (ud_wrap (iqtail (ipoqueue x))).
Qed.

Lemma keeps_iq_pop : keeps (net_ok hmax) (iq_pop : L (nst D) Z).
Proof.
  intros [k x] H. unfold iq_pop. nrun. apply stays_lopt. intros q Hq. nrun. pose proof (no_iq _ _ H) as [].
  cbn [iqhead set_iqhead]. destruct (iqhead (ipoqueue x) + 1 >=? IP_OQSIZ) eqn:E; destruct H; (constructor; [done..|]); constructor; cbn; try done.
  by apply (ud_wrap (iqhead (ipoqueue x))).
Qed.
#[local] Hint Resolve keeps_iq_push keeps_iq_pop : keeps.

Lemma keeps_ip_enqueue pktptr : keeps (net_ok hmax) (ip_enqueue pktptr : L (nst D) Z).
Proof. unfold ip_enqueue. keeps_run. Qed.

Lemma keeps_icmp_mkpkt remip type ident sq buf len : keeps (net_ok hmax) (icmp_mkpkt remip type ident sq buf len : L (nst D) Z).
Proof. unfold icmp_mkpkt. keeps_run. Qed.
#[local] Hint Resolve keeps_ip_enqueue keeps_icmp_mkpkt : keeps.

Lemma keeps_icmp_in pkt : keeps (net_ok hmax) (icmp_in pkt : L (nst D) unit).
Proof. unfold icmp_in, icmp_echo. keeps_run. Qed.

Lemma keeps_icmp_register remip : keeps (net_ok hmax) (icmp_register remip : L (nst D) Z).
Proof.
  unfold icmp_register. keeps_run. apply keeps_updic. intros u []. constructor; cbn; try done. by right; left.
Qed.

Lemma keeps_icmp_recv icmpid buff len timeout : ICMP_SLOTS <= hmax -> keeps (net_ok hmax) (icmp_recv icmpid buff len timeout : L (nst D) Z).
Proof. intros Hs. unfold icmp_recv, icmp_await. keeps_run. Qed.

Lemma keeps_icmp_release icmpid : ICMP_SLOTS <= hmax -> keeps (net_ok hmax) (icmp_release icmpid : L (nst D) Z).
Proof.
  intros Hs. assert (Hd : ∀ n, keeps (net_ok hmax) (icmp_drain n icmpid : L (nst D) unit)) by (induction n; cbn [icmp_drain]; keeps_run).
  unfold icmp_release. keeps_run.
Qed.

Lemma keeps_icmp_init : keeps (net_ok hmax) (icmp_init : L (nst D) unit).
Proof. unfold icmp_init. generalize (Z.to_nat ICMP_SLOTS), 0. intros n. induction n; intros i; cbn [icmp_init_loop]; keeps_run. Qed.
End Udp.

#[export] Hint Resolve keeps_udp_in keeps_udp_register keeps_udp_recv keeps_udp_recvaddr keeps_udp_release keeps_udp_init
  keeps_icmp_in keeps_icmp_register keeps_icmp_recv keeps_icmp_release keeps_icmp_init keeps_ip_enqueue keeps_icmp_mkpkt keeps_iq_pop : keeps.

Section Arp.
Context {D : Type} `{!Ether D} {hmax : Z}.
Hypothesis Hmax : 0 < hmax.
Implicit Types x : nst D.
(** The driver does not touch the tables. *)
Hypothesis write_keeps : ∀ l, keeps (net_ok (D:=D) hmax) (eth_write l).
Hypothesis read_keeps : ∀ c, keeps (net_ok (D:=D) hmax) (eth_read c).

(** * ARP *)

Lemma arp_scan_none f n : ∀ i t, arp_scan f n i t = Some None -> ∀ j a, i <= j < i + Z.of_nat n -> t !! j = Some a -> f a = false.
Proof.
  induction n as [|n IH]; intros i t; cbn [arp_scan]; [intros _ j a Hj; lia|].
  destruct (t !! i) as [c|] eqn:Hc; [|done]. cbn [mbind option_bind]. destruct (f c) eqn:Hf; [done|]. intros H j a Hj Ha.
  destruct (decide (j = i)) as [->|Hne]; [congruence|]. apply (IH _ _ H j); [lia|done].
Qed.

Lemma arp_scan_some f n : ∀ i t j, arp_scan f n i t = Some (Some j) -> i <= j < i + Z.of_nat n /\ ∃ a, t !! j = Some a /\ f a = true.
Proof.
  induction n as [|n IH]; intros i t j; cbn [arp_scan]; [done|]. destruct (t !! i) as [c|] eqn:Hc; [|done].
  cbn [mbind option_bind]. destruct (f c) eqn:Hf.
  - intros [= <-]. split; [lia|]. eauto.
  - intros H. apply IH in H as [Hj H]. split; [lia|done].
Qed.

Lemma arp_absent x addr : (net_ok hmax) x -> arp_search (arp_has addr) x.(arpcache) = Some None ->
  ∀ j a, x.(arpcache) !! j = Some a -> a.(arstate) ≠ AR_FREE -> a.(arpaddr) ≠ addr.
Proof.
  intros [_ _ (Hl & _) _] Hs j a Hj Hn E. pose proof (arp_scan_none _ _ _ _ Hs j a (arr_len_lt _ _ _ _ Hl Hj) Hj) as H.
  unfold arp_has in H. rewrite (proj2 (Z.eqb_neq _ _) Hn), E, Z.eqb_refl in H. done.
Qed.

Lemma ar_ok_zero : ar_ok arp_zero.
Proof. split; [by left|done]. Qed.

Lemma stays_arp_alloc {B} I Q (g : Z -> L (nst D) B) k x :
  stays I Q (g SYSERR (Lst k x)) ->
  (∀ slot a, x.(arpcache) !! slot = Some a -> 0 <= slot -> stays I Q (g slot (Lst k (set_arpcache (<[slot := arp_zero]> x.(arpcache)) x)))) ->
  stays I Q ((arp_alloc ≫= g) (Lst k x)).
Proof.
  intros H1 H2. unfold arp_alloc. apply stays_assoc. rewrite bind_getx. nsimpl. apply stays_assoc, stays_lopt. intros [slot|] Hs.
  - apply arp_scan_some in Hs as (Hr & a & Ha & _). apply stays_assoc. nrun. apply (H2 slot a); [done|lia].
  - apply stays_assoc, stays_lopt. intros [slot|] Hs'; [|done].
    apply arp_scan_some in Hs' as (Hr & a & Ha & _). apply stays_assoc. nrun. apply (H2 slot a); [done|lia].
Qed.

Lemma keeps_updar f i : (∀ a, ar_ok a -> ar_ok (f a) /\ ((f a).(arstate) = AR_FREE \/ (a.(arstate) ≠ AR_FREE /\ (f a).(arpaddr) = a.(arpaddr)))) ->
  keeps (net_ok hmax) (updar f i : L (nst D) unit).
Proof.
  intros Hf [k x] H. apply stays_tail, stays_updar. intros a Ha. destruct (Hf a (net_ok_ar _ _ _ H Ha)) as [H1 H2].
  eapply net_ok_arpcache; [done|done|done|tauto].
Qed.

Lemma keeps_arp_free slot : keeps (net_ok hmax) (updar (set_arstate AR_FREE) slot : L (nst D) unit).
Proof. apply keeps_updar. intros a []. split; [split; [by left|done]|by left]. Qed.

Lemma keeps_write_ether l : keeps (net_ok hmax) (write_ether l : L (nst D) Z).
Proof. unfold write_ether. keeps_run. Qed.

Lemma keeps_read_ether buf count : keeps (net_ok hmax) (read_ether buf count : L (nst D) Z).
Proof. unfold read_ether. keeps_run. Qed.
#[local] Hint Resolve keeps_arp_free keeps_write_ether keeps_read_ether : keeps.

Lemma keeps_arp_retry n apkt : ∀ msg, keeps (net_ok hmax) (arp_retry n apkt msg : L (nst D) Z).
Proof. induction n as [|n IH]; intros msg; cbn [arp_retry]; unfold write_apkt; keeps_run. Qed.
#[local] Hint Resolve keeps_arp_retry : keeps.

(** A new entry for an address that is not in the cache. *)
Lemma net_ok_arp_new x slot a b addr : (net_ok hmax) x -> x.(arpcache) !! slot = Some a ->
  arp_search (arp_has addr) x.(arpcache) = Some None -> ar_ok b -> b.(arpaddr) = addr ->
  (net_ok hmax) (set_arpcache (<[slot := b]> x.(arpcache)) x).
Proof.
  intros H Ha Hs Hb Hp. eapply net_ok_arpcache; [done..|]. right. right. intros j c Hj _ Hc. rewrite Hp. by eapply arp_absent.
Qed.

Lemma stays_arp_ask k x mask nxthop mac : (net_ok hmax) x -> arp_search (arp_has nxthop) x.(arpcache) = Some None ->
  stays (net_ok hmax) (λ _, (net_ok hmax)) (arp_ask mask nxthop mac (Lst k x)).
Proof.
  intros H Hs. unfold arp_ask. apply stays_arp_alloc.
  { change (SYSERR =? SYSERR) with true. cbv iota. by nrun. }
  intros slot a Ha Hslot. rewrite (proj2 (Z.eqb_neq slot SYSERR)) by (unfold SYSERR; lia). nrun.
  rewrite (bind_klift _ _ _ _ _ _ (eq_refl : gets currpid k = Done (currpid k) k)). nrun.
  assert (H' : (net_ok hmax) (set_arpcache (<[slot := Arpentry AR_PENDING nxthop k.(currpid) [0; 0; 0; 0; 0; 0]]> x.(arpcache)) x)).
  { eapply net_ok_arp_new; [done..| |done]. split; [by right; left|done]. }
  apply stays_lopt. intros apkt _.
  match goal with |- stays _ _ (?m ?s) => assert (G : keeps (net_ok hmax) m); [|exact (G s H')] end. keeps_run.
Qed.

Lemma keeps_arp_resolve nxthop mac : keeps (net_ok hmax) (arp_resolve nxthop mac : L (nst D) Z).
Proof.
  intros [k x] H. unfold arp_resolve. rewrite bind_getx. cbn [lx].
  destruct (nxthop =? IP_BCAST); [apply stays_keeps; [auto with keeps|done|intros; keeps_run]|].
  destruct (nxthop =? _); [apply stays_keeps; [auto with keeps|done|intros; keeps_run]|]. nrun.
  apply stays_lopt. intros [i|] Hs; [|rewrite bind_lret; by apply stays_arp_ask].
  apply arp_scan_some in Hs as (_ & a & Ha & Hf). apply stays_assoc. nrun.
  unfold arp_has in Hf. bool_hyps. destruct (ao_state a (net_ok_ar _ _ _ H Ha)) as [E|[E|E]]; rewrite E in *; [done|by nrun|].
  change (AR_RESOLVED =? AR_RESOLVED) with true. cbv iota. apply stays_keeps; [auto with keeps|done|intros; keeps_run].
Qed.

Lemma get_bytes_length n : ∀ m a l, get_bytes n m a = Some l -> length l = n.
Proof.
  induction n as [|n IH]; intros m a l; cbn [get_bytes]; [by intros [= <-]|].
  destruct (ldb m a); [|done]. cbn [mbind option_bind]. destruct (get_bytes n m (a + 1)) as [l'|] eqn:E; [|done].
  cbn [mbind option_bind]. intros [= <-]. cbn [length]. by rewrite (IH _ _ _ E).
Qed.

(** [arptr->arhaddr = ...] and [arptr->arstate = AR_RESOLVED] for an entry in use. *)
Lemma net_ok_arp_learn x slot a sndha v : (net_ok hmax) x -> x.(arpcache) !! slot = Some a -> a.(arstate) ≠ AR_FREE -> length sndha = 6%nat ->
  v = a.(arstate) \/ v = AR_RESOLVED -> (net_ok hmax) (set_arpcache (<[slot := set_arstate v (set_arhaddr sndha a)]> x.(arpcache)) x).
Proof.
  intros H Ha Hf Hl Hv. destruct (net_ok_ar _ _ _ H Ha) as [Hs _]. eapply net_ok_arpcache; [done|done| |].
  - split; [|done]. destruct Hv as [->| ->]; [done|by right; right].
  - right. left. done.
Qed.

Lemma set_arstate_same a : set_arstate a.(arstate) a = a.
Proof. by destruct a. Qed.

Lemma keeps_arp_learn pktptr slot x k : (net_ok hmax) x -> (∃ a, x.(arpcache) !! slot = Some a /\ a.(arstate) ≠ AR_FREE) ->
  stays (net_ok hmax) (λ _, (net_ok hmax)) ((
    sndha ← bget (λ m, get_bytes 6 m (arp_sndha pktptr));
    updar (set_arhaddr sndha) slot;;
    arptr ← getar slot;
    if arptr.(arstate) =? AR_PENDING then
      updar (set_arstate AR_RESOLVED) slot;;
      lift (send arptr.(arpid) OK);;
      mret tt
    else mret tt) (Lst k x)).
Proof.
  intros H (a & Ha & Hf). apply stays_bget. intros sndha Hh. apply get_bytes_length in Hh. nrun.
  pose proof (net_ok_arp_learn x slot a sndha AR_RESOLVED H Ha Hf Hh (or_intror eq_refl)) as G.
  pose proof (net_ok_arp_learn x slot a sndha _ H Ha Hf Hh (or_introl eq_refl)) as G'.
  change (arstate (set_arhaddr sndha a)) with (arstate a).
  destruct (arstate a =? AR_PENDING); [nrun|by rewrite <- (set_arstate_same (set_arhaddr sndha a))].
  apply stays_keeps; [auto with keeps|done|intros; keeps_run].
Qed.

(** The allocation of an entry for the sender of a request. *)
Lemma keeps_arp_enter pktptr sndpa x k : (net_ok hmax) x -> ldl x.(bytes) (arp_sndpa pktptr) = Some sndpa ->
  arp_search (arp_has sndpa) x.(arpcache) = Some None ->
  stays (net_ok hmax) (λ _, (net_ok hmax)) ((
    slot ← arp_alloc;
    if slot =? SYSERR then mret true
    else
      sndpa ← bget (λ m, ldl m (arp_sndpa pktptr));
      updar (set_arpaddr sndpa) slot;;
      sndha ← bget (λ m, get_bytes 6 m (arp_sndha pktptr));
      updar (set_arhaddr sndha) slot;;
      updar (set_arstate AR_RESOLVED) slot;;
      mret false) (Lst k x)).
Proof.
  intros H Hp Hs. apply stays_arp_alloc; [done|]. intros slot a Ha Hslot. rewrite (proj2 (Z.eqb_neq slot SYSERR)) by (unfold SYSERR; lia).
  apply stays_bget. intros p Hp'. cbn [bytes set_arpcache] in Hp'. rewrite Hp in Hp'. injection Hp' as <-. nrun.
  apply stays_bget. intros sndha Hh%get_bytes_length. nrun. eapply net_ok_arp_new; [done..| |done]. split; [by right; right|done].
Qed.

Lemma keeps_arp_in pktptr : keeps (net_ok hmax) (arp_in pktptr : L (nst D) unit).
Proof.
  unfold arp_in. do 3 (apply keeps_bind; [auto with keeps|intros]). destruct (_ || _); [keeps_run|]. apply keeps_bind; [auto with keeps|]. intros mask [k x] H.
  cbn [lx] in H. apply stays_bget. intros sndpa Hp. rewrite bind_getx. cbn [lx]. apply stays_lopt. intros [slot|] Hs.
  - apply arp_scan_some in Hs as (_ & a' & Ha & Hf). unfold arp_has in Hf. bool_hyps.
    apply stays_bind. eapply stays_mono; [apply keeps_arp_learn; [done|]|].
    + by exists a'.
    + intros ? y Hy k'. match goal with |- stays _ _ (?m ?s) => assert (G : keeps (net_ok hmax) m); [|exact (G s Hy)] end. unfold write_apkt. keeps_run.
  - rewrite bind_lret. apply stays_bget. intros op _.
    destruct (op =? ARP_OP_RPLY); [apply stays_keeps; [auto with keeps|done|intros; keeps_run]|]. rewrite bind_getx. cbn [lx].
    apply stays_bget. intros tarpa _. destruct (_ || _); [apply stays_keeps; [auto with keeps|done|intros; keeps_run]|].
    apply stays_bind. eapply stays_mono; [by apply (keeps_arp_enter pktptr sndpa)|]. intros full y Hy k'.
    match goal with |- stays _ _ (?m ?s) => assert (G : keeps (net_ok hmax) m); [|exact (G s Hy)] end. unfold write_apkt. keeps_run.
Qed.
#[local] Hint Resolve keeps_arp_resolve keeps_arp_in : keeps.

(** * IP and the processes *)

Lemma keeps_ip_out pktptr : keeps (net_ok hmax) (ip_out pktptr : L (nst D) Z).
Proof. unfold ip_out. keeps_run. Qed.

Lemma keeps_ip_local pktptr : keeps (net_ok hmax) (ip_local pktptr : L (nst D) unit).
Proof. unfold ip_local. keeps_run. Qed.
#[local] Hint Resolve keeps_ip_out keeps_ip_local : keeps.

Lemma keeps_ip_send pktptr : keeps (net_ok hmax) (ip_send pktptr : L (nst D) Z).
Proof. unfold ip_send. keeps_run. Qed.

Lemma keeps_ip_in pktptr : keeps (net_ok hmax) (ip_in pktptr : L (nst D) unit).
Proof. unfold ip_in, ip_deliver. keeps_run. Qed.
#[local] Hint Resolve keeps_ip_send keeps_ip_in : keeps.

Lemma keeps_udp_send slot buff len : keeps (net_ok hmax) (udp_send slot buff len : L (nst D) Z).
Proof. unfold udp_send. keeps_run. Qed.

Lemma keeps_udp_sendto slot remip remport buff len : keeps (net_ok hmax) (udp_sendto slot remip remport buff len : L (nst D) Z).
Proof. unfold udp_sendto. keeps_run. Qed.

Lemma keeps_icmp_send remip type ident sq buf len : keeps (net_ok hmax) (icmp_send remip type ident sq buf len : L (nst D) Z).
Proof. unfold icmp_send. keeps_run. Qed.

Lemma keeps_rounds n (body : L (nst D) unit) : keeps (net_ok hmax) body -> keeps (net_ok hmax) (rounds n body).
Proof. intros H. induction n; cbn [rounds]; keeps_run. Qed.

Lemma keeps_ipout n : keeps (net_ok hmax) (ipout n : L (nst D) unit).
Proof. apply keeps_rounds. unfold ipout_round. keeps_run. Qed.

Lemma keeps_netin n : keeps (net_ok hmax) (netin n : L (nst D) unit).
Proof. apply keeps_rounds. unfold netin_round. keeps_run. Qed.
#[local] Hint Resolve keeps_udp_send keeps_udp_sendto keeps_icmp_send keeps_ipout keeps_netin : keeps.

(** * The start *)

Lemma keeps_arp_init : keeps (net_ok hmax) (arp_init : L (nst D) unit).
Proof. unfold arp_init. generalize (Z.to_nat (ARP_SIZ - 1)). intros n. generalize 1. induction n; intros i; cbn [arp_init_loop]; keeps_run. Qed.
#[local] Hint Resolve keeps_arp_init : keeps.

Lemma iq_ok_start q : iq_ok q -> iq_ok (set_iqhead 0 q) /\ iq_ok (set_iqtail 0 q) /\ ∀ s, iq_ok (set_iqsem s q).
Proof. by intros []. Qed.

Lemma keeps_netstart p initret ipout_addr netin_addr bbb_ipaddr bbb_router ipaddr router :
  keeps (net_ok hmax) (netstart p initret ipout_addr netin_addr bbb_ipaddr bbb_router ipaddr router : L (nst D) unit).
Proof.
  unfold netstart, net_init. keeps_run; apply keeps_updiq; intros q Hq; by destruct (iq_ok_start q Hq) as (? & ? & ?).
Qed.

(** * Any sequence of calls by any number of processes *)

(** The entry points of the stack, and the two processes, which make [n] rounds. *)
Inductive netop :=
  | NStart (p : platform) (initret ipout_addr netin_addr bbb_ipaddr bbb_router ipaddr router : Z)
  | NUdpRegister (remip remport locport : Z)
  | NUdpSend (slot buff len : Z)
  | NUdpSendto (slot remip remport buff len : Z)
  | NUdpRecv (slot buff len timeout : Z)
  | NUdpRecvaddr (slot remip remport buff len timeout : Z)
  | NUdpRelease (slot : Z)
  | NIcmpRegister (remip : Z)
  | NIcmpSend (remip type ident sq buf len : Z)
  | NIcmpRecv (icmpid buff len timeout : Z)
  | NIcmpRelease (icmpid : Z)
  | NArpResolve (nxthop mac : Z)
  | NIpSend (pktptr : Z)
  | NNetin (n : nat)
  | NIpout (n : nat).

Definition netrun (op : netop) : L (nst D) unit :=
  match op with
  | NStart p initret ipout_addr netin_addr bbb_ipaddr bbb_router ipaddr router =>
      netstart p initret ipout_addr netin_addr bbb_ipaddr bbb_router ipaddr router
  | NUdpRegister remip remport locport => udp_register remip remport locport;; mret tt
  | NUdpSend slot buff len => udp_send slot buff len;; mret tt
  | NUdpSendto slot remip remport buff len => udp_sendto slot remip remport buff len;; mret tt
  | NUdpRecv slot buff len timeout => udp_recv slot buff len timeout;; mret tt
  | NUdpRecvaddr slot remip remport buff len timeout => udp_recvaddr slot remip remport buff len timeout;; mret tt
  | NUdpRelease slot => udp_release slot;; mret tt
  | NIcmpRegister remip => icmp_register remip;; mret tt
  | NIcmpSend remip type ident sq buf len => icmp_send remip type ident sq buf len;; mret tt
  | NIcmpRecv icmpid buff len timeout => icmp_recv icmpid buff len timeout;; mret tt
  | NIcmpRelease icmpid => icmp_release icmpid;; mret tt
  | NArpResolve nxthop mac => arp_resolve nxthop mac;; mret tt
  | NIpSend pktptr => ip_send pktptr;; mret tt
  | NNetin n => netin n
  | NIpout n => ipout n
  end.

(** The operations that take replies out of the ring of an ICMP entry. *)
Definition takes_reply (op : netop) : bool :=
  match op with NIcmpRecv _ _ _ _ | NIcmpRelease _ => true | _ => false end.

Lemma netrun_keeps op : (takes_reply op = true -> ICMP_SLOTS <= hmax) -> keeps (net_ok hmax) (netrun op : L (nst D) unit).
Proof.
  intros Hs. destruct op; cbn [netrun takes_reply] in *; try specialize (Hs eq_refl); try apply keeps_netstart; keeps_run.
Qed.
End Arp.

(** What the stack relies on of the driver here: it keeps the tables as they are. *)
Class EtherFrame (D : Type) `{!Ether D} := {
  write_keeps : ∀ h l, keeps (net_ok (D:=D) h) (eth_write l);
  read_keeps : ∀ h count, keeps (net_ok (D:=D) h) (eth_read count) }.

Section System.
Context {D : Type} `{!Ether D} `{!EtherFrame D}.
Implicit Types x : nst D.

(** The stack, and the calls that have given up the processor. *)
Record netconf := Netconf { stack : nst D; calls : list (lst (nst D) -> lres (nst D) unit) }.

(** Where a run is: it goes on, the system has been halted, or a step had undefined
    behaviour. *)
Inductive netstat := Going (c : netconf) | Stopped | Undefined.

(** After a call has run up to its end or to the next point where it gives up the
    processor. *)
Definition settle (r : lres (nst D) unit) (cs : list (lst (nst D) -> lres (nst D) unit)) : netstat :=
  match r with
  | LDone _ s => Going (Netconf s.(lx) cs)
  | LCtxsw _ s c => Going (Netconf s.(lx) (c :: cs))
  | LHalted _ => Stopped
  | LUB => Undefined
  end.

(** One step: a process makes a call out of [P], or any of the calls goes on.  The kernel
    is in any state: who runs is the scheduler's affair. *)
Inductive netstep (P : netop -> Prop) : netstat -> netstat -> Prop :=
  | net_calls op k x cs : P op -> netstep P (Going (Netconf x cs)) (settle (netrun op (Lst k x)) cs)
  | net_resumes k x cs1 c cs2 : netstep P (Going (Netconf x (cs1 ++ c :: cs2))) (settle (c (Lst k x)) (cs1 ++ cs2)).

Definition stat_ok (h : Z) (st : netstat) : Prop :=
  match st with Going c => net_ok h c.(stack) /\ Forall (λ m, keeps (net_ok h) m) c.(calls) | Stopped | Undefined => True end.

Lemma settle_ok h r cs : stays (net_ok h) (λ _, net_ok h) r -> Forall (λ m, keeps (net_ok h) m) cs -> stat_ok h (settle r cs).
Proof.
  intros Hr Hcs. destruct r as [a s|o s m| |]; simpl; [by split| |done|done].
  destruct Hr as [H1 H2]. split; [done|]. constructor; [exact H2|done].
Qed.

Lemma netstep_ok P h st st' : 0 < h -> (∀ op, P op -> takes_reply op = true -> ICMP_SLOTS <= h) ->
  netstep P st st' -> stat_ok h st -> stat_ok h st'.
Proof.
  intros Hh HP [op k x cs Hop|k x cs1 m cs2] [H1 H2]; cbn [stack calls] in *; apply settle_ok.
  - exact (netrun_keeps Hh (write_keeps h) (read_keeps h) op (HP op Hop) (Lst k x) H1).
  - exact H2.
  - apply Forall_app in H2 as [_ [H3 _]%Forall_cons]. exact (H3 (Lst k x) H1).
  - apply Forall_app in H2 as [H2 [_ H4]%Forall_cons]. by apply Forall_app.
Qed.

(** A run of calls out of [P]. *)
Lemma netsteps_ok P h st st' : 0 < h -> (∀ op, P op -> takes_reply op = true -> ICMP_SLOTS <= h) ->
  rtc (netstep P) st st' -> stat_ok h st -> stat_ok h st'.
Proof. intros Hh HP Hr. induction Hr as [|a b c Hs _ IH]; [done|]. intros H. apply IH. by eapply netstep_ok. Qed.
End System.

(** * The rings *)

Section Rings.
Context {D : Type} {hmax : Z}.
Implicit Types x : nst D.

Lemma net_ok_mono h' x : hmax <= h' -> net_ok hmax x -> net_ok h' x.
Proof.
  intros Hle [Hu [Hl Hi] Ha Hq]. constructor; [done| |done|done]. split; [done|].
  eapply map_Forall_impl; [exact Hi|]. intros i u []. split; [done|lia|done|done].
Qed.

Lemma udp_push_defined k x slot pktptr : net_ok hmax x -> 0 <= slot < UDP_SLOTS ->
  ∃ y, udp_push slot pktptr (Lst k x) = LDone tt (Lst k y).
Proof.
  intros H Hs. destruct (arr_len_lookup _ _ _ (proj1 (no_udp _ _ H)) Hs) as [u Hu]. destruct (net_ok_ud _ _ _ H Hu) as [_ _ Ht Hq].
  destruct (arr_len_lookup _ _ _ Hq Ht) as [y Hy]. unfold udp_push. nrun. rewrite (arr_upd_Some _ _ _ _ Hy), bind_lopt. nrun.
  destruct (_ >=? _); nrun; by eexists.
Qed.

Lemma udp_pop_defined k x slot : net_ok hmax x -> 0 <= slot < UDP_SLOTS ->
  ∃ p y, udp_pop slot (Lst k x) = LDone p (Lst k y).
Proof.
  intros H Hs. destruct (arr_len_lookup _ _ _ (proj1 (no_udp _ _ H)) Hs) as [u Hu]. destruct (net_ok_ud _ _ _ H Hu) as [_ Ht _ Hq].
  destruct (arr_len_lookup _ _ _ Hq Ht) as [y Hy]. unfold udp_pop. nrun. rewrite Hy, bind_lopt. nrun.
  destruct (_ >=? _); nrun; by do 2 eexists.
Qed.

Lemma icmp_push_defined k x slot pkt : net_ok hmax x -> 0 <= slot < ICMP_SLOTS ->
  ∃ y, icmp_push slot pkt (Lst k x) = LDone tt (Lst k y).
Proof.
  intros H Hs. destruct (arr_len_lookup _ _ _ (proj1 (no_icmp _ _ H)) Hs) as [u Hu]. destruct (net_ok_ic _ _ _ H Hu) as [_ _ Ht Hq].
  destruct (arr_len_lookup _ _ _ Hq Ht) as [y Hy]. unfold icmp_push. nrun. rewrite (arr_upd_Some _ _ _ _ Hy), bind_lopt. nrun.
  destruct (_ >=? _); nrun; by eexists.
Qed.

Lemma icmp_pop_defined k x slot u : net_ok hmax x -> x.(icmptab) !! slot = Some u ->
  if decide (u.(ichead) < ICMP_QSIZ) then ∃ p y, icmp_pop slot (Lst k x) = LDone p (Lst k y) else icmp_pop slot (Lst k x) = LUB.
Proof.
  intros H Hu. destruct (net_ok_ic _ _ _ H Hu) as [_ Hd _ Hq]. unfold icmp_pop. case_decide as Hlt.
  - destruct (arr_len_lookup _ _ (ichead u) Hq ltac:(lia)) as [y Hy]. nrun. rewrite Hy, bind_lopt. nrun. destruct (_ >=? _); nrun; by do 2 eexists.
  - nrun. destruct (icqueue u !! ichead u) as [y|] eqn:Hy; [|done]. apply (arr_len_lt _ _ _ _ Hq) in Hy. lia.
Qed.

Lemma iq_push_defined k x pktptr : net_ok hmax x -> ∃ y, iq_push pktptr (Lst k x) = LDone tt (Lst k y).
Proof.
  intros H. destruct (no_iq _ _ H) as [_ Ht Hq]. destruct (arr_len_lookup _ _ _ Hq Ht) as [y Hy].
  unfold iq_push. nrun. rewrite (arr_upd_Some _ _ _ _ Hy), bind_lopt. nrun. destruct (_ >=? _); nrun; by eexists.
Qed.

Lemma iq_pop_defined k x : net_ok hmax x -> ∃ p y, iq_pop (Lst k x) = LDone p (Lst k y).
Proof.
  intros H. destruct (no_iq _ _ H) as [Ht _ Hq]. destruct (arr_len_lookup _ _ _ Hq Ht) as [y Hy].
  unfold iq_pop. nrun. rewrite Hy, bind_lopt. nrun. destruct (_ >=? _); nrun; by do 2 eexists.
Qed.

(** The operations on the rings find every element they index in its array, with one exception:
    the read of a ring of echo replies whose index is past the end. *)
Definition rings_defined x : Prop := ∀ k,
  (∀ slot pktptr, 0 <= slot < UDP_SLOTS ->
     (∃ y, udp_push slot pktptr (Lst k x) = LDone tt (Lst k y)) /\ ∃ p y, udp_pop slot (Lst k x) = LDone p (Lst k y)) /\
  (∀ slot pkt, 0 <= slot < ICMP_SLOTS -> ∃ y, icmp_push slot pkt (Lst k x) = LDone tt (Lst k y)) /\
  (∀ slot u, x.(icmptab) !! slot = Some u ->
     if decide (u.(ichead) < ICMP_QSIZ) then ∃ p y, icmp_pop slot (Lst k x) = LDone p (Lst k y)
     else icmp_pop slot (Lst k x) = LUB) /\
  (∀ pktptr, ∃ y, iq_push pktptr (Lst k x) = LDone tt (Lst k y)) /\ ∃ p y, iq_pop (Lst k x) = LDone p (Lst k y).

Lemma net_ok_rings x : net_ok hmax x -> rings_defined x.
Proof.
  intros H k. split; [|split; [|split; [|split]]].
  - intros slot pktptr Hs. split; [by apply udp_push_defined|by apply udp_pop_defined].
  - intros slot pkt. by apply icmp_push_defined.
  - intros slot u. by apply icmp_pop_defined.
  - intros pktptr. by apply iq_push_defined.
  - by apply iq_pop_defined.
Qed.
End Rings.
