(* ===== verification/Arpthm.v ===== *)
(** The exchange of ARP: the frames that arp_resolve and arp_in make, and what a request
    does on the machine it asks for. *)

From S2P Require Import Prelude Types Cstring Queue Memory Kernel Sched Sem Msg Bufpool Bytes Ring Lift Net Netlib Arp Udp Icmp Ip Udpthm Frame Netsend Netrecv Netok.

(** * Frames *)

(** An ARP packet in network order, and the same packet before the conversions. *)
Definition arp_frame (dmac smac : list Z) (op : Z) (sndha : list Z) (sndpa : Z) (tarha : list Z) (tarpa : Z) : list Z :=
  dmac ++ smac ++ be16 ETH_ARP ++ be16 ARP_HTYPE ++ be16 ARP_PTYPE ++ [6; 4] ++ be16 op ++
  sndha ++ be32 sndpa ++ tarha ++ be32 tarpa.
Definition arp_host (dmac smac : list Z) (op : Z) (sndha : list Z) (sndpa : Z) (tarha : list Z) (tarpa : Z) : list Z :=
  dmac ++ smac ++ le16 ETH_ARP ++ le16 ARP_HTYPE ++ le16 ARP_PTYPE ++ [6; 4] ++ le16 op ++
  sndha ++ le32 sndpa ++ tarha ++ le32 tarpa.

Definition mac_ok (mac : list Z) : Prop := length mac = 6%nat /\ Forall byte mac.

(** The steps that fill in a packet. *)
Definition arp_fields (dmac smac : list Z) (op : Z) (sndha : list Z) (sndpa : Z) (tarha : list Z) (tarpa : Z) : list Z -> list Z :=
  andthen (put 0 dmac) (andthen (put 6 smac) (andthen (put 12 (le16 ETH_ARP)) (andthen (put 14 (le16 ARP_HTYPE))
  (andthen (put 16 (le16 ARP_PTYPE)) (andthen (put 18 [6]) (andthen (put 19 [4]) (andthen (put 20 (le16 op))
  (andthen (put 22 sndha) (andthen (put 28 (le32 sndpa)) (andthen (put 32 tarha) (andthen (put 38 (le32 tarpa))
  (andthen swap_arp (swap2 12))))))))))))).

Definition arp_fill (dmac smac : list Z) (op : Z) (sndha : list Z) (sndpa : Z) (tarha : list Z) (tarpa p : Z) (m : bmem) : option bmem :=
  m ← put_bytes (arp_ethdst p) dmac m; m ← put_bytes (arp_ethsrc p) smac m; m ← sth (arp_ethtype p) ETH_ARP m;
  m ← sth (arp_htype p) ARP_HTYPE m; m ← sth (arp_ptype p) ARP_PTYPE m; m ← stb (arp_hlen p) 6 m; m ← stb (arp_plen p) 4 m;
  m ← sth (arp_op p) op m; m ← put_bytes (arp_sndha p) sndha m; m ← stl (arp_sndpa p) sndpa m;
  m ← put_bytes (arp_tarha p) tarha m; m ← stl (arp_tarpa p) tarpa m; m ← arp_hton p m; eth_hton p m.

Lemma put_mac_acts off mac a : (∀ p, a p = p + Z.of_nat off) -> (off + 6 <= 42)%nat -> mac_ok mac ->
  acts 42 (λ p m, put_bytes (a p) mac m) (put off mac).
Proof. intros Ha Hn [H1 H2]. apply acts_bytes; [done|by rewrite H1|done]. Qed.

Lemma arp_fill_acts dmac smac op sndha sndpa tarha tarpa : mac_ok dmac -> mac_ok smac -> mac_ok sndha -> mac_ok tarha ->
  acts 42 (arp_fill dmac smac op sndha sndpa tarha tarpa) (arp_fields dmac smac op sndha sndpa tarha tarpa).
Proof.
  intros H1 H2 H3 H4. unfold arp_fill, arp_fields.
  eapply acts_seq; [apply put_mac_acts; [intros p; unfold arp_ethdst; lia|lia|done]|].
  repeat (eapply acts_seq; [first [acts_step | apply put_mac_acts; [intros ?; reflexivity|lia|done] | apply arp_hton_acts]|]).
  apply eth_hton_acts.
Qed.

Lemma arp_fields_frame dmac smac op sndha sndpa tarha tarpa l : mac_ok dmac -> mac_ok smac -> mac_ok sndha -> mac_ok tarha ->
  length l = 42%nat -> arp_fields dmac smac op sndha sndpa tarha tarpa l = arp_frame dmac smac op sndha sndpa tarha tarpa.
Proof.
  intros [H1 _] [H2 _] [H3 _] [H4 _] Hl.
  destruct (mac_explode _ H1) as (a1 & a2 & a3 & a4 & a5 & a6 & ->). destruct (mac_explode _ H2) as (b1 & b2 & b3 & b4 & b5 & b6 & ->).
  destruct (mac_explode _ H3) as (c1 & c2 & c3 & c4 & c5 & c6 & ->). destruct (mac_explode _ H4) as (d1 & d2 & d3 & d4 & d5 & d6 & ->).
  explode l. destruct l; [|cbn [length] in Hl; lia]. reflexivity.
Qed.

Lemma apkt0_bytes : bytes_at apkt0 0 (repeat 0 42).
Proof. exact (ram_bytes 42 ∅ 0). Qed.

(** A packet in the local variable [apkt], as it goes to write. *)
Lemma apkt_frame dmac smac op sndha sndpa tarha tarpa : mac_ok dmac -> mac_ok smac -> mac_ok sndha -> mac_ok tarha ->
  ∃ m, arp_fill dmac smac op sndha sndpa tarha tarpa 0 apkt0 = Some m /\
    get_bytes (Z.to_nat ARP_PACKLEN) m 0 = Some (arp_frame dmac smac op sndha sndpa tarha tarpa) /\
    Forall byte (arp_frame dmac smac op sndha sndpa tarha tarpa) /\ length (arp_frame dmac smac op sndha sndpa tarha tarpa) = 42%nat.
Proof.
  intros H1 H2 H3 H4.
  destruct (arp_fill_acts dmac smac op sndha sndpa tarha tarpa H1 H2 H3 H4 apkt0 0 (repeat 0 42) apkt0_bytes (zeros_bytes 42) ltac:(reflexivity))
    as (m & E & B & L & N & _). rewrite arp_fields_frame in B, L, N by done. exists m. split; [done|]. split; [|done].
  rewrite (get_bytes_run (Z.to_nat ARP_PACKLEN) m 0 _ B) by (rewrite N; reflexivity). f_equal.
  apply take_ge. rewrite N. reflexivity.
Qed.

Lemma arp_reply_fill nd sndha sndpa :
  arp_reply nd sndha sndpa = arp_fill sndha nd.(ethucast) ARP_OP_RPLY nd.(ethucast) nd.(ipucast) sndha sndpa 0 apkt0.
Proof. reflexivity. Qed.

Lemma memset_put n : ∀ a m, memset_loop n a 0 m = put_bytes a (repeat 0 n) m.
Proof.
  induction n as [|n IH]; intros a m; cbn [memset_loop repeat put_bytes]; [done|]. change (u8 0) with 0.
  destruct (stb a 0 m); [apply IH|done].
Qed.

Lemma arp_request_fill nd nxthop :
  arp_request nd nxthop = arp_fill nd.(ethbcast) nd.(ethucast) ARP_OP_REQ nd.(ethucast) nd.(ipucast) (repeat 0 6) nxthop 0 apkt0.
Proof.
  unfold arp_request, arp_fill. cbv zeta. change (u8 (Z.land 255 ARP_HALEN)) with 6. change (u8 (Z.land 255 ARP_PALEN)) with 4.
  change (Z.land 65535 ARP_OP_REQ) with ARP_OP_REQ.
  assert (A : ∀ (o : option bmem) (f g : bmem -> option bmem), (∀ m, f m = g m) -> (m ← o; f m) = (m ← o; g m)) by (intros [o|] f g Hf; [apply Hf|done]).
  do 10 (apply A; intros ?). unfold memset. rewrite memset_put. change (Z.to_nat ARP_HALEN) with 6%nat.
  by destruct (put_bytes _ _ _).
Qed.

(** A packet that arrived, in host order. *)
Lemma arp_frame_in dmac smac op sndha sndpa tarha tarpa rest : mac_ok dmac -> mac_ok smac -> mac_ok sndha -> mac_ok tarha ->
  let l := swap2 12 (arp_frame dmac smac op sndha sndpa tarha tarpa ++ rest) in
  l !!! 12%nat + 256 * l !!! 13%nat = ETH_ARP /\ swap_arp l = arp_host dmac smac op sndha sndpa tarha tarpa ++ rest.
Proof.
  intros [H1 _] [H2 _] [H3 _] [H4 _].
  destruct (mac_explode _ H1) as (a1 & a2 & a3 & a4 & a5 & a6 & ->). destruct (mac_explode _ H2) as (b1 & b2 & b3 & b4 & b5 & b6 & ->).
  destruct (mac_explode _ H3) as (c1 & c2 & c3 & c4 & c5 & c6 & ->). destruct (mac_explode _ H4) as (d1 & d2 & d3 & d4 & d5 & d6 & ->).
  split; reflexivity.
Qed.

(** The fields of a packet at [p] that arp_in reads. *)
Record arp_packet (m : bmem) (p op : Z) (sndha : list Z) (sndpa tarpa : Z) : Prop := {
  ap_htype : ldh m (arp_htype p) = Some ARP_HTYPE;
  ap_ptype : ldh m (arp_ptype p) = Some ARP_PTYPE;
  ap_op : ldh m (arp_op p) = Some op;
  ap_sndha : get_bytes 6 m (arp_sndha p) = Some sndha;
  ap_sndpa : ldl m (arp_sndpa p) = Some sndpa;
  ap_tarpa : ldl m (arp_tarpa p) = Some tarpa }.

Lemma arp_packet_at m p dmac smac op sndha sndpa tarha tarpa rest : mac_ok dmac -> mac_ok smac -> mac_ok sndha -> mac_ok tarha ->
  0 <= op < 65536 -> is_u32 sndpa -> is_u32 tarpa -> bytes_at m p (arp_host dmac smac op sndha sndpa tarha tarpa ++ rest) ->
  arp_packet m p op sndha sndpa tarpa.
Proof.
  intros [H1 _] [H2 _] [H3 _] [H4 _] Hop Hs Ht Hb.
  destruct (mac_explode _ H1) as (a1 & a2 & a3 & a4 & a5 & a6 & ->). destruct (mac_explode _ H2) as (b1 & b2 & b3 & b4 & b5 & b6 & ->).
  destruct (mac_explode _ H3) as (c1 & c2 & c3 & c4 & c5 & c6 & ->). destruct (mac_explode _ H4) as (d1 & d2 & d3 & d4 & d5 & d6 & ->).
  assert (Hl : (42 <= length (arp_host [a1; a2; a3; a4; a5; a6] [b1; b2; b3; b4; b5; b6] op [c1; c2; c3; c4; c5; c6] sndpa
    [d1; d2; d3; d4; d5; d6] tarpa ++ rest))%nat) by (rewrite length_app; cbn [arp_host app length le16 le32]; lia).
  constructor.
  - exact (read16 m p _ 14 Hb ltac:(lia)).
  - exact (read16 m p _ 16 Hb ltac:(lia)).
  - rewrite <- (le16_val op Hop). exact (read16 m p _ 20 Hb ltac:(lia)).
  - rewrite <- (take_drop 22 (_ ++ rest)) in Hb. apply bytes_at_app in Hb as [_ Hb]. rewrite length_take, Nat.min_l in Hb by lia.
    etransitivity; [exact (get_bytes_run 6 m _ _ Hb ltac:(rewrite length_drop; lia))|reflexivity].
  - rewrite <- (le32_val sndpa Hs). exact (read32 m p _ 28 Hb ltac:(lia)).
  - rewrite <- (le32_val tarpa Ht). exact (read32 m p _ 38 Hb ltac:(lia)).
Qed.

(** * A request for this machine *)

Section Request.
Context {D : Type} `{!Ether D} `{!EtherLaws D}.
Implicit Types (x : nst D) (k : kst).

Lemma arp_alloc_run k x slot a : arp_search (λ a, a.(arstate) =? AR_FREE) x.(arpcache) = Some (Some slot) -> x.(arpcache) !! slot = Some a ->
  arp_alloc (Lst k x) = LDone slot (Lst k (set_arpcache (<[slot := arp_zero]> x.(arpcache)) x)).
Proof. intros Hs Ha. unfold arp_alloc. nrun. rewrite Hs, bind_lopt. by nrun. Qed.

(** The sender of a request, in the cache. *)
Definition arp_entry (sndpa : Z) (sndha : list Z) : arpentry := Arpentry AR_RESOLVED sndpa 0 sndha.

Lemma write_apkt_run apkt l k x : get_bytes (Z.to_nat ARP_PACKLEN) apkt 0 = Some l -> can_send k x.(ether) -> Forall byte l -> length l = 42%nat ->
  ∃ r k' d' f, write_apkt apkt (Lst k x) = LDone r (Lst k' (set_ether d' x)) /\ same_pools k k' /\
    wire d' = wire x.(ether) ++ [f] /\ carries_frame l f.
Proof.
  intros Hg Hc Hl Hn. destruct (write_ether_run l k x Hc Hl ltac:(lia)) as (r & k' & d' & f & E & _ & S & W & C).
  exists r, k', d', f. split; [|done]. unfold write_apkt. by rewrite Hg, bind_lopt.
Qed.

(** The new entry that arp_in makes for the sender. *)
Lemma arp_enter_run pkt k x sndha sndpa slot a : ldl x.(bytes) (arp_sndpa pkt) = Some sndpa ->
  get_bytes 6 x.(bytes) (arp_sndha pkt) = Some sndha ->
  arp_search (λ a, a.(arstate) =? AR_FREE) x.(arpcache) = Some (Some slot) -> x.(arpcache) !! slot = Some a -> 0 <= slot ->
  (slot ← arp_alloc;
   if slot =? SYSERR then mret true
   else
     sndpa ← bget (λ m, ldl m (arp_sndpa pkt));
     updar (set_arpaddr sndpa) slot;;
     sndha ← bget (λ m, get_bytes 6 m (arp_sndha pkt));
     updar (set_arhaddr sndha) slot;;
     updar (set_arstate AR_RESOLVED) slot;;
     mret false) (Lst k x) = LDone false (Lst k (set_arpcache (<[slot := arp_entry sndpa sndha]> x.(arpcache)) x)).
Proof.
  intros Hp Hh Hfree Ha Hslot. rewrite (lbind_done _ _ _ _ _ (arp_alloc_run k x slot a Hfree Ha)).
  rewrite (proj2 (Z.eqb_neq slot SYSERR)) by (unfold SYSERR; lia). erewrite bind_bget by exact Hp. nrun.
  erewrite bind_bget by exact Hh. by nrun.
Qed.

Lemma arp_in_request pkt k x op sndha sndpa slot a m id fl : arp_ntoh pkt x.(bytes) = Some m ->
  arp_packet m pkt op sndha sndpa x.(NetData).(ipucast) -> op ≠ ARP_OP_RPLY -> x.(NetData).(ipvalid) = true ->
  mac_ok sndha -> mac_ok x.(NetData).(ethucast) ->
  arp_search (arp_has sndpa) x.(arpcache) = Some None ->
  arp_search (λ a, a.(arstate) =? AR_FREE) x.(arpcache) = Some (Some slot) -> x.(arpcache) !! slot = Some a -> 0 <= slot ->
  can_send (set_ie false k) x.(ether) -> buf_used k id fl pkt ->
  ∃ k' d' f, arp_in pkt (Lst k x) = LDone tt (Lst k' (set_ether d' (set_arpcache (<[slot := arp_entry sndpa sndha]> x.(arpcache)) (set_bytes m x)))) /\
    wire d' = wire x.(ether) ++ [f] /\ pool_ok k' id ((pkt - 4) :: fl) /\
    carries_frame (arp_frame sndha x.(NetData).(ethucast) ARP_OP_RPLY x.(NetData).(ethucast) x.(NetData).(ipucast) sndha sndpa) f.
Proof.
  intros Em [] Hop Hv Hmac Hmac' Hs Hfree Ha Hslot Hc Hu. unfold arp_in.
  erewrite bind_bput by exact Em. nsimpl. erewrite bind_bget by exact ap_htype0. erewrite bind_bget by exact ap_ptype0.
  change (negb (ARP_HTYPE =? ARP_HTYPE) || negb (ARP_PTYPE =? ARP_PTYPE)) with false. cbv iota. nrun.
  erewrite bind_bget by exact ap_sndpa0. nrun. rewrite Hs, bind_lopt. nrun. erewrite bind_bget by exact ap_op0.
  rewrite (proj2 (Z.eqb_neq _ _) Hop). nrun. erewrite bind_bget by exact ap_tarpa0. rewrite Hv, Z.eqb_refl. cbn [negb orb].
  rewrite (lbind_done _ _ _ _ _ (arp_enter_run pkt (set_ie false k) (set_bytes m x) sndha sndpa slot a ap_sndpa0 ap_sndha0 Hfree Ha Hslot)).
  cbv iota. erewrite bind_bget by exact ap_sndha0. erewrite bind_bget by exact ap_sndpa0. nrun.
  destruct (apkt_frame sndha x.(NetData).(ethucast) ARP_OP_RPLY x.(NetData).(ethucast) x.(NetData).(ipucast) sndha sndpa)
    as (apkt & E & G & L & N); [done..|]. rewrite arp_reply_fill, E, bind_lopt.
  destruct (write_apkt_run apkt _ (set_ie false k) (set_arpcache (<[slot := arp_entry sndpa sndha]> x.(arpcache)) (set_bytes m x)) G Hc L N)
    as (r & k1 & d1 & f & E1 & S1 & W1 & C1). rewrite (lbind_done _ _ _ _ _ E1).
  destruct (lfreebuf_run id fl pkt k1 (set_ether d1 (set_arpcache (<[slot := arp_entry sndpa sndha]> x.(arpcache)) (set_bytes m x)))
    (buf_used_same _ _ _ _ _ Hu S1)) as (k2 & E2 & P2 & _). rewrite (lbind_done _ _ _ _ _ E2), lrestore_run.
  by exists (set_ie k.(ie) k2), d1, f.
Qed.

(** The machine asked: it has the address [tarpa]; the sender is not in its cache, which has
    room in [slot]; the device takes frames. *)
Record asked (x : nst D) (sndpa tarpa : Z) (slot : Z) : Prop := {
  as_valid : x.(NetData).(ipvalid) = true;
  as_addr : x.(NetData).(ipucast) = tarpa;
  as_mac : mac_ok x.(NetData).(ethucast);
  as_new : arp_search (arp_has sndpa) x.(arpcache) = Some None;
  as_slot : arp_search (λ a, a.(arstate) =? AR_FREE) x.(arpcache) = Some (Some slot);
  as_device : ∀ k' d', can_send k' d' }.

Lemma arp_scan_first f n : ∀ i t j a, arp_scan f n i t = Some None -> i <= j < i + Z.of_nat n -> f a = true ->
  arp_scan f n i (<[j := a]> t) = Some (Some j).
Proof.
  induction n as [|n IH]; intros i t j a Hs Hj Ha; [lia|]. cbn [arp_scan] in *.
  destruct (t !! i) as [c|] eqn:Hc; [|done]. cbn [mbind option_bind] in Hs. destruct (f c) eqn:Hf; [done|].
  destruct (decide (j = i)) as [->|Hne].
  - rewrite lookup_insert_eq. cbn [mbind option_bind]. by rewrite Ha.
  - rewrite lookup_insert_ne by done. rewrite Hc. cbn [mbind option_bind]. rewrite Hf. apply IH; [done|lia|done].
Qed.

Lemma netin_arp_run k x fs pad b fl l0 bcast mac sndpa tarpa slot :
  gets_frame k x (arp_frame bcast mac ARP_OP_REQ mac sndpa (repeat 0 6) tarpa ++ pad) fs b fl l0 ->
  mac_ok bcast -> mac_ok mac -> is_u32 sndpa -> is_u32 tarpa -> Forall byte pad -> (length pad <= 1472)%nat ->
  asked x sndpa tarpa slot ->
  ∃ k' x' f, netin_round (Lst k x) = LDone tt (Lst k' x') /\
    x'.(arpcache) = <[slot := arp_entry sndpa mac]> x.(arpcache) /\ x'.(NetData) = x.(NetData) /\
    (∃ d, arrived d = fs /\ wire x'.(ether) = wire d ++ [f]) /\ pool_ok k' x.(netbufpool) (b :: fl) /\
    carries_frame (arp_frame mac x.(NetData).(ethucast) ARP_OP_RPLY x.(NetData).(ethucast) tarpa mac sndpa) f.
Proof.
  intros Hg Hb Hm Hs Ht Hp Hpl []. assert (Hz : mac_ok (repeat 0 6)) by (split; [done|apply zeros_bytes]).
  destruct (apkt_frame bcast mac ARP_OP_REQ mac sndpa (repeat 0 6) tarpa Hb Hm Hm Hz) as (_ & _ & _ & Lf & Nf).
  destruct (netin_frame_run _ _ _ _ _ _ _ Hg) as (k1 & m1 & d1 & E1 & U1 & A1 & B1 & L1 & N1 & _).
  { by apply Forall_app. }
  { rewrite length_app, Nf. lia. }
  destruct (arp_frame_in bcast mac ARP_OP_REQ mac sndpa (repeat 0 6) tarpa (pad ++ drop (length (arp_frame bcast mac ARP_OP_REQ mac sndpa (repeat 0 6) tarpa ++ pad)) l0))
    as [T1 T2]; [done..|]. rewrite app_assoc in T1, T2. rewrite T1 in E1. change (ETH_ARP =? ETH_ARP) with true in E1. cbv iota in E1.
  destruct (arp_ntoh_acts m1 (b + 4) _ B1 L1 ltac:(lia)) as (m2 & E2 & B2 & _). rewrite T2 in B2. clear T1 T2 B1 L1 N1.
  pose proof (arp_packet_at m2 (b + 4) bcast mac ARP_OP_REQ mac sndpa (repeat 0 6) tarpa _ Hb Hm Hm Hz ltac:(unfold ARP_OP_REQ; lia) Hs Ht B2) as Hpk.
  destruct (arp_scan_some _ _ _ _ _ as_slot0) as (Hr & a & Ha & _).
  destruct (arp_in_request (b + 4) k1 (set_bytes m1 (set_ether d1 x)) ARP_OP_REQ mac sndpa slot a m2 (netbufpool x) fl E2)
    as (k2 & d2 & f & E3 & W3 & P3 & C3); try done; [by rewrite <- as_addr0 in Hpk|lia|].
  exists k2. eexists. exists f. split; [rewrite E1; exact E3|]. split; [done|]. split; [done|]. split; [by exists d1|].
  replace (b + 4 - 4) with b in P3 by lia. cbn [NetData set_bytes set_ether] in C3. rewrite as_addr0 in C3. done.
Qed.

(** C37: an ARP request is answered, and teaches the machine it asks for.  The packet that
    arp_resolve makes on [x] for [tarpa] is 42 bytes long; on a machine [y] with that
    address, whose cache does not have the sender and has room in [slot], the round of
    netin that reads the packet (followed by any padding) ends, sends one frame, the
    reply to the sender with [y]'s addresses, and gives the buffer back; and
    arp_resolve on [y] then finds the sender's Ethernet address in the cache without
    asking. *)
Theorem arp_request_is_answered (x : nst D) tarpa (Hmac : mac_ok x.(NetData).(ethucast)) (Hbc : mac_ok x.(NetData).(ethbcast))
  (Haddr : is_u32 x.(NetData).(ipucast)) (Htarpa : is_u32 tarpa) :
  ∃ apkt l, arp_request x.(NetData) tarpa = Some apkt /\ get_bytes (Z.to_nat ARP_PACKLEN) apkt 0 = Some l /\ length l = 42%nat /\
    ∀ k y pad fs b fl l0 slot, gets_frame k y (l ++ pad) fs b fl l0 -> Forall byte pad -> (length pad <= 1472)%nat ->
      asked y x.(NetData).(ipucast) tarpa slot ->
      ∃ k' y' f, netin_round (Lst k y) = LDone tt (Lst k' y') /\
        (∃ d, arrived d = fs /\ wire y'.(ether) = wire d ++ [f]) /\
        carries_frame (arp_frame x.(NetData).(ethucast) y.(NetData).(ethucast) ARP_OP_RPLY y.(NetData).(ethucast) tarpa
          x.(NetData).(ethucast) x.(NetData).(ipucast)) f /\
        pool_ok k' y.(netbufpool) (b :: fl) /\
        ∀ mac m, x.(NetData).(ipucast) ≠ IP_BCAST -> x.(NetData).(ipucast) ≠ y.(NetData).(ipbcast) ->
          put_bytes mac x.(NetData).(ethucast) y'.(bytes) = Some m ->
          arp_resolve x.(NetData).(ipucast) mac (Lst k' y') = LDone OK (Lst k' (set_bytes m y')).
Proof.
  assert (Hz : mac_ok (repeat 0 6)) by (split; [done|apply zeros_bytes]).
  destruct (apkt_frame x.(NetData).(ethbcast) x.(NetData).(ethucast) ARP_OP_REQ x.(NetData).(ethucast) x.(NetData).(ipucast) (repeat 0 6) tarpa)
    as (apkt & E & G & L & N); [done..|]. rewrite <- arp_request_fill in E.
  do 2 eexists. split; [exact E|]. split; [exact G|]. split; [done|]. intros k y pad fs b fl l0 slot Hg Hp Hpl Hask.
  destruct (netin_arp_run k y fs pad b fl l0 _ _ _ _ slot Hg Hbc Hmac Haddr Htarpa Hp Hpl Hask)
    as (k' & y' & f & E1 & C1 & N1 & W1 & P1 & F1).
  exists k', y', f. split; [done|]. split; [done|]. split; [done|]. split; [done|]. intros mac m H1 H2 Hm.
  apply (arp_resolve_known _ (ethucast (NetData x))); [done|by rewrite N1| |done].
  destruct Hask. destruct (arp_scan_some _ _ _ _ _ as_slot0) as (Hr & a & Ha & _). unfold arp_known. rewrite C1.
  exists slot, (arp_entry (ipucast (NetData x)) (ethucast (NetData x))). split; [|by rewrite lookup_insert_eq].
  apply arp_scan_first; [done|lia|]. unfold arp_has, arp_entry. cbn [arstate arpaddr]. by rewrite Z.eqb_refl.
Qed.
End Request.
