(* ===== verification/Netthm.v ===== *)
(** The main theorems about the network, for any device that keeps the contracts of Netsend.v
    and Netok.v, with their instances for a device that keeps the frames in two lists. *)

From S2P Require Import Prelude Types Cstring Queue Memory Kernel Sched Sem Bufpool System Bytes Ring Lift Net Netlib Arp Udp Icmp Ip Udpthm Frame Netsend Netrecv Netok Arpthm.

Lemma udp_scan_range f n : ∀ i t slot, udp_scan f n i t = Some (Some slot) -> i <= slot < i + Z.of_nat n.
Proof.
  induction n as [|n IH]; intros i t slot; cbn [udp_scan]; [done|]. destruct (t !! i) as [u|]; [|done].
  cbn [mbind option_bind]. destruct (f u); [intros [= <-]; lia|]. intros H. apply IH in H. lia.
Qed.

Lemma udp_search_range f t slot : udp_search f t = Some (Some slot) -> 0 <= slot < UDP_SLOTS.
Proof. intros H. apply udp_scan_range in H. unfold UDP_SLOTS in *. lia. Qed.

Section Exchange.
Context {D : Type} `{!Ether D} `{!EtherLaws D}.
Implicit Types (x y : nst D) (k : kst).

(** The datagram that udp_sendto puts into its frame. *)
Lemma sendable_datagram k x slot u b fl dest mac buff data l0 remport : sendable k x slot u b fl dest mac buff data l0 ->
  is_u32 x.(NetData).(ipucast) -> 0 <= u.(udlocport) < 65536 -> 0 <= remport < 65536 ->
  datagram mac x.(NetData).(ethucast) x.(NetData).(ipucast) dest u.(udlocport) remport data.
Proof. intros [] Hs Hl Hr. destruct sd_reaches as (_ & _ & _ & _ & _ & _ & _ & _ & H1 & H2). by split. Qed.

(** C6: a datagram comes through.  On a machine where udp_sendto can reach [dest], it
    returns OK and hands one frame to the device.  On the machine with that address, whose
    first endpoint with room for such a datagram is [slot'] and is empty, the round of
    netin that reads the frame ends, and udp_recv on [slot'] then returns the number of bytes
    sent, stores exactly those bytes, and the buffer is back in the pool. *)
Theorem datagram_roundtrip k x slot u b fl dest mac buff data l0 remport
  (Hs : sendable k x slot u b fl dest mac buff data l0)
  (Haddr : is_u32 x.(NetData).(ipucast)) (Hlport : 0 <= u.(udlocport) < 65536) (Hrport : 0 <= remport < 65536) :
  ∃ k1 x1 f, udp_sendto slot dest remport buff (Z.of_nat (length data)) (Lst k x) = LDone OK (Lst k1 x1) /\
    wire x1.(ether) = wire x.(ether) ++ [f] /\ pool_ok k1 x.(netbufpool) (b :: fl) /\
    ∀ kr y fs slot' v b' fl' l0',
      receives kr y f fs x.(NetData).(ipucast) dest u.(udlocport) remport slot' v [] b' fl' l0' -> v.(udstate) = UDP_USED ->
      ∃ k2 y2, netin_round (Lst kr y) = LDone tt (Lst k2 y2) /\
        ∀ buff' len' timeout, Z.of_nat (length data) <= len' -> mapped y.(bytes) buff' (Z.of_nat (length data)) ->
          buff' + Z.of_nat (length data) <= b' + 4 \/ b' + 4 + 1514 <= buff' ->
          ∃ k3 y3, udp_recv slot' buff' len' timeout (Lst k2 y2) = LDone (Z.of_nat (length data)) (Lst k3 y3) /\
            bytes_at y3.(bytes) buff' data /\ pool_ok k3 y.(netbufpool) (b' :: fl').
Proof.
  pose proof (sendable_datagram _ _ _ _ _ _ _ _ _ _ _ _ Hs Haddr Hlport Hrport) as Hd.
  destruct (udp_sendto_run k x slot u b fl dest mac buff data l0 remport Hs) as (k1 & m1 & d1 & f & E1 & _ & P1 & Wr & (pad & -> & Hpad & Hf)).
  do 3 eexists. split; [exact E1|]. split; [exact Wr|]. split; [exact P1|]. intros kr y fs slot' v b' fl' l0' Hr Hu.
  destruct (netin_udp_run _ _ _ _ _ _ _ _ _ _ _ _ _ _ _ _ _ _ Hr Hd Hpad Hf) as (k2 & m2 & d2 & rest & E2 & Q2 & U2 & _ & B2 & N2 & W2).
  pose proof Hr as []. destruct rc_frame, Hd. unfold udp_notify, ud_entered in *. rewrite Hu in *. change (UDP_USED =? UDP_RECV) with false in *.
  cbv iota in *. rewrite bind_lret, lrestore_run in E2. do 2 eexists. split; [exact E2|]. clear E1 E2.
  intros buff' len' timeout Hlen Hm Hsep. destruct (arrived_fields mac (ethucast (NetData x)) (sendto_ident x)
    (ipucast (NetData x)) dest (udlocport u) remport data rest) as (_ & _ & _ & _ & _ & G1 & G2); [done..|].
  generalize dependent (udp_arrived mac (ethucast (NetData x)) (sendto_ident x) (ipucast (NetData x)) dest (udlocport u) remport data ++ rest).
  intros l B2 N2 G1 G2.
  assert (Hmin : Z.min len' (udp_length l - UDP_HDR_LEN) = Z.of_nat (length data)) by (rewrite G1; unfold UDP_HDR_LEN; lia).
  destruct (udp_recv_run slot' buff' len' timeout (set_ie (ie k2) (set_ie false k2))
    (set_udptab (<[slot':=ud_pushed (b' + 4) v]> (udptab y)) (set_bytes m2 (set_ether d2 y))) (ud_pushed (b' + 4) v) (b' + 4) [] l
    (netbufpool y) fl') as (k3 & m3 & E3 & _ & _ & B3 & P3); rewrite ?Hmin; nsimpl; try done; try lia.
  - by eapply udp_search_range.
  - apply lookup_insert_eq.
  - by eapply writes_mapped.
  - rewrite Hmin in E3, B3. rewrite G2, Nat2Z.id, take_app_length in B3. do 2 eexists. split; [exact E3|]. split; [exact B3|].
    by replace (b' + 4 - 4) with b' in P3 by lia.
Qed.
End Exchange.

(** * A device of two lists *)

Record frames := Frames { sent : list (list Z); waiting : list (list Z) }.
#[export] Instance frames_ether : Ether frames := {
  eth_write l :=
    modx (λ n, set_ether (Frames (n.(ether).(sent) ++ [l]) n.(ether).(waiting)) n);; mret (Z.of_nat (length l));
  eth_read count :=
    d ← getx ether;
    match d.(waiting) with
    | [] => mret (SYSERR, [])
    | f :: fs =>
        modx (set_ether (Frames d.(sent) fs));;
        mret (Z.of_nat (length (take (Z.to_nat count) f)), take (Z.to_nat count) f)
    end;
  eth_mac _ := [2; 0; 0; 0; 0; 1] }.

Lemma same_pools_refl k : same_pools k k.
Proof. by split. Qed.

#[export] Program Instance frames_laws : EtherLaws frames := {
  can_send _ _ := True;
  can_recv _ _ := True;
  wire := sent;
  arrived := waiting }.
Next Obligation. done. Qed.
Next Obligation. done. Qed.
Next Obligation.
  intros l k x _ Hl Hn. do 4 eexists. split; [reflexivity|]. split; [unfold SYSERR; lia|]. split; [apply same_pools_refl|].
  split; [reflexivity|]. exists []. by rewrite app_nil_r.
Qed.
Next Obligation.
  intros f fs k x _ Ha Hn. cbn [eth_read frames_ether]. rewrite bind_getx. cbn [lx]. rewrite Ha, bind_modx.
  change (Z.to_nat PACKLEN) with 1514%nat. rewrite take_ge by lia. do 2 eexists. split; [reflexivity|]. by split; [apply same_pools_refl|].
Qed.

(** * Two machines *)

(** Three buffers of 1514 bytes at 4096, 5616 and 7136, of which the first gets used. *)
Definition demo_bufs : kst := state_of (mkbufpool 1514 3 demo_main).
Definition demo_bytes : bmem := ram 1514 4100 (put_list 1000 [72; 105; 33] (ram 64 2000 ∅)).

(** Address 10.0.0.[host] in a network of 256 addresses; the other machine is in the
    cache.  Endpoint 2 is in use, for [port]. *)
Definition demo_ip (host : Z) : Z := 167772160 + host.
Definition demo_mac (host : Z) : list Z := [2; 0; 0; 0; 0; host].
Definition demo_ud (port : Z) : udpentry := Udpentry UDP_USED 0 0 port 0 0 0 (-1) (arr_make 8 0).
Definition demo_net (host other port : Z) (d : frames) : nst frames :=
  Nst demo_bytes (<[2 := demo_ud port]> (arr_make 6 (Udpentry UDP_FREE 0 0 0 0 0 0 (-1) (arr_make 8 0))))
    (arr_make 10 (Icmpentry ICMP_FREE 0 0 0 0 (-1) (arr_make 8 0)))
    (<[3 := Arpentry AR_RESOLVED (demo_ip other) (-1) (demo_mac other)]> (arr_make 16 arp_zero))
    (Iqentry 0 0 5 (arr_make 8 0))
    (Network (demo_ip host) (demo_ip 255) 4294967040 (demo_ip 0) (demo_ip 1) 0 true (demo_mac host) (repeat 255 6) (repeat 0 128))
    0 1 50000 0 d.

Lemma demo_bufs_ok : pool_ok demo_bufs 0 [4096; 5616; 7136].
Proof.
  destruct (mkbufpool_run demo_main 1514 3 4096 (match getmem 4560 demo_main.(mem) with Some (_, m) => m | None => demo_main.(mem) end)
    (Sentry S_FREE 0 100) (Bpentry 0 0 0)) as (s' & Hrun & Hok & _); [by_run..|].
  unfold demo_bufs. rewrite Hrun. exact Hok.
Qed.

Lemma demo_sendable : sendable demo_bufs (demo_net 7 9 5000 (Frames [] [])) 2 (demo_ud 5000) 4096 [5616; 7136] (demo_ip 9) (demo_mac 9)
  1000 [72; 105; 33] (repeat 0 1514).
Proof.
  constructor.
  - by unfold UDP_SLOTS.
  - vm_compute. reflexivity.
  - discriminate.
  - exact demo_bufs_ok.
  - done.
  - done.
  - apply ram_bytes.
  - apply zeros_bytes.
  - apply repeat_length.
  - repeat (split; [vm_compute; reflexivity|]). exact I.
  - repeat constructor; done.
  - cbn [length]. lia.
  - cbn [length]. lia.
  - repeat (split; [discriminate|]). split; [|by split; [|repeat constructor]].
    exists 3, (Arpentry AR_RESOLVED (demo_ip 9) (-1) (demo_mac 9)). by do 3 (split; [vm_compute; reflexivity|]).
  - by unfold is_u32.
  - reflexivity.
  - repeat constructor; done.
  - exact (λ _ _ _, I).
Qed.

Lemma demo_receives f : receives demo_bufs (demo_net 9 7 6000 (Frames [] [f])) f [] (demo_ip 7) (demo_ip 9) 5000 6000 2 (demo_ud 6000) []
  4096 [5616; 7136] (repeat 0 1514).
Proof.
  constructor.
  - constructor; [exact demo_bufs_ok|done|apply ram_bytes|apply zeros_bytes|apply repeat_length|reflexivity|exact (λ _ _ _, I)].
  - reflexivity.
  - reflexivity.
  - discriminate.
  - vm_compute. reflexivity.
  - vm_compute. reflexivity.
  - split; [by apply ring_start, (arr_make_len 8)|reflexivity].
Qed.

Lemma datagram_roundtrip_witness : ∃ k1 x1 f k2 y2 k3 y3,
  udp_sendto 2 (demo_ip 9) 6000 1000 3 (Lst demo_bufs (demo_net 7 9 5000 (Frames [] []))) = LDone OK (Lst k1 x1) /\
  x1.(ether).(sent) = [f] /\
  netin_round (Lst demo_bufs (demo_net 9 7 6000 (Frames [] [f]))) = LDone tt (Lst k2 y2) /\
  udp_recv 2 2000 64 1000 (Lst k2 y2) = LDone 3 (Lst k3 y3) /\ bytes_at y3.(bytes) 2000 [72; 105; 33].
Proof.
  destruct (datagram_roundtrip demo_bufs (demo_net 7 9 5000 (Frames [] [])) 2 (demo_ud 5000) 4096 [5616; 7136] (demo_ip 9) (demo_mac 9)
    1000 [72; 105; 33] (repeat 0 1514) 6000 demo_sendable) as (k1 & x1 & f & E1 & Wr & _ & H);
    [by unfold is_u32|by cbn [demo_ud udlocport]|by split|].
  destruct (H _ _ _ _ _ _ _ _ (demo_receives f) eq_refl) as (k2 & y2 & E2 & H2).
  destruct (H2 2000 64 1000) as (k3 & y3 & E3 & B & _); [cbn [length]; lia| |cbn [length]; lia|].
  { apply (mappedb_true demo_bytes 2000 3). vm_compute. reflexivity. }
  exists k1, x1, f, k2, y2, k3, y3. split; [exact E1|]. split; [exact Wr|]. split; [exact E2|]. split; [exact E3|exact B].
Defined.

(** * The tables *)

Section Tables.
Context {D : Type} `{!Ether D} `{!EtherFrame D}.

(** C7: from a state with well-formed tables, whatever calls out of [P] the processes make,
    in any order and interleaved in any way at the points where a call gives up the
    processor, as long as no step has undefined behaviour and none halts the system, the
    tables of UDP, ICMP and ARP and the queue of IP stay well formed: every state is one of
    those of its type, every Ethernet address has six bytes, no IP address has two entries
    in the ARP cache, and every index of a ring is within its array, with one exception.
    The index of the next echo reply is only below ICMP_SLOTS, the length of another array;
    it stays below ICMP_QSIZ, the length of its own, when [P] has neither icmp_recv nor
    icmp_release.  So the operations on the rings are defined in every state reached, except
    the read of an echo reply, which is undefined exactly when that index is past the end. *)
Theorem network_tables_stay_ok P x c (Hx : net_ok ICMP_QSIZ x) (Hc : rtc (netstep P) (Going (Netconf x [])) (Going c)) :
  net_ok ICMP_SLOTS c.(stack) /\ ((∀ op, P op -> takes_reply op = false) -> net_ok ICMP_QSIZ c.(stack)) /\ rings_defined c.(stack).
Proof.
  assert (H : net_ok ICMP_SLOTS c.(stack)).
  { eapply (netsteps_ok P ICMP_SLOTS) in Hc as [H _]; [exact H|done..|]. split; [by apply (net_ok_mono (hmax:=ICMP_QSIZ))|constructor]. }
  split; [done|]. split; [|by eapply net_ok_rings]. intros HP.
  eapply (netsteps_ok P ICMP_QSIZ) in Hc as [H' _]; [exact H'|done| |by split]. intros op Hop. by rewrite HP.
Qed.
End Tables.

#[export] Program Instance frames_frame : EtherFrame frames.
Next Obligation. intros h l. cbn [eth_write frames_ether]. keeps_run. Qed.
Next Obligation. intros h count. cbn [eth_read frames_ether]. keeps_run. Qed.

Lemma arr_make_Forall {V} (P : V -> Prop) n v : P v -> map_Forall (λ _, P) (arr_make n v).
Proof.
  intros Hv i w Hi. pose proof (arr_len_lt _ _ _ _ (arr_make_len n v) Hi) as Hr. rewrite (arr_make_lookup n v i Hr) in Hi. by injection Hi as <-.
Qed.

Lemma demo_net_ok host other port d : net_ok ICMP_QSIZ (demo_net host other port d).
Proof.
  constructor; cbn [demo_net udptab icmptab arpcache ipoqueue].
  - eapply arr_ok_insert; [split; [apply (arr_make_len 6)|apply arr_make_Forall]|by apply (arr_make_lookup 6)|];
      split; try done; try apply (arr_make_len 8); [by left|by right; left].
  - split; [apply (arr_make_len 10)|]. apply arr_make_Forall. split; try done; [by left|apply (arr_make_len 8)].
  - assert (Hz : arr_len ARP_SIZ (arr_make 16 arp_zero) /\ map_Forall (λ _, ar_ok) (arr_make 16 arp_zero)).
    { split; [apply (arr_make_len 16)|]. apply arr_make_Forall, ar_ok_zero. }
    pose proof (arr_make_lookup 16 arp_zero 3 ltac:(lia)) as H3.
    destruct (arr_ok_insert _ _ _ _ _ (Arpentry AR_RESOLVED (demo_ip other) (-1) (demo_mac other)) Hz H3) as [H1 H2]; [split; [by right; right|done]|].
    split; [done|]. split; [done|]. apply (ar_unique_insert _ _ arp_zero); [|done|].
    + intros i j a b Hi Hj Ha. pose proof (arr_len_lt _ _ _ _ (proj1 Hz) Hi) as Hr. rewrite (arr_make_lookup 16 _ _ Hr) in Hi. by injection Hi as <-.
    + right. right. intros j c Hj _ Hc. pose proof (arr_len_lt _ _ _ _ (proj1 Hz) Hj) as Hr. rewrite (arr_make_lookup 16 _ _ Hr) in Hj.
      by injection Hj as <-.
  - split; try done. apply (arr_make_len 8).
Qed.

(** A process waits for a datagram; another one registers an endpoint and releases it. *)
Definition demo_call (op : netop) (c : netconf (D:=frames)) : netconf :=
  match settle (netrun op (Lst demo_bufs c.(stack))) c.(calls) with Going c' => c' | _ => c end.
Definition demo_start_net : netconf := Netconf (demo_net 9 7 6000 (Frames [] [])) [].
Definition demo_busy : netconf := demo_call (NUdpRelease 0) (demo_call (NUdpRegister 0 0 53) (demo_call (NUdpRecv 2 2000 64 1000) demo_start_net)).

Definition goes_on (st : netstat (D:=frames)) : bool := match st with Going _ => true | _ => false end.
Lemma demo_call_step op c : goes_on (settle (netrun op (Lst demo_bufs c.(stack))) c.(calls)) = true ->
  netstep (λ _, True) (Going c) (Going (demo_call op c)).
Proof.
  intros H. pose proof (net_calls (λ _, True) op demo_bufs c.(stack) c.(calls) I) as Hs. unfold demo_call.
  destruct (settle _ _) as [c'| |]; [by destruct c|done|done].
Qed.

Lemma demo_start_ok : net_ok ICMP_QSIZ demo_start_net.(stack).
Proof. apply demo_net_ok. Qed.

Lemma network_tables_stay_ok_witness : rtc (netstep (λ _, True)) (Going demo_start_net) (Going demo_busy) /\
  length demo_busy.(calls) = 1%nat /\ net_ok ICMP_SLOTS demo_busy.(stack) /\ rings_defined demo_busy.(stack).
Proof.
  assert (Hr : rtc (netstep (λ _, True)) (Going demo_start_net) (Going demo_busy)).
  { do 3 (eapply rtc_r; [|apply demo_call_step; vm_compute; reflexivity]). apply rtc_refl. }
  split; [exact Hr|]. split; [vm_compute; reflexivity|].
  destruct (network_tables_stay_ok _ _ _ demo_start_ok Hr) as (H1 & _ & H3). exact (conj H1 H3).
Defined.

(** * Endpoints *)

Section Endpoints.
Context {D : Type}.
Implicit Types (x : nst D) (k : kst).

Lemma set_ie_same k : set_ie k.(ie) (set_ie false k) = k.
Proof. by destruct k. Qed.

(** C14: an endpoint is a queue of at most UDP_QSIZ packets.  A packet for which it is
    the first entry with room goes to the end of the queue; udp_recv copies the data of the
    first packet, cut to the length of the caller's buffer, returns the number of
    bytes, takes the packet off the queue and gives its buffer back; an endpoint whose
    queue is full takes no packet. *)
Theorem udp_endpoint_is_a_fifo k x slot u xs (Hs : 0 <= slot < UDP_SLOTS) (Hu : x.(udptab) !! slot = Some u)
  (Hst : u.(udstate) = UDP_USED) (Hq : ud_holds u xs) :
  (∀ pktptr dport sport src, udp_header x.(bytes) pktptr dport sport src ->
    udp_search (udp_takes dport sport src) x.(udptab) = Some (Some slot) ->
    ∃ u', udp_in pktptr (Lst k x) = LDone tt (Lst k (set_udptab (<[slot := u']> x.(udptab)) x)) /\
      ud_holds u' (xs ++ [pktptr]) /\ u'.(udstate) = UDP_USED) /\
  (∀ pkt xs' l id fl buff len timeout, xs = pkt :: xs' -> bytes_at x.(bytes) pkt l -> (42 <= length l)%nat ->
    buf_used k id fl pkt ->
    let n := Z.min len (udp_length l - UDP_HDR_LEN) in
    0 <= n -> 42 + n <= Z.of_nat (length l) -> mapped x.(bytes) buff n -> (buff + n <= pkt + 42 \/ pkt + 42 + n <= buff) ->
    ∃ k' m' u', udp_recv slot buff len timeout (Lst k x) =
        LDone n (Lst k' (set_bytes m' (set_udptab (<[slot := u']> x.(udptab)) x))) /\
      ud_holds u' xs' /\ u'.(udstate) = UDP_USED /\ writes buff n x.(bytes) m' /\
      bytes_at m' buff (take (Z.to_nat n) (drop 42 l)) /\ pool_ok k' id ((pkt - 4) :: fl)) /\
  (Z.of_nat (length xs) = UDP_QSIZ -> ∀ dport sport src, udp_takes dport sport src u = false).
Proof.
  split; [|split].
  - intros pktptr dport sport src Hh Hsearch. destruct (udp_in_run pktptr k x _ _ _ _ Hh Hsearch u xs Hu Hq) as [Hq' E].
    exists (ud_entered pktptr u). rewrite E. unfold udp_notify, ud_entered in *. rewrite Hst in *. change (UDP_USED =? UDP_RECV) with false in *.
    cbv iota in *. rewrite bind_lret, lrestore_run, set_ie_same. by split.
  - intros pkt xs' l id fl buff len timeout -> Hb Hl Hbuf n H0 Hn Hm Hsep.
    destruct (udp_recv_run slot buff len timeout k x u pkt xs' l id fl Hs Hu Hst Hq Hb Hl H0 Hn Hm Hsep Hbuf) as (k' & m' & E & Q & W & B & P).
    by exists k', m', (ud_taken u).
  - intros Hfull dport sport src. unfold udp_takes. destruct Hq as [_ ->]. rewrite Hfull. by rewrite andb_false_r.
Qed.

(** Icmp_recv leaves the array.  While the index of the next reply is below ICMP_QSIZ,
    taking a reply gives the one at that index and moves the index on by one; it is
    not set back at ICMP_QSIZ, the length of the array, but at ICMP_SLOTS, so that after
    eight replies icmp_recv reads a ninth element of the array of eight. *)
Theorem icmp_recv_leaves_the_array k x icmpid u buff len timeout (Hid : isbadicmp icmpid = false)
  (Hu : x.(icmptab) !! icmpid = Some u) (Hst : u.(icstate) = ICMP_USED) (Hc : 0 < u.(iccount)) (Hq : arr_len ICMP_QSIZ u.(icqueue)) :
  (0 <= u.(ichead) < ICMP_QSIZ -> ∃ pkt, u.(icqueue) !! u.(ichead) = Some pkt /\
    icmp_pop icmpid (Lst k x) = LDone pkt (Lst k (set_icmptab (<[icmpid := set_ichead (u.(ichead) + 1) u]> x.(icmptab)) x))) /\
  (u.(ichead) = ICMP_QSIZ -> icmp_recv icmpid buff len timeout (Lst k x) = LUB).
Proof.
  split.
  - intros Hh. destruct (arr_len_lookup _ _ _ Hq Hh) as [pkt Hp]. exists pkt. split; [done|]. unfold icmp_pop. nrun.
    rewrite Hp, bind_lopt. nrun. cbn [ichead set_ichead]. rewrite Z.geb_leb, (proj2 (Z.leb_gt _ _)) by (unfold ICMP_QSIZ, ICMP_SLOTS in *; lia). done.
  - intros Hh. unfold icmp_recv. rewrite Hid. nrun. rewrite Hst. change (ICMP_USED =? ICMP_USED) with true. cbn [negb].
    assert (E : ∀ k', icmp_await icmpid timeout (Lst k' x) = LDone None (Lst k' x)).
    { intros k'. unfold icmp_await. nrun. by rewrite (proj2 (Z.eqb_neq _ _)) by lia. }
    rewrite (lbind_done _ _ _ _ _ (E _)). unfold icmp_pop. unfold mbind at 1, L_bind at 1. nrun.
    destruct (icqueue u !! ichead u) as [y|] eqn:Hy; [|done]. apply (arr_len_lt _ _ _ _ Hq) in Hy. rewrite Hh in Hy. lia.
Qed.
End Endpoints.

(** C33: the header checksum is the Internet checksum of RFC 1071 unless its sum carries
    twice.  For a header whose ten words are not all zero, ipcksum returns the complement
    of their one's complement sum exactly when adding the first carry does not carry
    again; else it returns one more (modulo 65535).  In either case it returns 0 for a header
    with a correct checksum. *)
Theorem ipcksum_is_the_internet_checksum m p l (Hb : bytes_at m p l) (Hl : Forall byte l) (Hn : (34 <= length l)%nat)
  (H0 : 0 < sum (words 10 14 l)) :
  let ws := words 10 14 l in
  ∃ c, ipcksum m p = Some c /\ (c = internet_checksum ws <-> carries (sum ws) = false) /\
    (carries (sum ws) = true -> c = (internet_checksum ws + 1) mod 65535) /\ (onec_sum ws = 65535 -> c = 0).
Proof.
  intros ws. exists (cksum_of (sum ws)). split; [by apply ipcksum_run|].
  pose proof (words_range 10 14 l Hl ltac:(lia)) as Hws. fold ws in Hws, H0.
  destruct (cksum_internet ws Hws) as [E V]; [by unfold ws; rewrite words_length|done|]. rewrite E in *.
  assert (Hr : 0 <= internet_checksum ws < 65535).
  { unfold internet_checksum. rewrite onec_sum_rep by done. unfold onec_rep. rewrite (proj2 (Z.eqb_neq _ _)) by lia.
    pose proof (Z.mod_pos_bound (sum ws - 1) 65535 ltac:(lia)). lia. }
  destruct (carries (sum ws)); [|by split]. split; [|by split]. split; [|done]. intros Hc.
  destruct (decide (internet_checksum ws = 65534)) as [H|H].
  - rewrite H in Hc. done.
  - rewrite Z.mod_small in Hc by lia. lia.
Qed.

(** A header on which the sum carries twice. *)
Definition demo_header : list Z := repeat 0 14 ++ [255; 255; 255; 255; 0; 1] ++ repeat 0 14.

Lemma ipcksum_is_the_internet_checksum_witness :
  ipcksum (put_list 0 demo_header ∅) 0 = Some 0 /\ internet_checksum (words 10 14 demo_header) = 65534.
Proof.
  destruct (ipcksum_is_the_internet_checksum (put_list 0 demo_header ∅) 0 demo_header) as (c & E & _ & Hc & _).
  - repeat (split; [vm_compute; reflexivity|]). exact I.
  - repeat constructor; done.
  - vm_compute. lia.
  - by vm_compute.
  - rewrite Hc in E by (vm_compute; reflexivity). split; [|vm_compute; reflexivity]. rewrite E. vm_compute. reflexivity.
Defined.

(** The packet of zeros at 4100 is for port 0. *)
Definition demo_zero : nst frames := demo_net 9 7 0 (Frames [] []).

Lemma demo_zero_header : udp_header demo_zero.(bytes) 4100 0 0 0.
Proof. by split; [|split]; vm_compute. Qed.

Lemma udp_endpoint_is_a_fifo_witness : ∃ u', udp_in 4100 (Lst demo_bufs demo_zero) =
    LDone tt (Lst demo_bufs (set_udptab (<[2 := u']> demo_zero.(udptab)) demo_zero)) /\ ud_holds u' [4100].
Proof.
  destruct (udp_endpoint_is_a_fifo demo_bufs demo_zero 2 (demo_ud 0) []) as [H _].
  - by unfold UDP_SLOTS.
  - vm_compute. reflexivity.
  - reflexivity.
  - split; [by apply ring_start, (arr_make_len 8)|reflexivity].
  - destruct (H 4100 0 0 0 demo_zero_header) as (u' & E & Q & _); [vm_compute; reflexivity|]. exact (ex_intro _ u' (conj E Q)).
Defined.

Definition demo_pinger : icmpentry := Icmpentry ICMP_USED 5 8 0 1 (-1) (arr_make 8 0).
Definition demo_ping : nst frames := set_icmptab (<[0 := demo_pinger]> demo_zero.(icmptab)) demo_zero.

Lemma icmp_recv_leaves_the_array_witness : icmp_recv 0 2000 56 1000 (Lst demo_bufs demo_ping) = LUB.
Proof.
  destruct (icmp_recv_leaves_the_array demo_bufs demo_ping 0 demo_pinger 2000 56 1000) as [_ H];
    [reflexivity|vm_compute; reflexivity|reflexivity|done|apply (arr_make_len 8)|]. by apply H.
Defined.

(** A process registers for echo replies from its own machine, and [n] times sends one to itself
    and receives it: each of the first eight rounds returns, the ninth is undefined. *)
Definition demo_echoes (n : nat) : lres (nst frames) unit :=
  (icmp_register (demo_ip 9);;
   rounds n (icmp_send (demo_ip 9) ICMP_ECHOREPLY 0 0 1000 3;; icmp_recv 0 2000 64 1000;; mret tt)) (Lst demo_bufs demo_start_net.(stack)).

Lemma ninth_echo_reply_is_undefined : (∃ s, demo_echoes 8 = LDone tt s) /\ demo_echoes 9 = LUB.
Proof.
  split; [|vm_compute; reflexivity].
  assert (H : match demo_echoes 8 with LDone _ _ => true | _ => false end = true) by (vm_compute; reflexivity).
  revert H. generalize (demo_echoes 8). intros r H. destruct r as [[] s| | |]; [by exists s|done..].
Qed.

(** Machine 9, whose cache has only machine 7, is asked by machine 5. *)
Definition demo_asker : nst frames := demo_net 5 7 53 (Frames [] []).
Definition demo_request : list Z := default [] (apkt ← arp_request demo_asker.(NetData) (demo_ip 9); get_bytes 42 apkt 0).
Definition demo_asked : nst frames := demo_net 9 7 6000 (Frames [] [demo_request]).

Lemma arp_request_is_answered_witness : ∃ k' y' sents pad m, netin_round (Lst demo_bufs demo_asked) = LDone tt (Lst k' y') /\
  y'.(ether).(sent) = sents ++ [arp_frame (demo_mac 5) (demo_mac 9) ARP_OP_RPLY (demo_mac 9) (demo_ip 9) (demo_mac 5) (demo_ip 5) ++ pad] /\
  (put_bytes 2000 (demo_mac 5) y'.(bytes) = Some m -> arp_resolve (demo_ip 5) 2000 (Lst k' y') = LDone OK (Lst k' (set_bytes m y'))).
Proof.
  destruct (arp_request_is_answered demo_asker (demo_ip 9)) as (apkt & l & E & G & N & H);
    [split; [done|repeat constructor; done]..|by unfold is_u32|by unfold is_u32|].
  destruct (H demo_bufs demo_asked [] [] 4096 [5616; 7136] (repeat 0 1514) 0) as (k' & y' & f & E1 & (d & _ & W) & (pad & Hf & _) & _ & R).
  - rewrite app_nil_r. assert (El : l = demo_request).
    { unfold demo_request. rewrite E. cbn [mbind option_bind]. change 42%nat with (Z.to_nat ARP_PACKLEN). by rewrite G. }
    rewrite El. constructor; [exact demo_bufs_ok|done|apply ram_bytes|apply zeros_bytes|apply repeat_length|reflexivity|exact (λ _ _ _, I)].
  - constructor.
  - cbn [length]. lia.
  - constructor; [reflexivity|reflexivity|split; [done|repeat constructor; done]|vm_compute; reflexivity|vm_compute; reflexivity|exact (λ _ _, I)].
  - exists k', y', (wire d), pad, (default ∅ (put_bytes 2000 (demo_mac 5) y'.(bytes))).
    split; [exact E1|]. split; [rewrite Hf in W; exact W|]. intros Hm. apply R; [discriminate|discriminate|exact Hm].
Defined.
