(* ===== verification/Fs.v ===== *)
(** The file system of system/fs.c on the block store of system/bs.c.

    The block store, the super block [fsd], the table of open files [oft], the
    buffer [block_cache] and the structures that getmem returns are all in the byte
    memory of Cstring.v, as the structs of include/fs.h lay them out, because the
    code copies them with memcpy; an [int] is four bytes, the least significant one
    first, and a copy that runs over the end of an object changes what is behind it.
    The linker chooses the addresses of the three global objects, and getmem is a
    parameter.  Reading a byte that is not there and a division by zero are [None].
    The messages that the code prints are not modelled, nor are the functions that
    only print (fs_print_fsd, fs_printfreemask); fs_mount is declared in fs.h and
    defined nowhere. *)

From S2P Require Import Prelude Types Cstring Bytes.

(** Division of C: of [int]s, and of unsigned integers. *)
Definition cdiv (a b : Z) : option Z := if b =? 0 then None else Some (Z.quot a b).
Definition crem (a b : Z) : option Z := if b =? 0 then None else Some (Z.rem a b).

(** * include/fs.h *)

Definition O_CREAT : Z := 11.
Definition O_RDONLY : Z := 0.
Definition O_WRONLY : Z := 1.
Definition O_RDWR : Z := 2.
Definition FILENAMELEN : Z := 32.
Definition INODEBLOCKS : Z := 12.
Definition DIRECTORY_SIZE : Z := 16.
Definition MDEV_BLOCK_SIZE : Z := 512.
Definition MDEV_NUM_BLOCKS : Z := 512.
Definition DEFAULT_NUM_INODES : Z := 128.
Definition INODE_TYPE_FILE : Z := 1.
Definition FSTATE_CLOSED : Z := 0.
Definition FSTATE_OPEN : Z := 1.
Definition SB_BLK : Z := 0.
Definition BM_BLK : Z := 1.
Definition NUM_FD : Z := 16.
Definition FIRST_INODE_BLOCK : Z := 2.
Definition dev0 : Z := 0.

(** struct inode *)
Definition inode_size : Z := 64.
Definition in_id (p : Z) : Z := p.
Definition in_type (p : Z) : Z := p + 4.
Definition in_device (p : Z) : Z := p + 8.
Definition in_filesize (p : Z) : Z := p + 12.
Definition in_block (p i : Z) : Z := p + 16 + 4 * i.

(** struct filetable *)
Definition ft_size : Z := 76.
Definition ft_state (f : Z) : Z := f.
Definition ft_fileptr (f : Z) : Z := f + 4.
Definition ft_de (f : Z) : Z := f + 8.
Definition ft_in (f : Z) : Z := f + 12.

(** struct dirent *)
Definition de_size : Z := 36.
Definition de_inode_num (e : Z) : Z := e.
Definition de_name (e : Z) : Z := e + 4.

(** * The state *)

Record fsst {A : Type} := Fsst {
  mem : bmem;
  dev0_numblocks : Z;
  dev0_blocksize : Z;
  dev0_blocks : Z;
  next_open_fd : Z;
  fheap : A }.
Arguments fsst : clear implicits.

Section Fs.
Context {A : Type} (al_get : Z -> A -> Z * A) (fsd oft block_cache : Z).
#[local] Abbreviation st := (fsst A).

Definition FS (B : Type) : Type := st -> option (B * st).
#[local] Instance FS_ret : MRet FS := λ B x s, Some (x, s).
#[local] Instance FS_bind : MBind FS := λ B C f m s, match m s with Some (x, s) => f x s | None => None end.

Definition get {B} (f : st -> B) : FS B := λ s, Some (f s, s).
Definition lift {B} (o : option B) : FS B := λ s, x ← o; Some (x, s).
Definition set_ (f : st -> st) : FS unit := λ s, Some (tt, f s).
Definition with_mem (m : bmem) (s : st) : st :=
  Fsst _ m s.(dev0_numblocks) s.(dev0_blocksize) s.(dev0_blocks) s.(next_open_fd) s.(fheap).
Definition with_dev (n b p : Z) (s : st) : st := Fsst _ s.(mem) n b p s.(next_open_fd) s.(fheap).
Definition with_next_open_fd (n : Z) (s : st) : st :=
  Fsst _ s.(mem) s.(dev0_numblocks) s.(dev0_blocksize) s.(dev0_blocks) n s.(fheap).
Definition with_fheap (h : A) (s : st) : st :=
  Fsst _ s.(mem) s.(dev0_numblocks) s.(dev0_blocksize) s.(dev0_blocks) s.(next_open_fd) h.

Definition load (a : Z) : FS Z := λ s, v ← ldi s.(mem) a; Some (v, s).
Definition loadb (a : Z) : FS Z := λ s, v ← ldb s.(mem) a; Some (v, s).
Definition upd (f : bmem -> option bmem) : FS unit := λ s, m ← f s.(mem); Some (tt, with_mem m s).
Definition store (a v : Z) : FS unit := upd (sti a v).
Definition storeh (a v : Z) : FS unit := upd (sth a v).
Definition storeb (a v : Z) : FS unit := upd (stb a (u8 v)).
Definition copy (dst src n : Z) : FS unit := upd (λ m, '(_, m) ← memcpy dst src n m; Some m).
Definition getmem (n : Z) : FS Z := λ s, let '(p, h) := al_get (u32 n) s.(fheap) in Some (p, with_fheap h s).
Definition failed (p : Z) : bool := p =? 4294967295.

(** The fields of [fsd]. *)
Definition fsd_nblocks : Z := fsd.
Definition fsd_blocksz : Z := fsd + 4.
Definition fsd_ninodes : Z := fsd + 8.
Definition fsd_inodes_used : Z := fsd + 12.
Definition fsd_freemaskbytes : Z := fsd + 16.
Definition fsd_freemask : Z := fsd + 20.
Definition fsd_numentries : Z := fsd + 24.
Definition fsd_entry (i : Z) : Z := fsd + 28 + de_size * i.
Definition fsystem_size : Z := 604.

(** A pointer is an unsigned word. *)
Definition loadp (a : Z) : FS Z := v ← load a; mret (u32 v).

(** * The block store *)

(** system/bs.c: bs_mkdev *)
Definition bs_mkdev (dev blocksize numblocks : Z) : FS Z :=
  if negb (dev =? 0) then mret SYSERR
  else
    let bs := if negb (blocksize =? 0) then blocksize else MDEV_BLOCK_SIZE in
    let nb := if negb (numblocks =? 0) then numblocks else MDEV_NUM_BLOCKS in
    p ← getmem (s32 (nb * bs));
    set_ (with_dev nb bs p);;
    if failed p then mret SYSERR else mret OK.

(** system/bs.c: bs_bread *)
Definition bs_bread (dev block offset buf len : Z) : FS Z :=
  if negb (dev =? 0) then mret SYSERR
  else
    bs ← get dev0_blocksize;
    if offset >=? bs then mret SYSERR
    else
      base ← get dev0_blocks;
      copy buf (base + s32 (block * bs) + offset) len;;
      mret OK.

(** system/bs.c: bs_bwrite *)
Definition bs_bwrite (dev block offset buf len : Z) : FS Z :=
  if negb (dev =? 0) then mret SYSERR
  else
    bs ← get dev0_blocksize;
    if offset >=? bs then mret SYSERR
    else
      base ← get dev0_blocks;
      copy (base + s32 (block * bs) + offset) buf len;;
      mret OK.

(** * The mask of free blocks *)

(** [0x80 >> mbit]; shifting by a negative number is undefined. *)
Definition maskbit (b : Z) : option Z := let k := Z.rem b 8 in if k <? 0 then None else Some (Z.shiftr 128 k).

(** system/fs.c: fs_setmaskbit *)
Definition fs_setmaskbit (b : Z) : FS Z :=
  let mbyte := Z.quot b 8 in
  bit ← lift (maskbit b);
  p ← loadp fsd_freemask;
  c ← loadb (p + mbyte);
  storeb (p + mbyte) (Z.lor c bit);;
  mret OK.

(** system/fs.c: fs_getmaskbit *)
Definition fs_getmaskbit (b : Z) : FS Z :=
  let mbyte := Z.quot b 8 in
  let mbit := Z.rem b 8 in
  p ← loadp fsd_freemask;
  c ← loadb (p + mbyte);
  if mbit <? 0 then lift None
  else mret (Z.shiftr (Z.land (Z.shiftl c mbit) 128) 7).

(** system/fs.c: fs_clearmaskbit *)
Definition fs_clearmaskbit (b : Z) : FS Z :=
  let mbyte := Z.quot b 8 in
  bit ← lift (maskbit b);
  let invb := Z.land (Z.lnot bit) 255 in
  p ← loadp fsd_freemask;
  c ← loadb (p + mbyte);
  storeb (p + mbyte) (Z.land c invb);;
  mret OK.

(** * Inodes *)

(** [INODES_PER_BLOCK] and [NUM_INODE_BLOCKS], in unsigned arithmetic. *)
Definition INODES_PER_BLOCK : FS Z := bs ← load fsd_blocksz; mret (Z.quot (u32 bs) inode_size).
Definition NUM_INODE_BLOCKS : FS Z :=
  ipb ← INODES_PER_BLOCK;
  n ← load fsd_ninodes;
  r ← lift (crem (u32 n) ipb);
  q ← lift (cdiv (u32 n) ipb);
  mret (if r =? 0 then q else u32 (q + 1)).

(** The block and the offset of an inode. *)
Definition inode_place (inode_number : Z) : FS (Z * Z) :=
  ipb ← INODES_PER_BLOCK;
  bl ← lift (cdiv (u32 inode_number) ipb);
  inn ← lift (crem (u32 inode_number) ipb);
  mret (s32 (s32 bl + FIRST_INODE_BLOCK), s32 (s32 inn * inode_size)).

(** system/fs.c: fs_get_inode_by_num *)
Definition fs_get_inode_by_num (dev inode_number inp : Z) : FS Z :=
  if negb (dev =? 0) then mret SYSERR
  else
    n ← load fsd_ninodes;
    if inode_number >? n then mret SYSERR
    else
      '(bl, off) ← inode_place inode_number;
      bs ← load fsd_blocksz;
      bs_bread dev0 bl 0 block_cache bs;;
      copy inp (block_cache + off) inode_size;;
      mret OK.

(** system/fs.c: fs_put_inode_by_num *)
Definition fs_put_inode_by_num (dev inode_number inp : Z) : FS Z :=
  if negb (dev =? 0) then mret SYSERR
  else
    n ← load fsd_ninodes;
    if inode_number >? n then mret SYSERR
    else
      '(bl, off) ← inode_place inode_number;
      bs ← load fsd_blocksz;
      bs_bread dev0 bl 0 block_cache bs;;
      copy (block_cache + off) inp inode_size;;
      bs_bwrite dev0 bl 0 block_cache bs;;
      mret OK.

(** system/fs.c: fs_fileblock_to_diskblock *)
Definition fs_fileblock_to_diskblock (dev fd fileblock : Z) : FS Z :=
  if fileblock >=? INODEBLOCKS - 2 then mret SYSERR
  else load (in_block (ft_in (oft + ft_size * fd)) fileblock).

(** * Making a file system *)

(** [while ((i % 8) != 0) { i++; }]: at most seven rounds. *)
Fixpoint round8 (n : nat) (i : Z) : Z :=
  match n with O => i | S n => if Z.rem i 8 =? 0 then i else round8 n (s32 (i + 1)) end.

(** The loop that clears the mask, [n] bytes from [i] on. *)
Fixpoint zero_mask (n : nat) (i : Z) : FS unit :=
  match n with
  | O => mret tt
  | S n => p ← loadp fsd_freemask; storeb (p + i) 0;; zero_mask n (i + 1)
  end.

(** system/fs.c: fs_mkfs *)
Definition fs_mkfs (dev num_inodes : Z) : FS Z :=
  if negb (dev =? 0) then mret SYSERR
  else
    nb ← get dev0_numblocks;
    store fsd_nblocks nb;;
    bs ← get dev0_blocksize;
    store fsd_blocksz bs;;
    store fsd_ninodes (if num_inodes <? 1 then DEFAULT_NUM_INODES else num_inodes);;
    let i := round8 8 nb in
    store fsd_freemaskbytes (Z.quot i 8);;
    n ← load fsd_freemaskbytes;
    p ← getmem n;
    store fsd_freemask p;;
    if failed p then mret SYSERR
    else
      zero_mask (Z.to_nat n) 0;;
      store fsd_inodes_used 0;;
      fs_setmaskbit SB_BLK;;
      bs_bwrite dev0 SB_BLK 0 fsd fsystem_size;;
      fs_setmaskbit BM_BLK;;
      p ← loadp fsd_freemask;
      n ← load fsd_freemaskbytes;
      bs_bwrite dev0 BM_BLK 0 p n;;
      mret 1.

(** * Files *)

(** The search for a name in the directory: the index of its entry, or [numEntr]. *)
Fixpoint dir_find (n : nat) (i : Z) (filename len : Z) : FS Z :=
  match n with
  | O => mret i
  | S n =>
      d ← (λ s, d ← strncmp s.(mem) (de_name (fsd_entry i)) filename len; Some (d, s));
      if d =? 0 then mret i else dir_find n (i + 1) filename len
  end.

(** [strlen(filename) + 1] *)
Definition len1 (p : Z) : FS Z := λ s, n ← strlen s.(mem) p; Some (s32 (n + 1), s).

(** system/fs.c: fs_open *)
Definition fs_open (filename flags : Z) : FS Z :=
  len ← len1 filename;
  if len >? FILENAMELEN then mret SYSERR
  else if negb (flags =? O_RDONLY) && negb (flags =? O_WRONLY) && negb (flags =? O_RDWR) then mret SYSERR
  else
    numEntr ← load fsd_numentries;
    i ← dir_find (Z.to_nat numEntr) 0 filename len;
    if i =? numEntr then mret SYSERR
    else
      let entrPtr := fsd_entry i in
      fd ← get next_open_fd;
      if fd >=? NUM_FD then mret SYSERR
      else
        set_ (with_next_open_fd (s32 (fd + 1)));;
        inodeNum ← load (de_inode_num entrPtr);
        inodePtr ← getmem inode_size;
        rval ← fs_get_inode_by_num dev0 inodeNum inodePtr;
        if rval =? SYSERR then mret SYSERR
        else
          size ← load (in_filesize inodePtr);
          if (size =? 0) && (flags =? O_RDONLY) then mret SYSERR
          else
            let filePtr := if negb (size =? 0) && (flags =? O_WRONLY) then size else 0 in
            let fileTab := oft + ft_size * fd in
            store (ft_state fileTab) FSTATE_OPEN;;
            store (ft_fileptr fileTab) filePtr;;
            store (ft_de fileTab) entrPtr;;
            copy (ft_in fileTab) inodePtr inode_size;;
            mret fd.

(** system/fs.c: fs_close *)
Definition fs_close (fd : Z) : FS Z :=
  if fd >=? NUM_FD then mret SYSERR
  else
    let fileTab := oft + ft_size * fd in
    state ← load (ft_state fileTab);
    if negb (state =? FSTATE_OPEN) then mret SYSERR
    else store (ft_state fileTab) FSTATE_CLOSED;; mret OK.

(** [strncpy(dst, src, n)] *)
Definition fs_put_name (dst src n : Z) : FS unit := upd (λ m, '(_, m) ← strncpy dst src n m; Some m).

(** system/fs.c: fs_create *)
Definition fs_create (filename mode : Z) : FS Z :=
  len ← len1 filename;
  if len >? FILENAMELEN then mret SYSERR
  else if negb (mode =? O_CREAT) then mret SYSERR
  else
    numEntr ← load fsd_numentries;
    i ← dir_find (Z.to_nat numEntr) 0 filename len;
    if i <? numEntr then mret SYSERR
    else if numEntr >=? DIRECTORY_SIZE then mret SYSERR
    else
      fileInode ← getmem inode_size;
      if failed fileInode then mret SYSERR
      else
        id ← load fsd_inodes_used;
        store fsd_inodes_used (s32 (id + 1));;
        store (in_id fileInode) id;;
        storeh (in_type fileInode) INODE_TYPE_FILE;;
        store (in_device fileInode) dev0;;
        store (in_filesize fileInode) 0;;
        rval ← fs_put_inode_by_num dev0 id fileInode;
        if rval =? SYSERR then mret SYSERR
        else
          dirEntry ← getmem de_size;
          if failed dirEntry then mret SYSERR
          else
            store (de_inode_num dirEntry) id;;
            fs_put_name (de_name dirEntry) filename len;;
            copy (fsd_entry numEntr) dirEntry de_size;;
            n ← load fsd_numentries;
            store fsd_numentries (s32 (n + 1));;
            fd ← fs_open filename O_RDWR;
            mret (if fd =? SYSERR then SYSERR else fd).

(** The inode of an open file, copied to a new block. *)
Definition copy_inode (fileTab : Z) : FS Z :=
  inodePtr ← getmem inode_size;
  copy inodePtr (ft_in fileTab) inode_size;;
  mret inodePtr.

(** system/fs.c: fs_seek *)
Definition fs_seek (fd offset : Z) : FS Z :=
  if fd >=? NUM_FD then mret SYSERR
  else
    let fileTab := oft + ft_size * fd in
    state ← load (ft_state fileTab);
    if negb (state =? FSTATE_OPEN) then mret SYSERR
    else
      inodePtr ← copy_inode fileTab;
      size ← load (in_filesize inodePtr);
      fp ← load (ft_fileptr fileTab);
      let filePtr := s32 (fp + offset) in
      if (filePtr <? 0) || (filePtr >? size) then mret SYSERR
      else store (ft_fileptr fileTab) filePtr;; mret OK.

(** [x / blocksz], less one when there is no remainder. *)
Definition last_block (x bs : Z) : FS Z :=
  q ← lift (cdiv x bs);
  r ← lift (crem x bs);
  mret (if r =? 0 then s32 (q - 1) else q).

(** The loop of fs_read and fs_write over the blocks [i], [i + 1], ... up to
    [end_]; [rw] copies between a block and the buffer. *)
Fixpoint block_loop (rw : Z -> Z -> Z -> Z -> FS Z) (n : nat) (i start end_ inodePtr fileTab newSize bufPtr : Z) : FS unit :=
  match n with
  | O => mret tt
  | S n =>
      block ← load (in_block inodePtr i);
      bs ← load fsd_blocksz;
      '(offset, size) ←
        (if i =? s32 (start + 1) then
           fp ← load (ft_fileptr fileTab);
           offset ← lift (crem fp bs);
           mret (offset, s32 (bs - offset))
         else if i =? end_ then
           size ← lift (crem newSize bs);
           mret (0, size)
         else mret (0, bs));
      rw block offset bufPtr size;;
      block_loop rw n (s32 (i + 1)) start end_ inodePtr fileTab newSize (bufPtr + size)
  end.

(** system/fs.c: fs_read *)
Definition fs_read (fd buf nbytes : Z) : FS Z :=
  if fd >=? NUM_FD then mret SYSERR
  else if nbytes <=? 0 then mret 0
  else
    let fileTab := oft + ft_size * fd in
    state ← load (ft_state fileTab);
    if negb (state =? FSTATE_OPEN) then mret SYSERR
    else
      inodePtr ← copy_inode fileTab;
      fileSize ← load (in_filesize inodePtr);
      fp ← load (ft_fileptr fileTab);
      let newSize := s32 (fp + nbytes) in
      let '(nbytes, newSize) :=
        if newSize >? fileSize then (s32 (fileSize - fp), fileSize) else (nbytes, newSize) in
      bs ← load fsd_blocksz;
      start ← last_block fp bs;
      end_ ← last_block newSize bs;
      block_loop (bs_bread dev0) (Z.to_nat (end_ - start)) (s32 (start + 1)) start end_ inodePtr fileTab newSize buf;;
      store (ft_fileptr fileTab) newSize;;
      mret nbytes.

(** The search for a free block from [j] on: [nblocks] when there is none. *)
Fixpoint find_free (n : nat) (j : Z) : FS Z :=
  match n with
  | O => mret j
  | S n => rval ← fs_getmaskbit j; if rval =? 0 then mret j else find_free n (s32 (j + 1))
  end.

(** The loop of fs_write that allocates blocks for [i], [i + 1], ...; [false] when
    there is no free one. *)
Fixpoint alloc_blocks (n : nat) (i inodePtr : Z) : FS bool :=
  match n with
  | O => mret true
  | S n =>
      nib ← NUM_INODE_BLOCKS;
      let j0 := s32 (u32 (FIRST_INODE_BLOCK + nib)) in
      nblocks ← load fsd_nblocks;
      j ← find_free (Z.to_nat (nblocks - j0)) j0;
      if j =? nblocks then mret false
      else
        fs_setmaskbit j;;
        store (in_block inodePtr i) j;;
        alloc_blocks n (s32 (i + 1)) inodePtr
  end.

(** system/fs.c: fs_write *)
Definition fs_write (fd buf nbytes : Z) : FS Z :=
  if fd >=? NUM_FD then mret SYSERR
  else if nbytes <=? 0 then mret 0
  else
    let fileTab := oft + ft_size * fd in
    state ← load (ft_state fileTab);
    if negb (state =? FSTATE_OPEN) then mret SYSERR
    else
      inodePtr ← copy_inode fileTab;
      fp ← load (ft_fileptr fileTab);
      let newSize := s32 (fp + nbytes) in
      bs ← load fsd_blocksz;
      if newSize >=? s32 (bs * INODEBLOCKS) then mret SYSERR
      else
        start ← last_block fp bs;
        end_ ← last_block newSize bs;
        size ← load (in_filesize inodePtr);
        curr ← last_block size bs;
        ok ← (if end_ >? curr then alloc_blocks (Z.to_nat (end_ - curr)) (s32 (curr + 1)) inodePtr else mret true);
        if negb (ok : bool) then mret SYSERR
        else
          block_loop (bs_bwrite dev0) (Z.to_nat (end_ - start)) (s32 (start + 1)) start end_ inodePtr fileTab newSize buf;;
          store (ft_fileptr fileTab) newSize;;
          size ← load (in_filesize inodePtr);
          (if newSize >? size then store (in_filesize inodePtr) newSize else mret tt);;
          copy (ft_in fileTab) inodePtr inode_size;;
          mret nbytes.
End Fs.
