(* ===== verification/Fsthm.v ===== *)
(** What the file system does: the inodes on the disk are an array, the mask of
    free blocks a set, and the places where blocks are read and written past the
    objects they are meant for. *)

From S2P Require Import Prelude Types Cstring Fs Bytes.

#[local] Arguments Z.add : simpl never.
#[local] Arguments Z.mul : simpl never.
#[local] Arguments Z.modulo : simpl never.
#[local] Arguments Z.div : simpl never.
#[local] Arguments Z.eqb : simpl never.
#[local] Arguments Z.ltb : simpl never.
#[local] Existing Instances FS_ret FS_bind.

Section Fsthm.
Context {A : Type} (fsd oft block_cache : Z).
#[local] Abbreviation st := (fsst A).

(** * Running the monad *)

Lemma fs_bind {B C} (m : FS B) (f : B -> FS C) (s : st) x s' : m s = Some (x, s') -> (m ≫= f) s = f x s'.
Proof. unfold mbind, FS_bind. by intros ->. Qed.

Lemma load_run (s : st) a v : ldi s.(mem) a = Some v -> load a s = Some (v, s).
Proof. unfold load. by intros ->. Qed.

Lemma loadb_run (s : st) a v : s.(mem) !! a = Some v -> loadb a s = Some (v, s).
Proof. unfold loadb, ldb. by intros ->. Qed.

Lemma loadp_run (s : st) a v : ldi s.(mem) a = Some v -> loadp a s = Some (u32 v, s).
Proof. intros H. unfold loadp. by rewrite (fs_bind _ _ _ _ _ (load_run s a v H)). Qed.

Lemma store_run (s : st) a v : mapped s.(mem) a 4 -> is_s32 v ->
  ∃ m', store a v s = Some (tt, with_mem m' s) /\ writes a 4 s.(mem) m' /\ ldi m' a = Some v.
Proof.
  intros Hm Hv. destruct (sti_run a v s.(mem) Hm Hv) as (m' & Hs & Hw). exists m'. split; [|done].
  unfold store, upd. by rewrite Hs.
Qed.

Lemma copy_run_fs (s : st) dst src n : 0 <= n -> mapped s.(mem) dst n -> mapped s.(mem) src n ->
  (dst + n <= src \/ src + n <= dst) ->
  ∃ m', copy dst src n s = Some (tt, with_mem m' s) /\ writes dst n s.(mem) m' /\
    ∀ i, 0 <= i < n -> m' !! (dst + i) = s.(mem) !! (src + i).
Proof.
  intros Hn Hd Hs Hsep. destruct (memcpy_run dst src n s.(mem) Hn Hd Hs Hsep) as (m' & Hc & Hw). exists m'. split; [|done].
  unfold copy, upd. by rewrite Hc.
Qed.

(** * A mounted file system *)

(** Two ranges of addresses without a common one. *)
Definition apart (p n q k : Z) : Prop := p + n <= q \/ q + k <= p.

(** The objects of the file system are apart from each other; a block fits the
    buffer, and holds at least one inode. *)
Record mounted (s : st) (nb bs ni : Z) : Prop := {
  mo_fsd : mapped s.(mem) fsd fsystem_size;
  mo_cache : mapped s.(mem) block_cache 512;
  mo_dev : mapped s.(mem) s.(dev0_blocks) (nb * bs);
  mo_bs : s.(dev0_blocksize) = bs;
  mo_fbs : ldi s.(mem) (fsd_blocksz fsd) = Some bs;
  mo_fnb : ldi s.(mem) (fsd_nblocks fsd) = Some nb;
  mo_fni : ldi s.(mem) (fsd_ninodes fsd) = Some ni;
  mo_range : 64 <= bs <= 512 /\ 0 <= nb /\ nb * bs < 2147483648 /\ 0 <= ni < 2147483648;
  mo_apart1 : apart fsd fsystem_size block_cache 512;
  mo_apart2 : apart fsd fsystem_size s.(dev0_blocks) (nb * bs);
  mo_apart3 : apart block_cache 512 s.(dev0_blocks) (nb * bs) }.

(** The super block is as before. *)
Lemma mounted_frame (s : st) m' nb bs ni : mounted s nb bs ni ->
  (∀ x, fsd <= x < fsd + fsystem_size -> m' !! x = s.(mem) !! x) -> (∀ x, is_Some (s.(mem) !! x) -> is_Some (m' !! x)) ->
  mounted (with_mem m' s) nb bs ni.
Proof.
  intros [H1 H2 H3 H4 H5 H6 H7 H8 H9 H10 H11] Hf Hd. unfold fsystem_size, fsd_blocksz, fsd_nblocks, fsd_ninodes in *.
  assert (Hld : ∀ a v, fsd <= a -> a + 4 <= fsd + 604 -> ldi s.(mem) a = Some v -> ldi m' a = Some v).
  { intros a v G1 G2 Ha. rewrite (ldi_frame s.(mem)); [done|]. intros x Hx. apply Hf. lia. }
  constructor; cbn [mem dev0_blocks dev0_blocksize with_mem]; try done; unfold fsd_blocksz, fsd_nblocks, fsd_ninodes.
  - intros x Hx. by apply Hd, H1.
  - intros x Hx. by apply Hd, H2.
  - intros x Hx. by apply Hd, H3.
  - apply Hld; [lia|lia|done].
  - apply Hld; [lia|lia|done].
  - apply Hld; [lia|lia|done].
Qed.

(** The place of an inode. *)
Definition per_block (bs : Z) : Z := bs / 64.
Definition inode_block (bs k : Z) : Z := 2 + k / per_block bs.
Definition inode_off (bs k : Z) : Z := 64 * (k mod per_block bs).
Definition inode_addr (s : st) (bs k : Z) : Z := s.(dev0_blocks) + inode_block bs k * bs + inode_off bs k.

(** The inode [k] is in the inode table and its block on the device. *)
Definition inode_ok (nb bs ni k : Z) : Prop := 0 <= k <= ni /\ inode_block bs k < nb.

Lemma per_block_range bs : 64 <= bs <= 512 -> 1 <= per_block bs <= 8 /\ 64 * per_block bs <= bs.
Proof. intros H. unfold per_block. Z.to_euclidean_division_equations. lia. Qed.

Lemma inode_off_range bs k : 64 <= bs <= 512 -> 0 <= inode_off bs k /\ inode_off bs k + 64 <= bs.
Proof.
  intros H. destruct (per_block_range bs H). unfold inode_off. pose proof (Z.mod_pos_bound k (per_block bs)). lia.
Qed.

(** Different inodes are at different places. *)
Lemma inode_inj bs k k' : 64 <= bs <= 512 -> inode_block bs k = inode_block bs k' -> k ≠ k' ->
  apart (inode_off bs k) 64 (inode_off bs k') 64.
Proof.
  intros H Hb Hne. destruct (per_block_range bs H) as [Hp _]. unfold inode_block, inode_off, apart in *.
  pose proof (Z.div_mod k (per_block bs)). pose proof (Z.div_mod k' (per_block bs)).
  assert (k mod per_block bs ≠ k' mod per_block bs) by (intros E; apply Hne; nia). nia.
Qed.

Lemma inode_place_run (s : st) nb bs ni k : mounted s nb bs ni -> inode_ok nb bs ni k ->
  inode_place fsd k s = Some ((inode_block bs k, inode_off bs k), s).
Proof.
  intros HM [Hk Hb]. pose proof (mo_range _ _ _ _ HM) as (Hbs & Hnb & Hsz & Hni).
  destruct (per_block_range bs Hbs) as [Hp Hp']. unfold inode_place, INODES_PER_BLOCK.
  assert (Hipb : (bs0 ← load (fsd_blocksz fsd); mret (Z.quot (u32 bs0) inode_size)) s = Some (per_block bs, s)).
  { rewrite (fs_bind _ _ _ _ _ (load_run s _ bs (mo_fbs _ _ _ _ HM))). cbv beta. rewrite u32_id by (unfold is_u32; lia).
    unfold inode_size, per_block. rewrite Z.quot_div_nonneg by lia. done. }
  rewrite (fs_bind _ _ _ _ _ Hipb). cbv beta. rewrite u32_id by (unfold is_u32; lia).
  unfold cdiv, crem. rewrite (proj2 (Z.eqb_neq (per_block bs) 0)) by lia.
  rewrite (fs_bind (lift (Some _)) _ s (k / per_block bs) s) by (unfold lift; cbn; by rewrite Z.quot_div_nonneg by lia).
  rewrite (fs_bind (lift (Some _)) _ s (k mod per_block bs) s) by (unfold lift; cbn; by rewrite Z.rem_mod_nonneg by lia).
  pose proof (Z.mod_pos_bound k (per_block bs) ltac:(lia)). pose proof (Z.div_pos k (per_block bs) ltac:(lia) ltac:(lia)).
  unfold inode_block in Hb. unfold FIRST_INODE_BLOCK, inode_size, inode_block, inode_off.
  assert (k / per_block bs <= k) by (apply Z.div_le_upper_bound; nia).
  assert (nb <= nb * bs) by nia.
  rewrite !(s32_id (k / per_block bs)) by (unfold is_s32; lia). rewrite !(s32_id (k mod per_block bs)) by (unfold is_s32; lia).
  rewrite !s32_id by (unfold is_s32; lia). unfold mret, FS_ret. do 3 f_equal; lia.
Qed.

(** The block [b] of the device is in its place. *)
Lemma block_place (s : st) nb bs ni b : mounted s nb bs ni -> 0 <= b < nb ->
  s32 (b * bs) = b * bs /\ 0 <= b * bs /\ b * bs + bs <= nb * bs.
Proof.
  intros HM Hb. pose proof (mo_range _ _ _ _ HM) as (Hbs & Hnb & Hsz & _).
  assert (b * bs + bs <= nb * bs) by nia. assert (0 <= b * bs) by nia. rewrite s32_id by (unfold is_s32; lia). lia.
Qed.

Lemma bread_run (s : st) nb bs ni b : mounted s nb bs ni -> 0 <= b < nb ->
  ∃ m', bs_bread dev0 b 0 block_cache bs s = Some (OK, with_mem m' s) /\ writes block_cache bs s.(mem) m' /\
    ∀ i, 0 <= i < bs -> m' !! (block_cache + i) = s.(mem) !! (s.(dev0_blocks) + b * bs + i).
Proof.
  intros HM Hb. destruct (block_place s nb bs ni b HM Hb) as (E & H0 & H1).
  pose proof (mo_range _ _ _ _ HM) as (Hbs & _). pose proof (mo_apart3 _ _ _ _ HM) as Ha. unfold apart in Ha.
  destruct (copy_run_fs s block_cache (s.(dev0_blocks) + b * bs + 0) bs) as (m' & Hc & Hw & Hcp).
  - lia.
  - eapply mapped_part; [apply (mo_cache _ _ _ _ HM)|lia|lia].
  - eapply mapped_part; [apply (mo_dev _ _ _ _ HM)|lia|lia].
  - lia.
  - exists m'. split; [|split; [done|]].
    + unfold bs_bread, dev0. change (negb (0 =? 0)) with false. cbv iota.
      rewrite (fs_bind (get dev0_blocksize) _ s bs s) by (unfold get; by rewrite (mo_bs _ _ _ _ HM)).
      rewrite Z.geb_leb, (proj2 (Z.leb_gt bs 0)) by lia.
      rewrite (fs_bind (get dev0_blocks) _ s (dev0_blocks s) s eq_refl). cbv beta. rewrite E. by rewrite (fs_bind _ _ _ _ _ Hc).
    + intros i Hi. rewrite Hcp by done. by rewrite Z.add_0_r.
Qed.

Lemma bwrite_run (s : st) nb bs ni b : mounted s nb bs ni -> 0 <= b < nb ->
  ∃ m', bs_bwrite dev0 b 0 block_cache bs s = Some (OK, with_mem m' s) /\
    writes (s.(dev0_blocks) + b * bs) bs s.(mem) m' /\
    ∀ i, 0 <= i < bs -> m' !! (s.(dev0_blocks) + b * bs + i) = s.(mem) !! (block_cache + i).
Proof.
  intros HM Hb. destruct (block_place s nb bs ni b HM Hb) as (E & H0 & H1).
  pose proof (mo_range _ _ _ _ HM) as (Hbs & _). pose proof (mo_apart3 _ _ _ _ HM) as Ha. unfold apart in Ha.
  destruct (copy_run_fs s (s.(dev0_blocks) + b * bs + 0) block_cache bs) as (m' & Hc & Hw & Hcp).
  - lia.
  - eapply mapped_part; [apply (mo_dev _ _ _ _ HM)|lia|lia].
  - eapply mapped_part; [apply (mo_cache _ _ _ _ HM)|lia|lia].
  - lia.
  - rewrite Z.add_0_r in Hw, Hcp. exists m'. split; [|done].
    unfold bs_bwrite, dev0. change (negb (0 =? 0)) with false. cbv iota.
    rewrite (fs_bind (get dev0_blocksize) _ s bs s) by (unfold get; by rewrite (mo_bs _ _ _ _ HM)).
    rewrite Z.geb_leb, (proj2 (Z.leb_gt bs 0)) by lia.
    rewrite (fs_bind (get dev0_blocks) _ s (dev0_blocks s) s eq_refl). cbv beta. rewrite E. by rewrite (fs_bind _ _ _ _ _ Hc).
Qed.

(** ** Reading and writing an inode *)

Lemma inode_block_range nb bs ni k : 64 <= bs <= 512 -> inode_ok nb bs ni k -> 0 <= inode_block bs k < nb.
Proof.
  intros Hbs [Hk Hb]. split; [|done]. unfold inode_block. destruct (per_block_range bs Hbs).
  pose proof (Z.div_pos k (per_block bs) ltac:(lia) ltac:(lia)). lia.
Qed.

Lemma get_inode_run (s : st) nb bs ni k q : mounted s nb bs ni -> inode_ok nb bs ni k -> mapped s.(mem) q inode_size ->
  apart q inode_size block_cache 512 ->
  ∃ m', fs_get_inode_by_num fsd block_cache dev0 k q s = Some (OK, with_mem m' s) /\
    (∀ i, 0 <= i < inode_size -> m' !! (q + i) = s.(mem) !! (inode_addr s bs k + i)) /\
    (∀ x, is_Some (s.(mem) !! x) -> is_Some (m' !! x)).
Proof.
  intros HM Hk Hq Ha. pose proof (mo_range _ _ _ _ HM) as (Hbs & _). pose proof (inode_off_range bs k Hbs) as Ho.
  pose proof (inode_block_range nb bs ni k Hbs Hk) as Hb.
  destruct (bread_run s nb bs ni _ HM Hb) as (m1 & Hr & Hw1 & Hc1). set (s1 := with_mem m1 s) in *.
  destruct (copy_run_fs s1 q (block_cache + inode_off bs k) inode_size) as (m2 & Hc & Hw2 & Hc2).
  { done. }
  { eapply writes_mapped; [exact Hw1|done]. }
  { eapply writes_mapped; [exact Hw1|]. eapply mapped_part; [apply (mo_cache _ _ _ _ HM)|lia|unfold inode_size; lia]. }
  { unfold apart, inode_size in *. lia. }
  exists m2. split; [|split].
  - unfold fs_get_inode_by_num. change (negb (dev0 =? 0)) with false. cbv iota.
    rewrite (fs_bind _ _ _ _ _ (load_run s _ ni (mo_fni _ _ _ _ HM))). cbv beta. destruct Hk as [Hk1 Hk2].
    rewrite Z.gtb_ltb, (proj2 (Z.ltb_ge ni k)) by lia. rewrite (fs_bind _ _ _ _ _ (inode_place_run s nb bs ni k HM (conj Hk1 Hk2))).
    cbv beta iota. rewrite (fs_bind _ _ _ _ _ (load_run s _ bs (mo_fbs _ _ _ _ HM))). cbv beta.
    rewrite (fs_bind _ _ _ _ _ Hr). cbv beta. by rewrite (fs_bind _ _ _ _ _ Hc).
  - intros i Hi. rewrite Hc2 by done. unfold s1. cbn [mem with_mem].
    rewrite <- Z.add_assoc, Hc1 by (unfold inode_size in *; lia). unfold inode_addr. f_equal. lia.
  - intros x Hx. apply Hw2. unfold s1. cbn [mem with_mem]. by apply Hw1.
Qed.

Lemma put_inode_run (s : st) nb bs ni k p : mounted s nb bs ni -> inode_ok nb bs ni k -> mapped s.(mem) p inode_size ->
  apart p inode_size block_cache 512 ->
  ∃ m', fs_put_inode_by_num fsd block_cache dev0 k p s = Some (OK, with_mem m' s) /\ mounted (with_mem m' s) nb bs ni /\
    (∀ i, 0 <= i < inode_size -> m' !! (inode_addr s bs k + i) = s.(mem) !! (p + i)) /\
    (∀ x, apart x 1 (inode_addr s bs k) inode_size -> apart x 1 block_cache 512 -> m' !! x = s.(mem) !! x) /\
    (∀ x, is_Some (s.(mem) !! x) -> is_Some (m' !! x)).
Proof.
  intros HM Hk Hp Ha. pose proof (mo_range _ _ _ _ HM) as (Hbs & _). pose proof (inode_off_range bs k Hbs) as Ho.
  pose proof (inode_block_range nb bs ni k Hbs Hk) as Hb. destruct (block_place s nb bs ni _ HM Hb) as (_ & B0 & B1).
  pose proof (mo_apart1 _ _ _ _ HM) as A1. pose proof (mo_apart2 _ _ _ _ HM) as A2. pose proof (mo_apart3 _ _ _ _ HM) as A3.
  unfold apart, inode_size in *.
  destruct (bread_run s nb bs ni _ HM Hb) as (m1 & Hr & Hw1 & Hc1). set (s1 := with_mem m1 s) in *.
  assert (HM1 : mounted s1 nb bs ni).
  { apply mounted_frame; [done| |by apply Hw1]. intros x Hx. apply Hw1. unfold fsystem_size in *. lia. }
  destruct (copy_run_fs s1 (block_cache + inode_off bs k) p 64) as (m2 & Hc & Hw2 & Hc2).
  { done. }
  { eapply mapped_part; [apply (mo_cache _ _ _ _ HM1)|lia|lia]. }
  { eapply writes_mapped; [exact Hw1|done]. }
  { lia. }
  set (s2 := with_mem m2 s1) in *.
  assert (HM2 : mounted s2 nb bs ni).
  { apply mounted_frame; [done| |by apply Hw2]. intros x Hx. apply Hw2. unfold fsystem_size in *. lia. }
  destruct (bwrite_run s2 nb bs ni _ HM2 Hb) as (m3 & Hwr & Hw3 & Hc3). change (dev0_blocks s2) with (dev0_blocks s) in *.
  exists m3. split; [|split; [|split; [|split]]].
  - unfold fs_put_inode_by_num. change (negb (dev0 =? 0)) with false. cbv iota.
    rewrite (fs_bind _ _ _ _ _ (load_run s _ ni (mo_fni _ _ _ _ HM))). cbv beta. destruct Hk as [Hk1 Hk2].
    rewrite Z.gtb_ltb, (proj2 (Z.ltb_ge ni k)) by lia. rewrite (fs_bind _ _ _ _ _ (inode_place_run s nb bs ni k HM (conj Hk1 Hk2))).
    cbv beta iota. rewrite (fs_bind _ _ _ _ _ (load_run s _ bs (mo_fbs _ _ _ _ HM))). cbv beta.
    rewrite (fs_bind _ _ _ _ _ Hr). cbv beta. rewrite (fs_bind _ _ _ _ _ Hc). cbv beta. by rewrite (fs_bind _ _ _ _ _ Hwr).
  - apply (mounted_frame s2); [done| |by apply Hw3]. intros x Hx. apply Hw3. unfold fsystem_size in *. lia.
  - intros i Hi. unfold inode_addr. rewrite <- Z.add_assoc, Hc3 by lia. unfold s2. cbn [mem with_mem].
    rewrite Z.add_assoc, Hc2 by lia. apply Hw1. lia.
  - intros x Hx Hxc. destruct (decide (s.(dev0_blocks) + inode_block bs k * bs <= x < s.(dev0_blocks) + inode_block bs k * bs + bs)) as [Hin|].
    + replace x with (s.(dev0_blocks) + inode_block bs k * bs + (x - (s.(dev0_blocks) + inode_block bs k * bs))) at 1 by lia.
      rewrite Hc3 by lia. unfold s2. cbn [mem with_mem]. unfold inode_addr in Hx.
      rewrite (writes_out _ _ _ _ _ Hw2) by lia. unfold s1. cbn [mem with_mem]. rewrite Hc1 by lia. f_equal. lia.
    + rewrite (writes_out _ _ _ _ _ Hw3) by lia. unfold s2. cbn [mem with_mem].
      rewrite (writes_out _ _ _ _ _ Hw2) by lia. apply Hw1. lia.
  - intros x Hx. apply Hw3. apply Hw2. by apply Hw1.
Qed.

(** ** The mask of free blocks *)

(** The mask of [n] bytes at [fm]. *)
Record masked (s : st) (fm n : Z) : Prop := {
  ma_ptr : ∃ v, ldi s.(mem) (fsd_freemask fsd) = Some v /\ u32 v = fm;
  ma_byte i : 0 <= i < n -> ∃ c, s.(mem) !! (fm + i) = Some c /\ 0 <= c < 256;
  ma_apart : apart fm n (fsd_freemask fsd) 4 }.

(** The bit of the block [b]. *)
Definition bit (s : st) (fm b : Z) : bool := Z.testbit (default 0 (s.(mem) !! (fm + b / 8))) (7 - b mod 8).

Lemma mod8_cases b : b mod 8 = 0 \/ b mod 8 = 1 \/ b mod 8 = 2 \/ b mod 8 = 3 \/ b mod 8 = 4 \/ b mod 8 = 5 \/
  b mod 8 = 6 \/ b mod 8 = 7.
Proof. pose proof (Z.mod_pos_bound b 8). lia. Qed.

Lemma maskbit_run b : 0 <= b -> maskbit b = Some (2 ^ (7 - b mod 8)).
Proof.
  intros Hb. unfold maskbit. rewrite Z.rem_mod_nonneg by lia.
  destruct (mod8_cases b) as [->|[->|[->|[->|[->|[->|[->| ->]]]]]]]; done.
Qed.

Lemma getbit_val c k : 0 <= k < 8 -> Z.shiftr (Z.land (Z.shiftl c k) 128) 7 = Z.b2z (Z.testbit c (7 - k)).
Proof.
  intros Hk. apply Z.bits_inj'. intros j Hj. rewrite Z.shiftr_spec, Z.land_spec, Z.shiftl_spec by lia.
  change 128 with (2 ^ 7). rewrite Z.pow2_bits_eqb by lia. destruct (Z.eqb_spec 7 (j + 7)) as [E|E].
  - assert (j = 0) as -> by lia. rewrite andb_true_r, Z.b2z_bit0. by replace (0 + 7 - k) with (7 - k) by lia.
  - rewrite andb_false_r. symmetry. destruct (Z.testbit c (7 - k)); cbn [Z.b2z]; [|apply Z.bits_0].
    change 1 with (2 ^ 0). apply Z.pow2_bits_false. lia.
Qed.

Lemma mask_byte (s : st) fm n b : masked s fm n -> 0 <= b < 8 * n -> ∃ c, s.(mem) !! (fm + b / 8) = Some c /\ 0 <= c < 256.
Proof. intros HM Hb. apply (ma_byte _ _ _ HM). Z.to_euclidean_division_equations. lia. Qed.

Lemma getmask_run (s : st) fm n b : masked s fm n -> 0 <= b < 8 * n -> fs_getmaskbit fsd b s = Some (Z.b2z (bit s fm b), s).
Proof.
  intros HM Hb. destruct (ma_ptr _ _ _ HM) as (v & Hv & E). destruct (mask_byte s fm n b HM Hb) as (c & Hc & _).
  unfold fs_getmaskbit. rewrite (fs_bind _ _ _ _ _ (loadp_run s _ v Hv)), E. cbv beta.
  rewrite Z.quot_div_nonneg, Z.rem_mod_nonneg by lia. rewrite (fs_bind _ _ _ _ _ (loadb_run s _ c Hc)). cbv beta.
  pose proof (Z.mod_pos_bound b 8). rewrite (proj2 (Z.ltb_ge (b mod 8) 0)) by lia. rewrite getbit_val by lia.
  unfold bit. by rewrite Hc.
Qed.

(** A byte of the mask is replaced by one that differs in the bit of [b]. *)
Lemma setbyte_run (s : st) fm n b c (w : bool) : masked s fm n -> 0 <= b < 8 * n -> 0 <= c < 256 ->
  (∀ k, 0 <= k < 8 -> Z.testbit c k = if decide (k = 7 - b mod 8) then w else Z.testbit (default 0 (s.(mem) !! (fm + b / 8))) k) ->
  ∃ s', storeb (fm + b / 8) c s = Some (tt, s') /\ masked s' fm n /\ writes (fm + b / 8) 1 s.(mem) s'.(mem) /\
    ∀ b', 0 <= b' < 8 * n -> bit s' fm b' = if decide (b' = b) then w else bit s fm b'.
Proof.
  intros HM Hb Hc Hbits. destruct (mask_byte s fm n b HM Hb) as (c0 & Hc0 & _).
  destruct (writes_one (fm + b / 8) (u8 c) s.(mem)) as [Hst Hw]; [eauto|].
  assert (Hc' : u8 c = c) by (apply Z.mod_small; lia). rewrite Hc' in Hst, Hw.
  exists (with_mem (<[fm + b / 8 := c]> s.(mem)) s). split; [|split; [|split; [done|]]].
  - unfold storeb, upd. rewrite Hc', Hst. done.
  - assert (0 <= b / 8 < n) by (Z.to_euclidean_division_equations; lia). pose proof (ma_apart _ _ _ HM) as Ha. unfold apart in Ha.
    constructor; cbn [mem with_mem].
    + destruct (ma_ptr _ _ _ HM) as (v & Hv & E). exists v. split; [|done]. erewrite ldi_writes; [exact Hv|exact Hw|lia].
    + intros i Hi. destruct (decide (i = b / 8)) as [->|Hne]; [exists c; by rewrite lookup_insert_eq|].
      rewrite lookup_insert_ne by lia. by apply (ma_byte _ _ _ HM).
    + done.
  - intros b' Hb'. unfold bit. cbn [mem with_mem]. pose proof (Z.div_mod b 8). pose proof (Z.div_mod b' 8).
    pose proof (Z.mod_pos_bound b' 8). destruct (decide (b' / 8 = b / 8)) as [E|E].
    + rewrite E, lookup_insert_eq. simpl default. rewrite Hbits by lia.
      destruct (decide (7 - b' mod 8 = 7 - b mod 8)), (decide (b' = b)); try done; exfalso; subst; lia.
    + rewrite lookup_insert_ne by lia. rewrite decide_False by (intros ->; lia). done.
Qed.

Lemma setmask_run (s : st) fm n b : masked s fm n -> 0 <= b < 8 * n ->
  ∃ s', fs_setmaskbit fsd b s = Some (OK, s') /\ masked s' fm n /\ writes (fm + b / 8) 1 s.(mem) s'.(mem) /\
    ∀ b', 0 <= b' < 8 * n -> bit s' fm b' = if decide (b' = b) then true else bit s fm b'.
Proof.
  intros HM Hb. destruct (ma_ptr _ _ _ HM) as (v & Hv & E). destruct (mask_byte s fm n b HM Hb) as (c & Hc & Hcr).
  pose proof (Z.mod_pos_bound b 8).
  assert (Hbits : ∀ k, 0 <= k -> Z.testbit (Z.lor c (2 ^ (7 - b mod 8))) k = if decide (k = 7 - b mod 8) then true else Z.testbit c k).
  { intros k Hk. rewrite Z.lor_spec, Z.pow2_bits_eqb by lia. destruct (decide (k = 7 - b mod 8)) as [->|Hne].
    - by rewrite Z.eqb_refl, orb_true_r.
    - rewrite (proj2 (Z.eqb_neq (7 - b mod 8) k)) by lia. apply orb_false_r. }
  destruct (setbyte_run s fm n b (Z.lor c (2 ^ (7 - b mod 8))) true HM Hb) as (s' & Hs & Hm & Hrest).
  - split; [apply Z.lor_nonneg; split; [lia|apply Z.pow_nonneg; lia]|].
    apply Z.lt_nge. intros Hge. apply (Z.log2_le_mono 256) in Hge. change (Z.log2 256) with 8 in Hge.
    assert (Hp : 0 < Z.lor c (2 ^ (7 - b mod 8))).
    { destruct (Z.eq_dec (Z.lor c (2 ^ (7 - b mod 8))) 0) as [E0|E0]; [rewrite E0 in Hge; cbn in Hge; lia|].
      assert (0 <= Z.lor c (2 ^ (7 - b mod 8))); [apply Z.lor_nonneg; split; [lia|apply Z.pow_nonneg; lia]|lia]. }
    pose proof (Z.bit_log2 _ Hp) as Hl. rewrite Hbits in Hl by lia. rewrite decide_False in Hl by lia.
    destruct (Z.eq_dec c 0) as [->|]; [by rewrite Z.bits_0 in Hl|].
    assert (Z.log2 c < 8) by (apply Z.log2_lt_pow2; lia). rewrite Z.bits_above_log2 in Hl by lia. done.
  - intros k Hk. rewrite Hbits, Hc by lia. done.
  - exists s'. split; [|done]. unfold fs_setmaskbit. rewrite maskbit_run, Z.quot_div_nonneg by lia.
    rewrite (fs_bind (lift (Some _)) _ s _ s eq_refl). cbv beta.
    rewrite (fs_bind _ _ _ _ _ (loadp_run s _ v Hv)), E. cbv beta. rewrite (fs_bind _ _ _ _ _ (loadb_run s _ c Hc)). cbv beta.
    by rewrite (fs_bind _ _ _ _ _ Hs).
Qed.

Lemma clearmask_run (s : st) fm n b : masked s fm n -> 0 <= b < 8 * n ->
  ∃ s', fs_clearmaskbit fsd b s = Some (OK, s') /\ masked s' fm n /\
    ∀ b', 0 <= b' < 8 * n -> bit s' fm b' = if decide (b' = b) then false else bit s fm b'.
Proof.
  intros HM Hb. destruct (ma_ptr _ _ _ HM) as (v & Hv & E). destruct (mask_byte s fm n b HM Hb) as (c & Hc & Hcr).
  pose proof (Z.mod_pos_bound b 8). set (w := Z.land (Z.lnot (2 ^ (7 - b mod 8))) 255).
  destruct (setbyte_run s fm n b (Z.land c w) false HM Hb) as (s' & Hs & Hm & _ & Hbit).
  - split; [apply Z.land_nonneg; left; lia|]. apply Z.le_lt_trans with c; [|lia].
    assert (0 <= Z.ldiff c w) by (apply Z.ldiff_nonneg; left; lia).
    pose proof (Z.add_nocarry_lxor (Z.land c w) (Z.ldiff c w)) as Hx. pose proof (Z.lor_ldiff_and c w) as Hor.
    assert (Hland : Z.land (Z.land c w) (Z.ldiff c w) = 0).
    { apply Z.bits_inj'. intros j Hj. rewrite !Z.land_spec, Z.ldiff_spec, Z.bits_0.
      by destruct (Z.testbit c j), (Z.testbit w j). }
    specialize (Hx Hland). rewrite Z.lxor_lor in Hx by done. rewrite Z.lor_comm in Hor. lia.
  - intros k Hk. rewrite Hc. unfold w. rewrite !Z.land_spec, Z.lnot_spec, Z.pow2_bits_eqb by lia.
    assert (H255 : Z.testbit 255 k = true).
    { assert (k = 0 \/ k = 1 \/ k = 2 \/ k = 3 \/ k = 4 \/ k = 5 \/ k = 6 \/ k = 7) as [->|[->|[->|[->|[->|[->|[->| ->]]]]]]] by lia; done. }
    rewrite H255, andb_true_r. simpl default. destruct (decide (k = 7 - b mod 8)) as [->|Hne].
    + by rewrite Z.eqb_refl, andb_false_r.
    + rewrite (proj2 (Z.eqb_neq (7 - b mod 8) k)) by lia. by rewrite andb_true_r.
  - exists s'. split; [|done]. unfold fs_clearmaskbit. rewrite maskbit_run, Z.quot_div_nonneg by lia.
    rewrite (fs_bind (lift (Some _)) _ s _ s eq_refl). cbv beta.
    rewrite (fs_bind _ _ _ _ _ (loadp_run s _ v Hv)), E. cbv beta. rewrite (fs_bind _ _ _ _ _ (loadb_run s _ c Hc)). cbv beta.
    by rewrite (fs_bind _ _ _ _ _ Hs).
Qed.

(** ** Reading from one block of a file *)

Lemma crem_run {B} (f : Z -> FS B) (s : st) a b : b ≠ 0 -> (lift (crem a b) ≫= f) s = f (Z.rem a b) s.
Proof. intros Hb. unfold crem. by rewrite (proj2 (Z.eqb_neq b 0)). Qed.

(** The block that holds the last byte before [x]. *)
Definition block_before (x bs : Z) : Z := x / bs - (if decide (x mod bs = 0) then 1 else 0).

Lemma last_block_run (s : st) x bs : 0 < bs -> 0 <= x -> is_s32 x -> last_block x bs s = Some (block_before x bs, s).
Proof.
  intros Hbs Hx Hm. unfold last_block, cdiv, block_before. rewrite (proj2 (Z.eqb_neq bs 0)) by lia.
  rewrite (fs_bind (lift (Some _)) _ s (Z.quot x bs) s eq_refl). cbv beta. rewrite crem_run by lia.
  rewrite Z.quot_div_nonneg, Z.rem_mod_nonneg by lia. unfold mret, FS_ret. unfold is_s32 in Hm.
  assert (0 <= x / bs <= x) by (split; [by apply Z.div_pos|apply Z.div_le_upper_bound; nia]).
  case_decide as H0; [by rewrite H0, s32_id by (unfold is_s32; lia)|]. rewrite (proj2 (Z.eqb_neq _ 0)) by done. by rewrite Z.sub_0_r.
Qed.

Lemma fs_last_block_bind {B} (f : Z -> FS B) (s : st) x bs : 0 < bs -> 0 <= x -> is_s32 x ->
  (last_block x bs ≫= f) s = f (block_before x bs) s.
Proof. intros H1 H2 H3. by rewrite (fs_bind _ _ _ _ _ (last_block_run s x bs H1 H2 H3)). Qed.

(** [n] bytes from [f] on that do not leave the block of [f]: one round of the loop when
    [f] is the start of the block, none when it is inside of it. *)
Lemma blocks_between f n bs : 0 < bs -> 0 <= f -> 0 <= n -> f mod bs + n <= bs ->
  block_before (f + n) bs - block_before f bs = (if decide (f mod bs = 0 /\ 0 < n) then 1 else 0) /\
  (f mod bs = 0 -> block_before f bs = f / bs - 1).
Proof.
  intros Hbs Hf Hn Hle. unfold block_before. pose proof (Z.mod_pos_bound f bs Hbs) as Hr. pose proof (Z.div_mod f bs ltac:(lia)) as Hd.
  split; [|intros E; by rewrite E, decide_True by done].
  destruct (decide (f mod bs + n = bs)) as [E|E].
  - assert (E1 : (f + n) / bs = f / bs + 1) by (symmetry; apply Z.div_unique with 0; lia).
    assert (E2 : (f + n) mod bs = 0) by (symmetry; apply Z.mod_unique with (f / bs + 1); lia).
    rewrite E1, E2. repeat case_decide; lia.
  - assert (E1 : (f + n) / bs = f / bs) by (symmetry; apply Z.div_unique with (f mod bs + n); lia).
    assert (E2 : (f + n) mod bs = f mod bs + n) by (symmetry; apply Z.mod_unique with (f / bs); lia).
    rewrite E1, E2. repeat case_decide; lia.
Qed.

(** The file [fd] is open, at the byte [f]. *)
Record open_at (s : st) (fd size f : Z) : Prop := {
  os_fd : 0 <= fd < NUM_FD;
  os_ft : mapped s.(mem) (oft + ft_size * fd) ft_size;
  os_state : ldi s.(mem) (ft_state (oft + ft_size * fd)) = Some FSTATE_OPEN;
  os_ptr : ldi s.(mem) (ft_fileptr (oft + ft_size * fd)) = Some f;
  os_size : ldi s.(mem) (in_filesize (ft_in (oft + ft_size * fd))) = Some size }.

Lemma ldi_copied m m' p q n i : (∀ j, 0 <= j < n -> m' !! (p + j) = m !! (q + j)) -> 0 <= i -> i + 4 <= n ->
  ldi m' (p + i) = ldi m (q + i).
Proof.
  intros H Hi Hn. assert (E : ∀ k j, 0 <= j -> j + Z.of_nat k <= n -> ld_le k m' (p + j) = ld_le k m (q + j)).
  { induction k as [|k IH]; intros j Hj Hk; [done|]. cbn [ld_le]. unfold ldb. rewrite H by lia. destruct (m !! (q + j)); [|done].
    cbn [mbind option_bind]. rewrite <- !Z.add_assoc. by rewrite IH by lia. }
  unfold ldi. by rewrite E by lia.
Qed.

(** The loop of fs_read for a whole block. *)
Lemma one_block_run (s : st) nb bs ni q b p ft f buf end_ newSize : mounted s nb bs ni -> 0 <= q < INODEBLOCKS ->
  ldi s.(mem) (in_block p q) = Some b -> 0 <= b < nb -> ldi s.(mem) (ft_fileptr ft) = Some f -> 0 <= f -> f mod bs = 0 ->
  mapped s.(mem) buf bs -> apart buf bs s.(dev0_blocks) (nb * bs) ->
  ∃ m', block_loop fsd (bs_bread dev0) 1 q (q - 1) end_ p ft newSize buf s = Some (tt, with_mem m' s) /\ writes buf bs s.(mem) m' /\
    ∀ i, 0 <= i < bs -> m' !! (buf + i) = s.(mem) !! (s.(dev0_blocks) + b * bs + i).
Proof.
  intros HM Hq Hb Hbr Hf Hf0 Hfm Hbuf Ha. pose proof (mo_range _ _ _ _ HM) as (Hbs & _).
  destruct (block_place s nb bs ni b HM Hbr) as (Eb & Hb0 & Hb1). unfold apart, INODEBLOCKS in *.
  destruct (copy_run_fs s buf (s.(dev0_blocks) + b * bs + 0) bs) as (m' & Hc & Hw & Hcp).
  { lia. }
  { done. }
  { eapply mapped_part; [apply (mo_dev _ _ _ _ HM)|lia|lia]. }
  { lia. }
  assert (Hbread : bs_bread dev0 b 0 buf bs s = Some (OK, with_mem m' s)).
  { unfold bs_bread, dev0. change (negb (0 =? 0)) with false. cbv iota.
    rewrite (fs_bind (get dev0_blocksize) _ s bs s) by (unfold get; by rewrite (mo_bs _ _ _ _ HM)).
    rewrite Z.geb_leb, (proj2 (Z.leb_gt bs 0)) by lia.
    rewrite (fs_bind (get dev0_blocks) _ s (dev0_blocks s) s eq_refl). cbv beta. rewrite Eb. by rewrite (fs_bind _ _ _ _ _ Hc). }
  exists m'. split; [|split; [done|]].
  - cbn [block_loop]. rewrite (fs_bind _ _ _ _ _ (load_run s _ b Hb)). cbv beta.
    rewrite (fs_bind _ _ _ _ _ (load_run s _ bs (mo_fbs _ _ _ _ HM))). cbv beta.
    replace (q - 1 + 1) with q by lia. rewrite s32_id, Z.eqb_refl by (unfold is_s32; lia).
    rewrite (fs_bind _ _ s (0, bs) s).
    2: { rewrite (fs_bind _ _ _ _ _ (load_run s _ f Hf)). cbv beta. rewrite crem_run by lia.
         rewrite Z.rem_mod_nonneg by lia. rewrite Hfm, Z.sub_0_r, s32_id by (unfold is_s32; lia). done. }
    cbv beta iota. by rewrite (fs_bind _ _ _ _ _ Hbread).
  - intros i Hi. rewrite Hcp by done. f_equal. lia.
Qed.

Section Read.
Context (al_get : Z -> A -> Z * A).

Lemma copy_inode_run (s : st) ft p h : al_get (u32 inode_size) s.(fheap) = (p, h) -> mapped s.(mem) ft ft_size ->
  mapped s.(mem) p inode_size -> apart p inode_size ft ft_size ->
  ∃ m', copy_inode al_get ft s = Some (p, with_mem m' (with_fheap h s)) /\ writes p inode_size s.(mem) m' /\
    ∀ i, 0 <= i < inode_size -> m' !! (p + i) = s.(mem) !! (ft_in ft + i).
Proof.
  intros Hg Hft Hp Ha. unfold copy_inode, apart, ft_size, inode_size in *.
  destruct (copy_run_fs (with_fheap h s) p (ft_in ft) 64) as (m' & Hc & Hw & Hcp); unfold ft_in in *.
  { done. }
  { done. }
  { eapply mapped_part; [exact Hft|lia|lia]. }
  { lia. }
  exists m'. split; [|done].
  rewrite (fs_bind (getmem al_get 64) _ s p (with_fheap h s)) by (unfold getmem; by rewrite Hg).
  by rewrite (fs_bind _ _ _ _ _ Hc).
Qed.

(** Where the parts of the memory that fs_read uses are: the copy of the inode at [p], the
    buffer, the blocks, the tables. *)
Record read_layout (s : st) (nb bs p buf fd : Z) : Prop := {
  rl_inode : mapped s.(mem) p inode_size;
  rl_buf : mapped s.(mem) buf bs;
  rl_inode_ft : apart p inode_size (oft + ft_size * fd) ft_size;
  rl_inode_fsd : apart p inode_size fsd fsystem_size;
  rl_inode_dev : apart p inode_size s.(dev0_blocks) (nb * bs);
  rl_buf_fsd : apart buf bs fsd fsystem_size;
  rl_buf_dev : apart buf bs s.(dev0_blocks) (nb * bs);
  rl_buf_ft : apart buf bs (oft + ft_size * fd) ft_size;
  rl_buf_inode : apart buf bs p inode_size }.

(** The loop, in the state with a copy of the inode. *)
Lemma read_loop_run (s : st) nb bs ni fd size f b p buf n : mounted s nb bs ni -> read_layout s nb bs p buf fd ->
  ldi s.(mem) (ft_fileptr (oft + ft_size * fd)) = Some f -> 0 <= f -> 0 <= n -> f + n <= size -> is_s32 size -> f mod bs + n <= bs ->
  (f mod bs = 0 -> 0 < n -> f / bs < INODEBLOCKS /\ ldi s.(mem) (in_block p (f / bs)) = Some b /\ 0 <= b < nb) ->
  ∃ m', (start ← last_block f bs; end_ ← last_block (f + n) bs;
         block_loop fsd (bs_bread dev0) (Z.to_nat (end_ - start)) (s32 (start + 1)) start end_ p (oft + ft_size * fd) (f + n) buf) s
      = Some (tt, with_mem m' s) /\ writes buf bs s.(mem) m' /\
    ∀ i, 0 <= i < bs -> m' !! (buf + i) = if decide (f mod bs = 0 /\ 0 < n) then s.(mem) !! (s.(dev0_blocks) + b * bs + i) else s.(mem) !! (buf + i).
Proof.
  intros HM HL Hf Hf0 Hn Hfn Hsz Hle Hb. pose proof (mo_range _ _ _ _ HM) as (Hbs & _).
  destruct (blocks_between f n bs ltac:(lia) Hf0 Hn Hle) as [Hd Hs]. unfold is_s32 in Hsz.
  rewrite (fs_bind _ _ _ _ _ (last_block_run s f bs ltac:(lia) ltac:(lia) ltac:(unfold is_s32; lia))). cbv beta.
  rewrite (fs_bind _ _ _ _ _ (last_block_run s (f + n) bs ltac:(lia) ltac:(lia) ltac:(unfold is_s32; lia))). cbv beta.
  rewrite Hd. case_decide as Hc.
  - destruct Hc as [Hr Hp]. destruct (Hb Hr Hp) as (Hq & Hld & Hbr). rewrite (Hs Hr). change (Z.to_nat 1) with 1%nat.
    assert (0 <= f / bs) by (apply Z.div_pos; lia). unfold INODEBLOCKS in Hq.
    replace (f / bs - 1 + 1) with (f / bs) by lia. rewrite s32_id by (unfold is_s32; lia).
    destruct (one_block_run s nb bs ni (f / bs) b p (oft + ft_size * fd) f buf (block_before (f + n) bs) (f + n)) as (m' & E & W & C);
      [done|unfold INODEBLOCKS; lia|done..|apply HL|apply HL|]. by exists m'.
  - exists s.(mem). split; [by destruct s|]. split; [by split|done].
Qed.

Lemma fs_read_run (s : st) nb bs ni fd buf nbytes size f b p h (n := Z.min nbytes (size - f)) :
  mounted s nb bs ni -> open_at s fd size f -> read_layout s nb bs p buf fd -> al_get (u32 inode_size) s.(fheap) = (p, h) ->
  0 < nbytes -> 0 <= f <= size -> is_s32 size -> is_s32 (f + nbytes) -> f mod bs + n <= bs ->
  (f mod bs = 0 -> 0 < n ->
    f / bs < INODEBLOCKS /\ ldi s.(mem) (in_block (ft_in (oft + ft_size * fd)) (f / bs)) = Some b /\ 0 <= b < nb) ->
  ∃ s', fs_read al_get fsd oft fd buf nbytes s = Some (n, s') /\
    (∀ i, 0 <= i < bs -> s'.(mem) !! (buf + i) =
       if decide (f mod bs = 0 /\ 0 < n) then s.(mem) !! (s.(dev0_blocks) + b * bs + i) else s.(mem) !! (buf + i)) /\
    ldi s'.(mem) (ft_fileptr (oft + ft_size * fd)) = Some (f + n).
Proof.
  intros HM [O1 O2 O3 O4 O5] HL Hg Hnb Hf Hsz Hov Hle Hb. pose proof (mo_range _ _ _ _ HM) as (Hbs & _).
  pose proof (Z.div_pos f bs ltac:(lia) ltac:(lia)) as Hq0. destruct HL as [L1 L2 L3 L4 L5 L6 L7 L8 L9].
  unfold NUM_FD in O1. set (ft := oft + ft_size * fd) in *.
  destruct (copy_inode_run s ft p h Hg O2 L1 L3) as (m1 & Hc1 & Hw1 & Hcp1). set (s1 := with_mem m1 (with_fheap h s)) in *.
  unfold apart, inode_size, ft_size, fsystem_size, ft_state, ft_fileptr, ft_in, in_filesize, in_block, INODEBLOCKS in *.
  assert (Hfp : ldi s1.(mem) (ft + 4) = Some f) by (rewrite (ldi_writes _ _ _ _ _ Hw1); [done|lia]).
  assert (HM1 : mounted s1 nb bs ni).
  { apply (mounted_frame (with_fheap h s)); [by destruct HM| |by apply Hw1]. intros x Hx. apply Hw1. unfold fsystem_size in Hx. lia. }
  assert (HL1 : read_layout s1 nb bs p buf fd).
  { split; unfold apart, inode_size, ft_size, fsystem_size; cbn [dev0_blocks s1 with_mem with_fheap]; try lia; by eapply writes_mapped. }
  destruct (read_loop_run s1 nb bs ni fd size f b p buf n HM1 HL1 Hfp) as (m2 & E2 & Hw2 & Hcp2); try done; try (unfold n; lia).
  { intros Hr Hp. destruct (Hb Hr Hp) as (Hq & Hld & Hbr). split; [done|]. split; [|done]. unfold in_block. rewrite <- Z.add_assoc.
    rewrite (ldi_copied _ _ _ _ _ _ Hcp1) by lia. by rewrite Z.add_assoc. }
  destruct (store_run (with_mem m2 s1) (ft + 4) (f + n)) as (m3 & Hs3 & Hw3 & Hl3).
  { eapply writes_mapped; [exact Hw2|]. eapply writes_mapped; [exact Hw1|]. eapply mapped_part; [exact O2|lia|lia]. }
  { unfold is_s32 in *. lia. }
  exists (with_mem m3 (with_mem m2 s1)). split; [|split; [|done]].
  - unfold fs_read, NUM_FD, ft_size. fold ft. rewrite Z.geb_leb, (proj2 (Z.leb_gt 16 fd)) by lia.
    rewrite (proj2 (Z.leb_gt nbytes 0)) by lia. cbv zeta. unfold ft_state, ft_fileptr, in_filesize.
    rewrite (fs_bind _ _ _ _ _ (load_run s _ _ O3)). cbv beta. change (negb (FSTATE_OPEN =? FSTATE_OPEN)) with false. cbv iota.
    rewrite (fs_bind _ _ _ _ _ Hc1). cbv beta.
    assert (H5 : ldi s1.(mem) (p + 12) = Some size) by (rewrite (ldi_copied _ _ _ _ _ _ Hcp1) by lia; done).
    rewrite (fs_bind _ _ _ _ _ (load_run s1 _ _ H5)). cbv beta. rewrite (fs_bind _ _ _ _ _ (load_run s1 _ _ Hfp)). cbv beta.
    rewrite (s32_id (f + nbytes)), (s32_id (size - f)) by (unfold is_s32 in *; lia).
    assert (En : (if f + nbytes >? size then (size - f, size) else (nbytes, f + nbytes)) = (n, f + n)).
    { unfold n. rewrite Z.gtb_ltb. destruct (Z.ltb_spec size (f + nbytes)); f_equal; lia. }
    rewrite En. rewrite (fs_bind _ _ _ _ _ (load_run s1 _ bs (mo_fbs _ _ _ _ HM1))). cbv beta.
    revert E2. rewrite !fs_last_block_bind by (unfold is_s32 in *; lia). intros E2. rewrite (fs_bind _ _ _ _ _ E2). cbv beta.
    by rewrite (fs_bind _ _ _ _ _ Hs3).
  - intros i Hi. cbn [mem with_mem]. rewrite (writes_out _ _ _ _ _ Hw3) by lia. rewrite Hcp2 by done.
    unfold s1. cbn [mem with_mem dev0_blocks with_fheap]. case_decide as Hc; [|by rewrite (writes_out _ _ _ _ _ Hw1) by lia].
    destruct (Hb (proj1 Hc) (proj2 Hc)) as (_ & _ & Hbr). destruct (block_place s nb bs ni b HM Hbr) as (_ & Hb0 & Hb1).
    by rewrite (writes_out _ _ _ _ _ Hw1) by lia.
Qed.

(** C31: fs_read of bytes that all are in one block.  Asked for [nbytes] bytes at the byte [f]
    of a file, it returns [n], the number of bytes there are up to the end of the file if these
    are fewer, and moves the file pointer behind them.  When [f] is the start of a block, it
    writes that whole block into the buffer, however small [n] is.  When [f] is
    inside of a block, it transfers nothing, and still returns [n]. *)
Theorem fs_read_copies_a_whole_block (s : st) nb bs ni fd buf nbytes size f b p h (n := Z.min nbytes (size - f)) :
  mounted s nb bs ni -> open_at s fd size f -> read_layout s nb bs p buf fd -> al_get (u32 inode_size) s.(fheap) = (p, h) ->
  0 < nbytes -> 0 <= f <= size -> is_s32 size -> is_s32 (f + nbytes) -> f mod bs + n <= bs ->
  (f mod bs = 0 -> 0 < n ->
    f / bs < INODEBLOCKS /\ ldi s.(mem) (in_block (ft_in (oft + ft_size * fd)) (f / bs)) = Some b /\ 0 <= b < nb) ->
  ∃ s', fs_read al_get fsd oft fd buf nbytes s = Some (n, s') /\
    (∀ i, 0 <= i < bs -> s'.(mem) !! (buf + i) =
       if decide (f mod bs = 0 /\ 0 < n) then s.(mem) !! (s.(dev0_blocks) + b * bs + i) else s.(mem) !! (buf + i)) /\
    ldi s'.(mem) (ft_fileptr (oft + ft_size * fd)) = Some (f + n).
Proof. apply fs_read_run. Qed.
End Read.

(** * The theorems *)

(** C30: an inode that fs_put_inode_by_num has written is what fs_get_inode_by_num
    reads, and the other inodes are as before: the table of inodes on the device is
    an array. *)
Theorem inode_table_is_an_array (s : st) nb bs ni k p : mounted s nb bs ni -> inode_ok nb bs ni k ->
  mapped s.(mem) p inode_size -> apart p inode_size block_cache 512 ->
  ∃ s1, fs_put_inode_by_num fsd block_cache dev0 k p s = Some (OK, s1) /\
    ∀ k' q, inode_ok nb bs ni k' -> mapped s.(mem) q inode_size -> apart q inode_size block_cache 512 ->
      ∃ s2, fs_get_inode_by_num fsd block_cache dev0 k' q s1 = Some (OK, s2) /\
        ∀ i, 0 <= i < inode_size ->
          s2.(mem) !! (q + i) = s.(mem) !! ((if decide (k' = k) then p else inode_addr s bs k') + i).
Proof.
  intros HM Hk Hp Ha. destruct (put_inode_run s nb bs ni k p HM Hk Hp Ha) as (m1 & Hrun & HM1 & Hin & Hout & Hd).
  exists (with_mem m1 s). split; [done|]. intros k' q Hk' Hq Haq.
  destruct (get_inode_run (with_mem m1 s) nb bs ni k' q HM1 Hk') as (m2 & Hget & Hcp & _); [|done|].
  { intros x Hx. by apply Hd, Hq. }
  exists (with_mem m2 (with_mem m1 s)). split; [done|]. intros i Hi. cbn [mem with_mem] in *. rewrite Hcp by done.
  change (inode_addr (with_mem m1 s) bs k') with (inode_addr s bs k'). destruct (decide (k' = k)) as [->|Hne]; [by apply Hin|].
  pose proof (mo_range _ _ _ _ HM) as (Hbs & _). pose proof (inode_off_range bs k Hbs). pose proof (inode_off_range bs k' Hbs).
  pose proof (inode_block_range nb bs ni k Hbs Hk). pose proof (inode_block_range nb bs ni k' Hbs Hk').
  pose proof (mo_apart3 _ _ _ _ HM) as A3. destruct (block_place s nb bs ni (inode_block bs k') HM) as (_ & B0 & B1); [done|].
  unfold inode_size in *. apply Hout; unfold inode_addr, apart in *; [|lia].
  destruct (decide (inode_block bs k = inode_block bs k')) as [E|E].
  - pose proof (inode_inj bs k k' Hbs E ltac:(done)) as Hi'. unfold apart in Hi'. rewrite E. lia.
  - destruct (Z.lt_ge_cases (inode_block bs k) (inode_block bs k')); nia.
Qed.

(** The mask of free blocks is a set of block numbers: fs_setmaskbit adds one,
    fs_clearmaskbit takes one out, and fs_getmaskbit tells whether one is in it. *)
Theorem free_mask_is_a_set (s : st) fm n b : masked s fm n -> 0 <= b < 8 * n ->
  ∃ s1 s2, fs_setmaskbit fsd b s = Some (OK, s1) /\ fs_clearmaskbit fsd b s = Some (OK, s2) /\
    ∀ b', 0 <= b' < 8 * n -> ∃ v, fs_getmaskbit fsd b' s = Some (Z.b2z v, s) /\
      fs_getmaskbit fsd b' s1 = Some (Z.b2z (if decide (b' = b) then true else v), s1) /\
      fs_getmaskbit fsd b' s2 = Some (Z.b2z (if decide (b' = b) then false else v), s2).
Proof.
  intros HM Hb. destruct (setmask_run s fm n b HM Hb) as (s1 & H1 & HM1 & _ & Hb1).
  destruct (clearmask_run s fm n b HM Hb) as (s2 & H2 & HM2 & Hb2). exists s1, s2. do 2 (split; [done|]).
  intros b' Hb'. exists (bit s fm b'). split; [by eapply getmask_run|]. rewrite <- Hb1, <- Hb2 by done.
  split; by eapply getmask_run.
Qed.

End Fsthm.

(** * A small file system *)

(** Eight blocks of 64 bytes, one of them an inode's; the file 0 is open. *)
Definition poke (a v : Z) (m : bmem) : bmem := default m (sti a v m).

Definition demo_mem : bmem :=
  poke 1004 64 (poke 1000 8 (poke 1008 4 (poke 1020 7000
  (poke 2000 1 (poke 2024 5 (poke 2028 6 (poke 8576 1234
  (ram 604 1000 (ram 1216 2000 (ram 512 4000 (ram 512 8192 (ram 64 5000 (ram 64 6000 (ram 64 6500 (ram 4 7000 ∅))))))))))))))).

Definition demo_fs : fsst Z := Fsst _ demo_mem 8 64 8192 1 5000.
Definition demo_getmem (n h : Z) : Z * Z := (h, h + n).

Lemma demo_mounted : mounted 1000 4000 demo_fs 8 64 4.
Proof.
  constructor; cbn [mem dev0_blocks dev0_blocksize demo_fs].
  - apply (mappedb_true demo_mem 1000 604). by vm_compute.
  - apply (mappedb_true demo_mem 4000 512). by vm_compute.
  - apply (mappedb_true demo_mem 8192 512). by vm_compute.
  - done.
  - by vm_compute.
  - by vm_compute.
  - by vm_compute.
  - lia.
  - unfold apart, fsystem_size. lia.
  - unfold apart, fsystem_size. lia.
  - unfold apart. lia.
Qed.

Lemma demo_inode_ok k : k = 1 \/ k = 2 -> inode_ok 8 64 4 k.
Proof. intros [->| ->]; split; by vm_compute. Qed.

Lemma demo_region p : p = 5000 \/ p = 6000 \/ p = 6500 -> mapped demo_mem p 64.
Proof. intros [->|[->| ->]]; [apply (mappedb_true _ 5000 64)|apply (mappedb_true _ 6000 64)|apply (mappedb_true _ 6500 64)]; by vm_compute. Qed.

Lemma inode_table_is_an_array_witness :
  ∃ s1, fs_put_inode_by_num 1000 4000 dev0 1 6000 demo_fs = Some (OK, s1) /\
    ∃ s2, fs_get_inode_by_num 1000 4000 dev0 1 6500 s1 = Some (OK, s2) /\
      ∀ i, 0 <= i < inode_size -> s2.(mem) !! (6500 + i) = demo_fs.(mem) !! (6000 + i).
Proof.
  destruct (inode_table_is_an_array 1000 4000 demo_fs 8 64 4 1 6000 demo_mounted (demo_inode_ok 1 (or_introl eq_refl))
    (demo_region 6000 (or_intror (or_introl eq_refl))) ltac:(unfold apart, inode_size; lia)) as (s1 & H1 & H2).
  destruct (H2 1 6500 (demo_inode_ok 1 (or_introl eq_refl)) (demo_region 6500 (or_intror (or_intror eq_refl)))
    ltac:(unfold apart, inode_size; lia)) as (s2 & H3 & H4).
  exists s1. split; [exact H1|]. exists s2. split; [exact H3|]. intros i Hi. specialize (H4 i Hi).
  rewrite decide_True in H4 by reflexivity. exact H4.
Defined.

Lemma demo_masked : masked 1000 demo_fs 7000 4.
Proof.
  constructor; cbn [mem demo_fs].
  - exists 7000. split; by vm_compute.
  - intros i Hi. exists 0. assert (i = 0 \/ i = 1 \/ i = 2 \/ i = 3) as [->|[->|[->| ->]]] by lia; (split; [by vm_compute|lia]).
  - unfold apart, fsd_freemask. lia.
Qed.

Lemma free_mask_is_a_set_witness : ∃ s1 : fsst Z, fs_setmaskbit 1000 9 demo_fs = Some (OK, s1) /\ fs_getmaskbit 1000 9 s1 = Some (1, s1).
Proof.
  destruct (free_mask_is_a_set 1000 demo_fs 7000 4 9 demo_masked ltac:(lia)) as (s1 & s2 & H1 & _ & H3).
  destruct (H3 9 ltac:(lia)) as (v & _ & H5 & _). exact (ex_intro _ s1 (conj H1 H5)).
Defined.

Lemma demo_open : open_at 2000 demo_fs 0 5 0.
Proof. split; [unfold NUM_FD; lia|apply (mappedb_true demo_mem 2000 76); by vm_compute|by vm_compute..]. Qed.

Lemma demo_read_layout s : mapped s.(mem) 5000 64 -> mapped s.(mem) 6000 64 -> s.(dev0_blocks) = 8192 ->
  read_layout (A:=Z) 1000 2000 s 8 64 5000 6000 0.
Proof. intros H1 H2 Hd. split; [done|done|..]; rewrite ?Hd; unfold apart, inode_size, ft_size, fsystem_size; lia. Qed.

(** The same file after two bytes have been read. *)
Definition demo_inside_mem : bmem := poke 2004 2 demo_mem.
Definition demo_inside : fsst Z := with_mem demo_inside_mem demo_fs.

Lemma demo_inside_writes : writes 2004 4 demo_mem demo_inside_mem.
Proof.
  destruct (sti_run 2004 2 demo_mem) as (m & H & W & _); [apply (mappedb_true demo_mem 2004 4); by vm_compute|done|].
  unfold demo_inside_mem, poke. rewrite H. exact W.
Qed.

Lemma demo_inside_mounted : mounted 1000 4000 demo_inside 8 64 4.
Proof.
  pose proof (demo_inside_writes) as [W1 W2]. refine (mounted_frame 1000 4000 demo_fs demo_inside_mem 8 64 4 demo_mounted _ W2).
  intros x Hx. apply W1. unfold fsystem_size in Hx. clear -Hx. lia.
Qed.

Lemma demo_inside_open : open_at 2000 demo_inside 0 5 2.
Proof.
  split; [unfold NUM_FD; lia| |by vm_compute..]. eapply writes_mapped; [apply demo_inside_writes|].
  apply (mappedb_true demo_mem 2000 76). by vm_compute.
Qed.

(** From the start all of the block is read, though five bytes were asked for; after two bytes
    nothing is, and the call still returns three. *)
Lemma fs_read_copies_a_whole_block_witness :
  (∃ s', fs_read demo_getmem 1000 2000 0 6000 5 demo_fs = Some (5, s') /\
     s'.(mem) !! (6000 + 63) = demo_fs.(mem) !! (demo_fs.(dev0_blocks) + 6 * 64 + 63)) /\
  ∃ s', fs_read demo_getmem 1000 2000 0 6000 3 demo_inside = Some (3, s') /\ s'.(mem) !! 6000 = demo_inside.(mem) !! 6000.
Proof.
  split.
  - destruct (fs_read_copies_a_whole_block 1000 2000 4000 demo_getmem demo_fs 8 64 4 0 6000 5 5 0 6 5000 5064 demo_mounted demo_open)
      as (s' & H1 & H2 & _); [apply demo_read_layout; [apply demo_region; auto|apply demo_region; auto|reflexivity]|reflexivity|lia|lia|done|done|vm_compute; discriminate| |].
    + intros _ _. split; [done|]. split; [by vm_compute|lia].
    + specialize (H2 63 ltac:(lia)). rewrite decide_True in H2 by (split; [reflexivity|lia]). exact (ex_intro _ s' (conj H1 H2)).
  - destruct (fs_read_copies_a_whole_block 1000 2000 4000 demo_getmem demo_inside 8 64 4 0 6000 3 5 2 6 5000 5064 demo_inside_mounted demo_inside_open)
      as (s' & H1 & H2 & _); [|reflexivity|lia|lia|done|done|vm_compute; discriminate|done|].
    + apply demo_read_layout; [| |reflexivity]; (eapply writes_mapped; [apply demo_inside_writes|apply demo_region; auto]).
    + specialize (H2 0 ltac:(lia)). rewrite decide_False in H2 by (intros [H _]; discriminate H). exact (ex_intro _ s' (conj H1 H2)).
Defined.
