(* ===== verification/Shell.v ===== *)
(** The shell: shell/lexan.c, shell/addargs.c and the command line part of
    shell/shell.c.

    The command line, the buffer of tokens and the stack of the new process are bytes
    of memory; [tok] and [toktyp] are the arrays of shell.c, with SHELL_MAXTOK entries.
    The loops of lexan that walk along a string have the fuel [str_fuel]; its main loop
    makes one more round than there are entries for tokens. *)

From S2P Require Import Prelude Types Cstring Bytes.

(** * include/shell.h *)

Definition SHELL_BUFLEN : Z := 129.
Definition SHELL_MAXTOK : Z := 32.
Definition SHELL_ARGLEN : Z := SHELL_BUFLEN + SHELL_MAXTOK.

Definition NULLCH : Z := 0.
Definition SH_NEWLINE : Z := 10.
Definition SH_AMPER : Z := 38.
Definition SH_BLANK : Z := 32.
Definition SH_TAB : Z := 9.
Definition SH_SQUOTE : Z := 39.
Definition SH_DQUOTE : Z := 34.
Definition SH_LESS : Z := 60.
Definition SH_GREATER : Z := 62.

Definition SH_TOK_AMPER : Z := 0.
Definition SH_TOK_LESS : Z := 1.
Definition SH_TOK_GREATER : Z := 2.
Definition SH_TOK_OTHER : Z := 3.

(** * lexan *)

(** The result of lexan: its value, [tlen] if it is stored, and what it writes. *)
Record lexed := Lexed { lx_ret : Z; lx_tlen : option Z; lx_mem : bmem; lx_tok : gmap Z Z; lx_typ : gmap Z Z }.

(** The loop that skips blanks and tabs before a token. *)
Fixpoint skip_blanks (fuel : nat) (m : bmem) (p : Z) : option Z :=
  match fuel with
  | O => None
  | S fuel =>
      c ← ldb m p;
      if (c =? SH_BLANK) || (c =? SH_TAB) then skip_blanks fuel m (p + 1) else Some p
  end.

(** The loop that copies a quoted string: the last character, [p], [tbindex] and the
    memory. *)
Fixpoint copy_quoted (fuel : nat) (quote p tokbuf tbindex : Z) (m : bmem) : option (Z * Z * Z * bmem) :=
  match fuel with
  | O => None
  | S fuel =>
      ch ← ldb m p;
      if negb (ch =? quote) && negb (ch =? SH_NEWLINE) && negb (ch =? NULLCH) then
        m ← stb (tokbuf + tbindex) ch m;
        copy_quoted fuel quote (p + 1) tokbuf (tbindex + 1) m
      else Some (ch, p + 1, tbindex, m)
  end.

(** The loop that copies the rest of any other token. *)
Definition in_token (ch : Z) : bool :=
  negb (ch =? SH_NEWLINE) && negb (ch =? NULLCH) && negb (ch =? SH_LESS) && negb (ch =? SH_GREATER) &&
  negb (ch =? SH_BLANK) && negb (ch =? SH_TAB) && negb (ch =? SH_AMPER) && negb (ch =? SH_SQUOTE) &&
  negb (ch =? SH_DQUOTE).

Fixpoint copy_token (fuel : nat) (p tokbuf tbindex : Z) (m : bmem) : option (Z * Z * Z * bmem) :=
  match fuel with
  | O => None
  | S fuel =>
      ch ← ldb m p;
      if in_token ch then
        m ← stb (tokbuf + tbindex) ch m;
        copy_token fuel (p + 1) tokbuf (tbindex + 1) m
      else Some (ch, p, tbindex, m)
  end.

(** The type of the token that starts with [ch]. *)
Definition token_type (ch : Z) : Z :=
  if ch =? SH_AMPER then SH_TOK_AMPER
  else if ch =? SH_LESS then SH_TOK_LESS
  else if ch =? SH_GREATER then SH_TOK_GREATER
  else SH_TOK_OTHER.

(** The main loop. *)
Fixpoint lexan_loop (fuel : nat) (p tokbuf ntok tbindex : Z) (m : bmem) (tok toktyp : gmap Z Z) : option lexed :=
  match fuel with
  | O => None
  | S fuel =>
      c ← ldb m p;
      if (c =? NULLCH) || (c =? SH_NEWLINE) then Some (Lexed ntok (Some tbindex) m tok toktyp)
      else if ntok >=? SHELL_MAXTOK then Some (Lexed SYSERR None m tok toktyp)
      else
        p ← skip_blanks (str_fuel m) m p;
        ch ← ldb m p;
        if (ch =? SH_NEWLINE) || (ch =? NULLCH) then Some (Lexed ntok (Some tbindex) m tok toktyp)
        else
          tok ← arr_upd (λ _, tbindex) ntok tok;
          toktyp ← arr_upd (λ _, token_type ch) ntok toktyp;
          if (ch =? SH_AMPER) || (ch =? SH_LESS) || (ch =? SH_GREATER) then
            m ← stb (tokbuf + tbindex) ch m;
            m ← stb (tokbuf + (tbindex + 1)) NULLCH m;
            lexan_loop fuel (p + 1) tokbuf (ntok + 1) (tbindex + 2) m tok toktyp
          else if (ch =? SH_SQUOTE) || (ch =? SH_DQUOTE) then
            '(last, p, tbindex, m) ← copy_quoted (str_fuel m) ch (p + 1) tokbuf tbindex m;
            if negb (last =? ch) then Some (Lexed SYSERR None m tok toktyp)
            else
              m ← stb (tokbuf + tbindex) NULLCH m;
              lexan_loop fuel p tokbuf (ntok + 1) (tbindex + 1) m tok toktyp
          else
            m ← stb (tokbuf + tbindex) ch m;
            '(last, p, tbindex, m) ← copy_token (str_fuel m) (p + 1) tokbuf (tbindex + 1) m;
            if (last =? SH_SQUOTE) || (last =? SH_DQUOTE) || (last =? SH_LESS) || (last =? SH_GREATER)
            then Some (Lexed SYSERR None m tok toktyp)
            else
              m ← stb (tokbuf + tbindex) NULLCH m;
              lexan_loop fuel p tokbuf (ntok + 1) (tbindex + 1) m tok toktyp
  end.

(** shell/lexan.c: lexan; it does not use the length of the line. *)
Definition lexan (line tokbuf : Z) (m : bmem) (tok toktyp : gmap Z Z) : option lexed :=
  lexan_loop (S (Z.to_nat SHELL_MAXTOK)) line tokbuf 0 0 m tok toktyp.

(** * The command line in shell.c *)

(** The command that shell.c finds in the tokens: their number and length without the
    redirection and the ampersand, and the file names. *)
Record cmdline := Cmdline { cl_ntok : Z; cl_tlen : Z; cl_backgnd : bool; cl_in : option Z; cl_out : option Z }.

(** shell/shell.c: one redirection at the end of the tokens; [None] is a syntax error,
    for the second one also when it repeats the first one.  A file name is an index into
    [tokbuf]. *)
Definition redirect (tok toktyp : gmap Z Z) (c : cmdline) : option (option cmdline) :=
  if c.(cl_ntok) >=? 3 then
    t2 ← toktyp !! (c.(cl_ntok) - 2);
    if (t2 =? SH_TOK_LESS) || (t2 =? SH_TOK_GREATER) then
      t1 ← toktyp !! (c.(cl_ntok) - 1);
      if negb (t1 =? SH_TOK_OTHER) then Some None
      else
        name ← tok !! (c.(cl_ntok) - 1);
        tlen ← tok !! (c.(cl_ntok) - 2);
        if t2 =? SH_TOK_LESS then
          Some (if c.(cl_in) is None then Some (Cmdline (c.(cl_ntok) - 2) tlen c.(cl_backgnd) (Some name) c.(cl_out)) else None)
        else
          Some (if c.(cl_out) is None then Some (Cmdline (c.(cl_ntok) - 2) tlen c.(cl_backgnd) c.(cl_in) (Some name)) else None)
    else Some (Some c)
  else Some (Some c).

(** [for (i = 0; i < ntok; i++) if (toktyp[i] != SH_TOK_OTHER) break;]: whether it
    runs to the end. *)
Fixpoint all_other (n : nat) (i : Z) (toktyp : gmap Z Z) : option bool :=
  match n with
  | O => Some true
  | S n => t ← toktyp !! i; if negb (t =? SH_TOK_OTHER) then Some false else all_other n (i + 1) toktyp
  end.

(** shell/shell.c: shell, from the result of lexan, when there are tokens, to the
    lookup of the command. *)
Definition parse_command (ntok tlen : Z) (tok toktyp : gmap Z Z) : option (option cmdline) :=
  t ← toktyp !! (ntok - 1);
  let c := if t =? SH_TOK_AMPER then Cmdline (ntok - 1) (tlen - 2) true None None
           else Cmdline ntok tlen false None None in
  c1 ← redirect tok toktyp c;
  match c1 with
  | None => Some None
  | Some c1 =>
      c2 ← redirect tok toktyp c1;
      match c2 with
      | None => Some None
      | Some c2 =>
          ok ← all_other (Z.to_nat c2.(cl_ntok)) 0 toktyp;
          Some (if (c2.(cl_ntok) =? 0) || negb ok then None else Some c2)
      end
  end.

(** The loop that compares a name of the table with the first token: whether they are
    equal. *)
Fixpoint same_name (fuel : nat) (m : bmem) (src cmp : Z) : option bool :=
  match fuel with
  | O => None
  | S fuel =>
      s ← ldb m src;
      c ← ldb m cmp;
      if negb (s =? NULLCH) then
        if negb (c =? s) then Some false else same_name fuel m (src + 1) (cmp + 1)
      else Some (c =? NULLCH)
  end.

(** shell/shell.c: the search of the command table, whose names are at [cmdtab]; the
    index of the command, or their number. *)
Fixpoint find_command (m : bmem) (cmdtab : list Z) (tokbuf : Z) : option Z :=
  match cmdtab with
  | [] => Some 0
  | cname :: cmdtab =>
      same ← same_name (str_fuel m) m cname tokbuf;
      if (same : bool) then Some 0 else j ← find_command m cmdtab tokbuf; Some (j + 1)
  end.

(** * addargs *)

(** A 32-bit word in memory. *)
Definition ldu (m : bmem) (a : Z) : option Z := ld_le 4 m a.

(** The loop that stores the addresses of the arguments. *)
Fixpoint store_args (n : nat) (i aptr argstr : Z) (tok : gmap Z Z) (m : bmem) : option (Z * bmem) :=
  match n with
  | O => Some (aptr, m)
  | S n =>
      t ← tok !! i;
      m ← sti aptr (argstr + t) m;
      store_args n (i + 1) (aptr + 4) argstr tok m
  end.

(** The loop that looks for the dummy argument, [n] words from [search] on. *)
Fixpoint replace_arg (n : nat) (search dummy argloc : Z) (m : bmem) : option (Z * bmem) :=
  match n with
  | O => Some (SYSERR, m)
  | S n =>
      w ← ldu m search;
      if w =? u32 dummy then m ← sti search argloc m; Some (OK, m)
      else replace_arg n (search + 4) dummy argloc m
  end.

(** shell/addargs.c: addargs; interrupts are disabled while it runs and restored
    before each return. *)
Definition addargs (pt : ptab) (pid ntok : Z) (tok : gmap Z Z) (tlen tokbuf dummy : Z) (m : bmem) : option (Z * bmem) :=
  if (ntok <=? 0) || (tlen <? 0) then Some (SYSERR, m)
  else
    prptr ← pt !! pid;
    let aloc := u32 (prptr.(prstkbase) - prptr.(prstklen) + 4) in
    let argloc := Z.land (u32 (aloc + 3)) (u32 (Z.lnot 3)) in
    let argstr := argloc + 4 * (ntok + 1) in
    '(aptr, m) ← store_args (Z.to_nat ntok) 0 argloc argstr tok m;
    m ← sti aptr 0 m;
    '(_, m) ← memcpy (aptr + 4) tokbuf tlen m;
    replace_arg (Z.to_nat ((prptr.(prstkbase) - prptr.(prstkptr) + 3) / 4)) prptr.(prstkptr) dummy argloc m.
