(* ===== verification/Shellthm.v ===== *)
(** The shell, verified: lexan divides a line into the tokens of a reference definition on
    lists and stays within its buffers, and addargs gives them to the command as its
    argument vector. *)

From S2P Require Import Prelude Types Cstring Bytes Shell.

(** * The tokens of a line *)

Definition is_blank (c : Z) : bool := (c =? SH_BLANK) || (c =? SH_TAB).

Fixpoint drop_blanks (s : list Z) : list Z :=
  match s with c :: r => if is_blank c then drop_blanks r else s | [] => [] end.

(** [s] up to the first [q] and what follows it. *)
Fixpoint until (q : Z) (s : list Z) : option (list Z * list Z) :=
  match s with
  | [] => None
  | c :: r => if c =? q then Some ([], r) else '(a, b) ← until q r; Some (c :: a, b)
  end.

(** The longest prefix of characters inside a token, and the rest. *)
Fixpoint span_token (s : list Z) : list Z * list Z :=
  match s with
  | c :: r => if in_token c then let (a, b) := span_token r in (c :: a, b) else ([], s)
  | [] => ([], [])
  end.

(** The tokens of the line [s], at most [n], each with its type; [None] is an error. *)
Fixpoint tokens (n : nat) (s : list Z) : option (list (Z * list Z)) :=
  match n, s with
  | _, [] => Some []
  | O, _ => None
  | S n, _ =>
      match drop_blanks s with
      | [] => Some []
      | c :: r =>
          if (c =? SH_AMPER) || (c =? SH_LESS) || (c =? SH_GREATER) then
            l ← tokens n r; Some ((token_type c, [c]) :: l)
          else if (c =? SH_SQUOTE) || (c =? SH_DQUOTE) then
            '(a, b) ← until c r; l ← tokens n b; Some ((SH_TOK_OTHER, a) :: l)
          else
            let (a, b) := span_token r in
            if match b with
               | d :: _ => (d =? SH_SQUOTE) || (d =? SH_DQUOTE) || (d =? SH_LESS) || (d =? SH_GREATER)
               | [] => false
               end then None
            else l ← tokens n b; Some ((SH_TOK_OTHER, c :: a) :: l)
      end
  end.

(** The buffer of tokens: each is followed by a zero byte. *)
Definition tok_bytes (l : list (Z * list Z)) : list Z := concat ((λ t, t.2 ++ [NULLCH]) <$> l).

(** The line [s] is at [p]: it ends at a newline or a zero byte. *)
Definition line_at (m : bmem) (p : Z) (s : list Z) : Prop :=
  ∃ e, (e = NULLCH \/ e = SH_NEWLINE) /\ bytes_at m p (s ++ [e]) /\ Forall (λ c, c ≠ NULLCH /\ c ≠ SH_NEWLINE) s.

(** The arrays describe the tokens [l], the first of which is number [i] and starts at
    index [at0] of the buffer. *)
Fixpoint toks_ok (tok toktyp : gmap Z Z) (i at0 : Z) (l : list (Z * list Z)) : Prop :=
  match l with
  | [] => True
  | t :: l => tok !! i = Some at0 /\ toktyp !! i = Some t.1 /\
      toks_ok tok toktyp (i + 1) (at0 + Z.of_nat (length t.2) + 1) l
  end.

Lemma tok_bytes_cons t l : tok_bytes (t :: l) = t.2 ++ [NULLCH] ++ tok_bytes l.
Proof. unfold tok_bytes. rewrite fmap_cons. cbn [concat]. by rewrite <- app_assoc. Qed.

(** ** The loops of lexan *)

Section Lexan.
Context (tokbuf cap : Z).

(** The room in the token buffer from index [tb] on. *)
Definition room (m : bmem) : Prop := mapped m tokbuf cap.

(** [m'] is [m] after writes at the indices [tb, cap) of the token buffer. *)
Definition fills (tb : Z) (m m' : bmem) : Prop := writes (tokbuf + tb) (cap - tb) m m'.

Lemma put_byte tb c m : mapped m tokbuf cap -> 0 <= tb < cap ->
  stb (tokbuf + tb) c m = Some (<[tokbuf + tb := c]> m) /\ fills tb m (<[tokbuf + tb := c]> m).
Proof.
  intros Hm Htb. destruct (writes_one (tokbuf + tb) c m (Hm (tokbuf + tb) ltac:(lia))) as [H Hw]. split; [done|].
  eapply writes_weaken; [exact Hw|lia|lia].
Qed.

Lemma fills_trans tb tb' m1 m2 m3 : fills tb m1 m2 -> fills tb' m2 m3 -> tb <= tb' -> fills tb m1 m3.
Proof. intros H1 H2 Hle. eapply writes_trans; [exact H1|]. eapply writes_weaken; [exact H2|lia|lia]. Qed.

Lemma fills_line tb m m' p s : fills tb m m' -> 0 <= tb -> line_at m p s ->
  p + Z.of_nat (length s) + 1 <= tokbuf \/ tokbuf + cap <= p -> line_at m' p s.
Proof.
  intros Hf Htb (e & He & Hb & Hs) Hd. exists e. split; [done|]. split; [|done].
  eapply writes_bytes; [exact Hf|exact Hb|]. rewrite length_app. cbn [length]. lia.
Qed.

Lemma line_cons m p c s : line_at m p (c :: s) -> m !! p = Some c /\ c ≠ NULLCH /\ c ≠ SH_NEWLINE /\ line_at m (p + 1) s.
Proof.
  intros (e & He & [Hc Hb] & Hs). apply Forall_cons in Hs as [[H1 H2] Hs]. repeat (split; [done|]). by exists e.
Qed.

Lemma line_nil m p : line_at m p [] -> ∃ e, m !! p = Some e /\ (e = NULLCH \/ e = SH_NEWLINE).
Proof. intros (e & He & [Hc _] & _). eauto. Qed.

Lemma line_fuel m p s : line_at m p s -> (length s < str_fuel m)%nat.
Proof. intros (e & _ & Hb & _). apply bytes_at_size in Hb. rewrite length_app in Hb. cbn [length] in Hb. unfold str_fuel. lia. Qed.

Lemma skip_blanks_run fuel : ∀ m p s, line_at m p s -> (length s < fuel)%nat ->
  ∃ p', skip_blanks fuel m p = Some p' /\ line_at m p' (drop_blanks s) /\ p' + Z.of_nat (length (drop_blanks s)) = p + Z.of_nat (length s) /\ p <= p'.
Proof.
  induction fuel as [|fuel IH]; intros m p s Hl Hf; [lia|]. cbn [skip_blanks]. destruct s as [|c s].
  - destruct (line_nil _ _ Hl) as (e & Hp & He). unfold ldb. rewrite Hp. cbn [mbind option_bind].
    exists p. split; [by destruct He as [->| ->]|]. split; [done|]. cbn. lia.
  - destruct (line_cons _ _ _ _ Hl) as (Hp & _ & _ & Hl'). unfold ldb. rewrite Hp. cbn [mbind option_bind drop_blanks].
    unfold is_blank. destruct ((c =? SH_BLANK) || (c =? SH_TAB)).
    + destruct (IH m (p + 1) s Hl' ltac:(cbn in Hf; lia)) as (p' & -> & H1 & H2 & H3). exists p'.
      split; [done|]. split; [done|]. cbn [length]. lia.
    + exists p. split; [done|]. split; [done|]. lia.
Qed.

(** What the two copying loops do: [a] is copied, [b] is the rest of the line. *)
Lemma copy_quoted_run fuel : ∀ q m p s tb, line_at m p s -> (length s < fuel)%nat -> mapped m tokbuf cap ->
  0 <= tb -> tb + Z.of_nat (length s) <= cap -> p + Z.of_nat (length s) + 1 <= tokbuf \/ tokbuf + cap <= p ->
  q ≠ NULLCH -> q ≠ SH_NEWLINE ->
  match until q s with
  | Some (a, b) => ∃ m', copy_quoted fuel q p tokbuf tb m =
      Some (q, p + Z.of_nat (length a) + 1, tb + Z.of_nat (length a), m') /\ fills tb m m' /\
      bytes_at m' (tokbuf + tb) a /\ line_at m' (p + Z.of_nat (length a) + 1) b /\
      (length s = length a + S (length b))%nat
  | None => ∃ e p' tb' m', copy_quoted fuel q p tokbuf tb m = Some (e, p', tb', m') /\ e ≠ q /\ fills tb m m'
  end.
Proof.
  induction fuel as [|fuel IH]; intros q m p s tb Hl Hf Hm Htb Hcap Hd Hq1 Hq2; [lia|]. cbn [copy_quoted]. destruct s as [|c s].
  - cbn [until]. destruct (line_nil _ _ Hl) as (e & Hp & He). unfold ldb. rewrite Hp. cbn [mbind option_bind].
    exists e, (p + 1), tb, m. split; [|split; [destruct He; congruence|by split]].
    destruct He as [->| ->]; by rewrite (proj2 (Z.eqb_neq _ _)) by congruence.
  - destruct (line_cons _ _ _ _ Hl) as (Hp & H1 & H2 & Hl'). unfold ldb. rewrite Hp. cbn [mbind option_bind until length] in *.
    destruct (Z.eqb_spec c q) as [->|Hne].
    + cbn [negb andb]. exists m. cbn [length]. rewrite Z.add_0_r, Z.add_0_r. split; [done|]. split; [by split|]. by split.
    + rewrite (proj2 (Z.eqb_neq _ _) H1), (proj2 (Z.eqb_neq _ _) H2). cbn [negb andb].
      destruct (put_byte tb c m Hm ltac:(lia)) as [-> Hw]. cbn [mbind option_bind].
      assert (Hl2 : line_at (<[tokbuf + tb := c]> m) (p + 1) s) by (eapply fills_line; [exact Hw|lia|done|lia]).
      assert (Hm2 : mapped (<[tokbuf + tb := c]> m) tokbuf cap) by (eapply writes_mapped; [exact Hw|done]).
      specialize (IH q _ (p + 1) s (tb + 1) Hl2 ltac:(lia) Hm2 ltac:(lia) ltac:(lia) ltac:(lia) Hq1 Hq2).
      destruct (until q s) as [[a b]|]; cbn [mbind option_bind].
      * destruct IH as (m' & -> & Hf' & Hb' & Hl3 & Hlen). exists m'. cbn [length]. rewrite !Nat2Z.inj_succ.
        split; [do 4 (f_equal; try lia)|]. split; [eapply fills_trans; [exact Hw|exact Hf'|lia]|].
        replace (p + Z.succ (Z.of_nat (length a)) + 1) with (p + 1 + Z.of_nat (length a) + 1) by lia.
        split; [|split; [done|lia]]. split; [|by rewrite <- Z.add_assoc].
        rewrite (proj1 Hf') by lia. apply lookup_insert_eq.
      * destruct IH as (e & p' & tb' & m' & -> & He & Hf'). exists e, p', tb', m'. split; [done|]. split; [done|].
        eapply fills_trans; [exact Hw|exact Hf'|lia].
Qed.

Lemma copy_token_run fuel : ∀ m p s tb, line_at m p s -> (length s < fuel)%nat -> mapped m tokbuf cap ->
  0 <= tb -> tb + Z.of_nat (length s) <= cap -> p + Z.of_nat (length s) + 1 <= tokbuf \/ tokbuf + cap <= p ->
  let '(a, b) := span_token s in
  ∃ m' e, copy_token fuel p tokbuf tb m = Some (e, p + Z.of_nat (length a), tb + Z.of_nat (length a), m') /\ fills tb m m' /\
    bytes_at m' (tokbuf + tb) a /\ line_at m' (p + Z.of_nat (length a)) b /\ (length s = length a + length b)%nat /\
    match b with [] => e = NULLCH \/ e = SH_NEWLINE | d :: _ => e = d end.
Proof.
  induction fuel as [|fuel IH]; intros m p s tb Hl Hf Hm Htb Hcap Hd; [lia|]. cbn [copy_token]. destruct s as [|c s].
  - cbn [span_token]. destruct (line_nil _ _ Hl) as (e & Hp & He). unfold ldb. rewrite Hp. cbn [mbind option_bind].
    exists m, e. cbn [length]. rewrite !Z.add_0_r. split; [by destruct He as [->| ->]|]. split; [by split|]. by split.
  - destruct (line_cons _ _ _ _ Hl) as (Hp & H1 & H2 & Hl'). unfold ldb. rewrite Hp. cbn [mbind option_bind span_token length] in *.
    destruct (in_token c).
    + destruct (put_byte tb c m Hm ltac:(lia)) as [-> Hw]. cbn [mbind option_bind].
      assert (Hl2 : line_at (<[tokbuf + tb := c]> m) (p + 1) s) by (eapply fills_line; [exact Hw|lia|done|lia]).
      assert (Hm2 : mapped (<[tokbuf + tb := c]> m) tokbuf cap) by (eapply writes_mapped; [exact Hw|done]).
      specialize (IH _ (p + 1) s (tb + 1) Hl2 ltac:(lia) Hm2 ltac:(lia) ltac:(lia) ltac:(lia)).
      destruct (span_token s) as [a b]. destruct IH as (m' & e & -> & Hf' & Hb' & Hl3 & Hlen & He). exists m', e.
      cbn [length]. rewrite !Nat2Z.inj_succ. split; [do 4 (f_equal; try lia)|].
      split; [eapply fills_trans; [exact Hw|exact Hf'|lia]|].
      replace (p + Z.succ (Z.of_nat (length a))) with (p + 1 + Z.of_nat (length a)) by lia.
      split; [|split; [done|split; [lia|done]]]. split; [|by rewrite <- Z.add_assoc].
      rewrite (proj1 Hf') by lia. apply lookup_insert_eq.
    + exists m, c. cbn [length]. rewrite !Z.add_0_r. split; [done|]. split; [by split|]. by split.
Qed.

(** What lexan has to do for the tokens [o] of the rest of the line, from token [ntok]
    and index [tb] on. *)
Definition lexes (o : option (list (Z * list Z))) (R : option lexed) (ntok tb : Z) (m : bmem) (tok toktyp : gmap Z Z) : Prop :=
  match o with
  | Some l => ∃ m' tok' toktyp',
      R = Some (Lexed (ntok + Z.of_nat (length l)) (Some (tb + Z.of_nat (length (tok_bytes l)))) m' tok' toktyp') /\
      fills tb m m' /\ bytes_at m' (tokbuf + tb) (tok_bytes l) /\ toks_ok tok' toktyp' ntok tb l /\
      (∀ j, j < ntok -> tok' !! j = tok !! j /\ toktyp' !! j = toktyp !! j)
  | None => ∃ r, R = Some r /\ r.(lx_ret) = SYSERR /\ r.(lx_tlen) = None /\ fills tb m r.(lx_mem)
  end.

Lemma lexes_nil ntok tb m tok toktyp : lexes (Some []) (Some (Lexed ntok (Some tb) m tok toktyp)) ntok tb m tok toktyp.
Proof. exists m, tok, toktyp. cbn. rewrite !Z.add_0_r. split; [done|]. split; [by split|]. done. Qed.

Lemma lexes_cons o R ntok tb ty body m m2 tok toktyp :
  lexes o R (ntok + 1) (tb + Z.of_nat (length body) + 1) m2 (<[ntok := tb]> tok) (<[ntok := ty]> toktyp) ->
  fills tb m m2 -> bytes_at m2 (tokbuf + tb) (body ++ [NULLCH]) -> 0 <= tb ->
  lexes (l ← o; Some ((ty, body) :: l)) R ntok tb m tok toktyp.
Proof.
  intros H Hf Hb Htb. destruct o as [l|]; cbn [mbind option_bind lexes] in *.
  - destruct H as (m' & tok' & typ' & -> & Hf' & Hb' & Ht & Hk). exists m', tok', typ'.
    rewrite tok_bytes_cons. cbn [fst snd length toks_ok]. rewrite !length_app, Nat2Z.inj_succ. cbn [length].
    split; [do 4 (f_equal; try lia)|]. split; [eapply fills_trans; [exact Hf|exact Hf'|lia]|]. split; [|split].
    + rewrite app_assoc. apply bytes_at_app. rewrite length_app. cbn [length]. split.
      * eapply writes_bytes; [exact Hf'|exact Hb|]. rewrite length_app. cbn [length]. lia.
      * by replace (tokbuf + tb + Z.of_nat (length body + 1)) with (tokbuf + (tb + Z.of_nat (length body) + 1)) by lia.
    + destruct (Hk ntok ltac:(lia)) as [-> ->]. rewrite !lookup_insert_eq. done.
    + intros j Hj. destruct (Hk j ltac:(lia)) as [-> ->]. by rewrite !lookup_insert_ne by lia.
  - destruct H as (r & -> & H1 & H2 & Hf'). exists r. split; [done|]. split; [done|]. split; [done|].
    eapply fills_trans; [exact Hf|exact Hf'|lia].
Qed.

Lemma drop_blanks_head s c r : drop_blanks s = c :: r -> is_blank c = false.
Proof. induction s as [|x s IH]; [done|]. cbn. destruct (is_blank x) eqn:E; [done|]. intros [= -> _]. done. Qed.

(** The terminating zero byte of a token. *)
Lemma end_token tb body m : bytes_at m (tokbuf + tb) body -> mapped m tokbuf cap -> 0 <= tb -> tb + Z.of_nat (length body) < cap ->
  ∃ m', stb (tokbuf + (tb + Z.of_nat (length body))) NULLCH m = Some m' /\ fills (tb + Z.of_nat (length body)) m m' /\
    bytes_at m' (tokbuf + tb) (body ++ [NULLCH]).
Proof.
  intros Hb Hm Htb Hc. destruct (put_byte (tb + Z.of_nat (length body)) NULLCH m Hm ltac:(lia)) as [-> Hf].
  eexists. split; [done|]. split; [done|]. apply bytes_at_app. split.
  - eapply writes_bytes; [exact Hf|exact Hb|]. lia.
  - cbn [bytes_at]. split; [|done]. rewrite <- lookup_insert_eq with (m := m) (i := tokbuf + (tb + Z.of_nat (length body))) (x := NULLCH). f_equal. lia.
Qed.

(** One of the tokens & < >. *)
Lemma special_run tb c m : mapped m tokbuf cap -> 0 <= tb -> tb + 2 <= cap ->
  ∃ m1 m2, stb (tokbuf + tb) c m = Some m1 /\ stb (tokbuf + (tb + 1)) NULLCH m1 = Some m2 /\
    fills tb m m2 /\ bytes_at m2 (tokbuf + tb) ([c] ++ [NULLCH]).
Proof.
  intros Hm Htb Hc. destruct (put_byte tb c m Hm ltac:(lia)) as [-> Hf1].
  assert (Hm1 : mapped (<[tokbuf + tb := c]> m) tokbuf cap) by (eapply writes_mapped; [exact Hf1|done]).
  destruct (end_token tb [c] (<[tokbuf + tb := c]> m)) as (m2 & Hs & Hf2 & Hb); [|done..|cbn; lia|].
  - split; [apply lookup_insert_eq|done].
  - eexists _, m2. split; [done|]. split; [done|]. split; [|done]. eapply fills_trans; [exact Hf1|exact Hf2|cbn; lia].
Qed.

Lemma lexan_loop_run n : ∀ p s ntok tb m tok toktyp,
  line_at m p s -> ntok = SHELL_MAXTOK - Z.of_nat n -> 0 <= ntok -> arr_len SHELL_MAXTOK tok -> arr_len SHELL_MAXTOK toktyp ->
  mapped m tokbuf cap -> 0 <= tb -> tb + Z.of_nat (length s) + Z.of_nat n <= cap ->
  p + Z.of_nat (length s) + 1 <= tokbuf \/ tokbuf + cap <= p ->
  lexes (tokens n s) (lexan_loop (S n) p tokbuf ntok tb m tok toktyp) ntok tb m tok toktyp.
Proof.
  induction n as [|n IH]; intros p s ntok tb m tok toktyp Hl Hn H0 Ht Hty Hm Htb Hcap Hd; cbn [lexan_loop].
  all: destruct s as [|c0 s0]; cbn [tokens];
    [destruct (line_nil _ _ Hl) as (e & Hp & He); rewrite (Hp : ldb m p = _); cbn [mbind option_bind];
     replace ((e =? NULLCH) || (e =? SH_NEWLINE)) with true by (by destruct He as [->| ->]); apply lexes_nil|].
  all: destruct (line_cons _ _ _ _ Hl) as (Hp & Hc1 & Hc2 & _); rewrite (Hp : ldb m p = _); cbn [mbind option_bind];
    rewrite (proj2 (Z.eqb_neq _ _) Hc1), (proj2 (Z.eqb_neq _ _) Hc2); cbn [orb].
  { rewrite Z.geb_leb, (proj2 (Z.leb_le _ _)) by lia. eexists. split; [done|]. split; [done|]. split; [done|]. by split. }
  rewrite Z.geb_leb, (proj2 (Z.leb_gt _ _)) by lia.
  destruct (skip_blanks_run (str_fuel m) m p _ Hl (line_fuel _ _ _ Hl)) as (p1 & -> & Hl1 & Hp1 & Hp2). cbn [mbind option_bind].
  set (s := c0 :: s0) in *. clearbody s. clear c0 s0 Hp Hc1 Hc2 Hl.
  destruct (drop_blanks s) as [|c r] eqn:Hs.
  { destruct (line_nil _ _ Hl1) as (e & Hp & He). rewrite (Hp : ldb _ _ = _). cbn [mbind option_bind].
    replace ((e =? SH_NEWLINE) || (e =? NULLCH)) with true by (by destruct He as [->| ->]). apply lexes_nil. }
  destruct (line_cons _ _ _ _ Hl1) as (Hp & Hc1 & Hc2 & Hl2). rewrite (Hp : ldb _ _ = _). cbn [mbind option_bind].
  rewrite (proj2 (Z.eqb_neq _ _) Hc1), (proj2 (Z.eqb_neq _ _) Hc2). cbn [orb]. cbn [length] in Hp1. rewrite Nat2Z.inj_succ in Hp1.
  destruct (arr_len_lookup _ _ ntok Ht ltac:(lia)) as [x Hx]. rewrite (arr_upd_Some _ _ _ _ Hx).
  destruct (arr_len_lookup _ _ ntok Hty ltac:(lia)) as [y Hy]. rewrite (arr_upd_Some _ _ _ _ Hy). cbn [mbind option_bind].
  pose proof (arr_len_insert _ _ ntok tb Ht ltac:(lia)) as Ht'. pose proof (arr_len_insert _ _ ntok (token_type c) Hty ltac:(lia)) as Hty'.
  rewrite Nat2Z.inj_succ in *.
  destruct ((c =? SH_AMPER) || (c =? SH_LESS) || (c =? SH_GREATER)) eqn:Hspec.
  - destruct (special_run tb c m Hm Htb ltac:(lia)) as (m1 & m2 & -> & Hs2 & Hf & Hb). cbn [mbind option_bind]. rewrite Hs2. cbn [mbind option_bind].
    eapply lexes_cons; [|exact Hf|exact Hb|done]. replace (tb + Z.of_nat (length [c]) + 1) with (tb + 2) by (cbn; lia).
    apply IH; try done; [eapply fills_line; [exact Hf|done|done|lia]|lia|lia|eapply writes_mapped; [exact Hf|done]|lia|lia|lia].
  - replace (token_type c) with SH_TOK_OTHER in *.
    2:{ unfold token_type. apply orb_false_iff in Hspec as [Hspec ->]. by apply orb_false_iff in Hspec as [-> ->]. }
    destruct ((c =? SH_SQUOTE) || (c =? SH_DQUOTE)) eqn:Hquote.
    + pose proof (copy_quoted_run (str_fuel m) c m (p1 + 1) r tb Hl2 (line_fuel _ _ _ Hl2) Hm Htb ltac:(lia) ltac:(lia) Hc1 Hc2) as Hq.
      destruct (until c r) as [[a b]|]; cbn [mbind option_bind].
      * destruct Hq as (m' & -> & Hf & Hb & Hl3 & Hlen). cbn [mbind option_bind]. rewrite Z.eqb_refl. cbn [negb].
        assert (Hm' : mapped m' tokbuf cap) by (eapply writes_mapped; [exact Hf|done]).
        destruct (end_token tb a m' Hb Hm' Htb ltac:(lia)) as (m2 & -> & Hf2 & Hb2). cbn [mbind option_bind].
        eapply lexes_cons; [|eapply fills_trans; [exact Hf|exact Hf2|lia]|exact Hb2|done].
        apply IH; try done; [eapply fills_line; [exact Hf2|lia|done|lia]|lia|lia|eapply writes_mapped; [exact Hf2|done]|lia|lia|lia].
      * destruct Hq as (e & p' & tb' & m' & -> & He & Hf). cbn [mbind option_bind]. rewrite (proj2 (Z.eqb_neq _ _) He). cbn [negb].
        eexists. split; [done|]. split; [done|]. split; [done|exact Hf].
    + destruct (put_byte tb c m Hm ltac:(lia)) as [-> Hf1]. cbn [mbind option_bind].
      set (m1 := <[tokbuf + tb := c]> m) in *.
      assert (Hm1 : mapped m1 tokbuf cap) by (eapply writes_mapped; [exact Hf1|done]).
      assert (Hl2' : line_at m1 (p1 + 1) r) by (eapply fills_line; [exact Hf1|lia|done|lia]).
      replace (str_fuel m) with (str_fuel m1) by (unfold str_fuel, m1; f_equal; apply map_size_insert_Some; apply Hm; lia).
      pose proof (copy_token_run (str_fuel m1) m1 (p1 + 1) r (tb + 1) Hl2' (line_fuel _ _ _ Hl2') Hm1 ltac:(lia) ltac:(lia) ltac:(lia)) as Hw.
      destruct (span_token r) as [a b]. destruct Hw as (m' & e & -> & Hf & Hb & Hl3 & Hlen & He). cbn [mbind option_bind].
      assert (Hbody : bytes_at m' (tokbuf + tb) (c :: a)).
      { split; [|by rewrite <- Z.add_assoc]. rewrite (proj1 Hf) by lia. apply lookup_insert_eq. }
      assert (Hf' : fills tb m m') by (eapply fills_trans; [exact Hf1|exact Hf|lia]).
      assert (Hend : match b with d :: _ => (d =? SH_SQUOTE) || (d =? SH_DQUOTE) || (d =? SH_LESS) || (d =? SH_GREATER) | [] => false end =
        ((e =? SH_SQUOTE) || (e =? SH_DQUOTE) || (e =? SH_LESS) || (e =? SH_GREATER))).
      { destruct b; [by destruct He as [->| ->]|by rewrite He]. }
      rewrite Hend. destruct (_ || _ || _ || (e =? SH_GREATER)).
      * eexists. split; [done|]. split; [done|]. split; [done|exact Hf'].
      * assert (Hm' : mapped m' tokbuf cap) by (eapply writes_mapped; [exact Hf|done]).
        destruct (end_token tb (c :: a) m' Hbody Hm' Htb ltac:(cbn [length]; lia)) as (m2 & Hst & Hf2 & Hb2).
        replace (tb + 1 + Z.of_nat (length a)) with (tb + Z.of_nat (length (c :: a))) by (cbn [length]; lia).
        rewrite Hst. cbn [mbind option_bind].
        eapply lexes_cons; [|eapply fills_trans; [exact Hf'|exact Hf2|lia]|exact Hb2|done].
        apply IH; try done; [eapply fills_line; [exact Hf2|lia|done|lia]|lia|lia|eapply writes_mapped; [exact Hf2|done]|lia|cbn [length]; lia|lia].
Qed.
End Lexan.

(** The tokens take no more bytes than the line has, and one more for each. *)
Lemma until_length q s a b : until q s = Some (a, b) -> (length s = length a + S (length b))%nat.
Proof.
  revert a b. induction s as [|c s IH]; intros a b; cbn; [done|]. destruct (c =? q); [by intros [= <- <-]|].
  destruct (until q s) as [[a' b']|]; [|done]. cbn. intros [= <- <-]. cbn. by rewrite (IH a' b').
Qed.

Lemma span_length s : (length s = length (span_token s).1 + length (span_token s).2)%nat.
Proof. induction s as [|c s IH]; cbn; [done|]. destruct (in_token c); [|done]. destruct (span_token s). cbn in *. lia. Qed.

Lemma drop_blanks_length s : (length (drop_blanks s) <= length s)%nat.
Proof. induction s as [|c s IH]; cbn; [done|]. destruct (is_blank c); cbn; lia. Qed.

Lemma tokens_length n : ∀ s l, tokens n s = Some l -> (length (tok_bytes l) <= length s + length l)%nat /\ (length l <= n)%nat.
Proof.
  induction n as [|n IH]; intros s l; destruct s as [|c0 s0]; cbn [tokens]; try (intros [= <-]; cbn; lia); try done.
  pose proof (drop_blanks_length (c0 :: s0)). destruct (drop_blanks (c0 :: s0)) as [|c r]; [intros [= <-]; cbn; lia|].
  cbn [length] in *. case_match.
  - destruct (tokens n r) as [l'|] eqn:E; [|done]. intros [= <-]. apply IH in E. rewrite tok_bytes_cons, !length_app. cbn [length snd]. lia.
  - case_match.
    + destruct (until c r) as [[a b]|] eqn:Eu; [|done]. cbn [mbind option_bind]. apply until_length in Eu.
      destruct (tokens n b) as [l'|] eqn:E; [|done]. intros [= <-]. apply IH in E. rewrite tok_bytes_cons, !length_app. cbn [length snd]. lia.
    + pose proof (span_length r) as Hs. destruct (span_token r) as [a b]. cbn [fst snd] in Hs.
      case_match; [done|]. destruct (tokens n b) as [l'|] eqn:E; [|done]. intros [= <-]. apply IH in E.
      rewrite tok_bytes_cons, !length_app. cbn [length snd]. lia.
Qed.

(** lexan as a whole. *)
Lemma lexan_run line tokbuf s m tok toktyp : line_at m line s -> Z.of_nat (length s) <= SHELL_BUFLEN ->
  mapped m tokbuf SHELL_ARGLEN -> line + Z.of_nat (length s) + 1 <= tokbuf \/ tokbuf + SHELL_ARGLEN <= line ->
  arr_len SHELL_MAXTOK tok -> arr_len SHELL_MAXTOK toktyp ->
  match tokens (Z.to_nat SHELL_MAXTOK) s with
  | Some l => ∃ m' tok' toktyp',
      lexan line tokbuf m tok toktyp = Some (Lexed (Z.of_nat (length l)) (Some (Z.of_nat (length (tok_bytes l)))) m' tok' toktyp') /\
      writes tokbuf SHELL_ARGLEN m m' /\ bytes_at m' tokbuf (tok_bytes l) /\ toks_ok tok' toktyp' 0 0 l /\
      Z.of_nat (length (tok_bytes l)) <= SHELL_ARGLEN
  | None => ∃ r, lexan line tokbuf m tok toktyp = Some r /\ r.(lx_ret) = SYSERR /\ r.(lx_tlen) = None /\
      writes tokbuf SHELL_ARGLEN m r.(lx_mem)
  end.
Proof.
  intros Hl Hs Hm Hd Ht Hty. unfold SHELL_ARGLEN, SHELL_MAXTOK, SHELL_BUFLEN in *.
  pose proof (lexan_loop_run tokbuf (129 + 32) 32 line s 0 0 m tok toktyp Hl eq_refl ltac:(lia) Ht Hty Hm ltac:(lia) ltac:(lia) Hd) as H.
  unfold lexan. change (Z.to_nat SHELL_MAXTOK) with 32%nat. change (Z.to_nat 32) with 32%nat.
  destruct (tokens 32 s) as [l|] eqn:Htok; cbn [lexes] in H.
  - destruct H as (m' & tok' & typ' & Hr & Hf & Hb & Hk & _). exists m', tok', typ'. rewrite Z.add_0_r in Hb. split; [done|].
    split; [eapply writes_weaken; [exact Hf|lia|lia]|]. split; [done|]. split; [done|].
    pose proof (tokens_length 32 s l Htok). lia.
  - destruct H as (r & Hr & H1 & H2 & Hf). exists r. repeat (split; [done|]). eapply writes_weaken; [exact Hf|lia|lia].
Qed.

(** C23: lexan divides a command line into its tokens.  For a line of at most
    SHELL_BUFLEN characters it ends, writes nothing outside the SHELL_ARGLEN bytes of
    the token buffer, and gives the number of tokens, each in the buffer with a zero
    byte behind it, its type and its index; a line with an unfinished quotation, a
    token that runs into a quote or a redirection, or more than SHELL_MAXTOK tokens is
    an error. *)
Theorem lexan_tokenizes line tokbuf s m tok toktyp : line_at m line s -> Z.of_nat (length s) <= SHELL_BUFLEN ->
  mapped m tokbuf SHELL_ARGLEN -> line + Z.of_nat (length s) + 1 <= tokbuf \/ tokbuf + SHELL_ARGLEN <= line ->
  arr_len SHELL_MAXTOK tok -> arr_len SHELL_MAXTOK toktyp ->
  match tokens (Z.to_nat SHELL_MAXTOK) s with
  | Some l => ∃ m' tok' toktyp',
      lexan line tokbuf m tok toktyp = Some (Lexed (Z.of_nat (length l)) (Some (Z.of_nat (length (tok_bytes l)))) m' tok' toktyp') /\
      writes tokbuf SHELL_ARGLEN m m' /\ bytes_at m' tokbuf (tok_bytes l) /\ toks_ok tok' toktyp' 0 0 l
  | None => ∃ r, lexan line tokbuf m tok toktyp = Some r /\ r.(lx_ret) = SYSERR /\ r.(lx_tlen) = None /\
      writes tokbuf SHELL_ARGLEN m r.(lx_mem)
  end.
Proof.
  intros Hl Hs Hm Hd Ht Hty. pose proof (lexan_run line tokbuf s m tok toktyp Hl Hs Hm Hd Ht Hty) as H.
  destruct (tokens _ s) as [l|]; [|done]. destruct H as (m' & tok' & typ' & Hr & Hw & Hb & Hk & _). by exists m', tok', typ'.
Qed.

(** * addargs gives the command its arguments *)

(** The vector of the arguments [l] at [a]: pointers to strings, and a null pointer. *)
Fixpoint argv_at (m : bmem) (a : Z) (l : list (Z * list Z)) : Prop :=
  match l with
  | [] => ldu m a = Some 0
  | t :: l => (∃ p, ldu m a = Some p /\ str_at m p t.2) /\ argv_at m (a + 4) l
  end.

(** The pointers of the vector, the first string being at [s]. *)
Fixpoint args_at (m : bmem) (a s : Z) (l : list (Z * list Z)) : Prop :=
  match l with
  | [] => True
  | t :: l => ldu m a = Some (u32 s) /\ args_at m (a + 4) (s + Z.of_nat (length t.2) + 1) l
  end.

Lemma ldu_writes m m' p n a : writes p n m m' -> a + 4 <= p \/ p + n <= a -> ldu m' a = ldu m a.
Proof. intros Hw Ha. apply ld_le_frame. intros x Hx. eapply writes_out; [exact Hw|lia]. Qed.

Lemma word_run a v m : mapped m a 4 -> ∃ m', sti a v m = Some m' /\ writes a 4 m m' /\ ldu m' a = Some (u32 v).
Proof.
  intros Hm. destruct (st_le_run 4 a (u32 v) m Hm) as (m' & Hs & Hw & Hl). exists m'. split; [done|]. split; [done|].
  unfold ldu. rewrite Hl. change (256 ^ Z.of_nat 4) with 4294967296. unfold u32. by rewrite Z.mod_mod by lia.
Qed.

Lemma args_writes l : ∀ m m' p n a s, writes p n m m' -> a + 4 * Z.of_nat (length l) <= p \/ p + n <= a ->
  args_at m a s l -> args_at m' a s l.
Proof.
  induction l as [|t l IH]; intros m m' p n a s Hw Hd; [done|]. cbn [args_at length] in *. rewrite Nat2Z.inj_succ in Hd. intros [H1 H2].
  split; [by rewrite (ldu_writes _ _ _ _ _ Hw) by lia|]. eapply IH; [exact Hw|lia|done].
Qed.

Lemma store_args_run tok toktyp argstr l : ∀ i aptr at0 m, toks_ok tok toktyp i at0 l ->
  mapped m aptr (4 * Z.of_nat (length l)) ->
  ∃ m', store_args (length l) i aptr argstr tok m = Some (aptr + 4 * Z.of_nat (length l), m') /\
    writes aptr (4 * Z.of_nat (length l)) m m' /\ args_at m' aptr (argstr + at0) l.
Proof.
  induction l as [|t l IH]; intros i aptr at0 m Ht Hm; cbn [store_args length] in *.
  { exists m. cbn. rewrite Z.add_0_r. split; [done|]. by split. }
  destruct Ht as (Hi & _ & Ht). rewrite Hi. cbn [mbind option_bind]. rewrite Nat2Z.inj_succ in *.
  destruct (word_run aptr (argstr + at0) m) as (m1 & -> & Hw & Hl); [eapply mapped_part; [exact Hm|lia|lia]|]. cbn [mbind option_bind].
  destruct (IH (i + 1) (aptr + 4) (at0 + Z.of_nat (length t.2) + 1) m1 Ht) as (m2 & -> & Hw2 & Ha).
  { eapply writes_mapped; [exact Hw|]. eapply mapped_part; [exact Hm|lia|lia]. }
  exists m2. split; [do 2 f_equal; lia|]. split; [|split].
  - eapply writes_trans; eapply writes_weaken; [exact Hw|lia|lia|exact Hw2|lia|lia].
  - by rewrite (ldu_writes _ _ _ _ _ Hw2) by lia.
  - by replace (argstr + at0 + Z.of_nat (length t.2) + 1) with (argstr + (at0 + Z.of_nat (length t.2) + 1)) by lia.
Qed.

(** The strings behind the vector make its pointers strings. *)
Lemma args_argv m l : ∀ a s, args_at m a s l -> ldu m (a + 4 * Z.of_nat (length l)) = Some 0 ->
  bytes_at m s (tok_bytes l) -> Forall (λ t, Forall (λ c, c ≠ 0) t.2) l -> 0 <= s ->
  s + Z.of_nat (length (tok_bytes l)) <= 4294967296 -> argv_at m a l.
Proof.
  induction l as [|t l IH]; intros a s Ha H0 Hb Hl Hs Hmax.
  { cbn [argv_at length] in *. by rewrite Z.add_0_r in H0. }
  rewrite tok_bytes_cons in *. rewrite !length_app in Hmax. cbn [length args_at argv_at] in *. rewrite Nat2Z.inj_succ in H0.
  destruct Ha as [H1 Ha]. apply Forall_cons in Hl as [Hc Hl].
  rewrite app_assoc in Hb. apply bytes_at_app in Hb as [Hb1 Hb2]. rewrite length_app in Hb2. cbn [length] in Hb2. split.
  - exists s. rewrite H1, u32_id by (unfold is_u32; lia). split; [done|]. by split.
  - eapply IH; [exact Ha| | |done|lia|lia].
    + by replace (a + 4 + 4 * Z.of_nat (length l)) with (a + 4 * Z.succ (Z.of_nat (length l))) by lia.
    + by replace (s + Z.of_nat (length t.2) + 1) with (s + Z.of_nat (length t.2 + 1)) by lia.
Qed.

(** The word that is replaced: word number [k] from [sp] on is the first one that is
    [dummy]. *)
Record dummy_at (m : bmem) (sp k dummy : Z) : Prop := {
  dm_k : 0 <= k;
  dm_before : ∀ j, 0 <= j < k -> ∃ w, ldu m (sp + 4 * j) = Some w /\ w ≠ u32 dummy;
  dm_word : ldu m (sp + 4 * k) = Some (u32 dummy);
  dm_mapped : mapped m (sp + 4 * k) 4 }.

Lemma replace_arg_run n : ∀ sp k dummy argloc m, dummy_at m sp k dummy -> k < Z.of_nat n ->
  ∃ m', replace_arg n sp dummy argloc m = Some (OK, m') /\ writes (sp + 4 * k) 4 m m' /\
    ldu m' (sp + 4 * k) = Some (u32 argloc).
Proof.
  induction n as [|n IH]; intros sp k dummy argloc m [Hk Hb Hw Hm] Hn; [lia|]. cbn [replace_arg].
  destruct (decide (k = 0)) as [->|Hne].
  - rewrite Z.add_0_r in *. rewrite Hw. cbn [mbind option_bind]. rewrite Z.eqb_refl.
    destruct (word_run sp argloc m Hm) as (m' & -> & H1 & H2). by exists m'.
  - destruct (Hb 0 ltac:(lia)) as (w & Hw0 & Hd). rewrite Z.add_0_r in Hw0. rewrite Hw0. cbn [mbind option_bind].
    rewrite (proj2 (Z.eqb_neq _ _) Hd). destruct (IH (sp + 4) (k - 1) dummy argloc m) as (m' & Hr & H1 & H2).
    + replace (sp + 4 * k) with (sp + 4 + 4 * (k - 1)) in Hw, Hm by lia. constructor; [lia| |done|done].
      intros j Hj. replace (sp + 4 + 4 * j) with (sp + 4 * (j + 1)) by lia. apply Hb. lia.
    + lia.
    + exists m'. replace (sp + 4 * k) with (sp + 4 + 4 * (k - 1)) by lia. done.
Qed.

Lemma dummy_writes m m' p n sp k dummy : writes p n m m' -> dummy_at m sp k dummy -> p + n <= sp \/ sp + 4 * k + 4 <= p ->
  dummy_at m' sp k dummy.
Proof.
  intros Hw [Hk Hb Hd Hm] Hdis. constructor; [done| | |by eapply writes_mapped].
  - intros j Hj. rewrite (ldu_writes _ _ _ _ _ Hw) by lia. by apply Hb.
  - by rewrite (ldu_writes _ _ _ _ _ Hw) by lia.
Qed.

(** The place of the argument vector in the stack of a process. *)
Definition arg_vector (e : procent) : Z :=
  Z.land (u32 (u32 (e.(prstkbase) - e.(prstklen) + 4) + 3)) (u32 (Z.lnot 3)).

(** The stack of a new process has room for the arguments: the vector and [n] bytes of
    strings for [c] arguments below its stack pointer, apart from the token buffer. *)
Record arg_room (m : bmem) (e : procent) (tokbuf c n : Z) : Prop := {
  ar_mapped : mapped m (arg_vector e) (4 * (c + 1) + n);
  ar_below : arg_vector e + 4 * (c + 1) + n <= e.(prstkptr);
  ar_max : arg_vector e + 4 * (c + 1) + n <= 4294967296;
  ar_apart : tokbuf + SHELL_ARGLEN <= arg_vector e \/ e.(prstkbase) <= tokbuf }.

Lemma arg_vector_pos e : 0 <= arg_vector e.
Proof. unfold arg_vector. apply Z.land_nonneg. left. apply u32_range. Qed.

Lemma addargs_run pt pid e l tok toktyp tokbuf dummy k m : pt !! pid = Some e -> l ≠ [] ->
  toks_ok tok toktyp 0 0 l -> bytes_at m tokbuf (tok_bytes l) -> Forall (λ t, Forall (λ c, c ≠ 0) t.2) l ->
  Z.of_nat (length (tok_bytes l)) <= SHELL_ARGLEN ->
  arg_room m e tokbuf (Z.of_nat (length l)) (Z.of_nat (length (tok_bytes l))) ->
  dummy_at m e.(prstkptr) k dummy -> e.(prstkptr) + 4 * k + 4 <= e.(prstkbase) ->
  ∃ m', addargs pt pid (Z.of_nat (length l)) tok (Z.of_nat (length (tok_bytes l))) tokbuf dummy m = Some (OK, m') /\
    ldu m' (e.(prstkptr) + 4 * k) = Some (arg_vector e) /\ argv_at m' (arg_vector e) l.
Proof.
  intros Hp Hne Ht Hb Hz Hlen [Hm Hlow Hmax Hap] Hd Hk. pose proof (dm_k _ _ _ _ Hd) as Hk0. pose proof (arg_vector_pos e) as Hpos.
  set (a := arg_vector e) in *. set (c := Z.of_nat (length l)) in *. set (n := Z.of_nat (length (tok_bytes l))) in *.
  assert (Hc : 0 < c) by (unfold c; destruct l; [done|cbn; lia]). assert (Hn : 0 <= n) by (unfold n; lia).
  unfold addargs. rewrite (proj2 (Z.leb_gt c 0)), (proj2 (Z.ltb_ge n 0)) by lia. cbn [orb]. rewrite Hp. cbn [mbind option_bind].
  change (Z.land _ _) with a. replace (Z.to_nat c) with (length l) by (unfold c; lia).
  destruct (store_args_run tok toktyp (a + 4 * (c + 1)) l 0 a 0 m Ht) as (m1 & -> & Hw1 & Ha1); [eapply mapped_part; [exact Hm|lia|lia]|].
  fold c in Hw1 |- *. cbn [mbind option_bind].
  destruct (word_run (a + 4 * c) 0 m1) as (m2 & -> & Hw2 & Hl2).
  { eapply writes_mapped; [exact Hw1|]. eapply mapped_part; [exact Hm|lia|lia]. }
  cbn [mbind option_bind].
  assert (Hw12 : writes a (4 * (c + 1)) m m2) by (eapply writes_trans; eapply writes_weaken; [exact Hw1|lia|lia|exact Hw2|lia|lia]).
  assert (Hb2 : bytes_at m2 tokbuf (tok_bytes l)) by (eapply writes_bytes; [exact Hw12|exact Hb|fold n; lia]).
  destruct (memcpy_run (a + 4 * c + 4) tokbuf n m2 Hn) as (m3 & -> & Hw3 & Hcp).
  { eapply writes_mapped; [exact Hw12|]. eapply mapped_part; [exact Hm|lia|lia]. }
  { by apply bytes_mapped. }
  { lia. }
  cbn [mbind option_bind].
  assert (Hd3 : dummy_at m3 e.(prstkptr) k dummy).
  { eapply dummy_writes; [exact Hw3|eapply dummy_writes; [exact Hw12|exact Hd|]|]; lia. }
  destruct (replace_arg_run (Z.to_nat ((prstkbase e - prstkptr e + 3) / 4)) _ _ _ a m3 Hd3) as (m4 & -> & Hw4 & Hl4).
  { pose proof (Z.div_le_mono (4 * (k + 1)) (prstkbase e - prstkptr e + 3) 4 ltac:(lia) ltac:(lia)) as H.
    rewrite (Z.mul_comm 4), Z.div_mul in H by lia. lia. }
  exists m4. split; [done|]. split; [rewrite Hl4, u32_id by (unfold is_u32; lia); done|].
  apply (args_argv m4 l a (a + 4 * (c + 1))); [| | |done|lia|fold n; lia].
  - eapply args_writes; [exact Hw4|fold c; lia|]. eapply args_writes; [exact Hw3|fold c; lia|].
    eapply args_writes; [exact Hw2|fold c; lia|]. by rewrite Z.add_0_r in Ha1.
  - fold c. rewrite (ldu_writes _ _ _ _ _ Hw4), (ldu_writes _ _ _ _ _ Hw3) by lia. done.
  - eapply writes_bytes; [exact Hw4| |fold n; lia]. eapply bytes_copy; [exact Hb2|]. intros i Hi.
    replace (a + 4 * (c + 1)) with (a + 4 * c + 4) by lia. by apply Hcp.
Qed.

(** ** Tokens have no zero byte *)

Definition clean (s : list Z) : Prop := Forall (λ c, c ≠ 0) s.

Lemma drop_blanks_clean s : clean s -> clean (drop_blanks s).
Proof. induction 1; cbn; [by constructor|]. destruct (is_blank x); [done|by constructor]. Qed.

Lemma until_clean q s a b : clean s -> until q s = Some (a, b) -> clean a /\ clean b.
Proof.
  intros Hs. revert a b. induction Hs as [|c s Hc Hs IH]; intros a b; cbn; [done|]. destruct (c =? q).
  - intros [= <- <-]. split; [constructor|done].
  - destruct (until q s) as [[a' b']|]; [|done]. cbn. intros [= <- <-]. destruct (IH a' b' eq_refl). by split; [constructor|].
Qed.

Lemma span_token_clean s : clean s -> clean (span_token s).1 /\ clean (span_token s).2.
Proof.
  induction 1 as [|c s Hc Hs IH]; cbn; [by split; constructor|]. destruct (in_token c).
  - destruct (span_token s). destruct IH. split; [by constructor|done].
  - split; constructor; done.
Qed.

Lemma tokens_clean n : ∀ s l, clean s -> tokens n s = Some l -> Forall (λ t, clean t.2) l.
Proof.
  induction n as [|n IH]; intros s l Hs; destruct s as [|c0 s0]; cbn [tokens]; try (intros [= <-]; constructor); try done.
  apply drop_blanks_clean in Hs. destruct (drop_blanks (c0 :: s0)) as [|c r]; [intros [= <-]; constructor|].
  apply Forall_cons in Hs as [Hc Hr]. case_match.
  - destruct (tokens n r) as [l'|] eqn:E; [|done]. intros [= <-]. constructor; [by repeat constructor|eauto].
  - case_match.
    + destruct (until c r) as [[a b]|] eqn:Eu; [|done]. cbn [mbind option_bind]. destruct (until_clean _ _ _ _ Hr Eu) as [Ha Hb].
      destruct (tokens n b) as [l'|] eqn:E; [|done]. intros [= <-]. constructor; eauto.
    + pose proof (span_token_clean r Hr) as [Ha Hb]. destruct (span_token r) as [a b].
      case_match; [done|]. destruct (tokens n b) as [l'|] eqn:E; [|done]. intros [= <-]. constructor; [by constructor|eauto].
Qed.

(** C19: the tokens of the command line reach the command.  When lexan finds the tokens
    and the stack of the new process has room, addargs gives the process an argument
    vector in place of its dummy argument: one pointer for each token, to its
    characters and a zero byte, and a null pointer after the last. *)
Theorem command_gets_its_tokens line tokbuf s l m tok toktyp pt pid e dummy k :
  line_at m line s -> Z.of_nat (length s) <= SHELL_BUFLEN -> mapped m tokbuf SHELL_ARGLEN ->
  line + Z.of_nat (length s) + 1 <= tokbuf \/ tokbuf + SHELL_ARGLEN <= line ->
  arr_len SHELL_MAXTOK tok -> arr_len SHELL_MAXTOK toktyp ->
  tokens (Z.to_nat SHELL_MAXTOK) s = Some l -> l ≠ [] -> pt !! pid = Some e ->
  arg_room m e tokbuf (Z.of_nat (length l)) (Z.of_nat (length (tok_bytes l))) ->
  dummy_at m e.(prstkptr) k dummy -> e.(prstkptr) + 4 * k + 4 <= e.(prstkbase) ->
  ∃ r tlen m', lexan line tokbuf m tok toktyp = Some r /\ r.(lx_tlen) = Some tlen /\
    addargs pt pid r.(lx_ret) r.(lx_tok) tlen tokbuf dummy r.(lx_mem) = Some (OK, m') /\
    ldu m' (e.(prstkptr) + 4 * k) = Some (arg_vector e) /\ argv_at m' (arg_vector e) l.
Proof.
  intros Hl Hs Hm Hdis Ht Hty Htoks Hne Hp Hroom Hd Hk.
  assert (Hclean : Forall (λ t, clean t.2) l).
  { eapply tokens_clean; [|exact Htoks]. destruct Hl as (_ & _ & _ & H). eapply Forall_impl; [exact H|]. by intros x []. }
  pose proof (lexan_run line tokbuf s m tok toktyp Hl Hs Hm Hdis Ht Hty) as H. rewrite Htoks in H.
  destruct H as (m1 & tok1 & typ1 & Hr & Hw & Hb & Hk1 & Hlen). pose proof (dm_k _ _ _ _ Hd).
  destruct (addargs_run pt pid e l tok1 typ1 tokbuf dummy k m1) as (m2 & Ha & Hrest); try done.
  - destruct Hroom as [R1 R2 R3 R4]. constructor; try done. by eapply writes_mapped.
  - destruct Hroom as [R1 R2 R3 R4]. eapply dummy_writes; [exact Hw|exact Hd|]. pose proof (arg_vector_pos e). lia.
  - eexists _, _, m2. split; [exact Hr|]. split; [reflexivity|]. by split.
Qed.

(** * An example *)

(** echo 'a b' > f *)
Definition demo_line : list Z := [101; 99; 104; 111; 32; 39; 97; 32; 98; 39; 32; 62; 32; 102].
Definition demo_tokens : list (Z * list Z) :=
  [(3, [101; 99; 104; 111]); (3, [97; 32; 98]); (2, [62]); (3, [102])].

(** The line at 1000, the token buffer at 2000 and a stack from 3004 to 3200, with the
    dummy argument 77 as the third word from the stack pointer. *)
Definition demo_shell : bmem :=
  put_list 1000 (demo_line ++ [10]) (put_list 3188 [77; 0; 0; 0] (ram 161 2000 (ram 200 3000 ∅))).
Definition demo_child : procent := Procent PR_SUSP 20 3180 3196 192 [] 0 0 0 false [].

Lemma demo_line_at : line_at demo_shell 1000 demo_line.
Proof. exists 10. split; [by right|]. split; [vm_compute; repeat (split; [reflexivity|]); exact I|]. repeat constructor; done. Qed.

Lemma lexan_tokenizes_witness : line_at demo_shell 1000 demo_line /\
  ∃ m' tok' toktyp', lexan 1000 2000 demo_shell (arr_make 32 0) (arr_make 32 0) = Some (Lexed 4 (Some 13) m' tok' toktyp') /\
    bytes_at m' 2000 [101; 99; 104; 111; 0; 97; 32; 98; 0; 62; 0; 102; 0] /\ toks_ok tok' toktyp' 0 0 demo_tokens.
Proof.
  split; [exact demo_line_at|].
  destruct (lexan_tokenizes 1000 2000 demo_line demo_shell (arr_make 32 0) (arr_make 32 0)) as (m' & tok' & typ' & Hr & _ & Hb & Ht).
  - exact demo_line_at.
  - done.
  - apply (mappedb_true demo_shell 2000 161). vm_compute. reflexivity.
  - by left.
  - apply (arr_make_len 32).
  - apply (arr_make_len 32).
  - exact (ex_intro _ m' (ex_intro _ tok' (ex_intro _ typ' (conj Hr (conj Hb Ht))))).
Defined.

Lemma demo_dummy : dummy_at demo_shell 3180 2 77.
Proof.
  constructor; [lia| |vm_compute; reflexivity|].
  - intros j Hj. exists 0. assert (j = 0 \/ j = 1) as [-> | ->] by lia; split; (vm_compute; reflexivity) || done.
  - apply (mappedb_true demo_shell 3188 4). vm_compute. reflexivity.
Qed.

Lemma command_gets_its_tokens_witness : ∃ r tlen m',
  lexan 1000 2000 demo_shell (arr_make 32 0) (arr_make 32 0) = Some r /\
  addargs {[5 := demo_child]} 5 r.(lx_ret) r.(lx_tok) tlen 2000 77 r.(lx_mem) = Some (OK, m') /\
  ldu m' 3188 = Some 3008 /\ argv_at m' 3008 demo_tokens.
Proof.
  destruct (command_gets_its_tokens 1000 2000 demo_line demo_tokens demo_shell (arr_make 32 0) (arr_make 32 0)
    {[5 := demo_child]} 5 demo_child 77 2) as (r & tlen & m' & Hr & _ & Ha & Hd & Hv).
  - exact demo_line_at.
  - done.
  - apply (mappedb_true demo_shell 2000 161). vm_compute. reflexivity.
  - by left.
  - apply (arr_make_len 32).
  - apply (arr_make_len 32).
  - vm_compute. reflexivity.
  - done.
  - apply lookup_singleton_eq.
  - constructor; [|by vm_compute|by vm_compute|by left; vm_compute].
    apply (mappedb_true demo_shell 3008 33). vm_compute. reflexivity.
  - exact demo_dummy.
  - by vm_compute.
  - exact (ex_intro _ r (ex_intro _ tlen (ex_intro _ m' (conj Hr (conj Ha (conj Hd Hv)))))).
Defined.
