(* ===== verification/Kv.v ===== *)
(** The key-value store of system/kv_store.c: a hash table of keys and values, a
    hash table of the keys that are in the LRU cache, and the cache itself, a
    singly linked list in the order of use.

    The nodes of the three structures are records in finite maps from their
    addresses, and the strings are in the byte memory of Cstring.v.  A field of an
    [LRUEntry_t] that was never written is [None].  Following a pointer that is
    not the address of a node, indexing a table out of range, and reading what was
    never written is undefined: [None].

    The store gets its memory from getmem (keys and nodes) and from xmalloc
    (values); the class [Allocator] is what it uses of them.  The messages that
    the code prints are not modelled. *)

From S2P Require Import Prelude Types Cstring.

(** * The state *)

Record KVNode := KvNode { kn_key : Z; kn_val : Z; kn_count : Z; kn_next : Z }.
Record LRUEntry := LruEntry { le_key : option Z; le_val : option Z; le_next : option Z }.
Record LRUNode := LruNode { ln_key : Z; ln_prev : Z; ln_next : Z }.

Definition HASH_TAB_SIZE : Z := 512.
Definition MAX_KEY_SIZE : nat := 64.
Definition LRU_CACHE_SIZE : Z := 128.

(** What getmem returns when it fails, as the address it is used as. *)
Definition GETMEM_ERR : Z := 4294967295.

(** The memory managers: the address that a request returns, and the new state.  They change no
    byte of a node or of a block in use: xfree links the buffer into its pool by a word in front
    of the bytes it was given for (Bufpool). *)
Class Allocator (A : Type) := {
  al_getmem : Z -> A -> Z * A;
  al_xmalloc : Z -> A -> Z * A;
  al_xfree : Z -> A -> A;
  al_xmalloc_init : A -> A }.

Record kvst {A : Type} := Kvst {
  bytes : bmem;
  kvnodes : gmap Z KVNode;
  lrunodes : gmap Z LRUNode;
  entries : gmap Z LRUEntry;
  kvHashTab : gmap Z Z;
  lruHashTab : gmap Z Z;
  headLRU : Z;
  tailLRU : Z;
  counterLRU : Z;
  totalHits : Z;
  totalAccesses : Z;
  totalSetSuccess : Z;
  totalEvictions : Z;
  heap : A }.
Arguments kvst : clear implicits.

(** * hashFunc *)

Fixpoint hashFunc_loop (n : nat) (m : bmem) (key hashCode : Z) : option Z :=
  match n with
  | O => Some hashCode
  | S n =>
      c ← ldb m key;
      if c =? 0 then Some hashCode
      else hashFunc_loop n m (key + 1) (Z.rem (hashCode * 31 + c) HASH_TAB_SIZE)
  end.

(** system/kv_store.c: hashFunc *)
Definition hashFunc (m : bmem) (key : Z) : option Z :=
  if key =? 0 then Some (-1)
  else c ← ldb m key; if c =? 0 then Some (-1) else hashFunc_loop MAX_KEY_SIZE m key 0.

(** * The walks along a bucket

    Both hash tables are walked by the same loops, over nodes with a key and a next
    pointer. *)

Section Buckets.
Context {N : Type} (nxt : N -> Z) (keyp : N -> Z).

(** [while (head->next != NULL) { head = head->next; if (strncmp(head->key, key,
    keyLen) == 0) return head; } return NULL;] *)
Fixpoint bucket_find (fuel : nat) (nodes : gmap Z N) (m : bmem) (key keyLen head : Z) : option Z :=
  match fuel with
  | O => None
  | S fuel =>
      n ← nodes !! head;
      if nxt n =? 0 then Some 0
      else
        n' ← nodes !! nxt n;
        d ← strncmp m (keyp n') key keyLen;
        if d =? 0 then Some (nxt n) else bucket_find fuel nodes m key keyLen (nxt n)
  end.

(** [while (head->next != NULL) head = head->next;] *)
Fixpoint bucket_end (fuel : nat) (nodes : gmap Z N) (head : Z) : option Z :=
  match fuel with
  | O => None
  | S fuel =>
      n ← nodes !! head;
      if nxt n =? 0 then Some head else bucket_end fuel nodes (nxt n)
  end.

(** The node before the one with the key, as the deletions look for it; 0 when
    there is none. *)
Fixpoint bucket_before (fuel : nat) (nodes : gmap Z N) (m : bmem) (key keyLen head : Z) : option Z :=
  match fuel with
  | O => None
  | S fuel =>
      n ← nodes !! head;
      if nxt n =? 0 then Some 0
      else
        n' ← nodes !! nxt n;
        d ← strncmp m (keyp n') key keyLen;
        if d =? 0 then Some head else bucket_before fuel nodes m key keyLen (nxt n)
  end.
End Buckets.

(** * The operations *)

Section Kv.
Context {A : Type} `{Allocator A}.
#[local] Abbreviation st := (kvst A).

Definition KV (B : Type) : Type := st -> option (B * st).
#[local] Instance KV_ret : MRet KV := λ B x s, Some (x, s).
#[local] Instance KV_bind : MBind KV := λ B C f m s, match m s with Some (x, s) => f x s | None => None end.

Definition get {B} (f : st -> B) : KV B := λ s, Some (f s, s).
Definition need {B} (f : st -> option B) : KV B := λ s, x ← f s; Some (x, s).
Definition set_ (f : st -> st) : KV unit := λ s, Some (tt, f s).
Definition wild {B} : KV B := λ _, None.

Definition with_bytes (x : bmem) (s : st) : st :=
  Kvst _ x s.(kvnodes) s.(lrunodes) s.(entries) s.(kvHashTab) s.(lruHashTab) s.(headLRU) s.(tailLRU)
    s.(counterLRU) s.(totalHits) s.(totalAccesses) s.(totalSetSuccess) s.(totalEvictions) s.(heap).
Definition with_kvnodes (x : gmap Z KVNode) (s : st) : st :=
  Kvst _ s.(bytes) x s.(lrunodes) s.(entries) s.(kvHashTab) s.(lruHashTab) s.(headLRU) s.(tailLRU)
    s.(counterLRU) s.(totalHits) s.(totalAccesses) s.(totalSetSuccess) s.(totalEvictions) s.(heap).
Definition with_lrunodes (x : gmap Z LRUNode) (s : st) : st :=
  Kvst _ s.(bytes) s.(kvnodes) x s.(entries) s.(kvHashTab) s.(lruHashTab) s.(headLRU) s.(tailLRU)
    s.(counterLRU) s.(totalHits) s.(totalAccesses) s.(totalSetSuccess) s.(totalEvictions) s.(heap).
Definition with_entries (x : gmap Z LRUEntry) (s : st) : st :=
  Kvst _ s.(bytes) s.(kvnodes) s.(lrunodes) x s.(kvHashTab) s.(lruHashTab) s.(headLRU) s.(tailLRU)
    s.(counterLRU) s.(totalHits) s.(totalAccesses) s.(totalSetSuccess) s.(totalEvictions) s.(heap).
Definition with_kvHashTab (x : gmap Z Z) (s : st) : st :=
  Kvst _ s.(bytes) s.(kvnodes) s.(lrunodes) s.(entries) x s.(lruHashTab) s.(headLRU) s.(tailLRU)
    s.(counterLRU) s.(totalHits) s.(totalAccesses) s.(totalSetSuccess) s.(totalEvictions) s.(heap).
Definition with_lruHashTab (x : gmap Z Z) (s : st) : st :=
  Kvst _ s.(bytes) s.(kvnodes) s.(lrunodes) s.(entries) s.(kvHashTab) x s.(headLRU) s.(tailLRU)
    s.(counterLRU) s.(totalHits) s.(totalAccesses) s.(totalSetSuccess) s.(totalEvictions) s.(heap).
Definition with_headLRU (x : Z) (s : st) : st :=
  Kvst _ s.(bytes) s.(kvnodes) s.(lrunodes) s.(entries) s.(kvHashTab) s.(lruHashTab) x s.(tailLRU)
    s.(counterLRU) s.(totalHits) s.(totalAccesses) s.(totalSetSuccess) s.(totalEvictions) s.(heap).
Definition with_tailLRU (x : Z) (s : st) : st :=
  Kvst _ s.(bytes) s.(kvnodes) s.(lrunodes) s.(entries) s.(kvHashTab) s.(lruHashTab) s.(headLRU) x
    s.(counterLRU) s.(totalHits) s.(totalAccesses) s.(totalSetSuccess) s.(totalEvictions) s.(heap).
Definition with_heap (x : A) (s : st) : st :=
  Kvst _ s.(bytes) s.(kvnodes) s.(lrunodes) s.(entries) s.(kvHashTab) s.(lruHashTab) s.(headLRU) s.(tailLRU)
    s.(counterLRU) s.(totalHits) s.(totalAccesses) s.(totalSetSuccess) s.(totalEvictions) x.
(** The counters: [counterLRU], hits, accesses, successful sets, evictions. *)
Definition with_counters (c h a u e : Z) (s : st) : st :=
  Kvst _ s.(bytes) s.(kvnodes) s.(lrunodes) s.(entries) s.(kvHashTab) s.(lruHashTab) s.(headLRU) s.(tailLRU)
    c h a u e s.(heap).

Definition getmem (n : Z) : KV Z := λ s, let '(p, h) := al_getmem n s.(heap) in Some (p, with_heap h s).
Definition xmalloc (n : Z) : KV Z := λ s, let '(p, h) := al_xmalloc n s.(heap) in Some (p, with_heap h s).
Definition xfree (p : Z) : KV unit := set_ (λ s, with_heap (al_xfree p s.(heap)) s).

(** Writing the fields of a node: not at the address of a failed getmem. *)
Definition node_ok {B} (p : Z) (k : KV B) : KV B := if (p =? 0) || (p =? GETMEM_ERR) then wild else k.
Definition put_kvnode (p : Z) (n : KVNode) : KV unit := node_ok p (set_ (λ s, with_kvnodes (<[p := n]> s.(kvnodes)) s)).
Definition put_lrunode (p : Z) (n : LRUNode) : KV unit := node_ok p (set_ (λ s, with_lrunodes (<[p := n]> s.(lrunodes)) s)).
Definition put_entry (p : Z) (n : LRUEntry) : KV unit := node_ok p (set_ (λ s, with_entries (<[p := n]> s.(entries)) s)).

Definition kvnode (p : Z) : KV KVNode := need (λ s, s.(kvnodes) !! p).
Definition lrunode (p : Z) : KV LRUNode := need (λ s, s.(lrunodes) !! p).
Definition entry (p : Z) : KV LRUEntry := need (λ s, s.(entries) !! p).

(** [strlen(key) + 1] *)
Definition len1 (key : Z) : KV Z := need (λ s, n ← strlen s.(bytes) key; Some (s32 (n + 1))).

(** [kvHashTab[hashFunc(key)]], [lruHashTab[hashFunc(key)]] *)
Definition kvHead (key : Z) : KV Z := need (λ s, h ← hashFunc s.(bytes) key; s.(kvHashTab) !! h).
Definition lruHead (key : Z) : KV Z := need (λ s, h ← hashFunc s.(bytes) key; s.(lruHashTab) !! h).

(** The memset of the new block to zero and the strncpy into it. *)
Definition copy_string (a str len : Z) : KV unit := λ s,
  '(_, m) ← memset a 0 len s.(bytes);
  '(_, m) ← strncpy a str len m;
  Some (tt, with_bytes m s).

(** ** The hash table of the store *)

(** system/kv_store.c: createKVNode *)
Definition createKVNode (key val : Z) : KV Z :=
  keyLen ← len1 key;
  valLen ← len1 val;
  keyAlloc ← getmem keyLen;
  if keyAlloc =? 0 then mret 0
  else
    valAlloc ← xmalloc valLen;
    if valAlloc =? 0 then mret 0
    else
      (λ s, '(_, m) ← memset keyAlloc 0 keyLen s.(bytes);
            '(_, m) ← memset valAlloc 0 valLen m;
            '(_, m) ← strncpy keyAlloc key keyLen m;
            '(_, m) ← strncpy valAlloc val valLen m;
            Some (tt, with_bytes m s));;
      kvNode ← getmem 16;
      if kvNode =? 0 then mret 0
      else
        put_kvnode kvNode (KvNode keyAlloc valAlloc 0 0);;
        mret kvNode.

(** system/kv_store.c: updateKVNode *)
Definition updateKVNode (kvNode val : Z) : KV Z :=
  valLen ← len1 val;
  valAlloc ← xmalloc valLen;
  if valAlloc =? 0 then mret 1
  else
    copy_string valAlloc val valLen;;
    n ← kvnode kvNode;
    put_kvnode kvNode (KvNode n.(kn_key) valAlloc n.(kn_count) n.(kn_next));;
    mret 0.

(** system/kv_store.c: getKVHashTab *)
Definition getKVHashTab (key : Z) : KV Z :=
  head ← kvHead key;
  keyLen ← len1 key;
  need (λ s, bucket_find kn_next kn_key (S (size s.(kvnodes))) s.(kvnodes) s.(bytes) key keyLen head).

(** system/kv_store.c: setKVHashTab *)
Definition setKVHashTab (key val : Z) : KV Z :=
  kvNode ← getKVHashTab key;
  if negb (kvNode =? 0) then
    n ← kvnode kvNode;
    xfree n.(kn_val);;
    updateKVNode kvNode val;;
    mret kvNode
  else
    kvNode ← createKVNode key val;
    head ← kvHead key;
    last ← need (λ s, bucket_end kn_next (S (size s.(kvnodes))) s.(kvnodes) head);
    n ← kvnode last;
    put_kvnode last (KvNode n.(kn_key) n.(kn_val) n.(kn_count) kvNode);;
    mret kvNode.

(** system/kv_store.c: delKVHashTab *)
Definition delKVHashTab (key : Z) : KV Z :=
  keyLen ← len1 key;
  head ← kvHead key;
  before ← need (λ s, bucket_before kn_next kn_key (S (size s.(kvnodes))) s.(kvnodes) s.(bytes) key keyLen head);
  if before =? 0 then mret 1
  else
    b ← kvnode before;
    n ← kvnode b.(kn_next);
    xfree n.(kn_val);;
    put_kvnode before (KvNode b.(kn_key) b.(kn_val) b.(kn_count) n.(kn_next));;
    mret 0.

(** ** The hash table of the cache *)

(** system/kv_store.c: createLRUNode *)
Definition createLRUNode (key prev : Z) : KV Z :=
  lruNode ← getmem 12;
  if lruNode =? 0 then mret 0
  else put_lrunode lruNode (LruNode key prev 0);; mret lruNode.

(** system/kv_store.c: getLRUHashTab *)
Definition getLRUHashTab (key : Z) : KV Z :=
  head ← lruHead key;
  keyLen ← len1 key;
  need (λ s, bucket_find ln_next ln_key (S (size s.(lrunodes))) s.(lrunodes) s.(bytes) key keyLen head).

(** [node->prev = prev] *)
Definition set_prev (node prev : Z) : KV unit :=
  n ← lrunode node;
  put_lrunode node (LruNode n.(ln_key) prev n.(ln_next)).

(** system/kv_store.c: setLRUHashTab *)
Definition setLRUHashTab (key prev : Z) : KV Z :=
  lruNode ← getLRUHashTab key;
  if negb (lruNode =? 0) then set_prev lruNode prev;; mret 0
  else
    lruNode ← createLRUNode key prev;
    head ← lruHead key;
    last ← need (λ s, bucket_end ln_next (S (size s.(lrunodes))) s.(lrunodes) head);
    n ← lrunode last;
    put_lrunode last (LruNode n.(ln_key) n.(ln_prev) lruNode);;
    mret 0.

(** system/kv_store.c: delLRUHashTab *)
Definition delLRUHashTab (key : Z) : KV Z :=
  keyLen ← len1 key;
  head ← lruHead key;
  before ← need (λ s, bucket_before ln_next ln_key (S (size s.(lrunodes))) s.(lrunodes) s.(bytes) key keyLen head);
  if before =? 0 then mret 1
  else
    b ← lrunode before;
    n ← lrunode b.(ln_next);
    put_lrunode before (LruNode b.(ln_key) b.(ln_prev) n.(ln_next));;
    mret 0.

(** ** The cache *)

(** system/kv_store.c: createLRUEntry *)
Definition createLRUEntry (key val : Z) : KV Z :=
  lruEntry ← getmem 12;
  if lruEntry =? 0 then mret 0
  else put_entry lruEntry (LruEntry (Some key) (Some val) (Some 0));; mret lruEntry.

(** [p->next], [p->key]; a field that was never written must not be read. *)
Definition next_of (p : Z) : KV Z := need (λ s, e ← s.(entries) !! p; le_next e).
Definition key_of (p : Z) : KV Z := need (λ s, e ← s.(entries) !! p; le_key e).
(** [p->next = q] *)
Definition set_next (p q : Z) : KV unit :=
  e ← entry p; put_entry p (LruEntry e.(le_key) e.(le_val) (Some q)).

(** system/kv_store.c: movLRUCache *)
Definition movLRUCache (prev : Z) : KV unit :=
  curr ← next_of prev;
  tail ← get tailLRU;
  if curr =? tail then mret tt
  else
    n ← next_of prev;
    nn ← next_of n;
    set_next prev nn;;
    set_next tail curr;;
    n ← next_of prev;
    k ← key_of n;
    node ← getLRUHashTab k;
    set_prev node prev;;
    k ← key_of curr;
    node ← getLRUHashTab k;
    set_prev node tail;;
    set_ (with_tailLRU curr).

Definition count_access (s : st) : st :=
  with_counters s.(counterLRU) s.(totalHits) (s32 (s.(totalAccesses) + 1)) s.(totalSetSuccess) s.(totalEvictions) s.
Definition count_hit (s : st) : st :=
  with_counters s.(counterLRU) (s32 (s.(totalHits) + 1)) s.(totalAccesses) s.(totalSetSuccess) s.(totalEvictions) s.
Definition count_set (s : st) : st :=
  with_counters s.(counterLRU) s.(totalHits) s.(totalAccesses) (s32 (s.(totalSetSuccess) + 1)) s.(totalEvictions) s.
Definition count_entry (s : st) : st :=
  with_counters (s32 (s.(counterLRU) + 1)) s.(totalHits) s.(totalAccesses) s.(totalSetSuccess) s.(totalEvictions) s.
Definition count_eviction (s : st) : st :=
  with_counters s.(counterLRU) s.(totalHits) s.(totalAccesses) s.(totalSetSuccess) (s32 (s.(totalEvictions) + 1)) s.

(** system/kv_store.c: getLRUCache *)
Definition getLRUCache (key : Z) : KV Z :=
  set_ count_access;;
  kvNode ← getKVHashTab key;
  (if negb (kvNode =? 0) then
     n ← kvnode kvNode;
     put_kvnode kvNode (KvNode n.(kn_key) n.(kn_val) (s32 (n.(kn_count) + 1)) n.(kn_next))
   else mret tt);;
  lruNode ← getLRUHashTab key;
  if lruNode =? 0 then mret 0
  else
    set_ count_hit;;
    n ← lrunode lruNode;
    movLRUCache n.(ln_prev);;
    get tailLRU.

(** system/kv_store.c: setLRUCache *)
Definition setLRUCache (key val : Z) : KV Z :=
  set_ count_set;;
  curr ← getLRUCache key;
  if negb (curr =? 0) then
    e ← entry curr;
    put_entry curr (LruEntry e.(le_key) (Some val) e.(le_next));;
    mret 0
  else
    counter ← get counterLRU;
    if counter <? LRU_CACHE_SIZE then
      set_ count_entry;;
      curr ← createLRUEntry key val;
      tail ← get tailLRU;
      set_next tail curr;;
      setLRUHashTab key tail;;
      set_ (with_tailLRU curr);;
      mret 0
    else
      h ← get headLRU;
      head ← next_of h;
      k ← key_of head;
      delLRUHashTab k;;
      e ← entry head;
      put_entry head (LruEntry (Some key) (Some val) e.(le_next));;
      setLRUHashTab key h;;
      movLRUCache h;;
      set_ count_eviction;;
      mret 0.

(** system/kv_store.c: delLRUCache *)
Definition delLRUCache (key : Z) : KV Z :=
  lruNode ← getLRUHashTab key;
  if lruNode =? 0 then mret 1
  else
    n ← lrunode lruNode;
    let prev := n.(ln_prev) in
    curr ← next_of prev;
    tail ← get tailLRU;
    (if curr =? tail then set_ (with_tailLRU prev)
     else
       nx ← next_of curr;
       k ← key_of nx;
       node ← getLRUHashTab k;
       set_prev node prev);;
    delLRUHashTab key;;
    nx ← next_of curr;
    set_next prev nx;;
    mret 0.

(** ** The interface *)

(** system/kv_store.c: kv_set *)
Definition kv_set (key val : Z) : KV Z :=
  kvNode ← setKVHashTab key val;
  n ← kvnode kvNode;
  setLRUCache n.(kn_key) n.(kn_val);;
  mret 0.

(** system/kv_store.c: kv_get *)
Definition kv_get (key : Z) : KV Z :=
  lruEntry ← getLRUCache key;
  if negb (lruEntry =? 0) then need (λ s, e ← s.(entries) !! lruEntry; le_val e)
  else
    kvNode ← getKVHashTab key;
    if negb (kvNode =? 0) then n ← kvnode kvNode; mret n.(kn_val) else mret 0.

(** system/kv_store.c: kv_delete *)
Definition kv_delete (key : Z) : KV Z :=
  delLRUCache key;;
  delKVHashTab key.

(** The loop of kv_init over the hash tables, [n] rounds from [i] on; [false]
    when a request fails with a null pointer. *)
Fixpoint kv_init_loop (n : nat) (i : Z) : KV bool :=
  match n with
  | O => mret true
  | S n =>
      kvNode ← getmem 16;
      if kvNode =? 0 then mret false
      else
        put_kvnode kvNode (KvNode 0 0 0 0);;
        set_ (λ s, with_kvHashTab (<[i := kvNode]> s.(kvHashTab)) s);;
        lruNode ← getmem 12;
        if lruNode =? 0 then mret false
        else
          put_lrunode lruNode (LruNode 0 0 0);;
          set_ (λ s, with_lruHashTab (<[i := lruNode]> s.(lruHashTab)) s);;
          kv_init_loop n (i + 1)
  end.

(** A block for an entry, whose fields are not written; there is none at the
    address of a failed getmem. *)
Definition raw_entry (p : Z) (s : st) : st :=
  if p =? GETMEM_ERR then s else with_entries (<[p := LruEntry None None None]> s.(entries)) s.

(** system/kv_store.c: kv_init; the fields of the head of the cache are not
    initialised. *)
Definition kv_init : KV Z :=
  set_ (λ s, with_heap (al_xmalloc_init s.(heap)) s);;
  set_ (with_counters 0 0 0 0 0);;
  p ← getmem 12;
  set_ (with_headLRU p);;
  if p =? 0 then mret 1
  else
    set_ (raw_entry p);;
    set_ (with_tailLRU p);;
    ok ← kv_init_loop (Z.to_nat HASH_TAB_SIZE) 0;
    mret (if ok : bool then 0 else 1).

(** [while (headLRU != NULL) headLRU = headLRU->next] *)
Fixpoint reset_lru (fuel : nat) : KV unit :=
  match fuel with
  | O => wild
  | S fuel =>
      h ← get headLRU;
      if h =? 0 then mret tt
      else nx ← next_of h; set_ (with_headLRU nx);; reset_lru fuel
  end.

(** The walk along a bucket of the store: the values are freed. *)
Fixpoint reset_kv_bucket (fuel : nat) (p : Z) : KV unit :=
  match fuel with
  | O => wild
  | S fuel =>
      if p =? 0 then mret tt
      else
        n ← kvnode p;
        (if negb (n.(kn_key) =? 0) then len1 n.(kn_key);; mret tt else mret tt);;
        (if negb (n.(kn_val) =? 0) then xfree n.(kn_val) else mret tt);;
        reset_kv_bucket fuel n.(kn_next)
  end.

Fixpoint reset_lru_bucket (fuel : nat) (p : Z) : KV unit :=
  match fuel with
  | O => wild
  | S fuel => if p =? 0 then mret tt else n ← lrunode p; reset_lru_bucket fuel n.(ln_next)
  end.

(** The loop of kv_reset over the hash tables. *)
Fixpoint reset_tables (fuel n : nat) (i : Z) : KV unit :=
  match n with
  | O => mret tt
  | S n =>
      p ← need (λ s, s.(kvHashTab) !! i);
      reset_kv_bucket fuel p;;
      set_ (λ s, with_kvHashTab (<[i := 0]> s.(kvHashTab)) s);;
      p ← need (λ s, s.(lruHashTab) !! i);
      reset_lru_bucket fuel p;;
      set_ (λ s, with_lruHashTab (<[i := 0]> s.(lruHashTab)) s);;
      reset_tables fuel n (i + 1)
  end.

(** system/kv_store.c: kv_reset; each loop runs for at most [fuel] rounds. *)
Definition kv_reset (fuel : nat) : KV unit :=
  set_ (with_counters 0 0 0 0 0);;
  reset_lru fuel;;
  set_ (with_headLRU 0);;
  set_ (with_tailLRU 0);;
  reset_tables fuel (Z.to_nat HASH_TAB_SIZE) 0.
End Kv.

(** [strncmp(s, "...", 20) == 0] for a literal. *)
Fixpoint strncmp_lit (n : nat) (m : bmem) (s : Z) (lit : list Z) : option bool :=
  match n, lit with
  | O, _ => Some true
  | S _, [] => c ← ldb m s; Some (c =? 0)
  | S n, x :: lit => c ← ldb m s; if c =? x then strncmp_lit n m (s + 1) lit else Some false
  end.

Definition ascii_codes (s : string) : list Z := (λ a, Z.of_N (Ascii.N_of_ascii a)) <$> String.list_ascii_of_string s.

(** system/kv_store.c: get_cache_info *)
Definition get_cache_info {A} (kind : Z) (s : kvst A) : option Z :=
  let isl lit := strncmp_lit 20 s.(bytes) kind (ascii_codes lit) in
  b ← isl "total_hits"%string;
  if (b : bool) then Some s.(totalHits)
  else b ← isl "total_accesses"%string;
  if (b : bool) then Some s.(totalAccesses)
  else b ← isl "total_set_success"%string;
  if (b : bool) then Some s.(totalSetSuccess)
  else b ← isl "cache_size"%string;
  if (b : bool) then Some LRU_CACHE_SIZE
  else b ← isl "num_keys"%string;
  if (b : bool) then Some s.(counterLRU)
  else b ← isl "total_evictions"%string;
  if (b : bool) then Some s.(totalEvictions)
  else Some (-1).
