(* ===== verification/Kvtab.v ===== *)
(** Lemmas on the parts of the key-value store: strings as keys, and the two hash
    tables as finite maps from keys to nodes. *)

From S2P Require Import Prelude Types Cstring Kv.

#[local] Arguments Z.eqb : simpl never.
#[local] Arguments Z.ltb : simpl never.
#[local] Arguments Z.rem : simpl never.
#[local] Arguments Z.mul : simpl never.
#[local] Arguments Z.add : simpl never.

(** * Strings *)

Lemma str_at_inj m p k1 : ∀ k2, str_at m p k1 -> str_at m p k2 -> k1 = k2.
Proof.
  revert p. induction k1 as [|c k1 IH]; intros p [|d k2] H1 H2; [done| | |].
  - apply str_at_nil in H1. apply str_at_cons in H2 as (H2 & H0 & _). congruence.
  - apply str_at_nil in H2. apply str_at_cons in H1 as (H1 & H0 & _). congruence.
  - apply str_at_cons in H1 as (H1 & _ & H1'). apply str_at_cons in H2 as (H2 & _ & H2').
    f_equal; [congruence|by eapply IH].
Qed.

Lemma str_at_frame m m' p k : str_at m p k -> (∀ a, p <= a < p + Z.of_nat (length k) + 1 -> m' !! a = m !! a) ->
  str_at m' p k.
Proof.
  intros [Hb Hn] H. split; [|done]. eapply bytes_at_frame; [exact Hb|]. rewrite length_app. simpl. intros a Ha. apply H. lia.
Qed.

Lemma strlen_run m p k : str_at m p k -> Z.of_nat (length k) < 2147483648 -> strlen m p = Some (Z.of_nat (length k)).
Proof.
  intros Hs Hl. unfold strlen. rewrite (strlen_loop_spec k); [f_equal; lia|done|by eapply str_at_fuel|lia|lia].
Qed.

(** Comparing one byte more than the second string has tells whether the strings
    are equal. *)
Lemma strncmp_loop_run m k2 : ∀ k1 p q, str_at m p k1 -> str_at m q k2 ->
  ∃ d, strncmp_loop (S (length k2)) m p q = Some d /\ (d = 0 <-> k1 = k2).
Proof.
  induction k2 as [|c2 k2 IH]; intros [|c1 k1] p q H1 H2; cbn [strncmp_loop length]; unfold ldb.
  - apply str_at_nil in H1, H2. rewrite H1, H2. simpl. by exists 0.
  - apply str_at_nil in H2. apply str_at_cons in H1 as (H1 & Hn & _). rewrite H1, H2. simpl.
    rewrite (proj2 (Z.eqb_neq c1 0)) by done. eexists. split; [done|]. split; [lia|done].
  - apply str_at_nil in H1. apply str_at_cons in H2 as (H2 & Hn & _). rewrite H1, H2. simpl.
    rewrite (proj2 (Z.eqb_neq 0 c2)) by done. eexists. split; [done|]. split; [lia|done].
  - apply str_at_cons in H1 as (H1 & Hn1 & H1'). apply str_at_cons in H2 as (H2 & Hn2 & H2').
    rewrite H1, H2. cbn [mbind option_bind]. destruct (Z.eqb_spec c1 c2) as [->|Hne].
    + rewrite (proj2 (Z.eqb_neq c2 0)) by done. destruct (IH k1 (p + 1) (q + 1) H1' H2') as (d & Hd & Hiff).
      exists d. split; [done|]. rewrite Hiff. split; [by intros ->|by intros [= ->]].
    + eexists. split; [done|]. split; [lia|by intros [= ->]].
Qed.

Lemma strncmp_run m p q k1 k2 : str_at m p k1 -> str_at m q k2 ->
  ∃ d, strncmp m p q (Z.of_nat (length k2) + 1) = Some d /\ (d = 0 <-> k1 = k2).
Proof.
  intros H1 H2. unfold strncmp. replace (Z.to_nat _) with (S (length k2)) by lia. by apply strncmp_loop_run.
Qed.

Lemma memset_loop_run n : ∀ a c m, mapped m a (Z.of_nat n) -> ∃ m', memset_loop n a c m = Some m' /\
  (∀ x, x < a \/ a + Z.of_nat n <= x -> m' !! x = m !! x) /\ (∀ x, is_Some (m !! x) -> is_Some (m' !! x)).
Proof.
  induction n as [|n IH]; intros a c m Hm; cbn [memset_loop]; [by exists m|].
  destruct (Hm a ltac:(lia)) as [y Hy]. unfold stb. rewrite Hy. cbn [mbind option_bind].
  assert (Hs : ∀ x, is_Some (m !! x) -> is_Some (<[a := u8 c]> m !! x)).
  { intros x Hx. destruct (decide (a = x)) as [->|]; [rewrite lookup_insert_eq; eauto|by rewrite lookup_insert_ne]. }
  destruct (IH (a + 1) c (<[a := u8 c]> m)) as (m' & -> & Hf & Hd); [intros x Hx; apply Hs, Hm; lia|].
  exists m'. split; [done|]. split; [|by intros x Hx; apply Hd, Hs].
  intros x Hx. rewrite Hf by lia. apply lookup_insert_ne. lia.
Qed.

Lemma strncpy_loop_run k : ∀ a p m, mapped m a (Z.of_nat (length k) + 1) -> str_at m p k ->
  (a + Z.of_nat (length k) + 1 <= p \/ p + Z.of_nat (length k) + 1 <= a) ->
  ∃ m', strncpy_loop (S (length k)) a p m = Some m' /\ str_at m' a k /\
    (∀ x, x < a \/ a + Z.of_nat (length k) + 1 <= x -> m' !! x = m !! x) /\ (∀ x, is_Some (m !! x) -> is_Some (m' !! x)).
Proof.
  induction k as [|c k IH]; intros a p m Hm Hs Hd; cbn [length] in *;
    destruct (Hm a ltac:(lia)) as [y Hy].
  - cbn [strncpy_loop]. unfold ldb, stb. apply str_at_nil in Hs. rewrite Hs. simpl. rewrite Hy. simpl.
    eexists. split; [done|]. split; [|split].
    + apply str_at_nil, lookup_insert_eq.
    + intros x Hx. apply lookup_insert_ne. lia.
    + intros x Hx. destruct (decide (a = x)) as [->|]; [rewrite lookup_insert_eq; eauto|by rewrite lookup_insert_ne].
  - remember (S (length k)) as n eqn:En. cbn [strncpy_loop]. subst n. unfold ldb, stb.
    apply str_at_cons in Hs as (Hp & Hn & Hs). rewrite Hp. cbn [mbind option_bind]. rewrite Hy. cbn [mbind option_bind].
    rewrite (proj2 (Z.eqb_neq c 0)) by done.
    assert (Hi : ∀ x, is_Some (m !! x) -> is_Some (<[a := c]> m !! x)).
    { intros x Hx. destruct (decide (a = x)) as [->|]; [rewrite lookup_insert_eq; eauto|by rewrite lookup_insert_ne]. }
    destruct (IH (a + 1) (p + 1) (<[a := c]> m)) as (m' & -> & Hs' & Hf & Hdom).
    { intros x Hx. apply Hi, Hm. lia. }
    { eapply str_at_frame; [exact Hs|]. intros x Hx. apply lookup_insert_ne. lia. }
    { lia. }
    exists m'. split; [done|]. split; [|split].
    + apply str_at_cons. split; [|done]. rewrite Hf by lia. apply lookup_insert_eq.
    + intros x Hx. rewrite Hf by lia. apply lookup_insert_ne. lia.
    + intros x Hx. by apply Hdom, Hi.
Qed.

(** The copy of a string into a new block. *)
Lemma copy_run m a p k : mapped m a (Z.of_nat (length k) + 1) -> str_at m p k ->
  (a + Z.of_nat (length k) + 1 <= p \/ p + Z.of_nat (length k) + 1 <= a) ->
  ∃ m1 m2, memset a 0 (Z.of_nat (length k) + 1) m = Some (a, m1) /\
    strncpy a p (Z.of_nat (length k) + 1) m1 = Some (a, m2) /\ str_at m2 a k /\
    (∀ x, x < a \/ a + Z.of_nat (length k) + 1 <= x -> m1 !! x = m !! x /\ m2 !! x = m !! x) /\
    (∀ x, is_Some (m !! x) -> is_Some (m1 !! x) /\ is_Some (m2 !! x)).
Proof.
  intros Hm Hs Hd. unfold memset, strncpy. replace (Z.to_nat (Z.of_nat (length k) + 1)) with (S (length k)) by lia.
  destruct (memset_loop_run (S (length k)) a 0 m) as (m1 & -> & Hf1 & Hd1); [intros x Hx; apply Hm; lia|].
  destruct (strncpy_loop_run k a p m1) as (m2 & Hr2 & Hs2 & Hf2 & Hd2).
  { intros x Hx. by apply Hd1, Hm. }
  { eapply str_at_frame; [exact Hs|]. intros x Hx. apply Hf1. lia. }
  { done. }
  exists m1, m2. cbn [mbind option_bind]. rewrite Hr2. cbn [mbind option_bind]. split; [done|]. split; [done|]. split; [done|]. split.
  - intros x Hx. rewrite Hf2 by done. rewrite Hf1 by lia. done.
  - intros x Hx. split; [by apply Hd1|by apply Hd2, Hd1].
Qed.

(** ** Keys *)

(** The hash of a string. *)
Definition hashl (k : list Z) : Z := fold_left (λ h c, Z.rem (h * 31 + c) HASH_TAB_SIZE) (take MAX_KEY_SIZE k) 0.

(** A key of the store: not empty, and of a length that fits an int. *)
Definition key_ok (k : list Z) : Prop := k ≠ [] /\ Forall (λ c, 0 < c < 256) k /\ Z.of_nat (length k) < 2147483647.
Definition key_at (m : bmem) (p : Z) (k : list Z) : Prop := p ≠ 0 /\ str_at m p k /\ key_ok k.

Lemma hash_fold l : ∀ h, 0 <= h < 512 -> Forall (λ c, 0 < c < 256) l ->
  0 <= fold_left (λ h c, Z.rem (h * 31 + c) HASH_TAB_SIZE) l h < 512.
Proof.
  induction l as [|c l IH]; intros h Hh Hl; simpl; [done|]. apply Forall_cons in Hl as [Hc Hl].
  apply IH; [|done]. unfold HASH_TAB_SIZE. rewrite Z.rem_mod_nonneg by lia. apply Z.mod_pos_bound. lia.
Qed.

Lemma hashl_range k : key_ok k -> 0 <= hashl k < 512.
Proof. intros (_ & Hc & _). apply hash_fold; [lia|by apply Forall_take]. Qed.

Lemma hashFunc_loop_run n : ∀ m p k h, str_at m p k ->
  hashFunc_loop n m p h = Some (fold_left (λ h c, Z.rem (h * 31 + c) HASH_TAB_SIZE) (take n k) h).
Proof.
  induction n as [|n IH]; intros m p [|c k] h Hs; cbn [hashFunc_loop take fold_left]; try done; unfold ldb.
  - apply str_at_nil in Hs. by rewrite Hs.
  - apply str_at_cons in Hs as (Hp & Hc & Hs). rewrite Hp. cbn [mbind option_bind].
    rewrite (proj2 (Z.eqb_neq c 0)) by done. by apply IH.
Qed.

Lemma hashFunc_run m p k : key_at m p k -> hashFunc m p = Some (hashl k).
Proof.
  intros (Hp & Hs & Hne & _). unfold hashFunc. rewrite (proj2 (Z.eqb_neq p 0)) by done.
  destruct k as [|c k]; [done|]. pose proof Hs as Hs'. apply str_at_cons in Hs' as (Hc & Hn & _). unfold ldb. rewrite Hc.
  cbn [mbind option_bind]. rewrite (proj2 (Z.eqb_neq c 0)) by done. by apply hashFunc_loop_run.
Qed.

(** * The hash tables *)

Section Table.
Context {N : Type} (nxt keyp : N -> Z).

(** The nodes behind [p], up to the null pointer, are [l]. *)
Fixpoint chain (nodes : gmap Z N) (p : Z) (l : list Z) : Prop :=
  match l with
  | [] => nxt <$> nodes !! p = Some 0
  | q :: l => nxt <$> nodes !! p = Some q /\ q ≠ 0 /\ chain nodes q l
  end.

(** The table in memory holds the map [tab] from keys to nodes. *)
Record hashtab (arr : gmap Z Z) (nodes : gmap Z N) (m : bmem) (tab : gmap (list Z) Z) : Prop := {
  ht_bucket i : 0 <= i < 512 -> ∃ h l, arr !! i = Some h /\ h ≠ 0 /\ chain nodes h l /\ NoDup l /\
    (∀ q, q ∈ l <-> ∃ k, tab !! k = Some q /\ hashl k = i);
  ht_node k q : tab !! k = Some q -> ∃ n, nodes !! q = Some n /\ key_at m (keyp n) k;
  ht_head i h : arr !! i = Some h -> is_Some (nodes !! h);
  ht_head_inj i j h : arr !! i = Some h -> arr !! j = Some h -> i = j;
  ht_head_tab i h k : arr !! i = Some h -> tab !! k ≠ Some h }.

Section Walk.
Context (arr : gmap Z Z) (nodes : gmap Z N) (m : bmem) (tab : gmap (list Z) Z) (H : hashtab arr nodes m tab).

Lemma ht_inj k1 k2 q : tab !! k1 = Some q -> tab !! k2 = Some q -> k1 = k2.
Proof.
  intros H1 H2. destruct (ht_node _ _ _ _ H _ _ H1) as (n1 & Hn1 & _ & Hs1 & _).
  destruct (ht_node _ _ _ _ H _ _ H2) as (n2 & Hn2 & _ & Hs2 & _). simplify_eq. by eapply str_at_inj.
Qed.

(** A part of a bucket: its nodes are in the map. *)
Definition in_tab (l : list Z) : Prop := ∀ q, q ∈ l -> ∃ k, tab !! k = Some q.

(** The comparison with the key of a node. *)
Lemma node_cmp q k kp : (∃ k', tab !! k' = Some q) -> key_at m kp k ->
  ∃ n d, nodes !! q = Some n /\ strncmp m (keyp n) kp (Z.of_nat (length k) + 1) = Some d /\
    (d = 0 <-> tab !! k = Some q).
Proof.
  intros [k' Hk'] (_ & Hs & _). destruct (ht_node _ _ _ _ H _ _ Hk') as (n & Hn & _ & Hs' & _).
  destruct (strncmp_run m (keyp n) kp k' k Hs' Hs) as (d & Hd & Hiff). exists n, d. do 2 (split; [done|]).
  rewrite Hiff. split; [by intros <-|]. intros Hk. by eapply ht_inj.
Qed.

Lemma bucket_find_run kp k : key_at m kp k -> ∀ l p fuel, chain nodes p l -> in_tab l -> (length l < fuel)%nat ->
  ∃ r, bucket_find nxt keyp fuel nodes m kp (Z.of_nat (length k) + 1) p = Some r /\
    ((tab !! k = Some r /\ r ∈ l) \/ (r = 0 /\ ∀ q, q ∈ l -> tab !! k ≠ Some q)).
Proof.
  intros Hk. induction l as [|q l IH]; intros p [|fuel] Hc Hl Hf; cbn [length] in Hf; try lia; cbn [bucket_find].
  - destruct (nodes !! p) as [n|] eqn:Hp; [|by cbn in Hc; rewrite Hp in Hc].
    cbn in Hc. rewrite Hp in Hc. simpl in Hc. injection Hc as Hc. rewrite ?Hp. cbn [mbind option_bind]. rewrite Hc.
    exists 0. split; [done|]. right. split; [done|]. intros q Hq. by apply not_elem_of_nil in Hq.
  - destruct Hc as (Hp & Hq0 & Hc). destruct (nodes !! p) as [n|]; [|done]. simpl in Hp. injection Hp as Hp.
    cbn [mbind option_bind]. rewrite Hp. rewrite (proj2 (Z.eqb_neq q 0)) by done.
    destruct (node_cmp q k kp) as (n' & d & -> & Hd & Hiff); [apply Hl; by left|done|]. cbn [mbind option_bind].
    rewrite Hd. cbn [mbind option_bind]. destruct (Z.eqb_spec d 0) as [->|Hd0].
    + exists q. split; [done|]. left. split; [by apply Hiff|by left].
    + destruct (IH q fuel Hc) as (r & Hr & Hres); [intros x Hx; apply Hl; by right|lia|].
      exists r. split; [done|]. destruct Hres as [[Hr1 Hr2]|[-> Hr2]]; [left; split; [done|by right]|right].
      split; [done|]. intros x Hx. apply elem_of_cons in Hx as [->|Hx]; [|by apply Hr2]. by intros Hx%Hiff.
Qed.

Lemma bucket_end_run l : ∀ p fuel, chain nodes p l -> (length l < fuel)%nat ->
  bucket_end nxt fuel nodes p = Some (default p (last l)).
Proof.
  induction l as [|q l IH]; intros p [|fuel] Hc Hf; cbn [length] in Hf; try lia; cbn [bucket_end].
  - cbn in Hc. destruct (nodes !! p) as [n|]; [|done]. simpl in Hc. injection Hc as Hc.
    cbn [mbind option_bind]. by rewrite Hc.
  - destruct Hc as (Hp & Hq0 & Hc). destruct (nodes !! p) as [n|]; [|done]. simpl in Hp. injection Hp as Hp.
    cbn [mbind option_bind]. rewrite Hp. rewrite (proj2 (Z.eqb_neq q 0)) by done. rewrite (IH q) by (done || lia).
    rewrite last_cons. by destruct (last l).
Qed.

Lemma bucket_before_run kp k : key_at m kp k -> ∀ l p fuel, chain nodes p l -> in_tab l -> (length l < fuel)%nat ->
  ∃ r, bucket_before nxt keyp fuel nodes m kp (Z.of_nat (length k) + 1) p = Some r /\
    ((∃ l1 q l2, l = l1 ++ q :: l2 /\ tab !! k = Some q /\ r = default p (last l1))
     \/ (r = 0 /\ ∀ q, q ∈ l -> tab !! k ≠ Some q)).
Proof.
  intros Hk. induction l as [|q l IH]; intros p [|fuel] Hc Hl Hf; cbn [length] in Hf; try lia; cbn [bucket_before].
  - destruct (nodes !! p) as [n|] eqn:Hp; [|by cbn in Hc; rewrite Hp in Hc].
    cbn in Hc. rewrite Hp in Hc. simpl in Hc. injection Hc as Hc. rewrite ?Hp. cbn [mbind option_bind]. rewrite Hc.
    exists 0. split; [done|]. right. split; [done|]. intros q Hq. by apply not_elem_of_nil in Hq.
  - destruct Hc as (Hp & Hq0 & Hc). destruct (nodes !! p) as [n|]; [|done]. simpl in Hp. injection Hp as Hp.
    cbn [mbind option_bind]. rewrite Hp. rewrite (proj2 (Z.eqb_neq q 0)) by done.
    destruct (node_cmp q k kp) as (n' & d & -> & Hd & Hiff); [apply Hl; by left|done|]. cbn [mbind option_bind].
    rewrite Hd. cbn [mbind option_bind]. destruct (Z.eqb_spec d 0) as [->|Hd0].
    + exists p. split; [done|]. left. exists [], q, l. split; [done|]. split; [by apply Hiff|done].
    + destruct (IH q fuel Hc) as (r & Hr & Hres); [intros x Hx; apply Hl; by right|lia|].
      exists r. split; [done|]. destruct Hres as [(l1 & x & l2 & -> & Hx & ->)|[-> Hr2]]; [left|right].
      * exists (q :: l1), x, l2. split; [done|]. split; [done|]. rewrite last_cons. by destruct (last l1).
      * split; [done|]. intros x Hx. apply elem_of_cons in Hx as [->|Hx]; [|by apply Hr2]. by intros Hx%Hiff.
Qed.

(** Every node of a chain is a node. *)
Lemma chain_nodes l : ∀ p, chain nodes p l -> ∀ x, x ∈ p :: l -> is_Some (nodes !! x).
Proof.
  induction l as [|q l IH]; intros p Hc x Hx; cbn in Hc.
  - apply list_elem_of_singleton in Hx as ->. destruct (nodes !! p); [eauto|done].
  - destruct Hc as (Hp & _ & Hc). apply elem_of_cons in Hx as [->|Hx]; [|by eapply IH].
    destruct (nodes !! p); [eauto|done].
Qed.

Lemma chain_fuel p l : chain nodes p l -> NoDup l -> (length l < S (size nodes))%nat.
Proof.
  intros Hc Hnd. assert (Hs : l ⊆+ (map_to_list nodes).*1).
  { apply NoDup_submseteq; [done|]. intros x Hx. destruct (chain_nodes l p Hc x) as [n Hn]; [by right|].
    apply list_elem_of_fmap. exists (x, n). split; [done|]. by apply elem_of_map_to_list. }
  apply submseteq_length in Hs. rewrite length_fmap, length_map_to_list in Hs. lia.
Qed.

(** The bucket of a key. *)
Lemma ht_bucket_of k : key_ok k -> ∃ h l, arr !! hashl k = Some h /\ h ≠ 0 /\ chain nodes h l /\ NoDup (h :: l) /\
  in_tab l /\ (length l < S (size nodes))%nat /\ (∀ q, q ∈ l <-> ∃ k', tab !! k' = Some q /\ hashl k' = hashl k).
Proof.
  intros Hk. destruct (ht_bucket _ _ _ _ H (hashl k) (hashl_range k Hk)) as (h & l & Ha & Hh & Hc & Hnd & Hl).
  exists h, l. do 3 (split; [done|]). split; [|split; [|split; [by eapply chain_fuel|done]]].
  - constructor; [|done]. intros (k' & Hk' & _)%Hl. destruct (ht_head_tab _ _ _ _ H _ _ _ Ha Hk').
  - intros q (k' & Hk' & _)%Hl. eauto.
Qed.

(** A lookup. *)
Lemma find_run kp k : key_at m kp k -> ∃ h, arr !! hashl k = Some h /\
  bucket_find nxt keyp (S (size nodes)) nodes m kp (Z.of_nat (length k) + 1) h = Some (default 0 (tab !! k)).
Proof.
  intros Hk. destruct (ht_bucket_of k) as (h & l & Ha & Hh & Hc & Hnd & Ht & Hf & Hl); [by destruct Hk as (_ & _ & ?)|].
  exists h. split; [done|]. destruct (bucket_find_run kp k Hk l h (S (size nodes)) Hc Ht Hf) as (r & -> & Hr).
  f_equal. destruct Hr as [[-> _]|[-> Hn]]; [done|]. destruct (tab !! k) as [q|] eqn:E; [|done].
  exfalso. apply (Hn q); [|done]. apply Hl. eauto.
Qed.

(** Buckets do not share nodes. *)
Lemma ht_disjoint i j h l h' l' x :
  arr !! i = Some h -> arr !! j = Some h' -> (∀ q, q ∈ l <-> ∃ k, tab !! k = Some q /\ hashl k = i) ->
  (∀ q, q ∈ l' <-> ∃ k, tab !! k = Some q /\ hashl k = j) -> x ∈ h :: l -> x ∈ h' :: l' -> i = j.
Proof.
  intros Hi Hj Hl Hl' Hx Hx'. apply elem_of_cons in Hx as [->|Hx]; apply elem_of_cons in Hx' as [->|Hx'].
  - by eapply (ht_head_inj _ _ _ _ H).
  - apply Hl' in Hx' as (k & Hk & _). destruct (ht_head_tab _ _ _ _ H _ _ _ Hi Hk).
  - apply Hl in Hx as (k & Hk & _). destruct (ht_head_tab _ _ _ _ H _ _ _ Hj Hk).
  - apply Hl in Hx as (k & Hk & <-). apply Hl' in Hx' as (k' & Hk' & <-). by rewrite (ht_inj k k' x).
Qed.
End Walk.

(** ** Changes *)

Lemma chain_ext nodes nodes' l : ∀ p, (∀ x, x ∈ p :: l -> nxt <$> nodes' !! x = nxt <$> nodes !! x) ->
  chain nodes p l -> chain nodes' p l.
Proof.
  induction l as [|q l IH]; intros p Hx Hc; cbn in Hc |- *; rewrite (Hx p) by (by left); [done|].
  destruct Hc as (Hp & Hq & Hc). split; [done|]. split; [done|]. apply IH; [|done]. intros x Hin. apply Hx. by right.
Qed.

Lemma chain_snoc nodes nodes' q l : ∀ p, chain nodes p l -> NoDup (p :: l) -> q ∉ p :: l -> q ≠ 0 ->
  (∀ x, x ∈ p :: l -> x ≠ default p (last l) -> nxt <$> nodes' !! x = nxt <$> nodes !! x) ->
  nxt <$> nodes' !! default p (last l) = Some q -> nxt <$> nodes' !! q = Some 0 ->
  chain nodes' p (l ++ [q]).
Proof.
  induction l as [|y l IH]; intros p Hc Hnd Hq Hq0 Hx He Hlast; cbn [app chain]; [done|].
  destruct Hc as (Hp & Hy & Hc). rewrite last_cons in He, Hx.
  assert (Hd : default p match last l with Some z => Some z | None => Some y end = default y (last l)) by by destruct (last l).
  rewrite Hd in He, Hx. apply NoDup_cons in Hnd as [Hpl Hnd]. split; [|split; [done|]].
  - rewrite Hx; [done|by left|]. intros E. apply Hpl. rewrite E.
    destruct (last l) as [z|] eqn:El; simpl; [|by left]. right. by eapply last_Some_elem_of.
  - apply IH; try done.
    + intros Hin. apply Hq. by right.
    + intros x Hin. apply Hx. by right.
Qed.

Lemma chain_del nodes nodes' q l2 l1 : ∀ p, chain nodes p (l1 ++ q :: l2) -> NoDup (p :: l1 ++ q :: l2) ->
  (∀ x, x ∈ p :: l1 ++ l2 -> x ≠ default p (last l1) -> nxt <$> nodes' !! x = nxt <$> nodes !! x) ->
  nxt <$> nodes' !! default p (last l1) = nxt <$> nodes !! q ->
  chain nodes' p (l1 ++ l2).
Proof.
  induction l1 as [|y l1 IH]; intros p Hc Hnd Hx He.
  - cbn [app] in *. destruct Hc as (_ & _ & Hc). simpl in He, Hx.
    apply NoDup_cons in Hnd as [Hpl Hnd]. apply NoDup_cons in Hnd as [Hql Hnd].
    destruct l2 as [|z l2]; cbn [chain] in Hc |- *; [by rewrite He|]. destruct Hc as (Hz & Hz0 & Hc).
    split; [by rewrite He|]. split; [done|]. eapply chain_ext; [|exact Hc]. intros x Hin. apply Hx; [by right|].
    intros ->. apply Hpl. by right.
  - cbn [app] in *. destruct Hc as (Hp & Hy & Hc). rewrite last_cons in He, Hx.
    assert (Hd : default p match last l1 with Some z => Some z | None => Some y end = default y (last l1)) by by destruct (last l1).
    rewrite Hd in He, Hx. apply NoDup_cons in Hnd as [Hpl Hnd]. split; [|split; [done|]].
    + rewrite Hx; [done|by left|]. intros E. apply Hpl. rewrite E.
      destruct (last l1) as [z|] eqn:El; simpl; [|by left]. right. apply elem_of_app. left. by eapply last_Some_elem_of.
    + apply IH; try done. intros x Hin. apply Hx. by right.
Qed.

(** A change that keeps the links and the keys. *)
Lemma hashtab_ext arr nodes nodes' m m' tab : hashtab arr nodes m tab ->
  (∀ x n, nodes !! x = Some n -> ∃ n', nodes' !! x = Some n' /\ nxt n' = nxt n /\ keyp n' = keyp n) ->
  (∀ k q n, tab !! k = Some q -> nodes !! q = Some n -> str_at m (keyp n) k -> str_at m' (keyp n) k) ->
  hashtab arr nodes' m' tab.
Proof.
  intros [Hb Hn Hhd Hi Ht] Hnodes Hm. constructor; [| | |done|done].
  - intros i Hin. destruct (Hb i Hin) as (h & l & Ha & Hh & Hc & Hl). exists h, l. do 2 (split; [done|]). split; [|done].
    eapply chain_ext; [|exact Hc]. intros x Hx. destruct (chain_nodes _ _ _ Hc x Hx) as [n Hn'].
    destruct (Hnodes x n Hn') as (n' & Hn'' & Heq & _). rewrite Hn', Hn''. simpl. by rewrite Heq.
  - intros k q Hk. destruct (Hn k q Hk) as (n & Hq & Hp & Hs & Hok). destruct (Hnodes q n Hq) as (n' & Hq' & _ & Heq).
    exists n'. split; [done|]. rewrite Heq. split; [done|]. split; [by eapply Hm|done].
  - intros i h Ha. destruct (Hhd i h Ha) as [n Hn']. destruct (Hnodes h n Hn') as (n' & -> & _). eauto.
Qed.

(** A new node at the end of its bucket. *)
Lemma hashtab_insert arr nodes nodes' m tab k q h l :
  hashtab arr nodes m tab -> key_ok k -> tab !! k = None -> q ≠ 0 -> nodes !! q = None ->
  arr !! hashl k = Some h -> chain nodes h l -> NoDup (h :: l) ->
  (∀ x, x ∈ l <-> ∃ k', tab !! k' = Some x /\ hashl k' = hashl k) ->
  (∀ x, x ≠ q -> x ≠ default h (last l) -> nodes' !! x = nodes !! x) ->
  (∃ n n', nodes !! default h (last l) = Some n /\ nodes' !! default h (last l) = Some n' /\ nxt n' = q /\ keyp n' = keyp n) ->
  (∃ n, nodes' !! q = Some n /\ nxt n = 0 /\ key_at m (keyp n) k) ->
  hashtab arr nodes' m (<[k := q]> tab).
Proof.
  intros H Hok Hk Hq0 Hq Ha Hc Hnd Hl Hfr (ne & ne' & Hne & Hne' & Hnxt & Hkey) (nq & Hnq & Hnq0 & Hnqk).
  set (e := default h (last l)) in *.
  assert (Hel : e ∈ h :: l).
  { unfold e. destruct (last l) as [z|] eqn:El; simpl; [right; by eapply last_Some_elem_of|by left]. }
  assert (Hqt : ∀ k', tab !! k' ≠ Some q).
  { intros k' Hk'. destruct (ht_node _ _ _ _ H _ _ Hk') as (n & Hn & _). congruence. }
  assert (Hqe : q ≠ e) by congruence.
  constructor.
  - intros i Hi. destruct (decide (i = hashl k)) as [->|Hne2].
    + exists h, (l ++ [q]). split; [done|].
      assert (Hql : q ∉ h :: l). { intros Hin. destruct (chain_nodes _ _ _ Hc q Hin). congruence. }
      split; [by destruct (ht_bucket _ _ _ _ H (hashl k) Hi) as (h' & ? & Ha' & ? & _); congruence|].
      split; [|split].
      * eapply chain_snoc; [exact Hc|done|done|done| | |].
        -- intros x Hx Hxe. rewrite Hfr; [done| |done]. by intros ->.
        -- fold e. rewrite Hne'. simpl. by rewrite Hnxt.
        -- rewrite Hnq. simpl. by rewrite Hnq0.
      * apply NoDup_app. split; [by inversion Hnd|]. split; [|apply NoDup_singleton].
        intros x Hx Hx'. apply list_elem_of_singleton in Hx' as ->. apply Hql. by right.
      * intros x. rewrite elem_of_app, list_elem_of_singleton, Hl. split.
        -- intros [(k' & Hk' & Hh)| ->].
           ++ exists k'. rewrite lookup_insert_ne; [done|]. intros <-. congruence.
           ++ exists k. by rewrite lookup_insert_eq.
        -- intros (k' & Hk' & Hh). destruct (decide (k = k')) as [<-|Hkk].
           ++ rewrite lookup_insert_eq in Hk'. simplify_eq. by right.
           ++ rewrite lookup_insert_ne in Hk' by done. left. eauto.
    + destruct (ht_bucket _ _ _ _ H i Hi) as (h' & l' & Ha' & Hh' & Hc' & Hnd' & Hl'). exists h', l'.
      do 2 (split; [done|]). split; [|split; [done|]].
      * eapply chain_ext; [|exact Hc']. intros x Hx. rewrite Hfr; [done| |].
        -- intros ->. destruct (chain_nodes _ _ _ Hc' q Hx). congruence.
        -- intros ->. apply Hne2. symmetry. by eapply (ht_disjoint _ _ _ _ H (hashl k) i h l h' l' e).
      * intros x. rewrite Hl'. split; intros (k' & Hk' & Hh); exists k'; (split; [|done]).
        -- rewrite lookup_insert_ne; [done|]. intros <-. congruence.
        -- rewrite lookup_insert_ne in Hk'; [done|]. intros <-. congruence.
  - intros k' q' Hk'. destruct (decide (k = k')) as [<-|Hkk].
    + rewrite lookup_insert_eq in Hk'. simplify_eq. eauto.
    + rewrite lookup_insert_ne in Hk' by done. destruct (ht_node _ _ _ _ H _ _ Hk') as (n & Hn & Hnk).
      destruct (decide (q' = e)) as [->|Hqe'].
      * exists ne'. split; [done|]. rewrite Hkey. congruence.
      * exists n. rewrite Hfr; [done| |done]. intros ->. by apply (Hqt k').
  - intros i h' Ha'. destruct (ht_head _ _ _ _ H i h' Ha') as [n Hn].
    destruct (decide (h' = e)) as [->|]; [eauto|]. rewrite Hfr; [eauto| |done]. congruence.
  - apply H.
  - intros i h' k' Ha' Hk'. destruct (decide (k = k')) as [<-|Hkk].
    + rewrite lookup_insert_eq in Hk'. simplify_eq.
      destruct (ht_head _ _ _ _ H _ _ Ha'). congruence.
    + rewrite lookup_insert_ne in Hk' by done. by eapply (ht_head_tab _ _ _ _ H).
Qed.

(** A node taken out of its bucket. *)
Lemma hashtab_delete arr nodes nodes' m tab k q h l1 l2 :
  hashtab arr nodes m tab -> tab !! k = Some q ->
  arr !! hashl k = Some h -> chain nodes h (l1 ++ q :: l2) -> NoDup (h :: l1 ++ q :: l2) ->
  (∀ x, x ∈ l1 ++ q :: l2 <-> ∃ k', tab !! k' = Some x /\ hashl k' = hashl k) ->
  (∀ x, x ≠ default h (last l1) -> nodes' !! x = nodes !! x) ->
  (∃ n n' nq, nodes !! default h (last l1) = Some n /\ nodes' !! default h (last l1) = Some n' /\
     nodes !! q = Some nq /\ nxt n' = nxt nq /\ keyp n' = keyp n) ->
  hashtab arr nodes' m (delete k tab).
Proof.
  intros H Hk Ha Hc Hnd Hl Hfr (ne & ne' & nq & Hne & Hne' & Hnq & Hnxt & Hkey).
  set (e := default h (last l1)) in *.
  assert (Hel : e ∈ h :: l1 ++ q :: l2).
  { unfold e. destruct (last l1) as [z|] eqn:El; simpl; [|by left]. right. apply elem_of_app. left. by eapply last_Some_elem_of. }
  assert (Hqe : q ≠ e).
  { apply NoDup_cons in Hnd as [Hh Hnd]. apply NoDup_app in Hnd as (_ & Hd & _). unfold e. intros E.
    destruct (last l1) as [z|] eqn:El; simpl in E; subst.
    - apply (Hd z); [by eapply last_Some_elem_of|by left].
    - apply Hh. apply elem_of_app. right. by left. }
  constructor.
  - intros i Hi. destruct (decide (i = hashl k)) as [->|Hne2].
    + exists h, (l1 ++ l2). split; [done|].
      split; [by destruct (ht_bucket _ _ _ _ H (hashl k) Hi) as (h' & ? & Ha' & ? & _); congruence|].
      split; [|split].
      * eapply chain_del; [exact Hc|done| |].
        -- intros x Hx Hxe. by rewrite Hfr.
        -- fold e. rewrite Hne', Hnq. simpl. by rewrite Hnxt.
      * apply NoDup_cons in Hnd as [_ Hnd]. rewrite NoDup_app_comm_cons in Hnd. by inversion Hnd.
      * intros x. assert (Hx : x ∈ l1 ++ l2 <-> x ∈ l1 ++ q :: l2 /\ x ≠ q).
        { rewrite elem_of_app_cons. apply NoDup_cons in Hnd as [_ Hnd]. rewrite NoDup_app_comm_cons in Hnd.
          apply NoDup_cons in Hnd as [Hq _]. split; [|intros [[->|?] ?]; done]. intros Hx. split; [by right|]. by intros ->. }
        rewrite Hx, Hl. split.
        -- intros [(k' & Hk' & Hh) Hxq]. exists k'. rewrite lookup_delete_ne; [done|]. intros <-. congruence.
        -- intros (k' & Hk' & Hh). apply lookup_delete_Some in Hk' as [Hkk Hk']. split; [eauto|].
           intros ->. apply Hkk. by eapply (ht_inj arr nodes m tab).
    + destruct (ht_bucket _ _ _ _ H i Hi) as (h' & l' & Ha' & Hh' & Hc' & Hnd' & Hl'). exists h', l'.
      do 2 (split; [done|]). split; [|split; [done|]].
      * eapply chain_ext; [|exact Hc']. intros x Hx. rewrite Hfr; [done|].
        intros ->. apply Hne2. symmetry. by eapply (ht_disjoint _ _ _ _ H (hashl k) i h (l1 ++ q :: l2) h' l' e).
      * intros x. rewrite Hl'. split; intros (k' & Hk' & Hh); exists k'; (split; [|done]).
        -- rewrite lookup_delete_ne; [done|]. intros <-. congruence.
        -- by apply lookup_delete_Some in Hk' as [_ Hk'].
  - intros k' q' Hk'. apply lookup_delete_Some in Hk' as [Hkk Hk'].
    destruct (ht_node _ _ _ _ H _ _ Hk') as (n & Hn & Hnk). destruct (decide (q' = e)) as [->|Hqe'].
    + exists ne'. split; [done|]. rewrite Hkey. congruence.
    + exists n. by rewrite Hfr.
  - intros i h' Ha'. destruct (ht_head _ _ _ _ H i h' Ha') as [n Hn].
    destruct (decide (h' = e)) as [->|]; [eauto|]. rewrite Hfr; eauto.
  - apply H.
  - intros i h' k' Ha' Hk'. apply lookup_delete_Some in Hk' as [_ Hk']. by eapply (ht_head_tab _ _ _ _ H).
Qed.
(** The last of [p :: l]. *)
Lemma last_in (p : Z) l : default p (last l) ∈ p :: l.
Proof. destruct (last l) eqn:E; simpl; [right; by eapply last_Some_elem_of|by left]. Qed.

(** The deletion of a key that is there: the walk finds the node before its node,
    and linking that to the next one takes the key out. *)
Lemma hashtab_remove arr nodes m tab k q kp : hashtab arr nodes m tab -> key_at m kp k -> tab !! k = Some q ->
  ∃ h b nb nq, arr !! hashl k = Some h /\
    bucket_before nxt keyp (S (size nodes)) nodes m kp (Z.of_nat (length k) + 1) h = Some b /\
    nodes !! b = Some nb /\ nxt nb = q /\ nodes !! q = Some nq /\ b ≠ q /\
    ∀ n', nxt n' = nxt nq -> keyp n' = keyp nb -> hashtab arr (<[b := n']> nodes) m (delete k tab).
Proof.
  intros Ht Hkp Hq. pose proof Hkp as (_ & _ & Hok).
  destruct (ht_bucket_of _ _ _ _ Ht k Hok) as (h & l & Ha & Hh0 & Hc & Hnd & Hin & Hfuel & Hl).
  destruct (bucket_before_run _ _ _ _ Ht kp k Hkp l h _ Hc Hin Hfuel) as (b & Hb & Hres).
  destruct Hres as [(l1 & q' & l2 & -> & Hq' & Eb)|[_ Hno]].
  2: { exfalso. apply (Hno q); [|done]. apply Hl. eauto. }
  assert (q' = q) as -> by congruence. clear Hq'.
  assert (Hb1 : b ∈ h :: l1) by (rewrite Eb; apply last_in).
  destruct (chain_nodes _ _ _ Hc b) as [nb Hnb]; [rewrite app_comm_cons; apply elem_of_app; by left|].
  destruct (chain_nodes _ _ _ Hc q) as [nq Hnq]; [right; apply elem_of_app; right; by left|].
  exists h, b, nb, nq. do 3 (split; [done|]). split; [|split; [done|split]].
  - clear -Hc Eb Hnb. revert h Hc Eb. induction l1 as [|y l1 IH]; intros h Hc Eb.
    + cbn in Eb. subst b. destruct Hc as (Hc & _). rewrite Hnb in Hc. simpl in Hc. congruence.
    + destruct Hc as (_ & _ & Hc). apply (IH y); [done|]. rewrite last_cons in Eb. by destruct (last l1).
  - intros ->. rewrite app_comm_cons in Hnd. apply NoDup_app in Hnd as (_ & Hd & _). apply (Hd q Hb1). by left.
  - intros n' Hn1 Hn2. eapply (hashtab_delete _ nodes _ _ _ k q h l1 l2); try done; rewrite <- ?Eb.
    + intros x Hx. by rewrite lookup_insert_ne by (by intros <-).
    + exists nb, n', nq. by rewrite lookup_insert_eq.
Qed.

(** The walk for a key that is not there. *)
Lemma before_none arr nodes m tab k kp : hashtab arr nodes m tab -> key_at m kp k -> tab !! k = None ->
  ∃ h, arr !! hashl k = Some h /\
    bucket_before nxt keyp (S (size nodes)) nodes m kp (Z.of_nat (length k) + 1) h = Some 0.
Proof.
  intros Ht Hkp Hq. destruct (ht_bucket_of _ _ _ _ Ht k) as (h & l & Ha & Hh0 & Hc & Hnd & Hin & Hfuel & Hl);
    [by destruct Hkp as (_ & _ & ?)|].
  destruct (bucket_before_run _ _ _ _ Ht kp k Hkp l h _ Hc Hin Hfuel) as (b & Hb & [(l1 & q & l2 & _ & E & _)|[-> _]]); [congruence|].
  exists h. done.
Qed.
End Table.
