(* ===== verification/Kvlru.v ===== *)
(** The key-value store as a map and a list of keys in the order of use: every
    operation of system/kv_store.c on its linked structures does what it says on
    these. *)

From S2P Require Import Prelude Types Cstring Kv Kvtab.

#[local] Arguments Z.eqb : simpl never.
#[local] Arguments Z.ltb : simpl never.
#[local] Arguments Z.rem : simpl never.
#[local] Arguments Z.mul : simpl never.
#[local] Arguments Z.add : simpl never.
#[local] Existing Instances KV_ret KV_bind.

(** * What the store expects of its memory managers *)

(** A block of [n] bytes at [p] that overlaps no block of [o]. *)
Definition fresh (lo hi : Z) (o : gmap Z Z) (p n : Z) : Prop :=
  lo <= p /\ p + n <= hi /\ ∀ q k, o !! q = Some k -> q + k <= p \/ p + n <= q.

(** The blocks that are in use are disjoint and in [al_lo, al_hi); a request is
    refused or served with a fresh block, and a block that is given back is no
    longer in use. *)
Class AllocatorLaws (A : Type) `{Allocator A} := {
  al_lo : Z;
  al_hi : Z;
  owned : A -> gmap Z Z;
  al_ok : A -> Prop;
  al_range : 0 < al_lo /\ al_hi <= GETMEM_ERR;
  al_blocks a q k : al_ok a -> owned a !! q = Some k -> 0 < k /\ al_lo <= q /\ q + k <= al_hi;
  al_disjoint a q k q' k' : al_ok a -> owned a !! q = Some k -> owned a !! q' = Some k' -> q ≠ q' ->
    q + k <= q' \/ q' + k' <= q;
  al_getmem_law a n : al_ok a -> 0 < n -> al_ok (al_getmem n a).2 /\
    (((al_getmem n a).1 = GETMEM_ERR /\ owned (al_getmem n a).2 = owned a) \/
     (fresh al_lo al_hi (owned a) (al_getmem n a).1 n /\
      owned (al_getmem n a).2 = <[(al_getmem n a).1 := n]> (owned a)));
  al_xmalloc_law a n : al_ok a -> 0 < n -> al_ok (al_xmalloc n a).2 /\
    (((al_xmalloc n a).1 = 0 /\ owned (al_xmalloc n a).2 = owned a) \/
     (fresh al_lo al_hi (owned a) (al_xmalloc n a).1 n /\
      owned (al_xmalloc n a).2 = <[(al_xmalloc n a).1 := n]> (owned a)));
  al_xfree_law a p : al_ok a -> al_ok (al_xfree p a) /\ owned (al_xfree p a) = delete p (owned a);
  al_init_law a : al_ok a -> al_ok (al_xmalloc_init a) /\ owned a ⊆ owned (al_xmalloc_init a) }.

(** The managers can serve [n] more requests of at most [bnd] bytes. *)
Fixpoint plenty {A} `{Allocator A} (bnd : Z) (n : nat) (a : A) : Prop :=
  match n with
  | O => True
  | S n =>
      (∀ k, 0 < k <= bnd -> (al_getmem k a).1 ≠ GETMEM_ERR /\ plenty bnd n (al_getmem k a).2) /\
      (∀ k, 0 < k <= bnd -> (al_xmalloc k a).1 ≠ 0 /\ plenty bnd n (al_xmalloc k a).2) /\
      (∀ p, plenty bnd n (al_xfree p a))
  end.

(** * The list of the cache *)

(** The entries behind [p], each with its key: the next pointers, and the [prev]
    pointers of the hash table. *)
Fixpoint lru (nextf : Z -> option Z) (prevf : list Z -> option Z) (p : Z) (L : list (list Z * Z)) : Prop :=
  match L with
  | [] => True
  | (k, e) :: L => nextf p = Some e /\ prevf k = Some p /\ lru nextf prevf e L
  end.

(** The last entry, or [p]. *)
Definition tail_of (p : Z) (L : list (list Z * Z)) : Z := default p (last L.*2).

Lemma tail_of_cons p k e L : tail_of p ((k, e) :: L) = tail_of e L.
Proof. unfold tail_of. cbn. rewrite last_cons. by destruct (last L.*2). Qed.

Lemma tail_of_app p L1 L2 : tail_of p (L1 ++ L2) = tail_of (tail_of p L1) L2.
Proof.
  revert p. induction L1 as [|[k e] L1 IH]; intros p; [done|]. rewrite <- app_comm_cons, !tail_of_cons. apply IH.
Qed.

Lemma tail_of_in p L : tail_of p L ∈ p :: L.*2.
Proof. unfold tail_of. destruct (last L.*2) eqn:E; simpl; [right; by eapply last_Some_elem_of|by left]. Qed.

Lemma lru_app nextf prevf L1 L2 : ∀ p,
  lru nextf prevf p (L1 ++ L2) <-> lru nextf prevf p L1 /\ lru nextf prevf (tail_of p L1) L2.
Proof.
  induction L1 as [|[k e] L1 IH]; intros p; cbn [app lru]; [by split; [|intros [_ ?]]|]. rewrite IH, tail_of_cons. tauto.
Qed.

(** The next pointer of the last entry does not matter. *)
Lemma lru_ext nextf prevf nextf' prevf' L : ∀ p, lru nextf prevf p L -> NoDup (p :: L.*2) ->
  (∀ x, x ∈ p :: L.*2 -> x ≠ tail_of p L -> nextf' x = nextf x) -> (∀ k, k ∈ L.*1 -> prevf' k = prevf k) ->
  lru nextf' prevf' p L.
Proof.
  induction L as [|[k e] L IH]; intros p Hl Hnd Hn Hp; [done|]. destruct Hl as (H1 & H2 & Hl).
  cbn in Hnd. apply NoDup_cons in Hnd as [Hpl Hnd]. cbn [lru]. rewrite tail_of_cons in Hn. split; [|split].
  - rewrite Hn; [done|by left|]. intros E. apply Hpl. rewrite E. apply tail_of_in.
  - rewrite Hp; [done|by left].
  - apply IH; [done|done| |].
    + intros x Hx. apply Hn. by right.
    + intros k' Hk'. apply Hp. by right.
Qed.

(** * The representation *)

Section Rep.
Context {A : Type} {HA : Allocator A} {HL : AllocatorLaws A}.
#[local] Abbreviation st := (kvst A).
#[local] Abbreviation str := (list Z).

Definition nextf (s : st) (x : Z) : option Z := e ← s.(entries) !! x; le_next e.
Definition prevf (s : st) (lt : gmap str Z) (k : str) : option Z :=
  q ← lt !! k; n ← s.(lrunodes) !! q; Some n.(ln_prev).

(** The node of the key [k]. *)
Definition node_of (s : st) (kt : gmap str Z) (k : str) (n : KVNode) : Prop :=
  ∃ q, kt !! k = Some q /\ s.(kvnodes) !! q = Some n.

(** While kv_set replaces the value of a key, the key is a hole of the
    representation: its entry in the cache need not have the value of its node,
    and with [true] the value of its node need not be there either. *)
Abbreviation hole := (option (list Z * bool)).
Definition fits (ho : hole) (k : str) : Prop := ∀ b, ho ≠ Some (k, b).

(** The entry [e] of the cache is for the key [k]. *)
Definition entry_of (s : st) (kt : gmap str Z) (ho : hole) (k : str) (e : Z) : Prop :=
  ∃ x n, s.(entries) !! e = Some x /\ node_of s kt k n /\ x.(le_key) = Some n.(kn_key) /\ is_Some x.(le_next) /\
    is_Some x.(le_val) /\ (fits ho k -> x.(le_val) = Some n.(kn_val)).

(** The address [a] is that of a node of one of the three structures. *)
Definition is_node (s : st) (a : Z) : Prop :=
  is_Some (s.(kvnodes) !! a) \/ is_Some (s.(lrunodes) !! a) \/ is_Some (s.(entries) !! a).

(** The state [s] holds the map [M], the cache holds the keys and entries [L],
    from the least to the most recently used one, and [kt] and [lt] are the nodes
    of the keys in the two hash tables. *)
Record rep (s : st) (M : gmap str str) (L : list (str * Z)) (kt lt : gmap str Z) (ho : hole) : Prop := {
  r_alloc : al_ok s.(heap);
  r_ram : mapped s.(bytes) al_lo (al_hi - al_lo);
  r_kv : hashtab kn_next kn_key s.(kvHashTab) s.(kvnodes) s.(bytes) kt;
  r_lru : hashtab ln_next ln_key s.(lruHashTab) s.(lrunodes) s.(bytes) lt;
  r_dom k : is_Some (M !! k) <-> is_Some (kt !! k);
  r_key k n : node_of s kt k n -> owned s.(heap) !! n.(kn_key) = Some (Z.of_nat (length k) + 1);
  r_val k v n : M !! k = Some v -> node_of s kt k n -> ho ≠ Some (k, true) -> str_at s.(bytes) n.(kn_val) v /\
    owned s.(heap) !! n.(kn_val) = Some (Z.of_nat (length v) + 1);
  r_nodes a : is_node s a -> is_Some (owned s.(heap) !! a);
  r_sep k k' n n' : node_of s kt k n -> node_of s kt k' n' -> ho ≠ Some (k, true) ->
    n.(kn_val) ≠ n'.(kn_key) /\ (ho ≠ Some (k', true) -> n.(kn_val) = n'.(kn_val) -> k = k');
  r_sepn k n a : node_of s kt k n -> ho ≠ Some (k, true) -> is_node s a -> n.(kn_val) ≠ a;
  r_lkey k q l : lt !! k = Some q -> s.(lrunodes) !! q = Some l -> ∃ n, node_of s kt k n /\ l.(ln_key) = n.(kn_key);
  r_list : lru (nextf s) (prevf s lt) s.(headLRU) L;
  r_tail : s.(tailLRU) = tail_of s.(headLRU) L;
  r_nodup : NoDup (s.(headLRU) :: L.*2);
  r_head : is_Some (s.(entries) !! s.(headLRU));
  r_keys : NoDup L.*1;
  r_ents k e : (k, e) ∈ L -> entry_of s kt ho k e;
  r_ltab k : k ∈ L.*1 <-> is_Some (lt !! k);
  r_cnt : Z.of_nat (length L) <= s.(counterLRU) <= LRU_CACHE_SIZE }.
Arguments r_alloc {_ _ _ _ _ _}.
Arguments r_ram {_ _ _ _ _ _}.
Arguments r_kv {_ _ _ _ _ _}.
Arguments r_lru {_ _ _ _ _ _}.
Arguments r_dom {_ _ _ _ _ _}.
Arguments r_key {_ _ _ _ _ _}.
Arguments r_val {_ _ _ _ _ _}.
Arguments r_nodes {_ _ _ _ _ _}.
Arguments r_sep {_ _ _ _ _ _}.
Arguments r_sepn {_ _ _ _ _ _}.
Arguments r_lkey {_ _ _ _ _ _}.
Arguments r_list {_ _ _ _ _ _}.
Arguments r_tail {_ _ _ _ _ _}.
Arguments r_nodup {_ _ _ _ _ _}.
Arguments r_head {_ _ _ _ _ _}.
Arguments r_keys {_ _ _ _ _ _}.
Arguments r_ents {_ _ _ _ _ _}.
Arguments r_ltab {_ _ _ _ _ _}.
Arguments r_cnt {_ _ _ _ _ _}.

(** ** Running the monad *)

Lemma kv_bind {B C} (m : KV (A:=A) B) (f : B -> KV C) s x s' : m s = Some (x, s') -> (m ≫= f) s = f x s'.
Proof. unfold mbind, KV_bind. by intros ->. Qed.

Lemma need_run {B} (f : st -> option B) s x : f s = Some x -> need f s = Some (x, s).
Proof. unfold need. by intros ->. Qed.

Lemma len1_run (s : st) p k : str_at s.(bytes) p k -> Z.of_nat (length k) < 2147483647 ->
  len1 p s = Some (Z.of_nat (length k) + 1, s).
Proof.
  intros Hs Hl. apply need_run. rewrite (strlen_run _ _ k) by (done || lia). simpl.
  rewrite s32_id; [done|unfold is_s32; lia].
Qed.

Lemma kvHead_run (s : st) p k : key_at s.(bytes) p k -> is_Some (s.(kvHashTab) !! hashl k) ->
  ∃ h, s.(kvHashTab) !! hashl k = Some h /\ kvHead p s = Some (h, s).
Proof. intros Hk [h Hh]. exists h. split; [done|]. apply need_run. by rewrite (hashFunc_run _ _ k). Qed.

Lemma lruHead_run (s : st) p k : key_at s.(bytes) p k -> is_Some (s.(lruHashTab) !! hashl k) ->
  ∃ h, s.(lruHashTab) !! hashl k = Some h /\ lruHead p s = Some (h, s).
Proof. intros Hk [h Hh]. exists h. split; [done|]. apply need_run. by rewrite (hashFunc_run _ _ k). Qed.

Lemma getKVHashTab_run (s : st) kt p k : hashtab kn_next kn_key s.(kvHashTab) s.(kvnodes) s.(bytes) kt ->
  key_at s.(bytes) p k -> getKVHashTab p s = Some (default 0 (kt !! k), s).
Proof.
  intros Ht Hk. destruct (find_run _ _ _ _ _ _ Ht p k Hk) as (h & Ha & Hf).
  destruct (kvHead_run s p k Hk) as (h' & Ha' & Hr); [eauto|]. simplify_eq. unfold getKVHashTab.
  rewrite (kv_bind _ _ _ _ _ Hr). destruct Hk as (_ & Hs & _ & _ & Hlen).
  rewrite (kv_bind _ _ _ _ _ (len1_run s p k Hs Hlen)). by apply need_run.
Qed.

Lemma getLRUHashTab_run (s : st) lt p k : hashtab ln_next ln_key s.(lruHashTab) s.(lrunodes) s.(bytes) lt ->
  key_at s.(bytes) p k -> getLRUHashTab p s = Some (default 0 (lt !! k), s).
Proof.
  intros Ht Hk. destruct (find_run _ _ _ _ _ _ Ht p k Hk) as (h & Ha & Hf).
  destruct (lruHead_run s p k Hk) as (h' & Ha' & Hr); [eauto|]. simplify_eq. unfold getLRUHashTab.
  rewrite (kv_bind _ _ _ _ _ Hr). destruct Hk as (_ & Hs & _ & _ & Hlen).
  rewrite (kv_bind _ _ _ _ _ (len1_run s p k Hs Hlen)). by apply need_run.
Qed.

(** ** What follows from the representation *)

Section Facts.
Context {s : st} {M : gmap str str} {L : list (str * Z)} {kt lt : gmap str Z} {ho : hole}.
Context (HR : rep s M L kt lt ho).

Lemma rep_block a n : owned s.(heap) !! a = Some n -> 0 < a /\ a ≠ GETMEM_ERR /\ al_lo <= a /\ a + n <= al_hi.
Proof.
  intros Ha. destruct (al_blocks _ _ _ (r_alloc HR) Ha) as (H1 & H2 & H3). pose proof al_range.
  unfold GETMEM_ERR in *. lia.
Qed.

Lemma rep_node a : is_node s a -> 0 < a /\ a ≠ GETMEM_ERR.
Proof. intros [n Hn]%(r_nodes HR). apply rep_block in Hn. tauto. Qed.

Lemma rep_key k n : node_of s kt k n -> key_at s.(bytes) n.(kn_key) k.
Proof.
  intros (q & Hq & Hn). destruct (ht_node _ _ _ _ _ _ (r_kv HR) _ _ Hq) as (n' & Hn' & Hk). by simplify_eq.
Qed.

(** An entry has the key of its node. *)
Lemma rep_entry k e : (k, e) ∈ L -> ∃ x kp, s.(entries) !! e = Some x /\ x.(le_key) = Some kp /\
  is_Some x.(le_next) /\ key_at s.(bytes) kp k.
Proof.
  intros He. destruct (r_ents HR k e He) as (x & n & Hx & Hn & Hk & Hnx & _).
  exists x, n.(kn_key). do 3 (split; [done|]). by apply rep_key.
Qed.

Lemma rep_lrunode k : k ∈ L.*1 -> ∃ q n, lt !! k = Some q /\ s.(lrunodes) !! q = Some n /\ q ≠ 0.
Proof.
  intros Hk. apply (r_ltab HR) in Hk as [q Hq].
  destruct (ht_node _ _ _ _ _ _ (r_lru HR) _ _ Hq) as (n & Hn & _). exists q, n. do 2 (split; [done|]).
  destruct (rep_node q); [right; left; eauto|lia].
Qed.

Lemma rep_kvnode k : is_Some (M !! k) -> ∃ q n, kt !! k = Some q /\ s.(kvnodes) !! q = Some n /\ q ≠ 0.
Proof.
  intros Hk. apply (r_dom HR) in Hk as [q Hq].
  destruct (ht_node _ _ _ _ _ _ (r_kv HR) _ _ Hq) as (n & Hn & _). exists q, n. do 2 (split; [done|]).
  destruct (rep_node q); [left; eauto|lia].
Qed.

Lemma rep_in_dom k e : (k, e) ∈ L -> is_Some (M !! k).
Proof.
  intros He. destruct (r_ents HR k e He) as (x & n & Hx & (q & Hq & _) & _). apply (r_dom HR). eauto.
Qed.

(** Every entry on the list, and the head, is there. *)
Lemma rep_entries x : x ∈ s.(headLRU) :: L.*2 -> is_Some (s.(entries) !! x).
Proof.
  intros Hx. apply elem_of_cons in Hx as [->|Hx]; [by eapply r_head|].
  apply list_elem_of_fmap in Hx as ([k e] & -> & He). destruct (rep_entry k e He) as (y & kp & Hy & _). eauto.
Qed.
End Facts.

(** ** Writing links *)

Lemma put_kvnode_run (s : st) p n : p ≠ 0 -> p ≠ GETMEM_ERR ->
  put_kvnode p n s = Some (tt, with_kvnodes (<[p := n]> s.(kvnodes)) s).
Proof. intros H1 H2. unfold put_kvnode, node_ok. by rewrite (proj2 (Z.eqb_neq _ _) H1), (proj2 (Z.eqb_neq _ _) H2). Qed.

Lemma put_lrunode_run (s : st) p n : p ≠ 0 -> p ≠ GETMEM_ERR ->
  put_lrunode p n s = Some (tt, with_lrunodes (<[p := n]> s.(lrunodes)) s).
Proof. intros H1 H2. unfold put_lrunode, node_ok. by rewrite (proj2 (Z.eqb_neq _ _) H1), (proj2 (Z.eqb_neq _ _) H2). Qed.

Lemma put_entry_run (s : st) p n : p ≠ 0 -> p ≠ GETMEM_ERR ->
  put_entry p n s = Some (tt, with_entries (<[p := n]> s.(entries)) s).
Proof. intros H1 H2. unfold put_entry, node_ok. by rewrite (proj2 (Z.eqb_neq _ _) H1), (proj2 (Z.eqb_neq _ _) H2). Qed.

Lemma set_prev_run (s : st) q n p : s.(lrunodes) !! q = Some n -> q ≠ 0 -> q ≠ GETMEM_ERR ->
  set_prev q p s = Some (tt, with_lrunodes (<[q := LruNode n.(ln_key) p n.(ln_next)]> s.(lrunodes)) s).
Proof.
  intros Hq H1 H2. unfold set_prev. rewrite (kv_bind _ _ s n s) by by apply need_run. by apply put_lrunode_run.
Qed.

Lemma set_next_run (s : st) q x p : s.(entries) !! q = Some x -> q ≠ 0 -> q ≠ GETMEM_ERR ->
  set_next q p s = Some (tt, with_entries (<[q := LruEntry x.(le_key) x.(le_val) (Some p)]> s.(entries)) s).
Proof.
  intros Hq H1 H2. unfold set_next. rewrite (kv_bind _ _ s x s) by by apply need_run. by apply put_entry_run.
Qed.

Lemma next_of_run (s : st) p q : nextf s p = Some q -> next_of p s = Some (q, s).
Proof. intros Hp. by apply need_run. Qed.

(** What a change of links leaves as it is. *)
Definition same_store (s s' : st) : Prop :=
  s'.(bytes) = s.(bytes) /\ s'.(kvnodes) = s.(kvnodes) /\ s'.(kvHashTab) = s.(kvHashTab) /\
  s'.(lruHashTab) = s.(lruHashTab) /\ s'.(headLRU) = s.(headLRU) /\ s'.(counterLRU) = s.(counterLRU) /\
  s'.(totalHits) = s.(totalHits) /\ s'.(totalAccesses) = s.(totalAccesses) /\
  s'.(totalSetSuccess) = s.(totalSetSuccess) /\ s'.(totalEvictions) = s.(totalEvictions) /\ s'.(heap) = s.(heap).

(** Nodes that differ at most in their [prev] pointers, entries at most in their
    [next] pointers. *)
Definition same_lrunodes (m m' : gmap Z LRUNode) : Prop :=
  ∀ x, (∃ n n', m !! x = Some n /\ m' !! x = Some n' /\ n'.(ln_next) = n.(ln_next) /\ n'.(ln_key) = n.(ln_key))
       \/ (m !! x = None /\ m' !! x = None).
Definition same_entries (m m' : gmap Z LRUEntry) : Prop :=
  ∀ x, (∃ n n', m !! x = Some n /\ m' !! x = Some n' /\ n'.(le_key) = n.(le_key) /\ n'.(le_val) = n.(le_val) /\
         (is_Some n.(le_next) -> is_Some n'.(le_next)))
       \/ (m !! x = None /\ m' !! x = None).

Lemma same_lrunodes_refl m : same_lrunodes m m.
Proof. intros x. destruct (m !! x) as [n|] eqn:E; [left; exists n, n; auto|by right]. Qed.

Lemma same_lrunodes_insert m m' q n p : same_lrunodes m m' -> m' !! q = Some n ->
  same_lrunodes m (<[q := LruNode n.(ln_key) p n.(ln_next)]> m').
Proof.
  intros Hs Hq x. destruct (decide (q = x)) as [->|Hne].
  - left. destruct (Hs x) as [(n1 & n2 & H1 & H2 & H3 & H4)|[_ ?]]; [|congruence]. simplify_eq.
    exists n1. eexists. split; [done|]. rewrite lookup_insert_eq. split; [done|]. simpl. split; congruence.
  - rewrite lookup_insert_ne by done. apply Hs.
Qed.

Lemma same_entries_refl m : same_entries m m.
Proof. intros x. destruct (m !! x) as [n|] eqn:E; [left; exists n, n; auto|by right]. Qed.

Lemma same_entries_insert m m' q n p : same_entries m m' -> m' !! q = Some n ->
  same_entries m (<[q := LruEntry n.(le_key) n.(le_val) (Some p)]> m').
Proof.
  intros Hs Hq x. destruct (decide (q = x)) as [->|Hne].
  - left. destruct (Hs x) as [(n1 & n2 & H1 & H2 & H3 & H4 & _)|[_ ?]]; [|congruence]. simplify_eq.
    exists n1. eexists. split; [done|]. rewrite lookup_insert_eq. split; [done|]. simpl. repeat split; try congruence; eauto.
  - rewrite lookup_insert_ne by done. apply Hs.
Qed.

Lemma rep_links s s' M L L' kt lt ho : rep s M L kt lt ho -> same_store s s' ->
  same_lrunodes s.(lrunodes) s'.(lrunodes) -> same_entries s.(entries) s'.(entries) ->
  L' ≡ₚ L -> lru (nextf s') (prevf s' lt) s.(headLRU) L' -> s'.(tailLRU) = tail_of s.(headLRU) L' ->
  rep s' M L' kt lt ho.
Proof.
  intros HR (E1 & E2 & E3 & E4 & E5 & E6 & E7 & E8 & E9 & E10 & E11) Hln Hle HP Hlru Htail.
  assert (Hnode : ∀ k n, node_of s' kt k n <-> node_of s kt k n) by (intros k n; unfold node_of; by rewrite E2).
  assert (Hisn : ∀ a, is_node s' a -> is_node s a).
  { intros a [H|[H|H]]; [left; by rewrite <- E2|right; left|right; right].
    - destruct (Hln a) as [(n & _ & Hn & _)|[_ Hn]]; [eauto|]. rewrite Hn in H. by destruct H.
    - destruct (Hle a) as [(n & _ & Hn & _)|[_ Hn]]; [eauto|]. rewrite Hn in H. by destruct H. }
  constructor; rewrite ?E1, ?E2, ?E3, ?E4, ?E5, ?E6, ?E11.
  - apply HR.
  - apply HR.
  - apply HR.
  - eapply hashtab_ext; [apply HR| |done]. intros x n Hn. destruct (Hln x) as [(n1 & n2 & H1 & H2 & H3 & H4)|[? ?]]; [|congruence].
    simplify_eq. eauto.
  - apply HR.
  - intros k n. rewrite Hnode. apply HR.
  - intros k v n. rewrite Hnode. apply HR.
  - intros a Ha%Hisn. by apply (r_nodes HR).
  - intros k k' n n'. rewrite !Hnode. apply HR.
  - intros k n a. rewrite Hnode. intros Hn Hho Ha%Hisn. by apply (r_sepn HR k n a).
  - intros k q l Hq Hl. destruct (Hln q) as [(n1 & n2 & H1 & H2 & H3 & H4)|[_ ?]]; [|congruence].
    simplify_eq. destruct (r_lkey HR k q n1 Hq H1) as (n & Hn & E). exists n. split; [by apply Hnode|congruence].
  - done.
  - done.
  - rewrite HP. apply HR.
  - destruct (r_head HR) as [x Hx]. destruct (Hle s.(headLRU)) as [(n & n' & _ & Hn & _)|[? _]]; [eauto|congruence].
  - rewrite HP. apply HR.
  - intros k e Hin. rewrite HP in Hin. destruct (r_ents HR k e Hin) as (x & n & Hx & Hn & Hk & Hnx & Hv & Hst).
    destruct (Hle e) as [(x1 & x2 & H1 & H2 & H3 & H4 & H5)|[? _]]; [|congruence]. simplify_eq.
    exists x2, n. split; [done|]. split; [by apply Hnode|]. rewrite H3, H4. auto.
  - intros k. rewrite HP. apply HR.
  - rewrite HP. apply HR.
Qed.

(** ** Moving an entry to the end *)

Lemma key_of_run (s s0 : st) M L kt lt ho k e : rep s0 M L kt lt ho -> (k, e) ∈ L ->
  same_entries s0.(entries) s.(entries) -> ∃ kp, key_of e s = Some (kp, s) /\ key_at s0.(bytes) kp k.
Proof.
  intros HR He Hs. destruct (rep_entry HR k e He) as (x & kp & Hx & Hk & _ & Hkey). exists kp. split; [|done].
  destruct (Hs e) as [(n1 & n2 & H1 & H2 & H3 & _)|[? _]]; [|congruence]. simplify_eq. apply need_run. rewrite H2. simpl. congruence.
Qed.

(** The search for a key of the cache, while [prev] pointers are changed. *)
Lemma find_lrunode (s s0 : st) M L kt lt ho k kp : rep s0 M L kt lt ho -> k ∈ L.*1 -> key_at s0.(bytes) kp k ->
  s.(bytes) = s0.(bytes) -> s.(lruHashTab) = s0.(lruHashTab) -> same_lrunodes s0.(lrunodes) s.(lrunodes) ->
  ∃ q n, lt !! k = Some q /\ s.(lrunodes) !! q = Some n /\ getLRUHashTab kp s = Some (q, s) /\ q ≠ 0 /\ q ≠ GETMEM_ERR.
Proof.
  intros HR Hk Hkp Eb El Hs. destruct (rep_lrunode HR k Hk) as (q & n & Hq & Hn & Hq0).
  destruct (Hs q) as [(n1 & n2 & H1 & H2 & _)|[? _]]; [|congruence].
  exists q, n2. do 2 (split; [done|]). split; [|split; [done|]].
  - rewrite (getLRUHashTab_run s lt kp k); [by rewrite Hq| |by rewrite Eb].
    rewrite Eb, El. eapply hashtab_ext; [apply HR| |done]. intros x y Hy.
    destruct (Hs x) as [(m1 & m2 & G1 & G2 & G3 & G4)|[? _]]; [|congruence]. simplify_eq. eauto.
  - apply (rep_node HR). right. left. eauto.
Qed.

Lemma movLRUCache_run s M L1 k e L2 kt lt ho : rep s M (L1 ++ (k, e) :: L2) kt lt ho ->
  ∃ s', movLRUCache (tail_of s.(headLRU) L1) s = Some (tt, s') /\ rep s' M (L1 ++ L2 ++ [(k, e)]) kt lt ho /\
    same_store s s' /\ s'.(tailLRU) = e /\ nextf s' e = nextf s e.
Proof.
  intros HR. set (h := s.(headLRU)). set (p := tail_of h L1).
  pose proof (r_list HR) as Hlru. fold h in Hlru. apply lru_app in Hlru as [Hlru1 (Hnp & Hpk & Hlru2)]. fold p in Hnp, Hpk.
  pose proof (r_tail HR) as Ht. rewrite tail_of_app, tail_of_cons in Ht.
  pose proof (r_nodup HR) as Hnd. pose proof (r_keys HR) as Hkd. fold h in Hnd.
  unfold movLRUCache. rewrite (kv_bind _ _ _ _ _ (next_of_run s p e Hnp)). cbv beta.
  rewrite (kv_bind (get tailLRU) _ s (tailLRU s) s eq_refl). cbv beta. rewrite Ht.
  destruct L2 as [|[k2 e2] L2].
  { cbn. rewrite Z.eqb_refl. exists s. split; [done|]. split; [done|]. split; [done|]. split; [by rewrite Ht|done]. }
  rewrite tail_of_cons in Ht |- *. set (t := tail_of e2 L2) in *. destruct Hlru2 as (Hne & Hpk2 & Hlru2).
  rewrite fmap_app, !fmap_cons in Hnd. rewrite fmap_app, !fmap_cons in Hkd. cbn [fst snd] in Hnd, Hkd.
  assert (Hp : p ∈ h :: L1.*2) by apply tail_of_in. assert (Htin : t ∈ e2 :: L2.*2) by apply tail_of_in.
  assert (Hsep : NoDup ((h :: L1.*2) ++ e :: e2 :: L2.*2)) by done.
  apply NoDup_app in Hsep as (Hnd1 & Hdis & Hnd2). apply NoDup_cons in Hnd2 as [He2 Hnd2].
  assert (Hte : t ≠ e) by (intros ->; done). assert (Htp : t ≠ p) by (intros E; apply (Hdis p Hp); right; by rewrite <- E).
  rewrite (proj2 (Z.eqb_neq e t)) by done.
  assert (Hmem : ∀ k' e', (k', e') ∈ L1 ++ (k, e) :: (k2, e2) :: L2 -> e' ≠ 0 /\ e' ≠ GETMEM_ERR).
  { intros k' e' Hin. destruct (rep_entry HR k' e' Hin) as (x & _ & Hx & _).
    destruct (rep_node HR e'); [right; right; eauto|lia]. }
  assert (Hpos : ∀ x, x ∈ h :: (L1 ++ (k, e) :: (k2, e2) :: L2).*2 -> x ≠ 0 /\ x ≠ GETMEM_ERR /\ is_Some (s.(entries) !! x)).
  { intros x Hx. pose proof (rep_entries HR x Hx) as Hs.
    destruct (rep_node HR x); [by right; right|]. split; [lia|done]. }
  rewrite fmap_app, !fmap_cons in Hpos. cbn [fst snd] in Hpos.
  destruct (Hpos p) as (Hp0 & Hpe & [xp Hxp]). { rewrite app_comm_cons. apply elem_of_app. by left. }
  destruct (Hpos t) as (Ht0 & Hter & [xt Hxt]). { rewrite app_comm_cons. apply elem_of_app. right. by right. }
  rewrite (kv_bind _ _ _ _ _ (next_of_run s p e Hnp)). cbv beta.
  rewrite (kv_bind _ _ _ _ _ (next_of_run s e e2 Hne)). cbv beta.
  rewrite (kv_bind _ _ _ _ _ (set_next_run s p xp e2 Hxp Hp0 Hpe)). cbv beta. set (s1 := with_entries _ s).
  assert (Hxt1 : s1.(entries) !! t = Some xt) by (unfold s1; simpl; by rewrite lookup_insert_ne).
  rewrite (kv_bind _ _ _ _ _ (set_next_run s1 t xt e Hxt1 Ht0 Hter)). cbv beta. set (s2 := with_entries _ s1).
  assert (Hent : same_entries s.(entries) s2.(entries)).
  { unfold s2. simpl. apply same_entries_insert; [|done]. apply same_entries_insert; [apply same_entries_refl|done]. }
  assert (Hn2 : ∀ x, nextf s2 x = if decide (x = t) then Some e else if decide (x = p) then Some e2 else nextf s x).
  { intros x. unfold nextf, s2, s1. simpl. destruct (decide (x = t)) as [->|]; [by rewrite lookup_insert_eq|].
    rewrite lookup_insert_ne by done. destruct (decide (x = p)) as [->|]; [by rewrite lookup_insert_eq|].
    by rewrite lookup_insert_ne. }
  assert (Hnp2 : nextf s2 p = Some e2) by (rewrite Hn2, decide_False, decide_True by done; done).
  rewrite (kv_bind _ _ _ _ _ (next_of_run s2 p e2 Hnp2)). cbv beta.
  assert (Hin : (k, e) ∈ L1 ++ (k, e) :: (k2, e2) :: L2) by (apply elem_of_app; right; by left).
  assert (Hin2 : (k2, e2) ∈ L1 ++ (k, e) :: (k2, e2) :: L2) by (apply elem_of_app; right; right; by left).
  destruct (key_of_run s2 s _ _ _ _ _ k2 e2 HR Hin2 Hent) as (kp2 & Hr & Hkp2). rewrite (kv_bind _ _ _ _ _ Hr). cbv beta.
  destruct (find_lrunode s2 s _ _ _ _ _ k2 kp2 HR) as (q2 & n2 & Hq2 & Hnq2 & Hr2 & Hq20 & Hq2e);
    [apply list_elem_of_fmap; by exists (k2, e2)|done|done|done|apply same_lrunodes_refl|].
  rewrite (kv_bind _ _ _ _ _ Hr2). cbv beta.
  rewrite (kv_bind _ _ _ _ _ (set_prev_run s2 q2 n2 p Hnq2 Hq20 Hq2e)). cbv beta. set (s3 := with_lrunodes _ s2).
  destruct (key_of_run s3 s _ _ _ _ _ k e HR Hin Hent) as (kp & Hr3 & Hkp). rewrite (kv_bind _ _ _ _ _ Hr3). cbv beta.
  assert (Hln : same_lrunodes s.(lrunodes) s3.(lrunodes)).
  { unfold s3. simpl. apply same_lrunodes_insert; [apply same_lrunodes_refl|done]. }
  destruct (find_lrunode s3 s _ _ _ _ _ k kp HR) as (q & n & Hq & Hnq & Hr4 & Hq0 & Hqe);
    [apply list_elem_of_fmap; by exists (k, e)|done|done|done|done|].
  rewrite (kv_bind _ _ _ _ _ Hr4). cbv beta.
  rewrite (kv_bind _ _ _ _ _ (set_prev_run s3 q n t Hnq Hq0 Hqe)). cbv beta. set (s4 := with_lrunodes _ s3).
  set (s' := with_tailLRU e s4). exists s'. split; [reflexivity|].
  assert (Hn' : ∀ x, nextf s' x = if decide (x = t) then Some e else if decide (x = p) then Some e2 else nextf s x) by done.
  assert (Hep : e ≠ p) by (intros E; apply (Hdis p Hp); rewrite <- E; by left).
  split; [|split; [done|split; [done|by rewrite Hn', !decide_False]]].
  apply NoDup_app in Hkd as (Hkd1 & Hkdis & Hkd2). apply NoDup_cons in Hkd2 as [Hk2 Hkd2].
  assert (Hkk : k ≠ k2) by (intros ->; apply Hk2; by left).
  assert (Hqq : q ≠ q2) by (intros ->; apply Hkk; by eapply (ht_inj _ _ _ _ _ _ (r_lru HR))).
  assert (Hp' : ∀ k', prevf s' lt k' = if decide (k' = k) then Some t else if decide (k' = k2) then Some p else prevf s lt k').
  { intros k'. unfold prevf, s', s4, s3. simpl. destruct (decide (k' = k)) as [->|Hk1].
    { rewrite Hq. simpl. by rewrite lookup_insert_eq. }
    destruct (decide (k' = k2)) as [->|Hk2'].
    { rewrite Hq2. simpl. rewrite lookup_insert_ne by done. by rewrite lookup_insert_eq. }
    destruct (lt !! k') as [q'|] eqn:Hq'; [|done]. simpl.
    rewrite !lookup_insert_ne; [done| |].
    - intros ->. apply Hk2'. by eapply (ht_inj _ _ _ _ _ _ (r_lru HR)).
    - intros ->. apply Hk1. by eapply (ht_inj _ _ _ _ _ _ (r_lru HR)). }
  assert (Hlnk : same_lrunodes s.(lrunodes) s'.(lrunodes)).
  { unfold s', s4. simpl. apply same_lrunodes_insert; done. }
  apply NoDup_cons in Hkd2 as [Hk2L Hkd2].
  apply (rep_links s s' M (L1 ++ (k, e) :: (k2, e2) :: L2)); [done|done|done|done| | |].
  - apply Permutation_app_head. rewrite <- Permutation_middle. by rewrite app_nil_r.
  - fold h. apply lru_app. split; [|fold p; split; [|split]].
    + eapply lru_ext; [exact Hlru1|done| |].
      * fold p. intros x Hx Hxp'. rewrite Hn', decide_False, decide_False; [done|done|]. intros ->.
        apply (Hdis t Hx). by right.
      * intros k' Hk'. rewrite Hp', !decide_False; [done| |]; intros ->; apply (Hkdis _ Hk'); [right|]; by left.
    + by rewrite Hn', decide_False, decide_True.
    + by rewrite Hp', decide_False, decide_True by done.
    + apply lru_app. fold t. split; [|split; [|split; [|done]]].
      * eapply lru_ext; [exact Hlru2|done| |].
        -- fold t. intros x Hx Hxt'. rewrite Hn', !decide_False; [done| |done]. intros ->.
           apply (Hdis p Hp). by right.
        -- intros k' Hk'. rewrite Hp', !decide_False; [done| |]; intros ->; [done|]. apply Hk2. by right.
      * by rewrite Hn', decide_True.
      * by rewrite Hp', decide_True.
  - fold h. unfold s'. simpl. rewrite tail_of_app, tail_of_cons, tail_of_app, tail_of_cons. done.
Qed.

(** ** Counting *)

Lemma rep_counters s M L kt lt ho c th ta ts te : rep s M L kt lt ho ->
  Z.of_nat (length L) <= c <= LRU_CACHE_SIZE -> rep (with_counters c th ta ts te s) M L kt lt ho.
Proof. intros HR Hc. destruct HR. by constructor. Qed.

(** Nodes of the store that differ at most in their counts. *)
Definition same_kvnodes (m m' : gmap Z KVNode) : Prop :=
  ∀ x, (∃ n n', m !! x = Some n /\ m' !! x = Some n' /\ n'.(kn_next) = n.(kn_next) /\ n'.(kn_key) = n.(kn_key) /\
         n'.(kn_val) = n.(kn_val))
       \/ (m !! x = None /\ m' !! x = None).

Lemma same_kvnodes_node s m kt k n : same_kvnodes s.(kvnodes) m -> node_of (with_kvnodes m s) kt k n ->
  ∃ n0, node_of s kt k n0 /\ n.(kn_key) = n0.(kn_key) /\ n.(kn_val) = n0.(kn_val).
Proof.
  intros Hs (q & Hq & Hn). simpl in Hn. destruct (Hs q) as [(n1 & n2 & H1 & H2 & _ & H3 & H4)|[_ ?]]; [|congruence].
  simplify_eq. exists n1. split; [by exists q|done].
Qed.

Lemma same_kvnodes_node' s m kt k n : same_kvnodes s.(kvnodes) m -> node_of s kt k n ->
  ∃ n', node_of (with_kvnodes m s) kt k n' /\ n'.(kn_key) = n.(kn_key) /\ n'.(kn_val) = n.(kn_val).
Proof.
  intros Hs (q & Hq & Hn). destruct (Hs q) as [(n1 & n2 & H1 & H2 & _ & H3 & H4)|[? _]]; [|congruence].
  simplify_eq. exists n2. split; [by exists q|done].
Qed.

Lemma rep_kvnodes s m M L kt lt ho : rep s M L kt lt ho -> same_kvnodes s.(kvnodes) m ->
  rep (with_kvnodes m s) M L kt lt ho.
Proof.
  intros HR Hs. assert (Hisn : ∀ a, is_node (with_kvnodes m s) a -> is_node s a).
  { intros a [H|[H|H]]; [left|right; by left|right; by right].
    destruct (Hs a) as [(n & _ & Hn & _)|[_ Hn]]; [eauto|]. simpl in H. rewrite Hn in H. by destruct H. }
  destruct HR as [R1 R2 R3 R4 R5 R6 R7 R8 R9 R10 R11 R12 R13 R14 R15 R16 R17 R18 R19].
  constructor; try assumption.
  - eapply hashtab_ext; [exact R3| |done]. intros x n Hn.
    destruct (Hs x) as [(n1 & n2 & H1 & H2 & H3 & H4 & _)|[? _]]; [|congruence]. simplify_eq. eauto.
  - intros k n Hn. destruct (same_kvnodes_node s m kt k n Hs Hn) as (n0 & Hn0 & E1 & E2). rewrite E1. by apply R6.
  - intros k v n HM Hn. destruct (same_kvnodes_node s m kt k n Hs Hn) as (n0 & Hn0 & E1 & E2). rewrite E2.
    by apply R7.
  - intros a Ha. by apply R8, Hisn.
  - intros k k' n n' Hn Hn'. destruct (same_kvnodes_node s m kt k n Hs Hn) as (n0 & Hn0 & E1 & E2).
    destruct (same_kvnodes_node s m kt k' n' Hs Hn') as (n0' & Hn0' & E1' & E2'). rewrite E2, E1', E2'.
    by apply R9.
  - intros k n a Hn Hho Ha. destruct (same_kvnodes_node s m kt k n Hs Hn) as (n0 & Hn0 & _ & E2). rewrite E2.
    by apply (R10 k n0 a Hn0 Hho), Hisn.
  - intros k q l Hq Hl. destruct (R11 k q l Hq Hl) as (n & Hn & E).
    destruct (same_kvnodes_node' s m kt k n Hs Hn) as (n' & Hn' & E1 & _). exists n'. split; [done|congruence].
  - intros k e He. destruct (R17 k e He) as (x & n & Hx & Hn & Hk & Hnx & Hv & Hst).
    destruct (same_kvnodes_node' s m kt k n Hs Hn) as (n' & Hn' & E1 & E2). exists x, n'. rewrite E1, E2. done.
Qed.

(** What a lookup in the cache leaves as it is. *)
Record frame (kt : gmap str Z) (s s' : st) : Prop := {
  fr_bytes : s'.(bytes) = s.(bytes);
  fr_heap : s'.(heap) = s.(heap);
  fr_head : s'.(headLRU) = s.(headLRU);
  fr_counter : s'.(counterLRU) = s.(counterLRU);
  fr_sets : s'.(totalSetSuccess) = s.(totalSetSuccess);
  fr_evictions : s'.(totalEvictions) = s.(totalEvictions);
  fr_nodes k n : node_of s kt k n -> ∃ n', node_of s' kt k n' /\ n'.(kn_key) = n.(kn_key) /\ n'.(kn_val) = n.(kn_val) }.

(** The beginning of getLRUCache: the access, and the count of the key. *)
Lemma access_run s M L kt lt ho kp k : rep s M L kt lt ho -> key_at s.(bytes) kp k ->
  ∃ s', (∀ (B : Type) (f : KV B), (set_ count_access ;; kvNode ← getKVHashTab kp;
      (if negb (kvNode =? 0) then
         n ← kvnode kvNode;
         put_kvnode kvNode (KvNode n.(kn_key) n.(kn_val) (s32 (n.(kn_count) + 1)) n.(kn_next))
       else mret tt);; f) s = f s') /\
    rep s' M L kt lt ho /\ frame kt s s' /\ s'.(totalHits) = s.(totalHits) /\
    s'.(totalAccesses) = s32 (s.(totalAccesses) + 1) /\ s'.(entries) = s.(entries).
Proof.
  intros HR Hk. set (s1 := count_access s).
  assert (HR1 : rep s1 M L kt lt ho) by (apply rep_counters; [done|apply HR]).
  assert (Hget : getKVHashTab kp s1 = Some (default 0 (kt !! k), s1)) by (apply getKVHashTab_run; [apply HR1|done]).
  destruct (kt !! k) as [q|] eqn:Hq.
  - destruct (ht_node _ _ _ _ _ _ (r_kv HR1) _ _ Hq) as (n & Hn & _).
    destruct (rep_node HR1 q) as [Hq0 Hqe]; [left; eauto|].
    set (n' := KvNode n.(kn_key) n.(kn_val) (s32 (n.(kn_count) + 1)) n.(kn_next)).
    assert (Hs : same_kvnodes s1.(kvnodes) (<[q := n']> s1.(kvnodes))).
    { intros x. destruct (decide (q = x)) as [<-|Hne]; [left; exists n, n'; by rewrite lookup_insert_eq|].
      rewrite lookup_insert_ne by done. destruct (s1.(kvnodes) !! x) as [y|]; [left; by exists y, y|by right]. }
    exists (with_kvnodes (<[q := n']> s1.(kvnodes)) s1). split; [|split; [by apply rep_kvnodes|split; [|done]]].
    + intros B f. rewrite (kv_bind (set_ count_access) _ s tt s1 eq_refl). cbv beta.
      rewrite (kv_bind _ _ _ _ _ Hget). cbv beta. simpl default. rewrite (proj2 (Z.eqb_neq q 0)) by lia. cbn [negb].
      assert (Hb : (n ← kvnode q; put_kvnode q (KvNode n.(kn_key) n.(kn_val) (s32 (n.(kn_count) + 1)) n.(kn_next))) s1
        = Some (tt, with_kvnodes (<[q := n']> s1.(kvnodes)) s1)).
      { rewrite (kv_bind _ _ s1 n s1) by by apply need_run. apply put_kvnode_run; lia. }
      by rewrite (kv_bind _ _ _ _ _ Hb).
    + constructor; try done. intros k' m Hm. by apply (same_kvnodes_node' s1).
  - exists s1. split; [|split; [done|split; [|done]]].
    + intros B f. rewrite (kv_bind (set_ count_access) _ s tt s1 eq_refl). cbv beta.
      rewrite (kv_bind _ _ _ _ _ Hget). cbv beta. done.
    + constructor; try done. intros k' m Hm. by exists m.
Qed.

Lemma getLRUCache_miss s M L kt lt ho kp k : rep s M L kt lt ho -> key_at s.(bytes) kp k -> k ∉ L.*1 ->
  ∃ s', getLRUCache kp s = Some (0, s') /\ rep s' M L kt lt ho /\ frame kt s s' /\
    s'.(totalHits) = s.(totalHits) /\ s'.(totalAccesses) = s32 (s.(totalAccesses) + 1).
Proof.
  intros HR Hk Hn. destruct (access_run _ _ _ _ _ _ kp k HR Hk) as (s' & Hrun & HR' & Hfr & Hh & Ha & _).
  exists s'. split; [|done]. unfold getLRUCache. rewrite Hrun.
  assert (Hl : lt !! k = None).
  { destruct (lt !! k) eqn:E; [|done]. exfalso. apply Hn, (r_ltab HR). eauto. }
  rewrite (kv_bind _ _ s' 0 s'); [done|]. rewrite (getLRUHashTab_run s' lt kp k); [by rewrite Hl|apply HR'|].
  by rewrite (fr_bytes _ _ _ Hfr).
Qed.

Lemma getLRUCache_hit s M L1 k e L2 kt lt ho kp : rep s M (L1 ++ (k, e) :: L2) kt lt ho -> key_at s.(bytes) kp k ->
  ∃ s', getLRUCache kp s = Some (e, s') /\ rep s' M (L1 ++ L2 ++ [(k, e)]) kt lt ho /\ frame kt s s' /\
    s'.(totalHits) = s32 (s.(totalHits) + 1) /\ s'.(totalAccesses) = s32 (s.(totalAccesses) + 1) /\
    nextf s' e = nextf s e.
Proof.
  intros HR Hk. destruct (access_run _ _ _ _ _ _ kp k HR Hk) as (s1 & Hrun & HR1 & Hfr & Hh & Ha & Hen).
  unfold getLRUCache. rewrite Hrun.
  destruct (rep_lrunode HR1 k) as (q & n & Hq & Hn & Hq0).
  { apply list_elem_of_fmap. exists (k, e). split; [done|]. apply elem_of_app. right. by left. }
  rewrite (kv_bind _ _ s1 q s1); [|rewrite (getLRUHashTab_run s1 lt kp k); [by rewrite Hq|apply HR1|by rewrite (fr_bytes _ _ _ Hfr)]].
  rewrite (proj2 (Z.eqb_neq q 0)) by done. set (s2 := count_hit s1).
  rewrite (kv_bind (set_ count_hit) _ s1 tt s2 eq_refl). cbv beta.
  assert (HR2 : rep s2 M (L1 ++ (k, e) :: L2) kt lt ho) by (apply rep_counters; [done|apply HR1]).
  rewrite (kv_bind _ _ s2 n s2) by by apply need_run. cbv beta.
  assert (Hprev : ln_prev n = tail_of s2.(headLRU) L1).
  { pose proof (r_list HR2) as Hl. apply lru_app in Hl as [_ (_ & Hp & _)].
    unfold prevf in Hp. rewrite Hq in Hp. simpl in Hp. rewrite Hn in Hp. simpl in Hp. by simplify_eq. }
  rewrite Hprev. destruct (movLRUCache_run _ _ _ _ _ _ _ _ _ HR2) as (s' & Hmov & HR' & Hsame & Htail & Hnx).
  rewrite (kv_bind _ _ _ _ _ Hmov). exists s'. split; [unfold get; by rewrite Htail|]. split; [done|].
  destruct Hsame as (E1 & E2 & E3 & E4 & E5 & E6 & E7 & E8 & E9 & E10 & E11). destruct Hfr as [F1 F2 F3 F4 F5 F6 F7].
  split; [|split; [rewrite E7; simpl; by rewrite Hh|split; [rewrite E8; simpl; done|rewrite Hnx; unfold nextf; cbn; by rewrite Hen]]]. constructor; simpl in *; try congruence.
  intros k' m Hm. destruct (F7 k' m Hm) as (m' & (x & Hx & Hx') & Hm'). exists m'. split; [|done].
  exists x. split; [done|]. by rewrite E2.
Qed.

(** ** Memory *)

Lemma plenty_getmem bnd n a k : plenty bnd (S n) a -> al_ok a -> 0 < k <= bnd ->
  al_ok (al_getmem k a).2 /\ plenty bnd n (al_getmem k a).2 /\
  fresh al_lo al_hi (owned a) (al_getmem k a).1 k /\ owned (al_getmem k a).2 = <[(al_getmem k a).1 := k]> (owned a).
Proof.
  intros (Hp & _) Ha Hk. destruct (Hp k Hk) as [Hne Hpl].
  destruct (al_getmem_law a k Ha ltac:(lia)) as [Hok [[? _]|[Hf Ho]]]; done.
Qed.

Lemma plenty_xmalloc bnd n a k : plenty bnd (S n) a -> al_ok a -> 0 < k <= bnd ->
  al_ok (al_xmalloc k a).2 /\ plenty bnd n (al_xmalloc k a).2 /\
  fresh al_lo al_hi (owned a) (al_xmalloc k a).1 k /\ owned (al_xmalloc k a).2 = <[(al_xmalloc k a).1 := k]> (owned a).
Proof.
  intros (_ & Hp & _) Ha Hk. destruct (Hp k Hk) as [Hne Hpl].
  destruct (al_xmalloc_law a k Ha ltac:(lia)) as [Hok [[? _]|[Hf Ho]]]; done.
Qed.

(** The managers and the bytes after more blocks have been handed out: the blocks
    that were in use still are, with their contents. *)
Definition grows (h : A) (m : bmem) (h' : A) (m' : bmem) : Prop :=
  al_ok h' /\ mapped m' al_lo (al_hi - al_lo) /\
  ∀ a n, owned h !! a = Some n -> owned h' !! a = Some n /\ ∀ x, a <= x < a + n -> m' !! x = m !! x.

Lemma grows_trans h1 m1 h2 m2 h3 m3 : grows h1 m1 h2 m2 -> grows h2 m2 h3 m3 -> grows h1 m1 h3 m3.
Proof.
  intros (_ & _ & H12) (H3 & Hm3 & H23). split; [done|]. split; [done|]. intros a n Ha.
  destruct (H12 a n Ha) as [Ha2 Hx2]. destruct (H23 a n Ha2) as [Ha3 Hx3]. split; [done|].
  intros x Hx. by rewrite Hx3, Hx2.
Qed.

Lemma grows_fresh (h h' : A) m m' p n : al_ok h -> al_ok h' -> mapped m al_lo (al_hi - al_lo) -> 0 < n ->
  fresh al_lo al_hi (owned h) p n -> owned h' = <[p := n]> (owned h) ->
  (∀ x, x < p \/ p + n <= x -> m' !! x = m !! x) -> (∀ x, is_Some (m !! x) -> is_Some (m' !! x)) ->
  grows h m h' m'.
Proof.
  intros Hh Hok Hm Hn (Hlo & Hhi & Hd) Ho Hf Hs. split; [done|]. split; [intros x Hx; by apply Hs, Hm|].
  intros a k Ha. destruct (al_blocks h a k Hh Ha) as (Hk & _). destruct (Hd a k Ha) as [Hd'|Hd'].
  - split; [rewrite Ho, lookup_insert_ne; [done|lia]|]. intros x Hx. apply Hf. lia.
  - split; [rewrite Ho, lookup_insert_ne; [done|lia]|]. intros x Hx. apply Hf. lia.
Qed.

Lemma rep_grow s M L kt lt ho h' m' : rep s M L kt lt ho -> grows s.(heap) s.(bytes) h' m' ->
  rep (with_bytes m' (with_heap h' s)) M L kt lt ho.
Proof.
  intros HR (Hok & Hm & Hg).
  assert (Hstr : ∀ a l, owned s.(heap) !! a = Some (Z.of_nat (length l) + 1) -> str_at s.(bytes) a l -> str_at m' a l).
  { intros a l Ha Hs. eapply str_at_frame; [exact Hs|]. intros x Hx. apply (Hg a _ Ha). lia. }
  assert (Hkv : hashtab kn_next kn_key s.(kvHashTab) s.(kvnodes) m' kt).
  { eapply hashtab_ext; [apply HR|by eauto|]. intros k q n Hq Hn Hs. apply Hstr; [|done]. apply (r_key HR). by exists q. }
  assert (Hlru : hashtab ln_next ln_key s.(lruHashTab) s.(lrunodes) m' lt).
  { eapply hashtab_ext; [apply HR|by eauto|]. intros k q l Hq Hl Hs. destruct (r_lkey HR k q l Hq Hl) as (n & Hn & E).
    rewrite E in *. apply Hstr; [|done]. by apply (r_key HR). }
  destruct HR as [R1 R2 R3 R4 R5 R6 R7 R8 R9 R10 R11 R12 R13 R14 R15 R16 R17 R18 R19]. constructor; try assumption.
  - intros k n Hn. by apply (Hg _ _ (R6 k n Hn)).
  - intros k v n HM Hn Hho. destruct (R7 k v n HM Hn Hho) as [Hs Ho]. split; [by apply Hstr|by apply (Hg _ _ Ho)].
  - intros a Ha. destruct (R8 a Ha) as [n Hn]. exists n. by apply (Hg _ _ Hn).
Qed.

(** xfree of the value of a key. *)
Lemma rep_free s M L kt lt k n : rep s M L kt lt None -> node_of s kt k n ->
  rep (with_heap (al_xfree n.(kn_val) s.(heap)) s) M L kt lt (Some (k, true)).
Proof.
  intros HR Hn. destruct (al_xfree_law s.(heap) n.(kn_val) (r_alloc HR)) as [Hok Ho].
  destruct HR as [R1 R2 R3 R4 R5 R6 R7 R8 R9 R10 R11 R12 R13 R14 R15 R16 R17 R18 R19]. constructor; try assumption.
  - intros k' n' Hn'. cbn [heap with_heap]. rewrite Ho, lookup_delete_ne; [by apply R6|]. by apply (R9 k k' n n').
  - intros k' v' n' HM Hn' Hho. destruct (R7 k' v' n' HM Hn' ltac:(done)) as [Hs Hv]. split; [done|].
    cbn [heap with_heap]. rewrite Ho, lookup_delete_ne; [done|]. intros E.
    destruct (R9 k k' n n' Hn Hn' ltac:(done)) as [_ H]. specialize (H ltac:(done) E). by subst.
  - intros a Ha. cbn [heap with_heap]. rewrite Ho, lookup_delete_ne; [by apply R8|]. by apply (R10 k n a).
  - intros k1 k2 n1 n2 H1 H2 Hho. destruct (R9 k1 k2 n1 n2 H1 H2 ltac:(done)) as [G1 G2]. split; [done|].
    intros _. by apply G2.
  - intros k' n' a Hn' _ Ha. by apply (R10 k' n' a).
  - intros k' e He. destruct (R17 k' e He) as (x & y & Hx & Hy & Hk & Hnx & Hv & Hst). exists x, y.
    do 5 (split; [done|]). intros _. by apply Hst.
Qed.

(** A new value for a key whose old value is gone. *)
Lemma rep_setval s M L kt lt k q n p v : rep s M L kt lt (Some (k, true)) -> kt !! k = Some q -> s.(kvnodes) !! q = Some n ->
  str_at s.(bytes) p v -> owned s.(heap) !! p = Some (Z.of_nat (length v) + 1) ->
  (∀ k' n', node_of s kt k' n' -> p ≠ n'.(kn_key) /\ (k' ≠ k -> p ≠ n'.(kn_val))) -> (∀ a, is_node s a -> p ≠ a) ->
  rep (with_kvnodes (<[q := KvNode n.(kn_key) p n.(kn_count) n.(kn_next)]> s.(kvnodes)) s) (<[k := v]> M) L kt lt (Some (k, false)).
Proof.
  intros HR Hq Hn Hs Ho Hp Hpn. set (n' := KvNode _ _ _ _). set (s' := with_kvnodes _ s).
  assert (Hisn : ∀ a, is_node s' a -> is_node s a).
  { intros a [H|[H|H]]; [left|right; by left|right; by right]. unfold s' in H. simpl in H.
    destruct (decide (q = a)) as [->|]; [eauto|by rewrite lookup_insert_ne in H]. }
  assert (Hinj := ht_inj _ _ _ _ _ _ (r_kv HR)).
  assert (Hnode : ∀ k' m, node_of s' kt k' m -> (k' = k /\ m = n') \/ (k' ≠ k /\ node_of s kt k' m)).
  { intros k' m (x & Hx & Hm). unfold s' in Hm. simpl in Hm. destruct (decide (q = x)) as [<-|Hne].
    - left. rewrite lookup_insert_eq in Hm. split; [by eapply Hinj|congruence].
    - right. rewrite lookup_insert_ne in Hm by done. split; [by intros ->; congruence|by exists x]. }
  assert (Hnode' : ∀ k' m, node_of s kt k' m -> ∃ m', node_of s' kt k' m' /\ m'.(kn_key) = m.(kn_key) /\ (k' ≠ k -> m' = m)).
  { intros k' m (x & Hx & Hm). destruct (decide (q = x)) as [<-|Hne].
    - exists n'. split; [exists q; split; [done|]; unfold s'; simpl; by rewrite lookup_insert_eq|].
      split; [unfold n'; simpl; congruence|]. intros Hk. exfalso. apply Hk. by eapply Hinj.
    - exists m. split; [exists x; split; [done|]; unfold s'; simpl; by rewrite lookup_insert_ne|done]. }
  assert (Hkn : node_of s kt k n) by by exists q.
  destruct HR as [R1 R2 R3 R4 R5 R6 R7 R8 R9 R10 R11 R12 R13 R14 R15 R16 R17 R18 R19]. constructor; try assumption.
  - eapply hashtab_ext; [exact R3| |done]. intros x y Hy. unfold s'. simpl. destruct (decide (q = x)) as [<-|Hne].
    + exists n'. rewrite lookup_insert_eq. unfold n'. simpl. split; [done|]. split; congruence.
    + exists y. by rewrite lookup_insert_ne.
  - intros k'. rewrite <- R5. destruct (decide (k = k')) as [<-|Hne]; [|by rewrite lookup_insert_ne].
    rewrite lookup_insert_eq. split; [intros _; apply R5; eauto|eauto].
  - intros k' m [[-> ->]|[_ Hm]]%Hnode; [by apply (R6 k n)|by apply R6].
  - intros k' v' m HM [[-> ->]|[Hne Hm]]%Hnode Hho.
    + rewrite lookup_insert_eq in HM. simplify_eq. done.
    + rewrite lookup_insert_ne in HM by done. apply (R7 k' v' m HM Hm). congruence.
  - intros a Ha. by apply R8, Hisn.
  - intros k1 k2 m1 m2 [[-> ->]|[Hne1 Hm1]]%Hnode [[-> ->]|[Hne2 Hm2]]%Hnode Hho.
    + split; [by apply (Hp k n)|done].
    + split; [by apply (Hp k2 m2)|]. intros _ E. exfalso. by apply (Hp k2 m2 Hm2).
    + split; [by apply (R9 k1 k m1 n); try congruence|]. intros _ E. exfalso. by apply (Hp k1 m1 Hm1).
    + destruct (R9 k1 k2 m1 m2 Hm1 Hm2 ltac:(congruence)) as [G1 G2]. split; [done|]. intros _. apply G2. congruence.
  - intros k' m a [[-> ->]|[Hne Hm]]%Hnode Hho Ha%Hisn; [by apply Hpn|]. apply (R10 k' m a); try done. congruence.
  - intros k' x l Hx Hl. destruct (R11 k' x l Hx Hl) as (m & Hm & E). destruct (Hnode' k' m Hm) as (m' & Hm' & E' & _).
    exists m'. split; [done|congruence].
  - intros k' e He. destruct (R17 k' e He) as (x & m & Hx & Hm & Hk & Hnx & Hv & Hst).
    destruct (Hnode' k' m Hm) as (m' & Hm' & E' & Heq). exists x, m'. do 2 (split; [done|]). split; [congruence|].
    do 2 (split; [done|]). intros Hf. rewrite Heq by (intros ->; by apply (Hf false)). apply Hst.
    intros b Hb. injection Hb as -> _. by apply (Hf false).
Qed.

(** The entry of a replaced value: none, or corrected. *)
Lemma rep_close s M L kt lt k : rep s M L kt lt (Some (k, false)) -> k ∉ L.*1 -> rep s M L kt lt None.
Proof.
  intros HR Hk. destruct HR as [R1 R2 R3 R4 R5 R6 R7 R8 R9 R10 R11 R12 R13 R14 R15 R16 R17 R18 R19].
  constructor; try assumption.
  - intros k' v n HM Hn _. by apply (R7 k' v n).
  - intros k1 k2 n1 n2 H1 H2 _. destruct (R9 k1 k2 n1 n2 H1 H2 ltac:(done)) as [G1 G2]. split; [done|].
    intros _. by apply G2.
  - intros k' n a Hn _. by apply (R10 k' n a).
  - intros k' e He. destruct (R17 k' e He) as (x & n & Hx & Hn & Hke & Hnx & Hv & Hst). exists x, n.
    do 5 (split; [done|]). intros _. apply Hst. intros b [= -> _]. apply Hk. apply list_elem_of_fmap. by exists (k', e).
Qed.

Lemma rep_weaken s M L kt lt k : rep s M L kt lt None -> rep s M L kt lt (Some (k, false)).
Proof.
  intros HR. destruct HR as [R1 R2 R3 R4 R5 R6 R7 R8 R9 R10 R11 R12 R13 R14 R15 R16 R17 R18 R19].
  constructor; try assumption.
  - intros k' v n HM Hn _. by apply (R7 k' v n).
  - intros k1 k2 n1 n2 H1 H2 _. destruct (R9 k1 k2 n1 n2 H1 H2 ltac:(done)) as [G1 G2]. split; [done|].
    intros _. by apply G2.
  - intros k' n a Hn _. by apply (R10 k' n a).
  - intros k' e He. destruct (R17 k' e He) as (x & n & Hx & Hn & Hke & Hnx & Hv & Hst). exists x, n.
    do 5 (split; [done|]). intros _. by apply Hst.
Qed.

(** A new key: its node [q] is linked at the end of its bucket. *)
Lemma rep_addkey s M L kt lt k v p1 p2 q h l e ne : rep s M L kt lt None -> kt !! k = None ->
  s.(kvnodes) !! q = None -> owned s.(heap) !! q = Some 16 -> key_at s.(bytes) p1 k -> str_at s.(bytes) p2 v ->
  owned s.(heap) !! p1 = Some (Z.of_nat (length k) + 1) -> owned s.(heap) !! p2 = Some (Z.of_nat (length v) + 1) ->
  p1 ≠ p2 -> p2 ≠ q -> (∀ k' n, node_of s kt k' n -> n.(kn_val) ≠ p1 /\ n.(kn_val) ≠ p2 /\ n.(kn_val) ≠ q /\ n.(kn_key) ≠ p2) ->
  (∀ a, is_node s a -> a ≠ p2) ->
  s.(kvHashTab) !! hashl k = Some h -> chain kn_next s.(kvnodes) h l -> NoDup (h :: l) ->
  (∀ x, x ∈ l <-> ∃ k', kt !! k' = Some x /\ hashl k' = hashl k) -> e = default h (last l) -> s.(kvnodes) !! e = Some ne ->
  rep (with_kvnodes (<[e := KvNode ne.(kn_key) ne.(kn_val) ne.(kn_count) q]> (<[q := KvNode p1 p2 0 0]> s.(kvnodes))) s)
    (<[k := v]> M) L (<[k := q]> kt) lt None.
Proof.
  intros HR Hk Hq Hqo Hp1 Hp2 Ho1 Ho2 H12 H2q Hsep Hnp Ha Hc Hnd Hl -> Hne. set (e := default h (last l)) in *.
  set (nq := KvNode p1 p2 0 0). set (ne' := KvNode _ _ _ q). set (s' := with_kvnodes _ s).
  assert (Hqe : q ≠ e) by congruence.
  assert (Hlook : ∀ x, s'.(kvnodes) !! x = if decide (x = e) then Some ne' else if decide (x = q) then Some nq else s.(kvnodes) !! x).
  { intros x. unfold s'. simpl. destruct (decide (x = e)) as [->|]; [by rewrite lookup_insert_eq|]. rewrite lookup_insert_ne by done.
    destruct (decide (x = q)) as [->|]; [by rewrite lookup_insert_eq|by rewrite lookup_insert_ne]. }
  assert (Hisn : ∀ a, is_node s' a -> a = q \/ is_node s a).
  { intros a [H|[H|H]]; [|right; right; by left|right; right; by right]. rewrite Hlook in H.
    destruct (decide (a = e)) as [->|]; [right; left; eauto|]. destruct (decide (a = q)); [by left|right; by left]. }
  assert (Hnode : ∀ k' m, node_of s' (<[k := q]> kt) k' m ->
    (k' = k /\ m = nq) \/ (k' ≠ k /\ ∃ m0, node_of s kt k' m0 /\ m.(kn_key) = m0.(kn_key) /\ m.(kn_val) = m0.(kn_val))).
  { intros k' m (x & Hx & Hm). destruct (decide (k = k')) as [<-|Hkk].
    - rewrite lookup_insert_eq in Hx. simplify_eq. rewrite Hlook, decide_False, decide_True in Hm by done. left. by simplify_eq.
    - rewrite lookup_insert_ne in Hx by done. right. split; [done|]. rewrite Hlook in Hm.
      destruct (decide (x = e)) as [->|]; [simplify_eq; exists ne; split; [by exists e|done]|].
      destruct (decide (x = q)) as [->|].
      + destruct (ht_node _ _ _ _ _ _ (r_kv HR) _ _ Hx) as (y & Hy & _). congruence.
      + exists m. split; [by exists x|done]. }
  assert (Hnode' : ∀ k' m, node_of s kt k' m -> ∃ m', node_of s' (<[k := q]> kt) k' m' /\
    m'.(kn_key) = m.(kn_key) /\ m'.(kn_val) = m.(kn_val)).
  { intros k' m (x & Hx & Hm). assert (k ≠ k') by congruence. assert (x ≠ q) by congruence.
    destruct (decide (x = e)) as [->|Hxe].
    - exists ne'. split; [exists e; rewrite lookup_insert_ne, Hlook, decide_True by done; done|]. unfold ne'. simpl. split; congruence.
    - exists m. split; [exists x; rewrite lookup_insert_ne, Hlook, !decide_False by done; done|done]. }
  assert (HkL : k ∉ L.*1).
  { intros ([k' y] & -> & Hy)%list_elem_of_fmap. destruct (rep_in_dom HR _ _ Hy) as [z Hz]. simpl in Hk.
    assert (Hd : is_Some (M !! k')) by eauto. apply (r_dom HR) in Hd as [w Hw]. simpl in *. congruence. }
  destruct HR as [R1 R2 R3 R4 R5 R6 R7 R8 R9 R10 R11 R12 R13 R14 R15 R16 R17 R18 R19]. constructor; try assumption.
  - eapply (hashtab_insert _ _ _ s.(kvnodes) _ _ _ k q h l); try done; [by destruct Hp1 as (_ & _ & ?)| | | |].
    + intros ->. destruct (al_blocks _ _ _ R1 Hqo) as (_ & ? & _). pose proof al_range. lia.
    + intros x H1 H2. by rewrite Hlook, !decide_False.
    + exists ne, ne'. fold e. split; [done|]. by rewrite Hlook, decide_True.
    + exists nq. rewrite Hlook, decide_False, decide_True by done. done.
  - intros k'. destruct (decide (k = k')) as [<-|]; [rewrite !lookup_insert_eq; split; eauto|by rewrite !lookup_insert_ne].
  - intros k' m [[-> ->]|(_ & m0 & Hm0 & E1 & _)]%Hnode; [done|]. rewrite E1. by apply R6.
  - intros k' v' m HM [[-> ->]|(Hne2 & m0 & Hm0 & _ & E2)]%Hnode _.
    + rewrite lookup_insert_eq in HM. by simplify_eq.
    + rewrite lookup_insert_ne in HM by done. rewrite E2. by apply (R7 k' v' m0).
  - intros a [->|Ha']%Hisn; [|by apply R8]. unfold s'. simpl. eauto.
  - intros k1 k2 m1 m2 [[-> ->]|(Hne1 & n1 & Hn1 & E1 & E1')]%Hnode [[-> ->]|(Hne2 & n2 & Hn2 & E2 & E2')]%Hnode _.
    + split; [done|done].
    + rewrite E2, E2'. destruct (Hsep _ _ Hn2) as (G1 & G2 & G3 & G4). unfold nq. simpl. split; [done|]. intros _ E. by symmetry in E.
    + rewrite E1'. destruct (Hsep _ _ Hn1) as (G1 & G2 & G3 & G4). unfold nq. simpl. split; [done|]. by intros _ E.
    + rewrite E1', E2, E2'. by apply R9.
  - intros k' m a [[-> ->]|(Hne1 & m0 & Hm0 & _ & E2)]%Hnode _ [->|Ha']%Hisn; [done| | |].
    + intros <-. by apply (Hnp p2 Ha').
    + rewrite E2. by apply (Hsep k' m0).
    + rewrite E2. by apply (R10 k' m0 a).
  - intros k' x y Hx Hy. destruct (R11 k' x y Hx Hy) as (m & Hm & E). destruct (Hnode' k' m Hm) as (m' & Hm' & E' & _).
    exists m'. split; [done|congruence].
  - intros k' y Hy. destruct (R17 k' y Hy) as (x & m & Hx & Hm & Hke & Hnx & Hv & Hst).
    destruct (Hnode' k' m Hm) as (m' & Hm' & E1 & E2). exists x, m'. rewrite E1, E2. done.
Qed.

(** ** Setting a key in the store *)

(** A string of the caller, outside of what the memory managers hand out. *)
Definition external (p n : Z) : Prop := p + n <= al_lo \/ al_hi <= p.

(** What the hash table operations leave as it is. *)
Record unchanged (s s' : st) : Prop := {
  un_bytes x : x < al_lo \/ al_hi <= x -> s'.(bytes) !! x = s.(bytes) !! x;
  un_head : s'.(headLRU) = s.(headLRU);
  un_counter : s'.(counterLRU) = s.(counterLRU);
  un_hits : s'.(totalHits) = s.(totalHits);
  un_accesses : s'.(totalAccesses) = s.(totalAccesses);
  un_sets : s'.(totalSetSuccess) = s.(totalSetSuccess);
  un_evictions : s'.(totalEvictions) = s.(totalEvictions) }.

Lemma plenty_less bnd n : ∀ a, plenty bnd (S n) a -> plenty bnd n a.
Proof.
  induction n as [|n IH]; intros a Hp; [done|]. destruct Hp as (H1 & H2 & H3). split; [|split].
  - intros k Hk. destruct (H1 k Hk) as [G1 G2]. split; [done|by apply IH].
  - intros k Hk. destruct (H2 k Hk) as [G1 G2]. split; [done|by apply IH].
  - intros p. apply IH, H3.
Qed.

(** A fresh block is not a node and not a string of the store. *)
Lemma fresh_new s M L kt lt ho p n : rep s M L kt lt ho -> 0 < n -> fresh al_lo al_hi (owned s.(heap)) p n ->
  p ≠ 0 /\ p ≠ GETMEM_ERR /\ owned s.(heap) !! p = None /\ (∀ a, is_node s a -> a ≠ p) /\
  (∀ k m, node_of s kt k m -> m.(kn_key) ≠ p /\ (ho ≠ Some (k, true) -> m.(kn_val) ≠ p)).
Proof.
  intros HR Hn (Hlo & Hhi & Hd). pose proof al_range.
  assert (Hno : owned s.(heap) !! p = None).
  { destruct (owned s.(heap) !! p) as [m|] eqn:E; [|done]. pose proof (Hd p m E).
    destruct (al_blocks _ _ _ (r_alloc HR) E). lia. }
  split; [lia|]. split; [unfold GETMEM_ERR in *; lia|]. split; [done|]. split.
  - intros a Ha ->. destruct (r_nodes HR p Ha). congruence.
  - intros k m Hm. split.
    + intros E. pose proof (r_key HR k m Hm). congruence.
    + intros Hho E. destruct Hm as (q & Hq & Hm). assert (Hd' : is_Some (M !! k)) by (apply (r_dom HR); eauto).
      destruct Hd' as [v Hv]. destruct (r_val HR k v m Hv) as [_ Ho]; [by exists q|done|]. congruence.
Qed.

Lemma external_frame (m m' : bmem) p l : external p (Z.of_nat (length l) + 1) -> str_at m p l ->
  (∀ x, x < al_lo \/ al_hi <= x -> m' !! x = m !! x) -> str_at m' p l.
Proof. intros He Hs Hf. eapply str_at_frame; [exact Hs|]. intros x Hx. apply Hf. unfold external in He. lia. Qed.

Lemma setKV_existing s M L kt lt kp vp k v q bnd n :
  rep s M L kt lt None -> key_at s.(bytes) kp k -> str_at s.(bytes) vp v -> external vp (Z.of_nat (length v) + 1) ->
  Z.of_nat (length v) < 2147483647 -> Z.of_nat (length v) + 1 <= bnd -> plenty bnd (S (S n)) s.(heap) -> kt !! k = Some q ->
  ∃ s', setKVHashTab kp vp s = Some (q, s') /\ rep s' (<[k := v]> M) L kt lt (Some (k, false)) /\ unchanged s s' /\
    plenty bnd n s'.(heap).
Proof.
  intros HR Hkp Hv Hext Hlen Hbnd Hpl Hq.
  destruct (ht_node _ _ _ _ _ _ (r_kv HR) _ _ Hq) as (nd & Hnd & _). assert (Hno : node_of s kt k nd) by by exists q.
  destruct (rep_node HR q) as [Hq0 Hqe]; [left; eauto|].
  unfold setKVHashTab. rewrite (kv_bind _ _ s q s) by (rewrite (getKVHashTab_run s kt kp k (r_kv HR) Hkp); by rewrite Hq).
  rewrite (proj2 (Z.eqb_neq q 0)) by lia. cbn [negb]. rewrite (kv_bind _ _ s nd s) by by apply need_run.
  set (s1 := with_heap (al_xfree nd.(kn_val) s.(heap)) s). rewrite (kv_bind (xfree nd.(kn_val)) _ s tt s1 eq_refl). cbv beta.
  assert (HR1 : rep s1 M L kt lt (Some (k, true))) by by apply rep_free.
  destruct Hpl as (_ & _ & Hpl). specialize (Hpl nd.(kn_val)). set (len := Z.of_nat (length v) + 1) in *.
  destruct (plenty_xmalloc bnd n s1.(heap) len Hpl (r_alloc HR1) ltac:(lia)) as (Hok & Hpl2 & Hfr & Ho).
  set (p := (al_xmalloc len s1.(heap)).1) in *. set (h2 := (al_xmalloc len s1.(heap)).2) in *.
  destruct (fresh_new _ _ _ _ _ _ p len HR1 ltac:(lia) Hfr) as (Hp0 & _ & _ & Hpn & Hpk).
  assert (Hxm : xmalloc len s1 = Some (p, with_heap h2 s1)).
  { unfold xmalloc, p, h2. by destruct (al_xmalloc len (heap s1)). }
  pose proof Hfr as (Hlo & Hhi & Hdis).
  destruct (copy_run s.(bytes) p vp v) as (m1 & m2 & Hm1 & Hm2 & Hs2 & Hf2 & Hd2); fold len.
  { intros x Hx. apply (r_ram HR). lia. }
  { done. }
  { unfold external in Hext. lia. }
  fold len in Hm1, Hm2. set (s2 := with_bytes m2 (with_heap h2 s1)).
  assert (HR2 : rep s2 M L kt lt (Some (k, true))).
  { apply rep_grow; [done|]. eapply (grows_fresh _ _ _ _ p len); [apply HR1|done|apply HR1|lia|done|done| |].
    - intros x Hx. exact (proj2 (Hf2 x ltac:(lia))).
    - intros x Hx. exact (proj2 (Hd2 x Hx)). }
  set (nd' := KvNode nd.(kn_key) p nd.(kn_count) nd.(kn_next)).
  set (s3 := with_kvnodes (<[q := nd']> s2.(kvnodes)) s2).
  assert (Hup : updateKVNode q vp s1 = Some (0, s3)).
  { unfold updateKVNode. rewrite (kv_bind _ _ _ _ _ (len1_run s1 vp v Hv Hlen)). cbv beta. fold len.
    rewrite (kv_bind _ _ _ _ _ Hxm). cbv beta. rewrite (proj2 (Z.eqb_neq p 0)) by done.
    rewrite (kv_bind _ _ _ tt s2); [|unfold copy_string; cbn [bytes with_heap]; change (bytes s1) with (bytes s); rewrite Hm1;
      cbn [mbind option_bind]; by rewrite Hm2].
    rewrite (kv_bind _ _ s2 nd s2) by by apply need_run. cbv beta.
    rewrite (kv_bind _ _ s2 tt s3); [done|]. apply put_kvnode_run; lia. }
  rewrite (kv_bind _ _ _ _ _ Hup). cbv beta. exists s3. split; [done|]. split; [|split; [constructor; try done|done]].
  - apply rep_setval; try done.
    + unfold s2. cbn [heap with_bytes with_heap]. rewrite Ho. apply lookup_insert_eq.
    + intros k' n' Hn'. destruct (Hpk k' n' Hn') as [G1 G2]. split; [by intros ->|]. intros Hkk ->. apply G2; congruence.
    + intros a Ha ->. by apply (Hpn a).
  - intros x Hx. apply (proj2 (Hf2 x ltac:(lia))).
Qed.

(** The four copies of createKVNode. *)
Lemma copy2_run (m : bmem) p1 p2 kp vp k v :
  mapped m p1 (Z.of_nat (length k) + 1) -> mapped m p2 (Z.of_nat (length v) + 1) ->
  (p1 + Z.of_nat (length k) + 1 <= p2 \/ p2 + Z.of_nat (length v) + 1 <= p1) ->
  str_at m kp k -> str_at m vp v ->
  (∀ x, (kp <= x < kp + Z.of_nat (length k) + 1) \/ (vp <= x < vp + Z.of_nat (length v) + 1) ->
    (x < p1 \/ p1 + Z.of_nat (length k) + 1 <= x) /\ (x < p2 \/ p2 + Z.of_nat (length v) + 1 <= x)) ->
  ∃ m1 m2 m3 m4, memset p1 0 (Z.of_nat (length k) + 1) m = Some (p1, m1) /\
    memset p2 0 (Z.of_nat (length v) + 1) m1 = Some (p2, m2) /\
    strncpy p1 kp (Z.of_nat (length k) + 1) m2 = Some (p1, m3) /\
    strncpy p2 vp (Z.of_nat (length v) + 1) m3 = Some (p2, m4) /\
    str_at m4 p1 k /\ str_at m4 p2 v /\
    (∀ x, (x < p1 \/ p1 + Z.of_nat (length k) + 1 <= x) -> (x < p2 \/ p2 + Z.of_nat (length v) + 1 <= x) -> m4 !! x = m !! x) /\
    (∀ x, is_Some (m !! x) -> is_Some (m4 !! x)).
Proof.
  intros H1 H2 Hd Hk Hv Hsep.
  replace (Z.of_nat (length k) + 1) with (Z.of_nat (S (length k))) in * by lia.
  replace (Z.of_nat (length v) + 1) with (Z.of_nat (S (length v))) in * by lia.
  unfold memset, strncpy. rewrite !Nat2Z.id.
  destruct (memset_loop_run (S (length k)) p1 0 m H1) as (m1 & E1 & Hf1 & Hd1).
  destruct (memset_loop_run (S (length v)) p2 0 m1) as (m2 & E2 & Hf2 & Hd2); [intros x Hx; by apply Hd1, H2|].
  destruct (strncpy_loop_run k p1 kp m2) as (m3 & E3 & Hs3 & Hf3 & Hd3).
  { intros x Hx. apply Hd2, Hd1, H1. lia. }
  { eapply str_at_frame; [exact Hk|]. intros x Hx. destruct (Hsep x ltac:(lia)). rewrite Hf2, Hf1; [done|lia|lia]. }
  { destruct (decide (p1 + Z.of_nat (length k) + 1 <= kp)); [by left|right].
    destruct (Hsep kp ltac:(lia)) as [G _]. assert (kp < p1) by lia.
    destruct (decide (kp + Z.of_nat (length k) + 1 <= p1)); [done|].
    destruct (Hsep p1 ltac:(lia)) as [G' _]. lia. }
  destruct (strncpy_loop_run v p2 vp m3) as (m4 & E4 & Hs4 & Hf4 & Hd4).
  { intros x Hx. apply Hd3, Hd2, Hd1, H2. lia. }
  { eapply str_at_frame; [exact Hv|]. intros x Hx. destruct (Hsep x ltac:(lia)). rewrite Hf3, Hf2, Hf1; [done|lia..]. }
  { destruct (decide (p2 + Z.of_nat (length v) + 1 <= vp)); [by left|right].
    destruct (Hsep vp ltac:(lia)) as [_ G]. assert (vp < p2) by lia.
    destruct (decide (vp + Z.of_nat (length v) + 1 <= p2)); [done|].
    destruct (Hsep p2 ltac:(lia)) as [_ G']. lia. }
  exists m1, m2, m3, m4. rewrite E1. cbn [mbind option_bind]. rewrite E2. cbn [mbind option_bind]. rewrite E3. cbn [mbind option_bind].
  rewrite E4. do 4 (split; [done|]). split; [|split; [done|split]].
  - eapply str_at_frame; [exact Hs3|]. intros x Hx. apply Hf4. lia.
  - intros x G1 G2. rewrite Hf4, Hf3, Hf2, Hf1; [done|lia..].
  - intros x Hx. by apply Hd4, Hd3, Hd2, Hd1.
Qed.

Lemma setKV_new s M L kt lt kp vp k v bnd n :
  rep s M L kt lt None -> key_at s.(bytes) kp k -> str_at s.(bytes) vp v ->
  external kp (Z.of_nat (length k) + 1) -> external vp (Z.of_nat (length v) + 1) ->
  Z.of_nat (length v) < 2147483647 -> Z.of_nat (length k) + 1 <= bnd -> Z.of_nat (length v) + 1 <= bnd -> 16 <= bnd ->
  plenty bnd (S (S (S n))) s.(heap) -> kt !! k = None ->
  ∃ q s', setKVHashTab kp vp s = Some (q, s') /\ rep s' (<[k := v]> M) L (<[k := q]> kt) lt None /\ unchanged s s' /\
    plenty bnd n s'.(heap).
Proof.
  intros HR Hkp Hv Hextk Hextv Hlenv Hbk Hbv H16 Hpl Hk. pose proof (r_alloc HR) as Hok. pose proof al_range as Hran.
  pose proof Hkp as (Hkp0 & Hks & Hkok). pose proof Hkok as (_ & _ & Hlenk).
  set (lk := Z.of_nat (length k) + 1) in *. set (lv := Z.of_nat (length v) + 1) in *.
  destruct (plenty_getmem bnd _ _ lk Hpl Hok ltac:(lia)) as (Hok1 & Hpl1 & Hfr1 & Ho1).
  set (p1 := (al_getmem lk s.(heap)).1) in *. set (h1 := (al_getmem lk s.(heap)).2) in *.
  destruct (plenty_xmalloc bnd _ _ lv Hpl1 Hok1 ltac:(lia)) as (Hok2 & Hpl2 & Hfr2 & Ho2).
  set (p2 := (al_xmalloc lv h1).1) in *. set (h2 := (al_xmalloc lv h1).2) in *.
  destruct (plenty_getmem bnd _ _ 16 Hpl2 Hok2 ltac:(lia)) as (Hok3 & Hpl3 & Hfr3 & Ho3).
  set (q := (al_getmem 16 h2).1) in *. set (h3 := (al_getmem 16 h2).2) in *.
  destruct (fresh_new _ _ _ _ _ _ p1 lk HR ltac:(lia) Hfr1) as (Hp10 & _ & _ & Hpn1 & Hpk1).
  destruct Hfr1 as (Hlo1 & Hhi1 & Hd1). destruct Hfr2 as (Hlo2 & Hhi2 & Hd2). destruct Hfr3 as (Hlo3 & Hhi3 & Hd3).
  assert (H12 : p1 + lk <= p2 \/ p2 + lv <= p1).
  { apply Hd2. rewrite Ho1. apply lookup_insert_eq. }
  assert (H1q : p1 + lk <= q \/ q + 16 <= p1).
  { apply Hd3. rewrite Ho2, lookup_insert_ne by lia. rewrite Ho1. apply lookup_insert_eq. }
  assert (H2q : p2 + lv <= q \/ q + 16 <= p2).
  { apply Hd3. rewrite Ho2. apply lookup_insert_eq. }
  assert (Hold2 : ∀ a m, owned s.(heap) !! a = Some m -> a + m <= p2 \/ p2 + lv <= a).
  { intros a m Ha. apply Hd2. rewrite Ho1, lookup_insert_ne; [done|].
    intros ->. pose proof (Hd1 _ _ Ha). destruct (al_blocks _ _ _ Hok Ha). lia. }
  assert (Hold3 : ∀ a m, owned s.(heap) !! a = Some m -> a + m <= q \/ q + 16 <= a).
  { intros a m Ha. destruct (al_blocks _ _ _ Hok Ha). apply Hd3. rewrite Ho2, lookup_insert_ne.
    - rewrite Ho1, lookup_insert_ne; [done|]. intros ->. pose proof (Hd1 _ _ Ha). lia.
    - intros ->. pose proof (Hold2 _ _ Ha). lia. }
  assert (Hfr2' : fresh al_lo al_hi (owned s.(heap)) p2 lv) by done.
  assert (Hfr3' : fresh al_lo al_hi (owned s.(heap)) q 16) by done.
  destruct (fresh_new _ _ _ _ _ _ p2 lv HR ltac:(lia) Hfr2') as (Hp20 & _ & _ & Hpn2 & Hpk2).
  destruct (fresh_new _ _ _ _ _ _ q 16 HR ltac:(lia) Hfr3') as (Hq0 & Hqe & _ & Hpnq & Hpkq).
  destruct (copy2_run s.(bytes) p1 p2 kp vp k v) as (m1 & m2 & m3 & m4 & E1 & E2 & E3 & E4 & Hs1 & Hs2 & Hf & Hdom); fold lk lv; try done.
  { intros x Hx. apply (r_ram HR). lia. }
  { intros x Hx. apply (r_ram HR). lia. }
  { lia. }
  { intros x Hx. unfold external in *. lia. }
  fold lk in E1, E3. fold lv in E2, E4.
  set (s1 := with_heap h1 s). set (s2 := with_heap h2 s1). set (s3 := with_bytes m4 s2). set (s4 := with_heap h3 s3).
  assert (Hg : grows s.(heap) s.(bytes) h3 m4).
  { split; [done|]. split; [intros x Hx; by apply Hdom, (r_ram HR)|]. intros a m Ha.
    pose proof (Hd1 _ _ Ha). pose proof (Hold2 _ _ Ha). pose proof (Hold3 _ _ Ha). destruct (al_blocks _ _ _ Hok Ha).
    split; [rewrite Ho3, Ho2, Ho1, !lookup_insert_ne by lia; done|]. intros x Hx. apply Hf; lia. }
  assert (HR4 : rep s4 M L kt lt None) by exact (rep_grow _ _ _ _ _ _ _ _ HR Hg).
  set (nq := KvNode p1 p2 0 0). set (s5 := with_kvnodes (<[q := nq]> s4.(kvnodes)) s4).
  assert (Hnoq : s.(kvnodes) !! q = None).
  { destruct (s.(kvnodes) !! q) eqn:E; [|done]. exfalso. apply (Hpnq q); [left; eauto|done]. }
  assert (Hkp4 : key_at m4 kp k).
  { split; [done|]. split; [|done]. apply (external_frame s.(bytes)); [done|done|]. intros x Hx. apply Hf; lia. }
  assert (Hext5 : hashtab kn_next kn_key s5.(kvHashTab) s5.(kvnodes) s5.(bytes) kt).
  { eapply hashtab_ext; [apply (r_kv HR4)| |done]. intros x y Hy. exists y. unfold s5. cbn [kvnodes with_kvnodes].
    rewrite lookup_insert_ne; [done|]. intros <-. change (kvnodes s4) with (kvnodes s) in Hy. congruence. }
  assert (Hcreate : createKVNode kp vp s = Some (q, s5)).
  { unfold createKVNode. rewrite (kv_bind _ _ _ _ _ (len1_run s kp k Hks Hlenk)). cbv beta. fold lk.
    rewrite (kv_bind _ _ _ _ _ (len1_run s vp v Hv Hlenv)). cbv beta. fold lv.
    rewrite (kv_bind (getmem lk) _ s p1 s1) by (unfold getmem, s1, p1, h1; by destruct (al_getmem lk (heap s))).
    rewrite (proj2 (Z.eqb_neq p1 0)) by done.
    rewrite (kv_bind (xmalloc lv) _ s1 p2 s2) by (unfold xmalloc, s2, p2, h2; cbn [heap s1 with_heap]; by destruct (al_xmalloc lv h1)).
    rewrite (proj2 (Z.eqb_neq p2 0)) by done.
    rewrite (kv_bind _ _ s2 tt s3).
    2: { change (bytes s2) with (bytes s). rewrite E1. cbn [mbind option_bind]. rewrite E2. cbn [mbind option_bind].
         rewrite E3. cbn [mbind option_bind]. by rewrite E4. }
    rewrite (kv_bind (getmem 16) _ s3 q s4) by (unfold getmem, s4, q, h3; cbn [heap s3 s2 with_bytes with_heap]; by destruct (al_getmem 16 h2)).
    rewrite (proj2 (Z.eqb_neq q 0)) by done. rewrite (kv_bind _ _ s4 tt s5); [done|]. by apply put_kvnode_run. }
  destruct (ht_bucket_of _ _ _ _ _ _ Hext5 k Hkok) as (h & l & Ha & Hh0 & Hc & Hnd & _ & Hfuel & Hl).
  assert (Hc4 : chain kn_next s4.(kvnodes) h l).
  { eapply chain_ext; [|exact Hc]. intros x Hx. unfold s5. cbn [kvnodes with_kvnodes]. rewrite lookup_insert_ne; [done|].
    intros <-. assert (Hin : q ∈ h :: l) by done. apply elem_of_cons in Hin as [E|Hin].
    - destruct (ht_head _ _ _ _ _ _ (r_kv HR4) _ _ Ha) as [y Hy]. rewrite <- E in Hy. change (kvnodes s4) with (kvnodes s) in Hy. congruence.
    - apply Hl in Hin as (k' & Hk' & _). destruct (ht_node _ _ _ _ _ _ (r_kv HR4) _ _ Hk') as (y & Hy & _).
      change (kvnodes s4) with (kvnodes s) in Hy. congruence. }
  set (e := default h (last l)).
  assert (Hein : e ∈ h :: l) by (unfold e; destruct (last l) eqn:El; [right; by eapply last_Some_elem_of|by left]).
  destruct (chain_nodes _ _ _ _ Hc4 e Hein) as [ne Hne].
  assert (Hqe' : q ≠ e) by (intros E; change (kvnodes s4) with (kvnodes s) in Hne; congruence).
  assert (Hne5 : s5.(kvnodes) !! e = Some ne) by (unfold s5; cbn [kvnodes with_kvnodes]; by rewrite lookup_insert_ne).
  destruct (rep_node HR4 e) as [He0 Hee]; [left; eauto|].
  exists q. eexists. split; [|split; [eapply (rep_addkey s4 M L kt lt k v p1 p2 q h l e ne HR4 Hk)|split]]; try done.
  - unfold setKVHashTab. rewrite (kv_bind _ _ s 0 s) by (rewrite (getKVHashTab_run s kt kp k (r_kv HR) Hkp); by rewrite Hk).
    change (negb (0 =? 0)) with false. cbv iota. rewrite (kv_bind _ _ _ _ _ Hcreate). cbv beta.
    destruct (kvHead_run s5 kp k Hkp4) as (h' & Ha' & Hr); [eauto|]. rewrite (kv_bind _ _ _ _ _ Hr). cbv beta.
    assert (h' = h) as -> by congruence.
    rewrite (kv_bind _ _ s5 e s5) by (apply need_run, bucket_end_run; [exact Hc|exact Hfuel]).
    rewrite (kv_bind _ _ s5 ne s5) by by apply need_run. cbv beta.
    rewrite (kv_bind _ _ _ _ _ (put_kvnode_run s5 e _ ltac:(lia) Hee)). reflexivity.
  - cbn [heap s4 with_heap]. rewrite Ho3. apply lookup_insert_eq.
  - cbn [heap s4 with_heap]. rewrite Ho3, lookup_insert_ne by lia. rewrite Ho2, lookup_insert_ne by lia. rewrite Ho1. apply lookup_insert_eq.
  - cbn [heap s4 with_heap]. rewrite Ho3, lookup_insert_ne by lia. rewrite Ho2. apply lookup_insert_eq.
  - lia.
  - lia.
  - intros k' m Hm. destruct (Hpk1 k' m Hm) as [_ G1]. destruct (Hpk2 k' m Hm) as [G2 G3]. destruct (Hpkq k' m Hm) as [_ G4].
    split; [by apply G1|]. split; [by apply G3|]. split; [by apply G4|done].
  - constructor; try done. intros x Hx. apply Hf; lia.
Qed.

(** ** The hash table of the cache *)

Definition same_prevkey (m m' : gmap Z LRUNode) (x : Z) : Prop :=
  (∃ n n', m !! x = Some n /\ m' !! x = Some n' /\ n'.(ln_prev) = n.(ln_prev) /\ n'.(ln_key) = n.(ln_key))
  \/ (m !! x = None /\ m' !! x = None).

Lemma same_prevkey_refl m x : same_prevkey m m x.
Proof. unfold same_prevkey. destruct (m !! x) as [n|] eqn:E; [left; exists n, n; done|by right]. Qed.

Lemma same_prevkey_trans m1 m2 m3 x : same_prevkey m1 m2 x -> same_prevkey m2 m3 x -> same_prevkey m1 m3 x.
Proof.
  intros [(n1 & n2 & H1 & H2 & H3 & H4)|[H1 H2]] [(n2' & n3 & G1 & G2 & G3 & G4)|[G1 G2]]; simplify_eq.
  - left. exists n1, n3. split; [done|]. split; [done|]. split; congruence.
  - by right.
Qed.

Lemma delLRU_run (s : st) lt kp k q : hashtab ln_next ln_key s.(lruHashTab) s.(lrunodes) s.(bytes) lt ->
  key_at s.(bytes) kp k -> lt !! k = Some q -> (∀ x, is_Some (s.(lrunodes) !! x) -> x ≠ 0 /\ x ≠ GETMEM_ERR) ->
  ∃ m', delLRUHashTab kp s = Some (0, with_lrunodes m' s) /\
    hashtab ln_next ln_key s.(lruHashTab) m' s.(bytes) (delete k lt) /\ ∀ x, same_prevkey s.(lrunodes) m' x.
Proof.
  intros Ht Hkp Hq Hpos. pose proof Hkp as (_ & Hks & _ & _ & Hlen).
  destruct (hashtab_remove _ _ _ _ _ _ _ _ _ Ht Hkp Hq) as (h & b & nb & nq & Ha & Hb & Hnb & Hnext & Hnq & _ & Hdel).
  destruct (Hpos b) as [Hb0 Hbe]; [eauto|].
  set (n' := LruNode nb.(ln_key) nb.(ln_prev) nq.(ln_next)).
  exists (<[b := n']> s.(lrunodes)). split; [|split; [by apply Hdel|]].
  - unfold delLRUHashTab. rewrite (kv_bind _ _ _ _ _ (len1_run s kp k Hks Hlen)). cbv beta.
    destruct (lruHead_run s kp k Hkp) as (h' & Ha' & Hr); [eauto|]. rewrite (kv_bind _ _ _ _ _ Hr). cbv beta.
    assert (h' = h) as -> by congruence. rewrite (kv_bind _ _ s b s) by by apply need_run. cbv beta.
    rewrite (proj2 (Z.eqb_neq b 0)) by done. rewrite (kv_bind _ _ s nb s) by by apply need_run.
    rewrite (kv_bind _ _ s nq s) by (apply need_run; by rewrite Hnext). cbv beta.
    by rewrite (kv_bind _ _ _ _ _ (put_lrunode_run s b _ Hb0 Hbe)).
  - intros x. destruct (decide (b = x)) as [<-|Hne].
    + left. exists nb, n'. by rewrite lookup_insert_eq.
    + pose proof (same_prevkey_refl s.(lrunodes) x) as Hs. unfold same_prevkey in *. by rewrite lookup_insert_ne.
Qed.

Lemma setLRU_new (s : st) lt kp k prev q h' : hashtab ln_next ln_key s.(lruHashTab) s.(lrunodes) s.(bytes) lt ->
  key_at s.(bytes) kp k -> lt !! k = None -> (∀ x, is_Some (s.(lrunodes) !! x) -> x ≠ 0 /\ x ≠ GETMEM_ERR) ->
  al_getmem 12 s.(heap) = (q, h') -> q ≠ 0 -> q ≠ GETMEM_ERR -> s.(lrunodes) !! q = None ->
  ∃ m', setLRUHashTab kp prev s = Some (0, with_lrunodes m' (with_heap h' s)) /\
    hashtab ln_next ln_key s.(lruHashTab) m' s.(bytes) (<[k := q]> lt) /\
    (∃ n, m' !! q = Some n /\ n.(ln_prev) = prev /\ n.(ln_key) = kp) /\
    ∀ x, x ≠ q -> same_prevkey s.(lrunodes) m' x.
Proof.
  intros Ht Hkp Hk Hpos Hget Hq0 Hqe Hq. pose proof Hkp as (_ & Hks & Hok).
  set (s1 := with_heap h' s). set (nq := LruNode kp prev 0). set (s2 := with_lrunodes (<[q := nq]> s1.(lrunodes)) s1).
  assert (Ht2 : hashtab ln_next ln_key s2.(lruHashTab) s2.(lrunodes) s2.(bytes) lt).
  { eapply hashtab_ext; [exact Ht| |done]. intros x y Hy. exists y. unfold s2. cbn [lrunodes with_lrunodes].
    rewrite lookup_insert_ne; [done|]. intros <-. congruence. }
  destruct (ht_bucket_of _ _ _ _ _ _ Ht k Hok) as (h & l & Ha & Hh0 & Hc & Hnd & _ & Hfuel & Hl).
  assert (Hqhl : q ∉ h :: l). { intros Hin. destruct (chain_nodes _ _ _ _ Hc q Hin). congruence. }
  assert (Hc2 : chain ln_next s2.(lrunodes) h l).
  { eapply chain_ext; [|exact Hc]. intros x Hx. unfold s2. cbn [lrunodes with_lrunodes]. rewrite lookup_insert_ne; [done|].
    by intros <-. }
  set (e := default h (last l)). assert (Hein : e ∈ h :: l) by apply last_in.
  destruct (chain_nodes _ _ _ _ Hc e Hein) as [ne Hne]. assert (Hqe' : q ≠ e) by (intros E; apply Hqhl; by rewrite E).
  destruct (Hpos e) as [He0 Hee]; [eauto|].
  assert (Hne2 : s2.(lrunodes) !! e = Some ne) by (unfold s2; cbn [lrunodes with_lrunodes]; by rewrite lookup_insert_ne).
  set (ne' := LruNode ne.(ln_key) ne.(ln_prev) q).
  exists (<[e := ne']> s2.(lrunodes)). split; [|split; [|split]].
  - unfold setLRUHashTab. rewrite (kv_bind _ _ s 0 s) by (rewrite (getLRUHashTab_run s lt kp k Ht Hkp); by rewrite Hk).
    change (negb (0 =? 0)) with false. cbv iota.
    assert (Hcr : createLRUNode kp prev s = Some (q, s2)).
    { unfold createLRUNode. rewrite (kv_bind (getmem 12) _ s q s1) by (unfold getmem; by rewrite Hget).
      rewrite (proj2 (Z.eqb_neq q 0)) by done. rewrite (kv_bind _ _ s1 tt s2); [done|]. by apply put_lrunode_run. }
    rewrite (kv_bind _ _ _ _ _ Hcr). cbv beta.
    destruct (lruHead_run s2 kp k Hkp) as (hh & Ha' & Hr); [eauto|]. rewrite (kv_bind _ _ _ _ _ Hr). cbv beta.
    assert (hh = h) as -> by (change (lruHashTab s2) with (lruHashTab s) in Ha'; congruence).
    rewrite (kv_bind _ _ s2 e s2); [|apply need_run, bucket_end_run; [exact Hc2|by eapply chain_fuel; [|inversion Hnd]]].
    rewrite (kv_bind _ _ s2 ne s2) by by apply need_run. cbv beta.
    by rewrite (kv_bind _ _ _ _ _ (put_lrunode_run s2 e _ He0 Hee)).
  - eapply (hashtab_insert _ _ _ s.(lrunodes) _ _ _ k q h l); try done.
    + intros x H1 H2. rewrite lookup_insert_ne by done. unfold s2. cbn [lrunodes with_lrunodes]. by rewrite lookup_insert_ne.
    + exists ne, ne'. fold e. by rewrite lookup_insert_eq.
    + exists nq. rewrite lookup_insert_ne by done. unfold s2. cbn [lrunodes with_lrunodes]. by rewrite lookup_insert_eq.
  - exists nq. rewrite lookup_insert_ne by done. unfold s2. cbn [lrunodes with_lrunodes]. by rewrite lookup_insert_eq.
  - intros x Hx. destruct (decide (e = x)) as [<-|Hex].
    + left. exists ne, ne'. by rewrite lookup_insert_eq.
    + pose proof (same_prevkey_refl s.(lrunodes) x) as Hs. unfold same_prevkey in *. rewrite lookup_insert_ne by done.
      unfold s2. cbn [lrunodes with_lrunodes]. by rewrite lookup_insert_ne.
Qed.

(** ** Setting a key in the cache *)

(** The entry of a replaced value is corrected. *)
Lemma rep_fix s M L kt lt k e x n : rep s M L kt lt (Some (k, false)) -> (k, e) ∈ L -> s.(entries) !! e = Some x ->
  node_of s kt k n -> rep (with_entries (<[e := LruEntry x.(le_key) (Some n.(kn_val)) x.(le_next)]> s.(entries)) s) M L kt lt None.
Proof.
  intros HR He Hx Hn. set (x' := LruEntry _ _ _). set (s' := with_entries _ s).
  assert (Hnext : ∀ y, nextf s' y = nextf s y).
  { intros y. unfold nextf, s'. simpl. destruct (decide (e = y)) as [<-|]; [by rewrite lookup_insert_eq, Hx|by rewrite lookup_insert_ne]. }
  assert (Hisn : ∀ a, is_node s' a -> is_node s a).
  { intros a [H|[H|H]]; [by left|by right; left|right; right]. unfold s' in H. simpl in H.
    destruct (decide (e = a)) as [<-|]; [eauto|by rewrite lookup_insert_ne in H]. }
  assert (Hkeys := r_keys HR).
  destruct HR as [R1 R2 R3 R4 R5 R6 R7 R8 R9 R10 R11 R12 R13 R14 R15 R16 R17 R18 R19]. constructor; try assumption.
  - intros k' v m HM Hm _. by apply (R7 k' v m).
  - intros a Ha. by apply R8, Hisn.
  - intros k1 k2 n1 n2 H1 H2 _. destruct (R9 k1 k2 n1 n2 H1 H2 ltac:(done)) as [G1 G2]. split; [done|]. intros _. by apply G2.
  - intros k' m a Hm _ Ha%Hisn. by apply (R10 k' m a).
  - eapply lru_ext; [exact R12|done| |done]. intros y _ _. apply Hnext.
  - unfold s'. simpl. destruct (decide (e = headLRU s)) as [->|]; [rewrite lookup_insert_eq; eauto|by rewrite lookup_insert_ne].
  - intros k' e' He'. destruct (R17 k' e' He') as (y & m & Hy & Hm & Hke & Hnx & Hv & Hst).
    destruct (decide (e = e')) as [<-|Hee].
    + exists x', m. unfold s'. simpl. rewrite lookup_insert_eq. split; [done|]. split; [done|].
      assert (x = y) as -> by congruence. do 2 (split; [done|]). split; [by eexists|]. intros _.
      assert (k' = k) as ->.
      { apply NoDup_cons in R14 as [_ R14]. apply list_elem_of_lookup in He as [i Hi]. apply list_elem_of_lookup in He' as [j Hj].
        assert (i = j) as ->.
        { eapply (NoDup_lookup L.*2); [done| |]; rewrite list_lookup_fmap; [by rewrite Hi|by rewrite Hj]. }
        congruence. }
      destruct Hn as (q & Hq & Hn), Hm as (q' & Hq' & Hm). simplify_eq. done.
    + exists y, m. unfold s'. simpl. rewrite lookup_insert_ne by done. do 5 (split; [done|]). intros _.
      apply Hst. intros b [= -> _]. apply Hee.
      apply list_elem_of_lookup in He as [i Hi]. apply list_elem_of_lookup in He' as [j Hj].
      assert (i = j) as ->.
      { eapply (NoDup_lookup L.*1); [done| |]; rewrite list_lookup_fmap; [by rewrite Hi|by rewrite Hj]. }
      congruence.
Qed.

(** A new entry [e] behind the last one. *)
Lemma rep_push s M L kt lt k n e q xt m' nq : rep s M L kt lt (Some (k, false)) -> k ∉ L.*1 -> node_of s kt k n ->
  s.(entries) !! e = None -> is_Some (owned s.(heap) !! e) -> is_Some (owned s.(heap) !! q) ->
  (∀ k' n', node_of s kt k' n' -> n'.(kn_val) ≠ e /\ n'.(kn_val) ≠ q) ->
  s.(entries) !! s.(tailLRU) = Some xt ->
  hashtab ln_next ln_key s.(lruHashTab) m' s.(bytes) (<[k := q]> lt) ->
  m' !! q = Some nq -> nq.(ln_prev) = s.(tailLRU) -> nq.(ln_key) = n.(kn_key) ->
  (∀ x, x ≠ q -> same_prevkey s.(lrunodes) m' x) -> lt !! k = None -> s.(lrunodes) !! q = None ->
  ∀ c, Z.of_nat (length L) + 1 <= c <= LRU_CACHE_SIZE ->
  rep (with_tailLRU e (with_lrunodes m' (with_counters c s.(totalHits) s.(totalAccesses) s.(totalSetSuccess) s.(totalEvictions)
      (with_entries (<[s.(tailLRU) := LruEntry xt.(le_key) xt.(le_val) (Some e)]>
        (<[e := LruEntry (Some n.(kn_key)) (Some n.(kn_val)) (Some 0)]> s.(entries))) s))))
    M (L ++ [(k, e)]) kt (<[k := q]> lt) None.
Proof.
  intros HR HkL Hn He Heo Hqo Hsep Hxt Hht Hnq Hprev Hkey Hsame Hltk Hq0 c Hc.
  set (t := s.(tailLRU)) in *. set (xe := LruEntry _ _ (Some 0)). set (xt' := LruEntry _ _ (Some e)). set (s' := with_tailLRU e _).
  assert (Het : e ≠ t) by congruence.
  assert (Hlook : ∀ y, s'.(entries) !! y = if decide (y = t) then Some xt' else if decide (y = e) then Some xe else s.(entries) !! y).
  { intros y. unfold s'. simpl. destruct (decide (y = t)) as [->|]; [by rewrite lookup_insert_eq|]. rewrite lookup_insert_ne by done.
    destruct (decide (y = e)) as [->|]; [by rewrite lookup_insert_eq|by rewrite lookup_insert_ne]. }
  assert (HeL : e ∉ s.(headLRU) :: L.*2). { intros Hin. destruct (rep_entries HR e Hin). congruence. }
  assert (Ht := r_tail HR). fold t in Ht.
  assert (Hisn : ∀ a, is_node s' a -> a = e \/ a = q \/ is_node s a).
  { intros a [H|[H|H]]; [right; right; by left| |].
    - unfold s' in H. simpl in H. destruct (decide (a = q)) as [->|Haq]; [right; by left|right; right; right; left].
      destruct (Hsame a Haq) as [(n1 & _ & Hn1 & _)|[_ Hn1]]; [eauto|]. rewrite Hn1 in H. by destruct H.
    - rewrite Hlook in H. destruct (decide (a = t)) as [->|]; [right; right; right; right; eauto|].
      destruct (decide (a = e)); [by left|right; right; right; by right]. }
  assert (Hpf : ∀ k', k' ∈ L.*1 -> prevf s' (<[k := q]> lt) k' = prevf s lt k').
  { intros k' Hk'. unfold prevf. rewrite lookup_insert_ne by by intros <-.
    destruct (lt !! k') as [q'|] eqn:Eq; [|done]. simpl.
    destruct (ht_node _ _ _ _ _ _ (r_lru HR) _ _ Eq) as (n1 & Hn1 & _).
    assert (Hqq : q' ≠ q) by congruence.
    destruct (Hsame q' Hqq) as [(n2 & n3 & G1 & G2 & G3 & _)|[G1 _]]; [|congruence].
    rewrite G1. unfold s'. simpl. rewrite G2. simpl. congruence. }
  destruct HR as [R1 R2 R3 R4 R5 R6 R7 R8 R9 R10 R11 R12 R13 R14 R15 R16 R17 R18 R19]. constructor; try assumption.
  - intros k' v m HM Hm _. by apply (R7 k' v m).
  - intros a [->|[->|Ha]]%Hisn; [done|done|by apply R8].
  - intros k1 k2 n1 n2 H1 H2 _. destruct (R9 k1 k2 n1 n2 H1 H2 ltac:(done)) as [G1 G2]. split; [done|]. intros _. by apply G2.
  - intros k' m a Hm _ [->|[->|Ha]]%Hisn; [by apply (Hsep k' m)|by apply (Hsep k' m)|by apply (R10 k' m a)].
  - intros k' q' l Hk' Hl. destruct (decide (k = k')) as [<-|Hkk].
    + rewrite lookup_insert_eq in Hk'. simplify_eq. exists n. split; [done|]. unfold s' in Hl. simpl in Hl. congruence.
    + rewrite lookup_insert_ne in Hk' by done. destruct (ht_node _ _ _ _ _ _ R4 _ _ Hk') as (n1 & Hn1 & _).
      assert (Hqq : q' ≠ q) by congruence. unfold s' in Hl. simpl in Hl.
      destruct (Hsame q' Hqq) as [(n2 & n3 & G1 & G2 & _ & G4)|[G1 _]]; [|congruence].
      assert (l = n3) as -> by congruence. destruct (R11 k' q' n2 Hk' G1) as (m & Hm & E). exists m. split; [done|congruence].
  - apply lru_app. change (headLRU s') with (headLRU s). split; [|rewrite <- Ht; split; [|split; [|done]]].
    + eapply lru_ext; [exact R12|done| |exact Hpf]. rewrite <- Ht. intros y Hy Hyt. unfold nextf.
      rewrite Hlook, !decide_False; [done| |done]. by intros ->.
    + unfold nextf. rewrite Hlook, decide_True by done. done.
    + unfold prevf. rewrite lookup_insert_eq. unfold s'. simpl. rewrite Hnq. simpl. congruence.
  - rewrite tail_of_app. done.
  - change (headLRU s') with (headLRU s). rewrite fmap_app. rewrite app_comm_cons. apply NoDup_app.
    split; [done|]. split; [|apply NoDup_singleton]. intros y Hy Hy'. apply list_elem_of_singleton in Hy' as ->. done.
  - change (headLRU s') with (headLRU s). rewrite Hlook. repeat case_decide; eauto.
  - rewrite fmap_app. apply NoDup_app. split; [done|]. split; [|apply NoDup_singleton].
    intros y Hy Hy'. apply list_elem_of_singleton in Hy' as ->. done.
  - intros k' e' He'. apply elem_of_app in He' as [He'|He'].
    + destruct (R17 k' e' He') as (y & m & Hy & Hm & Hke & Hnx & Hv & Hst).
      assert (Hfit : fits (Some (k, false)) k').
      { intros b [= -> _]. apply HkL. apply list_elem_of_fmap. by exists (k', e'). }
      destruct (decide (e' = t)) as [->|Het'].
      * exists xt', m. rewrite Hlook, decide_True by done. assert (y = xt) as -> by congruence. unfold xt'. simpl.
        do 3 (split; [done|]). split; [by eexists|]. split; [done|]. intros _. by apply Hst.
      * exists y, m. rewrite Hlook, !decide_False; [|congruence|done]. do 5 (split; [done|]). intros _. by apply Hst.
    + apply list_elem_of_singleton in He'. injection He' as -> ->. exists xe, n.
      rewrite Hlook, decide_False, decide_True by done. unfold xe. simpl. do 3 (split; [done|]). split; [by eexists|]. split; [by eexists|done].
  - intros k'. rewrite fmap_app, elem_of_app, R18. destruct (decide (k = k')) as [<-|Hkk].
    + rewrite lookup_insert_eq. split; [eauto|]. intros _. right. by left.
    + rewrite lookup_insert_ne by done. split; [|by left]. intros [?|Hin]; [done|]. apply list_elem_of_singleton in Hin. by subst.
  - rewrite length_app. simpl. unfold s'. simpl. lia.
Qed.

(** The first entry is given to another key. *)
Lemma rep_replace s M L k0 e0 kt lt k n q x0 m' nq : rep s M ((k0, e0) :: L) kt lt (Some (k, false)) ->
  k ∉ ((k0, e0) :: L).*1 -> node_of s kt k n ->
  is_Some (owned s.(heap) !! q) -> (∀ k' n', node_of s kt k' n' -> n'.(kn_val) ≠ q) ->
  s.(entries) !! e0 = Some x0 ->
  hashtab ln_next ln_key s.(lruHashTab) m' s.(bytes) (<[k := q]> (delete k0 lt)) ->
  m' !! q = Some nq -> nq.(ln_prev) = s.(headLRU) -> nq.(ln_key) = n.(kn_key) ->
  (∀ x, x ≠ q -> same_prevkey s.(lrunodes) m' x) -> s.(lrunodes) !! q = None ->
  rep (with_lrunodes m' (with_entries (<[e0 := LruEntry (Some n.(kn_key)) (Some n.(kn_val)) x0.(le_next)]> s.(entries)) s))
    M ((k, e0) :: L) kt (<[k := q]> (delete k0 lt)) None.
Proof.
  intros HR HkL Hn Hqo Hsep Hx0 Hht Hnq Hprev Hkey Hsame Hq0. set (x' := LruEntry _ _ _). set (s' := with_lrunodes m' _).
  cbn in HkL. apply not_elem_of_cons in HkL as [Hk0 HkL].
  assert (Hnext : ∀ y, nextf s' y = nextf s y).
  { intros y. unfold nextf, s'. simpl. destruct (decide (e0 = y)) as [<-|]; [by rewrite lookup_insert_eq, Hx0|by rewrite lookup_insert_ne]. }
  assert (Hisn : ∀ a, is_node s' a -> a = q \/ is_node s a).
  { intros a [H|[H|H]]; [by right; left| |right; right; right].
    - unfold s' in H. simpl in H. destruct (decide (a = q)) as [->|Haq]; [by left|right; right; left].
      destruct (Hsame a Haq) as [(n1 & _ & Hn1 & _)|[_ Hn1]]; [eauto|]. rewrite Hn1 in H. by destruct H.
    - unfold s' in H. simpl in H. destruct (decide (e0 = a)) as [<-|]; [eauto|by rewrite lookup_insert_ne in H]. }
  assert (Hprevkey : ∀ k' q' n1, k' ≠ k -> lt !! k' = Some q' -> s.(lrunodes) !! q' = Some n1 ->
    ∃ n2, m' !! q' = Some n2 /\ n2.(ln_prev) = n1.(ln_prev) /\ n2.(ln_key) = n1.(ln_key)).
  { intros k' q' n1 _ _ Hn1. assert (Hqq : q' ≠ q) by congruence.
    destruct (Hsame q' Hqq) as [(n2 & n3 & G1 & G2 & G3 & G4)|[G1 _]]; [|congruence].
    exists n3. assert (n2 = n1) as -> by congruence. done. }
  assert (Hpf : ∀ k', k' ∈ L.*1 -> prevf s' (<[k := q]> (delete k0 lt)) k' = prevf s lt k').
  { intros k' Hk'. assert (k' ≠ k) by by intros ->. pose proof (r_keys HR) as Hkd. apply NoDup_cons in Hkd as [Hkd _].
    unfold prevf. rewrite lookup_insert_ne by done. rewrite lookup_delete_ne by by intros ->.
    destruct (lt !! k') as [q'|] eqn:Eq; [|done]. simpl.
    destruct (ht_node _ _ _ _ _ _ (r_lru HR) _ _ Eq) as (n1 & Hn1 & _).
    destruct (Hprevkey k' q' n1) as (n2 & G1 & G2 & _); [done|done|done|]. rewrite Hn1. unfold s'. simpl. rewrite G1. simpl. congruence. }
  destruct HR as [R1 R2 R3 R4 R5 R6 R7 R8 R9 R10 R11 R12 R13 R14 R15 R16 R17 R18 R19]. constructor; try assumption.
  - intros k' v m HM Hm _. by apply (R7 k' v m).
  - intros a [->|Ha]%Hisn; [done|by apply R8].
  - intros k1 k2 n1 n2 H1 H2 _. destruct (R9 k1 k2 n1 n2 H1 H2 ltac:(done)) as [G1 G2]. split; [done|]. intros _. by apply G2.
  - intros k' m a Hm _ [->|Ha]%Hisn; [by apply (Hsep k' m)|by apply (R10 k' m a)].
  - intros k' q' l Hk' Hl. unfold s' in Hl. simpl in Hl. destruct (decide (k = k')) as [<-|Hkk].
    + rewrite lookup_insert_eq in Hk'. simplify_eq. by exists n.
    + rewrite lookup_insert_ne in Hk' by done. apply lookup_delete_Some in Hk' as [_ Hk'].
      destruct (ht_node _ _ _ _ _ _ R4 _ _ Hk') as (n1 & Hn1 & _).
      destruct (Hprevkey k' q' n1) as (n2 & G1 & _ & G3); [done|done|done|].
      assert (l = n2) as -> by congruence. destruct (R11 k' q' n1 Hk' Hn1) as (m & Hm & E). exists m. split; [done|congruence].
  - change (headLRU s') with (headLRU s). destruct R12 as (H1 & H2 & H3). split; [|split].
    + by rewrite Hnext.
    + unfold prevf. rewrite lookup_insert_eq. unfold s'. simpl. rewrite Hnq. simpl. congruence.
    + eapply lru_ext; [exact H3|by apply NoDup_cons in R14 as [_ ?]| |exact Hpf]. intros y _ _. apply Hnext.
  - unfold s'. simpl. destruct (decide (e0 = headLRU s)) as [->|]; [rewrite lookup_insert_eq; eauto|by rewrite lookup_insert_ne].
  - cbn. cbn in R16. apply NoDup_cons in R16 as [_ R16]. by constructor.
  - intros k' e' He'. apply elem_of_cons in He' as [[= -> ->]|He'].
    + destruct (R17 k0 e0) as (y & m & Hy & Hm & Hke & Hnx & Hv & Hst); [by left|].
      exists x', n. unfold s'. simpl. rewrite lookup_insert_eq. assert (x0 = y) as -> by congruence.
      do 3 (split; [done|]). split; [done|]. split; [by eexists|done].
    + destruct (R17 k' e') as (y & m & Hy & Hm & Hke & Hnx & Hv & Hst); [by right|].
      assert (e' ≠ e0).
      { intros ->. apply NoDup_cons in R14 as [_ R14]. cbn in R14. apply NoDup_cons in R14 as [R14 _]. apply R14.
        apply list_elem_of_fmap. by exists (k', e0). }
      exists y, m. unfold s'. simpl. rewrite lookup_insert_ne by done. do 5 (split; [done|]). intros _. apply Hst.
      intros b [= -> _]. apply HkL. apply list_elem_of_fmap. by exists (k', e').
  - intros k'. specialize (R18 k'). cbn in R18 |- *. rewrite elem_of_cons in R18 |- *.
    cbn in R16. apply NoDup_cons in R16 as [Hk0L _].
    destruct (decide (k' = k)) as [->|Hkk]; [rewrite lookup_insert_eq; split; eauto|].
    rewrite lookup_insert_ne by done. destruct (decide (k' = k0)) as [->|Hkk0].
    + rewrite lookup_delete_eq. split; [intros [?|?]; done|]. by intros [? ?].
    + rewrite lookup_delete_ne by done. rewrite <- R18. split; intros [?|?]; auto; done.
Qed.

(** Every node of the cache has an address. *)
Lemma lrunodes_pos s M L kt lt ho : rep s M L kt lt ho -> ∀ x, is_Some (s.(lrunodes) !! x) -> x ≠ 0 /\ x ≠ GETMEM_ERR.
Proof. intros HR x Hx. destruct (rep_node HR x); [by right; left|lia]. Qed.

Lemma setLRUCache_hit s M L1 k e L2 kt lt n : rep s M (L1 ++ (k, e) :: L2) kt lt (Some (k, false)) -> node_of s kt k n ->
  ∃ s', setLRUCache n.(kn_key) n.(kn_val) s = Some (0, s') /\ rep s' M (L1 ++ L2 ++ [(k, e)]) kt lt None /\
    s'.(counterLRU) = s.(counterLRU) /\ s'.(totalEvictions) = s.(totalEvictions) /\
    s'.(totalHits) = s32 (s.(totalHits) + 1) /\ s'.(totalAccesses) = s32 (s.(totalAccesses) + 1) /\
    s'.(totalSetSuccess) = s32 (s.(totalSetSuccess) + 1) /\ s'.(bytes) = s.(bytes) /\ s'.(heap) = s.(heap).
Proof.
  intros HR Hn. unfold setLRUCache. set (s0 := count_set s). rewrite (kv_bind (set_ count_set) _ s tt s0 eq_refl). cbv beta.
  assert (HR0 : rep s0 M (L1 ++ (k, e) :: L2) kt lt (Some (k, false))) by (apply rep_counters; [done|apply HR]).
  destruct (getLRUCache_hit _ _ _ _ _ _ _ _ _ n.(kn_key) HR0 (rep_key HR k n Hn)) as (s1 & Hrun & HR1 & Hfr & Hh & Ha & _).
  rewrite (kv_bind _ _ _ _ _ Hrun). cbv beta.
  assert (Hin : (k, e) ∈ L1 ++ L2 ++ [(k, e)]) by (rewrite !elem_of_app; right; right; by left).
  destruct (rep_entry HR1 k e Hin) as (x & kp & Hx & _).
  destruct (rep_node HR1 e) as [He0 Hee]; [right; right; eauto|].
  rewrite (proj2 (Z.eqb_neq e 0)) by lia. cbn [negb]. rewrite (kv_bind _ _ s1 x s1) by by apply need_run.
  rewrite (kv_bind _ _ _ _ _ (put_entry_run s1 e _ ltac:(lia) Hee)). cbv beta.
  eexists. split; [reflexivity|]. destruct (fr_nodes _ _ _ Hfr k n Hn) as (n' & Hn' & _ & E2).
  rewrite <- E2. split; [by eapply rep_fix|]. cbn [counterLRU totalEvictions totalHits totalAccesses totalSetSuccess bytes heap with_entries].
  rewrite (fr_counter _ _ _ Hfr), (fr_evictions _ _ _ Hfr), (fr_sets _ _ _ Hfr), (fr_bytes _ _ _ Hfr), (fr_heap _ _ _ Hfr).
  by repeat split.
Qed.
End Rep.
