(* ===== verification/Kvops.v ===== *)
(** The operations of the key-value store: kv_get, kv_set and kv_delete on a state
    that holds a map and a list of keys in the order of use are the operations on
    the map and the list. *)

From S2P Require Import Prelude Types Cstring Kv Kvtab Kvlru.

#[local] Arguments Z.eqb : simpl never.
#[local] Arguments Z.ltb : simpl never.
#[local] Arguments Z.rem : simpl never.
#[local] Arguments Z.mul : simpl never.
#[local] Arguments Z.add : simpl never.
#[local] Existing Instances KV_ret KV_bind.

(** * What the store promises *)

(** A map from keys to values, the keys in the cache from the least to the most
    recently used one, the number of entries the cache was given, and the
    statistics. *)
Record astore := Astore {
  a_map : gmap (list Z) (list Z);
  a_recent : list (list Z);
  a_count : Z;
  a_hits : Z;
  a_accesses : Z;
  a_sets : Z;
  a_evictions : Z }.

Definition touch (k : list Z) (R : list (list Z)) : list (list Z) := filter (.≠ k) R ++ [k].

Definition spec_access (k : list Z) (a : astore) : astore :=
  if decide (k ∈ a.(a_recent)) then
    Astore a.(a_map) (touch k a.(a_recent)) a.(a_count) (s32 (a.(a_hits) + 1)) (s32 (a.(a_accesses) + 1)) a.(a_sets) a.(a_evictions)
  else Astore a.(a_map) a.(a_recent) a.(a_count) a.(a_hits) (s32 (a.(a_accesses) + 1)) a.(a_sets) a.(a_evictions).

Definition spec_get (k : list Z) (a : astore) : option (list Z) * astore := (a.(a_map) !! k, spec_access k a).

(** The key becomes the most recently used one; when the cache is full, the least
    recently used one leaves it. *)
Definition spec_cache (k : list Z) (a : astore) : astore :=
  let b := spec_access k a in
  let sets := s32 (a.(a_sets) + 1) in
  if decide (k ∈ a.(a_recent)) then
    Astore b.(a_map) b.(a_recent) b.(a_count) b.(a_hits) b.(a_accesses) sets b.(a_evictions)
  else if b.(a_count) <? LRU_CACHE_SIZE then
    Astore b.(a_map) (b.(a_recent) ++ [k]) (b.(a_count) + 1) b.(a_hits) b.(a_accesses) sets b.(a_evictions)
  else
    Astore b.(a_map) (tail b.(a_recent) ++ [k]) b.(a_count) b.(a_hits) b.(a_accesses) sets (s32 (b.(a_evictions) + 1)).

Definition spec_put (k v : list Z) (a : astore) : astore :=
  Astore (<[k := v]> a.(a_map)) a.(a_recent) a.(a_count) a.(a_hits) a.(a_accesses) a.(a_sets) a.(a_evictions).

Definition spec_set (k v : list Z) (a : astore) : astore := spec_cache k (spec_put k v a).

(** The entry of a key that is deleted is lost: [a_count] stays. *)
Definition spec_delete (k : list Z) (a : astore) : Z * astore :=
  (if a.(a_map) !! k is Some _ then 0 else 1,
   Astore (delete k a.(a_map)) (filter (.≠ k) a.(a_recent)) a.(a_count) a.(a_hits) a.(a_accesses) a.(a_sets) a.(a_evictions)).

(** There is an entry for one more key: a new one, or one that is in the cache. *)
Definition has_room (a : astore) : Prop := a.(a_count) < LRU_CACHE_SIZE \/ a.(a_recent) ≠ [].
Section Ops.
Context {A : Type} {HA : Allocator A} {HL : AllocatorLaws A}.
#[local] Abbreviation st := (kvst A).
#[local] Abbreviation str := (list Z).

(** ** A new entry in the cache *)

Lemma getmem_run (s : st) n : getmem n s = Some ((al_getmem n s.(heap)).1, with_heap (al_getmem n s.(heap)).2 s).
Proof. unfold getmem. by destruct (al_getmem n (heap s)). Qed.

Lemma setLRUCache_push (s : st) M L k kt lt n bnd j :
  rep s M L kt lt (Some (k, false)) -> k ∉ L.*1 -> node_of s kt k n -> s.(counterLRU) < LRU_CACHE_SIZE ->
  12 <= bnd -> plenty bnd (S (S j)) s.(heap) ->
  ∃ s' e lt', setLRUCache n.(kn_key) n.(kn_val) s = Some (0, s') /\ rep s' M (L ++ [(k, e)]) kt lt' None /\
    s'.(counterLRU) = s.(counterLRU) + 1 /\ s'.(totalEvictions) = s.(totalEvictions) /\ s'.(bytes) = s.(bytes) /\
    s'.(totalHits) = s.(totalHits) /\ s'.(totalAccesses) = s32 (s.(totalAccesses) + 1) /\
    s'.(totalSetSuccess) = s32 (s.(totalSetSuccess) + 1) /\ plenty bnd j s'.(heap).
Proof.
  intros HR HkL Hn Hcnt Hbnd Hpl. unfold setLRUCache. set (s0 := count_set s).
  rewrite (kv_bind (set_ count_set) _ s tt s0 eq_refl). cbv beta.
  assert (HR0 : rep s0 M L kt lt (Some (k, false))) by (apply rep_counters; [done|apply (r_cnt _ _ _ _ _ _ HR)]).
  destruct (getLRUCache_miss _ _ _ _ _ _ n.(kn_key) k HR0 (rep_key HR k n Hn) HkL) as (s1 & Hrun & HR1 & Hfr & Hh & Ha).
  rewrite (kv_bind _ _ _ _ _ Hrun). cbv beta. change (negb (0 =? 0)) with false. cbv iota.
  destruct (fr_nodes _ _ _ Hfr k n Hn) as (n' & Hn' & Ek & Ev). rewrite <- Ek, <- Ev. pose proof (fr_bytes _ _ _ Hfr) as Eb.
  pose proof (fr_counter _ _ _ Hfr) as Ec. pose proof (fr_heap _ _ _ Hfr) as Eh. pose proof (fr_evictions _ _ _ Hfr) as Ee.
  pose proof (fr_sets _ _ _ Hfr) as Es.
  cbn in Eb, Ec, Eh, Ee, Es, Hh, Ha. clear Hrun.
  rewrite (kv_bind (get counterLRU) _ s1 (counterLRU s1) s1 eq_refl). cbv beta.
  rewrite (proj2 (Z.ltb_lt (counterLRU s1) LRU_CACHE_SIZE)) by (rewrite Ec; done).
  pose proof (r_cnt _ _ _ _ _ _ HR1) as Hc1. set (s2 := count_entry s1).
  rewrite (kv_bind (set_ count_entry) _ s1 tt s2 eq_refl). cbv beta.
  rewrite <- Eh in Hpl.
  destruct (plenty_getmem bnd (S j) s1.(heap) 12 Hpl (r_alloc _ _ _ _ _ _ HR1) ltac:(lia)) as (Hok1 & Hpl1 & Hfr1 & Ho1).
  set (e := (al_getmem 12 s1.(heap)).1) in *. set (h1 := (al_getmem 12 s1.(heap)).2) in *.
  destruct (plenty_getmem bnd j h1 12 Hpl1 Hok1 ltac:(lia)) as (Hok2 & Hpl2 & Hfr2 & Ho2).
  set (q := (al_getmem 12 h1).1) in *. set (h2 := (al_getmem 12 h1).2) in *.
  destruct (fresh_new _ _ _ _ _ _ e 12 HR1 ltac:(lia) Hfr1) as (He0 & Hee & _ & Hne & Hke).
  assert (HG1 : rep (with_heap h1 s1) M L kt lt (Some (k, false))).
  { apply (rep_grow s1 _ _ _ _ _ h1 s1.(bytes)); [done|].
    by eapply (grows_fresh _ _ _ _ e 12); [apply HR1|done|apply HR1|lia|done|done| |]. }
  assert (HG2 : rep (with_heap h2 s1) M L kt lt (Some (k, false))).
  { apply (rep_grow (with_heap h1 s1) _ _ _ _ _ h2 s1.(bytes)); [done|].
    by eapply (grows_fresh _ _ _ _ q 12); [apply HG1|done|apply HG1|lia|done|done| |]. }
  destruct (fresh_new _ _ _ _ _ _ q 12 HG1 ltac:(lia) Hfr2) as (Hq0 & Hqe & Hqo & Hnq & Hkq).
  assert (Heq : e ≠ q). { intros E. cbn [heap with_heap] in Hqo. rewrite Ho1, <- E, lookup_insert_eq in Hqo. done. }
  assert (Hent : s1.(entries) !! e = None).
  { destruct (s1.(entries) !! e) eqn:E; [|done]. exfalso. apply (Hne e); [right; right; eauto|done]. }
  assert (Hlq : s1.(lrunodes) !! q = None).
  { destruct (s1.(lrunodes) !! q) eqn:E; [|done]. exfalso. apply (Hnq q); [right; left; eauto|done]. }
  assert (Hlk : lt !! k = None).
  { destruct (lt !! k) eqn:E; [|done]. exfalso. apply HkL, (r_ltab _ _ _ _ _ _ HR1). eauto. }
  set (xe := LruEntry (Some n'.(kn_key)) (Some n'.(kn_val)) (Some 0)).
  set (s3 := with_entries (<[e := xe]> s1.(entries)) (with_heap h1 s2)).
  rewrite (kv_bind (createLRUEntry _ _) _ s2 e s3).
  2: { unfold createLRUEntry. rewrite (kv_bind _ _ _ _ _ (getmem_run s2 12)).
       change (heap s2) with (heap s1). fold e h1. rewrite (proj2 (Z.eqb_neq e 0)) by done.
       by rewrite (kv_bind _ _ _ _ _ (put_entry_run _ e _ He0 Hee)). }
  rewrite (kv_bind (get tailLRU) _ s3 (tailLRU s1) s3 eq_refl). cbv beta. set (t := tailLRU s1).
  assert (Htin : t ∈ s1.(headLRU) :: L.*2) by (unfold t; rewrite (r_tail _ _ _ _ _ _ HR1); apply tail_of_in).
  destruct (rep_entries HR1 t Htin) as [xt Hxt]. assert (Het : e ≠ t) by congruence.
  destruct (rep_node HR1 t) as [Ht0 Hte]; [right; right; eauto|].
  assert (Hxt3 : s3.(entries) !! t = Some xt) by (unfold s3; cbn [entries with_entries]; by rewrite lookup_insert_ne).
  rewrite (kv_bind _ _ _ _ _ (set_next_run s3 t xt e Hxt3 ltac:(lia) Hte)). cbv beta. set (s4 := with_entries _ s3).
  destruct (setLRU_new s4 lt n'.(kn_key) k t q h2) as (m' & Hset & Hht & (nq & Hnq' & Hprev & Hkey) & Hsame); try done.
  { apply (r_lru _ _ _ _ _ _ HR1). }
  { apply (rep_key HR1 k n' Hn'). }
  { apply (lrunodes_pos _ _ _ _ _ _ HR1). }
  { change (heap s4) with h1. unfold q, h2. by destruct (al_getmem 12 h1). }
  rewrite (kv_bind _ _ _ _ _ Hset). cbv beta. rewrite (kv_bind (set_ _) _ _ tt _ eq_refl). cbv beta.
  eexists _, e, (<[k := q]> lt). split; [reflexivity|]. split.
  - apply (rep_push (with_heap h2 s1) M L kt lt k n' e q xt m' nq HG2 HkL Hn'); try done.
    + cbn [heap with_heap]. rewrite Ho2, lookup_insert_ne by done. rewrite Ho1, lookup_insert_eq. eauto.
    + cbn [heap with_heap]. rewrite Ho2, lookup_insert_eq. eauto.
    + intros k' m Hm. split; [apply (Hke k' m Hm); congruence|apply (Hkq k' m Hm); congruence].
    + change (counterLRU s4) with (s32 (counterLRU s1 + 1)). rewrite s32_id by (unfold is_s32, LRU_CACHE_SIZE in *; lia). rewrite Ec. unfold LRU_CACHE_SIZE in *. lia.
  - cbn. unfold s4, s3, s2. cbn. rewrite s32_id by (unfold is_s32, LRU_CACHE_SIZE in *; lia). rewrite Ec, Ee, Es, Eb, Hh, Ha. done.
Qed.

(** ** The least recently used entry for a new key *)

Lemma setLRUCache_evict (s : st) M k0 e0 L k kt lt n bnd j :
  rep s M ((k0, e0) :: L) kt lt (Some (k, false)) -> k ∉ ((k0, e0) :: L).*1 -> node_of s kt k n ->
  LRU_CACHE_SIZE <= s.(counterLRU) -> 12 <= bnd -> plenty bnd (S j) s.(heap) ->
  ∃ s' lt', setLRUCache n.(kn_key) n.(kn_val) s = Some (0, s') /\ rep s' M (L ++ [(k, e0)]) kt lt' None /\
    s'.(counterLRU) = s.(counterLRU) /\ s'.(totalEvictions) = s32 (s.(totalEvictions) + 1) /\ s'.(bytes) = s.(bytes) /\
    s'.(totalHits) = s.(totalHits) /\ s'.(totalAccesses) = s32 (s.(totalAccesses) + 1) /\
    s'.(totalSetSuccess) = s32 (s.(totalSetSuccess) + 1) /\ plenty bnd j s'.(heap).
Proof.
  intros HR HkL Hn Hcnt Hbnd Hpl. unfold setLRUCache. set (s0 := count_set s).
  rewrite (kv_bind (set_ count_set) _ s tt s0 eq_refl). cbv beta.
  assert (HR0 : rep s0 M ((k0, e0) :: L) kt lt (Some (k, false))) by (apply rep_counters; [done|apply (r_cnt _ _ _ _ _ _ HR)]).
  destruct (getLRUCache_miss _ _ _ _ _ _ n.(kn_key) k HR0 (rep_key HR k n Hn) HkL) as (s1 & Hrun & HR1 & Hfr & Hh & Ha).
  rewrite (kv_bind _ _ _ _ _ Hrun). cbv beta. change (negb (0 =? 0)) with false. cbv iota.
  destruct (fr_nodes _ _ _ Hfr k n Hn) as (n' & Hn' & Ek & Ev). rewrite <- Ek, <- Ev. pose proof (fr_bytes _ _ _ Hfr) as Eb.
  pose proof (fr_counter _ _ _ Hfr) as Ec. pose proof (fr_heap _ _ _ Hfr) as Eh. pose proof (fr_evictions _ _ _ Hfr) as Ee.
  pose proof (fr_sets _ _ _ Hfr) as Es.
  cbn in Eb, Ec, Eh, Ee, Es, Hh, Ha. clear Hrun.
  rewrite (kv_bind (get counterLRU) _ s1 (counterLRU s1) s1 eq_refl). cbv beta.
  rewrite (proj2 (Z.ltb_ge (counterLRU s1) LRU_CACHE_SIZE)) by (rewrite Ec; done).
  rewrite (kv_bind (get headLRU) _ s1 (headLRU s1) s1 eq_refl). cbv beta. set (h := headLRU s1).
  pose proof (r_list _ _ _ _ _ _ HR1) as (Hnh & _). fold h in Hnh.
  rewrite (kv_bind _ _ _ _ _ (next_of_run s1 h e0 Hnh)). cbv beta.
  assert (Hin : (k0, e0) ∈ (k0, e0) :: L) by by left.
  destruct (key_of_run s1 s1 _ _ _ _ _ k0 e0 HR1 Hin (same_entries_refl _)) as (kp & Hk & Hkp).
  rewrite (kv_bind _ _ _ _ _ Hk). cbv beta.
  destruct (rep_lrunode HR1 k0) as (q0 & _ & Hq0 & _ & _); [by left|].
  destruct (delLRU_run s1 lt kp k0 q0 (r_lru _ _ _ _ _ _ HR1) Hkp Hq0 (lrunodes_pos _ _ _ _ _ _ HR1)) as (m1 & Hdel & Hht1 & Hsame1).
  rewrite (kv_bind _ _ _ _ _ Hdel). cbv beta. set (s2 := with_lrunodes m1 s1).
  destruct (rep_entry HR1 k0 e0 Hin) as (x0 & kp0 & Hx0 & _).
  destruct (rep_node HR1 e0) as [He0 Hee]; [right; right; eauto|].
  rewrite (kv_bind _ _ s2 x0 s2) by by apply need_run.
  rewrite (kv_bind _ _ _ _ _ (put_entry_run s2 e0 _ ltac:(lia) Hee)). cbv beta. set (s3 := with_entries _ s2).
  rewrite <- Eh in Hpl.
  destruct (plenty_getmem bnd j s1.(heap) 12 Hpl (r_alloc _ _ _ _ _ _ HR1) ltac:(lia)) as (Hok1 & Hpl1 & Hfr1 & Ho1).
  set (q := (al_getmem 12 s1.(heap)).1) in *. set (h1 := (al_getmem 12 s1.(heap)).2) in *.
  destruct (fresh_new _ _ _ _ _ _ q 12 HR1 ltac:(lia) Hfr1) as (Hqz & Hqe & _ & Hnq & Hkq).
  assert (HG1 : rep (with_heap h1 s1) M ((k0, e0) :: L) kt lt (Some (k, false))).
  { apply (rep_grow s1 _ _ _ _ _ h1 s1.(bytes)); [done|].
    by eapply (grows_fresh _ _ _ _ q 12); [apply HR1|done|apply HR1|lia|done|done| |]. }
  assert (Hlq : s1.(lrunodes) !! q = None).
  { destruct (s1.(lrunodes) !! q) eqn:E; [|done]. exfalso. apply (Hnq q); [right; left; eauto|done]. }
  assert (Hlk : lt !! k = None).
  { destruct (lt !! k) eqn:E; [|done]. exfalso. apply HkL, (r_ltab _ _ _ _ _ _ HR1). eauto. }
  destruct (setLRU_new s3 (delete k0 lt) n'.(kn_key) k h q h1) as (m' & Hset & Hht & (nq & Hnq' & Hprev & Hkey) & Hsame); try done.
  { apply (rep_key HR1 k n' Hn'). }
  { by rewrite lookup_delete_None, Hlk; right. }
  { intros x [y Hy]. apply (lrunodes_pos _ _ _ _ _ _ HR1). change (lrunodes s3) with m1 in Hy.
    destruct (Hsame1 x) as [(n1 & _ & Hn1 & _)|[_ ?]]; [eauto|congruence]. }
  { change (heap s3) with (heap s1). unfold q, h1. by destruct (al_getmem 12 (heap s1)). }
  { change (lrunodes s3) with m1. destruct (Hsame1 q) as [(n1 & _ & Hn1 & _)|[_ ?]]; [congruence|done]. }
  rewrite (kv_bind _ _ _ _ _ Hset). cbv beta. set (s4 := with_lrunodes m' _).
  assert (HR4 : rep s4 M ([] ++ (k, e0) :: L) kt (<[k := q]> (delete k0 lt)) None).
  { apply (rep_replace (with_heap h1 s1) M L k0 e0 kt lt k n' q x0 m' nq HG1 HkL Hn'); try done.
    - cbn [heap with_heap]. rewrite Ho1, lookup_insert_eq. eauto.
    - intros k' m Hm. apply (Hkq k' m Hm). congruence.
    - intros x Hx. eapply same_prevkey_trans; [apply Hsame1|by apply Hsame]. }
  destruct (movLRUCache_run _ _ _ _ _ _ _ _ _ HR4) as (s5 & Hmov & HR5 & Hst & _ & _).
  change (tail_of (headLRU s4) []) with h in Hmov. rewrite (kv_bind _ _ _ _ _ Hmov). cbv beta.
  rewrite (kv_bind (set_ _) _ _ tt _ eq_refl). cbv beta. eexists _, (<[k := q]> (delete k0 lt)). split; [reflexivity|].
  destruct Hst as (E1 & E2 & E3 & E4 & E5 & E6 & E7 & E8 & E9 & E10 & E11). split.
  { apply rep_counters; [done|apply (r_cnt _ _ _ _ _ _ HR5)]. }
  cbn. rewrite E1, E6, E7, E8, E9, E10, E11. cbn. by rewrite Ec, Ee, Es, Eb, Hh, Ha.
Qed.

(** ** Taking a key out of the cache *)

(** Nodes of the cache that differ at most in their links. *)
Definition same_lkeys (m m' : gmap Z LRUNode) : Prop :=
  ∀ x, (∃ n n', m !! x = Some n /\ m' !! x = Some n' /\ n'.(ln_key) = n.(ln_key)) \/ (m !! x = None /\ m' !! x = None).

Lemma rep_unlink (s : st) M L1 k e L2 kt lt m' es t : rep s M (L1 ++ (k, e) :: L2) kt lt None ->
  hashtab ln_next ln_key s.(lruHashTab) m' s.(bytes) (delete k lt) ->
  same_lkeys s.(lrunodes) m' -> same_entries s.(entries) es ->
  let s' := with_tailLRU t (with_lrunodes m' (with_entries es s)) in
  lru (nextf s') (prevf s' (delete k lt)) s.(headLRU) (L1 ++ L2) -> t = tail_of s.(headLRU) (L1 ++ L2) ->
  rep s' M (L1 ++ L2) kt (delete k lt) None.
Proof.
  intros HR Hht Hln Hes s' Hlru Ht.
  assert (Hisn : ∀ a, is_node s' a -> is_node s a).
  { intros a [H|[H|H]]; [by left|right; left|right; right].
    - destruct (Hln a) as [(n & _ & Hn & _)|[_ Hn]]; [eauto|]. cbn in H. rewrite Hn in H. by destruct H.
    - destruct (Hes a) as [(n & _ & Hn & _)|[_ Hn]]; [eauto|]. cbn in H. rewrite Hn in H. by destruct H. }
  assert (Hsub : L1 ++ L2 ⊆+ L1 ++ (k, e) :: L2) by (apply submseteq_app; [done|by apply submseteq_cons]).
  destruct HR as [R1 R2 R3 R4 R5 R6 R7 R8 R9 R10 R11 R12 R13 R14 R15 R16 R17 R18 R19]. constructor; try assumption.
  - intros a Ha. by apply R8, Hisn.
  - intros k' m a Hm _ Ha%Hisn. by apply (R10 k' m a).
  - intros k' q' l [_ Hk']%lookup_delete_Some Hl. destruct (Hln q') as [(n1 & n2 & H1 & H2 & E)|[_ ?]]; [|cbn in Hl; congruence].
    destruct (R11 k' q' n1 Hk' H1) as (m & Hm & Em). exists m. split; [done|]. cbn in Hl. congruence.
  - clear -R14. change (headLRU s') with (headLRU s). rewrite fmap_app, fmap_cons in R14. rewrite fmap_app.
    rewrite app_comm_cons in R14 |- *. rewrite <- Permutation_middle in R14. by apply NoDup_cons in R14 as [_ ?].
  - destruct R15 as [x Hx]. change (headLRU s') with (headLRU s). destruct (Hes (headLRU s)) as [(n & n' & _ & Hn & _)|[? _]]; [|congruence].
    exists n'. done.
  - clear -R16. rewrite fmap_app, fmap_cons in R16. rewrite fmap_app. rewrite <- Permutation_middle in R16.
    by apply NoDup_cons in R16 as [_ ?].
  - intros k' e' Hin. destruct (R17 k' e') as (x & m & Hx & Hm & Hke & Hnx & Hv & Hst); [by eapply elem_of_submseteq|].
    destruct (Hes e') as [(x1 & x2 & H1 & H2 & H3 & H4 & H5)|[? _]]; [|congruence]. simplify_eq.
    exists x2, m. rewrite H3, H4. auto 10.
  - intros k'. rewrite fmap_app, fmap_cons, <- Permutation_middle in R16. cbn in R16. rewrite <- fmap_app in R16.
    apply NoDup_cons in R16 as [Hk _]. specialize (R18 k'). rewrite fmap_app, fmap_cons, elem_of_app, elem_of_cons in R18. cbn in R18.
    destruct (decide (k' = k)) as [->|Hkk].
    + rewrite lookup_delete_eq. split; [done|]. by intros [? ?].
    + rewrite lookup_delete_ne, <- R18 by done. rewrite fmap_app, elem_of_app. tauto.
  - rewrite length_app in R19 |- *. cbn in R19 |- *. lia.
Qed.

Lemma same_lkeys_of m m' m'' : same_lrunodes m m' -> (∀ x, same_prevkey m' m'' x) -> same_lkeys m m''.
Proof.
  intros H1 H2 x. destruct (H1 x) as [(n1 & n2 & G1 & G2 & _ & G3)|[G1 G2]], (H2 x) as [(m1 & m2 & F1 & F2 & _ & F3)|[F1 F2]];
    simplify_eq; [left|by right]. exists n1, m2. do 2 (split; [done|]). congruence.
Qed.

(** The links around the entry are set past it. *)
Lemma delLRUCache_hit (s : st) M L1 k e L2 kt lt kp :
  rep s M (L1 ++ (k, e) :: L2) kt lt None -> key_at s.(bytes) kp k ->
  ∃ s', delLRUCache kp s = Some (0, s') /\ rep s' M (L1 ++ L2) kt (delete k lt) None /\ same_store s s'.
Proof.
  intros HR Hk. set (h := headLRU s). set (p := tail_of h L1).
  destruct (rep_lrunode HR k) as (q & n & Hq & Hn & Hq0).
  { apply list_elem_of_fmap. exists (k, e). split; [done|]. apply elem_of_app. right. by left. }
  pose proof (r_list _ _ _ _ _ _ HR) as Hlru. apply lru_app in Hlru as [Hlru1 (Hnp & Hpk & Hlru2)]. fold h p in Hnp, Hpk, Hlru1.
  pose proof (r_tail _ _ _ _ _ _ HR) as Ht. rewrite tail_of_app, tail_of_cons in Ht.
  pose proof (r_nodup _ _ _ _ _ _ HR) as Hnd. pose proof (r_keys _ _ _ _ _ _ HR) as Hkd. fold h in Hnd.
  rewrite fmap_app, !fmap_cons in Hnd. rewrite fmap_app, !fmap_cons in Hkd. cbn [fst snd] in Hnd, Hkd.
  rewrite app_comm_cons in Hnd. apply NoDup_app in Hnd as (Hnd1 & Hdis & Hnd2). apply NoDup_cons in Hnd2 as [HeL2 Hnd2].
  apply NoDup_app in Hkd as (Hkd1 & Hkdis & Hkd2). apply NoDup_cons in Hkd2 as [HkL2 Hkd2].
  assert (Hp : p ∈ h :: L1.*2) by apply tail_of_in.
  assert (Hprev : ln_prev n = p).
  { unfold prevf in Hpk. rewrite Hq in Hpk. simpl in Hpk. rewrite Hn in Hpk. simpl in Hpk. by simplify_eq. }
  assert (Hin : (k, e) ∈ L1 ++ (k, e) :: L2) by (apply elem_of_app; right; by left).
  destruct (r_ents _ _ _ _ _ _ HR k e Hin) as (xe & _ & Hxe & _ & _ & [ne Hne] & _).
  assert (Hnxe : nextf s e = Some ne) by (unfold nextf; by rewrite Hxe).
  destruct (rep_entries HR p) as [xp Hxp].
  { rewrite fmap_app, app_comm_cons. apply elem_of_app. by left. }
  destruct (rep_node HR p) as [Hp0 Hpe]; [right; right; eauto|].
  unfold delLRUCache.
  rewrite (kv_bind _ _ s q s) by (rewrite (getLRUHashTab_run s lt kp k (r_lru _ _ _ _ _ _ HR) Hk); by rewrite Hq).
  rewrite (proj2 (Z.eqb_neq q 0)) by done. rewrite (kv_bind _ _ s n s) by by apply need_run. cbv zeta. rewrite Hprev.
  rewrite (kv_bind _ _ _ _ _ (next_of_run s p e Hnp)). cbv beta.
  rewrite (kv_bind (get tailLRU) _ s (tailLRU s) s eq_refl). cbv beta. rewrite Ht.
  set (t' := tail_of p L2).
  assert (Hstep : ∃ m1, (if e =? tail_of e L2 then set_ (with_tailLRU p)
     else nx ← next_of e; k ← key_of nx; node ← getLRUHashTab k; set_prev node p) s
     = Some (tt, with_tailLRU t' (with_lrunodes m1 s)) /\ same_lrunodes s.(lrunodes) m1 /\
    (∀ k', k' ∈ L1.*1 -> prevf (with_lrunodes m1 s) lt k' = prevf s lt k') /\
    match L2 with [] => True | (k2, e2) :: L2 => prevf (with_lrunodes m1 s) lt k2 = Some p /\
      ∀ k', k' ∈ L2.*1 -> prevf (with_lrunodes m1 s) lt k' = prevf s lt k' end).
  { destruct L2 as [|[k2 e2] L2].
    - exists s.(lrunodes). cbn. rewrite Z.eqb_refl. split; [done|]. split; [apply same_lrunodes_refl|done].
    - destruct Hlru2 as (Hne2 & Hpk2 & Hlru2). rewrite tail_of_cons in Ht |- *. cbn [fmap list_fmap fst snd] in HeL2, HkL2, Hkd2.
      rewrite (proj2 (Z.eqb_neq e (tail_of e2 L2))) by (intros E; apply HeL2; rewrite E; apply tail_of_in).
      rewrite (kv_bind _ _ _ _ _ (next_of_run s e e2 Hne2)). cbv beta.
      assert (Hin2 : (k2, e2) ∈ L1 ++ (k, e) :: (k2, e2) :: L2) by (apply elem_of_app; right; right; by left).
      destruct (key_of_run s s _ _ _ _ _ k2 e2 HR Hin2 (same_entries_refl _)) as (kp2 & Hr & Hkp2).
      rewrite (kv_bind _ _ _ _ _ Hr). cbv beta.
      destruct (find_lrunode s s _ _ _ _ _ k2 kp2 HR) as (q2 & n2 & Hq2 & Hnq2 & Hr2 & Hq20 & Hq2e);
        [apply list_elem_of_fmap; by exists (k2, e2)|done|done|done|apply same_lrunodes_refl|].
      rewrite (kv_bind _ _ _ _ _ Hr2). cbv beta. exists (<[q2 := LruNode n2.(ln_key) p n2.(ln_next)]> s.(lrunodes)).
      assert (Hother : ∀ k', k' ≠ k2 ->
        prevf (with_lrunodes (<[q2 := LruNode n2.(ln_key) p n2.(ln_next)]> s.(lrunodes)) s) lt k' = prevf s lt k').
      { intros k' Hk'. unfold prevf. destruct (lt !! k') as [q'|] eqn:Eq; [|done]. cbn. rewrite lookup_insert_ne; [done|].
        intros <-. apply Hk'. by eapply (ht_inj _ _ _ _ _ _ (r_lru _ _ _ _ _ _ HR)). }
      split; [|split; [|split; [|split]]].
      + rewrite (set_prev_run s q2 n2 p Hnq2 Hq20 Hq2e). do 2 f_equal. unfold t'. rewrite tail_of_cons, <- Ht.
        by destruct s.
      + apply same_lrunodes_insert; [apply same_lrunodes_refl|done].
      + intros k' Hk'. apply Hother. intros ->. apply (Hkdis _ Hk'). right. by left.
      + unfold prevf. rewrite Hq2. cbn. by rewrite lookup_insert_eq.
      + intros k' Hk'. apply Hother. intros ->. apply NoDup_cons in Hkd2 as [? _]. done. }
  destruct Hstep as (m1 & Hstep & Hm1 & Hpv1 & Hpv2). rewrite (kv_bind _ _ _ _ _ Hstep). cbv beta. set (s1 := with_tailLRU t' _).
  assert (Hht1 : hashtab ln_next ln_key s1.(lruHashTab) s1.(lrunodes) s1.(bytes) lt).
  { eapply hashtab_ext; [apply (r_lru _ _ _ _ _ _ HR)| |done]. intros x y Hy.
    destruct (Hm1 x) as [(m & m' & G1 & G2 & G3 & G4)|[? _]]; [|congruence]. simplify_eq. exists m'. done. }
  destruct (delLRU_run s1 lt kp k q Hht1 Hk Hq) as (m2 & Hdel & Hht2 & Hsame).
  { intros x [y Hy]. apply (lrunodes_pos _ _ _ _ _ _ HR). destruct (Hm1 x) as [(m & m' & G1 & _)|[_ G]]; [eauto|].
    change (lrunodes s1) with m1 in Hy. congruence. }
  rewrite (kv_bind _ _ _ _ _ Hdel). cbv beta. set (s2 := with_lrunodes m2 s1).
  rewrite (kv_bind _ _ _ _ _ (next_of_run s2 e ne Hnxe)). cbv beta.
  rewrite (kv_bind _ _ _ _ _ (set_next_run s2 p xp ne Hxp ltac:(lia) Hpe)). cbv beta.
  eexists. split; [reflexivity|]. split; [|done].
  set (es := <[p := LruEntry xp.(le_key) xp.(le_val) (Some ne)]> s.(entries)).
  assert (Hpf : ∀ k' (s' : st), k' ≠ k -> s'.(lrunodes) = m2 -> prevf s' (delete k lt) k' = prevf (with_lrunodes m1 s) lt k').
  { intros k' s' Hkk Es. unfold prevf. rewrite lookup_delete_ne, Es by done. destruct (lt !! k') as [q'|]; [|done]. cbn.
    destruct (Hsame q') as [(n1 & n2 & G1 & G2 & G3 & _)|[G1 G2]]; change (lrunodes s1) with m1 in G1; rewrite G1, G2; [|done].
    cbn. congruence. }
  apply (rep_unlink s M L1 k e L2 kt lt m2 es t' HR); try done.
  - by eapply same_lkeys_of.
  - unfold es. apply same_entries_insert; [apply same_entries_refl|done].
  - fold h. cbv zeta. set (s' := with_tailLRU t' _).
    assert (Hnf : ∀ x, x ≠ p -> nextf s' x = nextf s x).
    { intros x Hx. unfold nextf, s', es. cbn. by rewrite lookup_insert_ne. }
    apply lru_app. fold p. split.
    + eapply lru_ext; [exact Hlru1|done| |].
      * fold p. intros x _ Hx. by apply Hnf.
      * intros k' Hk'. rewrite Hpf; [by apply Hpv1| |done]. intros ->. apply (Hkdis _ Hk'). by left.
    + destruct L2 as [|[k2 e2] L2]; [done|]. destruct Hlru2 as (Hne2 & Hpk2 & Hlru2). destruct Hpv2 as [Hpv2 Hpv3].
      cbn [fmap list_fmap fst snd] in *. split; [|split].
      * unfold nextf, s', es. cbn. rewrite lookup_insert_eq. cbn. congruence.
      * rewrite Hpf; [done| |done]. intros ->. apply HkL2. by left.
      * eapply lru_ext; [exact Hlru2|done| |].
        -- intros x Hx _. apply Hnf. intros ->. apply (Hdis p Hp). by right.
        -- intros k' Hk'. rewrite Hpf; [by apply Hpv3| |done]. intros ->. apply HkL2. by right.
  - unfold t'. by rewrite tail_of_app.
Qed.

Lemma delLRUCache_miss (s : st) M L kt lt ho k kp : rep s M L kt lt ho -> key_at s.(bytes) kp k -> k ∉ L.*1 ->
  delLRUCache kp s = Some (1, s).
Proof.
  intros HR Hk Hn. assert (Hl : lt !! k = None).
  { destruct (lt !! k) eqn:E; [|done]. exfalso. apply Hn, (r_ltab _ _ _ _ _ _ HR). eauto. }
  unfold delLRUCache. rewrite (kv_bind _ _ s 0 s); [done|].
  rewrite (getLRUHashTab_run s lt kp k); [by rewrite Hl|apply HR|done].
Qed.

(** ** Taking a key out of the store *)

(** The node of [k], whose value was freed, is taken out of its bucket. *)
Lemma rep_delkey (s : st) M L kt lt k b nb n' : rep s M L kt lt (Some (k, true)) -> k ∉ L.*1 ->
  s.(kvnodes) !! b = Some nb -> n'.(kn_key) = nb.(kn_key) -> n'.(kn_val) = nb.(kn_val) ->
  hashtab kn_next kn_key s.(kvHashTab) (<[b := n']> s.(kvnodes)) s.(bytes) (delete k kt) ->
  rep (with_kvnodes (<[b := n']> s.(kvnodes)) s) (delete k M) L (delete k kt) lt None.
Proof.
  intros HR HkL Hb Ek Ev Hht. set (s' := with_kvnodes _ s).
  assert (Hisn : ∀ a, is_node s' a -> is_node s a).
  { intros a [H|[H|H]]; [left|right; by left|right; by right]. unfold s' in H. cbn in H.
    destruct (decide (b = a)) as [->|]; [eauto|by rewrite lookup_insert_ne in H]. }
  assert (Hlook : ∀ x m, s'.(kvnodes) !! x = Some m -> ∃ m0, s.(kvnodes) !! x = Some m0 /\
    m.(kn_key) = m0.(kn_key) /\ m.(kn_val) = m0.(kn_val)).
  { intros x m Hm. unfold s' in Hm. cbn in Hm. destruct (decide (b = x)) as [<-|Hne].
    - rewrite lookup_insert_eq in Hm. exists nb. by simplify_eq.
    - rewrite lookup_insert_ne in Hm by done. by exists m. }
  assert (Hnode : ∀ k' m, node_of s' (delete k kt) k' m -> k' ≠ k /\ ∃ m0, node_of s kt k' m0 /\
    m.(kn_key) = m0.(kn_key) /\ m.(kn_val) = m0.(kn_val)).
  { intros k' m (x & [Hx Hx']%lookup_delete_Some & Hm). destruct (Hlook x m Hm) as (m0 & Hm0 & E). split; [done|].
    exists m0. split; [by exists x|done]. }
  assert (Hnode' : ∀ k' m0, k' ≠ k -> node_of s kt k' m0 -> ∃ m, node_of s' (delete k kt) k' m /\
    m.(kn_key) = m0.(kn_key) /\ m.(kn_val) = m0.(kn_val)).
  { intros k' m0 Hkk (x & Hx & Hm0). destruct (decide (b = x)) as [<-|Hne].
    - exists n'. split; [exists b; rewrite lookup_delete_ne by done; split; [done|]; unfold s'; cbn; by rewrite lookup_insert_eq|].
      split; congruence.
    - exists m0. split; [exists x; rewrite lookup_delete_ne by done; split; [done|]; unfold s'; cbn; by rewrite lookup_insert_ne|done]. }
  assert (Hh : ∀ k', k' ≠ k -> (Some (k, true) : option (str * bool)) ≠ Some (k', true)) by congruence.
  destruct HR as [R1 R2 R3 R4 R5 R6 R7 R8 R9 R10 R11 R12 R13 R14 R15 R16 R17 R18 R19]. constructor; try assumption.
  - intros k'. destruct (decide (k = k')) as [<-|Hne].
    + rewrite !lookup_delete_eq. split; by intros [? ?].
    + by rewrite !lookup_delete_ne.
  - intros k' m (_ & m0 & Hm0 & E & _)%Hnode. rewrite E. by apply R6.
  - intros k' v m [_ HM]%lookup_delete_Some (Hkk & m0 & Hm0 & _ & E)%Hnode _. rewrite E. apply (R7 k' v m0 HM Hm0). by apply Hh.
  - intros a Ha. by apply R8, Hisn.
  - intros k1 k2 n1 n2 (Hk1 & m1 & Hm1 & E1 & E1')%Hnode (Hk2 & m2 & Hm2 & E2 & E2')%Hnode _. rewrite E1', E2, E2'.
    destruct (R9 k1 k2 m1 m2 Hm1 Hm2 (Hh k1 Hk1)) as [G1 G2]. split; [done|]. intros _. apply G2. by apply Hh.
  - intros k' m a (Hkk & m0 & Hm0 & _ & E)%Hnode _ Ha%Hisn. rewrite E. by apply (R10 k' m0 a Hm0 (Hh k' Hkk)).
  - intros k' q l Hq Hl. destruct (R11 k' q l Hq Hl) as (m0 & Hm0 & E). destruct (Hnode' k' m0) as (m & Hm & Em & _); [|done|].
    + intros ->. apply HkL, R18. eauto.
    + exists m. split; [done|congruence].
  - intros k' e He. destruct (R17 k' e He) as (x & m0 & Hx & Hm0 & Hke & Hnx & Hv & Hst).
    assert (Hkk : k' ≠ k). { intros ->. apply HkL, list_elem_of_fmap. by exists (k, e). }
    destruct (Hnode' k' m0 Hkk Hm0) as (m & Hm & E1 & E2). exists x, m. rewrite E1, E2. do 5 (split; [done|]). intros _.
    apply Hst. intros c. congruence.
Qed.

Lemma delKV_hit (s : st) M L kt lt kp k q : rep s M L kt lt None -> k ∉ L.*1 -> key_at s.(bytes) kp k -> kt !! k = Some q ->
  ∃ s' p, delKVHashTab kp s = Some (0, s') /\ rep s' (delete k M) L (delete k kt) lt None /\
    (∃ ns, s' = with_kvnodes ns (with_heap (al_xfree p s.(heap)) s)).
Proof.
  intros HR HkL Hkp Hq. pose proof Hkp as (_ & Hks & _ & _ & Hlen).
  destruct (hashtab_remove _ _ _ _ _ _ _ _ _ (r_kv _ _ _ _ _ _ HR) Hkp Hq) as (h & b & nb & nq & Ha & Hb & Hnb & Hnext & Hnq & Hbq & Hdel).
  destruct (rep_node HR b) as [Hb0 Hbe]; [left; eauto|].
  set (n' := KvNode nb.(kn_key) nb.(kn_val) nb.(kn_count) nq.(kn_next)).
  set (s1 := with_heap (al_xfree nq.(kn_val) s.(heap)) s).
  assert (HR1 : rep s1 M L kt lt (Some (k, true))) by (apply rep_free; [done|by exists q]).
  exists (with_kvnodes (<[b := n']> s1.(kvnodes)) s1), nq.(kn_val). split; [|split; [|by eexists]].
  - unfold delKVHashTab. rewrite (kv_bind _ _ _ _ _ (len1_run s kp k Hks Hlen)). cbv beta.
    destruct (kvHead_run s kp k Hkp) as (h' & Ha' & Hr); [eauto|]. rewrite (kv_bind _ _ _ _ _ Hr). cbv beta.
    assert (h' = h) as -> by congruence. rewrite (kv_bind _ _ s b s) by by apply need_run. cbv beta.
    rewrite (proj2 (Z.eqb_neq b 0)) by lia. rewrite (kv_bind _ _ s nb s) by by apply need_run.
    rewrite (kv_bind _ _ s nq s) by (apply need_run; by rewrite Hnext). cbv beta.
    rewrite (kv_bind (xfree nq.(kn_val)) _ s tt s1 eq_refl). cbv beta.
    by rewrite (kv_bind _ _ _ _ _ (put_kvnode_run s1 b n' ltac:(lia) Hbe)).
  - eapply rep_delkey; try done. by apply (Hdel n').
Qed.

Lemma delKV_miss (s : st) M L kt lt ho kp k : rep s M L kt lt ho -> key_at s.(bytes) kp k -> kt !! k = None ->
  delKVHashTab kp s = Some (1, s).
Proof.
  intros HR Hkp Hk. pose proof Hkp as (_ & Hks & _ & _ & Hlen).
  destruct (before_none _ _ _ _ _ _ _ _ (r_kv _ _ _ _ _ _ HR) Hkp Hk) as (h & Ha & Hb).
  unfold delKVHashTab. rewrite (kv_bind _ _ _ _ _ (len1_run s kp k Hks Hlen)). cbv beta.
  destruct (kvHead_run s kp k Hkp) as (h' & Ha' & Hr); [eauto|]. rewrite (kv_bind _ _ _ _ _ Hr). cbv beta.
  assert (h' = h) as -> by congruence. by rewrite (kv_bind _ _ s 0 s) by by apply need_run.
Qed.

(** ** The operations *)

(** The state represents the map and the keys of [a], with the entries of [L]. *)
Record models_at (s : st) (a : astore) (L : list (str * Z)) (kt lt : gmap str Z) (ho : option (str * bool)) : Prop := {
  ma_rep : rep s a.(a_map) L kt lt ho;
  ma_recent : a.(a_recent) = L.*1;
  ma_count : s.(counterLRU) = a.(a_count);
  ma_hits : s.(totalHits) = a.(a_hits);
  ma_accesses : s.(totalAccesses) = a.(a_accesses);
  ma_sets : s.(totalSetSuccess) = a.(a_sets);
  ma_evictions : s.(totalEvictions) = a.(a_evictions) }.

Definition models (s : st) (a : astore) : Prop := ∃ L kt lt, models_at s a L kt lt None.

Lemma filter_keys (L1 : list (str * Z)) k e L2 : NoDup (L1 ++ (k, e) :: L2).*1 ->
  filter (.≠ k) (L1 ++ (k, e) :: L2).*1 = (L1 ++ L2).*1.
Proof.
  rewrite !fmap_app, fmap_cons. cbn [fst]. intros Hnd. apply NoDup_app in Hnd as (_ & Hd & Hnd). apply NoDup_cons in Hnd as [Hk _].
  assert (Hall : ∀ l : list str, k ∉ l -> filter (.≠ k) l = l).
  { induction l as [|x l IH]; intros Hl; [done|]. apply not_elem_of_cons in Hl as [Hx Hl].
    rewrite filter_cons_True by done. by rewrite IH. }
  rewrite filter_app, filter_cons_False by (by intros E; apply E). rewrite !Hall; [done|done|].
  intros Hin. apply (Hd k Hin). by left.
Qed.

(** A key is in the cache with an entry, or it is not. *)
Lemma cache_cases (L : list (str * Z)) k : (∃ L1 e L2, L = L1 ++ (k, e) :: L2) \/ k ∉ L.*1.
Proof.
  destruct (decide (k ∈ L.*1)) as [Hk|]; [left|by right]. apply list_elem_of_fmap in Hk as ([k' e] & -> & Hk).
  apply list_elem_of_split in Hk as (L1 & L2 & ->). by exists L1, e, L2.
Qed.

Lemma in_cache (L1 : list (str * Z)) k e L2 : k ∈ (L1 ++ (k, e) :: L2).*1.
Proof. rewrite fmap_app. apply elem_of_app. right. by left. Qed.

Lemma touch_split (L1 : list (str * Z)) k e L2 : NoDup (L1 ++ (k, e) :: L2).*1 ->
  touch k (L1 ++ (k, e) :: L2).*1 = (L1 ++ L2 ++ [(k, e)]).*1.
Proof. intros Hnd. unfold touch. rewrite filter_keys by done. by rewrite app_assoc, (fmap_app fst (L1 ++ L2)). Qed.

(** getLRUCache, on the store and on the list. *)
Lemma access_models (s : st) a L kt lt kp k : models_at s a L kt lt None -> key_at s.(bytes) kp k ->
  ∃ s' e L', getLRUCache kp s = Some (e, s') /\ models_at s' (spec_access k a) L' kt lt None /\ frame kt s s' /\
    (((k, e) ∈ L' /\ k ∈ L.*1) \/ (e = 0 /\ k ∉ L.*1)).
Proof.
  intros [HR Er Ec Eh Ea Es Ev] Hk. destruct (cache_cases L k) as [(L1 & e & L2 & ->)|Hn].
  - destruct (getLRUCache_hit _ _ _ _ _ _ _ _ _ kp HR Hk) as (s' & Hrun & HR' & Hfr & Hh & Ha & Hnx).
    exists s', e, (L1 ++ L2 ++ [(k, e)]). split; [done|]. split; [|split; [done|left; split; [|apply in_cache]]].
    + unfold spec_access. rewrite Er, decide_True by apply in_cache. destruct Hfr as [F1 F2 F3 F4 F5 F6 F7].
      constructor; cbn; try congruence. apply touch_split. apply (r_keys _ _ _ _ _ _ HR).
    + rewrite !elem_of_app. right. right. by left.
  - destruct (getLRUCache_miss _ _ _ _ _ _ kp k HR Hk Hn) as (s' & Hrun & HR' & Hfr & Hh & Ha).
    exists s', 0, L. split; [done|]. split; [|split; [done|by right]].
    unfold spec_access. rewrite Er, decide_False by done. destruct Hfr as [F1 F2 F3 F4 F5 F6 F7].
    constructor; cbn; congruence.
Qed.

(** The value of a key, at the address in its node. *)
Lemma value_at (s : st) M L kt lt k n v : rep s M L kt lt None -> M !! k = Some v -> node_of s kt k n ->
  n.(kn_val) ≠ 0 /\ str_at s.(bytes) n.(kn_val) v.
Proof.
  intros HR HM Hn. destruct (r_val _ _ _ _ _ _ HR k v n HM Hn ltac:(done)) as [Hs Ho]. split; [|done].
  apply (rep_block HR) in Ho. lia.
Qed.

Lemma kv_get_run (s : st) a kp k : models s a -> key_at s.(bytes) kp k ->
  ∃ p s', kv_get kp s = Some (p, s') /\ models s' (spec_get k a).2 /\ s'.(bytes) = s.(bytes) /\ s'.(heap) = s.(heap) /\
    match (spec_get k a).1 with Some v => p ≠ 0 /\ str_at s'.(bytes) p v | None => p = 0 end.
Proof.
  intros (L & kt & lt & Hm) Hk.
  destruct (access_models s a L kt lt kp k Hm Hk) as (s' & e & L' & Hrun & Hm' & Hfr & Hres).
  pose proof (fr_bytes _ _ _ Hfr) as Eb. pose proof (fr_heap _ _ _ Hfr) as Eh.
  destruct Hm' as [HR' Er']. assert (Hmap : a_map (spec_access k a) = a_map a) by (unfold spec_access; by case_decide).
  unfold kv_get. rewrite (kv_bind _ _ _ _ _ Hrun). cbv beta.
  assert (Hmod : models s' (spec_get k a).2) by (exists L', kt, lt; by constructor).
  destruct Hres as [[He HkL]|[-> HkL]].
  - destruct (r_ents _ _ _ _ _ _ HR' k e He) as (x & n & Hx & Hn & _ & _ & _ & Hv).
    destruct (rep_in_dom HR' k e He) as [v HM]. destruct (rep_node HR' e) as [He0 _]; [right; right; eauto|].
    destruct (value_at s' _ _ _ _ k n v HR' HM Hn) as [Hn0 Hs].
    rewrite (proj2 (Z.eqb_neq e 0)) by lia. cbn [negb]. exists n.(kn_val), s'. split.
    { apply need_run. rewrite Hx. cbn. apply Hv. by intros b. }
    do 3 (split; [done|]). cbn. rewrite Hmap in HM. by rewrite HM.
  - change (negb (0 =? 0)) with false. cbv iota.
    rewrite (kv_bind _ _ s' (default 0 (kt !! k)) s').
    2: { apply getKVHashTab_run; [apply HR'|by rewrite Eb]. }
    destruct (a_map a !! k) as [v|] eqn:HM; cbn.
    + rewrite <- Hmap in HM. destruct (rep_kvnode HR' k) as (q & n & Hq & Hn & Hq0); [eauto|]. rewrite Hq. cbn [from_option id].
      rewrite (proj2 (Z.eqb_neq q 0)) by done. cbn [negb]. rewrite (kv_bind _ _ s' n s') by by apply need_run.
      exists n.(kn_val), s'. split; [done|]. rewrite <- Hmap, HM.
      do 3 (split; [done|]). apply (value_at s' _ _ _ _ k n v HR' HM). by exists q.
    + assert (Hq : kt !! k = None).
      { destruct (kt !! k) as [q|] eqn:Hq; [|done]. assert (Hd : is_Some (kt !! k)) by eauto. apply (r_dom _ _ _ _ _ _ HR') in Hd.
        destruct Hd as [v Hv]. congruence. }
      rewrite Hq. exists 0, s'. cbn. by rewrite HM.
Qed.

Lemma cache_models (s : st) a L kt lt k n bnd j : models_at s a L kt lt (Some (k, false)) -> node_of s kt k n -> has_room a ->
  12 <= bnd -> plenty bnd (S (S j)) s.(heap) ->
  ∃ s', setLRUCache n.(kn_key) n.(kn_val) s = Some (0, s') /\ models s' (spec_cache k a) /\ s'.(bytes) = s.(bytes) /\
    plenty bnd j s'.(heap).
Proof.
  intros [HR Er Ec Eh Ea Es Ev] Hn Hroom Hbnd Hpl. destruct (cache_cases L k) as [(L1 & e & L2 & ->)|HkL].
  - destruct (setLRUCache_hit _ _ _ _ _ _ _ _ _ HR Hn) as (s' & Hrun & HR' & G1 & G2 & G3 & G4 & G5 & G6 & G7).
    exists s'. split; [done|]. split; [|split; [done|rewrite G7; by do 2 apply plenty_less]].
    exists (L1 ++ L2 ++ [(k, e)]), kt, lt. unfold spec_cache, spec_access. rewrite Er, !decide_True by apply in_cache.
    constructor; cbn; try congruence. apply touch_split. apply (r_keys _ _ _ _ _ _ HR).
  - unfold spec_cache, spec_access. rewrite Er, !decide_False by done. cbn [a_map a_recent a_count a_hits a_accesses a_sets a_evictions].
    destruct (Z.ltb_spec a.(a_count) LRU_CACHE_SIZE) as [Hlt|Hge].
    + destruct (setLRUCache_push s _ L k kt lt n bnd j HR HkL Hn ltac:(lia) Hbnd Hpl)
        as (s' & e & lt' & Hrun & HR' & G1 & G2 & G3 & G4 & G5 & G6 & G7).
      exists s'. split; [done|]. split; [|done]. exists (L ++ [(k, e)]), kt, lt'.
      constructor; cbn; try congruence. by rewrite fmap_app.
    + destruct L as [|[k0 e0] L]; [destruct Hroom; [lia|done]|].
      destruct (setLRUCache_evict s _ k0 e0 L k kt lt n bnd (S j) HR HkL Hn ltac:(lia) Hbnd Hpl)
        as (s' & lt' & Hrun & HR' & G1 & G2 & G3 & G4 & G5 & G6 & G7).
      exists s'. split; [done|]. split; [|split; [done|by apply plenty_less]]. exists (L ++ [(k, e0)]), kt, lt'.
      constructor; cbn; try congruence. by rewrite fmap_app.
Qed.

(** setKVHashTab, for a key that is there or not. *)
Lemma setKV_models (s : st) a L kt lt kp vp k v bnd n : models_at s a L kt lt None ->
  key_at s.(bytes) kp k -> str_at s.(bytes) vp v ->
  external kp (Z.of_nat (length k) + 1) -> external vp (Z.of_nat (length v) + 1) -> Z.of_nat (length v) < 2147483647 ->
  Z.of_nat (length k) + 1 <= bnd -> Z.of_nat (length v) + 1 <= bnd -> 16 <= bnd -> plenty bnd (S (S (S n))) s.(heap) ->
  ∃ q s' kt' nd, setKVHashTab kp vp s = Some (q, s') /\ models_at s' (spec_put k v a) L kt' lt (Some (k, false)) /\
    s'.(kvnodes) !! q = Some nd /\ node_of s' kt' k nd /\
    (∀ x, x < al_lo \/ al_hi <= x -> s'.(bytes) !! x = s.(bytes) !! x) /\ plenty bnd n s'.(heap).
Proof.
  intros [HR Er Ec Eh Ea Es Ev] Hk Hv Hek Hev Hlv Hbk Hbv H16 Hpl. destruct (kt !! k) as [q|] eqn:Hq.
  - destruct (setKV_existing s _ L kt lt kp vp k v q bnd n HR Hk Hv Hev Hlv Hbv (plenty_less _ _ _ Hpl) Hq)
      as (s' & Hrun & HR' & [U1 U2 U3 U4 U5 U6 U7] & Hpl').
    destruct (ht_node _ _ _ _ _ _ (r_kv _ _ _ _ _ _ HR') _ _ Hq) as (nd & Hnd & _).
    exists q, s', kt, nd. split; [done|]. split; [constructor; cbn; congruence|]. split; [done|]. split; [by exists q|done].
  - destruct (setKV_new s _ L kt lt kp vp k v bnd n HR Hk Hv Hek Hev Hlv Hbk Hbv H16 Hpl Hq)
      as (q & s' & Hrun & HR' & [U1 U2 U3 U4 U5 U6 U7] & Hpl').
    assert (Hq' : <[k := q]> kt !! k = Some q) by apply lookup_insert_eq.
    destruct (ht_node _ _ _ _ _ _ (r_kv _ _ _ _ _ _ HR') _ _ Hq') as (nd & Hnd & _).
    exists q, s', (<[k := q]> kt), nd. split; [done|]. split; [|split; [done|split; [by exists q|done]]].
    constructor; cbn; try congruence. by apply rep_weaken.
Qed.

Lemma kv_set_run (s : st) a kp vp k v bnd n : models s a -> key_at s.(bytes) kp k -> str_at s.(bytes) vp v ->
  external kp (Z.of_nat (length k) + 1) -> external vp (Z.of_nat (length v) + 1) -> Z.of_nat (length v) < 2147483647 ->
  Z.of_nat (length k) + 1 <= bnd -> Z.of_nat (length v) + 1 <= bnd -> 16 <= bnd ->
  plenty bnd (S (S (S (S (S n))))) s.(heap) -> has_room a ->
  ∃ s', kv_set kp vp s = Some (0, s') /\ models s' (spec_set k v a) /\
    (∀ x, x < al_lo \/ al_hi <= x -> s'.(bytes) !! x = s.(bytes) !! x) /\ plenty bnd n s'.(heap).
Proof.
  intros (L & kt & lt & Hm) Hk Hv Hek Hev Hlv Hbk Hbv H16 Hpl Hroom.
  destruct (setKV_models s a L kt lt kp vp k v bnd _ Hm Hk Hv Hek Hev Hlv Hbk Hbv H16 Hpl)
    as (q & s1 & kt' & nd & Hrun & Hm1 & Hnd & Hn & Hb & Hpl1).
  destruct (cache_models s1 _ L kt' lt k nd bnd n Hm1 Hn Hroom ltac:(lia) Hpl1) as (s2 & Hrun2 & Hm2 & Hb2 & Hpl2).
  exists s2. split; [|split; [done|split; [|done]]].
  - unfold kv_set. rewrite (kv_bind _ _ _ _ _ Hrun). cbv beta. rewrite (kv_bind _ _ s1 nd s1) by by apply need_run. cbv beta.
    by rewrite (kv_bind _ _ _ _ _ Hrun2).
  - intros x Hx. rewrite Hb2. by apply Hb.
Qed.

Lemma kv_delete_run (s : st) a kp k : models s a -> key_at s.(bytes) kp k ->
  ∃ s', kv_delete kp s = Some ((spec_delete k a).1, s') /\ models s' (spec_delete k a).2 /\ s'.(bytes) = s.(bytes) /\
    ∀ bnd n, plenty bnd (S n) s.(heap) -> plenty bnd n s'.(heap).
Proof.
  intros (L & kt & lt & [HR Er Ec Eh Ea Es Ev]) Hk.
  assert (Hcache : ∃ r s1 L' lt', delLRUCache kp s = Some (r, s1) /\ rep s1 a.(a_map) L' kt lt' None /\ same_store s s1 /\
    L'.*1 = filter (.≠ k) L.*1 /\ k ∉ L'.*1).
  { destruct (cache_cases L k) as [(L1 & e & L2 & ->)|Hn].
    - destruct (delLRUCache_hit s _ L1 k e L2 kt lt kp HR Hk) as (s1 & Hrun & HR1 & Hs).
      pose proof (r_keys _ _ _ _ _ _ HR) as Hnd. exists 0, s1, (L1 ++ L2), (delete k lt).
      do 3 (split; [done|]). rewrite filter_keys by done. split; [done|].
      rewrite fmap_app, fmap_cons, <- Permutation_middle in Hnd. apply NoDup_cons in Hnd as [Hkk _]. by rewrite fmap_app.
    - exists 1, s, L, lt. split; [by eapply delLRUCache_miss|]. do 2 (split; [done|]). split; [|done].
      clear -Hn. induction L as [|[k' e] L IH]; [done|]. rewrite fmap_cons in Hn |- *. cbn [fst] in Hn |- *.
      apply not_elem_of_cons in Hn as [Hk Hn].
      rewrite filter_cons_True by done. by rewrite <- IH. }
  destruct Hcache as (r & s1 & L' & lt' & Hrun & HR1 & (E1 & E2 & E3 & E4 & E5 & E6 & E7 & E8 & E9 & E10 & E11) & EL & HkL).
  unfold kv_delete. rewrite (kv_bind _ _ _ _ _ Hrun). cbv beta. unfold spec_delete. cbn [fst snd].
  rewrite <- E1 in Hk. destruct (kt !! k) as [q|] eqn:Hq.
  - destruct (delKV_hit s1 _ L' kt lt' kp k q HR1 HkL Hk Hq) as (s2 & p & Hdel & HR2 & ns & ->).
    assert (HM : is_Some (a_map a !! k)) by (apply (r_dom _ _ _ _ _ _ HR1); eauto). destruct HM as [v ->].
    eexists. split; [exact Hdel|]. split; [|split; [done|]].
    + exists L', (delete k kt), lt'. constructor; cbn; congruence.
    + intros bnd n (_ & _ & Hp). cbn. rewrite E11. apply Hp.
  - assert (HM : a_map a !! k = None).
    { destruct (a_map a !! k) as [v|] eqn:HM; [|done]. assert (Hd : is_Some (a_map a !! k)) by eauto.
      apply (r_dom _ _ _ _ _ _ HR1) in Hd as [q Hd]. congruence. }
    rewrite HM. exists s1. split; [by eapply delKV_miss|]. split; [|split; [done|]].
    + exists L', kt, lt'. constructor; cbn; try congruence. by rewrite delete_id.
    + intros bnd n Hp. rewrite E11. by apply plenty_less.
Qed.
End Ops.
