(* ===== verification/Kvspec.v ===== *)
(** The key-value store against its specification: kv_init makes an empty store,
    and kv_get, kv_set and kv_delete are the operations of the specification of
    Kvops.v.  A bump allocator shows that the laws of the memory managers can
    hold. *)

From S2P Require Import Prelude Types Cstring Kv Kvtab Kvlru Kvops.

#[local] Arguments Z.eqb : simpl never.
#[local] Arguments Z.ltb : simpl never.
#[local] Arguments Z.rem : simpl never.
#[local] Arguments Z.mul : simpl never.
#[local] Arguments Z.add : simpl never.
#[local] Existing Instances KV_ret KV_bind.

(** * The tables after some rounds of the loop of kv_init *)

Section Heads.
Context {N : Type} (empty : N).

(** The first [i] buckets have a head of their own. *)
Record heads (arr : gmap Z Z) (nodes : gmap Z N) (i : Z) : Prop := {
  hd_at j : 0 <= j < i -> ∃ h, arr !! j = Some h /\ h ≠ 0 /\ nodes !! h = Some empty;
  hd_inj j j' h : 0 <= j < i -> 0 <= j' < i -> arr !! j = Some h -> arr !! j' = Some h -> j = j';
  hd_range j : is_Some (arr !! j) -> 0 <= j < 512 }.

Lemma heads_zero arr nodes : (∀ j, is_Some (arr !! j) -> 0 <= j < 512) -> heads arr nodes 0.
Proof. intros Hr. constructor; [lia|lia|done]. Qed.

Lemma heads_step arr nodes i p : heads arr nodes i -> 0 <= i < 512 -> p ≠ 0 -> nodes !! p = None ->
  heads (<[i := p]> arr) (<[p := empty]> nodes) (i + 1).
Proof.
  intros [H1 H2 H3] Hi Hp Hn. constructor.
  - intros j Hj. destruct (decide (j = i)) as [->|Hne].
    + exists p. by rewrite !lookup_insert_eq.
    + destruct (H1 j) as (h & Ha & Hh & Hnh); [lia|]. exists h. rewrite lookup_insert_ne by done.
      rewrite lookup_insert_ne by congruence. done.
  - assert (Hold : ∀ j, 0 <= j < i -> arr !! j ≠ Some p).
    { intros j Hj Ha. destruct (H1 j Hj) as (h & Ha' & _ & Hnh). congruence. }
    intros j j' h Hj Hj' Ha Ha'. destruct (decide (j = i)) as [->|Hne], (decide (j' = i)) as [->|Hne']; [done| | |].
    + rewrite lookup_insert_eq in Ha. rewrite lookup_insert_ne in Ha' by done. injection Ha as <-.
      exfalso. apply (Hold j'); [lia|done].
    + rewrite lookup_insert_eq in Ha'. rewrite lookup_insert_ne in Ha by done. injection Ha' as <-.
      exfalso. apply (Hold j); [lia|done].
    + rewrite lookup_insert_ne in Ha by done. rewrite lookup_insert_ne in Ha' by done. apply (H2 j j' h); try done; lia.
  - intros j Ha. destruct (decide (i = j)) as [<-|Hne]; [done|]. rewrite lookup_insert_ne in Ha by done. by apply H3.
Qed.

(** All buckets: the empty hash table. *)
Lemma heads_hashtab nxt keyp arr nodes m : nxt empty = 0 -> heads arr nodes 512 -> hashtab nxt keyp arr nodes m ∅.
Proof.
  intros He [H1 H2 H3]. constructor.
  - intros j Hj. destruct (H1 j Hj) as (h & Ha & Hh & Hn). exists h, []. split; [done|]. split; [done|].
    split; [cbn; by rewrite Hn, <- He|]. split; [constructor|]. intros q.
    split; [by intros ?%not_elem_of_nil|]. intros (k & Hk & _). by rewrite lookup_empty in Hk.
  - intros k q Hk. by rewrite lookup_empty in Hk.
  - intros j h Ha. destruct (H1 j) as (h' & Ha' & _ & Hn); [eauto|]. assert (h' = h) as -> by congruence. eauto.
  - intros j j' h Ha Ha'. apply (H2 j j' h); eauto.
  - intros j h k _ Hk. by rewrite lookup_empty in Hk.
Qed.
End Heads.

Section Init.
Context {A : Type} {HA : Allocator A} {HL : AllocatorLaws A}.
#[local] Abbreviation st := (kvst A).

Definition kv_empty : KVNode := KvNode 0 0 0 0.
Definition lru_empty : LRUNode := LruNode 0 0 0.

Lemma set_bind {B} (f : st -> st) (g : unit -> KV B) s : (set_ f ≫= g) s = g tt (f s).
Proof. done. Qed.

(** The state while the tables are filled: every node is in an owned block. *)
Record filling (s : st) (i : Z) : Prop := {
  fi_ok : al_ok s.(heap);
  fi_nodes a : is_node s a -> is_Some (owned s.(heap) !! a);
  fi_kv : heads kv_empty s.(kvHashTab) s.(kvnodes) i;
  fi_lru : heads lru_empty s.(lruHashTab) s.(lrunodes) i }.

(** A request that is served gives a block that is no node. *)
Lemma filling_getmem (s : st) n bnd j : al_ok s.(heap) -> (∀ a, is_node s a -> is_Some (owned s.(heap) !! a)) ->
  plenty bnd (S j) s.(heap) -> 0 < n <= bnd -> let p := (al_getmem n s.(heap)).1 in let h := (al_getmem n s.(heap)).2 in
  getmem n s = Some (p, with_heap h s) /\ p ≠ 0 /\ p ≠ GETMEM_ERR /\ ¬ is_node s p /\ al_ok h /\
  plenty bnd j h /\ is_Some (owned h !! p) /\ (∀ a, is_node s a -> is_Some (owned h !! a)).
Proof.
  intros Hok Hn Hpl Hr p h. destruct (plenty_getmem bnd j _ n Hpl Hok Hr) as (Hok' & Hpl' & (Hlo & Hhi & Hd) & Ho).
  fold p h in Hok', Hpl', Hlo, Hhi, Hd, Ho. pose proof al_range.
  split; [apply getmem_run|]. split; [lia|]. split; [unfold GETMEM_ERR in *; lia|]. split; [|split; [done|split; [done|split]]].
  - intros Hp. destruct (Hn p Hp) as [k Hk]. pose proof (Hd p k Hk). destruct (al_blocks _ _ _ Hok Hk). lia.
  - rewrite Ho, lookup_insert_eq. eauto.
  - intros a Ha. rewrite Ho. destruct (decide (p = a)) as [<-|]; [rewrite lookup_insert_eq; eauto|].
    rewrite lookup_insert_ne by done. by apply Hn.
Qed.

(** What the loop does not touch. *)
Definition same_cache (s s' : st) : Prop :=
  s'.(bytes) = s.(bytes) /\ s'.(entries) = s.(entries) /\ s'.(headLRU) = s.(headLRU) /\ s'.(tailLRU) = s.(tailLRU) /\
  s'.(counterLRU) = s.(counterLRU) /\ s'.(totalHits) = s.(totalHits) /\ s'.(totalAccesses) = s.(totalAccesses) /\
  s'.(totalSetSuccess) = s.(totalSetSuccess) /\ s'.(totalEvictions) = s.(totalEvictions).

Lemma kv_init_loop_run bnd n j : 16 <= bnd -> ∀ i (s : st), i + Z.of_nat n = 512 -> 0 <= i -> filling s i ->
  plenty bnd (n + n + j) s.(heap) ->
  ∃ s', kv_init_loop n i s = Some (true, s') /\ filling s' 512 /\ same_cache s s' /\ plenty bnd j s'.(heap).
Proof.
  intros Hb. induction n as [|n IH]; intros i s Hi Hi0 Hf Hpl.
  { assert (i = 512) as -> by lia. exists s. done. }
  destruct Hf as [F1 F2 F3 F4]. replace (S n + S n + j)%nat with (S (S (n + n + j))) in Hpl by lia.
  destruct (filling_getmem s 16 bnd _ F1 F2 Hpl) as (Hg1 & Hp0 & Hpe & Hpn & Hok1 & Hpl1 & Hpo & Ho1); [lia|].
  set (p := (al_getmem 16 (heap s)).1) in *. set (h1 := (al_getmem 16 (heap s)).2) in *.
  set (s1 := with_kvHashTab (<[i := p]> s.(kvHashTab)) (with_kvnodes (<[p := kv_empty]> s.(kvnodes)) (with_heap h1 s))).
  assert (F2' : ∀ a, is_node s1 a -> is_Some (owned s1.(heap) !! a)).
  { intros a [H|[H|H]]; [|apply Ho1; right; by left|apply Ho1; right; by right]. unfold s1 in *. cbn in H.
    destruct (decide (p = a)) as [<-|]; [done|]. rewrite lookup_insert_ne in H by done. apply Ho1. by left. }
  destruct (filling_getmem s1 12 bnd _ Hok1 F2' Hpl1) as (Hg2 & Hq0 & Hqe & Hqn & Hok2 & Hpl2 & Hqo & Ho2); [lia|].
  set (q := (al_getmem 12 (heap s1)).1) in *. set (h2 := (al_getmem 12 (heap s1)).2) in *.
  set (s2 := with_lruHashTab (<[i := q]> s1.(lruHashTab)) (with_lrunodes (<[q := lru_empty]> s1.(lrunodes)) (with_heap h2 s1))).
  destruct (IH (i + 1) s2) as (s' & Hrun & Hf' & Hs & Hpl'); [lia|lia| |done|].
  - constructor; [done| | |].
    + intros a [H|[H|H]]; [apply Ho2; by left| |apply Ho2; right; by right]. unfold s2 in *. cbn in H.
      destruct (decide (q = a)) as [<-|]; [done|]. rewrite lookup_insert_ne in H by done. apply Ho2. right. by left.
    + apply heads_step; [done|lia|done|]. destruct (kvnodes s !! p) eqn:E; [|done]. exfalso. apply Hpn. left. eauto.
    + apply heads_step; [done|lia|done|]. destruct (lrunodes s !! q) eqn:E; [|done]. exfalso. apply Hqn. right. left. eauto.
  - exists s'. split; [|done]. cbn [kv_init_loop]. rewrite (kv_bind _ _ _ _ _ Hg1). cbv beta.
    rewrite (proj2 (Z.eqb_neq p 0)) by done. rewrite (kv_bind _ _ _ _ _ (put_kvnode_run _ p _ Hp0 Hpe)). cbv beta.
    rewrite set_bind. cbv beta. rewrite (kv_bind _ _ _ _ _ Hg2). cbv beta.
    rewrite (proj2 (Z.eqb_neq q 0)) by done. rewrite (kv_bind _ _ _ _ _ (put_lrunode_run _ q _ Hq0 Hqe)). cbv beta.
    by rewrite set_bind.
Qed.

(** The nodes of the state before are in owned blocks: there are none when the
    system starts.  The tables are arrays of 512 elements. *)
Record startable (s : st) : Prop := {
  su_ok : al_ok s.(heap);
  su_ram : mapped s.(bytes) al_lo (al_hi - al_lo);
  su_nodes a : is_node s a -> is_Some (owned s.(heap) !! a);
  su_kv j : is_Some (s.(kvHashTab) !! j) -> 0 <= j < 512;
  su_lru j : is_Some (s.(lruHashTab) !! j) -> 0 <= j < 512 }.

Lemma kv_init_run (s : st) bnd j : startable s -> 16 <= bnd -> plenty bnd (1025 + j) (al_xmalloc_init s.(heap)) ->
  ∃ s', kv_init s = Some (0, s') /\ models s' (Astore ∅ [] 0 0 0 0 0) /\ s'.(bytes) = s.(bytes) /\
    s'.(entries) !! s'.(headLRU) = Some (LruEntry None None None) /\ plenty bnd j s'.(heap).
Proof.
  intros [S1 S2 S3 S4 S5] Hb Hpl. destruct (al_init_law s.(heap) S1) as [Hok Hinc].
  set (s1 := with_counters 0 0 0 0 0 (with_heap (al_xmalloc_init s.(heap)) s)).
  assert (H1 : ∀ a, is_node s1 a -> is_Some (owned s1.(heap) !! a)).
  { intros a Ha. destruct (S3 a Ha) as [n Hn]. exists n. by eapply lookup_weaken. }
  destruct (filling_getmem s1 12 bnd _ Hok H1 Hpl) as (Hg & Hp0 & Hpe & Hpn & Hok2 & Hpl2 & Hpo & Ho2); [lia|].
  set (p := (al_getmem 12 (heap s1)).1) in *. set (h := (al_getmem 12 (heap s1)).2) in *.
  set (s2 := with_tailLRU p (with_entries (<[p := LruEntry None None None]> s1.(entries)) (with_headLRU p (with_heap h s1)))).
  destruct (kv_init_loop_run bnd 512 j Hb 0 s2) as (s' & Hrun & [F1 F2 F3 F4] & (E1 & E2 & E3 & E4 & E5 & E6 & E7 & E8 & E9) & Hpl');
    [done|lia| |exact Hpl2|].
  { constructor; [done| |by apply heads_zero|by apply heads_zero].
    intros a [H|[H|H]]; [apply Ho2; by left|apply Ho2; right; by left|]. unfold s2 in *. cbn in H.
    destruct (decide (p = a)) as [<-|]; [done|]. rewrite lookup_insert_ne in H by done. apply Ho2. right. by right. }
  assert (Hent : s'.(entries) !! s'.(headLRU) = Some (LruEntry None None None)).
  { rewrite E2, E3. apply lookup_insert_eq. }
  exists s'. split; [|split; [|split; [done|split; [done|done]]]].
  - unfold kv_init. rewrite set_bind. cbv beta. rewrite set_bind. cbv beta.
    rewrite (kv_bind _ _ _ _ _ Hg). cbv beta. rewrite set_bind. cbv beta.
    rewrite (proj2 (Z.eqb_neq p 0)) by done. rewrite set_bind. unfold raw_entry. rewrite (proj2 (Z.eqb_neq p GETMEM_ERR)) by done.
    rewrite set_bind. cbv beta. change (Z.to_nat HASH_TAB_SIZE) with 512%nat.
    by rewrite (kv_bind _ _ _ _ _ Hrun).
  - exists [], ∅, ∅. constructor; [|done|by rewrite E5|by rewrite E6|by rewrite E7|by rewrite E8|by rewrite E9]. cbn [a_map].
    assert (Hno : ∀ k n, ¬ node_of s' ∅ k n) by (intros k n (q & Hq & _); by rewrite lookup_empty in Hq).
    constructor; try done.
    + rewrite E1. exact S2.
    + by apply (heads_hashtab kv_empty).
    + by apply (heads_hashtab lru_empty).
    + intros k. rewrite !lookup_empty. done.
    + intros k n Hn. by apply Hno in Hn.
    + intros k k' n n' Hn. by apply Hno in Hn.
    + intros k n a Hn. by apply Hno in Hn.
    + unfold tail_of. cbn. by rewrite E3, E4.
    + apply NoDup_singleton.
    + constructor.
    + intros k e He. by apply not_elem_of_nil in He.
    + intros k. rewrite lookup_empty. split; [by intros ?%not_elem_of_nil|by intros [? ?]].
    + rewrite E5. cbn. unfold LRU_CACHE_SIZE. lia.
Qed.
End Init.

(** * Leaving the cache: kv_reset *)

Section Reset.
Context {A : Type} {HA : Allocator A} {HL : AllocatorLaws A}.
#[local] Abbreviation st := (kvst A).

(** [n] times [p = p->next]. *)
Fixpoint walk (n : nat) (s : st) (p : Z) : option Z :=
  match n with
  | O => Some p
  | S n => q ← nextf s p; walk n s q
  end.

(** The addresses of [C] are not null, and their next pointers stay in [C]. *)
Definition closed (s : st) (C : list Z) : Prop := ∀ x, x ∈ C -> x ≠ 0 /\ ∃ y, y ∈ C /\ nextf s x = Some y.

Lemma closed_walk (s : st) C n : closed s C -> ∀ p, p ∈ C -> ∃ x, walk n s p = Some x /\ x ≠ 0.
Proof.
  intros HC. induction n as [|n IH]; intros p Hp; [exists p; split; [done|by apply HC]|].
  destruct (HC p Hp) as (_ & y & Hy & Hn). destruct (IH y Hy) as (x & Hx & Hx0). exists x.
  cbn [walk]. by rewrite Hn.
Qed.

Lemma closed_reset C fuel : ∀ s : st, closed s C -> s.(headLRU) ∈ C -> reset_lru fuel s = None.
Proof.
  induction fuel as [|fuel IH]; intros s HC Hh; [done|]. cbn [reset_lru].
  rewrite (kv_bind (get headLRU) _ s (headLRU s) s eq_refl). cbv beta.
  destruct (HC _ Hh) as (H0 & y & Hy & Hn). rewrite (proj2 (Z.eqb_neq _ 0)) by done.
  rewrite (kv_bind _ _ _ _ _ (next_of_run s _ y Hn)). cbv beta. rewrite set_bind. by apply IH.
Qed.

Lemma closed_kv_reset (s : st) C fuel : closed s C -> s.(headLRU) ∈ C -> kv_reset fuel s = None.
Proof.
  intros HC Hh. unfold kv_reset. rewrite set_bind. cbv beta. unfold mbind at 1, KV_bind at 1.
  by rewrite (closed_reset C).
Qed.

(** The first step needs the next pointer of the head. *)
Lemma kv_reset_undefined (s : st) fuel : s.(headLRU) ≠ 0 -> nextf s s.(headLRU) = None -> kv_reset fuel s = None.
Proof.
  intros H0 Hn. unfold kv_reset. rewrite set_bind. cbv beta. unfold mbind at 1, KV_bind at 1. destruct fuel as [|fuel]; [done|].
  cbn [reset_lru]. set (s1 := with_counters 0 0 0 0 0 s).
  rewrite (kv_bind (get headLRU) _ s1 (headLRU s) s1 eq_refl). cbv beta. rewrite (proj2 (Z.eqb_neq _ 0)) by done.
  unfold mbind at 1, KV_bind at 1, next_of, need. unfold nextf in Hn. change (entries s1) with (entries s). by rewrite Hn.
Qed.

(** Every entry but the last has a next one. *)
Lemma lru_succ nextf prevf L : ∀ p x, lru nextf prevf p L -> x ∈ p :: L.*2 -> x ≠ tail_of p L ->
  ∃ y, y ∈ L.*2 /\ nextf x = Some y.
Proof.
  induction L as [|[k e] L IH]; intros p x Hl Hx Ht.
  - apply list_elem_of_singleton in Hx as ->. done.
  - destruct Hl as (Hp & _ & Hl). apply elem_of_cons in Hx as [->|Hx]; [exists e; split; [by left|done]|].
    rewrite tail_of_cons in Ht. destruct (IH e x Hl Hx Ht) as (y & Hy & Hn). exists y. split; [by right|done].
Qed.

(** A hit on an entry that is not the last one closes the list to a cycle. *)
Lemma hit_cycle (s : st) a kp k : models s a -> key_at s.(bytes) kp k -> k ∈ a.(a_recent) -> last a.(a_recent) ≠ Some k ->
  ∃ p s' C, kv_get kp s = Some (p, s') /\ closed s' C /\ s'.(headLRU) ∈ C.
Proof.
  intros (L & kt & lt & [HR Er _ _ _ _ _]) Hk Hin Hlast. rewrite Er in Hin, Hlast.
  destruct (cache_cases L k) as [(L1 & e & L2 & ->)|]; [|done].
  destruct L2 as [|[k2 e2] L2]; [by rewrite fmap_app, last_app in Hlast|].
  destruct (getLRUCache_hit _ _ _ _ _ _ _ _ _ kp HR Hk) as (s' & Hrun & HR' & _ & _ & _ & Hnx).
  set (L' := L1 ++ ((k2, e2) :: L2) ++ [(k, e)]) in *.
  pose proof (r_list _ _ _ _ _ _ HR) as Hl. apply lru_app in Hl as [_ (_ & _ & He2 & _)]. rewrite He2 in Hnx.
  assert (HeL : (k, e) ∈ L') by (unfold L'; rewrite !elem_of_app; right; right; by left).
  destruct (r_ents _ _ _ _ _ _ HR' k e HeL) as (x & n & Hx & _ & _ & _ & [v Hv] & _).
  destruct (rep_node HR' e) as [He0 _]; [right; right; eauto|].
  exists v, s', (s'.(headLRU) :: L'.*2). split; [|split; [|by left]].
  - unfold kv_get. rewrite (kv_bind _ _ _ _ _ Hrun). cbv beta. rewrite (proj2 (Z.eqb_neq e 0)) by lia. cbn [negb].
    apply need_run. by rewrite Hx.
  - intros y Hy. split.
    { destruct (rep_node HR' y); [right; right; by apply (rep_entries HR')|lia]. }
    destruct (decide (y = tail_of s'.(headLRU) L')) as [->|Hne].
    + exists e2. split.
      * right. unfold L'. rewrite !fmap_app. apply elem_of_app. right. by left.
      * unfold L'. by rewrite !tail_of_app.
    + destruct (lru_succ _ _ _ _ _ (r_list _ _ _ _ _ _ HR') Hy Hne) as (z & Hz & Hn). exists z. split; [by right|done].
Qed.
End Reset.

(** * A bump allocator *)

Record bump := Bump { b_next : Z; b_blocks : gmap Z Z }.

Definition bump_lo : Z := 4096.
Definition bump_hi : Z := 65536.

Definition bump_alloc (err n : Z) (a : bump) : Z * bump :=
  if a.(b_next) + n <=? bump_hi then (a.(b_next), Bump (a.(b_next) + n) (<[a.(b_next) := n]> a.(b_blocks))) else (err, a).

#[export] Instance bump_allocator : Allocator bump := {
  al_getmem := bump_alloc GETMEM_ERR;
  al_xmalloc := bump_alloc 0;
  al_xfree p a := Bump a.(b_next) (delete p a.(b_blocks));
  al_xmalloc_init a := a }.

Record bump_ok (a : bump) : Prop := {
  bo_next : bump_lo <= a.(b_next) <= bump_hi;
  bo_block q k : a.(b_blocks) !! q = Some k -> 0 < k /\ bump_lo <= q /\ q + k <= a.(b_next);
  bo_disjoint q k q' k' : a.(b_blocks) !! q = Some k -> a.(b_blocks) !! q' = Some k' -> q ≠ q' -> q + k <= q' \/ q' + k' <= q }.

Lemma bump_law err a n : bump_ok a -> 0 < n -> bump_ok (bump_alloc err n a).2 /\
  (((bump_alloc err n a).1 = err /\ b_blocks (bump_alloc err n a).2 = b_blocks a) \/
   (fresh bump_lo bump_hi (b_blocks a) (bump_alloc err n a).1 n /\
    b_blocks (bump_alloc err n a).2 = <[(bump_alloc err n a).1 := n]> (b_blocks a))).
Proof.
  intros [H1 H2 H3] Hn. unfold bump_alloc. destruct (Z.leb_spec (b_next a + n) bump_hi); cbn [fst snd b_blocks];
    [|split; [done|by left]].
  split; [|right; split; [|done]].
  - constructor; cbn [b_next b_blocks]; [lia| |].
    + intros q k [[<- <-]|[_ Hq]]%lookup_insert_Some; [lia|]. destruct (H2 q k Hq). lia.
    + intros q k q' k' [[<- <-]|[_ Hq]]%lookup_insert_Some [[<- <-]|[_ Hq']]%lookup_insert_Some Hne; try done.
      * right. destruct (H2 q' k' Hq'). lia.
      * left. destruct (H2 q k Hq). lia.
      * by apply (H3 q k q' k').
  - split; [lia|]. split; [done|]. intros q k Hq. left. destruct (H2 q k Hq). lia.
Qed.

#[export] Program Instance bump_laws : AllocatorLaws bump := {
  al_lo := bump_lo; al_hi := bump_hi; owned := b_blocks; al_ok := bump_ok }.
Next Obligation. done. Qed.
Next Obligation. intros a q k [H1 H2 H3] Hq. destruct (H2 q k Hq). lia. Qed.
Next Obligation. intros a q k q' k' [H1 H2 H3]. apply H3. Qed.
Next Obligation. intros a n. apply bump_law. Qed.
Next Obligation. intros a n. apply bump_law. Qed.
Next Obligation.
  intros a p [H1 H2 H3]. split; [|done]. constructor; cbn; [done| |].
  - intros q k [_ Hq]%lookup_delete_Some. by apply H2.
  - intros q k q' k' [_ Hq]%lookup_delete_Some [_ Hq']%lookup_delete_Some. by apply H3.
Qed.
Next Obligation. intros a Ha. by split. Qed.

Lemma bump_plenty bnd n : 0 < bnd -> ∀ a : bump, a.(b_next) + Z.of_nat n * bnd <= bump_hi -> 0 < a.(b_next) -> plenty bnd n a.
Proof.
  intros Hbnd. induction n as [|n IH]; intros a Ha H0; [done|].
  assert (Hal : ∀ err k, 0 < k <= bnd -> bump_alloc err k a = (b_next a, Bump (b_next a + k) (<[b_next a := k]> (b_blocks a)))).
  { intros err k Hk. unfold bump_alloc. rewrite (proj2 (Z.leb_le _ _)); [done|nia]. }
  assert (Hbig : b_next a < GETMEM_ERR) by (unfold GETMEM_ERR, bump_hi in *; nia).
  split; [|split].
  - intros k Hk. cbn [al_getmem bump_allocator]. rewrite Hal by done. cbn [fst snd]. split; [lia|]. apply IH; cbn [b_next]; [nia|lia].
  - intros k Hk. cbn [al_xmalloc bump_allocator]. rewrite Hal by done. cbn [fst snd]. split; [lia|]. apply IH; cbn [b_next]; [nia|lia].
  - intros p. cbn [al_xfree bump_allocator]. apply IH; cbn [b_next]; [nia|done].
Qed.
