(* ===== verification/Kvthm.v ===== *)
(** The correctness of the key-value store: refinement of the specification by
    kv_init, kv_get, kv_set and kv_delete, and what kv_reset does to a cache whose
    list a hit has closed to a cycle. *)

From S2P Require Import Prelude Types Cstring Bytes Kv Kvtab Kvlru Kvops Kvspec.

(** * A state to start from *)

(** The strings of the caller: the keys "a" and "c", the values "b" and "d". *)
Definition demo_bytes : bmem :=
  <[100 := 97]> (<[101 := 0]> (<[110 := 98]> (<[111 := 0]> (<[120 := 99]> (<[121 := 0]>
  (<[130 := 100]> (<[131 := 0]> (ram (Z.to_nat (bump_hi - bump_lo)) bump_lo ∅)))))))).

Definition demo_state : kvst bump :=
  Kvst _ demo_bytes ∅ ∅ ∅ ∅ ∅ 0 0 0 0 0 0 0 (Bump bump_lo ∅).

Lemma demo_startable : startable demo_state.
Proof.
  constructor.
  - constructor; cbn; [by unfold bump_lo, bump_hi| |].
    + intros q k Hq. by rewrite lookup_empty in Hq.
    + intros q k q' k' Hq. by rewrite lookup_empty in Hq.
  - intros x Hx. cbn [al_lo al_hi bump_laws] in Hx. unfold demo_state, demo_bytes. cbn [bytes].
    unfold bump_lo, bump_hi in Hx. rewrite !lookup_insert_ne by lia.
    apply ram_mapped. unfold bump_lo, bump_hi. lia.
  - intros a [H|[H|H]]; cbn in H; rewrite lookup_empty in H; by destruct H.
  - intros j H. cbn in H. rewrite lookup_empty in H. by destruct H.
  - intros j H. cbn in H. rewrite lookup_empty in H. by destruct H.
Qed.

(** A byte and its end at [p]. *)
Lemma str1 (m : bmem) p c : c ≠ 0 -> m !! p = Some c -> m !! (p + 1) = Some 0 -> str_at m p [c].
Proof. intros Hc H1 H2. rewrite str_at_cons, str_at_nil. done. Qed.

Lemma demo_strings : str_at demo_bytes 100 [97] /\ str_at demo_bytes 110 [98] /\ str_at demo_bytes 120 [99] /\
  str_at demo_bytes 130 [100].
Proof. unfold demo_bytes. split_and!; apply str1; try done; by simplify_map_eq. Qed.

Lemma key1 (m : bmem) p c : str_at m p [c] -> p ≠ 0 -> 0 < c < 256 -> key_at m p [c].
Proof.
  intros Hs Hp Hc. split; [done|]. split; [done|]. split; [done|]. split; [by apply Forall_singleton|done].
Qed.

Lemma demo_plenty : plenty 16 (1025 + 15) (al_xmalloc_init demo_state.(heap)).
Proof. apply bump_plenty; cbn; unfold bump_lo, bump_hi; lia. Qed.

(** The strings of the caller survive what the store does. *)
Definition keeps (s : kvst bump) : Prop :=
  str_at s.(bytes) 100 [97] /\ str_at s.(bytes) 110 [98] /\ str_at s.(bytes) 120 [99] /\ str_at s.(bytes) 130 [100].

Lemma keeps_frame (s s' : kvst bump) : keeps s -> (∀ x, x < bump_lo \/ bump_hi <= x -> s'.(bytes) !! x = s.(bytes) !! x) -> keeps s'.
Proof.
  intros (H1 & H2 & H3 & H4) Hf. unfold keeps.
  split_and!; (eapply str_at_frame; [eassumption|]; intros x Hx; apply Hf; unfold bump_lo; cbn in Hx; lia).
Qed.

Definition astore_empty : astore := Astore ∅ [] 0 0 0 0 0.
Definition astore_one : astore := spec_set [97] [98] astore_empty.
Definition astore_two : astore := spec_set [99] [100] astore_one.

Lemma demo_init : ∃ s, kv_init demo_state = Some (0, s) /\ models s astore_empty /\ keeps s /\ plenty 16 15 s.(heap).
Proof.
  destruct (kv_init_run demo_state 16 15 demo_startable ltac:(lia) demo_plenty) as (s & Hrun & Hm & Hb & _ & Hpl).
  exists s. split; [done|]. split; [done|]. split; [|done]. unfold keeps. rewrite Hb. apply demo_strings.
Qed.

(** The side conditions of a kv_set of these strings. *)
Lemma demo_external p (c : Z) : 0 <= p < 1000 -> external (A:=bump) p (Z.of_nat (length [c]) + 1).
Proof. intros Hp. left. cbn [al_lo bump_laws length]. unfold bump_lo. lia. Qed.

Lemma demo_size (c : Z) : Z.of_nat (length [c]) + 1 <= 16.
Proof. cbn [length]. lia. Qed.

Lemma demo_len (c : Z) : Z.of_nat (length [c]) < 2147483647.
Proof. cbn [length]. lia. Qed.

Lemma demo_set (s : kvst bump) a kp vp c d n : models s a -> keeps s -> key_at s.(bytes) kp [c] -> str_at s.(bytes) vp [d] ->
  0 <= kp < 1000 -> 0 <= vp < 1000 -> plenty 16 (5 + n) s.(heap) -> has_room a ->
  ∃ s', models s' (spec_set [c] [d] a) /\ keeps s' /\ plenty 16 n s'.(heap).
Proof.
  intros Hm Hk H1 H2 H3 H4 Hpl Hroom.
  destruct (kv_set_run s a kp vp [c] [d] 16 n Hm H1 H2 (demo_external _ _ H3) (demo_external _ _ H4) (demo_len _)
    (demo_size _) (demo_size _) (Z.le_refl 16) Hpl Hroom) as (s' & _ & Hm' & Hb & Hpl').
  exists s'. split; [done|]. split; [by apply (keeps_frame s)|done].
Qed.

Lemma demo_one : ∃ s, models s astore_one /\ keeps s /\ plenty 16 10 s.(heap).
Proof.
  destruct demo_init as (s & _ & Hm & Hk & Hpl). pose proof Hk as (H1 & H2 & _).
  apply (demo_set s astore_empty 100 110 97 98 10 Hm Hk (key1 _ _ _ H1 ltac:(done) ltac:(done)) H2); try lia; [exact Hpl|by left].
Qed.

Lemma demo_two : ∃ s, models s astore_two /\ keeps s /\ plenty 16 5 s.(heap).
Proof.
  destruct demo_one as (s & Hm & Hk & Hpl). pose proof Hk as (_ & _ & H3 & H4).
  apply (demo_set s astore_one 120 130 99 100 5 Hm Hk (key1 _ _ _ H3 ltac:(done) ltac:(done)) H4); try lia; [exact Hpl|by left].
Qed.

(** * The theorems *)

Section Theorems.
Context {A : Type} {HA : Allocator A} {HL : AllocatorLaws A}.

(** When memory is not short, kv_init succeeds and makes the empty store: no
    key, an empty cache, and counters of zero. *)
Theorem kv_init_refines (s : kvst A) bnd j : startable s -> 16 <= bnd -> plenty bnd (1025 + j) (al_xmalloc_init s.(heap)) ->
  ∃ s', kv_init s = Some (0, s') /\ models s' (Astore ∅ [] 0 0 0 0 0) /\ s'.(bytes) = s.(bytes) /\ plenty bnd j s'.(heap).
Proof. intros Hs Hb Hp. destruct (kv_init_run s bnd j Hs Hb Hp) as (s' & H1 & H2 & H3 & _ & H4). eauto. Qed.

(** C5: kv_get returns the address of the value of the key, or the null pointer
    when the key is not in the store; a key that is in the cache becomes its most
    recently used one and counts as a hit.  Strings are not changed. *)
Theorem kv_get_refines (s : kvst A) a kp k : models s a -> key_at s.(bytes) kp k ->
  ∃ p s', kv_get kp s = Some (p, s') /\ models s' (spec_get k a).2 /\ s'.(bytes) = s.(bytes) /\
    match (spec_get k a).1 with Some v => p ≠ 0 /\ str_at s'.(bytes) p v | None => p = 0 end.
Proof. intros Hm Hk. destruct (kv_get_run s a kp k Hm Hk) as (p & s' & H1 & H2 & H3 & _ & H4). eauto 10. Qed.

(** C4: kv_set maps the key to the value, for a new key and for one that is there,
    and makes the key the most recently used one of the cache: its own entry, a new
    entry while there are fewer than 128, or the entry of the least recently used
    key.  It needs five requests for memory to succeed, and an entry in the cache
    when 128 were given out; it writes only inside of what the memory managers hand
    out. *)
Theorem kv_set_refines (s : kvst A) a kp vp k v bnd n : models s a -> key_at s.(bytes) kp k -> str_at s.(bytes) vp v ->
  external kp (Z.of_nat (length k) + 1) -> external vp (Z.of_nat (length v) + 1) -> Z.of_nat (length v) < 2147483647 ->
  Z.of_nat (length k) + 1 <= bnd -> Z.of_nat (length v) + 1 <= bnd -> 16 <= bnd ->
  plenty bnd (5 + n) s.(heap) -> has_room a ->
  ∃ s', kv_set kp vp s = Some (0, s') /\ models s' (spec_set k v a) /\
    (∀ x, x < al_lo \/ al_hi <= x -> s'.(bytes) !! x = s.(bytes) !! x) /\ plenty bnd n s'.(heap).
Proof. apply kv_set_run. Qed.

(** C11: kv_delete takes the key out of the store and of the cache, and returns 0
    when it was there and 1 when it was not; the count of entries given out does not
    go down. *)
Theorem kv_delete_refines (s : kvst A) a kp k : models s a -> key_at s.(bytes) kp k ->
  ∃ s', kv_delete kp s = Some ((spec_delete k a).1, s') /\ models s' (spec_delete k a).2 /\ s'.(bytes) = s.(bytes).
Proof. intros Hm Hk. destruct (kv_delete_run s a kp k Hm Hk) as (s' & H1 & H2 & H3 & _). eauto. Qed.

(** C29: after kv_get of a key that is in the cache and not the most recently used
    one, the list of the cache is a cycle: however many steps the first loop of
    kv_reset takes it is at an entry, so that kv_reset does not return, whatever the
    fuel. *)
Theorem kv_reset_diverges (s : kvst A) a kp k : models s a -> key_at s.(bytes) kp k ->
  k ∈ a.(a_recent) -> last a.(a_recent) ≠ Some k ->
  ∃ p s', kv_get kp s = Some (p, s') /\ (∀ n, ∃ x, walk n s' s'.(headLRU) = Some x /\ x ≠ 0) /\
    ∀ fuel, kv_reset fuel s' = None.
Proof.
  intros Hm Hk Hin Hl. destruct (hit_cycle s a kp k Hm Hk Hin Hl) as (p & s' & C & Hrun & HC & Hh). exists p, s'.
  split; [done|]. split; [intros n; by apply (closed_walk s' C)|intros fuel; by apply (closed_kv_reset s' C)].
Qed.

(** Kv_reset of a store that kv_init has just made reads the next pointer of
    the head of the cache, which was never written. *)
Theorem kv_reset_uninitialised (s : kvst A) bnd fuel : startable s -> 16 <= bnd -> plenty bnd 1025 (al_xmalloc_init s.(heap)) ->
  ∃ s', kv_init s = Some (0, s') /\ s'.(headLRU) ≠ 0 /\ nextf s' s'.(headLRU) = None /\ kv_reset fuel s' = None.
Proof.
  intros Hs Hb Hp. destruct (kv_init_run s bnd 0 Hs Hb Hp) as (s' & H1 & (L & kt & lt & [HR _ _ _ _ _ _]) & _ & He & _).
  destruct (rep_node HR s'.(headLRU)) as [H0 _]; [right; right; eauto|].
  exists s'. split; [done|]. split; [lia|]. assert (Hn : nextf s' s'.(headLRU) = None) by (unfold nextf; by rewrite He).
  split; [done|]. by apply kv_reset_undefined; [lia|].
Qed.
End Theorems.

Lemma kv_init_refines_witness : ∃ s, kv_init demo_state = Some (0, s) /\ models s astore_empty.
Proof.
  destruct (kv_init_refines demo_state 16 15 demo_startable ltac:(lia) demo_plenty) as (s & H1 & H2 & _).
  exact (ex_intro _ s (conj H1 H2)).
Defined.

Lemma kv_get_refines_witness : ∃ s p s', models s astore_two /\ kv_get 100 s = Some (p, s') /\ p ≠ 0 /\ str_at s'.(bytes) p [98].
Proof.
  destruct demo_two as (s & Hm & Hk & _).
  destruct (kv_get_refines s _ 100 [97] Hm (key1 _ _ _ (proj1 Hk) ltac:(done) ltac:(done))) as (p & s' & H1 & _ & _ & H4).
  exact (ex_intro _ s (ex_intro _ p (ex_intro _ s' (conj Hm (conj H1 H4))))).
Defined.

Lemma kv_set_refines_witness : ∃ s s', kv_set 100 110 s = Some (0, s') /\ models s' astore_one.
Proof.
  destruct demo_init as (s & _ & Hm & (H1 & H2 & _) & Hpl). exists s.
  destruct (kv_set_refines s _ 100 110 [97] [98] 16 10 Hm (key1 _ _ _ H1 ltac:(done) ltac:(done)) H2
    (demo_external 100 97 ltac:(lia)) (demo_external 110 98 ltac:(lia)) (demo_len _) (demo_size _) (demo_size _) (Z.le_refl 16) Hpl
    (or_introl eq_refl)) as (s' & Hrun & Hm' & _).
  exact (ex_intro _ s' (conj Hrun Hm')).
Defined.

Lemma kv_delete_refines_witness : ∃ s s', kv_delete 100 s = Some (0, s') /\ models s' (spec_delete [97] astore_one).2.
Proof.
  destruct demo_one as (s & Hm & Hk & _). exists s.
  destruct (kv_delete_refines s _ 100 [97] Hm (key1 _ _ _ (proj1 Hk) ltac:(done) ltac:(done))) as (s' & H1 & H2 & _).
  exact (ex_intro _ s' (conj H1 H2)).
Defined.

Lemma kv_reset_diverges_witness : ∃ s p s', kv_get 100 s = Some (p, s') /\ kv_reset 2000 s' = None.
Proof.
  destruct demo_two as (s & Hm & Hk & _). exists s.
  destruct (kv_reset_diverges s _ 100 [97] Hm (key1 _ _ _ (proj1 Hk) ltac:(done) ltac:(done)))
    as (p & s' & H1 & _ & H3); [by left|by vm_compute|].
  exact (ex_intro _ p (ex_intro _ s' (conj H1 (H3 _)))).
Defined.

Lemma kv_reset_uninitialised_witness : ∃ s, kv_init demo_state = Some (0, s) /\ nextf s s.(headLRU) = None.
Proof.
  destruct (kv_reset_uninitialised demo_state 16 1 demo_startable ltac:(lia)) as (s & H1 & _ & H3 & _).
  - apply bump_plenty; cbn; unfold bump_lo, bump_hi; lia.
  - exact (ex_intro _ s (conj H1 H3)).
Defined.
